(* ===== verification/_CoqProject ===== *)
-Q . S2P
Prelude.v
IO.v
Table.v
GoStrings.v
GoTime.v
GoDuration.v
Risk.v
GoJson.v
Signing.v
Domain.v
GoEncoding.v
GoPath.v
GoQuote.v
GoFloat.v
Schema.v
SchemaProofs.v
Registry.v
RegistryProofs.v
Intent.v
IntentProofs.v
Artifacts.v
BundleSource.v
Authn.v
JWT.v
Authz.v
Management.v
ManagementMemory.v
BuildManifest.v
ArtifactStore.v
AdapterManifests.v
Compiler.v
CompilerEmit.v
Bindings.v
CIValidation.v
Jobs.v
Redis.v
JobsProofs.v
ForgeTypes.v
ForgeAPI.v
ManagementMemoryProofs.v
ForgeProofs.v
ForgeHistory.v
ForgeAccess.v
ForgePlan.v
ForgeKLIQ.v
StateTypes.v
SqliteLeases.v
SqliteAudit.v
SqliteAssignments.v
Baseline.v
SqliteBaseline.v
BaselineEngine.v
LocalRisk.v
BaselineProofs.v
Store.v
Plan.v
ManagerArtifacts.v
ManagerPlan.v
CompilerProofs.v
CompilerBuild.v
ManagerLoad.v
ManagerExec.v
ManagerExecProofs.v
ManagerReconcile.v
ManagerReconcileProofs.v
ManagerHistory.v
KLIQStatus.v
KLIQInput.v
LocalFiles.v
Daemon.v
DaemonCycle.v
DaemonLoop.v
DaemonProofs.v
DaemonUploads.v
ScenarioPolicy.v
ScenarioCompiler.v
ScenarioCI.v
ScenarioForge.v
ScenarioKLIQ.v
ScenarioDaemon.v
