(* ===== verification/Prelude.v ===== *)
(** * Kernloom: verification of the KLIQ runtime and of Forge

    Kernloom has two halves.  Forge reads policies and registries, compiles and validates
    them, signs bundles and assignments, and manages the KLIQs that run them.  A KLIQ is the
    local runtime: it polls Forge, verifies what it is sent, learns baselines, turns signals
    into risk, executes runtime actions through adapters under leases that expire, and keeps
    an audit spool.  This library models the code of both in Go as executable Rocq
    definitions, file by file, and proves what a team relies on.

    ** How the code is modelled

    A function that may fail returns [result A]; the error is the sentinel or
    the [fmt.Errorf] format with its arguments ([Prelude]).  A method that
    changes a state is an [io S A] := [S → result A * S] ([IO]): the changes
    made before an error are kept, as in Go, and a SQL transaction is
    [transaction].  A SQL table is the list of its rows ([Table]); the unique
    constraints of the schema are checked where SQLite checks them.  Times are
    nanoseconds since year 1 ([GoTime], with RFC3339 formatting and parsing
    written out), durations are int64 nanoseconds ([GoDuration]), floats are
    IEEE 754 binary64 ([GoFloat]), strings are byte strings ([GoStrings], with
    [strings.TrimSpace] and SHA-256 computing), JSON that the program writes is encoded
    as [encoding/json] does ([GoJson]).  [GoEncoding], [GoPath] and [GoQuote] have the rest of
    the standard library that the code uses.  A Go map is a [gmap], a loop over one visits it
    in an order the runtime chooses.  [sort.Slice] on keys that compare equal is modelled as
    stable.  A panic that a caller can see is an error of its own.

    ** Files and the code they model: shared records

    - [Risk]: internal/core/risk; [Signing]: internal/core/signing;
      [Domain]: internal/core/domain; [Artifacts]: internal/core/artifact,
      bundle, context, conformance.
    - [LocalFiles]: internal/storage/artifactstore/fs.go and internal/core/signing,
      local_file.go and remote.go.

    ** The KLIQ

    - [BundleSource]: internal/kliq/bundle: [VerifySignedRuntimeBundle] and the
      managed source, which fetches an assignment from Forge and verifies it.
    - [StateTypes], [SqliteLeases], [SqliteAudit], [SqliteAssignments],
      [Baseline], [SqliteBaseline]: internal/kliq/actionstate (types.go and
      sqlite.go, one file per group of tables) and the records of
      internal/kliq/baseline.  A record that is stored is polymorphic in the
      type of its times: [time] in the program, text in its row.
    - [BaselineEngine], [BaselineProofs]: internal/kliq/baseline; [LocalRisk]:
      internal/kliq/localrisk and internal/kliq/signals/projector.
    - [Store]: the whole database, and the state [KLIQ W] of a running KLIQ:
      database, world (clock, adapters, disk), and, as a ghost, the calls made to
      adapters with the database at the time of each call.
    - [Plan]: internal/kliq/runtime/plan.go and adapter_executor.go.
    - [ManagerArtifacts], [ManagerPlan], [ManagerExec], [ManagerReconcile]:
      internal/kliq/runtime/manager.go, in the order of the file; their theorems
      are in [ManagerLoad], [ManagerExecProofs], [ManagerReconcileProofs] and
      [ManagerHistory].
    - [KLIQInput], [KLIQStatus]: what cmd/kliq reads (trust.go, transport.go, the inputs of
      run.go) and shows (status_views.go, status_api.go).
    - [Daemon], [DaemonCycle], [DaemonLoop]: cmd/kliq/run.go, the state of the daemon and its
      messages, one cycle, and the start with the loop; their theorems are in [DaemonProofs]
      and [DaemonUploads].  The loop's [select] is a list of events, each with the instant it
      is served at.

    ** Forge

    - [Schema], [SchemaProofs], [Registry], [RegistryProofs]: internal/core/registry.
    - [Intent], [IntentProofs]: internal/core/intent.
    - [BuildManifest], [AdapterManifests], [Compiler], [CompilerEmit], [CompilerProofs],
      [CompilerBuild]: internal/forge/compiler, with the check of a build in
      internal/forge/api.
    - [Bindings]: internal/forge/bindings; [CIValidation]: internal/forge/adapterverify and
      internal/forge/validation.
    - [ArtifactStore]: internal/storage/artifactstore, the interface and the store in memory.
    - [Jobs], [JobsProofs]: internal/forge/jobs; [Redis]: internal/storage/redis and the store
      of jobs on it.
    - [Authn], [JWT], [Authz]: internal/api/authn (service tokens, tokens signed by a
      KLIQ, mutual TLS, chains; tokens of an identity provider, their keys, bindings of claims)
      and internal/api/authz.
    - [Management], [ManagementMemory], [ManagementMemoryProofs]:
      internal/forge/management/store.go, its records, rules and interface, and
      [MemoryStore], each method one step.
    - [ForgeTypes], [ForgeAPI]: requests, responses and every handler of
      internal/forge/api.  The handlers are written against the interfaces
      [ManagementStore], [ArtifactStore], [JobStore] and [Signer]; their theorems are for the
      memory store, in [ForgeProofs], [ForgeHistory], [ForgeAccess], [ForgePlan], [ForgeKLIQ].

    [ScenarioPolicy], [ScenarioCompiler], [ScenarioCI], [ScenarioForge], [ScenarioKLIQ] and
    [ScenarioDaemon] are concrete deployments on which the theorems with a hypothesis are
    applied; [JWT], [Redis] and [LocalFiles] end in theirs.

    ** Parameters

    Code that is not under src/ is a parameter, a class or an argument:
    Ed25519 ([Ed25519], with correctness of signing as its only law) and RSA ([RSA]);
    decoding of JSON and YAML into records ([JSONDecoders], [StateCodecs],
    [ManagementDecoders], [TokenCodecs], [JWTDecoders], [JobCodecs], [ForgeCodecs],
    [SignerCodecs], [CIDecoder], [TrustDecoders], [DecisionDecoders], [SignalDecoder],
    [DocumentDecoders], [RegistryDecoders], [ManifestDecoder], [BindingDecoders],
    [SnapshotDecoder], [JSONSyntax]) and the encoding of the compiler's artifacts
    ([CompilerEncoders]); PEM, base64 keys and X.509 ([KeyDecoders], [IdentityMaterial]);
    URLs ([URLParser]); case tables beyond ASCII ([UnicodeFold], [UnicodeLower],
    [UnicodeUpper]) and the text of a float ([FloatText]); CEL ([CEL]); files that are read
    ([Files], [TempDir]), the environment and git ([Environment]), the disk ([FileSystem]
    with the laws [lawful] of package os); the HTTP exchange, the clock, the random source
    and the adapters ([KLIQWorld], [ForgeWorld], [CompilerWorld], [JWKSWorld], [SignerNet],
    [AdapterDial], [AdapterRuntime], [RuntimeExecutor], [RuntimeActionClient]); a Redis server
    ([RedisServer], with what [answers] documents of four commands); failures of
    database/sql before a statement has an effect ([store_fault], never mistaken for "not
    found"); and what the Go runtime leaves open: the order of [range] over a map and
    the text of errors ([GoRuntime]).  A request to Forge is one step: net/http may run two at
    once, but the store's mutex makes each of its methods atomic, and no theorem of
    [ForgePlan] or [ForgeKLIQ] is about two requests at once; [JobsProofs] is about submitters
    and workers that interleave between any two methods of the job store.

    ** What the theorems show

    - The daemon: over any run, its KLIQ keeps the invariants below, whatever Forge and the
      adapters answer; one started with --production executes nothing; an audit record is
      marked only when Forge acknowledged it; the queue of decisions is worked off; polls that
      succeed starve the slower timers ([DaemonProofs], [DaemonUploads], [DaemonLoop]).
    - [ManagerHistory.kliq_history]: over any history of operations, failures
      included, one open lease per target, executions only as a verified bundle
      allows, each with its audit record in the spool, and nothing lost.
    - Loading: an assignment is accepted only when signed, addressed to this
      KLIQ, current, and with every artifact verified ([BundleSource]); it is
      activated as a whole or not at all, and versions only go back by an
      approved rollback ([ManagerLoad], [SqliteAssignments]).
    - Execution: fail closed, at most one call, deduplication without extension,
      and an outcome that the adapter confirmed ([ManagerExecProofs]).
    - Reconciliation: nothing is executed, a lease is closed only when its
      adapter says so, every open lease is accounted for
      ([ManagerReconcileProofs]).
    - Tables: uniqueness of open leases, write-once and tamper-evident audit
      spool, promotion of baselines, freshness of cached risk contexts
      ([SqliteLeases], [SqliteAudit], [SqliteBaseline]); the estimates of the baseline engine
      and the risk that comes of a deviation ([BaselineProofs]).
    - Forge over any history of requests: what is stored stays well formed,
      audit events are only appended, versions and statuses only advance, a
      secret enrolls at most as often as it was issued
      ([ForgeHistory.forge_history]); a request without the role, scope or secret
      changes nothing ([ForgeAccess]); what is planned and approved ([ForgePlan]);
      and, from Forge to the KLIQ, which planned assignments the KLIQ accepts
      ([ForgeKLIQ]).
    - Policies: the schema validator decides its specification ([SchemaProofs]), a registry
      that loads is well formed ([RegistryProofs]), a card that is written is read back
      ([IntentProofs]), a compiled grant is one the KLIQ accepts and a compiled build is ready
      for approval ([CompilerProofs], [CompilerBuild]).
    - CI: a request is resolved to the one target, bindings and sources that are meant
      ([Bindings]); validation passes exactly when every check does ([CIValidation]), and is
      run for an authorized caller only ([ForgeAPI.validateCI_authorized]).
    - Identities: [Authn], [JWT] (what a token that verifies was; how often the keys of a
      provider are asked for).
    - Jobs: run at most once and never lost but with their holder, and the queue drains
      ([JobsProofs]); on Redis as in memory, over commands that are read back as they were
      meant ([Redis]).
    - Files: an artifact on disk overwrites nothing and stays below its root; a key file is
      stable; a signer behind HTTP is the signer ([LocalFiles]).

    Where the code does not do what it means to, a theorem says what it does, for example
    [SqliteAudit.audit_chain_forks], [SqliteAssignments.activation_one_artifact_per_type],
    [ScenarioKLIQ.reexecution_keeps_old_expiry], [BaselineProofs.estimate_of_odd_samples],
    [DaemonLoop.polls_starve], [LocalFiles.capital_scheme_unpinned],
    [LocalFiles.half_written_refused], [Redis.Redis_Update_creates], and the second halves of
    [ForgeKLIQ.planned_assignment_verifies] and [ForgeAPI.validateCI_authorized].

    ** Termination

    Nearly every definition is a structural recursion over data or a fold, so every run
    returns.  There is fuel in the text scanners of [GoDuration], [GoJson], [GoQuote],
    [Intent] and [Compiler], which take the length of the text; in the validation of a value
    against a schema ([Schema], by the nesting of both); in the loop over decisions of [DaemonCycle], one more than the requests
    left, proved enough ([DaemonUploads.processRuntimeDecisions_terminates]); and in the
    nesting of arrays of [Redis], one more than the bytes left, proved enough
    ([Redis.readValue_terminates]).  The loop of the daemon has no end: a run of it is a
    finite list of events.

    ** Not modelled

    SQL migrations beyond the schema they end in; contexts (cancellation);
    concurrent callers of one SQLite store, which [database/sql] serialises on its
    single connection; the store on PostgreSQL, which is SQL text for a server that is not
    in the repository; the CEL environment of internal/core/expression; the background
    goroutine of the key cache, whose refreshes are the modelled steps; the command lines of
    cmd/ and internal/ctl, and internal/forge/lab, production and bootstrap: flags, printing,
    exit codes, example files and wiring of the operations modelled here. *)

From stdpp Require Export base gmap strings list sorting pretty.
From stdpp Require Import options.
From Stdlib Require Import Lia.

#[global] Open Scope general_if_scope.

(** ** Go errors

    A Go [error] is a sentinel (a package variable made by [errors.New], told
    apart by [errors.Is]), a message built by [fmt.Errorf] from a format and
    its arguments (strings, integers, durations), or a message that wraps a cause with [%w].  The format is
    kept verbatim, so that two different return sites stay different. *)

Inductive fmt_arg : Type :=
  | AStr (s : string)
  | AInt (z : Z)
  | ADur (d : Z).
Coercion AStr : string >-> fmt_arg.

Inductive error : Type :=
  | Sentinel (msg : string)
  | Errorf (format : string) (args : list fmt_arg)
  | Wrapf (format : string) (args : list fmt_arg) (cause : error).

#[export] Instance fmt_arg_eq_dec : EqDecision fmt_arg.
Proof. solve_decision. Defined.
#[export] Instance error_eq_dec : EqDecision error.
Proof. solve_decision. Defined.

(** [errors.Is]: the error or one of those it wraps is the target. *)
Fixpoint error_is (e target : error) : bool :=
  bool_decide (e = target) ||
  match e with
  | Wrapf _ _ cause => error_is cause target
  | _ => false
  end.

Inductive result (A : Type) : Type :=
  | Ok (a : A)
  | Err (e : error).
Arguments Ok {A} a.
Arguments Err {A} e.

#[export] Instance result_ret : MRet result := λ A a, Ok a.
#[export] Instance result_bind : MBind result := λ A B f r,
  match r with Ok a => f a | Err e => Err e end.
#[export] Instance result_fmap : FMap result := λ A B f r,
  match r with Ok a => Ok (f a) | Err e => Err e end.

Definition is_Ok {A} (r : result A) : bool :=
  match r with Ok _ => true | Err _ => false end.

(** [if err != nil { return ..., fmt.Errorf("...: %w", err) }] *)
Definition wrap_err {A} (format : string) (args : list fmt_arg) (r : result A) : result A :=
  match r with Ok a => Ok a | Err e => Err (Wrapf format args e) end.

(** [if err != nil { return fmt.Errorf(...) }]: the cause is dropped. *)
Definition replace_err {A} (e : error) (r : result A) : result A :=
  match r with Ok a => Ok a | Err _ => Err e end.

Declare Scope go_scope.
Delimit Scope go_scope with go.
#[global] Open Scope go_scope.

(** Guard clauses: [if c { return e }] followed by the rest of the body. *)
Notation "'reject' c 'with' e ;; k" := (if c then Err e else k)
  (at level 10, c at level 99, e at level 99, k at level 200,
   format "'[v' 'reject'  c  'with'  e ;; '/' k ']'") : go_scope.

(** Go's [==] and [!=] on strings, and the two tests every validator uses. *)
Notation "a ==s b" := (String.eqb a b) (at level 70, no associativity) : go_scope.
Notation "a !=s b" := (negb (String.eqb a b)) (at level 70, no associativity) : go_scope.
Abbreviation empty_str s := (String.eqb s "").

(** A loop whose body may return an error: the first error ends it. *)
Fixpoint for_each {A} (f : A → result unit) (l : list A) : result unit :=
  match l with
  | [] => Ok tt
  | x :: l => match f x with Ok _ => for_each f l | Err e => Err e end
  end.

(** The same, threading an accumulator. *)
Fixpoint for_fold {A B} (f : B → A → result B) (b : B) (l : list A) : result B :=
  match l with
  | [] => Ok b
  | x :: l => match f b x with Ok b' => for_fold f b' l | Err e => Err e end
  end.

(** ** What the Go runtime leaves open

    [range] over a map visits its entries in an unspecified order, and the
    text of an error ([err.Error()], that is [fmt]'s rendering of the format
    and arguments) is stored in journals and findings.  Both are parameters:
    a theorem that mentions them holds whatever they are. *)
Class GoRuntime := {
  map_order {A : Type} : list (string * A) → list (string * A);
  map_order_perm {A : Type} (l : list (string * A)) : map_order l ≡ₚ l;
  error_text : error → string;
}.

(** A runtime that visits entries as written and prints the format. *)
Definition plain_runtime : GoRuntime := {|
  map_order A l := l;
  map_order_perm A l := Permutation_refl l;
  error_text e :=
    match e with Sentinel m => m | Errorf f _ => f | Wrapf f _ _ => f end;
|}.

(** ** Automation *)

(** [String.eqb] facts become (dis)equalities, everywhere. *)
Ltac str_eqs := repeat
  match goal with
  | H : String.eqb _ _ = true |- _ => apply String.eqb_eq in H
  | H : String.eqb _ _ = false |- _ => apply String.eqb_neq in H
  | H : negb _ = true |- _ => apply negb_true_iff in H
  | H : negb _ = false |- _ => apply negb_false_iff in H
  | H : _ && _ = true |- _ => apply andb_true_iff in H; destruct H
  | H : _ || _ = false |- _ => apply orb_false_iff in H; destruct H
  end.

(** A chain of guards that returned a value: every guard was false. *)
Ltac passes H := repeat
  match type of H with
  | (if ?c then Err _ else _) = Ok _ =>
      let E := fresh "Hg" in destruct c eqn:E; [discriminate H|]
  end.

(** Split a chain of guard clauses in a hypothesis or in the goal, keeping
    the branches that are not contradictory. *)
Ltac guards := repeat (case_match; simplify_eq/=); str_eqs; simplify_eq/=.

(** ** Lemmas on results and loops *)

Lemma bind_Ok {A B} (r : result A) (f : A → result B) b :
  r ≫= f = Ok b ↔ ∃ a, r = Ok a ∧ f a = Ok b.
Proof. destruct r; simpl; naive_solver. Qed.

Lemma bind_Err {A B} (r : result A) (f : A → result B) e :
  r ≫= f = Err e ↔ r = Err e ∨ ∃ a, r = Ok a ∧ f a = Err e.
Proof. destruct r; simpl; naive_solver. Qed.

Lemma wrap_err_Ok {A} f args (r : result A) a :
  wrap_err f args r = Ok a ↔ r = Ok a.
Proof. destruct r; simpl; naive_solver. Qed.

Lemma replace_err_Ok {A} e (r : result A) a : replace_err e r = Ok a ↔ r = Ok a.
Proof. destruct r; simpl; naive_solver. Qed.

Lemma for_each_Ok {A} (f : A → result unit) l :
  for_each f l = Ok tt ↔ Forall (λ x, f x = Ok tt) l.
Proof.
  induction l as [|x l IH]; simpl; [naive_solver|].
  rewrite Forall_cons, <- IH. destruct (f x) as [[]|e]; naive_solver.
Qed.

Lemma for_each_Err {A} (f : A → result unit) l e :
  for_each f l = Err e →
  ∃ l1 x l2, l = l1 ++ x :: l2 ∧ Forall (λ y, f y = Ok tt) l1 ∧ f x = Err e.
Proof.
  induction l as [|x l IH]; simpl; [done|].
  destruct (f x) as [[]|e'] eqn:Hx; intros H; simplify_eq.
  - destruct (IH H) as (l1 & y & l2 & -> & ? & ?). exists (x :: l1), y, l2; auto.
  - exists [], x, l; auto.
Qed.

(** A fold that returned: an invariant of the accumulator. *)
Lemma for_fold_Ok {A B} (f : B → A → result B) (I : B → Prop) b l b' :
  for_fold f b l = Ok b' → I b →
  (∀ b x b1, x ∈ l → I b → f b x = Ok b1 → I b1) → I b'.
Proof.
  revert b. induction l as [|x l IH]; simpl; intros b H Hb Hstep; [by simplify_eq|].
  destruct (f b x) as [b1|] eqn:Hx; [|done]. apply (IH b1 H).
  - eapply Hstep; [left|exact Hb|exact Hx].
  - intros ? y ? Hy. apply Hstep. by right.
Qed.

(** The same, with what was visited so far. *)
Lemma for_fold_Ok_prefix {A B} (f : B → A → result B) (I : B → list A → Prop) b l b' :
  for_fold f b l = Ok b' → I b [] →
  (∀ b done x b1, I b done → f b x = Ok b1 → I b1 (done ++ [x])) → I b' l.
Proof.
  intros H Hb Hstep.
  cut (∀ l' dn b, for_fold f b l' = Ok b' → I b dn → I b' (dn ++ l')).
  { intros Hc. by apply (Hc l [] b). }
  intros l'. induction l' as [|x l' IH]; simpl; intros dn b1 Hf HI.
  - rewrite app_nil_r. by simplify_eq.
  - destruct (f b1 x) as [b2|] eqn:Hx; [|done].
    rewrite (cons_middle x dn l'), app_assoc. eapply IH; [exact Hf|by eapply Hstep].
Qed.

Lemma for_each_ext {A} (f g : A → result unit) l :
  (∀ x, x ∈ l → f x = g x) → for_each f l = for_each g l.
Proof.
  induction l as [|x l IH]; simpl; intros H; [done|].
  rewrite H by left. destruct (g x); [|done].
  apply IH. intros; apply H; by right.
Qed.

Lemma map_order_elem `{GoRuntime} {A} (l : list (string * A)) x :
  x ∈ map_order l ↔ x ∈ l.
Proof. by rewrite map_order_perm. Qed.

Lemma map_order_Forall `{GoRuntime} {A} (P : string * A → Prop) l :
  Forall P (map_order l) ↔ Forall P l.
Proof. by rewrite map_order_perm. Qed.

(** ** Stable sorting

    [sort.Strings], [sort.Slice] with a total preorder and [ORDER BY] are
    insertion sort here: executable, stable and independent of the caller. *)
Section sorting.
Context {A : Type} (leb : A → A → bool).

Fixpoint insert_sorted (x : A) (l : list A) : list A :=
  match l with
  | [] => [x]
  | y :: l' => if leb x y then x :: l else y :: insert_sorted x l'
  end.

Fixpoint sort_by (l : list A) : list A :=
  match l with
  | [] => []
  | x :: l => insert_sorted x (sort_by l)
  end.

Lemma insert_sorted_perm x l : insert_sorted x l ≡ₚ x :: l.
Proof.
  induction l as [|y l IH]; simpl; [done|].
  destruct (leb x y); [done|]. rewrite IH. constructor.
Qed.

Lemma sort_by_perm l : sort_by l ≡ₚ l.
Proof.
  induction l as [|x l IH]; simpl; [done|]. by rewrite insert_sorted_perm, IH.
Qed.

Lemma sort_by_elem x l : x ∈ sort_by l ↔ x ∈ l.
Proof. by rewrite sort_by_perm. Qed.

Context (leb_total : ∀ x y, leb x y = true ∨ leb y x = true).
Context (leb_trans : ∀ x y z, leb x y = true → leb y z = true → leb x z = true).

Lemma insert_sorted_Sorted x l :
  StronglySorted (λ a b, leb a b = true) l →
  StronglySorted (λ a b, leb a b = true) (insert_sorted x l).
Proof using leb_total leb_trans.
  induction 1 as [|y l Hl IH Hy]; simpl; [by repeat constructor|].
  destruct (leb x y) eqn:Hxy.
  - repeat (constructor; auto). eapply Forall_impl; [exact Hy|]; eauto.
  - constructor; [done|]. rewrite insert_sorted_perm. constructor; [|done].
    destruct (leb_total x y); congruence.
Qed.

Lemma sort_by_Sorted l : StronglySorted (λ a b, leb a b = true) (sort_by l).
Proof using leb_total leb_trans.
  induction l; simpl; [constructor|]. by apply insert_sorted_Sorted.
Qed.
End sorting.

(** Byte order on strings: Go's [<] on strings, [sort.Strings], SQLite's
    BINARY collation of TEXT. *)
Definition str_leb (a b : string) : bool := String.leb a b.
