(* ===== verification/IO.v ===== *)
(** * Stateful computations

    A Go method that may fail and that changes a state is a function
    [S → result A * S]: unlike in an exception monad over a pure state, the
    changes made before an error are kept.  [zoom] runs a computation on a part
    of the state, [attempt] hands the error to the caller ([if err != nil]),
    [returned] hands over only what was returned, so that a panic goes on, as nobody
    recovers from one; [ignore] is [_ = f()], [transaction] is a SQL transaction, whose changes are
    kept only when it succeeds.

    Two proof principles are stated once for all components: [triple], Hoare
    triples that speak of the outcome, and [preserves R], for a preorder [R] that
    relates the states before and after whatever the outcome is. *)

From stdpp Require Import options.
From S2P Require Import Prelude.

Definition io (S A : Type) : Type := S → result A * S.

#[export] Instance io_ret S : MRet (io S) := λ A a s, (Ok a, s).
#[export] Instance io_bind S : MBind (io S) := λ A B f m s,
  match m s with
  | (Ok a, s') => f a s'
  | (Err e, s') => (Err e, s')
  end.

(** A panic of the runtime, an error of its own in the model. *)
Definition is_panic (e : error) : bool :=
  match e with
  | Sentinel m | Errorf m _ => String.prefix "panic: " m
  | Wrapf _ _ _ => false
  end.

Section computations.
Context {S A : Type}.

Definition fail (e : error) : io S A := λ s, (Err e, s).
Definition lift (r : result A) : io S A := λ s, (r, s).
Definition read (f : S → result A) : io S A := λ s, (f s, s).
Definition gets (f : S → A) : io S A := λ s, (Ok (f s), s).
Definition attempt (m : io S A) : io S (result A) := λ s, (Ok (m s).1, (m s).2).
Definition returned (m : io S A) : io S (result A) := λ s,
  match m s with
  | (Ok a, s') => (Ok (Ok a), s')
  | (Err e, s') => (if is_panic e then Err e else Ok (Err e), s')
  end.
Definition ignore (m : io S A) : io S unit := λ s, (Ok tt, (m s).2).

(** The result and the new state, or an error and no change. *)
Definition transaction (f : S → result (A * S)) : io S A := λ s,
  match f s with
  | Ok (a, s') => (Ok a, s')
  | Err e => (Err e, s)
  end.

Definition zoom {T} (get : T → S) (put : S → T → T) (m : io S A) : io T A := λ t,
  ((m (get t)).1, put (m (get t)).2 t).

(** [if err != nil { return fmt.Errorf("...: %w", err) }] *)
Definition wrapping (format : string) (args : list fmt_arg) (m : io S A) : io S A := λ s,
  (wrap_err format args (m s).1, (m s).2).
End computations.

(** A write that cannot fail in the model. *)
Definition modify {S} (f : S → S) : io S unit := λ s, (Ok tt, f s).

Fixpoint io_fold {S A B} (f : B → A → io S B) (b : B) (l : list A) : io S B :=
  match l with
  | [] => mret b
  | x :: l => b' ← f b x; io_fold f b' l
  end.

Notation "'deny' c 'with' e ;; k" := (if c then fail e else k)
  (at level 10, c at level 99, e at level 99, k at level 200,
   format "'[v' 'deny'  c  'with'  e ;; '/' k ']'") : go_scope.

Lemma io_bind_run {S A B} (m : io S A) (f : A → io S B) s :
  (m ≫= f) s = match m s with
               | (Ok a, s') => f a s'
               | (Err e, s') => (Err e, s')
               end.
Proof. done. Qed.

Lemma io_bind_Ok {S A B} (m : io S A) (f : A → io S B) s b s' :
  (m ≫= f) s = (Ok b, s') ↔ ∃ a s1, m s = (Ok a, s1) ∧ f a s1 = (Ok b, s').
Proof. rewrite io_bind_run. destruct (m s) as [[a|e] s1]; naive_solver. Qed.

Lemma io_bind_Err {S A B} (m : io S A) (f : A → io S B) s e s' :
  (m ≫= f) s = (Err e, s') ↔
  m s = (Err e, s') ∨ ∃ a s1, m s = (Ok a, s1) ∧ f a s1 = (Err e, s').
Proof. rewrite io_bind_run. destruct (m s) as [[a|e'] s1]; naive_solver. Qed.

Lemma transaction_Ok {S A} (f : S → result (A * S)) s a s' :
  transaction f s = (Ok a, s') ↔ f s = Ok (a, s').
Proof. unfold transaction. destruct (f s) as [[? ?]|]; naive_solver. Qed.

(** An error of a transaction leaves the state as it was. *)
Lemma transaction_Err {S A} (f : S → result (A * S)) s e s' :
  transaction f s = (Err e, s') ↔ f s = Err e ∧ s' = s.
Proof. unfold transaction. destruct (f s) as [[? ?]|]; naive_solver. Qed.

(** ** Hoare triples *)
Section triples.
Context {S : Type}.
Implicit Types P : S → Prop.

Definition triple {A} P (m : io S A) (Q : result A → S → Prop) : Prop :=
  ∀ s, P s → Q (m s).1 (m s).2.

Lemma triple_run {A} P (m : io S A) Q s r s' :
  triple P m Q → P s → m s = (r, s') → Q r s'.
Proof. intros Ht HP Hm. specialize (Ht s HP). by rewrite Hm in Ht. Qed.

Lemma triple_conseq {A} P P' (m : io S A) (Q Q' : result A → S → Prop) :
  triple P' m Q' → (∀ s, P s → P' s) → (∀ r s, Q' r s → Q r s) → triple P m Q.
Proof. intros Ht HP HQ s Hs. by apply HQ, Ht, HP. Qed.

Lemma triple_bind {A B} P (m : io S A) (f : A → io S B) Q' (Q : result B → S → Prop) :
  triple P m Q' → (∀ a, triple (Q' (Ok a)) (f a) Q) → (∀ e s, Q' (Err e) s → Q (Err e) s) →
  triple P (m ≫= f) Q.
Proof.
  intros Hm Hf He s Hs. specialize (Hm s Hs). rewrite io_bind_run.
  destruct (m s) as [[a|e] s1]; simpl in *; [by apply Hf|by apply He].
Qed.

Lemma triple_ret {A} P (a : A) (Q : result A → S → Prop) :
  (∀ s, P s → Q (Ok a) s) → triple P (mret a) Q.
Proof. intros H s Hs. by apply H. Qed.

Lemma triple_fail {A} P e (Q : result A → S → Prop) :
  (∀ s, P s → Q (Err e) s) → triple P (fail e) Q.
Proof. intros H s Hs. by apply H. Qed.
End triples.

(** ** Preorders every run respects *)
Section preserves.
Context {S : Type} (R : relation S).

Definition preserves {A} (m : io S A) : Prop := ∀ s, R s (m s).2.

Lemma preserves_run {A} (m : io S A) s r s' : preserves m → m s = (r, s') → R s s'.
Proof. intros Hm Hs. specialize (Hm s). by rewrite Hs in Hm. Qed.

Lemma preserves_modify f : (∀ s, R s (f s)) → preserves (modify f).
Proof. done. Qed.

Lemma preserves_ignore {A} (m : io S A) : preserves m → preserves (ignore m).
Proof. done. Qed.

Lemma preserves_attempt {A} (m : io S A) : preserves m → preserves (attempt m).
Proof. done. Qed.

Lemma preserves_returned_at {A} (m : io S A) s : R s (m s).2 → R s (returned m s).2.
Proof. unfold returned. by destruct (m s) as [[a|e] s']. Qed.

Lemma preserves_returned {A} (m : io S A) : preserves m → preserves (returned m).
Proof.
  intros H s. by apply preserves_returned_at.
Qed.

Lemma preserves_wrapping {A} f args (m : io S A) :
  preserves m → preserves (wrapping f args m).
Proof. done. Qed.

Context `{!PreOrder R}.

Lemma preserves_ret {A} (a : A) : preserves (mret a).
Proof using Type*. intros s. simpl. reflexivity. Qed.
Lemma preserves_fail {A} e : preserves (A:=A) (fail e).
Proof using Type*. intros s. simpl. reflexivity. Qed.
Lemma preserves_lift {A} (r : result A) : preserves (lift r).
Proof using Type*. intros s. simpl. reflexivity. Qed.
Lemma preserves_read {A} (f : S → result A) : preserves (read f).
Proof using Type*. intros s. simpl. reflexivity. Qed.
Lemma preserves_gets {A} (f : S → A) : preserves (gets f).
Proof using Type*. intros s. simpl. reflexivity. Qed.

Lemma preserves_bind {A B} (m : io S A) (f : A → io S B) :
  preserves m → (∀ a, preserves (f a)) → preserves (m ≫= f).
Proof using Type*.
  intros Hm Hf s. rewrite io_bind_run. specialize (Hm s).
  destruct (m s) as [[a|e] s1]; simpl in *; [|done].
  etrans; [exact Hm|apply Hf].
Qed.

(** The same where what follows depends on what was returned. *)
Lemma related_bind {A B} (m : io S A) (f : A → io S B) s :
  R s (m s).2 → (∀ a s1, m s = (Ok a, s1) → R s1 (f a s1).2) → R s ((m ≫= f) s).2.
Proof using Type*.
  intros Hm Hf. rewrite io_bind_run. destruct (m s) as [[a|e] s1]; simpl in *; [|done].
  etrans; [exact Hm|by apply Hf].
Qed.

Lemma preserves_fold_in {A B} (f : B → A → io S B) b l :
  (∀ b x, x ∈ l → preserves (f b x)) → preserves (io_fold f b l).
Proof using Type*.
  revert b. induction l as [|x l IH]; intros b Hf; simpl; [apply preserves_ret|].
  apply preserves_bind; [apply Hf; set_solver|]. intros b'. apply IH. set_solver.
Qed.

Lemma preserves_fold {A B} (f : B → A → io S B) b l :
  (∀ b x, preserves (f b x)) → preserves (io_fold f b l).
Proof using Type*.
  intros Hf. revert b. induction l as [|x l IH]; intros b; simpl; [apply preserves_ret|].
  by apply preserves_bind.
Qed.

Lemma preserves_transaction {A} (f : S → result (A * S)) :
  (∀ s a s', f s = Ok (a, s') → R s s') → preserves (transaction f).
Proof using Type*.
  intros Hf s. unfold transaction.
  destruct (f s) as [[a s']|e] eqn:E; simpl; [by eapply Hf|reflexivity].
Qed.
End preserves.

Create HintDb io discriminated.
#[export] Hint Resolve preserves_ignore preserves_attempt preserves_returned preserves_wrapping preserves_ret
  preserves_fail preserves_lift preserves_read preserves_gets preserves_bind preserves_fold : io.
#[export] Hint Constants Opaque : io.

(** Walk through a computation: binds, branches and the [io] database. *)
Ltac preserve := repeat
  match goal with
  | |- preserves _ (if ?c then _ else _) => destruct c
  | |- preserves _ (match ?c with _ => _ end) => destruct c
  | |- preserves _ (let '_ := ?c in _) => destruct c
  | |- preserves _ (_ ≫= _) => apply preserves_bind; [try apply _| |intros ?]
  | |- preserves _ _ => solve [eauto 3 with io typeclass_instances]
  | |- preserves _ (ignore _) => apply preserves_ignore
  | |- preserves _ (attempt _) => apply preserves_attempt
  | |- preserves _ (returned _) => apply preserves_returned
  | |- preserves _ (wrapping _ _ _) => apply preserves_wrapping
  | |- preserves _ (io_fold _ _ _) => apply preserves_fold; [try apply _|intros ? ?]
  | |- preserves _ _ => progress cbv zeta
  end.

(** Invert a successful run, one bind, guard or lifted result at a time. *)
Lemma lift_Ok {S A} (r : result A) (s : S) a s' : lift r s = (Ok a, s') ↔ r = Ok a ∧ s' = s.
Proof. unfold lift. naive_solver. Qed.

Lemma mret_Ok {S A} (x : A) (s : S) a s' : (mret x : io S A) s = (Ok a, s') ↔ a = x ∧ s' = s.
Proof. unfold mret, io_ret. naive_solver. Qed.

Lemma fail_Ok {S A} e (s : S) (a : A) s' : fail e s = (Ok a, s') ↔ False.
Proof. unfold fail. naive_solver. Qed.

Lemma attempt_run {S A} (m : io S A) s r s' : attempt m s = (Ok r, s') → m s = (r, s').
Proof. unfold attempt. destruct (m s). naive_solver. Qed.

Lemma returned_run {S A} (m : io S A) s r s' : returned m s = (Ok r, s') → m s = (r, s').
Proof.
  unfold returned. destruct (m s) as [[a|e] s1]; [by intros [= <- <-]|].
  destruct (is_panic e); [done|by intros [= <- <-]].
Qed.

Lemma gets_Ok {S A} (f : S → A) (s : S) a s' : gets f s = (Ok a, s') ↔ a = f s ∧ s' = s.
Proof. unfold gets. naive_solver. Qed.

Lemma read_Ok {S A} (f : S → result A) (s : S) a s' :
  read f s = (Ok a, s') ↔ f s = Ok a ∧ s' = s.
Proof. unfold read. split; [by intros [= -> ->]|by intros [-> ->]]. Qed.

Lemma zoom_Ok {S T A} (get : T → S) put (m : io S A) (t : T) a t' :
  zoom get put m t = (Ok a, t') ↔ ∃ s', m (get t) = (Ok a, s') ∧ t' = put s' t.
Proof. unfold zoom. destruct (m (get t)) as [r s]; simpl. naive_solver. Qed.

Lemma modify_Ok {S} (f : S → S) (s : S) u s' : modify f s = (Ok u, s') ↔ s' = f s.
Proof. unfold modify. destruct u. naive_solver. Qed.

Ltac run_step H :=
  match type of H with
  | (_ ≫= _) _ = (Ok _, _) =>
      let a := fresh "a" in let s := fresh "s" in let E := fresh "Hr" in
      apply io_bind_Ok in H as (a & s & E & H)
  | lift _ _ = (Ok _, _) => apply lift_Ok in H as [H ->]
  | mret _ _ = (Ok _, _) =>
      first [apply mret_Ok in H as [-> ->]|apply mret_Ok in H as [? ->]; simplify_eq]
  | gets _ _ = (Ok _, _) => apply gets_Ok in H as [-> ->]
  | read _ _ = (Ok _, _) => apply read_Ok in H as [H ->]
  | fail _ _ = (Ok _, _) => apply fail_Ok in H; destruct H
  | (if ?c then fail _ else _) _ = (Ok _, _) =>
      let E := fresh "Hg" in destruct c eqn:E; [by apply fail_Ok in H|]
  end.
Ltac run H := repeat run_step H.
Ltac run_all := repeat
  match goal with H : _ _ = (Ok _, _) |- _ => run_step H end.

(** A successful fold: an invariant of the accumulator and of what was seen. *)
Lemma io_fold_Ok {S A B} (f : B → A → io S B) (I : B → list A → Prop) b l s b' s' :
  io_fold f b l s = (Ok b', s') → I b [] →
  (∀ b x done s b' s', I b done → x ∈ l → f b x s = (Ok b', s') → I b' (done ++ [x])) →
  I b' l.
Proof.
  intros Hf H0 Hstep.
  cut (∀ l' done b s, io_fold f b l' s = (Ok b', s') → l = done ++ l' → I b done → I b' l).
  { intros Hc. by eapply (Hc l [] b s). }
  induction l' as [|x l' IH]; intros dn b1 s1 Hr Hl HI; simpl in Hr.
    - run Hr. rewrite Hl, app_nil_r. done.
  - apply io_bind_Ok in Hr as (b2 & s2 & Hx & Hr).
    eapply (IH (dn ++ [x])); [exact Hr|by rewrite <- app_assoc|].
    eapply Hstep; [exact HI| |exact Hx]. rewrite Hl. set_solver.
Qed.

(** Whether a run, evaluated on concrete inputs, returned a value. *)
Definition succeeds {A S} (r : result A * S) : bool := match r.1 with Ok _ => true | Err _ => false end.
Lemma succeeds_Ok {A S} (r : result A * S) : succeeds r = true → ∃ a s, r = (Ok a, s).
Proof. destruct r as [[a|e] s]; [eauto|done]. Qed.
