(* ===== verification/Table.v ===== *)
(** * SQL tables

    A table is the list of its rows in insertion order; its primary key is a
    function of the row, a partial unique index a function that gives [None]
    for the rows outside the index.  The statements the stores use: [INSERT]
    (refused on a key conflict), [INSERT ... ON CONFLICT DO UPDATE], [UPDATE],
    [DELETE], [SELECT].  [ORDER BY] is [sort_by], stable: rows that compare
    equal keep the insertion order. *)

From stdpp Require Import options.
From S2P Require Import Prelude.

(** SQLite's error for a violated UNIQUE or PRIMARY KEY constraint. *)
Definition unique_violation (what : string) : error :=
  Errorf "UNIQUE constraint failed: %s" [AStr what].

Section rows.
Context {row : Type}.
Implicit Types (t : list row) (r : row).

Definition update_rows (p : row → bool) (f : row → row) t : list row :=
  (λ r, if p r then f r else r) <$> t.

Definition delete_rows (p : row → bool) t : list row :=
  List.filter (λ r, negb (p r)) t.

Lemma elem_of_update_rows p f t r :
  r ∈ update_rows p f t ↔ ∃ o, o ∈ t ∧ r = if p o then f o else o.
Proof. unfold update_rows. rewrite list_elem_of_fmap. naive_solver. Qed.

Lemma elem_of_delete_rows p t r : r ∈ delete_rows p t ↔ r ∈ t ∧ p r = false.
Proof.
  unfold delete_rows. rewrite !list_elem_of_In, filter_In, negb_true_iff. done.
Qed.

Lemma delete_rows_sublist p t : delete_rows p t `sublist_of` t.
Proof.
  unfold delete_rows. induction t as [|r t IH]; simpl; [done|].
  destruct (negb (p r)); by constructor.
Qed.

End rows.

Section table.
Context {row key : Type} `{!EqDecision key} (k : row → key).
Implicit Types (t : list row) (r : row).

Definition has_key (i : key) (r : row) : bool := bool_decide (k r = i).
Definition select_key (i : key) t : option row := List.find (has_key i) t.
Definition mem_key (i : key) t : bool := existsb (has_key i) t.

Definition insert_row (what : string) r t : result (list row) :=
  reject mem_key (k r) t with unique_violation what;;
  Ok (t ++ [r]).

(** [merge] keeps the columns that [DO UPDATE SET] does not name. *)
Definition upsert_row (merge : row → row → row) r t : list row :=
  if mem_key (k r) t
  then (λ o, if has_key (k r) o then merge o r else o) <$> t
  else t ++ [r].

Definition unique_keys t : Prop := NoDup (k <$> t).

Lemma mem_key_true i t : mem_key i t = true ↔ i ∈ k <$> t.
Proof.
  unfold mem_key, has_key. rewrite existsb_exists, list_elem_of_fmap.
  setoid_rewrite bool_decide_eq_true. setoid_rewrite <- list_elem_of_In. naive_solver.
Qed.

Lemma mem_key_false i t : mem_key i t = false ↔ i ∉ k <$> t.
Proof. rewrite <- mem_key_true. by destruct (mem_key i t). Qed.

Lemma select_key_Some i t r : select_key i t = Some r → r ∈ t ∧ k r = i.
Proof.
  unfold select_key. intros [? H]%find_some. rewrite list_elem_of_In.
  by apply bool_decide_eq_true in H.
Qed.

Lemma select_key_None i t : select_key i t = None ↔ i ∉ k <$> t.
Proof.
  unfold select_key. induction t as [|o t IH]; simpl; [set_solver|].
  unfold has_key at 1. case_bool_decide; [set_solver|].
  rewrite IH, not_elem_of_cons. naive_solver.
Qed.

Lemma unique_keys_elem t r1 r2 :
  unique_keys t → r1 ∈ t → r2 ∈ t → k r1 = k r2 → r1 = r2.
Proof.
  unfold unique_keys. intros Hu H1 H2 Hk. apply list_elem_of_lookup in H1 as [i H1], H2 as [j H2].
  assert (i = j) as ->; [|congruence].
  eapply NoDup_lookup; [exact Hu|..]; rewrite list_lookup_fmap.
  - by rewrite H1.
  - by rewrite H2, Hk.
Qed.

Lemma select_key_elem i t r :
  unique_keys t → select_key i t = Some r ↔ r ∈ t ∧ k r = i.
Proof.
  intros Hu. split; [apply select_key_Some|]. intros [Hr <-].
  unfold select_key, unique_keys in *.
  induction t as [|o t IH]; simpl; [set_solver|].
  rewrite fmap_cons, NoDup_cons in Hu. destruct Hu as [Ho Hu].
  unfold has_key at 1. case_bool_decide as Hk.
  - apply elem_of_cons in Hr as [->|Hr]; [done|].
    destruct Ho. rewrite Hk. by apply list_elem_of_fmap_2.
  - apply elem_of_cons in Hr as [->|Hr]; [done|]. by apply IH.
Qed.

Lemma insert_row_Ok what r t t' :
  insert_row what r t = Ok t' ↔ k r ∉ k <$> t ∧ t' = t ++ [r].
Proof.
  unfold insert_row. destruct (mem_key (k r) t) eqn:E.
  - apply mem_key_true in E. naive_solver.
  - apply mem_key_false in E. naive_solver.
Qed.

Lemma insert_row_unique what r t t' :
  insert_row what r t = Ok t' → unique_keys t → unique_keys t'.
Proof.
  intros [Hr ->]%insert_row_Ok Hu. unfold unique_keys in *.
  rewrite fmap_app, NoDup_app. simpl. split_and!; [done| |apply NoDup_singleton].
  intros x Hx ->%list_elem_of_singleton. done.
Qed.

Lemma update_rows_keys p f t :
  (∀ r, k (f r) = k r) → k <$> update_rows p f t = k <$> t.
Proof.
  intros Hf. unfold update_rows. rewrite <- list_fmap_compose.
  apply list_fmap_ext. intros i r _. simpl. destruct (p r); [apply Hf|done].
Qed.

Lemma select_update_rows p f i t :
  (∀ r, k (f r) = k r) →
  select_key i (update_rows p f t) = (λ r, if p r then f r else r) <$> select_key i t.
Proof.
  intros Hf. unfold select_key, update_rows. induction t as [|r t IH]; simpl; [done|].
  assert (has_key i (if p r then f r else r) = has_key i r) as ->.
  { unfold has_key. destruct (p r); [by rewrite Hf|done]. }
  by destruct (has_key i r).
Qed.

Lemma delete_rows_unique p t : unique_keys t → unique_keys (delete_rows p t).
Proof.
  unfold unique_keys. intros Hu. eapply sublist_NoDup; [exact Hu|].
  by apply fmap_sublist, delete_rows_sublist.
Qed.

Lemma upsert_row_fresh merge r t : k r ∉ k <$> t → upsert_row merge r t = t ++ [r].
Proof. intros H. unfold upsert_row. by rewrite (proj2 (mem_key_false _ _) H). Qed.

Lemma upsert_row_keys merge r t :
  (∀ o, k o = k r → k (merge o r) = k r) → k r ∈ k <$> t →
  k <$> upsert_row merge r t = k <$> t.
Proof.
  intros Hm Hr. unfold upsert_row. rewrite (proj2 (mem_key_true _ _) Hr).
  rewrite <- list_fmap_compose. apply list_fmap_ext. intros i o _. simpl.
  unfold has_key. case_bool_decide as E; [|done]. by rewrite Hm.
Qed.

Lemma upsert_row_unique merge r t :
  (∀ o, k o = k r → k (merge o r) = k r) →
  unique_keys t → unique_keys (upsert_row merge r t).
Proof.
  intros Hm Hu. destruct (mem_key (k r) t) eqn:E.
  - unfold unique_keys. rewrite upsert_row_keys; [done..|by apply mem_key_true].
  - apply mem_key_false in E. rewrite upsert_row_fresh by done.
    apply (insert_row_unique "" r t); [|done]. by apply insert_row_Ok.
Qed.

Lemma elem_of_upsert_row merge r t x :
  x ∈ upsert_row merge r t ↔
  (x ∈ t ∧ k x ≠ k r) ∨ (∃ o, o ∈ t ∧ k o = k r ∧ x = merge o r) ∨
  (x = r ∧ k r ∉ k <$> t).
Proof.
  destruct (mem_key (k r) t) eqn:E; unfold upsert_row; rewrite E.
  - apply mem_key_true in E. rewrite list_elem_of_fmap. unfold has_key. split.
    + intros (o & -> & Ho). case_bool_decide; naive_solver.
    + intros [[Hx Hk]|[(o & Ho & Hk & ->)|[-> ?]]]; [| |done].
      * exists x. by rewrite bool_decide_eq_false_2.
      * exists o. by rewrite bool_decide_eq_true_2.
  - apply mem_key_false in E. rewrite elem_of_app, list_elem_of_singleton. split.
    + intros [Hx| ->]; [|by auto]. left. split; [done|]. intros Hk. apply E.
      rewrite <- Hk. by apply list_elem_of_fmap_2.
    + intros [[? ?]|[(o & Ho & Hk & _)|[-> _]]]; [by left| |by right].
      destruct E. rewrite <- Hk. by apply list_elem_of_fmap_2.
Qed.

(** After an upsert the key is present, with the columns of the merge. *)
Lemma select_upsert_row merge r t :
  (∀ o, k o = k r → k (merge o r) = k r) →
  unique_keys t →
  select_key (k r) (upsert_row merge r t) =
    Some (match select_key (k r) t with Some o => merge o r | None => r end).
Proof.
  intros Hm Hu. apply select_key_elem; [by apply upsert_row_unique|].
  rewrite elem_of_upsert_row. destruct (select_key (k r) t) as [o|] eqn:E.
  - apply select_key_Some in E as [Ho Hk]. split; [|by apply Hm]. right; left. by exists o.
  - apply select_key_None in E. split; [|done]. by right; right.
Qed.
End table.

(** ** Partial unique indexes *)
Section index.
Context {row ix : Type} `{!EqDecision ix} (idx : row → option ix).
Implicit Types (t : list row) (r : row).

Definition unique_index t : Prop := NoDup (omap idx t).

(** Would the index refuse [r] next to the rows of [t]? *)
Definition index_conflict r t : bool :=
  match idx r with
  | None => false
  | Some i => existsb (λ o, bool_decide (idx o = Some i)) t
  end.

Lemma index_conflict_false r t :
  index_conflict r t = false ↔ ∀ i, idx r = Some i → i ∉ omap idx t.
Proof.
  unfold index_conflict. destruct (idx r) as [i|]; [|naive_solver].
  rewrite <- not_true_iff_false, existsb_exists.
  setoid_rewrite bool_decide_eq_true. setoid_rewrite <- list_elem_of_In.
  setoid_rewrite list_elem_of_omap. naive_solver.
Qed.

Lemma unique_index_app_1 r t :
  index_conflict r t = false → unique_index t → unique_index (t ++ [r]).
Proof.
  rewrite index_conflict_false. intros Hc Hu. unfold unique_index.
  rewrite omap_app, NoDup_app. simpl. split_and!; [done| |].
  - intros i Hi. destruct (idx r) as [j|] eqn:E; [|set_solver].
    intros ->%list_elem_of_singleton. by eapply Hc.
  - destruct (idx r); [apply NoDup_singleton|constructor].
Qed.

(** Two rows of the index with the same value are the same row. *)
Lemma unique_index_elem t r1 r2 i :
  unique_index t → r1 ∈ t → r2 ∈ t → idx r1 = Some i → idx r2 = Some i → r1 = r2.
Proof.
  unfold unique_index. intros Hu H1 H2 E1 E2.
  induction t as [|o t IH]; [set_solver|]. simpl in Hu.
  assert (Hin : ∀ r, r ∈ t → idx r = Some i → i ∈ omap idx t).
  { intros r ??. apply list_elem_of_omap. eauto. }
  apply elem_of_cons in H1 as [->|H1], H2 as [->|H2]; [done| | |].
  - rewrite E1 in Hu. apply NoDup_cons in Hu as [Hu _]. destruct Hu. by eapply Hin.
  - rewrite E2 in Hu. apply NoDup_cons in Hu as [Hu _]. destruct Hu. by eapply Hin.
  - apply IH; [|done..]. destruct (idx o); [by apply NoDup_cons in Hu as [_ ?]|done].
Qed.

(** A change of rows that never adds a value to the index. *)
Lemma unique_index_update (f : row → row) t :
  (∀ r, r ∈ t → idx (f r) = idx r ∨ idx (f r) = None) →
  unique_index t → unique_index (f <$> t).
Proof.
  unfold unique_index. intros Hf Hu. eapply sublist_NoDup; [exact Hu|]. clear Hu.
  induction t as [|r t IH]; simpl; [done|].
  assert (omap idx (f <$> t) `sublist_of` omap idx t).
  { apply IH. intros; apply Hf. by right. }
  destruct (Hf r) as [->| ->]; [by left| |].
  - destruct (idx r); [by constructor|done].
  - destruct (idx r); [by constructor|done].
Qed.
End index.

(** ** Updating the row of one key *)
Section update_key.
Context {row key ix : Type} `{!EqDecision key} `{!EqDecision ix}.
Context (k : row → key) (idx : row → option ix).
Implicit Types (t : list row).

Lemma delete_rows_all p t : (∀ x, x ∈ t → p x = false) → delete_rows p t = t.
Proof.
  unfold delete_rows. induction t as [|x t IH]; intros H; simpl; [done|].
  rewrite (H x) by left. simpl. f_equal. apply IH. intros; apply H; by right.
Qed.

Lemma update_rows_none p (f : row → row) t : (∀ x, x ∈ t → p x = false) → update_rows p f t = t.
Proof.
  unfold update_rows. induction t as [|x t IH]; intros H; [done|]. rewrite fmap_cons, H by left.
  f_equal. apply IH. intros; apply H; by right.
Qed.

(** A table around the row of a key. *)
Lemma split_at_key i t o :
  unique_keys k t → o ∈ t → k o = i →
  ∃ t1 t2, t = t1 ++ o :: t2 ∧ (∀ x, x ∈ t1 → has_key k i x = false) ∧
           (∀ x, x ∈ t2 → has_key k i x = false).
Proof.
  intros Hu Ho Hk. apply list_elem_of_split in Ho as (t1 & t2 & ->).
  unfold unique_keys in Hu. rewrite fmap_app, fmap_cons in Hu.
  apply NoDup_app in Hu as (_ & H1 & H2). apply NoDup_cons in H2 as [H2 _].
  exists t1, t2. split_and!; [done|..]; intros x Hx; apply bool_decide_eq_false; intros Hxo.
  - apply (H1 (k x)); [by apply list_elem_of_fmap_2|]. rewrite Hxo, <- Hk. by left.
  - apply H2. rewrite Hk, <- Hxo. by apply list_elem_of_fmap_2.
Qed.

(** The index stays unique when the changed row does not clash with the others. *)
Lemma unique_index_update_key i f t :
  unique_keys k t → unique_index idx t →
  (∀ o, o ∈ t → k o = i → index_conflict idx (f o) (delete_rows (has_key k i) t) = false) →
  unique_index idx (update_rows (has_key k i) f t).
Proof.
  intros Hu Hd Hc. destruct (mem_key k i t) eqn:E.
  - apply mem_key_true, list_elem_of_fmap in E as (o & Hk & Ho). symmetry in Hk.
    specialize (Hc o Ho Hk). destruct (split_at_key i t o Hu Ho Hk) as (t1 & t2 & -> & H1 & H2).
    assert (has_key k i o = true) as Hko by by apply bool_decide_eq_true.
    unfold delete_rows in Hc. rewrite List.filter_app in Hc. simpl in Hc. rewrite Hko in Hc.
    simpl in Hc. fold (delete_rows (has_key k i) t1) (delete_rows (has_key k i) t2) in Hc.
    rewrite !delete_rows_all in Hc by done.
    unfold update_rows. rewrite fmap_app, fmap_cons, Hko.
    fold (update_rows (has_key k i) f t1) (update_rows (has_key k i) f t2).
    rewrite !update_rows_none by done.
    assert (Hd' : unique_index idx (t1 ++ t2)).
    { unfold unique_index in *. rewrite omap_app in *. simpl in Hd.
      destruct (idx o); [|done]. apply NoDup_app in Hd as (N1 & N2 & N3).
      apply NoDup_cons in N3 as [? ?]. apply NoDup_app. split_and!; [done| |done].
      intros j Hj ?. eapply (N2 j); [done|by right]. }
    pose proof (unique_index_app_1 _ _ _ Hc Hd') as Hn. unfold unique_index in *.
    eapply NoDup_Permutation_proper; [|exact Hn]. apply omap_Permutation.
    rewrite <- app_assoc. apply Permutation_app_head, Permutation_cons_append.
  - apply mem_key_false in E. rewrite update_rows_none; [done|].
    intros x Hx. apply bool_decide_eq_false. intros Hk. apply E. rewrite <- Hk.
    by apply list_elem_of_fmap_2.
Qed.
End update_key.
