(* ===== verification/GoStrings.v ===== *)
(** * The parts of Go's [strings] and [crypto/sha256] the program uses

    A Go string is a sequence of bytes, here a Rocq [string].
    [trim_space] is [strings.TrimSpace] on bytes: it removes the UTF-8
    encodings of the code points [unicode.IsSpace] accepts.  SHA-256 is
    written out (FIPS 180-4) so that digests and the identifiers derived
    from them compute; no property of the model assumes it injective, a
    theorem about digests says that the texts are equal or that these texts collide. *)

From stdpp Require Import options.
From S2P Require Import Prelude.
#[local] Open Scope Z_scope.

(** ** Bytes *)

Definition byte_of (c : Ascii.ascii) : Z := Z.of_N (Ascii.N_of_ascii c).
Definition ascii_of_byte (z : Z) : Ascii.ascii := Ascii.ascii_of_N (Z.to_N z).

Fixpoint bytes_of (s : string) : list Z :=
  match s with
  | EmptyString => []
  | String c s => byte_of c :: bytes_of s
  end.

Fixpoint string_of_bytes (l : list Z) : string :=
  match l with
  | [] => EmptyString
  | z :: l => String (ascii_of_byte z) (string_of_bytes l)
  end.

Definition chr (z : Z) : string := String (ascii_of_byte z) EmptyString.

(** ["\x00"], the separator of the composite keys. *)
Definition NUL : string := chr 0.

(** ** Prefixes and trimming *)

Fixpoint has_prefix (p s : string) : bool :=
  match p, s with
  | EmptyString, _ => true
  | String a p, String b s => Ascii.eqb a b && has_prefix p s
  | _, _ => false
  end.

Fixpoint drop_string (n : nat) (s : string) : string :=
  match n, s with
  | O, _ => s
  | S n, String _ s => drop_string n s
  | S _, EmptyString => EmptyString
  end.

Fixpoint take_string (n : nat) (s : string) : string :=
  match n, s with
  | O, _ => EmptyString
  | S n, String c s => String c (take_string n s)
  | S _, EmptyString => EmptyString
  end.

(** [strings.TrimPrefix] *)
Definition trim_prefix (p s : string) : string :=
  if has_prefix p s then drop_string (String.length p) s else s.

(** [unicode.IsSpace], by the length of the UTF-8 encoding. *)
Definition space1 (a : Ascii.ascii) : bool :=
  let a := byte_of a in ((9 <=? a) && (a <=? 13)) || (a =? 32).
Definition space2 (a b : Ascii.ascii) : bool :=
  let a := byte_of a in let b := byte_of b in
  (a =? 194) && ((b =? 133) || (b =? 160)).
Definition space3 (a b c : Ascii.ascii) : bool :=
  let a := byte_of a in let b := byte_of b in let c := byte_of c in
  ((a =? 225) && (b =? 154) && (c =? 128))
  || ((a =? 226) && (b =? 128) &&
        (((128 <=? c) && (c <=? 138)) || (c =? 168) || (c =? 169) || (c =? 175)))
  || ((a =? 226) && (b =? 129) && (c =? 159))
  || ((a =? 227) && (b =? 128) && (c =? 128)).

Section trim.
Context (sp2 : Ascii.ascii → Ascii.ascii → bool).
Context (sp3 : Ascii.ascii → Ascii.ascii → Ascii.ascii → bool).

(** Remove the longest prefix made of encoded spaces. *)
Fixpoint trim_with (s : string) : string :=
  match s with
  | EmptyString => s
  | String a s1 =>
      if space1 a then trim_with s1 else
      match s1 with
      | EmptyString => s
      | String b s2 =>
          if sp2 a b then trim_with s2 else
          match s2 with
          | EmptyString => s
          | String c s3 => if sp3 a b c then trim_with s3 else s
          end
      end
  end.
End trim.

Fixpoint rev_append (s acc : string) : string :=
  match s with
  | EmptyString => acc
  | String c s => rev_append s (String c acc)
  end.
Definition rev_string (s : string) : string := rev_append s EmptyString.

(** [strings.TrimRight(s, "c")] *)
Fixpoint trim_left_char (c : Ascii.ascii) (s : string) : string :=
  match s with
  | String a s' => if Ascii.eqb a c then trim_left_char c s' else s
  | EmptyString => EmptyString
  end.
Definition trim_right_char (c : Ascii.ascii) (s : string) : string :=
  rev_string (trim_left_char c (rev_string s)).

Definition trim_left : string → string := trim_with space2 space3.
(** On the reversed string the bytes of an encoding come last first. *)
Definition trim_right (s : string) : string :=
  rev_string (trim_with (λ a b, space2 b a) (λ a b c, space3 c b a) (rev_string s)).

(** [strings.TrimSpace] *)
Definition trim_space (s : string) : string := trim_right (trim_left s).

(** [strings.TrimSpace(s) == ""], the commonest guard of the validators. *)
Definition blank (s : string) : bool := String.eqb (trim_space s) "".

Example trim_space_ex : trim_space (chr 9 +:+ " a b " +:+ chr 194 +:+ chr 160) = "a b".
Proof. reflexivity. Qed.

(** ** Joining *)

(** [strings.Join] *)
Fixpoint join (sep : string) (l : list string) : string :=
  match l with
  | [] => ""
  | [s] => s
  | s :: l => s +:+ sep +:+ join sep l
  end.

Fixpoint no_nul (s : string) : bool :=
  match s with
  | EmptyString => true
  | String c s => negb (byte_of c =? 0) && no_nul s
  end.

Lemma nul_cut a1 a2 b1 b2 :
  no_nul a1 = true → no_nul a2 = true →
  a1 +:+ NUL +:+ b1 = a2 +:+ NUL +:+ b2 → a1 = a2 ∧ b1 = b2.
Proof.
  revert a2. induction a1 as [|c a1 IH]; intros [|d a2]; simpl; intros Ha1 Ha2 H.
  - by inversion H.
  - inversion H; subst. done.
  - inversion H; subst. done.
  - inversion H as [[Hc H']]; subst. apply andb_true_iff in Ha1 as [_ ?], Ha2 as [_ ?].
    destruct (IH a2) as [-> ->]; auto.
Qed.

(** Composite keys built with ["\x00"] between their parts determine the
    parts, as soon as no part but the last contains the separator. *)
Lemma join_nul_inj l1 l2 :
  length l1 = length l2 →
  Forall (λ s, no_nul s = true) l1 → Forall (λ s, no_nul s = true) l2 →
  join NUL l1 = join NUL l2 → l1 = l2.
Proof.
  revert l2. induction l1 as [|a l1 IH]; intros [|b l2]; simpl; try done.
  intros Hlen H1 H2 H. apply Forall_cons in H1 as [Ha H1], H2 as [Hb H2].
  destruct l1 as [|a' l1], l2 as [|b' l2]; simplify_eq/=; [done|].
  destruct (nul_cut _ _ _ _ Ha Hb H) as [-> H']. f_equal. apply IH; [simpl; congruence|done..].
Qed.

(** ** SHA-256 *)

Module Sha256.
Definition w32 (x : Z) : Z := x mod 2 ^ 32.
Definition rotr (n x : Z) : Z :=
  w32 (Z.lor (Z.shiftr x n) (Z.shiftl x (32 - n))).
Definition ch (x y z : Z) : Z :=
  Z.lxor (Z.land x y) (Z.land (Z.lxor x (2 ^ 32 - 1)) z).
Definition maj (x y z : Z) : Z :=
  Z.lxor (Z.lxor (Z.land x y) (Z.land x z)) (Z.land y z).
Definition bsig0 (x : Z) : Z := Z.lxor (Z.lxor (rotr 2 x) (rotr 13 x)) (rotr 22 x).
Definition bsig1 (x : Z) : Z := Z.lxor (Z.lxor (rotr 6 x) (rotr 11 x)) (rotr 25 x).
Definition ssig0 (x : Z) : Z := Z.lxor (Z.lxor (rotr 7 x) (rotr 18 x)) (Z.shiftr x 3).
Definition ssig1 (x : Z) : Z := Z.lxor (Z.lxor (rotr 17 x) (rotr 19 x)) (Z.shiftr x 10).

Definition unpack (n : nat) (z : Z) : list Z :=
  (λ i, Z.shiftr z (32 * Z.of_nat i) mod 2 ^ 32) <$> reverse (seq 0 n).

(** Sixteen 32-bit round constants per number. *)
Definition K : list Z := Eval vm_compute in
  mjoin (unpack 16 <$>
   [0x428a2f9871374491b5c0fbcfe9b5dba53956c25b59f111f1923f82a4ab1c5ed5d807aa9812835b01243185be550c7dc372be5d7480deb1fe9bdc06a7c19bf174;
    0xe49b69c1efbe47860fc19dc6240ca1cc2de92c6f4a7484aa5cb0a9dc76f988da983e5152a831c66db00327c8bf597fc7c6e00bf3d5a7914706ca635114292967;
    0x27b70a852e1b21384d2c6dfc53380d13650a7354766a0abb81c2c92e92722c85a2bfe8a1a81a664bc24b8b70c76c51a3d192e819d6990624f40e3585106aa070;
    0x19a4c1161e376c082748774c34b0bcb5391c0cb34ed8aa4a5b9cca4f682e6ff3748f82ee78a5636f84c878148cc7020890befffaa4506cebbef9a3f7c67178f2]).


Definition H0 : list Z :=
  [0x6a09e667; 0xbb67ae85; 0x3c6ef372; 0xa54ff53a; 0x510e527f; 0x9b05688c; 0x1f83d9ab; 0x5be0cd19].

(** [n] big-endian bytes of [x]. *)
Fixpoint be_bytes (n : nat) (x : Z) : list Z :=
  match n with
  | O => []
  | S n => Z.land (Z.shiftr x (8 * Z.of_nat n)) 255 :: be_bytes n x
  end.

Definition pad (m : list Z) : list Z :=
  let len := Z.of_nat (length m) in
  m ++ 128 :: replicate (Z.to_nat ((55 - len) mod 64)) 0 ++ be_bytes 8 (8 * len).

Fixpoint words (m : list Z) : list Z :=
  match m with
  | a :: b :: c :: d :: m =>
      (Z.shiftl a 24 + Z.shiftl b 16 + Z.shiftl c 8 + d) :: words m
  | _ => []
  end.

(** The message schedule, newest word first. *)
Fixpoint schedule (n : nat) (w : list Z) : list Z :=
  match n with
  | O => w
  | S n =>
      schedule n
        (w32 (ssig1 (nth 1 w 0) + nth 6 w 0 + ssig0 (nth 14 w 0) + nth 15 w 0) :: w)
  end.

Definition round (st : list Z) (kw : Z * Z) : list Z :=
  match st with
  | [a; b; c; d; e; f; g; h] =>
      let t1 := h + bsig1 e + ch e f g + kw.1 + kw.2 in
      let t2 := bsig0 a + maj a b c in
      [w32 (t1 + t2); a; b; c; w32 (d + t1); e; f; g]
  | _ => st
  end.

Definition block (st : list Z) (w : list Z) : list Z :=
  let ws := rev (schedule 48 (rev w)) in
  zip_with (λ a b, w32 (a + b)) st (foldl round st (zip K ws)).

Fixpoint blocks (n : nat) (st : list Z) (ws : list Z) : list Z :=
  match n with
  | O => st
  | S n => blocks n (block st (take 16 ws)) (drop 16 ws)
  end.

Definition digest (m : list Z) : list Z :=
  let p := pad m in
  flat_map (be_bytes 4) (blocks (length p / 64) H0 (words p)).

Definition hex_digit (z : Z) : string :=
  chr (if z <? 10 then 48 + z else 87 + z).
Definition hex_byte (z : Z) : string := hex_digit (z / 16) +:+ hex_digit (z mod 16).
Definition hex (l : list Z) : string := join "" (hex_byte <$> l).
End Sha256.

(** [hex.EncodeToString(sha256.Sum256([]byte(s)))] *)
Definition sha256_hex (s : string) : string := Sha256.hex (Sha256.digest (bytes_of s)).

Example sha256_abc : sha256_hex "abc" =
  "ba7816bf8f01cfea414140de5dae2223b00361a396177a9cb410ff61f20015ad".
Proof. vm_compute. reflexivity. Qed.
Example sha256_empty : sha256_hex "" =
  "e3b0c44298fc1c149afbf4c8996fb92427ae41e4649b934ca495991b7852b855".
Proof. vm_compute. reflexivity. Qed.
Example sha256_two_blocks : sha256_hex "abcdbcdecdefdefgefghfghighijhijkijkljklmklmnlmnomnopnopq" =
  "248d6a61d20638b8e5c026930c3e6039a33ce45964ff2167f6ecedd419db06c1".
Proof. vm_compute. reflexivity. Qed.

(** These two strings are different and have the same digest. *)
Definition collide (a b : string) : Prop := a ≠ b ∧ sha256_hex a = sha256_hex b.

(** The 64 bits that identifiers keep of a digest. *)
Definition shortHash (value : string) : string := take_string 16 (sha256_hex value).

#[global] Opaque sha256_hex shortHash.
#[global] Opaque trim_space.

Lemma sha256_hex_inj a b : sha256_hex a = sha256_hex b → a = b ∨ collide a b.
Proof. intros H. destruct (decide (a = b)); [by left|by right]. Qed.

(** ** Generic string lemmas *)

Lemma app_str_cons c a b : String c a +:+ b = String c (a +:+ b).
Proof. done. Qed.

Lemma app_str_assoc a b c : (a +:+ b) +:+ c = a +:+ (b +:+ c).
Proof. induction a as [|x a IH]; [done|]. by rewrite !app_str_cons, IH. Qed.

Lemma app_str_inj_l p a b : p +:+ a = p +:+ b → a = b.
Proof. induction p as [|x p IH]; [done|]. rewrite !app_str_cons. naive_solver. Qed.
