(* ===== verification/GoTime.v ===== *)
(** * Go's [time] as the program uses it

    A [time.Time] is an instant, here the number of nanoseconds since the
    zero time (January 1, year 1, 00:00:00 UTC), so [IsZero] is [t = 0],
    [Before]/[After]/[Add] are those of Z and [UTC()] is the identity.  A
    [time.Duration] is an int64 number of nanoseconds.

    [rfc3339nano] is [t.UTC().Format(time.RFC3339Nano)] and [parse_rfc3339]
    is [time.Parse] with that layout (or [time.RFC3339]), leniencies
    included; [ParseDuration] is the function of that name with its
    overflow checks and its float64 arithmetic on fractions. *)

From stdpp Require Import options.
From Stdlib Require Import SpecFloat.
From S2P Require Import Prelude GoStrings.
#[local] Open Scope Z_scope.

Abbreviation time := Z (only parsing).
Abbreviation duration := Z (only parsing).

Definition IsZero (t : time) : bool := t =? 0.
Definition Before (t u : time) : bool := t <? u.
Definition After (t u : time) : bool := u <? t.

Definition second : Z := 1000000000.
Definition day : Z := 86400 * second.

(** ** Calendar *)

(** Days are counted from March 1, year 0, so that the leap day ends a
    year; 306 of them precede January 1, year 1. *)
Definition civil_from_days (z : Z) : Z * Z * Z :=
  let era := z / 146097 in
  let doe := z mod 146097 in
  let yoe := (doe - doe / 1460 + doe / 36524 - doe / 146096) / 365 in
  let doy := doe - (365 * yoe + yoe / 4 - yoe / 100) in
  let mp := (5 * doy + 2) / 153 in
  let d := doy - (153 * mp + 2) / 5 + 1 in
  let m := if mp <? 10 then mp + 3 else mp - 9 in
  (yoe + era * 400 + (if m <=? 2 then 1 else 0), m, d).

Definition days_from_civil (y m d : Z) : Z :=
  let y := if m <=? 2 then y - 1 else y in
  let era := y / 400 in
  let yoe := y mod 400 in
  let mp := if 2 <? m then m - 3 else m + 9 in
  let doy := (153 * mp + 2) / 5 + d - 1 in
  let doe := yoe * 365 + yoe / 4 - yoe / 100 + doy in
  era * 146097 + doe.

Definition is_leap (y : Z) : bool :=
  (y mod 4 =? 0) && (negb (y mod 100 =? 0) || (y mod 400 =? 0)).
Definition days_in (m y : Z) : Z :=
  if m =? 2 then (if is_leap y then 29 else 28)
  else if (m =? 4) || (m =? 6) || (m =? 9) || (m =? 11) then 30 else 31.

(** ** Formatting *)

Definition digit (z : Z) : string := chr (48 + z).

(** [n] decimal digits of [z], most significant first. *)
Fixpoint digits (n : nat) (z : Z) : string :=
  match n with
  | O => ""
  | S n => digits n (z / 10) +:+ digit (z mod 10)
  end.

(** [appendInt(b, x, 4)]: at least four digits, more when needed. *)
Definition year_string (y : Z) : string :=
  if y <? 0 then "-" +:+ (if - y <? 10000 then digits 4 (- y) else pretty (- y))
  else if y <? 10000 then digits 4 y else pretty y.

(** The fraction [appendNano] writes with trailing zeros removed. *)
Fixpoint strip_zeros (n : nat) (z : Z) : nat * Z :=
  match n with
  | O => (O, z)
  | S n' => if z mod 10 =? 0 then strip_zeros n' (z / 10) else (n, z)
  end.
Definition frac_string (ns : Z) : string :=
  match strip_zeros 9 ns with
  | (O, _) => ""
  | (n, z) => "." +:+ digits n z
  end.

Definition rfc3339nano (t : time) : string :=
  let '(y, m, d) := civil_from_days (t / day + 306) in
  let sec := (t mod day) / second in
  year_string y +:+ "-" +:+ digits 2 m +:+ "-" +:+ digits 2 d +:+ "T" +:+
  digits 2 (sec / 3600) +:+ ":" +:+ digits 2 (sec / 60 mod 60) +:+ ":" +:+
  digits 2 (sec mod 60) +:+ frac_string (t mod second) +:+ "Z".

(** [t.UTC().String()], layout "2006-01-02 15:04:05.999999999 -0700 MST". *)
Definition time_string (t : time) : string :=
  let '(y, m, d) := civil_from_days (t / day + 306) in
  let sec := (t mod day) / second in
  year_string y +:+ "-" +:+ digits 2 m +:+ "-" +:+ digits 2 d +:+ " " +:+
  digits 2 (sec / 3600) +:+ ":" +:+ digits 2 (sec / 60 mod 60) +:+ ":" +:+
  digits 2 (sec mod 60) +:+ frac_string (t mod second) +:+ " +0000 UTC".

(** ** Parsing *)

Definition digit_of (c : Ascii.ascii) : option Z :=
  let z := byte_of c in
  if (48 <=? z) && (z <=? 57) then Some (z - 48) else None.

(** A literal of the layout. *)
Definition skip (p s : string) : option string :=
  if has_prefix p s then Some (drop_string (String.length p) s) else None.

#[global] Arguments skip : simpl never.

(** Exactly [n] digits. *)
Fixpoint get_digits (n : nat) (acc : Z) (s : string) : option (Z * string) :=
  match n with
  | O => Some (acc, s)
  | S n =>
      match s with
      | String c s => z ← digit_of c; get_digits n (10 * acc + z) s
      | EmptyString => None
      end
  end.

(** [getnum(s, false)]: one digit, or two when a second one follows. *)
Definition get_hour (s : string) : option (Z * string) :=
  match s with
  | String a s1 =>
      x ← digit_of a;
      match s1 with
      | String b s2 =>
          match digit_of b with
          | Some y => Some (10 * x + y, s2)
          | None => Some (x, s1)
          end
      | EmptyString => Some (x, s1)
      end
  | EmptyString => None
  end.

(** The digits of a fraction: nine count, the rest are dropped. *)
Fixpoint get_frac (n : nat) (acc : Z) (s : string) : Z * string :=
  match s with
  | String c s' =>
      match digit_of c with
      | Some z =>
          match n with
          | O => get_frac O acc s'
          | S n => get_frac n (10 * acc + z) s'
          end
      | None => (acc * 10 ^ Z.of_nat n, s)
      end
  | EmptyString => (acc * 10 ^ Z.of_nat n, s)
  end.
Definition get_nanos (s : string) : Z * string :=
  match s with
  | String c (String d _ as s') =>
      if (byte_of c =? 46) || (byte_of c =? 44) then
        match digit_of d with Some _ => get_frac 9 0 s' | None => (0, s) end
      else (0, s)
  | _ => (0, s)
  end.

(** [Z07:00]: the offset in seconds. *)
Definition get_zone (s : string) : option (Z * string) :=
  match s with
  | String c s1 =>
      if byte_of c =? 90 then Some (0, s1) else
      '(h, s2) ← get_digits 2 0 s1;
      s3 ← skip ":" s2;
      '(m, s4) ← get_digits 2 0 s3;
      if (24 <? h) || (60 <? m) then None else
      let off := (h * 60 + m) * 60 in
      if byte_of c =? 43 then Some (off, s4)
      else if byte_of c =? 45 then Some (- off, s4) else None
  | EmptyString => None
  end.

Definition parse_rfc3339 (s : string) : option time :=
  '(y, s) ← get_digits 4 0 s;
  s ← skip "-" s;
  '(mo, s) ← get_digits 2 0 s;
  if (mo <=? 0) || (12 <? mo) then None else
  s ← skip "-" s;
  '(d, s) ← get_digits 2 0 s;
  s ← skip "T" s;
  '(h, s) ← get_hour s;
  if 24 <=? h then None else
  s ← skip ":" s;
  '(mi, s) ← get_digits 2 0 s;
  if 60 <=? mi then None else
  s ← skip ":" s;
  '(sec, s) ← get_digits 2 0 s;
  if 60 <=? sec then None else
  let '(ns, s) := get_nanos s in
  '(off, s) ← get_zone s;
  if (d <? 1) || (days_in mo y <? d) then None else
  match s with
  | EmptyString =>
      Some ((days_from_civil y mo d - 306) * day
            + (h * 3600 + mi * 60 + sec - off) * second + ns)
  | _ => None
  end.

Example rfc3339nano_zero : rfc3339nano 0 = "0001-01-01T00:00:00Z".
Proof. reflexivity. Qed.
Example parse_rfc3339_ex :
  parse_rfc3339 "2026-07-03T23:59:59.5+02:00" = parse_rfc3339 "2026-07-03T21:59:59.500Z".
Proof. reflexivity. Qed.
Example rfc3339nano_ex :
  rfc3339nano <$> parse_rfc3339 "2026-07-03T21:59:59.500Z" = Some "2026-07-03T21:59:59.5Z".
Proof. reflexivity. Qed.

(** ** Round trip *)

Lemma byte_of_ascii z : 0 ≤ z < 256 → byte_of (ascii_of_byte z) = z.
Proof.
  intros ?. unfold byte_of, ascii_of_byte. rewrite Ascii.N_ascii_embedding; lia.
Qed.

Lemma digit_of_digit z : 0 ≤ z < 10 → digit_of (ascii_of_byte (48 + z)) = Some z.
Proof.
  intros ?. unfold digit_of. rewrite byte_of_ascii by lia. simpl.
  rewrite (proj2 (Z.leb_le _ _)), (proj2 (Z.leb_le _ _)) by lia. simpl. f_equal; lia.
Qed.

Lemma digits_S n z s :
  digits (S n) z +:+ s = digits n (z / 10) +:+ String (ascii_of_byte (48 + z mod 10)) s.
Proof. simpl. unfold digit, chr. by rewrite app_str_assoc. Qed.

Lemma get_digits_digits n m acc z s :
  0 ≤ z < 10 ^ Z.of_nat n →
  get_digits (n + m) acc (digits n z +:+ s) = get_digits m (acc * 10 ^ Z.of_nat n + z) s.
Proof.
  revert m acc z s. induction n as [|n IH]; intros m acc z s Hz.
  { change (Z.of_nat 0) with 0 in *. rewrite Z.pow_0_r in *.
    by replace (acc * 1 + z) with acc by lia. }
  rewrite Nat2Z.inj_succ, Z.pow_succ_r in * by lia. rewrite digits_S.
  replace (S n + m)%nat with (n + S m)%nat by lia. rewrite IH.
  2:{ split; [apply Z.div_pos; lia|apply Z.div_lt_upper_bound; lia]. }
  simpl. rewrite digit_of_digit by (apply Z.mod_pos_bound; lia). simpl. f_equal.
  pose proof (Z.div_mod z 10). lia.
Qed.

Lemma get_digits_2 z s : 0 ≤ z < 100 → get_digits 2 0 (digits 2 z +:+ s) = Some (z, s).
Proof. intros ?. apply (get_digits_digits 2 0 0 z s). simpl; lia. Qed.
Lemma get_digits_4 z s : 0 ≤ z < 10000 → get_digits 4 0 (digits 4 z +:+ s) = Some (z, s).
Proof. intros ?. apply (get_digits_digits 4 0 0 z s). simpl; lia. Qed.

Lemma get_hour_2 z s : 0 ≤ z < 100 → get_hour (digits 2 z +:+ s) = Some (z, s).
Proof.
  intros ?. rewrite !digits_S. simpl.
  rewrite (digit_of_digit (z / 10 mod 10)) by (apply Z.mod_pos_bound; lia). simpl.
  rewrite digit_of_digit by (apply Z.mod_pos_bound; lia). do 2 f_equal.
  rewrite (Z.mod_small (z / 10)); [pose proof (Z.div_mod z 10); lia|].
  split; [apply Z.div_pos; lia|apply Z.div_lt_upper_bound; lia].
Qed.

Lemma get_frac_digits n k acc z s :
  (n ≤ k)%nat → 0 ≤ z < 10 ^ Z.of_nat n →
  get_frac k acc (digits n z +:+ s) = get_frac (k - n) (acc * 10 ^ Z.of_nat n + z) s.
Proof.
  revert k acc z s. induction n as [|n IH]; intros k acc z s Hk Hz.
  { change (Z.of_nat 0) with 0 in *. rewrite Z.pow_0_r in *.
    rewrite Nat.sub_0_r. by replace (acc * 1 + z) with acc by lia. }
  rewrite Nat2Z.inj_succ, Z.pow_succ_r in * by lia. rewrite digits_S, IH; [|lia|].
  2:{ split; [apply Z.div_pos; lia|apply Z.div_lt_upper_bound; lia]. }
  replace (k - n)%nat with (S (k - S n)) by lia. simpl.
  rewrite digit_of_digit by (apply Z.mod_pos_bound; lia). f_equal.
  pose proof (Z.div_mod z 10). lia.
Qed.

Lemma digits_head n z s :
  ∃ c s' x, digits (S n) z +:+ s = String c s' ∧ digit_of c = Some x.
Proof.
  revert z s. induction n as [|n IH]; intros z s; rewrite digits_S.
  - do 3 eexists. split; [done|]. apply digit_of_digit, Z.mod_pos_bound. lia.
  - apply IH.
Qed.

Lemma strip_zeros_spec k z :
  0 ≤ z < 10 ^ Z.of_nat k →
  let '(n, y) := strip_zeros k z in
  (n ≤ k)%nat ∧ 0 ≤ y < 10 ^ Z.of_nat n ∧ y * 10 ^ Z.of_nat (k - n) = z.
Proof.
  revert z. induction k as [|k IH]; intros z Hz; simpl strip_zeros.
  { simpl in *. repeat split; lia. }
  destruct (Z.eqb_spec (z mod 10) 0) as [Hm|Hm].
  2:{ rewrite Nat.sub_diag. simpl Z.of_nat in *. repeat split; lia. }
  assert (Hd : z = 10 * (z / 10)) by (pose proof (Z.div_mod z 10); lia).
  rewrite Nat2Z.inj_succ, Z.pow_succ_r in Hz by lia.
  specialize (IH (z / 10)). destruct (strip_zeros k (z / 10)) as [n y].
  destruct IH as (? & ? & Hy).
  { split; [apply Z.div_pos; lia|apply Z.div_lt_upper_bound; lia]. }
  split_and!; [lia..|]. replace (S k - n)%nat with (S (k - n)) by lia.
  rewrite Nat2Z.inj_succ, Z.pow_succ_r by lia. lia.
Qed.

Lemma get_nanos_frac ns :
  0 ≤ ns < second → get_nanos (frac_string ns +:+ "Z") = (ns, "Z").
Proof.
  intros Hns. unfold frac_string. pose proof (strip_zeros_spec 9 ns Hns) as H.
  destruct (strip_zeros 9 ns) as [n z]. destruct H as (Hn & Hz & Hns').
  destruct n as [|n].
  { simpl in Hz. assert (z = 0) as -> by lia. simpl in Hns'. subst. done. }
  rewrite app_str_assoc.
  destruct (digits_head n z "Z") as (c & s' & x & Heq & Hc).
  pose proof (get_frac_digits (S n) 9 0 z "Z" Hn Hz) as HF. rewrite Heq in *.
  transitivity (get_frac 9 0 (String c s')); [simpl; by rewrite Hc|].
  rewrite HF, <- Hns'. done.
Qed.

Lemma skip_app p s : skip p (p +:+ s) = Some s.
Proof.
  unfold skip.
  assert (has_prefix p (p +:+ s) = true ∧ drop_string (String.length p) (p +:+ s) = s)
    as [-> ->]; [|done].
  induction p as [|c p [IH1 IH2]]; rewrite ?app_str_cons; simpl; [by destruct s|].
  by rewrite Ascii.eqb_refl, IH1, IH2.
Qed.

(** The calendar.  The year of a day within its 400-year era is arithmetic;
    month and day are checked on the 366 days of a year. *)
Lemma era_split doe :
  0 ≤ doe < 146097 →
  let yoe := (doe - doe / 1460 + doe / 36524 - doe / 146096) / 365 in
  let doy := doe - (365 * yoe + yoe / 4 - yoe / 100) in
  0 ≤ yoe < 400 ∧ 0 ≤ doy ≤ 365 ∧ (doy = 365 → is_leap (yoe + 1) = true).
Proof.
  intros Hdoe yoe doy. assert (0 ≤ yoe < 400 ∧ 0 ≤ doy ≤ 365) as [Hy Hd].
  { subst yoe doy. Z.div_mod_to_equations; lia. }
  split_and!; [lia..|]. intros Hdoy.
  enough ((yoe + 1) mod 4 = 0 ∧ ((yoe + 1) mod 100 ≠ 0 ∨ (yoe + 1) mod 400 = 0))
    as [H4 H100].
  { unfold is_leap. rewrite H4. simpl. destruct (Z.eqb_spec ((yoe + 1) mod 100) 0);
      simpl; [|done]. apply Z.eqb_eq. tauto. }
  subst yoe doy. Z.div_mod_to_equations; lia.
Qed.

Fixpoint all_from (f : Z → bool) (n : nat) (z : Z) : bool :=
  match n with
  | O => true
  | S n => f z && all_from f n (z + 1)
  end.

Lemma all_from_spec f n z :
  all_from f n z = true → ∀ x, z ≤ x < z + Z.of_nat n → f x = true.
Proof.
  revert z. induction n as [|n IH]; intros z; simpl; [lia|].
  intros [Hz H]%andb_true_iff x ?. destruct (decide (x = z)) as [->|]; [done|].
  apply (IH _ H). lia.
Qed.

Definition year_day_ok (doy : Z) : bool :=
  let mp := (5 * doy + 2) / 153 in
  let d := doy - (153 * mp + 2) / 5 + 1 in
  let m := if mp <? 10 then mp + 3 else mp - 9 in
  (1 <=? m) && (m <=? 12) && (1 <=? d) && ((if 2 <? m then m - 3 else m + 9) =? mp) &&
  (if m =? 2 then if doy =? 365 then d =? 29 else d <=? 28 else d <=? days_in m 0).

Lemma month_split doy :
  0 ≤ doy ≤ 365 →
  let mp := (5 * doy + 2) / 153 in
  let d := doy - (153 * mp + 2) / 5 + 1 in
  let m := if mp <? 10 then mp + 3 else mp - 9 in
  1 ≤ m ≤ 12 ∧ 1 ≤ d ∧ (if 2 <? m then m - 3 else m + 9) = mp ∧
  ∀ y, (doy = 365 → is_leap y = true) → d ≤ days_in m y.
Proof.
  intros Hdoy mp d m.
  assert (Hok : year_day_ok doy = true).
  { apply (all_from_spec year_day_ok 366 0); [vm_compute; reflexivity|lia]. }
  unfold year_day_ok in Hok. fold mp in Hok. cbv zeta in Hok. fold d m in Hok.
  repeat (apply andb_true_iff in Hok as [Hok ?]). rewrite ?Z.eqb_eq, ?Z.leb_le in *.
  split_and!; [done..|]. intros y Hleap. unfold days_in in *.
  destruct (m =? 2); rewrite ?Z.leb_le in *; [|done].
  destruct (Z.eqb_spec doy 365) as [Heq|]; rewrite ?Z.leb_le, ?Z.eqb_eq in *.
  - rewrite Hleap by done. lia.
  - destruct (is_leap y); lia.
Qed.

Lemma is_leap_era y e : is_leap (y + e * 400) = is_leap y.
Proof.
  unfold is_leap. rewrite Z.mod_add by lia.
  replace (y + e * 400) with (y + (e * 100) * 4) at 1 by lia.
  replace (y + e * 400) with (y + (e * 4) * 100) by lia.
  by rewrite !Z.mod_add by lia.
Qed.

Lemma civil_spec z y m d :
  civil_from_days z = (y, m, d) →
  days_from_civil y m d = z ∧ 1 ≤ m ≤ 12 ∧ 1 ≤ d ≤ days_in m y ∧
  400 * (z / 146097) ≤ (if m <=? 2 then y - 1 else y) < 400 * (z / 146097) + 400.
Proof.
  intros H. pose proof (Z.mod_pos_bound z 146097 ltac:(lia)) as Hdoe.
  destruct (era_split _ Hdoe) as (Hyoe & Hdoy & Hleap).
  unfold civil_from_days in H. cbv zeta in *.
  set (doe := z mod 146097) in *.
  set (yoe := (doe - doe / 1460 + doe / 36524 - doe / 146096) / 365) in *.
  set (doy := doe - (365 * yoe + yoe / 4 - yoe / 100)) in *.
  destruct (month_split _ Hdoy) as (Hm & Hd & Hmp & Hdays). cbv zeta in *.
  injection H as Hy Hm' Hd'. rewrite Hm', Hd' in *.
  set (b := if m <=? 2 then 1 else 0) in *.
  assert (Hb : (if m <=? 2 then y - 1 else y) = yoe + z / 146097 * 400).
  { subst b. destruct (m <=? 2); lia. }
  split_and!; [|lia|lia|lia| |rewrite Hb; lia|rewrite Hb; lia].
  - unfold days_from_civil. cbv zeta.
    rewrite Hb, Hmp, Z.div_add, Z.mod_add, Z.div_small, Z.mod_small by lia.
    pose proof (Z.div_mod z 146097). subst doy. lia.
  - apply Hdays. intros Heq. rewrite <- Hy.
    replace (yoe + z / 146097 * 400 + b) with (yoe + 1 + z / 146097 * 400).
    + rewrite is_leap_era. auto.
    + subst b. rewrite Heq in Hm'. vm_compute in Hm'. subst m. simpl. lia.
Qed.

(** Times of the years 1 to 9999. *)
Definition max_time : Z := 3652059 * day.
Definition time_ok (t : time) : Prop := 0 ≤ t < max_time.

#[global] Arguments digits : simpl never.
#[global] Arguments get_digits : simpl never.
#[global] Arguments get_hour : simpl never.
#[global] Arguments get_nanos : simpl never.

(** [parseTime (formatTime t)] gives [t] back. *)
Theorem rfc3339_round_trip t :
  time_ok t → parse_rfc3339 (rfc3339nano t) = Some t.
Proof.
  intros [Ht0 Ht1]. unfold max_time in Ht1. unfold rfc3339nano.
  destruct (civil_from_days (t / day + 306)) as [[y m] d] eqn:Hc.
  apply civil_spec in Hc as (Hdays & Hm & Hd & Hy).
  assert (0 < day) by done.
  assert (Hq : 0 ≤ t / day < 3652059).
  { split; [apply Z.div_pos; lia|apply Z.div_lt_upper_bound; lia]. }
  pose proof (Z.mod_pos_bound t day ltac:(done)) as Hr.
  assert (Hy' : 0 ≤ y < 10000).
  { pose proof (Z.div_mod (t / day + 306) 146097 ltac:(lia)).
    pose proof (Z.mod_pos_bound (t / day + 306) 146097 ltac:(lia)).
    unfold days_from_civil in Hdays. cbv zeta in Hdays.
    revert Hdays Hy. destruct (Z.leb_spec m 2); intros.
    all: Z.div_mod_to_equations; destruct (2 <? m) eqn:?; lia. }
  set (sec := t mod day / second).
  assert (Hsec : 0 ≤ sec < 86400).
  { split; [apply Z.div_pos; [lia|done]|apply Z.div_lt_upper_bound; [done|]].
    change (second * 86400) with day. lia. }
  pose proof (Z.mod_pos_bound t second ltac:(done)) as Hns.
  assert (days_in m y ≤ 31) by (unfold days_in; repeat case_match; lia).
  unfold parse_rfc3339, year_string.
  rewrite (proj2 (Z.ltb_ge y 0)), (proj2 (Z.ltb_lt y 10000)) by lia.
  rewrite get_digits_4 by lia. cbn [mbind option_bind orb]. rewrite skip_app. cbn [mbind option_bind orb].
  rewrite get_digits_2 by lia. cbn [mbind option_bind orb].
  rewrite (proj2 (Z.leb_gt m 0)), (proj2 (Z.ltb_ge 12 m)) by lia. cbn [mbind option_bind orb].
  rewrite skip_app. cbn [mbind option_bind orb]. rewrite get_digits_2 by lia. cbn [mbind option_bind orb]. rewrite skip_app. cbn [mbind option_bind orb].
  rewrite get_hour_2 by (Z.div_mod_to_equations; lia). cbn [mbind option_bind orb].
  rewrite (proj2 (Z.leb_gt 24 (sec / 3600))) by (Z.div_mod_to_equations; lia).
  rewrite skip_app. cbn [mbind option_bind orb]. rewrite get_digits_2 by (Z.div_mod_to_equations; lia). cbn [mbind option_bind orb].
  rewrite (proj2 (Z.leb_gt 60 _)) by (Z.div_mod_to_equations; lia).
  rewrite skip_app. cbn [mbind option_bind orb]. rewrite get_digits_2 by (Z.div_mod_to_equations; lia). cbn [mbind option_bind orb].
  rewrite (proj2 (Z.leb_gt 60 _)) by (Z.div_mod_to_equations; lia).
  rewrite get_nanos_frac by done. cbn [mbind option_bind orb].
  rewrite (proj2 (Z.ltb_ge d 1)), (proj2 (Z.ltb_ge (days_in m y) d)) by lia. cbn [mbind option_bind orb].
  rewrite Hdays. change (get_zone "Z") with (Some (0, "")).
  cbn [mbind option_bind]. f_equal. rewrite Z.sub_0_r.
  replace (sec / 3600 * 3600 + sec / 60 mod 60 * 60 + sec mod 60) with sec
    by (Z.div_mod_to_equations; lia).
  assert ((t mod day) mod second = t mod second) as <-.
  { apply Z.mod_mod_divide. by exists 86400. }
  pose proof (Z.div_mod t day). pose proof (Z.div_mod (t mod day) second). lia.
Qed.
