(* ===== verification/GoDuration.v ===== *)
(** * [time.ParseDuration]

    The parser of Go's standard library, with its uint64 overflow tests and
    the float64 arithmetic it uses for the fraction of a component
    ([SpecFloat] gives binary64 on Z).  Durations are int64 nanoseconds. *)

From stdpp Require Import options.
From Stdlib Require Import SpecFloat.
From S2P Require Import Prelude GoStrings GoTime.
#[local] Open Scope Z_scope.

Definition max_int64 : Z := 2 ^ 63 - 1.
Definition min_int64 : Z := - 2 ^ 63.

(** [leadingInt]: the leading digits, [None] on overflow. *)
Fixpoint leading_int (x : Z) (s : string) : option (Z * string) :=
  match s with
  | String c s' =>
      match digit_of c with
      | Some d =>
          if 2 ^ 63 / 10 <? x then None else
          let x := 10 * x + d in
          if 2 ^ 63 <? x then None else leading_int x s'
      | None => Some (x, s)
      end
  | EmptyString => Some (x, s)
  end.

(** [leadingFraction]: the digits that fit, the power of ten they are
    divided by, and the rest. *)
Fixpoint leading_fraction (x scale : Z) (overflow : bool) (s : string) : Z * Z * string :=
  match s with
  | String c s' =>
      match digit_of c with
      | Some d =>
          if overflow || ((2 ^ 63 - 1) / 10 <? x) then leading_fraction x scale true s' else
          let y := 10 * x + d in
          if 2 ^ 63 <? y then leading_fraction x scale true s'
          else leading_fraction y (10 * scale) false s'
      | None => (x, scale, s)
      end
  | EmptyString => (x, scale, s)
  end.

(** The unit: everything up to the next digit or point. *)
Fixpoint take_unit (s : string) : string * string :=
  match s with
  | String c s' =>
      if (byte_of c =? 46) || bool_decide (is_Some (digit_of c)) then ("", s)
      else let '(u, r) := take_unit s' in (String c u, r)
  | EmptyString => ("", "")
  end.

Definition unit_map (u : string) : option Z :=
  if u ==s "ns" then Some 1
  else if u ==s "us" then Some 1000
  else if u ==s (chr 194 +:+ chr 181 +:+ "s") then Some 1000   (* U+00B5 *)
  else if u ==s (chr 206 +:+ chr 188 +:+ "s") then Some 1000   (* U+03BC *)
  else if u ==s "ms" then Some 1000000
  else if u ==s "s" then Some 1000000000
  else if u ==s "m" then Some 60000000000
  else if u ==s "h" then Some 3600000000000
  else None.

Definition float64 : Type := spec_float.
Definition float_of_Z (z : Z) : float64 := binary_normalize 53 1024 z 0 false.

(** [uint64(f)] of a finite non-negative float: the integer part. *)
Definition trunc_float (f : float64) : Z :=
  match f with
  | S754_finite false m e => Z.shiftl (Zpos m) e
  | _ => 0
  end.

(** [uint64(float64(f) * (float64(unit) / scale))] *)
Definition fraction_ns (f unit scale : Z) : Z :=
  trunc_float (SFmul 53 1024 (float_of_Z f)
                 (SFdiv 53 1024 (float_of_Z unit) (float_of_Z scale))).

(** One component [digits[.digits]unit]: its value and the rest. *)
Definition component (s : string) : option (Z * string) :=
  match s with
  | EmptyString => None
  | String c _ =>
      if negb ((byte_of c =? 46) || bool_decide (is_Some (digit_of c))) then None else
      '(v, s1) ← leading_int 0 s;
      let pre := negb (Nat.eqb (String.length s1) (String.length s)) in
      let '(f, scale, s2, post) :=
        match s1 with
        | String p s1' =>
            if byte_of p =? 46 then
              let '(f, scale, s2) := leading_fraction 0 1 false s1' in
              (f, scale, s2, negb (Nat.eqb (String.length s2) (String.length s1')))
            else (0, 1, s1, false)
        | EmptyString => (0, 1, s1, false)
        end in
      if negb pre && negb post then None else
      let '(u, s3) := take_unit s2 in
      if empty_str u then None else
      unit ← unit_map u;
      if 2 ^ 63 / unit <? v then None else
      let v := v * unit in
      let v := if 0 <? f then v + fraction_ns f unit scale else v in
      if 2 ^ 63 <? v then None else Some (v, s3)
  end.

(** The loop over the components; every component consumes at least its
    unit, so the length of the string is enough fuel. *)
Fixpoint components (fuel : nat) (d : Z) (s : string) : option Z :=
  match s with
  | EmptyString => Some d
  | _ =>
      match fuel with
      | O => None
      | S fuel =>
          '(v, s) ← component s;
          let d := (d + v) mod 2 ^ 64 in
          if 2 ^ 63 <? d then None else components fuel d s
      end
  end.

Definition ParseDuration (s : string) : option duration :=
  let '(neg, s) :=
    match s with
    | String c s' =>
        if byte_of c =? 45 then (true, s') else if byte_of c =? 43 then (false, s') else (false, s)
    | EmptyString => (false, s)
    end in
  if s ==s "0" then Some 0 else
  if empty_str s then None else
  d ← components (String.length s) 0 s;
  if neg : bool then Some (- d)
  else if max_int64 <? d then None else Some d.

Example duration_ex1 : ParseDuration "1h15m30.918s" = Some 4530918000000.
Proof. reflexivity. Qed.
Example duration_ex2 : ParseDuration "1.5h" = Some 5400000000000.
Proof. reflexivity. Qed.
Example duration_ex3 : ParseDuration "-.5s" = Some (-500000000).
Proof. reflexivity. Qed.
Example duration_ex4 : ParseDuration "5" = None.
Proof. reflexivity. Qed.
Example duration_ex5 : ParseDuration "9223372036854775808ns" = None.
Proof. reflexivity. Qed.
Example duration_ex6 : ParseDuration "-9223372036854775808ns" = Some min_int64.
Proof. reflexivity. Qed.
Example duration_ex7 : ParseDuration "0.000000001h" = Some 3600.
Proof. reflexivity. Qed.

(** A parsed duration is an int64. *)
Lemma components_bounds fuel d s r :
  0 ≤ d ≤ 2 ^ 63 → components fuel d s = Some r → 0 ≤ r ≤ 2 ^ 63.
Proof.
  revert d s. induction fuel as [|fuel IH]; intros d s Hd H; simpl in H;
    destruct s as [|c s]; simplify_eq; [done..|].
  destruct (component (String c s)) as [[v s']|]; simpl in H; [|done].
  destruct (Z.ltb_spec (2 ^ 63) ((d + v) mod 2 ^ 64)); [done|].
  eapply IH; [|exact H]. split; [apply Z.mod_pos_bound|]; lia.
Qed.

Lemma ParseDuration_int64 s d :
  ParseDuration s = Some d → min_int64 ≤ d ≤ max_int64.
Proof.
  unfold ParseDuration. intros H.
  set (p := match s with
            | EmptyString => (false, s)
            | String c s' => _ end) in H. destruct p as [neg s'].
  destruct (s' ==s "0"); [by simplify_eq|]. destruct (empty_str s'); [done|].
  destruct (components _ _ _) as [r|] eqn:Hr; simpl in H; [|done].
  apply components_bounds in Hr; [|by compute]. unfold min_int64, max_int64 in *.
  destruct neg; [simplify_eq; lia|].
  destruct (Z.ltb_spec (2 ^ 63 - 1) r); simplify_eq. lia.
Qed.
