(* ===== verification/Risk.v ===== *)
(** * Risk contexts ([internal/core/risk])

    Tiers, normalisation of identifiers, the policy behaviour a risk context
    selects, and the validity test that turns a stale or malformed context
    into an unknown one.  [wall] is what [time.Now().UTC()] returns where the
    code falls back on the wall clock. *)

From stdpp Require Import options.
From S2P Require Import Prelude GoStrings GoTime GoDuration.
#[local] Open Scope Z_scope.

Definition TierLow := "low".
Definition TierMedium := "medium".
Definition TierHigh := "high".
Definition TierCritical := "critical".
Definition TierUnknown := "unknown".
Definition ScopeLocal := "local".
Definition ScopeGlobal := "global".

Record RiskSignal := {
  sig_Type : string;
  sig_Tier : string;
  sig_Score : option float64;
  sig_Reasons : list string;
  sig_Confidence : float64;
  sig_ObservedAt : time;
  sig_EvaluatedAt : time;
  sig_ValidUntil : time;
  sig_Source : string;
  sig_Scope : string;
}.

Record RiskContext := {
  rc_RiskType : string;
  rc_Tier : string;
  rc_Score : option float64;
  rc_Confidence : float64;
  rc_Reasons : list string;
  rc_Signals : list RiskSignal;
  rc_Source : string;
  rc_Scope : string;
  rc_EvaluatedAt : time;
  rc_ValidUntil : time;
}.

(** The zero value [RiskContext{}]. *)
Definition zero_RiskContext : RiskContext := {|
  rc_RiskType := ""; rc_Tier := ""; rc_Score := None; rc_Confidence := float_of_Z 0;
  rc_Reasons := []; rc_Signals := []; rc_Source := ""; rc_Scope := "";
  rc_EvaluatedAt := 0; rc_ValidUntil := 0;
|}.

Record PolicyRiskBehavior := {
  prb_RiskType : string;
  prb_Tier : string;
  prb_Effect : string;
  prb_RuntimeHint : string;
}.

Definition canonical_tier (tier : string) : bool :=
  (tier ==s TierLow) || (tier ==s TierMedium) || (tier ==s TierHigh) || (tier ==s TierCritical).

Definition NormalizeTier (tier : string) : string :=
  let tier := trim_prefix "risk_tier." (trim_space tier) in
  if canonical_tier tier then tier else TierUnknown.

Definition NormalizeType (riskType : string) : string :=
  trim_prefix "risk_type." (trim_space riskType).

Definition NormalizeEffect (effect : string) : string :=
  trim_prefix "effect." (trim_space effect).

Definition RuntimeActionForEffect (effect : string) : string * bool :=
  let effect := NormalizeEffect effect in
  if effect ==s "rate_limit" then ("runtime_action.rate_limit_source", true)
  else if effect ==s "deny_temporarily" then ("runtime_action.deny_temporarily_source", true)
  else ("", false).

(** The first behaviour with the context's normalised type and tier. *)
Fixpoint MatchBehavior_loop (riskType tier : string) (behaviors : list PolicyRiskBehavior)
    : option PolicyRiskBehavior :=
  match behaviors with
  | [] => None
  | behavior :: behaviors =>
      if (NormalizeType (prb_RiskType behavior) ==s riskType)
         && (NormalizeTier (prb_Tier behavior) ==s tier)
      then Some behavior
      else MatchBehavior_loop riskType tier behaviors
  end.

Definition MatchBehavior (behaviors : list PolicyRiskBehavior) (ctx : RiskContext)
    : option PolicyRiskBehavior :=
  MatchBehavior_loop (NormalizeType (rc_RiskType ctx)) (NormalizeTier (rc_Tier ctx)) behaviors.

Definition UnknownContext (wall : time) (riskType scope source : string) (now : time)
    (reasons : list string) : RiskContext :=
  let now := if IsZero now then wall else now in
  {| rc_RiskType := NormalizeType riskType;
     rc_Tier := TierUnknown;
     rc_Score := None;
     rc_Confidence := float_of_Z 0;
     rc_Reasons := reasons;
     rc_Signals := [];
     rc_Source := trim_space source;
     rc_Scope := trim_space scope;
     rc_EvaluatedAt := now;
     rc_ValidUntil := now |}.

Definition ValidateContext (wall : time) (ctx : RiskContext) (now : time) : result unit :=
  reject blank (rc_RiskType ctx) with Errorf "risk context requires risk_type" [];;
  reject blank (rc_Scope ctx) with Errorf "risk context requires scope" [];;
  reject NormalizeTier (rc_Tier ctx) !=s rc_Tier ctx
    with Errorf "risk context tier %q is not canonical" [AStr (rc_Tier ctx)];;
  reject IsZero (rc_EvaluatedAt ctx) with Errorf "risk context requires evaluated_at" [];;
  reject IsZero (rc_ValidUntil ctx) with Errorf "risk context requires valid_until" [];;
  let now := if IsZero now then wall else now in
  reject negb (After (rc_ValidUntil ctx) now) && (rc_Tier ctx !=s TierUnknown)
    with Errorf "risk context is stale" [];;
  Ok tt.

(** ** Properties *)

Lemma NormalizeTier_range t :
  NormalizeTier t = TierUnknown ∨ canonical_tier (NormalizeTier t) = true.
Proof. unfold NormalizeTier. destruct (canonical_tier _) eqn:H; auto. Qed.

Lemma MatchBehavior_spec behaviors ctx b :
  MatchBehavior behaviors ctx = Some b →
  b ∈ behaviors ∧ NormalizeType (prb_RiskType b) = NormalizeType (rc_RiskType ctx) ∧
  NormalizeTier (prb_Tier b) = NormalizeTier (rc_Tier ctx).
Proof.
  unfold MatchBehavior.
  induction behaviors as [|b' behaviors IH]; simpl; [done|]. case_match; intros; simplify_eq.
  - str_eqs. split; [by left|done].
  - destruct IH as (? & ? & ?); [done|]. split; [by right|done].
Qed.

(** A context that validates at [now] has a known tier only while it is fresh. *)
Lemma ValidateContext_fresh wall ctx now :
  ValidateContext wall ctx now = Ok tt →
  rc_Tier ctx ≠ TierUnknown → IsZero now = false → now < rc_ValidUntil ctx.
Proof.
  unfold ValidateContext, After. intros H Ht Hn. passes H. rewrite Hn in *.
  destruct (Z.ltb_spec now (rc_ValidUntil ctx)); [done|]. simpl in *. str_eqs. done.
Qed.

Lemma UnknownContext_valid wall riskType scope source now reasons :
  blank (NormalizeType riskType) = false → blank (trim_space scope) = false →
  IsZero now = false →
  ValidateContext wall (UnknownContext wall riskType scope source now reasons) now = Ok tt.
Proof.
  intros H1 H2 Hn. unfold ValidateContext, UnknownContext. simpl. rewrite Hn; simpl.
  assert (NormalizeTier TierUnknown = TierUnknown) as -> by (vm_compute; reflexivity).
  by rewrite H1, H2, Hn, andb_false_r.
Qed.
