(* ===== verification/GoJson.v ===== *)
(** * [encoding/json]: encoding

    [json.Marshal] on the values the program digests, signs or stores as
    text: strings are escaped as Go does it (HTML-safe, invalid UTF-8 and
    U+2028/U+2029 replaced), object members keep the order given, so a Go map
    is written with [jmap], which sorts its keys.  Decoding into Go structs is
    a parameter of the components that decode. *)

From stdpp Require Import options.
From S2P Require Import Prelude GoStrings GoTime.
#[local] Open Scope Z_scope.

Inductive json : Type :=
  | JNull
  | JBool (b : bool)
  | JNum (z : Z)
  | JStr (s : string)
  | JArr (l : list json)
  | JObj (l : list (string * json))
  | JRaw (text : string).   (* a [json.RawMessage], already compacted *)

Definition hex4 (z : Z) : string := "\u00" +:+ Sha256.hex_byte z.

(** An ASCII byte inside a JSON string. *)
Definition escape_ascii (z : Z) : string :=
  if (z =? 34) || (z =? 92) then "\" +:+ chr z
  else if z =? 8 then "\b"
  else if z =? 12 then "\f"
  else if z =? 10 then "\n"
  else if z =? 13 then "\r"
  else if z =? 9 then "\t"
  else if (z <? 32) || (z =? 38) || (z =? 60) || (z =? 62) then hex4 z
  else chr z.

Definition cont (z : Z) : bool := (128 <=? z) && (z <=? 191).

(** The length of the UTF-8 encoding at the head of the bytes, 0 if invalid. *)
Definition utf8_len (b : list Z) : nat :=
  match b with
  | [] => O
  | b0 :: b =>
      if b0 <? 128 then 1%nat else
      match b with
      | [] => O
      | b1 :: b =>
          if (194 <=? b0) && (b0 <=? 223) then (if cont b1 then 2%nat else O) else
          let ok3 :=
            ((b0 =? 224) && (160 <=? b1) && (b1 <=? 191)) ||
            ((225 <=? b0) && (b0 <=? 236) && cont b1) ||
            ((b0 =? 237) && (128 <=? b1) && (b1 <=? 159)) ||
            ((238 <=? b0) && (b0 <=? 239) && cont b1) in
          let ok4 :=
            ((b0 =? 240) && (144 <=? b1) && (b1 <=? 191)) ||
            ((241 <=? b0) && (b0 <=? 243) && cont b1) ||
            ((b0 =? 244) && (128 <=? b1) && (b1 <=? 143)) in
          match b with
          | [] => O
          | b2 :: b =>
              if ok3 then (if cont b2 then 3%nat else O)
              else if ok4 then
                match b with
                | b3 :: _ => if cont b2 && cont b3 then 4%nat else O
                | [] => O
                end
              else O
          end
      end
  end.

(** The loop of [appendString]; every step consumes at least a byte. *)
Fixpoint escape (fuel : nat) (b : list Z) : string :=
  match fuel, b with
  | S fuel, z :: b' =>
      if z <? 128 then escape_ascii z +:+ escape fuel b' else
      match utf8_len b with
      | O => "\ufffd" +:+ escape fuel b'
      | n =>
          (if bool_decide (take 3 b = [226; 128; 168]) then "\u2028"
           else if bool_decide (take 3 b = [226; 128; 169]) then "\u2029"
           else string_of_bytes (take n b))
          +:+ escape fuel (drop n b)
      end
  | _, _ => ""
  end.

Definition dquote : string := chr 34.

Definition json_string (s : string) : string :=
  let b := bytes_of s in dquote +:+ escape (length b) b +:+ dquote.

Fixpoint json_encode (j : json) : string :=
  match j with
  | JNull => "null"
  | JBool b => if b then "true" else "false"
  | JNum z => pretty z
  | JStr s => json_string s
  | JArr l => "[" +:+ join "," (json_encode <$> l) +:+ "]"
  | JObj l =>
      "{" +:+ join "," ((λ kv, json_string kv.1 +:+ ":" +:+ json_encode kv.2) <$> l) +:+ "}"
  | JRaw text => text
  end.

(** Members with [omitempty]. *)
Definition omit_empty (name value : string) : list (string * json) :=
  if empty_str value then [] else [(name, JStr value)].
Definition omit_false (name : string) (value : bool) : list (string * json) :=
  if value then [(name, JBool true)] else [].

(** A map with string keys: [json.Marshal] sorts them. *)
Definition jmap (l : list (string * json)) : json :=
  JObj (sort_by (λ a b, str_leb a.1 b.1) l).

(** [Time.MarshalJSON]: years outside 0 to 9999 are an error. *)
Definition json_time (t : time) : result json :=
  let '(y, _, _) := civil_from_days (t / day + 306) in
  reject (y <? 0) || (10000 <=? y)
    with Errorf "Time.MarshalJSON: year outside of range [0,9999]" [];;
  Ok (JStr (rfc3339nano t)).

(** ** [json.RawMessage]

    [json.Marshal] does not copy a raw message: it checks it and drops the
    white space outside strings, and escapes what it escapes in strings.  The
    syntax check ([json.Valid]) is a parameter. *)
Class JSONSyntax := { json_valid : string → bool }.

Definition json_space (z : Z) : bool := (z =? 32) || (z =? 9) || (z =? 10) || (z =? 13).

(** [quoted]: inside a string; [escaped]: after a backslash in one. *)
Fixpoint compact_bytes (quoted escaped : bool) (b : list Z) : string :=
  match b with
  | [] => ""
  | z :: b' =>
      if quoted then
        let rest := if escaped then compact_bytes true false b'
                    else if z =? 92 then compact_bytes true true b'
                    else compact_bytes (negb (z =? 34)) false b' in
        if (z =? 38) || (z =? 60) || (z =? 62) then hex4 z +:+ rest else
        match b' with
        | z1 :: z2 :: b3 =>
            if (z =? 226) && (z1 =? 128) && ((z2 =? 168) || (z2 =? 169)) then
              (if z2 =? 168 then "\u2028" else "\u2029") +:+ compact_bytes true false b3
            else chr z +:+ rest
        | _ => chr z +:+ rest
        end
      else if json_space z then compact_bytes false false b'
      else chr z +:+ compact_bytes (z =? 34) false b'
  end.

Definition compact (s : string) : string := compact_bytes false false (bytes_of s).

(** [RawMessage.MarshalJSON] (a nil message is null) and [appendCompact]. *)
Definition encode_RawMessage `{JSONSyntax} (m : string) : result json :=
  if empty_str m then Ok (JRaw "null") else
  reject negb (json_valid m) with Sentinel "invalid character in RawMessage" ;;
  Ok (JRaw (compact m)).

Example compact_ex :
  compact ("{ " +:+ dquote +:+ "a b<" +:+ dquote +:+ " : 1" +:+ chr 10 +:+ "}" +:+ chr 10) =
  "{" +:+ dquote +:+ "a b\u003c" +:+ dquote +:+ ":1}".
Proof. vm_compute. reflexivity. Qed.

Example json_string_ex :
  json_string ("a<b" +:+ chr 10 +:+ chr 255 +:+ "\") =
  dquote +:+ "a\u003cb\n\ufffd\\" +:+ dquote.
Proof. vm_compute. reflexivity. Qed.

Example jmap_ex :
  json_encode (jmap [("b", JStr "x"); ("a", JNum (-3))]) =
  "{" +:+ dquote +:+ "a" +:+ dquote +:+ ":-3," +:+ dquote +:+ "b" +:+ dquote +:+ ":"
  +:+ dquote +:+ "x" +:+ dquote +:+ "}".
Proof. vm_compute. reflexivity. Qed.

#[global] Opaque json_encode.
