(* ===== verification/Signing.v ===== *)
(** * Signed envelopes ([internal/core/signing])

    The envelope format, the protected header that is signed, and the
    Ed25519 signer/verifier [DevLocalSigner].  The Ed25519 primitives are
    parameters ([Ed25519]), with the property of the scheme the code relies
    on: a signature made with a private key verifies with its public key. *)

From stdpp Require Import options.
From S2P Require Import Prelude GoStrings GoTime GoJson.
#[local] Open Scope Z_scope.

Class Ed25519 := {
  ed25519_public : string → string;
  ed25519_sign : string → string → string;
  ed25519_verify : string → string → string → bool;
  ed25519_correct (priv msg : string) :
    ed25519_verify (ed25519_public priv) msg (ed25519_sign priv msg) = true;
}.

(** A toy instance, for the witnesses only: the "signature" is the key and
    the message. *)
Definition toy_ed25519 : Ed25519 := {|
  ed25519_public priv := priv;
  ed25519_sign priv msg := priv +:+ msg;
  ed25519_verify pub msg s := String.eqb s (pub +:+ msg);
  ed25519_correct priv msg := String.eqb_refl _;
|}.

Record Metadata := {
  md_KeyID : string;
  md_SourceCommit : string;
  md_PolicyID : string;
  md_ExpiresAt : option time;
}.

Record SignedEnvelope := {
  env_Kind : string;
  env_KeyID : string;
  env_Algorithm : string;
  env_PayloadType : string;
  env_Payload : string;
  env_PayloadSHA256 : string;
  env_Signature : string;
  env_SignedAt : time;
  env_ExpiresAt : option time;
  env_SourceCommit : string;
  env_PolicyID : string;
}.

Record VerificationResult := {
  vr_Valid : bool;
  vr_KeyID : string;
  vr_PayloadSHA256 : string;
  vr_VerifiedAt : time;
  vr_Error : error;   (* the text of the [Error] field; [no_error] when empty *)
}.
Definition no_error : error := Errorf "" [].

(** ["sha256:" + hex.EncodeToString(sha256.Sum256(data))] *)
Definition SHA256JSON (data : string) : string := "sha256:" +:+ sha256_hex data.

(** [json.Marshal(ProtectedHeader{...})] *)
Definition signingInput (envelope : SignedEnvelope) : result string :=
  signedAt ← json_time (env_SignedAt envelope);
  expiresAt ← match env_ExpiresAt envelope with
              | Some t => json_time t
              | None => Ok JNull
              end;
  Ok (json_encode (JObj
    [("kind", JStr (env_Kind envelope));
     ("key_id", JStr (env_KeyID envelope));
     ("algorithm", JStr (env_Algorithm envelope));
     ("payload_type", JStr (env_PayloadType envelope));
     ("payload_sha256", JStr (env_PayloadSHA256 envelope));
     ("signed_at", signedAt);
     ("expires_at", expiresAt);
     ("source_commit", JStr (env_SourceCommit envelope));
     ("policy_id", JStr (env_PolicyID envelope))])).

Record DevLocalSigner := {
  dls_KeyID : string;
  dls_PrivateKey : string;   (* 64 bytes, or empty for a verifier *)
  dls_PublicKey : string;    (* 32 bytes *)
}.

Section signer.
Context {E : Ed25519}.

Definition NewEd25519Verifier (keyID publicKey : string) : result DevLocalSigner :=
  reject empty_str keyID with Errorf "Ed25519 verifier requires key id" [];;
  reject negb (Nat.eqb (String.length publicKey) 32)
    with Errorf "invalid Ed25519 public key" [];;
  Ok {| dls_KeyID := keyID; dls_PrivateKey := ""; dls_PublicKey := publicKey |}.

(** [now] is what the signer's clock returns. *)
Definition Sign (s : DevLocalSigner) (now : time) (payload : string) (meta : Metadata)
    : result SignedEnvelope :=
  reject negb (Nat.eqb (String.length (dls_PrivateKey s)) 64)
    with Errorf "dev-local signer requires an Ed25519 private key" [];;
  reject empty_str (dls_KeyID s) with Errorf "dev-local signer requires key id" [];;
  let keyID := if empty_str (md_KeyID meta) then dls_KeyID s else md_KeyID meta in
  reject keyID !=s dls_KeyID s
    with Errorf "metadata key_id %q does not match signer key_id %q"
           [AStr keyID; AStr (dls_KeyID s)];;
  let envelope := {|
    env_Kind := "SignedEnvelope";
    env_KeyID := keyID;
    env_Algorithm := "Ed25519";
    env_PayloadType := "application/vnd.kernloom.artifact+json";
    env_Payload := payload;
    env_PayloadSHA256 := SHA256JSON payload;
    env_Signature := "";
    env_SignedAt := now;
    env_ExpiresAt := md_ExpiresAt meta;
    env_SourceCommit := md_SourceCommit meta;
    env_PolicyID := md_PolicyID meta |} in
  input ← signingInput envelope;
  Ok {|
    env_Kind := env_Kind envelope;
    env_KeyID := env_KeyID envelope;
    env_Algorithm := env_Algorithm envelope;
    env_PayloadType := env_PayloadType envelope;
    env_Payload := env_Payload envelope;
    env_PayloadSHA256 := env_PayloadSHA256 envelope;
    env_Signature := ed25519_sign (dls_PrivateKey s) input;
    env_SignedAt := env_SignedAt envelope;
    env_ExpiresAt := env_ExpiresAt envelope;
    env_SourceCommit := env_SourceCommit envelope;
    env_PolicyID := env_PolicyID envelope |}.

(** [Verify] never returns an error: a bad envelope is a result that is
    not valid and says why.  [now] is the reading for [VerifiedAt], [now']
    the later one for the expiry test. *)
Definition Verify (s : DevLocalSigner) (now now' : time) (envelope : SignedEnvelope)
    : VerificationResult :=
  let payloadSHA256 := SHA256JSON (env_Payload envelope) in
  let result valid err := {|
    vr_Valid := valid;
    vr_KeyID := env_KeyID envelope;
    vr_PayloadSHA256 := payloadSHA256;
    vr_VerifiedAt := now;
    vr_Error := err |} in
  let fail err := result false err in
  if env_Kind envelope !=s "SignedEnvelope"
  then fail (Errorf "payload is not a signed envelope" []) else
  if env_Algorithm envelope !=s "Ed25519"
  then fail (Errorf "unsupported signing algorithm %q" [AStr (env_Algorithm envelope)]) else
  if empty_str (env_KeyID envelope)
  then fail (Errorf "signed envelope is missing key_id" []) else
  if empty_str (dls_KeyID s)
  then fail (Errorf "verifier requires key id" []) else
  if env_KeyID envelope !=s dls_KeyID s
  then fail (Errorf "signed envelope key_id %q does not match verifier key_id %q"
               [AStr (env_KeyID envelope); AStr (dls_KeyID s)]) else
  if negb (Nat.eqb (String.length (dls_PublicKey s)) 32)
  then fail (Errorf "verifier requires an Ed25519 public key" []) else
  if match env_ExpiresAt envelope with
     | Some expiresAt => negb (Before now' expiresAt)
     | None => false
     end
  then fail (Errorf "signed envelope expired" []) else
  if env_PayloadSHA256 envelope !=s payloadSHA256
  then fail (Errorf "payload hash mismatch" []) else
  match signingInput envelope with
  | Err err => fail err
  | Ok input =>
      if negb (ed25519_verify (dls_PublicKey s) input (env_Signature envelope))
      then fail (Errorf "signature verification failed" [])
      else result true no_error
  end.

(** What a valid verdict means. *)
Definition envelope_authentic (s : DevLocalSigner) (now' : time) (e : SignedEnvelope) : Prop :=
  env_Kind e = "SignedEnvelope" ∧ env_Algorithm e = "Ed25519" ∧
  env_KeyID e = dls_KeyID s ∧ dls_KeyID s ≠ "" ∧
  String.length (dls_PublicKey s) = 32%nat ∧
  (∀ t, env_ExpiresAt e = Some t → now' < t) ∧
  env_PayloadSHA256 e = SHA256JSON (env_Payload e) ∧
  ∃ input, signingInput e = Ok input ∧
           ed25519_verify (dls_PublicKey s) input (env_Signature e) = true.

Lemma Verify_valid s now now' e :
  vr_Valid (Verify s now now' e) = true ↔ envelope_authentic s now' e.
Proof.
  unfold Verify, envelope_authentic, Before. split.
  - intros H.
    repeat match type of H with
      | context [if ?c then _ else _] => destruct c eqn:?; [discriminate H|]
      end.
    destruct (signingInput e) as [input|]; [|discriminate H].
    destruct (ed25519_verify _ _ _) eqn:Hv; [|discriminate H].
    str_eqs. split_and!; try done; [by apply Nat.eqb_eq| |by eauto].
    intros t Ht. rewrite Ht in *.
    match goal with H : negb _ = false |- _ => apply negb_false_iff in H; lia end.
  - intros (-> & -> & -> & Hk & Hl & Ht & -> & input & -> & Hv).
    rewrite Hl, !String.eqb_refl. simpl.
    rewrite (proj2 (String.eqb_neq _ _) Hk), Hv. simpl.
    destruct (env_ExpiresAt e) as [t|]; [|done].
    by rewrite (proj2 (Z.ltb_lt _ _) (Ht t eq_refl)).
Qed.

(** Fields of a verdict that do not depend on it being valid. *)
Lemma Verify_fields s now now' e :
  vr_KeyID (Verify s now now' e) = env_KeyID e ∧
  vr_PayloadSHA256 (Verify s now now' e) = SHA256JSON (env_Payload e) ∧
  vr_VerifiedAt (Verify s now now' e) = now.
Proof. unfold Verify. repeat case_match; done. Qed.
End signer.

(** ** Signing and verifying *)
Section round_trip.
Context {E : Ed25519}.

(** An envelope made by a signer whose public key belongs to its private
    key is valid for that signer until it expires. *)
Lemma Sign_Verify s now payload meta e now1 now2 :
  dls_PublicKey s = ed25519_public (dls_PrivateKey s) →
  String.length (dls_PublicKey s) = 32%nat →
  Sign s now payload meta = Ok e →
  (∀ t, md_ExpiresAt meta = Some t → now2 < t) →
  env_Payload e = payload ∧ env_ExpiresAt e = md_ExpiresAt meta ∧
  vr_Valid (Verify s now1 now2 e) = true.
Proof.
  intros Hpub Hlen HS Hexp. unfold Sign in HS. passes HS.
  apply bind_Ok in HS as (input & Hin & HS). injection HS as <-. simpl.
  split_and!; [done..|]. apply Verify_valid. str_eqs. unfold envelope_authentic; simpl.
  split_and!; try done. exists input. split; [exact Hin|]. rewrite Hpub.
  apply ed25519_correct.
Qed.

(** Two valid envelopes with the same payload digest carry the same
    payload, or payloads that collide. *)
Lemma Verify_payload_bound s now now' e e' :
  vr_Valid (Verify s now now' e) = true → vr_Valid (Verify s now now' e') = true →
  env_PayloadSHA256 e = env_PayloadSHA256 e' →
  env_Payload e = env_Payload e' ∨ collide (env_Payload e) (env_Payload e').
Proof.
  rewrite !Verify_valid. intros (_ & _ & _ & _ & _ & _ & H1 & _).
  intros (_ & _ & _ & _ & _ & _ & H2 & _) Heq. rewrite H1, H2 in Heq.
  by apply app_str_inj_l, sha256_hex_inj in Heq.
Qed.
End round_trip.
