(* ===== verification/Domain.v ===== *)
(** * Shared domain types ([internal/core/domain])

    The records Forge and KLIQ exchange, the runtime action statuses, and the
    test a KLIQ applies before it activates an assignment. *)

From stdpp Require Import options.
From S2P Require Import Prelude GoStrings GoTime Signing.
#[local] Open Scope Z_scope.

(** ** Runtime action statuses ([types.go]) *)

Abbreviation RuntimeActionStatus := string (only parsing).
Definition RuntimeActionPlanned := "planned".
Definition RuntimeActionAuthorized := "authorized".
Definition RuntimeActionExecuting := "executing".
Definition RuntimeActionActive := "active".
Definition RuntimeActionExpiring := "expiring".
Definition RuntimeActionExpired := "expired".
Definition RuntimeActionNotFound := "not_found".
Definition RuntimeActionFailed := "failed".
Definition RuntimeActionUnknown := "unknown".
Definition RuntimeActionCompensating := "compensating".

(** ** Records ([assignment.go]) *)

Record KLIQEnrollmentToken := {
  et_TokenID : string;
  et_TokenSHA256 : string;
  et_Environment : string;
  et_Stage : string;
  et_Scope : string;
  et_ExpiresAt : time;
  et_CreatedAt : time;
  et_UsedAt : time;
  et_RevokedAt : time;
  et_RevokedReason : string;
}.

Record KLIQManagementProfile := {
  mp_Kind : string;
  mp_ProfileID : string;
  mp_Mode : string;
  mp_PollInterval : string;
  mp_HeartbeatInterval : string;
  mp_StatusInterval : string;
  mp_DecisionInterval : string;
  mp_ReconcileInterval : string;
  mp_AuditFlushInterval : string;
  mp_StatusEndpoint : string;
  mp_AssignmentSource : string;
}.

Record KLIQFallbackProfile := {
  fp_Kind : string;
  fp_ProfileID : string;
  fp_Mode : string;
  fp_AllowCachedAssignmentFallback : bool;
  fp_DenyNewActionsWhenDegraded : bool;
  fp_AuditRequired : bool;
}.

Record KLIQIdentity := {
  id_IdentityID : string;
  id_KLIQID : string;
  id_NodeID : string;
  id_Environment : string;
  id_Stage : string;
  id_Scope : string;
  id_TrustKeyID : string;
  id_PublicKeyPEM : string;
  id_CSRPEM : string;
  id_ServiceIdentityProvider : string;
  id_SPIFFEID : string;
  id_CredentialStatus : string;
  id_CredentialExpiresAt : time;
  id_Status : string;
  id_IssuedAt : time;
  id_RevokedAt : time;
  id_RevokedReason : string;
}.

Record KLIQRegistration := {
  reg_RegistrationID : string;
  reg_KLIQID : string;
  reg_NodeID : string;
  reg_Environment : string;
  reg_Stage : string;
  reg_Scope : string;
  reg_Version : string;
  reg_AdapterInventory : list string;
  reg_Capabilities : list string;
  reg_AttestationState : string;
  reg_Identity : KLIQIdentity;
  reg_ManagementProfile : KLIQManagementProfile;
  reg_Status : string;
  reg_RegisteredAt : time;
  reg_RevokedAt : time;
  reg_RevokedReason : string;
}.

Record KLIQAssignedArtifact := {
  aa_ArtifactType : string;
  aa_ArtifactID : string;
  aa_ArtifactRef : string;
  aa_SHA256 : string;
  aa_Envelope : string;
}.

Record AssignmentProvenance := {
  ap_ApprovedBuildID : string;
  ap_ApprovedBuildDigest : string;
  ap_BindingDigests : list (string * string);
  ap_RuntimeActionDigests : list (string * string);
  ap_AdapterManifestDigests : list (string * string);
}.

Record KLIQAssignment := {
  asg_AssignmentID : string;
  asg_AssignmentVersion : Z;
  asg_KLIQID : string;
  asg_Environment : string;
  asg_Stage : string;
  asg_Scope : string;
  asg_SourceCommit : string;
  asg_TrustKeyID : string;
  asg_TrustBundleRef : string;
  asg_CreatedAt : time;
  asg_ExpiresAt : time;
  asg_ApprovedRollback : bool;
  asg_Artifacts : list KLIQAssignedArtifact;
  asg_Status : string;
  asg_RevokedAt : time;
  asg_RevokedReason : string;
  asg_SignatureValid : bool;
  asg_ManifestSigned : bool;
  asg_ManifestDigest : string;
  asg_ManifestSignatureValid : bool;
  asg_Provenance : option AssignmentProvenance;
}.

(** The zero value [KLIQAssignment{}]. *)
Definition zero_KLIQAssignment : KLIQAssignment := {|
  asg_AssignmentID := ""; asg_AssignmentVersion := 0; asg_KLIQID := ""; asg_Environment := "";
  asg_Stage := ""; asg_Scope := ""; asg_SourceCommit := ""; asg_TrustKeyID := "";
  asg_TrustBundleRef := ""; asg_CreatedAt := 0; asg_ExpiresAt := 0; asg_ApprovedRollback := false;
  asg_Artifacts := []; asg_Status := ""; asg_RevokedAt := 0; asg_RevokedReason := "";
  asg_SignatureValid := false; asg_ManifestSigned := false; asg_ManifestDigest := "";
  asg_ManifestSignatureValid := false; asg_Provenance := None;
|}.

(** [assignment.SignatureValid = true] *)
Definition with_SignatureValid (a : KLIQAssignment) : KLIQAssignment := {|
  asg_AssignmentID := asg_AssignmentID a;
  asg_AssignmentVersion := asg_AssignmentVersion a;
  asg_KLIQID := asg_KLIQID a;
  asg_Environment := asg_Environment a;
  asg_Stage := asg_Stage a;
  asg_Scope := asg_Scope a;
  asg_SourceCommit := asg_SourceCommit a;
  asg_TrustKeyID := asg_TrustKeyID a;
  asg_TrustBundleRef := asg_TrustBundleRef a;
  asg_CreatedAt := asg_CreatedAt a;
  asg_ExpiresAt := asg_ExpiresAt a;
  asg_ApprovedRollback := asg_ApprovedRollback a;
  asg_Artifacts := asg_Artifacts a;
  asg_Status := asg_Status a;
  asg_RevokedAt := asg_RevokedAt a;
  asg_RevokedReason := asg_RevokedReason a;
  asg_SignatureValid := true;
  asg_ManifestSigned := asg_ManifestSigned a;
  asg_ManifestDigest := asg_ManifestDigest a;
  asg_ManifestSignatureValid := asg_ManifestSignatureValid a;
  asg_Provenance := asg_Provenance a;
|}.

Record ArtifactDigest := {
  ad_ArtifactType : string;
  ad_ArtifactID : string;
  ad_ArtifactRef : string;
  ad_SHA256 : string;
}.

Record AssignmentManifest := {
  am_Kind : string;
  am_AssignmentID : string;
  am_AssignmentVersion : Z;
  am_KLIQID : string;
  am_Environment : string;
  am_Stage : string;
  am_Scope : string;
  am_SourceCommit : string;
  am_Artifacts : list ArtifactDigest;
  am_TrustBundleRef : string;
  am_CreatedAt : time;
  am_ExpiresAt : time;
  am_ApprovedRollback : bool;
  am_Provenance : option AssignmentProvenance;
}.

Record TrustBundle := {
  tb_KeyID : string;
  tb_PublicKey : string;
  tb_Purpose : string;
  tb_Status : string;
  tb_ExpiresAt : time;
  tb_Issuer : string;
}.

Record AdapterAssignment := {
  adp_Kind : string;
  adp_AdapterID : string;
  adp_Endpoint : string;
  adp_TLSServerName : string;
  adp_ServerCertificateSHA256 : string;
  adp_AllowedCapabilities : list string;
  adp_GrantRefs : list string;
  adp_Scope : string;
  adp_CreatedAt : time;
}.

Record KLIQAssignmentActivationContext := {
  ctx_KLIQID : string;
  ctx_Environment : string;
  ctx_Stage : string;
  ctx_Scope : string;
  ctx_TrustKeyID : string;
  ctx_AssignmentDigest : string;
  ctx_Now : time;
  ctx_ActiveAssignmentVersion : Z;
  ctx_ActiveAssignmentDigest : string;
}.

(** ** Activation of an assignment *)

Definition ValidateKLIQAssignmentActivation (wall : time) (assignment : KLIQAssignment)
    (ctx : KLIQAssignmentActivationContext) : result unit :=
  let id := AStr (asg_AssignmentID assignment) in
  let version := asg_AssignmentVersion assignment in
  reject empty_str (asg_AssignmentID assignment) with
    Errorf "kliq assignment id is required" [];;
  reject version <=? 0 with
    Errorf "kliq assignment %q requires positive assignment_version" [id];;
  reject empty_str (asg_SourceCommit assignment) with
    Errorf "kliq assignment %q requires source_commit" [id];;
  reject empty_str (asg_TrustKeyID assignment) with
    Errorf "kliq assignment %q requires trust key" [id];;
  reject empty_str (asg_TrustBundleRef assignment) with
    Errorf "kliq assignment %q requires trust_bundle_ref" [id];;
  reject IsZero (asg_ExpiresAt assignment) with
    Errorf "kliq assignment %q requires expires_at" [id];;
  reject (asg_Status assignment ==s "revoked") || negb (IsZero (asg_RevokedAt assignment)) with
    Errorf "kliq assignment %q is revoked" [id];;
  reject negb (asg_SignatureValid assignment)
         && negb (asg_ManifestSigned assignment && asg_ManifestSignatureValid assignment) with
    Errorf "kliq assignment %q requires valid assignment or manifest signature" [id];;
  reject asg_KLIQID assignment !=s ctx_KLIQID ctx with
    Errorf "kliq assignment %q targets kliq_id %q, local is %q"
      [id; AStr (asg_KLIQID assignment); AStr (ctx_KLIQID ctx)];;
  reject asg_Environment assignment !=s ctx_Environment ctx with
    Errorf "kliq assignment %q targets environment %q, local is %q"
      [id; AStr (asg_Environment assignment); AStr (ctx_Environment ctx)];;
  reject asg_Stage assignment !=s ctx_Stage ctx with
    Errorf "kliq assignment %q targets stage %q, local is %q"
      [id; AStr (asg_Stage assignment); AStr (ctx_Stage ctx)];;
  reject asg_Scope assignment !=s ctx_Scope ctx with
    Errorf "kliq assignment %q targets scope %q, local is %q"
      [id; AStr (asg_Scope assignment); AStr (ctx_Scope ctx)];;
  reject asg_TrustKeyID assignment !=s ctx_TrustKeyID ctx with
    Errorf "kliq assignment %q trust key %q does not match local trust key %q"
      [id; AStr (asg_TrustKeyID assignment); AStr (ctx_TrustKeyID ctx)];;
  let now := if IsZero (ctx_Now ctx) then wall else ctx_Now ctx in
  reject negb (After (asg_ExpiresAt assignment) now) with
    Errorf "kliq assignment %q is expired" [id];;
  if ctx_ActiveAssignmentVersion ctx <? version then Ok tt else
  if (version =? ctx_ActiveAssignmentVersion ctx)
     && (0 <? ctx_ActiveAssignmentVersion ctx)
     && negb (empty_str (ctx_AssignmentDigest ctx))
     && (ctx_AssignmentDigest ctx ==s ctx_ActiveAssignmentDigest ctx) then Ok tt else
  if (version <? ctx_ActiveAssignmentVersion ctx)
     && asg_ApprovedRollback assignment && asg_SignatureValid assignment then Ok tt else
  Err (Errorf "kliq assignment %q is not newer than active assignment and is not an approved signed rollback" [id]).

Fixpoint RuntimeBundleArtifact_loop (artifacts : list KLIQAssignedArtifact)
    : option KLIQAssignedArtifact :=
  match artifacts with
  | [] => None
  | artifact :: artifacts =>
      if aa_ArtifactType artifact ==s "runtime_bundle" then Some artifact
      else RuntimeBundleArtifact_loop artifacts
  end.
Definition RuntimeBundleArtifact (assignment : KLIQAssignment) : option KLIQAssignedArtifact :=
  RuntimeBundleArtifact_loop (asg_Artifacts assignment).

Definition SupportedAssignmentArtifactType (artifactType : string) : bool :=
  (artifactType ==s "runtime_bundle") || (artifactType ==s "adapter_manifest")
  || (artifactType ==s "context_route_pack") || (artifactType ==s "conformance_expectation")
  || (artifactType ==s "adapter_assignment") || (artifactType ==s "trust_bundle")
  || (artifactType ==s "management_profile") || (artifactType ==s "fallback_profile").

Definition ValidateAssignedArtifactDigests (assignment : KLIQAssignment) : result unit :=
  let id := AStr (asg_AssignmentID assignment) in
  for_each (λ artifact,
    let aid := AStr (aa_ArtifactID artifact) in
    reject empty_str (aa_ArtifactType artifact) with
      Errorf "kliq assignment %q contains artifact without artifact_type" [id];;
    reject empty_str (aa_Envelope artifact) with
      Errorf "kliq assignment %q artifact %q has no envelope" [id; aid];;
    reject empty_str (aa_SHA256 artifact) with
      Errorf "kliq assignment %q artifact %q has no sha256 digest" [id; aid];;
    reject aa_SHA256 artifact !=s SHA256JSON (aa_Envelope artifact) with
      Errorf "kliq assignment %q artifact %q digest mismatch" [id; aid];;
    Ok tt) (asg_Artifacts assignment).

Definition AssignmentManifestFor (assignment : KLIQAssignment) : AssignmentManifest := {|
  am_Kind := "AssignmentManifest";
  am_AssignmentID := asg_AssignmentID assignment;
  am_AssignmentVersion := asg_AssignmentVersion assignment;
  am_KLIQID := asg_KLIQID assignment;
  am_Environment := asg_Environment assignment;
  am_Stage := asg_Stage assignment;
  am_Scope := asg_Scope assignment;
  am_SourceCommit := asg_SourceCommit assignment;
  am_TrustBundleRef := asg_TrustBundleRef assignment;
  am_CreatedAt := asg_CreatedAt assignment;
  am_ExpiresAt := asg_ExpiresAt assignment;
  am_ApprovedRollback := asg_ApprovedRollback assignment;
  am_Provenance := asg_Provenance assignment;
  am_Artifacts :=
    (λ artifact, {| ad_ArtifactType := aa_ArtifactType artifact;
                    ad_ArtifactID := aa_ArtifactID artifact;
                    ad_ArtifactRef := aa_ArtifactRef artifact;
                    ad_SHA256 := aa_SHA256 artifact |}) <$> asg_Artifacts assignment;
|}.

Lemma ValidateDigests_elem assignment artifact :
  ValidateAssignedArtifactDigests assignment = Ok tt → artifact ∈ asg_Artifacts assignment →
  aa_SHA256 artifact = SHA256JSON (aa_Envelope artifact).
Proof.
  unfold ValidateAssignedArtifactDigests. rewrite for_each_Ok, Forall_forall.
  intros H Hin. specialize (H _ Hin). simpl in H. passes H. by str_eqs.
Qed.

(** ** Specification of activation *)

(** The assignment is complete, signed, not revoked, addressed to this KLIQ
    and not expired. *)
Definition assignment_admissible (wall : time) (a : KLIQAssignment)
    (ctx : KLIQAssignmentActivationContext) : Prop :=
  asg_AssignmentID a ≠ "" ∧ 0 < asg_AssignmentVersion a ∧ asg_SourceCommit a ≠ "" ∧
  asg_TrustKeyID a ≠ "" ∧ asg_TrustBundleRef a ≠ "" ∧ asg_ExpiresAt a ≠ 0 ∧
  asg_Status a ≠ "revoked" ∧ asg_RevokedAt a = 0 ∧
  (asg_SignatureValid a = true ∨
   asg_ManifestSigned a = true ∧ asg_ManifestSignatureValid a = true) ∧
  asg_KLIQID a = ctx_KLIQID ctx ∧ asg_Environment a = ctx_Environment ctx ∧
  asg_Stage a = ctx_Stage ctx ∧ asg_Scope a = ctx_Scope ctx ∧
  asg_TrustKeyID a = ctx_TrustKeyID ctx ∧
  (if IsZero (ctx_Now ctx) then wall else ctx_Now ctx) < asg_ExpiresAt a.

(** It is newer, the same one again, or an approved signed rollback. *)
Definition assignment_current (a : KLIQAssignment) (ctx : KLIQAssignmentActivationContext)
    : Prop :=
  ctx_ActiveAssignmentVersion ctx < asg_AssignmentVersion a ∨
  (asg_AssignmentVersion a = ctx_ActiveAssignmentVersion ctx ∧
   0 < ctx_ActiveAssignmentVersion ctx ∧ ctx_AssignmentDigest ctx ≠ "" ∧
   ctx_AssignmentDigest ctx = ctx_ActiveAssignmentDigest ctx) ∨
  (asg_AssignmentVersion a < ctx_ActiveAssignmentVersion ctx ∧
   asg_ApprovedRollback a = true ∧ asg_SignatureValid a = true).

Lemma ValidateActivation_iff wall a ctx :
  ValidateKLIQAssignmentActivation wall a ctx = Ok tt ↔
  assignment_admissible wall a ctx ∧ assignment_current a ctx.
Proof.
  unfold ValidateKLIQAssignmentActivation, assignment_admissible, assignment_current,
    IsZero, After. cbv zeta. split.
  - intros H. passes H. str_eqs.
    repeat match goal with
      | H : negb _ && negb _ = false |- _ => apply andb_false_iff in H; rewrite !negb_false_iff in H
      | H : (_ <? _) = true |- _ => apply Z.ltb_lt in H
      | H : (_ <=? _) = false |- _ => apply Z.leb_gt in H
      | H : (_ =? _) = false |- _ => apply Z.eqb_neq in H
      | H : (_ =? _) = true |- _ => apply Z.eqb_eq in H
      end.
    split.
    + split_and!; try done.
      match goal with H : _ ∨ _ |- _ => rewrite andb_true_iff in H; exact H end.
    + repeat match type of H with
        | (if ?c then _ else _) = _ => destruct c eqn:?; str_eqs
        | Err _ = Ok _ => discriminate H
        end; rewrite ?Z.ltb_lt, ?Z.eqb_eq in *; naive_solver.
  - intros [(H1 & H2 & H3 & H4 & H5 & H6 & H7 & H8 & H9 & H10 & H11 & H12 & H13 & H14 & H15) Hc].
    rewrite (proj2 (String.eqb_neq _ _) H1), (proj2 (String.eqb_neq _ _) H3),
      (proj2 (String.eqb_neq _ _) H4), (proj2 (String.eqb_neq _ _) H5),
      (proj2 (String.eqb_neq _ _) H7), (proj2 (Z.leb_gt _ _) H2),
      (proj2 (Z.eqb_neq _ _) H6), H8, H10, H11, H12, H13, H14, !String.eqb_refl,
      (proj2 (Z.ltb_lt _ _) H15). simpl.
    assert (negb (asg_SignatureValid a) &&
            negb (asg_ManifestSigned a && asg_ManifestSignatureValid a) = false) as ->.
    { destruct H9 as [->|[-> ->]]; [done|by rewrite andb_false_r]. }
    destruct (Z.ltb_spec (ctx_ActiveAssignmentVersion ctx) (asg_AssignmentVersion a)); [done|].
    destruct Hc as [?|[(-> & Hp & Hd & <-)|(Hlt & -> & ->)]]; [lia| |].
    + by rewrite Z.eqb_refl, (proj2 (Z.ltb_lt _ _) Hp), (proj2 (String.eqb_neq _ _) Hd),
        String.eqb_refl.
    + rewrite (proj2 (Z.ltb_lt _ _) Hlt). simpl. by destruct (_ && _).
Qed.
