(* ===== verification/GoEncoding.v ===== *)
(** * [strings.Split], [encoding/base64] and [crypto/hmac]

    What the service tokens of a KLIQ are made of: base64 without padding in
    the URL alphabet (decoded the way Go does it by default: line ends are
    skipped, the unused bits of the last character are ignored), and
    HMAC-SHA256 on top of the digest of [GoStrings]. *)

From stdpp Require Import options.
From S2P Require Import Prelude GoStrings GoTime.
#[local] Open Scope Z_scope.

(** ** Splitting *)

(** [strings.Split(s, "c")] for a separator of one byte. *)
Fixpoint split_char (c : Ascii.ascii) (s : string) : list string :=
  match s with
  | EmptyString => [""]
  | String a s =>
      if Ascii.eqb a c then "" :: split_char c s else
      match split_char c s with
      | part :: parts => String a part :: parts
      | [] => [String a ""]
      end
  end.

(** [strings.ReplaceAll(s, "c", "d")] for single bytes. *)
Fixpoint replace_char (c d : Ascii.ascii) (s : string) : string :=
  match s with
  | EmptyString => ""
  | String a s => String (if Ascii.eqb a c then d else a) (replace_char c d s)
  end.

(** [strings.HasSuffix]-free test for a byte. *)
Fixpoint has_char (c : Ascii.ascii) (s : string) : bool :=
  match s with
  | EmptyString => false
  | String a s => Ascii.eqb a c || has_char c s
  end.

Definition dot : Ascii.ascii := ascii_of_byte 46.
Definition slash : Ascii.ascii := ascii_of_byte 47.
Definition colon : Ascii.ascii := ascii_of_byte 58.
Definition comma : Ascii.ascii := ascii_of_byte 44.

Example split_ex : split_char dot "a.bc..d" = ["a"; "bc"; ""; "d"].
Proof. reflexivity. Qed.

Lemma split_char_nonempty c s : ∃ part parts, split_char c s = part :: parts.
Proof.
  induction s as [|a s (p & ps & IH)]; simpl; [by do 2 eexists|].
  destruct (Ascii.eqb a c); [by do 2 eexists|]. rewrite IH. by do 2 eexists.
Qed.

Lemma split_char_app c a b :
  has_char c a = false → split_char c (a +:+ String c b) = a :: split_char c b.
Proof.
  induction a as [|x a IH]; intros H; simpl in H; rewrite ?app_str_cons; simpl.
  - by rewrite Ascii.eqb_refl.
  - apply orb_false_iff in H as [-> H]. by rewrite IH.
Qed.

Lemma split_char_one c a : has_char c a = false → split_char c a = [a].
Proof.
  induction a as [|x a IH]; intros H; simpl in *; [done|].
  apply orb_false_iff in H as [-> H]. by rewrite IH.
Qed.

Lemma join_split c s : join (String c "") (split_char c s) = s.
Proof.
  induction s as [|a s IH]; simpl; [done|].
  destruct (split_char_nonempty c s) as (p & ps & E). rewrite E in *.
  destruct (Ascii.eqb_spec a c) as [->|]; simpl in *.
  - by rewrite IH.
  - destruct ps as [|p' ps]; rewrite <- IH; [done|]. by rewrite ?app_str_cons.
Qed.

(** ** [strings.EqualFold]

    On ASCII bytes the loop is written out; from the first byte outside ASCII
    on, Go folds runes with the Unicode tables, which are a parameter. *)
Class UnicodeFold := {
  equal_fold_runes : string → string → bool;
  equal_fold_runes_refl s : equal_fold_runes s s = true;
}.

Definition fold_ascii (a b : Z) : bool :=
  let lo := Z.min a b in let hi := Z.max a b in
  (a =? b) || ((65 <=? lo) && (lo <=? 90) && (hi =? lo + 32)).

Fixpoint EqualFold `{UnicodeFold} (s t : string) : bool :=
  match s, t with
  | EmptyString, EmptyString => true
  | String a s', String b t' =>
      if (128 <=? byte_of a) || (128 <=? byte_of b) then equal_fold_runes s t
      else fold_ascii (byte_of a) (byte_of b) && EqualFold s' t'
  | _, _ => false
  end.

Lemma EqualFold_refl `{UnicodeFold} s : EqualFold s s = true.
Proof.
  induction s as [|a s IH]; simpl; [done|].
  destruct (_ || _); [apply equal_fold_runes_refl|].
  unfold fold_ascii. by rewrite Z.eqb_refl, IH.
Qed.

(** ** Bytes *)

Lemma byte_of_bounds c : 0 ≤ byte_of c < 256.
Proof. unfold byte_of. pose proof (Ascii.N_ascii_bounded c). lia. Qed.

Lemma ascii_of_byte_of c : ascii_of_byte (byte_of c) = c.
Proof. unfold ascii_of_byte, byte_of. by rewrite N2Z.id, Ascii.ascii_N_embedding. Qed.

Lemma string_of_bytes_of s : string_of_bytes (bytes_of s) = s.
Proof. induction s as [|c s IH]; simpl; [done|]. by rewrite ascii_of_byte_of, IH. Qed.

Definition is_byte (z : Z) : Prop := 0 ≤ z < 256.

Lemma bytes_of_string l : Forall is_byte l → bytes_of (string_of_bytes l) = l.
Proof. induction 1; simpl; [done|]. by rewrite byte_of_ascii, IHForall. Qed.

Lemma bytes_of_is_byte s : Forall is_byte (bytes_of s).
Proof. induction s; simpl; constructor; [apply byte_of_bounds|done]. Qed.

(** ** [base64.RawURLEncoding] *)

Module Base64.

(** The alphabet: A-Z, a-z, 0-9, '-' and '_'. *)
Definition encode_digit (z : Z) : Z :=
  if z <? 26 then 65 + z
  else if z <? 52 then 71 + z
  else if z <? 62 then z - 4
  else if z =? 62 then 45 else 95.

Definition decode_digit (z : Z) : option Z :=
  if (65 <=? z) && (z <=? 90) then Some (z - 65)
  else if (97 <=? z) && (z <=? 122) then Some (z - 71)
  else if (48 <=? z) && (z <=? 57) then Some (z + 4)
  else if z =? 45 then Some 62
  else if z =? 95 then Some 63
  else None.

(** Three bytes are four digits; what is left over is two or three digits. *)
Fixpoint digits_of (l : list Z) : list Z :=
  match l with
  | a :: b :: c :: l =>
      a / 4 :: a mod 4 * 16 + b / 16 :: b mod 16 * 4 + c / 64 :: c mod 64 :: digits_of l
  | [a; b] => [a / 4; a mod 4 * 16 + b / 16; b mod 16 * 4]
  | [a] => [a / 4; a mod 4 * 16]
  | [] => []
  end.

Fixpoint of_digits (l : list Z) : option (list Z) :=
  match l with
  | a :: b :: c :: d :: l =>
      tail ← of_digits l;
      Some (a * 4 + b / 16 :: b mod 16 * 16 + c / 4 :: c mod 4 * 64 + d :: tail)
  | [a; b; c] => Some [a * 4 + b / 16; b mod 16 * 16 + c / 4]
  | [a; b] => Some [a * 4 + b / 16]
  | [_] => None
  | [] => Some []
  end.

Definition encode (s : string) : string :=
  string_of_bytes (encode_digit <$> digits_of (bytes_of s)).

(** [base64.StdEncoding], with padding: how [encoding/json] writes a []byte. *)
Definition std_digit (z : Z) : Z :=
  if z =? 62 then 43 else if z =? 63 then 47 else encode_digit z.
Definition padding (n : nat) : string :=
  match (n mod 3)%nat with 1%nat => "==" | 2%nat => "=" | _ => "" end.
Definition std_encode (s : string) : string :=
  string_of_bytes (std_digit <$> digits_of (bytes_of s)) +:+ padding (String.length s).

Definition line_end (z : Z) : bool := (z =? 10) || (z =? 13).

Definition decode (s : string) : option string :=
  digits ← mapM decode_digit (filter (λ z, line_end z = false) (bytes_of s));
  string_of_bytes <$> of_digits digits.

Example encode_ex : encode "kliq?>" = "a2xpcT8-".
Proof. vm_compute. reflexivity. Qed.
Example std_encode_ex : std_encode "kliq?>!!" = "a2xpcT8+ISE=".
Proof. vm_compute. reflexivity. Qed.
Example decode_ex : decode "a2xp" = Some "kli".
Proof. vm_compute. reflexivity. Qed.

Definition is_digit (z : Z) : Prop := 0 ≤ z < 64.

(** Induction three elements at a time. *)
Lemma by_threes (P : list Z → Prop) :
  P [] → (∀ a, P [a]) → (∀ a b, P [a; b]) →
  (∀ a b c l, P l → P (a :: b :: c :: l)) → ∀ l, P l.
Proof.
  intros H0 H1 H2 H3 l.
  enough (P l ∧ (∀ a, P (a :: l)) ∧ (∀ a b, P (a :: b :: l))) as [? _]; [done|].
  induction l as [|x l (IH0 & IH1 & IH2)]; [done|]. split_and!; auto.
Qed.

Lemma digits_of_bounds l : Forall is_byte l → Forall is_digit (digits_of l).
Proof.
  induction l as [|a|a b|a b c l IH] using by_threes; rewrite ?Forall_cons; simpl; intros H;
    unfold is_byte, is_digit in *; decompose_Forall; try done;
    try (apply IH; tauto); Z.div_mod_to_equations; lia.
Qed.

Lemma of_digits_of l : Forall is_byte l → of_digits (digits_of l) = Some l.
Proof.
  induction l as [|a|a b|a b c l IH] using by_threes; rewrite ?Forall_cons; simpl; intros H;
    unfold is_byte in *; [done|..].
  - do 2 f_equal. Z.div_mod_to_equations; lia.
  - do 2 f_equal; [Z.div_mod_to_equations; lia|]. f_equal. Z.div_mod_to_equations; lia.
  - rewrite IH by tauto. simpl. do 2 f_equal; [Z.div_mod_to_equations; lia|].
    f_equal; [Z.div_mod_to_equations; lia|]. f_equal. Z.div_mod_to_equations; lia.
Qed.

(** A digit's character decodes to it, and is neither a line end nor a dot. *)
Definition digit_ok (z : Z) : bool :=
  let c := encode_digit z in
  bool_decide (decode_digit c = Some z) && negb (line_end c) && negb (c =? 46)
  && (0 <=? c) && (c <? 256).

Lemma digit_ok_spec z : is_digit z → digit_ok z = true.
Proof.
  intros H. apply (all_from_spec digit_ok 64 0); [vm_compute; reflexivity|].
  unfold is_digit in H. lia.
Qed.

Lemma encode_digit_spec z :
  is_digit z →
  decode_digit (encode_digit z) = Some z ∧ line_end (encode_digit z) = false ∧
  encode_digit z ≠ 46 ∧ is_byte (encode_digit z).
Proof.
  intros H%digit_ok_spec. unfold digit_ok, is_byte in *.
  repeat (apply andb_true_iff in H as [H ?]).
  apply bool_decide_eq_true in H. rewrite ?negb_true_iff, ?Z.eqb_neq in *. split_and!; [done..| |]; lia.
Qed.

Lemma encode_bytes s :
  bytes_of (encode s) = encode_digit <$> digits_of (bytes_of s).
Proof.
  apply bytes_of_string, Forall_fmap. eapply Forall_impl; [apply digits_of_bounds, bytes_of_is_byte|].
  intros z Hz. by apply encode_digit_spec.
Qed.

Lemma decode_encode s : decode (encode s) = Some s.
Proof.
  unfold decode. rewrite encode_bytes.
  pose proof (digits_of_bounds _ (bytes_of_is_byte s)) as Hd.
  assert (filter (λ z, line_end z = false) (encode_digit <$> digits_of (bytes_of s)) =
          encode_digit <$> digits_of (bytes_of s)) as ->.
  { induction Hd as [|z l Hz]; csimpl; [done|].
    rewrite filter_cons_True by (by apply encode_digit_spec). by f_equal. }
  assert (mapM decode_digit (encode_digit <$> digits_of (bytes_of s)) =
          Some (digits_of (bytes_of s))) as ->.
  { apply mapM_Some. induction Hd as [|z l Hz]; simpl; constructor; [|done].
    by apply encode_digit_spec. }
  simpl. rewrite of_digits_of by apply bytes_of_is_byte. simpl. by rewrite string_of_bytes_of.
Qed.

Lemma encode_no_dot s : has_char dot (encode s) = false.
Proof.
  unfold encode. pose proof (digits_of_bounds _ (bytes_of_is_byte s)) as Hd.
  induction Hd as [|z l Hz]; simpl; [done|]. apply orb_false_iff. split; [|done].
  apply Ascii.eqb_neq. intros H. apply encode_digit_spec in Hz as (_ & _ & Hz & Hb).
  apply (f_equal byte_of) in H. unfold dot in H. rewrite !byte_of_ascii in H by (unfold is_byte in Hb; lia).
  done.
Qed.

#[global] Opaque encode decode std_encode.
End Base64.

(** ** HMAC-SHA256 *)

Module Hmac.
(** The key of a block: hashed when longer than the block, padded with zeros. *)
Definition block_key (key : list Z) : list Z :=
  let key := if 64 <? Z.of_nat (length key) then Sha256.digest key else key in
  key ++ replicate (64 - length key) 0.

Definition sum (key msg : string) : string :=
  let k := block_key (bytes_of key) in
  string_of_bytes
    (Sha256.digest ((Z.lxor 92 <$> k) ++ Sha256.digest ((Z.lxor 54 <$> k) ++ bytes_of msg))).
End Hmac.

(** RFC 4231, test case 2. *)
Example hmac_ex :
  Sha256.hex (bytes_of (Hmac.sum "Jefe" "what do ya want for nothing?")) =
  "5bdcc146bf60754e6a042426089575c75a003f089d2739839dec58b964ec3843".
Proof. vm_compute. reflexivity. Qed.

#[global] Opaque Hmac.sum.
