(* ===== verification/GoPath.v ===== *)
(** * More of [strings], and [path/filepath]

    Substrings, suffixes and lower case; lexical operations on slash-separated
    paths, as [filepath] does them on Unix. *)

From stdpp Require Import options.
From S2P Require Import Prelude GoStrings GoTime GoEncoding.
#[local] Open Scope Z_scope.

(** [strings.Contains] *)
Fixpoint contains (sub s : string) : bool :=
  has_prefix sub s || match s with EmptyString => false | String _ s' => contains sub s' end.

(** [strings.HasSuffix] *)
Definition has_suffix (suffix s : string) : bool := has_prefix (rev_string suffix) (rev_string s).

(** [strings.Trim(s, "c")] *)
Definition trim_char (c : Ascii.ascii) (s : string) : string :=
  trim_right_char c (trim_left_char c s).

(** [strings.ToLower]: bytes below 128 here, other runes by the Unicode tables. *)
Class UnicodeLower := { lower_runes : string → string }.

Definition lower_byte (z : Z) : Z := if (65 <=? z) && (z <=? 90) then z + 32 else z.

Fixpoint lower_ascii (s : string) : string :=
  match s with
  | EmptyString => ""
  | String c s' => String (ascii_of_byte (lower_byte (byte_of c))) (lower_ascii s')
  end.

Definition is_ascii (s : string) : bool := forallb (λ z, z <? 128) (bytes_of s).

Definition ToLower `{UnicodeLower} (s : string) : string :=
  if is_ascii s then lower_ascii s else lower_runes s.

(** [containsString] of the registry, the compiler and the bindings. *)
Definition containsString (values : list string) (needle : string) : bool :=
  existsb (λ value, trim_space value ==s trim_space needle) values.

(** ** [filepath] *)

(** The elements kept by [Clean], the last one first. *)
Definition clean_step (rooted : bool) (kept : list string) (elem : string) : list string :=
  if empty_str elem || (elem ==s ".") then kept
  else if elem ==s ".." then
    match kept with
    | top :: rest => if top ==s ".." then elem :: kept else rest
    | [] => if rooted then [] else [elem]
    end
  else elem :: kept.

Definition is_rooted (path : string) : bool := has_prefix "/" path.

Definition Clean (path : string) : string :=
  if empty_str path then "." else
  let rooted := is_rooted path in
  let elems := rev (foldl (clean_step rooted) [] (split_char slash path)) in
  if rooted : bool then "/" +:+ join "/" elems
  else match elems with [] => "." | _ => join "/" elems end.

(** [filepath.Join]: leading empty elements are dropped. *)
Fixpoint Join (elems : list string) : string :=
  match elems with
  | [] => ""
  | e :: elems' => if empty_str e then Join elems' else Clean (join "/" elems)
  end.

(** Up to and including the last slash, and what follows it. *)
Fixpoint split_last (s : string) : option (string * string) :=
  match s with
  | EmptyString => None
  | String c s' =>
      match split_last s' with
      | Some (dir, base) => Some (String c dir, base)
      | None => if Ascii.eqb c slash then Some (String c "", s') else None
      end
  end.

(** [filepath.Dir] and [filepath.Base] *)
Definition Dir (path : string) : string :=
  match split_last path with
  | Some (dir, _) => Clean dir
  | None => "."
  end.

Definition Base (path : string) : string :=
  if empty_str path then "." else
  let path := trim_right_char slash path in
  let base := match split_last path with Some (_, base) => base | None => path end in
  if empty_str base then "/" else base.

(** [filepath.Abs], with the working directory where [os.Getwd] finds one. *)
Definition Abs (cwd : option string) (path : string) : option string :=
  if is_rooted path then Some (Clean path)
  else match cwd with Some wd => Some (Join [wd; path]) | None => None end.

Example clean_ex : Clean <$> ["a/./b//../c"; "/../a"; "../../x/.."; ""; "/"; "a/.."] =
  ["a/c"; "/a"; "../.."; "."; "/"; "."].
Proof. reflexivity. Qed.
Example join_ex : (Join [""; "a"; "../b"; ""], Dir "a/b/c", Dir "a", Base "a/b/", Base "///") =
  ("b", "a/b", ".", "b", "/").
Proof. reflexivity. Qed.
Example contains_ex : (contains ".raw_" "signal.x.raw_y", contains "" "", has_suffix ".yaml" "a.yaml") =
  (true, true, true).
Proof. reflexivity. Qed.

(** [filepath.Rel], on the elements of the two cleaned paths. *)
Definition path_elems (path : string) : list string :=
  if path ==s "." then [] else if path ==s "/" then [""] else split_char slash path.

Fixpoint drop_common (b t : list string) : list string * list string :=
  match b, t with
  | x :: b', y :: t' => if x ==s y then drop_common b' t' else (b, t)
  | _, _ => (b, t)
  end.

Definition Rel (basepath targpath : string) : option string :=
  let base := Clean basepath in
  let targ := Clean targpath in
  if targ ==s base then Some "." else
  if negb (Bool.eqb (is_rooted base) (is_rooted targ)) then None else
  let '(b, t) := drop_common (path_elems base) (if targ ==s "." then ["."] else path_elems targ) in
  match b with
  | [] => Some (join "/" t)
  | x :: _ => if x ==s ".." then None else Some (join "/" (((λ _, "..") <$> b) ++ t))
  end.

Example rel_ex : (Rel "a/b" "a/c", Rel "a" "a/b/c", Rel "." "x/y", Rel "/" "/x", Rel "/a" "x", Rel "../a" "b") =
  (Some "../c", Some "b/c", Some "x/y", Some "x", None, None).
Proof. reflexivity. Qed.

(** ** The file system, as it is while a command reads it *)

(** What [filepath.WalkDir] hands to its function: a path, whether it is a directory,
    and the error met there. *)
Record WalkEntry := {
  we_Path : string;
  we_IsDir : bool;
  we_Err : option error;
}.

(** [os_Stat] says whether a path is a directory; [os_WalkDir] is the whole tree in the
    order of the walk, a directory before what is below it. *)
Class Files := {
  os_ReadFile : string → result string;
  os_Stat : string → result bool;
  os_ReadDir : string → result (list (string * bool));
  os_WalkDir : string → list WalkEntry;
  os_Getwd : option string;
}.

(** What the function of a walk answers. *)
Inductive walk_answer (S : Type) : Type :=
  | Continue (s : S)
  | SkipDir (s : S)
  | Stop (e : error).
Arguments Continue {S}.
Arguments SkipDir {S}.
Arguments Stop {S}.

(** The walk; [skipped] is the directory whose entries are passed over ([SkipDir] is
    answered for directories only). *)
Fixpoint walk {S} (f : S → WalkEntry → walk_answer S) (s : S) (skipped : option string)
    (entries : list WalkEntry) : result S :=
  match entries with
  | [] => Ok s
  | e :: entries =>
      if match skipped with
         | Some dir => (we_Path e ==s dir) || has_prefix (dir +:+ "/") (we_Path e)
         | None => false
         end
      then walk f s skipped entries else
      match f s e with
      | Continue s => walk f s None entries
      | SkipDir s => walk f s (Some (we_Path e)) entries
      | Stop e => Err e
      end
  end.

(** [os.ErrNotExist], which [os.IsNotExist] recognises when it is not wrapped. *)
Definition ErrNotExist := Sentinel "file does not exist".
Definition IsNotExist (e : error) : bool := bool_decide (e = ErrNotExist).

(** ** A joined path is not empty *)

Lemma clean_kept rooted elems kept :
  Forall (λ e, e ≠ "") kept → Forall (λ e, e ≠ "") (foldl (clean_step rooted) kept elems).
Proof.
  revert kept. induction elems as [|e elems IH]; intros kept Hk; simpl; [done|]. apply IH.
  unfold clean_step. destruct (empty_str e) eqn:E; simpl; [done|]. apply String.eqb_neq in E.
  repeat case_match; subst; try done; repeat constructor; try done; by inversion Hk.
Qed.

Lemma join_not_empty sep e l : e ≠ "" → join sep (e :: l) ≠ "".
Proof. destruct e; [done|]. destruct l; simpl; by rewrite ?app_str_cons. Qed.

Lemma Clean_not_empty path : Clean path ≠ "".
Proof.
  unfold Clean. destruct (empty_str path); [done|]. cbv zeta.
  destruct (is_rooted path); [by rewrite app_str_cons|].
  pose proof (clean_kept false (split_char slash path) [] (Forall_nil_2 _)) as H.
  destruct (rev _) as [|e l] eqn:E; [done|]. apply join_not_empty.
  rewrite Forall_forall in H. apply H. rewrite <- elem_of_reverse. unfold reverse. rewrite <- rev_alt, E. left.
Qed.

Lemma Join_not_empty e elems : e ∈ elems → e ≠ "" → Join elems ≠ "".
Proof.
  induction elems as [|a elems IH]; [by intros ?%elem_of_nil|]. intros Hin He. simpl.
  destruct (empty_str a) eqn:Ea; [|apply Clean_not_empty]. apply String.eqb_eq in Ea.
  apply elem_of_cons in Hin as [->|Hin]; [done|auto].
Qed.
