(* ===== verification/GoQuote.v ===== *)
(** * Quoted strings and pieces of regular expressions

    [strconv.Unquote] on a string between double quotes, the lines of a
    [bufio.Scanner], and the classes the program's regular expressions are made of:
    [\s], and a name between quotes; then what [strings.TrimSpace] leaves. *)

From stdpp Require Import options.
From S2P Require Import Prelude GoStrings GoTime GoJson GoEncoding.
#[local] Open Scope Z_scope.

(** ** [\s] *)

Definition re_space (c : Ascii.ascii) : bool :=
  let z := byte_of c in (z =? 9) || (z =? 10) || (z =? 12) || (z =? 13) || (z =? 32).

Fixpoint skip_spaces (s : string) : string :=
  match s with
  | String c s' => if re_space c then skip_spaces s' else s
  | EmptyString => EmptyString
  end.

(** [\s+] before something that is not a space. *)
Definition some_spaces (s : string) : option string :=
  match s with
  | String c s' => if re_space c then Some (skip_spaces s') else None
  | EmptyString => None
  end.

Definition dq : Ascii.ascii := ascii_of_byte 34.
Definition is_quote (c : Ascii.ascii) : bool := byte_of c =? 34.

(** The text up to the next quote, and what follows it. *)
Fixpoint until_quote (s : string) : option (string * string) :=
  match s with
  | EmptyString => None
  | String c s' =>
      if is_quote c then Some ("", s') else
      '(name, rest) ← until_quote s'; Some (String c name, rest)
  end.

(** A double quote, one or more characters that are not, and a double quote. *)
Definition quoted_name (s : string) : option (string * string) :=
  s ← skip dquote s;
  '(name, rest) ← until_quote s;
  if empty_str name then None else Some (name, rest).

(** [$] *)
Definition at_end (s : string) : option unit := if empty_str s then Some () else None.

(** ** Lines *)

Definition newline : Ascii.ascii := ascii_of_byte 10.

Definition dropCR (line : string) : string :=
  match rev_string line with
  | String c r => if byte_of c =? 13 then rev_string r else line
  | EmptyString => line
  end.

(** The lines of a text, without the newlines; the last is not one if it is empty. *)
Fixpoint drop_last_empty (l : list string) : list string :=
  match l with
  | [] => []
  | [s] => if empty_str s then [] else [s]
  | s :: l => s :: drop_last_empty l
  end.
Definition scan_lines (text : string) : list string := drop_last_empty (split_char newline text).

(** [bufio.MaxScanTokenSize], and what a line of that length ends the scan with. *)
Definition MaxScanTokenSize : Z := 65536.
Definition ErrTooLong : error := Sentinel "bufio.Scanner: token too long".

(** ** [strconv.Unquote] *)

Definition hex_value (c : Ascii.ascii) : option Z :=
  let z := byte_of c in
  if (48 <=? z) && (z <=? 57) then Some (z - 48)
  else if (97 <=? z) && (z <=? 102) then Some (z - 87)
  else if (65 <=? z) && (z <=? 70) then Some (z - 55)
  else None.

(** [n] digits of a base, and the rest. *)
Fixpoint take_base (digit : Ascii.ascii → option Z) (base : Z) (n : nat) (acc : Z) (s : string)
    : option (Z * string) :=
  match n, s with
  | O, _ => Some (acc, s)
  | S n, String c s' => d ← digit c; take_base digit base n (acc * base + d) s'
  | S _, EmptyString => None
  end.

Definition octal_value (c : Ascii.ascii) : option Z :=
  let z := byte_of c in if (48 <=? z) && (z <=? 55) then Some (z - 48) else None.

Definition valid_rune (r : Z) : bool :=
  ((0 <=? r) && (r <? 55296)) || ((57343 <? r) && (r <=? 1114111)).

(** [utf8.AppendRune] of a valid rune. *)
Definition utf8_encode (r : Z) : string :=
  string_of_bytes
    (if r <? 128 then [r]
     else if r <? 2048 then [192 + r / 64; 128 + r mod 64]
     else if r <? 65536 then [224 + r / 4096; 128 + r / 64 mod 64; 128 + r mod 64]
     else [240 + r / 262144; 128 + r / 4096 mod 64; 128 + r / 64 mod 64; 128 + r mod 64]).

Definition unicode_escape (n : nat) (s : string) : option (string * string) :=
  '(r, rest) ← take_base hex_value 16 n 0 s;
  if valid_rune r then Some (utf8_encode r, rest) else None.

(** What follows a backslash, between double quotes. *)
Definition unquote_escape (s : string) : option (string * string) :=
  match s with
  | EmptyString => None
  | String c rest =>
      let z := byte_of c in
      if z =? 97 then Some (chr 7, rest)
      else if z =? 98 then Some (chr 8, rest)
      else if z =? 102 then Some (chr 12, rest)
      else if z =? 110 then Some (chr 10, rest)
      else if z =? 114 then Some (chr 13, rest)
      else if z =? 116 then Some (chr 9, rest)
      else if z =? 118 then Some (chr 11, rest)
      else if z =? 120 then
        '(b, rest) ← take_base hex_value 16 2 0 rest; Some (chr b, rest)
      else if z =? 117 then unicode_escape 4 rest
      else if z =? 85 then unicode_escape 8 rest
      else if (48 <=? z) && (z <=? 55) then
        '(b, rest) ← take_base octal_value 8 2 (z - 48) rest;
        if b <=? 255 then Some (chr b, rest) else None
      else if (z =? 92) || (z =? 34) then Some (String c "", rest)
      else None
  end.

(** The rune at the head: its bytes as they are, or U+FFFD for a byte that begins none. *)
Definition head_rune (s : string) : string * string :=
  match utf8_len (bytes_of (take_string 4 s)) with
  | O => (string_of_bytes [239; 191; 189], drop_string 1 s)
  | n => (take_string n s, drop_string n s)
  end.

(** [UnquoteChar], newlines refused. *)
Definition unquote_char (s : string) : option (string * string) :=
  match s with
  | EmptyString => None
  | String c rest =>
      let z := byte_of c in
      if (z =? 34) || (z =? 10) then None
      else if 128 <=? z then Some (head_rune s)
      else if z =? 92 then unquote_escape rest
      else Some (String c "", rest)
  end.

(** Up to the closing quote; every character read takes at least a byte. *)
Fixpoint unquote_body (fuel : nat) (s : string) : option (string * string) :=
  match fuel, s with
  | S fuel, String c rest =>
      if is_quote c then Some ("", rest) else
      '(text, rest) ← unquote_char s;
      '(more, rest) ← unquote_body fuel rest;
      Some (text +:+ more, rest)
  | _, _ => None
  end.

Definition ErrSyntax : error := Sentinel "invalid syntax".

(** [strconv.Unquote] on a string that starts with a double quote. *)
Definition Unquote (s : string) : result string :=
  match skip dquote s with
  | Some body =>
      match unquote_body (String.length body) body with
      | Some (text, "") => Ok text
      | _ => Err ErrSyntax
      end
  | None => Err ErrSyntax
  end.

Example unquote_ex :
  Unquote (dquote +:+ "a\x41\n\u00e9\101\\" +:+ dquote) =
  Ok ("aA" +:+ chr 10 +:+ chr 195 +:+ chr 169 +:+ "A\").
Proof. vm_compute. reflexivity. Qed.
Example unquote_bad : Unquote (dquote +:+ "a\q" +:+ dquote) = Err ErrSyntax.
Proof. vm_compute. reflexivity. Qed.

(** ** Quoting

    A printer for [Unquote]: printable ASCII as it is, other bytes in hexadecimal. *)

Definition plain_char (c : Ascii.ascii) : bool :=
  let z := byte_of c in (32 <=? z) && (z <=? 126) && negb (z =? 34) && negb (z =? 92).

Definition quote_char (c : Ascii.ascii) : string :=
  if plain_char c then String c "" else "\x" +:+ Sha256.hex_byte (byte_of c).

Fixpoint quote_body (s : string) : string :=
  match s with
  | EmptyString => ""
  | String c s => quote_char c +:+ quote_body s
  end.

Definition quote (s : string) : string := dquote +:+ quote_body s +:+ dquote.

(** *** Ends of lines *)

(** A byte that [TrimSpace] keeps at either end. *)
Definition graphic (c : Ascii.ascii) : bool := (33 <=? byte_of c) && (byte_of c <=? 126).

(** A text whose last byte is graphic, and one whose first and last are. *)
Definition ends (s : string) : Prop := ∃ m c, s = m +:+ String c "" ∧ graphic c = true.
Definition solid (s : string) : Prop := ends s ∧ ∃ c m, s = String c m ∧ graphic c = true.

Lemma app_str_nil s : s +:+ "" = s.
Proof. induction s as [|c s IH]; [done|]. by rewrite app_str_cons, IH. Qed.

Lemma length_app_str a b : String.length (a +:+ b) = (String.length a + String.length b)%nat.
Proof. induction a as [|c a IH]; [done|]. rewrite app_str_cons. simpl. by rewrite IH. Qed.

Lemma rev_append_app s acc : rev_append s acc = rev_append s "" +:+ acc.
Proof.
  revert acc. induction s as [|c s IH]; intros acc; simpl; [done|].
  rewrite IH, (IH (String c "")), app_str_assoc. done.
Qed.

Lemma rev_string_app a b : rev_string (a +:+ b) = rev_string b +:+ rev_string a.
Proof.
  unfold rev_string. induction a as [|c a IH]; [by rewrite app_str_nil|].
  rewrite app_str_cons. cbn [rev_append].
  rewrite (rev_append_app (a +:+ b)), IH, app_str_assoc, (rev_append_app a (String c "")). done.
Qed.

Lemma rev_string_involutive s : rev_string (rev_string s) = s.
Proof.
  induction s as [|c s IH]; [done|].
  change (String c s) with (String c "" +:+ s). rewrite !rev_string_app, IH. done.
Qed.

Lemma graphic_space c : graphic c = true → space1 c = false ∧
  (∀ b, space2 c b = false ∧ space2 b c = false) ∧
  (∀ a b, space3 c a b = false ∧ space3 a b c = false).
Proof.
  unfold graphic, space1, space2, space3. intros [H1 H2]%andb_true_iff.
  apply Z.leb_le in H1, H2. split_and!; intros; split_and?; repeat
    match goal with
    | |- context [byte_of c =? ?z] => rewrite (proj2 (Z.eqb_neq (byte_of c) z)) by lia
    | |- context [?z <=? byte_of c] =>
        first [rewrite (proj2 (Z.leb_gt z (byte_of c))) by lia
              |rewrite (proj2 (Z.leb_le z (byte_of c))) by lia]
    | |- context [byte_of c <=? ?z] =>
        first [rewrite (proj2 (Z.leb_gt (byte_of c) z)) by lia
              |rewrite (proj2 (Z.leb_le (byte_of c) z)) by lia]
    end; simpl; rewrite ?andb_false_r; done.
Qed.

(** [TrimSpace] leaves a text with graphic ends as it is. *)
Lemma trim_space_solid s : solid s → trim_space s = s.
Proof.
  intros [(m & d & Hs & Hd) (c & m' & Hs' & Hc)].
  destruct (graphic_space c Hc) as (C1 & C2 & C3). destruct (graphic_space d Hd) as (D1 & D2 & D3).
  assert (Hleft : trim_left s = s).
  { rewrite Hs'. unfold trim_left. simpl. rewrite C1. destruct m' as [|b [|e m']]; [done|..].
    - destruct (C2 b) as [-> _]. done.
    - destruct (C2 b) as [-> _], (C3 b e) as [-> _]. done. }
  with_strategy transparent [trim_space] unfold trim_space. rewrite Hleft. unfold trim_right.
  assert (Hr : rev_string s = String d (rev_string m)) by (rewrite Hs, rev_string_app; done).
  rewrite Hr. simpl. rewrite D1. rewrite <- Hr.
  destruct (rev_string m) as [|b [|e r]]; rewrite ?rev_string_involutive; [done|..].
  - destruct (D2 b) as [_ ->]. by rewrite rev_string_involutive.
  - destruct (D2 b) as [_ ->], (D3 e b) as [_ ->]. by rewrite rev_string_involutive.
Qed.

Lemma ends_app a b : ends b → ends (a +:+ b).
Proof. intros (m & c & -> & Hc). exists (a +:+ m), c. by rewrite app_str_assoc. Qed.

Lemma ends_char c : graphic c = true → ends (String c "").
Proof. by exists "", c. Qed.

Lemma dropCR_ends s : ends s → dropCR s = s.
Proof.
  intros (m & c & -> & Hc). unfold dropCR. rewrite rev_string_app. simpl.
  destruct (Z.eqb_spec (byte_of c) 13) as [E|]; [|done].
  unfold graphic in Hc. by rewrite E in Hc.
Qed.

(** *** Reading what was quoted *)

Ltac each_char c := destruct c as [[] [] [] [] [] [] [] []]; reflexivity.

Lemma unquote_quote_char c rest :
  unquote_char (quote_char c +:+ rest) = Some (String c "", rest).
Proof. each_char c. Qed.

Lemma quote_char_head c : ∃ d s, quote_char c = String d s ∧ is_quote d = false.
Proof. unfold quote_char. destruct (plain_char c) eqn:E; do 2 eexists; (split; [done|]).
  - unfold plain_char in E. unfold is_quote. destruct (byte_of c =? 34); [|done].
    by rewrite andb_false_r in E.
  - done.
Qed.

Lemma unquote_body_quoted fuel s rest :
  (String.length (quote_body s) < fuel)%nat →
  unquote_body fuel (quote_body s +:+ String dq rest) = Some (s, rest).
Proof.
  revert fuel. induction s as [|c s IH]; intros fuel Hf; destruct fuel as [|fuel]; try lia; [done|].
  cbn [quote_body] in Hf |- *. rewrite length_app_str in Hf. rewrite app_str_assoc. destruct (quote_char_head c) as (d & t & E & Hd).
  pose proof (unquote_quote_char c (quote_body s +:+ String dq rest)) as Hu.
  rewrite E in Hu, Hf |- *. rewrite app_str_cons in Hu |- *. cbn [unquote_body].
  rewrite Hd, Hu. cbn [String.length] in Hf. simpl. rewrite IH; [done|]. lia.
Qed.

(** [Unquote] reads back what was quoted. *)
Lemma Unquote_quote s : Unquote (quote s) = Ok s.
Proof.
  unfold Unquote, quote. rewrite skip_app. change dquote with (String dq "").
  rewrite unquote_body_quoted; [done|]. rewrite length_app_str. simpl. lia.
Qed.

Fixpoint no_char (c : Ascii.ascii) (s : string) : bool :=
  match s with
  | EmptyString => true
  | String d s => negb (Ascii.eqb d c) && no_char c s
  end.

Lemma until_quote_app name rest :
  no_char dq name = true → until_quote (name +:+ String dq rest) = Some (name, rest).
Proof.
  induction name as [|c name IH]; [done|]. cbn [no_char]. intros [Hc Hn]%andb_true_iff.
  rewrite app_str_cons. cbn [until_quote].
  assert (is_quote c = false) as ->.
  { unfold is_quote. destruct (Z.eqb_spec (byte_of c) 34) as [E|]; [|done].
    rewrite <- (ascii_of_byte_of c), E in Hc. done. }
  by rewrite IH.
Qed.

Lemma quoted_name_app name rest :
  no_char dq name = true → name ≠ "" →
  quoted_name (dquote +:+ name +:+ dquote +:+ rest) = Some (name, rest).
Proof.
  intros Hn Hne. unfold quoted_name. rewrite skip_app. cbn [mbind option_bind].
  change (dquote +:+ rest) with (String dq rest). rewrite until_quote_app by done. simpl.
  apply String.eqb_neq in Hne. by rewrite Hne.
Qed.

(** ** What [strings.TrimSpace] leaves

    Trimming twice is trimming once, and a text that begins with a graphic character
    is not blank. *)

Section trim.
Context (sp2 : Ascii.ascii → Ascii.ascii → bool).
Context (sp3 : Ascii.ascii → Ascii.ascii → Ascii.ascii → bool).
Notation trim := (trim_with sp2 sp3).

(** Induction on the number of bytes: [trim_with] drops one, two or three. *)
Lemma by_length (P : string → Prop) :
  (∀ s, (∀ s', (String.length s' < String.length s)%nat → P s') → P s) → ∀ s, P s.
Proof.
  intros H s. remember (String.length s) as n eqn:E. assert (Hle : (String.length s ≤ n)%nat) by lia.
  clear E. revert s Hle. induction n as [|n IH]; intros s Hle; apply H; intros s' Hs'; [lia|].
  apply IH. lia.
Qed.

Lemma trim_with_suffix s : ∃ p, s = p +:+ trim s.
Proof.
  induction s as [s IH] using by_length. destruct s as [|a s1]; [by exists ""|].
  cbn [trim_with]. destruct (space1 a).
  { destruct (IH s1) as [p Hp]; [simpl; lia|]. exists (String a p). by rewrite app_str_cons, <- Hp. }
  destruct s1 as [|b s2]; [by exists ""|]. destruct (sp2 a b).
  { destruct (IH s2) as [p Hp]; [simpl; lia|]. exists (String a (String b p)).
    by rewrite !app_str_cons, <- Hp. }
  destruct s2 as [|c s3]; [by exists ""|]. destruct (sp3 a b c); [|by exists ""].
  destruct (IH s3) as [p Hp]; [simpl; lia|]. exists (String a (String b (String c p))).
  by rewrite !app_str_cons, <- Hp.
Qed.

Lemma trim_with_shorter s : (String.length (trim s) ≤ String.length s)%nat.
Proof.
  destruct (trim_with_suffix s) as [p Hp]. rewrite Hp at 2. rewrite length_app_str. lia.
Qed.

Lemma trim_with_idem s : trim (trim s) = trim s.
Proof.
  induction s as [s IH] using by_length. destruct s as [|a s1]; [done|].
  cbn [trim_with]. destruct (space1 a) eqn:E1; [apply IH; simpl; lia|].
  destruct s1 as [|b s2]; [by cbn [trim_with]; rewrite E1|].
  destruct (sp2 a b) eqn:E2; [apply IH; simpl; lia|].
  destruct s2 as [|c s3]; [by cbn [trim_with]; rewrite E1, E2|].
  destruct (sp3 a b c) eqn:E3; [apply IH; simpl; lia|].
  by cbn [trim_with]; rewrite E1, E2, E3.
Qed.

(** A prefix of a text that begins with no space begins with none. *)
Lemma trim_with_prefix p q : trim (p +:+ q) = p +:+ q → trim p = p.
Proof.
  destruct p as [|a p]; [done|]. rewrite app_str_cons. cbn [trim_with]. destruct (space1 a).
  { intros H. pose proof (trim_with_shorter (p +:+ q)) as L. rewrite H in L. simpl in L. lia. }
  destruct p as [|b p]; [done|]. rewrite app_str_cons. destruct (sp2 a b).
  { intros H. pose proof (trim_with_shorter (p +:+ q)) as L. rewrite H in L. simpl in L. lia. }
  destruct p as [|c p]; [done|]. rewrite app_str_cons. destruct (sp3 a b c); [|done].
  intros H. pose proof (trim_with_shorter (p +:+ q)) as L. rewrite H in L. simpl in L. lia.
Qed.

(** A byte that no space contains stays. *)
Lemma trim_with_keeps r c :
  space1 c = false → (∀ a, sp2 a c = false) → (∀ a b, sp3 a b c = false) →
  trim (r +:+ String c "") ≠ "".
Proof.
  intros C1 C2 C3. induction r as [r IH] using by_length. destruct r as [|a r].
  { change ("" +:+ String c "") with (String c ""). cbn [trim_with]. by rewrite C1. }
  rewrite app_str_cons. cbn [trim_with]. destruct (space1 a); [apply IH; simpl; lia|].
  destruct r as [|b r]; [change ("" +:+ String c "") with (String c ""); cbv match; by rewrite C2|]. rewrite app_str_cons.
  destruct (sp2 a b); [apply IH; simpl; lia|].
  destruct r as [|d r]; [change ("" +:+ String c "") with (String c ""); cbv match; by rewrite C3|]. rewrite app_str_cons.
  destruct (sp3 a b d); [apply IH; simpl; lia|done].
Qed.
End trim.

Lemma trim_space_idem s : trim_space (trim_space s) = trim_space s.
Proof.
  with_strategy transparent [trim_space] unfold trim_space.
  set (t := trim_left s). assert (Ht : trim_left t = t) by apply trim_with_idem. clearbody t.
  unfold trim_right. set (sp2 := λ a b, space2 b a). set (sp3 := λ a b c, space3 c b a).
  set (x := trim_with sp2 sp3 (rev_string t)).
  assert (Hu : trim_left (rev_string x) = rev_string x).
  { destruct (trim_with_suffix sp2 sp3 (rev_string t)) as [p Hp]. fold x in Hp.
    apply (trim_with_prefix space2 space3 _ (rev_string p)).
    rewrite <- rev_string_app, <- Hp, rev_string_involutive. exact Ht. }
  rewrite Hu, rev_string_involutive. unfold x. by rewrite trim_with_idem.
Qed.

Lemma blank_trim s : blank (trim_space s) = blank s.
Proof. unfold blank. by rewrite trim_space_idem. Qed.

Lemma blank_same a b : trim_space a = trim_space b → blank a = blank b.
Proof. unfold blank. by intros ->. Qed.

Lemma blank_graphic c s : graphic c = true → blank (String c s) = false.
Proof.
  intros Hc. destruct (graphic_space c Hc) as (C1 & C2 & C3). unfold blank. apply String.eqb_neq.
  with_strategy transparent [trim_space] unfold trim_space.
  assert (Hleft : trim_left (String c s) = String c s).
  { unfold trim_left. simpl. rewrite C1. destruct s as [|b [|e s]]; [done|..].
    - destruct (C2 b) as [-> _]. done.
    - destruct (C2 b) as [-> _], (C3 b e) as [-> _]. done. }
  rewrite Hleft. unfold trim_right. change (String c s) with (String c "" +:+ s).
  rewrite rev_string_app. change (rev_string (String c "")) with (String c "").
  intros H. apply (trim_with_keeps (λ a b, space2 b a) (λ a b c, space3 c b a) (rev_string s) c).
  - done.
  - intros a. apply C2.
  - intros a b. apply C3.
  - rewrite <- (rev_string_involutive (trim_with _ _ _)), H. done.
Qed.

(** The texts a program makes with a literal in front are not blank. *)
Ltac not_blank :=
  match goal with |- blank ?s = false => apply blank_graphic; reflexivity end.

Example not_blank_digest d : blank ("sha256:" +:+ d) = false.
Proof. not_blank. Qed.

(** ** Digests are trimmed texts *)

Lemma hex_digit_graphic z : 0 ≤ z < 16 → graphic (ascii_of_byte (if z <? 10 then 48 + z else 87 + z)) = true.
Proof.
  intros Hz. assert (Hin : z ∈ seqZ 0 16) by (apply elem_of_seqZ; lia).
  clear Hz. revert z Hin. apply Forall_forall. vm_compute. repeat constructor.
Qed.

Lemma hex_byte_ends z : 0 ≤ z < 256 → ends (Sha256.hex_byte z).
Proof.
  intros Hz. unfold Sha256.hex_byte. apply ends_app. unfold Sha256.hex_digit, chr. apply ends_char.
  apply hex_digit_graphic. apply Z.mod_pos_bound. lia.
Qed.

Lemma hex_ends p l : ends p → Forall (λ z, 0 ≤ z < 256) l → ends (p +:+ Sha256.hex l).
Proof.
  unfold Sha256.hex. intros Hp Hl. induction Hl as [|z l Hz Hl IH] in p, Hp |- *; simpl.
  { by rewrite app_str_nil. }
  destruct l as [|z' l]; [by apply ends_app, hex_byte_ends|].
  simpl in IH |- *. rewrite <- app_str_assoc. apply IH. by apply ends_app, hex_byte_ends.
Qed.

Lemma be_bytes_bytes n x : Forall (λ z, 0 ≤ z < 256) (Sha256.be_bytes n x).
Proof.
  induction n as [|n IH]; simpl; constructor; [|done].
  change 255 with (Z.ones 8). rewrite Z.land_ones by lia. apply Z.mod_pos_bound. lia.
Qed.

Lemma digest_bytes m : Forall (λ z, 0 ≤ z < 256) (Sha256.digest m).
Proof.
  unfold Sha256.digest. cbv zeta. generalize (Sha256.blocks (length (Sha256.pad m) / 64) Sha256.H0
    (Sha256.words (Sha256.pad m))). intros l. induction l as [|x l IH]; cbn [flat_map]; [done|].
  apply Forall_app. split; [apply be_bytes_bytes|done].
Qed.

Lemma digest_solid d : solid ("sha256:" +:+ sha256_hex d).
Proof.
  split; [|by eexists _, _]. with_strategy transparent [sha256_hex] unfold sha256_hex.
  apply hex_ends; [|apply digest_bytes]. by exists "sha256", (ascii_of_byte 58).
Qed.

Lemma trim_digest d : trim_space ("sha256:" +:+ sha256_hex d) = "sha256:" +:+ sha256_hex d.
Proof. apply trim_space_solid, digest_solid. Qed.
