(* ===== verification/GoFloat.v ===== *)
(** * float64

    The operations of IEEE 754 binary64 that the program uses, on [spec_float]:
    comparison, arithmetic rounded to nearest even, [strconv.ParseFloat], the
    verb [%f], and [sort.Float64s].  A comparison with NaN is false. *)

From stdpp Require Import options.
From Stdlib Require Import SpecFloat.
From S2P Require Import Prelude GoStrings GoTime GoDuration GoPath.
#[local] Open Scope Z_scope.

(** ** Arithmetic and comparison *)

Definition fadd : float64 → float64 → float64 := SFadd 53 1024.
Definition fsub : float64 → float64 → float64 := SFsub 53 1024.
Definition fmul : float64 → float64 → float64 := SFmul 53 1024.
Definition fdiv : float64 → float64 → float64 := SFdiv 53 1024.
Definition fabs : float64 → float64 := SFabs.
Definition is_nan (x : float64) : bool := match x with S754_nan => true | _ => false end.

Notation "a <f b" := (SFltb a b) (at level 70, no associativity) : go_scope.
Notation "a <=f b" := (SFleb a b) (at level 70, no associativity) : go_scope.
Notation "a =f b" := (SFeqb a b) (at level 70, no associativity) : go_scope.

(** The order of the floats as an order of triples, NaN below all. *)
Definition float_key (x : float64) : Z * Z * Z :=
  match x with
  | S754_nan => (-1, 0, 0)
  | S754_infinity true => (0, 0, 0)
  | S754_finite true m e => (1, - e, - Zpos m)
  | S754_zero _ => (2, 0, 0)
  | S754_finite false m e => (3, e, Zpos m)
  | S754_infinity false => (4, 0, 0)
  end.

Definition key_lt (x y : Z * Z * Z) : Prop :=
  let '(a1, b1, c1) := x in let '(a2, b2, c2) := y in
  a1 < a2 ∨ a1 = a2 ∧ (b1 < b2 ∨ b1 = b2 ∧ c1 < c2).

Ltac compare_cases := repeat
  match goal with
  | |- context [Z.compare ?a ?b] => destruct (Z.compare_spec a b)
  | |- context [Pcompare ?a ?b Eq] => change (Pcompare a b Eq) with (Pos.compare a b)
  | |- context [Pos.compare ?a ?b] => destruct (Pos.compare_spec a b)
  | |- context [Pos.compare_cont Eq ?a ?b] =>
      change (Pos.compare_cont Eq a b) with (Pos.compare a b)
  end; simpl.

Lemma SFltb_key x y :
  is_nan x = false → is_nan y = false → (x <f y) = true ↔ key_lt (float_key x) (float_key y).
Proof.
  destruct x as [s1|[]| |[] m1 e1], y as [s2|[]| |[] m2 e2]; try done; intros _ _;
    unfold SFltb; simpl; compare_cases; subst; split; intros; try done; lia.
Qed.

Lemma SFltb_nan_l x y : is_nan x = true → (x <f y) = false.
Proof. by destruct x. Qed.
Lemma SFltb_nan_r x y : is_nan y = true → (x <f y) = false.
Proof. by destruct x as [| | |[]], y. Qed.

Lemma SFleb_SFltb x y :
  is_nan x = false → is_nan y = false → (x <=f y) = negb (y <f x).
Proof.
  destruct x as [s1|[]| |[] m1 e1], y as [s2|[]| |[] m2 e2]; try done; intros _ _;
    unfold SFltb, SFleb; simpl; compare_cases; subst; try done; lia.
Qed.

(** ** [sort.Float64s]: NaNs first; values that are equal are not told apart *)

Definition float_less (x y : float64) : bool := (x <f y) || (is_nan x && negb (is_nan y)).
Definition float_leb (x y : float64) : bool := negb (float_less y x).
Definition sort_Float64s : list float64 → list float64 := sort_by float_leb.

Lemma float_less_key x y : float_less x y = true ↔ key_lt (float_key x) (float_key y).
Proof.
  unfold float_less. destruct (is_nan x) eqn:Hx, (is_nan y) eqn:Hy; simpl.
  - rewrite SFltb_nan_l by done. destruct x, y; try done; simpl; split; [done|lia].
  - rewrite orb_true_r. destruct x, y as [|[]| |[]]; try done; simpl; split; auto; lia.
  - rewrite SFltb_nan_r by done. destruct x as [|[]| |[]], y; try done; simpl; split; try done; lia.
  - rewrite orb_false_r. by apply SFltb_key.
Qed.

Lemma float_leb_key x y : float_leb x y = true ↔ ¬ key_lt (float_key y) (float_key x).
Proof. unfold float_leb. rewrite negb_true_iff, <- float_less_key. by destruct (float_less y x). Qed.

Lemma key_lt_asym x y : key_lt x y → ¬ key_lt y x.
Proof. destruct x as [[??]?], y as [[??]?]; simpl; lia. Qed.
Lemma key_le_trans x y z : ¬ key_lt y x → ¬ key_lt z y → ¬ key_lt z x.
Proof. destruct x as [[??]?], y as [[??]?], z as [[??]?]; simpl; lia. Qed.

Lemma float_leb_total x y : float_leb x y = true ∨ float_leb y x = true.
Proof.
  rewrite !float_leb_key. destruct (float_less x y) eqn:E.
  - left. by apply key_lt_asym, float_less_key.
  - right. rewrite <- float_less_key. by rewrite E.
Qed.

Lemma float_leb_trans x y z :
  float_leb x y = true → float_leb y z = true → float_leb x z = true.
Proof. rewrite !float_leb_key. apply key_le_trans. Qed.

Lemma float_leb_SFleb x y :
  is_nan x = false → is_nan y = false → float_leb x y = (x <=f y).
Proof.
  intros Hx Hy. unfold float_leb, float_less. rewrite Hy, SFleb_SFltb by done. by rewrite orb_false_r.
Qed.

Lemma sort_Float64s_sorted l :
  StronglySorted (λ a b, float_leb a b = true) (sort_Float64s l).
Proof. apply sort_by_Sorted; [apply float_leb_total|apply float_leb_trans]. Qed.

Lemma sort_Float64s_perm l : sort_Float64s l ≡ₚ l.
Proof. apply sort_by_perm. Qed.

(** ** [strconv.ParseFloat]

    [readFloat] scans a mantissa and an exponent; the number they denote is
    rounded once, to nearest even.  [None] is an error: the syntax, or a value
    too large ([ErrRange]). *)

Definition hex_value (c : Ascii.ascii) : option Z :=
  let z := lower_byte (byte_of c) in
  if (97 <=? z) && (z <=? 102) then Some (z - 87) else digit_of c.

Definition digit_in (hex : bool) (c : Ascii.ascii) : option Z :=
  if hex then hex_value c else digit_of c.

Record mantissa := {
  mt_value : Z;          (* the digits, read as an integer *)
  mt_fraction : Z;       (* how many of them follow the point *)
  mt_dot : bool;
  mt_digits : bool;
}.

(** The loop over the mantissa; an underscore is skipped, a second point ends it. *)
Fixpoint read_mantissa (hex : bool) (m : mantissa) (s : string) : mantissa * string :=
  match s with
  | EmptyString => (m, s)
  | String c s' =>
      if byte_of c =? 95 then read_mantissa hex m s'
      else if (byte_of c =? 46) && negb (mt_dot m) then
        read_mantissa hex {| mt_value := mt_value m; mt_fraction := mt_fraction m;
                             mt_dot := true; mt_digits := mt_digits m |} s'
      else match digit_in hex c with
           | Some d =>
               read_mantissa hex
                 {| mt_value := (if hex then 16 else 10) * mt_value m + d;
                    mt_fraction := mt_fraction m + (if mt_dot m then 1 else 0);
                    mt_dot := mt_dot m; mt_digits := true |} s'
           | None => (m, s)
           end
  end.

(** The digits of an exponent; it stops growing at five digits. *)
Fixpoint read_exponent (e : Z) (s : string) : Z * string :=
  match s with
  | EmptyString => (e, s)
  | String c s' =>
      if byte_of c =? 95 then read_exponent e s' else
      match digit_of c with
      | Some d => read_exponent (if e <? 10000 then 10 * e + d else e) s'
      | None => (e, s)
      end
  end.

(** An optional exponent after the letter; [None] is an error. *)
Definition optional_exponent (hex : bool) (s : string) : option (Z * string) :=
  match s with
  | String c s' =>
      if negb (lower_byte (byte_of c) =? (if hex then 112 else 101)) then
        if hex then None else Some (0, s)
      else
        let '(negative, s') :=
          match s' with
          | String d s2 =>
              if byte_of d =? 43 then (false, s2)
              else if byte_of d =? 45 then (true, s2) else (false, s')
          | EmptyString => (false, s')
          end in
        match s' with
        | String d _ =>
            match digit_of d with
            | Some _ =>
                let '(e, s') := read_exponent 0 s' in
                Some ((if negative : bool then - e else e), s')
            | None => None
            end
        | EmptyString => None
        end
  | EmptyString => if hex then None else Some (0, s)
  end.

(** [underscoreOK]: every underscore stands between digits, or after a prefix. *)
Fixpoint underscores_ok (hex : bool) (saw : Z) (s : string) : bool :=
  match s with
  | EmptyString => negb (saw =? 95)
  | String c s' =>
      match digit_in hex c with
      | Some _ => underscores_ok hex 48 s'
      | None =>
          if byte_of c =? 95 then (saw =? 48) && underscores_ok hex 95 s'
          else negb (saw =? 95) && underscores_ok hex 33 s'
      end
  end.

(** The part of a number after its sign: its digits and its base. *)
Definition base_prefix (s : string) : bool * string :=
  match s with
  | String c (String x (String _ _ as s')) =>
      if (byte_of c =? 48) && (lower_byte (byte_of x) =? 120) then (true, s') else (false, s)
  | _ => (false, s)
  end.

Definition signed_prefix (s : string) : bool * string :=
  match s with
  | String c s' =>
      if byte_of c =? 45 then (true, s') else if byte_of c =? 43 then (false, s') else (false, s)
  | EmptyString => (false, s)
  end.

Definition underscoreOK (s : string) : bool :=
  let s := snd (signed_prefix s) in
  match s with
  | String c (String x s') =>
      let x := lower_byte (byte_of x) in
      if (byte_of c =? 48) && ((x =? 98) || (x =? 111) || (x =? 120))
      then underscores_ok (x =? 120) 48 s' else underscores_ok false 94 s
  | _ => underscores_ok false 94 s
  end.

Definition negate (negative : bool) (x : float64) : float64 := if negative then SFopp x else x.

(** [m * 10^e] and [m * 2^e], rounded to nearest even. *)
Definition float_decimal (m e : Z) : float64 :=
  match m with
  | Zpos p =>
      if 0 <=? e then binary_normalize 53 1024 (m * 10 ^ e) 0 false
      else fdiv (S754_finite false p 0) (S754_finite false (Z.to_pos (10 ^ (- e))) 0)
  | _ => S754_zero false
  end.
Definition float_binary (m e : Z) : float64 := binary_normalize 53 1024 m e false.

Definition has_underscore (s : string) : bool := existsb (Z.eqb 95) (bytes_of s).

(** [special]: an infinity with an optional sign, or nan without one. *)
Definition special (s : string) : option float64 :=
  let '(negative, t) := signed_prefix s in
  if (lower_ascii t ==s "inf") || (lower_ascii t ==s "infinity")
  then Some (S754_infinity negative)
  else if lower_ascii s ==s "nan" then Some S754_nan else None.

Definition ParseFloat (s : string) : option float64 :=
  match special s with
  | Some x => Some x
  | None =>
      let '(negative, t) := signed_prefix s in
      let '(hex, t) := base_prefix t in
      let '(m, t) := read_mantissa hex
        {| mt_value := 0; mt_fraction := 0; mt_dot := false; mt_digits := false |} t in
      if negb (mt_digits m) then None else
      '(e, t) ← optional_exponent hex t;
      if negb (empty_str t) then None else
      if has_underscore s && negb (underscoreOK s) then None else
      let x := if hex : bool then float_binary (mt_value m) (e - 4 * mt_fraction m)
               else float_decimal (mt_value m) (e - mt_fraction m) in
      match x with
      | S754_infinity _ => None
      | _ => Some (negate negative x)
      end
  end.

(** ** The verb [%f]: six digits after the point, ties to even *)

Definition round_half_even (n d : Z) : Z :=
  let q := n / d in
  let r := 2 * (n mod d) in
  if (d <? r) || ((d =? r) && Z.odd q) then q + 1 else q.

Definition format_f (x : float64) : string :=
  match x with
  | S754_nan => "NaN"
  | S754_infinity negative => if negative then "-Inf" else "+Inf"
  | S754_zero negative => if negative then "-0.000000" else "0.000000"
  | S754_finite negative m e =>
      let q := if 0 <=? e then Zpos m * 2 ^ e * 1000000
               else round_half_even (Zpos m * 1000000) (2 ^ (- e)) in
      (if negative then "-" else "") +:+ pretty (q / 1000000) +:+ "." +:+ digits 6 (q mod 1000000)
  end.

(** A decimal fraction as a constant of the source: [0.70]. *)
Definition float_const (m e : Z) : float64 := float_decimal m e.

Example parse_ex1 : ParseFloat "0.70" = Some (float_const 7 (-1)).
Proof. vm_compute. reflexivity. Qed.
Example parse_ex2 : ParseFloat "0.1" = Some (S754_finite false 7205759403792794 (-56)).
Proof. vm_compute. reflexivity. Qed.
Example parse_ex3 : ParseFloat "-1_2.5e+0_1" = Some (SFopp (float_of_Z 125)).
Proof. vm_compute. reflexivity. Qed.
Example parse_ex4 : (ParseFloat "1e309", ParseFloat "-1e-400", ParseFloat "0x1.8p1") =
  (None, Some (S754_zero true), Some (float_of_Z 3)).
Proof. vm_compute. reflexivity. Qed.
Example parse_ex5 : (ParseFloat "1__0", ParseFloat "_1", ParseFloat "+nan", ParseFloat "-Inf", ParseFloat "1.2.3") =
  (None, None, None, Some (S754_infinity true), None).
Proof. vm_compute. reflexivity. Qed.
Example format_ex : (format_f (float_const 25 (-1)), format_f (float_const (-1) 0), format_f (float_decimal 1 (-7))) =
  ("2.500000", "0.000000", "0.000000").
Proof. vm_compute. reflexivity. Qed.
