(* ===== verification/Schema.v ===== *)
(** * The schema validator ([internal/core/registry/schema_validator.go])

    Registry documents are YAML values checked against JSON schemas in a subset of
    keywords.  Reading YAML and JSON, regular expressions, and the text of a
    float64 are parameters; maps are visited in any order. *)

From stdpp Require Import options.
From Stdlib Require Import SpecFloat.
From S2P Require Import Prelude GoStrings GoTime GoDuration GoJson GoEncoding GoPath GoFloat.
#[local] Open Scope Z_scope.

(** ** Values

    What [any] holds after decoding: [VInt] is any of Go's integer types,
    [VMap] a [map[any]any], and [VOther] a value of a type the validator has no
    case for (a timestamp), by its type, its [%v] text and its JSON. *)
Inductive value : Type :=
  | VNil
  | VBool (b : bool)
  | VInt (z : Z)
  | VFloat (f : float64)
  | VString (s : string)
  | VArray (l : list value)
  | VObject (l : list (string * value))
  | VMap (l : list (value * value))
  | VOther (type_ text : string) (json : result string).

Definition object : Type := list (string * value).

Fixpoint obj_get (key : string) (o : object) : option value :=
  match o with
  | [] => None
  | (k, v) :: o => if k ==s key then Some v else obj_get key o
  end.

(** Assignment to a key of a map; a key is held once. *)
Fixpoint obj_set {A} (key : string) (v : A) (o : list (string * A)) : list (string * A) :=
  match o with
  | [] => [(key, v)]
  | (k, w) :: o => if k ==s key then (k, v) :: o else (k, w) :: obj_set key v o
  end.

(** [strconv] and [fmt] on a float64: [%v], and its JSON where it has one. *)
Class FloatText := {
  float_v : float64 → string;
  float_json : float64 → result string;
}.

(** Decoders of documents, and [regexp.MatchString]. *)
Class DocumentDecoders := {
  decode_JSONSchema : string → result object;
  decode_YAMLValue : string → result value;
  regexp_MatchString : string → string → result bool;
}.

Section texts.
Context {FT : FloatText}.

(** [fmt.Sprint] of one value. *)
Fixpoint Sprint (v : value) : string :=
  match v with
  | VNil => "<nil>"
  | VBool b => if b then "true" else "false"
  | VInt z => pretty z
  | VFloat f => float_v f
  | VString s => s
  | VArray l => "[" +:+ join " " (Sprint <$> l) +:+ "]"
  | VObject l =>
      "map[" +:+ join " " ((λ kv, kv.1 +:+ ":" +:+ kv.2) <$>
        sort_by (λ a b, str_leb a.1 b.1) ((λ kv, (kv.1, Sprint kv.2)) <$> l)) +:+ "]"
  | VMap l =>
      "map[" +:+ join " " ((λ kv, kv.1 +:+ ":" +:+ kv.2) <$>
        sort_by (λ a b, str_leb a.1 b.1) ((λ kv, (Sprint kv.1, Sprint kv.2)) <$> l)) +:+ "]"
  | VOther _ text _ => text
  end.

Fixpoint all_ok {A} (l : list (result A)) : result (list A) :=
  match l with
  | [] => Ok []
  | r :: l => a ← r; rest ← all_ok l; Ok (a :: rest)
  end.

(** [json.Marshal]; a [map[any]any] has no JSON. *)
Fixpoint json_value (v : value) : result string :=
  match v with
  | VNil => Ok "null"
  | VBool b => Ok (if b then "true" else "false")
  | VInt z => Ok (pretty z)
  | VFloat f => float_json f
  | VString s => Ok (json_string s)
  | VArray l => parts ← all_ok (json_value <$> l); Ok ("[" +:+ join "," parts +:+ "]")
  | VObject l =>
      members ← all_ok ((λ kv, text ← json_value kv.2; Ok (kv.1, text)) <$> l);
      Ok ("{" +:+ join "," ((λ kv, json_string kv.1 +:+ ":" +:+ kv.2) <$>
            sort_by (λ a b, str_leb a.1 b.1) members) +:+ "}")
  | VMap _ => Err (Errorf "json: unsupported type: map[interface {}]interface {}" [])
  | VOther _ _ json => json
  end.
End texts.

(** [reflect.DeepEqual] on two values. *)
Fixpoint deep_equal (a b : value) : bool :=
  match a, b with
  | VNil, VNil => true
  | VBool x, VBool y => Bool.eqb x y
  | VInt x, VInt y => x =? y
  | VFloat x, VFloat y => x =f y
  | VString x, VString y => x ==s y
  | VArray l, VArray m =>
      (fix go l m := match l, m with
                     | [], [] => true
                     | x :: l, y :: m => deep_equal x y && go l m
                     | _, _ => false
                     end) l m
  | VObject l, VObject m =>
      Nat.eqb (length l) (length m) &&
      forallb (λ kv, match obj_get kv.1 m with
                     | Some y => deep_equal kv.2 y
                     | None => false
                     end) l
  | _, _ => false
  end.

Section validator.
Context {GR : GoRuntime} {FT : FloatText} {DD : DocumentDecoders}.

(** ** Helpers *)

Definition numberValue (v : value) : option float64 :=
  match v with
  | VInt z => Some (float_of_Z z)
  | VFloat f => Some f
  | _ => None
  end.

(** [math.Trunc(f) == f] *)
Definition is_integral (f : float64) : bool :=
  match f with
  | S754_finite _ m e => (0 <=? e) || (Zpos m mod 2 ^ (- e) =? 0)
  | S754_nan => false
  | _ => true
  end.

Definition isNumber (v : value) : bool := bool_decide (is_Some (numberValue v)).
Definition isInteger (v : value) : bool :=
  match numberValue v with Some f => is_integral f | None => false end.

(** [int(f)]; what is out of range becomes the least int64, as on amd64. *)
Definition int_of_float (f : float64) : Z :=
  match f with
  | S754_zero _ => 0
  | S754_finite negative m e =>
      let n := if 0 <=? e then Zpos m * 2 ^ e else Zpos m / 2 ^ (- e) in
      let z := if negative then - n else n in
      if (min_int64 <=? z) && (z <=? max_int64) then z else min_int64
  | _ => min_int64
  end.

Definition optionalInt (schema : object) (key : string) : result (option Z) :=
  match obj_get key schema with
  | None => Ok None
  | Some raw =>
      match numberValue raw with
      | Some number =>
          reject negb (is_integral number) with Errorf "schema %s must be an integer" [AStr key];;
          Ok (Some (int_of_float number))
      | None => Err (Errorf "schema %s must be an integer" [AStr key])
      end
  end.

Definition optionalFloat (schema : object) (key : string) : result (option float64) :=
  match obj_get key schema with
  | None => Ok None
  | Some raw =>
      match numberValue raw with
      | Some number => Ok (Some number)
      | None => Err (Errorf "schema %s must be a number" [AStr key])
      end
  end.

Definition jsonValuesEqual (left_ right_ : value) : bool :=
  deep_equal left_ right_ ||
  match json_value left_, json_value right_ with
  | Ok l, Ok r => l ==s r
  | _, _ => false
  end.

Definition valueTypeName (v : value) : string :=
  match v with
  | VNil => "null"
  | VObject _ => "object"
  | VArray _ => "array"
  | VString _ => "string"
  | VBool _ => "boolean"
  | VMap _ => "map[interface {}]interface {}"
  | VOther type_ _ _ => type_
  | _ => if isInteger v then "integer" else "number"
  end.

(** [fmt.Sprintf("%q", ...)] is left to the text of the error. *)
Definition enumList (values : list value) : string :=
  "[" +:+ join ", " ((λ v, json_string (Sprint v)) <$> values) +:+ "]".

Fixpoint string_list (complaint : error) (l : list value) : result (list string) :=
  match l with
  | [] => Ok []
  | VString s :: l => rest ← string_list complaint l; Ok (s :: rest)
  | _ :: _ => Err complaint
  end.

Definition schemaTypes (rawType : value) : result (list string) :=
  match rawType with
  | VString s => Ok [s]
  | VArray l => string_list (Errorf "schema type array must contain strings" []) l
  | _ => Err (Errorf "schema type must be a string or string array" [])
  end.

Definition valueMatchesSchemaType (v : value) (schemaType : string) : bool :=
  if schemaType ==s "object" then match v with VObject _ => true | _ => false end
  else if schemaType ==s "array" then match v with VArray _ => true | _ => false end
  else if schemaType ==s "string" then match v with VString _ => true | _ => false end
  else if schemaType ==s "boolean" then match v with VBool _ => true | _ => false end
  else if schemaType ==s "number" then isNumber v
  else if schemaType ==s "integer" then isInteger v
  else if schemaType ==s "null" then match v with VNil => true | _ => false end
  else false.

Definition validateSchemaType (rawType v : value) (at_ : string) : result unit :=
  types ← wrap_err "%s: %w" [AStr at_] (schemaTypes rawType);
  if existsb (valueMatchesSchemaType v) types then Ok tt
  else Err (Errorf "%s: expected type %s, got %s"
              [AStr at_; AStr (join "|" types); AStr (valueTypeName v)]).

(** ** The keywords *)

Definition validateEnum (schema : object) (v : value) (at_ : string) : result unit :=
  match obj_get "enum" schema with
  | None => Ok tt
  | Some (VArray enumValues) =>
      if existsb (jsonValuesEqual v) enumValues then Ok tt
      else Err (Errorf "%s: value %q is not one of %s"
                  [AStr at_; AStr (Sprint v); AStr (enumList enumValues)])
  | Some _ => Err (Errorf "%s: schema enum must be an array" [AStr at_])
  end.

Definition validatePattern (schema : object) (v : value) (at_ : string) : result unit :=
  match obj_get "pattern" schema with
  | None => Ok tt
  | Some (VString pattern) =>
      match v with
      | VString text =>
          matched ← wrap_err "%s: schema pattern %q is invalid: %w" [AStr at_; AStr pattern]
                      (regexp_MatchString pattern text);
          if matched : bool then Ok tt
          else Err (Errorf "%s: value %q does not match pattern %q"
                      [AStr at_; AStr text; AStr pattern])
      | _ => Ok tt
      end
  | Some _ => Err (Errorf "%s: schema pattern must be a string" [AStr at_])
  end.

(** A pair of optional bounds on a length. *)
Definition check_min (at_ format : string) (bound : option Z) (n : Z) : result unit :=
  match bound with
  | Some b => if n <? b then Err (Errorf format [AStr at_; AInt b; AInt n]) else Ok tt
  | None => Ok tt
  end.
Definition check_max (at_ format : string) (bound : option Z) (n : Z) : result unit :=
  match bound with
  | Some b => if b <? n then Err (Errorf format [AStr at_; AInt b; AInt n]) else Ok tt
  | None => Ok tt
  end.

Definition validateStringBounds (schema : object) (v : value) (at_ : string) : result unit :=
  match v with
  | VString text =>
      let n := Z.of_nat (String.length text) in
      minLength ← wrap_err "%s: %w" [AStr at_] (optionalInt schema "minLength");
      _ ← check_min at_ "%s: expected length at least %d, got %d" minLength n;
      maxLength ← wrap_err "%s: %w" [AStr at_] (optionalInt schema "maxLength");
      check_max at_ "%s: expected length at most %d, got %d" maxLength n
  | _ => Ok tt
  end.

Definition validateNumberBounds (schema : object) (v : value) (at_ : string) : result unit :=
  match numberValue v with
  | None => Ok tt
  | Some number =>
      minimum ← wrap_err "%s: %w" [AStr at_] (optionalFloat schema "minimum");
      _ ← match minimum with
          | Some b => if number <f b
                      then Err (Errorf "%s: expected value at least %v, got %v"
                                  [AStr at_; AStr (float_v b); AStr (float_v number)])
                      else Ok tt
          | None => Ok tt
          end;
      maximum ← wrap_err "%s: %w" [AStr at_] (optionalFloat schema "maximum");
      match maximum with
      | Some b => if b <f number
                  then Err (Errorf "%s: expected value at most %v, got %v"
                              [AStr at_; AStr (float_v b); AStr (float_v number)])
                  else Ok tt
      | None => Ok tt
      end
  end.

Definition has_member (name : string) (o : object) : bool :=
  match obj_get name o with Some _ => true | None => false end.

Definition validateRequired (schema o : object) (at_ : string) : result unit :=
  match obj_get "required" schema with
  | None => Ok tt
  | Some (VArray required) =>
      for_each (λ rawName,
        match rawName with
        | VString name =>
            if has_member name o then Ok tt
            else Err (Errorf "%s: missing required property %q" [AStr at_; AStr name])
        | _ => Err (Errorf "%s: schema required entries must be strings" [AStr at_])
        end) required
  | Some _ => Err (Errorf "%s: schema required must be an array" [AStr at_])
  end.

(** The schemas of the named properties. *)
Definition propertySchemas (schema : object) (at_ : string) : result (list (string * object)) :=
  match obj_get "properties" schema with
  | None => Ok []
  | Some (VObject rawMap) =>
      for_fold (λ properties kv,
        match kv.2 with
        | VObject child => Ok (obj_set kv.1 child properties)
        | _ => Err (Errorf "%s: schema property %q must be an object" [AStr at_; AStr kv.1])
        end) [] (map_order rawMap)
  | Some _ => Err (Errorf "%s: schema properties must be an object" [AStr at_])
  end.

Section nested.
(** The recursive call on a nested schema. *)
Context (rec : object → value → string → result unit).

(** What [additionalProperties] asks of the members that are not [known]. *)
Definition validateAdditional (schema o : object) (known : string → bool) (at_ : string)
    : result unit :=
  match obj_get "additionalProperties" schema with
  | None => Ok tt
  | Some (VBool additional) =>
      if additional then Ok tt else
      for_each (λ kv,
        if known kv.1 then Ok tt
        else Err (Errorf "%s: additional property %q is not allowed" [AStr at_; AStr kv.1]))
        (map_order o)
  | Some (VObject additional) =>
      for_each (λ kv,
        if known kv.1 then Ok tt else rec additional kv.2 (at_ +:+ "." +:+ kv.1))
        (map_order o)
  | Some _ =>
      Err (Errorf "%s: schema additionalProperties must be a boolean or object" [AStr at_])
  end.

Definition validateObjectSchema (schema : object) (v : value) (at_ : string) : result unit :=
  match v with
  | VObject o =>
      _ ← validateRequired schema o at_;
      properties ← propertySchemas schema at_;
      _ ← for_each (λ kv,
            match obj_get kv.1 o with
            | Some childValue => rec kv.2 childValue (at_ +:+ "." +:+ kv.1)
            | None => Ok tt
            end) (map_order properties);
      validateAdditional schema o (λ name, existsb (λ kv, kv.1 ==s name) properties) at_
  | _ => Ok tt
  end.

Definition validateArraySchema (schema : object) (v : value) (at_ : string) : result unit :=
  match v with
  | VArray array =>
      let n := Z.of_nat (length array) in
      minItems ← wrap_err "%s: %w" [AStr at_] (optionalInt schema "minItems");
      _ ← check_min at_ "%s: expected at least %d items, got %d" minItems n;
      maxItems ← wrap_err "%s: %w" [AStr at_] (optionalInt schema "maxItems");
      _ ← check_max at_ "%s: expected at most %d items, got %d" maxItems n;
      match obj_get "items" schema with
      | None => Ok tt
      | Some (VObject itemSchema) =>
          for_each (λ '(i, item), rec itemSchema item (at_ +:+ "[" +:+ pretty i +:+ "]"))
            (imap (λ i item, (i, item)) array)
      | Some _ => Err (Errorf "%s: schema items must be an object" [AStr at_])
      end
  | _ => Ok tt
  end.
End nested.

Definition out_of_fuel {A} : result A := Err (Sentinel "schema nested too deep").

(** The recursion descends into the schema: [fuel] bounds its nesting. *)
Fixpoint validate_nested (fuel : nat) (schema : object) (v : value) (at_ : string) : result unit :=
  match fuel with
  | O => out_of_fuel
  | S fuel =>
      _ ← match obj_get "type" schema with
          | Some rawType => validateSchemaType rawType v at_
          | None => Ok tt
          end;
      _ ← validateEnum schema v at_;
      _ ← validatePattern schema v at_;
      _ ← validateStringBounds schema v at_;
      _ ← validateNumberBounds schema v at_;
      _ ← validateObjectSchema (validate_nested fuel) schema v at_;
      validateArraySchema (validate_nested fuel) schema v at_
  end.
End validator.

(** How deep a value is nested. *)
Fixpoint depth (v : value) : nat :=
  match v with
  | VArray l => S (foldr Nat.max O (depth <$> l))
  | VObject l => S (foldr Nat.max O ((λ kv, depth kv.2) <$> l))
  | _ => O
  end.

Definition validateSchemaValue `{GoRuntime, FloatText, DocumentDecoders} (schema : object)
    (v : value) (at_ : string) : result unit :=
  validate_nested (depth (VObject schema)) schema v at_.

(** ** Schemas themselves, and documents *)
Section documents.
Context {GR : GoRuntime} {FT : FloatText} {DD : DocumentDecoders}.
Context {FS : Files}.

Definition supported_keyword (key : string) : bool :=
  existsb (String.eqb key)
    ["$schema"; "$id"; "title"; "description"; "type"; "required"; "properties";
     "additionalProperties"; "items"; "enum"; "pattern"; "minItems"; "maxItems"; "minLength";
     "maxLength"; "minimum"; "maximum"].

Section keywords.
Context (schemaPath : string) (rec : object → string → result unit).

(** The loop body: the name of a keyword, then what it holds. *)
Definition supportedKeyword (at_ : string) (kv : string * value) : result unit :=
  let '(key, v) := kv in
  reject negb (supported_keyword key)
    with Errorf "schema_invalid: %s: unsupported keyword %q at %s"
           [AStr schemaPath; AStr key; AStr at_];;
  if key ==s "properties" then
    match v with
    | VObject properties =>
        for_each (λ kv,
          match kv.2 with
          | VObject child => rec child (at_ +:+ ".properties." +:+ kv.1)
          | _ => Err (Errorf "schema_invalid: %s: property %q at %s must be an object"
                        [AStr schemaPath; AStr kv.1; AStr at_])
          end) (map_order properties)
    | _ => Err (Errorf "schema_invalid: %s: properties at %s must be an object"
                  [AStr schemaPath; AStr at_])
    end
  else if key ==s "items" then
    match v with
    | VObject child => rec child (at_ +:+ ".items")
    | _ => Err (Errorf "schema_invalid: %s: items at %s must be an object"
                  [AStr schemaPath; AStr at_])
    end
  else if key ==s "additionalProperties" then
    match v with
    | VBool _ => Ok tt
    | VObject child => rec child (at_ +:+ ".additionalProperties")
    | _ => Err (Errorf "schema_invalid: %s: additionalProperties at %s must be a boolean or object"
                  [AStr schemaPath; AStr at_])
    end
  else Ok tt.
End keywords.

Fixpoint keywords_nested (fuel : nat) (schemaPath : string) (schema : object) (at_ : string)
    : result unit :=
  match fuel with
  | O => out_of_fuel
  | S fuel =>
      for_each (supportedKeyword schemaPath (keywords_nested fuel schemaPath) at_)
        (map_order schema)
  end.

Definition validateSupportedSchemaKeywords (schemaPath : string) (schema : object) (at_ : string)
    : result unit := keywords_nested (depth (VObject schema)) schemaPath schema at_.

Definition loadJSONSchema (path : string) : result object :=
  match os_ReadFile path with
  | Err e => if IsNotExist e then Err (Errorf "schema_missing: %s" [AStr path]) else Err e
  | Ok data => wrap_err "schema_invalid: %s: %w" [AStr path] (decode_JSONSchema data)
  end.

(** [fmt.Sprint(schema[key])]: a key that is missing prints as [<nil>]. *)
Definition sprint_member (schema : object) (key : string) : string :=
  Sprint (default VNil (obj_get key schema)).

Definition validateSchemaFiles (coreRegistryPath : string) (names : list string) : result unit :=
  for_each (λ name,
    let path := Join [coreRegistryPath; "schemas"; name] in
    schema ← loadJSONSchema path;
    reject blank (sprint_member schema "$schema")
      with Errorf "schema_invalid: %s: missing $schema" [AStr path];;
    reject trim_space (sprint_member schema "type") !=s "object"
      with Errorf "schema_invalid: %s: type must be object" [AStr path];;
    validateSupportedSchemaKeywords path schema "$") names.

(** Assigning every entry in turn: the last value of a key stays. *)
Definition to_object {A} (entries : list (string * A)) : list (string * A) :=
  foldl (λ o kv, obj_set kv.1 kv.2 o) [] entries.

Fixpoint normalizeYAMLValue (v : value) : value :=
  match v with
  | VObject l => VObject ((λ kv, (kv.1, normalizeYAMLValue kv.2)) <$> l)
  | VMap l =>
      VObject (to_object (map_order ((λ kv, (Sprint kv.1, normalizeYAMLValue kv.2)) <$> l)))
  | VArray l => VArray (normalizeYAMLValue <$> l)
  | _ => v
  end.

Definition loadYAMLValue (path : string) : result value :=
  data ← os_ReadFile path;
  v ← wrap_err "%s: %w" [AStr path] (decode_YAMLValue data);
  Ok (normalizeYAMLValue v).

Record schemaDocumentTarget := {
  sdt_Path : string;
  sdt_SchemaName : string;
  sdt_Required : bool;
}.

Definition validateRegistryDocument (coreRegistryPath : string) (target : schemaDocumentTarget)
    : result unit :=
  match os_Stat (sdt_Path target) with
  | Err e => if IsNotExist e && negb (sdt_Required target) then Ok tt else Err e
  | Ok _ =>
      schema ← loadJSONSchema (Join [coreRegistryPath; "schemas"; sdt_SchemaName target]);
      v ← loadYAMLValue (sdt_Path target);
      wrap_err "schema_validation_failed: %s against %s: %w"
        [AStr (sdt_Path target); AStr (sdt_SchemaName target)] (validateSchemaValue schema v "$")
  end.
End documents.
