(* ===== verification/SchemaProofs.v ===== *)
(** * What the schema validator accepts

    [conforms] says, keyword by keyword, when a value satisfies a schema, without the
    order in which maps are visited, the path in the messages or a bound on the
    nesting; [validateSchemaValue] decides it. *)

From stdpp Require Import options.
From S2P Require Import Prelude GoStrings GoTime GoDuration GoJson GoEncoding GoPath GoFloat Schema.
#[local] Open Scope Z_scope.

(** A Go map holds a key once, at every level of a schema. *)
Fixpoint go_maps (v : value) : Prop :=
  match v with
  | VArray l => foldr and True (go_maps <$> l)
  | VObject l => NoDup l.*1 ∧ foldr and True ((λ kv, go_maps kv.2) <$> l)
  | _ => True
  end.

Lemma obj_get_elem {name o v} : obj_get name o = Some v → (name, v) ∈ o.
Proof.
  induction o as [|[k w] o IH]; simpl; [done|].
  destruct (String.eqb_spec k name) as [->|]; [intros [= ->]; by left|right; auto].
Qed.

Lemma foldr_and_fmap {A} (P : A → Prop) l : foldr and True (P <$> l) ↔ Forall P l.
Proof. induction l as [|x l IH]; simpl; [by split|]. by rewrite IH, Forall_cons. Qed.

Lemma go_maps_member l name v : go_maps (VObject l) → (name, v) ∈ l → go_maps v.
Proof.
  simpl. rewrite foldr_and_fmap, Forall_forall. intros [_ H] Hin. by apply (H (name, v)).
Qed.

Lemma depth_member l name v : (name, v) ∈ l → (depth v < depth (VObject l))%nat.
Proof.
  intros Hin. cbn [depth]. induction l as [|kv l IH]; [by apply elem_of_nil in Hin|].
  rewrite fmap_cons. cbn [foldr]. apply elem_of_cons in Hin as [<-|Hin].
  - cbn [snd]. lia.
  - specialize (IH Hin). lia.
Qed.

(** [reject]ed loops over the entries of a map, in any order. *)
Lemma for_each_map_order `{GoRuntime} {A} (f : string * A → result unit) l :
  for_each f (map_order l) = Ok tt ↔ ∀ kv, kv ∈ l → f kv = Ok tt.
Proof. by rewrite for_each_Ok, map_order_Forall, Forall_forall. Qed.

Section conforms.
Context {GR : GoRuntime} {FT : FloatText} {DD : DocumentDecoders}.
Implicit Types (schema o child : object) (v x raw : value).

(** ** The keywords that do not nest *)

(** The names the [properties] keyword declares. *)
Definition declared schema : list string :=
  match obj_get "properties" schema with Some (VObject raw) => raw.*1 | _ => [] end.

Definition objects_only (l : object) : Prop := ∀ name x, (name, x) ∈ l → ∃ child, x = VObject child.

Definition properties_ok schema : Prop :=
  ∀ raw, obj_get "properties" schema = Some raw → ∃ l, raw = VObject l ∧ objects_only l.

Definition additional_ok schema o : Prop :=
  ∀ raw, obj_get "additionalProperties" schema = Some raw →
    raw = VBool true ∨ (∃ child, raw = VObject child) ∨
    raw = VBool false ∧ ∀ name x, (name, x) ∈ o → name ∈ declared schema.

Definition bounded schema (lower upper : string) (n : Z) : Prop :=
  ∃ lo hi, optionalInt schema lower = Ok lo ∧ optionalInt schema upper = Ok hi ∧
    (∀ b, lo = Some b → b ≤ n) ∧ (∀ b, hi = Some b → n ≤ b).

Record scalar_ok schema v : Prop := {
  ok_type raw : obj_get "type" schema = Some raw →
    ∃ types t, schemaTypes raw = Ok types ∧ t ∈ types ∧ valueMatchesSchemaType v t = true;
  ok_enum raw : obj_get "enum" schema = Some raw →
    ∃ values x, raw = VArray values ∧ x ∈ values ∧ jsonValuesEqual v x = true;
  ok_pattern raw : obj_get "pattern" schema = Some raw →
    ∃ p, raw = VString p ∧ ∀ text, v = VString text → regexp_MatchString p text = Ok true;
  ok_length text : v = VString text →
    bounded schema "minLength" "maxLength" (Z.of_nat (String.length text));
  ok_range number : numberValue v = Some number → ∃ lo hi,
    optionalFloat schema "minimum" = Ok lo ∧ optionalFloat schema "maximum" = Ok hi ∧
    (∀ b, lo = Some b → (number <f b) = false) ∧ (∀ b, hi = Some b → (b <f number) = false);
}.

Record object_ok schema o : Prop := {
  ok_required raw : obj_get "required" schema = Some raw →
    ∃ names, raw = VArray (VString <$> names) ∧ ∀ n, n ∈ names → is_Some (obj_get n o);
  ok_properties : properties_ok schema;
  ok_additional : additional_ok schema o;
}.

Record array_ok schema (l : list value) : Prop := {
  ok_items : bounded schema "minItems" "maxItems" (Z.of_nat (length l));
  ok_item_schema raw : obj_get "items" schema = Some raw → ∃ child, raw = VObject child;
}.

(** ** Conformance *)
Inductive conforms schema v : Prop :=
  | conforms_intro :
      scalar_ok schema v →
      (∀ o, v = VObject o → object_ok schema o) →
      (∀ l, v = VArray l → array_ok schema l) →
      (∀ o props name child x, v = VObject o → obj_get "properties" schema = Some (VObject props) →
         (name, VObject child) ∈ props → obj_get name o = Some x → conforms child x) →
      (∀ o child name x, v = VObject o →
         obj_get "additionalProperties" schema = Some (VObject child) →
         (name, x) ∈ o → name ∉ declared schema → conforms child x) →
      (∀ l child x, v = VArray l → obj_get "items" schema = Some (VObject child) → x ∈ l →
         conforms child x) →
      conforms schema v.

(** ** Each check *)

(** A keyword whose value has a shape that is refused. *)
Ltac refused := split; [done|]; let H := fresh in intros H; exfalso;
  repeat match type of H with _ ∧ _ => destruct H as [H _] end;
  specialize (H _ eq_refl); naive_solver.

Lemma validateSchemaType_Ok raw v at_ :
  validateSchemaType raw v at_ = Ok tt ↔
  ∃ types t, schemaTypes raw = Ok types ∧ t ∈ types ∧ valueMatchesSchemaType v t = true.
Proof.
  unfold validateSchemaType. destruct (schemaTypes raw) as [types|e]; simpl; [|naive_solver].
  destruct (existsb _ types) eqn:E.
  - apply existsb_exists in E as (t & Ht & Hm). apply list_elem_of_In in Ht. naive_solver.
  - split; [done|]. intros (? & t & [= <-] & Ht & Hm). apply list_elem_of_In in Ht.
    assert (existsb (valueMatchesSchemaType v) types = true); [|congruence].
    apply existsb_exists. eauto.
Qed.

Lemma validateEnum_Ok schema v at_ :
  validateEnum schema v at_ = Ok tt ↔ ∀ raw, obj_get "enum" schema = Some raw →
    ∃ values x, raw = VArray values ∧ x ∈ values ∧ jsonValuesEqual v x = true.
Proof.
  unfold validateEnum. destruct (obj_get "enum" schema) as [raw|]; [|naive_solver].
  destruct raw as [| | | | |values| | |]; try refused.
  destruct (existsb _ values) eqn:E.
  - apply existsb_exists in E as (x & Hx & Hm). apply list_elem_of_In in Hx. naive_solver.
  - split; [done|]. intros H. destruct (H _ eq_refl) as (? & x & [= <-] & Hx & Hm).
    apply list_elem_of_In in Hx. assert (existsb (jsonValuesEqual v) values = true); [|congruence].
    apply existsb_exists. eauto.
Qed.

Lemma validatePattern_Ok schema v at_ :
  validatePattern schema v at_ = Ok tt ↔ ∀ raw, obj_get "pattern" schema = Some raw →
    ∃ p, raw = VString p ∧ ∀ text, v = VString text → regexp_MatchString p text = Ok true.
Proof.
  unfold validatePattern. destruct (obj_get "pattern" schema) as [[]|]; try naive_solver.
  destruct v; try naive_solver.
  destruct (regexp_MatchString _ _) as [[]|] eqn:E; simpl; [| |]; split; try done; intros H.
  - intros raw [= <-]. eexists. split; [done|]. by intros text [= <-].
  - destruct (H _ eq_refl) as (p & [= <-] & Hp). specialize (Hp _ eq_refl). congruence.
  - destruct (H _ eq_refl) as (p & [= <-] & Hp). specialize (Hp _ eq_refl). congruence.
Qed.

Lemma check_min_Ok at_ format b n : check_min at_ format b n = Ok tt ↔ ∀ m, b = Some m → m ≤ n.
Proof.
  destruct b as [m|]; simpl; [|by split]. destruct (Z.ltb_spec n m); split; intros H'; try done.
  - specialize (H' _ eq_refl). lia.
  - by intros ? [= <-].
Qed.

Lemma check_max_Ok at_ format b n : check_max at_ format b n = Ok tt ↔ ∀ m, b = Some m → n ≤ m.
Proof.
  destruct b as [m|]; simpl; [|by split]. destruct (Z.ltb_spec m n); split; intros H'; try done.
  - specialize (H' _ eq_refl). lia.
  - by intros ? [= <-].
Qed.

Lemma bind_unit_Ok {B} (r : result unit) (k : unit → result B) b :
  r ≫= k = Ok b ↔ r = Ok tt ∧ k tt = Ok b.
Proof. destruct r as [[]|]; simpl; naive_solver. Qed.

(** A pair of bounds, read from the schema one after the other. *)
Lemma bounds_Ok schema lower upper n fl fu (k : result unit → result unit) (Q : Prop) at_ :
  (∀ r, k r = Ok tt ↔ r = Ok tt ∧ Q) →
  (lo ← wrap_err "%s: %w" [AStr at_] (optionalInt schema lower);
   _ ← check_min at_ fl lo n;
   hi ← wrap_err "%s: %w" [AStr at_] (optionalInt schema upper);
   k (check_max at_ fu hi n)) = Ok tt ↔ bounded schema lower upper n ∧ Q.
Proof.
  intros Hk. unfold bounded. destruct (optionalInt schema lower) as [lo|]; simpl; [|naive_solver].
  rewrite bind_unit_Ok. destruct (optionalInt schema upper) as [hi|]; simpl; [|naive_solver].
  rewrite Hk, check_min_Ok, check_max_Ok. naive_solver.
Qed.

Lemma validateStringBounds_Ok schema v at_ :
  validateStringBounds schema v at_ = Ok tt ↔ ∀ text, v = VString text →
    bounded schema "minLength" "maxLength" (Z.of_nat (String.length text)).
Proof.
  destruct v as [| | | |s| | | |]; simpl; try (split; [intros _ ?; discriminate|done]).
  rewrite (bounds_Ok _ _ _ _ _ _ (λ r, r) True) by naive_solver. naive_solver.
Qed.

Lemma validateNumberBounds_Ok schema v at_ :
  validateNumberBounds schema v at_ = Ok tt ↔ ∀ number, numberValue v = Some number → ∃ lo hi,
    optionalFloat schema "minimum" = Ok lo ∧ optionalFloat schema "maximum" = Ok hi ∧
    (∀ b, lo = Some b → (number <f b) = false) ∧ (∀ b, hi = Some b → (b <f number) = false).
Proof.
  unfold validateNumberBounds. destruct (numberValue v) as [number|]; [|naive_solver].
  destruct (optionalFloat schema "minimum") as [lo|]; simpl; [|naive_solver].
  destruct (optionalFloat schema "maximum") as [hi|]; rewrite bind_unit_Ok; simpl; [|naive_solver].
  assert (Hb : ∀ (b : option float64) (test : float64 → bool) e,
    match b with Some b => if test b then Err (e b) else Ok tt | None => Ok tt end = Ok tt ↔
    ∀ c, b = Some c → test c = false).
  { intros [b|] test e; [|naive_solver]. destruct (test b) eqn:E; split; try done.
    - intros H. specialize (H _ eq_refl). congruence.
    - by intros _ ? [= <-]. }
  rewrite (Hb lo (λ b, number <f b)), (Hb hi (λ b, b <f number)). naive_solver.
Qed.

(** ** Objects and arrays *)

Lemma has_member_iff name o : has_member name o = true ↔ is_Some (obj_get name o).
Proof. unfold has_member. destruct (obj_get name o); naive_solver. Qed.

Lemma validateRequired_Ok schema o at_ :
  validateRequired schema o at_ = Ok tt ↔ ∀ raw, obj_get "required" schema = Some raw →
    ∃ names, raw = VArray (VString <$> names) ∧ ∀ n, n ∈ names → is_Some (obj_get n o).
Proof.
  unfold validateRequired. destruct (obj_get "required" schema) as [raw|]; [|naive_solver].
  destruct raw as [| | | | |l| | |]; try naive_solver. rewrite for_each_Ok. split.
  - intros H ? [= <-]. induction H as [|x l Hx _ IH].
    + exists []. split; [done|]. by intros ? ?%elem_of_nil.
    + destruct IH as (names & [= ->] & Hn). destruct x as [| | | |n| | | |]; try done.
      exists (n :: names). split; [done|]. intros m [->|Hm]%elem_of_cons; [|auto].
      apply has_member_iff. by destruct (has_member n o).
  - intros H. destruct (H _ eq_refl) as (names & [= ->] & Hn). apply Forall_fmap, Forall_forall.
    intros n Hin. simpl. by rewrite (proj2 (has_member_iff _ _) (Hn n Hin)).
Qed.

Lemma obj_set_elem {A} key (v : A) (o : list (string * A)) kv :
  key ∉ o.*1 → kv ∈ obj_set key v o ↔ kv = (key, v) ∨ kv ∈ o.
Proof.
  induction o as [|[k w] o IH]; simpl; intros Hk.
  - by rewrite elem_of_cons, elem_of_nil.
  - apply not_elem_of_cons in Hk as [Hne Hk].
    destruct (String.eqb_spec k key) as [->|]; [done|]. rewrite !elem_of_cons, IH by done. naive_solver.
Qed.

Lemma obj_set_keys {A} key (v : A) (o : list (string * A)) name :
  name ∈ (obj_set key v o).*1 ↔ name = key ∨ name ∈ o.*1.
Proof.
  induction o as [|[k w] o IH]; simpl.
  - by rewrite elem_of_cons, elem_of_nil.
  - destruct (String.eqb_spec k key) as [->|]; csimpl;
      rewrite !elem_of_cons; [naive_solver|]. rewrite IH. naive_solver.
Qed.

(** The loop of [propertySchemas], and what it has accumulated. *)
Definition property_step at_ (properties : list (string * object)) (kv : string * value)
    : result (list (string * object)) :=
  match kv.2 with
  | VObject child => Ok (obj_set kv.1 child properties)
  | _ => Err (Errorf "%s: schema property %q must be an object" [AStr at_; AStr kv.1])
  end.

Lemma property_loop_total at_ (l : object) acc :
  objects_only l → ∃ properties, for_fold (property_step at_) acc l = Ok properties.
Proof.
  revert acc. induction l as [|[k x] l IH]; intros acc H; simpl; [by eexists|].
  destruct (H k x) as [child ->]; [by left|]. apply IH. intros name x Hin. apply (H name). by right.
Qed.

Lemma property_loop at_ (l : object) acc properties :
  NoDup l.*1 → (∀ k, k ∈ l.*1 → k ∉ acc.*1) →
  for_fold (property_step at_) acc l = Ok properties →
  objects_only l ∧ (∀ name, name ∈ properties.*1 ↔ name ∈ acc.*1 ∨ name ∈ l.*1) ∧
  (∀ name child, (name, child) ∈ properties ↔ (name, child) ∈ acc ∨ (name, VObject child) ∈ l).
Proof.
  revert acc. induction l as [|[k x] l IH]; intros acc Hnd Hfresh; simpl.
  - intros [= <-]. split; [intros ? ? ?%elem_of_nil; done|].
    split; intros; rewrite elem_of_nil; naive_solver.
  - apply NoDup_cons in Hnd as [Hk Hnd]. csimpl in Hfresh.
    destruct x as [| | | | | |child| |]; try done. cbn [property_step fst snd]. intros Hf.
    assert (Hka : k ∉ acc.*1) by (apply Hfresh; by left).
    destruct (IH (obj_set k child acc) Hnd) with (2 := Hf) as (Hobj & Hkeys & Hch).
    { intros k' Hk'. rewrite obj_set_keys. intros [->|Hin]; [done|].
      apply (Hfresh k'); [by right|done]. }
    split_and!.
    + intros name x [[= -> ->]|Hin]%elem_of_cons; [by eexists|by apply (Hobj name)].
    + intros name. rewrite Hkeys, obj_set_keys, elem_of_cons. tauto.
    + intros name ch. rewrite Hch, obj_set_elem, elem_of_cons by done. naive_solver.
Qed.

Lemma propertySchemas_total schema at_ :
  properties_ok schema → ∃ properties, propertySchemas schema at_ = Ok properties.
Proof.
  unfold properties_ok, propertySchemas. destruct (obj_get "properties" schema) as [raw|]; [|by eexists].
  intros H. destruct (H _ eq_refl) as (l & -> & Hl). apply property_loop_total.
  intros name x. rewrite map_order_elem. apply Hl.
Qed.

(** The schemas of the properties are those the keyword lists. *)
Lemma propertySchemas_Ok schema at_ properties :
  go_maps (VObject schema) → propertySchemas schema at_ = Ok properties →
  properties_ok schema ∧ (∀ name, name ∈ properties.*1 ↔ name ∈ declared schema) ∧
  (∀ name child, (name, child) ∈ properties ↔
     ∃ props, obj_get "properties" schema = Some (VObject props) ∧ (name, VObject child) ∈ props).
Proof.
  intros Hmaps. unfold propertySchemas, properties_ok, declared.
  destruct (obj_get "properties" schema) as [raw|] eqn:Eraw.
  2:{ intros [= <-]. split_and!; [done..|]. intros *. rewrite elem_of_nil. naive_solver. }
  destruct raw as [| | | | | |raw| |]; try done.
  intros (Hobj & Hkeys & Hch)%(property_loop at_).
  - split_and!.
    + intros ? [= <-]. exists raw. split; [done|]. intros name x Hin. apply (Hobj name).
      by rewrite map_order_elem.
    + intros name. rewrite Hkeys, map_order_perm, elem_of_nil. tauto.
    + intros name child. rewrite Hch, map_order_elem, elem_of_nil. naive_solver.
  - pose proof (go_maps_member _ _ _ Hmaps (obj_get_elem Eraw)) as [Hnd _]. by rewrite map_order_perm.
  - intros. apply not_elem_of_nil.
Qed.

Lemma existsb_declared (properties : list (string * object)) name :
  existsb (λ kv, kv.1 ==s name) properties = true ↔ name ∈ properties.*1.
Proof.
  rewrite existsb_exists, list_elem_of_fmap. split.
  - intros ([k c] & Hin & E%String.eqb_eq). exists (k, c). by rewrite list_elem_of_In.
  - intros (kv & -> & Hin). exists kv. rewrite <- list_elem_of_In. split; [done|apply String.eqb_refl].
Qed.

Lemma validateAdditional_Ok rec schema o known at_ :
  (∀ name, known name = true ↔ name ∈ declared schema) →
  validateAdditional rec schema o known at_ = Ok tt ↔
  additional_ok schema o ∧
  (∀ child name x, obj_get "additionalProperties" schema = Some (VObject child) →
     (name, x) ∈ o → name ∉ declared schema → rec child x (at_ +:+ "." +:+ name) = Ok tt).
Proof.
  intros Hknown. unfold validateAdditional, additional_ok.
  destruct (obj_get "additionalProperties" schema) as [raw|]; [|naive_solver].
  destruct raw as [|[]| | | | |child| |]; try refused.
  { naive_solver. }
  - rewrite for_each_map_order. split.
    + intros H. split; [|done]. intros ? [= <-]. right; right. split; [done|]. intros name x Hin.
      specialize (H _ Hin). simpl in H. apply Hknown. by destruct (known name).
    + intros [H _] [name x] Hin. simpl. destruct (H _ eq_refl) as [|[[]|[_ Hd]]]; [done..|].
      apply Hd, Hknown in Hin. by rewrite Hin.
  - rewrite for_each_map_order. split.
    + intros H. split; [naive_solver|]. intros ? name x [= <-] Hin Hd. specialize (H _ Hin). simpl in H.
      destruct (known name) eqn:E; [by apply Hknown in E|done].
    + intros [_ H] [name x] Hin. simpl. destruct (known name) eqn:E; [done|].
      apply H; [done..|]. rewrite <- Hknown. by rewrite E.
Qed.

(** One level of the validator, given what the recursion accepts. *)
Lemma validateObjectSchema_Ok rec schema o at_ :
  go_maps (VObject schema) →
  validateObjectSchema rec schema (VObject o) at_ = Ok tt ↔
  object_ok schema o ∧
  (∀ props name child x, obj_get "properties" schema = Some (VObject props) →
     (name, VObject child) ∈ props → obj_get name o = Some x →
     rec child x (at_ +:+ "." +:+ name) = Ok tt) ∧
  (∀ child name x, obj_get "additionalProperties" schema = Some (VObject child) →
     (name, x) ∈ o → name ∉ declared schema → rec child x (at_ +:+ "." +:+ name) = Ok tt).
Proof.
  intros Hmaps. cbn [validateObjectSchema]. rewrite bind_unit_Ok, validateRequired_Ok.
  destruct (propertySchemas schema at_) as [ps|e] eqn:Eps; cbn [mbind result_bind].
  2:{ split; [intros [_ ?]; done|]. intros [[_ Hp _] _].
      destruct (propertySchemas_total schema at_ Hp) as [ps Hps]. congruence. }
  destruct (propertySchemas_Ok _ _ _ Hmaps Eps) as (Hok & Hkeys & Hch).
  rewrite bind_unit_Ok, validateAdditional_Ok, for_each_map_order
    by (intros name; by rewrite existsb_declared).
  split.
  - intros (Hreq & Hloop & Hadd & Hmore). split; [by constructor|]. split; [|done].
    intros props name child x Hp Hin Hx. specialize (Hloop (name, child)). simpl in Hloop.
    rewrite Hx in Hloop. apply Hloop, Hch. eauto.
  - intros ([Hreq _ Hadd] & Hmem & Hmore). split_and!; [done| |done..].
    intros [name child] Hin. simpl. destruct (obj_get name o) as [x|] eqn:Hx; [|done].
    apply Hch in Hin as (props & Hp & Hin). by eapply Hmem.
Qed.

Lemma validateArraySchema_Ok rec schema l at_ :
  (∀ child x at1 at2, obj_get "items" schema = Some (VObject child) →
     rec child x at1 = Ok tt ↔ rec child x at2 = Ok tt) →
  validateArraySchema rec schema (VArray l) at_ = Ok tt ↔
  array_ok schema l ∧
  (∀ child x, obj_get "items" schema = Some (VObject child) → x ∈ l → rec child x at_ = Ok tt).
Proof.
  intros Hrec. cbn [validateArraySchema].
  rewrite (bounds_Ok _ _ _ _ _ _ (λ r, _ ← r; match obj_get "items" schema with _ => _ end)
    ((∀ raw, obj_get "items" schema = Some raw → ∃ child, raw = VObject child) ∧
     (∀ child x, obj_get "items" schema = Some (VObject child) → x ∈ l → rec child x at_ = Ok tt))).
  - split; [intros (?&?&?); split; [by constructor|done]|intros [[] ?]; done].
  - intros r. rewrite bind_unit_Ok. apply and_iff_compat_l.
    destruct (obj_get "items" schema) as [raw|]; [|naive_solver].
    destruct raw as [| | | | | |child| |]; try refused.
    rewrite for_each_Ok, Forall_forall. split.
    + intros H. split; [naive_solver|]. intros ? x [= <-] Hin.
      apply list_elem_of_lookup in Hin as [i Hi]. eapply Hrec; [done|]. apply (H (i, x)).
      apply list_elem_of_lookup. exists i. by rewrite list_lookup_imap, Hi.
    + intros [_ H] [i x] Hin. apply list_elem_of_lookup in Hin as [j Hj].
      rewrite list_lookup_imap in Hj. destruct (l !! j) as [y|] eqn:E; [|done]. injection Hj as -> ->.
      eapply Hrec; [done|]. apply H; [done|]. by eapply list_elem_of_lookup_2.
Qed.

(** ** The validator *)

Lemma validate_nested_Ok fuel schema v at_ :
  go_maps (VObject schema) → (depth (VObject schema) <= fuel)%nat →
  validate_nested fuel schema v at_ = Ok tt ↔ conforms schema v.
Proof.
  revert schema v at_. induction fuel as [|fuel IH]; intros schema v at_ Hmaps Hd; [simpl in Hd; lia|].
  (* the nested schemas are shallower, and Go maps *)
  assert (Hchild : ∀ key child x at1, obj_get key schema = Some (VObject child) →
    validate_nested fuel child x at1 = Ok tt ↔ conforms child x).
  { intros key child x at1 Hk%obj_get_elem. apply IH; [by eapply go_maps_member|].
    apply depth_member in Hk. lia. }
  assert (Hprop : ∀ props name child x at1, obj_get "properties" schema = Some (VObject props) →
    (name, VObject child) ∈ props → validate_nested fuel child x at1 = Ok tt ↔ conforms child x).
  { intros props name child x at1 Hk%obj_get_elem Hin. pose proof (go_maps_member _ _ _ Hmaps Hk).
    apply IH; [by eapply go_maps_member|]. apply depth_member in Hk, Hin. lia. }
  cbn [validate_nested]. rewrite !bind_unit_Ok.
  rewrite validateEnum_Ok, validatePattern_Ok, validateStringBounds_Ok, validateNumberBounds_Ok.
  assert (Htype : match obj_get "type" schema with
    | Some raw => validateSchemaType raw v at_ | None => Ok tt end = Ok tt ↔
    ∀ raw, obj_get "type" schema = Some raw →
      ∃ types t, schemaTypes raw = Ok types ∧ t ∈ types ∧ valueMatchesSchemaType v t = true).
  { destruct (obj_get "type" schema) as [raw|]; [|naive_solver]. rewrite validateSchemaType_Ok.
    naive_solver. }
  rewrite Htype. clear Htype. split.
  - intros (Ht & He & Hp & Hl & Hr & Ho & Ha). constructor.
    + by constructor.
    + intros o ->. by apply validateObjectSchema_Ok in Ho; [by destruct Ho|done].
    + intros l ->. apply validateArraySchema_Ok in Ha; [by destruct Ha|].
      intros *; intros Hk. by rewrite !(Hchild "items").
    + intros o props name child x -> Hk Hin Hx.
      apply validateObjectSchema_Ok in Ho; [|done]. destruct Ho as (_ & Hm & _). by eapply Hprop, Hm.
    + intros o child name x -> Hk Hin Hd'.
      apply validateObjectSchema_Ok in Ho; [|done]. destruct Ho as (_ & _ & Hm). by eapply Hchild, Hm.
    + intros l child x -> Hk Hin. apply validateArraySchema_Ok in Ha.
      * destruct Ha as [_ Hm]. by eapply Hchild, Hm.
      * intros *; intros Hk'. by rewrite !(Hchild "items").
  - intros [[Ht He Hp Hl Hr] Ho Ha Hmem Hadd Hit].
    refine (conj Ht (conj He (conj Hp (conj Hl (conj Hr (conj _ _)))))).
    + destruct v as [| | | | | |o| |]; try done. apply validateObjectSchema_Ok; [done|].
      split_and!; [by apply Ho| |].
      * intros props name child x Hk Hin Hx. eapply Hprop; eauto.
      * intros child name x Hk Hin Hd'. eapply Hchild; eauto.
    + destruct v as [| | | | |l| | |]; try done. apply validateArraySchema_Ok.
      * intros *; intros Hk'. by rewrite !(Hchild "items").
      * split; [by apply Ha|]. intros child x Hk Hin. eapply Hchild; eauto.
Qed.

(** C33. The validator decides conformance: a value passes a schema (a Go map at every
    level) exactly when it satisfies each of its keywords, the nested ones included,
    in whatever order the maps are visited.  The recursion, bounded by the nesting of
    the schema, never stops short. *)
Theorem validateSchemaValue_conforms schema v at_ :
  go_maps (VObject schema) → validateSchemaValue schema v at_ = Ok tt ↔ conforms schema v.
Proof. intros Hmaps. by apply validate_nested_Ok. Qed.
End conforms.
