(* ===== verification/Registry.v ===== *)
(** * The registry ([internal/core/registry/registry.go])

    Catalogs of authoring values, capabilities, compiler rules, adapter bindings and
    supplemental entries, read from YAML documents, indexed and cross-checked.
    Decoding YAML into the documents' structs is a parameter. *)

From stdpp Require Import options.
From stdpp Require Import gmap.
From S2P Require Import Prelude GoStrings GoTime GoDuration GoJson GoEncoding GoPath GoFloat Schema.
#[local] Open Scope Z_scope.

(** ** Records *)

Record Value := {
  va_Label : string;
  va_CanonicalID : string;
  va_Kind : string;
  va_CEL : string;
}.

(** A slice or map that the code compares with nil is an option. *)
Record Profile := {
  pf_ID : string;
  pf_Mode : string;
  pf_Owner : string;
  pf_Stage : string;
  pf_Guardrails : option (list string);
  pf_RuntimeDefaults : option (gmap string string);
}.

Record RiskRecipe := {
  rcp_ID : string;
  rcp_Output : gmap string string;
  rcp_Scoring : gmap string string;
  rcp_Thresholds : gmap string string;
  rcp_Confidence : gmap string string;
  rcp_Freshness : gmap string string;
}.

Record Guardrail := {
  gr_ID : string;
  gr_Mode : string;
  gr_Description : string;
}.

Record CapabilitySpec := {
  cap_ID : string;
  cap_Kind : string;
  cap_Status : string;
  cap_Semantic : string;
  cap_SupportedActions : list string;
  cap_CompatibilityAliases : list string;
  cap_SupportedGranularities : list string;
  cap_TargetScopes : list string;
  cap_ContextRequirements : list string;
  cap_PrivilegeRequirements : list string;
  cap_EvidenceRequirements : list string;
  cap_UnknownIsSuccess : option bool;   (* [FailureSemantics] *)
}.

Record CompilerRuleSpec := {
  rule_ID : string;
  rule_RuntimeAction : string;
  rule_RequirementID : string;
  rule_CapabilityIDs : list string;
}.

Record AdapterBinding := {
  ab_BindingID : string;
  ab_Digest : string;
  ab_CapabilityID : string;
  ab_AdapterID : string;
  ab_Environments : list string;
  ab_Stages : list string;
  ab_ImplementationStatus : string;
  ab_RequiredGrantProfile : string;
}.

Record CatalogEntry := {
  cte_ID : string;
  cte_Status : string;
  cte_Kind : string;
  cte_Description : string;
  cte_Schema : object;
  cte_RequiredMetrics : list string;
  cte_RequiredSignals : list string;
  cte_RequiredCapabilities : list string;
  cte_RequiredEvidence : list string;
  cte_AllowedGranularities : list string;
  cte_UnknownBehavior : string;
}.

Record SupplementalCatalog := {
  sc_Name : string;
  sc_Path : string;
  sc_Kind : string;
  sc_Entries : gmap string CatalogEntry;
}.

(** The catalog with its indexes. *)
Record Catalog := {
  cat_Values : list Value;
  cat_Capabilities : gmap string CapabilitySpec;
  cat_CompilerRules : gmap string CompilerRuleSpec;
  cat_AdapterBindings : list AdapterBinding;
  cat_SupplementalCatalogs : gmap string SupplementalCatalog;
  cat_Profiles : gmap string Profile;
  cat_RiskRecipes : gmap string RiskRecipe;
  cat_Guardrails : gmap string Guardrail;
  cat_CoreVersion : string;
  cat_byLabel : gmap string (list Value);
  cat_byLabelKind : gmap string Value;
  cat_bySupplementalEntryID : gmap string CatalogEntry;
  cat_bySupplementalEntryKey : gmap string CatalogEntry;
}.

(** ** Identifiers *)

Definition labelKind (label kind : string) : string := label +:+ NUL +:+ kind.
Definition supplementalEntryKey (catalogName id : string) : string := catalogName +:+ NUL +:+ id.

Definition inferKind (id : string) : string :=
  match split_char dot id with
  | first :: second :: _ => if first ==s "enterprise" then second else first
  | first :: [] => first
  | [] => "unknown"
  end.

Definition allowedCapabilityKind (kind : string) : bool :=
  containsString
    ["observe"; "enforce_runtime"; "plan_config"; "validate_config"; "read_state";
     "provide_evidence"; "provide_relationship"; "provide_attestation"; "compute"; "evaluate"] kind.

Definition allowedCatalogStatus (status : string) (required : bool) : bool :=
  if blank status then negb required
  else containsString ["experimental"; "stable"; "deprecated"; "planned"] (trim_space status).

Definition coreSemanticBoundaryApplies (catalogName : string) : bool :=
  containsString ["signal"; "metric"; "evidence"; "requirement"] catalogName.

Definition violatesCoreSemanticBoundary `{UnicodeLower} (id : string) : bool :=
  let id := ToLower (trim_space id) in
  existsb (λ forbidden, contains forbidden id)
    ["source_ip"; "bpf_map"; "openziti"; "zscaler"; "klshield"; ".ziti."; ".raw_"].

Definition capabilitySupportsRuntimeAction (capability : CapabilitySpec) (action : string) : bool :=
  containsString (cap_SupportedActions capability) action ||
  containsString (cap_CompatibilityAliases capability) action.

(** ** Digests of adapter bindings *)

Definition omit_empty_list (name : string) (l : list string) : list (string * json) :=
  match l with [] => [] | _ => [(name, JArr (JStr <$> l))] end.

Definition adapterBindingDigest (b : AdapterBinding) : string :=
  "sha256:" +:+ sha256_hex (json_encode (JObj
    ([("capability_id", JStr (trim_space (ab_CapabilityID b)));
      ("adapter_id", JStr (trim_space (ab_AdapterID b)))] ++
     omit_empty_list "environments" (ab_Environments b) ++
     omit_empty_list "stages" (ab_Stages b) ++
     omit_empty "implementation_status" (trim_space (ab_ImplementationStatus b)) ++
     omit_empty "required_grant_profile" (trim_space (ab_RequiredGrantProfile b))))).

Definition adapterBindingID (b : AdapterBinding) : string :=
  "adapter_binding." +:+ take_string 16 (trim_prefix "sha256:" (adapterBindingDigest b)).

(** ** Lookups *)
Section lookups.
Context {GR : GoRuntime}.

Definition ResolveError (code label : string) (kinds : list string) : error :=
  Errorf "%s: %q for kinds [%s]" [AStr code; AStr label; AStr (join ", " kinds)].

Definition Resolve (c : Catalog) (label : string) (kinds : list string) : result Value :=
  let candidates :=
    List.filter (λ v, Nat.eqb (length kinds) 0 || existsb (String.eqb (va_Kind v)) kinds)
      (default [] (cat_byLabel c !! label)) in
  match candidates with
  | [] => Err (ResolveError "unknown_authoring_value" label kinds)
  | [v] => Ok v
  | _ => Err (ResolveError "ambiguous_authoring_value" label kinds)
  end.

Definition get_Profile (c : Catalog) (id : string) : option Profile := cat_Profiles c !! id.
Definition get_RiskRecipe (c : Catalog) (id : string) : option RiskRecipe := cat_RiskRecipes c !! id.
Definition get_Capability (c : Catalog) (id : string) : option CapabilitySpec :=
  cat_Capabilities c !! id.

Definition RuntimeActionRule (c : Catalog) (actionType : string) : option CompilerRuleSpec :=
  snd <$> List.find (λ kv, trim_space (rule_RuntimeAction kv.2) ==s trim_space actionType)
            (map_order (map_to_list (cat_CompilerRules c))).

Definition get_CatalogEntry (c : Catalog) (catalogName id : string) : option CatalogEntry :=
  cat_bySupplementalEntryKey c !! supplementalEntryKey catalogName id.

Definition map_has {A} (m : gmap string A) (key : string) : bool := bool_decide (is_Some (m !! key)).

Definition HasRegistryID (c : Catalog) (id : string) : bool :=
  let id := trim_space id in
  if empty_str id then false else
  map_has (cat_Capabilities c) id || map_has (cat_bySupplementalEntryID c) id ||
  existsb (λ v, trim_space (va_CanonicalID v) ==s id) (cat_Values c) ||
  existsb (λ kv, trim_space (pf_ID kv.2) ==s id) (map_order (map_to_list (cat_Profiles c))) ||
  existsb (λ kv, trim_space (gr_ID kv.2) ==s id) (map_order (map_to_list (cat_Guardrails c))).

Definition HasAuthoringCanonicalID (c : Catalog) (kind id : string) : bool :=
  if blank kind || blank id then false else
  existsb (λ v, (trim_space (va_Kind v) ==s trim_space kind) &&
                (trim_space (va_CanonicalID v) ==s trim_space id)) (cat_Values c).

Definition binding_serves (capabilityID stage : string) (b : AdapterBinding) : bool :=
  (trim_space (ab_CapabilityID b) ==s trim_space capabilityID) &&
  (blank (ab_ImplementationStatus b) || (trim_space (ab_ImplementationStatus b) ==s "implemented")) &&
  (Nat.eqb (length (ab_Stages b)) 0 || containsString (ab_Stages b) (trim_space stage)).

Definition get_AdapterBinding (c : Catalog) (capabilityID stage : string) : option AdapterBinding :=
  List.find (binding_serves capabilityID stage) (cat_AdapterBindings c).

(** ** Indexes *)

Definition index_value (i : gmap string (list Value) * gmap string Value) (v : Value) :=
  (<[va_Label v := default [] (i.1 !! va_Label v) ++ [v]]> i.1,
   <[labelKind (va_Label v) (va_Kind v) := v]> i.2).

Definition index_entries (i : gmap string CatalogEntry * gmap string CatalogEntry)
    (kv : string * SupplementalCatalog) :=
  foldl (λ i e, (<[e.1 := e.2]> i.1, <[supplementalEntryKey kv.1 e.1 := e.2]> i.2)) i
    (map_order (map_to_list (sc_Entries kv.2))).

Definition reindex (c : Catalog) : Catalog :=
  let '(byLabel, byLabelKind) := foldl index_value (∅, ∅) (cat_Values c) in
  let '(byID, byKey) :=
    foldl index_entries (∅, ∅) (map_order (map_to_list (cat_SupplementalCatalogs c))) in
  {| cat_Values := cat_Values c; cat_Capabilities := cat_Capabilities c;
     cat_CompilerRules := cat_CompilerRules c; cat_AdapterBindings := cat_AdapterBindings c;
     cat_SupplementalCatalogs := cat_SupplementalCatalogs c; cat_Profiles := cat_Profiles c;
     cat_RiskRecipes := cat_RiskRecipes c; cat_Guardrails := cat_Guardrails c;
     cat_CoreVersion := cat_CoreVersion c; cat_byLabel := byLabel;
     cat_byLabelKind := byLabelKind; cat_bySupplementalEntryID := byID;
     cat_bySupplementalEntryKey := byKey |}.

Definition with_values (values : list Value) (byLabel : gmap string (list Value))
    (byLabelKind : gmap string Value) (c : Catalog) : Catalog := {|
  cat_Values := values; cat_Capabilities := cat_Capabilities c;
  cat_CompilerRules := cat_CompilerRules c; cat_AdapterBindings := cat_AdapterBindings c;
  cat_SupplementalCatalogs := cat_SupplementalCatalogs c; cat_Profiles := cat_Profiles c;
  cat_RiskRecipes := cat_RiskRecipes c; cat_Guardrails := cat_Guardrails c;
  cat_CoreVersion := cat_CoreVersion c; cat_byLabel := byLabel; cat_byLabelKind := byLabelKind;
  cat_bySupplementalEntryID := cat_bySupplementalEntryID c;
  cat_bySupplementalEntryKey := cat_bySupplementalEntryKey c |}.

Definition addValue (c : Catalog) (v : Value) : result Catalog :=
  match cat_byLabelKind c !! labelKind (va_Label v) (va_Kind v) with
  | Some existing =>
      reject va_CanonicalID existing !=s va_CanonicalID v
        with Errorf "registry duplicate label/kind %q/%q maps to both %q and %q"
               [AStr (va_Label v); AStr (va_Kind v); AStr (va_CanonicalID existing);
                AStr (va_CanonicalID v)];;
      Ok c
  | None =>
      let '(byLabel, byLabelKind) := index_value (cat_byLabel c, cat_byLabelKind c) v in
      Ok (with_values (cat_Values c ++ [v]) byLabel byLabelKind c)
  end.
End lookups.

(** ** Loading *)

Record Term := { term_ID : string; term_Label : string; term_Aliases : list string }.

(** [yaml.Unmarshal] into the struct of each document: the fields the code reads. *)
Class RegistryDecoders := {
  decode_CoreCatalog : string → result (string * list Value);
  decode_Capabilities : string → result (list CapabilitySpec);
  decode_CompilerRules : string → result (list CompilerRuleSpec);
  decode_SupplementalCatalog : string → result (string * list CatalogEntry);
  decode_AdapterBindings : string → result (list AdapterBinding);
  decode_Profiles : string → result (list Profile);
  decode_RiskRecipes : string → result (list RiskRecipe);
  decode_Guardrails : string → result (list Guardrail);
  decode_Vocabulary : string → result (list Term);
}.

Section loading.
Context {GR : GoRuntime} {UL : UnicodeLower} {FT : FloatText} {DD : DocumentDecoders}.
Context {RD : RegistryDecoders} {FS : Files}.

Definition readYAML {A} (decode : string → result A) (path : string) : result A :=
  data ← os_ReadFile path;
  wrap_err "%s: %w" [AStr path] (decode data).

Definition empty_catalog (values : list Value) (version : string) : Catalog := {|
  cat_Values := values; cat_Capabilities := ∅; cat_CompilerRules := ∅; cat_AdapterBindings := [];
  cat_SupplementalCatalogs := ∅; cat_Profiles := ∅; cat_RiskRecipes := ∅; cat_Guardrails := ∅;
  cat_CoreVersion := version; cat_byLabel := ∅; cat_byLabelKind := ∅;
  cat_bySupplementalEntryID := ∅; cat_bySupplementalEntryKey := ∅ |}.

Definition loadCoreCatalog (path : string) : result Catalog :=
  '(version, values) ← readYAML decode_CoreCatalog path;
  Ok (reindex (empty_catalog values version)).

(** One turn of the loop of [loadCapabilities]. *)
Definition add_capability (path : string) (m : gmap string CapabilitySpec)
    (capability : CapabilitySpec) : result (gmap string CapabilitySpec) :=
  let id := cap_ID capability in
  reject blank id with Errorf "%s: capability without id" [AStr path];;
  reject negb (contains "." id)
    with Errorf "%s: capability %q must be a namespaced canonical id" [AStr path; AStr id];;
  reject negb (allowedCapabilityKind (cap_Kind capability))
    with Errorf "%s: capability %q has unsupported kind %q"
           [AStr path; AStr id; AStr (cap_Kind capability)];;
  reject negb (allowedCatalogStatus (cap_Status capability) true)
    with Errorf "%s: capability %q has unsupported status %q"
           [AStr path; AStr id; AStr (cap_Status capability)];;
  reject violatesCoreSemanticBoundary id
    with Errorf "%s: capability %q violates core generic boundary" [AStr path; AStr id];;
  reject bool_decide (cap_UnknownIsSuccess capability = Some true)
    with Errorf "%s: capability %q sets unknown_is_success=true" [AStr path; AStr id];;
  reject map_has m id with Errorf "%s: duplicate capability %q" [AStr path; AStr id];;
  Ok (<[id := capability]> m).

Definition loadCapabilities (path : string) : result (gmap string CapabilitySpec) :=
  capabilities ← readYAML decode_Capabilities path;
  for_fold (add_capability path) ∅ capabilities.

(** One turn of [loadCompilerRules]: the rules, and the rule of each runtime action. *)
Definition add_rule (path : string)
    (acc : gmap string CompilerRuleSpec * gmap string string) (rule : CompilerRuleSpec)
    : result (gmap string CompilerRuleSpec * gmap string string) :=
  let '(rules, seen) := acc in
  let id := rule_ID rule in
  reject blank id with Errorf "%s: compiler rule without id" [AStr path];;
  reject negb (has_prefix "compiler_rule." id)
    with Errorf "%s: compiler rule %q must use prefix %q" [AStr path; AStr id; AStr "compiler_rule."];;
  reject violatesCoreSemanticBoundary id
    with Errorf "%s: compiler rule %q violates core generic boundary" [AStr path; AStr id];;
  reject map_has rules id with Errorf "%s: duplicate compiler rule %q" [AStr path; AStr id];;
  let runtimeAction := trim_space (rule_RuntimeAction rule) in
  if empty_str runtimeAction then Ok (<[id := rule]> rules, seen) else
  match seen !! runtimeAction with
  | Some existing =>
      Err (Errorf "%s: runtime action %q mapped by both %q and %q"
             [AStr path; AStr runtimeAction; AStr existing; AStr id])
  | None => Ok (<[id := rule]> rules, <[runtimeAction := id]> seen)
  end.

Definition loadCompilerRules (path : string) : result (gmap string CompilerRuleSpec) :=
  rules ← readYAML decode_CompilerRules path;
  fst <$> for_fold (add_rule path) (∅, ∅) rules.

Record supplementalCatalogDefinition := {
  scd_Name : string;
  scd_Path : string;
  scd_Kind : string;
  scd_IDPrefix : string;
  scd_Required : bool;
  scd_MinEntries : Z;
}.

Definition core_catalog (name kind prefix : string) : supplementalCatalogDefinition := {|
  scd_Name := name; scd_Path := Join ["core"; name +:+ "_catalog.yaml"]; scd_Kind := kind;
  scd_IDPrefix := prefix; scd_Required := true; scd_MinEntries := 1 |}.

Definition supplementalCatalogDefinitions : list supplementalCatalogDefinition :=
  [core_catalog "signal" "SignalCatalog" "signal.";
   core_catalog "metric" "MetricCatalog" "metric.";
   core_catalog "granularity" "GranularityCatalog" "granularity.";
   core_catalog "entity_type" "EntityTypeCatalog" "entity_type.";
   core_catalog "action_type" "ActionTypeCatalog" "action_type.";
   core_catalog "evidence" "EvidenceCatalog" "evidence.";
   core_catalog "privilege" "PrivilegeCatalog" "privilege.";
   core_catalog "state" "StateCatalog" "state.";
   core_catalog "event" "EventCatalog" "event.";
   core_catalog "context" "ContextCatalog" "context.";
   core_catalog "component_role" "ComponentRoleCatalog" "component_role.";
   core_catalog "requirement" "RequirementCatalog" "requirement.";
   core_catalog "selector_schema" "SelectorSchemaCatalog" "selector.";
   core_catalog "validation_profile" "ValidationProfileCatalog" "validation."].

Definition with_id (id : string) (e : CatalogEntry) : CatalogEntry := {|
  cte_ID := id; cte_Status := cte_Status e; cte_Kind := cte_Kind e; cte_Description := cte_Description e;
  cte_Schema := cte_Schema e; cte_RequiredMetrics := cte_RequiredMetrics e;
  cte_RequiredSignals := cte_RequiredSignals e; cte_RequiredCapabilities := cte_RequiredCapabilities e;
  cte_RequiredEvidence := cte_RequiredEvidence e; cte_AllowedGranularities := cte_AllowedGranularities e;
  cte_UnknownBehavior := cte_UnknownBehavior e |}.

(** One turn of the loop of [loadSupplementalCatalog], with the position. *)
Definition add_entry (path : string) (d : supplementalCatalogDefinition)
    (m : gmap string CatalogEntry) (ie : nat * CatalogEntry) : result (gmap string CatalogEntry) :=
  let '(i, entry) := ie in
  let entry := with_id (trim_space (cte_ID entry)) entry in
  let id := cte_ID entry in
  reject empty_str id
    with Errorf "%s: %s entry %d missing id" [AStr path; AStr (scd_Name d); AInt (Z.of_nat i)];;
  reject (scd_IDPrefix d !=s "") && negb (has_prefix (scd_IDPrefix d) id)
    with Errorf "%s: %s entry %q must use prefix %q"
           [AStr path; AStr (scd_Name d); AStr id; AStr (scd_IDPrefix d)];;
  reject negb (allowedCatalogStatus (cte_Status entry) false)
    with Errorf "%s: %s entry %q has unsupported status %q"
           [AStr path; AStr (scd_Name d); AStr id; AStr (cte_Status entry)];;
  reject coreSemanticBoundaryApplies (scd_Name d) && violatesCoreSemanticBoundary id
    with Errorf "%s: %s entry %q violates core generic boundary"
           [AStr path; AStr (scd_Name d); AStr id];;
  reject map_has m id
    with Errorf "%s: duplicate %s entry %q" [AStr path; AStr (scd_Name d); AStr id];;
  Ok (<[id := entry]> m).

Definition loadSupplementalCatalog (path : string) (d : supplementalCatalogDefinition)
    : result SupplementalCatalog :=
  '(kind, entries) ← readYAML decode_SupplementalCatalog path;
  reject trim_space kind !=s scd_Kind d
    with Errorf "%s: expected kind %q, got %q" [AStr path; AStr (scd_Kind d); AStr kind];;
  reject Z.of_nat (length entries) <? scd_MinEntries d
    with Errorf "%s: catalog %q requires at least %d entries"
           [AStr path; AStr (scd_Name d); AInt (scd_MinEntries d)];;
  m ← for_fold (add_entry path d) ∅ (imap pair entries);
  Ok {| sc_Name := scd_Name d; sc_Path := path; sc_Kind := scd_Kind d; sc_Entries := m |}.

Definition loadSupplementalCatalogs (coreRegistryPath : string)
    : result (gmap string SupplementalCatalog) :=
  for_fold (λ catalogs d,
    let path := Join [coreRegistryPath; scd_Path d] in
    match loadSupplementalCatalog path d with
    | Ok catalog => Ok (<[scd_Name d := catalog]> catalogs)
    | Err e => if IsNotExist e && negb (scd_Required d) then Ok catalogs else Err e
    end) ∅ supplementalCatalogDefinitions.

Definition with_binding_ids (b : AdapterBinding) : AdapterBinding := {|
  ab_BindingID := if blank (ab_BindingID b) then adapterBindingID b else ab_BindingID b;
  ab_Digest := adapterBindingDigest b;
  ab_CapabilityID := ab_CapabilityID b; ab_AdapterID := ab_AdapterID b;
  ab_Environments := ab_Environments b; ab_Stages := ab_Stages b;
  ab_ImplementationStatus := ab_ImplementationStatus b;
  ab_RequiredGrantProfile := ab_RequiredGrantProfile b |}.

Definition check_binding (path : string) (acc : list AdapterBinding) (ib : nat * AdapterBinding)
    : result (list AdapterBinding) :=
  let '(i, b) := ib in
  reject blank (ab_CapabilityID b)
    with Errorf "%s: adapter binding %d missing capability_id" [AStr path; AInt (Z.of_nat i)];;
  reject blank (ab_AdapterID b)
    with Errorf "%s: adapter binding %d missing adapter_id" [AStr path; AInt (Z.of_nat i)];;
  let status := trim_space (ab_ImplementationStatus b) in
  reject (status !=s "") && negb (containsString ["implemented"; "planned"; "experimental"] status)
    with Errorf "%s: adapter binding for %q has unsupported implementation_status %q"
           [AStr path; AStr (ab_CapabilityID b); AStr (ab_ImplementationStatus b)];;
  Ok (acc ++ [with_binding_ids b]).

Definition loadAdapterBindings (path : string) : result (list AdapterBinding) :=
  bindings ← readYAML decode_AdapterBindings path;
  for_fold (check_binding path) [] (imap pair bindings).

(** A map from a list of records: the last of an id stays. *)
Definition by_id {A} (id : A → string) (l : list A) : gmap string A :=
  foldl (λ m a, <[id a := a]> m) ∅ l.

Definition loadProfiles (path : string) : result (gmap string Profile) :=
  by_id pf_ID <$> readYAML decode_Profiles path.
Definition loadRiskRecipes (path : string) : result (gmap string RiskRecipe) :=
  by_id rcp_ID <$> readYAML decode_RiskRecipes path.

Definition loadGuardrails (path : string) : result (gmap string Guardrail) :=
  guardrails ← readYAML decode_Guardrails path;
  for_fold (λ m g,
    reject empty_str (gr_ID g) with Errorf "%s: guardrail without id" [AStr path];;
    reject map_has m (gr_ID g)
      with Errorf "%s: duplicate guardrail %q" [AStr path; AStr (gr_ID g)];;
    Ok (<[gr_ID g := g]> m)) ∅ guardrails.

(** ** Enterprise overlays *)

Definition loadEnterpriseVocabulary (path : string) (c : Catalog) : result Catalog :=
  terms ← readYAML decode_Vocabulary path;
  for_fold (λ c term,
    let value label := {| va_Label := label; va_CanonicalID := term_ID term;
                          va_Kind := inferKind (term_ID term); va_CEL := "" |} in
    for_fold (λ c label, addValue c (value label)) c (term_Label term :: term_Aliases term)) c terms.

Definition mergeProfile (base overlay : Profile) : Profile := {|
  pf_ID := pf_ID base;
  pf_Mode := pf_Mode overlay;
  pf_Owner := pf_Owner overlay;
  pf_Stage := if empty_str (pf_Stage overlay) then pf_Stage base else pf_Stage overlay;
  pf_Guardrails := match pf_Guardrails overlay with Some g => Some g | None => pf_Guardrails base end;
  pf_RuntimeDefaults :=
    match pf_RuntimeDefaults overlay with
    | Some o => Some (o ∪ default ∅ (pf_RuntimeDefaults base))
    | None => pf_RuntimeDefaults base
    end;
|}.

Definition overlay_profile (profiles : gmap string Profile) (kv : string * Profile)
    : result (gmap string Profile) :=
  let enterprise := kv.2 in
  let id := pf_ID enterprise in
  let mode := pf_Mode enterprise in
  if (mode ==s "inherited") || (mode ==s "override") then
    match profiles !! id with
    | None =>
        Err (Errorf (if mode ==s "inherited"
                     then "enterprise profile %q uses inherited mode but no core profile exists"
                     else "enterprise profile %q uses override mode but no core profile exists")
               [AStr id])
    | Some existing => Ok (<[id := mergeProfile existing enterprise]> profiles)
    end
  else if empty_str mode then
    reject map_has profiles id
      with Errorf "enterprise profile %q duplicates a core profile without mode" [AStr id];;
    Ok (<[id := enterprise]> profiles)
  else Err (Errorf "enterprise profile %q has unsupported mode %q" [AStr id; AStr mode]).

Definition loadEnterpriseProfiles (path : string) (core : gmap string Profile)
    : result (gmap string Profile) :=
  profiles ← loadProfiles path;
  for_fold overlay_profile core (map_order (map_to_list profiles)).
End loading.

(** ** Cross-checks *)
Section checks.
Context {GR : GoRuntime}.

(** Every name of a list has an entry in a catalog, or the error says which does not. *)
Definition all_known (known : string → bool) (complaint : string → error) (names : list string)
    : result unit :=
  for_each (λ name, if known name then Ok tt else Err (complaint name)) names.

Definition has_entry (c : Catalog) (catalogName id : string) : bool :=
  bool_decide (is_Some (get_CatalogEntry c catalogName id)).

Definition validateProfileGuardrails (c : Catalog) : result unit :=
  for_each (λ kv,
    all_known (map_has (cat_Guardrails c))
      (λ g, Errorf "profile %q references unknown guardrail %q" [AStr (pf_ID kv.2); AStr g])
      (default [] (pf_Guardrails kv.2))) (map_order (map_to_list (cat_Profiles c))).

Definition check_rule (c : Catalog) (kv : string * CompilerRuleSpec) : result unit :=
  let rule := kv.2 in
  let id := rule_ID rule in
  let action := rule_RuntimeAction rule in
  if blank action then Ok tt else
  reject negb (HasAuthoringCanonicalID c "runtime_action" action)
    with Errorf "compiler rule %q references unknown runtime action %q" [AStr id; AStr action];;
  let requirementID := trim_space (rule_RequirementID rule) in
  reject (requirementID !=s "") && negb (has_entry c "requirement" requirementID)
    with Errorf "compiler rule %q references unknown requirement %q" [AStr id; AStr requirementID];;
  reject Nat.eqb (length (rule_CapabilityIDs rule)) 0
    with Errorf "compiler rule %q maps runtime action %q without capabilities"
           [AStr id; AStr action];;
  for_each (λ capabilityID,
    match cat_Capabilities c !! capabilityID with
    | None => Err (Errorf "compiler rule %q references unknown capability %q"
                     [AStr id; AStr capabilityID])
    | Some capability =>
        if capabilitySupportsRuntimeAction capability action then Ok tt
        else Err (Errorf "compiler rule %q maps runtime action %q to capability %q, but the capability does not support that action or alias"
                    [AStr id; AStr action; AStr capabilityID])
    end) (rule_CapabilityIDs rule).

Definition check_capability (c : Catalog) (kv : string * CapabilitySpec) : result unit :=
  let cap := kv.2 in
  let unknown what name := Errorf ("capability %q references unknown " +:+ what +:+ " %q")
                             [AStr (cap_ID cap); AStr name] in
  _ ← all_known (has_entry c "granularity") (unknown "granularity") (cap_SupportedGranularities cap);
  _ ← all_known (has_entry c "privilege") (unknown "privilege") (cap_PrivilegeRequirements cap);
  _ ← all_known (has_entry c "evidence") (unknown "evidence") (cap_EvidenceRequirements cap);
  all_known (HasRegistryID c) (unknown "context requirement") (cap_ContextRequirements cap).

Definition check_requirement (c : Catalog) (kv : string * CatalogEntry) : result unit :=
  let r := kv.2 in
  let unknown what name := Errorf ("requirement %q references unknown " +:+ what +:+ " %q")
                             [AStr (cte_ID r); AStr name] in
  _ ← all_known (has_entry c "metric") (unknown "metric") (cte_RequiredMetrics r);
  _ ← all_known (has_entry c "signal") (unknown "signal") (cte_RequiredSignals r);
  _ ← all_known (map_has (cat_Capabilities c)) (unknown "capability") (cte_RequiredCapabilities r);
  _ ← all_known (has_entry c "evidence") (unknown "evidence") (cte_RequiredEvidence r);
  _ ← all_known (has_entry c "granularity") (unknown "granularity") (cte_AllowedGranularities r);
  let behavior := trim_space (cte_UnknownBehavior r) in
  reject (behavior !=s "") &&
         negb (containsString ["risk_unknown"; "fail_closed"; "unsupported"; "observe_only"] behavior)
    with Errorf "requirement %q has unsupported unknown_behavior %q" [AStr (cte_ID r); AStr behavior];;
  Ok tt.

Definition validateRequirementReferences (c : Catalog) : result unit :=
  match cat_SupplementalCatalogs c !! "requirement" with
  | None => Err (Errorf "requirement catalog is required" [])
  | Some requirements =>
      for_each (check_requirement c) (map_order (map_to_list (sc_Entries requirements)))
  end.

Definition check_binding_reference (c : Catalog) (b : AdapterBinding) : result unit :=
  match cat_Capabilities c !! ab_CapabilityID b with
  | None => Err (Errorf "adapter binding for %q references unknown capability"
                   [AStr (ab_CapabilityID b)])
  | Some capability =>
      reject (trim_space (ab_ImplementationStatus b) ==s "implemented") &&
             (trim_space (cap_Status capability) ==s "planned")
        with Errorf "adapter binding for %q claims implemented planned capability"
               [AStr (ab_CapabilityID b)];;
      Ok tt
  end.

Definition validateCapabilityReferences (c : Catalog) : result unit :=
  _ ← for_each (check_rule c) (map_order (map_to_list (cat_CompilerRules c)));
  _ ← for_each (check_capability c) (map_order (map_to_list (cat_Capabilities c)));
  _ ← validateRequirementReferences c;
  for_each (check_binding_reference c) (cat_AdapterBindings c).
End checks.

(** ** [Load] *)
Section load.
Context {GR : GoRuntime} {UL : UnicodeLower} {FT : FloatText} {DD : DocumentDecoders}.
Context {RD : RegistryDecoders} {FS : Files}.

Definition requiredSchemaFiles : list string :=
  ["registry.schema.json"; "authoring-catalog.schema.json"; "capability-catalog.schema.json";
   "compiler-rule-catalog.schema.json"; "supplemental-catalog.schema.json";
   "adapter-binding.schema.json"; "repository-binding.schema.json"; "policy-source.schema.json";
   "canonical-action.schema.json"; "business-action.schema.json"; "target-inventory.schema.json";
   "validation-request.schema.json"].

Definition validateRequiredSchemas (coreRegistryPath : string) : result unit :=
  validateSchemaFiles coreRegistryPath requiredSchemaFiles.

Definition document (path schema : string) (required : bool) : schemaDocumentTarget :=
  {| sdt_Path := path; sdt_SchemaName := schema; sdt_Required := required |}.

Definition registry_documents (core enterprise : string) : list schemaDocumentTarget :=
  [document (Join [core; "core"; "authoring_catalog.yaml"]) "authoring-catalog.schema.json" true;
   document (Join [core; "core"; "capability_catalog.yaml"]) "capability-catalog.schema.json" true;
   document (Join [core; "core"; "compiler_rule_catalog.yaml"])
     "compiler-rule-catalog.schema.json" true] ++
  ((λ d, document (Join [core; scd_Path d]) "supplemental-catalog.schema.json" (scd_Required d))
     <$> supplementalCatalogDefinitions) ++
  (if blank enterprise then []
   else [document (Join [enterprise; "bindings"; "adapter_bindings.yaml"])
           "adapter-binding.schema.json" true]).

Definition validateRegistryDocuments (core enterprise : string) : result unit :=
  for_each (validateRegistryDocument core) (registry_documents core enterprise).

(** The catalog with what its other documents hold; the indexes are not touched. *)
Definition with_documents (c : Catalog) supplemental capabilities rules profiles recipes guardrails
    bindings : Catalog := {|
  cat_Values := cat_Values c; cat_Capabilities := capabilities; cat_CompilerRules := rules;
  cat_AdapterBindings := bindings; cat_SupplementalCatalogs := supplemental;
  cat_Profiles := profiles; cat_RiskRecipes := recipes; cat_Guardrails := guardrails;
  cat_CoreVersion := cat_CoreVersion c; cat_byLabel := cat_byLabel c;
  cat_byLabelKind := cat_byLabelKind c; cat_bySupplementalEntryID := cat_bySupplementalEntryID c;
  cat_bySupplementalEntryKey := cat_bySupplementalEntryKey c |}.

Definition Load (core enterprise : string) : result Catalog :=
  _ ← validateRequiredSchemas core;
  _ ← validateRegistryDocuments core enterprise;
  c ← loadCoreCatalog (Join [core; "core"; "authoring_catalog.yaml"]);
  supplemental ← loadSupplementalCatalogs core;
  capabilities ← loadCapabilities (Join [core; "core"; "capability_catalog.yaml"]);
  rules ← loadCompilerRules (Join [core; "core"; "compiler_rule_catalog.yaml"]);
  profiles ← loadProfiles (Join [core; "defaults"; "profiles.yaml"]);
  recipes ← loadRiskRecipes (Join [core; "defaults"; "risk_recipes.yaml"]);
  guardrails ← loadGuardrails (Join [core; "defaults"; "guardrails.yaml"]);
  '(c, profiles, bindings) ←
    (if empty_str enterprise then Ok (c, profiles, []) else
     c ← loadEnterpriseVocabulary (Join [enterprise; "enterprise"; "vocabulary.yaml"]) c;
     profiles ← loadEnterpriseProfiles (Join [enterprise; "enterprise"; "profiles.yaml"]) profiles;
     bindings ← loadAdapterBindings (Join [enterprise; "bindings"; "adapter_bindings.yaml"]);
     Ok (c, profiles, bindings));
  let c := reindex (with_documents c supplemental capabilities rules profiles recipes guardrails
                      bindings) in
  _ ← validateProfileGuardrails c;
  _ ← validateCapabilityReferences c;
  Ok c.
End load.
