(* ===== verification/RegistryProofs.v ===== *)
(** * What a registry that loads is sure of

    The catalog [Load] returns is well formed: entries are filed under their
    identifiers, references resolve, a runtime action has at most one rule, adapter
    bindings carry their digest, and the label index lists the values. *)

From stdpp Require Import options.
From stdpp Require Import gmap.
From S2P Require Import Prelude GoStrings GoTime GoDuration GoJson GoEncoding GoPath GoFloat Schema.
From S2P Require Import Registry GoQuote.
#[local] Open Scope Z_scope.

Set Default Proof Using "Type*".

Section registry.
Context {GR : GoRuntime} {UL : UnicodeLower} {FT : FloatText} {DD : DocumentDecoders}.
Context {RD : RegistryDecoders} {FS : Files}.

Lemma map_order_map_Forall {A} (P : string * A → Prop) (m : gmap string A) :
  Forall P (map_order (map_to_list m)) ↔ ∀ k a, m !! k = Some a → P (k, a).
Proof.
  rewrite map_order_Forall, Forall_forall. split; intros H.
  - intros k a Hk. by apply H, elem_of_map_to_list.
  - intros [k a] Hk. by apply H, elem_of_map_to_list.
Qed.

Lemma map_has_iff {A} (m : gmap string A) key : map_has m key = true ↔ is_Some (m !! key).
Proof. apply bool_decide_eq_true. Qed.

Lemma all_known_Ok known complaint names :
  all_known known complaint names = Ok tt ↔ Forall (λ n, known n = true) names.
Proof.
  unfold all_known. rewrite for_each_Ok. apply Forall_iff. intros n. by destruct (known n).
Qed.

(** ** Well-formed catalogs *)

Definition capability_ok (id : string) (cap : CapabilitySpec) : Prop :=
  cap_ID cap = id ∧ blank id = false ∧ contains "." id = true ∧
  allowedCapabilityKind (cap_Kind cap) = true ∧
  allowedCatalogStatus (cap_Status cap) true = true ∧
  violatesCoreSemanticBoundary id = false ∧ cap_UnknownIsSuccess cap ≠ Some true.

(** A rule that maps a runtime action: known, to capabilities that support it. *)
Definition rule_resolves (c : Catalog) (rule : CompilerRuleSpec) : Prop :=
  HasAuthoringCanonicalID c "runtime_action" (rule_RuntimeAction rule) = true ∧
  (blank (rule_RequirementID rule) = true ∨
   has_entry c "requirement" (trim_space (rule_RequirementID rule)) = true) ∧
  rule_CapabilityIDs rule ≠ [] ∧
  Forall (λ id, ∃ cap, cat_Capabilities c !! id = Some cap ∧
                       capabilitySupportsRuntimeAction cap (rule_RuntimeAction rule) = true)
    (rule_CapabilityIDs rule).

Definition one_rule_per_action (rules : gmap string CompilerRuleSpec) : Prop :=
  ∀ id1 r1 id2 r2, rules !! id1 = Some r1 → rules !! id2 = Some r2 →
    blank (rule_RuntimeAction r1) = false →
    trim_space (rule_RuntimeAction r1) = trim_space (rule_RuntimeAction r2) → r1 = r2.

Definition binding_ok (c : Catalog) (b : AdapterBinding) : Prop :=
  blank (ab_BindingID b) = false ∧ blank (ab_CapabilityID b) = false ∧ blank (ab_AdapterID b) = false ∧
  ab_Digest b = adapterBindingDigest b ∧
  ∃ cap, cat_Capabilities c !! ab_CapabilityID b = Some cap ∧
    (trim_space (ab_ImplementationStatus b) = "implemented" →
     trim_space (cap_Status cap) ≠ "planned").

(** The values of a label, in their order. *)
Definition values_of (label : string) (values : list Value) : list Value :=
  List.filter (λ v, va_Label v ==s label) values.

Record catalog_ok (c : Catalog) : Prop := {
  co_capabilities id cap : cat_Capabilities c !! id = Some cap → capability_ok id cap;
  co_rules id rule : cat_CompilerRules c !! id = Some rule →
    (rule_ID rule = id ∧ has_prefix "compiler_rule." id = true ∧ violatesCoreSemanticBoundary id = false) ∧
    (blank (rule_RuntimeAction rule) = false → rule_resolves c rule);
  co_actions : one_rule_per_action (cat_CompilerRules c);
  co_bindings : Forall (binding_ok c) (cat_AdapterBindings c);
  co_profiles id p : cat_Profiles c !! id = Some p →
    Forall (λ g, is_Some (cat_Guardrails c !! g)) (default [] (pf_Guardrails p));
  co_labels label : default [] (cat_byLabel c !! label) = values_of label (cat_Values c);
}.

(** ** Each loader *)

Lemma readYAML_Ok {A} (decode : string → result A) path a :
  readYAML decode path = Ok a ↔ ∃ data, os_ReadFile path = Ok data ∧ decode data = Ok a.
Proof.
  unfold readYAML. rewrite bind_Ok. split; intros (d & ? & H); exists d; split; auto;
    by apply wrap_err_Ok in H || apply wrap_err_Ok.
Qed.

Lemma loadCapabilities_ok path m :
  loadCapabilities path = Ok m → ∀ id cap, m !! id = Some cap → capability_ok id cap.
Proof.
  unfold loadCapabilities. intros (l & _ & H)%bind_Ok.
  refine (for_fold_Ok _ (λ m, ∀ id cap, m !! id = Some cap → capability_ok id cap) _ _ _ H _ _).
  - intros id cap. by rewrite lookup_empty.
  - intros m0 x m1 _ IH Hadd id cap. unfold add_capability in Hadd. cbv zeta in Hadd. passes Hadd.
    injection Hadd as <-. rewrite lookup_insert.
    destruct (decide (cap_ID x = id)) as [<-|]; [|apply IH]. intros [= <-]. str_eqs. unfold capability_ok.
    split_and!; try done. by apply bool_decide_eq_false in Hg4.
Qed.

Lemma loadCompilerRules_ok path m :
  loadCompilerRules path = Ok m →
  (∀ id rule, m !! id = Some rule →
     rule_ID rule = id ∧ has_prefix "compiler_rule." id = true ∧ violatesCoreSemanticBoundary id = false) ∧
  one_rule_per_action m.
Proof.
  unfold loadCompilerRules. intros (l & _ & H)%bind_Ok.
  destruct (for_fold _ _ _) as [[rules seen]|] eqn:Hf; [|done]. injection H as <-.
  cut ((∀ id rule, (rules, seen).1 !! id = Some rule →
          rule_ID rule = id ∧ has_prefix "compiler_rule." id = true ∧ violatesCoreSemanticBoundary id = false) ∧
       one_rule_per_action (rules, seen).1 ∧
       (∀ id rule, (rules, seen).1 !! id = Some rule → blank (rule_RuntimeAction rule) = false →
          is_Some ((rules, seen).2 !! trim_space (rule_RuntimeAction rule)))).
  { simpl. naive_solver. }
  refine (for_fold_Ok _ (λ acc, (∀ id rule, acc.1 !! id = Some rule →
      rule_ID rule = id ∧ has_prefix "compiler_rule." id = true ∧ violatesCoreSemanticBoundary id = false) ∧
      one_rule_per_action acc.1 ∧
      (∀ id rule, acc.1 !! id = Some rule → blank (rule_RuntimeAction rule) = false →
         is_Some (acc.2 !! trim_space (rule_RuntimeAction rule)))) _ _ _ Hf _ _); clear.
  { unfold one_rule_per_action. simpl. split_and!; intros *; by rewrite lookup_empty. }
  intros [m s] rule [m1 s1] _ (IHid & IHone & IHseen) Hadd. simpl in *.
  unfold add_rule in Hadd. cbv zeta in Hadd. passes Hadd. fold (blank (rule_RuntimeAction rule)) in Hadd.
  str_eqs. destruct (blank (rule_RuntimeAction rule)) eqn:Hb.
  - injection Hadd as <- <-. split_and!.
    + intros id r. rewrite lookup_insert. case_decide; [naive_solver|apply IHid].
    + intros id1 r1 id2 r2. rewrite !lookup_insert. intros H1 H2 Hb1 Heq.
      assert (Hb2 : blank (rule_RuntimeAction r2) = false) by (unfold blank; by rewrite <- Heq).
      repeat case_decide; simplify_eq; eauto; congruence.
    + intros id r. rewrite lookup_insert. case_decide; [intros [= <-]; by rewrite Hb|apply IHseen].
  - destruct (s !! _) as [e|] eqn:Hs; [done|]. injection Hadd as <- <-. split_and!.
    + intros id r. rewrite lookup_insert. case_decide; [naive_solver|apply IHid].
    + assert (Hnew : ∀ id r, m !! id = Some r → blank (rule_RuntimeAction r) = false →
        trim_space (rule_RuntimeAction rule) ≠ trim_space (rule_RuntimeAction r)).
      { intros id r Hr Hbr E. destruct (IHseen _ _ Hr Hbr) as [? Hx]. rewrite E in Hs. congruence. }
      intros id1 r1 id2 r2. rewrite !lookup_insert. intros Hr1 Hr2 Hb1 Heq.
      assert (Hb2 : blank (rule_RuntimeAction r2) = false) by (unfold blank; by rewrite <- Heq).
      repeat case_decide; simplify_eq; eauto; exfalso; eapply Hnew; eauto.
    + intros id r. rewrite lookup_insert. case_decide.
      * intros [= <-] _. rewrite lookup_insert_eq. by eexists.
      * intros Hr Hbr. apply lookup_insert_is_Some. destruct (decide (trim_space (rule_RuntimeAction rule) =
          trim_space (rule_RuntimeAction r))); eauto.
Qed.

Lemma loadAdapterBindings_ok path bindings :
  loadAdapterBindings path = Ok bindings →
  Forall (λ b, blank (ab_BindingID b) = false ∧ blank (ab_CapabilityID b) = false ∧
               blank (ab_AdapterID b) = false ∧ ab_Digest b = adapterBindingDigest b) bindings.
Proof.
  unfold loadAdapterBindings. intros (l & _ & H)%bind_Ok.
  refine (for_fold_Ok _ (Forall _) _ _ _ H (Forall_nil_2 _) _).
  intros acc [i b] acc1 _ IH Hadd. unfold check_binding in Hadd. cbv zeta in Hadd. passes Hadd.
  injection Hadd as <-. apply Forall_app. split; [done|]. repeat constructor; try done. simpl.
  destruct (blank (ab_BindingID b)) eqn:Hb; [|done]. unfold adapterBindingID. not_blank.
Qed.

(** ** The label index *)

Lemma index_values_labels values i label :
  default [] ((foldl index_value i values).1 !! label) =
  default [] (i.1 !! label) ++ values_of label values.
Proof.
  revert i. induction values as [|v values IH]; intros i; simpl; [by rewrite app_nil_r|].
  rewrite IH. simpl. rewrite lookup_insert. unfold values_of. simpl.
  destruct (String.eqb_spec (va_Label v) label) as [->|Hne].
  - rewrite decide_True by done. simpl. by rewrite <- app_assoc.
  - by rewrite decide_False.
Qed.

Lemma reindex_labels c label :
  default [] (cat_byLabel (reindex c) !! label) = values_of label (cat_Values c).
Proof.
  unfold reindex. destruct (foldl index_value (∅, ∅) (cat_Values c)) as [l k] eqn:E.
  destruct (foldl index_entries _ _). simpl.
  pose proof (index_values_labels (cat_Values c) (∅, ∅) label) as H. rewrite E in H. simpl in H.
  by rewrite lookup_empty in H.
Qed.

(** What [reindex] leaves alone. *)
Lemma reindex_documents c :
  cat_Values (reindex c) = cat_Values c ∧ cat_Capabilities (reindex c) = cat_Capabilities c ∧
  cat_CompilerRules (reindex c) = cat_CompilerRules c ∧
  cat_AdapterBindings (reindex c) = cat_AdapterBindings c ∧
  cat_Profiles (reindex c) = cat_Profiles c ∧ cat_Guardrails (reindex c) = cat_Guardrails c.
Proof. unfold reindex. by destruct (foldl index_value _ _), (foldl index_entries _ _). Qed.

(** ** Cross-checks *)

Lemma validateProfileGuardrails_Ok c :
  validateProfileGuardrails c = Ok tt →
  ∀ id p, cat_Profiles c !! id = Some p →
    Forall (λ g, is_Some (cat_Guardrails c !! g)) (default [] (pf_Guardrails p)).
Proof.
  unfold validateProfileGuardrails. rewrite for_each_Ok, map_order_map_Forall.
  intros H id p Hp. specialize (H id p Hp). simpl in H. apply all_known_Ok in H.
  eapply Forall_impl; [exact H|]. intros g. apply map_has_iff.
Qed.

Lemma check_rule_Ok c id rule :
  check_rule c (id, rule) = Ok tt → blank (rule_RuntimeAction rule) = false → rule_resolves c rule.
Proof.
  unfold check_rule. cbn [snd]. cbv zeta. intros H Hb. rewrite Hb in H. passes H.
  apply for_each_Ok in H. str_eqs. split_and!.
  - done.
  - destruct (String.eqb_spec (trim_space (rule_RequirementID rule)) "") as [E|E].
    + left. unfold blank. by rewrite E.
    + right. simpl in Hg0. by destruct (has_entry _ _ _).
  - by destruct (rule_CapabilityIDs rule).
  - eapply Forall_impl; [exact H|]. intros cid Hc. simpl in Hc.
    destruct (cat_Capabilities c !! cid) as [cap|]; [|done]. exists cap. split; [done|].
    by destruct (capabilitySupportsRuntimeAction _ _).
Qed.

Lemma validateCapabilityReferences_Ok c :
  validateCapabilityReferences c = Ok tt →
  (∀ id rule, cat_CompilerRules c !! id = Some rule →
     blank (rule_RuntimeAction rule) = false → rule_resolves c rule) ∧
  Forall (λ b, ∃ cap, cat_Capabilities c !! ab_CapabilityID b = Some cap ∧
    (trim_space (ab_ImplementationStatus b) = "implemented" →
     trim_space (cap_Status cap) ≠ "planned")) (cat_AdapterBindings c).
Proof.
  unfold validateCapabilityReferences. intros ([] & Hr & H)%bind_Ok.
  apply bind_Ok in H as ([] & _ & H). apply bind_Ok in H as ([] & _ & H). split.
  - apply for_each_Ok in Hr. rewrite map_order_map_Forall in Hr. intros id rule Hl.
    by apply (check_rule_Ok c id), Hr.
  - apply for_each_Ok in H. eapply Forall_impl; [exact H|]. intros b. unfold check_binding_reference.
    destruct (cat_Capabilities c !! _) as [cap|]; [|done]. intros Hb. passes Hb.
    exists cap. split; [done|]. intros E1 E2. by rewrite E1, E2 in Hg.
Qed.

(** ** [Load] *)

Lemma Load_catalog_ok core enterprise c : Load core enterprise = Ok c → catalog_ok c.
Proof.
  unfold Load. intros H.
  apply bind_Ok in H as ([] & _ & H). apply bind_Ok in H as ([] & _ & H).
  apply bind_Ok in H as (c0 & _ & H). apply bind_Ok in H as (supplemental & _ & H).
  apply bind_Ok in H as (capabilities & Hcap & H). apply bind_Ok in H as (rules & Hrules & H).
  apply bind_Ok in H as (profiles0 & _ & H). apply bind_Ok in H as (recipes & _ & H).
  apply bind_Ok in H as (guardrails & _ & H). apply bind_Ok in H as ([[c1 profiles] bindings] & Hent & H).
  cbv zeta in H. set (c2 := with_documents _ _ _ _ _ _ _ _) in H.
  apply bind_Ok in H as ([] & Hprofiles & H). apply bind_Ok in H as ([] & Hrefs & [= <-]).
  apply validateCapabilityReferences_Ok in Hrefs as [Hrules2 Hbind].
  destruct (reindex_documents c2) as (Ev & Ec & Er & Eb & Ep & Eg).
  destruct (loadCompilerRules_ok _ _ Hrules) as [Hid Hone].
  constructor.
  - rewrite Ec. by apply (loadCapabilities_ok _ _ Hcap).
  - intros id rule Hl. pose proof Hl as Hl2. rewrite Er in Hl2.
    split; [by apply Hid|]. by apply (Hrules2 id).
  - by rewrite Er.
  - assert (Hb : Forall (λ b, blank (ab_BindingID b) = false ∧ blank (ab_CapabilityID b) = false ∧
               blank (ab_AdapterID b) = false ∧ ab_Digest b = adapterBindingDigest b) bindings).
    { destruct (empty_str enterprise); [injection Hent as _ _ <-; constructor|].
      apply bind_Ok in Hent as (? & _ & Hent). apply bind_Ok in Hent as (? & _ & Hent).
      apply bind_Ok in Hent as (bs & Hbs & [= _ _ <-]). by eapply loadAdapterBindings_ok. }
    rewrite Eb in Hbind |- *. apply Forall_forall. intros b Hin.
    rewrite Forall_forall in Hb, Hbind. destruct (Hb b Hin) as (?&?&?&?).
    unfold binding_ok. split_and!; try done. by apply Hbind.
  - by apply validateProfileGuardrails_Ok.
  - intros label. rewrite Ev. apply reindex_labels.
Qed.

(** C27. A registry that loads is well formed: capabilities and rules are filed under
    identifiers that are namespaced and generic, no capability takes unknown for
    success, a rule's runtime action is an authoring value and its capabilities exist
    and support the action, no two rules map one action, every adapter binding has an
    identifier, its digest and a capability that is not merely planned if it claims to implement it,
    the guardrails of profiles exist, and the label index lists the values in order. *)
Theorem Load_well_formed core enterprise c : Load core enterprise = Ok c → catalog_ok c.
Proof. apply Load_catalog_ok. Qed.

(** A label is resolved when exactly one value has it and one of the kinds. *)
Lemma Resolve_Ok c label kinds v :
  catalog_ok c → Resolve c label kinds = Ok v ↔
  List.filter (λ v, Nat.eqb (length kinds) 0 || existsb (String.eqb (va_Kind v)) kinds)
    (values_of label (cat_Values c)) = [v].
Proof.
  intros [_ _ _ _ _ Hl]. unfold Resolve. rewrite Hl. cbv zeta.
  destruct (List.filter _ _) as [|v1 [|v2 l]]; naive_solver.
Qed.

Lemma Resolve_In c label kinds v :
  catalog_ok c → Resolve c label kinds = Ok v →
  v ∈ cat_Values c ∧ va_Label v = label ∧ (kinds = [] ∨ va_Kind v ∈ kinds).
Proof.
  intros Hc Hr. apply (Resolve_Ok _ _ _ _ Hc) in Hr.
  assert (Hv : v ∈ List.filter (λ v, Nat.eqb (length kinds) 0 || existsb (String.eqb (va_Kind v)) kinds)
    (values_of label (cat_Values c))) by (rewrite Hr; by left).
  apply list_elem_of_In, filter_In in Hv as [Hv Hk]. apply filter_In in Hv as [Hv Hlabel].
  split_and!; [by apply list_elem_of_In|by apply String.eqb_eq|].
  destruct kinds as [|k kinds]; [by left|right]. cbn [length Nat.eqb orb] in Hk.
  apply existsb_exists in Hk as (k' & Hin & ->%String.eqb_eq). by apply list_elem_of_In.
Qed.

(** The rule of a runtime action does not depend on the order of the map. *)
Lemma RuntimeActionRule_Some c action rule :
  RuntimeActionRule c action = Some rule →
  trim_space (rule_RuntimeAction rule) = trim_space action ∧
  ∃ id, cat_CompilerRules c !! id = Some rule.
Proof.
  unfold RuntimeActionRule. intros ([id r] & Hf & ->)%fmap_Some.
  apply find_some in Hf as [Hin Heq]. apply String.eqb_eq in Heq. split; [done|]. exists id.
  apply elem_of_map_to_list. apply list_elem_of_In in Hin. by rewrite map_order_elem in Hin.
Qed.

Lemma get_AdapterBinding_Some c capabilityID stage b :
  get_AdapterBinding c capabilityID stage = Some b →
  b ∈ cat_AdapterBindings c ∧ binding_serves capabilityID stage b = true.
Proof. intros [Hin Hb]%find_some. split; [by apply list_elem_of_In|done]. Qed.
End registry.
