(* ===== verification/Intent.v ===== *)
(** * The intent language ([internal/core/intent])

    Cards of rules, risk behaviors, runtime limits and simulations, and the parser:
    a state machine over the lines of a file.  The regular expressions of the parser
    are written out. *)

From stdpp Require Import options.
From S2P Require Import Prelude GoStrings GoTime GoJson GoEncoding GoPath GoQuote.
#[local] Open Scope Z_scope.

(** ** Cards *)

Record Rule := {
  ru_Name : string;
  ru_Effect : string;
  ru_Subject : string;
  ru_Action : string;
  ru_Resource : string;
  ru_OnlyWhen : list string;
}.

Record RiskBehavior := {
  rb_RiskType : string;
  rb_Tier : string;
  rb_Effect : string;
}.

Record Runtime := {
  rt_Allowed : bool;
  rt_Actions : list string;
  rt_MaxTTL : string;
  rt_MaxScope : string;
}.

Record Simulation := {
  si_Name : string;
  si_Given : list string;
  si_ExpectEffect : string;
}.

Record Card := {
  card_ID : string;
  card_SourcePath : string;
  card_Version : string;
  card_Owner : string;
  card_Type : string;
  card_Target : string;
  card_Stage : string;
  card_Profile : string;
  card_RiskRecipe : string;
  card_Rules : list Rule;
  card_Risk : list RiskBehavior;
  card_Prohibit : list string;
  card_Runtime : Runtime;
  card_Simulations : list Simulation;
}.

Definition new_card (id path : string) : Card := {|
  card_ID := id; card_SourcePath := path; card_Version := ""; card_Owner := ""; card_Type := "";
  card_Target := ""; card_Stage := ""; card_Profile := ""; card_RiskRecipe := ""; card_Rules := [];
  card_Risk := []; card_Prohibit := [];
  card_Runtime := {| rt_Allowed := false; rt_Actions := []; rt_MaxTTL := ""; rt_MaxScope := "" |};
  card_Simulations := [] |}.

(** ** The lines *)

Definition intentStartRE (line : string) : option string :=
  s ← skip "intent" line;
  s ← some_spaces s;
  '(name, s) ← quoted_name s;
  s ← some_spaces s;
  s ← skip "{" s;
  _ ← at_end s;
  Some name.

Definition named_block (keyword line : string) : option (string * string) :=
  s ← skip keyword line;
  s ← some_spaces s;
  '(name, s) ← quoted_name s;
  s ← some_spaces s;
  s ← skip "{" s;
  _ ← at_end s;
  Some (keyword, name).

Definition namedBlockRE (line : string) : option (string * string) :=
  match named_block "rule" line with
  | Some m => Some m
  | None => named_block "simulation" line
  end.

Definition simple_block (keyword line : string) : option string :=
  s ← skip keyword line;
  s ← some_spaces s;
  s ← skip "{" s;
  _ ← at_end s;
  Some keyword.

Fixpoint first_match {A B} (f : A → option B) (l : list A) : option B :=
  match l with
  | [] => None
  | x :: l => match f x with Some y => Some y | None => first_match f l end
  end.

Definition simpleBlockRE (line : string) : option string :=
  first_match (λ keyword, simple_block keyword line) ["risk_behavior"; "runtime"; "expect"].

Definition key_char (c : Ascii.ascii) : bool :=
  let z := byte_of c in
  ((65 <=? z) && (z <=? 90)) || (z =? 95) || ((97 <=? z) && (z <=? 122)).

Fixpoint take_key (s : string) : string * string :=
  match s with
  | String c s' =>
      if key_char c then let '(key, rest) := take_key s' in (String c key, rest) else ("", s)
  | EmptyString => ("", "")
  end.

(** The key, and the value as the caller trims it. *)
Definition assignmentRE (line : string) : option (string * string) :=
  let '(key, s) := take_key line in
  if empty_str key then None else
  s ← skip "=" (skip_spaces s);
  if empty_str s then None else Some (key, skip_spaces s).

Definition riskBehaviorRE (line : string) : option (string * string * string) :=
  s ← skip "when" line; s ← some_spaces s; '(riskType, s) ← quoted_name s; s ← some_spaces s;
  s ← skip "is" s; s ← some_spaces s; '(tier, s) ← quoted_name s; s ← some_spaces s;
  s ← skip "then" s; s ← some_spaces s; '(effect, s) ← quoted_name s;
  _ ← at_end s;
  Some (riskType, tier, effect).

Definition inlineExpectRE (line : string) : option string :=
  s ← skip "expect" line; s ← some_spaces s; s ← skip "{" s;
  s ← skip "effect" (skip_spaces s);
  s ← skip "=" (skip_spaces s);
  '(effect, s) ← quoted_name (skip_spaces s);
  s ← skip "}" (skip_spaces s);
  _ ← at_end s;
  Some effect.

(** The content of a quoted string, after its opening quote: a backslash hides the
    character that follows it. *)
Fixpoint quoted_content (s : string) : option (string * string) :=
  match s with
  | EmptyString => None
  | String c s' =>
      if is_quote c then Some ("", s') else
      if byte_of c =? 92 then
        match s' with
        | String d s'' =>
            if byte_of d =? 10 then None else
            '(content, rest) ← quoted_content s''; Some (String c (String d content), rest)
        | EmptyString => None
        end
      else '(content, rest) ← quoted_content s'; Some (String c content, rest)
  end.

(** The successive leftmost matches of [quotedStringRE]. *)
Fixpoint quotedStringRE (fuel : nat) (s : string) : list string :=
  match fuel, s with
  | S fuel, String c s' =>
      match (if is_quote c then quoted_content s' else None) with
      | Some (content, rest) => content :: quotedStringRE fuel rest
      | None => quotedStringRE fuel s'
      end
  | _, _ => []
  end.

(** A string that cannot be unquoted is left out. *)
Definition quotedStrings (line : string) : list string :=
  omap (λ content, match Unquote (dquote +:+ content +:+ dquote) with Ok v => Some v | Err _ => None end)
    (quotedStringRE (String.length line) line).

Definition parseScalar (raw : string) : result string :=
  if (raw ==s "true") || (raw ==s "false") then Ok raw
  else if has_prefix (dquote +:+ dquote +:+ dquote) raw
    then Err (Errorf "multiline strings are not supported in Slice 1 parser" [])
  else if has_prefix dquote raw then Unquote raw
  else Err (Errorf "expected quoted string or boolean, got %q" [AStr raw]).

(** ** Assigning fields *)

(** What Go does on a nil card: the process stops, unless somebody recovers. *)
Definition nil_card_panic : error := Sentinel "panic: nil pointer dereference".

(** [&list[len(list)-1]] *)
Fixpoint update_last {A} (f : A → A) (l : list A) : list A :=
  match l with
  | [] => []
  | [x] => [f x]
  | x :: l => x :: update_last f l
  end.

Section fields.
Implicit Types (c : Card) (value : string).

Definition set_Version value c := {|
  card_ID := card_ID c; card_SourcePath := card_SourcePath c; card_Version := value;
  card_Owner := card_Owner c; card_Type := card_Type c; card_Target := card_Target c;
  card_Stage := card_Stage c; card_Profile := card_Profile c; card_RiskRecipe := card_RiskRecipe c;
  card_Rules := card_Rules c; card_Risk := card_Risk c; card_Prohibit := card_Prohibit c;
  card_Runtime := card_Runtime c; card_Simulations := card_Simulations c |}.
Definition set_Owner value c := {|
  card_ID := card_ID c; card_SourcePath := card_SourcePath c; card_Version := card_Version c;
  card_Owner := value; card_Type := card_Type c; card_Target := card_Target c;
  card_Stage := card_Stage c; card_Profile := card_Profile c; card_RiskRecipe := card_RiskRecipe c;
  card_Rules := card_Rules c; card_Risk := card_Risk c; card_Prohibit := card_Prohibit c;
  card_Runtime := card_Runtime c; card_Simulations := card_Simulations c |}.
Definition set_Type value c := {|
  card_ID := card_ID c; card_SourcePath := card_SourcePath c; card_Version := card_Version c;
  card_Owner := card_Owner c; card_Type := value; card_Target := card_Target c;
  card_Stage := card_Stage c; card_Profile := card_Profile c; card_RiskRecipe := card_RiskRecipe c;
  card_Rules := card_Rules c; card_Risk := card_Risk c; card_Prohibit := card_Prohibit c;
  card_Runtime := card_Runtime c; card_Simulations := card_Simulations c |}.
Definition set_Target value c := {|
  card_ID := card_ID c; card_SourcePath := card_SourcePath c; card_Version := card_Version c;
  card_Owner := card_Owner c; card_Type := card_Type c; card_Target := value;
  card_Stage := card_Stage c; card_Profile := card_Profile c; card_RiskRecipe := card_RiskRecipe c;
  card_Rules := card_Rules c; card_Risk := card_Risk c; card_Prohibit := card_Prohibit c;
  card_Runtime := card_Runtime c; card_Simulations := card_Simulations c |}.
Definition set_Stage value c := {|
  card_ID := card_ID c; card_SourcePath := card_SourcePath c; card_Version := card_Version c;
  card_Owner := card_Owner c; card_Type := card_Type c; card_Target := card_Target c;
  card_Stage := value; card_Profile := card_Profile c; card_RiskRecipe := card_RiskRecipe c;
  card_Rules := card_Rules c; card_Risk := card_Risk c; card_Prohibit := card_Prohibit c;
  card_Runtime := card_Runtime c; card_Simulations := card_Simulations c |}.
Definition set_Profile value c := {|
  card_ID := card_ID c; card_SourcePath := card_SourcePath c; card_Version := card_Version c;
  card_Owner := card_Owner c; card_Type := card_Type c; card_Target := card_Target c;
  card_Stage := card_Stage c; card_Profile := value; card_RiskRecipe := card_RiskRecipe c;
  card_Rules := card_Rules c; card_Risk := card_Risk c; card_Prohibit := card_Prohibit c;
  card_Runtime := card_Runtime c; card_Simulations := card_Simulations c |}.
Definition set_RiskRecipe value c := {|
  card_ID := card_ID c; card_SourcePath := card_SourcePath c; card_Version := card_Version c;
  card_Owner := card_Owner c; card_Type := card_Type c; card_Target := card_Target c;
  card_Stage := card_Stage c; card_Profile := card_Profile c; card_RiskRecipe := value;
  card_Rules := card_Rules c; card_Risk := card_Risk c; card_Prohibit := card_Prohibit c;
  card_Runtime := card_Runtime c; card_Simulations := card_Simulations c |}.
Definition set_Rules (rules : list Rule) c := {|
  card_ID := card_ID c; card_SourcePath := card_SourcePath c; card_Version := card_Version c;
  card_Owner := card_Owner c; card_Type := card_Type c; card_Target := card_Target c;
  card_Stage := card_Stage c; card_Profile := card_Profile c; card_RiskRecipe := card_RiskRecipe c;
  card_Rules := rules; card_Risk := card_Risk c; card_Prohibit := card_Prohibit c;
  card_Runtime := card_Runtime c; card_Simulations := card_Simulations c |}.
Definition set_Risk (behaviors : list RiskBehavior) c := {|
  card_ID := card_ID c; card_SourcePath := card_SourcePath c; card_Version := card_Version c;
  card_Owner := card_Owner c; card_Type := card_Type c; card_Target := card_Target c;
  card_Stage := card_Stage c; card_Profile := card_Profile c; card_RiskRecipe := card_RiskRecipe c;
  card_Rules := card_Rules c; card_Risk := behaviors; card_Prohibit := card_Prohibit c;
  card_Runtime := card_Runtime c; card_Simulations := card_Simulations c |}.
Definition set_Prohibit (values : list string) c := {|
  card_ID := card_ID c; card_SourcePath := card_SourcePath c; card_Version := card_Version c;
  card_Owner := card_Owner c; card_Type := card_Type c; card_Target := card_Target c;
  card_Stage := card_Stage c; card_Profile := card_Profile c; card_RiskRecipe := card_RiskRecipe c;
  card_Rules := card_Rules c; card_Risk := card_Risk c; card_Prohibit := values;
  card_Runtime := card_Runtime c; card_Simulations := card_Simulations c |}.
Definition set_Runtime (runtime : Runtime) c := {|
  card_ID := card_ID c; card_SourcePath := card_SourcePath c; card_Version := card_Version c;
  card_Owner := card_Owner c; card_Type := card_Type c; card_Target := card_Target c;
  card_Stage := card_Stage c; card_Profile := card_Profile c; card_RiskRecipe := card_RiskRecipe c;
  card_Rules := card_Rules c; card_Risk := card_Risk c; card_Prohibit := card_Prohibit c;
  card_Runtime := runtime; card_Simulations := card_Simulations c |}.
Definition set_Simulations (simulations : list Simulation) c := {|
  card_ID := card_ID c; card_SourcePath := card_SourcePath c; card_Version := card_Version c;
  card_Owner := card_Owner c; card_Type := card_Type c; card_Target := card_Target c;
  card_Stage := card_Stage c; card_Profile := card_Profile c; card_RiskRecipe := card_RiskRecipe c;
  card_Rules := card_Rules c; card_Risk := card_Risk c; card_Prohibit := card_Prohibit c;
  card_Runtime := card_Runtime c; card_Simulations := simulations |}.
End fields.

(** The last rule or simulation with one field replaced. *)
Definition rule_with (effect subject action resource : option string)
    (onlyWhen : option (list string)) (r : Rule) : Rule := {|
  ru_Name := ru_Name r; ru_Effect := default (ru_Effect r) effect;
  ru_Subject := default (ru_Subject r) subject; ru_Action := default (ru_Action r) action;
  ru_Resource := default (ru_Resource r) resource; ru_OnlyWhen := default (ru_OnlyWhen r) onlyWhen |}.

Definition runtime_with (allowed : option bool) (actions : option (list string))
    (maxTTL maxScope : option string) (r : Runtime) : Runtime := {|
  rt_Allowed := default (rt_Allowed r) allowed; rt_Actions := default (rt_Actions r) actions;
  rt_MaxTTL := default (rt_MaxTTL r) maxTTL; rt_MaxScope := default (rt_MaxScope r) maxScope |}.

Definition simulation_with (given : option (list string)) (expect : option string) (s : Simulation)
    : Simulation := {|
  si_Name := si_Name s; si_Given := default (si_Given s) given;
  si_ExpectEffect := default (si_ExpectEffect s) expect |}.

(** [assignScalar] on a card that is not nil. *)
Definition assign_scalar (c : Card) (block key value : string) : result Card :=
  let on_rule f := Ok (set_Rules (update_last f (card_Rules c)) c) in
  let on_runtime f := Ok (set_Runtime (f (card_Runtime c)) c) in
  if block ==s "intent" then
    if key ==s "version" then Ok (set_Version value c)
    else if key ==s "owner" then Ok (set_Owner value c)
    else if key ==s "type" then Ok (set_Type value c)
    else if key ==s "target" then Ok (set_Target value c)
    else if key ==s "stage" then Ok (set_Stage value c)
    else if key ==s "profile" then Ok (set_Profile value c)
    else if key ==s "risk_recipe" then Ok (set_RiskRecipe value c)
    else Err (Errorf "unknown intent field %q" [AStr key])
  else if block ==s "rule" then
    reject Nat.eqb (length (card_Rules c)) 0 with Errorf "rule field outside rule block" [];;
    if key ==s "effect" then on_rule (rule_with (Some value) None None None None)
    else if key ==s "subject" then on_rule (rule_with None (Some value) None None None)
    else if key ==s "action" then on_rule (rule_with None None (Some value) None None)
    else if key ==s "resource" then on_rule (rule_with None None None (Some value) None)
    else Err (Errorf "unknown rule field %q" [AStr key])
  else if block ==s "runtime" then
    if key ==s "allowed" then on_runtime (runtime_with (Some (value ==s "true")) None None None)
    else if key ==s "max_ttl" then on_runtime (runtime_with None None (Some value) None)
    else if key ==s "max_scope" then on_runtime (runtime_with None None None (Some value))
    else Err (Errorf "unknown runtime field %q" [AStr key])
  else if block ==s "expect" then
    reject key !=s "effect" with Errorf "unknown expect field %q" [AStr key];;
    reject Nat.eqb (length (card_Simulations c)) 0
      with Errorf "expect field outside simulation block" [];;
    Ok (set_Simulations (update_last (simulation_with None (Some value)) (card_Simulations c)) c)
  else Err (Errorf "field %q is not valid inside %q" [AStr key; AStr block]).

(** [assignScalar]: only an inline [expect] can come before the card. *)
Definition assignScalar (card : option Card) (block key value : string) : result Card :=
  match card with
  | Some c => assign_scalar c block key value
  | None => Err nil_card_panic
  end.

Definition assign_list (c : Card) (block key : string) (values : list string) : result Card :=
  if block ==s "rule" then
    reject key !=s "only_when" with Errorf "unknown rule list %q" [AStr key];;
    reject Nat.eqb (length (card_Rules c)) 0 with Errorf "only_when outside rule block" [];;
    Ok (set_Rules (update_last (rule_with None None None None (Some values)) (card_Rules c)) c)
  else if block ==s "intent" then
    reject key !=s "prohibit" with Errorf "unknown intent list %q" [AStr key];;
    Ok (set_Prohibit values c)
  else if block ==s "runtime" then
    reject key !=s "actions" with Errorf "unknown runtime list %q" [AStr key];;
    Ok (set_Runtime (runtime_with None (Some values) None None (card_Runtime c)) c)
  else if block ==s "simulation" then
    reject key !=s "given" with Errorf "unknown simulation list %q" [AStr key];;
    reject Nat.eqb (length (card_Simulations c)) 0
      with Errorf "given outside simulation block" [];;
    Ok (set_Simulations (update_last (simulation_with (Some values) None) (card_Simulations c)) c)
  else Err (Errorf "list %q is not valid inside %q" [AStr key; AStr block]).

Definition assignList (card : option Card) (block key : string) (values : list string) : result Card :=
  match card with
  | Some c => assign_list c block key values
  | None => Err nil_card_panic
  end.

(** ** The parser *)

(** Between two lines: the card, the open blocks with the innermost first, and the list
    that is being read. *)
Record parser := {
  ps_card : option Card;
  ps_stack : list string;
  ps_list : option (string * list string);
}.

Definition no_card : parser := {| ps_card := None; ps_stack := []; ps_list := None |}.

Definition current (stack : list string) : string := default "" (head stack).

Definition with_card (c : Card) (p : parser) : parser :=
  {| ps_card := Some c; ps_stack := ps_stack p; ps_list := ps_list p |}.
Definition with_stack (stack : list string) (p : parser) : parser :=
  {| ps_card := ps_card p; ps_stack := stack; ps_list := ps_list p |}.
Definition with_list (l : option (string * list string)) (p : parser) : parser :=
  {| ps_card := ps_card p; ps_stack := ps_stack p; ps_list := l |}.

(** A line inside a list that spans lines. *)
Definition list_line (p : parser) (key : string) (values : list string) (line : string)
    : result parser :=
  let values := values ++ quotedStrings line in
  if contains "]" line then
    c ← assignList (ps_card p) (current (ps_stack p)) key values;
    Ok (with_list None (with_card c p))
  else Ok (with_list (Some (key, values)) p).

Definition assignment_line (p : parser) (line : string) : result parser :=
  match assignmentRE line with
  | None => Err (Errorf "unsupported syntax %q" [AStr line])
  | Some (key, raw) =>
      let raw := trim_space raw in
      if has_prefix "[" raw then
        let values := quotedStrings raw in
        if contains "]" raw then
          c ← assignList (ps_card p) (current (ps_stack p)) key values;
          Ok (with_card c p)
        else Ok (with_list (Some (key, values)) p)
      else
        value ← parseScalar raw;
        c ← assignScalar (ps_card p) (current (ps_stack p)) key value;
        Ok (with_card c p)
  end.

(** A line of the body of a card. *)
Definition body_line (c : Card) (p : parser) (line : string) : result parser :=
  match namedBlockRE line with
  | Some (keyword, name) =>
      let c := if keyword ==s "rule"
        then set_Rules (card_Rules c ++ [{| ru_Name := name; ru_Effect := ""; ru_Subject := "";
               ru_Action := ""; ru_Resource := ""; ru_OnlyWhen := [] |}]) c
        else set_Simulations (card_Simulations c ++
               [{| si_Name := name; si_Given := []; si_ExpectEffect := "" |}]) c in
      Ok (with_stack (keyword :: ps_stack p) (with_card c p))
  | None =>
      match simpleBlockRE line with
      | Some keyword => Ok (with_stack (keyword :: ps_stack p) p)
      | None =>
          if line ==s "}" then
            match ps_stack p with
            | [] => Err (Errorf "unmatched closing brace" [])
            | _ :: stack => Ok (with_stack stack p)
            end
          else if current (ps_stack p) ==s "risk_behavior" then
            match riskBehaviorRE line with
            | None => Err (Errorf "invalid risk_behavior line" [])
            | Some (riskType, tier, effect) =>
                Ok (with_card (set_Risk (card_Risk c ++
                      [{| rb_RiskType := riskType; rb_Tier := tier; rb_Effect := effect |}]) c) p)
            end
          else assignment_line p line
      end
  end.

Definition parse_line (path : string) (p : parser) (line : string) : result parser :=
  let line := trim_space line in
  if empty_str line || has_prefix "#" line || has_prefix "//" line then Ok p else
  match ps_list p with
  | Some (key, values) => list_line p key values line
  | None =>
      match inlineExpectRE line with
      | Some effect =>
          c ← assignScalar (ps_card p) "expect" "effect" effect;
          Ok (with_card c p)
      | None =>
          match intentStartRE line with
          | Some id =>
              match ps_card p with
              | Some _ => Err (Errorf "multiple intent blocks are not supported" [])
              | None =>
                  Ok (with_stack ("intent" :: ps_stack p) (with_card (new_card id path) p))
              end
          | None =>
              match ps_card p with
              | None => Err (Errorf "expected intent block" [])
              | Some c => body_line c p line
              end
          end
      end
  end.

(** [parseError]; a panic is not an error that is wrapped. *)
Definition parseError (path : string) (lineNo : nat) {A} (r : result A) : result A :=
  match r with
  | Err e => if bool_decide (e = nil_card_panic) then Err e
             else Err (Wrapf "%s:%d: %w" [AStr path; AInt (Z.of_nat lineNo)] e)
  | Ok a => Ok a
  end.

(** The scanner's loop, with the number of lines read. *)
Fixpoint parse_lines (path : string) (lineNo : nat) (p : parser) (lines : list string)
    : result parser :=
  match lines with
  | [] => Ok p
  | line :: lines =>
      reject MaxScanTokenSize <=? Z.of_nat (String.length line) with ErrTooLong;;
      p ← parseError path (S lineNo) (parse_line path p (dropCR line));
      parse_lines path (S lineNo) p lines
  end.

Definition finish (path : string) (p : parser) : result Card :=
  match ps_card p with
  | None => Err (Errorf "%s: no intent block found" [AStr path])
  | Some c =>
      match ps_stack p with
      | block :: _ => Err (Errorf "%s: unclosed block %q" [AStr path; AStr block])
      | [] => Ok c
      end
  end.

Definition ParseFile `{Files} (path : string) : result Card :=
  text ← os_ReadFile path;
  p ← parse_lines path 0 no_card (scan_lines text);
  finish path p.
