(* ===== verification/IntentProofs.v ===== *)
(** * Cards that are written are read back

    A printer for cards, and the proof that the parser inverts it: what a card says is
    what the compiler is given. *)

From stdpp Require Import options.
From Stdlib Require Import Ascii.
From S2P Require Import Prelude GoStrings GoTime GoJson GoEncoding GoPath GoQuote Intent.
#[local] Open Scope Z_scope.

(** ** The printer *)

Definition field (key value : string) : string := key +:+ " = " +:+ value.
Definition list_text (l : list string) : string := "[" +:+ join ", " (quote <$> l) +:+ "]".
Definition in_quotes (name rest : string) : string := dquote +:+ name +:+ dquote +:+ rest.
Definition header (keyword name : string) : string := keyword +:+ " " +:+ in_quotes name " {".
Definition bool_text (b : bool) : string := if b then "true" else "false".

Definition rule_lines (r : Rule) : list string :=
  [header "rule" (ru_Name r); field "effect" (quote (ru_Effect r));
   field "subject" (quote (ru_Subject r)); field "action" (quote (ru_Action r));
   field "resource" (quote (ru_Resource r)); field "only_when" (list_text (ru_OnlyWhen r)); "}"].

Definition risk_line (b : RiskBehavior) : string :=
  "when " +:+ in_quotes (rb_RiskType b)
    (" is " +:+ in_quotes (rb_Tier b) (" then " +:+ in_quotes (rb_Effect b) "")).

Definition runtime_lines (r : Runtime) : list string :=
  ["runtime {"; field "allowed" (bool_text (rt_Allowed r)); field "actions" (list_text (rt_Actions r));
   field "max_ttl" (quote (rt_MaxTTL r)); field "max_scope" (quote (rt_MaxScope r)); "}"].

Definition simulation_lines (s : Simulation) : list string :=
  [header "simulation" (si_Name s); field "given" (list_text (si_Given s)); "expect {";
   field "effect" (quote (si_ExpectEffect s)); "}"; "}"].

Definition card_lines (c : Card) : list string :=
  [header "intent" (card_ID c); field "version" (quote (card_Version c));
   field "owner" (quote (card_Owner c)); field "type" (quote (card_Type c));
   field "target" (quote (card_Target c)); field "stage" (quote (card_Stage c));
   field "profile" (quote (card_Profile c)); field "risk_recipe" (quote (card_RiskRecipe c));
   field "prohibit" (list_text (card_Prohibit c))] ++
  flat_map rule_lines (card_Rules c) ++
  ["risk_behavior {"] ++ (risk_line <$> card_Risk c) ++ ["}"] ++
  runtime_lines (card_Runtime c) ++ flat_map simulation_lines (card_Simulations c) ++ ["}"].

Definition print_card (c : Card) : string :=
  join "" ((λ line, line +:+ String newline "") <$> card_lines c).

(** What stands between quotes with no way to escape it. *)
Definition name_ok (s : string) : Prop :=
  s ≠ "" ∧ no_char dq s = true ∧ no_char newline s = true.

(** Cards the language can write: other strings are arbitrary. *)
Record writable (c : Card) : Prop := {
  wr_id : name_ok (card_ID c);
  wr_rules : Forall (λ r, name_ok (ru_Name r)) (card_Rules c);
  wr_risk : Forall (λ b, name_ok (rb_RiskType b) ∧ name_ok (rb_Tier b) ∧ name_ok (rb_Effect b))
              (card_Risk c);
  wr_simulations : Forall (λ s, name_ok (si_Name s)) (card_Simulations c);
  wr_lines : Forall (λ line, Z.of_nat (String.length line) < MaxScanTokenSize) (card_lines c);
}.

(** The card as it is read from a path. *)
Definition set_SourcePath (value : string) (c : Card) : Card := {|
  card_ID := card_ID c; card_SourcePath := value; card_Version := card_Version c;
  card_Owner := card_Owner c; card_Type := card_Type c; card_Target := card_Target c;
  card_Stage := card_Stage c; card_Profile := card_Profile c; card_RiskRecipe := card_RiskRecipe c;
  card_Rules := card_Rules c; card_Risk := card_Risk c; card_Prohibit := card_Prohibit c;
  card_Runtime := card_Runtime c; card_Simulations := card_Simulations c |}.

(** ** Lists *)

(** Neither a quote nor a backslash. *)
Definition unescaped (c : Ascii.ascii) : bool := negb (is_quote c) && negb (byte_of c =? 92).

Lemma quoted_content_unescaped c s :
  unescaped c = true →
  quoted_content (String c s) = '(content, rest) ← quoted_content s; Some (String c content, rest).
Proof. intros [H1 H2]%andb_true_iff. apply negb_true_iff in H1, H2. cbn [quoted_content]. by rewrite H1, H2. Qed.

Lemma hex_byte_unescaped c : ∃ a b, Sha256.hex_byte (byte_of c) = String a (String b "") ∧
  unescaped a = true ∧ unescaped b = true.
Proof. destruct c as [[] [] [] [] [] [] [] []]; do 2 eexists; repeat split; reflexivity. Qed.

Lemma quoted_content_char c s :
  quoted_content (quote_char c +:+ s) =
  '(content, rest) ← quoted_content s; Some (quote_char c +:+ content, rest).
Proof.
  unfold quote_char. destruct (plain_char c) eqn:Hc.
  - apply (quoted_content_unescaped c s). unfold plain_char, unescaped, is_quote in *.
    apply andb_true_iff in Hc as [Hc ->]. by apply andb_true_iff in Hc as [_ ->].
  - destruct (hex_byte_unescaped c) as (a & b & E & Ha & Hb). rewrite E.
    change (quoted_content (("\x" +:+ String a (String b "")) +:+ s)) with
      ('(content, rest) ← quoted_content (String a (String b s));
       Some ("\x" +:+ content, rest)).
    rewrite !quoted_content_unescaped by done. by destruct (quoted_content s) as [[]|].
Qed.

Lemma quoted_content_body s rest :
  quoted_content (quote_body s +:+ String dq rest) = Some (quote_body s, rest).
Proof.
  induction s as [|c s IH]; [done|]. cbn [quote_body].
  by rewrite app_str_assoc, quoted_content_char, IH.
Qed.

Lemma quotedStringRE_quote fuel x tail :
  quotedStringRE (S fuel) (quote x +:+ tail) = quote_body x :: quotedStringRE fuel tail.
Proof.
  unfold quote. rewrite !app_str_assoc.
  change (dquote +:+ quote_body x +:+ dquote +:+ tail) with (String dq (quote_body x +:+ String dq tail)).
  cbn [quotedStringRE]. change (is_quote dq) with true. by rewrite quoted_content_body.
Qed.

Lemma quotedStringRE_list l fuel :
  (String.length (join ", " (quote <$> l)) < fuel)%nat →
  quotedStringRE fuel (join ", " (quote <$> l) +:+ "]") = quote_body <$> l.
Proof.
  revert fuel. induction l as [|x l IH]; intros fuel Hf; (destruct fuel as [|fuel]; [lia|]).
  - by destruct fuel.
  - destruct l as [|y l].
    + cbn [fmap list_fmap join]. rewrite quotedStringRE_quote. by destruct fuel as [|[|]].
    + rewrite fmap_cons in Hf |- *. set (l' := y :: l) in *.
      assert (Hj : join ", " (quote x :: (quote <$> l')) =
        quote x +:+ String ","%char (String " "%char (join ", " (quote <$> l')))) by done.
      rewrite Hj, app_str_assoc, quotedStringRE_quote in *. rewrite length_app_str in Hf.
      cbn [String.length] in Hf. assert (2 <= String.length (quote x))%nat
        by (unfold quote; rewrite !length_app_str; simpl; lia).
      destruct fuel as [|[|fuel]]; [lia..|]. rewrite !app_str_cons.
      cbn [quotedStringRE]. change (is_quote ","%char) with false. change (is_quote " "%char) with false.
      cbn iota. rewrite IH by lia. done.
Qed.

Lemma quotedStrings_list l : quotedStrings (list_text l) = l.
Proof.
  unfold quotedStrings, list_text.
  change ("[" +:+ join ", " (quote <$> l) +:+ "]") with (String "["%char (join ", " (quote <$> l) +:+ "]")).
  cbn [String.length quotedStringRE]. change (is_quote "["%char) with false. cbn iota.
  rewrite quotedStringRE_list by (rewrite length_app_str; simpl; lia).
  induction l as [|x l IH]; [done|]. cbn [fmap list_fmap omap list_omap].
  change (dquote +:+ quote_body x +:+ dquote) with (quote x). rewrite Unquote_quote. by rewrite IH.
Qed.

Lemma contains_app_r sub a b : contains sub b = true → contains sub (a +:+ b) = true.
Proof.
  intros Hb. induction a as [|c a IH]; [done|]. rewrite app_str_cons. cbn [contains].
  by rewrite IH, orb_true_r.
Qed.

Lemma contains_list l : contains "]" (list_text l) = true.
Proof. unfold list_text. by do 2 apply contains_app_r. Qed.

(** ** Lines the parser sees as they were written *)

Lemma solid_list l : solid (list_text l).
Proof.
  split; [|by eexists _, _]. unfold list_text. do 2 apply ends_app. by apply ends_char.
Qed.

Lemma ends_quote s : ends (quote s).
Proof. unfold quote. do 2 apply ends_app. by apply ends_char. Qed.

Lemma solid_quote s : solid (quote s).
Proof. split; [apply ends_quote|by eexists _, _]. Qed.

(** What the other lines begin with. *)
Definition heads : list string :=
  ["expect"; "intent"; "rule"; "simulation"; "risk_behavior"; "runtime"; "#"; "//"; "}"].

(** A key none of the other lines begins with. *)
Record plain_key (key : string) : Prop := {
  pk_heads rest : Forall (λ h, has_prefix h (key +:+ " = " +:+ rest) = false) heads;
  pk_take rest : take_key (key +:+ " = " +:+ rest) = (key, " = " +:+ rest);
  pk_first : ∃ c m, key = String c m ∧ graphic c = true;
}.

Lemma skip_no_prefix p s : has_prefix p s = false → skip p s = None.
Proof. unfold skip. by intros ->. Qed.

Lemma body_line_fallback c p line :
  Forall (λ h, has_prefix h line = false) heads →
  body_line c p line =
  if current (ps_stack p) ==s "risk_behavior" then
    match riskBehaviorRE line with
    | None => Err (Errorf "invalid risk_behavior line" [])
    | Some (riskType, tier, effect) =>
        Ok (with_card (set_Risk (card_Risk c ++
              [{| rb_RiskType := riskType; rb_Tier := tier; rb_Effect := effect |}]) c) p)
    end
  else assignment_line p line.
Proof.
  unfold heads. rewrite !Forall_cons. intros (H1&H2&H3&H4&H5&H6&H7&H8&H9&_).
  unfold body_line, namedBlockRE, named_block, simpleBlockRE. cbn [first_match]. unfold simple_block.
  rewrite !skip_no_prefix by done. cbn [mbind option_bind].
  destruct (String.eqb_spec line "}") as [->|]; [done|]. done.
Qed.

(** A line no block begins with goes to the body. *)
Lemma parse_line_body path p c line :
  solid line → Forall (λ h, has_prefix h line = false) heads →
  ps_card p = Some c → ps_list p = None → parse_line path p line = body_line c p line.
Proof.
  unfold heads. rewrite !Forall_cons. intros Hs (H1&H2&H3&H4&H5&H6&H7&H8&H9&_) Hc Hl.
  unfold parse_line. rewrite trim_space_solid by done. rewrite Hl, Hc, H7, H8, !orb_false_r.
  destruct Hs as (_ & a & m & -> & _). cbn [String.eqb].
  unfold inlineExpectRE, intentStartRE. by rewrite !skip_no_prefix by done.
Qed.

Lemma skip_spaces_graphic c m : graphic c = true → skip_spaces (String c m) = String c m.
Proof.
  intros Hc. cbn [skip_spaces]. unfold graphic in Hc. apply andb_true_iff in Hc as [Hc _].
  apply Z.leb_le in Hc. unfold re_space.
  rewrite !(proj2 (Z.eqb_neq (byte_of c) _)) by lia. done.
Qed.

Lemma field_line path p c key v :
  plain_key key → solid v → ps_card p = Some c → ps_list p = None →
  current (ps_stack p) ≠ "risk_behavior" →
  parse_line path p (field key v) =
  if has_prefix "[" v then
    if contains "]" v
    then c ← assign_list c (current (ps_stack p)) key (quotedStrings v); Ok (with_card c p)
    else Ok (with_list (Some (key, quotedStrings v)) p)
  else
    value ← parseScalar v;
    c ← assign_scalar c (current (ps_stack p)) key value;
    Ok (with_card c p).
Proof.
  intros [Hheads Htake (a & m & Ek & Ha)] Hv Hc Hl Hcur.
  rewrite (parse_line_body path p c); [|split|apply Hheads|done..].
  2:{ unfold field. do 2 apply ends_app. by destruct Hv. }
  2:{ unfold field. rewrite Ek. by eexists _, _. }
  rewrite body_line_fallback by apply Hheads. apply String.eqb_neq in Hcur. rewrite Hcur.
  unfold assignment_line, assignmentRE, field. rewrite Htake.
  assert (empty_str key = false) as -> by by rewrite Ek.
  change (skip_spaces (" = " +:+ v)) with ("= " +:+ v). change (skip "=" ("= " +:+ v)) with (Some (" " +:+ v)).
  cbn [mbind option_bind]. change (empty_str (" " +:+ v)) with false. cbn iota.
  change (skip_spaces (" " +:+ v)) with (skip_spaces v).
  destruct Hv as [Hends (b & w & -> & Hb)]. rewrite skip_spaces_graphic by done.
  rewrite trim_space_solid by (split; [done|by eexists _, _]). by rewrite Hc.
Qed.

Section fields.
Context (path : string) (p : parser) (c : Card) (key : string).
Context (Hkey : plain_key key) (Hc : ps_card p = Some c) (Hl : ps_list p = None).
Context (Hcur : current (ps_stack p) ≠ "risk_behavior").

Lemma field_scalar value c' :
  assign_scalar c (current (ps_stack p)) key value = Ok c' →
  parse_line path p (field key (quote value)) = Ok (with_card c' p).
Proof using Type*.
  intros Ha. rewrite (field_line path p c) by (done || apply solid_quote).
  change (has_prefix "[" (quote value)) with false. cbn iota.
  assert (parseScalar (quote value) = Ok value) as ->; [|by simpl; rewrite Ha].
  unfold parseScalar. change (quote value ==s "true") with false. change (quote value ==s "false") with false.
  change (has_prefix dquote (quote value)) with true. cbn [orb].
  assert (has_prefix (dquote +:+ dquote +:+ dquote) (quote value) = false) as ->; [|apply Unquote_quote].
  destruct value as [|d value]; [done|]. unfold quote. cbn [quote_body].
  destruct (quote_char_head d) as (e & t & -> & He). unfold is_quote in He.
  change (has_prefix _ _) with (Ascii.eqb dq e && has_prefix dquote ((t +:+ quote_body value) +:+ dquote)).
  destruct (Ascii.eqb_spec dq e) as [E|]; [|done]. rewrite <- E in He. vm_compute in He. discriminate He.
Qed.

Lemma field_bool b c' :
  assign_scalar c (current (ps_stack p)) key (bool_text b) = Ok c' →
  parse_line path p (field key (bool_text b)) = Ok (with_card c' p).
Proof using Type*.
  intros Ha. assert (Hs : solid (bool_text b)).
  { destruct b; (split; [|by eexists _, _]); [exists "tru", "e"%char|exists "fals", "e"%char]; done. }
  rewrite (field_line path p c) by done. by destruct b; simpl in *; rewrite Ha.
Qed.

Lemma field_list values c' :
  assign_list c (current (ps_stack p)) key values = Ok c' →
  parse_line path p (field key (list_text values)) = Ok (with_card c' p).
Proof using Type*.
  intros Ha. rewrite (field_line path p c) by (done || apply solid_list).
  change (has_prefix "[" (list_text values)) with true. cbn iota.
  rewrite contains_list, quotedStrings_list. by rewrite Ha.
Qed.
End fields.

(** ** Runs of lines *)

Inductive steps (path : string) : parser → list string → parser → Prop :=
  | steps_nil p : steps path p [] p
  | steps_cons p line p1 lines p2 :
      ends line → parse_line path p line = Ok p1 → steps path p1 lines p2 →
      steps path p (line :: lines) p2.

Lemma steps_app path p l1 p1 l2 p2 :
  steps path p l1 p1 → steps path p1 l2 p2 → steps path p (l1 ++ l2) p2.
Proof. induction 1; simpl; intros; [done|]. econstructor; eauto. Qed.

Lemma parse_lines_steps path n p lines p' :
  steps path p lines p' → Forall (λ line, Z.of_nat (String.length line) < MaxScanTokenSize) lines →
  parse_lines path n p lines = Ok p'.
Proof.
  intros Hs. revert n. induction Hs as [|p line p1 lines p2 He Hp _ IH]; intros n Hl; [done|].
  apply Forall_cons in Hl as [Hlen Hl]. cbn [parse_lines].
  rewrite (proj2 (Z.leb_gt _ _)) by done. rewrite dropCR_ends, Hp by done. cbn. by apply IH.
Qed.

(** A parser inside a card, with no list open. *)
Definition inside (c : Card) (stack : list string) : parser :=
  {| ps_card := Some c; ps_stack := stack; ps_list := None |}.

Section runs.
Context (path : string).
Implicit Types (c : Card) (stack : list string) (name : string).

Lemma steps_items {A} (lines : A → list string) (put : list A → Card) stack l done_ :
  (∀ before x, x ∈ l → steps path (inside (put before) stack) (lines x)
                         (inside (put (before ++ [x])) stack)) →
  steps path (inside (put done_) stack) (flat_map lines l) (inside (put (done_ ++ l)) stack).
Proof.
  revert done_. induction l as [|x l IH]; intros done_ H; cbn [flat_map].
  - rewrite app_nil_r. constructor.
  - eapply steps_app; [apply H; by left|]. replace (done_ ++ x :: l) with ((done_ ++ [x]) ++ l).
    + apply IH. intros. apply H. by right.
    + by rewrite <- app_assoc.
Qed.

(** Keys are plain by evaluation. *)
Local Ltac plain :=
  constructor; [intros rest; unfold heads; repeat constructor|reflexivity|by eexists _, _].

Lemma scalar_step key value c c' stack lines p :
  plain_key key → current stack ≠ "risk_behavior" →
  assign_scalar c (current stack) key value = Ok c' → steps path (inside c' stack) lines p →
  steps path (inside c stack) (field key (quote value) :: lines) p.
Proof.
  intros Hk Hs Ha. apply steps_cons; [do 2 apply ends_app; apply ends_quote|].
  by apply (field_scalar path (inside c stack) c key).
Qed.

Lemma list_step key values c c' stack lines p :
  plain_key key → current stack ≠ "risk_behavior" →
  assign_list c (current stack) key values = Ok c' → steps path (inside c' stack) lines p →
  steps path (inside c stack) (field key (list_text values) :: lines) p.
Proof.
  intros Hk Hs Ha. apply steps_cons; [do 2 apply ends_app; apply solid_list|].
  by apply (field_list path (inside c stack) c key).
Qed.

(** A line that is the same in every card. *)
Lemma fixed_step line c stack p' lines p :
  solid line → parse_line path (inside c stack) line = Ok p' → steps path p' lines p →
  steps path (inside c stack) (line :: lines) p.
Proof. intros [He _] Hp. by apply steps_cons. Qed.

Local Ltac solid_line m c := split; [exists m, c; done|by eexists _, _].

Lemma close_step b c stack lines p :
  steps path (inside c stack) lines p → steps path (inside c (b :: stack)) ("}" :: lines) p.
Proof.
  apply fixed_step; [solid_line "" "}"%char|].
  unfold parse_line. rewrite trim_space_solid by solid_line "" "}"%char. done.
Qed.

Lemma open_step keyword c stack lines p :
  keyword ∈ ["risk_behavior"; "runtime"; "expect"] →
  steps path (inside c (keyword :: stack)) lines p →
  steps path (inside c stack) ((keyword +:+ " {") :: lines) p.
Proof.
  intros Hk. assert (Hs : solid (keyword +:+ " {")).
  { split; [apply ends_app; by exists " ", "{"%char|].
    repeat (apply elem_of_cons in Hk as [->|Hk]; [by eexists _, _|]). by apply elem_of_nil in Hk. }
  apply fixed_step; [done|]. unfold parse_line. rewrite trim_space_solid by done.
  repeat (apply elem_of_cons in Hk as [->|Hk]; [done|]). by apply elem_of_nil in Hk.
Qed.

(** A block with a name. *)
Lemma solid_header keyword name a m :
  keyword = String a m → graphic a = true → solid (header keyword name).
Proof.
  intros -> Hc. split; [|by eexists _, _]. unfold header, in_quotes. do 5 apply ends_app.
  by exists " ", "{"%char.
Qed.

Lemma spaces_quotes name rest :
  some_spaces (" " +:+ in_quotes name rest) = Some (in_quotes name rest).
Proof. done. Qed.

Lemma quoted_in name rest : name_ok name → quoted_name (in_quotes name rest) = Some (name, rest).
Proof. intros (Hne & Hq & _). by apply quoted_name_app. Qed.

Lemma named_block_header keyword name :
  name_ok name → named_block keyword (header keyword name) = Some (keyword, name).
Proof.
  intros Hn. unfold named_block, header. rewrite skip_app. cbn [mbind option_bind].
  rewrite spaces_quotes. cbn [mbind option_bind]. by rewrite quoted_in.
Qed.

Lemma rule_header_step name c stack lines p :
  name_ok name →
  steps path (inside (set_Rules (card_Rules c ++ [{| ru_Name := name; ru_Effect := ""; ru_Subject := "";
    ru_Action := ""; ru_Resource := ""; ru_OnlyWhen := [] |}]) c) ("rule" :: stack)) lines p →
  steps path (inside c stack) (header "rule" name :: lines) p.
Proof.
  intros Hn Hrest. assert (Hs : solid (header "rule" name)) by by eapply solid_header.
  eapply fixed_step; [done| |exact Hrest]. unfold parse_line. rewrite trim_space_solid by done.
  change (body_line c (inside c stack) (header "rule" name) =
    Ok (inside (set_Rules (card_Rules c ++ [{| ru_Name := name; ru_Effect := ""; ru_Subject := "";
      ru_Action := ""; ru_Resource := ""; ru_OnlyWhen := [] |}]) c) ("rule" :: stack))).
  unfold body_line, namedBlockRE. by rewrite named_block_header.
Qed.

Lemma simulation_header_step name c stack lines p :
  name_ok name →
  steps path (inside (set_Simulations (card_Simulations c ++
    [{| si_Name := name; si_Given := []; si_ExpectEffect := "" |}]) c) ("simulation" :: stack)) lines p →
  steps path (inside c stack) (header "simulation" name :: lines) p.
Proof.
  intros Hn Hrest. assert (Hs : solid (header "simulation" name)) by by eapply solid_header.
  eapply fixed_step; [done| |exact Hrest]. unfold parse_line. rewrite trim_space_solid by done.
  change (body_line c (inside c stack) (header "simulation" name) =
    Ok (inside (set_Simulations (card_Simulations c ++
    [{| si_Name := name; si_Given := []; si_ExpectEffect := "" |}]) c) ("simulation" :: stack))).
  unfold body_line, namedBlockRE. rewrite (named_block_header "simulation") by done.
  change (named_block "rule" (header "simulation" name)) with (@None (string * string)). done.
Qed.

Lemma intent_step name lines p :
  name_ok name → steps path (inside (new_card name path) ["intent"]) lines p →
  steps path no_card (header "intent" name :: lines) p.
Proof.
  intros Hn Hrest. assert (Hs : solid (header "intent" name)) by by eapply solid_header.
  eapply steps_cons; [by destruct Hs| |exact Hrest]. unfold parse_line. rewrite trim_space_solid by done.
  assert (intentStartRE (header "intent" name) = Some name) as Hm.
  { unfold intentStartRE, header. rewrite skip_app. cbn [mbind option_bind].
    rewrite spaces_quotes. cbn [mbind option_bind]. by rewrite quoted_in. }
  change (match intentStartRE (header "intent" name) with
    | Some id => Ok (inside (new_card id path) ["intent"])
    | None => Err (Errorf "expected intent block" []) end = Ok (inside (new_card name path) ["intent"])).
  by rewrite Hm.
Qed.

Lemma risk_step b c stack lines p :
  name_ok (rb_RiskType b) → name_ok (rb_Tier b) → name_ok (rb_Effect b) →
  steps path (inside (set_Risk (card_Risk c ++ [b]) c) ("risk_behavior" :: stack)) lines p →
  steps path (inside c ("risk_behavior" :: stack)) (risk_line b :: lines) p.
Proof.
  intros H1 H2 H3 Hrest.
  assert (Hs : solid (risk_line b)).
  { split; [|by eexists _, _]. unfold risk_line, in_quotes. do 11 apply ends_app. by exists "", dq. }
  eapply fixed_step; [done| |exact Hrest].
  rewrite (parse_line_body path (inside c ("risk_behavior" :: stack)) c); [|done| |done..].
  2:{ unfold heads. repeat constructor. }
  rewrite body_line_fallback by (unfold heads; repeat constructor). cbn [current ps_stack inside head default].
  change ("risk_behavior" ==s "risk_behavior") with true. cbn iota.
  assert (riskBehaviorRE (risk_line b) = Some (rb_RiskType b, rb_Tier b, rb_Effect b)) as ->;
    [|by destruct b].
  assert (Hwhen : ∀ s, skip "when" ("when " +:+ s) = Some (" " +:+ s)) by done.
  assert (Hsis : ∀ s, some_spaces (" is " +:+ s) = Some ("is " +:+ s)) by done.
  assert (His : ∀ s, skip "is" ("is " +:+ s) = Some (" " +:+ s)) by done.
  assert (Hsthen : ∀ s, some_spaces (" then " +:+ s) = Some ("then " +:+ s)) by done.
  assert (Hthen : ∀ s, skip "then" ("then " +:+ s) = Some (" " +:+ s)) by done.
  unfold riskBehaviorRE, risk_line.
  repeat (first [rewrite Hwhen|rewrite Hsis|rewrite His|rewrite Hsthen|rewrite Hthen|
    rewrite spaces_quotes|rewrite quoted_in by done]; cbn [mbind option_bind]). done.
Qed.

(** *** The parts of a card *)

Lemma update_last_snoc {A} (f : A → A) l x : update_last f (l ++ [x]) = l ++ [f x].
Proof.
  induction l as [|y l IH]; [done|]. simpl. rewrite IH. by destruct l.
Qed.

Lemma snoc_not_empty {A} (l : list A) x : Nat.eqb (length (l ++ [x])) 0 = false.
Proof. by destruct l. Qed.

Local Ltac fields := repeat first
  [ eapply scalar_step; [plain|done|cbn; rewrite ?snoc_not_empty, ?update_last_snoc; reflexivity|]
  | eapply list_step; [plain|done|cbn; rewrite ?snoc_not_empty, ?update_last_snoc; reflexivity|]
  | eapply close_step ].

Lemma rule_steps c rules r :
  name_ok (ru_Name r) →
  steps path (inside (set_Rules rules c) ["intent"]) (rule_lines r)
    (inside (set_Rules (rules ++ [r]) c) ["intent"]).
Proof.
  intros Hn. apply rule_header_step; [done|]. cbn [card_Rules set_Rules]. fields.
  destruct r. apply steps_nil.
Qed.

Lemma simulation_steps c simulations s :
  name_ok (si_Name s) →
  steps path (inside (set_Simulations simulations c) ["intent"]) (simulation_lines s)
    (inside (set_Simulations (simulations ++ [s]) c) ["intent"]).
Proof.
  intros Hn. apply simulation_header_step; [done|]. cbn [card_Simulations set_Simulations]. fields.
  apply (open_step "expect"); [set_solver|]. fields. destruct s. apply steps_nil.
Qed.

Lemma runtime_steps c r lines p :
  steps path (inside (set_Runtime r c) ["intent"]) lines p →
  steps path (inside c ["intent"]) (runtime_lines r ++ lines) p.
Proof.
  intros Hrest. unfold runtime_lines. cbn [app]. apply (open_step "runtime"); [set_solver|].
  eapply steps_cons; [do 2 apply ends_app; by destruct (rt_Allowed r); [exists "tru", "e"%char|exists "fals", "e"%char]| |].
  { apply (field_bool path _ c); [plain|done..]. }
  fields. destruct r as [[] ???]; exact Hrest.
Qed.

Lemma rules_steps c lines p :
  Forall (λ r, name_ok (ru_Name r)) lines →
  steps path (inside (set_Rules p c) ["intent"]) (flat_map rule_lines lines)
    (inside (set_Rules (p ++ lines) c) ["intent"]).
Proof.
  rewrite Forall_forall. intros H. apply (steps_items rule_lines (λ rules, set_Rules rules c)).
  intros. by apply rule_steps, H.
Qed.

Lemma risks_steps c behaviors stack done_ :
  Forall (λ b, name_ok (rb_RiskType b) ∧ name_ok (rb_Tier b) ∧ name_ok (rb_Effect b)) behaviors →
  steps path (inside (set_Risk done_ c) ("risk_behavior" :: stack)) (risk_line <$> behaviors)
    (inside (set_Risk (done_ ++ behaviors) c) ("risk_behavior" :: stack)).
Proof.
  rewrite Forall_forall. intros H.
  replace (risk_line <$> behaviors) with (flat_map (λ b, [risk_line b]) behaviors)
    by (clear; induction behaviors as [|b l IH]; [done|simpl; by rewrite IH]).
  apply (steps_items (λ b, [risk_line b]) (λ behaviors, set_Risk behaviors c)).
  intros before b Hb. destruct (H b Hb) as (?&?&?). apply risk_step; [done..|]. apply steps_nil.
Qed.

Lemma simulations_steps c simulations done_ :
  Forall (λ s, name_ok (si_Name s)) simulations →
  steps path (inside (set_Simulations done_ c) ["intent"]) (flat_map simulation_lines simulations)
    (inside (set_Simulations (done_ ++ simulations) c) ["intent"]).
Proof.
  rewrite Forall_forall. intros H.
  apply (steps_items simulation_lines (λ simulations, set_Simulations simulations c)).
  intros. by apply simulation_steps, H.
Qed.

Lemma card_steps c :
  writable c →
  steps path no_card (card_lines c) {| ps_card := Some (set_SourcePath path c); ps_stack := []; ps_list := None |}.
Proof.
  intros [Hid Hrules Hrisk Hsim _]. unfold card_lines. cbn [app]. apply intent_step; [done|]. fields.
  match goal with |- steps _ (inside ?c0 _) _ _ =>
    pose proof (rules_steps c0 (card_Rules c) [] Hrules) as H1 end.
  eapply steps_app; [exact H1|]. apply (open_step "risk_behavior"); [set_solver|].
  match goal with |- steps _ (inside ?c0 _) _ _ =>
    pose proof (risks_steps c0 (card_Risk c) ["intent"] [] Hrisk) as H2 end.
  eapply steps_app; [exact H2|]. apply close_step, runtime_steps.
  match goal with |- steps _ (inside ?c0 _) _ _ =>
    pose proof (simulations_steps c0 (card_Simulations c) [] Hsim) as H3 end.
  eapply steps_app; [exact H3|]. apply close_step. destruct c. apply steps_nil.
Qed.
End runs.

(** ** The text of a file *)

Lemma split_lines lines :
  Forall (λ line, no_char newline line = true) lines →
  split_char newline (join "" ((λ line, line +:+ String newline "") <$> lines)) = lines ++ [""].
Proof.
  induction 1 as [|line lines Hl _ IH]; [done|].
  assert (Hj : join "" ((λ line, line +:+ String newline "") <$> line :: lines) =
    line +:+ String newline (join "" ((λ line, line +:+ String newline "") <$> lines))).
  { cbn [fmap list_fmap join]. destruct lines as [|l lines]; [done|].
    cbn [fmap list_fmap]. by rewrite app_str_assoc. }
  rewrite Hj. rewrite split_char_app; [by rewrite IH|].
  clear -Hl. induction line as [|c line IHl]; [done|]. cbn [no_char] in Hl.
  apply andb_true_iff in Hl as [Hc Hl]. apply negb_true_iff in Hc. cbn [has_char]. by rewrite Hc, IHl.
Qed.

Lemma scan_lines_text lines :
  Forall (λ line, no_char newline line = true) lines → scan_lines (join "" ((λ line, line +:+ String newline "") <$> lines)) = lines.
Proof.
  intros H. unfold scan_lines. rewrite split_lines by done. clear H.
  induction lines as [|x lines IH]; [done|]. cbn [app]. destruct lines as [|y lines]; [done|].
  cbn [app drop_last_empty] in IH |- *. by rewrite IH.
Qed.

Lemma no_char_app c a b : no_char c (a +:+ b) = no_char c a && no_char c b.
Proof. induction a as [|d a IH]; [done|]. rewrite app_str_cons. cbn [no_char]. by rewrite IH, andb_assoc. Qed.

Definition one_line (s : string) : Prop := no_char newline s = true.

Lemma one_line_app a b : one_line a → one_line b → one_line (a +:+ b).
Proof. unfold one_line. rewrite no_char_app. by intros -> ->. Qed.

Lemma one_line_quote s : one_line (quote s).
Proof.
  unfold quote. apply one_line_app; [done|]. apply one_line_app; [|done].
  induction s as [|c s IH]; [done|]. cbn [quote_body]. apply one_line_app; [|done].
  destruct c as [[] [] [] [] [] [] [] []]; done.
Qed.

Lemma one_line_list l : one_line (list_text l).
Proof.
  unfold list_text. apply one_line_app; [done|]. apply one_line_app; [|done].
  induction l as [|x l IH]; [done|]. rewrite fmap_cons. cbn [join].
  destruct l as [|y l]; [apply one_line_quote|]. rewrite fmap_cons in IH |- *.
  apply one_line_app; [apply one_line_quote|]. by apply one_line_app.
Qed.

Lemma one_line_field key v : one_line key → one_line v → one_line (field key v).
Proof. intros. unfold field. apply one_line_app; [done|]. by apply one_line_app. Qed.

Lemma one_line_name name rest : name_ok name → one_line rest → one_line (in_quotes name rest).
Proof. intros (_ & _ & H) Hr. unfold in_quotes. repeat (apply one_line_app; [done|]). done. Qed.

Lemma one_line_header keyword name : one_line keyword → name_ok name → one_line (header keyword name).
Proof. intros. apply one_line_app; [done|]. apply one_line_app; [done|]. by apply one_line_name. Qed.

Lemma one_line_bool b : one_line (bool_text b).
Proof. by destruct b. Qed.

#[local] Hint Resolve one_line_quote one_line_list one_line_field one_line_name one_line_header
  one_line_app one_line_bool : intent.
#[local] Hint Extern 0 (one_line (String _ _)) => reflexivity : intent.

Lemma card_lines_one_line c : writable c → Forall one_line (card_lines c).
Proof.
  intros [Hid Hrules Hrisk Hsim _]. unfold card_lines, runtime_lines. rewrite !Forall_app.
  split_and!.
  - repeat constructor; auto with intent.
  - rewrite Forall_flat_map. eapply Forall_impl; [exact Hrules|]. intros r Hr. unfold rule_lines.
    repeat constructor; auto with intent.
  - by repeat constructor.
  - apply Forall_fmap. eapply Forall_impl; [exact Hrisk|]. intros b (?&?&?). simpl. unfold risk_line.
    apply one_line_app; [done|]. repeat (apply one_line_name; [done|]; try (apply one_line_app; [done|])).
    done.
  - by repeat constructor.
  - repeat constructor; auto with intent.
  - rewrite Forall_flat_map. eapply Forall_impl; [exact Hsim|]. intros s Hs. unfold simulation_lines.
    repeat constructor; auto with intent.
  - by repeat constructor.
Qed.

(** C28. A card that is written to a file is read back as it was, from any path: names
    are not empty and hold no quote and no newline, every other string is arbitrary
    bytes, and no line reaches the limit of the scanner. *)
Theorem ParseFile_print_card `{Files} path c :
  writable c → os_ReadFile path = Ok (print_card c) → ParseFile path = Ok (set_SourcePath path c).
Proof.
  intros Hc Hread. unfold ParseFile. rewrite Hread. cbn [mbind result_bind]. unfold print_card.
  rewrite scan_lines_text by by apply card_lines_one_line.
  rewrite (parse_lines_steps path 0 no_card _ _ (card_steps path c Hc)) by apply Hc. done.
Qed.

(** ** What the parser lets through *)

(** An [expect] on the first line assigns to a card that is not there. *)
Lemma expect_before_intent path n rest :
  parse_lines path n no_card (("expect { effect = " +:+ quote "allow" +:+ " }") :: rest) =
  Err nil_card_panic.
Proof. reflexivity. Qed.

(** After the card is closed, an assignment of an open list hides the rest of the file. *)
Lemma open_list_after_card path c n lines :
  Forall (λ line, Z.of_nat (String.length line) < MaxScanTokenSize ∧
                  contains "]" (trim_space (dropCR line)) = false) lines →
  ∃ p, parse_lines path n {| ps_card := Some c; ps_stack := []; ps_list := None |} ("x = [" :: lines) = Ok p ∧
    finish path p = Ok c.
Proof.
  intros H. assert (Hopen : ∀ values n, ∃ p, parse_lines path n
      {| ps_card := Some c; ps_stack := []; ps_list := Some ("x", values) |} lines = Ok p ∧
    finish path p = Ok c).
  { induction H as [|line lines [Hlen Hb] _ IH]; intros values m; cbn [parse_lines]; [by eexists|].
    rewrite (proj2 (Z.leb_gt _ _)) by done. unfold parse_line at 1. cbn [ps_list].
    destruct (_ || _ || _); cbn [parseError mbind result_bind]; [apply IH|].
    unfold list_line. rewrite Hb. cbn [parseError mbind result_bind]. apply IH. }
  destruct (Hopen [] (S n)) as (p & Hp & Hf). exists p. split; [|done]. exact Hp.
Qed.
