(* ===== verification/Artifacts.v ===== *)
(** * Artifacts ([internal/core/artifact], [bundle], [context], [conformance])

    The artifacts Forge signs and a KLIQ activates: their records, and the JSON
    decoders ([json.Unmarshal] into a Go struct), which are parameters. *)

From stdpp Require Import options.
From S2P Require Import Prelude GoStrings GoTime Risk Signing Domain.
#[local] Open Scope Z_scope.

Record ArtifactMetadata := {
  art_ID : string;
  art_PolicyID : string;
  art_ArtifactType : string;
  art_KNI : string;
  art_SourcePath : string;
  art_SourceCommit : string;
  art_CorrelationID : string;
  art_CreatedAt : time;
  art_Digests : list (string * string);
}.

Record ArtifactStatus := {
  st_Status : string;
  st_Phase : string;
  st_Message : string;
}.

(** ** Runtime bundles *)

Record RuntimeAction := {
  ra_Label : string;
  ra_CanonicalID : string;
}.

Record RateLimitParameters := {
  rl_RatePPS : Z;
  rl_Burst : Z;
}.

Record CapabilityGrant := {
  cg_ID : string;
  cg_BindingID : string;
  cg_BindingDigest : string;
  cg_AdapterID : string;
  cg_AdapterManifestDigest : string;
  cg_CapabilityID : string;
  cg_ActionType : string;
  cg_ActionDigest : string;
  cg_AllowedTargetScopes : list string;
  cg_MaxTTL : string;
  cg_Stage : string;
  cg_Environment : string;
  cg_Owner : string;
  cg_ApprovalRef : string;
  cg_ExpiresAt : string;
  cg_RateLimit : option RateLimitParameters;
}.

Record RuntimeBundleSpec := {
  rbs_PolicyID : string;
  rbs_RuntimeAllowed : bool;
  rbs_RuntimeActions : list RuntimeAction;
  rbs_CapabilityGrants : list CapabilityGrant;
  rbs_RiskRecipe : string;
  rbs_RiskBehavior : list PolicyRiskBehavior;
  rbs_MaxTTL : string;
  rbs_MaxTTLSource : string;
  rbs_MaxScope : string;
  rbs_MaxScopeSource : string;
}.

Record RuntimeBundle := {
  rb_Kind : string;
  rb_Metadata : ArtifactMetadata;
  rb_Spec : RuntimeBundleSpec;
  rb_Status : ArtifactStatus;
}.

(** ** Context route packs *)

Record ContextRoute := {
  cr_Name : string;
  cr_Consumers : list string;
  cr_Facts : list string;
  cr_Sensitivity : string;
}.

Record ContextRoutePackSpec := {
  crs_PolicyID : string;
  crs_Target : string;
  crs_Stage : string;
  crs_Routes : list ContextRoute;
}.

Record ContextRoutePack := {
  crp_Kind : string;
  crp_Metadata : ArtifactMetadata;
  crp_Spec : ContextRoutePackSpec;
  crp_Status : ArtifactStatus;
}.

(** ** Conformance expectations *)

Record Expectation := {
  ex_Name : string;
  ex_Description : string;
}.

Record ProhibitedOutcome := {
  po_Label : string;
  po_CanonicalID : string;
}.

Record ConformanceExpectationSpec := {
  ces_PolicyID : string;
  ces_Target : string;
  ces_Stage : string;
  ces_Expectations : list Expectation;
  ces_Prohibit : list ProhibitedOutcome;
}.

Record ConformanceExpectation := {
  ce_Kind : string;
  ce_Metadata : ArtifactMetadata;
  ce_Spec : ConformanceExpectationSpec;
  ce_Status : ArtifactStatus;
}.

(** ** Headers decoded by validators *)

(** The anonymous struct of [validateAssignedArtifactPayloadType]. *)
Record PayloadHeader := {
  ph_Kind : string;
  ph_ArtifactType : string;
}.

(** The anonymous struct of [validateAdapterManifestArtifact]. *)
Record ManifestCapability := {
  mc_CapabilityID : string;
  mc_ImplementationStatus : string;
}.

Record AdapterManifestHeader := {
  mh_Kind : string;
  mh_ID : string;
  mh_ArtifactType : string;
  mh_AdapterID : string;
  mh_AdapterVersion : string;
  mh_ProtocolVersion : string;
  mh_Status : string;
  mh_Digest : string;
  mh_Capabilities : list ManifestCapability;
}.

(** [json.Unmarshal(data, &v)] for each type of [v]: the value or the error.
    The two decoders that read a stream ([json.NewDecoder(r).Decode(&v)]: an
    HTTP body, the payload of an assignment) take the first value of it. *)
Class JSONDecoders := {
  decode_stream_SignedEnvelope : string → result SignedEnvelope;
  decode_stream_KLIQAssignment : string → result KLIQAssignment;
  decode_SignedEnvelope : string → result SignedEnvelope;
  decode_TrustBundle : string → result TrustBundle;
  decode_RuntimeBundle : string → result RuntimeBundle;
  decode_ContextRoutePack : string → result ContextRoutePack;
  decode_ConformanceExpectation : string → result ConformanceExpectation;
  decode_AdapterAssignment : string → result AdapterAssignment;
  decode_AdapterManifestHeader : string → result AdapterManifestHeader;
  decode_ManagementProfile : string → result KLIQManagementProfile;
  decode_FallbackProfile : string → result KLIQFallbackProfile;
  decode_PayloadHeader : string → result PayloadHeader;
}.
