(* ===== verification/BundleSource.v ===== *)
(** * Bundles and assignments a KLIQ receives ([internal/kliq/bundle])

    [verifier.go]: a signed runtime bundle is accepted only when its envelope
    verifies, expires and agrees with its payload.  [managed_source.go]: the
    assignment a KLIQ polls from Forge, verified together with every artifact
    it carries before it is offered for activation.

    The world [W] is what the verifiers and the HTTP client act on; the HTTP
    exchange and the key decoders are parameters. *)

From stdpp Require Import options.
From S2P Require Import Prelude GoStrings GoTime IO Signing Domain Artifacts.
#[local] Open Scope Z_scope.

(** [signing.Verifier] *)
Definition Verifier (W : Type) : Type := SignedEnvelope → io W VerificationResult.

(** [*DevLocalSigner] as a verifier: the clock is read for [VerifiedAt], and
    again for the expiry test. *)
Definition dev_verifier {W} {E : Ed25519} (clock : io W time) (s : DevLocalSigner) : Verifier W :=
  λ envelope,
    now ← clock;
    now' ← match env_ExpiresAt envelope with Some _ => clock | None => mret now end;
    mret (Verify s now now' envelope).

Record RuntimeBundleVerification := {
  rbv_Bundle : RuntimeBundle;
  rbv_Envelope : SignedEnvelope;
  rbv_Result : VerificationResult;
}.

(** The response of the assignment API, the body read as a string. *)
Record HTTPResponse := {
  resp_StatusCode : Z;
  resp_Status : string;
  resp_Body : string;
}.

(** What [encoding/pem], [crypto/x509] and [encoding/base64] say of a key:
    [pem_public_key] is [None] when there is no PEM block, an error when its
    bytes are not a PKIX key, [Ok None] when the key is not an Ed25519 key. *)
Class KeyDecoders := {
  pem_public_key : string → option (result (option string));
  base64_std : string → option string;
  base64_raw_std : string → option string;
}.

Section bundles.
Context {GR : GoRuntime} {ED : Ed25519} {JD : JSONDecoders} {KD : KeyDecoders} {W : Type}.
Context (time_Now : io W time).
(** [client.Do] on a GET request with the bearer token, and the body. *)
Context (http_get : string → string → io W HTTPResponse).

Definition VerifySignedRuntimeBundle (data : string) (verifier : option (Verifier W))
    : io W RuntimeBundleVerification :=
  match verifier with
  | None => fail (Errorf "runtime bundle verifier is required" [])
  | Some verify =>
    envelope ← lift (decode_SignedEnvelope data);
    deny env_Kind envelope !=s "SignedEnvelope"
      with Errorf "runtime bundle must be a signed envelope" [];;
    result ← verify envelope;
    deny negb (vr_Valid result)
      with Errorf "runtime bundle signature invalid: %s" [AStr (error_text (vr_Error result))];;
    deny bool_decide (env_ExpiresAt envelope = None)
      with Errorf "runtime bundle signed envelope requires expires_at" [];;
    runtimeBundle ← lift (decode_RuntimeBundle (env_Payload envelope));
    let metadata := rb_Metadata runtimeBundle in
    deny rb_Kind runtimeBundle !=s "RuntimeBundle"
      with Errorf "signed payload is %q, expected RuntimeBundle" [AStr (rb_Kind runtimeBundle)];;
    deny art_ArtifactType metadata !=s "runtime_bundle"
      with Errorf "signed payload artifact_type is %q, expected runtime_bundle"
             [AStr (art_ArtifactType metadata)];;
    deny (env_PolicyID envelope !=s "") && (art_PolicyID metadata !=s "") &&
         (env_PolicyID envelope !=s art_PolicyID metadata)
      with Errorf "signed envelope policy_id %q does not match runtime bundle policy_id %q"
             [AStr (env_PolicyID envelope); AStr (art_PolicyID metadata)];;
    deny (env_SourceCommit envelope !=s "") && (art_SourceCommit metadata !=s "") &&
         (env_SourceCommit envelope !=s art_SourceCommit metadata)
      with Errorf "signed envelope source_commit %q does not match runtime bundle source_commit %q"
             [AStr (env_SourceCommit envelope); AStr (art_SourceCommit metadata)];;
    mret {| rbv_Bundle := runtimeBundle; rbv_Envelope := envelope; rbv_Result := result |}
  end.

(** ** [managed_source.go] *)

Record ManagedAssignmentSource := {
  mas_BaseURL : string;
  mas_BearerToken : string;
  mas_KLIQID : string;
  mas_Environment : string;
  mas_Stage : string;
  mas_Scope : string;
  mas_TrustKeyID : string;
  mas_TrustBundle : TrustBundle;
  mas_ActiveAssignmentVersion : Z;
  mas_ActiveAssignmentDigest : string;
  mas_Verifier : option (Verifier W);
  mas_assignment : KLIQAssignment;
  mas_assignmentDigest : string;
}.

Record ManagedAssignmentActivation := {
  maa_KLIQID : string;
  maa_AssignmentID : string;
  maa_AssignmentVersion : Z;
  maa_SourceCommit : string;
  maa_AssignmentDigest : string;
  maa_ExpiresAt : time;
}.

Definition AssignmentArtifacts_of (s : ManagedAssignmentSource) : list KLIQAssignedArtifact :=
  asg_Artifacts (mas_assignment s).

Definition SetActiveAssignment (s : ManagedAssignmentSource) (version : Z) (digest : string)
    : ManagedAssignmentSource := {|
  mas_BaseURL := mas_BaseURL s;
  mas_BearerToken := mas_BearerToken s;
  mas_KLIQID := mas_KLIQID s;
  mas_Environment := mas_Environment s;
  mas_Stage := mas_Stage s;
  mas_Scope := mas_Scope s;
  mas_TrustKeyID := mas_TrustKeyID s;
  mas_TrustBundle := mas_TrustBundle s;
  mas_ActiveAssignmentVersion := version;
  mas_ActiveAssignmentDigest := digest;
  mas_Verifier := mas_Verifier s;
  mas_assignment := mas_assignment s;
  mas_assignmentDigest := mas_assignmentDigest s;
|}.

Definition AssignmentActivation (s : ManagedAssignmentSource)
    : option ManagedAssignmentActivation :=
  let a := mas_assignment s in
  if empty_str (asg_AssignmentID a) || empty_str (mas_assignmentDigest s) then None else
  Some {|
    maa_KLIQID := asg_KLIQID a;
    maa_AssignmentID := asg_AssignmentID a;
    maa_AssignmentVersion := asg_AssignmentVersion a;
    maa_SourceCommit := asg_SourceCommit a;
    maa_AssignmentDigest := mas_assignmentDigest s;
    maa_ExpiresAt := asg_ExpiresAt a |}.

Definition expectedArtifactKind (artifactType : string) : string :=
  if artifactType ==s "runtime_bundle" then "RuntimeBundle"
  else if artifactType ==s "adapter_manifest" then "AdapterManifest"
  else if artifactType ==s "context_route_pack" then "ContextRoutePack"
  else if artifactType ==s "conformance_expectation" then "ConformanceExpectation"
  else if artifactType ==s "adapter_assignment" then "AdapterAssignment"
  else "".

Definition validateAssignedArtifactPayloadType (artifactType payload : string) : result unit :=
  header ← decode_PayloadHeader payload;
  let expectedKind := expectedArtifactKind artifactType in
  reject (expectedKind !=s "") && (ph_Kind header !=s expectedKind)
    with Errorf "kind %q does not match artifact type %q"
           [AStr (ph_Kind header); AStr artifactType];;
  reject (ph_ArtifactType header !=s "") && (ph_ArtifactType header !=s artifactType)
    with Errorf "metadata artifact_type %q does not match %q"
           [AStr (ph_ArtifactType header); AStr artifactType];;
  Ok tt.

Definition decodeTrustBundlePublicKey (value : string) : result string :=
  let value := trim_space value in
  match pem_public_key value with
  | Some (Err e) => Err e
  | Some (Ok None) => Err (Errorf "trust bundle public key is not Ed25519" [])
  | Some (Ok (Some key)) => Ok key
  | None =>
    match (match base64_std value with Some d => Some d | None => base64_raw_std value end) with
    | None => Err (Errorf "trust bundle public_key must be PEM or base64 Ed25519 key" [])
    | Some decoded =>
      reject negb (Nat.eqb (String.length decoded) 32)
        with Errorf "trust bundle public_key has invalid Ed25519 length" [];;
      Ok decoded
    end
  end.

(** The verifier's clock is pinned to the time the assignment was verified. *)
Definition artifactVerifierFromTrustBundle (bundle : TrustBundle) (verifiedAt : time)
    : result (Verifier W) :=
  reject empty_str (tb_KeyID bundle) || empty_str (tb_PublicKey bundle)
    with Errorf "trust bundle requires key_id and public_key" [];;
  reject tb_Purpose bundle !=s "artifact_verification"
    with Errorf "trust bundle %q has purpose %q, expected artifact_verification"
           [AStr (tb_KeyID bundle); AStr (tb_Purpose bundle)];;
  reject (tb_Status bundle !=s "active") && (tb_Status bundle !=s "previous")
    with Errorf "trust bundle %q is %q" [AStr (tb_KeyID bundle); AStr (tb_Status bundle)];;
  reject negb (IsZero (tb_ExpiresAt bundle)) && negb (After (tb_ExpiresAt bundle) verifiedAt)
    with Errorf "trust bundle %q is expired" [AStr (tb_KeyID bundle)];;
  publicKey ← decodeTrustBundlePublicKey (tb_PublicKey bundle);
  verifier ← NewEd25519Verifier (tb_KeyID bundle) publicKey;
  Ok (dev_verifier (mret verifiedAt) verifier).

Definition verifyAssignedArtifactEnvelope (assignment : KLIQAssignment)
    (artifact : KLIQAssignedArtifact) (verifier : Verifier W)
    : io W (SignedEnvelope * VerificationResult) :=
  let aid := AStr (asg_AssignmentID assignment) in
  let id := AStr (aa_ArtifactID artifact) in
  deny negb (SupportedAssignmentArtifactType (aa_ArtifactType artifact))
    with Errorf "assignment %q contains unsupported artifact type %q"
           [aid; AStr (aa_ArtifactType artifact)];;
  envelope ← lift (wrap_err "assignment %q artifact %q is not a signed envelope: %w" [aid; id]
                     (decode_SignedEnvelope (aa_Envelope artifact)));
  deny env_Kind envelope !=s "SignedEnvelope"
    with Errorf "assignment %q artifact %q is not a signed envelope" [aid; id];;
  result ← verifier envelope;
  deny negb (vr_Valid result)
    with Errorf "assignment %q artifact %q signature invalid: %s"
           [aid; id; AStr (error_text (vr_Error result))];;
  deny (env_SourceCommit envelope !=s "") && (asg_SourceCommit assignment !=s "") &&
       (env_SourceCommit envelope !=s asg_SourceCommit assignment)
    with Errorf "assignment %q artifact %q source_commit mismatch" [aid; id];;
  _ ← lift (wrap_err "assignment %q artifact %q invalid payload: %w" [aid; id]
              (validateAssignedArtifactPayloadType (aa_ArtifactType artifact)
                 (env_Payload envelope)));
  mret (envelope, result).

(** The first loop finds the artifact-verification key; the accumulator is
    [artifactVerifier] and [artifactTrustKeyID]. *)
Definition trustBundleStep (assignment : KLIQAssignment) (verifier : Verifier W)
    (acc : Verifier W * string) (artifact : KLIQAssignedArtifact) : io W (Verifier W * string) :=
  let aid := AStr (asg_AssignmentID assignment) in
  let id := AStr (aa_ArtifactID artifact) in
  if aa_ArtifactType artifact !=s "trust_bundle" then mret acc else
  '(envelope, result) ← verifyAssignedArtifactEnvelope assignment artifact verifier;
  bundle ← lift (wrap_err "assignment %q artifact %q invalid trust bundle payload: %w" [aid; id]
                   (decode_TrustBundle (env_Payload envelope)));
  if tb_Purpose bundle !=s "artifact_verification" then mret acc else
  deny acc.2 !=s ""
    with Errorf "assignment %q contains more than one artifact_verification trust bundle" [aid];;
  v ← lift (wrap_err
         "assignment %q artifact %q invalid artifact verification trust bundle: %w" [aid; id]
         (artifactVerifierFromTrustBundle bundle (vr_VerifiedAt result)));
  mret (v, tb_KeyID bundle).

Definition artifactStep (assignment : KLIQAssignment) (artifactVerifier : Verifier W)
    (artifactTrustKeyID : string) (_ : unit) (artifact : KLIQAssignedArtifact) : io W unit :=
  if aa_ArtifactType artifact ==s "trust_bundle" then mret tt else
  r ← attempt (verifyAssignedArtifactEnvelope assignment artifact artifactVerifier);
  match r with
  | Ok _ => mret tt
  | Err e =>
    if artifactTrustKeyID !=s ""
    then fail (Wrapf "%w; expected artifact_verification key %q" [AStr artifactTrustKeyID] e)
    else fail e
  end.

Definition verifyAssignedArtifacts (verifier : Verifier W) (assignment : KLIQAssignment)
    : io W unit :=
  '(artifactVerifier, artifactTrustKeyID) ←
    io_fold (trustBundleStep assignment verifier) (verifier, "") (asg_Artifacts assignment);
  io_fold (artifactStep assignment artifactVerifier artifactTrustKeyID) tt
    (asg_Artifacts assignment).

Definition validateTrustBundle (s : ManagedAssignmentSource) (assignment : KLIQAssignment)
    (vresult : VerificationResult) : result unit :=
  let tb := mas_TrustBundle s in
  if empty_str (tb_KeyID tb) then Ok tt else
  reject tb_KeyID tb !=s asg_TrustBundleRef assignment
    with Errorf "assignment trust bundle %q does not match local trust bundle %q"
           [AStr (asg_TrustBundleRef assignment); AStr (tb_KeyID tb)];;
  reject tb_KeyID tb !=s vr_KeyID vresult
    with Errorf "assignment signing key %q does not match trust bundle key %q"
           [AStr (vr_KeyID vresult); AStr (tb_KeyID tb)];;
  reject tb_Purpose tb !=s "assignment_verification"
    with Errorf "trust bundle %q has purpose %q, expected assignment_verification"
           [AStr (tb_KeyID tb); AStr (tb_Purpose tb)];;
  reject tb_Status tb !=s "active"
    with Errorf "trust bundle %q is %q" [AStr (tb_KeyID tb); AStr (tb_Status tb)];;
  reject negb (IsZero (tb_ExpiresAt tb)) && negb (After (tb_ExpiresAt tb) (vr_VerifiedAt vresult))
    with Errorf "trust bundle %q is expired" [AStr (tb_KeyID tb)];;
  Ok tt.

(** [s] and the envelope give the assignment and its verified digest. *)
Definition verifyAssignment (s : ManagedAssignmentSource) (verifier : Verifier W)
    (envelope : SignedEnvelope) : io W KLIQAssignment :=
  result ← verifier envelope;
  deny negb (vr_Valid result)
    with Errorf "assignment signature invalid: %s" [AStr (error_text (vr_Error result))];;
  assignment ← lift (decode_stream_KLIQAssignment (env_Payload envelope));
  deny (asg_TrustKeyID assignment !=s "") && (asg_TrustKeyID assignment !=s vr_KeyID result)
    with Errorf "assignment trust key %q does not match envelope key %q"
           [AStr (asg_TrustKeyID assignment); AStr (vr_KeyID result)];;
  _ ← lift (validateTrustBundle s assignment result);
  let assignment := with_SignatureValid assignment in
  _ ← lift (ValidateAssignedArtifactDigests assignment);
  _ ← verifyAssignedArtifacts verifier assignment;
  wall ← if IsZero (vr_VerifiedAt result) then time_Now else mret 0;
  _ ← lift (ValidateKLIQAssignmentActivation wall assignment {|
    ctx_KLIQID := mas_KLIQID s;
    ctx_Environment := mas_Environment s;
    ctx_Stage := mas_Stage s;
    ctx_Scope := mas_Scope s;
    ctx_TrustKeyID := mas_TrustKeyID s;
    ctx_AssignmentDigest := vr_PayloadSHA256 result;
    ctx_Now := vr_VerifiedAt result;
    ctx_ActiveAssignmentVersion := mas_ActiveAssignmentVersion s;
    ctx_ActiveAssignmentDigest := mas_ActiveAssignmentDigest s |});
  mret assignment.

Definition set_assignment (assignment : KLIQAssignment) (digest : string)
    (s : ManagedAssignmentSource) : ManagedAssignmentSource := {|
  mas_BaseURL := mas_BaseURL s;
  mas_BearerToken := mas_BearerToken s;
  mas_KLIQID := mas_KLIQID s;
  mas_Environment := mas_Environment s;
  mas_Stage := mas_Stage s;
  mas_Scope := mas_Scope s;
  mas_TrustKeyID := mas_TrustKeyID s;
  mas_TrustBundle := mas_TrustBundle s;
  mas_ActiveAssignmentVersion := mas_ActiveAssignmentVersion s;
  mas_ActiveAssignmentDigest := mas_ActiveAssignmentDigest s;
  mas_Verifier := mas_Verifier s;
  mas_assignment := assignment;
  mas_assignmentDigest := digest;
|}.

Definition on_world {A} (m : io W A) : io (ManagedAssignmentSource * W) A :=
  zoom snd (λ w s, (s.1, w)) m.

(** [Load] changes the source it is called on (a pointer receiver). *)
Definition Load : io (ManagedAssignmentSource * W) (string * string) :=
  s ← gets fst;
  deny blank (mas_BaseURL s) with Errorf "managed assignment source requires base url" [];;
  deny blank (mas_KLIQID s) with Errorf "managed assignment source requires kliq id" [];;
  match mas_Verifier s with
  | None => fail (Errorf "managed assignment source requires verifier" [])
  | Some verifier =>
    let url := trim_right_char (Ascii.ascii_of_nat 47) (mas_BaseURL s) +:+ "/v1/kliq/assignments/"
               +:+ mas_KLIQID s +:+ "/latest" in
    resp ← on_world (http_get url (mas_BearerToken s));
    deny (resp_StatusCode resp <? 200) || (300 <=? resp_StatusCode resp)
      with Errorf "assignment api returned %s: %s"
             [AStr (resp_Status resp);
              AStr (trim_space (take_string 1024 (resp_Body resp)))];;
    envelope ← lift (decode_stream_SignedEnvelope (resp_Body resp));
    assignment ← on_world (verifyAssignment s verifier envelope);
    _ ← modify (prod_map (set_assignment assignment (env_PayloadSHA256 envelope)) id);
    match RuntimeBundleArtifact assignment with
    | None => fail (Errorf "assignment %q does not include runtime_bundle artifact"
                      [AStr (asg_AssignmentID assignment)])
    | Some artifact =>
      mret (aa_Envelope artifact, url +:+ "#" +:+ asg_AssignmentID assignment)
    end
  end.
End bundles.

Arguments ManagedAssignmentSource W : clear implicits.

(** ** What acceptance means *)
Section acceptance.
Context {GR : GoRuntime} {ED : Ed25519} {JD : JSONDecoders} {KD : KeyDecoders} {W : Type}.
Context (time_Now : io W time) (http_get : string → string → io W HTTPResponse).
Implicit Types (verifier : Verifier W) (a : KLIQAssignment).

(** A run of [verifier] found the artifact's envelope valid and its payload
    of the type the assignment announces. *)
Definition artifact_checked verifier a (artifact : KLIQAssignedArtifact)
    (envelope : SignedEnvelope) (vresult : VerificationResult) : Prop :=
  SupportedAssignmentArtifactType (aa_ArtifactType artifact) = true ∧
  decode_SignedEnvelope (aa_Envelope artifact) = Ok envelope ∧
  (∃ w w', verifier envelope w = (Ok vresult, w')) ∧ vr_Valid vresult = true ∧
  validateAssignedArtifactPayloadType (aa_ArtifactType artifact) (env_Payload envelope) = Ok tt.

(** A key the assignment delegates artifact verification to: it comes in a
    trust bundle that [verifier] checked, meant for that purpose, active or
    previous, and not expired when it was verified. *)
Definition delegated verifier a (v : Verifier W) : Prop :=
  ∃ artifact envelope vresult bundle,
    artifact ∈ asg_Artifacts a ∧ aa_ArtifactType artifact = "trust_bundle" ∧
    artifact_checked verifier a artifact envelope vresult ∧
    decode_TrustBundle (env_Payload envelope) = Ok bundle ∧
    tb_Purpose bundle = "artifact_verification" ∧
    artifactVerifierFromTrustBundle bundle (vr_VerifiedAt vresult) = Ok v.

Lemma verifyAssignedArtifactEnvelope_Ok verifier a artifact w r w' :
  verifyAssignedArtifactEnvelope a artifact verifier w = (Ok r, w') →
  artifact_checked verifier a artifact r.1 r.2.
Proof.
  unfold verifyAssignedArtifactEnvelope, artifact_checked. intros H. run_all. str_eqs.
  apply wrap_err_Ok in Hr, Hr1. destruct a2. simpl. eauto 10.
Qed.

Lemma trustBundleStep_Ok verifier a acc artifact w acc' w' :
  artifact ∈ asg_Artifacts a →
  (acc.1 = verifier ∨ delegated verifier a acc.1) →
  trustBundleStep a verifier acc artifact w = (Ok acc', w') →
  (acc'.1 = verifier ∨ delegated verifier a acc'.1) ∧
  (aa_ArtifactType artifact = "trust_bundle" →
   ∃ envelope vresult, artifact_checked verifier a artifact envelope vresult).
Proof.
  unfold trustBundleStep. intros Hin Hacc H.
  destruct (aa_ArtifactType artifact !=s "trust_bundle") eqn:Ht.
  { run_all. str_eqs. done. }
  apply io_bind_Ok in H as ([envelope vresult] & w1 & Hc & H).
  apply verifyAssignedArtifactEnvelope_Ok in Hc. simpl in Hc, H.
  apply io_bind_Ok in H as (bundle & w2 & Hb & H). run_all. apply wrap_err_Ok in Hb.
  split; [|by eauto].
  destruct (tb_Purpose bundle !=s "artifact_verification") eqn:Hp; run_all; [done|].
  right. match goal with H : wrap_err _ _ _ = Ok _ |- _ => apply wrap_err_Ok in H end.
  simpl. str_eqs. unfold delegated. eauto 12.
Qed.

(** Every trust bundle was checked with the assignment's own key, every other
    artifact with that key or with the one it delegates to. *)
Definition artifacts_checked verifier a : Prop :=
  ∃ v, (v = verifier ∨ delegated verifier a v) ∧
    ∀ artifact, artifact ∈ asg_Artifacts a → ∃ envelope vresult,
      artifact_checked (if aa_ArtifactType artifact ==s "trust_bundle" then verifier else v)
        a artifact envelope vresult.

Lemma verifyAssignedArtifacts_Ok verifier a w u w' :
  verifyAssignedArtifacts verifier a w = (Ok u, w') → artifacts_checked verifier a.
Proof.
  unfold verifyAssignedArtifacts. intros H.
  apply io_bind_Ok in H as ([v key] & w1 & H1 & H2).
  eapply (io_fold_Ok _ (λ acc seen,
    (acc.1 = verifier ∨ delegated verifier a acc.1) ∧
    ∀ x, x ∈ seen → aa_ArtifactType x = "trust_bundle" →
      ∃ envelope vresult, artifact_checked verifier a x envelope vresult)) in H1
    as [Hv Htb].
  - exists v. split; [done|].
    refine (io_fold_Ok _ (λ _ seen, ∀ x, x ∈ seen →
      ∃ envelope vresult, artifact_checked
        (if aa_ArtifactType x ==s "trust_bundle" then verifier else v) a x envelope vresult)
      _ _ _ _ _ H2 _ _); [set_solver|].
    intros u0 x seen s u1 s' Hseen Hx Hrun y [Hy| ->%list_elem_of_singleton]%elem_of_app;
      [by apply Hseen|].
    unfold artifactStep in Hrun. destruct (_ ==s _) eqn:Ht; str_eqs; [by apply Htb|].
    apply io_bind_Ok in Hrun as (r & s1 & Hr & Hrun). apply attempt_run in Hr.
    destruct r as [r|e]; [|destruct (_ !=s _); by run_all].
    apply verifyAssignedArtifactEnvelope_Ok in Hr. eauto.
  - split; [by left|set_solver].
  - intros acc x seen s acc' s' [Hacc Hseen] Hx Hrun.
    apply trustBundleStep_Ok in Hrun as [? ?]; [|done..]. split; [done|].
    intros y [Hy| ->%list_elem_of_singleton]%elem_of_app; auto.
Qed.

(** The context an assignment is judged in: the KLIQ's own identity, the
    active assignment, and what the verifier said of the envelope. *)
Definition activation_context (s : ManagedAssignmentSource W) (vresult : VerificationResult)
    : KLIQAssignmentActivationContext := {|
  ctx_KLIQID := mas_KLIQID s;
  ctx_Environment := mas_Environment s;
  ctx_Stage := mas_Stage s;
  ctx_Scope := mas_Scope s;
  ctx_TrustKeyID := mas_TrustKeyID s;
  ctx_AssignmentDigest := vr_PayloadSHA256 vresult;
  ctx_Now := vr_VerifiedAt vresult;
  ctx_ActiveAssignmentVersion := mas_ActiveAssignmentVersion s;
  ctx_ActiveAssignmentDigest := mas_ActiveAssignmentDigest s |}.

(** The pinned trust bundle, when there is one, is the key that signed. *)
Definition trust_bundle_matches (tb : TrustBundle) a (vresult : VerificationResult) : Prop :=
  tb_KeyID tb = "" ∨
  tb_KeyID tb = asg_TrustBundleRef a ∧ tb_KeyID tb = vr_KeyID vresult ∧
  tb_Purpose tb = "assignment_verification" ∧ tb_Status tb = "active" ∧
  (tb_ExpiresAt tb = 0 ∨ vr_VerifiedAt vresult < tb_ExpiresAt tb).

Lemma validateTrustBundle_Ok (s : ManagedAssignmentSource W) a vresult :
  validateTrustBundle s a vresult = Ok tt → trust_bundle_matches (mas_TrustBundle s) a vresult.
Proof.
  unfold validateTrustBundle, trust_bundle_matches, IsZero, After. intros H.
  destruct (String.eqb_spec (tb_KeyID (mas_TrustBundle s)) ""); [by left|right].
  passes H. str_eqs. split_and!; try done.
  match goal with H : negb _ && negb _ = false |- _ => apply andb_false_iff in H end.
  rewrite !negb_false_iff, Z.eqb_eq, Z.ltb_lt in *. done.
Qed.

(** The assignment a KLIQ may activate: one its verifier vouches for. *)
Definition assignment_verified (s : ManagedAssignmentSource W) verifier
    (envelope : SignedEnvelope) a : Prop :=
  ∃ vresult payload wall,
    (∃ w w', verifier envelope w = (Ok vresult, w')) ∧ vr_Valid vresult = true ∧
    decode_stream_KLIQAssignment (env_Payload envelope) = Ok payload ∧
    a = with_SignatureValid payload ∧
    (asg_TrustKeyID a = vr_KeyID vresult) ∧
    trust_bundle_matches (mas_TrustBundle s) a vresult ∧
    (∀ artifact, artifact ∈ asg_Artifacts a →
       aa_SHA256 artifact = SHA256JSON (aa_Envelope artifact)) ∧
    artifacts_checked verifier a ∧
    assignment_admissible wall a (activation_context s vresult) ∧
    assignment_current a (activation_context s vresult).

Lemma verifyAssignment_Ok (s : ManagedAssignmentSource W) verifier envelope w a w' :
  verifyAssignment time_Now s verifier envelope w = (Ok a, w') →
  assignment_verified s verifier envelope a.
Proof.
  unfold verifyAssignment. intros H.
  apply io_bind_Ok in H as (vresult & w1 & Hv & H).
  destruct (negb (vr_Valid vresult)) eqn:Hvalid; [by apply fail_Ok in H|].
  apply io_bind_Ok in H as (payload & w2 & Hp & H). apply lift_Ok in Hp as [Hp ->].
  destruct (_ && _) eqn:Hkey; [by apply fail_Ok in H|].
  apply io_bind_Ok in H as ([] & w3 & Ht & H). apply lift_Ok in Ht as [Ht ->].
  apply io_bind_Ok in H as ([] & w4 & Hd & H). apply lift_Ok in Hd as [Hd ->].
  apply io_bind_Ok in H as (u & w5 & Ha & H).
  apply io_bind_Ok in H as (wall & w6 & _ & H).
  apply io_bind_Ok in H as ([] & w7 & Hact & H). apply lift_Ok in Hact as [Hact ->].
  apply mret_Ok in H as [-> ->].
  apply ValidateActivation_iff in Hact as [Hadm Hcur].
  exists vresult, payload, wall. str_eqs.
  assert (Htk : asg_TrustKeyID payload ≠ "") by apply Hadm.
  split_and!; try done; [by eauto| | | |by eapply verifyAssignedArtifacts_Ok].
  - simpl. apply andb_false_iff in Hkey as [Hk|Hk]; str_eqs; [congruence|done].
  - by apply validateTrustBundle_Ok in Ht.
  - intros artifact Hin. by apply (ValidateDigests_elem _ _ Hd).
Qed.

(** A source that loads offers the assignment it verified. *)
Lemma Load_Ok (s s' : ManagedAssignmentSource W) w w' data ref :
  Load time_Now http_get (s, w) = (Ok (data, ref), (s', w')) →
  ∃ verifier envelope a bundle_artifact,
    mas_Verifier s = Some verifier ∧
    assignment_verified s verifier envelope a ∧
    s' = set_assignment a (env_PayloadSHA256 envelope) s ∧
    RuntimeBundleArtifact a = Some bundle_artifact ∧ data = aa_Envelope bundle_artifact ∧
    blank (mas_KLIQID s) = false.
Proof.
  unfold Load. intros H.
  apply io_bind_Ok in H as (s0 & st & Hs & H). apply gets_Ok in Hs as [-> ->].
  cbn [fst] in H.
  destruct (blank (mas_BaseURL s)); [by apply fail_Ok in H|].
  destruct (blank (mas_KLIQID s)) eqn:Hblank; [by apply fail_Ok in H|].
  destruct (mas_Verifier s) as [verifier|] eqn:Hv; [|by apply fail_Ok in H].
  apply io_bind_Ok in H as (resp & st & Hg & H).
  apply zoom_Ok in Hg as (w1 & _ & ->).
  destruct ((resp_StatusCode resp <? 200) || (300 <=? resp_StatusCode resp));
    [by apply fail_Ok in H|].
  apply io_bind_Ok in H as (envelope & st & Hd & H). apply lift_Ok in Hd as [Hd ->].
  apply io_bind_Ok in H as (a & st & Ha & H).
  apply zoom_Ok in Ha as (w2 & Ha & ->). simpl in Ha.
  apply io_bind_Ok in H as (u & st & Hm & H). apply modify_Ok in Hm as ->.
  apply verifyAssignment_Ok in Ha.
  destruct (RuntimeBundleArtifact a) as [artifact|] eqn:Hrb; [|by apply fail_Ok in H].
  apply mret_Ok in H as [H1 H2]. simplify_eq/=. eauto 10.
Qed.

(** C14. A managed source that loads has accepted exactly one signed envelope:
    its verifier found the signature valid, the assignment is addressed to this
    KLIQ, not expired and not revoked, is newer than the active one (or the same
    one, or an approved rollback), and each of its artifacts has the digest the
    assignment names and a valid signature by the assignment's key or by the
    key it delegates to; the source then offers that assignment, with the digest
    of its payload, for activation, and returns its runtime bundle. *)
Theorem Load_accepts_verified (s s' : ManagedAssignmentSource W) w w' data ref :
  Load time_Now http_get (s, w) = (Ok (data, ref), (s', w')) →
  ∃ verifier envelope vresult a bundle_artifact wall,
    mas_Verifier s = Some verifier ∧
    (∃ w0 w1, verifier envelope w0 = (Ok vresult, w1)) ∧ vr_Valid vresult = true ∧
    (∃ payload, decode_stream_KLIQAssignment (env_Payload envelope) = Ok payload ∧
                a = with_SignatureValid payload) ∧
    asg_TrustKeyID a = vr_KeyID vresult ∧ trust_bundle_matches (mas_TrustBundle s) a vresult ∧
    assignment_admissible wall a (activation_context s vresult) ∧
    assignment_current a (activation_context s vresult) ∧
    (∀ artifact, artifact ∈ asg_Artifacts a →
       aa_SHA256 artifact = SHA256JSON (aa_Envelope artifact)) ∧
    artifacts_checked verifier a ∧
    mas_assignment s' = a ∧ mas_assignmentDigest s' = env_PayloadSHA256 envelope ∧
    RuntimeBundleArtifact a = Some bundle_artifact ∧ data = aa_Envelope bundle_artifact.
Proof.
  intros H. apply Load_Ok in H as (verifier & envelope & a & artifact & Hv & Ha & -> & Hrb & -> & _).
  destruct Ha as (vresult & payload & wall & Ha).
  exists verifier, envelope, vresult, a, artifact, wall. split_and!; try tauto.
  exists payload. tauto.
Qed.

(** C15. A runtime bundle that passes verification with an Ed25519 key was signed
    with that key, had not expired when the clock was read, and is a runtime
    bundle whose policy and commit agree with the envelope. *)
Theorem VerifySignedRuntimeBundle_sound (clock : io W time) key data w r w' :
  VerifySignedRuntimeBundle data (Some (dev_verifier clock key)) w = (Ok r, w') →
  ∃ now expires,
    (∃ w1 w2, clock w1 = (Ok now, w2)) ∧ envelope_authentic key now (rbv_Envelope r) ∧
    env_ExpiresAt (rbv_Envelope r) = Some expires ∧ now < expires ∧
    decode_SignedEnvelope data = Ok (rbv_Envelope r) ∧
    decode_RuntimeBundle (env_Payload (rbv_Envelope r)) = Ok (rbv_Bundle r) ∧
    rb_Kind (rbv_Bundle r) = "RuntimeBundle" ∧
    art_ArtifactType (rb_Metadata (rbv_Bundle r)) = "runtime_bundle" ∧
    (env_PolicyID (rbv_Envelope r) = "" ∨ art_PolicyID (rb_Metadata (rbv_Bundle r)) = "" ∨
     env_PolicyID (rbv_Envelope r) = art_PolicyID (rb_Metadata (rbv_Bundle r))) ∧
    (env_SourceCommit (rbv_Envelope r) = "" ∨
     art_SourceCommit (rb_Metadata (rbv_Bundle r)) = "" ∨
     env_SourceCommit (rbv_Envelope r) = art_SourceCommit (rb_Metadata (rbv_Bundle r))).
Proof.
  unfold VerifySignedRuntimeBundle. intros H.
  apply io_bind_Ok in H as (envelope & w1 & Hd & H). apply lift_Ok in Hd as [Hd ->].
  destruct (_ !=s _) eqn:Hk; [by apply fail_Ok in H|].
  apply io_bind_Ok in H as (vresult & w2 & Hv & H).
  destruct (negb (vr_Valid vresult)) eqn:Hvalid; [by apply fail_Ok in H|].
  destruct (env_ExpiresAt envelope) as [expires|] eqn:Hexp; simpl in H;
    [|by apply fail_Ok in H].
  unfold dev_verifier in Hv. rewrite Hexp in Hv.
  apply io_bind_Ok in Hv as (now & w3 & Hc1 & Hv).
  apply io_bind_Ok in Hv as (now' & w4 & Hc2 & Hv). apply mret_Ok in Hv as [-> ->].
  apply negb_false_iff, Verify_valid in Hvalid as Hauth.
  run_all. apply andb_false_iff in Hg1, Hg2. rewrite andb_false_iff in Hg1, Hg2. str_eqs.
  exists now', expires. simpl. split_and!; try done; [by eauto| | |].
  - by eapply Hauth.
  - destruct Hg1 as [[?|?]|?]; str_eqs; auto.
  - destruct Hg2 as [[?|?]|?]; str_eqs; auto.
Qed.
End acceptance.
