(* ===== verification/Authn.v ===== *)
(** * Who calls Forge ([internal/api/authn])

    Principals, the service tokens a KLIQ presents (signed by Forge with HMAC,
    or by the KLIQ with its Ed25519 key), mutual TLS with SPIFFE identities,
    the development token and chains of verifiers.  A claim set is a map from
    names to decoded values ([any]); [encoding/json], PEM and X.509 are parameters. *)

From stdpp Require Import options.
From stdpp Require Import gmap.
From S2P Require Import Prelude IO GoStrings GoTime GoDuration GoJson GoEncoding Schema Signing.
From S2P Require Import Domain Artifacts BundleSource.
#[local] Open Scope Z_scope.

(** ** [principal.go] *)

Record Scope := {
  sc_Org : string;
  sc_Environment : string;
  sc_Stage : string;
  sc_PolicyType : string;
  sc_Resource : string;
  sc_Adapter : string;
  sc_Repo : string;
}.
Definition no_scope : Scope := {|
  sc_Org := ""; sc_Environment := ""; sc_Stage := ""; sc_PolicyType := ""; sc_Resource := "";
  sc_Adapter := ""; sc_Repo := "" |}.
(** [Scope{Environment: environment, Stage: stage}] *)
Definition env_stage (environment stage : string) : Scope := {|
  sc_Org := ""; sc_Environment := environment; sc_Stage := stage; sc_PolicyType := "";
  sc_Resource := ""; sc_Adapter := ""; sc_Repo := "" |}.

Record Principal := {
  p_Subject : string;
  p_Roles : list string;
  p_Scope : Scope;
  p_Claims : gmap string value;
}.

Fixpoint has_role_in (role : string) (roles : list string) : bool :=
  match roles with
  | [] => false
  | candidate :: roles => if candidate ==s role then true else has_role_in role roles
  end.
Definition HasRole (p : Principal) (role : string) : bool := has_role_in role (p_Roles p).

Lemma HasRole_elem p role : HasRole p role = true ↔ role ∈ p_Roles p.
Proof.
  unfold HasRole. induction (p_Roles p) as [|r l IH]; simpl; [set_solver|].
  destruct (String.eqb_spec r role); set_solver.
Qed.

(** ** What a principal says of its KLIQ ([service_token.go]) *)

Definition KLIQServiceRole : string := "kliq-service".
Definition ServiceIdentityProviderDevLocalSignedToken : string := "dev-local-signed-token".
Definition ServiceIdentityProviderSPIFFEReady : string := "spiffe-ready".

(** [principal.Claims[name].(string)] *)
Definition string_claim (principal : Principal) (name : string) : option string :=
  match p_Claims principal !! name with Some (VString value) => Some value | _ => None end.

Definition PrincipalKLIQID (principal : Principal) : string :=
  match string_claim principal "kliq_id" with
  | Some value => value
  | None => trim_prefix "kliq:" (p_Subject principal)
  end.
Definition PrincipalKLIQScope (principal : Principal) : string :=
  default "" (string_claim principal "kliq_scope").
Definition PrincipalServiceIdentityProvider (principal : Principal) : string :=
  default "" (string_claim principal "service_identity_provider").
Definition PrincipalSPIFFEID (principal : Principal) : string :=
  default "" (string_claim principal "spiffe_id").
Definition PrincipalIdentityMaterialSHA256 (principal : Principal) : string :=
  default "" (string_claim principal "identity_material_sha256").

Definition IdentityMaterialSHA256 (identity : KLIQIdentity) : string :=
  let key := trim_space (id_PublicKeyPEM identity) in
  let material := if empty_str key then trim_space (id_CSRPEM identity) else key in
  if empty_str material then "" else SHA256JSON material.

Definition DefaultKLIQSPIFFEID (kliqID environment stage scope : string) : string :=
  if empty_str kliqID then "" else
  let part s := replace_char slash (ascii_of_byte 95) (trim_space s) in
  "spiffe://kernloom.local/" +:+
  join "/" (part <$> ["environment"; environment; "stage"; stage; "scope"; scope; "kliq"; kliqID]).

(** The segment after the first ["kliq"] that has one. *)
Fixpoint after_kliq (part : string) (parts : list string) : string :=
  match parts with
  | next :: rest => if part ==s "kliq" then next else after_kliq next rest
  | [] => ""
  end.
Definition kliqIDFromSPIFFEID (spiffeID : string) : string :=
  match split_char slash (trim_space spiffeID) with
  | part :: parts => after_kliq part parts
  | [] => ""
  end.

(** ** Tokens *)

Definition ErrUnauthenticated : error := Sentinel "unauthenticated".

Record KLIQServiceClaims := {
  cl_Subject : string;
  cl_KLIQID : string;
  cl_Environment : string;
  cl_Stage : string;
  cl_Scope : string;
  cl_ServiceIdentityProvider : string;
  cl_SPIFFEID : string;
  cl_IdentityMaterialSHA256 : string;
  cl_ExpiresAt : Z;
  cl_IssuedAt : Z;
}.

(** [json.Marshal(claims)] *)
Definition encode_KLIQServiceClaims (c : KLIQServiceClaims) : string := json_encode (JObj (
  [("sub", JStr (cl_Subject c));
   ("kliq_id", JStr (cl_KLIQID c));
   ("environment", JStr (cl_Environment c));
   ("stage", JStr (cl_Stage c));
   ("scope", JStr (cl_Scope c));
   ("service_identity_provider", JStr (cl_ServiceIdentityProvider c))]
  ++ omit_empty "spiffe_id" (cl_SPIFFEID c)
  ++ omit_empty "identity_material_sha256" (cl_IdentityMaterialSHA256 c)
  ++ [("exp", JNum (cl_ExpiresAt c)); ("iat", JNum (cl_IssuedAt c))])).

(** [t.Unix()]: seconds since 1970. *)
Definition Unix (t : time) : Z := t / second - 62135596800.

(** [json.Unmarshal] of claims, and the Ed25519 key of a PKCS8 PEM block
    (classified as [pem_public_key] is). *)
Class TokenCodecs := {
  decode_KLIQServiceClaims : string → result KLIQServiceClaims;
  pem_private_key : string → option (result (option string));
}.

(** [signing] and [Verify] build principals the same way. *)
Definition claims_principal (provider : string) (claims : KLIQServiceClaims) : Principal := {|
  p_Subject := cl_Subject claims;
  p_Roles := [KLIQServiceRole];
  p_Scope := env_stage (cl_Environment claims) (cl_Stage claims);
  p_Claims := list_to_map
    [("provider", VString provider);
     ("kliq_id", VString (cl_KLIQID claims));
     ("kliq_scope", VString (cl_Scope claims));
     ("environment", VString (cl_Environment claims));
     ("stage", VString (cl_Stage claims));
     ("service_identity_provider", VString (cl_ServiceIdentityProvider claims));
     ("spiffe_id", VString (cl_SPIFFEID claims));
     ("identity_material_sha256", VString (cl_IdentityMaterialSHA256 claims))] |}.

Section verifiers.
Context {ED : Ed25519} {KD : KeyDecoders} {TC : TokenCodecs} {S : Type}.
(** The verifier's [Now], or [time.Now]. *)
Context (clock : io S time).

(** ** [KLIQServiceTokenIssuer] *)

Record KLIQServiceTokenIssuer := { iss_Secret : string }.

Definition serviceTokenSignature (secret encodedPayload : string) : string :=
  Base64.encode (Hmac.sum secret encodedPayload).

Definition service_claims (kliqID environment stage scope provider spiffeID material : string)
    (ttl : duration) (issuedAt : time) : KLIQServiceClaims := {|
  cl_Subject := "kliq:" +:+ kliqID;
  cl_KLIQID := kliqID;
  cl_Environment := environment;
  cl_Stage := stage;
  cl_Scope := scope;
  cl_ServiceIdentityProvider := provider;
  cl_SPIFFEID := spiffeID;
  cl_IdentityMaterialSHA256 := material;
  cl_IssuedAt := Unix issuedAt;
  cl_ExpiresAt := Unix (issuedAt + ttl) |}.

Definition token_of (prefix payload signature : string) : string :=
  prefix +:+ payload +:+ "." +:+ signature.

Definition Issuer_issue (i : KLIQServiceTokenIssuer)
    (kliqID environment stage scope provider spiffeID material : string) (ttl : duration)
    : io S string :=
  deny empty_str (iss_Secret i) with Errorf "kliq service token issuer requires secret" [];;
  deny empty_str kliqID with Errorf "kliq service token requires kliq_id" [];;
  let provider :=
    if empty_str provider then ServiceIdentityProviderDevLocalSignedToken else provider in
  issuedAt ← clock;
  let claims := service_claims kliqID environment stage scope provider spiffeID material ttl
                  issuedAt in
  let encodedPayload := Base64.encode (encode_KLIQServiceClaims claims) in
  mret (token_of "kliqsvc." encodedPayload
          (serviceTokenSignature (iss_Secret i) encodedPayload)).

Definition Issuer_Issue (i : KLIQServiceTokenIssuer) (kliqID environment stage scope : string)
    (ttl : duration) : io S string :=
  Issuer_issue i kliqID environment stage scope ServiceIdentityProviderDevLocalSignedToken
    (DefaultKLIQSPIFFEID kliqID environment stage scope) "" ttl.

(** The provider an identity is issued tokens with. *)
Definition identity_provider (identity : KLIQIdentity) : string :=
  let provider := trim_space (id_ServiceIdentityProvider identity) in
  if empty_str provider then ServiceIdentityProviderSPIFFEReady else provider.

Definition IssueForIdentity (i : KLIQServiceTokenIssuer) (identity : KLIQIdentity)
    (ttl : duration) : io S string :=
  Issuer_issue i (id_KLIQID identity) (id_Environment identity) (id_Stage identity)
    (id_Scope identity) (identity_provider identity) (id_SPIFFEID identity)
    (IdentityMaterialSHA256 identity) ttl.

Definition base64_payload (s : string) : result string :=
  match Base64.decode s with Some d => Ok d | None => Err (Sentinel "illegal base64 data") end.

Definition Issuer_Verify (i : KLIQServiceTokenIssuer) (token : string) : io S Principal :=
  deny empty_str (iss_Secret i) || negb (has_prefix "kliqsvc." token) with ErrUnauthenticated;;
  match split_char dot token with
  | [_; encodedPayload; signature] =>
    deny serviceTokenSignature (iss_Secret i) encodedPayload !=s signature
      with ErrUnauthenticated;;
    payload ← lift (base64_payload encodedPayload);
    claims ← lift (decode_KLIQServiceClaims payload);
    deny empty_str (cl_Subject claims) || empty_str (cl_KLIQID claims)
      with Errorf "kliq service token missing subject or kliq_id" [];;
    now ← clock;
    deny cl_ExpiresAt claims <=? Unix now with Errorf "kliq service token expired" [];;
    mret (claims_principal "kliq-service-token" claims)
  | _ => fail ErrUnauthenticated
  end.

(** ** [KLIQIdentityTokenVerifier] and the tokens it accepts *)

Definition parseEd25519PublicKeyPEM (value : string) : result string :=
  match pem_public_key (trim_space value) with
  | None => Err (Errorf "missing public key PEM" [])
  | Some (Err e) => Err e
  | Some (Ok None) => Err (Errorf "public key is not Ed25519" [])
  | Some (Ok (Some key)) =>
    reject negb (Nat.eqb (String.length key) 32) with Errorf "public key is not Ed25519" [];;
    Ok key
  end.

Definition parseEd25519PrivateKeyPEM (value : string) : result string :=
  match pem_private_key (trim_space value) with
  | None => Err (Errorf "missing private key PEM" [])
  | Some (Err e) => Err e
  | Some (Ok None) => Err (Errorf "private key is not Ed25519" [])
  | Some (Ok (Some key)) =>
    reject negb (Nat.eqb (String.length key) 64) with Errorf "private key is not Ed25519" [];;
    Ok key
  end.

Definition IssueKLIQIdentitySignedToken (identity : KLIQIdentity) (privateKeyPEM : string)
    (ttl : duration) : io S string :=
  privateKey ← lift (parseEd25519PrivateKeyPEM privateKeyPEM);
  deny empty_str (id_KLIQID identity)
    with Errorf "kliq identity signed token requires kliq_id" [];;
  issuedAt ← clock;
  let claims := service_claims (id_KLIQID identity) (id_Environment identity)
                  (id_Stage identity) (id_Scope identity) (identity_provider identity)
                  (id_SPIFFEID identity) (IdentityMaterialSHA256 identity) ttl issuedAt in
  let encodedPayload := Base64.encode (encode_KLIQServiceClaims claims) in
  mret (token_of "kliqsig." encodedPayload
          (Base64.encode (ed25519_sign privateKey encodedPayload))).

(** [KLIQIdentityStore.Identity]; [None] is a nil store. *)
Context (store : option (string → io S KLIQIdentity)).

Definition claims_match (claims : KLIQServiceClaims) (identity : KLIQIdentity) : bool :=
  (cl_Environment claims ==s id_Environment identity) &&
  (cl_Stage claims ==s id_Stage identity) &&
  (cl_Scope claims ==s id_Scope identity) &&
  (cl_IdentityMaterialSHA256 claims ==s IdentityMaterialSHA256 identity).

Definition IdentityToken_Verify (token : string) : io S Principal :=
  match store with
  | None => fail ErrUnauthenticated
  | Some Identity =>
    deny negb (has_prefix "kliqsig." token) with ErrUnauthenticated;;
    match split_char dot token with
    | [_; encodedPayload; encodedSignature] =>
      payload ← lift (base64_payload encodedPayload);
      signature ← lift (base64_payload encodedSignature);
      claims ← lift (decode_KLIQServiceClaims payload);
      deny empty_str (cl_Subject claims) || empty_str (cl_KLIQID claims)
        with Errorf "kliq identity token missing subject or kliq_id" [];;
      now ← clock;
      deny cl_ExpiresAt claims <=? Unix now with Errorf "kliq identity token expired" [];;
      r ← attempt (Identity (cl_KLIQID claims));
      identity ← lift (replace_err ErrUnauthenticated r);
      publicKey ← lift (parseEd25519PublicKeyPEM (id_PublicKeyPEM identity));
      deny negb (ed25519_verify publicKey encodedPayload signature) with ErrUnauthenticated;;
      deny negb (claims_match claims identity)
        with Errorf "kliq identity token claims do not match registered identity" [];;
      deny (cl_ServiceIdentityProvider claims !=s "") &&
           (id_ServiceIdentityProvider identity !=s "") &&
           (cl_ServiceIdentityProvider claims !=s id_ServiceIdentityProvider identity)
        with Errorf "kliq identity token provider does not match registered identity" [];;
      deny (cl_SPIFFEID claims !=s "") && (id_SPIFFEID identity !=s "") &&
           (cl_SPIFFEID claims !=s id_SPIFFEID identity)
        with Errorf "kliq identity token spiffe id does not match registered identity" [];;
      mret (claims_principal "kliq-identity-signed-token" claims)
    | _ => fail ErrUnauthenticated
    end
  end.

(** ** [KLIQMTLSSPIFFEVerifier]

    The URIs of the peer certificate, as scheme and text, [None] without one. *)
Fixpoint spiffe_uri (uris : list (string * string)) : string :=
  match uris with
  | [] => ""
  | (scheme, text) :: uris => if scheme ==s "spiffe" then text else spiffe_uri uris
  end.

Definition identity_revoked (identity : KLIQIdentity) : bool :=
  (id_Status identity ==s "revoked") || (id_CredentialStatus identity ==s "revoked") ||
  negb (IsZero (id_RevokedAt identity)).

Definition MTLS_VerifyRequest (peer : option (list (string * string))) : io S Principal :=
  match store, peer with
  | Some Identity, Some uris =>
    let spiffeID := spiffe_uri uris in
    deny empty_str spiffeID with ErrUnauthenticated;;
    let kliqID := kliqIDFromSPIFFEID spiffeID in
    deny empty_str kliqID with Errorf "spiffe id does not contain kliq id" [];;
    r ← attempt (Identity kliqID);
    identity ← lift (replace_err ErrUnauthenticated r);
    deny identity_revoked identity with ErrUnauthenticated;;
    now ← if IsZero (id_CredentialExpiresAt identity) then mret 0 else clock;
    deny negb (IsZero (id_CredentialExpiresAt identity)) &&
         negb (Before now (id_CredentialExpiresAt identity))
      with Errorf "kliq mTLS identity credential expired" [];;
    deny (id_SPIFFEID identity !=s "") && (id_SPIFFEID identity !=s spiffeID)
      with Errorf "spiffe id does not match registered identity" [];;
    mret {|
      p_Subject := "kliq:" +:+ id_KLIQID identity;
      p_Roles := [KLIQServiceRole];
      p_Scope := env_stage (id_Environment identity) (id_Stage identity);
      p_Claims := list_to_map
        [("provider", VString "kliq-mtls-spiffe");
         ("kliq_id", VString (id_KLIQID identity));
         ("kliq_scope", VString (id_Scope identity));
         ("environment", VString (id_Environment identity));
         ("stage", VString (id_Stage identity));
         ("service_identity_provider", VString ServiceIdentityProviderSPIFFEReady);
         ("spiffe_id", VString spiffeID);
         ("identity_material_sha256", VString (IdentityMaterialSHA256 identity))] |}
  | _, _ => fail ErrUnauthenticated
  end.
End verifiers.

(** ** [verifier.go]: development tokens, headers, chains *)

Definition nonblank_part (part : string) : list string :=
  let part := trim_space part in if part !=s "" then [part] else [].
Definition splitCSV (value : string) : list string :=
  flat_map nonblank_part (split_char comma value).

Definition DevToken_Verify (token : string) : result Principal :=
  reject negb (has_prefix "dev:" token) with ErrUnauthenticated;;
  match split_char colon token with
  | [_; subject; csv; org; environment; stage] =>
    let roles := splitCSV csv in
    reject empty_str subject || Nat.eqb (length roles) 0
      with Errorf "invalid dev token subject or roles" [];;
    Ok {| p_Subject := subject; p_Roles := roles;
          p_Scope := {| sc_Org := org; sc_Environment := environment; sc_Stage := stage;
                        sc_PolicyType := ""; sc_Resource := ""; sc_Adapter := "";
                        sc_Repo := "" |};
          p_Claims := {[ "provider" := VString "dev-token" ]} |}
  | _ => Err (Errorf "invalid dev token shape" [])
  end.

Definition BearerToken (header : string) : result string :=
  reject negb (has_prefix "Bearer " header) with ErrUnauthenticated;;
  let token := trim_space (trim_prefix "Bearer " header) in
  reject empty_str token with ErrUnauthenticated;;
  Ok token.

(** [Chain.Verify] and [Chain.VerifyRequest]: the first verifier that accepts,
    or the last error. *)
Fixpoint chain_verify {S} (lastErr : error) (c : list (io S Principal)) : io S Principal :=
  match c with
  | [] => fail lastErr
  | verify :: c =>
    r ← attempt verify;
    match r with
    | Ok principal => mret principal
    | Err e => chain_verify e c
    end
  end.
Definition Chain_Verify {S} (c : list (string → io S Principal)) (token : string)
    : io S Principal :=
  chain_verify ErrUnauthenticated ((λ verify, verify token) <$> c).

(** ** Tokens read back *)

Lemma dot_app s : "." +:+ s = String dot s.
Proof. done. Qed.

Lemma token_parts prefix payload signature :
  has_char dot prefix = false → has_char dot payload = false → has_char dot signature = false →
  split_char dot (token_of (prefix +:+ ".") payload signature) = [prefix; payload; signature].
Proof.
  intros H1 H2 H3. unfold token_of. rewrite app_str_assoc, !dot_app.
  rewrite (split_char_app dot prefix) by done.
  rewrite (split_char_app dot payload) by done. by rewrite split_char_one.
Qed.

Lemma has_prefix_app p s : has_prefix p (p +:+ s) = true.
Proof. induction p as [|c p IH]; [by destruct s|]. rewrite app_str_cons. simpl. by rewrite Ascii.eqb_refl. Qed.

Lemma string_claim_principal provider claims name value :
  (p_Claims (claims_principal provider claims)) !! name = Some (VString value) →
  string_claim (claims_principal provider claims) name = Some value.
Proof. unfold string_claim. by intros ->. Qed.

Lemma claims_principal_says provider claims (p := claims_principal provider claims) :
  HasRole p KLIQServiceRole = true ∧ PrincipalKLIQID p = cl_KLIQID claims ∧
  PrincipalKLIQScope p = cl_Scope claims ∧
  PrincipalServiceIdentityProvider p = cl_ServiceIdentityProvider claims ∧
  PrincipalSPIFFEID p = cl_SPIFFEID claims ∧
  PrincipalIdentityMaterialSHA256 p = cl_IdentityMaterialSHA256 claims.
Proof.
  subst p. unfold PrincipalKLIQID, PrincipalKLIQScope, PrincipalServiceIdentityProvider,
    PrincipalSPIFFEID, PrincipalIdentityMaterialSHA256.
  pose proof (string_claim_principal provider claims) as H.
  split_and!; [done|..].
  - by rewrite (H "kliq_id" (cl_KLIQID claims)).
  - by rewrite (H "kliq_scope" (cl_Scope claims)).
  - by rewrite (H "service_identity_provider" (cl_ServiceIdentityProvider claims)).
  - by rewrite (H "spiffe_id" (cl_SPIFFEID claims)).
  - by rewrite (H "identity_material_sha256" (cl_IdentityMaterialSHA256 claims)).
Qed.

Section tokens.
Context {ED : Ed25519} {KD : KeyDecoders} {TC : TokenCodecs} {S : Type}.
Context (clock : io S time).

Lemma Issuer_issue_Ok i kliqID environment stage scope provider spiffeID material ttl s token s' :
  Issuer_issue clock i kliqID environment stage scope provider spiffeID material ttl s
  = (Ok token, s') →
  iss_Secret i ≠ "" ∧ kliqID ≠ "" ∧
  ∃ issuedAt claims, clock s = (Ok issuedAt, s') ∧
    claims = service_claims kliqID environment stage scope
      (if empty_str provider then ServiceIdentityProviderDevLocalSignedToken else provider)
      spiffeID material ttl issuedAt ∧
    let payload := Base64.encode (encode_KLIQServiceClaims claims) in
    token = token_of "kliqsvc." payload (serviceTokenSignature (iss_Secret i) payload).
Proof.
  unfold Issuer_issue. intros H. run H. str_eqs. split_and!; [done..|].
  do 2 eexists. split; [eassumption|]. done.
Qed.

(** What a token issued by Forge says, it says when it is verified, until it
    expires. *)
Lemma Issuer_Verify_issued i claims s now s' (token := token_of "kliqsvc."
    (Base64.encode (encode_KLIQServiceClaims claims))
    (serviceTokenSignature (iss_Secret i) (Base64.encode (encode_KLIQServiceClaims claims)))) :
  iss_Secret i ≠ "" → cl_Subject claims ≠ "" → cl_KLIQID claims ≠ "" →
  decode_KLIQServiceClaims (encode_KLIQServiceClaims claims) = Ok claims →
  clock s = (Ok now, s') →
  Issuer_Verify clock i token s =
    if cl_ExpiresAt claims <=? Unix now
    then (Err (Errorf "kliq service token expired" []), s')
    else (Ok (claims_principal "kliq-service-token" claims), s').
Proof.
  intros H1 H2 H3 Hd Hc. subst token. unfold Issuer_Verify.
  set (payload := Base64.encode _). set (signature := serviceTokenSignature _ payload).
  assert (has_prefix "kliqsvc." (token_of "kliqsvc." payload signature) = true) as ->
    by apply has_prefix_app.
  rewrite (proj2 (String.eqb_neq _ _) H1). cbn [negb orb].
  assert (split_char dot (token_of "kliqsvc." payload signature)
          = ["kliqsvc"; payload; signature]) as ->.
  { apply (token_parts "kliqsvc"); [done|apply Base64.encode_no_dot..]. }
  subst signature.
  rewrite String.eqb_refl. simpl. unfold base64_payload. subst payload.
  rewrite Base64.decode_encode, io_bind_run. simpl. rewrite io_bind_run. simpl. rewrite Hd.
  rewrite (proj2 (String.eqb_neq _ _) H2), (proj2 (String.eqb_neq _ _) H3). simpl.
  rewrite io_bind_run, Hc. by destruct (_ <=? _).
Qed.

(** C40. A service token issued to a KLIQ verifies as that KLIQ's principal with
    the service role, scope and identity it was issued for, and is refused from
    its expiry on. *)
Theorem issued_token_verifies i identity ttl s token s1 :
  IssueForIdentity clock i identity ttl s = (Ok token, s1) →
  ∃ issuedAt claims,
    clock s = (Ok issuedAt, s1) ∧
    cl_ExpiresAt claims = Unix (issuedAt + ttl) ∧
    (decode_KLIQServiceClaims (encode_KLIQServiceClaims claims) = Ok claims →
     ∀ s2 now s3, clock s2 = (Ok now, s3) →
     (cl_ExpiresAt claims ≤ Unix now →
      Issuer_Verify clock i token s2 = (Err (Errorf "kliq service token expired" []), s3)) ∧
     (Unix now < cl_ExpiresAt claims → ∃ p,
      Issuer_Verify clock i token s2 = (Ok p, s3) ∧
      HasRole p KLIQServiceRole = true ∧ PrincipalKLIQID p = id_KLIQID identity ∧
      p_Scope p = env_stage (id_Environment identity) (id_Stage identity) ∧
      PrincipalKLIQScope p = id_Scope identity ∧
      PrincipalSPIFFEID p = id_SPIFFEID identity ∧
      PrincipalIdentityMaterialSHA256 p = IdentityMaterialSHA256 identity)).
Proof.
  unfold IssueForIdentity. intros (Hs & Hid & issuedAt & claims & Hc & Hcl & ->)%Issuer_issue_Ok.
  exists issuedAt, claims. split; [done|]. split; [by rewrite Hcl|]. intros Hd s2 now s3 Hc2.
  rewrite (Issuer_Verify_issued i claims s2 now s3); [|first [done|by rewrite Hcl; simpl]..].
  split; intros Hle.
  - by rewrite (proj2 (Z.leb_le _ _) Hle).
  - rewrite (proj2 (Z.leb_gt _ _) Hle). eexists. split; [reflexivity|].
    destruct (claims_principal_says "kliq-service-token" claims) as (? & -> & -> & ? & -> & ->).
    rewrite Hcl in *. split_and!; try done.
Qed.

(** C36. A token is accepted as signed by a KLIQ only if the key registered for the
    KLIQ it names verifies it, it has not expired, and it claims what is
    registered: environment, stage, scope, identity material, and, where both name one, the
    identity provider and the SPIFFE identifier. *)
Theorem IdentityToken_Verify_sound Identity token s p s' :
  IdentityToken_Verify clock (Some Identity) token s = (Ok p, s') →
  ∃ part payload signature claims identity key now s1 s2 s3,
    split_char dot token = [part; payload; signature] ∧
    (∃ text, Base64.decode payload = Some text ∧ decode_KLIQServiceClaims text = Ok claims) ∧
    clock s1 = (Ok now, s2) ∧ Unix now < cl_ExpiresAt claims ∧
    Identity (cl_KLIQID claims) s2 = (Ok identity, s3) ∧
    parseEd25519PublicKeyPEM (id_PublicKeyPEM identity) = Ok key ∧
    (∃ sig, Base64.decode signature = Some sig ∧ ed25519_verify key payload sig = true) ∧
    cl_Environment claims = id_Environment identity ∧ cl_Stage claims = id_Stage identity ∧
    cl_Scope claims = id_Scope identity ∧
    cl_IdentityMaterialSHA256 claims = IdentityMaterialSHA256 identity ∧
    (cl_ServiceIdentityProvider claims = "" ∨ id_ServiceIdentityProvider identity = "" ∨
     cl_ServiceIdentityProvider claims = id_ServiceIdentityProvider identity) ∧
    (cl_SPIFFEID claims = "" ∨ id_SPIFFEID identity = "" ∨ cl_SPIFFEID claims = id_SPIFFEID identity) ∧
    p = claims_principal "kliq-identity-signed-token" claims ∧
    PrincipalKLIQID p = cl_KLIQID claims.
Proof.
  unfold IdentityToken_Verify. intros H.
  destruct (negb _); [by apply fail_Ok in H|].
  destruct (split_char dot token) as [|part [|payload [|signature [|]]]] eqn:Hsplit;
    try by apply fail_Ok in H.
  run H. unfold base64_payload, replace_err in *.
  destruct (Base64.decode payload) as [text|] eqn:Hp; [|done].
  destruct (Base64.decode signature) as [sig|] eqn:Hsig; [|done]. simplify_eq.
  run_all. simplify_eq.
  match goal with E : attempt _ _ = _ |- _ => apply attempt_run in E; rename E into Hrun end.
  match goal with E : match ?r with Ok _ => _ | Err _ => _ end = Ok _ |- _ =>
    destruct r as [identity|]; [|done] end. simplify_eq.
  str_eqs. unfold claims_match in *. str_eqs. rewrite ?Z.leb_gt in *.
  repeat match goal with H : negb _ = false |- _ => apply negb_false_iff in H end.
  repeat match goal with H : _ && _ && _ = false |- _ => rewrite !andb_false_iff, !negb_false_iff, !String.eqb_eq in H end.
  do 10 eexists. split_and!; try done; eauto; tauto.
Qed.
End tokens.
