(* ===== verification/JWT.v ===== *)
(** * Tokens of an identity provider ([internal/api/authn])

    JSON Web Tokens under HS256 or RS256 ([verifier.go]), the keys of a provider and
    their refreshing ([jwks.go]), and the bindings from claims to roles and scopes
    ([context_bindings.go]).  RSA, HTTP and the decoding of JSON and YAML are parameters. *)

From stdpp Require Import options.
From stdpp Require Import gmap.
From S2P Require Import Prelude IO GoStrings GoTime GoDuration GoJson GoEncoding GoPath GoFloat.
From S2P Require Import Schema Signing Domain Artifacts BundleSource Authn.
#[local] Open Scope Z_scope.

(** ** Text *)

(** [strings.Fields] *)
Definition a_word (word : string) : list string := if empty_str word then [] else [word].
Fixpoint fields_from (word s : string) : list string :=
  match s with
  | EmptyString => a_word word
  | String a s1 =>
      if space1 a then a_word word ++ fields_from "" s1 else
      match s1 with
      | String b s2 =>
          if space2 a b then a_word word ++ fields_from "" s2 else
          match s2 with
          | String c s3 =>
              if space3 a b c then a_word word ++ fields_from "" s3
              else fields_from (word +:+ String a "") s1
          | EmptyString => fields_from (word +:+ String a "") s1
          end
      | EmptyString => fields_from (word +:+ String a "") s1
      end
  end.
Definition Fields (s : string) : list string := fields_from "" s.

Example fields_ex : Fields (" a  bc" +:+ chr 9 +:+ "d" +:+ chr 194 +:+ chr 160 +:+ "e ") = ["a"; "bc"; "d"; "e"].
Proof. reflexivity. Qed.

(** [strconv.Atoi] on 64 bits: a sign, decimal digits, and the range of an int. *)
Fixpoint decimal (acc : Z) (s : string) : option Z :=
  match s with
  | EmptyString => Some acc
  | String c s => z ← digit_of c; decimal (10 * acc + z) s
  end.
Definition unsigned_decimal (s : string) : option Z := if empty_str s then None else decimal 0 s.
Definition Atoi (s : string) : option Z :=
  z ← (if has_prefix "-" s then Z.opp <$> unsigned_decimal (drop_string 1 s)
       else if has_prefix "+" s then unsigned_decimal (drop_string 1 s) else unsigned_decimal s);
  if (min_int64 <=? z) && (z <=? max_int64) then Some z else None.

Example atoi_ex : (Atoi <$> ["42"; "-7"; "+0"; ""; "-"; "4x"; "9223372036854775808"; "-9223372036854775808"]) =
  [Some 42; Some (-7); Some 0; None; None; None; None; Some min_int64].
Proof. reflexivity. Qed.

(** ** Parameters *)

Record RSAPublicKey := {
  rsa_N : Z;
  rsa_E : Z;
}.

(** A key of a JWKS document. *)
Record jwkKey := {
  jwk_Kty : string;
  jwk_Kid : string;
  jwk_Use : string;
  jwk_Alg : string;
  jwk_N : string;
  jwk_E : string;
}.

Record ContextBinding := {
  ctb_ID : string;
  ctb_Source : string;
  ctb_Issuer : string;
  ctb_Audience : string;
  ctb_Claim : string;
  ctb_Contains : value;
  ctb_Equals : value;
  ctb_MapsTo : object;
}.

(** [rsa.VerifyPKCS1v15] of a SHA-256 digest. *)
Class RSA := { VerifyPKCS1v15 : RSAPublicKey → list Z → string → bool }.

(** The algorithm and key of a token's header, the claims of its payload, the keys of a
    JWKS document, and the bindings of a YAML file. *)
Class JWTDecoders := {
  decode_JWTHeader : string → result (string * string);
  decode_Claims : string → result object;
  decode_JWKS : string → result (list jwkKey);
  decode_ContextBindings : string → result (list ContextBinding);
}.

(** [strings.ToUpper] *)
Class UnicodeUpper := { ToUpper : string → string }.

(** ** Claims *)

(** [claims[key]], nil where it is missing. *)
Definition claim (key : string) (claims : object) : value := default VNil (obj_get key claims).

(** [s, _ := v.(string)] *)
Definition as_string (v : value) : string := match v with VString s => s | _ => "" end.

Definition stringSliceClaim (raw : value) : list string :=
  match raw with
  | VArray items => omap (λ item, match item with VString s => if empty_str s then None else Some s | _ => None end) items
  | VString s => splitCSV s
  | _ => []
  end.

Definition rolesFromClaims (claims : object) : list string :=
  match stringSliceClaim (claim "roles" claims), stringSliceClaim (claim "groups" claims) with
  | (_ :: _) as roles, _ => roles
  | [], (_ :: _) as roles => roles
  | [], [] =>
      match claim "realm_access" claims with
      | VObject access => stringSliceClaim (claim "roles" access)
      | _ => match claim "scope" claims with VString scope => Fields scope | _ => [] end
      end
  end.

(** A claim at the top fills a part of the scope that is empty. *)
Definition or_claim (part key : string) (claims : object) : string :=
  if empty_str part then as_string (claim key claims) else part.

Definition scopeFromClaims (claims : object) : Scope :=
  let raw := match claim "kernloom_scope" claims with VObject raw => raw | _ => [] end in
  let part key := as_string (claim key raw) in {|
  sc_Org := or_claim (part "org") "org" claims;
  sc_Environment := or_claim (part "environment") "environment" claims;
  sc_Stage := or_claim (part "stage") "stage" claims;
  sc_PolicyType := part "policy_type"; sc_Resource := part "resource"; sc_Adapter := part "adapter";
  sc_Repo := part "repo" |}.

Definition audienceContains (raw : value) (expected : string) : bool :=
  match raw with
  | VString s => s ==s expected
  | VArray items => existsb (λ item, match item with VString s => s ==s expected | _ => false end) items
  | _ => false
  end.

Definition numericClaim (raw : value) : option Z :=
  match raw with
  | VFloat f => Some (int_of_float f)
  | VInt z => Some z
  | _ => None
  end.

(** ** [JWTVerifier] *)

(** The key of a token among several: the one it names, or the only one. *)
Definition select_key (keys : gmap string RSAPublicKey) (kid : string) : result RSAPublicKey :=
  if negb (empty_str kid) then
    match keys !! kid with
    | Some key => Ok key
    | None => Err (Errorf "jwt kid %q is not trusted" [AStr kid])
    end
  else match map_to_list keys with
       | [(_, key)] => Ok key
       | _ => Err (Errorf "jwt kid is required when multiple JWKS keys are configured" [])
       end.

Record JWTVerifier (S : Type) := {
  jwt_Issuer : string;
  jwt_Audience : string;
  jwt_HMACSecret : string;
  jwt_RSAPublicKey : option RSAPublicKey;
  jwt_RSAPublicKeys : gmap string RSAPublicKey;
  jwt_RSAPublicKeySource : option (string → io S RSAPublicKey);
  jwt_AllowMissingRoles : bool;
}.
Arguments jwt_Issuer {S}.
Arguments jwt_Audience {S}.
Arguments jwt_HMACSecret {S}.
Arguments jwt_RSAPublicKey {S}.
Arguments jwt_RSAPublicKeys {S}.
Arguments jwt_RSAPublicKeySource {S}.
Arguments jwt_AllowMissingRoles {S}.

Section jwt.
Context {RS : RSA} {JD : JWTDecoders} {S : Type}.
(** The verifier's [Now], or [time.Now]. *)
Context (clock : io S time) (v : JWTVerifier S).

Definition no_keys : bool := Nat.eqb (size (jwt_RSAPublicKeys v)) 0.
Definition no_static_key : bool := no_keys && bool_decide (jwt_RSAPublicKey v = None).

Definition static_key (kid : string) : result RSAPublicKey :=
  if no_keys then
    match jwt_RSAPublicKey v with
    | Some key => Ok key
    | None => Err ErrUnauthenticated
    end
  else select_key (jwt_RSAPublicKeys v) kid.

Definition rsaPublicKey (kid : string) : io S RSAPublicKey :=
  let kid := trim_space kid in
  match jwt_RSAPublicKeySource v with
  | None => lift (static_key kid)
  | Some source =>
      r ← attempt (source kid);
      match r with
      | Ok key => mret key
      | Err e => if negb (empty_str kid) || no_static_key then fail e else lift (static_key kid)
      end
  end.

Definition check_signature (alg kid signed actual : string) : io S unit :=
  if alg ==s "HS256" then
    deny empty_str (jwt_HMACSecret v) with ErrUnauthenticated;;
    deny actual !=s Hmac.sum (jwt_HMACSecret v) signed with ErrUnauthenticated;;
    mret tt
  else if alg ==s "RS256" then
    r ← attempt (rsaPublicKey kid);
    match r with
    | Err _ => fail ErrUnauthenticated
    | Ok publicKey =>
        deny negb (VerifyPKCS1v15 publicKey (Sha256.digest (bytes_of signed)) actual) with ErrUnauthenticated;;
        mret tt
    end
  else fail (Errorf "unsupported jwt alg %q" [AStr alg]).

Definition validateClaims (claims : object) : io S unit :=
  let issuer := as_string (claim "iss" claims) in
  deny (jwt_Issuer v !=s "") && (issuer !=s jwt_Issuer v)
    with Errorf "jwt issuer %q does not match configured issuer" [AStr issuer];;
  deny (jwt_Audience v !=s "") && negb (audienceContains (claim "aud" claims) (jwt_Audience v))
    with Errorf "jwt audience does not include configured audience" [];;
  now ← clock;
  let current := Unix now in
  deny match numericClaim (claim "exp" claims) with Some exp => exp <=? current | None => false end
    with Errorf "jwt expired" [];;
  deny match numericClaim (claim "nbf" claims) with Some nbf => current <? nbf | None => false end
    with Errorf "jwt not valid yet" [];;
  mret tt.

Definition JWT_Verify (token : string) : io S Principal :=
  deny empty_str (jwt_HMACSecret v) && no_static_key && bool_decide (jwt_RSAPublicKeySource v = None)
    with ErrUnauthenticated;;
  match split_char dot token with
  | [header; payload; signature] =>
      headerBytes ← lift (base64_payload header);
      '(alg, kid) ← lift (decode_JWTHeader headerBytes);
      actual ← lift (base64_payload signature);
      _ ← check_signature alg kid (header +:+ "." +:+ payload) actual;
      payloadBytes ← lift (base64_payload payload);
      claims ← lift (decode_Claims payloadBytes);
      _ ← validateClaims claims;
      let subject := as_string (claim "sub" claims) in
      deny empty_str subject with Errorf "jwt missing subject" [];;
      let roles := rolesFromClaims claims in
      deny Nat.eqb (length roles) 0 && negb (jwt_AllowMissingRoles v) with Errorf "jwt missing roles" [];;
      mret {| p_Subject := subject; p_Roles := roles; p_Scope := scopeFromClaims claims;
              p_Claims := list_to_map claims |}
  | _ => fail ErrUnauthenticated
  end.
End jwt.

(** ** [RefreshingJWKS] *)

(** What HTTP answers: the status and its text, the body (or the error of reading it), and
    three headers. *)
Record JWKSResponse := {
  jr_Code : Z;
  jr_Status : string;
  jr_Body : result string;
  jr_ETag : string;
  jr_LastModified : string;
  jr_CacheControl : string;
}.

(** The clock of the provider, and the request for its keys with the ETag and the date of
    those it has. *)
Class JWKSWorld (W : Type) := {
  jwks_now : W → time * W;
  jwks_fetch : string → string → string → io W JWKSResponse;
}.

Record RefreshingJWKS := {
  jks_url : string;
  jks_refreshInterval : duration;
  jks_minRefreshInterval : duration;
  jks_keys : gmap string RSAPublicKey;
  jks_etag : string;
  jks_modified : string;
  jks_lastFetch : time;
  jks_lastOK : time;
  jks_lastErr : option error;
}.

Definition RS256_key (key : jwkKey) `{UnicodeUpper} : bool :=
  (ToUpper (trim_space (jwk_Kty key)) ==s "RSA") &&
  (blank (jwk_Use key) || (trim_space (jwk_Use key) ==s "sig")) &&
  (blank (jwk_Alg key) || (trim_space (jwk_Alg key) ==s "RS256")).

(** [new(big.Int).SetBytes]: a number written in bytes, the most significant first. *)
Definition big_int (bytes : list Z) : Z := foldl (λ n b, 256 * n + b) 0 bytes.

(** [int(n.Int64())]: the low 64 bits, signed. *)
Definition low_int64 (n : Z) : Z :=
  let low := n mod 2 ^ 64 in if low <? 2 ^ 63 then low else low - 2 ^ 64.

Definition parseJWKRSAKey (key : jwkKey) : result RSAPublicKey :=
  reject blank (jwk_N key) || blank (jwk_E key) with Errorf "missing modulus or exponent" [];;
  nBytes ← base64_payload (jwk_N key);
  eBytes ← base64_payload (jwk_E key);
  let exponent := low_int64 (big_int (bytes_of eBytes)) in
  reject exponent <? 3 with Errorf "invalid rsa exponent" [];;
  Ok {| rsa_N := big_int (bytes_of nBytes); rsa_E := exponent |}.

(** One turn of the loop of [ParseJWKS], with the position of the key. *)
Definition add_key `{UnicodeUpper} (keys : gmap string RSAPublicKey) (ik : nat * jwkKey)
    : result (gmap string RSAPublicKey) :=
  let '(index, key) := ik in
  if negb (RS256_key key) then Ok keys else
  publicKey ← wrap_err "jwks key %q invalid: %w" [AStr (jwk_Kid key)] (parseJWKRSAKey key);
  let kid := trim_space (jwk_Kid key) in
  let kid := if empty_str kid then "jwks.key." +:+ pretty index else kid in
  reject bool_decide (is_Some (keys !! kid)) with Errorf "duplicate jwks kid %q" [AStr kid];;
  Ok (<[kid := publicKey]> keys).

Definition ParseJWKS `{UnicodeUpper} {JD : JWTDecoders} (data : string) : result (gmap string RSAPublicKey) :=
  doc ← decode_JWKS data;
  keys ← for_fold add_key ∅ (imap pair doc);
  reject Nat.eqb (size keys) 0 with Errorf "jwks contains no usable RS256 signing keys" [];;
  Ok keys.

(** [time.Duration(seconds) * time.Second] wraps around. *)
Definition max_age (part : string) : option duration :=
  let part := trim_space part in
  if negb (has_prefix "max-age=" part) then None else
  match Atoi (trim_prefix "max-age=" part) with
  | Some seconds => if seconds <=? 0 then None else Some (low_int64 (seconds * second))
  | None => None
  end.

Definition refreshIntervalFromHeaders (cacheControl : string) (fallback : duration) : duration :=
  match omap max_age (split_char comma cacheControl) with
  | interval :: _ => interval
  | [] => fallback
  end.

Section refreshing.
Context {UU : UnicodeUpper} {JD : JWTDecoders} {W : Type} {JW : JWKSWorld W}.

(** [t.Sub(u)]: saturates. *)
Definition Sub (t u : time) : duration := Z.max min_int64 (Z.min max_int64 (t - u)).

Definition fetched_at (now : time) (lastErr : option error) (j : RefreshingJWKS) : RefreshingJWKS := {|
  jks_url := jks_url j; jks_refreshInterval := jks_refreshInterval j;
  jks_minRefreshInterval := jks_minRefreshInterval j; jks_keys := jks_keys j; jks_etag := jks_etag j;
  jks_modified := jks_modified j; jks_lastFetch := now;
  jks_lastOK := match lastErr with None => now | Some _ => jks_lastOK j end; jks_lastErr := lastErr |}.

(** Reading the clock; the provider and the world outside are the state. *)
Definition jwks_clock : io (RefreshingJWKS * W) time := λ s,
  let '(now, w) := jwks_now s.2 in (Ok now, (s.1, w)).

Definition set_jwks (f : RefreshingJWKS → RefreshingJWKS) : io (RefreshingJWKS * W) unit :=
  modify (λ s, (f s.1, s.2)).

Definition recordFetchError (e : error) : io (RefreshingJWKS * W) unit :=
  now ← jwks_clock; set_jwks (fetched_at now (Some e)).

Definition with_keys (keys : gmap string RSAPublicKey) (resp : JWKSResponse) (j : RefreshingJWKS) : RefreshingJWKS := {|
  jks_url := jks_url j;
  jks_refreshInterval := refreshIntervalFromHeaders (jr_CacheControl resp) (jks_refreshInterval j);
  jks_minRefreshInterval := jks_minRefreshInterval j; jks_keys := keys;
  jks_etag := trim_space (jr_ETag resp); jks_modified := trim_space (jr_LastModified resp);
  jks_lastFetch := jks_lastFetch j; jks_lastOK := jks_lastOK j; jks_lastErr := jks_lastErr j |}.

(** An error of a fetch is recorded, and returned. *)
Definition fetch_failed {A} (e : error) : io (RefreshingJWKS * W) A := _ ← recordFetchError e; fail e.

(** The parts of [Refresh], which holds [refreshMu] throughout: the request with what is
    known, the answer with the time it came, and what becomes of it under [mu]. *)
Definition ask : io (RefreshingJWKS * W) (result JWKSResponse) :=
  j ← gets fst;
  attempt (zoom snd (λ w s, (s.1, w)) (jwks_fetch (jks_url j) (jks_etag j) (jks_modified j))).

Definition store_answer (resp : JWKSResponse) (now : time) : io (RefreshingJWKS * W) unit :=
  if jr_Code resp =? 304 then set_jwks (fetched_at now None) else
  if (jr_Code resp <? 200) || (299 <? jr_Code resp)
  then fetch_failed (Errorf "jwks fetch failed: %s" [AStr (jr_Status resp)]) else
  match (data ← jr_Body resp; ParseJWKS data) with
  | Err e => fetch_failed e
  | Ok keys => set_jwks (λ j, fetched_at now None (with_keys keys resp j))
  end.

Definition Refresh : io (RefreshingJWKS * W) unit :=
  r ← ask;
  match r with
  | Err e => fetch_failed e
  | Ok resp => now ← jwks_clock; store_answer resp now
  end.

Definition cachedKey (kid : string) (j : RefreshingJWKS) : result RSAPublicKey :=
  let kid := trim_space kid in
  if Nat.eqb (size (jks_keys j)) 0 then Err (default ErrUnauthenticated (jks_lastErr j))
  else select_key (jks_keys j) kid.

Definition canRefreshForKeyMiss : io (RefreshingJWKS * W) bool :=
  j ← gets fst;
  if Nat.eqb (size (jks_keys j)) 0 then mret true else
  now ← jwks_clock;
  mret (jks_minRefreshInterval j <=? Sub now (jks_lastFetch j)).

(** The refresh for a key that is missing. *)
Definition refresh_for `{GoRuntime} (missing : error) : io (RefreshingJWKS * W) unit :=
  r ← attempt Refresh;
  match r with
  | Err refreshErr => fail (Wrapf "%w; jwks refresh failed: %v" [AStr (error_text refreshErr)] missing)
  | Ok _ => mret tt
  end.

(** What a request for a key does when no other runs meanwhile.  No lock is held from one
    part to the next: what requests do at the same time is [jwks_step]. *)
Definition Key `{GoRuntime} (kid : string) : io (RefreshingJWKS * W) RSAPublicKey :=
  j ← gets fst;
  match cachedKey kid j with
  | Ok key => mret key
  | Err e =>
      may ← canRefreshForKeyMiss;
      _ ← (if may : bool then refresh_for e else mret tt);
      read (λ s, cachedKey kid s.1)
  end.

Definition currentRefreshInterval (j : RefreshingJWKS) : duration :=
  if jks_refreshInterval j <=? 0 then 600 * second else jks_refreshInterval j.

Definition NewRefreshingJWKS (url : string) (refresh minRefresh : duration) (w : W)
    : result RefreshingJWKS * W :=
  let url := trim_space url in
  if empty_str url then (Err (Errorf "jwks url is required" []), w) else
  let j := {| jks_url := url; jks_refreshInterval := if refresh <=? 0 then 600 * second else refresh;
              jks_minRefreshInterval := if minRefresh <=? 0 then 30 * second else minRefresh; jks_keys := ∅;
              jks_etag := ""; jks_modified := ""; jks_lastFetch := 0; jks_lastOK := 0;
              jks_lastErr := None |} in
  match Refresh (j, w) with
  | (Ok _, (j, w)) => (Ok j, w)
  | (Err e, (_, w)) => (Err e, w)
  end.
End refreshing.

(** ** Context bindings *)

Definition validateContextBinding (b : ContextBinding) : result unit :=
  let requires what := Errorf ("context binding %q requires " +:+ what) [AStr (ctb_ID b)] in
  reject blank (ctb_ID b) with Errorf "context binding requires id" [];;
  reject blank (ctb_Source b) with requires "source";;
  reject blank (ctb_Claim b) with requires "claim";;
  reject match ctb_Contains b, ctb_Equals b with VNil, VNil => true | _, _ => false end
    with requires "contains or equals";;
  reject Nat.eqb (length (ctb_MapsTo b)) 0 with requires "maps_to";;
  Ok tt.

Definition LoadContextBindings {FS : Files} {JD : JWTDecoders} (path : string) : result (list ContextBinding) :=
  let path := trim_space path in
  if empty_str path then Ok [] else
  data ← os_ReadFile path;
  bindings ← decode_ContextBindings data;
  reject Nat.eqb (length bindings) 0
    with Errorf "%s: context_bindings must contain at least one binding" [AStr path];;
  _ ← for_fold (λ _ b, wrap_err "%s: %w" [AStr path] (validateContextBinding b)) tt bindings;
  Ok bindings.

Section bindings.
Context {GR : GoRuntime} {FT : FloatText}.

Definition stringValue (v : value) : string :=
  match v with VString s => trim_space s | _ => trim_space (Sprint v) end.

Fixpoint nested_in (parts : list string) (current : value) : option value :=
  match parts with
  | [] => Some current
  | part :: parts =>
      let part := trim_space part in
      if empty_str part then None else
      match current with
      | VObject o => match obj_get part o with Some v => nested_in parts v | None => None end
      | _ => None
      end
  end.

(** [nestedClaim]; the claims are the outermost object. *)
Definition nestedClaim (claims : gmap string value) (path : string) : option value :=
  match split_char dot (trim_space path) with
  | part :: parts =>
      let part := trim_space part in
      if empty_str part then None else v ← claims !! part; nested_in parts v
  | [] => None
  end.

Definition claimContains (raw expected : value) : bool :=
  let expectedText := stringValue expected in
  match raw with
  | VString s => (s ==s expectedText) || existsb (String.eqb expectedText) (Fields s)
  | VArray items => existsb (λ item, stringValue item ==s expectedText) items
  | _ => false
  end.

Definition claimEquals (raw expected : value) : bool := stringValue raw ==s stringValue expected.

Definition is_nil (v : value) : bool := match v with VNil => true | _ => false end.

Definition contextBindingMatches (claims : gmap string value) (b : ContextBinding) : bool :=
  if Nat.eqb (size claims) 0 then false else
  let top key := default VNil (claims !! key) in
  if (ctb_Issuer b !=s "") && (as_string (top "iss") !=s ctb_Issuer b) then false else
  if (ctb_Audience b !=s "") && negb (audienceContains (top "aud") (ctb_Audience b)) then false else
  match nestedClaim claims (ctb_Claim b) with
  | None => false
  | Some raw =>
      (is_nil (ctb_Contains b) || claimContains raw (ctb_Contains b)) &&
      (is_nil (ctb_Equals b) || claimEquals raw (ctb_Equals b))
  end.

Definition set_scope (f : Scope → Scope) (p : Principal) : Principal := {|
  p_Subject := p_Subject p; p_Roles := p_Roles p; p_Scope := f (p_Scope p); p_Claims := p_Claims p |}.
Definition with_role (role : string) (p : Principal) : Principal := {|
  p_Subject := p_Subject p; p_Roles := p_Roles p ++ [role]; p_Scope := p_Scope p; p_Claims := p_Claims p |}.
Definition with_claim (key : string) (v : value) (p : Principal) : Principal := {|
  p_Subject := p_Subject p; p_Roles := p_Roles p; p_Scope := p_Scope p; p_Claims := <[key := v]> (p_Claims p) |}.

(** The part of a scope that a key of [maps_to] names. *)
Definition scope_part (part text : string) (s : Scope) : option Scope :=
  let names name := (part ==s "scope." +:+ name) || (part ==s "kernloom_scope." +:+ name) in
  let put org environment stage policyType resource adapter repo := Some {|
    sc_Org := org; sc_Environment := environment; sc_Stage := stage; sc_PolicyType := policyType;
    sc_Resource := resource; sc_Adapter := adapter; sc_Repo := repo |} in
  let '(Build_Scope org environment stage policyType resource adapter repo) := s in
  if names "org" then put text environment stage policyType resource adapter repo else
  if names "environment" then put org text stage policyType resource adapter repo else
  if names "stage" then put org environment text policyType resource adapter repo else
  if names "policy_type" then put org environment stage text resource adapter repo else
  if names "resource" then put org environment stage policyType text adapter repo else
  if names "adapter" then put org environment stage policyType resource text repo else
  if names "repo" then put org environment stage policyType resource adapter text else None.

(** One entry of [maps_to]: the principal, and its context claims. *)
Definition apply_entry (acc : Principal * object) (kv : string * value) : Principal * object :=
  let '(p, context) := acc in
  if trim_space kv.1 ==s "subject.role" then
    let role := as_string kv.2 in
    (if negb (empty_str role) && negb (HasRole p role) then with_role role p else p, context)
  else match scope_part (trim_space kv.1) (stringValue kv.2) (p_Scope p) with
       | Some s => (set_scope (λ _, s) p, context)
       | None => (p, obj_set kv.1 kv.2 context)
       end.

Definition applyContextMapping (p : Principal) (b : ContextBinding) : Principal :=
  let context := match p_Claims p !! "kernloom_context" with Some (VObject o) => o | _ => [] end in
  let '(p, context) := foldl apply_entry (p, context) (map_order (ctb_MapsTo b)) in
  with_claim "kernloom_context" (VObject context) p.

(** The loop over the bindings: the principal, and whether any matched. *)
Definition apply_binding (acc : Principal * bool) (b : ContextBinding) : Principal * bool :=
  if contextBindingMatches (p_Claims acc.1) b then (applyContextMapping acc.1 b, true) else acc.

Definition ContextBinding_Verify {S} (inner : option (string → io S Principal)) (bindings : list ContextBinding)
    (requireMatch : bool) (token : string) : io S Principal :=
  match inner with
  | None => fail ErrUnauthenticated
  | Some verify =>
      principal ← verify token;
      let '(principal, matched) := foldl apply_binding (principal, false) bindings in
      deny requireMatch && negb matched with Errorf "missing_context_binding" [];;
      mret principal
  end.
End bindings.

(** ** What an accepted token says *)

Section sound.
Context {RS : RSA} {JD : JWTDecoders} {S : Type} (clock : io S time) (v : JWTVerifier S).

(** The signature of the text under a key the verifier trusts. *)
Definition signed_by_trusted (alg kid signed actual : string) : Prop :=
  (alg = "HS256" ∧ jwt_HMACSecret v ≠ "" ∧ actual = Hmac.sum (jwt_HMACSecret v) signed) ∨
  (alg = "RS256" ∧ ∃ key s1 s2, rsaPublicKey v kid s1 = (Ok key, s2) ∧
     VerifyPKCS1v15 key (Sha256.digest (bytes_of signed)) actual = true).

Lemma check_signature_Ok alg kid signed actual s u s' :
  check_signature v alg kid signed actual s = (Ok u, s') → signed_by_trusted alg kid signed actual.
Proof.
  unfold check_signature, signed_by_trusted. intros H.
  destruct (String.eqb_spec alg "HS256") as [Ha|_]; [run H; str_eqs; auto|].
  destruct (String.eqb_spec alg "RS256") as [Ha|_]; [|run H].
  apply io_bind_Ok in H as (r & s1 & Hr & H). destruct r as [key|]; [|run H].
  apply attempt_run in Hr. run H. str_eqs. eauto 10.
Qed.

(** Claims the verifier accepts at an instant. *)
Record claims_valid (now : time) (claims : object) : Prop := {
  cv_issuer : jwt_Issuer v ≠ "" → obj_get "iss" claims = Some (VString (jwt_Issuer v));
  cv_audience : jwt_Audience v ≠ "" → audienceContains (claim "aud" claims) (jwt_Audience v) = true;
  cv_exp : ∀ exp, numericClaim (claim "exp" claims) = Some exp → Unix now < exp;
  cv_nbf : ∀ nbf, numericClaim (claim "nbf" claims) = Some nbf → nbf ≤ Unix now;
}.

Lemma as_string_claim key claims text :
  text ≠ "" → as_string (claim key claims) = text → obj_get key claims = Some (VString text).
Proof. unfold claim. destruct (obj_get key claims) as [[]|]; naive_solver. Qed.

Lemma validateClaims_Ok claims s u s' : validateClaims clock v claims s = (Ok u, s') →
  ∃ now, clock s = (Ok now, s') ∧ claims_valid now claims.
Proof.
  unfold validateClaims. cbv zeta. intros H. run H. exists a. split; [done|].
  apply andb_false_iff in Hg, Hg0. rewrite !negb_false_iff in Hg, Hg0. split.
  - intros Hi. destruct Hg as [E%String.eqb_eq|E%String.eqb_eq]; [done|by apply as_string_claim].
  - intros Ha. by destruct Hg0 as [E%String.eqb_eq|E].
  - intros exp E. rewrite E in Hg1. lia.
  - intros nbf E. rewrite E in Hg2. lia.
Qed.

(** C37. A token of an identity provider is accepted only if it is three parts, the last of
    which is the signature of the first two under the shared secret, or under a key of the
    provider, by the algorithm its header names; its claims are for the configured issuer
    and audience, it has begun and, where it carries an expiry, not ended; and it names a
    subject and, unless that is allowed to miss, a role.  Roles and scope are read from
    these claims only. *)
Theorem JWT_Verify_sound token s p s' : JWT_Verify clock v token s = (Ok p, s') →
  ∃ header payload signature alg kid headerBytes actual payloadBytes claims now s1 s2,
    split_char dot token = [header; payload; signature] ∧
    Base64.decode header = Some headerBytes ∧ decode_JWTHeader headerBytes = Ok (alg, kid) ∧
    Base64.decode signature = Some actual ∧ signed_by_trusted alg kid (header +:+ "." +:+ payload) actual ∧
    Base64.decode payload = Some payloadBytes ∧ decode_Claims payloadBytes = Ok claims ∧
    clock s1 = (Ok now, s2) ∧ claims_valid now claims ∧
    p_Subject p ≠ "" ∧ obj_get "sub" claims = Some (VString (p_Subject p)) ∧
    (p_Roles p = [] → jwt_AllowMissingRoles v = true) ∧
    p_Roles p = rolesFromClaims claims ∧ p_Scope p = scopeFromClaims claims ∧ p_Claims p = list_to_map claims.
Proof.
  unfold JWT_Verify. intros H. run H. destruct (split_char dot token) as [|header [|payload [|signature []]]]; try by run H.
  apply io_bind_Ok in H as (hb & s1 & Hh & H). apply io_bind_Ok in H as ([alg kid] & s2 & Hd & H).
  cbv zeta in H. run H. run_all. unfold base64_payload in *. guards.
  apply check_signature_Ok in Hr0 as Hsig. apply validateClaims_Ok in Hr3 as (now & Hc & Hv).
  exists header, payload, signature, alg, kid. do 4 eexists. exists now. do 2 eexists.
  split_and!; try done.
  - by apply as_string_claim.
  - simpl. intros E. rewrite E in *. simpl in *. by apply negb_false_iff.
Qed.
End sound.

(** ** What bindings of claims give *)

Section context.
Context {GR : GoRuntime} {FT : FloatText} {S : Type}.

Definition grants (b : ContextBinding) (role : string) : Prop :=
  role ≠ "" ∧ ∃ key, (key, VString role) ∈ ctb_MapsTo b ∧ trim_space key = "subject.role".

(** The same claims, but for those that bindings write. *)
Definition same_token (claims claims' : gmap string value) : Prop :=
  ∀ key, key ≠ "kernloom_context" → claims' !! key = claims !! key.

(** [p'] is [p] with roles for which there is a reason. *)
Record mapped (reason : string → Prop) (p p' : Principal) : Prop := {
  mp_subject : p_Subject p' = p_Subject p;
  mp_claims : same_token (p_Claims p) (p_Claims p');
  mp_kept : ∀ role, role ∈ p_Roles p → role ∈ p_Roles p';
  mp_given : ∀ role, role ∈ p_Roles p' → role ∈ p_Roles p ∨ reason role;
}.

Lemma mapped_refl reason p : mapped reason p p.
Proof. split; [done|done|auto|auto]. Qed.

Lemma mapped_trans reason p1 p2 p3 : mapped reason p1 p2 → mapped reason p2 p3 → mapped reason p1 p3.
Proof.
  intros [H1 H2 H3 H4] [K1 K2 K3 K4]. split; [congruence| |auto|].
  - intros key Hk. rewrite (K2 key Hk). by apply H2.
  - intros role [?|?]%K4; auto.
Qed.

Lemma mapped_weaken (reason reason' : string → Prop) p p' :
  (∀ role, reason role → reason' role) → mapped reason p p' → mapped reason' p p'.
Proof. intros H [H1 H2 H3 H4]. split; [done..|]. intros role [?|?]%H4; auto. Qed.

Lemma apply_entry_mapped acc kv :
  mapped (λ role, role ≠ "" ∧ kv.2 = VString role ∧ trim_space kv.1 = "subject.role") acc.1 (apply_entry acc kv).1.
Proof.
  destruct acc as [p context], kv as [key v]. unfold apply_entry. cbn [fst snd].
  destruct (String.eqb_spec (trim_space key) "subject.role") as [Hk|_].
  - cbn [fst]. destruct (negb (empty_str (as_string v)) && _) eqn:E; [|apply mapped_refl].
    apply andb_true_iff in E as [E _]. apply negb_true_iff, String.eqb_neq in E. split; [done|done| |].
    + intros role Hr. apply elem_of_app. by left.
    + simpl. intros role [?| ->%list_elem_of_singleton]%elem_of_app; [auto|]. right. split; [done|].
      by destruct v.
  - destruct (scope_part _ _ _); [|apply mapped_refl]. split; [done|done|auto|auto].
Qed.

Lemma applyContextMapping_mapped p b : mapped (grants b) p (applyContextMapping p b).
Proof.
  unfold applyContextMapping.
  set (context := match p_Claims p !! "kernloom_context" with Some (VObject o) => o | _ => [] end).
  assert (H : mapped (grants b) p (foldl apply_entry (p, context) (map_order (ctb_MapsTo b))).1).
  { assert (Hin : ∀ kv, kv ∈ map_order (ctb_MapsTo b) → kv ∈ ctb_MapsTo b) by (intros kv; by rewrite map_order_elem).
    revert Hin. generalize (map_order (ctb_MapsTo b)) as l. intros l.
    change p with (p, context).1 at 1. generalize (p, context) as acc.
    induction l as [|kv l IH]; intros acc Hin; [apply mapped_refl|]. simpl.
    eapply mapped_trans; [|apply IH; intros kv' ?; apply Hin; by right].
    eapply mapped_weaken; [|apply apply_entry_mapped]. intros role (Hr & Hv & Hk). split; [done|].
    exists kv.1. rewrite <- Hv. split; [|done]. rewrite <- surjective_pairing. apply Hin. left. }
  destruct (foldl apply_entry (p, context) _) as [p' context'] eqn:E. cbn [fst] in H.
  destruct H as [H1 H2 H3 H4]. split; [done| |done|done]. intros key Hk. simpl.
  rewrite lookup_insert_ne by done. by apply H2.
Qed.

Lemma apply_bindings_mapped bindings p matched :
  mapped (λ role, ∃ b claims, b ∈ bindings ∧ grants b role ∧ same_token (p_Claims p) claims ∧
    contextBindingMatches claims b = true) p (foldl apply_binding (p, matched) bindings).1.
Proof.
  revert p matched. induction bindings as [|b bindings IH]; intros p matched; [apply mapped_refl|]. simpl.
  destruct (apply_binding (p, matched) b) as [p1 m1] eqn:E. unfold apply_binding in E. cbn [fst] in E.
  assert (H1 : mapped (λ role, grants b role ∧ contextBindingMatches (p_Claims p) b = true) p p1).
  { destruct (contextBindingMatches (p_Claims p) b); simplify_eq; [|apply mapped_refl].
    eapply mapped_weaken; [|apply applyContextMapping_mapped]. auto. }
  eapply mapped_trans; [eapply mapped_weaken; [|exact H1]|eapply mapped_weaken; [|apply IH]].
  - intros role [Hg Hm]. exists b, (p_Claims p). split; [left|]. done.
  - intros role (b' & claims & Hin & Hg & Hs & Hm). exists b', claims. split; [by right|]. split; [done|]. split; [|done].
    intros key Hk. rewrite (Hs key Hk). by apply (mp_claims _ _ _ H1).
Qed.

(** Nothing changes before the first binding that matches the token. *)
Lemma apply_bindings_matched bindings p :
  (∃ b, b ∈ bindings ∧ contextBindingMatches (p_Claims p) b = true) ∨
  foldl apply_binding (p, false) bindings = (p, false).
Proof.
  induction bindings as [|b bindings IH]; [by right|]. simpl. unfold apply_binding at 2. cbn [fst].
  destruct (contextBindingMatches (p_Claims p) b) eqn:E; [left; exists b; split; [left|done]|].
  destruct IH as [(b' & ? & ?)|IH]; [left; exists b'; split; [by right|done]|by right].
Qed.

(** The bindings of claims only add: a token is the inner verifier's, with its subject, roles
    and claims; a role it has beyond those is given by a binding whose conditions hold of the
    token's claims and of what bindings before it wrote; and where no binding matches the
    token, it is refused or stays as it was. *)
Theorem ContextBinding_Verify_sound inner bindings requireMatch token (s : S) p' s' :
  ContextBinding_Verify inner bindings requireMatch token s = (Ok p', s') →
  ∃ verify p, inner = Some verify ∧ verify token s = (Ok p, s') ∧
    p_Subject p' = p_Subject p ∧ same_token (p_Claims p) (p_Claims p') ∧
    (∀ role, role ∈ p_Roles p → role ∈ p_Roles p') ∧
    (∀ role, role ∈ p_Roles p' → role ∈ p_Roles p ∨ ∃ b claims, b ∈ bindings ∧ grants b role ∧
       same_token (p_Claims p) claims ∧ contextBindingMatches claims b = true) ∧
    ((∃ b, b ∈ bindings ∧ contextBindingMatches (p_Claims p) b = true) ∨ (p' = p ∧ requireMatch = false)).
Proof.
  unfold ContextBinding_Verify. destruct inner as [verify|]; [|done]. intros H.
  apply io_bind_Ok in H as (p & s1 & Hv & H). exists verify, p.
  pose proof (apply_bindings_mapped bindings p false) as [M1 M2 M3 M4].
  pose proof (apply_bindings_matched bindings p) as Hm.
  destruct (foldl apply_binding (p, false) bindings) as [p1 matched]. cbn [fst] in *. run H.
  split_and!; try done. destruct Hm as [Hm|[= -> ->]]; [by left|right]. split; [done|].
  by rewrite andb_true_r in Hg.
Qed.
End context.

(** ** Requests that look for keys at the same time *)

Set Default Proof Using "Type*".

Section concurrent.
Context {GR : GoRuntime} {UU : UnicodeUpper} {JD : JWTDecoders} {W : Type} {JW : JWKSWorld W}.
(** The time and the number of requests, as the world outside has them: reading the clock
    tells the time, a request takes some. *)
Context (clock : W → time) (fetches : W → Z).
Hypothesis clock_reads : ∀ w, clock w ≤ (jwks_now w).1 ∧ clock (jwks_now w).2 = (jwks_now w).1 ∧
  fetches (jwks_now w).2 = fetches w.
Hypothesis fetch_counts : ∀ url etag modified w,
  clock w ≤ clock (jwks_fetch url etag modified w).2 ∧
  fetches (jwks_fetch url etag modified w).2 = fetches w + 1.

(** What a refresh is for: a key that was missing, with the error of the look-up, or the timer. *)
Abbreviation purpose := (option (string * error)).

(** Where a caller is between two sections that hold a lock. *)
Inductive phase :=
  | Idle
  | Missed (kid : string) (missing : error)                  (* not found in the cache *)
  | Waiting (g : purpose)                                  (* about to refresh: waits for [refreshMu] *)
  | Asking (g : purpose)                                   (* has [refreshMu] *)
  | Answered (g : purpose) (answer : result JWKSResponse)  (* has [refreshMu] *)
  | Storing (g : purpose) (resp : JWKSResponse) (now : time) (* has [refreshMu] *)
  | Again (kid : string).                                  (* looks again *)

(** A goroutine, with the number of requests it made for missing keys and for the timer. *)
Record caller := Caller { cl_phase : phase; cl_asked : nat; cl_renewed : nat }.

Definition refreshing (c : caller) : bool :=
  match cl_phase c with Asking _ | Answered _ _ | Storing _ _ _ => true | _ => false end.

(** After the refresh: [Key] looks again, unless the refresh failed. *)
Definition refreshed (g : purpose) (r : result unit) : phase :=
  match g, r with Some (kid, _), Ok _ => Again kid | _, _ => Idle end.

Definition requested (g : purpose) (c : caller) : nat * nat :=
  match g with Some _ => (S (cl_asked c), cl_renewed c) | None => (cl_asked c, S (cl_renewed c)) end.

Definition at_phase (ph : phase) (c : caller) : caller := Caller ph (cl_asked c) (cl_renewed c).

Abbreviation jwks_system := (RefreshingJWKS * W * list caller)%type.

(** One section of one caller, at the code's locks. *)
Inductive section : RefreshingJWKS * W → bool → caller → RefreshingJWKS * W → caller → Prop :=
  | sec_hit s busy c kid key :
      cl_phase c = Idle → cachedKey kid s.1 = Ok key → section s busy c s c
  | sec_miss s busy c kid missing :
      cl_phase c = Idle → cachedKey kid s.1 = Err missing →
      section s busy c s (at_phase (Missed kid missing) c)
  | sec_check s busy c kid missing may s' :
      cl_phase c = Missed kid missing → canRefreshForKeyMiss s = (Ok may, s') →
      section s busy c s' (at_phase (if may : bool then Waiting (Some (kid, missing)) else Again kid) c)
  | sec_timer s busy c :
      cl_phase c = Idle → section s busy c s (at_phase (Waiting None) c)
  | sec_lock s c g :
      cl_phase c = Waiting g → section s false c s (at_phase (Asking g) c)
  | sec_ask s busy c g answer s' :
      cl_phase c = Asking g → ask s = (Ok answer, s') →
      section s busy c s' (Caller (Answered g answer) (requested g c).1 (requested g c).2)
  | sec_fail s busy c g e s' :
      cl_phase c = Answered g (Err e) → (fetch_failed (A:=unit) e s).2 = s' →
      section s busy c s' (at_phase (refreshed g (Err e)) c)
  | sec_time s busy c g resp now s' :
      cl_phase c = Answered g (Ok resp) → jwks_clock s = (Ok now, s') →
      section s busy c s' (at_phase (Storing g resp now) c)
  | sec_store s busy c g resp now r s' :
      cl_phase c = Storing g resp now → store_answer resp now s = (r, s') →
      section s busy c s' (at_phase (refreshed g r) c)
  | sec_again s busy c kid :
      cl_phase c = Again kid → section s busy c s (at_phase Idle c).

(** A caller takes a section, [refreshMu] being held or not, or time passes. *)
Inductive jwks_step : jwks_system → jwks_system → Prop :=
  | step_section s l1 c l2 s' c' :
      section s (existsb refreshing (l1 ++ l2)) c s' c' →
      jwks_step (s, l1 ++ c :: l2) (s', l1 ++ c' :: l2)
  | step_time j w w' callers :
      clock w ≤ clock w' → fetches w' = fetches w → jwks_step (j, w, callers) (j, w', callers).

(** Who runs alone takes the sections of [Key] in turn. *)
Lemma step_alone s c s' c' : section s false c s' c' → jwks_step (s, [c]) (s', [c']).
Proof using Type. apply (step_section _ [] c []). Qed.

Lemma Key_alone kid s r s' asked renewed : Key kid s = (r, s') →
  ∃ asked', rtc jwks_step (s, [Caller Idle asked renewed]) (s', [Caller Idle asked' renewed]).
Proof using Type.
  unfold Key. rewrite io_bind_run. unfold gets at 1.
  destruct (cachedKey kid s.1) as [key|missing] eqn:Hc; [intros [= _ <-]; by exists asked|].
  rewrite io_bind_run. destruct (canRefreshForKeyMiss s) as [[may|e] s1] eqn:Hcheck.
  2:{ exfalso. unfold canRefreshForKeyMiss in Hcheck. rewrite io_bind_run in Hcheck. unfold gets in Hcheck.
      destruct (Nat.eqb _ _); [done|]. unfold jwks_clock in Hcheck. rewrite io_bind_run in Hcheck.
      by destruct (jwks_now _). }
  assert (H1 : rtc jwks_step (s, [Caller Idle asked renewed])
    (s1, [Caller (if may then Waiting (Some (kid, missing)) else Again kid) asked renewed])).
  { eapply rtc_l; [by apply step_alone, (sec_miss s false (Caller Idle asked renewed) kid missing)|].
    eapply rtc_l; [|apply rtc_refl].
    by apply step_alone, (sec_check s false (Caller (Missed kid missing) asked renewed) kid missing may). }
  rewrite io_bind_run. destruct may.
  2:{ intros [= _ <-]. exists asked. etrans; [exact H1|]. eapply rtc_l; [|apply rtc_refl].
      by apply step_alone, (sec_again s1 false (Caller (Again kid) asked renewed) kid). }
  unfold refresh_for. rewrite io_bind_run. unfold attempt at 1. unfold Refresh. rewrite io_bind_run.
  destruct (ask s1) as [[answer|e] s2] eqn:Hask.
  2:{ unfold ask in Hask. rewrite io_bind_run in Hask. done. }
  assert (H2 : rtc jwks_step (s, [Caller Idle asked renewed])
    (s2, [Caller (Answered (Some (kid, missing)) answer) (S asked) renewed])).
  { etrans; [exact H1|]. set (g := Some (kid, missing)).
    eapply rtc_l; [by apply step_alone, (sec_lock s1 (Caller (Waiting g) asked renewed) g)|].
    eapply rtc_l; [|apply rtc_refl].
    by apply step_alone, (sec_ask s1 false (Caller (Asking g) asked renewed) g answer). }
  assert (Hend : ∀ r2 s3 r s', rtc jwks_step (s, [Caller Idle asked renewed])
      (s3, [Caller (refreshed (Some (kid, missing)) r2) (S asked) renewed]) →
    (match r2 with Ok _ => (cachedKey kid s3.1, s3)
     | Err e => (Err (Wrapf "%w; jwks refresh failed: %v" [AStr (error_text e)] missing), s3) end) = (r, s') →
    ∃ asked', rtc jwks_step (s, [Caller Idle asked renewed]) (s', [Caller Idle asked' renewed])).
  { intros r2 s3 r0 s0 H3 H. exists (S asked). destruct r2 as [u|e]; injection H as _ <-; [|exact H3].
    etrans; [exact H3|]. eapply rtc_l; [|apply rtc_refl]. by apply step_alone, (sec_again s3 false (Caller (Again kid) (S asked) renewed) kid). }
  set (g := Some (kid, missing)) in *. destruct answer as [resp|e].
  - rewrite io_bind_run. destruct (jwks_clock s2) as [[now|e] s3] eqn:Hclock;
      [|unfold jwks_clock in Hclock; by destruct (jwks_now _)].
    destruct (store_answer resp now s3) as [r4 s4] eqn:Hstore. intros H. eapply (Hend r4 s4); [|by destruct r4].
    etrans; [exact H2|]. eapply rtc_l; [by apply step_alone,
      (sec_time s2 false (Caller (Answered g (Ok resp)) (S asked) renewed) g resp now)|].
    eapply rtc_l; [|apply rtc_refl].
    by apply step_alone, (sec_store s3 false (Caller (Storing g resp now) (S asked) renewed) g resp now r4).
  - destruct (fetch_failed e s2) as [r3 s3] eqn:Hfail. intros H.
    assert (∃ e', r3 = Err e') as [e' ->].
    { unfold fetch_failed in Hfail. rewrite io_bind_run in Hfail.
      destruct (recordFetchError e s2) as [[]?]; injection Hfail as <- _; eauto. }
    eapply (Hend (Err e') s3); [|exact H].
    etrans; [exact H2|]. eapply rtc_l; [|apply rtc_refl].
    apply step_alone, (sec_fail s2 false (Caller (Answered g (Err e)) (S asked) renewed) g e); [done|by rewrite Hfail].
Qed.

(** The section that a caller, looking for a key when it is idle, is at. *)
Definition section_of (kid : string) (s : RefreshingJWKS * W) (busy : bool) (c : caller)
    : option ((RefreshingJWKS * W) * caller) :=
  match cl_phase c with
  | Idle => match cachedKey kid s.1 with
            | Ok _ => Some (s, c)
            | Err missing => Some (s, at_phase (Missed kid missing) c)
            end
  | Missed kid missing =>
      match canRefreshForKeyMiss s with
      | (Ok may, s') => Some (s', at_phase (if may then Waiting (Some (kid, missing)) else Again kid) c)
      | (Err _, _) => None
      end
  | Waiting g => if busy then None else Some (s, at_phase (Asking g) c)
  | Asking g =>
      match ask s with
      | (Ok answer, s') => Some (s', Caller (Answered g answer) (requested g c).1 (requested g c).2)
      | (Err _, _) => None
      end
  | Answered g (Err e) => Some ((fetch_failed (A:=unit) e s).2, at_phase (refreshed g (Err e)) c)
  | Answered g (Ok resp) =>
      match jwks_clock s with
      | (Ok now, s') => Some (s', at_phase (Storing g resp now) c)
      | (Err _, _) => None
      end
  | Storing g resp now => let '(r, s') := store_answer resp now s in Some (s', at_phase (refreshed g r) c)
  | Again kid => Some (s, at_phase Idle c)
  end.

Lemma section_of_section kid s busy c s' c' : section_of kid s busy c = Some (s', c') → section s busy c s' c'.
Proof using Type.
  unfold section_of. intros H. destruct (cl_phase c) as [|k e|g|g|g [resp|e]|g resp now|k] eqn:Hp.
  - destruct (cachedKey kid s.1) eqn:Hc; injection H as <- <-; by econstructor.
  - destruct (canRefreshForKeyMiss s) as [[may|]?] eqn:Hc; [|done]. injection H as <- <-. by econstructor.
  - destruct busy; [done|]. injection H as <- <-. by constructor.
  - destruct (ask s) as [[answer|]?] eqn:Ha; [|done]. injection H as <- <-. by econstructor.
  - destruct (jwks_clock s) as [[now|]?] eqn:Hc; [|done]. injection H as <- <-. by econstructor.
  - injection H as <- <-. by econstructor.
  - destruct (store_answer resp now s) as [r s1] eqn:Hs. injection H as <- <-. by econstructor.
  - injection H as <- <-. by econstructor.
Qed.

(** The callers take sections in this order. *)
Fixpoint schedule (kid : string) (order : list nat) (x : jwks_system) : option jwks_system :=
  match order with
  | [] => Some x
  | i :: order =>
      let '(s, callers) := x in
      c ← callers !! i;
      '(s', c') ← section_of kid s (existsb refreshing (take i callers ++ drop (S i) callers)) c;
      schedule kid order (s', <[i:=c']> callers)
  end.

Lemma schedule_steps kid order x y : schedule kid order x = Some y → rtc jwks_step x y.
Proof using Type.
  revert x. induction order as [|i order IH]; intros [s callers]; simpl; [by intros [= ->]|].
  intros (c & Hi & H)%bind_Some. apply bind_Some in H as ([s' c'] & Hs & H). eapply rtc_l; [|by apply IH].
  apply section_of_section in Hs. pose proof (lookup_lt_Some _ _ _ Hi). rewrite insert_take_drop by done.
  rewrite <- (take_drop_middle callers i c Hi) at 1. by apply step_section.
Qed.

(** *** What a section leaves *)

(** Keys that a whole document of the provider held. *)
Definition fetched_keys (keys : gmap string RSAPublicKey) : Prop := ∃ url etag modified w0 resp w1,
  jwks_fetch url etag modified w0 = (Ok resp, w1) ∧ (data ← jr_Body resp; ParseJWKS data) = Ok keys.

Lemma fetched_keys_some keys : fetched_keys keys → size keys ≠ 0%nat.
Proof.
  intros (? & ? & ? & ? & resp & ? & _ & H). apply bind_Ok in H as (data & _ & H). unfold ParseJWKS in H.
  apply bind_Ok in H as (doc & _ & H). apply bind_Ok in H as (ks & _ & H). passes H. injection H as <-.
  by apply Nat.eqb_neq.
Qed.

Lemma ask_run s r s' : ask s = (r, s') →
  s'.1 = s.1 ∧ clock s.2 ≤ clock s'.2 ∧ fetches s'.2 = fetches s.2 + 1 ∧
  ∀ resp, r = Ok (Ok resp) → ∃ w0 w1, jwks_fetch (jks_url s.1) (jks_etag s.1) (jks_modified s.1) w0 = (Ok resp, w1).
Proof.
  destruct s as [j w]. unfold ask. rewrite io_bind_run. unfold gets, attempt, zoom. cbn [fst snd].
  destruct (fetch_counts (jks_url j) (jks_etag j) (jks_modified j) w) as [F1 F2].
  destruct (jwks_fetch _ _ _ w) as [a w1] eqn:E. cbn [fst snd] in *. intros [= <- <-]. cbn [fst snd].
  split_and!; [done..|]. intros resp [= ->]. by exists w, w1.
Qed.

Lemma clock_run s now s' : jwks_clock s = (Ok now, s') →
  s'.1 = s.1 ∧ clock s.2 ≤ now ∧ clock s'.2 = now ∧ fetches s'.2 = fetches s.2.
Proof.
  unfold jwks_clock. destruct (clock_reads s.2) as (C1 & C2 & C3). destruct (jwks_now s.2) as [t w].
  intros [= <- <-]. done.
Qed.

Lemma check_run s may s' : canRefreshForKeyMiss s = (Ok may, s') → size (jks_keys s.1) ≠ 0%nat →
  s'.1 = s.1 ∧ clock s.2 ≤ clock s'.2 ∧ fetches s'.2 = fetches s.2 ∧
  (may = true → jks_minRefreshInterval s.1 ≤ Sub (clock s'.2) (jks_lastFetch s.1)).
Proof.
  unfold canRefreshForKeyMiss. intros H Hk%Nat.eqb_neq.
  apply io_bind_Ok in H as (j & s1 & [-> ->]%gets_Ok & H). rewrite Hk in H.
  apply io_bind_Ok in H as (now & s1 & (E1 & E2 & E3 & E4)%clock_run & [-> ->]%mret_Ok).
  rewrite E3. split_and!; [done..|]. by intros ?%Z.leb_le.
Qed.

(** A refresh that is over: the keys are those it had or those of the answer, at that time. *)
Record stored (resp : option JWKSResponse) (now : time) (s s' : RefreshingJWKS * W) : Prop := {
  st_keys : jks_keys s'.1 = jks_keys s.1 ∨
    ∃ a, resp = Some a ∧ (data ← jr_Body a; ParseJWKS data) = Ok (jks_keys s'.1);
  st_min : jks_minRefreshInterval s'.1 = jks_minRefreshInterval s.1;
  st_at : now ≤ jks_lastFetch s'.1 ≤ clock s'.2;
  st_time : clock s.2 ≤ clock s'.2;
  st_fetches : fetches s'.2 = fetches s.2;
}.

Lemma fail_stored resp now e s s' : now ≤ clock s.2 → (fetch_failed (A:=unit) e s).2 = s' → stored resp now s s'.
Proof.
  destruct s as [j w]. unfold fetch_failed, recordFetchError, set_jwks, modify. rewrite !io_bind_run.
  destruct (jwks_clock (j, w)) as [[t|e'] [j1 w1]] eqn:E; [|unfold jwks_clock in E; by destruct (jwks_now _)].
  apply clock_run in E as (E1 & E2 & E3 & E4). cbn [fst snd] in *. subst j1.
  intros Hn <-. split; cbn [fst snd fail]; simpl; try done; [by left|lia..].
Qed.

Lemma store_stored resp now r s s' :
  now ≤ clock s.2 → store_answer resp now s = (r, s') → stored (Some resp) now s s'.
Proof.
  intros Hn. unfold store_answer.
  assert (Hset : ∀ f, set_jwks f s = (r, s') → jks_minRefreshInterval (f s.1) = jks_minRefreshInterval s.1 →
    jks_lastFetch (f s.1) = now → (jks_keys (f s.1) = jks_keys s.1 ∨
      (data ← jr_Body resp; ParseJWKS data) = Ok (jks_keys (f s.1))) → stored (Some resp) now s s').
  { intros f. unfold set_jwks, modify. intros [= _ <-] H1 H2 H3. split; cbn [fst snd]; [naive_solver|done|lia..]. }
  destruct (jr_Code resp =? 304); [intros H; apply (Hset _ H); [done..|by left]|].
  destruct (_ || _); [intros H; eapply fail_stored; [done|by rewrite H]|].
  destruct (data ← jr_Body resp; ParseJWKS data) as [keys|e] eqn:Ek;
    [|intros H; eapply fail_stored; [done|by rewrite H]].
  intros H. apply (Hset _ H); [done..|by right].
Qed.

(** *** The invariant *)

Section bounded.
Context (minimal : duration) (first : time).

(** The requests of a caller for missing keys, at [last] and now, and those it is about to make. *)
Definition caller_ok (last now : time) (c : caller) : Prop :=
  let spent n := Z.of_nat n * minimal in
  match cl_phase c with
  | Waiting (Some _) | Asking (Some _) =>
      spent (cl_asked c) ≤ last - first ∧ spent (S (cl_asked c)) ≤ now - first
  | Answered (Some _) a => spent (cl_asked c) ≤ now - first
  | Storing g _ t => last ≤ t ≤ now ∧ spent (cl_asked c) ≤ (if g then t else last) - first
  | _ => spent (cl_asked c) ≤ last - first
  end ∧
  match cl_phase c with
  | Answered _ (Ok resp) | Storing _ resp _ =>
      ∃ url etag modified w0 w1, jwks_fetch url etag modified w0 = (Ok resp, w1)
  | _ => True
  end.

Definition total (f : caller → nat) (callers : list caller) : nat := sum_list_with f callers.

Record system_ok (keys0 : gmap string RSAPublicKey) (n : nat) (fetches0 : Z) (x : jwks_system) : Prop := {
  jo_keys : (jks_keys x.1.1 = keys0 ∨ fetched_keys (jks_keys x.1.1)) ∧ size (jks_keys x.1.1) ≠ 0%nat;
  jo_min : jks_minRefreshInterval x.1.1 = minimal;
  jo_last : first ≤ jks_lastFetch x.1.1 ≤ clock x.1.2;
  jo_callers : Forall (caller_ok (jks_lastFetch x.1.1) (clock x.1.2)) x.2;
  jo_mutex : (length (List.filter refreshing x.2) ≤ 1)%nat;
  jo_length : length x.2 = n;
  jo_fetches : fetches x.1.2 - fetches0 = Z.of_nat (total cl_asked x.2) + Z.of_nat (total cl_renewed x.2);
}.

Lemma other_ok last now last' now' c :
  caller_ok last now c → last ≤ last' → now ≤ now' → last' = last ∨ refreshing c = false →
  caller_ok last' now' c.
Proof.
  intros [H Ha] Hl Hn Hr. split; [|done]. unfold refreshing in Hr.
  destruct (cl_phase c) as [| |[]|[]|[]|[]|]; simpl in *; destruct Hr; try done; lia.
Qed.

(** What a section keeps, whoever takes it. *)
Record section_kept (c c' : caller) (s s' : RefreshingJWKS * W) : Prop := {
  sk_caller : caller_ok (jks_lastFetch s'.1) (clock s'.2) c';
  sk_last : jks_lastFetch s.1 ≤ jks_lastFetch s'.1 ≤ clock s'.2;
  sk_time : clock s.2 ≤ clock s'.2;
  sk_keys : jks_keys s'.1 = jks_keys s.1 ∨ fetched_keys (jks_keys s'.1);
  sk_min : jks_minRefreshInterval s'.1 = jks_minRefreshInterval s.1;
  sk_mutex : jks_lastFetch s'.1 = jks_lastFetch s.1 ∨ refreshing c = true;
  sk_fetches : fetches s'.2 - fetches s.2 =
    Z.of_nat (cl_asked c') + Z.of_nat (cl_renewed c') - (Z.of_nat (cl_asked c) + Z.of_nat (cl_renewed c));
}.

(** A section that leaves the provider as it was. *)
Lemma quiet_kept c c' s s' :
  s'.1 = s.1 → clock s.2 ≤ clock s'.2 → jks_lastFetch s.1 ≤ clock s.2 →
  caller_ok (jks_lastFetch s.1) (clock s'.2) c' →
  fetches s'.2 - fetches s.2 =
    Z.of_nat (cl_asked c') + Z.of_nat (cl_renewed c') - (Z.of_nat (cl_asked c) + Z.of_nat (cl_renewed c)) →
  section_kept c c' s s'.
Proof. intros E Ht Hl Hc Hf. split; rewrite ?E; try done; [lia|by left|by left]. Qed.

(** The end of a refresh. *)
Lemma stored_kept c s s' resp now g r :
  stored resp now s s' → jks_lastFetch s.1 ≤ now →
  Z.of_nat (cl_asked c) * minimal ≤ now - first → refreshing c = true →
  (∀ a, resp = Some a → ∃ url etag modified w0 w1, jwks_fetch url etag modified w0 = (Ok a, w1)) →
  section_kept c (at_phase (refreshed g r) c) s s'.
Proof.
  intros [K M A T N] Hl Hs Hr Hf. split; try done; [|lia| |by right|simpl; lia].
  - assert (H : Z.of_nat (cl_asked c) * minimal ≤ jks_lastFetch s'.1 - first) by lia.
    unfold caller_ok. simpl. destruct g as [[kid e]|]; [destruct r|]; simpl; done.
  - destruct K as [K|(a & Ha & Hp)]; [by left|right].
    destruct (Hf a Ha) as (url & etag & modified & w0 & w1 & E). by exists url, etag, modified, w0, a, w1.
Qed.

Lemma section_keeps s busy c s' c' :
  section s busy c s' c' → size (jks_keys s.1) ≠ 0%nat → jks_minRefreshInterval s.1 = minimal →
  jks_lastFetch s.1 ≤ clock s.2 → caller_ok (jks_lastFetch s.1) (clock s.2) c → section_kept c c' s s'.
Proof.
  intros H Hk Hm Hl [Hc Ha].
  destruct H as [s busy c kid key Hp Hhit|s busy c kid e Hp Hmiss|s busy c kid e may s' Hp Hcheck|s busy c Hp
    |s c g Hp|s busy c g answer s' Hp Hask|s busy c g e s' Hp Hfail|s busy c g resp now s' Hp Hclock
    |s busy c g resp now r s' Hp Hstore|s busy c kid Hp]; rewrite Hp in Hc, Ha.
  - apply quiet_kept; [done|done|done| |lia]. by split; rewrite Hp.
  - by apply quiet_kept; [done|done|done|split|simpl; lia].
  - apply check_run in Hcheck as (E1 & E2 & E3 & E4); [|done].
    apply quiet_kept; [done|done|done| |simpl; lia]. destruct may; [|by split].
    specialize (E4 eq_refl). rewrite Hm in E4. unfold Sub, min_int64, max_int64 in E4.
    split; [|done]. simpl. rewrite Nat2Z.inj_succ, Z.mul_succ_l. lia.
  - by apply quiet_kept; [done|done|done|split|simpl; lia].
  - apply quiet_kept; [done|done|done| |simpl; lia]. by split.
  - apply ask_run in Hask as (E1 & E2 & E3 & E4).
    apply quiet_kept; [done|done|done| |destruct g; simpl; lia]. split; destruct g as [[kid e]|]; simpl in *.
    + lia.
    + done.
    + destruct answer; [|done]. destruct (E4 _ eq_refl) as (w0 & w1 & E). eauto 8.
    + destruct answer; [|done]. destruct (E4 _ eq_refl) as (w0 & w1 & E). eauto 8.
  - apply (fail_stored None (clock s.2)) in Hfail; [|done].
    apply (stored_kept _ _ _ _ _ _ _ Hfail); [done| |by unfold refreshing; rewrite Hp|done].
    destruct g; lia.
  - apply clock_run in Hclock as (E1 & E2 & E3 & E4).
    apply quiet_kept; [done|lia|done| |simpl; lia]. rewrite E3. split; [|done]. destruct g; simpl in *; lia.
  - destruct Hc as [Hn Hs]. apply store_stored in Hstore; [|lia].
    apply (stored_kept _ _ _ _ _ _ _ Hstore); [lia| |by unfold refreshing; rewrite Hp|by intros a [= <-]].
    destruct g; lia.
  - by apply quiet_kept; [done|done|done|split|simpl; lia].
Qed.

(** Only who gets [refreshMu] when nobody has it starts to refresh. *)
Lemma section_mutex s busy c s' c' :
  section s busy c s' c' → refreshing c' = true → refreshing c = true ∨ busy = false.
Proof.
  intros H. unfold refreshing. destruct H as [? ? ? ? ? Hp|? ? ? ? ? Hp|? ? ? ? ? [] ? Hp|? ? ? Hp|? ? ? Hp
    |? ? ? ? ? ? Hp|? ? ? ? ? ? Hp|? ? ? ? ? ? ? Hp|? ? ? ? ? ? ? ? Hp|? ? ? ? Hp]; simpl; rewrite ?Hp; auto;
    by repeat case_match.
Qed.

Lemma refreshing_none (l : list caller) : existsb refreshing l = false ↔ List.filter refreshing l = [].
Proof. induction l as [|c l IH]; simpl; [done|]. destruct (refreshing c); simpl; [done|exact IH]. Qed.

Lemma step_keeps keys0 n fetches0 x y :
  system_ok keys0 n fetches0 x → jwks_step x y → system_ok keys0 n fetches0 y.
Proof.
  intros [[K1 K2] M L C X N F] Hstep.
  destruct Hstep as [s l1 c l2 s' c' Hsec|j w w' callers Ht Hf]; simpl in *.
  2:{ split; simpl; try done; [lia| |lia]. eapply Forall_impl; [exact C|]. intros c Hc.
      eapply other_ok; [exact Hc|lia|lia|by left]. }
  apply Forall_app in C as [C1 [Cc C2]%Forall_cons].
  destruct (section_keeps _ _ _ _ _ Hsec K2 M (proj2 L) Cc) as [S1 S2 S3 S4 S5 S6 S7].
  rewrite List.filter_app, length_app in X. simpl in X.
  assert (Hothers : refreshing c = true → existsb refreshing (l1 ++ l2) = false).
  { intros Hr. rewrite Hr in X. simpl in X. apply refreshing_none. rewrite List.filter_app.
    destruct (List.filter refreshing l1), (List.filter refreshing l2); simpl in X; done || lia. }
  assert (Hstay : ∀ o, o ∈ l1 ++ l2 → caller_ok (jks_lastFetch s.1) (clock s.2) o →
    caller_ok (jks_lastFetch s'.1) (clock s'.2) o).
  { intros o Ho Hok. eapply other_ok; [exact Hok|lia|lia|]. destruct S6 as [?|Hr]; [by left|right].
    apply not_true_is_false. intros Ht. apply not_true_iff_false in Hothers; [|done]. apply Hothers.
    apply existsb_exists. exists o. split; [by apply list_elem_of_In|done]. }
  rewrite Forall_forall in C1, C2. split; simpl.
  - destruct S4 as [->|Hk]; [done|]. split; [by right|by apply fetched_keys_some].
  - congruence.
  - lia.
  - apply Forall_app. split; [|constructor; [done|]]; apply Forall_forall; intros o Ho;
      (apply Hstay; [set_solver|auto]).
  - rewrite List.filter_app, length_app. simpl. destruct (refreshing c') eqn:Hr'; simpl; [|destruct (refreshing c); simpl in X; lia].
    destruct (section_mutex _ _ _ _ _ Hsec Hr') as [Hr|Hb]; [rewrite Hr in X; simpl in X; lia|].
    apply refreshing_none in Hb. rewrite List.filter_app in Hb. apply app_nil in Hb as [-> ->]. simpl. lia.
  - rewrite <- N, !length_app. done.
  - unfold total in *. rewrite !sum_list_with_app in *. simpl in *. lia.
Qed.
End bounded.

(** C38. Tokens cannot make a caller flood its provider, nor empty its keys. Goroutines look up keys
    at the same time, each between the code's locks, while a timer refreshes and time passes:
    once there are keys, each of them has made, for keys that were missing, at most one
    request per minimal interval since the last request before, so that [n] of them make at most
    [n] times as many; all requests are those and the timer's; at most one is refreshing; and the
    keys are those there were or all of a document the provider gave. The bound is per
    goroutine: nothing keeps those that missed together from asking one after the other. *)
Theorem key_misses_bounded (j : RefreshingJWKS) (w : W) (n : nat) (x : jwks_system) :
  size (jks_keys j) ≠ 0%nat → jks_lastFetch j ≤ clock w →
  rtc jwks_step ((j, w), replicate n (Caller Idle 0 0)) x →
  let minimal := jks_minRefreshInterval j in
  let asked := Z.of_nat (sum_list_with cl_asked x.2) in
  let renewed := Z.of_nat (sum_list_with cl_renewed x.2) in
  (∀ c, c ∈ x.2 → Z.of_nat (cl_asked c) * minimal ≤ clock x.1.2 - jks_lastFetch j) ∧
  asked * minimal ≤ Z.of_nat n * (clock x.1.2 - jks_lastFetch j) ∧
  fetches x.1.2 = fetches w + asked + renewed ∧
  (length (List.filter refreshing x.2) ≤ 1)%nat ∧
  (jks_keys x.1.1 = jks_keys j ∨ fetched_keys (jks_keys x.1.1)) ∧ size (jks_keys x.1.1) ≠ 0%nat.
Proof.
  intros Hk Ht Hsteps minimal asked renewed.
  assert (H0 : system_ok minimal (jks_lastFetch j) (jks_keys j) n (fetches w) ((j, w), replicate n (Caller Idle 0 0))).
  { split; simpl; try done; [by split; [left|]| | |by rewrite length_replicate|].
    - apply Forall_replicate. split; simpl; lia.
    - clear. induction n as [|n IH]; simpl; [lia|done].
    - replace (total cl_asked (replicate n (Caller Idle 0 0))) with 0%nat by (clear; by induction n).
      replace (total cl_renewed (replicate n (Caller Idle 0 0))) with 0%nat by (clear; by induction n). lia. }
  assert (Hx : system_ok minimal (jks_lastFetch j) (jks_keys j) n (fetches w) x).
  { clear -Hsteps H0 clock_reads fetch_counts. revert H0. induction Hsteps as [|a b d Hab _ IH]; [done|].
    intros Ha. by eapply IH, step_keeps. }
  destruct Hx as [[K1 K2] M L C X N F].
  assert (Hall : ∀ c, c ∈ x.2 → Z.of_nat (cl_asked c) * minimal ≤ clock x.1.2 - jks_lastFetch j).
  { intros c Hc. rewrite Forall_forall in C. destruct (C c Hc) as [H _].
    destruct (cl_phase c) as [| |[]|[]|[]|[]|]; simpl in H; lia. }
  split_and!; try done; [|unfold total in F; lia].
  subst asked. rewrite <- N. clear -Hall. induction x.2 as [|c l IH]; simpl; [lia|].
  pose proof (Hall c ltac:(left)). assert (IHl := IH ltac:(set_solver)). rewrite Nat2Z.inj_add. lia.
Qed.
End concurrent.

(** ** A provider, and its tokens *)

#[local] Instance idp_runtime : GoRuntime := plain_runtime.
#[local] Instance idp_floats : FloatText := {| float_v _ := "1.5"; float_json _ := Ok "1.5" |}.
#[local] Instance idp_upper : UnicodeUpper := {| ToUpper s := s |}.
#[local] Instance idp_rsa : RSA := {| VerifyPKCS1v15 _ _ _ := false |}.

Definition idp_claims : object :=
  [("iss", VString "https://idp.acme"); ("sub", VString "alice"); ("aud", VArray [VString "forge"; VString "web"]);
   ("exp", VFloat (float_of_Z 1700000600)); ("groups", VArray [VString "dev"; VString ""]);
   ("kernloom_scope", VObject [("org", VString "acme")]); ("stage", VString "prod")].

(** A header names its algorithm; a document of keys holds two, one of them for encryption. *)
#[local] Instance idp_decoders : JWTDecoders := {|
  decode_JWTHeader text := Ok (text, "");
  decode_Claims _ := Ok idp_claims;
  decode_JWKS _ := Ok [{| jwk_Kty := "RSA"; jwk_Kid := "2025"; jwk_Use := ""; jwk_Alg := "RS256"; jwk_N := "AQAB"; jwk_E := "AQAB" |};
                       {| jwk_Kty := "RSA"; jwk_Kid := "enc"; jwk_Use := "enc"; jwk_Alg := ""; jwk_N := ""; jwk_E := "" |}];
  decode_ContextBindings _ := Ok [];
|}.

Definition idp_verifier : JWTVerifier unit := {|
  jwt_Issuer := "https://idp.acme"; jwt_Audience := "forge"; jwt_HMACSecret := "s3cret"; jwt_RSAPublicKey := None;
  jwt_RSAPublicKeys := ∅; jwt_RSAPublicKeySource := None; jwt_AllowMissingRoles := false |}.
Definition idp_clock : io unit time := lift (Ok ((1700000000 + 62135596800) * second)).

Definition idp_signed : string := Base64.encode "HS256" +:+ "." +:+ Base64.encode "{claims}".
Definition idp_token : string := idp_signed +:+ "." +:+ Base64.encode (Hmac.sum "s3cret" idp_signed).

Lemma idp_token_accepted : (λ p, (p_Subject p, p_Roles p, sc_Org (p_Scope p), sc_Stage (p_Scope p))) <$>
  (JWT_Verify idp_clock idp_verifier idp_token tt).1 = Ok ("alice", ["dev"], "acme", "prod").
Proof. vm_compute. reflexivity. Qed.

Lemma JWT_Verify_sound_witness : ∃ p s' now claims,
  JWT_Verify idp_clock idp_verifier idp_token tt = (Ok p, s') ∧ p_Subject p = "alice" ∧
  claims_valid idp_verifier now claims ∧ p_Roles p = rolesFromClaims claims.
Proof.
  pose proof idp_token_accepted as Hp.
  destruct (JWT_Verify idp_clock idp_verifier idp_token tt) as [[p|] s'] eqn:E; [|discriminate Hp].
  destruct (JWT_Verify_sound idp_clock idp_verifier idp_token tt p s' E)
    as (header & payload & signature & alg & kid & hb & actual & pb & claims & now & s1 & s2 & _ & _ & _ & _ & _ & _ & _ & _
        & Hv & _ & _ & _ & Hr & _).
  exists p, s', now, claims. split; [reflexivity|]. split; [|split; [exact Hv|exact Hr]].
  cbn [fst fmap result_fmap] in Hp. injection Hp as Hs _ _ _. exact Hs.
Defined.

(** Members of a group become reviewers of a stage. *)
Definition idp_binding : ContextBinding := {|
  ctb_ID := "reviewers"; ctb_Source := "oidc"; ctb_Issuer := "https://idp.acme"; ctb_Audience := "";
  ctb_Claim := "groups"; ctb_Contains := VString "dev"; ctb_Equals := VNil;
  ctb_MapsTo := [("subject.role", VString "reviewer"); ("scope.stage", VString "staging"); ("team", VString "edge")] |}.

Definition idp_bound := ContextBinding_Verify (Some (JWT_Verify idp_clock idp_verifier)) [idp_binding] true idp_token tt.

Lemma idp_bound_accepted : (λ p, (p_Roles p, sc_Org (p_Scope p), sc_Stage (p_Scope p))) <$> idp_bound.1 =
  Ok (["dev"; "reviewer"], "acme", "staging").
Proof. vm_compute. reflexivity. Qed.

Lemma ContextBinding_Verify_sound_witness : ∃ p p' s',
  JWT_Verify idp_clock idp_verifier idp_token tt = (Ok p, s') ∧ idp_bound = (Ok p', s') ∧
  p_Roles p' = ["dev"; "reviewer"] ∧ p_Subject p' = p_Subject p ∧
  ∃ b, b ∈ [idp_binding] ∧ contextBindingMatches (p_Claims p) b = true.
Proof.
  pose proof idp_bound_accepted as Hp. destruct idp_bound as [[p'|] s'] eqn:E; [|discriminate Hp].
  destruct (ContextBinding_Verify_sound _ _ _ _ _ _ _ E) as (verify & p & Hi & Hv & Hs & _ & _ & _ & Hm).
  injection Hi as <-. exists p, p', s'. split; [exact Hv|]. split; [reflexivity|].
  split; [cbn [fst fmap result_fmap] in Hp; injection Hp as Hr _ _; exact Hr|]. split; [exact Hs|].
  destruct Hm as [Hm|[_ Hf]]; [exact Hm|discriminate Hf].
Defined.

(** *** Its keys *)

(** The time and the number of requests; the provider answers after a second. *)
#[local] Instance idp_world : JWKSWorld (Z * Z) := {|
  jwks_now w := (w.1, w);
  jwks_fetch _ _ _ w := (Ok {| jr_Code := 200; jr_Status := "200 OK"; jr_Body := Ok "{keys}"; jr_ETag := "v2";
                               jr_LastModified := ""; jr_CacheControl := "public, max-age=60" |}, (w.1 + second, w.2 + 1));
|}.
Definition idp_jwks : RefreshingJWKS := {|
  jks_url := "https://idp.acme/keys"; jks_refreshInterval := 600 * second; jks_minRefreshInterval := 30 * second;
  jks_keys := {["2024" := {| rsa_N := 65537; rsa_E := 65537 |}]}; jks_etag := "v1"; jks_modified := "";
  jks_lastFetch := 1000 * second; jks_lastOK := 1000 * second; jks_lastErr := None |}.
Definition lookups (kids : list string) (s : RefreshingJWKS * (Z * Z)) : RefreshingJWKS * (Z * Z) :=
  fold_left (λ s kid, (Key kid s).2) kids s.
Definition idp_misses := lookups ["2025"; "2024"; "forged"; "forged"; "forged"] (idp_jwks, (1040 * second, 0)).

(** One after the other, one request is made for the five: the key the provider has by now is found. *)
Lemma idp_misses_once : (idp_misses.2, jks_etag idp_misses.1, jks_refreshInterval idp_misses.1,
  rsa_E <$> jks_keys idp_misses.1 !! "2025", size (jks_keys idp_misses.1)) =
  ((1041 * second, 1), "v2", 60 * second, Some 65537, 1%nat).
Proof. vm_compute. reflexivity. Qed.

Lemma idp_clock_reads (w : Z * Z) : w.1 ≤ (jwks_now w).1 ∧ (jwks_now w).2.1 = (jwks_now w).1 ∧ (jwks_now w).2.2 = w.2.
Proof. cbn. auto with lia. Qed.
Lemma idp_fetch_counts url etag modified (w : Z * Z) :
  w.1 ≤ (jwks_fetch url etag modified w).2.1 ∧ (jwks_fetch url etag modified w).2.2 = w.2 + 1.
Proof. cbn. unfold second. lia. Qed.

(** Three goroutines look for a key that is not there. *)
Definition idp_start : RefreshingJWKS * (Z * Z) * list caller :=
  ((idp_jwks, (1040 * second, 0)), replicate 3 (Caller Idle 0 0)).

Definition idp_order : list nat := [0; 1; 2; 0; 1; 2; 0; 0; 0; 0; 1; 1; 1; 1; 2; 2; 2; 2]%nat.

(** All of them may ask, and do, one request after the other: three in three seconds, with a
    minimal interval of thirty. *)
Lemma three_ask : ∃ x, rtc (jwks_step fst snd) idp_start x ∧ x.1.2 = (1043 * second, 3) ∧
  (cl_asked <$> x.2) = [1; 1; 1]%nat.
Proof.
  assert (H0 : (λ x : RefreshingJWKS * (Z * Z) * list caller, (x.1.2, cl_asked <$> x.2)) <$> schedule "forged" idp_order idp_start =
    Some ((1043 * second, 3), [1; 1; 1]%nat)) by (vm_compute; reflexivity).
  destruct (schedule "forged" idp_order idp_start) as [x|] eqn:H; [|discriminate H0].
  injection H0 as H1 H2. exists x. split; [|split; [exact H1|exact H2]].
  by apply (schedule_steps fst snd "forged" idp_order).
Qed.

Lemma key_misses_bounded_witness :
  ∃ x, rtc (jwks_step fst snd) idp_start x ∧ (cl_asked <$> x.2) = [1; 1; 1]%nat ∧
    (∀ c, c ∈ x.2 → Z.of_nat (cl_asked c) * (30 * second) ≤ x.1.2.1 - 1000 * second) ∧
    x.1.2.2 = 0 + Z.of_nat (sum_list_with cl_asked x.2) + Z.of_nat (sum_list_with cl_renewed x.2) ∧
    size (jks_keys x.1.1) ≠ 0%nat.
Proof.
  destruct three_ask as (x & Hx & _ & Ha). exists x. split; [exact Hx|]. split; [exact Ha|].
  destruct (key_misses_bounded fst snd idp_clock_reads idp_fetch_counts idp_jwks (1040 * second, 0) 3 x)
    as (H1 & _ & H2 & _ & _ & H3).
  - vm_compute. discriminate.
  - vm_compute. discriminate.
  - exact Hx.
  - split; [exact H1|]. split; [exact H2|exact H3].
Defined.
