(* ===== verification/Authz.v ===== *)
(** * What a caller may do ([internal/api/authz])

    Roles, scopes and the authorizer every handler of Forge asks. *)

From stdpp Require Import options.
From S2P Require Import Prelude GoStrings Authn.

Definition ErrForbidden : error := Sentinel "forbidden".

Definition RolePolicyAuthor : string := "policy-author".
Definition RolePolicyReviewer : string := "policy-reviewer".
Definition RoleSecurityOwner : string := "security-owner".
Definition RolePlatformOwner : string := "platform-owner".
Definition RoleAdapterOwner : string := "adapter-owner".
Definition RoleRiskOwner : string := "risk-owner".
Definition RoleConformanceReviewer : string := "conformance-reviewer".
Definition RoleOperator : string := "operator".
Definition RoleReadOnlyViewer : string := "read-only-viewer".
Definition RoleBreakGlassApprover : string := "break-glass-approver".
Definition RoleKLIQService : string := "kliq-service".

Record AuthzRequest := {
  rq_Action : string;
  rq_AllowedRoles : list string;
  rq_Scope : Scope;
}.

Fixpoint hasAnyRole (principal : Principal) (roles : list string) : bool :=
  match roles with
  | [] => false
  | role :: roles => if HasRole principal role then true else hasAnyRole principal roles
  end.

Definition fieldAllows (principalValue requestedValue : string) : bool :=
  if empty_str requestedValue || empty_str principalValue || (principalValue ==s "*") then true
  else principalValue ==s requestedValue.

Definition scopeAllows (principal requested : Scope) : bool :=
  fieldAllows (sc_Org principal) (sc_Org requested) &&
  fieldAllows (sc_Environment principal) (sc_Environment requested) &&
  fieldAllows (sc_Stage principal) (sc_Stage requested) &&
  fieldAllows (sc_PolicyType principal) (sc_PolicyType requested) &&
  fieldAllows (sc_Resource principal) (sc_Resource requested) &&
  fieldAllows (sc_Adapter principal) (sc_Adapter requested) &&
  fieldAllows (sc_Repo principal) (sc_Repo requested).

Definition Authorize (principal : Principal) (req : AuthzRequest) : result unit :=
  reject empty_str (p_Subject principal) with ErrForbidden;;
  reject (0 <? Z.of_nat (length (rq_AllowedRoles req)))%Z
         && negb (hasAnyRole principal (rq_AllowedRoles req))
    with Wrapf "%w: role does not allow %s" [AStr (rq_Action req)] ErrForbidden;;
  reject negb (scopeAllows (p_Scope principal) (rq_Scope req))
    with Wrapf "%w: scope does not allow %s" [AStr (rq_Action req)] ErrForbidden;;
  Ok tt.

Definition SimulationSubmitRoles : list string :=
  [RolePolicyAuthor; RolePolicyReviewer; RoleSecurityOwner; RolePlatformOwner; RoleOperator].
Definition JobReadRoles : list string :=
  [RolePolicyAuthor; RolePolicyReviewer; RoleSecurityOwner; RolePlatformOwner; RoleAdapterOwner;
   RoleRiskOwner; RoleConformanceReviewer; RoleOperator; RoleReadOnlyViewer;
   RoleBreakGlassApprover].
Definition KLIQManageRoles : list string := [RoleSecurityOwner; RolePlatformOwner; RoleOperator].
Definition KLIQReadRoles : list string :=
  [RoleSecurityOwner; RolePlatformOwner; RoleOperator; RoleReadOnlyViewer].
Definition PolicyBuildApproveRoles : list string :=
  [RolePolicyReviewer; RoleSecurityOwner; RolePlatformOwner; RoleBreakGlassApprover].
Definition ValidationSubmitRoles : list string :=
  [RolePolicyAuthor; RolePolicyReviewer; RoleSecurityOwner; RolePlatformOwner; RoleOperator].

(** ** What authorization means *)

(** A field of a principal's scope covers a requested value: it is unrestricted,
    the value is not given, or they are the same. *)
Definition covers (principalValue requestedValue : string) : Prop :=
  requestedValue = "" ∨ principalValue = "" ∨ principalValue = "*" ∨
  principalValue = requestedValue.

Lemma fieldAllows_iff p r : fieldAllows p r = true ↔ covers p r.
Proof.
  unfold fieldAllows, covers.
  destruct (String.eqb_spec r ""), (String.eqb_spec p ""), (String.eqb_spec p "*");
    simpl; try tauto.
  rewrite String.eqb_eq. tauto.
Qed.

Definition in_scope (p r : Scope) : Prop :=
  covers (sc_Org p) (sc_Org r) ∧ covers (sc_Environment p) (sc_Environment r) ∧
  covers (sc_Stage p) (sc_Stage r) ∧ covers (sc_PolicyType p) (sc_PolicyType r) ∧
  covers (sc_Resource p) (sc_Resource r) ∧ covers (sc_Adapter p) (sc_Adapter r) ∧
  covers (sc_Repo p) (sc_Repo r).

Lemma scopeAllows_iff p r : scopeAllows p r = true ↔ in_scope p r.
Proof.
  unfold scopeAllows, in_scope. rewrite !andb_true_iff, !fieldAllows_iff. tauto.
Qed.

Lemma hasAnyRole_iff p roles :
  hasAnyRole p roles = true ↔ ∃ role, role ∈ roles ∧ role ∈ p_Roles p.
Proof.
  induction roles as [|r roles IH]; simpl; [set_solver|].
  destruct (HasRole p r) eqn:E.
  - apply HasRole_elem in E. set_solver.
  - rewrite IH. assert (r ∉ p_Roles p) by (rewrite <- HasRole_elem; congruence). set_solver.
Qed.

(** A subject that holds one of the roles (if any is asked for) and whose scope
    covers the request. *)
Definition may (principal : Principal) (roles : list string) (scope : Scope) : Prop :=
  p_Subject principal ≠ "" ∧
  (roles = [] ∨ ∃ role, role ∈ roles ∧ role ∈ p_Roles principal) ∧
  in_scope (p_Scope principal) scope.

Lemma Authorize_iff principal req :
  Authorize principal req = Ok tt ↔ may principal (rq_AllowedRoles req) (rq_Scope req).
Proof.
  unfold Authorize, may. rewrite <- scopeAllows_iff, <- hasAnyRole_iff.
  destruct (String.eqb_spec (p_Subject principal) "") as [->|]; [naive_solver|].
  destruct (hasAnyRole _ _), (scopeAllows _ _), (rq_AllowedRoles req); simpl; naive_solver.
Qed.

Lemma Authorize_Err principal req e :
  Authorize principal req = Err e → error_is e ErrForbidden = true.
Proof. unfold Authorize. repeat (case_match; [by intros [= <-]|]). done. Qed.
