(* ===== verification/Management.v ===== *)
(** * Forge's management records and store interface ([internal/forge/management])

    The records Forge keeps about KLIQs ([internal/core/domain/assignment.go]),
    the rules both implementations of the store share ([store.go]: digests and
    identifiers, validation of trust bundles) and the interface [Store]. *)

From stdpp Require Import options.
From stdpp Require Import gmap.
From S2P Require Import Prelude IO GoStrings GoTime GoDuration GoJson GoEncoding Signing Domain.
#[local] Open Scope Z_scope.

(** ** Records *)

Record KLIQRevocation := {
  rv_RevocationID : string;
  rv_TargetType : string;
  rv_TargetID : string;
  rv_Reason : string;
  rv_CreatedAt : time;
  rv_CreatedBy : string;
}.

Record ManagementAuditEvent := {
  ev_EventID : string;
  ev_EventType : string;
  ev_Actor : string;
  ev_TargetType : string;
  ev_TargetID : string;
  ev_KLIQID : string;
  ev_Environment : string;
  ev_Stage : string;
  ev_Scope : string;
  ev_Metadata : gmap string json;
  ev_CreatedAt : time;
}.

Record KLIQHeartbeat := {
  hb_KLIQID : string;
  hb_Environment : string;
  hb_Stage : string;
  hb_Scope : string;
  hb_Version : string;
  hb_AssignmentID : string;
  hb_AssignmentVersion : Z;
  hb_BundleID : string;
  hb_SourceCommit : string;
  hb_Status : string;
  hb_Findings : list string;
  hb_ReportedAt : time;
}.

Record KLIQStatusReport := {
  sr_KLIQID : string;
  sr_Environment : string;
  sr_Stage : string;
  sr_Scope : string;
  sr_AssignmentID : string;
  sr_AssignmentVersion : Z;
  sr_BundleID : string;
  sr_SourceCommit : string;
  sr_Status : string;
  sr_Findings : list string;
  sr_RuntimeActions : Z;
  sr_PendingAudits : Z;
  sr_AdapterHealth : list string;
  sr_RuntimeSummary : string;
  sr_AuditSpoolState : string;
  sr_ReportedAt : time;
}.

Record KLIQAuditUpload := {
  up_KLIQID : string;
  up_Environment : string;
  up_Stage : string;
  up_Scope : string;
  up_AuditRecordID : string;
  up_RuntimeActionID : string;
  up_Payload : string;
  up_PayloadSHA256 : string;
  up_CreatedAt : time;
  up_UploadedAt : time;
}.

Record KLIQAuditUploadAck := {
  ack_Status : string;
  ack_AuditRecordID : string;
  ack_AckID : string;
  ack_AckedAt : time;
}.

(** ** The context of a request

    [WithAuditActor] and [WithAuditMetadata]: who calls, and what its audit
    events say in addition. *)
Record AuditContext := {
  cx_Actor : string;
  cx_Metadata : gmap string json;
}.
Definition no_context : AuditContext := {| cx_Actor := ""; cx_Metadata := ∅ |}.
Definition WithAuditActor (ctx : AuditContext) (actor : string) : AuditContext :=
  if empty_str actor then ctx else {| cx_Actor := actor; cx_Metadata := cx_Metadata ctx |}.
Definition WithAuditMetadata (ctx : AuditContext) (metadata : gmap string json) : AuditContext :=
  if decide (size metadata = 0%nat) then ctx else {| cx_Actor := cx_Actor ctx; cx_Metadata := metadata |}.
(** [auditMetadata(ctx, extra)]: what the call adds wins. *)
Definition auditMetadata (ctx : AuditContext) (extra : gmap string json) : gmap string json :=
  extra ∪ cx_Metadata ctx.

(** [map[string]any{...}] *)
Definition metadata_of (l : list (string * json)) : gmap string json := list_to_map l.

(** ** Identifiers and digests *)

Definition ErrNotFound : error := Sentinel "kliq management record not found".

Definition TokenSHA256 (secret : string) : string := SHA256JSON secret.

Definition StableKLIQID (nodeID environment stage scope : string) : string :=
  "kliq." +:+ shortHash (join NUL [nodeID; environment; stage; scope]).

Definition assignmentDigest (envelope : SignedEnvelope) : string :=
  if env_PayloadSHA256 envelope !=s "" then env_PayloadSHA256 envelope
  else SHA256JSON (env_Payload envelope).

(** [fmt.Sprintf("%s:%d", kliqID, version)] *)
Definition assignment_target (kliqID : string) (version : Z) : string :=
  kliqID +:+ ":" +:+ pretty version.

(** Two's complement: what [int64] arithmetic leaves. *)
Definition to_int64 (z : Z) : Z := (z + 2 ^ 63) mod 2 ^ 64 - 2 ^ 63.

(** What the event's identifier hashes, and the identifier. *)
Definition event_id (e : ManagementAuditEvent) : string :=
  "management_audit_event." +:+
  shortHash (ev_EventType e +:+ ev_TargetType e +:+ ev_TargetID e +:+ time_string (ev_CreatedAt e)).

Definition revocation_id (text : string) : string := "revocation." +:+ shortHash text.

(** ** Trust bundles *)

Definition validTrustBundlePurpose (purpose : string) : bool :=
  let purpose := trim_space purpose in
  (purpose ==s "assignment_verification") || (purpose ==s "artifact_verification").

Definition validateNewTrustBundle (bundle : TrustBundle) : result unit :=
  let id := AStr (tb_KeyID bundle) in
  reject blank (tb_KeyID bundle) with Errorf "trust bundle requires key_id" [];;
  reject blank (tb_PublicKey bundle) with Errorf "trust bundle %q requires public_key" [id];;
  reject negb (validTrustBundlePurpose (tb_Purpose bundle))
    with Errorf "trust bundle %q has unsupported purpose %q" [id; AStr (tb_Purpose bundle)];;
  let status := trim_space (tb_Status bundle) in
  if empty_str status || (status ==s "active") || (status ==s "previous") || (status ==s "revoked")
  then Ok tt
  else Err (Errorf "trust bundle %q has unsupported status %q" [id; AStr (tb_Status bundle)]).

(** Two values that are both given and differ. *)
Definition changes (existing incoming : string) : bool :=
  (existing !=s "") && (incoming !=s "") && (existing !=s incoming).

Definition validateTrustBundleUpdate (existing incoming : TrustBundle) : result unit :=
  let id := AStr (tb_KeyID incoming) in
  reject tb_KeyID existing !=s tb_KeyID incoming with Errorf "trust bundle key_id mismatch" [];;
  reject changes (tb_PublicKey existing) (tb_PublicKey incoming)
    with Errorf "trust bundle %q public key cannot be replaced without explicit rotation" [id];;
  reject changes (tb_Purpose existing) (tb_Purpose incoming)
    with Errorf "trust bundle %q purpose cannot be changed without explicit rotation" [id];;
  reject changes (tb_Issuer existing) (tb_Issuer incoming)
    with Errorf "trust bundle %q issuer cannot be changed without explicit rotation" [id];;
  reject negb (IsZero (tb_ExpiresAt incoming)) && negb (IsZero (tb_ExpiresAt existing)) &&
         After (tb_ExpiresAt incoming) (tb_ExpiresAt existing)
    with Errorf "trust bundle %q expiry cannot be silently extended" [id];;
  let old := tb_Status existing in
  let new := tb_Status incoming in
  if empty_str old || (old ==s "active") || (old ==s "previous") then
    if empty_str new || (new ==s old) || (new ==s "active") || (new ==s "previous")
       || (new ==s "revoked") then
      reject (old ==s "previous") && (new ==s "active")
        with Errorf
          "trust bundle %q cannot move from previous to active without explicit rotation" [id];;
      Ok tt
    else Err (Errorf "trust bundle %q has invalid status transition %q to %q"
                [id; AStr old; AStr new])
  else if old ==s "revoked" then
    reject new !=s "revoked"
      with Errorf "trust bundle %q is revoked and cannot be reactivated" [id];;
    Ok tt
  else Err (Errorf "trust bundle %q has unsupported existing status %q" [id; AStr old]).

Definition tb_with_Status (status : string) (b : TrustBundle) : TrustBundle := {|
  tb_KeyID := tb_KeyID b; tb_PublicKey := tb_PublicKey b; tb_Purpose := tb_Purpose b;
  tb_Status := status; tb_ExpiresAt := tb_ExpiresAt b; tb_Issuer := tb_Issuer b |}.

(** [if bundle.Status == "" { bundle.Status = "active" }] *)
Definition or_active (b : TrustBundle) : TrustBundle :=
  if empty_str (tb_Status b) then tb_with_Status "active" b else b.

(** ** Updates of records *)

Definition et_with_secret (hash : string) (created : time) (t : KLIQEnrollmentToken)
    : KLIQEnrollmentToken := {|
  et_TokenID := et_TokenID t; et_TokenSHA256 := hash; et_Environment := et_Environment t;
  et_Stage := et_Stage t; et_Scope := et_Scope t; et_ExpiresAt := et_ExpiresAt t;
  et_CreatedAt := created; et_UsedAt := et_UsedAt t; et_RevokedAt := et_RevokedAt t;
  et_RevokedReason := et_RevokedReason t |}.
Definition et_with_use (used : time) (t : KLIQEnrollmentToken) : KLIQEnrollmentToken := {|
  et_TokenID := et_TokenID t; et_TokenSHA256 := et_TokenSHA256 t;
  et_Environment := et_Environment t; et_Stage := et_Stage t; et_Scope := et_Scope t;
  et_ExpiresAt := et_ExpiresAt t; et_CreatedAt := et_CreatedAt t; et_UsedAt := used;
  et_RevokedAt := et_RevokedAt t; et_RevokedReason := et_RevokedReason t |}.
Definition et_with_revocation (revoked : time) (reason : string) (t : KLIQEnrollmentToken)
    : KLIQEnrollmentToken := {|
  et_TokenID := et_TokenID t; et_TokenSHA256 := et_TokenSHA256 t;
  et_Environment := et_Environment t; et_Stage := et_Stage t; et_Scope := et_Scope t;
  et_ExpiresAt := et_ExpiresAt t; et_CreatedAt := et_CreatedAt t; et_UsedAt := et_UsedAt t;
  et_RevokedAt := revoked; et_RevokedReason := reason |}.

Definition or_default (value default : string) : string :=
  if empty_str value then default else value.

(** The defaults [Register] fills in. *)
Definition complete_identity (kliqID : string) (registered : time) (i : KLIQIdentity)
    : KLIQIdentity := {|
  id_IdentityID := or_default (id_IdentityID i) ("kliq_identity." +:+ kliqID);
  id_KLIQID := id_KLIQID i; id_NodeID := id_NodeID i; id_Environment := id_Environment i;
  id_Stage := id_Stage i; id_Scope := id_Scope i; id_TrustKeyID := id_TrustKeyID i;
  id_PublicKeyPEM := id_PublicKeyPEM i; id_CSRPEM := id_CSRPEM i;
  id_ServiceIdentityProvider := or_default (id_ServiceIdentityProvider i) "spiffe-ready";
  id_SPIFFEID := id_SPIFFEID i;
  id_CredentialStatus := or_default (id_CredentialStatus i) "active";
  id_CredentialExpiresAt := id_CredentialExpiresAt i;
  id_Status := or_default (id_Status i) "active";
  id_IssuedAt := if IsZero (id_IssuedAt i) then registered else id_IssuedAt i;
  id_RevokedAt := id_RevokedAt i; id_RevokedReason := id_RevokedReason i |}.

Definition complete_registration (r : KLIQRegistration) : KLIQRegistration := {|
  reg_RegistrationID := reg_RegistrationID r; reg_KLIQID := reg_KLIQID r;
  reg_NodeID := reg_NodeID r; reg_Environment := reg_Environment r; reg_Stage := reg_Stage r;
  reg_Scope := reg_Scope r; reg_Version := reg_Version r;
  reg_AdapterInventory := reg_AdapterInventory r; reg_Capabilities := reg_Capabilities r;
  reg_AttestationState := reg_AttestationState r;
  reg_Identity := complete_identity (reg_KLIQID r) (reg_RegisteredAt r) (reg_Identity r);
  reg_ManagementProfile := reg_ManagementProfile r;
  reg_Status := or_default (reg_Status r) "active";
  reg_RegisteredAt := reg_RegisteredAt r; reg_RevokedAt := reg_RevokedAt r;
  reg_RevokedReason := reg_RevokedReason r |}.

Definition revoke_identity (revoked : time) (reason : string) (i : KLIQIdentity)
    : KLIQIdentity := {|
  id_IdentityID := id_IdentityID i; id_KLIQID := id_KLIQID i; id_NodeID := id_NodeID i;
  id_Environment := id_Environment i; id_Stage := id_Stage i; id_Scope := id_Scope i;
  id_TrustKeyID := id_TrustKeyID i; id_PublicKeyPEM := id_PublicKeyPEM i; id_CSRPEM := id_CSRPEM i;
  id_ServiceIdentityProvider := id_ServiceIdentityProvider i; id_SPIFFEID := id_SPIFFEID i;
  id_CredentialStatus := "revoked"; id_CredentialExpiresAt := id_CredentialExpiresAt i;
  id_Status := "revoked"; id_IssuedAt := id_IssuedAt i; id_RevokedAt := revoked;
  id_RevokedReason := reason |}.

Definition revoke_registration (revoked : time) (reason : string) (r : KLIQRegistration)
    : KLIQRegistration := {|
  reg_RegistrationID := reg_RegistrationID r; reg_KLIQID := reg_KLIQID r;
  reg_NodeID := reg_NodeID r; reg_Environment := reg_Environment r; reg_Stage := reg_Stage r;
  reg_Scope := reg_Scope r; reg_Version := reg_Version r;
  reg_AdapterInventory := reg_AdapterInventory r; reg_Capabilities := reg_Capabilities r;
  reg_AttestationState := reg_AttestationState r; reg_Identity := reg_Identity r;
  reg_ManagementProfile := reg_ManagementProfile r; reg_Status := "revoked";
  reg_RegisteredAt := reg_RegisteredAt r; reg_RevokedAt := revoked;
  reg_RevokedReason := reason |}.

(** ** The interface

    [F] is what a call acts on: the store, and the world it reads the clock of. *)
Class ManagementStore (F : Type) := {
  mg_CreateEnrollmentToken : AuditContext → KLIQEnrollmentToken → string → io F unit;
  mg_EnrollmentToken : string → io F KLIQEnrollmentToken;
  mg_UseEnrollmentToken :
    AuditContext → string → string → string → string → time → io F KLIQEnrollmentToken;
  mg_RevokeEnrollmentToken : AuditContext → string → string → time → io F unit;
  mg_Register : AuditContext → KLIQRegistration → io F unit;
  mg_Registration : string → io F KLIQRegistration;
  mg_Identity : string → io F KLIQIdentity;
  mg_RevokeKLIQ : AuditContext → string → string → time → io F unit;
  mg_SaveTrustBundle : TrustBundle → io F unit;
  mg_TrustBundle : string → io F TrustBundle;
  mg_RotateTrustBundle : AuditContext → string → TrustBundle → string → time → io F unit;
  mg_RevokeTrustBundle : AuditContext → string → string → time → io F unit;
  mg_NextAssignmentVersion : string → io F Z;
  mg_SaveAssignment : AuditContext → string → Z → SignedEnvelope → io F unit;
  mg_LatestAssignment : AuditContext → string → io F SignedEnvelope;
  mg_RevokeAssignment : AuditContext → string → Z → string → time → io F unit;
  mg_SaveHeartbeat : KLIQHeartbeat → io F unit;
  mg_SaveStatusReport : KLIQStatusReport → io F unit;
  mg_StatusReport : string → io F KLIQStatusReport;
  mg_SaveAuditEvent : AuditContext → ManagementAuditEvent → io F unit;
  mg_AuditEvents : string → string → io F (list ManagementAuditEvent);
}.

(** ** What Forge signs and stores, as JSON text

    [json.Marshal] of assignments, their manifests and signed envelopes, by the
    struct tags of [internal/core/domain] and [internal/core/signing].  A time
    outside the years JSON can carry is an error, and a raw message is
    compacted. *)

Definition omit_map (name : string) (l : list (string * string)) : list (string * json) :=
  match l with [] => [] | _ => [(name, jmap (prod_map id JStr <$> l))] end.

Definition AssignmentProvenance_json (p : AssignmentProvenance) : json := JObj (
  omit_empty "approved_build_id" (ap_ApprovedBuildID p)
  ++ omit_empty "approved_build_digest" (ap_ApprovedBuildDigest p)
  ++ omit_map "binding_digests" (ap_BindingDigests p)
  ++ omit_map "runtime_action_digests" (ap_RuntimeActionDigests p)
  ++ omit_map "adapter_manifest_digests" (ap_AdapterManifestDigests p)).

Definition omit_provenance (p : option AssignmentProvenance) : list (string * json) :=
  match p with Some p => [("provenance", AssignmentProvenance_json p)] | None => [] end.

Definition ArtifactDigest_json (d : ArtifactDigest) : json := JObj (
  [("artifact_type", JStr (ad_ArtifactType d)); ("artifact_id", JStr (ad_ArtifactID d))]
  ++ omit_empty "artifact_ref" (ad_ArtifactRef d)
  ++ [("sha256", JStr (ad_SHA256 d))]).

Definition encode_AssignmentManifest (m : AssignmentManifest) : result string :=
  created ← json_time (am_CreatedAt m);
  expires ← json_time (am_ExpiresAt m);
  Ok (json_encode (JObj (
    [("kind", JStr (am_Kind m));
     ("assignment_id", JStr (am_AssignmentID m));
     ("assignment_version", JNum (am_AssignmentVersion m));
     ("kliq_id", JStr (am_KLIQID m));
     ("environment", JStr (am_Environment m));
     ("stage", JStr (am_Stage m));
     ("scope", JStr (am_Scope m));
     ("source_commit", JStr (am_SourceCommit m));
     ("artifacts", match am_Artifacts m with   (* nil is null *)
                   | [] => JNull
                   | artifacts => JArr (ArtifactDigest_json <$> artifacts)
                   end);
     ("trust_bundle_ref", JStr (am_TrustBundleRef m));
     ("created_at", created);
     ("expires_at", expires);
     ("approved_rollback", JBool (am_ApprovedRollback m))]
    ++ omit_provenance (am_Provenance m)))).

Section encoders.
Context {JS : JSONSyntax}.

Definition KLIQAssignedArtifact_json (a : KLIQAssignedArtifact) : result json :=
  envelope ← encode_RawMessage (aa_Envelope a);
  Ok (JObj (
    [("artifact_type", JStr (aa_ArtifactType a)); ("artifact_id", JStr (aa_ArtifactID a))]
    ++ omit_empty "artifact_ref" (aa_ArtifactRef a)
    ++ [("sha256", JStr (aa_SHA256 a)); ("envelope", envelope)])).

Definition encode_KLIQAssignment (a : KLIQAssignment) : result string :=
  created ← json_time (asg_CreatedAt a);
  expires ← json_time (asg_ExpiresAt a);
  artifacts ← mapM KLIQAssignedArtifact_json (asg_Artifacts a);
  revoked ← json_time (asg_RevokedAt a);
  Ok (json_encode (JObj (
    [("assignment_id", JStr (asg_AssignmentID a));
     ("assignment_version", JNum (asg_AssignmentVersion a));
     ("kliq_id", JStr (asg_KLIQID a));
     ("environment", JStr (asg_Environment a));
     ("stage", JStr (asg_Stage a));
     ("scope", JStr (asg_Scope a));
     ("source_commit", JStr (asg_SourceCommit a));
     ("trust_key_id", JStr (asg_TrustKeyID a));
     ("trust_bundle_ref", JStr (asg_TrustBundleRef a));
     ("created_at", created);
     ("expires_at", expires);
     ("approved_rollback", JBool (asg_ApprovedRollback a))]
    ++ (match artifacts with [] => [] | _ => [("artifacts", JArr artifacts)] end)
    ++ omit_empty "status" (asg_Status a)
    ++ [("revoked_at", revoked)]
    ++ omit_empty "revoked_reason" (asg_RevokedReason a)
    ++ omit_false "signature_valid" (asg_SignatureValid a)
    ++ omit_false "manifest_signed" (asg_ManifestSigned a)
    ++ omit_empty "manifest_digest" (asg_ManifestDigest a)
    ++ omit_false "manifest_signature_valid" (asg_ManifestSignatureValid a)
    ++ omit_provenance (asg_Provenance a)))).
End encoders.

(** The payload and signature are byte slices. *)
Definition encode_SignedEnvelope (e : SignedEnvelope) : result string :=
  signed ← json_time (env_SignedAt e);
  expires ← match env_ExpiresAt e with
            | Some t => j ← json_time t; Ok [("expires_at", j)]
            | None => Ok []
            end;
  Ok (json_encode (JObj (
    [("kind", JStr (env_Kind e));
     ("key_id", JStr (env_KeyID e));
     ("algorithm", JStr (env_Algorithm e));
     ("payload_type", JStr (env_PayloadType e));
     ("payload", JStr (Base64.std_encode (env_Payload e)));
     ("payload_sha256", JStr (env_PayloadSHA256 e));
     ("signature", JStr (Base64.std_encode (env_Signature e)));
     ("signed_at", signed)]
    ++ expires
    ++ omit_empty "source_commit" (env_SourceCommit e)
    ++ omit_empty "policy_id" (env_PolicyID e)))).
