(* ===== verification/ManagementMemory.v ===== *)
(** * Forge's store in memory ([internal/forge/management/store.go], [MemoryStore])

    Every method runs under the store's mutex: it is one step on the maps.  The
    clock is read where the code reads it. *)

From stdpp Require Import options.
From stdpp Require Import gmap.
From S2P Require Import Prelude IO GoStrings GoTime GoJson Signing Domain Management.
#[local] Open Scope Z_scope.

Record assignmentRecord := {
  ar_Version : Z;
  ar_Envelope : SignedEnvelope;
  ar_RevokedAt : time;
  ar_RevokedReason : string;
}.

Record MemoryStore := {
  m_tokensByHash : gmap string KLIQEnrollmentToken;
  m_tokensByID : gmap string KLIQEnrollmentToken;
  m_registrations : gmap string KLIQRegistration;
  m_identities : gmap string KLIQIdentity;
  m_assignments : gmap string assignmentRecord;
  m_trustBundles : gmap string TrustBundle;
  m_revocations : gmap string KLIQRevocation;
  m_auditEvents : list ManagementAuditEvent;
  m_heartbeats : gmap string KLIQHeartbeat;
  m_statusReports : gmap string KLIQStatusReport;
}.

Definition NewMemoryStore : MemoryStore := {|
  m_tokensByHash := ∅;
  m_tokensByID := ∅;
  m_registrations := ∅;
  m_identities := ∅;
  m_assignments := ∅;
  m_trustBundles := ∅;
  m_revocations := ∅;
  m_auditEvents := [];
  m_heartbeats := ∅;
  m_statusReports := ∅ |}.

(** Assignments to the fields. *)
Definition set_token (token : KLIQEnrollmentToken) (s : MemoryStore) : MemoryStore := {|
  m_tokensByHash := <[et_TokenSHA256 token := token]> (m_tokensByHash s);
  m_tokensByID := <[et_TokenID token := token]> (m_tokensByID s);
  m_registrations := m_registrations s;
  m_identities := m_identities s;
  m_assignments := m_assignments s;
  m_trustBundles := m_trustBundles s;
  m_revocations := m_revocations s;
  m_auditEvents := m_auditEvents s;
  m_heartbeats := m_heartbeats s;
  m_statusReports := m_statusReports s |}.
Definition set_registration (id : string) (r : KLIQRegistration) (i : KLIQIdentity) (s : MemoryStore) : MemoryStore := {|
  m_tokensByHash := m_tokensByHash s;
  m_tokensByID := m_tokensByID s;
  m_registrations := <[id := r]> (m_registrations s);
  m_identities := <[id := i]> (m_identities s);
  m_assignments := m_assignments s;
  m_trustBundles := m_trustBundles s;
  m_revocations := m_revocations s;
  m_auditEvents := m_auditEvents s;
  m_heartbeats := m_heartbeats s;
  m_statusReports := m_statusReports s |}.
Definition set_assignment (id : string) (r : assignmentRecord) (s : MemoryStore) : MemoryStore := {|
  m_tokensByHash := m_tokensByHash s;
  m_tokensByID := m_tokensByID s;
  m_registrations := m_registrations s;
  m_identities := m_identities s;
  m_assignments := <[id := r]> (m_assignments s);
  m_trustBundles := m_trustBundles s;
  m_revocations := m_revocations s;
  m_auditEvents := m_auditEvents s;
  m_heartbeats := m_heartbeats s;
  m_statusReports := m_statusReports s |}.
Definition set_trust (id : string) (b : TrustBundle) (s : MemoryStore) : MemoryStore := {|
  m_tokensByHash := m_tokensByHash s;
  m_tokensByID := m_tokensByID s;
  m_registrations := m_registrations s;
  m_identities := m_identities s;
  m_assignments := m_assignments s;
  m_trustBundles := <[id := b]> (m_trustBundles s);
  m_revocations := m_revocations s;
  m_auditEvents := m_auditEvents s;
  m_heartbeats := m_heartbeats s;
  m_statusReports := m_statusReports s |}.
Definition set_revocation (key : string) (r : KLIQRevocation) (s : MemoryStore) : MemoryStore := {|
  m_tokensByHash := m_tokensByHash s;
  m_tokensByID := m_tokensByID s;
  m_registrations := m_registrations s;
  m_identities := m_identities s;
  m_assignments := m_assignments s;
  m_trustBundles := m_trustBundles s;
  m_revocations := <[key := r]> (m_revocations s);
  m_auditEvents := m_auditEvents s;
  m_heartbeats := m_heartbeats s;
  m_statusReports := m_statusReports s |}.
Definition add_event (e : ManagementAuditEvent) (s : MemoryStore) : MemoryStore := {|
  m_tokensByHash := m_tokensByHash s;
  m_tokensByID := m_tokensByID s;
  m_registrations := m_registrations s;
  m_identities := m_identities s;
  m_assignments := m_assignments s;
  m_trustBundles := m_trustBundles s;
  m_revocations := m_revocations s;
  m_auditEvents := m_auditEvents s ++ [e];
  m_heartbeats := m_heartbeats s;
  m_statusReports := m_statusReports s |}.
Definition set_heartbeat (h : KLIQHeartbeat) (s : MemoryStore) : MemoryStore := {|
  m_tokensByHash := m_tokensByHash s;
  m_tokensByID := m_tokensByID s;
  m_registrations := m_registrations s;
  m_identities := m_identities s;
  m_assignments := m_assignments s;
  m_trustBundles := m_trustBundles s;
  m_revocations := m_revocations s;
  m_auditEvents := m_auditEvents s;
  m_heartbeats := <[hb_KLIQID h := h]> (m_heartbeats s);
  m_statusReports := m_statusReports s |}.
Definition set_report (r : KLIQStatusReport) (s : MemoryStore) : MemoryStore := {|
  m_tokensByHash := m_tokensByHash s;
  m_tokensByID := m_tokensByID s;
  m_registrations := m_registrations s;
  m_identities := m_identities s;
  m_assignments := m_assignments s;
  m_trustBundles := m_trustBundles s;
  m_revocations := m_revocations s;
  m_auditEvents := m_auditEvents s;
  m_heartbeats := m_heartbeats s;
  m_statusReports := <[sr_KLIQID r := r]> (m_statusReports s) |}.

Definition zero_KLIQIdentity : KLIQIdentity := {|
  id_IdentityID := ""; id_KLIQID := ""; id_NodeID := ""; id_Environment := ""; id_Stage := "";
  id_Scope := ""; id_TrustKeyID := ""; id_PublicKeyPEM := ""; id_CSRPEM := "";
  id_ServiceIdentityProvider := ""; id_SPIFFEID := ""; id_CredentialStatus := "";
  id_CredentialExpiresAt := 0; id_Status := ""; id_IssuedAt := 0; id_RevokedAt := 0;
  id_RevokedReason := "" |}.

(** The clock: [time.Now] is never the zero time. *)
Class ForgeWorld (W : Type) := {
  forge_now : W → time * W;
  forge_now_nonzero w : (forge_now w).1 ≠ 0;
}.

(** An audit event without its identifier. *)
Definition event (actor type targetType targetID kliqID environment stage scope : string)
    (metadata : gmap string json) (created : time) : ManagementAuditEvent := {|
  ev_EventID := ""; ev_EventType := type; ev_Actor := actor; ev_TargetType := targetType;
  ev_TargetID := targetID; ev_KLIQID := kliqID; ev_Environment := environment;
  ev_Stage := stage; ev_Scope := scope; ev_Metadata := metadata; ev_CreatedAt := created |}.

Definition ev_with_actor (actor : string) (e : ManagementAuditEvent) : ManagementAuditEvent := {|
  ev_EventID := ev_EventID e; ev_EventType := ev_EventType e; ev_Actor := actor;
  ev_TargetType := ev_TargetType e; ev_TargetID := ev_TargetID e; ev_KLIQID := ev_KLIQID e;
  ev_Environment := ev_Environment e; ev_Stage := ev_Stage e; ev_Scope := ev_Scope e;
  ev_Metadata := ev_Metadata e; ev_CreatedAt := ev_CreatedAt e |}.
Definition ev_complete (id : string) (created : time) (e : ManagementAuditEvent)
    : ManagementAuditEvent := {|
  ev_EventID := id; ev_EventType := ev_EventType e; ev_Actor := ev_Actor e;
  ev_TargetType := ev_TargetType e; ev_TargetID := ev_TargetID e; ev_KLIQID := ev_KLIQID e;
  ev_Environment := ev_Environment e; ev_Stage := ev_Stage e; ev_Scope := ev_Scope e;
  ev_Metadata := ev_Metadata e; ev_CreatedAt := created |}.

Definition revocation (text targetType targetID reason : string) (revoked : time) (by_ : string)
    : KLIQRevocation := {|
  rv_RevocationID := revocation_id text; rv_TargetType := targetType; rv_TargetID := targetID;
  rv_Reason := reason; rv_CreatedAt := revoked; rv_CreatedBy := by_ |}.

Section memory.
Context {W : Type} {FW : ForgeWorld W}.
  Abbreviation F := (MemoryStore * W)%type.

(** [time.Now()] *)
Definition Now : io F time := λ '(s, w), let '(t, w) := forge_now w in (Ok t, (s, w)).

Definition on_store (f : MemoryStore → MemoryStore) : io F unit := modify (prod_map f id).

(** A map lookup that is not there is [ErrNotFound]. *)
Definition find_in {A} (field : MemoryStore → gmap string A) (key : string) : io F A :=
  read (λ s : F, match field s.1 !! key with Some a => Ok a | None => Err ErrNotFound end).

Definition appendAuditLocked (e : ManagementAuditEvent) : io F unit :=
  let id := if empty_str (ev_EventID e) then event_id e else ev_EventID e in
  created ← if IsZero (ev_CreatedAt e) then Now else mret (ev_CreatedAt e);
  on_store (add_event (ev_complete id created e)).

Definition CreateEnrollmentToken (ctx : AuditContext) (token : KLIQEnrollmentToken)
    (secret : string) : io F unit :=
  deny empty_str (et_TokenID token) || empty_str secret
    with Errorf "enrollment token id and secret are required" [];;
  created ← if IsZero (et_CreatedAt token) then Now else mret (et_CreatedAt token);
  let token := et_with_secret (TokenSHA256 secret) created token in
  _ ← on_store (set_token token);
  appendAuditLocked (event (cx_Actor ctx) "enrollment_token_created" "kliq_enrollment_token"
    (et_TokenID token) "" (et_Environment token) (et_Stage token) (et_Scope token) ∅
    (et_CreatedAt token)).

Definition get_EnrollmentToken (tokenID : string) : io F KLIQEnrollmentToken :=
  find_in m_tokensByID tokenID.

(** The guards of [UseEnrollmentToken]; an empty field of the token allows any
    value. *)
Definition token_admits (token : KLIQEnrollmentToken) (environment stage scope : string)
    (usedAt : time) : result unit :=
  reject negb (IsZero (et_ExpiresAt token)) && negb (Before usedAt (et_ExpiresAt token))
    with Errorf "enrollment token expired" [];;
  reject negb (IsZero (et_UsedAt token)) with Errorf "enrollment token already used" [];;
  reject negb (IsZero (et_RevokedAt token)) with Errorf "enrollment token revoked" [];;
  reject (et_Environment token !=s "") && (et_Environment token !=s environment)
    with Errorf "enrollment token environment mismatch" [];;
  reject (et_Stage token !=s "") && (et_Stage token !=s stage)
    with Errorf "enrollment token stage mismatch" [];;
  reject (et_Scope token !=s "") && (et_Scope token !=s scope)
    with Errorf "enrollment token scope mismatch" [];;
  Ok tt.

Definition UseEnrollmentToken (ctx : AuditContext) (secret environment stage scope : string)
    (usedAt : time) : io F KLIQEnrollmentToken :=
  token ← find_in m_tokensByHash (TokenSHA256 secret);
  _ ← lift (token_admits token environment stage scope usedAt);
  let token := et_with_use usedAt token in
  _ ← on_store (set_token token);
  _ ← appendAuditLocked (event (cx_Actor ctx) "enrollment_token_used" "kliq_enrollment_token"
        (et_TokenID token) "" (et_Environment token) (et_Stage token) (et_Scope token) ∅
        (et_UsedAt token));
  mret token.

Definition reason_metadata (reason : string) : gmap string json := {[ "reason" := JStr reason ]}.

Definition RevokeEnrollmentToken (ctx : AuditContext) (tokenID reason : string)
    (revokedAt : time) : io F unit :=
  token ← find_in m_tokensByID tokenID;
  _ ← on_store (set_token (et_with_revocation revokedAt reason token));
  let key := "kliq_enrollment_token:" +:+ tokenID in
  _ ← on_store (set_revocation key
        (revocation (key +:+ time_string revokedAt) "kliq_enrollment_token" tokenID reason
           revokedAt (cx_Actor ctx)));
  appendAuditLocked (event (cx_Actor ctx) "revocation" "kliq_enrollment_token" tokenID "" "" "" ""
    (reason_metadata reason) revokedAt).

Definition Register_ (ctx : AuditContext) (registration : KLIQRegistration) : io F unit :=
  deny empty_str (reg_KLIQID registration)
    with Errorf "kliq registration requires kliq_id" [];;
  let r := complete_registration registration in
  let i := reg_Identity r in
  let metadata := auditMetadata ctx {[ "kliq_id" := JStr (reg_KLIQID r) ]} in
  _ ← on_store (set_registration (reg_KLIQID r) r i);
  _ ← appendAuditLocked (event (cx_Actor ctx) "kliq_enrolled" "kliq_registration"
        (reg_RegistrationID r) (reg_KLIQID r) (reg_Environment r) (reg_Stage r) (reg_Scope r)
        metadata (reg_RegisteredAt r));
  appendAuditLocked (event (cx_Actor ctx) "identity_issued" "kliq_identity"
    (id_IdentityID i) (reg_KLIQID r) (reg_Environment r) (reg_Stage r) (reg_Scope r)
    metadata (id_IssuedAt i)).

Definition get_Registration (kliqID : string) : io F KLIQRegistration :=
  find_in m_registrations kliqID.
Definition get_Identity (kliqID : string) : io F KLIQIdentity := find_in m_identities kliqID.

Definition RevokeKLIQ (ctx : AuditContext) (kliqID reason : string) (revokedAt : time)
    : io F unit :=
  registration ← find_in m_registrations kliqID;
  identity ← gets (λ s : F, default zero_KLIQIdentity (m_identities s.1 !! kliqID));
  _ ← on_store (set_registration kliqID (revoke_registration revokedAt reason registration)
        (revoke_identity revokedAt reason identity));
  let key := "kliq_registration:" +:+ kliqID in
  _ ← on_store (set_revocation key
        (revocation (key +:+ time_string revokedAt) "kliq_registration" kliqID reason
           revokedAt (cx_Actor ctx)));
  appendAuditLocked (event (cx_Actor ctx) "revocation" "kliq_registration" kliqID kliqID "" "" ""
    (reason_metadata reason) revokedAt).

Definition SaveTrustBundle (bundle : TrustBundle) : io F unit :=
  let bundle := or_active bundle in
  _ ← lift (validateNewTrustBundle bundle);
  existing ← gets (λ s : F, m_trustBundles s.1 !! tb_KeyID bundle);
  _ ← lift (match existing with
            | Some existing => validateTrustBundleUpdate existing bundle
            | None => Ok tt
            end);
  on_store (set_trust (tb_KeyID bundle) bundle).

Definition get_TrustBundle (keyID : string) : io F TrustBundle := find_in m_trustBundles keyID.

Definition RotateTrustBundle (ctx : AuditContext) (currentKeyID : string) (next : TrustBundle)
    (reason : string) (rotatedAt : time) : io F unit :=
  let currentKeyID := trim_space currentKeyID in
  deny empty_str currentKeyID with Errorf "current trust bundle key_id is required" [];;
  current ← find_in m_trustBundles currentKeyID;
  deny tb_Status current !=s "active"
    with Errorf "trust bundle %q must be active to rotate" [AStr currentKeyID];;
  let next := or_active next in
  _ ← lift (validateNewTrustBundle next);
  deny tb_KeyID next ==s currentKeyID
    with Errorf "rotation requires a new trust bundle key_id" [];;
  taken ← gets (λ s : F, bool_decide (is_Some (m_trustBundles s.1 !! tb_KeyID next)));
  deny (taken : bool) with Errorf "trust bundle %q already exists" [AStr (tb_KeyID next)];;
  deny (tb_Purpose current !=s "") && (tb_Purpose next !=s tb_Purpose current)
    with Errorf "trust bundle rotation purpose mismatch: %q to %q"
           [AStr (tb_Purpose current); AStr (tb_Purpose next)];;
  deny tb_Status next !=s "active"
    with Errorf "new trust bundle %q must be active" [AStr (tb_KeyID next)];;
  rotatedAt ← if IsZero rotatedAt then Now else mret rotatedAt;
  _ ← on_store (set_trust currentKeyID (tb_with_Status "previous" current));
  _ ← on_store (set_trust (tb_KeyID next) next);
  appendAuditLocked (event (cx_Actor ctx) "trust_bundle_rotated" "trust_key" currentKeyID
    "" "" "" ""
    (auditMetadata ctx (metadata_of
       [("previous_key_id", JStr currentKeyID); ("active_key_id", JStr (tb_KeyID next));
        ("purpose", JStr (tb_Purpose next)); ("reason", JStr reason)]))
    rotatedAt).

Definition RevokeTrustBundle (ctx : AuditContext) (keyID reason : string) (revokedAt : time)
    : io F unit :=
  bundle ← find_in m_trustBundles keyID;
  _ ← on_store (set_trust keyID (tb_with_Status "revoked" bundle));
  let key := "trust_key:" +:+ keyID in
  _ ← on_store (set_revocation key
        (revocation (key +:+ time_string revokedAt) "trust_key" keyID reason revokedAt
           (cx_Actor ctx)));
  appendAuditLocked (event (cx_Actor ctx) "revocation" "trust_key" keyID "" "" "" ""
    (reason_metadata reason) revokedAt).

Definition NextAssignmentVersion (kliqID : string) : io F Z :=
  gets (λ s : F, match m_assignments s.1 !! kliqID with
                 | Some record => to_int64 (ar_Version record + 1)
                 | None => 1
                 end).

Definition digest_metadata (envelope : SignedEnvelope) : gmap string json :=
  {[ "digest" := JStr (assignmentDigest envelope) ]}.

Definition SaveAssignment (ctx : AuditContext) (kliqID : string) (version : Z)
    (envelope : SignedEnvelope) : io F unit :=
  deny empty_str kliqID || (version <=? 0)
    with Errorf "assignment requires kliq_id and positive assignment_version" [];;
  existing ← gets (λ s : F, m_assignments s.1 !! kliqID);
  let old := default 0 (ar_Version <$> existing) in
  deny bool_decide (is_Some existing) && (version <? old)
    with Errorf "assignment version %d is older than existing version %d"
           [AInt version; AInt old];;
  let publish :=
    _ ← on_store (set_assignment kliqID {| ar_Version := version; ar_Envelope := envelope;
                                           ar_RevokedAt := 0; ar_RevokedReason := "" |});
    now ← Now;
    appendAuditLocked (event (cx_Actor ctx) "assignment_published" "kliq_assignment"
      (assignment_target kliqID version) kliqID "" "" "" (digest_metadata envelope) now) in
  match existing with
  | Some existing =>
    if version =? ar_Version existing then
      if assignmentDigest (ar_Envelope existing) ==s assignmentDigest envelope then mret tt
      else fail (Errorf "assignment version %d already exists with different digest"
                   [AInt version])
    else publish
  | None => publish
  end.

Definition LatestAssignment (ctx : AuditContext) (kliqID : string) : io F SignedEnvelope :=
  record ← find_in m_assignments kliqID;
  deny negb (IsZero (ar_RevokedAt record)) with ErrNotFound;;
  now ← Now;
  _ ← appendAuditLocked (event (cx_Actor ctx) "assignment_pulled" "kliq_assignment"
        (assignment_target kliqID (ar_Version record)) kliqID "" "" ""
        (digest_metadata (ar_Envelope record)) now);
  mret (ar_Envelope record).

Definition RevokeAssignment (ctx : AuditContext) (kliqID : string) (version : Z)
    (reason : string) (revokedAt : time) : io F unit :=
  record ← find_in m_assignments kliqID;
  deny negb (ar_Version record =? version) with ErrNotFound;;
  _ ← on_store (set_assignment kliqID
        {| ar_Version := ar_Version record; ar_Envelope := ar_Envelope record;
           ar_RevokedAt := revokedAt; ar_RevokedReason := reason |});
  let target := assignment_target kliqID version in
  let key := "kliq_assignment:" +:+ target in
  _ ← on_store (set_revocation key
        (revocation (key +:+ ":" +:+ time_string revokedAt) "kliq_assignment" target reason
           revokedAt (cx_Actor ctx)));
  appendAuditLocked (event (cx_Actor ctx) "revocation" "kliq_assignment" target kliqID "" "" ""
    (reason_metadata reason) revokedAt).

Definition SaveHeartbeat (heartbeat : KLIQHeartbeat) : io F unit :=
  deny empty_str (hb_KLIQID heartbeat) with Errorf "heartbeat requires kliq_id" [];;
  on_store (set_heartbeat heartbeat).

Definition SaveStatusReport (report : KLIQStatusReport) : io F unit :=
  deny empty_str (sr_KLIQID report) with Errorf "status report requires kliq_id" [];;
  on_store (set_report report).

Definition get_StatusReport (kliqID : string) : io F KLIQStatusReport :=
  find_in m_statusReports kliqID.

Definition SaveAuditEvent (ctx : AuditContext) (e : ManagementAuditEvent) : io F unit :=
  appendAuditLocked (if empty_str (ev_Actor e) then ev_with_actor (cx_Actor ctx) e else e).

Definition event_selected (targetType targetID : string) (e : ManagementAuditEvent) : bool :=
  negb ((targetType !=s "") && (ev_TargetType e !=s targetType)) &&
  negb ((targetID !=s "") && (ev_TargetID e !=s targetID)).
Definition AuditEvents (targetType targetID : string) : io F (list ManagementAuditEvent) :=
  gets (λ s : F, filter (λ e, event_selected targetType targetID e = true) (m_auditEvents s.1)).

#[export] Instance memory_store : ManagementStore F := {|
  mg_CreateEnrollmentToken := CreateEnrollmentToken;
  mg_EnrollmentToken := get_EnrollmentToken;
  mg_UseEnrollmentToken := UseEnrollmentToken;
  mg_RevokeEnrollmentToken := RevokeEnrollmentToken;
  mg_Register := Register_;
  mg_Registration := get_Registration;
  mg_Identity := get_Identity;
  mg_RevokeKLIQ := RevokeKLIQ;
  mg_SaveTrustBundle := SaveTrustBundle;
  mg_TrustBundle := get_TrustBundle;
  mg_RotateTrustBundle := RotateTrustBundle;
  mg_RevokeTrustBundle := RevokeTrustBundle;
  mg_NextAssignmentVersion := NextAssignmentVersion;
  mg_SaveAssignment := SaveAssignment;
  mg_LatestAssignment := LatestAssignment;
  mg_RevokeAssignment := RevokeAssignment;
  mg_SaveHeartbeat := SaveHeartbeat;
  mg_SaveStatusReport := SaveStatusReport;
  mg_StatusReport := get_StatusReport;
  mg_SaveAuditEvent := SaveAuditEvent;
  mg_AuditEvents := AuditEvents |}.
End memory.
