(* ===== verification/BuildManifest.v ===== *)
(** * Policy build manifests ([internal/forge/compiler/types.go] and the checks
    of [internal/forge/api/kliq_management.go])

    What the compiler records about a build, and what the management API
    demands of a build before it is approved and before one of its artifacts is
    assigned to a KLIQ.  A Go map is a [gmap]; a loop over one visits its entries
    in the order the runtime chooses ([map_order]). *)

From stdpp Require Import options.
From stdpp Require Import gmap.
From S2P Require Import Prelude GoStrings GoTime GoJson GoEncoding Signing Domain.
#[local] Open Scope Z_scope.

Record ArtifactRef := { ref_URI : string; ref_SHA256 : string }.
#[export] Instance ArtifactRef_eq_dec : EqDecision ArtifactRef.
Proof. solve_decision. Defined.

Record SignedOutputRef := {
  so_Path : string;
  so_ArtifactRef : ArtifactRef;
  so_EnvelopeSHA256 : string;
  so_PayloadSHA256 : string;
  so_KeyID : string;
}.

Record AdapterRef := {
  adr_AdapterID : string;
  adr_AdapterVersion : string;
  adr_ManifestDigest : string;
  adr_ProtocolVersion : string;
  adr_SignedManifest : SignedOutputRef;
}.

Record BindingRef := {
  br_BindingID : string;
  br_Digest : string;
  br_AdapterID : string;
  br_CapabilityID : string;
}.

Record RuntimeActionRef := {
  rar_CapabilityGrantID : string;
  rar_BindingID : string;
  rar_AdapterID : string;
  rar_AdapterManifestDigest : string;
  rar_CapabilityID : string;
  rar_ActionType : string;
  rar_ActionDigest : string;
}.

Record PolicyRepoRef := {
  pr_Repo : string;
  pr_Commit : string;
  pr_PolicyFile : string;
  pr_PolicyFileHash : string;
  pr_ContentDigest : string;
}.
Record RegistryRef := {
  rg_Repo : string;
  rg_Commit : string;
  rg_Version : string;
  rg_ContentDigest : string;
}.
Record DigestRef := { dr_ID : string; dr_Digest : string }.
Record CompilerRef := {
  cp_Name : string;
  cp_Version : string;
  cp_SourceCommit : string;
  cp_BinaryDigest : string;
  cp_Digest : string;
}.

Record ManifestMetadata := {
  mm_ID : string;
  mm_CorrelationID : string;
  mm_CreatedBy : string;
}.

Record ManifestSpec := {
  sp_KNIVersion : string;
  sp_ProtocolVersion : string;
  sp_PolicyRepo : PolicyRepoRef;
  sp_EnterpriseRegistry : RegistryRef;
  sp_CoreRegistry : RegistryRef;
  sp_Compiler : CompilerRef;
  sp_Profile : DigestRef;
  sp_RiskRecipe : DigestRef;
  sp_CatalogDigest : string;
  sp_Adapters : gmap string AdapterRef;
  sp_Bindings : gmap string BindingRef;
  sp_RuntimeActions : gmap string RuntimeActionRef;
  sp_FederatedSourceDigests : gmap string string;
  sp_Outputs : gmap string string;
  sp_ArtifactRefs : gmap string ArtifactRef;
  sp_SignedOutputs : gmap string SignedOutputRef;
}.

Record ManifestApproval := {
  apv_Status : string;
  apv_ApprovedBy : string;
  apv_ApprovedAt : time;
  apv_AuthorityID : string;
  apv_AuthorityKind : string;
  apv_Environment : string;
  apv_Stage : string;
  apv_Scope : string;
}.

Record PolicyBuildManifest := {
  pbm_Kind : string;
  pbm_Metadata : ManifestMetadata;
  pbm_Spec : ManifestSpec;
  pbm_Approval : ManifestApproval;
}.

Definition with_approval (a : ManifestApproval) (m : PolicyBuildManifest) : PolicyBuildManifest :=
  {| pbm_Kind := pbm_Kind m; pbm_Metadata := pbm_Metadata m; pbm_Spec := pbm_Spec m;
     pbm_Approval := a |}.

(** ** Comparisons of references

    Both sides are trimmed. *)
Definition same_text (a b : string) : bool := trim_space a ==s trim_space b.

Definition completeSignedOutput (signed : SignedOutputRef) : bool :=
  negb (blank (ref_URI (so_ArtifactRef signed))) &&
  negb (blank (ref_SHA256 (so_ArtifactRef signed))) &&
  negb (blank (so_EnvelopeSHA256 signed)) && negb (blank (so_PayloadSHA256 signed)) &&
  negb (blank (so_KeyID signed)).

Definition signedOutputMatchesRef (signed : SignedOutputRef) (ref : ArtifactRef) : bool :=
  same_text (ref_URI (so_ArtifactRef signed)) (ref_URI ref) &&
  same_text (ref_SHA256 (so_ArtifactRef signed)) (ref_SHA256 ref) &&
  same_text (so_EnvelopeSHA256 signed) (ref_SHA256 ref) && negb (blank (so_KeyID signed)).

Definition sameSignedOutputRef (left right : SignedOutputRef) : bool :=
  same_text (ref_URI (so_ArtifactRef left)) (ref_URI (so_ArtifactRef right)) &&
  same_text (ref_SHA256 (so_ArtifactRef left)) (ref_SHA256 (so_ArtifactRef right)) &&
  same_text (so_EnvelopeSHA256 left) (so_EnvelopeSHA256 right) &&
  same_text (so_PayloadSHA256 left) (so_PayloadSHA256 right) &&
  same_text (so_KeyID left) (so_KeyID right).

(** The reference an artifact is requested under. *)
Definition requested_ref (requested : KLIQAssignedArtifact) : ArtifactRef :=
  {| ref_URI := trim_space (aa_ArtifactRef requested);
     ref_SHA256 := trim_space (aa_SHA256 requested) |}.

Definition samePrincipal `{UnicodeFold} (left right : string) : bool :=
  EqualFold (trim_space left) (trim_space right).

Section checks.
Context {GR : GoRuntime} {UF : UnicodeFold}.

(** [for key, value := range m { if err != nil { return err } }] *)
Definition range {A} (m : gmap string A) (f : string → A → result unit) : result unit :=
  for_each (λ kv, f kv.1 kv.2) (map_order (map_to_list m)).

Definition federated_required (spec : ManifestSpec) : gmap string string := list_to_map
  [("policy_repo", pr_ContentDigest (sp_PolicyRepo spec));
   ("core_registry", rg_ContentDigest (sp_CoreRegistry spec));
   ("enterprise_registry", rg_ContentDigest (sp_EnterpriseRegistry spec));
   ("catalog", sp_CatalogDigest spec);
   ("profile", dr_Digest (sp_Profile spec));
   ("risk_recipe", dr_Digest (sp_RiskRecipe spec))].

Definition validateFederatedSourceDigests (manifest : PolicyBuildManifest) : result unit :=
  let spec := pbm_Spec manifest in
  let source key := trim_space (default "" (sp_FederatedSourceDigests spec !! key)) in
  reject Nat.eqb (size (sp_FederatedSourceDigests spec)) 0
    with Errorf "approved_build_missing_federated_source_digests" [];;
  _ ← range (federated_required spec) (λ key expected,
        reject blank expected || empty_str (source key)
          with Errorf "approved_build_missing_federated_source_digest" [];;
        reject source key !=s trim_space expected
          with Errorf "approved_build_federated_source_digest_mismatch" [];;
        Ok tt);
  range (sp_Adapters spec) (λ id adapter,
    let digest := trim_space (adr_ManifestDigest adapter) in
    reject empty_str digest || empty_str (source ("adapter:" +:+ id))
      with Errorf "approved_build_missing_adapter_source_digest" [];;
    reject source ("adapter:" +:+ id) !=s digest
      with Errorf "approved_build_adapter_source_digest_mismatch" [];;
    Ok tt).

Definition validateApprovedBuildSignedAdapterManifests (manifest : PolicyBuildManifest)
    : result unit :=
  range (sp_Adapters (pbm_Spec manifest)) (λ id adapter,
    reject blank (adr_ManifestDigest adapter)
      with Errorf "approved_build_missing_adapter_manifest_digest" [];;
    reject blank (adr_ProtocolVersion adapter)
      with Errorf "approved_build_missing_adapter_protocol" [];;
    reject negb (completeSignedOutput (adr_SignedManifest adapter))
      with Errorf "approved_build_missing_signed_adapter_manifest" [];;
    match sp_SignedOutputs (pbm_Spec manifest) !! ("adapter_manifest:" +:+ id) with
    | Some signed =>
      reject negb (sameSignedOutputRef (adr_SignedManifest adapter) signed)
        with Errorf "approved_build_signed_adapter_manifest_mismatch" [];;
      Ok tt
    | None => Ok tt
    end).

Definition validateApprovedBuildRuntimeProvenance (manifest : PolicyBuildManifest)
    : result unit :=
  let spec := pbm_Spec manifest in
  _ ← range (sp_Bindings spec) (λ id binding,
        reject blank (br_BindingID binding) || blank (br_Digest binding) ||
               blank (br_AdapterID binding) || blank (br_CapabilityID binding)
          with Errorf "approved_build_missing_binding_provenance" [];;
        reject id !=s br_BindingID binding
          with Errorf "approved_build_binding_id_mismatch" [];;
        Ok tt);
  range (sp_RuntimeActions spec) (λ id action,
    reject blank (rar_CapabilityGrantID action) || blank (rar_ActionDigest action) ||
           blank (rar_AdapterID action) || blank (rar_CapabilityID action) ||
           blank (rar_ActionType action)
      with Errorf "approved_build_missing_runtime_action_provenance" [];;
    reject id !=s rar_CapabilityGrantID action
      with Errorf "approved_build_runtime_action_id_mismatch" [];;
    reject blank (rar_BindingID action)
      with Errorf "approved_build_missing_runtime_action_binding" [];;
    reject bool_decide (sp_Bindings spec !! rar_BindingID action = None)
      with Errorf "approved_build_runtime_action_binding_unknown" [];;
    Ok tt).

(** The digests both checks want of a build. *)
Definition missing_provenance (spec : ManifestSpec) : bool :=
  empty_str (rg_ContentDigest (sp_CoreRegistry spec)) ||
  empty_str (rg_ContentDigest (sp_EnterpriseRegistry spec)) ||
  empty_str (sp_CatalogDigest spec) || empty_str (dr_Digest (sp_Profile spec)) ||
  empty_str (dr_Digest (sp_RiskRecipe spec)).

Definition validateBuildManifestApprovalReadiness (manifest : PolicyBuildManifest)
    : result unit :=
  let spec := pbm_Spec manifest in
  reject blank (mm_ID (pbm_Metadata manifest)) with Errorf "build_manifest_missing_id" [];;
  reject blank (mm_CreatedBy (pbm_Metadata manifest))
    with Errorf "build_manifest_missing_created_by" [];;
  reject blank (pr_Commit (sp_PolicyRepo spec))
    with Errorf "build_manifest_missing_source_commit" [];;
  reject missing_provenance spec with Errorf "build_manifest_missing_provenance" [];;
  _ ← validateFederatedSourceDigests manifest;
  _ ← validateApprovedBuildSignedAdapterManifests manifest;
  reject Nat.eqb (size (sp_SignedOutputs spec)) 0
    with Errorf "build_manifest_missing_signed_outputs" [];;
  range (sp_SignedOutputs spec) (λ artifactType signed,
    reject blank artifactType || negb (completeSignedOutput signed)
      with Errorf "build_manifest_incomplete_signed_output" [];;
    Ok tt).

Definition validateApprovedBuildAuthority (manifest : PolicyBuildManifest)
    (registration : KLIQRegistration) : result unit :=
  let a := pbm_Approval manifest in
  let createdBy := mm_CreatedBy (pbm_Metadata manifest) in
  reject blank createdBy with Errorf "approved_build_missing_created_by" [];;
  reject blank (apv_ApprovedBy a) || IsZero (apv_ApprovedAt a) || blank (apv_AuthorityID a) ||
         blank (apv_AuthorityKind a)
    with Errorf "approved_build_missing_approval_authority" [];;
  reject samePrincipal createdBy (apv_ApprovedBy a)
    with Errorf "approved_build_self_approval_rejected" [];;
  reject blank (apv_Environment a) || blank (apv_Stage a) || blank (apv_Scope a)
    with Errorf "approved_build_missing_scope_binding" [];;
  reject negb (same_text (apv_Environment a) (reg_Environment registration)) ||
         negb (same_text (apv_Stage a) (reg_Stage registration)) ||
         negb (same_text (apv_Scope a) (reg_Scope registration))
    with Errorf "approved_build_scope_mismatch" [];;
  Ok tt.

Definition not_in_build : error := Errorf "artifact_not_in_approved_build" [].

(** A loop that ends at the first match. *)
Definition range_any {A} (m : gmap string A) (f : A → bool) : bool :=
  existsb (λ kv, f kv.2) (map_order (map_to_list m)).

Definition validateArtifactInApprovedBuild (manifest : PolicyBuildManifest)
    (requested : KLIQAssignedArtifact) : result unit :=
  let spec := pbm_Spec manifest in
  let artifactType := trim_space (aa_ArtifactType requested) in
  let ref := requested_ref requested in
  reject empty_str (ref_URI ref) || empty_str (ref_SHA256 ref)
    with Errorf "invalid_artifact_ref" [];;
  if artifactType ==s "adapter_manifest" then
    if range_any (sp_Adapters spec) (λ adapter,
         signedOutputMatchesRef (adr_SignedManifest adapter) ref)
    then Ok tt else Err not_in_build
  else match sp_SignedOutputs spec !! artifactType with
  | Some signed =>
    if (ref_URI (so_ArtifactRef signed) ==s ref_URI ref) &&
       (ref_SHA256 (so_ArtifactRef signed) ==s ref_SHA256 ref) &&
       (so_EnvelopeSHA256 signed ==s ref_SHA256 ref) && negb (blank (so_KeyID signed))
    then Ok tt else Err not_in_build
  | None =>
    match sp_ArtifactRefs spec !! artifactType with
    | Some unsigned =>
      if (ref_URI unsigned ==s ref_URI ref) && (ref_SHA256 unsigned ==s ref_SHA256 ref)
      then Ok tt else Err not_in_build
    | None => Err not_in_build
    end
  end.

Definition assignmentRequestsArtifactType (artifacts : list KLIQAssignedArtifact)
    (artifactType : string) : bool :=
  existsb (λ artifact, trim_space (aa_ArtifactType artifact) ==s artifactType) artifacts.

(** The adapters of the runtime actions. *)
Definition require_adapter (spec : ManifestSpec) (required : gmap string AdapterRef)
    (action : string * RuntimeActionRef) : result (gmap string AdapterRef) :=
  let adapterID := trim_space (rar_AdapterID action.2) in
  if empty_str adapterID then Ok required else
  match sp_Adapters spec !! adapterID with
  | Some adapter => Ok (<[adapterID := adapter]> required)
  | None => Err (Errorf "approved_build_runtime_action_adapter_unknown" [])
  end.

Definition validateRuntimeBundleAdapterManifestPair (manifest : PolicyBuildManifest)
    (requested : list KLIQAssignedArtifact) : result unit :=
  let spec := pbm_Spec manifest in
  if negb (assignmentRequestsArtifactType requested "runtime_bundle") ||
     Nat.eqb (size (sp_RuntimeActions spec)) 0 then Ok tt else
  requiredAdapters ← for_fold (require_adapter spec) ∅
                       (map_order (map_to_list (sp_RuntimeActions spec)));
  range requiredAdapters (λ adapterID adapter,
    reject negb (existsb (λ artifact,
             (trim_space (aa_ArtifactType artifact) ==s "adapter_manifest") &&
             signedOutputMatchesRef (adr_SignedManifest adapter) (requested_ref artifact))
           requested)
      with Errorf "approved_build_missing_adapter_manifest_artifact:%s" [AStr adapterID];;
    Ok tt).

(** The entries whose digest is not blank. *)
Definition digests_of {A} (digest : A → string) (m : gmap string A) : list (string * string) :=
  filter (λ kv, blank kv.2 = false) (prod_map id digest <$> map_order (map_to_list m)).

Definition assignmentProvenanceFromBuild (manifest : PolicyBuildManifest)
    (approvedBuildRef : ArtifactRef) : option AssignmentProvenance :=
  let spec := pbm_Spec manifest in
  let id := mm_ID (pbm_Metadata manifest) in
  let digest := trim_space (ref_SHA256 approvedBuildRef) in
  let bindings := digests_of br_Digest (sp_Bindings spec) in
  let actions := digests_of rar_ActionDigest (sp_RuntimeActions spec) in
  let adapters := digests_of adr_ManifestDigest (sp_Adapters spec) in
  match empty_str id && empty_str digest, bindings, actions, adapters with
  | true, [], [], [] => None
  | _, _, _, _ => Some {|
      ap_ApprovedBuildID := id; ap_ApprovedBuildDigest := digest;
      ap_BindingDigests := bindings; ap_RuntimeActionDigests := actions;
      ap_AdapterManifestDigests := adapters |}
  end.
End checks.

(** ** [json.Marshal(manifest)] *)

Definition ArtifactRef_json (r : ArtifactRef) : json :=
  JObj [("uri", JStr (ref_URI r)); ("sha256", JStr (ref_SHA256 r))].

Definition SignedOutputRef_json (s : SignedOutputRef) : json := JObj (
  omit_empty "path" (so_Path s)
  ++ [("artifact_ref", ArtifactRef_json (so_ArtifactRef s));
      ("envelope_sha256", JStr (so_EnvelopeSHA256 s));
      ("payload_sha256", JStr (so_PayloadSHA256 s));
      ("key_id", JStr (so_KeyID s))]).

Definition AdapterRef_json (a : AdapterRef) : json := JObj (
  omit_empty "adapter_id" (adr_AdapterID a)
  ++ omit_empty "adapter_version" (adr_AdapterVersion a)
  ++ [("manifest_digest", JStr (adr_ManifestDigest a));
      ("protocol_version", JStr (adr_ProtocolVersion a));
      ("signed_manifest", SignedOutputRef_json (adr_SignedManifest a))]).

Definition BindingRef_json (b : BindingRef) : json := JObj
  [("binding_id", JStr (br_BindingID b)); ("digest", JStr (br_Digest b));
   ("adapter_id", JStr (br_AdapterID b)); ("capability_id", JStr (br_CapabilityID b))].

Definition RuntimeActionRef_json (r : RuntimeActionRef) : json := JObj (
  [("capability_grant_id", JStr (rar_CapabilityGrantID r))]
  ++ omit_empty "binding_id" (rar_BindingID r)
  ++ [("adapter_id", JStr (rar_AdapterID r))]
  ++ omit_empty "adapter_manifest_digest" (rar_AdapterManifestDigest r)
  ++ [("capability_id", JStr (rar_CapabilityID r));
      ("action_type", JStr (rar_ActionType r));
      ("action_digest", JStr (rar_ActionDigest r))]).

Definition RegistryRef_json (r : RegistryRef) : json := JObj (
  [("repo", JStr (rg_Repo r)); ("commit", JStr (rg_Commit r))]
  ++ omit_empty "version" (rg_Version r)
  ++ [("content_digest", JStr (rg_ContentDigest r))]).

Definition DigestRef_json (d : DigestRef) : json :=
  JObj [("id", JStr (dr_ID d)); ("digest", JStr (dr_Digest d))].

(** A map member; with [omitempty] it is left out when empty.  Without it, a nil
    map would be written as null and not as {}: the maps here are not told apart. *)
Definition map_json {A} (f : A → json) (m : gmap string A) : json :=
  jmap (prod_map id f <$> map_to_list m).
Definition omit_gmap {A} (name : string) (f : A → json) (m : gmap string A)
    : list (string * json) :=
  if Nat.eqb (size m) 0 then [] else [(name, map_json f m)].

Definition ManifestSpec_json (s : ManifestSpec) : json := JObj (
  [("kni", JObj [("version", JStr (sp_KNIVersion s))]);
   ("protocol", JObj [("version", JStr (sp_ProtocolVersion s))]);
   ("policy_repo", JObj
     [("repo", JStr (pr_Repo (sp_PolicyRepo s))); ("commit", JStr (pr_Commit (sp_PolicyRepo s)));
      ("policy_file", JStr (pr_PolicyFile (sp_PolicyRepo s)));
      ("policy_file_hash", JStr (pr_PolicyFileHash (sp_PolicyRepo s)));
      ("content_digest", JStr (pr_ContentDigest (sp_PolicyRepo s)))]);
   ("enterprise_registry", RegistryRef_json (sp_EnterpriseRegistry s));
   ("core_registry", RegistryRef_json (sp_CoreRegistry s));
   ("compiler", JObj
     [("name", JStr (cp_Name (sp_Compiler s))); ("version", JStr (cp_Version (sp_Compiler s)));
      ("source_commit", JStr (cp_SourceCommit (sp_Compiler s)));
      ("binary_digest", JStr (cp_BinaryDigest (sp_Compiler s)));
      ("digest", JStr (cp_Digest (sp_Compiler s)))]);
   ("profile", DigestRef_json (sp_Profile s));
   ("risk_recipe", DigestRef_json (sp_RiskRecipe s));
   ("catalog_digest", JStr (sp_CatalogDigest s));
   ("adapters", map_json AdapterRef_json (sp_Adapters s))]
  ++ omit_gmap "bindings" BindingRef_json (sp_Bindings s)
  ++ omit_gmap "runtime_actions" RuntimeActionRef_json (sp_RuntimeActions s)
  ++ omit_gmap "federated_source_digests" JStr (sp_FederatedSourceDigests s)
  ++ [("outputs", map_json JStr (sp_Outputs s))]
  ++ omit_gmap "artifact_refs" ArtifactRef_json (sp_ArtifactRefs s)
  ++ omit_gmap "signed_outputs" SignedOutputRef_json (sp_SignedOutputs s)).

Definition ManifestApproval_json (a : ManifestApproval) : result json :=
  at_ ← json_time (apv_ApprovedAt a);
  Ok (JObj (
    [("status", JStr (apv_Status a))]
    ++ omit_empty "approved_by" (apv_ApprovedBy a)
    ++ [("approved_at", at_)]
    ++ omit_empty "authority_id" (apv_AuthorityID a)
    ++ omit_empty "authority_kind" (apv_AuthorityKind a)
    ++ omit_empty "environment" (apv_Environment a)
    ++ omit_empty "stage" (apv_Stage a)
    ++ omit_empty "scope" (apv_Scope a))).

Definition encode_PolicyBuildManifest (m : PolicyBuildManifest) : result string :=
  approval ← ManifestApproval_json (pbm_Approval m);
  Ok (json_encode (JObj
    [("kind", JStr (pbm_Kind m));
     ("metadata", JObj
       [("id", JStr (mm_ID (pbm_Metadata m)));
        ("correlation_id", JStr (mm_CorrelationID (pbm_Metadata m)));
        ("created_by", JStr (mm_CreatedBy (pbm_Metadata m)))]);
     ("spec", ManifestSpec_json (pbm_Spec m));
     ("approval", approval)])).
