(* ===== verification/ArtifactStore.v ===== *)
(** * Artifact storage ([internal/storage/artifactstore])

    The interface Forge stores builds through, and the store in memory.  An
    object is never overwritten: its name carries the digest of its bytes. *)

From stdpp Require Import options.
From stdpp Require Import gmap.
From S2P Require Import Prelude IO GoStrings GoTime Signing Artifacts BuildManifest.
#[local] Open Scope Z_scope.

(** [artifact.Artifact] *)
Record Artifact := {
  a_Metadata : ArtifactMetadata;
  a_Payload : string;
}.

(** [ArtifactStore]; [F] is what a call acts on. *)
Class ArtifactStore (F : Type) := {
  store_Put : Artifact → io F ArtifactRef;
  store_Get : ArtifactRef → io F string;
}.

(** The objects of [artifactstore.MemoryStore], by URI. *)
Abbreviation Objects := (gmap string string).

Definition object_uri (art : Artifact) : string :=
  "memory://" +:+ art_ArtifactType (a_Metadata art) +:+ "/" +:+ art_ID (a_Metadata art) +:+ "-"
  +:+ sha256_hex (a_Payload art) +:+ ".json".

Definition Objects_Put (art : Artifact) : io Objects ArtifactRef :=
  let ref := {| ref_URI := object_uri art; ref_SHA256 := SHA256JSON (a_Payload art) |} in
  existing ← gets (λ o : Objects, o !! ref_URI ref);
  match existing with
  | Some data =>
    if data ==s a_Payload art then mret ref
    else fail (Errorf "artifact already exists with different content: %s" [AStr (ref_URI ref)])
  | None =>
    _ ← modify (<[ref_URI ref := a_Payload art]> : Objects → Objects);
    mret ref
  end.

Definition Objects_Get (ref : ArtifactRef) : io Objects string :=
  found ← gets (λ o : Objects, o !! ref_URI ref);
  match found with
  | None => fail (Errorf "artifact not found: %s" [AStr (ref_URI ref)])
  | Some data =>
    deny SHA256JSON data !=s ref_SHA256 ref
      with Errorf "artifact hash mismatch for %s" [AStr (ref_URI ref)];;
    mret data
  end.

Definition Objects_Verify (ref : ArtifactRef) : io Objects unit :=
  _ ← Objects_Get ref; mret tt.

(** ** What is put stays *)

Lemma Objects_Put_subseteq art : preserves (⊆) (Objects_Put art).
Proof.
  intros o. unfold Objects_Put. rewrite io_bind_run. simpl.
  destruct (o !! object_uri art) as [data|] eqn:E; simpl.
  - destruct (_ ==s _); done.
  - by apply insert_subseteq.
Qed.

Lemma Objects_Get_Ok ref o data o' :
  Objects_Get ref o = (Ok data, o') →
  o' = o ∧ o !! ref_URI ref = Some data ∧ SHA256JSON data = ref_SHA256 ref.
Proof.
  unfold Objects_Get. intros H. run H. run_all.
  destruct (o !! ref_URI ref) as [d|] eqn:E; cbv iota in H; run H.
  by str_eqs.
Qed.

Lemma Objects_Put_Ok art o ref o' :
  Objects_Put art o = (Ok ref, o') →
  ref_SHA256 ref = SHA256JSON (a_Payload art) ∧ o' !! ref_URI ref = Some (a_Payload art).
Proof.
  unfold Objects_Put. intros H. run H. run_all.
  destruct (o !! _) as [d|] eqn:E; cbv iota in H.
  - destruct (String.eqb_spec d (a_Payload art)) as [->|]; run H. done.
  - run H. apply modify_Ok in Hr as ->. split; [done|]. apply lookup_insert_eq.
Qed.

(** An artifact that was put can be got by its reference ever after: whatever is
    put later, the same bytes come back. *)
Theorem Objects_Put_Get art o ref o1 later :
  Objects_Put art o = (Ok ref, o1) →
  let o2 := foldl (λ o art, (Objects_Put art o).2) o1 later in
  Objects_Get ref o2 = (Ok (a_Payload art), o2).
Proof.
  intros [Hsha Hput]%Objects_Put_Ok o2.
  assert (Hsub : o1 ⊆ o2).
  { subst o2. clear Hput. revert o1. induction later as [|a later IH]; intros o1; simpl; [done|].
    etrans; [apply (Objects_Put_subseteq a o1)|apply IH]. }
  pose proof (lookup_weaken _ _ _ _ Hput Hsub) as Hl.
  clearbody o2. unfold Objects_Get. rewrite io_bind_run. unfold gets. rewrite Hl, Hsha.
  by rewrite String.eqb_refl.
Qed.
