(* ===== verification/AdapterManifests.v ===== *)
(** * Adapter manifests ([internal/forge/compiler], compiler.go and adapter_runtime.go)

    What an adapter says it implements: the documents are found next to the
    repositories, checked on their own and against the registry.  Decoding YAML, and
    the protocol's own check of a descriptor, are parameters. *)

From stdpp Require Import options.
From stdpp Require Import gmap.
From S2P Require Import Prelude GoStrings GoTime GoEncoding GoPath Domain Registry.
#[local] Open Scope Z_scope.

(** ** Records *)

Record AdapterManifestCapability := {
  amc_CapabilityID : string;
  amc_ImplementationStatus : string;
  amc_SupportedActions : list string;
  amc_ImplementedGranularities : list string;
  amc_RequiredPrivileges : list string;
}.

Record AdapterManifestRawSignal := {
  ars_SignalID : string;
  ars_Projectors : list string;
}.

(** [Signals] and [Privileges] are read for their identifiers. *)
Record AdapterManifest := {
  am_Path : string;
  am_Digest : string;
  am_AdapterID : string;
  am_AdapterVersion : string;
  am_ProtocolVersion : string;
  am_Status : string;
  am_ComponentRole : string;
  am_Capabilities : list AdapterManifestCapability;
  am_Signals : list string;
  am_RawSignals : list AdapterManifestRawSignal;
  am_Privileges : list string;
  am_ContextRequirements : list string;
}.

Definition with_file (path digest : string) (m : AdapterManifest) : AdapterManifest := {|
  am_Path := path; am_Digest := digest; am_AdapterID := am_AdapterID m;
  am_AdapterVersion := am_AdapterVersion m; am_ProtocolVersion := am_ProtocolVersion m;
  am_Status := am_Status m; am_ComponentRole := am_ComponentRole m;
  am_Capabilities := am_Capabilities m; am_Signals := am_Signals m; am_RawSignals := am_RawSignals m;
  am_Privileges := am_Privileges m; am_ContextRequirements := am_ContextRequirements m |}.

Abbreviation Manifests := (gmap string AdapterManifest).

Definition sha256Bytes (data : string) : string := "sha256:" +:+ sha256_hex data.

(** ** The shape of a manifest *)

(** One turn of the loop: the capabilities seen before, and the position. *)
Definition check_manifest_capability (path : string) (seen : gmap string unit)
    (ic : nat * AdapterManifestCapability) : result (gmap string unit) :=
  let '(i, capability) := ic in
  let capabilityID := trim_space (amc_CapabilityID capability) in
  reject empty_str capabilityID
    with Errorf "adapter_manifest_invalid: %s: capability %d missing capability_id"
           [AStr path; AInt (Z.of_nat i)];;
  reject map_has seen capabilityID
    with Errorf "adapter_manifest_invalid: %s: duplicate capability %q" [AStr path; AStr capabilityID];;
  reject negb (containsString ["implemented"; "planned"; "experimental"]
                 (amc_ImplementationStatus capability))
    with Errorf "adapter_manifest_invalid: %s: capability %q implementation_status must be implemented, planned or experimental"
           [AStr path; AStr capabilityID];;
  Ok (<[capabilityID := tt]> seen).

Definition validateAdapterManifestShape (path : string) (m : AdapterManifest) : result unit :=
  reject blank (am_AdapterID m)
    with Errorf "adapter_manifest_invalid: %s: adapter_id is required" [AStr path];;
  reject blank (am_AdapterVersion m)
    with Errorf "adapter_manifest_invalid: %s: adapter_version is required" [AStr path];;
  reject blank (am_ProtocolVersion m)
    with Errorf "adapter_manifest_invalid: %s: protocol_version is required" [AStr path];;
  reject negb (containsString ["stable"; "planned"; "experimental"] (am_Status m))
    with Errorf "adapter_manifest_invalid: %s: status must be stable, planned or experimental"
           [AStr path];;
  reject Nat.eqb (length (am_Capabilities m)) 0
    with Errorf "adapter_manifest_invalid: %s: at least one capability is required" [AStr path];;
  _ ← for_fold (check_manifest_capability path) ∅ (imap pair (am_Capabilities m));
  Ok tt.

Definition isAdapterRawSignal (adapterID signalID : string) : bool :=
  let adapterID := trim_space adapterID in
  let signalID := trim_space signalID in
  if negb (has_prefix "kernloom.adapter." adapterID) || negb (has_prefix "signal." signalID)
  then false else
  let adapterName := trim_prefix "kernloom.adapter." adapterID in
  if empty_str adapterName then false
  else has_prefix ("signal." +:+ adapterName +:+ ".raw_") signalID.

Definition adapterManifestImplements (m : AdapterManifest) (capabilityID actionType : string) : bool :=
  match List.find (λ c, trim_space (amc_CapabilityID c) ==s capabilityID) (am_Capabilities m) with
  | Some c =>
      (trim_space (amc_ImplementationStatus c) ==s "implemented") &&
      containsString (amc_SupportedActions c) actionType
  | None => false
  end.

(** ** Loading *)

(** [yaml.Unmarshal] of a manifest; its path and digest are not in the document. *)
Class ManifestDecoder := { decode_AdapterManifest : string → result AdapterManifest }.

Section loading.
Context {FS : Files} {MD : ManifestDecoder}.

Definition LoadAdapterManifestFile (path : string) : result AdapterManifest :=
  data ← os_ReadFile path;
  manifest ← wrap_err "adapter_manifest_invalid: %s: %w" [AStr path] (decode_AdapterManifest data);
  _ ← validateAdapterManifestShape path manifest;
  Ok (with_file path (sha256Bytes data) manifest).

(** One entry of a root: the manifests so far, and the paths tried. *)
Definition load_entry (root : string) (acc : Manifests * gmap string unit) (entry : string * bool)
    : result (Manifests * gmap string unit) :=
  let '(manifests, seenPaths) := acc in
  let '(name, isDir) := entry in
  if negb isDir || negb (has_prefix "kernloom-adapter-" name) then Ok acc else
  let path := Join [root; name; "adapter.manifest.yaml"] in
  if map_has seenPaths path then Ok acc else
  let seenPaths := <[path := tt]> seenPaths in
  match LoadAdapterManifestFile path with
  | Err e => if IsNotExist e then Ok (manifests, seenPaths) else Err e
  | Ok manifest =>
      reject map_has manifests (am_AdapterID manifest)
        with Errorf "adapter_manifest_duplicate: duplicate adapter manifest for %q"
               [AStr (am_AdapterID manifest)];;
      Ok (<[am_AdapterID manifest := manifest]> manifests, seenPaths)
  end.

(** A root that cannot be read is passed over. *)
Definition loadAdapterManifestsFromRoots (roots : list string) : result Manifests :=
  fst <$> for_fold (λ acc root,
    match os_ReadDir root with
    | Ok entries => for_fold (load_entry root) acc entries
    | Err _ => Ok acc
    end) (∅, ∅) roots.

(** Absolute paths, each once, in their order. *)
Definition workspaceRootPathCandidates (paths : list string) : list string :=
  foldl (λ roots path,
    if empty_str path then roots else
    match Abs os_Getwd path with
    | Some abs => if existsb (String.eqb abs) roots then roots else roots ++ [abs]
    | None => roots
    end) [] paths.

Definition workspaceRootParentCandidates (paths : list string) : list string :=
  workspaceRootPathCandidates (Dir <$> List.filter (λ path, negb (empty_str path)) paths).

Definition adapterManifestRootGroups (policyRepo coreRegistry enterpriseRegistry : string)
    : list (list string) :=
  let explicit := workspaceRootParentCandidates [policyRepo; coreRegistry; enterpriseRegistry] in
  let fallback := workspaceRootPathCandidates [".."; "."] in
  match explicit with [] => [fallback] | _ => [explicit; fallback] end.

Fixpoint first_group (groups : list (list string)) : result Manifests :=
  match groups with
  | [] => Ok ∅
  | roots :: groups =>
      manifests ← loadAdapterManifestsFromRoots roots;
      if Nat.eqb (size manifests) 0 then first_group groups else Ok manifests
  end.

Definition LoadAdapterManifests (policyRepo coreRegistry enterpriseRegistry : string)
    : result Manifests :=
  first_group (adapterManifestRootGroups policyRepo coreRegistry enterpriseRegistry).
End loading.

(** ** Against the registry *)
Section registry.
Context {GR : GoRuntime}.

Definition manifest_error (m : AdapterManifest) (format : string) (args : list fmt_arg) : error :=
  Errorf ("adapter_manifest_invalid: %s: " +:+ format) (AStr (am_Path m) :: args).

Definition check_capability_claims (c : Catalog) (adapterID : string) (m : AdapterManifest)
    (capability : AdapterManifestCapability) : result unit :=
  let id := AStr adapterID in
  let capabilityID := amc_CapabilityID capability in
  let implemented := amc_ImplementationStatus capability ==s "implemented" in
  let complain format name := manifest_error m format [id; AStr capabilityID; AStr name] in
  match get_Capability c capabilityID with
  | None => Err (manifest_error m "adapter %q references unknown capability %q"
                   [id; AStr capabilityID])
  | Some spec =>
      reject implemented && (cap_Status spec ==s "planned")
        with manifest_error m "adapter %q claims implemented planned capability %q"
               [id; AStr capabilityID];;
      _ ← all_known (capabilitySupportsRuntimeAction spec)
            (complain "adapter %q capability %q declares unsupported action %q")
            (amc_SupportedActions capability);
      _ ← for_each (λ granularity,
            reject negb (has_entry c "granularity" granularity)
              with complain "adapter %q capability %q references unknown granularity %q" granularity;;
            reject negb (Nat.eqb (length (cap_SupportedGranularities spec)) 0) &&
                   negb (containsString (cap_SupportedGranularities spec) granularity)
              with complain "adapter %q capability %q declares unsupported granularity %q" granularity;;
            Ok tt) (amc_ImplementedGranularities capability);
      _ ← all_known (has_entry c "privilege")
            (complain "adapter %q capability %q references unknown privilege %q")
            (amc_RequiredPrivileges capability);
      if implemented then
        all_known (containsString (amc_RequiredPrivileges capability))
          (complain "adapter %q capability %q omits required privilege %q")
          (cap_PrivilegeRequirements spec)
      else Ok tt
  end.

Definition check_raw_signal (c : Catalog) (adapterID : string) (m : AdapterManifest)
    (signal : AdapterManifestRawSignal) : result unit :=
  if has_entry c "signal" (ars_SignalID signal) then Ok tt else
  reject negb (isAdapterRawSignal (am_AdapterID m) (ars_SignalID signal))
    with manifest_error m "adapter %q references unknown raw signal %q"
           [AStr adapterID; AStr (ars_SignalID signal)];;
  reject Nat.eqb (length (ars_Projectors signal)) 0
    with manifest_error m "adapter %q raw signal %q requires at least one projector"
           [AStr adapterID; AStr (ars_SignalID signal)];;
  Ok tt.

Definition check_manifest (c : Catalog) (kv : string * AdapterManifest) : result unit :=
  let '(adapterID, m) := kv in
  let unknown what name := manifest_error m ("adapter %q references unknown " +:+ what +:+ " %q")
                             [AStr adapterID; AStr name] in
  reject (am_ComponentRole m !=s "") && negb (has_entry c "component_role" (am_ComponentRole m))
    with unknown "component_role" (am_ComponentRole m);;
  _ ← for_each (check_capability_claims c adapterID m) (am_Capabilities m);
  _ ← all_known (has_entry c "signal") (unknown "signal") (am_Signals m);
  _ ← for_each (check_raw_signal c adapterID m) (am_RawSignals m);
  _ ← all_known (has_entry c "privilege") (unknown "privilege") (am_Privileges m);
  all_known (HasRegistryID c) (unknown "context requirement") (am_ContextRequirements m).

Definition ValidateAdapterManifests (c : Catalog) (manifests : Manifests) : result unit :=
  for_each (check_manifest c) (map_order (map_to_list manifests)).
End registry.

(** ** What a running adapter describes *)

(** The parts of the protocol's [AdapterDescriptor] the code reads. *)
Record CapabilityDescriptor := {
  cd_Id : string;
  cd_Actions : list string;
  cd_RuntimeActions : list string;
}.

Record AdapterDescriptor := {
  ad_AdapterId : string;
  ad_ProtocolVersion : string;
  ad_ManifestDigest : string;
  ad_Capabilities : list CapabilityDescriptor;
  ad_Privileges : list string;
}.

Record AdapterRuntimeDescribe := {
  ard_ManifestDigest : string;
  ard_Descriptor : option AdapterDescriptor;
}.

Definition describe_error (format : string) (args : list fmt_arg) : error :=
  Errorf ("adapter_runtime_describe_invalid: " +:+ format) args.

(** The last descriptor of a capability stays in the map. *)
Definition descriptor_capability (d : AdapterDescriptor) (id : string) : option CapabilityDescriptor :=
  List.find (λ c, cd_Id c ==s id) (rev (ad_Capabilities d)).

(** [adapterv1.ValidateDescriptor] is the SDK's. *)
Definition ValidateAdapterRuntimeDescribe (ValidateDescriptor : AdapterDescriptor → result unit)
    (m : AdapterManifest) (describe : AdapterRuntimeDescribe) : result unit :=
  match ard_Descriptor describe with
  | None => Err (describe_error "descriptor is required" [])
  | Some desc =>
    _ ← wrap_err "adapter_runtime_describe_invalid: %w" [] (ValidateDescriptor desc);
    let manifestDigest := trim_space (ard_ManifestDigest describe) in
    let manifestDigest :=
      if empty_str manifestDigest then trim_space (ad_ManifestDigest desc) else manifestDigest in
    let id := AStr (am_AdapterID m) in
    reject empty_str manifestDigest
      with describe_error "adapter %q did not report manifest digest" [id];;
    reject blank (am_Digest m) with describe_error "manifest %q has no digest" [id];;
    reject manifestDigest !=s am_Digest m
      with describe_error "adapter %q manifest digest mismatch: describe=%s manifest=%s"
             [id; AStr manifestDigest; AStr (am_Digest m)];;
    reject ad_AdapterId desc !=s am_AdapterID m
      with describe_error "descriptor adapter_id %q does not match manifest adapter_id %q"
             [AStr (ad_AdapterId desc); id];;
    reject ad_ProtocolVersion desc !=s am_ProtocolVersion m
      with describe_error "adapter %q protocol_version %q does not match manifest protocol_version %q"
             [id; AStr (ad_ProtocolVersion desc); AStr (am_ProtocolVersion m)];;
    for_each (λ capability,
      let capabilityID := AStr (amc_CapabilityID capability) in
      if amc_ImplementationStatus capability !=s "implemented" then Ok tt else
      match descriptor_capability desc (amc_CapabilityID capability) with
      | None => Err (describe_error "adapter %q descriptor omits implemented capability %q"
                       [id; capabilityID])
      | Some d =>
          _ ← all_known (containsString (cd_Actions d ++ cd_RuntimeActions d))
                (λ action, describe_error "adapter %q descriptor capability %q omits manifest action %q"
                             [id; capabilityID; AStr action])
                (amc_SupportedActions capability);
          all_known (λ privilege, existsb (String.eqb privilege) (ad_Privileges desc))
            (λ privilege, describe_error "adapter %q descriptor omits manifest privilege %q for capability %q"
                            [id; AStr privilege; capabilityID])
            (amc_RequiredPrivileges capability)
      end) (am_Capabilities m)
  end.
