(* ===== verification/Compiler.v ===== *)
(** * The compiler ([internal/forge/compiler/compiler.go])

    An intent card is resolved against the registry, and becomes a runtime bundle, a
    context route pack, a conformance expectation and a build manifest: each is
    written, stored, and signed.  The JSON of an artifact, CEL, git, the environment and
    the file system are parameters. *)

From stdpp Require Import options.
From stdpp Require Import gmap.
From S2P Require Import Prelude IO GoStrings GoTime GoJson GoEncoding GoPath Risk Schema Signing.
From S2P Require Import Domain Registry Intent Artifacts BuildManifest ArtifactStore.
From S2P Require Import AdapterManifests.
#[local] Open Scope Z_scope.

(** ** Resolved policies *)

Record ResolvedValue := {
  rv_Label : string;
  rv_CanonicalID : string;
  rv_Kind : string;
  rv_CEL : string;
}.

Definition resolvedValue (v : Value) : ResolvedValue :=
  {| rv_Label := va_Label v; rv_CanonicalID := va_CanonicalID v; rv_Kind := va_Kind v;
     rv_CEL := va_CEL v |}.

Record ResolvedRule := {
  rr_Name : string;
  rr_Effect : ResolvedValue;
  rr_Subject : ResolvedValue;
  rr_Action : ResolvedValue;
  rr_Resource : ResolvedValue;
  rr_Conditions : list ResolvedValue;
  rr_CEL : string;
}.

Record ResolvedRiskBehavior := {
  rrb_RiskType : ResolvedValue;
  rrb_Tier : ResolvedValue;
  rrb_Effect : ResolvedValue;
}.

Record ResolvedRuntime := {
  rrt_Allowed : bool;
  rrt_Actions : list ResolvedValue;
  rrt_MaxTTL : string;
  rrt_MaxTTLSource : string;
  rrt_MaxScope : ResolvedValue;
  rrt_MaxScopeSource : string;
}.

Record ResolvedSimulation := {
  rsi_Name : string;
  rsi_Given : list ResolvedValue;
  rsi_ExpectEffect : ResolvedValue;
}.

(** [ResolvedPolicy] with its metadata and spec. *)
Record ResolvedPolicy := {
  rp_ID : string;
  rp_PolicyID : string;
  rp_SourcePath : string;
  rp_SourceCommit : string;
  rp_Version : string;
  rp_Owner : string;
  rp_Type : string;
  rp_Target : string;
  rp_Stage : string;
  rp_Profile : string;
  rp_RiskRecipe : string;
  rp_Guardrails : option (list string);
  rp_Rules : list ResolvedRule;
  rp_RiskBehavior : list ResolvedRiskBehavior;
  rp_Prohibit : list ResolvedValue;
  rp_Runtime : ResolvedRuntime;
  rp_Simulations : list ResolvedSimulation;
}.

(** ** Resolving *)

(** [cel_compile] is the third-party environment of [expression.NewCELValidator]. *)
Class CEL := { cel_compile : string → result unit }.

Definition Validate `{CEL} (expr : string) : result unit :=
  if empty_str expr then Ok tt else wrap_err "invalid CEL %q: %w" [AStr expr] (cel_compile expr).

Section resolving.
Context {GR : GoRuntime} {CE : CEL}.
Implicit Types (c : Catalog) (card : Card).

Definition validateMetadata card c : result unit :=
  let id := AStr (card_ID card) in
  reject card_Version card !=s "kni/v0.5"
    with Errorf "%s: unsupported KNI version %q" [id; AStr (card_Version card)];;
  reject empty_str (card_ID card) || empty_str (card_Owner card) || empty_str (card_Type card) ||
         empty_str (card_Target card) || empty_str (card_Stage card)
    with Errorf "%s: missing required intent metadata" [id];;
  _ ← wrap_err "%s: invalid policy type: %w" [id] (Resolve c (card_Type card) ["policy_type"]);
  _ ← wrap_err "%s: invalid target: %w" [id] (Resolve c (card_Target card) ["target_system"]);
  _ ← wrap_err "%s: invalid stage: %w" [id] (Resolve c (card_Stage card) ["stage"]);
  reject Nat.eqb (length (card_Rules card)) 0
    with Errorf "%s: intent requires at least one rule" [id];;
  reject bool_decide (get_Profile c (card_Profile card) = None)
    with Errorf "%s: unknown profile %q" [id; AStr (card_Profile card)];;
  reject bool_decide (get_RiskRecipe c (card_RiskRecipe card) = None)
    with Errorf "%s: unknown risk recipe %q" [id; AStr (card_RiskRecipe card)];;
  Ok tt.

(** A loop that resolves each element, or returns the first error. *)
Definition resolve_each {A B} (f : A → result B) (l : list A) : result (list B) :=
  for_fold (λ acc x, y ← f x; Ok (acc ++ [y])) [] l.

(** A label whose CEL is checked. *)
Definition resolve_checked c (kinds : list string) (label : string) : result ResolvedValue :=
  v ← Resolve c label kinds;
  _ ← Validate (va_CEL v);
  Ok (resolvedValue v).

Definition condition_expressions (conditions : list ResolvedValue) : list string :=
  (λ v, "(" +:+ rv_CEL v +:+ ")") <$> List.filter (λ v, rv_CEL v !=s "") conditions.

Definition resolveRule c (rule : Rule) : result ResolvedRule :=
  effect ← Resolve c (ru_Effect rule) ["effect"];
  subject ← Resolve c (ru_Subject rule) ["subject"];
  action ← Resolve c (ru_Action rule) ["action"];
  resource ← Resolve c (ru_Resource rule) ["resource"];
  conditions ← resolve_each (resolve_checked c ["fact"]) (ru_OnlyWhen rule);
  let cel := match condition_expressions conditions with
             | [] => "true"
             | expressions => join " && " expressions
             end in
  _ ← Validate cel;
  Ok {| rr_Name := ru_Name rule; rr_Effect := resolvedValue effect;
        rr_Subject := resolvedValue subject; rr_Action := resolvedValue action;
        rr_Resource := resolvedValue resource; rr_Conditions := conditions; rr_CEL := cel |}.

Definition runtime_default (profile : Profile) (key : string) : string :=
  default "" (default ∅ (pf_RuntimeDefaults profile) !! key).

Definition resolveRuntime c (profile : Profile) (runtime : Runtime) : result ResolvedRuntime :=
  let '(maxTTL, maxTTLSource) :=
    if empty_str (rt_MaxTTL runtime) then (runtime_default profile "max_ttl", "profile_default")
    else (rt_MaxTTL runtime, "policy") in
  let '(maxScope, maxScopeSource) :=
    if empty_str (rt_MaxScope runtime) then (runtime_default profile "max_scope", "profile_default")
    else (rt_MaxScope runtime, "policy") in
  reject empty_str maxTTL
    with Errorf "runtime max_ttl is missing and profile %q has no default" [AStr (pf_ID profile)];;
  reject empty_str maxScope
    with Errorf "runtime max_scope is missing and profile %q has no default" [AStr (pf_ID profile)];;
  scope ← Resolve c maxScope ["scope"];
  actions ← resolve_each (λ label, resolvedValue <$> Resolve c label ["runtime_action"])
              (rt_Actions runtime);
  Ok {| rrt_Allowed := rt_Allowed runtime; rrt_Actions := actions; rrt_MaxTTL := maxTTL;
        rrt_MaxTTLSource := maxTTLSource; rrt_MaxScope := resolvedValue scope;
        rrt_MaxScopeSource := maxScopeSource |}.

Definition resolveSimulation c (simulation : Simulation) : result ResolvedSimulation :=
  given ← resolve_each (resolve_checked c ["fact"; "subject"]) (si_Given simulation);
  effect ← Resolve c (si_ExpectEffect simulation) ["effect"];
  Ok {| rsi_Name := si_Name simulation; rsi_Given := given; rsi_ExpectEffect := resolvedValue effect |}.

Definition resolveRiskBehavior c (b : RiskBehavior) : result ResolvedRiskBehavior :=
  riskType ← Resolve c (rb_RiskType b) ["risk_type"];
  tier ← Resolve c (rb_Tier b) ["risk_tier"];
  effect ← Resolve c (rb_Effect b) ["effect"];
  Ok {| rrb_RiskType := resolvedValue riskType; rrb_Tier := resolvedValue tier;
        rrb_Effect := resolvedValue effect |}.

(** The resolving part of [compileOne]. *)
Definition resolve_policy c (profile : Profile) card (sourcePath sourceCommit : string)
    : result ResolvedPolicy :=
  rules ← resolve_each (λ rule, wrap_err "%s: %w" [AStr (card_ID card)] (resolveRule c rule))
            (card_Rules card);
  risk ← resolve_each (resolveRiskBehavior c) (card_Risk card);
  prohibit ← resolve_each (λ label, resolvedValue <$> Resolve c label ["prohibited_outcome"])
               (card_Prohibit card);
  runtime ← resolveRuntime c profile (card_Runtime card);
  simulations ← resolve_each (resolveSimulation c) (card_Simulations card);
  Ok {| rp_ID := "resolved." +:+ card_ID card; rp_PolicyID := card_ID card;
        rp_SourcePath := sourcePath; rp_SourceCommit := sourceCommit;
        rp_Version := card_Version card; rp_Owner := card_Owner card; rp_Type := card_Type card;
        rp_Target := card_Target card; rp_Stage := card_Stage card; rp_Profile := card_Profile card;
        rp_RiskRecipe := card_RiskRecipe card; rp_Guardrails := pf_Guardrails profile;
        rp_Rules := rules; rp_RiskBehavior := risk; rp_Prohibit := prohibit; rp_Runtime := runtime;
        rp_Simulations := simulations |}.

Definition validateCatalogCEL c : result unit :=
  _ ← for_each (λ v, wrap_err "%s: %w" [AStr (va_Label v)] (Validate (va_CEL v))) (cat_Values c);
  for_each (λ kv,
    for_each (λ te, wrap_err "%s threshold %s: %w" [AStr (rcp_ID kv.2); AStr te.1] (Validate te.2))
      (map_order (map_to_list (rcp_Thresholds kv.2))))
    (map_order (map_to_list (cat_RiskRecipes c))).

(** ** The runtime bundle *)

(** [digestJSON] of a map of strings. *)
Definition digest_strings (fields : list (string * string)) : string :=
  sha256Bytes (json_encode (jmap ((λ kv, (kv.1, JStr kv.2)) <$> fields))).

Definition capabilityGrantID (policyID adapterID capabilityID actionType scope : string) : string :=
  "grant." +:+ shortHash (join NUL [policyID; adapterID; capabilityID; actionType; scope]).

Definition runtimeActionDigest
    (policyID adapterID capabilityID actionType scope bindingDigest manifestDigest : string) : string :=
  digest_strings
    [("policy_id", policyID); ("adapter_id", adapterID); ("capability_id", capabilityID);
     ("action_type", actionType); ("scope", scope); ("binding_digest", bindingDigest);
     ("adapter_manifest_digest", manifestDigest)].

Definition runtimeCapabilityGrant card (resolved : ResolvedPolicy) (actionType : string) c
    (adapterManifests : Manifests) : result CapabilityGrant :=
  match RuntimeActionRule c actionType with
  | None => Err (Errorf "runtime action %q has no compiler rule" [AStr actionType])
  | Some rule =>
  match rule_CapabilityIDs rule with
  | [capabilityID] =>
    match get_Capability c capabilityID with
    | None => Err (Errorf "compiler rule %q references unknown capability %q"
                     [AStr (rule_ID rule); AStr capabilityID])
    | Some capability =>
      reject trim_space (cap_Status capability) ==s "planned"
        with Errorf "capability %q is planned and cannot satisfy production runtime action %q"
               [AStr capabilityID; AStr actionType];;
      match get_AdapterBinding c capabilityID (card_Stage card) with
      | None => Err (Errorf "capability %q has no enterprise adapter binding for stage %q"
                       [AStr capabilityID; AStr (card_Stage card)])
      | Some binding =>
        let adapterID := trim_space (ab_AdapterID binding) in
        match adapterManifests !! adapterID with
        | None => Err (Errorf "adapter %q selected for capability %q has no adapter manifest"
                         [AStr adapterID; AStr capabilityID])
        | Some manifest =>
          reject negb (adapterManifestImplements manifest capabilityID actionType)
            with Errorf "adapter manifest %q does not implement capability %q for runtime action %q"
                   [AStr adapterID; AStr capabilityID; AStr actionType];;
          let scope := rv_Label (rrt_MaxScope (rp_Runtime resolved)) in
          Ok {|
            cg_ID := capabilityGrantID (card_ID card) adapterID capabilityID actionType scope;
            cg_BindingID := ab_BindingID binding;
            cg_BindingDigest := ab_Digest binding;
            cg_AdapterID := adapterID;
            cg_AdapterManifestDigest := am_Digest manifest;
            cg_CapabilityID := capabilityID;
            cg_ActionType := actionType;
            cg_ActionDigest := runtimeActionDigest (card_ID card) adapterID capabilityID actionType
                                 scope (ab_Digest binding) (am_Digest manifest);
            cg_AllowedTargetScopes := [scope];
            cg_MaxTTL := rrt_MaxTTL (rp_Runtime resolved);
            cg_Stage := card_Stage card;
            cg_Environment := "";
            cg_Owner := card_Owner card;
            cg_ApprovalRef := "build." +:+ card_ID card;
            cg_ExpiresAt := "";
            cg_RateLimit := None;
          |}
        end
      end
    end
  | ids =>
    Err (Errorf "compiler rule %q must resolve runtime action %q to exactly one v1 capability, got %d"
           [AStr (rule_ID rule); AStr actionType; AInt (Z.of_nat (length ids))])
  end
  end.

Definition PlannedStatus (message : string) : ArtifactStatus :=
  {| st_Status := "planned"; st_Phase := "resolved_only"; st_Message := message |}.

(** The metadata of one artifact: the other fields are shared, the map of digests too. *)
Definition metadata_for (id artifactType : string) (m : ArtifactMetadata) : ArtifactMetadata := {|
  art_ID := id; art_PolicyID := art_PolicyID m; art_ArtifactType := artifactType;
  art_KNI := art_KNI m; art_SourcePath := art_SourcePath m; art_SourceCommit := art_SourceCommit m;
  art_CorrelationID := art_CorrelationID m; art_CreatedAt := art_CreatedAt m;
  art_Digests := art_Digests m |}.

Definition runtimeBundleArtifact card (resolved : ResolvedPolicy) (metadata : ArtifactMetadata) c
    (adapterManifests : Manifests) : result RuntimeBundle :=
  let runtime := rp_Runtime resolved in
  grants ← resolve_each
             (λ action, runtimeCapabilityGrant card resolved (rv_CanonicalID action) c adapterManifests)
             (rrt_Actions runtime);
  Ok {| rb_Kind := "RuntimeBundle";
        rb_Metadata := metadata_for ("runtime_bundle." +:+ card_ID card) "runtime_bundle" metadata;
        rb_Spec := {|
          rbs_PolicyID := card_ID card;
          rbs_RuntimeAllowed := rrt_Allowed runtime;
          rbs_RuntimeActions := (λ a, {| ra_Label := rv_Label a; ra_CanonicalID := rv_CanonicalID a |})
                                  <$> rrt_Actions runtime;
          rbs_CapabilityGrants := grants;
          rbs_RiskRecipe := rp_RiskRecipe resolved;
          rbs_RiskBehavior := (λ b, {|
            prb_RiskType := rv_CanonicalID (rrb_RiskType b); prb_Tier := rv_CanonicalID (rrb_Tier b);
            prb_Effect := rv_CanonicalID (rrb_Effect b); prb_RuntimeHint := "" |})
            <$> rp_RiskBehavior resolved;
          rbs_MaxTTL := rrt_MaxTTL runtime;
          rbs_MaxTTLSource := rrt_MaxTTLSource runtime;
          rbs_MaxScope := rv_Label (rrt_MaxScope runtime);
          rbs_MaxScopeSource := rrt_MaxScopeSource runtime;
        |};
        rb_Status := PlannedStatus "Runtime bundle is planned and locally verifiable. Real adapter execution is not implemented yet." |}.

(** ** The other artifacts *)

Definition contextRoutePackArtifact card (resolved : ResolvedPolicy) (metadata : ArtifactMetadata)
    : ContextRoutePack := {|
  crp_Kind := "ContextRoutePack";
  crp_Metadata := metadata_for ("context_route_pack." +:+ card_ID card) "context_route_pack" metadata;
  crp_Spec := {|
    crs_PolicyID := card_ID card; crs_Target := rp_Target resolved; crs_Stage := rp_Stage resolved;
    crs_Routes := (λ rule, {|
      cr_Name := rr_Name rule; cr_Consumers := [rp_Target resolved; "forge-simulation"];
      cr_Facts := rv_CanonicalID <$> rr_Conditions rule; cr_Sensitivity := "planned" |})
      <$> rp_Rules resolved |};
  crp_Status := PlannedStatus "Context projection routing is planned; runtime enforcement is not active yet." |}.

(** [fmt.Sprintf("Expected effect %q ...")]; the text of [%q] is the runtime's. *)
Definition expectation_text (rule : ResolvedRule) : string :=
  error_text (Errorf "Expected effect %q for %q on %q remains unresolved-only until conformance execution exists."
    [AStr (rv_Label (rr_Effect rule)); AStr (rv_Label (rr_Action rule));
     AStr (rv_Label (rr_Resource rule))]).

Definition conformanceExpectationArtifact card (resolved : ResolvedPolicy)
    (metadata : ArtifactMetadata) : ConformanceExpectation := {|
  ce_Kind := "ConformanceExpectation";
  ce_Metadata :=
    metadata_for ("conformance_expectation." +:+ card_ID card) "conformance_expectation" metadata;
  ce_Spec := {|
    ces_PolicyID := card_ID card; ces_Target := rp_Target resolved; ces_Stage := rp_Stage resolved;
    ces_Expectations := (λ rule, {| ex_Name := rr_Name rule; ex_Description := expectation_text rule |})
                          <$> rp_Rules resolved;
    ces_Prohibit := (λ o, {| po_Label := rv_Label o; po_CanonicalID := rv_CanonicalID o |})
                      <$> rp_Prohibit resolved |};
  ce_Status := PlannedStatus "Conformance expectation is planned; evaluator is not implemented yet." |}.

(** ** References of the manifest *)

Definition adapterManifestsForRuntimeBundle (b : RuntimeBundle) (manifests : Manifests) : Manifests :=
  foldl (λ used grant,
    let adapterID := trim_space (cg_AdapterID grant) in
    if empty_str adapterID then used else
    match manifests !! adapterID with
    | Some manifest => <[adapterID := manifest]> used
    | None => used
    end) ∅ (rbs_CapabilityGrants (rb_Spec b)).

Definition bindingRefsFromRuntimeBundle (b : RuntimeBundle) : gmap string BindingRef :=
  foldl (λ refs grant,
    if blank (cg_BindingID grant) then refs else
    <[cg_BindingID grant := {| br_BindingID := cg_BindingID grant; br_Digest := cg_BindingDigest grant;
                               br_AdapterID := cg_AdapterID grant;
                               br_CapabilityID := cg_CapabilityID grant |}]> refs)
    ∅ (rbs_CapabilityGrants (rb_Spec b)).

Definition runtimeActionRefsFromRuntimeBundle (b : RuntimeBundle) : gmap string RuntimeActionRef :=
  foldl (λ refs grant,
    <[cg_ID grant := {| rar_CapabilityGrantID := cg_ID grant; rar_BindingID := cg_BindingID grant;
                        rar_AdapterID := cg_AdapterID grant;
                        rar_AdapterManifestDigest := cg_AdapterManifestDigest grant;
                        rar_CapabilityID := cg_CapabilityID grant;
                        rar_ActionType := cg_ActionType grant;
                        rar_ActionDigest := cg_ActionDigest grant |}]> refs)
    ∅ (rbs_CapabilityGrants (rb_Spec b)).

(** The identifiers of a map in order. *)
Definition sorted_ids {A} (m : gmap string A) : list string :=
  sort_by str_leb (map_order (map_to_list m)).*1.

Definition federatedSourceDigests (core enterprise policyRepo catalog profile riskRecipe : string)
    (manifests : Manifests) : gmap string string :=
  foldl (λ digests id,
    let digest := trim_space (from_option am_Digest "" (manifests !! id)) in
    if empty_str digest then digests else <["adapter:" +:+ id := digest]> digests)
    (list_to_map [("core_registry", core); ("enterprise_registry", enterprise);
                  ("policy_repo", policyRepo); ("catalog", catalog); ("profile", profile);
                  ("risk_recipe", riskRecipe)])
    (sorted_ids manifests).

Definition safe_char (c : Ascii.ascii) : bool :=
  let z := byte_of c in
  ((97 <=? z) && (z <=? 122)) || ((65 <=? z) && (z <=? 90)) || ((48 <=? z) && (z <=? 57)) ||
  (z =? 46) || (z =? 95) || (z =? 45).

(** One underscore per rune that is not safe: a continuation byte is part of the rune
    before it, if that one is well formed. *)
Fixpoint safe_runes (fuel : nat) (s : string) : string :=
  match fuel, s with
  | S fuel, String c rest =>
      if safe_char c then String c (safe_runes fuel rest)
      else "_" +:+ safe_runes fuel
             (drop_string (Nat.max 1 (utf8_len (bytes_of (take_string 4 s)))) s)
  | _, _ => ""
  end.

Definition safeArtifactFilename (value : string) : string :=
  let value := trim_space value in
  if empty_str value then "unknown" else safe_runes (String.length value) value.
End resolving.
