(* ===== verification/CompilerEmit.v ===== *)
(** * What the compiler emits ([internal/forge/compiler/compiler.go])

    Writing, storing and signing artifacts, the build manifest, [compileOne] and
    [Compile].  The files a build reads are not those it writes: reading is a function
    ([Files]), writing an effect on the state. *)

From stdpp Require Import options.
From stdpp Require Import gmap.
From S2P Require Import Prelude IO GoStrings GoTime GoJson GoEncoding GoPath GoFloat Risk Schema.
From S2P Require Import Signing Domain Registry Intent Artifacts BuildManifest ArtifactStore.
From S2P Require Import AdapterManifests Compiler.
#[local] Open Scope Z_scope.

Definition SigningModeNone := "none".
Definition SigningModeDevLocal := "dev-local".
Definition Version := "v0.1.0-dev".

(** ** Parameters *)

(** [signing.Signer] *)
Definition Signer (F : Type) : Type := string → Signing.Metadata → io F SignedEnvelope.

(** What a compilation acts on: [write_file] is [os.MkdirAll] of the directory and
    [os.WriteFile]. *)
Class CompilerWorld (F : Type) := {
  write_file : string → string → io F unit;
  wall_clock : io F time;
  LoadOrCreateDevLocalSigner : string → string → io F (Signer F);
}.

(** The environment, [git rev-parse HEAD], and [os.Executable]. *)
Class Environment := {
  os_Getenv : string → string;
  git_rev_parse : string → option string;
  os_Executable : option string;
}.

Record MeaningCoverageReport := {
  mcr_Kind : string;
  mcr_PolicyID : string;
  mcr_Status : string;
  mcr_Message : string;
}.

Record SimulationReport := {
  srp_Kind : string;
  srp_PolicyID : string;
  srp_Status : string;
  srp_Simulations : list (string * string);
  srp_Findings : list string;
}.

Record ValidationResult := {
  vrs_Kind : string;
  vrs_PolicyID : string;
  vrs_Status : string;
  vrs_Findings : list string;
}.

(** [json.MarshalIndent(value, "", "  ")] of each type, and [json.Marshal] of the
    documents that are digested. *)
Class CompilerEncoders := {
  indent_ResolvedPolicy : ResolvedPolicy → result string;
  indent_RuntimeBundle : RuntimeBundle → result string;
  indent_AdapterManifestArtifact : ArtifactMetadata → AdapterManifest → result string;
  indent_ContextRoutePack : ContextRoutePack → result string;
  indent_ConformanceExpectation : ConformanceExpectation → result string;
  indent_Coverage : MeaningCoverageReport → result string;
  indent_Simulation : SimulationReport → result string;
  indent_Validation : ValidationResult → result string;
  indent_Manifest : PolicyBuildManifest → result string;
  indent_Envelope : SignedEnvelope → result string;
  marshal_Catalog : Catalog → result string;
  marshal_Profile : Profile → result string;
  marshal_RiskRecipe : RiskRecipe → result string;
}.

(** ** Digests *)

Definition digestJSON (data : result string) : string :=
  match data with Ok data => sha256Bytes data | Err _ => "sha256:unavailable" end.

Definition relativeOrSame (base path : string) : string := default path (Rel base path).

Section reading.
Context {FS : Files} {EN : Environment}.

Definition gitCommit (repo : string) : string :=
  match git_rev_parse repo with Some out => trim_space out | None => "uncommitted" end.

Definition fileSHA256 (path : string) : string :=
  match os_ReadFile path with Ok data => sha256Bytes data | Err _ => "sha256:unavailable" end.

Definition executableSHA256 : string :=
  match os_Executable with
  | Some path => fileSHA256 path
  | None => sha256Bytes ("forge:" +:+ Version)
  end.

(** One entry of the walk of [pathSHA256]. *)
Definition digest_entry (path : string) (parts : list string) (e : WalkEntry)
    : walk_answer (list string) :=
  match we_Err e with
  | Some err => Stop err
  | None =>
      if we_IsDir e then
        if existsb (String.eqb (Base (we_Path e))) [".git"; "generated"; "bin"]
        then SkipDir parts else Continue parts
      else
        match Rel path (we_Path e) with
        | None => Stop (Errorf "Rel: can't make %s relative to %s" [AStr (we_Path e); AStr path])
        | Some rel =>
            match os_ReadFile (we_Path e) with
            | Err err => Stop err
            | Ok data => Continue (parts ++ [rel +:+ NUL +:+ sha256Bytes data])
            end
        end
  end.

Definition pathSHA256 (path : string) : string :=
  match os_Stat path with
  | Err _ => "sha256:unavailable"
  | Ok false => fileSHA256 path
  | Ok true =>
      match walk (digest_entry path) [] None (os_WalkDir path) with
      | Err _ => "sha256:unavailable"
      | Ok parts => sha256Bytes (join (chr 10) (sort_by str_leb parts))
      end
  end.

(** ** Options *)

Record Options (F : Type) := {
  op_PolicyRepo : string;
  op_PolicyFile : string;
  op_CoreRegistry : string;
  op_EnterpriseRegistry : string;
  op_OutputDir : string;
  op_SigningMode : string;
  op_SigningKeyPath : string;
  op_SigningKeyID : string;
  op_CorrelationID : string;
  op_BuildCreatedBy : string;
  op_SignatureTTL : duration;
  op_Signer : option (Signer F);
  op_Now : option (io F time);
}.
Arguments op_PolicyRepo {F}.
Arguments op_PolicyFile {F}.
Arguments op_CoreRegistry {F}.
Arguments op_EnterpriseRegistry {F}.
Arguments op_OutputDir {F}.
Arguments op_SigningMode {F}.
Arguments op_SigningKeyPath {F}.
Arguments op_SigningKeyID {F}.
Arguments op_CorrelationID {F}.
Arguments op_BuildCreatedBy {F}.
Arguments op_SignatureTTL {F}.
Arguments op_Signer {F}.
Arguments op_Now {F}.

Definition valueOrDefault (value fallback : string) : string :=
  if empty_str value then fallback else value.

(** The first that is not blank, trimmed. *)
Fixpoint first_nonblank (values : list string) (fallback : string) : string :=
  match values with
  | [] => fallback
  | v :: values => if blank v then first_nonblank values fallback else trim_space v
  end.

Definition buildCreatedBy {F} (opts : Options F) : string :=
  first_nonblank [op_BuildCreatedBy opts; os_Getenv "KERNLOOM_BUILD_CREATED_BY"; os_Getenv "USER";
                  os_Getenv "USERNAME"] "local-compiler".

(** One entry of the walk of [intentFiles]. *)
Definition intent_entry (files : list string) (e : WalkEntry) : walk_answer (list string) :=
  match we_Err e with
  | Some err => Stop err
  | None =>
      if negb (we_IsDir e) && has_suffix ".intent.kni" (we_Path e)
      then Continue (files ++ [we_Path e]) else Continue files
  end.

Definition intentFiles {F} (opts : Options F) : result (list string) :=
  if negb (empty_str (op_PolicyFile opts)) then Ok [op_PolicyFile opts] else
  files ← walk intent_entry [] None (os_WalkDir (Join [op_PolicyRepo opts; "policies"]));
  Ok (sort_by str_leb files).
End reading.
Arguments op_PolicyRepo {F}.
Arguments op_PolicyFile {F}.
Arguments op_CoreRegistry {F}.
Arguments op_EnterpriseRegistry {F}.
Arguments op_OutputDir {F}.
Arguments op_SigningMode {F}.
Arguments op_SigningKeyPath {F}.
Arguments op_SigningKeyID {F}.
Arguments op_CorrelationID {F}.
Arguments op_BuildCreatedBy {F}.
Arguments op_SignatureTTL {F}.
Arguments op_Signer {F}.
Arguments op_Now {F}.

(** ** Emitting *)

Record emittedArtifact := {
  em_Path : string;
  em_SHA256 : string;
  em_Ref : ArtifactRef;
  em_SignedPath : string;
  em_SignedSHA256 : string;
  em_SignedRef : ArtifactRef;
  em_PayloadSHA256 : string;   (* of [Envelope] *)
  em_KeyID : string;           (* of [Envelope] *)
}.

Definition no_ref : ArtifactRef := {| ref_URI := ""; ref_SHA256 := "" |}.

Definition unsigned_output (path sha : string) (ref : ArtifactRef) : emittedArtifact := {|
  em_Path := path; em_SHA256 := sha; em_Ref := ref; em_SignedPath := ""; em_SignedSHA256 := "";
  em_SignedRef := no_ref; em_PayloadSHA256 := ""; em_KeyID := "" |}.

Definition signedOutputRef (output : emittedArtifact) : SignedOutputRef :=
  if empty_str (em_SignedPath output)
  then {| so_Path := ""; so_ArtifactRef := no_ref; so_EnvelopeSHA256 := ""; so_PayloadSHA256 := "";
          so_KeyID := "" |}
  else {| so_Path := em_SignedPath output; so_ArtifactRef := em_SignedRef output;
          so_EnvelopeSHA256 := em_SignedSHA256 output; so_PayloadSHA256 := em_PayloadSHA256 output;
          so_KeyID := em_KeyID output |}.

Definition signedOutputs (outputs : gmap string emittedArtifact) : gmap string SignedOutputRef :=
  omap (λ output, if empty_str (em_SignedPath output) then None else Some (signedOutputRef output))
    outputs.

Definition adapterManifestSignedOutputMap (outputs : gmap string emittedArtifact)
    : gmap string emittedArtifact :=
  foldl (λ flat kv, <["adapter_manifest:" +:+ kv.1 := kv.2]> flat) ∅ (map_to_list outputs).

(** What is on the right replaces what is on the left. *)
Definition mergeEmittedArtifacts (left_ right_ : gmap string emittedArtifact)
    : gmap string emittedArtifact := right_ ∪ left_.

Definition adapterManifestRefs `{GoRuntime} (manifests : Manifests)
    (outputs : gmap string emittedArtifact) : gmap string AdapterRef :=
  foldl (λ refs id,
    match manifests !! id with
    | Some manifest =>
        <[id := {| adr_AdapterID := am_AdapterID manifest;
                   adr_AdapterVersion := am_AdapterVersion manifest;
                   adr_ManifestDigest := am_Digest manifest;
                   adr_ProtocolVersion := am_ProtocolVersion manifest;
                   adr_SignedManifest := signedOutputRef
                     (default (unsigned_output "" "" no_ref) (outputs !! id)) |}]> refs
    | None => refs
    end) ∅ (sorted_ids manifests).

(** The signer, if artifacts are signed, and when the signatures expire. *)
Record compileRuntime (F : Type) := {
  crt_Signer : option (Signer F);
  crt_ExpiresAt : option time;
}.
Arguments crt_Signer {F}.
Arguments crt_ExpiresAt {F}.

Section emitting.
Context {GR : GoRuntime} {F : Type} {ST : ArtifactStore F} {CW : CompilerWorld F}.
Context {EC : CompilerEncoders} {UL : UnicodeLower}.
Implicit Types (opts : Options F) (services : compileRuntime F).

(** The path, the digest and the bytes. *)
Definition writeJSONPayload (path : string) (encoded : result string) : io F (string * string * string) :=
  data ← lift encoded;
  let data := data +:+ chr 10 in
  _ ← write_file path data;
  mret (path, sha256Bytes data, data).

Definition writeJSON (path : string) (encoded : result string) : io F (string * string) :=
  '(path, hash, _) ← writeJSONPayload path encoded;
  mret (path, hash).

Definition emitJSONArtifact (path : string) (encoded : result string) (metadata : ArtifactMetadata)
    services opts : io F emittedArtifact :=
  '(writtenPath, hash, payload) ← writeJSONPayload path encoded;
  ref ← store_Put {| a_Metadata := metadata; a_Payload := payload |};
  match crt_Signer services with
  | None => mret (unsigned_output writtenPath hash ref)
  | Some sign =>
      envelope ← sign payload {| md_KeyID := op_SigningKeyID opts;
        md_SourceCommit := art_SourceCommit metadata; md_PolicyID := art_PolicyID metadata;
        md_ExpiresAt := crt_ExpiresAt services |};
      let signedPath := Join [op_OutputDir opts; "signed";
        art_PolicyID metadata +:+ "." +:+ art_ArtifactType metadata +:+ ".signed.json"] in
      '(writtenSignedPath, signedHash, signedPayload) ←
        writeJSONPayload signedPath (indent_Envelope envelope);
      signedRef ← store_Put {|
        a_Metadata := metadata_for ("signed." +:+ art_ID metadata)
                        (art_ArtifactType metadata +:+ "_signed_envelope") metadata;
        a_Payload := signedPayload |};
      mret {| em_Path := writtenPath; em_SHA256 := hash; em_Ref := ref;
              em_SignedPath := writtenSignedPath; em_SignedSHA256 := signedHash;
              em_SignedRef := signedRef; em_PayloadSHA256 := env_PayloadSHA256 envelope;
              em_KeyID := env_KeyID envelope |}
  end.

Definition compileServices opts : io F (compileRuntime F) :=
  let mode := ToLower (valueOrDefault (op_SigningMode opts) SigningModeDevLocal) in
  if mode ==s SigningModeNone then mret {| crt_Signer := None; crt_ExpiresAt := None |} else
  let ttl := if op_SignatureTTL opts =? 0 then 24 * 3600 * second else op_SignatureTTL opts in
  wall ← wall_clock;
  now ← match op_Now opts with Some now => now | None => mret wall end;
  deny mode !=s SigningModeDevLocal
    with Errorf "unsupported signing mode %q" [AStr (op_SigningMode opts)];;
  signer ← match op_Signer opts with
           | Some signer => mret signer
           | None =>
               LoadOrCreateDevLocalSigner
                 (valueOrDefault (op_SigningKeyPath opts)
                    (Join [op_OutputDir opts; "keys"; "dev-local.ed25519.json"]))
                 (valueOrDefault (op_SigningKeyID opts) "dev-local")
           end;
  mret {| crt_Signer := Some signer; crt_ExpiresAt := Some (now + ttl) |}.

(** The metadata with an entry added to its map of digests. *)
Definition with_digest (name digest : string) (m : ArtifactMetadata) : ArtifactMetadata := {|
  art_ID := art_ID m; art_PolicyID := art_PolicyID m; art_ArtifactType := art_ArtifactType m;
  art_KNI := art_KNI m; art_SourcePath := art_SourcePath m; art_SourceCommit := art_SourceCommit m;
  art_CorrelationID := art_CorrelationID m; art_CreatedAt := art_CreatedAt m;
  art_Digests := obj_set name digest (art_Digests m) |}.

Definition with_policy (policyID : string) (m : ArtifactMetadata) : ArtifactMetadata := {|
  art_ID := art_ID m; art_PolicyID := policyID; art_ArtifactType := art_ArtifactType m;
  art_KNI := art_KNI m; art_SourcePath := art_SourcePath m; art_SourceCommit := art_SourceCommit m;
  art_CorrelationID := art_CorrelationID m; art_CreatedAt := art_CreatedAt m;
  art_Digests := art_Digests m |}.

(** [emitAdapterManifestArtifacts]: the outputs, and the metadata whose map of digests,
    shared with the caller, has grown. *)
Definition emitAdapterManifestArtifacts (policyID : string) (baseMetadata : ArtifactMetadata)
    (manifests : Manifests) services opts : io F (gmap string emittedArtifact * ArtifactMetadata) :=
  io_fold (λ acc id,
    let '(outputs, base) := acc in
    match manifests !! id with
    | None => mret acc
    | Some manifest =>
        let base := with_digest ("adapter_manifest:" +:+ id) (am_Digest manifest) base in
        let metadata :=
          with_policy policyID (metadata_for ("adapter_manifest." +:+ id) "adapter_manifest" base) in
        output ← emitJSONArtifact
          (Join [op_OutputDir opts; "artifacts"; "adapter_manifests";
                 safeArtifactFilename id +:+ ".adapter_manifest.json"])
          (indent_AdapterManifestArtifact metadata manifest) metadata services opts;
        mret (<[id := output]> outputs, base)
    end) (∅, baseMetadata) (sorted_ids manifests).
End emitting.

(** ** [compileOne] *)

(** The fields of [Result] are those of the outputs. *)
Record Result := {
  res_PolicyID : string;
  res_ReviewPath : string;
  res_CoveragePath : string;
  res_SimulationPath : string;
  res_ValidationPath : string;
  res_Resolved : emittedArtifact;
  res_RuntimeBundle : emittedArtifact;
  res_ContextRoutePack : emittedArtifact;
  res_ConformanceExpectation : emittedArtifact;
  res_Manifest : emittedArtifact;
}.

Section compiling.
Context {GR : GoRuntime} {F : Type} {ST : ArtifactStore F} {CW : CompilerWorld F}.
Context {EC : CompilerEncoders} {UL : UnicodeLower} {CE : CEL} {FS : Files} {EN : Environment}.
Context {MD : ManifestDecoder} {FT : FloatText} {DD : DocumentDecoders} {RD : RegistryDecoders}.
Implicit Types (opts : Options F) (services : compileRuntime F) (card : Card).

Definition correlation_id opts card (sourceCommit policyFileHash : string) : string :=
  let correlationID := trim_space (op_CorrelationID opts) in
  if empty_str correlationID
  then "correlation." +:+
       shortHash (card_ID card +:+ NUL +:+ sourceCommit +:+ NUL +:+ policyFileHash)
  else correlationID.

Definition catalog_digest (c : Catalog) : string := digestJSON (marshal_Catalog c).
Definition profile_digest (p : Profile) : string := digestJSON (marshal_Profile p).
Definition recipe_digest (r : RiskRecipe) : string := digestJSON (marshal_RiskRecipe r).

Definition artifact_metadata opts card (c : Catalog) (profile : Profile) (recipe : RiskRecipe)
    (createdAt : time) : ArtifactMetadata :=
  let sourceCommit := gitCommit (op_PolicyRepo opts) in
  let policyFileHash := fileSHA256 (card_SourcePath card) in
  {| art_ID := ""; art_PolicyID := card_ID card; art_ArtifactType := ""; art_KNI := card_Version card;
     art_SourcePath := relativeOrSame (op_PolicyRepo opts) (card_SourcePath card);
     art_SourceCommit := sourceCommit;
     art_CorrelationID := correlation_id opts card sourceCommit policyFileHash;
     art_CreatedAt := createdAt;
     art_Digests := [("policy_file", policyFileHash);
                     ("core_registry", pathSHA256 (op_CoreRegistry opts));
                     ("enterprise_registry", pathSHA256 (op_EnterpriseRegistry opts));
                     ("catalog", catalog_digest c); ("profile", profile_digest profile);
                     ("risk_recipe", recipe_digest recipe)] |}.

Definition coverage_report card : MeaningCoverageReport := {|
  mcr_Kind := "MeaningCoverageReport"; mcr_PolicyID := card_ID card; mcr_Status := "resolved_only";
  mcr_Message := "Compile phase completed catalog resolution and artifact planning; multi-system meaning coverage has not been evaluated." |}.

Definition simulation_report card (resolved : ResolvedPolicy) : SimulationReport := {|
  srp_Kind := "SimulationReport"; srp_PolicyID := card_ID card; srp_Status := "resolved_only";
  srp_Simulations := (λ s, (rsi_Name s, "resolved_only")) <$> rp_Simulations resolved;
  srp_Findings := match rp_Simulations resolved with
                  | [] => ["No simulation examples defined."]
                  | _ => []
                  end |}.

Definition validation_result card : ValidationResult := {|
  vrs_Kind := "ValidationResult"; vrs_PolicyID := card_ID card; vrs_Status := "not_evaluated";
  vrs_Findings := [
    "Compile phase performed parser, catalog resolution, artifact planning and CEL validation only; full policy validation is not implemented.";
    "Risk recipes are loaded and CEL-checked only; scoring, freshness, confidence and runtime simulation are not evaluated."] |}.

(** The outputs of one card that the manifest lists. *)
Record outputs := {
  out_resolved : emittedArtifact;
  out_bundle : emittedArtifact;
  out_routes : emittedArtifact;
  out_conformance : emittedArtifact;
  out_adapters : gmap string emittedArtifact;
  out_coverage : string;
  out_simulation : string;
  out_validation : string;
}.

Definition named_outputs (o : outputs) : gmap string emittedArtifact := list_to_map
  [("resolved_policy", out_resolved o); ("runtime_bundle", out_bundle o);
   ("context_route_pack", out_routes o); ("conformance_expectation", out_conformance o)].

Definition build_manifest opts card (c : Catalog) (profile : Profile) (recipe : RiskRecipe)
    (bundle : RuntimeBundle) (used : Manifests) (o : outputs) : PolicyBuildManifest :=
  let sourceCommit := gitCommit (op_PolicyRepo opts) in
  let policyFileHash := fileSHA256 (card_SourcePath card) in
  let core := pathSHA256 (op_CoreRegistry opts) in
  let enterprise := pathSHA256 (op_EnterpriseRegistry opts) in
  let policyRepo := pathSHA256 (op_PolicyRepo opts) in
  let compilerCommit := gitCommit "." in
  {| pbm_Kind := "PolicyBuildManifest";
     pbm_Metadata := {| mm_ID := "build." +:+ card_ID card;
                        mm_CorrelationID := correlation_id opts card sourceCommit policyFileHash;
                        mm_CreatedBy := buildCreatedBy opts |};
     pbm_Approval := {| apv_Status := "pending_review"; apv_ApprovedBy := ""; apv_ApprovedAt := 0;
                        apv_AuthorityID := ""; apv_AuthorityKind := ""; apv_Environment := "";
                        apv_Stage := ""; apv_Scope := "" |};
     pbm_Spec := {|
       sp_KNIVersion := card_Version card;
       sp_ProtocolVersion := "adapter/v1";
       sp_PolicyRepo := {| pr_Repo := Base (op_PolicyRepo opts); pr_Commit := sourceCommit;
         pr_PolicyFile := relativeOrSame (op_PolicyRepo opts) (card_SourcePath card);
         pr_PolicyFileHash := policyFileHash; pr_ContentDigest := policyRepo |};
       sp_EnterpriseRegistry := {| rg_Repo := Base (op_EnterpriseRegistry opts);
         rg_Commit := gitCommit (op_EnterpriseRegistry opts); rg_Version := "";
         rg_ContentDigest := enterprise |};
       sp_CoreRegistry := {| rg_Repo := Base (op_CoreRegistry opts);
         rg_Commit := gitCommit (op_CoreRegistry opts); rg_Version := cat_CoreVersion c;
         rg_ContentDigest := core |};
       sp_Compiler := {| cp_Name := "forge"; cp_Version := Version; cp_SourceCommit := compilerCommit;
         cp_BinaryDigest := executableSHA256;
         cp_Digest := digest_strings [("name", "forge"); ("version", Version);
           ("source_commit", compilerCommit); ("binary_digest", executableSHA256)] |};
       sp_Profile := {| dr_ID := pf_ID profile; dr_Digest := profile_digest profile |};
       sp_RiskRecipe := {| dr_ID := rcp_ID recipe; dr_Digest := recipe_digest recipe |};
       sp_CatalogDigest := catalog_digest c;
       sp_Adapters := adapterManifestRefs used (out_adapters o);
       sp_Bindings := bindingRefsFromRuntimeBundle bundle;
       sp_RuntimeActions := runtimeActionRefsFromRuntimeBundle bundle;
       sp_FederatedSourceDigests := federatedSourceDigests core enterprise policyRepo
         (catalog_digest c) (profile_digest profile) (recipe_digest recipe) used;
       sp_Outputs := list_to_map
         [("resolved_policy", em_SHA256 (out_resolved o)); ("runtime_bundle", em_SHA256 (out_bundle o));
          ("context_route_pack", em_SHA256 (out_routes o));
          ("conformance_expectation", em_SHA256 (out_conformance o));
          ("meaning_coverage_report", out_coverage o); ("simulation_report", out_simulation o);
          ("validation_result", out_validation o)];
       sp_ArtifactRefs := em_Ref <$> named_outputs o;
       sp_SignedOutputs := signedOutputs
         (mergeEmittedArtifacts (named_outputs o) (adapterManifestSignedOutputMap (out_adapters o)));
     |} |}.

(** ** The review *)

Definition tick (s : string) : string := "`" +:+ s +:+ "`".
Definition lines (l : list string) : string := join "" ((λ line, line +:+ chr 10) <$> l).
Definition arrow (v : ResolvedValue) : string := tick (rv_Label v) +:+ " -> " +:+ tick (rv_CanonicalID v).

Definition review_rule (rule : ResolvedRule) : list string :=
  ["## Rule: " +:+ rr_Name rule; ""; "Subject: " +:+ arrow (rr_Subject rule); "";
   "Action: " +:+ arrow (rr_Action rule); ""; "Resource: " +:+ arrow (rr_Resource rule); "";
   "Effect: " +:+ arrow (rr_Effect rule); ""; "CEL:"; ""; "```cel"; rr_CEL rule; "```"; ""].

Definition review_text card (resolved : ResolvedPolicy) : string :=
  let runtime := rp_Runtime resolved in
  lines (
    ["# Natural Intent Review: " +:+ card_ID card; "";
     "Forge understood this intent as " +:+ tick (card_Type card) +:+ " policy for " +:+
       tick (card_Target card) +:+ " in " +:+ tick (card_Stage card) +:+ "."; "";
     "Profile: " +:+ tick (card_Profile card); ""; "## Metadata"; "";
     "- Owner: " +:+ tick (rp_Owner resolved); "- Type: " +:+ tick (rp_Type resolved);
     "- Target: " +:+ tick (rp_Target resolved); "- Stage: " +:+ tick (rp_Stage resolved);
     "- Risk Recipe: " +:+ tick (rp_RiskRecipe resolved); ""; "## Applied Guardrails"; ""] ++
    ((λ g, "- " +:+ tick g) <$> default [] (rp_Guardrails resolved)) ++ [""] ++
    flat_map review_rule (rp_Rules resolved) ++
    match rp_RiskBehavior resolved with
    | [] => []
    | behaviors =>
        ["## Risk Behavior"; ""] ++
        ((λ b, "- " +:+ tick (rv_Label (rrb_RiskType b)) +:+ " " +:+ tick (rv_Label (rrb_Tier b)) +:+
               " -> " +:+ tick (rv_Label (rrb_Effect b))) <$> behaviors) ++ [""]
    end ++
    match rp_Prohibit resolved with
    | [] => []
    | outcomes => ["## Prohibited Outcomes"; ""] ++ ((λ o, "- " +:+ arrow o) <$> outcomes) ++ [""]
    end ++
    ["## Runtime"; ""; "- Allowed: " +:+ tick (if rrt_Allowed runtime then "true" else "false");
     "- Max TTL: " +:+ tick (rrt_MaxTTL runtime) +:+ " (" +:+ rrt_MaxTTLSource runtime +:+ ")";
     "- Max Scope: " +:+ arrow (rrt_MaxScope runtime) +:+ " (" +:+ rrt_MaxScopeSource runtime +:+ ")"] ++
    ((λ a, "- Action: " +:+ arrow a) <$> rrt_Actions runtime) ++ [""; "## Simulation Examples"; ""] ++
    match rp_Simulations resolved with
    | [] => ["- No simulation examples defined."; ""]
    | simulations =>
        ((λ s, "- " +:+ tick (rsi_Name s) +:+ ": resolved only, expected " +:+
               tick (rv_Label (rsi_ExpectEffect s))) <$> simulations) ++ [""]
    end ++
    ["## Reports"; ""; "- Catalog resolution: `complete`"; "- Artifact storage: `complete`";
     "- Artifact signing: `configured`"; "- Meaning coverage: `resolved_only`";
     "- Simulation: `resolved_only`"; "- Risk recipe evaluation: `not_evaluated`";
     "- Runtime execution: `not_evaluated`"; "- Validation: `not_evaluated`"; ""; "## Findings"; "";
     "none blocking during Slice 3 artifact storage and signing"]).

Definition writeReview (path : string) card (resolved : ResolvedPolicy) : io F string :=
  _ ← write_file path (review_text card resolved);
  mret path.

Definition zero_Profile : Profile :=
  {| pf_ID := ""; pf_Mode := ""; pf_Owner := ""; pf_Stage := ""; pf_Guardrails := None;
     pf_RuntimeDefaults := None |}.
Definition zero_RiskRecipe : RiskRecipe :=
  {| rcp_ID := ""; rcp_Output := ∅; rcp_Scoring := ∅; rcp_Thresholds := ∅; rcp_Confidence := ∅;
     rcp_Freshness := ∅ |}.

(** The parts of [compileOne] that emit, up to the manifest. *)
Definition emit_outputs opts services card (c : Catalog) (resolved : ResolvedPolicy)
    (metadata : ArtifactMetadata) (adapterManifests : Manifests)
    : io F (RuntimeBundle * Manifests * outputs * ArtifactMetadata) :=
  let at_ dir name := Join [op_OutputDir opts; dir; card_ID card +:+ name] in
  resolvedOutput ← emitJSONArtifact (at_ "resolved" ".resolved.json") (indent_ResolvedPolicy resolved)
                     (metadata_for (rp_ID resolved) "resolved_policy" metadata) services opts;
  bundle ← lift (runtimeBundleArtifact card resolved metadata c adapterManifests);
  bundleOutput ← emitJSONArtifact (at_ "artifacts" ".runtime_bundle.json") (indent_RuntimeBundle bundle)
                   (rb_Metadata bundle) services opts;
  let used := adapterManifestsForRuntimeBundle bundle adapterManifests in
  '(adapters, metadata) ← emitAdapterManifestArtifacts (card_ID card) metadata used services opts;
  let routes := contextRoutePackArtifact card resolved metadata in
  routesOutput ← emitJSONArtifact (at_ "artifacts" ".context_route_pack.json")
                   (indent_ContextRoutePack routes) (crp_Metadata routes) services opts;
  let conformance := conformanceExpectationArtifact card resolved metadata in
  conformanceOutput ← emitJSONArtifact (at_ "artifacts" ".conformance_expectation.json")
                        (indent_ConformanceExpectation conformance) (ce_Metadata conformance)
                        services opts;
  '(_, coverage) ← writeJSON (at_ "reports" ".coverage.json") (indent_Coverage (coverage_report card));
  '(_, simulation) ← writeJSON (at_ "reports" ".simulation.json")
                       (indent_Simulation (simulation_report card resolved));
  '(_, validation) ← writeJSON (at_ "reports" ".validation.json")
                       (indent_Validation (validation_result card));
  mret (bundle, used,
        {| out_resolved := resolvedOutput; out_bundle := bundleOutput; out_routes := routesOutput;
           out_conformance := conformanceOutput; out_adapters := adapters; out_coverage := coverage;
           out_simulation := simulation; out_validation := validation |}, metadata).

Definition compileOne opts services card (c : Catalog) (adapterManifests : Manifests) : io F Result :=
  _ ← lift (validateMetadata card c);
  let profile := default zero_Profile (get_Profile c (card_Profile card)) in
  let recipe := default zero_RiskRecipe (get_RiskRecipe c (card_RiskRecipe card)) in
  resolved ← lift (resolve_policy c profile card
                     (relativeOrSame (op_PolicyRepo opts) (card_SourcePath card))
                     (gitCommit (op_PolicyRepo opts)));
  now ← wall_clock;
  let metadata := artifact_metadata opts card c profile recipe now in
  '(bundle, used, o, metadata) ← emit_outputs opts services card c resolved metadata adapterManifests;
  let manifest := build_manifest opts card c profile recipe bundle used o in
  let at_ dir name := Join [op_OutputDir opts; dir; card_ID card +:+ name] in
  manifestOutput ← emitJSONArtifact (at_ "reports" ".manifest.json") (indent_Manifest manifest)
    (metadata_for (mm_ID (pbm_Metadata manifest)) "policy_build_manifest" metadata) services opts;
  reviewPath ← writeReview (at_ "reviews" ".intent.review.md") card resolved;
  mret {| res_PolicyID := card_ID card; res_ReviewPath := reviewPath;
          res_CoveragePath := at_ "reports" ".coverage.json";
          res_SimulationPath := at_ "reports" ".simulation.json";
          res_ValidationPath := at_ "reports" ".validation.json";
          res_Resolved := out_resolved o; res_RuntimeBundle := out_bundle o;
          res_ContextRoutePack := out_routes o; res_ConformanceExpectation := out_conformance o;
          res_Manifest := manifestOutput |}.

(** ** [Compile] *)

(** The defaults of the options. *)
Definition with_defaults opts : Options F :=
  let policyRepo := valueOrDefault (op_PolicyRepo opts) "../enterprise-kernloom-policies" in
  {| op_PolicyRepo := policyRepo; op_PolicyFile := op_PolicyFile opts;
     op_CoreRegistry := valueOrDefault (op_CoreRegistry opts) "../kernloom-core-registry";
     op_EnterpriseRegistry :=
       valueOrDefault (op_EnterpriseRegistry opts) "../enterprise-kernloom-registry";
     op_OutputDir := valueOrDefault (op_OutputDir opts) (Join [policyRepo; "generated"]);
     op_SigningMode := op_SigningMode opts; op_SigningKeyPath := op_SigningKeyPath opts;
     op_SigningKeyID := op_SigningKeyID opts; op_CorrelationID := op_CorrelationID opts;
     op_BuildCreatedBy := op_BuildCreatedBy opts; op_SignatureTTL := op_SignatureTTL opts;
     op_Signer := op_Signer opts; op_Now := op_Now opts |}.

(** [NewCELValidator] makes an environment of the third-party library. *)
Definition Compile (NewCELValidator : result unit) opts : io F (list Result) :=
  let opts := with_defaults opts in
  services ← compileServices opts;
  c ← lift (Registry.Load (op_CoreRegistry opts) (op_EnterpriseRegistry opts));
  _ ← lift NewCELValidator;
  _ ← lift (validateCatalogCEL c);
  adapterManifests ← lift (LoadAdapterManifests (op_PolicyRepo opts) (op_CoreRegistry opts)
                             (op_EnterpriseRegistry opts));
  _ ← lift (ValidateAdapterManifests c adapterManifests);
  files ← lift (intentFiles opts);
  io_fold (λ results file,
    card ← lift (ParseFile file);
    result ← compileOne opts services card c adapterManifests;
    mret (results ++ [result])) [] files.
End compiling.

(** ** What the compiler touches

    The compiler reaches the state only by writing files, storing artifacts, reading the
    clock and signing: what each of these leaves alone, a whole compilation does. *)

Set Default Proof Using "Type*".

Section effects.
Context {GR : GoRuntime} {F : Type} {ST : ArtifactStore F} {CW : CompilerWorld F}.
Context {EC : CompilerEncoders} {UL : UnicodeLower} {CE : CEL} {FS : Files} {EN : Environment}.
Context {MD : ManifestDecoder} {FT : FloatText} {DD : DocumentDecoders} {RD : RegistryDecoders}.
Context (R : relation F) `{!PreOrder R}.

Definition signer_keeps (sign : Signer F) : Prop := ∀ payload md, preserves R (sign payload md).

Record world_keeps : Prop := {
  wk_file path data : preserves R (write_file path data);
  wk_clock : preserves R wall_clock;
  wk_put art : preserves R (store_Put art);
  wk_create path keyID : preserves R (LoadOrCreateDevLocalSigner path keyID);
  wk_signer path keyID f sign f' :
    LoadOrCreateDevLocalSigner path keyID f = (Ok sign, f') → signer_keeps sign;
}.

(** The signer and the clock that the caller passes. *)
Definition options_keep (opts : Options F) : Prop :=
  (∀ sign, op_Signer opts = Some sign → signer_keeps sign) ∧
  (∀ now, op_Now opts = Some now → preserves R now).

Definition services_keep (services : compileRuntime F) : Prop :=
  ∀ sign, crt_Signer services = Some sign → signer_keeps sign.

Context (WK : world_keeps).

Lemma file_keeps path data : preserves R (write_file path data).
Proof. by apply WK. Qed.
Lemma clock_keeps : preserves R wall_clock.
Proof. by apply WK. Qed.
Lemma put_keeps art : preserves R (store_Put art).
Proof. by apply WK. Qed.
#[local] Hint Resolve file_keeps clock_keeps put_keeps : io.

Lemma writeJSONPayload_keeps path encoded : preserves R (writeJSONPayload path encoded).
Proof. unfold writeJSONPayload. preserve. Qed.
#[local] Hint Resolve writeJSONPayload_keeps : io.

Lemma emit_keeps path encoded metadata services opts :
  services_keep services → preserves R (emitJSONArtifact path encoded metadata services opts).
Proof.
  unfold emitJSONArtifact, services_keep. intros Hs.
  destruct (crt_Signer services) as [sign|]; [|preserve].
  preserve. by apply Hs.
Qed.

Section services.
Context (services : compileRuntime F) (Hs : services_keep services).

Lemma emit_with_keeps path encoded metadata opts :
  preserves R (emitJSONArtifact path encoded metadata services opts).
Proof. by apply emit_keeps. Qed.
#[local] Hint Resolve emit_with_keeps : io.

Lemma emitAdapters_keeps policyID metadata manifests opts :
  preserves R (emitAdapterManifestArtifacts policyID metadata manifests services opts).
Proof. unfold emitAdapterManifestArtifacts. preserve. Qed.
#[local] Hint Resolve emitAdapters_keeps : io.

Lemma compileOne_keeps opts card c manifests :
  preserves R (compileOne opts services card c manifests).
Proof. unfold compileOne, emit_outputs, writeReview, writeJSON. preserve. Qed.
End services.

Lemma compileServices_keeps opts : options_keep opts → preserves R (compileServices opts).
Proof.
  intros [_ Hn]. unfold compileServices. cbv zeta. case_match; [preserve|].
  apply preserves_bind; [apply _|apply clock_keeps|]. intros wall.
  apply preserves_bind; [apply _|destruct (op_Now opts) eqn:E; [by apply Hn|preserve]|]. intros now.
  case_match; [preserve|]. apply preserves_bind; [apply _| |intros ?; preserve].
  case_match; [preserve|by apply WK].
Qed.

Lemma compileServices_services opts f services f' :
  options_keep opts → compileServices opts f = (Ok services, f') → services_keep services.
Proof.
  intros [Hs _]. unfold compileServices, services_keep. cbv zeta. intros H. case_match; [by run H|]. run H.
  simpl. intros sign [= <-]. destruct (op_Signer opts) as [given|] eqn:E.
  - run_all. by apply Hs.
  - run_all. by eapply wk_signer.
Qed.

Lemma Compile_keeps NewCELValidator opts : options_keep opts → preserves R (Compile NewCELValidator opts).
Proof.
  intros Ho. unfold Compile. cbv zeta. intros f.
  assert (Ho' : options_keep (with_defaults opts)) by exact Ho.
  apply related_bind; [apply _|by apply compileServices_keeps|]. intros services f1 H.
  apply compileServices_services in H as Hs; [|done].
  pose proof (λ card c manifests, compileOne_keeps _ Hs (with_defaults opts) card c manifests).
  match goal with |- R _ (?m f1).2 => cut (preserves R m); [by intros Hm|] end. preserve.
Qed.
End effects.
