(* ===== verification/Bindings.v ===== *)
(** * Bindings of policies to targets ([internal/forge/bindings/bindings.go])

    Repositories, policy sources, canonical actions, and the inventory of a policy
    repository: targets, action bindings, resources and proof requirements.  A request
    of CI is resolved to one target with its bindings and its policy sources.
    Decoding YAML into the structs is a parameter. *)

From stdpp Require Import options.
From stdpp Require Import gmap.
From S2P Require Import Prelude GoStrings GoTime GoJson GoEncoding GoPath Schema Registry.
From S2P Require Import AdapterManifests.
#[local] Open Scope Z_scope.

(** ** Records *)

Record RepositoryBinding := {
  rpb_ID : string;
  rpb_Type : string;
  rpb_Provider : string;
  rpb_Org : string;
  rpb_Repo : string;
  rpb_DefaultBranch : string;
  rpb_OwnerTeam : string;
  rpb_Visibility : string;
}.

Record CanonicalAction := {
  cac_ID : string;
  cac_Type : string;
  cac_Sensitivity : string;
  cac_Owner : string;
  cac_Description : string;
  cac_RequiredControls : list string;
  cac_RequiredEvents : list string;
}.

Record PolicyMeaning := {
  plm_PolicyPath : string;
  plm_CanonicalActions : list string;
  plm_ActionTypes : list string;
}.

Record PolicySource := {
  pls_ID : string;
  pls_Type : string;
  pls_RepoRef : string;
  pls_TenantScope : string;
  pls_EnvironmentScope : string;
  pls_ResourceScope : list string;
  pls_TargetScope : list string;
  pls_Visibility : string;
  pls_Owner : string;
  pls_PolicyPaths : list string;
  pls_PolicyMeanings : list PolicyMeaning;
}.

Record PolicyFileRef := {
  pfr_Path : string;
  pfr_RelPath : string;
  pfr_Digest : string;
}.

Record ResolvedPolicySource := {
  rps_Source : PolicySource;
  rps_Repository : RepositoryBinding;
  rps_PolicyFiles : list PolicyFileRef;
}.

Record TargetSource := {
  tsr_Mode : string;
  tsr_RepoRef : string;
  tsr_Branch : string;
  tsr_BasePath : string;
  tsr_ProposalMode : string;
  tsr_ProtectedPaths : list string;
  tsr_CredentialRef : string;
}.

Record TargetRuntime := { trt_KLIQRef : string }.

Record Target := {
  tgt_ID : string;
  tgt_Tenant : string;
  tgt_Environment : string;
  tgt_Type : string;
  tgt_Adapter : string;
  tgt_AdapterVersion : string;
  tgt_Capabilities : list string;
  tgt_ValidationProfiles : list string;
  tgt_ConfigBackend : TargetSource;
  tgt_ValidationSource : TargetSource;
  tgt_Runtime : TargetRuntime;
  tgt_Ownership : gmap string string;
}.

Record TargetInventory := {
  tgi_Path : string;
  tgi_Digest : string;
  tgi_Target : Target;
}.

Record Resource := {
  rsc_ID : string;
  rsc_Tenant : string;
  rsc_Environment : string;
  rsc_Type : string;
  rsc_Owner : string;
}.

Record ResourceFile := {
  rsf_Path : string;
  rsf_Digest : string;
  rsf_Resource : Resource;
}.

Record ProofRequirement := {
  prq_ID : string;
  prq_Evidence : list string;
}.

Record ProofRequirements := {
  prs_Tenant : string;
  prs_Environment : string;
  prs_Resource : string;
  prs_Requirements : list ProofRequirement;
}.

Record ProofRequirementFile := {
  prf_Path : string;
  prf_Digest : string;
  prf_ProofRequirements : ProofRequirements;
}.

Record Application := {
  app_ID : string;
  app_Tenant : string;
  app_Environment : string;
}.

Record Approval := {
  apl_Status : string;
  apl_ApprovedBy : string;
  apl_ApprovedAt : string;
}.

(** [Proof] is its expected events. *)
Record ActionBinding := {
  abd_ID : string;
  abd_TargetRef : string;
  abd_Capability : string;
  abd_Selector : object;
  abd_Controls : list string;
  abd_Issuance : object;
  abd_ExpectedEvents : list string;
  abd_Approval : Approval;
}.

Record BusinessAction := {
  bac_ID : string;
  bac_CanonicalAction : string;
  bac_Type : string;
  bac_Sensitivity : string;
  bac_Description : string;
  bac_Bindings : list ActionBinding;
  bac_Approval : Approval;
}.

Record ActionBindingFile := {
  abf_Path : string;
  abf_Digest : string;
  abf_Application : Application;
  abf_Actions : list BusinessAction;
}.

Record ResolvedBinding := {
  rbd_File : ActionBindingFile;
  rbd_Action : BusinessAction;
  rbd_Binding : ActionBinding;
  rbd_Target : TargetInventory;
  rbd_TargetPath : string;
  rbd_Resource : option ResourceFile;
  rbd_ProofRequirements : option ProofRequirementFile;
  rbd_ResourceRef : string;
  rbd_ActionURN : string;
}.

Record ResolvedTarget := {
  rtg_Repository : RepositoryBinding;
  rtg_Target : TargetInventory;
  rtg_Bindings : list ResolvedBinding;
  rtg_PolicySources : list ResolvedPolicySource;
}.

Record CIRequest := {
  cir_Tenant : string;
  cir_Environment : string;
  cir_Provider : string;
  cir_Repository : string;
  cir_BasePath : string;
  cir_TargetID : string;
  cir_ChangedPaths : list string;
}.

(** What the walk over the tenants collects. *)
Record TenantFiles := {
  tnf_Targets : list TargetInventory;
  tnf_ActionBindingFiles : list ActionBindingFile;
  tnf_ResourceFiles : list ResourceFile;
  tnf_ProofRequirementFiles : list ProofRequirementFile;
}.

Record Store := {
  sto_PolicyRepo : string;
  sto_EnterpriseRegistry : string;
  sto_RepositoryBindingsPath : string;
  sto_RepositoryBindingsDigest : string;
  sto_PolicySourcesPath : string;
  sto_PolicySourcesDigest : string;
  sto_CanonicalActionsPath : string;
  sto_CanonicalActionsDigest : string;
  sto_Repositories : list RepositoryBinding;
  sto_PolicySources : list PolicySource;
  sto_CanonicalActions : list CanonicalAction;
  sto_Files : TenantFiles;
  sto_repositoryByRef : gmap string RepositoryBinding;
  sto_canonicalActionByID : gmap string CanonicalAction;
  sto_resourceByTenantEnvID : gmap string ResourceFile;
  sto_proofByTenantEnvResourceID : gmap string ProofRequirementFile;
}.

(** ** Errors with a code *)

(** [Error]: the code, and the message. *)
Definition codedError (code format : string) (args : list fmt_arg) : error :=
  Wrapf "bindings.Error" [AStr code] (Errorf format args).

(** [errors.As(err, &coded)] of an error of this package, which is never wrapped. *)
Definition error_code (e : error) : option string :=
  match e with
  | Wrapf format [AStr code] _ => if format ==s "bindings.Error" then Some code else None
  | _ => None
  end.

(** ** Names, scopes and paths *)

Definition tenantEnvID (tenant environment id : string) : string :=
  trim_space tenant +:+ NUL +:+ trim_space environment +:+ NUL +:+ trim_space id.

Definition URNForTarget (tenant environment targetID : string) : string :=
  "urn:kernloom:target:" +:+ join ":" [trim_space tenant; trim_space environment; trim_space targetID].
Definition URNForResource (tenant environment resourceID : string) : string :=
  "urn:kernloom:resource:" +:+ join ":" [trim_space tenant; trim_space environment; trim_space resourceID].
Definition URNForAction (tenant environment resourceID actionID : string) : string :=
  "urn:kernloom:action:" +:+
  join ":" [trim_space tenant; trim_space environment; trim_space resourceID; trim_space actionID].

Definition isSensitive `{UnicodeLower} (sensitivity : string) : bool :=
  existsb (String.eqb (ToLower (trim_space sensitivity))) ["medium"; "high"; "critical"; "sensitive"].

Definition cleanRel (path : string) : string :=
  let path := trim_char slash (trim_space path) in
  if empty_str path then "" else Clean path.

Definition scopeMatches (scope value : string) : bool :=
  (trim_space scope ==s "*") || (trim_space scope ==s trim_space value).

Definition sliceScopeMatches (scopes : list string) (value : string) : bool :=
  existsb (λ scope, scopeMatches scope value) scopes.

Definition sourceMatchesScope (source : PolicySource) (target : TargetInventory)
    (resolvedBindings : list ResolvedBinding) : bool :=
  if negb (scopeMatches (pls_TenantScope source) (tgt_Tenant (tgi_Target target))) then false else
  if negb (scopeMatches (pls_EnvironmentScope source) (tgt_Environment (tgi_Target target))) then false else
  if negb (Nat.eqb (length (pls_TargetScope source)) 0) &&
     negb (sliceScopeMatches (pls_TargetScope source) (tgt_ID (tgi_Target target))) then false else
  if Nat.eqb (length (pls_ResourceScope source)) 0 || sliceScopeMatches (pls_ResourceScope source) "*"
  then true else
  existsb (λ binding, sliceScopeMatches (pls_ResourceScope source) (app_ID (abf_Application (rbd_File binding))))
          resolvedBindings.

Definition visibilityAllowed (source : PolicySource) (requestRepo sourceRepo : RepositoryBinding) : bool :=
  let visibility := trim_space (pls_Visibility source) in
  if existsb (String.eqb visibility) [""; "restricted"; "platform_team"; "public"] then true else
  if visibility ==s "app_team" then
    (pls_RepoRef source ==s rpb_ID requestRepo) ||
    ((rpb_OwnerTeam sourceRepo !=s "") && (rpb_OwnerTeam sourceRepo ==s rpb_OwnerTeam requestRepo))
  else false.

(** ** Loading *)

(** [yaml.Unmarshal] into the struct of each document; a list may stand at the top or
    under [spec], both are answered.  Paths and digests are not in the documents. *)
Class BindingDecoders := {
  decode_RepositoryBindings : string → result (list RepositoryBinding * list RepositoryBinding);
  decode_PolicySources : string → result (list PolicySource * list PolicySource);
  decode_CanonicalActions : string → result (list CanonicalAction * list CanonicalAction);
  decode_Target : string → result Target;
  decode_Resource : string → result Resource;
  decode_ProofRequirements : string → result ProofRequirements;
  decode_ActionBindings : string → result (Application * list BusinessAction);
}.

Section loading.
Context {FS : Files} {BD : BindingDecoders} {UL : UnicodeLower}.

Definition absPath (path : string) : string := default path (Abs os_Getwd path).

Definition fileSHA256Strict (path : string) : result string :=
  data ← os_ReadFile path; Ok (sha256Bytes data).

Definition fileSHA256 (path : string) : string :=
  match fileSHA256Strict path with Ok digest => digest | Err _ => "sha256:unavailable" end.

Definition top_or_spec {A} (doc : list A * list A) : list A :=
  if Nat.eqb (length doc.1) 0 then doc.2 else doc.1.

Definition at_index (format : string) (path : string) (i : nat) : error :=
  Errorf format [AStr path; AInt (Z.of_nat i)].

Definition check_repository (path : string) (seen : gmap string unit) (ir : nat * RepositoryBinding)
    : result (gmap string unit) :=
  let '(i, repo) := ir in
  reject blank (rpb_ID repo) with at_index "%s: repository binding %d missing id" path i;;
  reject blank (rpb_Repo repo)
    with Errorf "%s: repository binding %q missing repo" [AStr path; AStr (rpb_ID repo)];;
  reject map_has seen (rpb_ID repo)
    with Errorf "%s: duplicate repository binding %q" [AStr path; AStr (rpb_ID repo)];;
  Ok (<[rpb_ID repo := tt]> seen).

Definition loadRepositoryBindings (path : string) : result (list RepositoryBinding * string) :=
  doc ← readYAML decode_RepositoryBindings path;
  let repositories := top_or_spec doc in
  _ ← for_fold (check_repository path) ∅ (imap pair repositories);
  Ok (repositories, fileSHA256 path).

Definition check_source (path : string) (seen : gmap string unit) (is_ : nat * PolicySource)
    : result (gmap string unit) :=
  let '(i, source) := is_ in
  let missing field := Errorf ("%s: policy source %q missing " +:+ field) [AStr path; AStr (pls_ID source)] in
  reject blank (pls_ID source) with at_index "%s: policy source %d missing id" path i;;
  reject blank (pls_Type source) with missing "type";;
  reject blank (pls_RepoRef source) with missing "repo_ref";;
  reject blank (pls_TenantScope source) with missing "tenant_scope";;
  reject blank (pls_EnvironmentScope source) with missing "environment_scope";;
  reject map_has seen (pls_ID source)
    with Errorf "%s: duplicate policy source %q" [AStr path; AStr (pls_ID source)];;
  Ok (<[pls_ID source := tt]> seen).

Definition loadPolicySources (path : string) : result (list PolicySource * string) :=
  doc ← readYAML decode_PolicySources path;
  let sources := top_or_spec doc in
  _ ← for_fold (check_source path) ∅ (imap pair sources);
  reject Nat.eqb (length sources) 0 with Errorf "%s: at least one policy source is required" [AStr path];;
  Ok (sources, fileSHA256 path).

Definition trimmed_action (a : CanonicalAction) : CanonicalAction := {|
  cac_ID := trim_space (cac_ID a); cac_Type := trim_space (cac_Type a);
  cac_Sensitivity := cac_Sensitivity a; cac_Owner := cac_Owner a; cac_Description := cac_Description a;
  cac_RequiredControls := cac_RequiredControls a; cac_RequiredEvents := cac_RequiredEvents a |}.

Definition check_action (path : string) (acc : list CanonicalAction * gmap string unit)
    (ia : nat * CanonicalAction) : result (list CanonicalAction * gmap string unit) :=
  let '(i, action) := ia in
  let action := trimmed_action action in
  reject empty_str (cac_ID action) with at_index "%s: canonical action %d missing id" path i;;
  reject negb (has_prefix "kernloom_action." (cac_ID action))
    with Errorf "%s: canonical action %q must use prefix %q"
           [AStr path; AStr (cac_ID action); AStr "kernloom_action."];;
  reject empty_str (cac_Type action)
    with Errorf "%s: canonical action %q missing type" [AStr path; AStr (cac_ID action)];;
  reject map_has acc.2 (cac_ID action)
    with Errorf "%s: duplicate canonical action %q" [AStr path; AStr (cac_ID action)];;
  Ok (acc.1 ++ [action], <[cac_ID action := tt]> acc.2).

Definition loadCanonicalActions (path : string) : result (list CanonicalAction * string) :=
  match readYAML decode_CanonicalActions path with
  | Err e =>
      if IsNotExist e
      then Err (codedError "canonical_action_catalog_unavailable" "canonical action catalog %q is required" [AStr path])
      else Err e
  | Ok doc =>
      let actions := top_or_spec doc in
      reject Nat.eqb (length actions) 0
        with Errorf "%s: at least one canonical action is required" [AStr path];;
      '(actions, _) ← for_fold (check_action path) ([], ∅) (imap pair actions);
      Ok (actions, fileSHA256 path)
  end.

Definition unavailable (format : string) (args : list fmt_arg) : error :=
  codedError "policy_source_unavailable" format args.

Definition check_meaning (source : PolicySource) (im : nat * PolicyMeaning) : result unit :=
  let '(i, meaning) := im in
  let policyPath := cleanRel (plm_PolicyPath meaning) in
  let at_ := [AStr (pls_ID source); AInt (Z.of_nat i)] in
  reject empty_str policyPath
    with unavailable "policy source %q policy_meanings[%d] missing policy_path" at_;;
  reject negb (existsb (λ path, cleanRel path ==s policyPath) (pls_PolicyPaths source))
    with unavailable "policy source %q policy_meanings[%d] references policy_path %q outside policy_paths"
           (at_ ++ [AStr policyPath]);;
  reject Nat.eqb (length (plm_CanonicalActions meaning)) 0 && Nat.eqb (length (plm_ActionTypes meaning)) 0
    with unavailable "policy source %q policy_meanings[%d] requires canonical_actions or action_types" at_;;
  Ok tt.

Definition check_policy_source (repositoryByRef : gmap string RepositoryBinding) (source : PolicySource)
    : result unit :=
  reject negb (map_has repositoryByRef (pls_RepoRef source))
    with unavailable "policy source %q references unknown repo_ref %q"
           [AStr (pls_ID source); AStr (pls_RepoRef source)];;
  _ ← (if pls_Type source ==s "policy_repo" then
         reject Nat.eqb (length (pls_PolicyPaths source)) 0
           with unavailable "policy source %q has no policy_paths" [AStr (pls_ID source)];;
         for_fold (λ _, check_meaning source) tt (imap pair (pls_PolicyMeanings source))
       else if pls_Type source ==s "config_repo" then Ok tt
       else Err (unavailable "policy source %q has unsupported type %q"
                   [AStr (pls_ID source); AStr (pls_Type source)]));
  reject (pls_Visibility source !=s "") &&
         negb (containsString ["restricted"; "platform_team"; "app_team"; "public"] (pls_Visibility source))
    with codedError "visibility_denied" "policy source %q has unsupported visibility %q"
           [AStr (pls_ID source); AStr (pls_Visibility source)];;
  Ok tt.

Definition validatePolicySources (repositoryByRef : gmap string RepositoryBinding) (sources : list PolicySource)
    : result unit := for_fold (λ _, check_policy_source repositoryByRef) tt sources.

(** ** The files of the tenants *)

Definition validateTarget (target : TargetInventory) : result unit :=
  let t := tgi_Target target in
  let required what := Errorf ("%s: target" +:+ what) [AStr (tgi_Path target)] in
  reject empty_str (tgt_ID t) with required ".id is required";;
  reject empty_str (tgt_Tenant t) || empty_str (tgt_Environment t)
    with required " tenant and environment are required";;
  reject empty_str (tgt_Adapter t) with required ".adapter is required";;
  reject empty_str (tsr_RepoRef (tgt_ValidationSource t))
    with required ".validation_source.repo_ref is required";;
  reject empty_str (tsr_BasePath (tgt_ValidationSource t))
    with required ".validation_source.base_path is required";;
  Ok tt.

Definition loadTarget (path : string) : result TargetInventory :=
  target ← readYAML decode_Target path;
  let target := {| tgi_Path := absPath path; tgi_Digest := fileSHA256 path; tgi_Target := target |} in
  _ ← validateTarget target;
  Ok target.

Definition loadResource (path : string) : result ResourceFile :=
  resource ← readYAML decode_Resource path;
  reject empty_str (rsc_ID resource) with Errorf "%s: resource.id is required" [AStr (absPath path)];;
  Ok {| rsf_Path := absPath path; rsf_Digest := fileSHA256 path; rsf_Resource := resource |}.

Definition loadProofRequirements (path : string) : result ProofRequirementFile :=
  p ← readYAML decode_ProofRequirements path;
  reject empty_str (prs_Tenant p) || empty_str (prs_Environment p) || empty_str (prs_Resource p)
    with Errorf "%s: proof_requirements tenant, environment and resource are required" [AStr (absPath path)];;
  Ok {| prf_Path := absPath path; prf_Digest := fileSHA256 path; prf_ProofRequirements := p |}.

Definition check_binding_ids (path actionID : string) (jb : nat * ActionBinding) : result unit :=
  let '(j, binding) := jb in
  reject empty_str (abd_ID binding)
    with Errorf "%s: action %q binding %d missing id" [AStr path; AStr actionID; AInt (Z.of_nat j)];;
  reject empty_str (abd_TargetRef binding)
    with Errorf "%s: action %q binding %q missing target_ref"
           [AStr path; AStr actionID; AStr (abd_ID binding)];;
  Ok tt.

Definition check_business_action (path : string) (ia : nat * BusinessAction) : result unit :=
  let '(i, action) := ia in
  reject empty_str (bac_ID action) with at_index "%s: action %d requires id" path i;;
  reject isSensitive (bac_Sensitivity action) && Nat.eqb (length (bac_Bindings action)) 0
    with codedError "missing_action_binding" "%s: sensitive action %q has no bindings"
           [AStr path; AStr (bac_ID action)];;
  for_fold (λ _, check_binding_ids path (bac_ID action)) tt (imap pair (bac_Bindings action)).

Definition loadActionBindings (path : string) : result ActionBindingFile :=
  '(application, actions) ← readYAML decode_ActionBindings path;
  reject empty_str (app_ID application) || empty_str (app_Tenant application) ||
         empty_str (app_Environment application)
    with Errorf "%s: application id, tenant and environment are required" [AStr (absPath path)];;
  _ ← for_fold (λ _, check_business_action (absPath path)) tt (imap pair actions);
  Ok {| abf_Path := absPath path; abf_Digest := fileSHA256 path; abf_Application := application;
        abf_Actions := actions |}.

(** One file of the walk. *)
Definition load_tenant_file (root path : string) (s : TenantFiles) : result TenantFiles :=
  let name := Base path in
  if name ==s "resource.yaml" then
    resource ← loadResource path;
    Ok {| tnf_Targets := tnf_Targets s; tnf_ActionBindingFiles := tnf_ActionBindingFiles s;
          tnf_ResourceFiles := tnf_ResourceFiles s ++ [resource];
          tnf_ProofRequirementFiles := tnf_ProofRequirementFiles s |}
  else if name ==s "action-bindings.yaml" then
    bindings ← loadActionBindings path;
    Ok {| tnf_Targets := tnf_Targets s; tnf_ActionBindingFiles := tnf_ActionBindingFiles s ++ [bindings];
          tnf_ResourceFiles := tnf_ResourceFiles s;
          tnf_ProofRequirementFiles := tnf_ProofRequirementFiles s |}
  else if name ==s "proof-requirements.yaml" then
    proofRequirements ← loadProofRequirements path;
    Ok {| tnf_Targets := tnf_Targets s; tnf_ActionBindingFiles := tnf_ActionBindingFiles s;
          tnf_ResourceFiles := tnf_ResourceFiles s;
          tnf_ProofRequirementFiles := tnf_ProofRequirementFiles s ++ [proofRequirements] |}
  else if has_prefix (root +:+ "/") path && contains "/targets/" path && has_suffix ".yaml" path then
    target ← loadTarget path;
    Ok {| tnf_Targets := tnf_Targets s ++ [target]; tnf_ActionBindingFiles := tnf_ActionBindingFiles s;
          tnf_ResourceFiles := tnf_ResourceFiles s;
          tnf_ProofRequirementFiles := tnf_ProofRequirementFiles s |}
  else Ok s.

Definition tenant_entry (root : string) (s : TenantFiles) (e : WalkEntry) : walk_answer TenantFiles :=
  match we_Err e with
  | Some err => Stop err
  | None =>
      if we_IsDir e then Continue s else
      match load_tenant_file root (we_Path e) s with
      | Ok s => Continue s
      | Err err => Stop err
      end
  end.

Definition no_tenant_files : TenantFiles := {|
  tnf_Targets := []; tnf_ActionBindingFiles := []; tnf_ResourceFiles := [];
  tnf_ProofRequirementFiles := [] |}.

Definition loadTenantFiles (policyRepo : string) : result TenantFiles :=
  let root := Join [policyRepo; "tenants"] in
  match os_Stat root with
  | Err e => if IsNotExist e then Ok no_tenant_files else Err e
  | Ok _ => walk (tenant_entry root) no_tenant_files None (os_WalkDir root)
  end.

Definition resource_key (r : ResourceFile) : string :=
  tenantEnvID (rsc_Tenant (rsf_Resource r)) (rsc_Environment (rsf_Resource r)) (rsc_ID (rsf_Resource r)).
Definition proof_key (p : ProofRequirementFile) : string :=
  tenantEnvID (prs_Tenant (prf_ProofRequirements p)) (prs_Environment (prf_ProofRequirements p))
    (prs_Resource (prf_ProofRequirements p)).

Definition Load (policyRepo enterpriseRegistry : string) : result Store :=
  let repositoryBindingsPath := Join [enterpriseRegistry; "bindings"; "repository_bindings.yaml"] in
  '(repositories, repositoryBindingsDigest) ← loadRepositoryBindings repositoryBindingsPath;
  let canonicalActionsPath := Join [enterpriseRegistry; "enterprise"; "canonical_actions.yaml"] in
  '(canonicalActions, canonicalActionsDigest) ← loadCanonicalActions canonicalActionsPath;
  let policySourcesPath := Join [enterpriseRegistry; "bindings"; "policy_sources.yaml"] in
  '(policySources, policySourcesDigest) ← loadPolicySources policySourcesPath;
  let repositoryByRef := by_id rpb_ID repositories in
  _ ← validatePolicySources repositoryByRef policySources;
  files ← loadTenantFiles policyRepo;
  Ok {| sto_PolicyRepo := policyRepo; sto_EnterpriseRegistry := enterpriseRegistry;
        sto_RepositoryBindingsPath := absPath repositoryBindingsPath;
        sto_RepositoryBindingsDigest := repositoryBindingsDigest;
        sto_PolicySourcesPath := absPath policySourcesPath;
        sto_PolicySourcesDigest := policySourcesDigest;
        sto_CanonicalActionsPath := absPath canonicalActionsPath;
        sto_CanonicalActionsDigest := canonicalActionsDigest;
        sto_Repositories := repositories; sto_PolicySources := policySources;
        sto_CanonicalActions := canonicalActions; sto_Files := files;
        sto_repositoryByRef := repositoryByRef;
        sto_canonicalActionByID := by_id cac_ID canonicalActions;
        sto_resourceByTenantEnvID := by_id resource_key (tnf_ResourceFiles files);
        sto_proofByTenantEnvResourceID := by_id proof_key (tnf_ProofRequirementFiles files) |}.

(** ** Resolving a request *)

Context (s : Store).

(** The index exists in every store that was loaded. *)
Definition get_CanonicalAction (id : string) : option CanonicalAction :=
  sto_canonicalActionByID s !! trim_space id.

Definition is_identity (provider repository : string) (repo : RepositoryBinding) : bool :=
  negb ((provider !=s "") && (rpb_Provider repo !=s "") && (provider !=s rpb_Provider repo)) &&
  ((repository ==s rpb_ID repo) || (repository ==s rpb_Repo repo) ||
   (repository ==s rpb_Org repo +:+ "/" +:+ rpb_Repo repo)).

Definition repositoryByIdentity (provider repository : string) : option RepositoryBinding :=
  List.find (is_identity (trim_space provider) (trim_char slash (trim_space repository))) (sto_Repositories s).

Definition is_target (tenant environment repoRef basePath targetID : string) (target : TargetInventory) : bool :=
  let t := tgi_Target target in
  negb ((tenant !=s "") && (tgt_Tenant t !=s tenant)) &&
  negb ((environment !=s "") && (tgt_Environment t !=s environment)) &&
  negb ((targetID !=s "") && (tgt_ID t !=s targetID)) &&
  (tsr_RepoRef (tgt_ValidationSource t) ==s repoRef) &&
  negb ((basePath !=s "") && (cleanRel (tsr_BasePath (tgt_ValidationSource t)) !=s cleanRel basePath)).

Definition targetsForRepo (tenant environment repoRef basePath targetID : string) : list TargetInventory :=
  sort_by (λ a b, str_leb (tgt_ID (tgi_Target a)) (tgt_ID (tgi_Target b)))
    (List.filter (is_target tenant environment repoRef basePath targetID) (tnf_Targets (sto_Files s))).

Definition target_candidates (file : ActionBindingFile) (targetRef : string) : list string :=
  omap (Abs os_Getwd)
    [Join [sto_PolicyRepo s; "tenants"; app_Tenant (abf_Application file); targetRef];
     Join [Dir (abf_Path file); targetRef]].

Definition resolveTargetRef (file : ActionBindingFile) (targetRef : string) : result string :=
  let targetRef := Clean (trim_space targetRef) in
  let not_found format args := Err (codedError "validation_target_not_found" format args) in
  if (targetRef ==s ".") || empty_str targetRef
  then not_found "%s: empty target_ref" [AStr (abf_Path file)] else
  match List.find (λ abs, existsb (λ target, tgi_Path target ==s abs) (tnf_Targets (sto_Files s)))
          (target_candidates file targetRef) with
  | Some abs => Ok abs
  | None => not_found "%s: target_ref %q does not resolve to a target inventory"
              [AStr (abf_Path file); AStr targetRef]
  end.

Definition application_key (a : Application) : string := tenantEnvID (app_Tenant a) (app_Environment a) (app_ID a).
Definition resourceForApplication (a : Application) : option ResourceFile :=
  sto_resourceByTenantEnvID s !! application_key a.
Definition proofRequirementsForApplication (a : Application) : option ProofRequirementFile :=
  sto_proofByTenantEnvResourceID s !! application_key a.

Definition resolved_binding (target : TargetInventory) (file : ActionBindingFile) (action : BusinessAction)
    (binding : ActionBinding) (targetPath : string) : ResolvedBinding :=
  let a := abf_Application file in {|
  rbd_File := file; rbd_Action := action; rbd_Binding := binding; rbd_Target := target;
  rbd_TargetPath := targetPath; rbd_Resource := resourceForApplication a;
  rbd_ProofRequirements := proofRequirementsForApplication a;
  rbd_ResourceRef := URNForResource (app_Tenant a) (app_Environment a) (app_ID a);
  rbd_ActionURN := URNForAction (app_Tenant a) (app_Environment a) (app_ID a) (bac_ID action) |}.

Definition add_bindings (target : TargetInventory) (file : ActionBindingFile) (resolved : list ResolvedBinding)
    (action : BusinessAction) : result (list ResolvedBinding) :=
  reject isSensitive (bac_Sensitivity action) && Nat.eqb (length (bac_Bindings action)) 0
    with codedError "missing_action_binding" "sensitive action %q has no approved bindings" [AStr (bac_ID action)];;
  for_fold (λ resolved binding,
    targetPath ← resolveTargetRef file (abd_TargetRef binding);
    if targetPath !=s tgi_Path target then Ok resolved
    else Ok (resolved ++ [resolved_binding target file action binding targetPath]))
    resolved (bac_Bindings action).

Definition same_place (target : TargetInventory) (file : ActionBindingFile) : bool :=
  (app_Tenant (abf_Application file) ==s tgt_Tenant (tgi_Target target)) &&
  (app_Environment (abf_Application file) ==s tgt_Environment (tgi_Target target)).

Definition binding_leb (a b : ResolvedBinding) : bool :=
  if bac_ID (rbd_Action a) ==s bac_ID (rbd_Action b)
  then str_leb (abd_ID (rbd_Binding a)) (abd_ID (rbd_Binding b))
  else str_leb (bac_ID (rbd_Action a)) (bac_ID (rbd_Action b)).

Definition bindingsForTarget (target : TargetInventory) : result (list ResolvedBinding) :=
  resolved ← for_fold (λ resolved file,
    if negb (same_place target file) then Ok resolved
    else for_fold (add_bindings target file) resolved (abf_Actions file))
    [] (tnf_ActionBindingFiles (sto_Files s));
  reject Nat.eqb (length resolved) 0
    with codedError "missing_action_binding" "target %q has no action bindings" [AStr (tgt_ID (tgi_Target target))];;
  Ok (sort_by binding_leb resolved).

Definition resolve_policy_file (source : PolicySource) (files : list PolicyFileRef) (relPath : string)
    : result (list PolicyFileRef) :=
  let relPath := cleanRel relPath in
  if empty_str relPath then Ok files else
  let path := Join [sto_PolicyRepo s; relPath] in
  match fileSHA256Strict path with
  | Err e =>
      if IsNotExist e
      then Err (unavailable "policy source %q references missing policy file %q" [AStr (pls_ID source); AStr relPath])
      else Err e
  | Ok digest => Ok (files ++ [{| pfr_Path := absPath path; pfr_RelPath := relPath; pfr_Digest := digest |}])
  end.

Definition file_leb (a b : PolicyFileRef) : bool := str_leb (pfr_RelPath a) (pfr_RelPath b).

Definition resolvePolicyFiles (source : PolicySource) : result (list PolicyFileRef) :=
  sort_by file_leb <$> for_fold (resolve_policy_file source) [] (pls_PolicyPaths source).

(** What the loop over the sources has found. *)
Record SourcesFound := {
  sfd_resolved : list ResolvedPolicySource;
  sfd_config : bool;
  sfd_policy : bool;
}.

Definition add_source (requestRepo : RepositoryBinding) (target : TargetInventory)
    (resolvedBindings : list ResolvedBinding) (acc : SourcesFound) (source : PolicySource) : result SourcesFound :=
  if negb (sourceMatchesScope source target resolvedBindings) then Ok acc else
  match sto_repositoryByRef s !! pls_RepoRef source with
  | None => Err (unavailable "policy source %q references unknown repo_ref %q"
                   [AStr (pls_ID source); AStr (pls_RepoRef source)])
  | Some repo =>
      reject negb (visibilityAllowed source requestRepo repo)
        with codedError "visibility_denied" "policy source %q has unsupported visibility %q for CI resolution"
               [AStr (pls_ID source); AStr (pls_Visibility source)];;
      let found files := {| rps_Source := source; rps_Repository := repo; rps_PolicyFiles := files |} in
      if pls_Type source ==s "config_repo" then
        if pls_RepoRef source !=s tsr_RepoRef (tgt_ValidationSource (tgi_Target target)) then Ok acc
        else Ok {| sfd_resolved := sfd_resolved acc ++ [found []]; sfd_config := true;
                   sfd_policy := sfd_policy acc |}
      else if pls_Type source ==s "policy_repo" then
        files ← resolvePolicyFiles source;
        reject Nat.eqb (length files) 0
          with unavailable "policy source %q does not include policy_paths" [AStr (pls_ID source)];;
        Ok {| sfd_resolved := sfd_resolved acc ++ [found files]; sfd_config := sfd_config acc;
              sfd_policy := true |}
      else Err (unavailable "policy source %q has unsupported type %q"
                  [AStr (pls_ID source); AStr (pls_Type source)])
  end.

Definition source_leb (a b : ResolvedPolicySource) : bool :=
  str_leb (pls_ID (rps_Source a)) (pls_ID (rps_Source b)).

Definition policySourcesForTarget (requestRepo : RepositoryBinding) (target : TargetInventory)
    (resolvedBindings : list ResolvedBinding) : result (list ResolvedPolicySource) :=
  found ← for_fold (add_source requestRepo target resolvedBindings)
            {| sfd_resolved := []; sfd_config := false; sfd_policy := false |} (sto_PolicySources s);
  let t := tgi_Target target in
  reject negb (sfd_config found)
    with unavailable "no config_repo policy source matches target %q repo_ref %q"
           [AStr (tgt_ID t); AStr (tsr_RepoRef (tgt_ValidationSource t))];;
  reject negb (sfd_policy found)
    with unavailable "no policy_repo source matches target %q" [AStr (tgt_ID t)];;
  Ok (sort_by source_leb (sfd_resolved found)).

Definition ResolveCIRequest (req : CIRequest) : result ResolvedTarget :=
  match repositoryByIdentity (cir_Provider req) (cir_Repository req) with
  | None => Err (codedError "repo_not_registered" "repository %q is not registered" [AStr (cir_Repository req)])
  | Some repo =>
      match targetsForRepo (cir_Tenant req) (cir_Environment req) (rpb_ID repo) (cir_BasePath req)
              (cir_TargetID req) with
      | [] => Err (codedError "validation_target_not_found"
                     "no target matches tenant=%q environment=%q repo_ref=%q base_path=%q target_id=%q"
                     [AStr (cir_Tenant req); AStr (cir_Environment req); AStr (rpb_ID repo);
                      AStr (cir_BasePath req); AStr (cir_TargetID req)])
      | [target] =>
          bindings ← bindingsForTarget target;
          policySources ← policySourcesForTarget repo target bindings;
          Ok {| rtg_Repository := repo; rtg_Target := target; rtg_Bindings := bindings;
                rtg_PolicySources := policySources |}
      | targets => Err (codedError "ambiguous_validation_target"
                          "repository %q base_path %q maps to %d targets; pass --target-id"
                          [AStr (cir_Repository req); AStr (cir_BasePath req); AInt (Z.of_nat (length targets))])
      end
  end.

(** The files of the policy sources, each path once. *)
Definition PolicyFiles (sources : list ResolvedPolicySource) : list PolicyFileRef :=
  sort_by file_leb
    (foldl (λ files source,
       if pls_Type (rps_Source source) !=s "policy_repo" then files else
       foldl (λ files file,
         if existsb (λ f, pfr_Path f ==s pfr_Path file) files then files else files ++ [file])
         files (rps_PolicyFiles source)) [] sources).
End loading.

(** ** What is resolved *)

(** A fold that collects: what is in the result, when every step adds the elements [Q] of
    what it visits. *)
Lemma for_fold_elements {A B} (f : list B → A → result (list B)) (Q : A → B → Prop) b l b' :
  for_fold f b l = Ok b' →
  (∀ acc x acc', f acc x = Ok acc' → ∀ y, y ∈ acc' ↔ y ∈ acc ∨ Q x y) →
  ∀ y, y ∈ b' ↔ y ∈ b ∨ ∃ x, x ∈ l ∧ Q x y.
Proof.
  intros H Hf. revert b H. induction l as [|x l IH]; simpl; intros b H y.
  - simplify_eq. split; [by left|]. intros [?|(? & ?%elem_of_nil & _)]; done.
  - destruct (f b x) as [b1|] eqn:Hx; [|done].
    rewrite (IH b1 H y), (Hf b x b1 Hx y). set_solver.
Qed.

Section resolved.
Context {FS : Files} {UL : UnicodeLower} (s : Store).

(** A binding of an application of the target's tenant and environment refers to the
    target. *)
Definition binds (target : TargetInventory) (b : ResolvedBinding) : Prop :=
  ∃ file action binding, file ∈ tnf_ActionBindingFiles (sto_Files s) ∧ same_place target file = true ∧
    action ∈ abf_Actions file ∧ binding ∈ bac_Bindings action ∧
    resolveTargetRef s file (abd_TargetRef binding) = Ok (tgi_Path target) ∧
    b = resolved_binding s target file action binding (tgi_Path target).

Lemma add_bindings_elements target file acc action acc' : add_bindings s target file acc action = Ok acc' →
  ∀ b, b ∈ acc' ↔ b ∈ acc ∨ ∃ binding, binding ∈ bac_Bindings action ∧
    resolveTargetRef s file (abd_TargetRef binding) = Ok (tgi_Path target) ∧
    b = resolved_binding s target file action binding (tgi_Path target).
Proof.
  unfold add_bindings. intros H. destruct (_ && _); [done|].
  refine (for_fold_elements _ _ _ _ _ H _). clear H. intros acc1 binding acc2 H b.
  destruct (resolveTargetRef s file (abd_TargetRef binding)) as [path|]; simpl in H; [|done].
  destruct (path ==s tgi_Path target) eqn:E; simpl in H; simplify_eq; str_eqs; subst.
  - rewrite elem_of_app, list_elem_of_singleton. naive_solver.
  - split; [by left|]. naive_solver.
Qed.

Lemma bindingsForTarget_spec target bindings : bindingsForTarget s target = Ok bindings →
  bindings ≠ [] ∧ ∀ b, b ∈ bindings ↔ binds target b.
Proof.
  unfold bindingsForTarget. intros H.
  destruct (for_fold _ [] _) as [resolved|] eqn:Hf; simpl in H; [|done].
  destruct (Nat.eqb (length resolved) 0) eqn:Hlen; [done|]. injection H as <-. split.
  - intros Hnil. pose proof (sort_by_perm binding_leb resolved) as Hperm. rewrite Hnil in Hperm.
    apply Permutation_nil_l in Hperm. by subst.
  - intros b. rewrite sort_by_elem.
    rewrite (for_fold_elements _ (λ file b, same_place target file = true ∧ ∃ action binding,
      action ∈ abf_Actions file ∧ binding ∈ bac_Bindings action ∧
      resolveTargetRef s file (abd_TargetRef binding) = Ok (tgi_Path target) ∧
      b = resolved_binding s target file action binding (tgi_Path target)) _ _ _ Hf).
    + unfold binds. split; [intros [?%elem_of_nil|?]; [done|naive_solver]|intros ?; right; naive_solver].
    + intros acc file acc' Hstep b'. destruct (same_place target file); simpl in Hstep; [|naive_solver].
      rewrite (for_fold_elements _ _ _ _ _ Hstep (λ acc action acc', add_bindings_elements target file acc action acc')).
      naive_solver.
Qed.

(** A file of the policy repository as it is now. *)
Definition policy_file (source : PolicySource) (f : PolicyFileRef) : Prop :=
  ∃ relPath data, relPath ∈ pls_PolicyPaths source ∧ cleanRel relPath ≠ "" ∧
    os_ReadFile (Join [sto_PolicyRepo s; cleanRel relPath]) = Ok data ∧
    f = {| pfr_Path := absPath (Join [sto_PolicyRepo s; cleanRel relPath]); pfr_RelPath := cleanRel relPath;
           pfr_Digest := sha256Bytes data |}.

Lemma resolvePolicyFiles_spec source files : resolvePolicyFiles s source = Ok files →
  ∀ f, f ∈ files ↔ policy_file source f.
Proof.
  unfold resolvePolicyFiles. destruct (for_fold _ [] _) as [l|] eqn:Hf; [|done]. intros [= <-] f.
  rewrite sort_by_elem.
  rewrite (for_fold_elements _ (λ relPath f, cleanRel relPath ≠ "" ∧ ∃ data,
    os_ReadFile (Join [sto_PolicyRepo s; cleanRel relPath]) = Ok data ∧
    f = {| pfr_Path := absPath (Join [sto_PolicyRepo s; cleanRel relPath]); pfr_RelPath := cleanRel relPath;
           pfr_Digest := sha256Bytes data |}) _ _ _ Hf).
  - unfold policy_file. split; [intros [?%elem_of_nil|?]; [done|naive_solver]|intros ?; right; naive_solver].
  - intros acc relPath acc' Hstep y. unfold resolve_policy_file in Hstep.
    destruct (empty_str (cleanRel relPath)) eqn:He.
    + apply String.eqb_eq in He. simplify_eq. split; [by left|]. intros [?|[? _]]; done.
    + apply String.eqb_neq in He. unfold fileSHA256Strict in Hstep.
      destruct (os_ReadFile _) as [data|e] eqn:Hd; simpl in Hstep; [|by destruct (IsNotExist e)].
      simplify_eq. set_solver.
Qed.

(** A source in the target's scope, as it is resolved for the repository of a request. *)
Definition provides (requestRepo : RepositoryBinding) (target : TargetInventory) (bindings : list ResolvedBinding)
    (source : PolicySource) (p : ResolvedPolicySource) : Prop :=
  sourceMatchesScope source target bindings = true ∧
  ∃ repo files, sto_repositoryByRef s !! pls_RepoRef source = Some repo ∧
    visibilityAllowed source requestRepo repo = true ∧
    p = {| rps_Source := source; rps_Repository := repo; rps_PolicyFiles := files |} ∧
    ((pls_Type source = "config_repo" ∧ files = [] ∧
      pls_RepoRef source = tsr_RepoRef (tgt_ValidationSource (tgi_Target target))) ∨
     (pls_Type source = "policy_repo" ∧ files ≠ [] ∧ resolvePolicyFiles s source = Ok files)).

(** What the loop has found after the sources [done]. *)
Definition found_so_far requestRepo target bindings (acc : SourcesFound) (seen : list PolicySource) : Prop :=
  (∀ p, p ∈ sfd_resolved acc ↔ ∃ source, source ∈ seen ∧ provides requestRepo target bindings source p) ∧
  (sfd_config acc = true → ∃ p, p ∈ sfd_resolved acc ∧ pls_Type (rps_Source p) = "config_repo") ∧
  (sfd_policy acc = true → ∃ p, p ∈ sfd_resolved acc ∧ pls_Type (rps_Source p) = "policy_repo") ∧
  (∀ source, source ∈ seen → sourceMatchesScope source target bindings = true →
     pls_Type source = "policy_repo" → ∃ p, p ∈ sfd_resolved acc ∧ rps_Source p = source).

(** One source: what it provides is what is added. *)
Lemma add_source_adds requestRepo target bindings acc source acc' :
  add_source s requestRepo target bindings acc source = Ok acc' →
  (acc' = acc ∧ (∀ p, ¬ provides requestRepo target bindings source p) ∧
   (sourceMatchesScope source target bindings = true → pls_Type source ≠ "policy_repo")) ∨
  (∃ p, provides requestRepo target bindings source p ∧ (∀ q, provides requestRepo target bindings source q → q = p) ∧
     rps_Source p = source ∧ sfd_resolved acc' = sfd_resolved acc ++ [p] ∧
     (sfd_config acc' = true → sfd_config acc = true ∨ pls_Type source = "config_repo") ∧
     (sfd_policy acc' = true → sfd_policy acc = true ∨ pls_Type source = "policy_repo")).
Proof.
  unfold add_source, provides. intros H.
  destruct (sourceMatchesScope source target bindings) eqn:Hm; simpl in H; [|left; naive_solver].
  destruct (sto_repositoryByRef s !! pls_RepoRef source) as [repo|] eqn:Hr; [|done].
  destruct (visibilityAllowed source requestRepo repo) eqn:Hv; simpl in H; [|done].
  destruct (String.eqb_spec (pls_Type source) "config_repo") as [Ht|Ht].
  - destruct (String.eqb_spec (pls_RepoRef source) (tsr_RepoRef (tgt_ValidationSource (tgi_Target target))))
      as [Hrf|Hrf]; simpl in H; simplify_eq.
    + right. exists {| rps_Source := source; rps_Repository := repo; rps_PolicyFiles := [] |}.
      split_and!; [done|exists repo, []; auto 10| |done|done|by right|by left].
      intros q (_ & repo' & files & ? & _ & -> & [(_ & -> & _)|(? & _)]); congruence.
    + left. split_and!; [done| |by rewrite Ht].
      intros p (_ & repo' & files & _ & _ & _ & [(_ & _ & ?)|(? & _)]); congruence.
  - destruct (String.eqb_spec (pls_Type source) "policy_repo") as [Hp|Hp]; [|done].
    destruct (resolvePolicyFiles s source) as [files|] eqn:Hf; simpl in H; [|done].
    destruct files as [|f0 files]; simpl in H; [done|]. simplify_eq. right.
    exists {| rps_Source := source; rps_Repository := repo; rps_PolicyFiles := f0 :: files |}.
    split_and!; [done|exists repo, (f0 :: files); auto 10| |done|done|by left|by right].
    intros q (_ & repo' & files' & ? & _ & -> & [(? & _)|(_ & _ & ?)]); congruence.
Qed.

Lemma policySourcesForTarget_spec requestRepo target bindings sources :
  policySourcesForTarget s requestRepo target bindings = Ok sources →
  (∀ p, p ∈ sources ↔ ∃ source, source ∈ sto_PolicySources s ∧ provides requestRepo target bindings source p) ∧
  (∃ p, p ∈ sources ∧ pls_Type (rps_Source p) = "config_repo") ∧
  (∃ p, p ∈ sources ∧ pls_Type (rps_Source p) = "policy_repo") ∧
  (∀ source, source ∈ sto_PolicySources s → sourceMatchesScope source target bindings = true →
     pls_Type source = "policy_repo" → ∃ p, p ∈ sources ∧ rps_Source p = source).
Proof.
  unfold policySourcesForTarget. intros H.
  destruct (for_fold _ _ _) as [found|] eqn:Hf; simpl in H; [|done].
  destruct (sfd_config found) eqn:Hc; simpl in H; [|done].
  destruct (sfd_policy found) eqn:Hp; simpl in H; [|done]. simplify_eq.
  assert (Hinv : found_so_far requestRepo target bindings found (sto_PolicySources s)).
  { apply (for_fold_Ok_prefix _ (found_so_far requestRepo target bindings) _ _ _ Hf).
    - unfold found_so_far. simpl. split_and!; [|done|done|set_solver]. intros p. set_solver.
    - intros acc seen source acc1 (I1 & I2 & I3 & I4) Hstep.
      apply add_source_adds in Hstep as [(-> & Hno & Hty)|(p & Hpr & Huniq & Hsrc & E & C1 & C2)].
      + split_and!; [|done|done|].
        * intros p. rewrite I1. setoid_rewrite elem_of_app. setoid_rewrite list_elem_of_singleton. naive_solver.
        * intros source' [Hin| ->%list_elem_of_singleton]%elem_of_app Hm Ht; [by apply I4|]. by destruct (Hty Hm).
      + unfold found_so_far. rewrite E. setoid_rewrite elem_of_app. setoid_rewrite list_elem_of_singleton.
        split_and!.
        * intros q. rewrite I1. naive_solver.
        * intros [Hx|Hx]%C1; [destruct (I2 Hx) as (q & ? & ?); eauto|exists p; by rewrite Hsrc; auto].
        * intros [Hx|Hx]%C2; [destruct (I3 Hx) as (q & ? & ?); eauto|exists p; by rewrite Hsrc; auto].
        * intros source' [Hin| ->] Hm Ht; [destruct (I4 source' Hin Hm Ht) as (q & ? & ?); eauto|eauto]. }
  destruct Hinv as (I1 & I2 & I3 & I4). setoid_rewrite sort_by_elem. split_and!; auto.
Qed.

(** C20. A request of CI is resolved only to a target of the repository it names: the repository
    is registered, the target is validated from it, agrees with everything the request
    says and is the only one that does.  The bindings are exactly those of the
    applications of the target's tenant and environment that refer to it, and there is one.
    The policy sources are exactly the ones in scope that the repository may see, with
    the present digests of their files; none in scope is left out, and both a
    configuration and a policy are among them. *)
Theorem ResolveCIRequest_sound req r : ResolveCIRequest s req = Ok r →
  let repo := rtg_Repository r in
  let target := rtg_Target r in
  let selects := is_target (cir_Tenant req) (cir_Environment req) (rpb_ID repo) (cir_BasePath req) (cir_TargetID req) in
  repositoryByIdentity s (cir_Provider req) (cir_Repository req) = Some repo ∧ repo ∈ sto_Repositories s ∧
  (∀ t, t ∈ tnf_Targets (sto_Files s) ∧ selects t = true ↔ t = target) ∧
  tsr_RepoRef (tgt_ValidationSource (tgi_Target target)) = rpb_ID repo ∧
  rtg_Bindings r ≠ [] ∧ (∀ b, b ∈ rtg_Bindings r ↔ binds target b) ∧
  (∀ p, p ∈ rtg_PolicySources r ↔ ∃ source, source ∈ sto_PolicySources s ∧
     provides repo target (rtg_Bindings r) source p) ∧
  (∀ p f, p ∈ rtg_PolicySources r → f ∈ rps_PolicyFiles p → policy_file (rps_Source p) f) ∧
  (∀ source, source ∈ sto_PolicySources s → sourceMatchesScope source target (rtg_Bindings r) = true →
     pls_Type source = "policy_repo" → ∃ p, p ∈ rtg_PolicySources r ∧ rps_Source p = source) ∧
  (∃ p, p ∈ rtg_PolicySources r ∧ pls_Type (rps_Source p) = "config_repo") ∧
  (∃ p, p ∈ rtg_PolicySources r ∧ pls_Type (rps_Source p) = "policy_repo").
Proof.
  unfold ResolveCIRequest. destruct (repositoryByIdentity _ _ _) as [repo|] eqn:Hrepo; [|done].
  destruct (targetsForRepo _ _ _ _ _ _) as [|target [|]] eqn:Ht; [done| |done].
  destruct (bindingsForTarget s target) as [bindings|] eqn:Hb; simpl; [|done].
  destruct (policySourcesForTarget s repo target bindings) as [sources|] eqn:Hp; simpl; [|done].
  intros [= <-]. simpl. destruct (bindingsForTarget_spec _ _ Hb) as [Hne Hbs].
  destruct (policySourcesForTarget_spec _ _ _ _ Hp) as (P1 & P2 & P3 & P4).
  assert (Hsel : ∀ t, t ∈ tnf_Targets (sto_Files s) ∧ is_target (cir_Tenant req) (cir_Environment req) (rpb_ID repo)
    (cir_BasePath req) (cir_TargetID req) t = true ↔ t = target).
  { intros t. rewrite <- (list_elem_of_singleton t target), <- Ht. unfold targetsForRepo.
    rewrite sort_by_elem, !list_elem_of_In, List.filter_In. done. }
  split_and!; try done.
  - unfold repositoryByIdentity in Hrepo. apply List.find_some in Hrepo as [Hin _]. by apply list_elem_of_In.
  - destruct (proj2 (Hsel target) eq_refl) as [_ Hx]. unfold is_target in Hx.
    repeat (apply andb_true_iff in Hx as [Hx ?]). by apply String.eqb_eq.
  - intros p f Hin Hf. apply P1 in Hin as (source & _ & _ & repo' & files & _ & _ & -> & [(_ & -> & _)|(_ & _ & Hr)]);
      simpl in *; [by apply elem_of_nil in Hf|]. by apply (resolvePolicyFiles_spec _ _ Hr).
Qed.
End resolved.
