(* ===== verification/CIValidation.v ===== *)
(** * Validation of a change in CI ([internal/forge/validation/ci.go])

    The adapter is asked what it runs ([internal/forge/adapterverify]); a request is
    resolved to its target, its bindings are checked against the registry, the manifest of
    the adapter, the canonical actions and a snapshot of the configuration, and every
    policy file in scope is compiled.  What is wrong is collected, not returned.  TLS, gRPC
    and YAML are parameters. *)

From stdpp Require Import options.
From stdpp Require Import gmap.
From S2P Require Import Prelude IO GoStrings GoTime GoDuration GoJson GoEncoding GoPath GoFloat.
From S2P Require Import Schema Signing Registry ArtifactStore AdapterManifests Compiler.
From S2P Require Import CompilerEmit Bindings.
#[local] Open Scope Z_scope.

Definition message `{GoRuntime} (format : string) (args : list fmt_arg) : string :=
  error_text (Errorf format args).

(** ** The adapter that runs ([adapterverify]) *)

Record VerifyOptions := {
  vfo_AdapterID : string;
  vfo_Endpoint : string;
  vfo_Manifest : AdapterManifest;
  vfo_DevInsecureTransport : bool;
  vfo_CAPath : string;
  vfo_ClientCertPath : string;
  vfo_ClientKeyPath : string;
  vfo_TLSServerName : string;
  vfo_ServerCertificateSHA256 : string;
  vfo_Timeout : duration;
}.

(** The findings are a code and a message. *)
Record VerifyResult := {
  vfr_Status : string;
  vfr_AdapterID : string;
  vfr_Endpoint : string;
  vfr_ManifestPath : string;
  vfr_ManifestDigest : string;
  vfr_DescriptorDigest : string;
  vfr_ProtocolVersion : string;
  vfr_Capabilities : list string;
  vfr_Privileges : list string;
  vfr_Findings : list (string * string);
}.

(** The credentials of a connection; the check of the certificates the peer presents. *)
Inductive transport :=
  | Insecure
  | TLS (ServerName : string) (VerifyPeerCertificate : option (list string → result unit)).

Class AdapterRuntime := {
  AppendCertsFromPEM : string → bool;
  LoadX509KeyPair : string → string → result unit;
  NewClient : string → transport → result unit;
  Describe : string → transport → duration → result (option AdapterDescriptor);
  ValidateDescriptor : AdapterDescriptor → result unit;
}.

Section verify.
Context {GR : GoRuntime} {UL : UnicodeLower} {FS : Files} {AR : AdapterRuntime}.

Definition trimmedOrDefault (value fallback : string) : string :=
  if blank value then trim_space fallback else trim_space value.

Definition normalizePin (pin : string) : string :=
  let pin := ToLower (trim_space pin) in
  if has_prefix "sha256:" pin then pin else "sha256:" +:+ pin.

Definition check_pin (expectedPin : string) (rawCerts : list string) : result unit :=
  match rawCerts with
  | [] => Err (Errorf "adapter tls pin requires peer certificate" [])
  | cert :: _ =>
      reject sha256Bytes cert !=s expectedPin
        with Errorf "adapter tls server certificate pin mismatch" [];;
      Ok tt
  end.

Definition dialOptions (opts : VerifyOptions) : result transport :=
  if vfo_DevInsecureTransport opts then Ok Insecure else
  reject blank (vfo_CAPath opts) || blank (vfo_ClientCertPath opts) || blank (vfo_ClientKeyPath opts)
    with Errorf "adapter transport requires --adapter-ca, --adapter-client-cert and --adapter-client-key unless --dev-insecure-transport is set" [];;
  caPEM ← os_ReadFile (vfo_CAPath opts);
  reject negb (AppendCertsFromPEM caPEM)
    with Errorf "adapter ca %q does not contain a PEM certificate" [AStr (vfo_CAPath opts)];;
  _ ← LoadX509KeyPair (vfo_ClientCertPath opts) (vfo_ClientKeyPath opts);
  Ok (TLS (trim_space (vfo_TLSServerName opts))
        (if blank (vfo_ServerCertificateSHA256 opts) then None
         else Some (check_pin (normalizePin (vfo_ServerCertificateSHA256 opts))))).

Definition verify_started (opts : VerifyOptions) : VerifyResult := {|
  vfr_Status := "passed";
  vfr_AdapterID := trim_space (trimmedOrDefault (vfo_AdapterID opts) (am_AdapterID (vfo_Manifest opts)));
  vfr_Endpoint := trim_space (vfo_Endpoint opts); vfr_ManifestPath := am_Path (vfo_Manifest opts);
  vfr_ManifestDigest := am_Digest (vfo_Manifest opts); vfr_DescriptorDigest := "";
  vfr_ProtocolVersion := ""; vfr_Capabilities := []; vfr_Privileges := []; vfr_Findings := [] |}.

Definition verify_fail (code msg : string) (r : VerifyResult) : VerifyResult := {|
  vfr_Status := "failed"; vfr_AdapterID := vfr_AdapterID r; vfr_Endpoint := vfr_Endpoint r;
  vfr_ManifestPath := vfr_ManifestPath r; vfr_ManifestDigest := vfr_ManifestDigest r;
  vfr_DescriptorDigest := vfr_DescriptorDigest r; vfr_ProtocolVersion := vfr_ProtocolVersion r;
  vfr_Capabilities := vfr_Capabilities r; vfr_Privileges := vfr_Privileges r;
  vfr_Findings := vfr_Findings r ++ [(code, msg)] |}.

Definition with_descriptor (d : AdapterDescriptor) (r : VerifyResult) : VerifyResult := {|
  vfr_Status := vfr_Status r; vfr_AdapterID := ad_AdapterId d; vfr_Endpoint := vfr_Endpoint r;
  vfr_ManifestPath := vfr_ManifestPath r; vfr_ManifestDigest := vfr_ManifestDigest r;
  vfr_DescriptorDigest := ad_ManifestDigest d; vfr_ProtocolVersion := ad_ProtocolVersion d;
  vfr_Capabilities := cd_Id <$> ad_Capabilities d; vfr_Privileges := ad_Privileges d;
  vfr_Findings := vfr_Findings r |}.

Definition Verify (opts : VerifyOptions) : VerifyResult :=
  let timeout := if vfo_Timeout opts =? 0 then 5 * second else vfo_Timeout opts in
  let manifest := vfo_Manifest opts in
  let result := verify_started opts in
  if empty_str (vfr_Endpoint result)
  then verify_fail "adapter_endpoint_missing" "adapter verify requires an endpoint" result else
  if empty_str (am_AdapterID manifest) || empty_str (am_Digest manifest)
  then verify_fail "adapter_manifest_missing"
         "adapter verify requires a loaded adapter manifest with digest" result else
  if (vfr_AdapterID result !=s "") && (vfr_AdapterID result !=s am_AdapterID manifest)
  then verify_fail "adapter_manifest_mismatch"
         (message "requested adapter %q does not match manifest adapter_id %q"
            [AStr (vfr_AdapterID result); AStr (am_AdapterID manifest)]) result else
  match dialOptions opts with
  | Err e => verify_fail "adapter_transport_invalid" (error_text e) result
  | Ok creds =>
    match NewClient (vfr_Endpoint result) creds with
    | Err e => verify_fail "adapter_dial_failed" (error_text e) result
    | Ok _ =>
      match Describe (vfr_Endpoint result) creds timeout with
      | Err e => verify_fail "adapter_describe_failed" (error_text e) result
      | Ok desc =>
          let result := match desc with Some d => with_descriptor d result | None => result end in
          match ValidateAdapterRuntimeDescribe ValidateDescriptor manifest
                  {| ard_ManifestDigest := ""; ard_Descriptor := desc |} with
          | Err e => verify_fail "adapter_runtime_verify_failed" (error_text e) result
          | Ok _ => result
          end
      end
    end
  end.
End verify.

(** ** Options and results *)

Record AdapterVerifyOptions := {
  avo_Endpoint : string;
  avo_Manifest : string;
  avo_DevInsecureTransport : bool;
  avo_CAPath : string;
  avo_ClientCertPath : string;
  avo_ClientKeyPath : string;
  avo_TLSServerName : string;
  avo_ServerCertificateSHA256 : string;
  avo_Timeout : duration;
}.

Record CIRequestReport := {
  crp_Tenant : string;
  crp_Environment : string;
  crp_Provider : string;
  crp_Repository : string;
  crp_Commit : string;
  crp_PullRequest : string;
  crp_BasePath : string;
  crp_TargetID : string;
  crp_ChangedPaths : list string;
  crp_ConfigSnapshot : string;
}.

(** The fields that the report repeats are those of [CIRequestReport]. *)
Record CIOptions := {
  cio_PolicyRepo : string;
  cio_CoreRegistry : string;
  cio_EnterpriseRegistry : string;
  cio_Request : CIRequestReport;
  cio_OutputDir : string;
  cio_AdapterVerify : AdapterVerifyOptions;
}.

Record TargetReport := {
  trp_ID : string;
  trp_URN : string;
  trp_Tenant : string;
  trp_Environment : string;
  trp_Adapter : string;
  trp_AdapterVersion : string;
  trp_ValidationProfiles : list string;
  trp_RepoRef : string;
  trp_BasePath : string;
  trp_Digest : string;
}.

Record PolicyMeaningReport := {
  pmr_PolicyPath : string;
  pmr_CanonicalActions : list string;
  pmr_ActionTypes : list string;
}.

Record SourceReport := {
  srp_ID : string;
  srp_Type : string;
  srp_RepoRef : string;
  srp_Visibility : string;
  srp_Owner : string;
  srp_PolicyFiles : list string;
  srp_PolicyMeanings : list PolicyMeaningReport;
}.

Record BindingReport := {
  brp_ActionID : string;
  brp_ActionURN : string;
  brp_ResourceRef : string;
  brp_CanonicalAction : string;
  brp_ActionType : string;
  brp_Sensitivity : string;
  brp_BindingID : string;
  brp_Capability : string;
  brp_SelectorType : string;
  brp_BindingDigest : string;
}.

Record CompileReport := {
  cpr_Status : string;
  cpr_Policies : Z;
  cpr_OutputDir : string;
  cpr_PolicyIDs : list string;
  cpr_Files : list string;
}.

Record Finding := {
  fnd_Code : string;
  fnd_Severity : string;
  fnd_Message : string;
  fnd_TargetID : string;
  fnd_BindingID : string;
  fnd_Path : string;
}.

Record CIValidationResult := {
  civ_Status : string;
  civ_Request : CIRequestReport;
  civ_Target : option TargetReport;
  civ_AdapterRuntime : option VerifyResult;
  civ_PolicySources : list SourceReport;
  civ_Bindings : list BindingReport;
  civ_Compile : option CompileReport;
  civ_Provenance : gmap string string;
  civ_Findings : list Finding;
}.

Definition set_findings (status : string) (fs : list Finding) (r : CIValidationResult) : CIValidationResult := {|
  civ_Status := status; civ_Request := civ_Request r; civ_Target := civ_Target r;
  civ_AdapterRuntime := civ_AdapterRuntime r; civ_PolicySources := civ_PolicySources r;
  civ_Bindings := civ_Bindings r; civ_Compile := civ_Compile r; civ_Provenance := civ_Provenance r;
  civ_Findings := fs |}.
Definition set_runtime (v : VerifyResult) (r : CIValidationResult) : CIValidationResult := {|
  civ_Status := civ_Status r; civ_Request := civ_Request r; civ_Target := civ_Target r;
  civ_AdapterRuntime := Some v; civ_PolicySources := civ_PolicySources r;
  civ_Bindings := civ_Bindings r; civ_Compile := civ_Compile r; civ_Provenance := civ_Provenance r;
  civ_Findings := civ_Findings r |}.
Definition set_bindings (b : list BindingReport) (r : CIValidationResult) : CIValidationResult := {|
  civ_Status := civ_Status r; civ_Request := civ_Request r; civ_Target := civ_Target r;
  civ_AdapterRuntime := civ_AdapterRuntime r; civ_PolicySources := civ_PolicySources r;
  civ_Bindings := b; civ_Compile := civ_Compile r; civ_Provenance := civ_Provenance r;
  civ_Findings := civ_Findings r |}.
Definition set_compile (c : CompileReport) (r : CIValidationResult) : CIValidationResult := {|
  civ_Status := civ_Status r; civ_Request := civ_Request r; civ_Target := civ_Target r;
  civ_AdapterRuntime := civ_AdapterRuntime r; civ_PolicySources := civ_PolicySources r;
  civ_Bindings := civ_Bindings r; civ_Compile := Some c; civ_Provenance := civ_Provenance r;
  civ_Findings := civ_Findings r |}.
Definition provenance (key digest : string) (r : CIValidationResult) : CIValidationResult := {|
  civ_Status := civ_Status r; civ_Request := civ_Request r; civ_Target := civ_Target r;
  civ_AdapterRuntime := civ_AdapterRuntime r; civ_PolicySources := civ_PolicySources r;
  civ_Bindings := civ_Bindings r; civ_Compile := civ_Compile r;
  civ_Provenance := <[key := digest]> (civ_Provenance r); civ_Findings := civ_Findings r |}.

(** ** Findings *)

(** Every finding is an error. *)
Definition finding (code msg targetID bindingID path : string) : Finding := {|
  fnd_Code := code; fnd_Severity := "error"; fnd_Message := msg; fnd_TargetID := targetID;
  fnd_BindingID := bindingID; fnd_Path := path |}.

Definition add_findings (fs : list Finding) (r : CIValidationResult) : CIValidationResult :=
  set_findings (civ_Status r) (civ_Findings r ++ fs) r.

Definition failed (r : CIValidationResult) : bool :=
  existsb (λ f, fnd_Severity f ==s "error") (civ_Findings r).

Definition finding_leb (a b : Finding) : bool :=
  if fnd_Code a ==s fnd_Code b then str_leb (fnd_Message a) (fnd_Message b)
  else str_leb (fnd_Code a) (fnd_Code b).

Definition finalize (r : CIValidationResult) : CIValidationResult :=
  set_findings (if failed r then "failed" else "passed") (sort_by finding_leb (civ_Findings r)) r.

(** Where the code finds something only under a condition. *)
Definition when (c : bool) (f : Finding) : list Finding := if c then [f] else [].

(** ** Helpers *)

Definition bindingErrorCode (e : error) (fallback : string) : string :=
  match error_code e with
  | Some code => if empty_str code then fallback else code
  | None => fallback
  end.

Definition manifestHasCapability (m : AdapterManifest) (capabilityID : string) : bool :=
  match List.find (λ c, amc_CapabilityID c ==s capabilityID) (am_Capabilities m) with
  | Some c => amc_ImplementationStatus c ==s "implemented"
  | None => false
  end.

Definition approvalStatus (values : list Approval) : string :=
  first_nonblank (apl_Status <$> values) "".

Definition policyMeaningsForSources (sources : list ResolvedPolicySource) : list PolicyMeaning :=
  sort_by (λ a b, str_leb (plm_PolicyPath a) (plm_PolicyPath b))
    (source ← sources;
     if pls_Type (rps_Source source) !=s "policy_repo" then [] else
     (λ m, {| plm_PolicyPath := cleanRel (plm_PolicyPath m); plm_CanonicalActions := plm_CanonicalActions m;
              plm_ActionTypes := plm_ActionTypes m |}) <$> pls_PolicyMeanings (rps_Source source)).

Definition policyMeaningMatchesAction (meanings : list PolicyMeaning) (action : BusinessAction) : bool :=
  existsb (λ m, containsString (plm_CanonicalActions m) (bac_CanonicalAction action) ||
                containsString (plm_ActionTypes m) (bac_Type action)) meanings.

(** [filepath.Ext]: from the last dot of the last element. *)
Fixpoint Ext (path : string) : string :=
  match path with
  | EmptyString => ""
  | String c rest =>
      let ext := Ext rest in
      if negb (empty_str ext) then ext else
      if Ascii.eqb c dot && negb (contains "/" rest) then path else ""
  end.

Example ext_ex : Ext <$> ["a/b.yaml"; "a.b/c"; "x.tar.gz"; "a."; ".yml"; "a"] = [".yaml"; ""; ".gz"; "."; ".yml"; ""].
Proof. reflexivity. Qed.

Section stages.
Context {GR : GoRuntime} {UL : UnicodeLower} {FT : FloatText} {FS : Files}.

Definition selectorType (selector : object) : string :=
  match obj_get "type" selector with
  | Some v => trim_space (Sprint v)
  | None => ""
  end.

Definition selectorContains (candidate expected : object) : bool :=
  negb (Nat.eqb (length expected) 0) &&
  forallb (λ kv, match obj_get kv.1 candidate with
                 | Some v => trim_space (Sprint v) ==s trim_space (Sprint kv.2)
                 | None => false
                 end) expected.

(** ** Reports *)

Definition targetReport (target : TargetInventory) : TargetReport :=
  let t := tgi_Target target in {|
  trp_ID := tgt_ID t; trp_URN := URNForTarget (tgt_Tenant t) (tgt_Environment t) (tgt_ID t);
  trp_Tenant := tgt_Tenant t; trp_Environment := tgt_Environment t; trp_Adapter := tgt_Adapter t;
  trp_AdapterVersion := tgt_AdapterVersion t; trp_ValidationProfiles := tgt_ValidationProfiles t;
  trp_RepoRef := tsr_RepoRef (tgt_ValidationSource t);
  trp_BasePath := tsr_BasePath (tgt_ValidationSource t); trp_Digest := tgi_Digest target |}.

Definition sourceReport (source : ResolvedPolicySource) : SourceReport :=
  let s := rps_Source source in {|
  srp_ID := pls_ID s; srp_Type := pls_Type s; srp_RepoRef := pls_RepoRef s;
  srp_Visibility := pls_Visibility s; srp_Owner := pls_Owner s;
  srp_PolicyFiles := sort_by str_leb (pfr_RelPath <$> rps_PolicyFiles source);
  srp_PolicyMeanings := sort_by (λ a b, str_leb (pmr_PolicyPath a) (pmr_PolicyPath b))
    ((λ m, {| pmr_PolicyPath := cleanRel (plm_PolicyPath m); pmr_CanonicalActions := plm_CanonicalActions m;
              pmr_ActionTypes := plm_ActionTypes m |}) <$> pls_PolicyMeanings s) |}.

Definition sourceReports (sources : list ResolvedPolicySource) : list SourceReport :=
  sort_by (λ a b, str_leb (srp_ID a) (srp_ID b)) (sourceReport <$> sources).

Definition bindingReport (b : ResolvedBinding) : BindingReport := {|
  brp_ActionID := bac_ID (rbd_Action b); brp_ActionURN := rbd_ActionURN b;
  brp_ResourceRef := rbd_ResourceRef b; brp_CanonicalAction := bac_CanonicalAction (rbd_Action b);
  brp_ActionType := bac_Type (rbd_Action b); brp_Sensitivity := bac_Sensitivity (rbd_Action b);
  brp_BindingID := abd_ID (rbd_Binding b); brp_Capability := abd_Capability (rbd_Binding b);
  brp_SelectorType := selectorType (abd_Selector (rbd_Binding b));
  brp_BindingDigest := abf_Digest (rbd_File b) |}.

Definition report_leb (a b : BindingReport) : bool :=
  if brp_ActionID a ==s brp_ActionID b then str_leb (brp_BindingID a) (brp_BindingID b)
  else str_leb (brp_ActionID a) (brp_ActionID b).

(** ** Canonical actions *)

Definition canonical_findings (c : Catalog) (s : Store) (action : CanonicalAction) : list Finding :=
  let found code format args := finding code (message format (AStr (cac_ID action) :: args)) "" ""
                                  (sto_CanonicalActionsPath s) in
  when (negb (has_entry c "action_type" (cac_Type action)))
    (found "unknown_action_type" "canonical action %q references unknown action type %q" [AStr (cac_Type action)]) ++
  (eventID ← cac_RequiredEvents action;
   when (negb (has_entry c "event" eventID))
     (found "event_not_found" "canonical action %q requires unknown event %q" [AStr eventID])).

Definition validateCanonicalActions (c : Catalog) (s : Store) : CIValidationResult → CIValidationResult :=
  add_findings (sto_CanonicalActions s ≫= canonical_findings c s).

(** ** One binding *)

Section binding.
Context (c : Catalog) (manifest : AdapterManifest) (s : Store) (target : Target) (resolved : ResolvedBinding).
Let action : BusinessAction := rbd_Action resolved.
Let binding : ActionBinding := rbd_Binding resolved.
Let sensitive : bool := isSensitive (bac_Sensitivity action).

Definition at_binding (code format : string) (args : list fmt_arg) : Finding :=
  finding code (message format args) (tgt_ID target) (abd_ID binding) (abf_Path (rbd_File resolved)).

(** The canonical action the business action maps to. *)
Definition mapped_action : option CanonicalAction :=
  if blank (bac_CanonicalAction action) then None else get_CanonicalAction s (bac_CanonicalAction action).

Definition mapping_findings : list Finding :=
  let unmapped := at_binding "missing_canonical_action_mapping" in
  if blank (bac_CanonicalAction action) then
    when sensitive (unmapped "sensitive action %q does not declare canonical_action" [AStr (bac_ID action)])
  else match mapped_action with
  | None => [unmapped "action %q references unknown canonical action %q"
               [AStr (bac_ID action); AStr (bac_CanonicalAction action)]]
  | Some canonicalAction =>
      when (negb (blank (bac_Type action)) && (cac_Type canonicalAction !=s trim_space (bac_Type action)))
        (unmapped "action %q maps to canonical action %q of type %q but declares type %q"
           [AStr (bac_ID action); AStr (bac_CanonicalAction action); AStr (cac_Type canonicalAction);
            AStr (bac_Type action)])
  end.

Definition capability_findings : list Finding :=
  let capability := abd_Capability binding in
  let args := [AStr (abd_ID binding); AStr capability] in
  if blank capability then
    [at_binding "required_control_missing" "binding %q does not declare a required capability" [AStr (abd_ID binding)]]
  else if negb (map_has (cat_Capabilities c) capability) then
    [at_binding "capability_not_found" "binding %q references unknown capability %q" args]
  else when (negb (containsString (tgt_Capabilities target) capability))
    (at_binding "binding_capability_outside_target_scope" "binding %q capability %q is not declared by target %q"
       (args ++ [AStr (tgt_ID target)])).

Definition selector_findings : list Finding :=
  let selector := selectorType (abd_Selector binding) in
  let args := [AStr (abd_ID binding); AStr selector] in
  if empty_str selector then
    [at_binding "binding_selector_not_enforced" "binding %q does not declare selector.type" [AStr (abd_ID binding)]]
  else match get_CatalogEntry c "selector_schema" selector with
  | None => [at_binding "binding_selector_not_enforced" "binding %q references unknown selector schema %q" args;
             at_binding "selector_schema_not_found" "binding %q references unknown selector schema %q" args]
  | Some entry =>
      if cte_Status entry ==s "planned" then
        [at_binding "binding_selector_not_enforced" "binding %q selector schema %q is not enforceable yet" args;
         at_binding "selector_schema_not_ready" "binding %q references planned selector schema %q" args]
      else []
  end.

Definition proof_findings : list Finding :=
  (eventID ← abd_ExpectedEvents binding;
   when (negb (has_entry c "event" eventID))
     (at_binding "event_not_found" "binding %q proof references unknown event %q"
        [AStr (abd_ID binding); AStr eventID])) ++
  when (sensitive && Nat.eqb (length (abd_ExpectedEvents binding)) 0)
    (at_binding "required_control_missing" "sensitive action %q binding %q does not declare proof.expected_events"
       [AStr (bac_ID action); AStr (abd_ID binding)]).

Definition required_findings : list Finding :=
  match mapped_action with
  | None => []
  | Some canonicalAction =>
      let missing format id := at_binding "required_control_missing" format
                                 [AStr (abd_ID binding); AStr (cac_ID canonicalAction); AStr id] in
      (controlID ← cac_RequiredControls canonicalAction;
       when (negb (containsString (abd_Controls binding) controlID))
         (missing "binding %q for canonical action %q is missing required control %q" controlID)) ++
      (eventID ← cac_RequiredEvents canonicalAction;
       when (negb (containsString (abd_ExpectedEvents binding) eventID))
         (missing "binding %q for canonical action %q is missing required proof event %q" eventID))
  end.

Definition validateBinding : list Finding :=
  mapping_findings ++
  when (negb (has_entry c "action_type" (bac_Type action)))
    (at_binding "unknown_action_type" "action %q references unknown action type %q"
       [AStr (bac_ID action); AStr (bac_Type action)]) ++
  capability_findings ++ selector_findings ++
  when (negb (blank (abd_Capability binding)) && negb (manifestHasCapability manifest (abd_Capability binding)))
    (finding "adapter_capability_not_implemented"
       (message "adapter %q does not implement binding capability %q"
          [AStr (tgt_Adapter target); AStr (abd_Capability binding)])
       (tgt_ID target) (abd_ID binding) (am_Path manifest)) ++
  proof_findings ++ required_findings ++
  when (sensitive && (approvalStatus [bac_Approval action; abd_Approval binding] !=s "approved"))
    (at_binding "binding_not_approved" "sensitive action %q binding %q is not approved"
       [AStr (bac_ID action); AStr (abd_ID binding)]).
End binding.

(** ** The target *)

Definition target_finding (target : TargetInventory) (code format : string) (args : list fmt_arg) : Finding :=
  finding code (message format args) (tgt_ID (tgi_Target target)) "" (tgi_Path target).

Definition target_capability_findings (c : Catalog) (manifest : AdapterManifest) (target : TargetInventory)
    (capabilityID : string) : list Finding :=
  let t := tgi_Target target in
  let args := [AStr (tgt_ID t); AStr capabilityID] in
  match get_Capability c capabilityID with
  | None => [target_finding target "capability_not_found" "target %q references unknown capability %q" args]
  | Some capability =>
      when (cap_Status capability ==s "planned")
        (target_finding target "capability_not_ready" "target %q references planned capability %q" args) ++
      when (negb (manifestHasCapability manifest capabilityID))
        (finding "adapter_capability_not_implemented"
           (message "adapter %q does not implement target capability %q" [AStr (tgt_Adapter t); AStr capabilityID])
           (tgt_ID t) "" (am_Path manifest))
  end.

Definition target_profile_findings (c : Catalog) (target : TargetInventory) (profileID : string) : list Finding :=
  let args := [AStr (tgt_ID (tgi_Target target)); AStr profileID] in
  match get_CatalogEntry c "validation_profile" profileID with
  | None => [target_finding target "validation_profile_not_found"
               "target %q references unknown validation profile %q" args]
  | Some entry =>
      when (cte_Status entry ==s "planned")
        (target_finding target "validation_profile_not_ready" "target %q references planned validation profile %q" args)
  end.

Definition binding_provenance (b : ResolvedBinding) (r : CIValidationResult) : CIValidationResult :=
  let application := app_ID (abf_Application (rbd_File b)) in
  let r := provenance ("action_binding:" +:+ abd_ID (rbd_Binding b)) (abf_Digest (rbd_File b)) r in
  let r := match rbd_Resource b with
           | Some resource => provenance ("resource:" +:+ application) (rsf_Digest resource) r
           | None => r
           end in
  match rbd_ProofRequirements b with
  | Some proof => provenance ("proof_requirements:" +:+ application) (prf_Digest proof) r
  | None => r
  end.

Definition resolve_binding (c : Catalog) (manifest : AdapterManifest) (s : Store) (target : Target)
    (r : CIValidationResult) (b : ResolvedBinding) : CIValidationResult :=
  add_findings (validateBinding c manifest s target b)
    (binding_provenance b (set_bindings (civ_Bindings r ++ [bindingReport b]) r)).

Definition version_mismatch (t : Target) (manifest : AdapterManifest) : bool :=
  (tgt_AdapterVersion t !=s "") && (am_AdapterVersion manifest !=s "") &&
  (tgt_AdapterVersion t !=s am_AdapterVersion manifest).

Definition validateResolvedTarget (c : Catalog) (manifests : Manifests) (s : Store) (resolved : ResolvedTarget)
    (r : CIValidationResult) : CIValidationResult :=
  let target := rtg_Target resolved in
  let t := tgi_Target target in
  match manifests !! tgt_Adapter t with
  | None =>
      add_findings [target_finding target "adapter_manifest_missing"
        "target %q references adapter %q without adapter manifest" [AStr (tgt_ID t); AStr (tgt_Adapter t)]] r
  | Some manifest =>
      let r := add_findings (when (version_mismatch t manifest)
        (target_finding target "adapter_manifest_version_mismatch"
           "target %q expects adapter %q version %q but manifest declares %q"
           [AStr (tgt_ID t); AStr (tgt_Adapter t); AStr (tgt_AdapterVersion t); AStr (am_AdapterVersion manifest)])) r in
      let r := add_findings (tgt_Capabilities t ≫= target_capability_findings c manifest target) r in
      let r := add_findings (tgt_ValidationProfiles t ≫= target_profile_findings c target) r in
      let r := foldl (resolve_binding c manifest s t) r (rtg_Bindings resolved) in
      set_bindings (sort_by report_leb (civ_Bindings r)) r
  end.

(** ** Policy meanings *)

Definition meaning_findings (c : Catalog) (s : Store) (targetID : string) (m : PolicyMeaning) : list Finding :=
  let found code format id := finding code (message format [AStr (plm_PolicyPath m); AStr id]) targetID ""
                                (sto_PolicySourcesPath s) in
  (id ← plm_CanonicalActions m;
   when (negb (bool_decide (is_Some (get_CanonicalAction s id))))
     (found "missing_canonical_action_mapping" "policy meaning for %q references unknown canonical action %q" id)) ++
  (actionType ← plm_ActionTypes m;
   when (negb (has_entry c "action_type" actionType))
     (found "unknown_action_type" "policy meaning for %q references unknown action type %q" actionType)).

Definition unmapped_findings (meanings : list PolicyMeaning) (targetID : string) (b : ResolvedBinding) : list Finding :=
  let action := rbd_Action b in
  if negb (isSensitive (bac_Sensitivity action)) then [] else
  if blank (bac_CanonicalAction action) || blank (bac_Type action) then [] else
  when (negb (policyMeaningMatchesAction meanings action))
    (finding "unmapped_sensitive_action"
       (message "sensitive action %q has no resolved policy meaning for canonical action %q or action type %q"
          [AStr (bac_ID action); AStr (bac_CanonicalAction action); AStr (bac_Type action)])
       targetID (abd_ID (rbd_Binding b)) (abf_Path (rbd_File b))).

Definition validatePolicyBindingMatches (c : Catalog) (s : Store) (resolved : ResolvedTarget)
    : CIValidationResult → CIValidationResult :=
  let meanings := policyMeaningsForSources (rtg_PolicySources resolved) in
  let targetID := tgt_ID (tgi_Target (rtg_Target resolved)) in
  add_findings ((meanings ≫= meaning_findings c s targetID) ++
                (rtg_Bindings resolved ≫= unmapped_findings meanings targetID)).

(** ** The adapter at its endpoint *)

Definition verify_options (o : AdapterVerifyOptions) (adapter : string) (manifest : AdapterManifest) : VerifyOptions := {|
  vfo_AdapterID := adapter; vfo_Endpoint := avo_Endpoint o; vfo_Manifest := manifest;
  vfo_DevInsecureTransport := avo_DevInsecureTransport o; vfo_CAPath := avo_CAPath o;
  vfo_ClientCertPath := avo_ClientCertPath o; vfo_ClientKeyPath := avo_ClientKeyPath o;
  vfo_TLSServerName := avo_TLSServerName o; vfo_ServerCertificateSHA256 := avo_ServerCertificateSHA256 o;
  vfo_Timeout := avo_Timeout o |}.

Definition verifyAdapterRuntime {AR : AdapterRuntime} {MD : ManifestDecoder} (o : AdapterVerifyOptions)
    (manifests : Manifests) (resolved : ResolvedTarget) (r : CIValidationResult) : CIValidationResult :=
  let target := tgi_Target (rtg_Target resolved) in
  let failure msg path := finding "adapter_runtime_verify_failed" msg (tgt_ID target) "" path in
  if blank (avo_Endpoint o) then r else
  match manifests !! tgt_Adapter target with
  | None =>
      add_findings [failure (message "target %q references adapter %q without adapter manifest"
                               [AStr (tgt_ID target); AStr (tgt_Adapter target)]) (tgi_Path (rtg_Target resolved))] r
  | Some manifest =>
      match (if blank (avo_Manifest o) then Ok manifest else LoadAdapterManifestFile (avo_Manifest o)) with
      | Err e => add_findings [failure (error_text e) (avo_Manifest o)] r
      | Ok manifest =>
          let verify := Verify (verify_options o (tgt_Adapter target) manifest) in
          let r := set_runtime verify r in
          let r := if empty_str (vfr_ManifestDigest verify) then r
                   else provenance ("adapter_runtime:" +:+ tgt_Adapter target) (vfr_ManifestDigest verify) r in
          if vfr_Status verify ==s "passed" then r else
          let msg := match vfr_Findings verify with
                     | (_, msg) :: _ => msg
                     | [] => "adapter runtime verify failed"
                     end in
          add_findings [failure msg (am_Path manifest)] r
      end
  end.

(** ** The configuration, as a snapshot of its repository *)

Record klshieldRuntimeActionConfig := {
  kra_Capability : string;
  kra_Selector : object;
  kra_Controls : list string;
  kra_ExpectedEvents : list string;
}.

(** [yaml.Unmarshal] of a document: the actions at the top, and those under [spec]. *)
Class SnapshotDecoder := {
  decode_RuntimeActions : string →
    result (list klshieldRuntimeActionConfig * list klshieldRuntimeActionConfig);
}.
Context {SD : SnapshotDecoder}.

Definition snapshot_entry (actions : list klshieldRuntimeActionConfig) (e : WalkEntry)
    : walk_answer (list klshieldRuntimeActionConfig) :=
  match we_Err e with
  | Some err => Stop err
  | None =>
      if we_IsDir e then Continue actions else
      let ext := ToLower (Ext (Base (we_Path e))) in
      if (ext !=s ".yaml") && (ext !=s ".yml") then Continue actions else
      match os_ReadFile (we_Path e) with
      | Err err => Stop err
      | Ok data =>
          match wrap_err "%s: %w" [AStr (we_Path e)] (decode_RuntimeActions data) with
          | Err err => Stop err
          | Ok (top, spec) => Continue (actions ++ top ++ spec)
          end
      end
  end.

Definition loadKLShieldRuntimeActionConfigs (baseRoot : string) : result (list klshieldRuntimeActionConfig) :=
  walk snapshot_entry [] None (os_WalkDir baseRoot).

Definition is_config_of (binding : ActionBinding) (action : klshieldRuntimeActionConfig) : bool :=
  (trim_space (kra_Capability action) ==s trim_space (abd_Capability binding)) &&
  selectorContains (kra_Selector action) (abd_Selector binding).

Definition findKLShieldRuntimeActionConfig (actions : list klshieldRuntimeActionConfig) (binding : ActionBinding)
    : option klshieldRuntimeActionConfig := List.find (is_config_of binding) actions.

Definition config_findings (actions : list klshieldRuntimeActionConfig) (targetID baseRoot : string)
    (b : ResolvedBinding) : list Finding :=
  let binding := rbd_Binding b in
  let found code format args := finding code (message format (AStr (abd_ID binding) :: args)) targetID
                                  (abd_ID binding) baseRoot in
  if negb (isSensitive (bac_Sensitivity (rbd_Action b))) then [] else
  match findKLShieldRuntimeActionConfig actions binding with
  | None => [found "binding_selector_not_enforced"
      "KLShield config snapshot has no runtime action control matching binding %q capability %q and selector %q"
      [AStr (abd_Capability binding); AStr (selectorType (abd_Selector binding))]]
  | Some action =>
      (controlID ← abd_Controls binding;
       when (negb (containsString (kra_Controls action) controlID))
         (found "required_control_missing" "KLShield config action for binding %q is missing control %q"
            [AStr controlID])) ++
      (eventID ← abd_ExpectedEvents binding;
       when (negb (containsString (kra_ExpectedEvents action) eventID))
         (found "required_control_missing" "KLShield config action for binding %q is missing proof event %q"
            [AStr eventID]))
  end.

Definition klshield_findings (baseRoot : string) (resolved : ResolvedTarget) : list Finding :=
  let targetID := tgt_ID (tgi_Target (rtg_Target resolved)) in
  match loadKLShieldRuntimeActionConfigs baseRoot with
  | Err e => [finding "config_snapshot_unavailable" (error_text e) targetID "" baseRoot]
  | Ok actions => rtg_Bindings resolved ≫= config_findings actions targetID baseRoot
  end.

(** The root of the target's configuration in a snapshot. *)
Definition base_root (snapshotRoot : string) (t : Target) : string :=
  Join [snapshotRoot; cleanRel (tsr_BasePath (tgt_ValidationSource t))].

Definition target_config_findings (snapshotRoot : string) (resolved : ResolvedTarget) : list Finding :=
  let t := tgi_Target (rtg_Target resolved) in
  let baseRoot := base_root snapshotRoot t in
  match os_Stat baseRoot with
  | Err _ =>
      [finding "config_snapshot_unavailable"
         (message "target config base path %q is not available in config snapshot"
            [AStr (tsr_BasePath (tgt_ValidationSource t))]) (tgt_ID t) "" baseRoot]
  | Ok _ => if tgt_Adapter t ==s "kernloom.adapter.klshield" then klshield_findings baseRoot resolved else []
  end.

Definition changed_path_findings (snapshot : string) (t : Target) (changedPath : string) : list Finding :=
  let cleaned := cleanRel changedPath in
  let base := cleanRel (tsr_BasePath (tgt_ValidationSource t)) in
  if empty_str cleaned then [] else
  if negb (has_prefix (base +:+ "/") cleaned) && (cleaned !=s base) then [] else
  let snapshotPath := Join [snapshot; cleaned] in
  when (negb (is_Ok (os_Stat snapshotPath)))
    (finding "config_snapshot_unavailable"
       (message "changed path %q is not available in config snapshot" [AStr cleaned]) (tgt_ID t) "" snapshotPath).

Definition snapshot_findings (q : CIRequestReport) (resolved : ResolvedTarget) : list Finding :=
  let t := tgi_Target (rtg_Target resolved) in
  let changed := crp_ChangedPaths q in
  let snapshot := crp_ConfigSnapshot q in
  if Nat.eqb (length changed) 0 && empty_str snapshot then [] else
  if empty_str snapshot then
    [finding "config_snapshot_unavailable" "changed paths were provided but --config-snapshot is missing"
       (tgt_ID t) "" ""]
  else (changed ≫= changed_path_findings snapshot t) ++ target_config_findings snapshot resolved.

Definition validateConfigSnapshot (q : CIRequestReport) (resolved : ResolvedTarget)
    : CIValidationResult → CIValidationResult := add_findings (snapshot_findings q resolved).
End stages.

(** ** Compiling what is in scope, and the whole *)

Class TempDir (F : Type) := { MkdirTemp : string → io F string }.

Section validate.
Context {GR : GoRuntime} {F : Type} {ST : ArtifactStore F} {CW : CompilerWorld F} {TD : TempDir F}.
Context {EC : CompilerEncoders} {UL : UnicodeLower} {CE : CEL} {FS : Files} {EN : Environment}.
Context {MD : ManifestDecoder} {FT : FloatText} {DD : DocumentDecoders} {RD : RegistryDecoders}.
Context {BD : BindingDecoders} {SD : SnapshotDecoder} {AR : AdapterRuntime}.
Context (NewCELValidator : result unit).

Definition compile_options (opts : CIOptions) (outputDir policyFile : string) : Options F := {|
  op_PolicyRepo := cio_PolicyRepo opts; op_PolicyFile := policyFile; op_CoreRegistry := cio_CoreRegistry opts;
  op_EnterpriseRegistry := cio_EnterpriseRegistry opts; op_OutputDir := outputDir;
  op_SigningMode := SigningModeNone; op_SigningKeyPath := ""; op_SigningKeyID := ""; op_CorrelationID := "";
  op_BuildCreatedBy := ""; op_SignatureTTL := 0; op_Signer := None; op_Now := None |}.

(** The loop over the files: the policies compiled so far, and their files.  A panic of the
    compiler is not a result of it. *)
Fixpoint compile_files (opts : CIOptions) (outputDir targetID : string) (files : list PolicyFileRef)
    (policyIDs compiledFiles : list string) (r : CIValidationResult) : io F CIValidationResult :=
  match files with
  | [] =>
      mret (set_compile {| cpr_Status := "passed"; cpr_Policies := Z.of_nat (length policyIDs);
                           cpr_OutputDir := outputDir; cpr_PolicyIDs := sort_by str_leb policyIDs;
                           cpr_Files := sort_by str_leb compiledFiles |} r)
  | file :: files =>
      let r := provenance ("policy_file:" +:+ pfr_RelPath file) (pfr_Digest file) r in
      results ← returned (Compile NewCELValidator (compile_options opts outputDir (pfr_Path file)));
      match results with
      | Err e =>
          mret (add_findings [finding "policy_meaning_compile_failed" (error_text e) targetID "" (pfr_Path file)]
                  (set_compile {| cpr_Status := "failed"; cpr_Policies := 0; cpr_OutputDir := outputDir;
                                  cpr_PolicyIDs := []; cpr_Files := compiledFiles |} r))
      | Ok results =>
          compile_files opts outputDir targetID files (policyIDs ++ (res_PolicyID <$> results))
            (compiledFiles ++ [pfr_RelPath file]) r
      end
  end.

Definition compilePolicyMeaning (opts : CIOptions) (resolved : ResolvedTarget) (r : CIValidationResult)
    : io F CIValidationResult :=
  let targetID := tgt_ID (tgi_Target (rtg_Target resolved)) in
  dir ← attempt (if empty_str (cio_OutputDir opts) then MkdirTemp "kernloom-ci-validate-*"
                 else mret (cio_OutputDir opts));
  match dir with
  | Err e => mret (add_findings [finding "policy_source_unavailable" (error_text e) "" "" ""] r)
  | Ok outputDir =>
      match PolicyFiles (rtg_PolicySources resolved) with
      | [] =>
          mret (add_findings [finding "policy_source_unavailable" "resolved target has no scoped policy files"
                                targetID "" ""]
                  (set_compile {| cpr_Status := "failed"; cpr_Policies := 0; cpr_OutputDir := outputDir;
                                  cpr_PolicyIDs := []; cpr_Files := [] |} r))
      | files => compile_files opts outputDir targetID files [] [] r
      end
  end.

Definition applyDefaults (opts : CIOptions) : CIOptions := {|
  cio_PolicyRepo := valueOrDefault (cio_PolicyRepo opts) "../enterprise-kernloom-policies";
  cio_CoreRegistry := valueOrDefault (cio_CoreRegistry opts) "../kernloom-core-registry";
  cio_EnterpriseRegistry := valueOrDefault (cio_EnterpriseRegistry opts) "../enterprise-kernloom-registry";
  cio_Request := cio_Request opts; cio_OutputDir := cio_OutputDir opts;
  cio_AdapterVerify := cio_AdapterVerify opts |}.

Definition ci_request (q : CIRequestReport) : CIRequest := {|
  cir_Tenant := crp_Tenant q; cir_Environment := crp_Environment q; cir_Provider := crp_Provider q;
  cir_Repository := crp_Repository q; cir_BasePath := crp_BasePath q; cir_TargetID := crp_TargetID q;
  cir_ChangedPaths := crp_ChangedPaths q |}.

Definition request_findings (q : CIRequestReport) : list Finding :=
  let required what := finding "validation_request_invalid" what "" "" "" in
  when (empty_str (crp_Tenant q)) (required "tenant is required") ++
  when (empty_str (crp_Environment q)) (required "environment is required") ++
  when (empty_str (crp_Repository q)) (required "repo is required").

Definition started (q : CIRequestReport) : CIValidationResult := {|
  civ_Status := "passed"; civ_Request := q; civ_Target := None; civ_AdapterRuntime := None;
  civ_PolicySources := []; civ_Bindings := []; civ_Compile := None; civ_Provenance := ∅;
  civ_Findings := request_findings q |}.

(** The result once the target is known. *)
Definition reported (s : Store) (resolved : ResolvedTarget) (r : CIValidationResult) : CIValidationResult := {|
  civ_Status := civ_Status r; civ_Request := civ_Request r;
  civ_Target := Some (targetReport (rtg_Target resolved)); civ_AdapterRuntime := civ_AdapterRuntime r;
  civ_PolicySources := sourceReports (rtg_PolicySources resolved); civ_Bindings := civ_Bindings r;
  civ_Compile := civ_Compile r;
  civ_Provenance := list_to_map
    [("repository_bindings", sto_RepositoryBindingsDigest s); ("canonical_actions", sto_CanonicalActionsDigest s);
     ("policy_sources", sto_PolicySourcesDigest s); ("target_inventory", tgi_Digest (rtg_Target resolved))];
  civ_Findings := civ_Findings r |}.

(** What is read before anything is checked; an error comes with the code of its finding. *)
Record Inputs := {
  inp_catalog : Catalog;
  inp_manifests : Manifests;
  inp_store : Store;
  inp_resolved : ResolvedTarget;
}.

Definition or_code {A} (code : error → string) (m : result A) : string * error + A :=
  match m with Ok a => inr a | Err e => inl (code e, e) end.

Definition read_inputs (opts : CIOptions) : string * error + Inputs :=
  match or_code (λ _, "registry_invalid")
          (Registry.Load (cio_CoreRegistry opts) (cio_EnterpriseRegistry opts)) with
  | inl e => inl e
  | inr c =>
  match or_code (λ _, "adapter_manifest_invalid")
          (manifests ← LoadAdapterManifests (cio_PolicyRepo opts) (cio_CoreRegistry opts) (cio_EnterpriseRegistry opts);
           _ ← ValidateAdapterManifests c manifests;
           Ok manifests) with
  | inl e => inl e
  | inr manifests =>
  match or_code (λ e, bindingErrorCode e "policy_source_unavailable")
          (Bindings.Load (cio_PolicyRepo opts) (cio_EnterpriseRegistry opts)) with
  | inl e => inl e
  | inr s =>
  match or_code (λ e, bindingErrorCode e "validation_target_not_found")
          (ResolveCIRequest s (ci_request (cio_Request opts))) with
  | inl e => inl e
  | inr resolved =>
      inr {| inp_catalog := c; inp_manifests := manifests; inp_store := s; inp_resolved := resolved |}
  end end end end.

(** The checks of one request, before the compilation. *)
Definition check_inputs (opts : CIOptions) (i : Inputs) (r : CIValidationResult) : CIValidationResult :=
  let '(Build_Inputs c manifests s resolved) := i in
  let r := reported s resolved r in
  let r := validateCanonicalActions c s r in
  let r := validateResolvedTarget c manifests s resolved r in
  let r := validatePolicyBindingMatches c s resolved r in
  let r := verifyAdapterRuntime (cio_AdapterVerify opts) manifests resolved r in
  validateConfigSnapshot (cio_Request opts) resolved r.

Definition ValidateCI (opts : CIOptions) : io F CIValidationResult :=
  let opts := applyDefaults opts in
  let result := started (cio_Request opts) in
  if failed result then mret (finalize result) else
  match read_inputs opts with
  | inl (code, e) => mret (finalize (add_findings [finding code (error_text e) "" "" ""] result))
  | inr i =>
      result ← compilePolicyMeaning opts (inp_resolved i) (check_inputs opts i result);
      mret (finalize result)
  end.
End validate.

(** ** When nothing is found *)

Lemma when_nil c f : when c f = [] ↔ c = false.
Proof. by destruct c. Qed.

Lemma bind_nil {A B} (l : list A) (f : A → list B) : l ≫= f = [] ↔ ∀ x, x ∈ l → f x = [].
Proof.
  induction l as [|x l IH]; simpl; [set_solver|].
  rewrite app_nil, IH. setoid_rewrite elem_of_cons. naive_solver.
Qed.

Lemma known_spec (b : bool) : negb b = false ↔ b = true.
Proof. by destruct b. Qed.

Lemma add_nil fs r : civ_Findings (add_findings fs r) = [] ↔ civ_Findings r = [] ∧ fs = [].
Proof. apply app_nil. Qed.

(** Every finding of a list is an error. *)
Definition errors (fs : list Finding) : Prop := ∀ f, f ∈ fs → fnd_Severity f = "error".

Lemma errors_nil : errors [].
Proof. unfold errors. set_solver. Qed.
Lemma errors_finding code msg t b p fs : errors fs → errors (finding code msg t b p :: fs).
Proof. unfold errors. intros H f [->|?]%elem_of_cons; [done|by apply H]. Qed.
Lemma errors_app fs gs : errors fs → errors gs → errors (fs ++ gs).
Proof. unfold errors. set_solver. Qed.
Lemma errors_when c code msg t b p : errors (when c (finding code msg t b p)).
Proof. destruct c; [apply errors_finding|]; apply errors_nil. Qed.
Lemma errors_bind {A} (l : list A) (f : A → list Finding) : (∀ x, errors (f x)) → errors (l ≫= f).
Proof. unfold errors. intros H y (x & Hx & _)%list_elem_of_bind. by apply (H x). Qed.

(** Walk through what a check finds. *)
Ltac errors :=
  cbv beta zeta;
  repeat first
    [ progress intros
    | apply errors_app | apply errors_when | apply errors_bind | apply errors_finding | apply errors_nil
    | case_match ].

Lemma failed_errors r : errors (civ_Findings r) → failed r = negb (bool_decide (civ_Findings r = [])).
Proof.
  unfold failed, errors. destruct (civ_Findings r) as [|f fs]; [done|]. intros H. simpl.
  rewrite (H f); [done|]. apply list_elem_of_here.
Qed.

Lemma finalize_status r : errors (civ_Findings r) →
  errors (civ_Findings (finalize r)) ∧ (civ_Status (finalize r) = "passed" ↔ civ_Findings (finalize r) = []) ∧
  (civ_Status (finalize r) = "passed" ↔ civ_Findings r = []) ∧
  (civ_Status (finalize r) = "passed" ∨ civ_Status (finalize r) = "failed").
Proof.
  intros H. unfold finalize. simpl. rewrite (failed_errors r H). split_and!.
  - intros f Hf. apply H. by rewrite sort_by_elem in Hf.
  - case_bool_decide as E; simpl; [by rewrite E|]. split; [done|]. intros Hn. destruct E.
    pose proof (sort_by_perm finding_leb (civ_Findings r)) as Hp. rewrite Hn in Hp. by apply Permutation_nil_l in Hp.
  - by case_bool_decide.
  - case_bool_decide; auto.
Qed.

Section passed.
Context {GR : GoRuntime} {UL : UnicodeLower} {FT : FloatText} {FS : Files} {SD : SnapshotDecoder}.

Definition entry_usable (c : Catalog) (catalogName id : string) : Prop :=
  ∃ entry, get_CatalogEntry c catalogName id = Some entry ∧ cte_Status entry ≠ "planned".

Section binding.
Context (c : Catalog) (manifest : AdapterManifest) (s : Store) (t : Target) (b : ResolvedBinding).
Let action : BusinessAction := rbd_Action b.
Let binding : ActionBinding := rbd_Binding b.

(** What a binding must have. *)
Record binding_ready : Prop := {
  br_type : has_entry c "action_type" (bac_Type action) = true;
  br_capability : blank (abd_Capability binding) = false ∧ map_has (cat_Capabilities c) (abd_Capability binding) = true ∧
    containsString (tgt_Capabilities t) (abd_Capability binding) = true ∧
    manifestHasCapability manifest (abd_Capability binding) = true;
  br_selector : entry_usable c "selector_schema" (selectorType (abd_Selector binding));
  br_events : ∀ event, event ∈ abd_ExpectedEvents binding → has_entry c "event" event = true;
  br_canonical : blank (bac_CanonicalAction action) = false → ∃ ca,
    get_CanonicalAction s (bac_CanonicalAction action) = Some ca ∧
    (blank (bac_Type action) = false → cac_Type ca = trim_space (bac_Type action)) ∧
    (∀ control, control ∈ cac_RequiredControls ca → containsString (abd_Controls binding) control = true) ∧
    (∀ event, event ∈ cac_RequiredEvents ca → containsString (abd_ExpectedEvents binding) event = true);
  br_sensitive : isSensitive (bac_Sensitivity action) = true →
    blank (bac_CanonicalAction action) = false ∧ abd_ExpectedEvents binding ≠ [] ∧
    approvalStatus [bac_Approval action; abd_Approval binding] = "approved";
}.

Lemma validateBinding_errors : errors (validateBinding c manifest s t b).
Proof.
  unfold validateBinding, mapping_findings, capability_findings, selector_findings, proof_findings, required_findings,
    at_binding. errors.
Qed.

Lemma mapping_nil : mapping_findings s t b = [] ↔
  (isSensitive (bac_Sensitivity action) = true → blank (bac_CanonicalAction action) = false) ∧
  (blank (bac_CanonicalAction action) = false → ∃ ca, mapped_action s b = Some ca ∧
     (blank (bac_Type action) = false → cac_Type ca = trim_space (bac_Type action))).
Proof.
  unfold mapping_findings, action. destruct (blank _) eqn:Hb.
  - rewrite when_nil. destruct (isSensitive _); naive_solver.
  - destruct (mapped_action s b) as [ca|]; [|naive_solver].
    rewrite when_nil, andb_false_iff, !negb_false_iff, String.eqb_eq.
    destruct (blank (bac_Type (rbd_Action b))); naive_solver.
Qed.

Lemma selector_nil : selector_findings c t b = [] → entry_usable c "selector_schema" (selectorType (abd_Selector binding)).
Proof.
  unfold entry_usable, selector_findings, binding. destruct (empty_str _); [done|].
  destruct (get_CatalogEntry _ _ _) as [entry|]; [|done].
  destruct (String.eqb_spec (cte_Status entry) "planned"); [done|]. eauto.
Qed.

Lemma validateBinding_nil : validateBinding c manifest s t b = [] → binding_ready.
Proof.
  unfold validateBinding. cbv zeta. rewrite !app_nil, !when_nil, known_spec.
  intros (Hmap & Htype & Hcap & Hsel & Himpl & Hproof & Hreq & Happr). apply mapping_nil in Hmap as [Hs Hca].
  split; [done| |by apply selector_nil| | |].
  - unfold capability_findings in Hcap. subst binding. destruct (blank (abd_Capability _)); [done|]. simpl in Himpl.
    destruct (map_has _ _); [|done]. simpl in Hcap. rewrite when_nil, known_spec in Hcap.
    rewrite known_spec in Himpl. auto.
  - unfold proof_findings in Hproof. apply app_nil in Hproof as [H _]. intros event Hin.
    rewrite bind_nil in H. specialize (H event Hin). by rewrite when_nil, known_spec in H.
  - intros Hb. destruct (Hca Hb) as (ca & Hm & Ht). exists ca. unfold required_findings in Hreq. rewrite Hm in Hreq.
    apply app_nil in Hreq as [Hc He]. rewrite bind_nil in Hc, He.
    unfold mapped_action in Hm. subst action. rewrite Hb in Hm. split_and!; [done|done| |].
    + intros x Hx. specialize (Hc x Hx). by rewrite when_nil, known_spec in Hc.
    + intros x Hx. specialize (He x Hx). by rewrite when_nil, known_spec in He.
  - intros Hsens. unfold proof_findings in Hproof. apply app_nil in Hproof as [_ Hp].
    subst action binding. rewrite Hsens in *. split; [by apply Hs|]. rewrite when_nil in Hp. simpl in Hp, Happr.
    split; [by destruct (abd_ExpectedEvents _)|]. by apply negb_false_iff, String.eqb_eq in Happr.
Qed.
End binding.

(** A stage adds errors only, and where it adds none, [P] holds. *)
Definition reports (stage : CIValidationResult → CIValidationResult) (P : Prop) : Prop := ∀ r,
  (errors (civ_Findings r) → errors (civ_Findings (stage r))) ∧
  (civ_Findings (stage r) = [] → civ_Findings r = [] ∧ P).

Lemma reports_findings fs (P : Prop) : errors fs → (fs = [] → P) → reports (add_findings fs) P.
Proof.
  intros He HP r. split; [intros; by apply errors_app|]. rewrite add_nil. naive_solver.
Qed.

Lemma reports_then f g (P Q : Prop) : reports f P → reports g Q → reports (λ r, g (f r)) (P ∧ Q).
Proof. intros Hf Hg r. destruct (Hf r), (Hg (f r)). naive_solver. Qed.

Lemma reports_weaken f (P Q : Prop) : (P → Q) → reports f P → reports f Q.
Proof. intros HPQ Hf r. destruct (Hf r). naive_solver. Qed.

Lemma reports_fold {A} (f : CIValidationResult → A → CIValidationResult) (P : A → Prop) l :
  (∀ x, reports (λ r, f r x) (P x)) → reports (λ r, foldl f r l) (∀ x, x ∈ l → P x).
Proof.
  intros H. induction l as [|x l IH]; intros r; simpl; [set_solver|].
  destruct (H x r), (IH (f r x)). split; [auto|]. setoid_rewrite elem_of_cons. naive_solver.
Qed.

(** What the actions of the catalog of canonical actions refer to is known. *)
Definition canonical_actions_known (c : Catalog) (s : Store) : Prop := ∀ ca, ca ∈ sto_CanonicalActions s →
  has_entry c "action_type" (cac_Type ca) = true ∧
  ∀ event, event ∈ cac_RequiredEvents ca → has_entry c "event" event = true.

Lemma validateCanonicalActions_reports c s : reports (validateCanonicalActions c s) (canonical_actions_known c s).
Proof.
  apply reports_findings; [unfold canonical_findings; errors|]. rewrite bind_nil. intros H ca Hin.
  specialize (H ca Hin). unfold canonical_findings in H. cbv zeta in H.
  rewrite app_nil, when_nil, known_spec, bind_nil in H. destruct H as [? He]. split; [done|].
  intros event Hev. specialize (He event Hev). by rewrite when_nil, known_spec in He.
Qed.

Definition capability_served (c : Catalog) (manifest : AdapterManifest) (id : string) : Prop :=
  manifestHasCapability manifest id = true ∧
  ∃ capability, get_Capability c id = Some capability ∧ cap_Status capability ≠ "planned".

(** The target is one the adapter can serve, with bindings that are ready. *)
Record target_ready (c : Catalog) (manifest : AdapterManifest) (s : Store) (resolved : ResolvedTarget) : Prop := {
  td_version : version_mismatch (tgi_Target (rtg_Target resolved)) manifest = false;
  td_capabilities : ∀ id, id ∈ tgt_Capabilities (tgi_Target (rtg_Target resolved)) →
    capability_served c manifest id;
  td_profiles : ∀ id, id ∈ tgt_ValidationProfiles (tgi_Target (rtg_Target resolved)) →
    entry_usable c "validation_profile" id;
  td_bindings : ∀ b, b ∈ rtg_Bindings resolved →
    binding_ready c manifest s (tgi_Target (rtg_Target resolved)) b;
}.

Lemma resolve_binding_reports c manifest s t b :
  reports (λ r, resolve_binding c manifest s t r b) (binding_ready c manifest s t b).
Proof.
  intros r. unfold resolve_binding.
  assert (E : civ_Findings (binding_provenance b (set_bindings (civ_Bindings r ++ [bindingReport b]) r)) = civ_Findings r)
    by (unfold binding_provenance; by repeat case_match).
  destruct (reports_findings _ (binding_ready c manifest s t b) (validateBinding_errors c manifest s t b)
    (validateBinding_nil c manifest s t b) (binding_provenance b (set_bindings (civ_Bindings r ++ [bindingReport b]) r)))
    as [H1 H2]. by rewrite E in *.
Qed.

Lemma target_capability_nil c manifest target id : target_capability_findings c manifest target id = [] →
  capability_served c manifest id.
Proof.
  unfold capability_served, target_capability_findings. cbv zeta. destruct (get_Capability c id) as [capability|]; [|done].
  rewrite app_nil, !when_nil, known_spec, String.eqb_neq. naive_solver.
Qed.

Lemma target_profile_nil c target id : target_profile_findings c target id = [] →
  entry_usable c "validation_profile" id.
Proof.
  unfold entry_usable, target_profile_findings. cbv zeta. destruct (get_CatalogEntry _ _ id) as [entry|]; [|done].
  rewrite when_nil, String.eqb_neq. eauto.
Qed.

Lemma validateResolvedTarget_reports c manifests s resolved :
  reports (validateResolvedTarget c manifests s resolved)
    (∃ manifest, manifests !! tgt_Adapter (tgi_Target (rtg_Target resolved)) = Some manifest ∧
       target_ready c manifest s resolved).
Proof.
  unfold validateResolvedTarget. cbv zeta. destruct (manifests !! _) as [manifest|]; [|apply reports_findings; [unfold target_finding; errors|done]].
  set (t := tgi_Target (rtg_Target resolved)). set (target := rtg_Target resolved).
  refine (reports_weaken _ _ _ _ (reports_then _ (λ r, set_bindings (sort_by report_leb (civ_Bindings r)) r) _ True
    (reports_then _ _ _ _ (reports_then _ _ _ _ (reports_then _ _ _ _
      (reports_findings _ (version_mismatch t manifest = false) _ _)
      (reports_findings _ (∀ id, id ∈ tgt_Capabilities t → capability_served c manifest id) _ _))
      (reports_findings _ (∀ id, id ∈ tgt_ValidationProfiles t → entry_usable c "validation_profile" id) _ _))
      (reports_fold _ _ _ (resolve_binding_reports c manifest s t))) _)).
  - intros ((((H1 & H2) & H3) & H4) & _). exists manifest. split; [done|]. by split.
  - unfold target_finding. errors.
  - by rewrite when_nil.
  - unfold target_capability_findings, target_finding. errors.
  - rewrite bind_nil. intros H id Hin. by apply (target_capability_nil _ _ target), H.
  - unfold target_profile_findings, target_finding. errors.
  - rewrite bind_nil. intros H id Hin. by apply (target_profile_nil _ target), H.
  - done.
Qed.

(** The policies mean actions that are known, and every sensitive action is meant by one. *)
Record meanings_ready (c : Catalog) (s : Store) (resolved : ResolvedTarget) : Prop := {
  mr_known : ∀ m, m ∈ policyMeaningsForSources (rtg_PolicySources resolved) →
    (∀ id, id ∈ plm_CanonicalActions m → is_Some (get_CanonicalAction s id)) ∧
    (∀ actionType, actionType ∈ plm_ActionTypes m → has_entry c "action_type" actionType = true);
  mr_meant : ∀ b, b ∈ rtg_Bindings resolved → isSensitive (bac_Sensitivity (rbd_Action b)) = true →
    blank (bac_CanonicalAction (rbd_Action b)) = false → blank (bac_Type (rbd_Action b)) = false →
    policyMeaningMatchesAction (policyMeaningsForSources (rtg_PolicySources resolved)) (rbd_Action b) = true;
}.

Lemma validatePolicyBindingMatches_reports c s resolved :
  reports (validatePolicyBindingMatches c s resolved) (meanings_ready c s resolved).
Proof.
  apply reports_findings; [unfold meaning_findings, unmapped_findings; errors|].
  rewrite app_nil, !bind_nil. intros [Hm Hb]. split.
  - intros m Hin. specialize (Hm m Hin). unfold meaning_findings in Hm. cbv zeta in Hm.
    rewrite app_nil, !bind_nil in Hm. destruct Hm as [H1 H2]. split.
    + intros id Hid. specialize (H1 id Hid). rewrite when_nil, known_spec in H1. by apply bool_decide_eq_true in H1.
    + intros ty Hty. specialize (H2 ty Hty). by rewrite when_nil, known_spec in H2.
  - intros b Hin Hs Hc Ht. specialize (Hb b Hin). unfold unmapped_findings in Hb. cbv zeta in Hb.
    rewrite Hs, Hc, Ht in Hb. simpl in Hb. by rewrite when_nil, known_spec in Hb.
Qed.

(** The adapter was asked at its endpoint, and it runs what a manifest says. *)
Definition runtime_verified {AR : AdapterRuntime} {MD : ManifestDecoder} (o : AdapterVerifyOptions)
    (manifests : Manifests) (t : Target) : Prop :=
  blank (avo_Endpoint o) = true ∨ ∃ manifest,
    (if blank (avo_Manifest o) then manifests !! tgt_Adapter t = Some manifest
     else LoadAdapterManifestFile (avo_Manifest o) = Ok manifest) ∧
    vfr_Status (Verify (verify_options o (tgt_Adapter t) manifest)) = "passed".

Lemma verifyAdapterRuntime_reports {AR : AdapterRuntime} {MD : ManifestDecoder} o manifests resolved :
  reports (verifyAdapterRuntime o manifests resolved)
    (runtime_verified o manifests (tgi_Target (rtg_Target resolved))).
Proof.
  unfold verifyAdapterRuntime, runtime_verified. cbv zeta. set (t := tgi_Target (rtg_Target resolved)).
  destruct (blank (avo_Endpoint o)); [intros r; auto|].
  destruct (manifests !! tgt_Adapter t) as [m|] eqn:Hm; [|apply reports_findings; [errors|done]].
  destruct (if blank (avo_Manifest o) then Ok m else _) as [manifest|e] eqn:Hl; [|apply reports_findings; [errors|done]].
  set (v := Verify _). assert (Hman : if blank (avo_Manifest o) then Some m = Some manifest
    else LoadAdapterManifestFile (avo_Manifest o) = Ok manifest) by (destruct (blank _); congruence).
  assert (Hset : reports (λ r, if empty_str (vfr_ManifestDigest v) then set_runtime v r
    else provenance ("adapter_runtime:" +:+ tgt_Adapter t) (vfr_ManifestDigest v) (set_runtime v r)) True)
    by (intros r; by destruct (empty_str _)).
  destruct (String.eqb_spec (vfr_Status v) "passed") as [Hv|Hv].
  - refine (reports_weaken _ _ _ _ Hset). intros _. right. eauto.
  - refine (reports_weaken _ _ _ _ (reports_then _ _ _ _ Hset (reports_findings _ False _ _))).
    + by intros [].
    + errors.
    + done.
Qed.

(** Every sensitive binding is configured as it is bound. *)
Definition configured (baseRoot : string) (resolved : ResolvedTarget) : Prop :=
  ∃ actions, loadKLShieldRuntimeActionConfigs baseRoot = Ok actions ∧
    ∀ b, b ∈ rtg_Bindings resolved → isSensitive (bac_Sensitivity (rbd_Action b)) = true →
      ∃ action, action ∈ actions ∧ is_config_of (rbd_Binding b) action = true ∧
        (∀ control, control ∈ abd_Controls (rbd_Binding b) → containsString (kra_Controls action) control = true) ∧
        (∀ event, event ∈ abd_ExpectedEvents (rbd_Binding b) → containsString (kra_ExpectedEvents action) event = true).

Lemma klshield_nil baseRoot resolved : klshield_findings baseRoot resolved = [] → configured baseRoot resolved.
Proof.
  unfold klshield_findings, configured. cbv zeta. destruct (loadKLShieldRuntimeActionConfigs _) as [actions|]; [|done].
  rewrite bind_nil. intros H. exists actions. split; [done|]. intros b Hin Hs. specialize (H b Hin).
  unfold config_findings in H. cbv zeta in H. rewrite Hs in H. simpl in H.
  destruct (findKLShieldRuntimeActionConfig actions _) as [action|] eqn:Hf; [|done].
  apply List.find_some in Hf as [Hin' Hc]. rewrite app_nil, !bind_nil in H. destruct H as [H1 H2].
  exists action. split_and!; [by apply list_elem_of_In|done| |].
  - intros x Hx. specialize (H1 x Hx). by rewrite when_nil, known_spec in H1.
  - intros x Hx. specialize (H2 x Hx). by rewrite when_nil, known_spec in H2.
Qed.

(** What a snapshot of the configuration shows, where the request has one. *)
Record snapshot_ready (q : CIRequestReport) (resolved : ResolvedTarget) : Prop := {
  sr_given : crp_ChangedPaths q ≠ [] → crp_ConfigSnapshot q ≠ "";
  sr_changed : ∀ path, path ∈ crp_ChangedPaths q →
    let base := cleanRel (tsr_BasePath (tgt_ValidationSource (tgi_Target (rtg_Target resolved)))) in
    cleanRel path ≠ "" → has_prefix (base +:+ "/") (cleanRel path) || (cleanRel path ==s base) = true →
    is_Ok (os_Stat (Join [crp_ConfigSnapshot q; cleanRel path])) = true;
  sr_configured : crp_ConfigSnapshot q ≠ "" →
    tgt_Adapter (tgi_Target (rtg_Target resolved)) = "kernloom.adapter.klshield" →
    configured (base_root (crp_ConfigSnapshot q) (tgi_Target (rtg_Target resolved))) resolved;
}.

Lemma snapshot_nil q resolved : snapshot_findings q resolved = [] → snapshot_ready q resolved.
Proof.
  unfold snapshot_findings. cbv zeta. set (t := tgi_Target (rtg_Target resolved)).
  destruct (String.eqb_spec (crp_ConfigSnapshot q) "") as [He|He].
  - destruct (crp_ChangedPaths q) as [|p ps] eqn:Hc; simpl; [|done]. intros _.
    split; rewrite ?Hc, ?He; [done|set_solver|done].
  - rewrite andb_false_r, app_nil, bind_nil. intros [H1 H2]. split; [done| |].
    + intros path Hin base Hne Hb. specialize (H1 path Hin). unfold changed_path_findings in H1. cbv zeta in H1.
      fold t base in H1. destruct (empty_str (cleanRel path)) eqn:Hx; [by apply String.eqb_eq in Hx|].
      subst base. fold t in Hb. rewrite <- negb_orb, Hb in H1. simpl in H1. by rewrite when_nil, known_spec in H1.
    + intros _ Ht. fold t in Ht. unfold target_config_findings in H2. cbv zeta in H2. fold t in H2.
      rewrite Ht in H2. destruct (os_Stat _); [|done]. by apply klshield_nil.
Qed.

Lemma validateConfigSnapshot_reports q resolved :
  reports (validateConfigSnapshot q resolved) (snapshot_ready q resolved).
Proof.
  apply reports_findings; [|apply snapshot_nil].
  unfold snapshot_findings, changed_path_findings, target_config_findings, klshield_findings, config_findings. errors.
Qed.
End passed.

(** ** What a validation that passed shows *)

Section validated.
Context {GR : GoRuntime} {F : Type} {ST : ArtifactStore F} {CW : CompilerWorld F} {TD : TempDir F}.
Context {EC : CompilerEncoders} {UL : UnicodeLower} {CE : CEL} {FS : Files} {EN : Environment}.
Context {MD : ManifestDecoder} {FT : FloatText} {DD : DocumentDecoders} {RD : RegistryDecoders}.
Context {BD : BindingDecoders} {SD : SnapshotDecoder} {AR : AdapterRuntime}.
Context (NewCELValidator : result unit).

(** The same of a stage with effects, which answers unless it panics. *)
Definition io_reports (stage : CIValidationResult → io F CIValidationResult) (P panics : Prop) : Prop := ∀ r f,
  (∃ r' f', stage r f = (Ok r', f') ∧ (errors (civ_Findings r) → errors (civ_Findings r')) ∧
     (civ_Findings r' = [] → civ_Findings r = [] ∧ P)) ∨
  panics ∧ ∃ e f', stage r f = (Err e, f') ∧ is_panic e = true.

(** A policy file that was compiled, without signing. *)
Definition compiles (opts : CIOptions) (outputDir : string) (file : PolicyFileRef) : Prop := ∃ f0 results f1,
  Compile NewCELValidator (compile_options opts outputDir (pfr_Path file)) f0 = (Ok results, f1).

(** The compiler panics on a policy file. *)
Definition compile_panics (opts : CIOptions) (file : PolicyFileRef) : Prop := ∃ outputDir f0 e,
  (Compile NewCELValidator (compile_options opts outputDir (pfr_Path file)) f0).1 = Err e ∧ is_panic e = true.

Lemma compile_files_reports opts outputDir targetID files policyIDs compiledFiles :
  io_reports (compile_files NewCELValidator opts outputDir targetID files policyIDs compiledFiles)
    (∀ file, file ∈ files → compiles opts outputDir file) (∃ file, file ∈ files ∧ compile_panics opts file).
Proof.
  revert policyIDs compiledFiles. induction files as [|file files IH]; intros policyIDs compiledFiles r f.
  - left. eexists _, f. split; [reflexivity|]. set_solver.
  - cbn [compile_files]. rewrite io_bind_run. unfold returned.
    destruct (Compile _ _ f) as [[results|e] f1] eqn:E; cbn [fst snd];
      [|destruct (is_panic e) eqn:Hp].
    + destruct (IH (policyIDs ++ (res_PolicyID <$> results)) (compiledFiles ++ [pfr_RelPath file])
        (provenance ("policy_file:" +:+ pfr_RelPath file) (pfr_Digest file) r) f1)
        as [(r' & f' & Hr & He & Hn)|[(file' & Hin & Hpan) He]];
        [left|right; split; [exists file'; set_solver|exact He]].
      exists r', f'. split; [exact Hr|]. split; [exact He|]. intros Hnil. destruct (Hn Hnil) as [? Hall].
      split; [done|]. intros file' [->|Hin]%elem_of_cons; [|by apply Hall]. by exists f, results, f1.
    + right. split; [|by exists e, f1]. exists file. split; [left|]. exists outputDir, f, e. by rewrite E.
    + left. eexists _, f1. split; [reflexivity|]. split.
      * intros H. by apply errors_app; [|apply errors_finding, errors_nil].
      * by intros [_ ?]%app_nil.
Qed.

Definition policies_compile (opts : CIOptions) (resolved : ResolvedTarget) : Prop := ∃ outputDir,
  PolicyFiles (rtg_PolicySources resolved) ≠ [] ∧
  ∀ file, file ∈ PolicyFiles (rtg_PolicySources resolved) → compiles opts outputDir file.

Definition policies_panic (opts : CIOptions) (resolved : ResolvedTarget) : Prop := ∃ file,
  file ∈ PolicyFiles (rtg_PolicySources resolved) ∧ compile_panics opts file.

Lemma compilePolicyMeaning_reports opts resolved :
  io_reports (compilePolicyMeaning NewCELValidator opts resolved) (policies_compile opts resolved)
    (policies_panic opts resolved).
Proof.
  intros r f. unfold policies_panic, compilePolicyMeaning, policies_compile. cbv zeta. rewrite io_bind_run. unfold attempt.
  destruct ((if empty_str (cio_OutputDir opts) then MkdirTemp "kernloom-ci-validate-*"
            else mret (cio_OutputDir opts) : io F string) f) as [[dir|e] f1]; cbn [fst snd].
  - destruct (PolicyFiles _) as [|file files] eqn:Hf.
    + left. eexists _, f1. split; [reflexivity|]. split.
      * intros H. by apply errors_app; [|apply errors_finding, errors_nil].
      * by intros [_ ?]%app_nil.
    + destruct (compile_files_reports opts dir (tgt_ID (tgi_Target (rtg_Target resolved))) (file :: files) [] [] r f1)
        as [(r' & f' & Hr & He & Hn)|H]; [left|by right].
      exists r', f'. split; [exact Hr|]. split; [exact He|]. intros Hnil. destruct (Hn Hnil). eauto 10.
  - left. eexists _, f1. split; [reflexivity|]. split.
    + intros H. by apply errors_app; [|apply errors_finding, errors_nil].
    + by intros [_ ?]%app_nil.
Qed.

(** What is checked of the inputs of a request. *)
Record inputs_ready (opts : CIOptions) (i : Inputs) : Prop := {
  ir_canonical : canonical_actions_known (inp_catalog i) (inp_store i);
  ir_target : ∃ manifest,
    inp_manifests i !! tgt_Adapter (tgi_Target (rtg_Target (inp_resolved i))) = Some manifest ∧
    target_ready (inp_catalog i) manifest (inp_store i) (inp_resolved i);
  ir_meanings : meanings_ready (inp_catalog i) (inp_store i) (inp_resolved i);
  ir_runtime : runtime_verified (cio_AdapterVerify opts) (inp_manifests i)
    (tgi_Target (rtg_Target (inp_resolved i)));
  ir_snapshot : snapshot_ready (cio_Request opts) (inp_resolved i);
}.

Lemma check_inputs_reports opts i : reports (check_inputs opts i) (inputs_ready opts i).
Proof.
  destruct i as [c manifests s resolved]. unfold check_inputs.
  refine (reports_weaken _ _ _ _ (reports_then _ _ _ _ (reports_then _ _ _ _ (reports_then _ _ _ _
    (reports_then _ _ _ _ (reports_then (reported s resolved) _ True _ _ (validateCanonicalActions_reports c s))
      (validateResolvedTarget_reports c manifests s resolved)) (validatePolicyBindingMatches_reports c s resolved))
      (verifyAdapterRuntime_reports (cio_AdapterVerify opts) manifests resolved))
      (validateConfigSnapshot_reports (cio_Request opts) resolved))).
  - intros (((((_ & ?) & ?) & ?) & ?) & ?). by split.
  - by intros r.
Qed.

Lemma started_errors q : errors (civ_Findings (started q)).
Proof. unfold started, request_findings. simpl. errors. Qed.

Lemma read_inputs_resolved opts i : read_inputs opts = inr i →
  Registry.Load (cio_CoreRegistry opts) (cio_EnterpriseRegistry opts) = Ok (inp_catalog i) ∧
  ResolveCIRequest (inp_store i) (ci_request (cio_Request opts)) = Ok (inp_resolved i).
Proof. unfold read_inputs, or_code. intros H. repeat case_match; by simplify_eq/=. Qed.

(** The compiler panics on a policy file in the scope of a request that is in order. *)
Definition validation_panics (opts : CIOptions) : Prop := ∃ i,
  request_findings (cio_Request opts) = [] ∧ read_inputs (applyDefaults opts) = inr i ∧
  policies_panic (applyDefaults opts) (inp_resolved i).

Lemma ValidateCI_run opts f : let q := cio_Request opts in let opts' := applyDefaults opts in
  (validation_panics opts ∧ ∃ e f', ValidateCI NewCELValidator opts f = (Err e, f') ∧ is_panic e = true) ∨
  ∃ r f', ValidateCI NewCELValidator opts f = (Ok (finalize r), f') ∧ errors (civ_Findings r) ∧
    (civ_Findings r = [] → ∃ i, read_inputs opts' = inr i ∧ inputs_ready opts' i ∧
       policies_compile opts' (inp_resolved i)) ∧
    (request_findings q ≠ [] → f' = f ∧ civ_Findings r = request_findings q) ∧
    (∀ code e, request_findings q = [] → read_inputs opts' = inl (code, e) →
       f' = f ∧ civ_Findings r = [finding code (error_text e) "" "" ""]).
Proof.
  intros q opts'. unfold ValidateCI. cbv zeta. fold opts'. assert (Hq : cio_Request opts' = q) by done. rewrite Hq.
  pose proof (started_errors q) as Hs. assert (Hf : civ_Findings (started q) = request_findings q) by done.
  rewrite (failed_errors _ Hs), Hf. case_bool_decide as Hnil; simpl.
  - destruct (read_inputs opts') as [[code e]|i] eqn:Hi; [right|].
    + assert (Ha : ∀ fs, civ_Findings (add_findings fs (started q)) = fs)
        by (intros fs; unfold add_findings; simpl; by rewrite Hnil).
      eexists _, f. split; [reflexivity|]. rewrite Ha. split; [apply errors_finding, errors_nil|].
      split; [done|]. split; [done|]. by intros ? ? _ [= <- <-].
    + destruct (check_inputs_reports opts' i (started q)) as [He Hn].
      destruct (compilePolicyMeaning_reports opts' (inp_resolved i) (check_inputs opts' i (started q)) f)
        as [(r & f' & Hr & He' & Hn')|(Hpan & e & f' & Hr & He')]; [right|left].
      2:{ split; [by exists i|]. exists e, f'. by rewrite io_bind_run, Hr. }
      exists r, f'. rewrite io_bind_run, Hr. split; [done|]. split; [auto|]. split; [|done].
      intros H. destruct (Hn' H) as [H1 ?]. destruct (Hn H1). eauto.
  - right. eexists _, f. split; [reflexivity|]. rewrite Hf. done.
Qed.

(** C22. A validation answers, and its status is whether anything was found: a request
    without tenant, environment or repository, and inputs that cannot be read, end in their
    findings and nothing is compiled; no check fails with an error, and every finding counts.
    Only a panic of the compiler on a policy file in the scope of a request that is in order keeps
    it from answering. *)
Theorem ValidateCI_answers opts f :
  (validation_panics opts ∧ ∃ e f', ValidateCI NewCELValidator opts f = (Err e, f') ∧ is_panic e = true) ∨
  ∃ r f', ValidateCI NewCELValidator opts f = (Ok r, f') ∧
  (civ_Status r = "passed" ∨ civ_Status r = "failed") ∧ (civ_Status r = "passed" ↔ civ_Findings r = []) ∧
  (∀ x, x ∈ civ_Findings r → fnd_Severity x = "error") ∧
  (request_findings (cio_Request opts) ≠ [] →
     f' = f ∧ ∀ x, x ∈ civ_Findings r ↔ x ∈ request_findings (cio_Request opts)) ∧
  (∀ code e, request_findings (cio_Request opts) = [] → read_inputs (applyDefaults opts) = inl (code, e) →
     f' = f ∧ civ_Findings r = [finding code (error_text e) "" "" ""]).
Proof.
  destruct (ValidateCI_run opts f) as [Hp|(r & f' & Hr & He & _ & Hreq & Hin)]; [by left|right].
  destruct (finalize_status r He) as (E & S1 & _ & S2). exists (finalize r), f'. split_and!; try done.
  - intros H. destruct (Hreq H) as [? Hf]. split; [done|]. intros x. rewrite <- Hf. apply sort_by_elem.
  - intros code e H Hi. destruct (Hin code e H Hi) as [? Hf]. split; [done|].
    change (sort_by finding_leb (civ_Findings r) = [finding code (error_text e) "" "" ""]). by rewrite Hf.
Qed.

(** C19. A request passes only when everything about its target is in order.  The adapter has a
    manifest that implements every capability of the target and of its bindings; every
    binding has an action type, a capability of the target, a usable selector schema and
    events that the registry knows; what a canonical action requires, its bindings
    provide; a sensitive action has a canonical action, events that prove it, an
    approval and a policy that means it; the adapter that runs, and the snapshot of its
    configuration, agree where they were given; and every policy file in scope compiles. *)
Theorem ValidateCI_passed opts f r f' :
  ValidateCI NewCELValidator opts f = (Ok r, f') → civ_Status r = "passed" →
  ∃ i, read_inputs (applyDefaults opts) = inr i ∧
    ResolveCIRequest (inp_store i) (ci_request (cio_Request opts)) = Ok (inp_resolved i) ∧
    inputs_ready (applyDefaults opts) i ∧ policies_compile (applyDefaults opts) (inp_resolved i).
Proof.
  destruct (ValidateCI_run opts f) as [(_ & e & f1 & Hr & _)|(r1 & f1 & Hr & He & Hn & _)]; rewrite Hr; [done|].
  intros [= <- <-] Hs.
  destruct (finalize_status r1 He) as (_ & _ & S & _). apply S, Hn in Hs as (i & Hi & ? & ?).
  exists i. split; [done|]. split; [|done]. apply (read_inputs_resolved _ _ Hi).
Qed.
End validated.
