(* ===== verification/Jobs.v ===== *)
(** * Jobs ([internal/forge/jobs], types.go, memory.go and runner.go)

    A simulation job, the store interface, and the store in memory: a map of jobs and
    a queue of identifiers.  What is stored and what is handed out are copies, made
    through JSON.  One turn of a worker takes a job from the queue, runs the compiler on it,
    and stores the outcome. *)

From stdpp Require Import options.
From stdpp Require Import gmap.
From S2P Require Import Prelude IO GoStrings GoTime GoJson GoEncoding GoPath GoFloat Schema.
From S2P Require Import Registry ArtifactStore AdapterManifests Compiler CompilerEmit.
#[local] Open Scope Z_scope.

Definition TypeSimulation := "simulation".
Definition StatusPending := "pending".
Definition StatusRunning := "running".
Definition StatusSucceeded := "succeeded".
Definition StatusFailed := "failed".

Definition ErrJobNotFound : error := Sentinel "job not found".
Definition ErrNoJob : error := Sentinel "no job available".

Record Job := {
  jb_ID : string;
  jb_Type : string;
  jb_Status : string;
  jb_CreatedAt : time;
  jb_UpdatedAt : time;
  jb_CreatedBy : string;
  jb_Payload : string;
  jb_Result : string;
  jb_Error : string;
}.

Definition zero_Job : Job := {|
  jb_ID := ""; jb_Type := ""; jb_Status := ""; jb_CreatedAt := 0; jb_UpdatedAt := 0;
  jb_CreatedBy := ""; jb_Payload := ""; jb_Result := ""; jb_Error := "" |}.

Record SimulationPayload := {
  spl_PolicyRepo : string;
  spl_PolicyFile : string;
  spl_CoreRegistry : string;
  spl_EnterpriseRegistry : string;
  spl_OutputDir : string;
}.

Record SimulationPolicyResult := {
  spr_PolicyID : string;
  spr_ReviewPath : string;
  spr_ResolvedPath : string;
  spr_RuntimeBundlePath : string;
  spr_ContextRoutePackPath : string;
  spr_ConformanceExpectationPath : string;
  spr_ManifestPath : string;
  spr_ManifestSignedPath : string;
  spr_CoveragePath : string;
  spr_SimulationPath : string;
  spr_ValidationPath : string;
  spr_ResolvedSignedPath : string;
  spr_RuntimeBundleSignedPath : string;
  spr_ContextRoutePackSignedPath : string;
  spr_ConformanceExpectationSignedPath : string;
  spr_ResolvedSHA256 : string;
  spr_RuntimeBundleSHA256 : string;
  spr_ContextRoutePackSHA256 : string;
  spr_ConformanceExpectationSHA256 : string;
  spr_ManifestSHA256 : string;
  spr_ManifestSignedSHA256 : string;
  spr_ResolvedSignedSHA256 : string;
  spr_RuntimeBundleSignedSHA256 : string;
  spr_ContextRoutePackSignedSHA256 : string;
  spr_ConformanceExpectationSignedSHA256 : string;
}.

Record SimulationResult := {
  smr_Kind : string;
  smr_Status : string;
  smr_Policies : list SimulationPolicyResult;
}.

(** [json.Marshal] and [json.Unmarshal] of these types. *)
Class JobCodecs := {
  encode_Job : Job → result string;
  decode_Job : string → result Job;
  encode_SimulationPayload : SimulationPayload → result string;
  decode_SimulationPayload : string → result SimulationPayload;
  encode_SimulationResult : SimulationResult → result string;
}.

(** [jobs.Store] *)
Class JobStore (F : Type) := {
  job_Create : Job → io F unit;
  job_Enqueue : string → io F unit;
  job_Dequeue : io F string;
  job_Get : string → io F Job;
  job_Update : Job → io F unit;
}.

(** ** A job *)

Definition with_status (status : string) (now : time) (j : Job) : Job := {|
  jb_ID := jb_ID j; jb_Type := jb_Type j; jb_Status := status; jb_CreatedAt := jb_CreatedAt j;
  jb_UpdatedAt := now; jb_CreatedBy := jb_CreatedBy j; jb_Payload := jb_Payload j;
  jb_Result := jb_Result j; jb_Error := jb_Error j |}.

Definition with_outcome (data error : string) (j : Job) : Job := {|
  jb_ID := jb_ID j; jb_Type := jb_Type j; jb_Status := jb_Status j; jb_CreatedAt := jb_CreatedAt j;
  jb_UpdatedAt := jb_UpdatedAt j; jb_CreatedBy := jb_CreatedBy j; jb_Payload := jb_Payload j;
  jb_Result := data; jb_Error := error |}.

(** The layout "20060102T150405". *)
Definition stamp (t : time) : string :=
  let '(y, m, d) := civil_from_days (t / day + 306) in
  let sec := (t mod day) / second in
  year_string y +:+ digits 2 m +:+ digits 2 d +:+ "T" +:+
  digits 2 (sec / 3600) +:+ digits 2 (sec / 60 mod 60) +:+ digits 2 (sec mod 60).

Definition UnixNano (t : time) : Z := t - 62135596800 * second.

Section job.
Context {GR : GoRuntime} {F : Type}.
(** [time.Now], and [rand.Read] of eight bytes. *)
Context (time_Now : io F time) (rand_Read : io F string).

Definition newID (prefix : string) : io F string :=
  buf ← attempt rand_Read;
  now ← time_Now;
  match buf with
  | Ok buf =>
      mret (prefix +:+ "-" +:+ stamp now +:+ "-" +:+ Sha256.hex (bytes_of (take_string 8 buf)))
  | Err _ => mret (prefix +:+ "-" +:+ pretty (UnixNano now))
  end.

(** [payload] is what [json.Marshal] answered. *)
Definition NewJob (jobType createdBy : string) (payload : result string) : io F Job :=
  data ← lift payload;
  now ← time_Now;
  id ← newID "job";
  mret {| jb_ID := id; jb_Type := jobType; jb_Status := StatusPending; jb_CreatedAt := now;
          jb_UpdatedAt := now; jb_CreatedBy := createdBy; jb_Payload := data; jb_Result := "";
          jb_Error := "" |}.

Definition SetStatus (status : string) (j : Job) : io F Job :=
  now ← time_Now;
  mret (with_status status now j).

Definition SetResult (data : result string) (j : Job) : io F Job :=
  data ← lift data;
  SetStatus StatusSucceeded (with_outcome data "" j).

Definition SetError (e : error) (j : Job) : io F Job :=
  SetStatus StatusFailed (with_outcome (jb_Result j) (error_text e) j).
End job.

(** ** The store in memory *)

Record JobMemory := {
  jm_Jobs : gmap string Job;
  jm_Queue : list string;
}.

Definition no_jobs : JobMemory := {| jm_Jobs := ∅; jm_Queue := [] |}.

Definition set_queue (queue : list string) (s : JobMemory) : JobMemory :=
  {| jm_Jobs := jm_Jobs s; jm_Queue := queue |}.

Section memory.
Context {JC : JobCodecs}.

(** The errors are dropped; a text that does not decode leaves the zero job. *)
Definition cloneJob (j : Job) : Job :=
  match (data ← encode_Job j; decode_Job data) with Ok cloned => cloned | Err _ => zero_Job end.

(** The map is keyed by the identifier of the job that was passed. *)
Definition put_job (j : Job) (s : JobMemory) : JobMemory :=
  {| jm_Jobs := <[jb_ID j := cloneJob j]> (jm_Jobs s); jm_Queue := jm_Queue s |}.

Definition Memory_Create (j : Job) : io JobMemory unit := modify (put_job j).

Definition Memory_Enqueue (jobID : string) : io JobMemory unit :=
  jobs ← gets jm_Jobs;
  deny bool_decide (jobs !! jobID = None) with ErrJobNotFound;;
  queue ← gets jm_Queue;
  modify (set_queue (queue ++ [jobID])).

Definition Memory_Dequeue : io JobMemory string :=
  queue ← gets jm_Queue;
  match queue with
  | [] => fail ErrNoJob
  | jobID :: queue => _ ← modify (set_queue queue); mret jobID
  end.

Definition Memory_Get (jobID : string) : io JobMemory Job :=
  jobs ← gets jm_Jobs;
  match jobs !! jobID with
  | None => fail ErrJobNotFound
  | Some j => mret (cloneJob j)
  end.

Definition Memory_Update (j : Job) : io JobMemory unit :=
  jobs ← gets jm_Jobs;
  deny bool_decide (jobs !! jb_ID j = None) with ErrJobNotFound;;
  modify (put_job j).

Definition memory_jobs : JobStore JobMemory := {|
  job_Create := Memory_Create;
  job_Enqueue := Memory_Enqueue;
  job_Dequeue := Memory_Dequeue;
  job_Get := Memory_Get;
  job_Update := Memory_Update;
|}.

(** The store as a part of a larger state. *)
Definition jobs_in {F} (get : F → JobMemory) (put : JobMemory → F → F) : JobStore F := {|
  job_Create j := zoom get put (Memory_Create j);
  job_Enqueue jobID := zoom get put (Memory_Enqueue jobID);
  job_Dequeue := zoom get put Memory_Dequeue;
  job_Get jobID := zoom get put (Memory_Get jobID);
  job_Update j := zoom get put (Memory_Update j);
|}.
End memory.

(** ** Running jobs *)

Section runner.
Context {GR : GoRuntime} {F : Type} {ST : ArtifactStore F} {CW : CompilerWorld F}.
Context {EC : CompilerEncoders} {UL : UnicodeLower} {CE : CEL} {FS : Files} {EN : Environment}.
Context {MD : ManifestDecoder} {FT : FloatText} {DD : DocumentDecoders} {RD : RegistryDecoders}.
Context {JC : JobCodecs}.

(** The compiler's environment of CEL, and the runner's fields. *)
Context (NewCELValidator : result unit) (store : option (JobStore F)) (defaults : Options F).

(** What the payload sets replaces the default. *)
Definition job_options (payload : SimulationPayload) (jobID : string) : Options F :=
  let or_default value fallback := if empty_str value then fallback else value in
  {| op_PolicyRepo := or_default (spl_PolicyRepo payload) (op_PolicyRepo defaults);
     op_PolicyFile := or_default (spl_PolicyFile payload) (op_PolicyFile defaults);
     op_CoreRegistry := or_default (spl_CoreRegistry payload) (op_CoreRegistry defaults);
     op_EnterpriseRegistry :=
       or_default (spl_EnterpriseRegistry payload) (op_EnterpriseRegistry defaults);
     op_OutputDir := or_default (or_default (spl_OutputDir payload) (op_OutputDir defaults))
                       (Join ["/tmp"; "kernloom-simulation-jobs"; jobID]);
     op_SigningMode := op_SigningMode defaults; op_SigningKeyPath := op_SigningKeyPath defaults;
     op_SigningKeyID := op_SigningKeyID defaults; op_CorrelationID := op_CorrelationID defaults;
     op_BuildCreatedBy := op_BuildCreatedBy defaults; op_SignatureTTL := op_SignatureTTL defaults;
     op_Signer := op_Signer defaults; op_Now := op_Now defaults |}.

Definition policy_result (r : Result) : SimulationPolicyResult := {|
  spr_PolicyID := res_PolicyID r;
  spr_ReviewPath := res_ReviewPath r;
  spr_ResolvedPath := em_Path (res_Resolved r);
  spr_RuntimeBundlePath := em_Path (res_RuntimeBundle r);
  spr_ContextRoutePackPath := em_Path (res_ContextRoutePack r);
  spr_ConformanceExpectationPath := em_Path (res_ConformanceExpectation r);
  spr_ManifestPath := em_Path (res_Manifest r);
  spr_ManifestSignedPath := em_SignedPath (res_Manifest r);
  spr_CoveragePath := res_CoveragePath r;
  spr_SimulationPath := res_SimulationPath r;
  spr_ValidationPath := res_ValidationPath r;
  spr_ResolvedSignedPath := em_SignedPath (res_Resolved r);
  spr_RuntimeBundleSignedPath := em_SignedPath (res_RuntimeBundle r);
  spr_ContextRoutePackSignedPath := em_SignedPath (res_ContextRoutePack r);
  spr_ConformanceExpectationSignedPath := em_SignedPath (res_ConformanceExpectation r);
  spr_ResolvedSHA256 := em_SHA256 (res_Resolved r);
  spr_RuntimeBundleSHA256 := em_SHA256 (res_RuntimeBundle r);
  spr_ContextRoutePackSHA256 := em_SHA256 (res_ContextRoutePack r);
  spr_ConformanceExpectationSHA256 := em_SHA256 (res_ConformanceExpectation r);
  spr_ManifestSHA256 := em_SHA256 (res_Manifest r);
  spr_ManifestSignedSHA256 := em_SignedSHA256 (res_Manifest r);
  spr_ResolvedSignedSHA256 := em_SignedSHA256 (res_Resolved r);
  spr_RuntimeBundleSignedSHA256 := em_SignedSHA256 (res_RuntimeBundle r);
  spr_ContextRoutePackSignedSHA256 := em_SignedSHA256 (res_ContextRoutePack r);
  spr_ConformanceExpectationSignedSHA256 := em_SignedSHA256 (res_ConformanceExpectation r);
|}.

(** The job is a pointer: what [runSimulation] answers is the job as it left it. *)
Definition runSimulation (j : Job) : io F Job :=
  payload ← lift (decode_SimulationPayload (jb_Payload j));
  results ← Compile NewCELValidator (job_options payload (jb_ID j));
  SetResult wall_clock (encode_SimulationResult {|
    smr_Kind := "SimulationJobResult"; smr_Status := "resolved_only";
    smr_Policies := policy_result <$> results |}) j.

Definition run (j : Job) : io F Job :=
  if jb_Type j ==s TypeSimulation then runSimulation j
  else fail (Errorf "unsupported job type %q" [AStr (jb_Type j)]).

(** The part of a turn that has the job: the outcome of [run], and what is stored. *)
Definition finish_job (jobs : JobStore F) (j : Job) (outcome : result Job) : io F (Job * option error) :=
  match outcome with
  | Err e =>
      j ← SetError wall_clock e j;
      _ ← returned (job_Update j);
      mret (j, Some e)
  | Ok j =>
      _ ← job_Update j;
      mret (j, None)
  end.

(** The answer has the job, and the error of its run; an error without a job is the
    error of the computation.  Nobody recovers from a panic of the compiler: it ends the
    worker, and the job stays as it was stored last. *)
Definition RunOnce : io F (Job * option error) :=
  match store with
  | None => fail (Errorf "job runner requires a store" [])
  | Some jobs =>
      jobID ← job_Dequeue;
      j ← job_Get jobID;
      j ← SetStatus wall_clock StatusRunning j;
      _ ← job_Update j;
      outcome ← returned (run j);
      finish_job jobs j outcome
  end.
End runner.
