(* ===== verification/Redis.v ===== *)
(** * Jobs on Redis ([internal/storage/redis], [internal/forge/jobs/redis_store.go])

    The client: one command per connection, written as an array of bulk strings, and the
    reader of replies with its nested arrays.  The store of jobs over it.  The server is a
    parameter: what it answers to four commands is its documented behaviour. *)

From stdpp Require Import options.
From stdpp Require Import gmap pretty.
From S2P Require Import Prelude IO GoStrings GoTime GoDuration GoJson GoEncoding GoPath GoQuote.
From S2P Require Import GoFloat Schema Authn ArtifactStore AdapterManifests Compiler CompilerEmit.
From S2P Require Import JWT Jobs.
#[local] Open Scope Z_scope.

(** ** Replies *)

Inductive Value : Type := MkValue {
  v_Kind : Ascii.ascii;
  v_String : string;
  v_Int : Z;
  v_Array : list Value;
  v_Nil : bool;
}.

Definition plus : Ascii.ascii := ascii_of_byte 43.
Definition dash : Ascii.ascii := ascii_of_byte 45.
Definition dollar : Ascii.ascii := ascii_of_byte 36.
Definition star : Ascii.ascii := ascii_of_byte 42.
Definition return_ : Ascii.ascii := ascii_of_byte 13.
Definition newline : Ascii.ascii := ascii_of_byte 10.
Definition crlf : string := String return_ (String newline "").

Definition text_value (kind : Ascii.ascii) (s : string) : Value := MkValue kind s 0 [] false.
Definition nil_value (kind : Ascii.ascii) : Value := MkValue kind "" 0 [] true.
Definition int_value (z : Z) : Value := MkValue colon "" z [] false.
Definition array_value (values : list Value) : Value := MkValue star "" 0 values false.

Definition ErrNil : error := Sentinel "redis nil".
Definition EOF : error := Sentinel "EOF".
Definition ErrUnexpectedEOF : error := Sentinel "unexpected EOF".
(** A panic of the runtime. *)
Definition makeslice (which : string) : error :=
  Errorf "panic: runtime error: makeslice: %s out of range" [AStr which].

(** [make] of [n] elements of a size: a length or capacity that is negative, or more than
    can be addressed, panics. *)
Definition make (which : string) (size n : Z) : result unit :=
  reject (n <? 0) || (281474976710656 <? n * size) with makeslice which;; Ok tt.

(** ** Writing a command *)

Definition encode_arg (arg : string) : string :=
  String dollar (pretty (Z.of_nat (String.length arg))) +:+ crlf +:+ arg +:+ crlf.
Definition encodeCommand (args : list string) : string :=
  String star (pretty (Z.of_nat (length args))) +:+ crlf +:+ join "" (encode_arg <$> args).

(** ** Reading a reply: the state is what is left of it *)

Definition ReadByte : io string Ascii.ascii := λ s,
  match s with
  | EmptyString => (Err EOF, "")
  | String c s => (Ok c, s)
  end.

(** Up to the first newline, and what follows it. *)
Fixpoint cut_line (s : string) : option (string * string) :=
  match s with
  | EmptyString => None
  | String c s =>
      if Ascii.eqb c newline then Some ("", s) else
      match cut_line s with
      | Some (line, rest) => Some (String c line, rest)
      | None => None
      end
  end.

Definition trim_suffix (suffix s : string) : string :=
  if has_suffix suffix s then take_string (String.length s - String.length suffix) s else s.

Definition readLine : io string string := λ s,
  match cut_line s with
  | Some (line, rest) => (Ok (trim_suffix (String return_ "") line), rest)
  | None => (Err EOF, "")
  end.

(** [io.ReadFull] of [n] bytes. *)
Definition ReadFull (n : Z) : io string string := λ s,
  if n =? 0 then (Ok "", s) else
  if empty_str s then (Err EOF, "") else
  if Z.of_nat (String.length s) <? n then (Err ErrUnexpectedEOF, "")
  else (Ok (take_string (Z.to_nat n) s), drop_string (Z.to_nat n) s).

(** [strconv.Atoi] and [strconv.ParseInt] of a line; their errors are not told apart. *)
Definition parse_int (line : string) : result Z :=
  match Atoi line with Some z => Ok z | None => Err (Errorf "strconv: parsing %q" [AStr line]) end.

(** [length+2] wraps around. *)
Definition readBulkString : io string Value :=
  line ← readLine;
  length ← lift (parse_int line);
  if length =? -1 then mret (nil_value dollar) else
  let size := low_int64 (length + 2) in
  _ ← lift (make "len" 1 size);
  buf ← ReadFull size;
  deny negb (has_suffix crlf buf) with Errorf "invalid redis bulk string terminator" [];;
  mret (text_value dollar (take_string (Z.to_nat length) buf)).

(** A loop of [n] turns that collects. *)
Fixpoint read_n {S A} (m : io S A) (n : nat) : io S (list A) :=
  match n with
  | O => mret []
  | S n => x ← m; l ← read_n m n; mret (x :: l)
  end.

Definition readArray (readValue : io string Value) : io string Value :=
  line ← readLine;
  length ← lift (parse_int line);
  if length =? -1 then mret (nil_value star) else
  _ ← lift (make "cap" 64 length);
  values ← read_n readValue (Z.to_nat length);
  mret (array_value values).

Definition too_deep : error := Sentinel "reply nested too deep".

(** A nil reply is a value here; [Do] tells it apart, and an array holds it as Go's does.
    The fuel bounds the nesting of arrays. *)
Fixpoint read_nested (fuel : nat) : io string Value :=
  match fuel with
  | O => fail too_deep
  | S fuel =>
      prefix ← ReadByte;
      if Ascii.eqb prefix plus then line ← readLine; mret (text_value plus line) else
      if Ascii.eqb prefix dash then line ← readLine; fail (Errorf "redis error: %s" [AStr line]) else
      if Ascii.eqb prefix colon then line ← readLine; z ← lift (parse_int line); mret (int_value z) else
      if Ascii.eqb prefix dollar then readBulkString else
      if Ascii.eqb prefix star then readArray (read_nested fuel) else
      fail (Errorf "unsupported redis response prefix %q" [AStr (String prefix "")])
  end.

(** Every array takes a byte: the fuel is never used up. *)
Definition readValue : io string Value := λ s, read_nested (S (String.length s)) s.

(** ** The client *)

Record Client := {
  cl_Addr : string;
  cl_Timeout : Z;
}.

(** A connection to an address, with a timeout: the bytes written, and all that the server
    answers before it is closed. *)
Class RedisServer (W : Type) := { exchange : string → Z → string → io W string }.

Definition redis_addr (c : Client) : string := if empty_str (cl_Addr c) then "127.0.0.1:6379" else cl_Addr c.
Definition redis_timeout (c : Client) : Z := if cl_Timeout c =? 0 then 5 * second else cl_Timeout c.

Definition Do {W} {RV : RedisServer W} (c : Client) (args : list string) : io W Value :=
  deny Nat.eqb (length args) 0 with Errorf "redis command requires at least one argument" [];;
  text ← exchange (redis_addr c) (redis_timeout c) (encodeCommand args);
  value ← lift (readValue text).1;
  deny v_Nil value with ErrNil;;
  mret value.

(** ** [RedisStore] *)

Record RedisStore := {
  rst_Client : Client;
  rst_Prefix : string;
  rst_Queue : string;
}.

Definition NewRedisStore (addr : string) : RedisStore :=
  {| rst_Client := {| cl_Addr := addr; cl_Timeout := 0 |}; rst_Prefix := "kernloom"; rst_Queue := "kernloom:jobs" |}.

Definition redis_prefix (s : RedisStore) : string :=
  if empty_str (rst_Prefix s) then "kernloom" else rst_Prefix s.
Definition redis_key (s : RedisStore) (jobID : string) : string := redis_prefix s +:+ ":job:" +:+ jobID.
Definition redis_queue (s : RedisStore) : string :=
  if empty_str (rst_Queue s) then redis_prefix s +:+ ":jobs" else rst_Queue s.

Section store.
Context {JC : JobCodecs} {W : Type} {RV : RedisServer W} (s : RedisStore).

Definition redis_put (j : Job) : io W unit :=
  data ← lift (encode_Job j);
  _ ← Do (rst_Client s) ["SET"; redis_key s (jb_ID j); data];
  mret tt.

(** [Create] and [Update] are the same command. *)
Definition Redis_Create : Job → io W unit := redis_put.
Definition Redis_Update : Job → io W unit := redis_put.

Definition Redis_Get (jobID : string) : io W Job :=
  r ← attempt (Do (rst_Client s) ["GET"; redis_key s jobID]);
  match r with
  | Err e => if bool_decide (e = ErrNil) then fail ErrJobNotFound else fail e
  | Ok value => lift (decode_Job (v_String value))
  end.

Definition Redis_Enqueue (jobID : string) : io W unit :=
  _ ← Redis_Get jobID;
  _ ← Do (rst_Client s) ["RPUSH"; redis_queue s; jobID];
  mret tt.

Definition Redis_Dequeue : io W string :=
  r ← attempt (Do (rst_Client s) ["LPOP"; redis_queue s]);
  match r with
  | Err e => if bool_decide (e = ErrNil) then fail ErrNoJob else fail e
  | Ok value => if empty_str (v_String value) then fail ErrNoJob else mret (v_String value)
  end.

Definition redis_jobs : JobStore W := {|
  job_Create := Redis_Create;
  job_Enqueue := Redis_Enqueue;
  job_Dequeue := Redis_Dequeue;
  job_Get := Redis_Get;
  job_Update := Redis_Update;
|}.
End store.

(** ** Numbers and lines read back *)

Lemma decimal_pretty_go x s : decimal 0 (pretty_N_go x s) = decimal (Z.of_N x) s.
Proof.
  revert s. induction (N.lt_wf_0 x) as [x _ IH]; intros s. destruct (decide (0 < x)%N) as [Hx|Hx].
  - rewrite pretty_N_go_step by done. rewrite IH by (by apply N.div_lt). cbn [decimal].
    assert (digit_of (pretty_N_char (x mod 10)%N) = Some (Z.of_N (x mod 10))) as ->.
    { pose proof (N.mod_lt x 10 ltac:(done)) as H. generalize dependent (x mod 10)%N. intros d Hd.
      assert (d = 0 ∨ d = 1 ∨ d = 2 ∨ d = 3 ∨ d = 4 ∨ d = 5 ∨ d = 6 ∨ d = 7 ∨ d = 8 ∨ d = 9)%N as Hc by lia.
      by repeat destruct Hc as [->|Hc]; subst. }
    simpl. f_equal. rewrite N2Z.inj_div, N2Z.inj_mod. pose proof (Z.div_mod (Z.of_N x) 10). lia.
  - assert (x = 0%N) as -> by lia. done.
Qed.

Lemma decimal_pretty (n : Z) : 0 ≤ n → decimal 0 (pretty n) = Some n ∧ pretty n ≠ "".
Proof.
  intros Hn. destruct n as [|p|p]; [done| |lia].
  assert (pretty (Z.pos p) = pretty_N_go (N.pos p) "") as -> by done.
  pose proof (decimal_pretty_go (N.pos p) "") as H. rewrite H. split; [done|]. intros E. rewrite E in H. done.
Qed.

(** The text of a number has digits only. *)
Lemma decimal_digits acc s n c : decimal acc s = Some n → digit_of c = None → has_char c s = false.
Proof.
  revert acc. induction s as [|d s IH]; intros acc H Hc; [done|]. simpl in H |- *.
  destruct (digit_of d) as [z|] eqn:Ed; [|done]. rewrite (IH _ H Hc), orb_false_r.
  destruct (Ascii.eqb_spec c d) as [->|?]; [congruence|]. by apply Ascii.eqb_neq.
Qed.

Lemma no_sign c s : has_char c s = false → has_prefix (String c "") s = false.
Proof.
  destruct s as [|d s]; [done|]. simpl. intros [H _]%orb_false_iff.
  destruct (Ascii.eqb_spec c d) as [->|?]; [by rewrite Ascii.eqb_refl in H|done].
Qed.

Lemma Atoi_pretty n : 0 ≤ n ≤ max_int64 → Atoi (pretty n) = Some n.
Proof.
  intros Hn. destruct (decimal_pretty n) as [Hd He]; [lia|]. unfold Atoi.
  rewrite (no_sign dash), (no_sign plus) by (by eapply decimal_digits).
  unfold unsigned_decimal. assert (empty_str (pretty n) = false) as -> by (by apply String.eqb_neq). rewrite Hd. simpl.
  assert ((min_int64 <=? n) && (n <=? max_int64) = true) as ->; [|done].
  unfold min_int64 in *. lia.
Qed.

Lemma cut_line_app l rest : has_char newline l = false →
  cut_line (l +:+ crlf +:+ rest) = Some (l +:+ String return_ "", rest).
Proof.
  induction l as [|c l IH]; intros H; [done|]. rewrite !app_str_cons. simpl in H |- *.
  apply orb_false_iff in H as [Hc H]. rewrite Ascii.eqb_sym in Hc. rewrite Ascii.eqb_sym.
  by rewrite Hc, (IH H).
Qed.

Lemma take_string_app a b : take_string (String.length a) (a +:+ b) = a.
Proof. induction a as [|c a IH]; [by destruct b|]. rewrite app_str_cons. simpl. by rewrite IH. Qed.
Lemma drop_string_app a b : drop_string (String.length a) (a +:+ b) = b.
Proof. induction a as [|c a IH]; [done|]. rewrite app_str_cons. simpl. done. Qed.

Lemma trim_suffix_app l c : trim_suffix (String c "") (l +:+ String c "") = l.
Proof.
  unfold trim_suffix, has_suffix. rewrite rev_string_app. simpl. rewrite Ascii.eqb_refl. simpl.
  rewrite length_app_str. simpl. replace (String.length l + 1 - 1)%nat with (String.length l) by lia. apply take_string_app.
Qed.

(** A line that has no newline in it. *)
Lemma readLine_app l rest : has_char newline l = false → readLine (l +:+ crlf +:+ rest) = (Ok l, rest).
Proof. intros H. unfold readLine. by rewrite (cut_line_app _ _ H), trim_suffix_app. Qed.

Lemma read_number n rest : 0 ≤ n ≤ max_int64 →
  readLine (pretty n +:+ crlf +:+ rest) = (Ok (pretty n), rest) ∧ parse_int (pretty n) = Ok n.
Proof.
  intros Hn. split; [|unfold parse_int; by rewrite Atoi_pretty].
  apply readLine_app. destruct (decimal_pretty n) as [Hd _]; [lia|]. by eapply decimal_digits.
Qed.

(** A text that a server or a program can hold. *)
Definition fits (s : string) : Prop := Z.of_nat (String.length s) < 1099511627776.

Lemma readBulkString_app arg rest : fits arg →
  readBulkString (pretty (Z.of_nat (String.length arg)) +:+ crlf +:+ arg +:+ crlf +:+ rest) = (Ok (text_value dollar arg), rest).
Proof.
  unfold fits. intros Hf. unfold readBulkString. rewrite io_bind_run.
  destruct (read_number (Z.of_nat (String.length arg)) (arg +:+ crlf +:+ rest)) as [-> Hp]; [unfold max_int64; lia|].
  rewrite io_bind_run. unfold lift at 1. rewrite Hp.
  assert (Z.of_nat (String.length arg) =? -1 = false) as -> by lia.
  assert (low_int64 (Z.of_nat (String.length arg) + 2) = Z.of_nat (String.length arg) + 2) as ->.
  { unfold low_int64. rewrite Z.mod_small by lia. by destruct (_ <? _) eqn:E; [|lia]. }
  cbv zeta. rewrite io_bind_run. unfold lift at 1, make.
  assert ((Z.of_nat (String.length arg) + 2 <? 0) || (281474976710656 <? (Z.of_nat (String.length arg) + 2) * 1) = false) as -> by lia.
  rewrite io_bind_run. unfold ReadFull.
  assert (Z.of_nat (String.length arg) + 2 =? 0 = false) as -> by lia.
  assert (Hlen : Z.to_nat (Z.of_nat (String.length arg) + 2) = String.length (arg +:+ crlf)) by (rewrite length_app_str; change (String.length crlf) with 2%nat; lia).
  rewrite Hlen, <- app_str_assoc.
  assert (empty_str ((arg +:+ crlf) +:+ rest) = false) as -> by (by destruct arg).
  assert (Z.of_nat (String.length ((arg +:+ crlf) +:+ rest)) <? Z.of_nat (String.length arg) + 2 = false) as ->
    by (apply Z.ltb_ge; rewrite !length_app_str; change (String.length crlf) with 2%nat; lia).
  rewrite take_string_app, drop_string_app.
  assert (has_suffix crlf (arg +:+ crlf) = true) as ->
    by (unfold has_suffix; rewrite rev_string_app; apply has_prefix_app).
  simpl. by rewrite Nat2Z.id, take_string_app.
Qed.

Lemma read_arg fuel arg rest : fits arg →
  read_nested (S fuel) (encode_arg arg +:+ rest) = (Ok (text_value dollar arg), rest).
Proof.
  intros Hf. rewrite <- (readBulkString_app arg rest Hf).
  unfold encode_arg. by rewrite !app_str_assoc, app_str_cons.
Qed.

Lemma read_args fuel args rest : Forall fits args →
  read_n (read_nested (S fuel)) (length args) (join "" (encode_arg <$> args) +:+ rest)
  = (Ok (text_value dollar <$> args), rest).
Proof.
  induction 1 as [|arg args Hf Hall IH]; [done|]. cbn [length read_n].
  assert (join "" (encode_arg <$> arg :: args) +:+ rest = encode_arg arg +:+ join "" (encode_arg <$> args) +:+ rest) as ->.
  { rewrite fmap_cons. destruct (encode_arg <$> args) eqn:E; [simpl; done|].
    cbn [join]. rewrite app_str_assoc. done. }
  rewrite io_bind_run, (read_arg fuel arg _ Hf), io_bind_run, IH. done.
Qed.

(** Reading what was written gives the arguments back, and leaves what follows. *)
Lemma read_command args rest :
  Forall fits args → Z.of_nat (length args) < 1099511627776 →
  readValue (encodeCommand args +:+ rest) = (Ok (array_value (text_value dollar <$> args)), rest).
Proof.
  intros Hf Hn. unfold readValue, encodeCommand. rewrite !app_str_assoc, app_str_cons.
  change (read_nested (S (String.length (String star _))) _) with
    (readArray (read_nested (String.length (String star (pretty (Z.of_nat (length args)) +:+ crlf +:+ join "" (encode_arg <$> args) +:+ rest))))
      (pretty (Z.of_nat (length args)) +:+ crlf +:+ join "" (encode_arg <$> args) +:+ rest)).
  cbn [String.length]. generalize (String.length (pretty (Z.of_nat (length args)) +:+ crlf +:+ join "" (encode_arg <$> args) +:+ rest)). intros fuel.
  unfold readArray. rewrite io_bind_run.
  destruct (read_number (Z.of_nat (length args)) (join "" (encode_arg <$> args) +:+ rest)) as [-> Hp]; [unfold max_int64; lia|].
  rewrite io_bind_run. unfold lift at 1. rewrite Hp.
  assert ((Z.of_nat (length args) =? -1) = false) as -> by lia.
  rewrite io_bind_run. unfold lift at 1, make.
  assert (((Z.of_nat (length args) <? 0) || (281474976710656 <? Z.of_nat (length args) * 64)) = false) as -> by lia.
  rewrite Nat2Z.id, io_bind_run, (read_args fuel args rest Hf). done.
Qed.

(** C31. A command is read back as the array of its arguments, byte for byte, and what follows
    it on the connection is left alone; and the bytes are those of no other command, so an
    argument, whatever it holds, cannot be taken for the end of one or the start of another. *)
Theorem encodeCommand_read_back args rest :
  Forall fits args → Z.of_nat (length args) < 1099511627776 →
  readValue (encodeCommand args +:+ rest) = (Ok (array_value (text_value dollar <$> args)), rest) ∧
  ∀ args' rest', Forall fits args' → Z.of_nat (length args') < 1099511627776 →
    encodeCommand args' +:+ rest' = encodeCommand args +:+ rest → args' = args ∧ rest' = rest.
Proof.
  intros Hf Hn. split; [by apply read_command|]. intros args' rest' Hf' Hn' E.
  pose proof (read_command args rest Hf Hn) as H. rewrite <- E, (read_command args' rest' Hf' Hn') in H.
  injection H as H ->. split; [|done]. clear -H. revert args H. induction args' as [|a l IH]; intros [|b k]; simpl; try done.
  intros [= -> H]. f_equal. by apply IH.
Qed.

(** ** The nesting of arrays never uses the fuel up *)

(** On a reply of at most [k] bytes the two readers agree, do not run out of fuel, and
    leave no more than they found. *)
Definition agrees {A} (k : nat) (m m' : io string A) : Prop := ∀ s,
  (String.length s ≤ k)%nat →
  m' s = m s ∧ (m s).1 ≠ Err too_deep ∧ (String.length (m s).2 ≤ String.length s)%nat.

Lemma agrees_bind {A B} k (m m' : io string A) (f f' : A → io string B) :
  agrees k m m' → (∀ a, agrees k (f a) (f' a)) → agrees k (m ≫= f) (m' ≫= f').
Proof.
  intros Hm Hf s Hs. rewrite !io_bind_run. destruct (Hm s Hs) as (-> & Hd & Hl).
  destruct (m s) as [[a|e] rest]; simpl in *.
  - destruct (Hf a rest) as (-> & Hd' & Hl'); [lia|]. split_and!; [done..|lia].
  - split_and!; [done|congruence|done].
Qed.

Lemma agrees_lift {A} k (r : result A) : r ≠ Err too_deep → agrees k (lift r) (lift r).
Proof. by intros Hr s _. Qed.
Lemma agrees_ret {A} k (a : A) : agrees k (mret a) (mret a).
Proof. by intros s _. Qed.
Lemma agrees_fail {A} k e : e ≠ too_deep → agrees k (fail (A:=A) e) (fail e).
Proof. intros He s _. split_and!; [done|by intros [= ?]|done]. Qed.

Lemma cut_line_shorter s line rest : cut_line s = Some (line, rest) → (String.length rest < String.length s)%nat.
Proof.
  revert line. induction s as [|c s IH]; intros line H; [done|]. simpl in H |- *.
  destruct (Ascii.eqb c newline); [simplify_eq; lia|].
  destruct (cut_line s) as [[l r]|]; [|done]. simplify_eq. specialize (IH l eq_refl). lia.
Qed.

Lemma agrees_readLine k : agrees k readLine readLine.
Proof.
  intros s _. unfold readLine. destruct (cut_line s) as [[line rest]|] eqn:E; simpl; [|split_and!; [done..|lia]].
  apply cut_line_shorter in E. split_and!; [done..|lia].
Qed.

Lemma agrees_ReadFull k n : agrees k (ReadFull n) (ReadFull n).
Proof.
  intros s _. unfold ReadFull. repeat case_match; simpl; split_and!; try done; try lia.
  generalize (Z.to_nat n). clear. induction s as [|c s IH]; intros [|m]; simpl; try lia. specialize (IH m). lia.
Qed.

Lemma agrees_parse k line : agrees k (lift (parse_int line)) (lift (parse_int line)).
Proof. apply agrees_lift. unfold parse_int. by case_match. Qed.
Lemma agrees_make k which size n : agrees k (lift (make which size n)) (lift (make which size n)).
Proof. apply agrees_lift. unfold make. by case_match. Qed.

Create HintDb redis.
#[export] Hint Resolve agrees_bind agrees_ret agrees_readLine agrees_ReadFull agrees_parse agrees_make : redis.
#[export] Hint Extern 1 (agrees _ (fail _) _) => by apply agrees_fail : redis.
#[export] Hint Extern 1 (agrees _ (if ?c then _ else _) _) => destruct c eqn:? : redis.

Lemma agrees_read_n {A} k (m m' : io string A) n : agrees k m m' → agrees k (read_n m n) (read_n m' n).
Proof. intros Hm. induction n as [|n IH]; simpl; auto with redis. Qed.
#[export] Hint Resolve agrees_read_n : redis.

Lemma agrees_bulk k : agrees k readBulkString readBulkString.
Proof. unfold readBulkString. cbv zeta. eauto 10 with redis. Qed.
Lemma agrees_array k m m' : agrees k m m' → agrees k (readArray m) (readArray m').
Proof. intros Hm. unfold readArray. eauto 10 with redis. Qed.
#[export] Hint Resolve agrees_bulk agrees_array : redis.

Lemma read_nested_agrees fuel : ∀ fuel' k, (k < fuel)%nat → (k < fuel')%nat → agrees k (read_nested fuel) (read_nested fuel').
Proof.
  induction fuel as [|fuel IH]; intros [|fuel'] k Hk Hk'; try lia.
  intros [|c s] Hs; [done|]. simpl in Hs.
  assert (Hsub : ∀ A (m m' : io string A), agrees (pred k) m m' → m' s = m s ∧ (m s).1 ≠ Err too_deep ∧
    (String.length (m s).2 ≤ String.length (String c s))%nat).
  { intros A m m' Hm. destruct (Hm s) as (? & ? & ?); [lia|]. split_and!; [done..|simpl; lia]. }
  cbn [read_nested]. rewrite !io_bind_run. cbn [ReadByte].
  apply Hsub. assert (agrees (pred k) (read_nested fuel) (read_nested fuel')) by (destruct k; [lia|apply IH; simpl in *; lia]).
  repeat case_match; eauto 10 with redis.
Qed.

(** A reply of any nesting is read to its end or to an error of the protocol: the
    fuel of [readValue] is never used up, and more of it changes nothing. *)
Theorem readValue_terminates s :
  (readValue s).1 ≠ Err too_deep ∧ (String.length (readValue s).2 ≤ String.length s)%nat ∧
  ∀ fuel, (String.length s < fuel)%nat → read_nested fuel s = readValue s.
Proof.
  pose proof (λ fuel H, read_nested_agrees (S (String.length s)) fuel (String.length s) ltac:(lia) H s ltac:(lia)) as H.
  destruct (H (S (String.length s)) ltac:(lia)) as (_ & ? & ?). split_and!; [done..|]. intros fuel Hf. by destruct (H fuel Hf).
Qed.

(** ** The server, as it is documented *)

Inductive redis_entry : Type :=
  | RString (s : string)
  | RList (l : list string).

Abbreviation db := (gmap string redis_entry).

Definition nil_reply : string := "$-1" +:+ crlf.
Definition ok_reply : string := "+OK" +:+ crlf.
Definition count_reply (n : nat) : string := String colon (pretty (Z.of_nat n)) +:+ crlf.
Definition wrong_type : string :=
  "-WRONGTYPE Operation against a key holding the wrong kind of value" +:+ crlf.

(** The elements of a list, which no key without a list has. *)
Definition push (l : list string) (k : string) (d : db) : db :=
  if decide (l = []) then delete k d else <[k := RList l]> d.

(** SET, GET, RPUSH and LPOP: the reply, and the keys after it. *)
Inductive answers : list string → db → string → db → Prop :=
  | answers_set k v d : answers ["SET"; k; v] d ok_reply (<[k := RString v]> d)
  | answers_get k v d : d !! k = Some (RString v) → answers ["GET"; k] d (encode_arg v) d
  | answers_get_none k d : d !! k = None → answers ["GET"; k] d nil_reply d
  | answers_get_list k l d : d !! k = Some (RList l) → answers ["GET"; k] d wrong_type d
  | answers_push k v l d : d !! k = Some (RList l) → answers ["RPUSH"; k; v] d (count_reply (S (length l))) (push (l ++ [v]) k d)
  | answers_push_new k v d : d !! k = None → answers ["RPUSH"; k; v] d (count_reply 1) (push [v] k d)
  | answers_push_string k v s d : d !! k = Some (RString s) → answers ["RPUSH"; k; v] d wrong_type d
  | answers_pop k v l d : d !! k = Some (RList (v :: l)) → answers ["LPOP"; k] d (encode_arg v) (push l k d)
  | answers_pop_none k d : d !! k = None → answers ["LPOP"; k] d nil_reply d
  | answers_pop_string k s d : d !! k = Some (RString s) → answers ["LPOP"; k] d wrong_type d.

(** ** Calls on a store *)

Inductive job_call : Type :=
  | CCreate (j : Job)
  | CEnqueue (jobID : string)
  | CDequeue
  | CGet (jobID : string)
  | CUpdate (j : Job).

Inductive job_answer : Type :=
  | ADone
  | AText (s : string)
  | AJob (j : Job).

Definition run_call {F} (JS : JobStore F) (c : job_call) : io F job_answer :=
  match c with
  | CCreate j => _ ← job_Create j; mret ADone
  | CEnqueue jobID => _ ← job_Enqueue jobID; mret ADone
  | CDequeue => jobID ← job_Dequeue; mret (AText jobID)
  | CGet jobID => j ← job_Get jobID; mret (AJob j)
  | CUpdate j => _ ← job_Update j; mret ADone
  end.

(** The answers to a history of calls. *)
Fixpoint run_calls {F} (JS : JobStore F) (calls : list job_call) (s : F) : list (result job_answer) * F :=
  match calls with
  | [] => ([], s)
  | c :: calls =>
      let '(r, s) := run_call JS c s in
      let '(rs, s) := run_calls JS calls s in
      (r :: rs, s)
  end.

Lemma redis_key_inj s a b : redis_key s a = redis_key s b → a = b.
Proof.
  unfold redis_key. rewrite <- !app_str_assoc. generalize (redis_prefix s +:+ ":job:"). intros p.
  induction p as [|c p IH]; [done|]. rewrite !app_str_cons. intros [= H]. by apply IH.
Qed.

(** ** The store on Redis does what the store in memory does *)

Set Default Proof Using "Type*".
Section refinement.
Context {JC : JobCodecs} {W : Type} {RV : RedisServer W} (s : RedisStore).
Context (view : W → db).

Hypothesis exchange_answers : ∀ args reply d w,
  Forall fits args → answers args (view w) reply d →
  ∃ w', exchange (redis_addr (rst_Client s)) (redis_timeout (rst_Client s)) (encodeCommand args) w = (Ok reply, w') ∧ view w' = d.
Hypothesis queue_apart : ∀ id, redis_key s id ≠ redis_queue s.
Hypothesis queue_fits : fits (redis_queue s).

(** An identifier that is a key and an element of the queue. *)
Definition named (id : string) : Prop := id ≠ "" ∧ fits id ∧ fits (redis_key s id).

(** A job that JSON brings back: what is decoded is encoded and decoded to itself. *)
Definition storable (j : Job) : Prop :=
  named (jb_ID j) ∧ ∃ data, encode_Job j = Ok data ∧ fits data ∧
    decode_Job data = Ok (cloneJob j) ∧ cloneJob (cloneJob j) = cloneJob j.

Record represents (d : db) (m : JobMemory) : Prop := {
  rep_Jobs : ∀ id,
    match jm_Jobs m !! id with
    | None => d !! redis_key s id = None
    | Some j => ∃ data, d !! redis_key s id = Some (RString data) ∧ fits data ∧ decode_Job data = Ok j ∧ cloneJob j = j
    end;
  rep_Queue : d !! redis_queue s = (if decide (jm_Queue m = []) then None else Some (RList (jm_Queue m)));
  rep_Named : Forall named (jm_Queue m);
}.

(** The calls the two stores answer alike. *)
Definition admissible (m : JobMemory) (c : job_call) : Prop :=
  match c with
  | CCreate j => storable j
  | CUpdate j => storable j ∧ is_Some (jm_Jobs m !! jb_ID j)
  | CEnqueue id => named id ∧ Z.of_nat (length (jm_Queue m)) < 1099511627776
  | CGet id => named id
  | CDequeue => True
  end.

(** One command: the value is what the reply reads as. *)
Lemma Do_answers args reply d w : Forall fits args → args ≠ [] → answers args (view w) reply d →
  ∃ w', view w' = d ∧ Do (rst_Client s) args w =
    ((value ← (readValue reply).1; reject v_Nil value with ErrNil;; Ok value), w').
Proof.
  intros Hf Hne Ha. destruct (exchange_answers _ _ _ _ Hf Ha) as (w' & E & Hv). exists w'. split; [done|].
  unfold Do. destruct args; [done|]. cbn [length Nat.eqb]. rewrite io_bind_run, E. cbv iota beta.
  rewrite io_bind_run. unfold lift at 1. destruct (readValue reply).1 as [v|e]; simpl; [|done]. by destruct (v_Nil v).
Qed.
Lemma read_text v : fits v → (readValue (encode_arg v)).1 = Ok (text_value dollar v).
Proof.
  intros Hf. pose proof (read_arg (String.length (encode_arg v)) v "" Hf) as H. rewrite app_str_nil in H.
  unfold readValue. by rewrite H.
Qed.

Lemma read_nil : (readValue nil_reply).1 = Ok (nil_value dollar).
Proof. reflexivity. Qed.

Lemma read_count n : Z.of_nat n ≤ max_int64 → (readValue (count_reply n)).1 = Ok (int_value (Z.of_nat n)).
Proof.
  intros Hn. unfold readValue, count_reply. rewrite app_str_cons. cbn [String.length].
  change (read_nested (S (S ?n)) (String colon ?t)) with ((line ← readLine; z ← lift (parse_int line); mret (int_value z)) t).
  destruct (read_number (Z.of_nat n) "") as [Hr Hp]; [lia|]. rewrite app_str_nil in Hr.
  rewrite io_bind_run, Hr, io_bind_run. unfold lift. by rewrite Hp.
Qed.

Lemma put_represents d m j data :
  represents d m → encode_Job j = Ok data → fits data → decode_Job data = Ok (cloneJob j) → cloneJob (cloneJob j) = cloneJob j →
  represents (<[redis_key s (jb_ID j) := RString data]> d) (put_job j m).
Proof.
  intros [Hj Hq Hn] He Hf Hd Hc. split; unfold put_job; cbn [jm_Jobs jm_Queue]; [|by rewrite lookup_insert_ne by done|done].
  intros id. destruct (decide (id = jb_ID j)) as [->|Hne].
  - rewrite !lookup_insert_eq. eauto.
  - assert (redis_key s (jb_ID j) ≠ redis_key s id) by (by intros ?%redis_key_inj).
    rewrite !lookup_insert_ne by done. apply Hj.
Qed.

Lemma queue_represents d m q :
  represents d m → Forall named q → represents (push q (redis_queue s) d) (set_queue q m).
Proof.
  intros [Hj Hq Hn] Hq'. split; unfold set_queue; cbn [jm_Jobs jm_Queue]; [|unfold push|done].
  - intros id. specialize (Hj id). unfold push. pose proof (queue_apart id).
    destruct (decide (q = [])); [rewrite lookup_delete_ne by done|rewrite lookup_insert_ne by done]; done.
  - destruct (decide (q = [])); [by rewrite lookup_delete_eq|by rewrite lookup_insert_eq].
Qed.
(** Each call is admissible where the history has come to. *)
Fixpoint admissible_run (calls : list job_call) (m : JobMemory) : Prop :=
  match calls with
  | [] => True
  | c :: calls => admissible m c ∧ admissible_run calls (run_call memory_jobs c m).2
  end.

(** What the two stores answer to a call, and that they go on to stand for each other. *)
Definition simulates (c : job_call) (w : W) (m : JobMemory) : Prop :=
  (run_call (redis_jobs s) c w).1 = (run_call memory_jobs c m).1 ∧
  represents (view (run_call (redis_jobs s) c w).2) (run_call memory_jobs c m).2.

#[local] Opaque Do.
Lemma put_run w m j : represents (view w) m → storable j →
  ∃ w', redis_put s j w = (Ok tt, w') ∧ represents (view w') (put_job j m).
Proof.
  intros Hr ((_ & _ & Hk) & data & He & Hf & Hd & Hc).
  destruct (Do_answers ["SET"; redis_key s (jb_ID j); data] ok_reply (<[redis_key s (jb_ID j) := RString data]> (view w)) w)
    as (w' & Hv & E); [|done|constructor|].
  { repeat constructor; [done..|done]. }
  exists w'. split; [|rewrite Hv; by eapply put_represents].
  unfold redis_put. rewrite io_bind_run. unfold lift. by rewrite He, io_bind_run, E.
Qed.

Lemma get_run w m id : represents (view w) m → named id →
  ∃ w', Redis_Get s id w = ((match jm_Jobs m !! id with None => Err ErrJobNotFound | Some j => Ok j end), w') ∧
    view w' = view w ∧ ∀ j, jm_Jobs m !! id = Some j → cloneJob j = j.
Proof.
  intros [Hj _ _] (_ & _ & Hk). specialize (Hj id). unfold Redis_Get.
  assert (Forall fits ["GET"; redis_key s id]) as Hf by (by repeat constructor).
  destruct (jm_Jobs m !! id) as [j|].
  - destruct Hj as (data & Hd & Hfd & Hdec & Hc).
    destruct (Do_answers _ _ _ _ Hf ltac:(done) (answers_get _ _ _ Hd)) as (w' & Hv & E).
    exists w'. rewrite io_bind_run. unfold attempt. rewrite E, (read_text _ Hfd). cbn. rewrite Hdec.
    split_and!; [done..|]. by intros ? [= <-].
  - destruct (Do_answers _ _ _ _ Hf ltac:(done) (answers_get_none _ _ Hj)) as (w' & Hv & E).
    exists w'. rewrite io_bind_run. unfold attempt. rewrite E. done.
Qed.

#[local] Opaque Redis_Get redis_put.
Lemma redis_simulates c w m : represents (view w) m → admissible m c → simulates c w m.
Proof.
  intros Hr Ha. unfold simulates. destruct c as [j|id| |id|j]; simpl in Ha.
  - destruct (put_run w m j Hr Ha) as (w' & E & Hr').
    cbn [run_call job_Create redis_jobs memory_jobs]. unfold Redis_Create. rewrite !io_bind_run, E. done.
  - destruct Ha as [Hid Hlen]. cbn [run_call job_Enqueue redis_jobs memory_jobs]. unfold Redis_Enqueue, Memory_Enqueue.
    destruct (get_run w m id Hr Hid) as (w' & E & Hv & _). rewrite !io_bind_run, E. cbn.
    destruct (jm_Jobs m !! id) as [j|] eqn:Ej; [|rewrite bool_decide_true by done; cbn; by rewrite Hv].
    rewrite bool_decide_false by done. rewrite <- Hv in Hr. pose proof (rep_Queue _ _ Hr) as Hq.
    assert (Forall fits ["RPUSH"; redis_queue s; id]) as Hf by (repeat constructor; [done..|apply Hid]).
    assert (represents (push (jm_Queue m ++ [id]) (redis_queue s) (view w')) (set_queue (jm_Queue m ++ [id]) m)) as Hr'.
    { apply queue_represents; [done|]. apply Forall_app. split; [apply Hr|]. by constructor. }
    destruct (decide (jm_Queue m = [])) as [Hnil|Hne].
    + destruct (Do_answers _ _ _ w' Hf ltac:(done) (answers_push_new _ id _ Hq)) as (w2 & Hv2 & E2).
      rewrite io_bind_run, E2, read_count by (unfold max_int64; lia). cbn. rewrite Hv2.
      assert (push [id] (redis_queue s) (view w') = push (jm_Queue m ++ [id]) (redis_queue s) (view w')) as -> by (by rewrite Hnil).
      done.
    + destruct (Do_answers _ _ _ w' Hf ltac:(done) (answers_push _ id _ _ Hq)) as (w2 & Hv2 & E2).
      rewrite io_bind_run, E2, read_count by (unfold max_int64; lia). cbn. by rewrite Hv2.
  - cbn [run_call job_Dequeue redis_jobs memory_jobs]. unfold Redis_Dequeue, Memory_Dequeue. rewrite !io_bind_run.
    pose proof (rep_Queue _ _ Hr) as Hq. pose proof (rep_Named _ _ Hr) as Hn.
    assert (Forall fits ["LPOP"; redis_queue s]) as Hf by (by repeat constructor).
    cbn [gets]. unfold attempt. destruct (jm_Queue m) as [|id q] eqn:Em; simpl in Hq.
    + destruct (Do_answers _ _ _ w Hf ltac:(done) (answers_pop_none _ _ Hq)) as (w2 & Hv2 & E2).
      rewrite E2, read_nil. cbn. rewrite bool_decide_true by done. cbn. by rewrite Hv2.
    + destruct (Do_answers _ _ _ w Hf ltac:(done) (answers_pop _ _ _ _ Hq)) as (w2 & Hv2 & E2).
      apply Forall_cons in Hn as [(Hid & Hfid & Hkid) Hn].
      rewrite E2, (read_text _ Hfid). cbn.
      assert (empty_str id = false) as -> by (by apply String.eqb_neq). cbn. rewrite Hv2.
      split; [done|]. by apply queue_represents.
  - cbn [run_call job_Get redis_jobs memory_jobs]. unfold Memory_Get. rewrite !io_bind_run.
    destruct (get_run w m id Hr Ha) as (w' & E & Hv & Hc). rewrite E. cbn.
    destruct (jm_Jobs m !! id) as [j|] eqn:Ej; cbn; rewrite Hv; [|done]. by rewrite (Hc j eq_refl).
  - destruct Ha as [Hs [j' Hj']]. destruct (put_run w m j Hr Hs) as (w' & E & Hr').
    cbn [run_call job_Update redis_jobs memory_jobs]. unfold Redis_Update, Memory_Update. rewrite !io_bind_run, E. cbn.
    by rewrite Hj', bool_decide_false.
Qed.

(** C30. Over any history of calls the store on Redis answers what the store in memory answers,
    errors included, and its keys go on to hold the same jobs and the same queue: for jobs
    that JSON brings back, on a server that answers SET, GET, RPUSH and LPOP as documented.
    An update is of a job that exists; of another it is [Redis_Update_creates]. *)
Theorem redis_refines_memory calls w m :
  represents (view w) m → admissible_run calls m →
  (run_calls (redis_jobs s) calls w).1 = (run_calls memory_jobs calls m).1 ∧
  represents (view (run_calls (redis_jobs s) calls w).2) (run_calls memory_jobs calls m).2.
Proof.
  revert w m. induction calls as [|c calls IH]; intros w m Hr Ha; [done|]. destruct Ha as [Hc Ha].
  destruct (redis_simulates c w m Hr Hc) as [Ho Hr']. specialize (IH _ _ Hr' Ha) as [IHo IHr]. cbn [run_calls].
  destruct (run_call (redis_jobs s) c w) as [r w1], (run_call memory_jobs c m) as [r' m1]. simpl in *.
  destruct (run_calls (redis_jobs s) calls w1) as [rs w2], (run_calls memory_jobs calls m1) as [rs' m2].
  simpl in *. by subst.
Qed.

(** The one call that differs: a job that was never created is stored by an update. *)
Lemma Redis_Update_creates w m j : represents (view w) m → storable j → jm_Jobs m !! jb_ID j = None →
  (Redis_Update s j w).1 = Ok tt ∧ (Memory_Update j m).1 = Err ErrJobNotFound.
Proof.
  intros Hr Hs Hn. destruct (put_run w m j Hr Hs) as (w' & E & _). unfold Redis_Update, Memory_Update.
  rewrite E, io_bind_run. cbn. by rewrite Hn, bool_decide_true.
Qed.
End refinement.

(** A length below -1 that a server sends is not an error of the protocol: [make] panics. *)
Example negative_length_panics :
  (readValue ("$-5" +:+ crlf)).1 = Err (makeslice "len") ∧ (readValue ("*-2" +:+ crlf)).1 = Err (makeslice "cap").
Proof. split; reflexivity. Qed.

(** ** A server, and a worker's history on it *)

Definition serve (args : list string) (d : db) : string * db :=
  match args with
  | [command; k; v] =>
      if command ==s "SET" then (ok_reply, <[k := RString v]> d)
      else if command ==s "RPUSH" then
        match d !! k with
        | None => (count_reply 1, push [v] k d)
        | Some (RList l) => (count_reply (S (length l)), push (l ++ [v]) k d)
        | Some (RString _) => (wrong_type, d)
        end
      else (wrong_type, d)
  | [command; k] =>
      if command ==s "GET" then
        match d !! k with
        | None => (nil_reply, d)
        | Some (RString v) => (encode_arg v, d)
        | Some (RList _) => (wrong_type, d)
        end
      else if command ==s "LPOP" then
        match d !! k with
        | Some (RList (v :: l)) => (encode_arg v, push l k d)
        | Some (RString _) => (wrong_type, d)
        | _ => (nil_reply, d)
        end
      else (wrong_type, d)
  | _ => (wrong_type, d)
  end.

#[local] Instance test_server : RedisServer db := {|
  exchange _ _ text d :=
    match readValue text with
    | (Ok command, "") => let '(reply, d) := serve (v_String <$> v_Array command) d in (Ok reply, d)
    | _ => (Err EOF, d)
    end |}.

Lemma serve_answers args d reply d' : answers args d reply d' → serve args d = (reply, d').
Proof. destruct 1; simpl; simplify_option_eq; done. Qed.

Lemma test_server_answers args reply d w :
  Forall fits args → answers args w reply d →
  ∃ w', exchange "127.0.0.1:6379" (5 * second) (encodeCommand args) w = (Ok reply, w') ∧ w' = d.
Proof.
  intros Hf Ha. exists d. split; [|done]. cbn [exchange test_server].
  rewrite <- (app_str_nil (encodeCommand args)), read_command; [|done|destruct Ha; simpl; lia]. cbn [v_Array array_value].
  rewrite <- list_fmap_compose. assert ((v_String ∘ text_value dollar) <$> args = args) as ->.
  { clear. induction args as [|a l IH]; [done|]. by rewrite fmap_cons, IH. }
  by rewrite (serve_answers _ _ _ _ Ha).
Qed.

(** A job is its identifier and its status, in a text of two lines. *)
#[local] Instance test_codecs : JobCodecs := {|
  encode_Job j := Ok (jb_ID j +:+ String newline (jb_Status j));
  decode_Job text :=
    match cut_line text with
    | Some (id, status) => Ok (with_status status 0 {| jb_ID := id; jb_Type := ""; jb_Status := ""; jb_CreatedAt := 0; jb_UpdatedAt := 0;
        jb_CreatedBy := ""; jb_Payload := ""; jb_Result := ""; jb_Error := "" |})
    | None => Err EOF
    end;
  encode_SimulationPayload p := Ok (spl_PolicyFile p);
  decode_SimulationPayload text := Err EOF;
  encode_SimulationResult r := Ok (smr_Status r);
|}.

Definition test_job (status : string) : Job := {|
  jb_ID := "job-1"; jb_Type := TypeSimulation; jb_Status := status; jb_CreatedAt := 0; jb_UpdatedAt := 0;
  jb_CreatedBy := "ciso"; jb_Payload := ""; jb_Result := ""; jb_Error := "" |}.

Lemma default_queue_apart addr id : redis_key (NewRedisStore addr) id ≠ redis_queue (NewRedisStore addr).
Proof. unfold redis_key. by rewrite !app_str_cons. Qed.

Lemma no_jobs_represented s : represents s ∅ no_jobs.
Proof. split; simpl; [|by rewrite lookup_empty|done]. intros id. by rewrite !lookup_empty. Qed.

Definition test_history : list job_call :=
  [CDequeue; CGet "job-1"; CCreate (test_job StatusPending); CEnqueue "job-1"; CEnqueue "job-2"; CDequeue; CGet "job-1";
   CUpdate (test_job StatusRunning); CGet "job-1"; CDequeue].

Lemma test_named id : id ∈ ["job-1"; "job-2"] → named (NewRedisStore "") id.
Proof. intros H. set_unfold in H. by destruct H as [->|[->|[]]]. Qed.

Lemma test_storable status : status ∈ [StatusPending; StatusRunning] → storable (NewRedisStore "") (test_job status).
Proof.
  intros H. split; [apply test_named; set_solver|]. set_unfold in H.
  destruct H as [->|[->|[]]]; (eexists; split; [reflexivity|by vm_compute]).
Qed.

Lemma test_admissible : admissible_run (NewRedisStore "") test_history no_jobs.
Proof.
  assert (named (NewRedisStore "") "job-1" ∧ named (NewRedisStore "") "job-2") as [H1 H2]
    by (split; apply test_named; set_solver).
  assert (storable (NewRedisStore "") (test_job StatusPending) ∧ storable (NewRedisStore "") (test_job StatusRunning)) as [S1 S2]
    by (split; apply test_storable; set_solver).
  unfold test_history. cbn [admissible_run admissible]. split_and!; try done; try by vm_compute.
Qed.

Definition status_of (r : result job_answer) : string :=
  match r with Ok (AJob j) => jb_Status j | _ => "" end.

Lemma redis_refines_memory_witness :
  (run_calls (redis_jobs (NewRedisStore "")) test_history (∅ : db)).1 = (run_calls memory_jobs test_history no_jobs).1 ∧
  (status_of <$> (run_calls memory_jobs test_history no_jobs).1) =
    [""; ""; ""; ""; ""; ""; StatusPending; ""; StatusRunning; ""].
Proof.
  split.
  - apply (redis_refines_memory (NewRedisStore "") id); [apply test_server_answers|apply default_queue_apart|vm_compute; reflexivity|apply no_jobs_represented|apply test_admissible].
  - vm_compute. reflexivity.
Defined.

Lemma encodeCommand_read_back_witness : ∃ text,
  text = encodeCommand ["SET"; "k"; "1" +:+ crlf +:+ "+OK" +:+ crlf] ∧
  readValue text = (Ok (array_value (text_value dollar <$> ["SET"; "k"; "1" +:+ crlf +:+ "+OK" +:+ crlf])), "").
Proof.
  eexists. split; [reflexivity|].
  destruct (encodeCommand_read_back ["SET"; "k"; "1" +:+ crlf +:+ "+OK" +:+ crlf] "") as [H _];
    [repeat constructor; vm_compute; reflexivity|vm_compute; reflexivity|].
  rewrite app_str_nil in H. exact H.
Defined.
