(* ===== verification/JobsProofs.v ===== *)
(** * What becomes of jobs ([internal/forge/jobs])

    Submitters and workers that run at the same time: every method of the store is one
    step, and each of them may be interrupted between two steps, or die.  A job is run
    at most once, and is finished, waiting, or held by somebody, unless its holder died;
    a worker that is run often enough empties the queue, and finishes every job on which the
    compiler does not panic. *)

From stdpp Require Import options.
From stdpp Require Import gmap.
From S2P Require Import Prelude IO GoStrings GoTime GoJson GoEncoding GoPath GoFloat Schema.
From S2P Require Import Registry ArtifactStore AdapterManifests Compiler CompilerEmit Jobs.
#[local] Open Scope Z_scope.

Set Default Proof Using "Type*".

(** ** Copies *)

(** A raw message that JSON copies as it is. *)
Definition raw_ok `{JSONSyntax} (s : string) : Prop := json_valid s = true ∧ compact s = s.

(** The texts the program gives a job; who submitted it and why it failed are arbitrary. *)
Record job_text `{JSONSyntax} (j : Job) : Prop := {
  jt_id : is_ascii (jb_ID j) = true;
  jt_type : is_ascii (jb_Type j) = true;
  jt_status : is_ascii (jb_Status j) = true;
  jt_payload : raw_ok (jb_Payload j);
  jt_result : jb_Result j = "" ∨ raw_ok (jb_Result j);
  jt_created : time_ok (jb_CreatedAt j);
  jt_updated : time_ok (jb_UpdatedAt j);
}.

Definition copy_of (j j' : Job) : Prop :=
  jb_ID j' = jb_ID j ∧ jb_Type j' = jb_Type j ∧ jb_Status j' = jb_Status j ∧
  jb_Payload j' = jb_Payload j ∧ jb_Result j' = jb_Result j ∧
  jb_CreatedAt j' = jb_CreatedAt j ∧ jb_UpdatedAt j' = jb_UpdatedAt j.

(** [json.Unmarshal] reads what [json.Marshal] writes; texts that are not UTF-8 are not
    written as they are. *)
Definition faithful_codecs `{JSONSyntax} `{JobCodecs} : Prop :=
  ∀ j, job_text j → ∃ data j', encode_Job j = Ok data ∧ decode_Job data = Ok j' ∧ copy_of j j'.

(** ** Submitters and workers *)

(** Where a handler or a worker is, and the job it has. *)
Inductive process :=
  | Submitting (id : string)   (* created, not yet in the queue *)
  | Taken (id : string)        (* out of the queue *)
  | Loaded (j : Job)           (* read, to be marked as running *)
  | Working (j : Job)
  | Finishing (j : Job).       (* run, to be stored *)

Definition held (p : process) : string :=
  match p with
  | Submitting id | Taken id => id
  | Loaded j | Working j | Finishing j => jb_ID j
  end.

(** [sys_ran] and [sys_lost] only record: what was run, and whose holder died. *)
Record system := Sys {
  sys_store : JobMemory;
  sys_procs : list process;
  sys_ran : list string;
  sys_lost : list string;
}.

Definition terminal (status : string) : Prop := status = StatusSucceeded ∨ status = StatusFailed.

Section system.
Context {JS : JSONSyntax} {JC : JobCodecs}.

Inductive step : system → system → Prop :=
  | step_create s ps ran lost j s' :
      jm_Jobs s !! jb_ID j = None → job_text j → jb_Status j = StatusPending →
      Memory_Create j s = (Ok tt, s') →
      step (Sys s ps ran lost)
           (Sys s' (Submitting (jb_ID j) :: ps) ran lost)
  | step_enqueue s l1 l2 ran lost id s' :
      Memory_Enqueue id s = (Ok tt, s') →
      step (Sys s (l1 ++ Submitting id :: l2) ran lost)
           (Sys s' (l1 ++ l2) ran lost)
  | step_dequeue s ps ran lost id s' :
      Memory_Dequeue s = (Ok id, s') →
      step (Sys s ps ran lost)
           (Sys s' (Taken id :: ps) ran lost)
  | step_get s l1 l2 ran lost id j now s' :
      Memory_Get id s = (Ok j, s') → time_ok now →
      step (Sys s (l1 ++ Taken id :: l2) ran lost)
           (Sys s' (l1 ++ Loaded (with_status StatusRunning now j) :: l2) ran lost)
  | step_start s l1 l2 ran lost j s' :
      Memory_Update j s = (Ok tt, s') →
      step (Sys s (l1 ++ Loaded j :: l2) ran lost)
           (Sys s' (l1 ++ Working j :: l2) ran lost)
  | step_succeed s l1 l2 ran lost j data now :
      raw_ok data → time_ok now →
      step (Sys s (l1 ++ Working j :: l2) ran lost)
           (Sys s (l1 ++ Finishing (with_status StatusSucceeded now (with_outcome data "" j)) :: l2) (jb_ID j :: ran) lost)
  | step_fail s l1 l2 ran lost j text now :
      time_ok now →
      step (Sys s (l1 ++ Working j :: l2) ran lost)
           (Sys s (l1 ++ Finishing (with_status StatusFailed now (with_outcome (jb_Result j) text j)) :: l2) (jb_ID j :: ran) lost)
  | step_store s l1 l2 ran lost j s' :
      Memory_Update j s = (Ok tt, s') →
      step (Sys s (l1 ++ Finishing j :: l2) ran lost)
           (Sys s' (l1 ++ l2) ran lost)
  | step_die s l1 l2 ran lost p :
      step (Sys s (l1 ++ p :: l2) ran lost)
           (Sys s (l1 ++ l2) ran (held p :: lost)).

Definition nothing : system :=
  Sys no_jobs [] [] [].

(** ** The invariant *)

(** Everything that is somewhere: in the queue, in a process, or lost. *)
Definition places (s : JobMemory) (ps : list process) (lost : list string) : list string :=
  jm_Queue s ++ (held <$> ps) ++ lost.

(** What the store holds of the job of a process, and the process's own copy. *)
Definition process_ok (jobs : gmap string Job) (ran : list string) (p : process) : Prop :=
  ∃ stored, jobs !! held p = Some stored ∧ job_text stored ∧ jb_ID stored = held p ∧
  match p with
  | Submitting id | Taken id => jb_Status stored = StatusPending ∧ id ∉ ran
  | Loaded j => jb_Status stored = StatusPending ∧ jb_ID j ∉ ran ∧ job_text j ∧ jb_Status j = StatusRunning
  | Working j => jb_Status stored = StatusRunning ∧ jb_ID j ∉ ran ∧ job_text j
  | Finishing j => jb_Status stored = StatusRunning ∧ job_text j ∧ terminal (jb_Status j)
  end.

Record system_ok (s : JobMemory) (ps : list process) (ran lost : list string) : Prop := {
  so_once : NoDup (places s ps lost);
  so_ran : NoDup ran;
  so_ran_known id : id ∈ ran → is_Some (jm_Jobs s !! id);
  so_queue id : id ∈ jm_Queue s → process_ok (jm_Jobs s) ran (Taken id);
  so_procs p : p ∈ ps → process_ok (jm_Jobs s) ran p;
  so_lost id : id ∈ lost → is_Some (jm_Jobs s !! id);
  so_jobs id j : jm_Jobs s !! id = Some j →
    jb_ID j = id ∧ job_text j ∧ (terminal (jb_Status j) ∧ id ∉ places s ps lost ∨ id ∈ places s ps lost);
}.

(** ** Keeping it *)

Context (Hcodec : faithful_codecs).

Lemma cloneJob_copy j : job_text j → copy_of j (cloneJob j) ∧ job_text (cloneJob j).
Proof.
  intros Hj. destruct (Hcodec j Hj) as (data & j' & He & Hd & Hc). unfold cloneJob. rewrite He. simpl.
  rewrite Hd. split; [done|]. destruct Hj, Hc as (E1 & E2 & E3 & E4 & E5 & E6 & E7).
  split; rewrite ?E1, ?E2, ?E3, ?E4, ?E5, ?E6, ?E7; done.
Qed.

Lemma process_ok_other jobs jobs' ran ran' p :
  jobs' !! held p = jobs !! held p → (held p ∉ ran → held p ∉ ran') →
  process_ok jobs ran p → process_ok jobs' ran' p.
Proof.
  intros Hj Hr (stored & Hs & Ht & Hid & H). exists stored. rewrite Hj. split_and!; try done.
  destruct p; simpl in *; naive_solver.
Qed.

(** The other places are for other jobs. *)
Lemma places_other s l1 p l2 lost :
  NoDup (places s (l1 ++ p :: l2) lost) →
  held p ∉ jm_Queue s ∧ held p ∉ held <$> l1 ++ l2 ∧ held p ∉ lost.
Proof.
  unfold places. intros H.
  assert (Hp : jm_Queue s ++ (held <$> l1 ++ p :: l2) ++ lost ≡ₚ
               held p :: jm_Queue s ++ (held <$> l1 ++ l2) ++ lost).
  { rewrite !fmap_app, fmap_cons. solve_Permutation. }
  rewrite Hp in H. apply NoDup_cons in H as [H _]. rewrite !elem_of_app in H. naive_solver.
Qed.

Lemma advance s s' l1 p p' l2 ran ran' lost :
  system_ok s (l1 ++ p :: l2) ran lost → held p' = held p → jm_Queue s' = jm_Queue s →
  (∀ id, id ≠ held p → jm_Jobs s' !! id = jm_Jobs s !! id) →
  (∃ j', jm_Jobs s' !! held p = Some j' ∧ jb_ID j' = held p ∧ job_text j') →
  ran' = ran ∨ (ran' = held p :: ran ∧ held p ∉ ran) →
  process_ok (jm_Jobs s') ran' p' → system_ok s' (l1 ++ p' :: l2) ran' lost.
Proof.
  intros [Honce Hran Hknown Hq Hp Hlost Hjobs] Hheld Hqueue Hother (j' & Hj' & Hid & Htext) Hran' Hp'.
  assert (Hpl : places s' (l1 ++ p' :: l2) lost = places s (l1 ++ p :: l2) lost).
  { unfold places. by rewrite Hqueue, !fmap_app, !fmap_cons, Hheld. }
  destruct (places_other _ _ _ _ _ Honce) as (Nq & Nh & Nl).
  assert (Hsome : ∀ id, is_Some (jm_Jobs s !! id) → is_Some (jm_Jobs s' !! id)).
  { intros id Hi. destruct (decide (id = held p)) as [->|Hne]; [by eexists|by rewrite Hother]. }
  assert (Hstays : ∀ q, held q ≠ held p → process_ok (jm_Jobs s) ran q → process_ok (jm_Jobs s') ran' q).
  { intros q Hne. apply process_ok_other; [by apply Hother|]. destruct Hran' as [->|[-> _]]; set_solver. }
  constructor.
  - by rewrite Hpl.
  - destruct Hran' as [->|[-> Hn]]; [done|]. by constructor.
  - intros id Hi. destruct Hran' as [->|[-> Hn]]; [by apply Hsome, Hknown|].
    apply elem_of_cons in Hi as [->|Hi]; [by eexists|by apply Hsome, Hknown].
  - intros id Hi. rewrite Hqueue in Hi. apply Hstays; [|by apply Hq]. simpl. by intros ->.
  - intros q Hin. apply elem_of_app in Hin as [Hin|[->|Hin]%elem_of_cons]; [|done|].
    + apply Hstays; [|apply Hp; set_solver]. intros E. apply Nh. rewrite <- E.
      apply list_elem_of_fmap_2. set_solver.
    + apply Hstays; [|apply Hp; set_solver]. intros E. apply Nh. rewrite <- E.
      apply list_elem_of_fmap_2. set_solver.
  - intros id Hi. by apply Hsome, Hlost.
  - intros id j Hl. rewrite Hpl. destruct (decide (id = held p)) as [->|Hne].
    + rewrite Hj' in Hl. injection Hl as <-. split_and!; [done..|right].
      unfold places. rewrite !fmap_app, fmap_cons. set_solver.
    + rewrite Hother in Hl by done. by apply Hjobs.
Qed.

(** A process that ends, or dies. *)
Lemma leave s s' l1 p l2 ran lost lost' :
  system_ok s (l1 ++ p :: l2) ran lost → jm_Queue s' = jm_Queue s →
  (∀ id, id ≠ held p → jm_Jobs s' !! id = jm_Jobs s !! id) →
  (∃ j', jm_Jobs s' !! held p = Some j' ∧ jb_ID j' = held p ∧ job_text j' ∧
         (terminal (jb_Status j') ∧ lost' = lost ∨ lost' = held p :: lost)) →
  system_ok s' (l1 ++ l2) ran lost'.
Proof.
  intros [Honce Hran Hknown Hq Hp Hlost Hjobs] Hqueue Hother (j' & Hj' & Hid & Htext & Hend).
  destruct (places_other _ _ _ _ _ Honce) as (Nq & Nh & Nl).
  assert (Hpl : places s (l1 ++ p :: l2) lost ≡ₚ held p :: places s' (l1 ++ l2) lost).
  { unfold places. rewrite Hqueue, !fmap_app, fmap_cons. solve_Permutation. }
  assert (Hsome : ∀ id, is_Some (jm_Jobs s !! id) → is_Some (jm_Jobs s' !! id)).
  { intros id Hi. destruct (decide (id = held p)) as [->|Hne]; [by eexists|by rewrite Hother]. }
  assert (Hstays : ∀ q, held q ≠ held p → process_ok (jm_Jobs s) ran q → process_ok (jm_Jobs s') ran q).
  { intros q Hne. apply process_ok_other; [by apply Hother|done]. }
  assert (Hpl' : ∀ id, id ≠ held p → id ∈ places s (l1 ++ p :: l2) lost ↔ id ∈ places s' (l1 ++ l2) lost').
  { intros id Hne. rewrite Hpl. unfold places. destruct Hend as [[_ ->]| ->]; set_solver. }
  constructor; try done.
  - rewrite Hpl in Honce. apply NoDup_cons in Honce as [Hn Honce]. destruct Hend as [[_ ->]| ->]; [done|].
    assert (Hp2 : places s' (l1 ++ l2) (held p :: lost) ≡ₚ held p :: places s' (l1 ++ l2) lost)
      by (unfold places; solve_Permutation).
    rewrite Hp2. by constructor.
  - intros id Hi. by apply Hsome, Hknown.
  - intros id Hi. rewrite Hqueue in Hi. apply Hstays; [|by apply Hq]. simpl. by intros ->.
  - intros q Hin. apply Hstays; [|apply Hp; set_solver]. intros E. apply Nh. rewrite <- E.
    by apply list_elem_of_fmap_2.
  - intros id Hi. destruct Hend as [[_ ->]| ->]; [by apply Hsome, Hlost|].
    apply elem_of_cons in Hi as [->|Hi]; [by eexists|by apply Hsome, Hlost].
  - intros id j Hl. destruct (decide (id = held p)) as [->|Hne].
    + rewrite Hj' in Hl. injection Hl as <-. split_and!; [done..|]. destruct Hend as [[Ht ->]| ->].
      * left. split; [done|]. rewrite Hpl in Honce. by apply NoDup_cons in Honce as [? _].
      * right. unfold places. set_solver.
    + rewrite Hother in Hl by done. destruct (Hjobs id j Hl) as (? & ? & H). split_and!; try done.
      by rewrite <- Hpl' by done.
Qed.

Lemma create_ok s ps ran lost j s' :
  system_ok s ps ran lost → jm_Jobs s !! jb_ID j = None → job_text j → jb_Status j = StatusPending →
  Memory_Create j s = (Ok tt, s') → system_ok s' (Submitting (jb_ID j) :: ps) ran lost.
Proof.
  intros [Honce Hran Hknown Hq Hp Hlost Hjobs] Hnew Ht Hst ->%modify_Ok.
  destruct (cloneJob_copy j Ht) as [(Cid & _ & Cst & _) Ct].
  assert (Hplace : ∀ id, id ∈ places s ps lost → id ≠ jb_ID j).
  { intros id Hin ->. unfold places in Hin. rewrite !elem_of_app, list_elem_of_fmap in Hin.
    destruct Hin as [Hin|[(p & Hheld & Hin)|Hin]].
    - destruct (Hq _ Hin) as (st & Hl & _). simpl in Hl. congruence.
    - destruct (Hp _ Hin) as (st & Hl & _). rewrite <- Hheld in Hl. congruence.
    - destruct (Hlost _ Hin). congruence. }
  assert (Hran' : jb_ID j ∉ ran) by (intros Hin; destruct (Hknown _ Hin); congruence).
  assert (Hpl : places (put_job j s) (Submitting (jb_ID j) :: ps) lost ≡ₚ jb_ID j :: places s ps lost).
  { unfold places. rewrite fmap_cons. simpl. solve_Permutation. }
  assert (Hstays : ∀ q, held q ∈ places s ps lost → process_ok (jm_Jobs s) ran q →
    process_ok (jm_Jobs (put_job j s)) ran q).
  { intros q Hin. apply process_ok_other; [|done]. simpl. apply lookup_insert_ne.
    by symmetry; apply Hplace. }
  assert (Hsome : ∀ id, is_Some (jm_Jobs s !! id) → is_Some (jm_Jobs (put_job j s) !! id)).
  { intros id Hi. simpl. apply lookup_insert_is_Some. destruct (decide (jb_ID j = id)); auto. }
  constructor.
  - rewrite Hpl. constructor; [|done]. intros Hin. by eapply Hplace.
  - done.
  - intros id Hi. by apply Hsome, Hknown.
  - intros id Hi. apply Hstays; [|by apply Hq]. unfold places. simpl. set_solver.
  - intros q [->|Hin]%elem_of_cons.
    + exists (cloneJob j). simpl. rewrite lookup_insert_eq, Cst. by split_and!.
    + apply Hstays; [|by apply Hp]. unfold places. rewrite !elem_of_app. right; left.
      by apply list_elem_of_fmap_2.
  - intros id Hi. by apply Hsome, Hlost.
  - intros id k. simpl. rewrite lookup_insert. case_decide as Hk.
    + intros [= <-]. subst id. split_and!; [done..|]. right. rewrite Hpl. left.
    + intros Hl. destruct (Hjobs _ _ Hl) as (? & ? & H). split_and!; try done. rewrite Hpl.
      destruct H as [[? H]|H]; [left; split; [done|]; set_solver|right; by right].
Qed.

(** Moving an identifier between the queue and a process changes nothing else. *)
Lemma move_ok s s' ps ps' ran lost :
  system_ok s ps ran lost → jm_Jobs s' = jm_Jobs s → places s' ps' lost ≡ₚ places s ps lost →
  (∀ id, id ∈ jm_Queue s' → process_ok (jm_Jobs s) ran (Taken id)) →
  (∀ p, p ∈ ps' → process_ok (jm_Jobs s) ran p) → system_ok s' ps' ran lost.
Proof.
  intros [Honce Hran Hknown Hq Hp Hlost Hjobs] Hj Hpl Hq' Hp'.
  constructor; rewrite ?Hj, ?Hpl; try done. intros id j Hl. destruct (Hjobs _ _ Hl) as (? & ? & H).
  split_and!; try done. by rewrite Hpl.
Qed.

Lemma Memory_Enqueue_Ok id s s' :
  Memory_Enqueue id s = (Ok tt, s') → s' = set_queue (jm_Queue s ++ [id]) s.
Proof. unfold Memory_Enqueue. intros H. run H. run_all. by apply modify_Ok in H. Qed.

Lemma Memory_Dequeue_Ok id s s' :
  Memory_Dequeue s = (Ok id, s') → ∃ queue, jm_Queue s = id :: queue ∧ s' = set_queue queue s.
Proof.
  unfold Memory_Dequeue. intros H. run H. run_all. destruct (jm_Queue s) as [|id' queue]; run H.
  apply modify_Ok in Hr as ->. by exists queue.
Qed.

Lemma Memory_Get_Ok id j s s' :
  Memory_Get id s = (Ok j, s') → s' = s ∧ ∃ stored, jm_Jobs s !! id = Some stored ∧ j = cloneJob stored.
Proof.
  unfold Memory_Get. intros H. run H. run_all. destruct (jm_Jobs s !! id) as [stored|]; run H.
  split; [done|]. by exists stored.
Qed.

Lemma Memory_Update_Ok j s s' :
  Memory_Update j s = (Ok tt, s') → is_Some (jm_Jobs s !! jb_ID j) ∧ s' = put_job j s.
Proof.
  unfold Memory_Update. intros H. run H. run_all. apply modify_Ok in H as ->. split; [|done].
  apply bool_decide_eq_false in Hg. by apply not_eq_None_Some in Hg.
Qed.

Lemma put_other j s id : id ≠ jb_ID j → jm_Jobs (put_job j s) !! id = jm_Jobs s !! id.
Proof using Type. intros H. simpl. by rewrite lookup_insert_ne. Qed.

Lemma put_same j s : jm_Jobs (put_job j s) !! jb_ID j = Some (cloneJob j).
Proof using Type. simpl. apply lookup_insert_eq. Qed.

Lemma status_text status now j :
  status = StatusRunning ∨ terminal status → time_ok now → job_text j → job_text (with_status status now j).
Proof using Type.
  intros Hs Hn [T1 T2 T3 T4 T5 T6 T7]. constructor; simpl; try done.
  destruct Hs as [->|[->| ->]]; reflexivity.
Qed.

Lemma outcome_text data error j :
  data = "" ∨ raw_ok data → job_text j → job_text (with_outcome data error j).
Proof using Type. intros Hd [T1 T2 T3 T4 T5 T6 T7]. by constructor. Qed.

(** Every step keeps the invariant. *)
Lemma step_ok x y :
  step x y → system_ok (sys_store x) (sys_procs x) (sys_ran x) (sys_lost x) →
  system_ok (sys_store y) (sys_procs y) (sys_ran y) (sys_lost y).
Proof.
  destruct 1 as [s ps ran lost j s' Hnew Ht Hst Hc|s l1 l2 ran lost id s' He|s ps ran lost id s' Hd|
    s l1 l2 ran lost id j now s' Hg Hnow|s l1 l2 ran lost j s' Hu|s l1 l2 ran lost j data now Hdata Hnow|
    s l1 l2 ran lost j text now Hnow|s l1 l2 ran lost j s' Hu|s l1 l2 ran lost p]; simpl; intros Hok.
  - by eapply create_ok.
  - apply Memory_Enqueue_Ok in He as ->. apply (move_ok _ _ _ _ _ _ Hok); [done|..].
    + unfold places. simpl. rewrite !fmap_app, fmap_cons. simpl. solve_Permutation.
    + intros id' [Hin| ->%list_elem_of_singleton]%elem_of_app; [by apply (so_queue _ _ _ _ Hok)|].
      apply (so_procs _ _ _ _ Hok (Submitting id)). set_solver.
    + intros p Hp. apply (so_procs _ _ _ _ Hok). set_solver.
  - apply Memory_Dequeue_Ok in Hd as (queue & Hq & ->). apply (move_ok _ _ _ _ _ _ Hok); [done|..].
    + unfold places. rewrite Hq, fmap_cons. simpl. solve_Permutation.
    + intros id' Hin. apply (so_queue _ _ _ _ Hok). rewrite Hq. by right.
    + intros p [->|Hp]%elem_of_cons; [|by apply (so_procs _ _ _ _ Hok)].
      apply (so_queue _ _ _ _ Hok). rewrite Hq. left.
  - apply Memory_Get_Ok in Hg as (-> & stored & Hl & ->).
    destruct (so_procs _ _ _ _ Hok (Taken id)) as (st & Hl' & Htext & Hid & Hst & Hr); [set_solver|].
    simpl in Hl', Hid. assert (st = stored) as -> by congruence.
    destruct (cloneJob_copy _ Htext) as [(Cid & _) Ct].
    apply (advance _ _ _ (Taken id) _ _ _ _ _ Hok); try done.
    + simpl. by rewrite Cid.
    + by exists stored.
    + by left.
    + exists stored. simpl. rewrite Cid, Hid. split_and!; try done.
      apply status_text; [by left|done..].
  - apply Memory_Update_Ok in Hu as [_ ->].
    destruct (so_procs _ _ _ _ Hok (Loaded j)) as (st & Hl & Htext & Hid & Hst & Hr & Hj & Hjs); [set_solver|].
    destruct (cloneJob_copy _ Hj) as [(Cid & _ & Cst & _) Ct].
    apply (advance _ _ _ (Loaded j) _ _ _ _ _ Hok); try done.
    + intros id Hne. by apply put_other.
    + exists (cloneJob j). split_and!; [apply put_same|done..].
    + by left.
    + exists (cloneJob j). split_and!; [apply put_same|try done..]. by rewrite Cst.
  - destruct (so_procs _ _ _ _ Hok (Working j)) as (st & Hl & Htext & Hid & Hst & Hr & Hj); [set_solver|].
    apply (advance _ _ _ (Working j) _ _ _ _ _ Hok); try done.
    + by exists st.
    + right. done.
    + exists st. split_and!; try done; [|by left].
      apply status_text; [by right; left|done|]. apply outcome_text; [by right|done].
  - destruct (so_procs _ _ _ _ Hok (Working j)) as (st & Hl & Htext & Hid & Hst & Hr & Hj); [set_solver|].
    apply (advance _ _ _ (Working j) _ _ _ _ _ Hok); try done.
    + by exists st.
    + right. done.
    + exists st. split_and!; try done; [|by right].
      apply status_text; [by right; right|done|]. apply outcome_text; [by apply jt_result|done].
  - apply Memory_Update_Ok in Hu as [_ ->].
    destruct (so_procs _ _ _ _ Hok (Finishing j)) as (st & Hl & Htext & Hid & Hst & Hj & Hterm); [set_solver|].
    destruct (cloneJob_copy _ Hj) as [(Cid & _ & Cst & _) Ct].
    apply (leave _ _ _ (Finishing j) _ _ _ _ Hok); try done.
    + intros id Hne. by apply put_other.
    + exists (cloneJob j). split_and!; [apply put_same|done..|]. left. by rewrite Cst.
  - destruct (so_procs _ _ _ _ Hok p) as (st & Hl & Htext & Hid & _); [set_solver|].
    apply (leave _ _ _ p _ _ _ _ Hok); try done. exists st. split_and!; try done. by right.
Qed.

(** A job that is finished stays as it is. *)
Lemma step_finished x y id j :
  step x y → system_ok (sys_store x) (sys_procs x) (sys_ran x) (sys_lost x) →
  jm_Jobs (sys_store x) !! id = Some j → terminal (jb_Status j) →
  jm_Jobs (sys_store y) !! id = Some j.
Proof.
  assert (Hp : ∀ s ps ran lost p, system_ok s ps ran lost → p ∈ ps → ∀ j', jm_Jobs s !! id = Some j' →
    terminal (jb_Status j') → (match p with Loaded _ | Finishing _ => True | _ => False end) → held p ≠ id).
  { intros s ps ran lost p Hok Hin j' Hl Ht Hm E. destruct (so_procs _ _ _ _ Hok p Hin) as (st & Hs & _ & _ & H).
    rewrite E, Hl in Hs. injection Hs as ->. destruct p; try done; destruct H as (H & _); rewrite H in Ht;
      by destruct Ht. }
  destruct 1 as [s ps ran lost k s' Hnew _ _ Hc|s l1 l2 ran lost k s' He|s ps ran lost k s' Hd|
    s l1 l2 ran lost k j' now s' Hg _|s l1 l2 ran lost k s' Hu| | |s l1 l2 ran lost k s' Hu|];
    simpl; intros Hok Hl Ht; try done.
  - apply modify_Ok in Hc as ->. rewrite put_other; [done|]. intros ->. congruence.
  - by apply Memory_Enqueue_Ok in He as ->.
  - by apply Memory_Dequeue_Ok in Hd as (queue & _ & ->).
  - by apply Memory_Get_Ok in Hg as [-> _].
  - apply Memory_Update_Ok in Hu as [_ ->]. rewrite put_other; [done|].
    symmetry. apply (Hp _ _ _ _ (Loaded k) Hok ltac:(set_solver) j Hl Ht I).
  - apply Memory_Update_Ok in Hu as [_ ->]. rewrite put_other; [done|].
    symmetry. apply (Hp _ _ _ _ (Finishing k) Hok ltac:(set_solver) j Hl Ht I).
Qed.

Lemma nothing_ok : system_ok no_jobs [] [] [].
Proof.
  constructor; simpl; try (by constructor); by intros ? ?%elem_of_nil.
Qed.

Lemma steps_ok x y :
  rtc step x y → system_ok (sys_store x) (sys_procs x) (sys_ran x) (sys_lost x) →
  system_ok (sys_store y) (sys_procs y) (sys_ran y) (sys_lost y).
Proof. induction 1 as [|x y z Hxy _ IH]; [done|]. intros Hx. by eapply IH, step_ok. Qed.

Lemma reachable_ok x :
  rtc step nothing x → system_ok (sys_store x) (sys_procs x) (sys_ran x) (sys_lost x).
Proof. intros H. apply (steps_ok _ _ H), nothing_ok. Qed.

(** C29. Whatever submitters and workers do at the same time, and whoever of them dies
    when: no job is run twice; a job is in at most one place, the queue, a process or
    the lost ones; a job in none of them is finished, one in the queue is pending; and
    a finished job never changes again. *)
Theorem jobs_history x :
  rtc step nothing x →
  NoDup (sys_ran x) ∧ NoDup (places (sys_store x) (sys_procs x) (sys_lost x)) ∧
  (∀ id j, jm_Jobs (sys_store x) !! id = Some j →
     jb_ID j = id ∧ (terminal (jb_Status j) ∨ id ∈ places (sys_store x) (sys_procs x) (sys_lost x)) ∧
     (id ∈ jm_Queue (sys_store x) → jb_Status j = StatusPending ∧ id ∉ sys_ran x)) ∧
  (∀ y id j, rtc step x y → jm_Jobs (sys_store x) !! id = Some j → terminal (jb_Status j) →
     jm_Jobs (sys_store y) !! id = Some j).
Proof.
  intros Hx%reachable_ok. split_and!; [by apply Hx|by apply Hx|..].
  - intros id j Hl. destruct (so_jobs _ _ _ _ Hx id j Hl) as (? & _ & H). split_and!; [done|naive_solver|].
    intros Hq. destruct (so_queue _ _ _ _ Hx id Hq) as (st & Hl' & _ & _ & ? & ?). simpl in Hl'.
    by assert (st = j) as -> by congruence.
  - intros y id j Hxy. revert Hx. induction Hxy as [|x y z Hstep _ IH]; intros Hx Hl Ht; [done|].
    apply IH; [by eapply step_ok| |done]. by eapply step_finished.
Qed.
End system.

(** ** A worker that keeps turning *)
Section worker.
Context {GR : GoRuntime} {F : Type} {ST : ArtifactStore F} {CW : CompilerWorld F}.
Context {EC : CompilerEncoders} {UL : UnicodeLower} {CE : CEL} {FS : Files} {EN : Environment}.
Context {MD : ManifestDecoder} {FT : FloatText} {DD : DocumentDecoders} {RD : RegistryDecoders}.
Context {JS : JSONSyntax} {JC : JobCodecs}.
Context (NewCELValidator : result unit) (defaults : Options F).
Context (get : F → JobMemory) (put : JobMemory → F → F).
Notation jobs := (jobs_in get put).
Notation turn := (RunOnce NewCELValidator (Some jobs) defaults).

Definition same_jobs (f f' : F) : Prop := get f' = get f.
#[local] Instance same_jobs_preorder : PreOrder same_jobs.
Proof. split; unfold same_jobs; [done|]. intros f1 f2 f3 H1 H2. by rewrite H2. Qed.

(** The job store is a part of the state that the compiler's files, artifacts, keys and
    clock do not touch, and the clock shows a time that can be written. *)
Record workplace : Prop := {
  wp_get m f : get (put m f) = m;
  wp_clock f : ∃ now f', wall_clock f = (Ok now, f') ∧ time_ok now ∧ get f' = get f;
  wp_world : world_keeps same_jobs;
  wp_options : options_keep same_jobs defaults;
  wp_result r data : encode_SimulationResult r = Ok data → raw_ok data;
}.
Context (WP : workplace) (Hcodec : faithful_codecs).

Lemma SetStatus_run status j f :
  ∃ now f', SetStatus wall_clock status j f = (Ok (with_status status now j), f') ∧ time_ok now ∧ get f' = get f.
Proof.
  destruct (wp_clock WP f) as (now & f' & Hc & Hn & Hf). exists now, f'. split; [|done].
  unfold SetStatus. by rewrite io_bind_run, Hc.
Qed.

Lemma run_keeps j f : get (run NewCELValidator defaults j f).2 = get f.
Proof.
  assert (H : preserves same_jobs (run NewCELValidator defaults j)); [|apply H].
  unfold run, runSimulation, SetResult, SetStatus. pose proof (clock_keeps _ (wp_world WP)).
  pose proof (λ payload id, Compile_keeps same_jobs (wp_world WP) NewCELValidator
    (job_options defaults payload id) (wp_options WP)).
  preserve.
Qed.

(** A run that succeeds is that of the job, with a result. *)
Lemma run_succeeds j f j' f' :
  run NewCELValidator defaults j f = (Ok j', f') →
  ∃ data now, raw_ok data ∧ time_ok now ∧ j' = with_status StatusSucceeded now (with_outcome data "" j).
Proof.
  unfold run. destruct (jb_Type j ==s TypeSimulation); [|by intros ?%fail_Ok].
  unfold runSimulation, SetResult. intros H. run H. run_all.
  match type of H with SetStatus _ _ ?k ?g = _ =>
    destruct (SetStatus_run StatusSucceeded k g) as (now & f2 & E & Hn & _) end.
  rewrite E in H. injection H as <- _. eexists _, now. split; [|done]. by eapply wp_result.
Qed.

Lemma in_store {A} (m : io JobMemory A) a m' f :
  m (get f) = (Ok a, m') → zoom get put m f = (Ok a, put m' f) ∧ get (put m' f) = m'.
Proof. intros H. split; [|apply (wp_get WP)]. apply zoom_Ok. by exists m'. Qed.

Lemma Update_run j s : is_Some (jm_Jobs s !! jb_ID j) → Memory_Update j s = (Ok tt, put_job j s).
Proof.
  intros [k Hk]. unfold Memory_Update. rewrite io_bind_run. unfold gets. rewrite Hk. done.
Qed.

(** The end of a turn: the job with its outcome is stored. *)
Lemma finish_turn s1 j1 j2 f ps ran lost :
  get f = put_job j1 s1 → jb_ID j2 = jb_ID j1 → job_text j2 → terminal (jb_Status j2) →
  step (Sys (put_job j1 s1) ([] ++ Working j1 :: ps) ran lost)
       (Sys (put_job j1 s1) ([] ++ Finishing j2 :: ps) (jb_ID j1 :: ran) lost) →
  ∃ f', zoom get put (Memory_Update j2) f = (Ok tt, f') ∧ jm_Queue (get f') = jm_Queue s1 ∧
    (∃ done, jm_Jobs (get f') !! jb_ID j1 = Some done ∧ terminal (jb_Status done)) ∧
    (∀ id', id' ≠ jb_ID j1 → jm_Jobs (get f') !! id' = jm_Jobs s1 !! id') ∧
    rtc step (Sys (put_job j1 s1) ([] ++ Working j1 :: ps) ran lost) (Sys (get f') ps (jb_ID j1 :: ran) lost).
Proof.
  intros G Hj2 Ht2 Hterm Hstep.
  assert (Hup : Memory_Update j2 (get f) = (Ok tt, put_job j2 (put_job j1 s1))).
  { rewrite G. apply Update_run. rewrite Hj2, put_same. by eexists. }
  destruct (in_store _ _ _ _ Hup) as [Eup G']. rewrite G in Hup. eexists. split; [exact Eup|].
  rewrite G'. destruct (cloneJob_copy Hcodec _ Ht2) as [(_ & _ & Cst & _) _]. split_and!; [done|..].
  - exists (cloneJob j2). rewrite <- Hj2 at 1. rewrite put_same, Cst. done.
  - intros id' Hne. rewrite !put_other by congruence. done.
  - eapply rtc_l; [exact Hstep|]. eapply rtc_l; [|apply rtc_refl].
    apply (step_store _ [] ps _ _ _ _ Hup).
Qed.

(** The job is finished, or a run of it panicked and it is left running. *)
Definition finished (id : string) (s : JobMemory) : Prop :=
  ∃ j, jm_Jobs s !! id = Some j ∧ terminal (jb_Status j).
Definition panicked (id : string) (s : JobMemory) : Prop :=
  (∃ j, jm_Jobs s !! id = Some j ∧ jb_Status j = StatusRunning) ∧
  ∃ j f e, jb_ID j = id ∧ (run NewCELValidator defaults j f).1 = Err e ∧ is_panic e = true.

(** A turn on a job that is waiting: it is finished, or it stays running as the worker
    panics, and nothing else is touched. *)
Lemma RunOnce_turns f id queue stored ps ran lost :
  jm_Queue (get f) = id :: queue → jm_Jobs (get f) !! id = Some stored → jb_ID stored = id →
  job_text stored →
  ∃ r f', turn f = (r, f') ∧ jm_Queue (get f') = queue ∧
    (∀ id', id' ≠ id → jm_Jobs (get f') !! id' = jm_Jobs (get f) !! id') ∧
    match r with
    | Ok _ => finished id (get f') ∧
              rtc step (Sys (get f) ps ran lost) (Sys (get f') ps (id :: ran) lost)
    | Err e => is_panic e = true ∧ panicked id (get f') ∧
               rtc step (Sys (get f) ps ran lost) (Sys (get f') ps ran (id :: lost))
    end.
Proof.
  intros Hq Hl Hid Ht. destruct (cloneJob_copy Hcodec _ Ht) as [(Cid & _) Ct].
  set (s1 := set_queue queue (get f)).
  assert (Hdeq : Memory_Dequeue (get f) = (Ok id, s1)).
  { unfold Memory_Dequeue. rewrite io_bind_run. unfold gets. by rewrite Hq. }
  destruct (in_store _ _ _ _ Hdeq) as [Edeq G1]. set (f1 := put s1 f) in *.
  assert (Hget : Memory_Get id (get f1) = (Ok (cloneJob stored), s1)).
  { rewrite G1. unfold Memory_Get. rewrite io_bind_run. unfold gets. simpl. by rewrite Hl. }
  destruct (in_store _ _ _ _ Hget) as [Eget G2]. rewrite G1 in Hget. set (f2 := put s1 f1) in *.
  destruct (SetStatus_run StatusRunning (cloneJob stored) f2) as (now & f3 & Eset & Hnow & G3).
  set (j1 := with_status StatusRunning now (cloneJob stored)) in *.
  assert (Hj1 : jb_ID j1 = id) by (by simpl; rewrite Cid).
  assert (Ht1 : job_text j1) by (by apply status_text; [left|..]).
  assert (Hup : Memory_Update j1 (get f3) = (Ok tt, put_job j1 s1)).
  { rewrite G3, G2. apply Update_run. rewrite Hj1. simpl. by eexists. }
  destruct (in_store _ _ _ _ Hup) as [Eup G4]. rewrite G3, G2 in Hup. set (f4 := put (put_job j1 s1) f3) in *.
  assert (Hsteps : rtc step (Sys (get f) ps ran lost) (Sys (put_job j1 s1) ([] ++ Working j1 :: ps) ran lost)).
  { eapply rtc_l; [by apply (step_dequeue _ ps ran lost _ _ Hdeq)|].
    eapply rtc_l; [apply (step_get s1 [] ps ran lost _ _ _ _ Hget Hnow)|].
    eapply rtc_l; [apply (step_start s1 [] ps ran lost _ _ Hup)|]. apply rtc_refl. }
  assert (Hend : ∀ j2 f5, get f5 = put_job j1 s1 → jb_ID j2 = jb_ID j1 → job_text j2 →
    terminal (jb_Status j2) →
    step (Sys (put_job j1 s1) ([] ++ Working j1 :: ps) ran lost)
         (Sys (put_job j1 s1) ([] ++ Finishing j2 :: ps) (jb_ID j1 :: ran) lost) →
    ∃ f6, zoom get put (Memory_Update j2) f5 = (Ok tt, f6) ∧ jm_Queue (get f6) = queue ∧
      (∃ done, jm_Jobs (get f6) !! id = Some done ∧ terminal (jb_Status done)) ∧
      (∀ id', id' ≠ id → jm_Jobs (get f6) !! id' = jm_Jobs (get f) !! id') ∧
      rtc step (Sys (get f) ps ran lost) (Sys (get f6) ps (id :: ran) lost)).
  { intros j2 f5 G5 Hj2 Ht2 Hterm Hstep.
    destruct (finish_turn _ _ _ _ _ _ _ G5 Hj2 Ht2 Hterm Hstep) as (f6 & E6 & Hq6 & Hd6 & Ho6 & Hr6).
    rewrite Hj1 in *. exists f6. split_and!; try done. by etrans. }
  unfold turn, RunOnce. cbn [job_Dequeue job_Get job_Update jobs_in].
  rewrite io_bind_run, Edeq, io_bind_run, Eget, io_bind_run, Eset, io_bind_run, Eup, io_bind_run.
  unfold returned at 1. pose proof (run_keeps j1 f4) as G5. rewrite G4 in G5.
  destruct (run NewCELValidator defaults j1 f4) as [[j2|e] f5] eqn:Erun; cbn [fst snd] in *;
    [|destruct (is_panic e) eqn:Hpanic].
  - destruct (run_succeeds _ _ _ _ Erun) as (data & now2 & Hdata & Hnow2 & ->).
    destruct (Hend (with_status StatusSucceeded now2 (with_outcome data "" j1)) f5) as (f6 & E6 & H6).
    + done.
    + done.
    + apply status_text; [by right; left|done|]. apply outcome_text; [by right|done].
    + by left.
    + by apply step_succeed.
    + eexists (Ok (_, None)), f6. split; [unfold finish_job; cbn [job_Update jobs_in];
        by rewrite io_bind_run, E6|]. destruct H6 as (? & ? & ? & ?). by split_and!.
  - destruct (cloneJob_copy Hcodec _ Ht1) as [(_ & _ & Cst & _) _].
    exists (Err e), f5. split; [done|]. rewrite G5. split_and!; [done| |done| |].
    + intros id' Hne. rewrite put_other by congruence. done.
    + split; [exists (cloneJob j1); by rewrite <- Hj1, put_same, Cst|].
      exists j1, f4, e. by rewrite Erun.
    + etrans; [exact Hsteps|]. eapply rtc_l; [|apply rtc_refl]. rewrite <- Hj1.
      apply (step_die _ [] ps ran lost (Working j1)).
  - destruct (SetStatus_run StatusFailed (with_outcome (jb_Result j1) (error_text e) j1) f5)
      as (now2 & f6 & E6 & Hnow2 & G6).
    destruct (Hend (with_status StatusFailed now2 (with_outcome (jb_Result j1) (error_text e) j1)) f6)
      as (f7 & E7 & H7).
    + by rewrite G6.
    + done.
    + apply status_text; [by right; right|done|]. apply outcome_text; [by apply jt_result in Ht1|done].
    + by right.
    + by apply step_fail.
    + eexists (Ok (_, Some e)), f7. split; [|destruct H7 as (? & ? & ? & ?); by split_and!].
      unfold finish_job, SetError. cbn [job_Update jobs_in].
      rewrite io_bind_run, E6, io_bind_run. unfold returned. by rewrite E7.
Qed.

(** That many runs of the worker, whatever each of them answers, or if it panics. *)
Fixpoint turns (n : nat) (f : F) : F :=
  match n with
  | O => f
  | S n => turns n (turn f).2
  end.

(** C32. From whatever the submitters and the workers have done, running a worker as often
    as there are jobs in the queue empties it: each of those jobs is finished, whatever the
    compiler answers, unless the compiler panics on it; then its worker dies, and the job is
    lost and stays running. Every other job is what it was, and what the workers did is
    what workers may do. *)
Theorem queue_drains x f :
  rtc step nothing x → sys_store x = get f →
  let queue := jm_Queue (get f) in
  let f' := turns (length queue) f in
  jm_Queue (get f') = [] ∧
  (∀ id, id ∉ queue → jm_Jobs (get f') !! id = jm_Jobs (get f) !! id) ∧
  ∃ ran lost, ran ++ lost ≡ₚ queue ∧
    (∀ id, id ∈ ran → finished id (get f')) ∧ (∀ id, id ∈ lost → panicked id (get f')) ∧
    rtc step x (Sys (get f') (sys_procs x) (ran ++ sys_ran x) (lost ++ sys_lost x)).
Proof.
  destruct x as [s ps ran lost]. simpl. intros Hx ->. remember (jm_Queue (get f)) as queue eqn:Hq.
  revert f ran lost Hx Hq. induction queue as [|id queue IH]; intros f ran lost Hx Hq; cbn [length turns].
  { split_and!; [done..|]. exists [], []. split_and!; [done|by intros ? ?%elem_of_nil..|done]. }
  apply reachable_ok in Hx as Hok; [|done]. simpl in Hok.
  destruct (so_queue _ _ _ _ Hok id) as (stored & Hl & Ht & Hid & _); [rewrite <- Hq; left|].
  assert (Hn : id ∉ queue).
  { pose proof (so_once _ _ _ _ Hok) as Hnd. unfold places in Hnd. rewrite <- Hq in Hnd.
    apply NoDup_cons in Hnd as [Hn _]. set_solver. }
  destruct (RunOnce_turns f id queue stored ps ran lost) as (r & f' & E & Hq' & Hother & Hr);
    [done..|]. rewrite E. cbn [snd].
  assert (Hstep : ∃ ran1 lost1, ran1 ++ lost1 = [id] ∧
    (∀ id', id' ∈ ran1 → finished id' (get f')) ∧ (∀ id', id' ∈ lost1 → panicked id' (get f')) ∧
    rtc step (Sys (get f) ps ran lost) (Sys (get f') ps (ran1 ++ ran) (lost1 ++ lost))).
  { destruct r as [a|e]; [destruct Hr as (Hfin & Hs); exists [id], []|
      destruct Hr as (_ & Hpan & Hs); exists [], [id]]; (split_and!; [done| | |done]);
      intros id'; rewrite ?list_elem_of_singleton, ?elem_of_nil; naive_solver. }
  destruct Hstep as (ran1 & lost1 & Hone & Hran1 & Hlost1 & Hs).
  destruct (IH f' (ran1 ++ ran) (lost1 ++ lost)) as (Hempty & Hrest & ran2 & lost2 & Hperm & Hran2 & Hlost2 & Hmore);
    [by etrans|done|].
  assert (Hkeep : jm_Jobs (get (turns (length queue) f')) !! id = jm_Jobs (get f') !! id) by by apply Hrest.
  split_and!; [done| |].
  { intros id' [Hne Hnin]%not_elem_of_cons. rewrite Hrest by done. by apply Hother. }
  exists (ran2 ++ ran1), (lost2 ++ lost1). split_and!.
  - rewrite <- Hperm. change (id :: ?l) with ([id] ++ l). rewrite <- Hone. solve_Permutation.
  - intros id' [Hin|Hin]%elem_of_app; [by apply Hran2|].
    assert (id' = id) as -> by (apply list_elem_of_singleton; rewrite <- Hone; set_solver).
    destruct (Hran1 _ Hin) as (j & Hj & Ht'). exists j. by rewrite Hkeep.
  - intros id' [Hin|Hin]%elem_of_app; [by apply Hlost2|].
    assert (id' = id) as -> by (apply list_elem_of_singleton; rewrite <- Hone; set_solver).
    destruct (Hlost1 _ Hin) as [(j & Hj & Ht') Hp]. split; [|done]. exists j. by rewrite Hkeep.
  - rewrite <- !app_assoc. by etrans.
Qed.
End worker.
