(* ===== verification/ForgeTypes.v ===== *)
(** * Requests, responses and pure parts of Forge's API ([internal/forge/api])

    What the handlers decode and answer, the configuration of the server, how a
    handler returns early, and the checks that need no state.  [encoding/json]
    decoding, PEM and X.509 are parameters. *)

From stdpp Require Import options.
From stdpp Require Import gmap.
From S2P Require Import Prelude IO GoStrings GoTime GoDuration GoJson GoEncoding Signing Domain.
From S2P Require Import Artifacts BundleSource Authn Authz Management BuildManifest ArtifactStore.
From S2P Require Import CIValidation Jobs.
#[local] Open Scope Z_scope.

(** ** Requests *)

Record enrollmentTokenRequest := {
  etr_Environment : string;
  etr_Stage : string;
  etr_Scope : string;
  etr_ExpiresAt : option time;
}.

Record enrollmentRequest := {
  er_EnrollmentToken : string;
  er_NodeID : string;
  er_Environment : string;
  er_Stage : string;
  er_Scope : string;
  er_Version : string;
  er_Adapters : list string;
  er_Capabilities : list string;
  er_Attestation : string;
  er_TrustKeyID : string;
  er_PublicKeyPEM : string;
  er_CSRPEM : string;
  er_SPIFFEID : string;
}.

Record buildApprovalRequest := {
  bar_BuildRef : ArtifactRef;
  bar_Environment : string;
  bar_Stage : string;
  bar_Scope : string;
  bar_AuthorityID : string;
  bar_AuthorityKind : string;
  bar_ExpiresAt : option time;
}.

Record assignmentPlanRequest := {
  apr_KLIQID : string;
  apr_SourceCommit : string;
  apr_TrustBundleRef : string;
  apr_ApprovedBuildRef : ArtifactRef;
  apr_ExpiresAt : time;
  apr_ApprovedRollback : bool;
  apr_Artifacts : list KLIQAssignedArtifact;
}.

Record SimulationJobRequest := {
  sjr_Payload : SimulationPayload;   (* its first five fields *)
  sjr_Scope : Scope;
}.

Record trustBundleRotationRequest := {
  trr_Next : TrustBundle;
  trr_Reason : string;
}.

(** [json.NewDecoder(r.Body).Decode] and [json.Unmarshal].  The error of a
    revocation's body is ignored: [decode_reason] is what is left in it. *)
Class ManagementDecoders := {
  decode_enrollmentTokenRequest : string → result enrollmentTokenRequest;
  decode_enrollmentRequest : string → result enrollmentRequest;
  decode_buildApprovalRequest : string → result buildApprovalRequest;
  decode_assignmentPlanRequest : string → result assignmentPlanRequest;
  decode_trustBundleRotationRequest : string → result trustBundleRotationRequest;
  decode_SimulationJobRequest : string → result SimulationJobRequest;
  decode_reason : string → string;
  decode_KLIQHeartbeat : string → result KLIQHeartbeat;
  decode_KLIQStatusReport : string → result KLIQStatusReport;
  decode_KLIQAuditUpload : string → result KLIQAuditUpload;
  decode_PolicyBuildManifest : string → result PolicyBuildManifest;
  decode_Kind : string → result string;
}.

(** [pem.Decode] (the block's bytes), and what [crypto/x509] says of them: a
    PKIX or a PKCS1 public key, and a certificate request with a valid
    signature. *)
Class IdentityMaterial := {
  pem_block : string → option string;
  is_pkix_key : string → bool;
  is_pkcs1_key : string → bool;
  check_csr : string → result unit;
}.

(** ** Responses *)

Inductive ResponseBody : Type :=
  | BError (code : string)
  | BStatus (status : string)
  | BEnrollmentToken (token : KLIQEnrollmentToken) (secret : string)
  | BEnrollment (registration : KLIQRegistration) (serviceToken : string)
  | BServiceToken (token : string) (expiresAt : time)
  | BApproval (ref : ArtifactRef) (manifest : PolicyBuildManifest)
  | BEnvelope (envelope : SignedEnvelope)
  | BStatusReport (report : KLIQStatusReport)
  | BAck (ack : KLIQAuditUploadAck)
  | BPrincipal (principal : Principal)
  | BJob (job : Job)
  | BValidation (result : CIValidationResult).

Record Response := {
  resp_Code : Z;
  resp_Payload : ResponseBody;
}.

Definition writeJSON (status : Z) (body : ResponseBody) : Response :=
  {| resp_Code := status; resp_Payload := body |}.
Definition writeError (status : Z) (code : string) : Response := writeJSON status (BError code).

(** ** The server *)

Record Signer (F : Type) := {
  sg_Sign : string → Metadata → io F SignedEnvelope;
  sg_Verify : option (SignedEnvelope → io F VerificationResult);   (* [.(signing.Verifier)] *)
}.
Arguments sg_Sign {F}.
Arguments sg_Verify {F}.

(** A request: its path values are arguments of the route. *)
Record Request := {
  hr_Authorization : string;
  hr_Peer : option (list (string * string));
  hr_Body : string;
}.

Record Authenticator (F : Type) := {
  au_Verify : string → io F Principal;
  au_VerifyRequest : option (Request → io F Principal);   (* [.(authn.RequestVerifier)] *)
}.
Arguments au_Verify {F}.
Arguments au_VerifyRequest {F}.

Record Server (F : Type) := {
  sv_Authenticator : option (Authenticator F);
  sv_Store : option (JobStore F);
  sv_Management : option (ManagementStore F);
  sv_ManagementSign : option (Signer F);
  sv_Artifacts : option (ArtifactStore F);
  sv_KLIQService : option KLIQServiceTokenIssuer;
  sv_DevManagement : bool;
}.
Arguments sv_Authenticator {F}.
Arguments sv_Store {F}.
Arguments sv_Management {F}.
Arguments sv_ManagementSign {F}.
Arguments sv_Artifacts {F}.
Arguments sv_KLIQService {F}.
Arguments sv_DevManagement {F}.

(** ** How a handler returns early *)

(** [if x == nil { writeError(...); return }] *)
Definition need {F A} (o : option A) (r : Response) (k : A → io F Response) : io F Response :=
  match o with Some a => k a | None => mret r end.

(** [if err != nil { writeError(...); return }]; on a panic [net/http] drops the connection. *)
Definition or_respond {F A} (m : io F A) (catch : error → Response) (k : A → io F Response)
    : io F Response :=
  r ← returned m;
  match r with Ok a => k a | Err e => mret (catch e) end.

Notation "'needs' x ':=' o 'else' r ;; k" := (need o r (λ x, k))
  (at level 10, x name, o at level 99, r at level 99, k at level 200,
   format "'[v' 'needs'  x  ':='  o  'else'  r ;; '/' k ']'") : go_scope.
Notation "'try' x ':=' m 'else' c ;; k" := (or_respond m c (λ x, k))
  (at level 10, x name, m at level 99, c at level 99, k at level 200,
   format "'[v' 'try'  x  ':='  m  'else'  c ;; '/' k ']'") : go_scope.
Notation "'refuse' c 'with' r ;; k" := (if c then mret r else k)
  (at level 10, c at level 99, r at level 99, k at level 200,
   format "'[v' 'refuse'  c  'with'  r ;; '/' k ']'") : go_scope.

(** Any error is answered the same way, or what is not found differently. *)
Definition always (status : Z) (code : string) (_ : error) : Response := writeError status code.
Definition not_found_or (missing : string) (status : Z) (code : string) (e : error) : Response :=
  if error_is e ErrNotFound then writeError 404 missing else writeError status code.

(** ** Pure parts *)

(** [strconv.ParseInt(s, 10, 64)] *)
Fixpoint parse_digits (acc : Z) (s : string) : option Z :=
  match s with
  | EmptyString => Some acc
  | String c s => d ← digit_of c; parse_digits (10 * acc + d) s
  end.
Definition ParseInt (s : string) : option Z :=
  let '(sign, digits) := match s with
    | String c s' =>
      if byte_of c =? 45 then (-1, s') else if byte_of c =? 43 then (1, s') else (1, s)
    | EmptyString => (1, s)
    end in
  if empty_str digits then None else
  n ← parse_digits 0 digits;
  if (sign * n <? min_int64) || (max_int64 <? sign * n) then None else Some (sign * n).

Definition kliqRegistrationScope (registration : KLIQRegistration) : Scope :=
  env_stage (reg_Environment registration) (reg_Stage registration).

Definition validateKLIQScope (registration : KLIQRegistration) (environment stage scope : string)
    : result unit :=
  reject reg_Environment registration !=s environment with Errorf "environment mismatch" [];;
  reject reg_Stage registration !=s stage with Errorf "stage mismatch" [];;
  reject reg_Scope registration !=s scope with Errorf "scope mismatch" [];;
  Ok tt.

Definition ensureKLIQRegistrationActive (registration : KLIQRegistration) : result unit :=
  let identity := reg_Identity registration in
  reject (reg_Status registration ==s "revoked") || negb (IsZero (reg_RevokedAt registration))
    with Errorf "kliq registration revoked" [];;
  reject (id_Status identity ==s "revoked") || negb (IsZero (id_RevokedAt identity))
    with Errorf "kliq identity revoked" [];;
  Ok tt.

Definition authorizeKLIQServicePrincipal (principal : Principal)
    (registration : KLIQRegistration) : result unit :=
  let identity := reg_Identity registration in
  let expected := IdentityMaterialSHA256 identity in
  reject negb (HasRole principal RoleKLIQService)
    with Errorf "kliq service identity required" [];;
  reject PrincipalKLIQID principal !=s reg_KLIQID registration
    with Errorf "kliq service identity mismatch" [];;
  reject (sc_Environment (p_Scope principal) !=s "") &&
         (sc_Environment (p_Scope principal) !=s reg_Environment registration)
    with Errorf "kliq service environment mismatch" [];;
  reject (sc_Stage (p_Scope principal) !=s "") &&
         (sc_Stage (p_Scope principal) !=s reg_Stage registration)
    with Errorf "kliq service stage mismatch" [];;
  reject (PrincipalKLIQScope principal !=s "") &&
         (PrincipalKLIQScope principal !=s reg_Scope registration)
    with Errorf "kliq service scope mismatch" [];;
  reject changes (id_ServiceIdentityProvider identity) (PrincipalServiceIdentityProvider principal)
    with Errorf "kliq service identity provider mismatch" [];;
  reject changes (id_SPIFFEID identity) (PrincipalSPIFFEID principal)
    with Errorf "kliq service spiffe id mismatch" [];;
  reject changes expected (PrincipalIdentityMaterialSHA256 principal)
    with Errorf "kliq service identity material mismatch" [];;
  Ok tt.

Definition authorizeKLIQAssignmentRead (principal : Principal) (registration : KLIQRegistration)
    : result unit :=
  if HasRole principal RoleKLIQService
  then authorizeKLIQServicePrincipal principal registration
  else Authorize principal {| rq_Action := "kliq.assignment.read";
                              rq_AllowedRoles := KLIQReadRoles;
                              rq_Scope := kliqRegistrationScope registration |}.

Definition validateAssignmentRequest (assignment : KLIQAssignment) : result unit :=
  reject blank (asg_AssignmentID assignment) with Sentinel "assignment_id is required";;
  reject asg_AssignmentVersion assignment <=? 0
    with Sentinel "assignment_version must be positive";;
  reject blank (asg_KLIQID assignment) with Sentinel "kliq_id is required";;
  reject blank (asg_Environment assignment) with Sentinel "environment is required";;
  reject blank (asg_Stage assignment) with Sentinel "stage is required";;
  reject blank (asg_Scope assignment) with Sentinel "scope is required";;
  reject blank (asg_SourceCommit assignment) with Sentinel "source_commit is required";;
  reject blank (asg_TrustKeyID assignment) with Sentinel "trust_key_id is required";;
  reject blank (asg_TrustBundleRef assignment) with Sentinel "trust_bundle_ref is required";;
  reject IsZero (asg_ExpiresAt assignment) with Sentinel "expires_at is required";;
  reject Nat.eqb (length (asg_Artifacts assignment)) 0
    with Sentinel "at least one artifact is required";;
  Ok tt.

Definition rejectRawAssignmentArtifactEnvelopes (artifacts : list KLIQAssignedArtifact)
    : result unit :=
  for_each (λ artifact,
    reject (aa_Envelope artifact !=s "") && (trim_space (aa_Envelope artifact) !=s "null")
      with Errorf "raw_artifact_envelope_not_allowed" [];;
    Ok tt) artifacts.

Definition allowedAssignmentArtifactType (artifactType : string) : bool :=
  SupportedAssignmentArtifactType (trim_space artifactType).

Definition expectedAssignmentArtifactKind (artifactType : string) : string :=
  expectedArtifactKind (trim_space artifactType).

Definition defaultManagementProfile (kliqID : string) : KLIQManagementProfile := {|
  mp_Kind := "";
  mp_ProfileID := "kliq_management_profile." +:+ kliqID;
  mp_Mode := "managed_pull";
  mp_PollInterval := "1m";
  mp_HeartbeatInterval := "30s";
  mp_StatusInterval := "1m";
  mp_DecisionInterval := "5s";
  mp_ReconcileInterval := "30s";
  mp_AuditFlushInterval := "1m";
  mp_StatusEndpoint := "";
  mp_AssignmentSource := "forge_assignment_api" |}.

Definition shortAuditHash (value : string) : string := shortHash value.

Definition hours24 : duration := 24 * 3600 * second.
