(* ===== verification/ForgeAPI.v ===== *)
(** * The management API of Forge ([internal/forge/api])

    One definition per handler of [kliq_management.go], with its guards in the
    code's order and the HTTP status and code of every early return, and the
    authentication and routing of [server.go] around them.

    A handler acts on a state [F] through the interfaces the server is
    configured with (store, signer, artifact store); a missing one is [None]. *)

From stdpp Require Import options.
From stdpp Require Import gmap.
From S2P Require Import Prelude IO GoStrings GoTime GoDuration GoJson GoEncoding Signing Domain.
From S2P Require Import Artifacts BundleSource Authn Authz Management BuildManifest ArtifactStore.
From S2P Require Import GoPath GoFloat Schema Registry AdapterManifests Compiler CompilerEmit.
From S2P Require Import Bindings CIValidation Jobs ForgeTypes.
#[local] Open Scope Z_scope.

Section handlers.
Context {GR : GoRuntime} {UF : UnicodeFold} {ED : Ed25519} {JD : JSONDecoders} {KD : KeyDecoders}.
Context {TC : TokenCodecs} {MD : ManagementDecoders} {IM : IdentityMaterial} {JS : JSONSyntax}.
Context {JC : JobCodecs}.
Context {F : Type}.
(** [time.Now().UTC()], and 32 bytes of [crypto/rand]. *)
Context (time_Now : io F time) (rand_Read : io F string).

(** *** Checks of signed input *)

Definition validateIdentityMaterial (publicKeyPEM csrPEM : string) : result unit :=
  if negb (blank publicKeyPEM) then
    match pem_block (trim_space publicKeyPEM) with
    | None => Err (Sentinel "public key PEM is invalid")
    | Some block =>
      if is_pkix_key block then Ok tt else if is_pkcs1_key block then Ok tt
      else Err (Sentinel "public key PEM is not a parseable public key")
    end
  else
    match pem_block (trim_space csrPEM) with
    | None => Err (Sentinel "csr PEM is invalid")
    | Some block => check_csr block
    end.

Definition validateAssignmentArtifactPayloadType (artifactType payload : string) : result unit :=
  header ← replace_err (Errorf "artifact_payload_invalid" []) (decode_PayloadHeader payload);
  let expected := expectedAssignmentArtifactKind artifactType in
  reject (expected !=s "") && (ph_Kind header !=s expected)
    with Errorf "artifact_payload_kind_mismatch" [];;
  reject (ph_ArtifactType header !=s "") && (ph_ArtifactType header !=s artifactType)
    with Errorf "artifact_payload_type_mismatch" [];;
  Ok tt.

(** [verifier.Verify] with its two ways to fail. *)
Definition verified (signer : Signer F) (unavailable failed invalid : string)
    (envelope : SignedEnvelope) : io F unit :=
  match sg_Verify signer with
  | None => fail (Errorf unavailable [])
  | Some verify =>
    r ← attempt (verify envelope);
    result ← lift (replace_err (Errorf failed []) r);
    deny negb (vr_Valid result) with Errorf invalid [];;
    mret tt
  end.

Definition verifyApprovedBuildManifestEnvelope (signer : Signer F) (payload : string)
    : io F string :=
  envelope ← lift (replace_err (Errorf "approved_build_must_be_signed" [])
                     (decode_SignedEnvelope payload));
  deny (env_Kind envelope !=s "SignedEnvelope") || empty_str (env_PayloadSHA256 envelope) ||
       empty_str (env_Payload envelope)
    with Errorf "approved_build_must_be_signed" [];;
  _ ← verified signer "approved_build_verifier_unavailable"
        "approved_build_signature_verification_failed" "approved_build_signature_invalid" envelope;
  kind ← lift (replace_err (Errorf "approved_build_invalid" [])
                 (decode_Kind (env_Payload envelope)));
  deny kind !=s "PolicyBuildManifest" with Errorf "approved_build_invalid_kind" [];;
  mret (env_Payload envelope).

Definition verifyAssignmentArtifactEnvelope (signer : Signer F) (artifactType : string)
    (envelope : SignedEnvelope) : io F unit :=
  _ ← verified signer "artifact_signature_verifier_unavailable"
        "artifact_signature_verification_failed" "artifact_signature_invalid" envelope;
  lift (validateAssignmentArtifactPayloadType artifactType (env_Payload envelope)).

Section configured.
Context (s : Server F).

  Abbreviation no_store_response := (writeError 500 "kliq_management_store_not_configured").

(** *** Builds *)

Definition approvePolicyBuildManifest (ctx : AuditContext) (body : string)
    (principal : Principal) : io F Response :=
  needs artifacts := sv_Artifacts s else writeError 500 "build_approval_not_configured";;
  needs signer := sv_ManagementSign s else writeError 500 "build_approval_not_configured";;
  try req := lift (decode_buildApprovalRequest body) else always 400 "invalid_json";;
  let environment := trim_space (bar_Environment req) in
  let stage := trim_space (bar_Stage req) in
  let scope := trim_space (bar_Scope req) in
  refuse blank (ref_URI (bar_BuildRef req)) || blank (ref_SHA256 (bar_BuildRef req)) ||
         empty_str environment || empty_str stage || empty_str scope
    with writeError 400 "invalid_build_approval_request";;
  try _ := lift (Authorize principal
              {| rq_Action := "policy_build_manifest.approve";
                 rq_AllowedRoles := PolicyBuildApproveRoles;
                 rq_Scope := env_stage environment stage |})
    else always 403 "forbidden";;
  try payload := store_Get (bar_BuildRef req) else always 400 "build_manifest_unavailable";;
  try payload := verifyApprovedBuildManifestEnvelope signer payload
    else (λ e, writeError 400 (error_text e));;
  try manifest := lift (decode_PolicyBuildManifest payload)
    else always 400 "build_manifest_invalid";;
  refuse pbm_Kind manifest !=s "PolicyBuildManifest"
    with writeError 400 "build_manifest_invalid_kind";;
  refuse trim_space (apv_Status (pbm_Approval manifest)) !=s "pending_review"
    with writeError 400 "build_manifest_not_pending_review";;
  try _ := lift (validateBuildManifestApprovalReadiness manifest)
    else (λ e, writeError 400 (error_text e));;
  refuse samePrincipal (mm_CreatedBy (pbm_Metadata manifest)) (p_Subject principal)
    with writeError 403 "build_manifest_self_approval_rejected";;
  now ← time_Now;
  let authorityID := or_default (trim_space (bar_AuthorityID req)) (p_Subject principal) in
  let authorityKind := or_default (trim_space (bar_AuthorityKind req)) "forge-api-approval" in
  let approval := {|
    apv_Status := "approved"; apv_ApprovedBy := p_Subject principal; apv_ApprovedAt := now;
    apv_AuthorityID := authorityID; apv_AuthorityKind := authorityKind;
    apv_Environment := environment; apv_Stage := stage; apv_Scope := scope |} in
  let manifest := with_approval approval manifest in
  let commit := pr_Commit (sp_PolicyRepo (pbm_Spec manifest)) in
  try approvedPayload := lift (encode_PolicyBuildManifest manifest)
    else always 500 "build_manifest_marshal_failed";;
  let expiresAt := default (now + hours24) (bar_ExpiresAt req) in
  try envelope := sg_Sign signer approvedPayload
       {| md_KeyID := ""; md_SourceCommit := commit; md_PolicyID := "";
          md_ExpiresAt := Some expiresAt |}
    else always 500 "build_manifest_signing_failed";;
  try envelopePayload := lift (encode_SignedEnvelope envelope)
    else always 500 "build_manifest_envelope_marshal_failed";;
  let id := mm_ID (pbm_Metadata manifest) in
  try ref := store_Put {|
       a_Metadata := {|
         art_ID := "approved." +:+ id; art_PolicyID := trim_prefix "build." id;
         art_ArtifactType := "policy_build_manifest_signed_envelope"; art_KNI := "";
         art_SourcePath := ""; art_SourceCommit := commit;
         art_CorrelationID := mm_CorrelationID (pbm_Metadata manifest); art_CreatedAt := now;
         art_Digests := [] |};
       a_Payload := envelopePayload |}
    else always 500 "approved_build_manifest_store_failed";;
  _ ← match sv_Management s with
      | None => mret tt
      | Some _ => ignore (mg_SaveAuditEvent ctx {|
          ev_EventID := ""; ev_EventType := "policy_build_manifest_approved";
          ev_Actor := p_Subject principal; ev_TargetType := "policy_build_manifest";
          ev_TargetID := id; ev_KLIQID := ""; ev_Environment := environment; ev_Stage := stage;
          ev_Scope := scope;
          ev_Metadata := metadata_of
            [("source_commit", JStr commit); ("approved_build_ref", JStr (ref_URI ref));
             ("authority_id", JStr authorityID); ("authority_kind", JStr authorityKind)];
          ev_CreatedAt := now |})
      end;
  mret (writeJSON 201 (BApproval ref manifest)).

(** *** Enrollment *)

Definition NewEnrollmentSecret : io F string :=
  raw ← rand_Read;
  mret ("kliq_enroll_" +:+ Base64.encode raw).

Definition enrollment_token_id (hash : string) : string :=
  "kliq_enrollment_token." +:+ take_string 16 (trim_prefix "sha256:" hash).

Definition createEnrollmentToken (ctx : AuditContext) (body : string) (principal : Principal)
    : io F Response :=
  needs M := sv_Management s else no_store_response;;
  try req := lift (decode_enrollmentTokenRequest body) else always 400 "invalid_json";;
  try _ := lift (Authorize principal
              {| rq_Action := "kliq.enrollment_token.create"; rq_AllowedRoles := KLIQManageRoles;
                 rq_Scope := env_stage (etr_Environment req) (etr_Stage req) |})
    else always 403 "forbidden";;
  try secret := NewEnrollmentSecret else always 500 "token_generation_failed";;
  now ← time_Now;
  let expiresAt := default (now + 3600 * second) (etr_ExpiresAt req) in
  let tokenHash := TokenSHA256 secret in
  let token := {|
    et_TokenID := enrollment_token_id tokenHash; et_TokenSHA256 := tokenHash;
    et_Environment := trim_space (etr_Environment req); et_Stage := trim_space (etr_Stage req);
    et_Scope := trim_space (etr_Scope req); et_ExpiresAt := expiresAt; et_CreatedAt := now;
    et_UsedAt := 0; et_RevokedAt := 0; et_RevokedReason := "" |} in
  try _ := mg_CreateEnrollmentToken ctx token secret else always 400 "invalid_enrollment_token";;
  mret (writeJSON 201 (BEnrollmentToken token secret)).

(** What enrollment registers. *)
Definition enrolled_identity (req : enrollmentRequest) (now : time) : KLIQIdentity :=
  let kliqID := StableKLIQID (er_NodeID req) (er_Environment req) (er_Stage req) (er_Scope req) in
  {| id_IdentityID := "kliq_identity." +:+ kliqID; id_KLIQID := kliqID;
     id_NodeID := er_NodeID req; id_Environment := er_Environment req;
     id_Stage := er_Stage req; id_Scope := er_Scope req;
     id_TrustKeyID := or_default (trim_space (er_TrustKeyID req)) "dev-local";
     id_PublicKeyPEM := trim_space (er_PublicKeyPEM req); id_CSRPEM := trim_space (er_CSRPEM req);
     id_ServiceIdentityProvider := ServiceIdentityProviderSPIFFEReady;
     id_SPIFFEID := or_default (trim_space (er_SPIFFEID req))
       (DefaultKLIQSPIFFEID kliqID (er_Environment req) (er_Stage req) (er_Scope req));
     id_CredentialStatus := "active"; id_CredentialExpiresAt := now + hours24;
     id_Status := "active"; id_IssuedAt := now; id_RevokedAt := 0; id_RevokedReason := "" |}.

Definition enrolled_registration (req : enrollmentRequest) (now : time) : KLIQRegistration :=
  let identity := enrolled_identity req now in
  let kliqID := id_KLIQID identity in
  {| reg_RegistrationID := "kliq_registration." +:+ kliqID; reg_KLIQID := kliqID;
     reg_NodeID := er_NodeID req; reg_Environment := er_Environment req;
     reg_Stage := er_Stage req; reg_Scope := er_Scope req; reg_Version := er_Version req;
     reg_AdapterInventory := er_Adapters req; reg_Capabilities := er_Capabilities req;
     reg_AttestationState := er_Attestation req; reg_Identity := identity;
     reg_ManagementProfile := defaultManagementProfile kliqID; reg_Status := "active";
     reg_RegisteredAt := now; reg_RevokedAt := 0; reg_RevokedReason := "" |}.

(** No principal calls this one: the enrollment token is the authorization. *)
Definition enrollKLIQ (ctx : AuditContext) (body : string) : io F Response :=
  needs M := sv_Management s else no_store_response;;
  try req := lift (decode_enrollmentRequest body) else always 400 "invalid_json";;
  refuse blank (er_EnrollmentToken req) || blank (er_NodeID req)
    with writeError 400 "invalid_enrollment_request";;
  refuse blank (er_PublicKeyPEM req) && blank (er_CSRPEM req)
    with writeError 400 "missing_identity_material";;
  try _ := lift (validateIdentityMaterial (er_PublicKeyPEM req) (er_CSRPEM req))
    else always 400 "invalid_identity_material";;
  now ← time_Now;
  try token := mg_UseEnrollmentToken ctx (er_EnrollmentToken req) (er_Environment req)
                 (er_Stage req) (er_Scope req) now
    else always 403 "invalid_enrollment_token";;
  let registration := enrolled_registration req now in
  let registerCtx := WithAuditMetadata ctx (metadata_of
    [("enrollment_token_id", JStr (et_TokenID token));
     ("kliq_id", JStr (reg_KLIQID registration))]) in
  try _ := mg_Register registerCtx registration else always 500 "registration_failed";;
  match sv_KLIQService s with
    | None => mret (writeJSON 201 (BEnrollment registration ""))
    | Some issuer =>
    try serviceToken := IssueForIdentity time_Now issuer (reg_Identity registration) hours24
      else always 500 "service_token_issue_failed";;
  mret (writeJSON 201 (BEnrollment registration serviceToken))
    end.

Definition refreshKLIQServiceToken (principal : Principal) : io F Response :=
  needs M := sv_Management s else writeError 500 "kliq_service_refresh_not_configured";;
  needs issuer := sv_KLIQService s else writeError 500 "kliq_service_refresh_not_configured";;
  try registration := mg_Registration (PrincipalKLIQID principal)
    else not_found_or "kliq_registration_not_found" 500 "registration_read_failed";;
  try _ := lift (ensureKLIQRegistrationActive registration)
    else always 403 "kliq_registration_revoked";;
  try _ := lift (authorizeKLIQServicePrincipal principal registration)
    else always 403 "forbidden";;
  try token := IssueForIdentity time_Now issuer (reg_Identity registration) hours24
    else always 500 "service_token_issue_failed";;
  now ← time_Now;
  mret (writeJSON 200 (BServiceToken token (now + hours24))).

Definition decodeRevocationReason (body : string) : string :=
  let reason := decode_reason body in
  if blank reason then "unspecified" else trim_space reason.

Definition revokeEnrollmentToken (ctx : AuditContext) (token_id body : string)
    (principal : Principal) : io F Response :=
  needs M := sv_Management s else no_store_response;;
  try token := mg_EnrollmentToken (trim_space token_id)
    else not_found_or "enrollment_token_not_found" 500 "enrollment_token_read_failed";;
  try _ := lift (Authorize principal
              {| rq_Action := "kliq.enrollment_token.revoke"; rq_AllowedRoles := KLIQManageRoles;
                 rq_Scope := env_stage (et_Environment token) (et_Stage token) |})
    else always 403 "forbidden";;
  now ← time_Now;
  try _ := mg_RevokeEnrollmentToken ctx (et_TokenID token) (decodeRevocationReason body) now
    else always 400 "enrollment_token_revoke_failed";;
  mret (writeJSON 202 (BStatus "revoked")).

(** *** Assignments *)

Definition validateApprovedBuild (artifacts : ArtifactStore F) (signer : Signer F)
    (registration : KLIQRegistration) (req : assignmentPlanRequest)
    : io F PolicyBuildManifest :=
  let ref := apr_ApprovedBuildRef req in
  deny blank (ref_URI ref) || blank (ref_SHA256 ref) with Errorf "approved_build_required" [];;
  r ← attempt (store_Get ref);
  payload ← lift (replace_err (Errorf "approved_build_unavailable" []) r);
  payload ← verifyApprovedBuildManifestEnvelope signer payload;
  manifest ← lift (replace_err (Errorf "approved_build_invalid" [])
                     (decode_PolicyBuildManifest payload));
  deny pbm_Kind manifest !=s "PolicyBuildManifest"
    with Errorf "approved_build_invalid_kind" [];;
  deny apv_Status (pbm_Approval manifest) !=s "approved"
    with Errorf "approved_build_not_approved" [];;
  _ ← lift (validateApprovedBuildAuthority manifest registration);
  deny negb (same_text (pr_Commit (sp_PolicyRepo (pbm_Spec manifest))) (apr_SourceCommit req))
    with Errorf "approved_build_source_commit_mismatch" [];;
  deny missing_provenance (pbm_Spec manifest)
    with Errorf "approved_build_missing_provenance" [];;
  _ ← lift (validateFederatedSourceDigests manifest);
  _ ← lift (validateApprovedBuildSignedAdapterManifests manifest);
  _ ← lift (validateApprovedBuildRuntimeProvenance manifest);
  deny empty_str (mm_ID (pbm_Metadata manifest)) with Errorf "approved_build_missing_id" [];;
  deny empty_str (reg_Environment registration) || empty_str (reg_Stage registration) ||
       empty_str (reg_Scope registration)
    with Errorf "kliq_registration_scope_incomplete" [];;
  _ ← lift (for_each (validateArtifactInApprovedBuild manifest) (apr_Artifacts req));
  _ ← lift (validateRuntimeBundleAdapterManifestPair manifest (apr_Artifacts req));
  mret manifest.

Definition resolveArtifact (artifacts : ArtifactStore F) (signer : Signer F)
    (req : assignmentPlanRequest) (requested : KLIQAssignedArtifact)
    : io F KLIQAssignedArtifact :=
  deny blank (aa_ArtifactType requested) || blank (aa_ArtifactID requested)
    with Errorf "invalid_artifact_ref" [];;
  deny negb (allowedAssignmentArtifactType (aa_ArtifactType requested))
    with Errorf "unsupported_assignment_artifact_type" [];;
  let ref := requested_ref requested in
  deny empty_str (ref_URI ref) || empty_str (ref_SHA256 ref)
    with Errorf "invalid_artifact_ref" [];;
  r ← attempt (store_Get ref);
  payload ← lift (replace_err (Errorf "artifact_ref_unavailable" []) r);
  envelope ← lift (replace_err (Errorf "artifact_ref_not_signed_envelope" [])
                     (decode_SignedEnvelope payload));
  deny (env_Kind envelope !=s "SignedEnvelope") || empty_str (env_PayloadSHA256 envelope)
    with Errorf "artifact_ref_not_signed_envelope" [];;
  _ ← verifyAssignmentArtifactEnvelope signer (aa_ArtifactType requested) envelope;
  deny negb (same_text (env_SourceCommit envelope) (apr_SourceCommit req))
    with Errorf "artifact_source_commit_mismatch" [];;
  mret {| aa_ArtifactType := trim_space (aa_ArtifactType requested);
          aa_ArtifactID := trim_space (aa_ArtifactID requested);
          aa_ArtifactRef := ref_URI ref;
          aa_SHA256 := SHA256JSON payload;
          aa_Envelope := payload |}.

Definition resolveAssignmentArtifacts (artifacts : ArtifactStore F) (signer : Signer F)
    (req : assignmentPlanRequest) : io F (list KLIQAssignedArtifact) :=
  io_fold (λ acc requested,
    artifact ← resolveArtifact artifacts signer req requested;
  mret (acc ++ [artifact])) [] (apr_Artifacts req).

(** A missing digest is the digest of the envelope. *)
Definition with_digest (a : KLIQAssignedArtifact) : KLIQAssignedArtifact :=
  if empty_str (aa_SHA256 a) then {|
    aa_ArtifactType := aa_ArtifactType a; aa_ArtifactID := aa_ArtifactID a;
    aa_ArtifactRef := aa_ArtifactRef a; aa_SHA256 := SHA256JSON (aa_Envelope a);
    aa_Envelope := aa_Envelope a |}
    else a.

(** Fields of an assignment the signer fills in. *)
Definition with_artifacts (artifacts : list KLIQAssignedArtifact) (a : KLIQAssignment)
    : KLIQAssignment := {|
    asg_AssignmentID := asg_AssignmentID a; asg_AssignmentVersion := asg_AssignmentVersion a;
    asg_KLIQID := asg_KLIQID a; asg_Environment := asg_Environment a; asg_Stage := asg_Stage a;
    asg_Scope := asg_Scope a; asg_SourceCommit := asg_SourceCommit a;
    asg_TrustKeyID := asg_TrustKeyID a; asg_TrustBundleRef := asg_TrustBundleRef a;
    asg_CreatedAt := asg_CreatedAt a; asg_ExpiresAt := asg_ExpiresAt a;
    asg_ApprovedRollback := asg_ApprovedRollback a; asg_Artifacts := artifacts;
    asg_Status := asg_Status a; asg_RevokedAt := asg_RevokedAt a;
    asg_RevokedReason := asg_RevokedReason a; asg_SignatureValid := asg_SignatureValid a;
    asg_ManifestSigned := asg_ManifestSigned a; asg_ManifestDigest := asg_ManifestDigest a;
    asg_ManifestSignatureValid := asg_ManifestSignatureValid a;
    asg_Provenance := asg_Provenance a |}.
Definition with_manifest (digest : string) (a : KLIQAssignment) : KLIQAssignment := {|
    asg_AssignmentID := asg_AssignmentID a; asg_AssignmentVersion := asg_AssignmentVersion a;
    asg_KLIQID := asg_KLIQID a; asg_Environment := asg_Environment a; asg_Stage := asg_Stage a;
    asg_Scope := asg_Scope a; asg_SourceCommit := asg_SourceCommit a;
    asg_TrustKeyID := asg_TrustKeyID a; asg_TrustBundleRef := asg_TrustBundleRef a;
    asg_CreatedAt := asg_CreatedAt a; asg_ExpiresAt := asg_ExpiresAt a;
    asg_ApprovedRollback := asg_ApprovedRollback a; asg_Artifacts := asg_Artifacts a;
    asg_Status := asg_Status a; asg_RevokedAt := asg_RevokedAt a;
    asg_RevokedReason := asg_RevokedReason a; asg_SignatureValid := false;
    asg_ManifestSigned := asg_ManifestSigned a; asg_ManifestDigest := digest;
    asg_ManifestSignatureValid := false; asg_Provenance := asg_Provenance a |}.

Definition signAndStoreAssignment (M : ManagementStore F) (signer : Signer F)
    (ctx : AuditContext) (assignment : KLIQAssignment) : io F SignedEnvelope :=
  _ ← lift (replace_err (Errorf "invalid_assignment" []) (validateAssignmentRequest assignment));
  let assignment := with_artifacts (with_digest <$> asg_Artifacts assignment) assignment in
  _ ← lift (replace_err (Errorf "invalid_assignment_artifact" [])
              (ValidateAssignedArtifactDigests assignment));
  manifestData ← lift (replace_err (Errorf "invalid_assignment_manifest" [])
                         (encode_AssignmentManifest (AssignmentManifestFor assignment)));
  let assignment := with_manifest (SHA256JSON manifestData) assignment in
  payload ← lift (replace_err (Errorf "invalid_assignment_payload" [])
                    (encode_KLIQAssignment assignment));
  r ← attempt (sg_Sign signer payload
        {| md_KeyID := ""; md_SourceCommit := asg_SourceCommit assignment; md_PolicyID := "";
           md_ExpiresAt := Some (asg_ExpiresAt assignment) |});
  envelope ← lift (replace_err (Errorf "assignment_signing_failed" []) r);
  r ← attempt (mg_SaveAssignment ctx (asg_KLIQID assignment) (asg_AssignmentVersion assignment)
                 envelope);
  _ ← lift (replace_err (Errorf "assignment_store_failed" []) r);
  mret envelope.

(** The assignment that is planned for a registration. *)
Definition planned_assignment (registration : KLIQRegistration) (req : assignmentPlanRequest)
    (version : Z) (now : time) (artifacts : list KLIQAssignedArtifact)
    (provenance : option AssignmentProvenance) : KLIQAssignment := {|
    asg_AssignmentID := "kliq_assignment." +:+ reg_KLIQID registration +:+ "." +:+
                      apr_SourceCommit req +:+ ".v" +:+ pretty version;
    asg_AssignmentVersion := version;
    asg_KLIQID := reg_KLIQID registration;
    asg_Environment := reg_Environment registration;
    asg_Stage := reg_Stage registration;
    asg_Scope := reg_Scope registration;
    asg_SourceCommit := apr_SourceCommit req;
    asg_TrustKeyID := id_TrustKeyID (reg_Identity registration);
    asg_TrustBundleRef := or_default (trim_space (apr_TrustBundleRef req))
                          (id_TrustKeyID (reg_Identity registration));
    asg_CreatedAt := now;
    asg_ExpiresAt := apr_ExpiresAt req;
    asg_ApprovedRollback := apr_ApprovedRollback req;
    asg_Artifacts := artifacts;
    asg_Status := "active";
    asg_RevokedAt := 0; asg_RevokedReason := ""; asg_SignatureValid := false;
    asg_ManifestSigned := false; asg_ManifestDigest := ""; asg_ManifestSignatureValid := false;
    asg_Provenance := provenance |}.

Definition planKLIQAssignment (ctx : AuditContext) (body : string) (principal : Principal)
    : io F Response :=
  needs M := sv_Management s else writeError 500 "kliq_management_not_configured";;
  needs signer := sv_ManagementSign s else writeError 500 "kliq_management_not_configured";;
  needs artifacts := sv_Artifacts s else writeError 500 "artifact_store_not_configured";;
  try req := lift (decode_assignmentPlanRequest body) else always 400 "invalid_json";;
  try registration := mg_Registration (trim_space (apr_KLIQID req))
    else not_found_or "kliq_registration_not_found" 500 "registration_read_failed";;
  try _ := lift (ensureKLIQRegistrationActive registration)
    else always 403 "kliq_registration_revoked";;
  try _ := lift (Authorize principal
              {| rq_Action := "kliq.assignment.plan"; rq_AllowedRoles := KLIQManageRoles;
                 rq_Scope := kliqRegistrationScope registration |})
    else always 403 "forbidden";;
  refuse blank (apr_SourceCommit req) || IsZero (apr_ExpiresAt req) ||
         Nat.eqb (length (apr_Artifacts req)) 0
    with writeError 400 "invalid_assignment_plan";;
  try _ := lift (rejectRawAssignmentArtifactEnvelopes (apr_Artifacts req))
    else (λ e, writeError 400 (error_text e));;
  try approvedBuild := validateApprovedBuild artifacts signer registration req
    else (λ e, writeError 400 (error_text e));;
  try resolved := resolveAssignmentArtifacts artifacts signer req
    else (λ e, writeError 400 (error_text e));;
  try version := mg_NextAssignmentVersion (reg_KLIQID registration)
    else always 500 "assignment_version_failed";;
  now ← time_Now;
  let assignment := planned_assignment registration req version now resolved
        (assignmentProvenanceFromBuild approvedBuild (apr_ApprovedBuildRef req)) in
  try envelope := signAndStoreAssignment M signer ctx assignment
    else (λ e, writeError 400 (error_text e));;
  _ ← ignore (mg_SaveAuditEvent ctx {|
        ev_EventID := ""; ev_EventType := "assignment_planned"; ev_Actor := p_Subject principal;
        ev_TargetType := "kliq_assignment"; ev_TargetID := asg_AssignmentID assignment;
        ev_KLIQID := asg_KLIQID assignment; ev_Environment := asg_Environment assignment;
        ev_Stage := asg_Stage assignment; ev_Scope := asg_Scope assignment;
        ev_Metadata := metadata_of
          [("assignment_version", JNum version); ("source_commit", JStr (apr_SourceCommit req));
           ("approved_build_id", JStr (mm_ID (pbm_Metadata approvedBuild)));
           ("approved_build_ref", JStr (ref_URI (apr_ApprovedBuildRef req)))];
        ev_CreatedAt := now |});
  mret (writeJSON 201 (BEnvelope envelope)).

(** The defaults of an assignment made by hand in development. *)
Definition dev_defaults (now : time) (a : KLIQAssignment) : KLIQAssignment := {|
    asg_AssignmentID := or_default (asg_AssignmentID a)
    ("kliq_assignment." +:+ asg_KLIQID a +:+ "." +:+ asg_SourceCommit a);
    asg_AssignmentVersion := asg_AssignmentVersion a;
    asg_KLIQID := asg_KLIQID a; asg_Environment := asg_Environment a; asg_Stage := asg_Stage a;
    asg_Scope := asg_Scope a; asg_SourceCommit := asg_SourceCommit a;
    asg_TrustKeyID := asg_TrustKeyID a;
    asg_TrustBundleRef := or_default (asg_TrustBundleRef a) (asg_TrustKeyID a);
    asg_CreatedAt := if IsZero (asg_CreatedAt a) then now else asg_CreatedAt a;
    asg_ExpiresAt := asg_ExpiresAt a; asg_ApprovedRollback := asg_ApprovedRollback a;
    asg_Artifacts := asg_Artifacts a; asg_Status := or_default (asg_Status a) "active";
    asg_RevokedAt := asg_RevokedAt a; asg_RevokedReason := asg_RevokedReason a;
    asg_SignatureValid := asg_SignatureValid a; asg_ManifestSigned := asg_ManifestSigned a;
    asg_ManifestDigest := asg_ManifestDigest a;
    asg_ManifestSignatureValid := asg_ManifestSignatureValid a;
    asg_Provenance := asg_Provenance a |}.

Definition createDevKLIQAssignment (ctx : AuditContext) (body : string) (principal : Principal)
    : io F Response :=
  needs M := sv_Management s else writeError 500 "kliq_management_not_configured";;
  needs signer := sv_ManagementSign s else writeError 500 "kliq_management_not_configured";;
  refuse negb (sv_DevManagement s) with writeError 403 "dev_management_disabled";;
  try assignment := lift (decode_stream_KLIQAssignment body) else always 400 "invalid_json";;
  try registration := mg_Registration (trim_space (asg_KLIQID assignment))
    else not_found_or "kliq_registration_not_found" 500 "registration_read_failed";;
  try _ := lift (validateKLIQScope registration (asg_Environment assignment)
                   (asg_Stage assignment) (asg_Scope assignment))
    else always 400 "assignment_scope_mismatch";;
  try _ := lift (Authorize principal
              {| rq_Action := "kliq.assignment.dev_create"; rq_AllowedRoles := KLIQManageRoles;
                 rq_Scope := kliqRegistrationScope registration |})
    else always 403 "forbidden";;
  now ← time_Now;
  try envelope := signAndStoreAssignment M signer ctx (dev_defaults now assignment)
    else (λ e, writeError 400 (error_text e));;
  mret (writeJSON 201 (BEnvelope envelope)).

Definition latestKLIQAssignment (ctx : AuditContext) (kliq_id : string) (principal : Principal)
    : io F Response :=
  needs M := sv_Management s else no_store_response;;
  let kliqID := trim_space kliq_id in
  try registration := mg_Registration kliqID
    else not_found_or "kliq_registration_not_found" 500 "registration_read_failed";;
  try _ := lift (ensureKLIQRegistrationActive registration)
    else always 403 "kliq_registration_revoked";;
  try _ := lift (authorizeKLIQAssignmentRead principal registration)
    else always 403 "forbidden";;
  try envelope := mg_LatestAssignment ctx kliqID
    else not_found_or "assignment_not_found" 500 "assignment_read_failed";;
  mret (writeJSON 200 (BEnvelope envelope)).

Definition revokeKLIQAssignment (ctx : AuditContext) (kliq_id version body : string)
    (principal : Principal) : io F Response :=
  needs M := sv_Management s else no_store_response;;
  let kliqID := trim_space kliq_id in
  needs version := ParseInt (trim_space version)
    else writeError 400 "invalid_assignment_version";;
  refuse version <=? 0 with writeError 400 "invalid_assignment_version";;
  try registration := mg_Registration kliqID
    else not_found_or "kliq_registration_not_found" 500 "registration_read_failed";;
  try _ := lift (Authorize principal
              {| rq_Action := "kliq.assignment.revoke"; rq_AllowedRoles := KLIQManageRoles;
                 rq_Scope := kliqRegistrationScope registration |})
    else always 403 "forbidden";;
  now ← time_Now;
  try _ := mg_RevokeAssignment ctx kliqID version (decodeRevocationReason body) now
    else always 400 "assignment_revoke_failed";;
  mret (writeJSON 202 (BStatus "revoked")).

Definition revokeKLIQRegistration (ctx : AuditContext) (kliq_id body : string)
    (principal : Principal) : io F Response :=
  needs M := sv_Management s else no_store_response;;
  let kliqID := trim_space kliq_id in
  try registration := mg_Registration kliqID
    else not_found_or "kliq_registration_not_found" 500 "registration_read_failed";;
  try _ := lift (Authorize principal
              {| rq_Action := "kliq.registration.revoke"; rq_AllowedRoles := KLIQManageRoles;
                 rq_Scope := kliqRegistrationScope registration |})
    else always 403 "forbidden";;
  now ← time_Now;
  try _ := mg_RevokeKLIQ ctx kliqID (decodeRevocationReason body) now
    else always 400 "kliq_registration_revoke_failed";;
  mret (writeJSON 202 (BStatus "revoked")).

(** *** Trust bundles: the request has no scope *)

Definition rotateTrustBundle (ctx : AuditContext) (key_id body : string) (principal : Principal)
    : io F Response :=
  needs M := sv_Management s else no_store_response;;
  try _ := lift (Authorize principal
              {| rq_Action := "kliq.trust_bundle.rotate"; rq_AllowedRoles := KLIQManageRoles;
                 rq_Scope := no_scope |})
    else always 403 "forbidden";;
  try req := lift (decode_trustBundleRotationRequest body) else always 400 "invalid_json";;
  now ← time_Now;
  try _ := mg_RotateTrustBundle ctx (trim_space key_id) (trr_Next req)
             (trim_space (trr_Reason req)) now
    else not_found_or "trust_bundle_not_found" 400 "trust_bundle_rotate_failed";;
  mret (writeJSON 202 (BStatus "rotated")).

Definition revokeTrustBundle (ctx : AuditContext) (key_id body : string) (principal : Principal)
    : io F Response :=
  needs M := sv_Management s else no_store_response;;
  try _ := lift (Authorize principal
              {| rq_Action := "kliq.trust_bundle.revoke"; rq_AllowedRoles := KLIQManageRoles;
                 rq_Scope := no_scope |})
    else always 403 "forbidden";;
  now ← time_Now;
  try _ := mg_RevokeTrustBundle ctx (trim_space key_id) (decodeRevocationReason body) now
    else always 400 "trust_bundle_revoke_failed";;
  mret (writeJSON 202 (BStatus "revoked")).

(** *** Reports of a KLIQ *)

(** The checks the three reports share: the KLIQ is registered and active, the
    report is for its scope, and the caller is that KLIQ. *)
Definition from_kliq (M : ManagementStore F) (kliqID environment stage scope mismatch : string)
    (principal : Principal) (k : io F Response) : io F Response :=
  try registration := mg_Registration (trim_space kliqID)
    else not_found_or "kliq_registration_not_found" 500 "registration_read_failed";;
  try _ := lift (ensureKLIQRegistrationActive registration)
    else always 403 "kliq_registration_revoked";;
  try _ := lift (validateKLIQScope registration environment stage scope)
    else always 400 mismatch;;
  try _ := lift (authorizeKLIQServicePrincipal principal registration)
    else always 403 "forbidden";;
  k.

Definition hb_with_time (now : time) (h : KLIQHeartbeat) : KLIQHeartbeat := {|
    hb_KLIQID := hb_KLIQID h; hb_Environment := hb_Environment h; hb_Stage := hb_Stage h;
    hb_Scope := hb_Scope h; hb_Version := hb_Version h; hb_AssignmentID := hb_AssignmentID h;
    hb_AssignmentVersion := hb_AssignmentVersion h; hb_BundleID := hb_BundleID h;
    hb_SourceCommit := hb_SourceCommit h; hb_Status := hb_Status h; hb_Findings := hb_Findings h;
    hb_ReportedAt := now |}.

Definition recordKLIQHeartbeat (body : string) (principal : Principal) : io F Response :=
  needs M := sv_Management s else no_store_response;;
  try heartbeat := lift (decode_KLIQHeartbeat body) else always 400 "invalid_json";;
  from_kliq M (hb_KLIQID heartbeat) (hb_Environment heartbeat) (hb_Stage heartbeat)
    (hb_Scope heartbeat) "heartbeat_scope_mismatch" principal (
    reported ← if IsZero (hb_ReportedAt heartbeat) then time_Now
               else mret (hb_ReportedAt heartbeat);
  try _ := mg_SaveHeartbeat (hb_with_time reported heartbeat)
      else always 400 "heartbeat_store_failed";;
  mret (writeJSON 202 (BStatus "accepted"))).

Definition sr_with_time (now : time) (r : KLIQStatusReport) : KLIQStatusReport := {|
    sr_KLIQID := sr_KLIQID r; sr_Environment := sr_Environment r; sr_Stage := sr_Stage r;
    sr_Scope := sr_Scope r; sr_AssignmentID := sr_AssignmentID r;
    sr_AssignmentVersion := sr_AssignmentVersion r; sr_BundleID := sr_BundleID r;
    sr_SourceCommit := sr_SourceCommit r; sr_Status := sr_Status r; sr_Findings := sr_Findings r;
    sr_RuntimeActions := sr_RuntimeActions r; sr_PendingAudits := sr_PendingAudits r;
    sr_AdapterHealth := sr_AdapterHealth r; sr_RuntimeSummary := sr_RuntimeSummary r;
    sr_AuditSpoolState := sr_AuditSpoolState r; sr_ReportedAt := now |}.

Definition recordKLIQStatusReport (body : string) (principal : Principal) : io F Response :=
  needs M := sv_Management s else no_store_response;;
  try report := lift (decode_KLIQStatusReport body) else always 400 "invalid_json";;
  from_kliq M (sr_KLIQID report) (sr_Environment report) (sr_Stage report)
    (sr_Scope report) "status_report_scope_mismatch" principal (
    reported ← if IsZero (sr_ReportedAt report) then time_Now else mret (sr_ReportedAt report);
  try _ := mg_SaveStatusReport (sr_with_time reported report)
      else always 400 "status_report_store_failed";;
  mret (writeJSON 202 (BStatus "accepted"))).

Definition audit_ack (upload : KLIQAuditUpload) (at_ : time) : KLIQAuditUploadAck := {|
    ack_Status := "accepted";
    ack_AuditRecordID := up_AuditRecordID upload;
    ack_AckID := "kliq_audit_ack." +:+
    shortAuditHash (join NUL [up_KLIQID upload; up_AuditRecordID upload; up_PayloadSHA256 upload]);
    ack_AckedAt := at_ |}.

Definition recordKLIQAuditUpload (ctx : AuditContext) (body : string) (principal : Principal)
    : io F Response :=
  needs M := sv_Management s else no_store_response;;
  try upload := lift (decode_KLIQAuditUpload body) else always 400 "invalid_json";;
  from_kliq M (up_KLIQID upload) (up_Environment upload) (up_Stage upload)
    (up_Scope upload) "audit_scope_mismatch" principal (
    refuse blank (up_AuditRecordID upload) || blank (up_PayloadSHA256 upload)
      with writeError 400 "invalid_audit_upload";;
  refuse (up_Payload upload !=s "") &&
           (SHA256JSON (up_Payload upload) !=s up_PayloadSHA256 upload)
      with writeError 400 "audit_payload_hash_mismatch";;
  uploaded ← if IsZero (up_UploadedAt upload) then time_Now else mret (up_UploadedAt upload);
  let ack := audit_ack upload uploaded in
  try _ := mg_SaveAuditEvent ctx {|
          ev_EventID := ""; ev_EventType := "kliq_audit_uploaded"; ev_Actor := p_Subject principal;
          ev_TargetType := "kliq_audit_event"; ev_TargetID := up_AuditRecordID upload;
          ev_KLIQID := up_KLIQID upload; ev_Environment := up_Environment upload;
          ev_Stage := up_Stage upload; ev_Scope := up_Scope upload;
          ev_Metadata := metadata_of
            [("runtime_action_id", JStr (up_RuntimeActionID upload));
             ("payload_sha256", JStr (up_PayloadSHA256 upload));
             ("ack_id", JStr (ack_AckID ack))];
          ev_CreatedAt := uploaded |}
      else always 400 "audit_upload_store_failed";;
  mret (writeJSON 202 (BAck ack))).

Definition getKLIQStatusReport (kliq_id : string) (principal : Principal) : io F Response :=
  needs M := sv_Management s else no_store_response;;
  let kliqID := trim_space kliq_id in
  try registration := mg_Registration kliqID
    else not_found_or "kliq_registration_not_found" 500 "registration_read_failed";;
  try _ := lift (ensureKLIQRegistrationActive registration)
    else always 403 "kliq_registration_revoked";;
  try _ := lift (Authorize principal
              {| rq_Action := "kliq.status_report.read"; rq_AllowedRoles := KLIQReadRoles;
                 rq_Scope := kliqRegistrationScope registration |})
    else always 403 "forbidden";;
  try report := mg_StatusReport kliqID
    else not_found_or "status_report_not_found" 500 "status_report_read_failed";;
  mret (writeJSON 200 (BStatusReport report)).

(** *** Jobs ([server.go]) *)

Definition createSimulationJob (body : string) (principal : Principal) : io F Response :=
  needs jobs := sv_Store s else writeError 500 "job_store_not_configured";;
  try req := lift (decode_SimulationJobRequest body) else always 400 "invalid_json";;
  try _ := lift (Authorize principal
              {| rq_Action := "simulation.submit"; rq_AllowedRoles := SimulationSubmitRoles;
                 rq_Scope := sjr_Scope req |})
    else always 403 "forbidden";;
  try job := NewJob time_Now rand_Read TypeSimulation (p_Subject principal)
               (encode_SimulationPayload (sjr_Payload req))
    else always 400 "invalid_job_payload";;
  try _ := job_Create job else always 500 "job_create_failed";;
  try _ := job_Enqueue (jb_ID job) else always 500 "job_enqueue_failed";;
  mret (writeJSON 202 (BJob job)).

(** Without a store this handler panics: [net/http] drops the connection. *)
Definition getJob (id : string) (principal : Principal) : io F Response :=
  try _ := lift (Authorize principal
              {| rq_Action := "job.read"; rq_AllowedRoles := JobReadRoles; rq_Scope := no_scope |})
    else always 403 "forbidden";;
  let id := trim_space id in
  refuse empty_str id with writeError 400 "missing_job_id";;
  match sv_Store s with
  | None => fail (Sentinel "panic: nil pointer dereference")
  | Some jobs =>
      try job := job_Get id
        else (λ e, if error_is e ErrJobNotFound then writeError 404 "job_not_found"
                   else writeError 500 "job_read_failed");;
      mret (writeJSON 200 (BJob job))
  end.

(** *** Authentication and routes ([server.go]) *)

Inductive Route : Type :=
  | Healthz
    | Me
    | CreateSimulationJob
    | GetJob (id : string)
    | ApprovePolicyBuildManifest
    | CreateEnrollmentTokenRoute
    | RevokeEnrollmentTokenRoute (token_id : string)
    | Enroll
    | PlanAssignment
    | CreateDevAssignment
    | GetLatestAssignment (kliq_id : string)
    | RevokeAssignmentRoute (kliq_id version : string)
    | RevokeRegistrationRoute (kliq_id : string)
    | RotateTrustBundleRoute (key_id : string)
    | RevokeTrustBundleRoute (key_id : string)
    | Heartbeat
    | PostStatusReport
    | GetStatusReport (kliq_id : string)
    | PostAuditEvent
    | RefreshServiceToken.

Definition requireAuth (r : Request)
    (next : AuditContext → Principal → io F Response) : io F Response :=
  needs authenticator := sv_Authenticator s else writeError 500 "authenticator_not_configured";;
  let accepted principal :=
  next (WithAuditActor no_context (p_Subject principal)) principal in
  early ← match au_VerifyRequest authenticator with
          | Some verifyRequest => attempt (verifyRequest r)
          | None => mret (Err ErrUnauthenticated)
          end;
  match early with
    | Ok principal => accepted principal
    | Err _ =>
    try token := lift (BearerToken (hr_Authorization r)) else always 401 "missing_bearer_token";;
  try principal := au_Verify authenticator token else always 401 "invalid_token";;
  accepted principal
    end.

(** What a route does once its caller is known. *)
Definition authenticated (route : Route) (r : Request) (ctx : AuditContext)
    (principal : Principal) : io F Response :=
  let body := hr_Body r in
  match route with
    | Healthz => mret (writeJSON 200 (BStatus "ok"))
    | Me => mret (writeJSON 200 (BPrincipal principal))
    | CreateSimulationJob => createSimulationJob body principal
    | GetJob id => getJob id principal
    | ApprovePolicyBuildManifest => approvePolicyBuildManifest ctx body principal
    | CreateEnrollmentTokenRoute => createEnrollmentToken ctx body principal
    | RevokeEnrollmentTokenRoute token_id => revokeEnrollmentToken ctx token_id body principal
    | Enroll => enrollKLIQ ctx body
    | PlanAssignment => planKLIQAssignment ctx body principal
    | CreateDevAssignment => createDevKLIQAssignment ctx body principal
    | GetLatestAssignment kliq_id => latestKLIQAssignment ctx kliq_id principal
    | RevokeAssignmentRoute kliq_id version =>
      revokeKLIQAssignment ctx kliq_id version body principal
    | RevokeRegistrationRoute kliq_id => revokeKLIQRegistration ctx kliq_id body principal
    | RotateTrustBundleRoute key_id => rotateTrustBundle ctx key_id body principal
    | RevokeTrustBundleRoute key_id => revokeTrustBundle ctx key_id body principal
    | Heartbeat => recordKLIQHeartbeat body principal
    | PostStatusReport => recordKLIQStatusReport body principal
    | GetStatusReport kliq_id => getKLIQStatusReport kliq_id principal
    | PostAuditEvent => recordKLIQAuditUpload ctx body principal
    | RefreshServiceToken => refreshKLIQServiceToken principal
    end.

(** [Server.Handler]: two routes need no authentication. *)
Definition Handler (route : Route) (r : Request) : io F Response :=
  match route with
    | Healthz => mret (writeJSON 200 (BStatus "ok"))
    | Enroll => enrollKLIQ no_context (hr_Body r)
    | route => requireAuth r (authenticated route r)
    end.
End configured.
End handlers.

(** ** Validation of a change in CI ([validation.go])

    The route POST /v1/validation/ci is apart from [Handler]: what it runs works on the files
    of the server, and has no part in the state of the management API. *)

Record ciValidationRequest := {
  cvr_PolicyRepo : string;
  cvr_CoreRegistry : string;
  cvr_EnterpriseRegistry : string;
  cvr_Request : CIRequestReport;
  cvr_OutputDir : string;
  cvr_AdapterVerify : AdapterVerifyOptions;
  cvr_Scope : Scope;
}.

Class CIDecoder := { decode_ciValidationRequest : string → result ciValidationRequest }.

(** The scope that is authorized: what the request declares, completed. *)
Definition ci_scope (req : ciValidationRequest) : Scope :=
  let or_else value fallback := if empty_str value then fallback else value in
  let scope := cvr_Scope req in
  let r := cvr_Request req in
  {| sc_Org := or_else (sc_Org scope) (crp_Tenant r);
     sc_Environment := or_else (sc_Environment scope) (crp_Environment r);
     sc_Stage := sc_Stage scope; sc_PolicyType := sc_PolicyType scope; sc_Resource := sc_Resource scope;
     sc_Adapter := sc_Adapter scope;
     sc_Repo := or_else (sc_Repo scope) (crp_Repository r) |}.

(** What is validated: the repositories of the server, unless the request names others. *)
Definition ci_options (defaults : CIOptions) (req : ciValidationRequest) : CIOptions :=
  let named value fallback := if blank value then fallback else value in
  {| cio_PolicyRepo := named (cvr_PolicyRepo req) (cio_PolicyRepo defaults);
     cio_CoreRegistry := named (cvr_CoreRegistry req) (cio_CoreRegistry defaults);
     cio_EnterpriseRegistry := named (cvr_EnterpriseRegistry req) (cio_EnterpriseRegistry defaults);
     cio_Request := cvr_Request req;
     cio_OutputDir := cvr_OutputDir req;
     cio_AdapterVerify := cvr_AdapterVerify req |}.

Section ci.
Context {GR : GoRuntime} {F : Type} {ST : ArtifactStore F} {CW : CompilerWorld F} {TD : TempDir F}.
Context {EC : CompilerEncoders} {UL : UnicodeLower} {CE : CEL} {FS : Files} {EN : Environment}.
Context {MD : ManifestDecoder} {FT : FloatText} {DD : DocumentDecoders} {RD : RegistryDecoders}.
Context {BD : BindingDecoders} {SD : SnapshotDecoder} {AR : AdapterRuntime} {CD : CIDecoder}.
Context (NewCELValidator : result unit).

Definition validateCI (defaults : CIOptions) (body : string) (principal : Principal) : io F Response :=
  try req := lift (decode_ciValidationRequest body) else always 400 "invalid_json";;
  try _ := lift (Authorize principal
              {| rq_Action := "validation.ci"; rq_AllowedRoles := ValidationSubmitRoles;
                 rq_Scope := ci_scope req |})
    else always 403 "forbidden";;
  result ← ValidateCI NewCELValidator (ci_options defaults req);
  mret (writeJSON (if civ_Status result ==s "passed" then 200 else 422) (BValidation result)).

(** The route. *)
Definition validation_route (s : Server F) (defaults : CIOptions) (r : Request) : io F Response :=
  requireAuth s r (λ _ principal, validateCI defaults (hr_Body r) principal).

(** C21. A change is validated only for a caller with one of the roles of validation, whose
    scope covers the scope that is asked: any other request is refused and writes nothing.
    The answer is 200 exactly when the validation passed.  The scope that is asked is the
    one the request declares, not the tenant it names: with its own scope declared, a
    caller that may submit at all may submit the change of any tenant, environment and
    repository. *)
Theorem validateCI_authorized defaults body p (s s' : F) resp :
  validateCI defaults body p s = (Ok resp, s') →
  ((∃ status code, resp = writeError status code ∧ (status = 400 ∨ status = 403) ∧ s' = s) ∨
   (∃ req result, decode_ciValidationRequest body = Ok req ∧ may p ValidationSubmitRoles (ci_scope req) ∧
      ValidateCI NewCELValidator (ci_options defaults req) s = (Ok result, s') ∧
      resp_Payload resp = BValidation result ∧ (resp_Code resp = 200 ↔ civ_Status result = "passed"))) ∧
  ∀ req, may p ValidationSubmitRoles no_scope → cvr_Scope req = p_Scope p →
    may p ValidationSubmitRoles (ci_scope req) ∧ cio_Request (ci_options defaults req) = cvr_Request req.
Proof.
  intros H. split.
  - unfold validateCI, or_respond in H. rewrite io_bind_run in H. cbn in H.
    destruct (decode_ciValidationRequest body) as [req|e]; [|destruct (is_panic e); [discriminate H|left; injection H as <- <-; eauto 6]].
    rewrite io_bind_run in H. cbn in H.
    destruct (Authorize p _) as [[]|e] eqn:Ea; [|destruct (is_panic e); [discriminate H|left; injection H as <- <-; eauto 6]].
    apply Authorize_iff in Ea. rewrite io_bind_run in H.
    destruct (ValidateCI _ _ s) as [[result|e] s1] eqn:Ev; [|discriminate H]. injection H as <- <-.
    right. exists req, result. split_and!; try done. cbn.
    destruct (String.eqb_spec (civ_Status result) "passed"); split; done.
  - intros req (Hs & Hr & _) Hscope. split; [|done]. split_and!; [done..|].
    unfold in_scope, ci_scope, covers. rewrite Hscope. cbn.
    repeat split; try (by auto);
      match goal with |- context [empty_str ?x] => destruct (String.eqb_spec x ""); auto end.
Qed.
End ci.
