(* ===== verification/ManagementMemoryProofs.v ===== *)
(** * What Forge's store keeps

    However its methods are called: audit events are only appended, an
    assignment's version never goes back and a revoked version stays revoked, the
    key and purpose of a trust bundle never change and a revoked one stays
    revoked, and a registered KLIQ stays registered under its own name. *)

From stdpp Require Import options.
From stdpp Require Import gmap.
From S2P Require Import Prelude IO GoStrings GoTime GoJson Signing Domain Management.
From S2P Require Import ManagementMemory.
#[local] Open Scope Z_scope.

(** ** Orders on what is stored *)

(** Every entry is still there, and related to what it was. *)
Definition entries_le {A} (R : relation A) (m m' : gmap string A) : Prop :=
  ∀ key a, m !! key = Some a → ∃ b, m' !! key = Some b ∧ R a b.

#[export] Instance entries_le_preorder {A} (R : relation A) `{!PreOrder R} :
  PreOrder (entries_le R).
Proof.
  split.
  - intros m k a H. by exists a.
  - intros m1 m2 m3 H12 H23 k a Ha. destruct (H12 k a Ha) as (b & Hb & Hab).
    destruct (H23 k b Hb) as (c & Hc & Hbc). exists c. split; [done|by etrans].
Qed.

Lemma entries_le_insert {A} (R : relation A) `{!PreOrder R} (m : gmap string A) key a :
  (∀ old, m !! key = Some old → R old a) → entries_le R m (<[key:=a]> m).
Proof.
  intros H k b Hb. destruct (decide (key = k)) as [->|Hk].
  - exists a. split; [apply lookup_insert_eq|by apply H].
  - exists b. split; [by rewrite lookup_insert_ne|done].
Qed.

Definition assignment_le (a b : assignmentRecord) : Prop :=
  ar_Version a < ar_Version b ∨
  (ar_Version b = ar_Version a ∧ ar_Envelope b = ar_Envelope a ∧
   (ar_RevokedAt a ≠ 0 → ar_RevokedAt b ≠ 0)).

#[export] Instance assignment_le_preorder : PreOrder assignment_le.
Proof.
  split; [intros a; right; auto|]. unfold assignment_le. intros a b c [?|(? & ? & ?)] [?|(? & ? & ?)].
  1-3: left; lia. right. split_and!; [congruence..|auto].
Qed.

Definition status_le (a b : string) : Prop :=
  b = a ∨ b = "revoked" ∨ (a = "active" ∧ b = "previous").

#[export] Instance status_le_preorder : PreOrder status_le.
Proof.
  split; [by left|]. unfold status_le. intros a b c [->|[->|[-> ->]]] [->|[->|[? ->]]]; auto; done.
Qed.

Definition trust_le (a b : TrustBundle) : Prop :=
  tb_PublicKey b = tb_PublicKey a ∧ tb_Purpose b = tb_Purpose a ∧
  status_le (tb_Status a) (tb_Status b).

#[export] Instance trust_le_preorder : PreOrder trust_le.
Proof.
  split; [intros a; split_and!; by try left|]. intros a b c (? & ? & ?) (? & ? & ?).
  split_and!; [congruence..|by etrans].
Qed.

(** ** Well-formed stores *)

(** Trust bundles are valid and filed under their key. *)
Definition trust_ok (s : MemoryStore) : Prop :=
  ∀ id b, m_trustBundles s !! id = Some b →
    tb_KeyID b = id ∧ validateNewTrustBundle b = Ok tt ∧ tb_Status b ≠ "".

(** Registrations and identities are filed under their KLIQ. *)
Definition regs_ok (s : MemoryStore) : Prop :=
  (∀ id r, m_registrations s !! id = Some r →
    id ≠ "" ∧ reg_KLIQID r = id ∧ id_KLIQID (reg_Identity r) = id) ∧
  ∀ id, match m_registrations s !! id, m_identities s !! id with
        | Some _, Some i => id_KLIQID i = id
        | None, None => True
        | _, _ => False
        end.

(** Tokens are filed under their digest and their identifier. *)
Definition tokens_ok (s : MemoryStore) : Prop :=
  (∀ hash t, m_tokensByHash s !! hash = Some t → et_TokenSHA256 t = hash) ∧
  (∀ id t, m_tokensByID s !! id = Some t → et_TokenID t = id).

Record forge_evolve (s s' : MemoryStore) : Prop := {
  fe_tokens : tokens_ok s → tokens_ok s';
  fe_events : m_auditEvents s `prefix_of` m_auditEvents s';
  fe_assignments : entries_le assignment_le (m_assignments s) (m_assignments s');
  fe_trust : trust_ok s →
    trust_ok s' ∧ entries_le trust_le (m_trustBundles s) (m_trustBundles s');
  fe_regs : regs_ok s → regs_ok s' ∧
    entries_le (λ _ _, True) (m_registrations s) (m_registrations s');
}.

#[local] Instance true_preorder {A} : PreOrder (λ _ _ : A, True).
Proof. by split. Qed.

#[export] Instance forge_evolve_preorder : PreOrder forge_evolve.
Proof.
  split.
  - intros s. by split.
  - intros s1 s2 s3 [K1 E1 A1 T1 R1] [K2 E2 A2 T2 R2]. split; [tauto|by etrans..| |].
    + intros H. destruct (T1 H) as [H2 ?], (T2 (proj1 (T1 H))) as [? ?]. split; [done|by etrans].
    + intros H. destruct (R1 H) as [H2 ?], (R2 (proj1 (R1 H))) as [? ?]. split; [done|by etrans].
Qed.

Lemma NewMemoryStore_ok :
  trust_ok NewMemoryStore ∧ regs_ok NewMemoryStore ∧ tokens_ok NewMemoryStore.
Proof. split_and!; [by intros id b|split; [by intros id r|done]|split; by intros id r]. Qed.

(** ** Each field on its own *)

Lemma set_token_evolve t s : forge_evolve s (set_token t s).
Proof.
  split; [|done..]. intros [H1 H2]. split; intros k u; simpl;
    rewrite lookup_insert_Some; intros [[<- <-]|[_ Hu]]; auto.
Qed.
Lemma set_revocation_evolve k r s : forge_evolve s (set_revocation k r s).
Proof. by split. Qed.
Lemma set_heartbeat_evolve h s : forge_evolve s (set_heartbeat h s).
Proof. by split. Qed.
Lemma set_report_evolve r s : forge_evolve s (set_report r s).
Proof. by split. Qed.
Lemma add_event_evolve e s : forge_evolve s (add_event e s).
Proof. split; [done|by eexists|done..]. Qed.

Lemma set_assignment_evolve id r s :
  (∀ old, m_assignments s !! id = Some old → assignment_le old r) →
  forge_evolve s (set_assignment id r s).
Proof. intros H. split; [done..| |done|done]. by apply entries_le_insert; [apply _|]. Qed.

Lemma set_trust_evolve id b s :
  (trust_ok s → tb_KeyID b = id ∧ validateNewTrustBundle b = Ok tt ∧ tb_Status b ≠ "") →
  (∀ old, trust_ok s → m_trustBundles s !! id = Some old → trust_le old b) →
  forge_evolve s (set_trust id b s).
Proof.
  intros Hb Hold. split; [done..| |done]. intros Hok. split.
  - intros k c. simpl. rewrite lookup_insert_Some. intros [[<- <-]|[_ Hc]]; auto.
  - apply entries_le_insert; [apply _|]. intros old H. by apply Hold.
Qed.

Lemma set_registration_evolve id r i s :
  (regs_ok s → id ≠ "" ∧ reg_KLIQID r = id ∧ id_KLIQID (reg_Identity r) = id ∧ id_KLIQID i = id) →
  forge_evolve s (set_registration id r i s).
Proof.
  intros H. split; [done..|]. intros Hok. destruct (H Hok) as (Hne & Hr & Hri & Hi).
  destruct Hok as [H1 H2]. split; [split|]; simpl.
  - intros k c. rewrite lookup_insert_Some. intros [[<- <-]|[_ Hc]]; auto.
  - intros k. destruct (decide (id = k)) as [->|Hk].
    + by rewrite !lookup_insert_eq.
    + rewrite !lookup_insert_ne by done. apply H2.
  - by apply entries_le_insert; [apply _|].
Qed.

(** ** Each method *)

Section methods.
Context {W : Type} {FW : ForgeWorld W}.
  Abbreviation F := (MemoryStore * W)%type.

Definition on_memory (R : relation MemoryStore) : relation F := λ x y, R x.1 y.1.
#[export] Instance on_memory_preorder R `{!PreOrder R} : PreOrder (on_memory R).
Proof.
  unfold on_memory. split; [intros x; simpl; reflexivity|].
  intros x y z. simpl. apply transitivity.
Qed.

  Abbreviation evolve := (on_memory forge_evolve).

Lemma Now_same R `{!PreOrder R} : preserves (on_memory R) (Now (W:=W)).
Proof. intros [s w]. unfold Now, on_memory. destruct (forge_now w). reflexivity. Qed.
Lemma Now_nonzero s t (s' : F) : Now s = (Ok t, s') → t ≠ 0.
Proof.
  destruct s as [m w]. unfold Now. pose proof (forge_now_nonzero w) as H.
  destruct (forge_now w). naive_solver.
Qed.

Lemma on_store_evolve f : (∀ s, forge_evolve s (f s)) → preserves evolve (on_store (W:=W) f).
Proof. intros H [s w]. apply H. Qed.

#[local] Hint Resolve Now_same on_store_evolve set_token_evolve set_revocation_evolve
  set_heartbeat_evolve set_report_evolve add_event_evolve : io.

Lemma find_in_Ok {A} (field : MemoryStore → gmap string A) key s a (s' : F) :
  find_in field key s = (Ok a, s') ↔ field s.1 !! key = Some a ∧ s' = s.
Proof. unfold find_in. rewrite read_Ok. destruct (_ !! _); naive_solver. Qed.

Lemma find_in_same {A} (field : MemoryStore → gmap string A) key R `{!PreOrder R} :
  preserves (on_memory R) (find_in (W:=W) field key).
Proof. unfold find_in. apply preserves_read, _. Qed.
#[local] Hint Resolve find_in_same : io.

(** The methods that only read. *)
Lemma reads_same R `{!PreOrder R} :
  (∀ id, preserves (on_memory R) (get_EnrollmentToken (W:=W) id)) ∧
  (∀ id, preserves (on_memory R) (get_Registration (W:=W) id)) ∧
  (∀ id, preserves (on_memory R) (get_Identity (W:=W) id)) ∧
  (∀ id, preserves (on_memory R) (get_TrustBundle (W:=W) id)) ∧
  (∀ id, preserves (on_memory R) (get_StatusReport (W:=W) id)) ∧
  (∀ id, preserves (on_memory R) (NextAssignmentVersion (W:=W) id)) ∧
  (∀ ty id, preserves (on_memory R) (AuditEvents (W:=W) ty id)).
Proof.
  unfold get_EnrollmentToken, get_Registration, get_Identity, get_TrustBundle, get_StatusReport,
    NextAssignmentVersion, AuditEvents. split_and!; intros; preserve.
Qed.
Lemma get_EnrollmentToken_same id R `{!PreOrder R} :
  preserves (on_memory R) (get_EnrollmentToken (W:=W) id).
Proof. apply (reads_same R). Qed.
Lemma get_Registration_same id R `{!PreOrder R} :
  preserves (on_memory R) (get_Registration (W:=W) id).
Proof. apply (reads_same R). Qed.
Lemma get_StatusReport_same id R `{!PreOrder R} :
  preserves (on_memory R) (get_StatusReport (W:=W) id).
Proof. apply (reads_same R). Qed.
Lemma NextAssignmentVersion_same id R `{!PreOrder R} :
  preserves (on_memory R) (NextAssignmentVersion (W:=W) id).
Proof. apply (reads_same R). Qed.

(** Appending an event respects what adding one to the list respects. *)
Lemma appendAudit_any R `{!PreOrder R} e :
  (∀ e m, R m (add_event e m)) → preserves (on_memory R) (appendAuditLocked (W:=W) e).
Proof.
  intros H. assert (∀ e, preserves (on_memory R) (on_store (W:=W) (add_event e))) by
    (intros e' [m w]; apply H).
  unfold appendAuditLocked. preserve.
Qed.

Lemma appendAudit_evolve e : preserves evolve (appendAuditLocked (W:=W) e).
Proof. apply appendAudit_any; [apply _|apply add_event_evolve]. Qed.
#[local] Hint Resolve appendAudit_evolve : io.

(** Appending never fails. *)
Lemma appendAudit_total e (x : F) : (appendAuditLocked e x).1 = Ok tt.
Proof.
  unfold appendAuditLocked. rewrite io_bind_run. destruct (IsZero _); [|done].
  destruct x as [m w]. unfold Now. by destruct (forge_now w).
Qed.

(** What is left of a computation evolves the store from any state. *)
Ltac preserve_rest :=
  match goal with
  | |- on_memory _ ?x (?c ?x).2 =>
      let H := fresh in assert (H : preserves evolve c) by preserve; apply H
  end.

Lemma CreateEnrollmentToken_evolve ctx t secret :
  preserves evolve (CreateEnrollmentToken (W:=W) ctx t secret).
Proof. unfold CreateEnrollmentToken. preserve. Qed.

Lemma UseEnrollmentToken_evolve ctx secret e st sc used :
  preserves evolve (UseEnrollmentToken (W:=W) ctx secret e st sc used).
Proof. unfold UseEnrollmentToken. preserve. Qed.

Lemma RevokeEnrollmentToken_evolve ctx id reason at_ :
  preserves evolve (RevokeEnrollmentToken (W:=W) ctx id reason at_).
Proof. unfold RevokeEnrollmentToken. preserve. Qed.

Lemma SaveHeartbeat_evolve h : preserves evolve (SaveHeartbeat (W:=W) h).
Proof. unfold SaveHeartbeat. preserve. Qed.
Lemma SaveStatusReport_evolve r : preserves evolve (SaveStatusReport (W:=W) r).
Proof. unfold SaveStatusReport. preserve. Qed.
Lemma SaveAuditEvent_evolve ctx e : preserves evolve (SaveAuditEvent (W:=W) ctx e).
Proof. unfold SaveAuditEvent. preserve. Qed.
Lemma LatestAssignment_evolve ctx id : preserves evolve (LatestAssignment (W:=W) ctx id).
Proof. unfold LatestAssignment. preserve. Qed.

Lemma Register_evolve ctx r :
  id_KLIQID (reg_Identity r) = reg_KLIQID r → preserves evolve (Register_ (W:=W) ctx r).
Proof.
  intros Hid. unfold Register_. destruct (String.eqb_spec (reg_KLIQID r) ""); [preserve|].
  cbv zeta. apply preserves_bind; [apply _| |intros _; preserve].
  apply on_store_evolve. intros s. by apply set_registration_evolve.
Qed.

Lemma RevokeKLIQ_evolve ctx id reason at_ : preserves evolve (RevokeKLIQ (W:=W) ctx id reason at_).
Proof.
  intros s. unfold RevokeKLIQ. apply related_bind; [apply _|apply find_in_same, _|].
  intros r s1 [Hr ->]%find_in_Ok. apply related_bind; [apply _|apply preserves_gets, _|].
  intros i s1 [-> ->]%gets_Ok. apply related_bind; [apply _| |intros ? s1 _].
  - apply set_registration_evolve. intros [H1 H2]. destruct (H1 _ _ Hr) as (? & ? & ?).
    specialize (H2 id). rewrite Hr in H2. by destruct (m_identities s.1 !! id).
  - preserve_rest.
Qed.

Lemma changes_false a b : changes a b = false → a ≠ "" → b ≠ "" → b = a.
Proof.
  unfold changes. intros H Ha Hb. rewrite (proj2 (String.eqb_neq _ _) Ha) in H.
  rewrite (proj2 (String.eqb_neq _ _) Hb) in H. simpl in H. by str_eqs.
Qed.

Lemma blank_empty : blank "" = true.
Proof. vm_compute. reflexivity. Qed.

Lemma valid_bundle_texts b :
  validateNewTrustBundle b = Ok tt → tb_PublicKey b ≠ "" ∧ tb_Purpose b ≠ "".
Proof.
  unfold validateNewTrustBundle. intros H. passes H. split; intros E; rewrite E in *.
  - by rewrite blank_empty in *.
  - unfold validTrustBundlePurpose in *. pose proof blank_empty as Hb. apply String.eqb_eq in Hb.
    by rewrite Hb in *.
Qed.

Lemma update_status_le old new :
  validateTrustBundleUpdate old new = Ok tt → tb_Status old ≠ "" → tb_Status new ≠ "" →
  status_le (tb_Status old) (tb_Status new).
Proof.
  unfold validateTrustBundleUpdate, status_le. cbv zeta. intros H Ho Hn. passes H.
  clear -H Ho Hn. revert H.
  destruct (String.eqb_spec (tb_Status new) (tb_Status old)) as [->|]; [by left|].
  destruct (String.eqb_spec (tb_Status new) "revoked"); [auto|].
  destruct (String.eqb_spec (tb_Status new) ""), (String.eqb_spec (tb_Status new) "active"),
    (String.eqb_spec (tb_Status new) "previous"); try done; try congruence.
  all: destruct (String.eqb_spec (tb_Status old) ""), (String.eqb_spec (tb_Status old) "active"),
    (String.eqb_spec (tb_Status old) "previous"), (String.eqb_spec (tb_Status old) "revoked");
    simpl; auto; try done; try congruence.
Qed.

Lemma update_trust_le old new :
  validateNewTrustBundle old = Ok tt → validateNewTrustBundle new = Ok tt →
  validateTrustBundleUpdate old new = Ok tt → tb_Status old ≠ "" → tb_Status new ≠ "" →
  trust_le old new.
Proof.
  intros [Hk Hp]%valid_bundle_texts [Hk' Hp']%valid_bundle_texts H Ho Hn.
  split; [|split; [|by apply update_status_le]];
    unfold validateTrustBundleUpdate in H; cbv zeta in H; passes H;
    by apply changes_false.
Qed.

Lemma or_active_status b : tb_Status (or_active b) ≠ "".
Proof. unfold or_active. destruct (String.eqb_spec (tb_Status b) ""); done. Qed.

Lemma SaveTrustBundle_evolve b : preserves evolve (SaveTrustBundle (W:=W) b).
Proof.
  intros s. unfold SaveTrustBundle. cbv zeta. pose proof (or_active_status b) as Hne.
  set (b' := or_active b) in *.
  apply related_bind; [apply _|apply preserves_lift, _|]. intros [] s1 [Hv ->]%lift_Ok.
  apply related_bind; [apply _|apply preserves_gets, _|]. intros old s1 [-> ->]%gets_Ok.
  apply related_bind; [apply _|apply preserves_lift, _|]. intros [] s1 [Hu ->]%lift_Ok.
  apply set_trust_evolve; [done|]. intros old Hok Hl. rewrite Hl in Hu.
  destruct (Hok _ _ Hl) as (? & ? & ?). by apply update_trust_le.
Qed.

Lemma with_Status_valid status b :
  status = "previous" ∨ status = "revoked" → validateNewTrustBundle b = Ok tt →
  validateNewTrustBundle (tb_with_Status status b) = Ok tt.
Proof.
  intros Hs. unfold validateNewTrustBundle. intros H. passes H. simpl.
  repeat match goal with E : _ = false |- _ => rewrite E; clear E end.
  destruct Hs as [->| ->]; vm_compute; reflexivity.
Qed.

Lemma RevokeTrustBundle_evolve ctx id reason at_ :
  preserves evolve (RevokeTrustBundle (W:=W) ctx id reason at_).
Proof.
  intros s. unfold RevokeTrustBundle. apply related_bind; [apply _|apply find_in_same, _|].
  intros b s1 [Hb ->]%find_in_Ok. apply related_bind; [apply _| |intros ? s1 _].
  - apply set_trust_evolve.
    + intros Hok. destruct (Hok _ _ Hb) as (? & ? & ?). split_and!; [done| |done].
      apply with_Status_valid; auto.
    + intros old _ Hl. rewrite Hb in Hl. simplify_eq. split_and!; [done..|]. right. by left.
  - preserve_rest.
Qed.

Lemma SaveAssignment_evolve ctx id version envelope :
  preserves evolve (SaveAssignment (W:=W) ctx id version envelope).
Proof.
  intros s. unfold SaveAssignment. destruct (_ || _); [reflexivity|].
  apply related_bind; [apply _|apply preserves_gets, _|]. intros old s1 [-> ->]%gets_Ok.
  destruct (_ && _) eqn:Hold; [reflexivity|].
  assert (Hpub : ∀ old, m_assignments s.1 !! id = old →
      match old with Some o => ar_Version o ≠ version | None => True end →
      forge_evolve s.1 (set_assignment id {| ar_Version := version; ar_Envelope := envelope;
                          ar_RevokedAt := 0; ar_RevokedReason := "" |} s.1)).
  { intros old Hl Hne. apply set_assignment_evolve. intros o Ho. rewrite Ho in Hl, Hold.
    subst old. simpl in *. left. simpl.
    apply Z.ltb_ge in Hold. lia. }
  destruct (m_assignments s.1 !! id) as [o|] eqn:Hl; [|].
  1: destruct (Z.eqb_spec version (ar_Version o)); [by destruct (_ ==s _)|].
  all: apply related_bind; [apply _|apply (Hpub _ eq_refl); simpl; first [done|congruence]|]; intros ? s1 _.
  all: preserve_rest.
Qed.

Lemma RevokeAssignment_evolve ctx id version reason at_ :
  at_ ≠ 0 → preserves evolve (RevokeAssignment (W:=W) ctx id version reason at_).
Proof.
  intros Hat s. unfold RevokeAssignment. apply related_bind; [apply _|apply find_in_same, _|].
  intros r s1 [Hr ->]%find_in_Ok. destruct (negb _); [reflexivity|].
  apply related_bind; [apply _| |intros ? s1 _].
  - apply set_assignment_evolve. intros old Ho. rewrite Hr in Ho. simplify_eq.
    right. split_and!; done.
  - preserve_rest.
Qed.

Lemma RotateTrustBundle_evolve ctx current next reason at_ :
  preserves evolve (RotateTrustBundle (W:=W) ctx current next reason at_).
Proof.
  intros s. unfold RotateTrustBundle. cbv zeta. set (next' := or_active next).
  destruct (String.eqb (trim_space current) ""); [reflexivity|]. set (id := trim_space current).
  apply related_bind; [apply _|apply find_in_same, _|]. intros b s1 [Hb ->]%find_in_Ok.
  destruct (String.eqb_spec (tb_Status b) "active") as [Hst|]; [|reflexivity]. cbn [negb].
  apply related_bind; [apply _|apply preserves_lift, _|]. intros [] s1 [Hv ->]%lift_Ok.
  destruct (String.eqb_spec (tb_KeyID next') id) as [|Hne]; [reflexivity|].
  apply related_bind; [apply _|apply preserves_gets, _|]. intros taken s1 [-> ->]%gets_Ok.
  destruct (bool_decide _) eqn:Htaken; [reflexivity|]. apply bool_decide_eq_false in Htaken.
  destruct (_ && _); [reflexivity|]. destruct (negb _); [reflexivity|].
  apply related_bind; [apply _|destruct (IsZero at_); [apply Now_same, _|reflexivity]|].
  intros at' s1 Hs1. assert (Hsame : s1.1 = s.1).
  { destruct (IsZero at_); [|by run Hs1]. pose proof (Now_same eq s) as Hn. by rewrite Hs1 in Hn. }
  apply related_bind; [apply _| |intros ? s2 Hs2].
  - apply set_trust_evolve; rewrite Hsame.
    + intros Hok. destruct (Hok _ _ Hb) as (? & ? & ?). split_and!; [done| |done].
      apply with_Status_valid; auto.
    + intros old _ Hl. rewrite Hb in Hl. simplify_eq. split_and!; [done..|]. by right; right.
  - apply modify_Ok in Hs2 as ->. apply related_bind; [apply _| |intros ? s2 _].
    + apply set_trust_evolve; [intros _; split_and!; [done..|apply or_active_status]|].
      intros old _ Hl. exfalso. apply Htaken.
      simpl in Hl. rewrite lookup_insert_ne, Hsame in Hl by congruence. by eexists.
    + preserve_rest.
Qed.
End methods.

#[export] Hint Resolve CreateEnrollmentToken_evolve UseEnrollmentToken_evolve
  RevokeEnrollmentToken_evolve SaveHeartbeat_evolve SaveStatusReport_evolve SaveAuditEvent_evolve
  LatestAssignment_evolve Register_evolve RevokeKLIQ_evolve SaveTrustBundle_evolve
  RevokeTrustBundle_evolve SaveAssignment_evolve RevokeAssignment_evolve
  RotateTrustBundle_evolve find_in_same Now_same get_EnrollmentToken_same get_Registration_same
  get_StatusReport_same NextAssignmentVersion_same : io.
