(* ===== verification/ForgeProofs.v ===== *)
(** * What the management API does to the store

    A server whose store is [MemoryStore]: its signer, artifact store,
    authenticator and random source do not touch the store ([well_configured]). *)

From stdpp Require Import options.
From stdpp Require Import gmap.
From S2P Require Import Prelude IO GoStrings GoTime GoDuration GoJson GoEncoding Signing Domain.
From S2P Require Import Artifacts BundleSource Authn Authz Management BuildManifest ArtifactStore.
From S2P Require Import Jobs ForgeTypes ForgeAPI ManagementMemory ManagementMemoryProofs.
#[local] Open Scope Z_scope.

(** ** Early returns *)

Section returns.
Context {F : Type} (R : relation F) `{!PreOrder R}.

Lemma preserves_need {A} (o : option A) r (k : A → io F Response) :
  (∀ a, o = Some a → preserves R (k a)) → preserves R (need o r k).
Proof using PreOrder0. intros H. destruct o; [by apply H|apply preserves_ret, _]. Qed.

Lemma preserves_or_respond {A} (m : io F A) c (k : A → io F Response) :
  preserves R m → (∀ a, preserves R (k a)) → preserves R (or_respond m c k).
Proof using PreOrder0.
  intros Hm Hk. apply preserves_bind; [done|by apply preserves_returned|].
  intros [a|e]; [done|apply preserves_ret, _].
Qed.

Lemma related_or_respond {A} (m : io F A) c (k : A → io F Response) s :
  R s (m s).2 → (∀ a s1, m s = (Ok a, s1) → R s1 (k a s1).2) → R s (or_respond m c k s).2.
Proof using PreOrder0.
  intros Hm Hk. unfold or_respond. apply related_bind; [done|by apply (preserves_returned_at R)|].
  intros r s1 H%returned_run. destruct r as [a|e]; [by apply Hk|simpl; reflexivity].
Qed.

(** The same for a pure step. *)
Lemma related_or_respond_lift {A} (r : result A) c (k : A → io F Response) s :
  (∀ a, r = Ok a → R s (k a s).2) → R s (or_respond (lift r) c k s).2.
Proof using PreOrder0.
  intros Hk. apply related_or_respond; [simpl; reflexivity|].
  intros a s1 [H ->]%lift_Ok. by apply Hk.
Qed.
End returns.

(** What an early return leaves when the handler answers [status]. *)
Lemma need_answers {F A} (o : option A) r (k : A → io F Response) s resp s' status :
  need o r k s = (Ok resp, s') → resp_Code resp = status → resp_Code r ≠ status →
  ∃ a, o = Some a ∧ k a s = (Ok resp, s').
Proof. destruct o; simpl; [by eauto|]. intros [-> ->]%mret_Ok. done. Qed.

Lemma or_respond_answers {F A} (m : io F A) c (k : A → io F Response) s resp s' status :
  or_respond m c k s = (Ok resp, s') → resp_Code resp = status →
  (∀ e, resp_Code (c e) ≠ status) →
  ∃ a s1, m s = (Ok a, s1) ∧ k a s1 = (Ok resp, s').
Proof.
  unfold or_respond. intros H Hr Hc. apply io_bind_Ok in H as (r & s1 & Hm%returned_run & H).
  destruct r as [a|e]; [by eauto|]. apply mret_Ok in H as [-> ->]. by apply Hc in Hr.
Qed.

Lemma refuse_answers {F} (c : bool) r (k : io F Response) s resp s' status :
  (refuse c with r;; k) s = (Ok resp, s') → resp_Code resp = status → resp_Code r ≠ status →
  c = false ∧ k s = (Ok resp, s').
Proof. destruct c; [intros [-> ->]%mret_Ok; done|by eauto]. Qed.

Ltac preserve_response := repeat
  match goal with
  | |- preserves _ (need _ _ _) => apply preserves_need; intros ? ?
  | |- preserves _ (or_respond _ _ _) => apply preserves_or_respond; [try apply _| |intros ?]
  | |- preserves _ (let _ := _ in _) => cbv zeta
  | |- preserves _ _ => progress preserve
  end.

Set Default Proof Using "Type*".

Section forge.
Context {GR : GoRuntime} {UF : UnicodeFold} {ED : Ed25519} {JD : JSONDecoders} {KD : KeyDecoders}.
Context {TC : TokenCodecs} {MD : ManagementDecoders} {IM : IdentityMaterial} {JS : JSONSyntax}.
Context {JC : JobCodecs}.
Context {W : Type} {FW : ForgeWorld W}.
  Abbreviation F := (MemoryStore * W)%type.
  Abbreviation evolve := (on_memory forge_evolve).

Definition world_only {A} (m : io F A) : Prop := preserves (on_memory eq) m.

Context (rand_Read : io F string) (s : Server F).

Record well_configured : Prop := {
  wc_store M : sv_Management s = Some M → M = memory_store;
  wc_rand : world_only rand_Read;
  wc_sign signer p md : sv_ManagementSign s = Some signer → world_only (sg_Sign signer p md);
  wc_verify signer v e : sv_ManagementSign s = Some signer → sg_Verify signer = Some v →
    world_only (v e);
  wc_get a ref : sv_Artifacts s = Some a → world_only (store_Get ref);
  wc_put a art : sv_Artifacts s = Some a → world_only (store_Put art);
  wc_jobs jobs : sv_Store s = Some jobs →
    (∀ j, world_only (job_Create j)) ∧ (∀ id, world_only (job_Enqueue id)) ∧
    (∀ id, world_only (job_Get id));
  wc_auth a token : sv_Authenticator s = Some a → world_only (au_Verify a token);
  wc_auth_request a v r : sv_Authenticator s = Some a → au_VerifyRequest a = Some v →
    world_only (v r);
}.
Context (WC : well_configured).

Lemma world_only_any {A} (m : io F A) R `{!PreOrder R} :
  world_only m → preserves (on_memory R) m.
Proof. intros H x. specialize (H x). unfold on_memory in *. by rewrite H. Qed.

Section any.
Context (R : relation MemoryStore) `{!PreOrder R}.
  Abbreviation keeps m := (preserves (on_memory R) m).

Lemma Issue_keeps i id ttl : keeps (IssueForIdentity (Now (W:=W)) i id ttl).
Proof. unfold IssueForIdentity, Issuer_issue. preserve. Qed.

Lemma NewSecret_keeps : keeps (NewEnrollmentSecret rand_Read).
Proof. unfold NewEnrollmentSecret. preserve. apply world_only_any; [done|apply WC]. Qed.

Lemma verified_keeps signer u f i e :
    sv_ManagementSign s = Some signer → keeps (verified signer u f i e).
Proof.
  intros Hs. unfold verified. destruct (sg_Verify signer) as [v|] eqn:Hv; [|preserve].
  preserve. apply world_only_any; [done|]. by eapply wc_verify.
Qed.
#[local] Hint Resolve verified_keeps : io.

Lemma verifyBuild_keeps signer p :
    sv_ManagementSign s = Some signer → keeps (verifyApprovedBuildManifestEnvelope signer p).
Proof. intros Hs. unfold verifyApprovedBuildManifestEnvelope. preserve. Qed.

Lemma verifyArtifact_keeps signer t e :
    sv_ManagementSign s = Some signer → keeps (verifyAssignmentArtifactEnvelope signer t e).
Proof. intros Hs. unfold verifyAssignmentArtifactEnvelope. preserve. Qed.

Lemma Get_keeps a ref : sv_Artifacts s = Some a → keeps (store_Get ref).
Proof. intros Ha. apply world_only_any; [done|]. by apply WC. Qed.
Lemma Put_keeps a art : sv_Artifacts s = Some a → keeps (store_Put art).
Proof. intros Ha. apply world_only_any; [done|]. by apply WC. Qed.
Lemma Sign_keeps signer p md : sv_ManagementSign s = Some signer → keeps (sg_Sign signer p md).
Proof. intros Hs. apply world_only_any; [done|]. by apply WC. Qed.
#[local] Hint Resolve verifyBuild_keeps verifyArtifact_keeps Get_keeps Put_keeps Sign_keeps : io.

Lemma validateApprovedBuild_keeps a signer reg req :
    sv_Artifacts s = Some a → sv_ManagementSign s = Some signer →
    keeps (validateApprovedBuild a signer reg req).
Proof. intros Ha Hs. unfold validateApprovedBuild. preserve. Qed.

Lemma resolveArtifact_keeps a signer req x :
    sv_Artifacts s = Some a → sv_ManagementSign s = Some signer →
    keeps (resolveArtifact a signer req x).
Proof. intros Ha Hs. unfold resolveArtifact. preserve. Qed.
#[local] Hint Resolve resolveArtifact_keeps : io.

Lemma resolveAssignmentArtifacts_keeps a signer req :
    sv_Artifacts s = Some a → sv_ManagementSign s = Some signer →
    keeps (resolveAssignmentArtifacts a signer req).
Proof. intros Ha Hs. unfold resolveAssignmentArtifacts. preserve. Qed.
End any.
#[local] Hint Resolve Issue_keeps NewSecret_keeps verified_keeps verifyBuild_keeps
  verifyArtifact_keeps Get_keeps Put_keeps Sign_keeps validateApprovedBuild_keeps
  resolveAssignmentArtifacts_keeps : io.

(** ** What the methods respect, the handlers respect

    A relation that every method of the store respects (creating a token aside)
    relates the stores before and after every handler. *)
Record ops_respect (R : relation MemoryStore) : Prop := {
  or_use ctx secret e st sc at_ : at_ ≠ 0 →
    preserves (on_memory R) (UseEnrollmentToken (W:=W) ctx secret e st sc at_);
  or_revoke_token ctx id reason at_ : at_ ≠ 0 →
    preserves (on_memory R) (RevokeEnrollmentToken (W:=W) ctx id reason at_);
  or_register ctx r : id_KLIQID (reg_Identity r) = reg_KLIQID r →
    preserves (on_memory R) (Register_ (W:=W) ctx r);
  or_revoke_kliq ctx id reason at_ :
    preserves (on_memory R) (RevokeKLIQ (W:=W) ctx id reason at_);
  or_rotate ctx id b reason at_ :
    preserves (on_memory R) (RotateTrustBundle (W:=W) ctx id b reason at_);
  or_revoke_trust ctx id reason at_ :
    preserves (on_memory R) (RevokeTrustBundle (W:=W) ctx id reason at_);
  or_save_assignment ctx id v e :
    preserves (on_memory R) (SaveAssignment (W:=W) ctx id v e);
  or_latest ctx id : preserves (on_memory R) (LatestAssignment (W:=W) ctx id);
  or_revoke_assignment ctx id v reason at_ : at_ ≠ 0 →
    preserves (on_memory R) (RevokeAssignment (W:=W) ctx id v reason at_);
  or_heartbeat h : preserves (on_memory R) (SaveHeartbeat (W:=W) h);
  or_report r : preserves (on_memory R) (SaveStatusReport (W:=W) r);
  or_event ctx e : preserves (on_memory R) (SaveAuditEvent (W:=W) ctx e);
}.
#[local] Hint Resolve or_use or_revoke_token or_register or_revoke_kliq or_rotate or_revoke_trust
  or_save_assignment or_latest or_revoke_assignment or_heartbeat or_report or_event : io.

(** The configured store is the store in memory. *)
Ltac in_memory :=
  match goal with
  | H : sv_Management s = Some ?M |- _ =>
      pose proof (wc_store WC M H); subst M;
      cbn [mg_CreateEnrollmentToken mg_EnrollmentToken mg_UseEnrollmentToken
           mg_RevokeEnrollmentToken mg_Register mg_Registration mg_Identity mg_RevokeKLIQ
           mg_SaveTrustBundle mg_TrustBundle mg_RotateTrustBundle mg_RevokeTrustBundle
           mg_NextAssignmentVersion mg_SaveAssignment mg_LatestAssignment mg_RevokeAssignment
           mg_SaveHeartbeat mg_SaveStatusReport mg_StatusReport mg_SaveAuditEvent mg_AuditEvents
           memory_store] in *; clear H
  end.

Lemma preserves_Now_bind {A} R `{!PreOrder R} (k : time → io F A) :
  (∀ now, now ≠ 0 → preserves (on_memory R) (k now)) → preserves (on_memory R) (Now (W:=W) ≫= k).
Proof.
  intros H x. apply related_bind; [apply _|apply Now_same, _|].
  intros now x1 Hnow%Now_nonzero. by apply H.
Qed.

(** Walk through a handler: configuration, early returns, readings of the clock. *)
Ltac handler := repeat
  match goal with
  | |- preserves _ (let _ := _ in _) => cbv zeta
  | |- preserves _ (need (sv_Management s) _ _) => apply preserves_need; [apply _|intros ? ?; in_memory]
  | |- preserves _ (need _ _ _) => apply preserves_need; [apply _|intros ? ?]
  | |- preserves _ (or_respond _ _ _) => apply preserves_or_respond; [apply _| |intros ?]
  | |- preserves _ (Now ≫= _) => apply preserves_Now_bind; [apply _|intros ? ?]
  | |- preserves _ (if _ then _ else _) => case_match
  | |- preserves _ _ => progress preserve
  end.

Section jobs.
Context (R : relation MemoryStore) `{!PreOrder R}.
  Abbreviation keeps m := (preserves (on_memory R) m).

(** Jobs are not in the management store. *)
Lemma NewJob_keeps jobType createdBy payload : keeps (NewJob (Now (W:=W)) rand_Read jobType createdBy payload).
Proof. unfold NewJob, newID. handler. apply world_only_any; [apply _|apply WC]. Qed.

Lemma createJob_keeps body p : keeps (createSimulationJob (Now (W:=W)) rand_Read s body p).
Proof.
  unfold createSimulationJob. handler; [apply NewJob_keeps|..].
  all: match goal with H : sv_Store s = Some _ |- _ => destruct (wc_jobs WC _ H) as (? & ? & ?) end.
  all: by apply world_only_any; [apply _|].
Qed.

Lemma getJob_keeps id p : keeps (getJob s id p).
Proof.
  unfold getJob. destruct (sv_Store s) as [jobs|] eqn:Hs; handler.
  destruct (wc_jobs WC _ Hs) as (? & ? & ?). by apply world_only_any; [apply _|].
Qed.

End jobs.

Section respect.
Context (R : relation MemoryStore) `{!PreOrder R} (OR : ops_respect R).
  Abbreviation keeps m := (preserves (on_memory R) m).

Lemma sign_and_store_keeps signer ctx a :
    sv_ManagementSign s = Some signer → keeps (signAndStoreAssignment memory_store signer ctx a).
Proof. intros Hs. unfold signAndStoreAssignment. cbn [mg_SaveAssignment memory_store]. handler. Qed.
#[local] Hint Resolve sign_and_store_keeps : io.

Lemma approve_keeps ctx body p : keeps (approvePolicyBuildManifest (Now (W:=W)) s ctx body p).
Proof.
  unfold approvePolicyBuildManifest.
  destruct (sv_Management s) as [M|] eqn:HM; [in_memory|]; handler.
Qed.

Lemma enroll_keeps ctx body : keeps (enrollKLIQ (Now (W:=W)) s ctx body).
Proof. unfold enrollKLIQ. handler. Qed.

Lemma refresh_keeps p : keeps (refreshKLIQServiceToken (Now (W:=W)) s p).
Proof. unfold refreshKLIQServiceToken. handler. Qed.

Lemma revokeToken_keeps ctx id body p :
    keeps (revokeEnrollmentToken (Now (W:=W)) s ctx id body p).
Proof. unfold revokeEnrollmentToken. handler. Qed.

Lemma plan_keeps ctx body p : keeps (planKLIQAssignment (Now (W:=W)) s ctx body p).
Proof. unfold planKLIQAssignment. handler. Qed.

Lemma createDev_keeps ctx body p : keeps (createDevKLIQAssignment (Now (W:=W)) s ctx body p).
Proof. unfold createDevKLIQAssignment. handler. Qed.

Lemma latest_keeps ctx id p : keeps (latestKLIQAssignment s ctx id p).
Proof. unfold latestKLIQAssignment. handler. Qed.

Lemma revokeAssignment_keeps ctx id version body p :
    keeps (revokeKLIQAssignment (Now (W:=W)) s ctx id version body p).
Proof. unfold revokeKLIQAssignment. handler. Qed.

Lemma revokeRegistration_keeps ctx id body p :
    keeps (revokeKLIQRegistration (Now (W:=W)) s ctx id body p).
Proof. unfold revokeKLIQRegistration. handler. Qed.

Lemma rotateTrust_keeps ctx id body p : keeps (rotateTrustBundle (Now (W:=W)) s ctx id body p).
Proof. unfold rotateTrustBundle. handler. Qed.

Lemma revokeTrust_keeps ctx id body p : keeps (revokeTrustBundle (Now (W:=W)) s ctx id body p).
Proof. unfold revokeTrustBundle. handler. Qed.

Lemma heartbeat_keeps body p : keeps (recordKLIQHeartbeat (Now (W:=W)) s body p).
Proof. unfold recordKLIQHeartbeat, from_kliq. handler. Qed.

Lemma statusReport_keeps body p : keeps (recordKLIQStatusReport (Now (W:=W)) s body p).
Proof. unfold recordKLIQStatusReport, from_kliq. handler. Qed.

Lemma auditUpload_keeps ctx body p : keeps (recordKLIQAuditUpload (Now (W:=W)) s ctx body p).
Proof. unfold recordKLIQAuditUpload, from_kliq. handler. Qed.

Lemma getStatus_keeps id p : keeps (getKLIQStatusReport s id p).
Proof. unfold getKLIQStatusReport. handler. Qed.

Lemma authenticated_keeps route r ctx p :
    route ≠ CreateEnrollmentTokenRoute →
    keeps (authenticated (Now (W:=W)) rand_Read s route r ctx p).
Proof.
  intros Hne. destruct route; simpl; try done; try preserve;
  eauto using approve_keeps, enroll_keeps, refresh_keeps, revokeToken_keeps, plan_keeps,
      createDev_keeps, latest_keeps, revokeAssignment_keeps, revokeRegistration_keeps,
      rotateTrust_keeps, revokeTrust_keeps, heartbeat_keeps, statusReport_keeps,
      auditUpload_keeps, getStatus_keeps, createJob_keeps, getJob_keeps.
Qed.
End respect.

(** Authentication leaves the store alone. *)
Lemma requireAuth_keeps R `{!PreOrder R} r next :
  (∀ ctx p, preserves (on_memory R) (next ctx p)) →
  preserves (on_memory R) (requireAuth s r next).
Proof.
  intros Hn. unfold requireAuth. apply preserves_need; [apply _|]. intros a Ha. cbv zeta.
  apply preserves_bind; [apply _| |intros [p|e]].
  - destruct (au_VerifyRequest a) as [v|] eqn:Hv; [|preserve]. apply preserves_attempt.
    apply world_only_any; [apply _|]. by eapply wc_auth_request.
  - apply Hn.
  - handler. apply world_only_any; [apply _|]. by eapply wc_auth.
Qed.

Lemma Handler_keeps R `{!PreOrder R} route r :
  ops_respect R →
  (route = CreateEnrollmentTokenRoute →
   ∀ ctx p, preserves (on_memory R) (createEnrollmentToken (Now (W:=W)) rand_Read s ctx (hr_Body r) p)) →
  preserves (on_memory R) (Handler (Now (W:=W)) rand_Read s route r).
Proof.
  intros OR Hc. destruct route; simpl;
    try (apply requireAuth_keeps; [done|]; intros ctx p;
         first [by apply (Hc eq_refl)|by apply authenticated_keeps]).
  - apply preserves_ret, _.
  - by apply enroll_keeps.
Qed.

(** ** The store evolves *)

Lemma forge_evolve_ops : ops_respect forge_evolve.
Proof. split; eauto with io. Qed.

Lemma createToken_evolve ctx body p :
  preserves (on_memory forge_evolve) (createEnrollmentToken (Now (W:=W)) rand_Read s ctx body p).
Proof. unfold createEnrollmentToken. handler. Qed.

Lemma Handler_evolve route r :
  preserves (on_memory forge_evolve) (Handler (Now (W:=W)) rand_Read s route r).
Proof.
  apply Handler_keeps; [apply _|apply forge_evolve_ops|]. intros _ ctx p. apply createToken_evolve.
Qed.
End forge.
