(* ===== verification/ForgeHistory.v ===== *)
(** * The whole history of Forge's management plane

    Any sequence of requests to the API, of trust bundles seeded at start-up and
    of changes of the world in between: what holds of the store, whatever was
    asked, by whom, and however each request was answered. *)

From stdpp Require Import options.
From stdpp Require Import gmap.
From S2P Require Import Jobs Prelude IO GoStrings GoTime GoDuration GoJson GoEncoding Signing.
From S2P Require Import Domain Artifacts BundleSource Authn Authz Management BuildManifest.
From S2P Require Import ArtifactStore ForgeTypes ForgeAPI ManagementMemory ManagementMemoryProofs.
From S2P Require Import ForgeProofs.
#[local] Open Scope Z_scope.

Set Default Proof Using "Type*".

(** ** Live tokens *)

(** The enrollment token of a digest can still be used. *)
Definition token_live (hash : string) (m : MemoryStore) : bool :=
  match m_tokensByHash m !! hash with
  | Some t => IsZero (et_UsedAt t) && IsZero (et_RevokedAt t)
  | None => false
  end.

(** No token comes to life. *)
Definition no_rebirth (hash : string) (m m' : MemoryStore) : Prop :=
  token_live hash m' = true → token_live hash m = true.

#[export] Instance no_rebirth_preorder hash : PreOrder (no_rebirth hash).
Proof. split; [intros m H; exact H|]. intros m1 m2 m3 H1 H2 H. by apply H1, H2. Qed.

Section tokens.
Context {W : Type} {FW : ForgeWorld W}.
  Abbreviation F := (MemoryStore * W)%type.
Context (hash : string).
  Abbreviation keeps m := (preserves (on_memory (no_rebirth hash)) m).

Lemma on_store_keeps f : (∀ m, no_rebirth hash m (f m)) → keeps (on_store (W:=W) f).
Proof. intros H [m w]. apply H. Qed.

Lemma others_keep :
  (∀ id r i m, no_rebirth hash m (set_registration id r i m)) ∧
  (∀ id r m, no_rebirth hash m (set_assignment id r m)) ∧
  (∀ id b m, no_rebirth hash m (set_trust id b m)) ∧
  (∀ k r m, no_rebirth hash m (set_revocation k r m)) ∧
  (∀ e m, no_rebirth hash m (add_event e m)) ∧
  (∀ h m, no_rebirth hash m (set_heartbeat h m)) ∧
  (∀ r m, no_rebirth hash m (set_report r m)).
Proof. split_and!; intros ** H; exact H. Qed.

Lemma set_token_live t m :
  token_live hash (set_token t m) =
  if et_TokenSHA256 t ==s hash then IsZero (et_UsedAt t) && IsZero (et_RevokedAt t)
  else token_live hash m.
Proof.
  unfold token_live. simpl. destruct (String.eqb_spec (et_TokenSHA256 t) hash) as [->|].
  - by rewrite lookup_insert_eq.
  - by rewrite lookup_insert_ne.
Qed.

Lemma set_dead_token t m :
  et_UsedAt t ≠ 0 ∨ et_RevokedAt t ≠ 0 → no_rebirth hash m (set_token t m).
Proof.
  unfold no_rebirth, IsZero. rewrite set_token_live. intros H.
  destruct (_ ==s _); [|done]. rewrite andb_true_iff. unfold IsZero. rewrite !Z.eqb_eq. tauto.
Qed.

Lemma appendAudit_keeps e : keeps (appendAuditLocked (W:=W) e).
Proof. apply appendAudit_any; [apply _|apply others_keep]. Qed.

Lemma no_rebirth_ops : ops_respect (W:=W) (no_rebirth hash).
Proof.
  pose proof others_keep as (? & ? & ? & ? & ? & ? & ?). pose proof on_store_keeps.
  pose proof appendAudit_keeps.
  split; intros.
  1: unfold UseEnrollmentToken. 2: unfold RevokeEnrollmentToken. 3: unfold Register_.
  4: unfold RevokeKLIQ. 5: unfold RotateTrustBundle. 6: unfold RevokeTrustBundle.
  7: unfold SaveAssignment. 8: unfold LatestAssignment. 9: unfold RevokeAssignment.
  10: unfold SaveHeartbeat. 11: unfold SaveStatusReport. 12: unfold SaveAuditEvent.
  all: preserve.
  all: apply on_store_keeps; intros m; apply set_dead_token; by (left + right).
Qed.
End tokens.

(** ** Using a token *)

Section use.
Context {W : Type} {FW : ForgeWorld W}.
  Abbreviation F := (MemoryStore * W)%type.

(** A token that was used was live, had not expired and was for this scope. *)
Lemma token_admits_Ok t environment stage scope at_ :
  token_admits t environment stage scope at_ = Ok tt →
  et_UsedAt t = 0 ∧ et_RevokedAt t = 0 ∧ (et_ExpiresAt t = 0 ∨ at_ < et_ExpiresAt t) ∧
  (et_Environment t = "" ∨ et_Environment t = environment) ∧
  (et_Stage t = "" ∨ et_Stage t = stage) ∧ (et_Scope t = "" ∨ et_Scope t = scope).
Proof.
  unfold token_admits, IsZero, Before. intros H. passes H.
  rewrite ?negb_false_iff, ?andb_false_iff, ?negb_false_iff, ?Z.eqb_eq, ?Z.ltb_lt, ?String.eqb_eq in *.
  tauto.
Qed.

Lemma UseEnrollmentToken_Err ctx secret environment stage scope at_ (x : F) e x' :
  UseEnrollmentToken ctx secret environment stage scope at_ x = (Err e, x') → x' = x.
Proof.
  unfold UseEnrollmentToken. rewrite io_bind_run. unfold find_in, read.
  destruct (m_tokensByHash x.1 !! _) as [t|]; [|by intros [= _ <-]].
  rewrite io_bind_run. unfold lift. destruct (token_admits _ _ _ _ _); [|by intros [= _ <-]].
  cbv zeta. rewrite io_bind_run. unfold on_store, modify. rewrite io_bind_run.
  set (y := prod_map _ _ _). set (ev := event _ _ _ _ _ _ _ _ _ _).
  pose proof (appendAudit_total ev y) as H. destruct (appendAuditLocked ev y) as [r z]. simpl in H.
  by rewrite H.
Qed.

Lemma UseEnrollmentToken_Ok ctx secret environment stage scope at_ (x : F) t x' :
  UseEnrollmentToken ctx secret environment stage scope at_ x = (Ok t, x') →
  ∃ t0, m_tokensByHash x.1 !! TokenSHA256 secret = Some t0 ∧
    token_admits t0 environment stage scope at_ = Ok tt ∧ t = et_with_use at_ t0 ∧
    (tokens_ok x.1 → at_ ≠ 0 →
     token_live (TokenSHA256 secret) x.1 = true ∧ token_live (TokenSHA256 secret) x'.1 = false).
Proof.
  unfold UseEnrollmentToken. intros H. apply io_bind_Ok in H as (t0 & x1 & [Hl ->]%find_in_Ok & H).
  apply io_bind_Ok in H as ([] & x1 & [Ha ->]%lift_Ok & H).
  apply io_bind_Ok in H as ([] & x1 & ->%modify_Ok & H).
  apply io_bind_Ok in H as ([] & x1 & He & [-> ->]%mret_Ok).
  exists t0. split_and!; [done..|]. intros [Hok _] Hat. specialize (Hok _ _ Hl).
  apply token_admits_Ok in Ha as (Hu & Hr & _).
  split.
  - unfold token_live. by rewrite Hl, Hu, Hr.
  - apply not_true_is_false. intros Hlive. apply (preserves_run _ _ _ _ _ (appendAudit_keeps _ _) He) in Hlive.
    simpl in Hlive. rewrite set_token_live in Hlive. simpl in Hlive.
    rewrite Hok, String.eqb_refl in Hlive. unfold IsZero in Hlive.
    apply andb_true_iff in Hlive as [?%Z.eqb_eq _]. done.
Qed.
End use.

(** ** One request *)

(** The answer enrolls a KLIQ with this secret. *)
Definition enrolls {MD : ManagementDecoders} (hash : string) (route : Route) (r : Request)
    (answer : result Response) : bool :=
  match route, decode_enrollmentRequest (hr_Body r), answer with
  | Enroll, Ok req, Ok resp =>
      (TokenSHA256 (er_EnrollmentToken req) ==s hash) && (resp_Code resp =? 201)
  | _, _, _ => false
  end.

(** The answer hands out this secret. *)
Definition issues (hash : string) (answer : result Response) : bool :=
  match answer with
  | Ok {| resp_Code := 201; resp_Payload := BEnrollmentToken _ secret |} =>
      TokenSHA256 secret ==s hash
  | _ => false
  end.

Section forge.
Context {GR : GoRuntime} {UF : UnicodeFold} {ED : Ed25519} {JD : JSONDecoders} {KD : KeyDecoders}.
Context {TC : TokenCodecs} {MD : ManagementDecoders} {IM : IdentityMaterial} {JS : JSONSyntax}.
Context {JC : JobCodecs}.
Context {W : Type} {FW : ForgeWorld W}.
  Abbreviation F := (MemoryStore * W)%type.
Context (rand_Read : io F string) (s : Server F) (WC : well_configured rand_Read s).
  Abbreviation serve := (Handler (Now (W:=W)) rand_Read s).

Section secret.
Context (hash : string).
  Abbreviation keeps m := (preserves (on_memory (no_rebirth hash)) m).

(** A token comes to life only with an answer that hands out its secret. *)
Definition announced (m : io F Response) : Prop := ∀ x,
    token_live hash (m x).2.1 = true → token_live hash x.1 = true ∨ issues hash (m x).1 = true.

Lemma keeps_announced m : keeps m → announced m.
Proof. intros H x Hl. left. by apply H. Qed.

Lemma announced_bind {A} (m : io F A) (k : A → io F Response) :
    keeps m → (∀ a, announced (k a)) → announced (m ≫= k).
Proof.
  intros Hm Hk x. rewrite io_bind_run. specialize (Hm x). destruct (m x) as [[a|e] x1]; simpl in *.
  - intros [H|H]%Hk; [left; by apply Hm|by right].
  - intros H. left. by apply Hm.
Qed.

Lemma announced_ret r : announced (mret r).
Proof. apply keeps_announced, preserves_ret, _. Qed.

Lemma announced_or_respond {A} (m : io F A) c (k : A → io F Response) :
    keeps m → (∀ a, announced (k a)) → announced (or_respond m c k).
Proof.
  intros Hm Hk. apply announced_bind; [by apply preserves_returned|].
  intros [a|e]; [done|apply announced_ret].
Qed.

Lemma announced_need {A} (o : option A) r (k : A → io F Response) :
    (∀ a, o = Some a → announced (k a)) → announced (need o r k).
Proof. intros H. destruct o; [by apply H|apply announced_ret]. Qed.

Lemma create_announced ctx t secret c :
    announced (or_respond (CreateEnrollmentToken ctx t secret) c
               (λ _, mret (writeJSON 201 (BEnrollmentToken t secret)))).
Proof.
  unfold CreateEnrollmentToken. destruct (_ || _).
  { apply announced_or_respond; [apply preserves_fail, _|intros; apply announced_ret]. }
    destruct (String.eqb_spec (TokenSHA256 secret) hash) as [He|Hne].
  - intros x _. right. unfold or_respond, returned. rewrite io_bind_run.
  rewrite io_bind_run. destruct (if IsZero _ then _ else _) as [[now|e] x1] eqn:Hn.
  + rewrite io_bind_run. cbn [on_store modify].
      match goal with |- context [appendAuditLocked ?e ?y] => pose proof (appendAudit_total e y) as Ht;
        destruct (appendAuditLocked e y) as [ra ya] end. cbn [fst] in Ht. rewrite Ht.
      unfold mret, io_ret, issues, writeJSON. cbn [fst]. by rewrite He, String.eqb_refl.
  + destruct (IsZero _); [|done]. destruct x as [m w]. unfold Now in Hn.
      by destruct (forge_now w).
  - apply announced_or_respond; [|intros; apply announced_ret].
  pose proof (appendAudit_keeps (W:=W) hash). pose proof (Now_same (W:=W) (no_rebirth hash)).
  preserve. apply on_store_keeps. intros m. unfold no_rebirth. rewrite set_token_live.
  cbn [et_with_secret et_TokenSHA256]. by rewrite (proj2 (String.eqb_neq _ _) Hne).
Qed.

Lemma createEnrollmentToken_announced ctx body p :
    announced (createEnrollmentToken (Now (W:=W)) rand_Read s ctx body p).
Proof.
  unfold createEnrollmentToken. apply announced_need. intros M HM.
  rewrite (wc_store _ _ WC _ HM). cbn [mg_CreateEnrollmentToken memory_store].
  apply announced_or_respond; [apply preserves_lift, _|intros req].
  apply announced_or_respond; [apply preserves_lift, _|intros _].
  apply announced_or_respond; [apply (NewSecret_keeps rand_Read s WC), _|intros secret].
  apply announced_bind; [apply Now_same, _|intros now]. cbv zeta. apply create_announced.
Qed.

Lemma requireAuth_announced r next :
    (∀ ctx p, announced (next ctx p)) → announced (requireAuth s r next).
Proof.
  intros Hn. unfold requireAuth. apply announced_need. intros a Ha. cbv zeta.
  apply announced_bind; [|intros [p|e]].
  - destruct (au_VerifyRequest a) as [v|] eqn:Hv; [|apply preserves_ret, _]. apply preserves_attempt.
  apply (world_only_any rand_Read s WC); [apply _|]. by eapply wc_auth_request.
  - apply Hn.
  - apply announced_or_respond; [apply preserves_lift, _|intros token].
  apply announced_or_respond; [|intros; apply Hn].
  apply (world_only_any rand_Read s WC); [apply _|]. by eapply wc_auth.
Qed.

Lemma Handler_announced route r : announced (serve route r).
Proof.
  assert (route = CreateEnrollmentTokenRoute ∨ route ≠ CreateEnrollmentTokenRoute) as [->|Hne]
    by (destruct route; (by left) || by right).
  - simpl. apply requireAuth_announced. intros ctx p. apply createEnrollmentToken_announced.
  - apply keeps_announced, Handler_keeps; [done|apply _|apply no_rebirth_ops|done].
Qed.

(** An enrollment spends its secret. *)
Lemma enrollKLIQ_spends ctx body req (x : F) resp x' :
    tokens_ok x.1 → enrollKLIQ (Now (W:=W)) s ctx body x = (Ok resp, x') →
    decode_enrollmentRequest body = Ok req → TokenSHA256 (er_EnrollmentToken req) = hash →
    resp_Code resp = 201 → token_live hash x.1 = true ∧ token_live hash x'.1 = false.
Proof.
  intros Hok H Hd <- Hr. unfold enrollKLIQ in H.
  apply need_answers with (status := 201) in H as (M & HM & H); [|done..].
  pose proof (wc_store _ _ WC _ HM) as ->.
  apply or_respond_answers with (status := 201) in H as (req' & x1 & [Hd' ->]%lift_Ok & H); [|done..].
  rewrite Hd in Hd'. injection Hd' as <-.
  apply refuse_answers with (status := 201) in H as [_ H]; [|done..].
  apply refuse_answers with (status := 201) in H as [_ H]; [|done..].
  apply or_respond_answers with (status := 201) in H as ([] & x1 & [_ ->]%lift_Ok & H); [|done..].
  apply io_bind_Ok in H as (now & x1 & Hnow & H).
  assert (Hx1 : x1.1 = x.1). { symmetry. exact (preserves_run _ _ _ _ _ (Now_same eq) Hnow). }
    apply or_respond_answers with (status := 201) in H as (t & x2 & Hu & H); [|done..].
  apply UseEnrollmentToken_Ok in Hu as (t0 & Hl & Hadm & -> & Hspent).
  destruct Hspent as [Hb Ha]; [by rewrite Hx1|by eapply Now_nonzero|].
  rewrite Hx1 in Hb. split; [done|]. apply not_true_is_false. intros Hl'.
  revert Ha. apply not_false_iff_true. revert Hl'.
  refine (preserves_run (on_memory (no_rebirth (TokenSHA256 (er_EnrollmentToken req)))) _ _ _ _ _ H).
  pose proof (or_register _ (no_rebirth_ops (W:=W) (TokenSHA256 (er_EnrollmentToken req)))) as Hreg.
  pose proof (Issue_keeps rand_Read s WC (no_rebirth (TokenSHA256 (er_EnrollmentToken req)))).
  apply preserves_or_respond; [apply _|by apply Hreg|intros _].
  destruct (sv_KLIQService s); [|apply preserves_ret, _].
  apply preserves_or_respond; [apply _|auto|intros; apply preserves_ret, _].
Qed.

(** Per request: a secret that enrolls had been handed out, and is spent. *)
Lemma Handler_accounts route r (x : F) :
    tokens_ok x.1 →
    (Nat.b2n (enrolls hash route r (serve route r x).1) +
    Nat.b2n (token_live hash (serve route r x).2.1) ≤
    Nat.b2n (token_live hash x.1) + Nat.b2n (issues hash (serve route r x).1))%nat.
Proof.
  intros Hok. pose proof (Handler_announced route r x) as Ha.
  destruct (enrolls hash route r _) eqn:He.
  - unfold enrolls in He. destruct route; try done.
  destruct (decode_enrollmentRequest _) as [req|] eqn:Hd; [|done].
  destruct (serve Enroll r x) as [[resp|e] x'] eqn:Hs; [|done]. cbn [fst snd] in *.
  apply andb_true_iff in He as [Hh%String.eqb_eq Hc%Z.eqb_eq].
  destruct (enrollKLIQ_spends _ _ _ _ _ _ Hok Hs Hd Hh Hc) as [-> ->].
  simpl. lia.
  - destruct (token_live hash (serve route r x).2.1); [|simpl; lia].
  destruct (Ha eq_refl) as [-> | ->]; simpl; lia.
Qed.
End secret.

(** ** Histories *)

Inductive operation : Type :=
  | Serve (route : Route) (request : Request)   (* a request to the API *)
  | Seed (bundle : TrustBundle)                 (* a trust bundle of the configuration *)
  | Elsewhere (change : W → W).                 (* whatever else happens *)

Definition perform (op : operation) (x : F) : result Response * F :=
  match op with
  | Serve route r => serve route r x
  | Seed bundle =>
      let '(answer, x) := SaveTrustBundle bundle x in
      (match answer with Ok _ => Ok (writeJSON 200 (BStatus "ok")) | Err e => Err e end, x)
  | Elsewhere change => (Ok (writeJSON 200 (BStatus "ok")), (x.1, change x.2))
  end.

Fixpoint history (ops : list operation) (x : F) : F :=
  match ops with
  | [] => x
  | op :: ops => history ops (perform op x).2
  end.

(** How often a secret enrolled a KLIQ, and how often it was handed out. *)
Fixpoint enrollments (hash : string) (ops : list operation) (x : F) : nat :=
  match ops with
  | [] => 0
  | op :: ops =>
      let '(answer, x') := perform op x in
      match op with Serve route r => Nat.b2n (enrolls hash route r answer) | _ => 0 end
      + enrollments hash ops x'
  end.
Fixpoint issuances (hash : string) (ops : list operation) (x : F) : nat :=
  match ops with
  | [] => 0
  | op :: ops =>
      let '(answer, x') := perform op x in
      Nat.b2n (issues hash answer) + issuances hash ops x'
  end.

Lemma perform_evolve op x : forge_evolve x.1 (perform op x).2.1.
Proof.
  destruct op as [route r|b|f]; simpl.
  - by apply Handler_evolve.
  - pose proof (SaveTrustBundle_evolve (W:=W) b x) as H.
    destruct (SaveTrustBundle b x) as [[[]|e] x']; exact H.
  - reflexivity.
Qed.

Lemma history_evolve ops x : forge_evolve x.1 (history ops x).1.
Proof.
  revert x. induction ops as [|op ops IH]; intros x; simpl; [reflexivity|].
  etrans; [apply perform_evolve|apply IH].
Qed.

Lemma history_app ops1 ops2 x : history (ops1 ++ ops2) x = history ops2 (history ops1 x).
Proof. revert x. induction ops1; simpl; auto. Qed.

Lemma SaveTrustBundle_keeps hash b :
  preserves (on_memory (no_rebirth hash)) (SaveTrustBundle (W:=W) b).
Proof. unfold SaveTrustBundle. cbv zeta. preserve. apply on_store_keeps. intros ? Hl. exact Hl. Qed.

Lemma perform_accounts hash op x :
  tokens_ok x.1 →
  (match op with Serve route r => Nat.b2n (enrolls hash route r (perform op x).1) | _ => 0 end +
   Nat.b2n (token_live hash (perform op x).2.1) ≤
   Nat.b2n (token_live hash x.1) + Nat.b2n (issues hash (perform op x).1))%nat.
Proof.
  intros Hok. destruct op as [route r|b|f]; simpl.
  - by apply Handler_accounts.
  - pose proof (SaveTrustBundle_keeps hash b x) as H. unfold on_memory, no_rebirth in H.
    destruct (SaveTrustBundle b x) as [[[]|e] x']; simpl in *;
      destruct (token_live hash x'.1); simpl; try lia; by rewrite (H eq_refl).
  - lia.
Qed.

Lemma history_accounts hash ops x :
  tokens_ok x.1 →
  (enrollments hash ops x + Nat.b2n (token_live hash (history ops x).1) ≤
   Nat.b2n (token_live hash x.1) + issuances hash ops x)%nat.
Proof.
  revert x. induction ops as [|op ops IH]; intros x Hok; simpl; [lia|].
  pose proof (perform_accounts hash op x Hok) as H.
  pose proof (IH (perform op x).2 (fe_tokens _ _ (perform_evolve op x) Hok)) as H2.
  destruct (perform op x) as [answer x']. simpl in *. lia.
Qed.

(** C8. The management plane from an empty store, after any operations and
    whatever comes next: the store is well formed (trust bundles valid and filed
    under their key, registrations and identities under their KLIQ, tokens under
    their digest); audit events are only appended; no assignment's version goes
    back, nor is a published version replaced or a revoked one brought back; the
    key and purpose of a trust bundle stay and its status only advances; no KLIQ
    is forgotten; and no enrollment secret enrolls more often than it was handed
    out. *)
Theorem forge_history (ops1 ops2 : list operation) (w : W) (hash : string) :
  let x0 := (NewMemoryStore, w) in
  let m1 := (history ops1 x0).1 in
  let m2 := (history (ops1 ++ ops2) x0).1 in
  (trust_ok m2 ∧ regs_ok m2 ∧ tokens_ok m2) ∧
  m_auditEvents m1 `prefix_of` m_auditEvents m2 ∧
  entries_le assignment_le (m_assignments m1) (m_assignments m2) ∧
  entries_le trust_le (m_trustBundles m1) (m_trustBundles m2) ∧
  entries_le (λ _ _, True) (m_registrations m1) (m_registrations m2) ∧
  (enrollments hash (ops1 ++ ops2) x0 ≤ issuances hash (ops1 ++ ops2) x0)%nat.
Proof.
  cbv zeta. rewrite history_app. set (x1 := history ops1 _).
  destruct NewMemoryStore_ok as (Ht & Hr & Hk).
  destruct (history_evolve ops1 (NewMemoryStore, w)) as [K1 _ _ T1 R1].
  destruct (history_evolve ops2 x1) as [K2 E2 A2 T2 R2].
  apply K1 in Hk. apply T1 in Ht as [Ht _]. apply R1 in Hr as [Hr _].
  destruct (T2 Ht) as [? ?], (R2 Hr) as [? ?]. split_and!; auto.
  pose proof (history_accounts hash (ops1 ++ ops2) (NewMemoryStore, w)
                (proj2 (proj2 NewMemoryStore_ok))) as Hacc.
  simpl in Hacc. change (token_live hash NewMemoryStore) with false in Hacc. simpl in Hacc. lia.
Qed.
End forge.
