(* ===== verification/ForgeAccess.v ===== *)
(** * Who changes Forge's store

    An access policy per route ([permitted]), stated on the store and the caller,
    and that no handler changes the store for a caller it does not permit. *)

From stdpp Require Import options.
From stdpp Require Import gmap.
From S2P Require Import Jobs Prelude IO GoStrings GoTime GoDuration GoJson GoEncoding Signing.
From S2P Require Import Domain Artifacts BundleSource Authn Authz Management BuildManifest.
From S2P Require Import ArtifactStore ForgeTypes ForgeAPI ManagementMemory ManagementMemoryProofs.
From S2P Require Import ForgeProofs ForgeHistory.
#[local] Open Scope Z_scope.

Set Default Proof Using "Type*".

(** ** Nothing changes *)

Section unchanged.
Context {W : Type} {FW : ForgeWorld W}.
  Abbreviation F := (MemoryStore * W)%type.

(** From this store and world, the store stays as it is. *)
Definition unchanged {A} (m : MemoryStore) (w : W) (k : io F A) : Prop := (k (m, w)).2.1 = m.

Lemma preserves_unchanged {A} m w (k : io F A) : preserves (on_memory eq) k → unchanged m w k.
Proof. intros H. symmetry. apply (H (m, w)). Qed.

Lemma unchanged_ret {A} m w (a : A) : unchanged m w (mret a).
Proof. done. Qed.

Lemma unchanged_need {A} m w (o : option A) r (k : A → io F Response) :
  (∀ a, o = Some a → unchanged m w (k a)) → unchanged m w (need o r k).
Proof. intros H. destruct o; [by apply H|done]. Qed.

Lemma unchanged_bind {A B} m w (k : io F A) (f : A → io F B) :
  preserves (on_memory eq) k → (∀ a w', unchanged m w' (f a)) → unchanged m w (k ≫= f).
Proof.
  intros Hk Hf. specialize (Hk (m, w)). unfold unchanged in *. rewrite io_bind_run.
  destruct (k (m, w)) as [[a|e] [m' w']]; unfold on_memory in Hk; simpl in *; subst m'; [apply Hf|done].
Qed.

Lemma unchanged_or_respond {A} m w (k : io F A) c (f : A → io F Response) :
  preserves (on_memory eq) k → (∀ a w', unchanged m w' (f a)) → unchanged m w (or_respond k c f).
Proof.
  intros Hk Hf. apply unchanged_bind; [by apply preserves_returned|].
  intros [a|e] w'; [apply Hf|apply unchanged_ret].
Qed.

Lemma unchanged_lift {A} m w (r : result A) c (f : A → io F Response) :
  (∀ a, r = Ok a → unchanged m w (f a)) → unchanged m w (or_respond (lift r) c f).
Proof.
  intros H. destruct r as [a|e]; [by apply H|].
  unfold unchanged, or_respond, returned, lift. rewrite io_bind_run. by destruct (is_panic e).
Qed.

Lemma unchanged_find {A} m w (field : MemoryStore → gmap string A) key c (f : A → io F Response) :
  (∀ a, field m !! key = Some a → unchanged m w (f a)) →
  unchanged m w (or_respond (find_in field key) c f).
Proof.
  intros H. unfold unchanged, or_respond, returned, find_in, read in *. rewrite io_bind_run. simpl.
  destruct (field m !! key) eqn:E; [by apply H|done].
Qed.

Lemma unchanged_refuse m w (c : bool) r (k : io F Response) :
  (c = false → unchanged m w k) → unchanged m w (if c then mret r else k).
Proof. intros H. destruct c; [apply unchanged_ret|by apply H]. Qed.
End unchanged.

(** ** The policy *)

(** Neither the registration nor its identity is revoked. *)
Definition active_registration (registration : KLIQRegistration) : Prop :=
  reg_Status registration ≠ "revoked" ∧ reg_RevokedAt registration = 0 ∧
  id_Status (reg_Identity registration) ≠ "revoked" ∧ id_RevokedAt (reg_Identity registration) = 0.

(** What a caller claims does not contradict what is registered. *)
Definition agrees (recorded claimed : string) : Prop := recorded = "" ∨ claimed = "" ∨ recorded = claimed.

(** A value that, when given, is the one required. *)
Definition for_any_or (given required : string) : Prop := given = "" ∨ given = required.

(** The caller is a service, and the KLIQ of the registration: it has the identifier, its scope
    is the registration's, and the identity it claims is the registered one. *)
Definition is_kliq (p : Principal) (registration : KLIQRegistration) : Prop :=
  let identity := reg_Identity registration in
  RoleKLIQService ∈ p_Roles p ∧ PrincipalKLIQID p = reg_KLIQID registration ∧
  for_any_or (sc_Environment (p_Scope p)) (reg_Environment registration) ∧
  for_any_or (sc_Stage (p_Scope p)) (reg_Stage registration) ∧
  for_any_or (PrincipalKLIQScope p) (reg_Scope registration) ∧
  agrees (id_ServiceIdentityProvider identity) (PrincipalServiceIdentityProvider p) ∧
  agrees (id_SPIFFEID identity) (PrincipalSPIFFEID p) ∧
  agrees (IdentityMaterialSHA256 identity) (PrincipalIdentityMaterialSHA256 p).

Definition is_active_kliq (p : Principal) (registration : KLIQRegistration) : Prop :=
  active_registration registration ∧ is_kliq p registration.

Lemma ensure_active registration u :
  ensureKLIQRegistrationActive registration = Ok u → active_registration registration.
Proof.
  unfold ensureKLIQRegistrationActive, active_registration, IsZero. intros H. passes H.
  rewrite ?orb_false_iff, ?negb_false_iff, ?Z.eqb_eq, ?String.eqb_neq in *. tauto.
Qed.

Lemma changes_agrees recorded claimed : changes recorded claimed = false → agrees recorded claimed.
Proof.
  unfold changes, agrees. rewrite !andb_false_iff, !negb_false_iff, !String.eqb_eq. tauto.
Qed.

Lemma not_outside (c r : string) : (c !=s "") && (c !=s r) = false → for_any_or c r.
Proof. unfold for_any_or. rewrite andb_false_iff, !negb_false_iff, !String.eqb_eq. tauto. Qed.

Lemma authorize_kliq p registration u :
  authorizeKLIQServicePrincipal p registration = Ok u → is_kliq p registration.
Proof.
  unfold authorizeKLIQServicePrincipal, is_kliq. cbv zeta. intros H. passes H.
  rewrite negb_false_iff, ?String.eqb_eq in *. rewrite HasRole_elem in *.
  split_and!; auto using changes_agrees, not_outside.
Qed.

(** A KLIQ is registered, and this holds of its registration. *)
Definition registered (m : MemoryStore) (kliqID : string) (P : KLIQRegistration → Prop) : Prop :=
  ∃ registration, m_registrations m !! trim_space kliqID = Some registration ∧ P registration.

(** What a request may change the store for. *)
Definition permitted {JD : JSONDecoders} {MD : ManagementDecoders} (m : MemoryStore)
    (route : Route) (body : string) (p : Principal) : Prop :=
  let manages registration := may p KLIQManageRoles (kliqRegistrationScope registration) in
  match route with
  | ApprovePolicyBuildManifest => ∃ req, decode_buildApprovalRequest body = Ok req ∧
      may p PolicyBuildApproveRoles
        (env_stage (trim_space (bar_Environment req)) (trim_space (bar_Stage req)))
  | CreateEnrollmentTokenRoute => ∃ req, decode_enrollmentTokenRequest body = Ok req ∧
      may p KLIQManageRoles (env_stage (etr_Environment req) (etr_Stage req))
  | RevokeEnrollmentTokenRoute id => ∃ t, m_tokensByID m !! trim_space id = Some t ∧
      may p KLIQManageRoles (env_stage (et_Environment t) (et_Stage t))
  | PlanAssignment => ∃ req, decode_assignmentPlanRequest body = Ok req ∧
      registered m (apr_KLIQID req) (λ registration,
        active_registration registration ∧ manages registration)
  | CreateDevAssignment => ∃ a, decode_stream_KLIQAssignment body = Ok a ∧
      registered m (asg_KLIQID a) manages
  | GetLatestAssignment kliqID =>
      registered m kliqID (λ registration,
        active_registration registration ∧
        (is_kliq p registration ∨
         RoleKLIQService ∉ p_Roles p ∧ may p KLIQReadRoles (kliqRegistrationScope registration)))
  | RevokeAssignmentRoute kliqID _ | RevokeRegistrationRoute kliqID => registered m kliqID manages
  | RotateTrustBundleRoute _ | RevokeTrustBundleRoute _ => may p KLIQManageRoles no_scope
  | Heartbeat => ∃ h, decode_KLIQHeartbeat body = Ok h ∧
      registered m (hb_KLIQID h) (is_active_kliq p)
  | PostStatusReport => ∃ r, decode_KLIQStatusReport body = Ok r ∧
      registered m (sr_KLIQID r) (is_active_kliq p)
  | PostAuditEvent => ∃ u, decode_KLIQAuditUpload body = Ok u ∧
      registered m (up_KLIQID u) (is_active_kliq p)
  | Enroll | Healthz | Me | CreateSimulationJob | GetJob _ | GetStatusReport _ | RefreshServiceToken => False
  end.

(** The secret of an enrollment, at the time [now]: its token is in the store, has not been
    used or revoked, has not expired, and is for the request's environment, stage and scope
    (a token that leaves one of them empty is for any). *)
Definition presents_token {MD : ManagementDecoders} (m : MemoryStore) (now : time) (body : string) : Prop :=
  ∃ req token, decode_enrollmentRequest body = Ok req ∧
    m_tokensByHash m !! TokenSHA256 (er_EnrollmentToken req) = Some token ∧
    et_UsedAt token = 0 ∧ et_RevokedAt token = 0 ∧
    (et_ExpiresAt token = 0 ∨ now < et_ExpiresAt token) ∧
    for_any_or (et_Environment token) (er_Environment req) ∧
    for_any_or (et_Stage token) (er_Stage req) ∧ for_any_or (et_Scope token) (er_Scope req).

(** ** No change without permission *)

Section forge.
Context {GR : GoRuntime} {UF : UnicodeFold} {ED : Ed25519} {JD : JSONDecoders} {KD : KeyDecoders}.
Context {TC : TokenCodecs} {MD : ManagementDecoders} {IM : IdentityMaterial} {JS : JSONSyntax}.
Context {JC : JobCodecs}.
Context {W : Type} {FW : ForgeWorld W}.
  Abbreviation F := (MemoryStore * W)%type.
Context (rand_Read : io F string) (s : Server F) (WC : well_configured rand_Read s).

(** Who the authenticator says the caller is. *)
Definition caller (r : Request) : io F Principal :=
  match sv_Authenticator s with
  | None => fail ErrUnauthenticated
  | Some authenticator =>
    early ← match au_VerifyRequest authenticator with
            | Some verifyRequest => attempt (verifyRequest r)
            | None => mret (Err ErrUnauthenticated)
            end;
    match early with
    | Ok principal => mret principal
    | Err _ => token ← lift (BearerToken (hr_Authorization r)); au_Verify authenticator token
    end
  end.

(** Authentication: the caller is identified, then the handler runs. *)
Lemma requireAuth_caller r next x :
  (∃ p x1, caller r x = (Ok p, x1) ∧
     requireAuth s r next x = next (WithAuditActor no_context (p_Subject p)) p x1) ∨
  (∃ e x1 resp, caller r x = (Err e, x1) ∧ requireAuth s r next x = (resp, x1)).
Proof.
  unfold requireAuth, caller, need. destruct (sv_Authenticator s) as [a|]; cbv zeta;
    [|right; do 3 eexists; split; reflexivity].
  set (early := match au_VerifyRequest a with Some _ => _ | None => _ end).
  rewrite !io_bind_run. destruct (early x) as [[[p|e]|e] x1] eqn:He.
  - left. do 2 eexists. split; reflexivity.
  - unfold or_respond, returned, lift. rewrite !io_bind_run.
    destruct (BearerToken _) as [token|e']; cbn [fst snd];
      [|right; destruct (is_panic e'); do 3 eexists; split; reflexivity].
    rewrite !io_bind_run. cbn [fst snd]. destruct (au_Verify a token x1) as [[p|e'] x2]; cbn [fst snd].
    + left. do 2 eexists. split; reflexivity.
    + right. destruct (is_panic e'); do 3 eexists; split; reflexivity.
  - unfold early in He. by destruct (au_VerifyRequest a).
Qed.

Lemma caller_same r : preserves (on_memory eq) (caller r).
Proof.
  unfold caller. destruct (sv_Authenticator s) as [a|] eqn:Ha; [|apply preserves_fail, _].
  apply preserves_bind; [apply _| |intros [p|e]].
  - destruct (au_VerifyRequest a) as [v|] eqn:Hv; [|apply preserves_ret, _]. apply preserves_attempt.
    by eapply (wc_auth_request _ _ WC).
  - apply preserves_ret, _.
  - apply preserves_bind; [apply _|apply preserves_lift, _|intros token]. by eapply (wc_auth _ _ WC).
Qed.

(** Walk through a handler up to where the caller is authorized. *)
Ltac in_memory :=
  match goal with
  | H : sv_Management s = Some ?M |- _ => rewrite (wc_store _ _ WC _ H);
      cbn [mg_EnrollmentToken mg_Registration memory_store]
  end.
Ltac denied := exfalso;
  match goal with H : ¬ _ |- _ => apply H end;
  unfold permitted, registered, is_active_kliq;
  repeat match goal with
  | H : Authorize _ _ = Ok ?u |- _ => destruct u; apply Authorize_iff in H; cbn in H
  | H : ensureKLIQRegistrationActive _ = Ok _ |- _ => apply ensure_active in H
  | H : authorizeKLIQServicePrincipal _ _ = Ok _ |- _ => apply authorize_kliq in H
  end; eauto 8.
Ltac guarded := repeat
  match goal with
  | |- unchanged _ _ (let _ := _ in _) => cbv zeta
  | |- unchanged _ _ (need (sv_Management s) _ _) => apply unchanged_need; intros ? ?; in_memory
  | |- unchanged _ _ (need _ _ _) => apply unchanged_need; intros ? ?
  | |- unchanged _ _ (or_respond (lift _) _ _) => apply unchanged_lift; intros ? ?
  | |- unchanged _ _ (or_respond (get_Registration _) _ _) => apply unchanged_find; intros ? ?
  | |- unchanged _ _ (or_respond (get_EnrollmentToken _) _ _) => apply unchanged_find; intros ? ?
  | |- unchanged _ _ (if _ then mret _ else _) => apply unchanged_refuse; intros ?
  end; try by denied.

Lemma authenticated_unchanged m w route r ctx p :
  route ≠ Enroll → ¬ permitted m route (hr_Body r) p →
  unchanged m w (authenticated (Now (W:=W)) rand_Read s route r ctx p).
Proof.
  intros Hne Hp. destruct route; try done; simpl authenticated.
  - apply preserves_unchanged, (createJob_keeps rand_Read s WC eq).
  - apply preserves_unchanged, (getJob_keeps rand_Read s WC eq).
  - unfold approvePolicyBuildManifest. guarded.
  - unfold createEnrollmentToken. guarded.
  - unfold revokeEnrollmentToken. guarded.
  - unfold planKLIQAssignment. guarded.
  - unfold createDevKLIQAssignment. guarded.
  - unfold latestKLIQAssignment, authorizeKLIQAssignmentRead. guarded.
    exfalso. apply Hp. eexists. split_and!; [done|by eapply ensure_active|].
    destruct (HasRole p RoleKLIQService) eqn:Hrole; [left; by eapply authorize_kliq|right].
    split; [|destruct a2; by apply Authorize_iff in H2]. by rewrite <- HasRole_elem, Hrole.
  - unfold revokeKLIQAssignment. guarded.
  - unfold revokeKLIQRegistration. guarded.
  - unfold rotateTrustBundle. guarded.
  - unfold revokeTrustBundle. guarded.
  - unfold recordKLIQHeartbeat, from_kliq. guarded.
  - unfold recordKLIQStatusReport, from_kliq. guarded.
  - unfold getKLIQStatusReport. guarded.
    apply unchanged_or_respond; [apply find_in_same, _|intros; apply unchanged_ret].
  - unfold recordKLIQAuditUpload, from_kliq. guarded.
  - unfold refreshKLIQServiceToken. guarded.
    apply unchanged_or_respond; [apply (Issue_keeps rand_Read s WC), _|intros token w'].
    apply unchanged_bind; [apply Now_same, _|intros; apply unchanged_ret].
Qed.

Lemma enroll_unchanged m w ctx body :
  ¬ presents_token m (forge_now w).1 body → unchanged m w (enrollKLIQ (Now (W:=W)) s ctx body).
Proof.
  intros Hp. unfold enrollKLIQ. apply unchanged_need. intros M HM. in_memory.
  apply unchanged_lift. intros req Hreq. do 2 (apply unchanged_refuse; intros _).
  apply unchanged_lift. intros _ _. unfold unchanged. rewrite io_bind_run. unfold Now at 1.
  destruct (forge_now w) as [now w1] eqn:Hnow. cbv zeta. unfold or_respond at 1, returned.
  rewrite io_bind_run.
  destruct (mg_UseEnrollmentToken _ _ _ _ _ _ (m, w1)) as [[t|e] x2] eqn:Hu.
  - exfalso. apply Hp. apply UseEnrollmentToken_Ok in Hu as (t0 & Hl & Ha & _).
    apply token_admits_Ok in Ha as (? & ? & ? & ? & ? & ?). by exists req, t0.
  - apply UseEnrollmentToken_Err in Hu as ->. by destruct (is_panic e).
Qed.

(** C9. A request changes nothing in the management store unless it is permitted
    to: unless the authenticator identifies a caller whose roles and scope cover
    what the route acts on, read from the store before the request (for the
    reports of a KLIQ, the KLIQ itself, neither it nor its identity revoked), or the
    route is enrollment and the request presents a secret whose token, in that store, is
    unused, unrevoked, not expired at the time the handler reads, and for the request's
    environment, stage and scope. *)
Theorem Handler_unpermitted_unchanged (route : Route) (r : Request) (x : F) :
  (route = Enroll → ¬ presents_token x.1 (forge_now x.2).1 (hr_Body r)) →
  (route ≠ Enroll → ∀ p, (caller r x).1 = Ok p → ¬ permitted x.1 route (hr_Body r) p) →
  (Handler (Now (W:=W)) rand_Read s route r x).2.1 = x.1.
Proof.
  intros He Hp. destruct x as [m w].
  assert (route = Enroll ∨ route ≠ Enroll) as [->|Hne]
    by (destruct route; (by left) || by right).
  { by apply enroll_unchanged, He. }
  pose proof (caller_same r (m, w)) as Hs. unfold on_memory in Hs. specialize (Hp Hne).
  assert (Hr : ∀ next, (∀ ctx p w1, (caller r (m, w)).1 = Ok p → unchanged m w1 (next ctx p)) →
      (requireAuth s r next (m, w)).2.1 = m).
  { intros next Hn. destruct (requireAuth_caller r next (m, w))
      as [(p & [m1 w1] & Hcl & ->)|(e & x1 & resp & Hcl & ->)]; rewrite Hcl in *; simpl in *;
      [subst m1; by apply Hn|done]. }
  destruct route; try done; simpl; apply Hr; intros ctx p w1 Hcl;
    by apply (authenticated_unchanged _ _ _ r), Hp.
Qed.
End forge.
