(* ===== verification/ForgePlan.v ===== *)
(** * What Forge publishes

    An assignment that [planKLIQAssignment] publishes is for an active KLIQ,
    asked for by a caller who manages it, made of artifacts that an approved and
    signed build lists and whose envelopes the signer's verifier accepts, and
    newer than what was published before.  A build is approved by somebody else
    than its author. *)

From stdpp Require Import options.
From stdpp Require Import gmap.
From S2P Require Import Jobs Prelude IO GoStrings GoTime GoDuration GoJson GoEncoding Signing.
From S2P Require Import Domain Artifacts BundleSource Authn Authz Management BuildManifest.
From S2P Require Import ArtifactStore ForgeTypes ForgeAPI ManagementMemory ManagementMemoryProofs.
From S2P Require Import ForgeProofs.
#[local] Open Scope Z_scope.

Set Default Proof Using "Type*".

(** Walk through a handler that answered [status]: every early return answers
    something else. *)
Ltac other_status := intros; unfold always, not_found_or; repeat case_match; by simpl.
Ltac answered_step H Hr code :=
  match type of H with
  | need _ _ _ _ = _ =>
      let a := fresh "a" in let Ha := fresh "Ho" in
      apply need_answers with (status := code) in H as (a & Ha & H); [|exact Hr|by simpl]
  | or_respond _ _ _ _ = _ =>
      let a := fresh "a" in let s1 := fresh "s" in let Ha := fresh "Hr" in
      apply or_respond_answers with (status := code) in H as (a & s1 & Ha & H);
        [|exact Hr|other_status]
  | (if _ then mret _ else _) _ = _ =>
      let Hc := fresh "Hc" in
      apply refuse_answers with (status := code) in H as [Hc H]; [|exact Hr|by simpl]
  | (_ ≫= _) _ = _ =>
      let a := fresh "a" in let s1 := fresh "s" in let Ha := fresh "Hr" in
      apply io_bind_Ok in H as (a & s1 & Ha & H)
  end.
Ltac answered H Hr code := cbv zeta in H; repeat (answered_step H Hr code; cbv zeta in H).

(** A comparison that holds. *)
Lemma same_text_eq a b : same_text a b = true ↔ trim_space a = trim_space b.
Proof. apply String.eqb_eq. Qed.

(** ** What an approved build lists *)

Section builds.
Context {GR : GoRuntime} {UF : UnicodeFold}.

Lemma range_Ok {A} (m : gmap string A) f :
  range m f = Ok tt ↔ ∀ k a, m !! k = Some a → f k a = Ok tt.
Proof.
  unfold range. rewrite for_each_Ok, map_order_Forall, Forall_forall. split.
  - intros H k a Hk. apply (H (k, a)). by apply elem_of_map_to_list.
  - intros H [k a] Hk%elem_of_map_to_list. by apply H.
Qed.

Lemma range_any_iff {A} (m : gmap string A) f :
  range_any m f = true ↔ ∃ k a, m !! k = Some a ∧ f a = true.
Proof.
  unfold range_any. rewrite existsb_exists. split.
  - intros ([k a] & Hin & Hf). apply list_elem_of_In, map_order_elem, elem_of_map_to_list in Hin.
    by exists k, a.
  - intros (k & a & Hk & Hf). exists (k, a). split; [|done].
    by apply list_elem_of_In, map_order_elem, elem_of_map_to_list.
Qed.

(** The build lists an artifact of this type under this reference, as a signed
    output (the adapters' manifests under the adapters). *)
Definition build_lists (spec : ManifestSpec) (artifactType : string) (ref : ArtifactRef) : Prop :=
  if artifactType ==s "adapter_manifest" then
    ∃ id adapter, sp_Adapters spec !! id = Some adapter ∧
      signedOutputMatchesRef (adr_SignedManifest adapter) ref = true
  else match sp_SignedOutputs spec !! artifactType with
  | Some signed => so_ArtifactRef signed = ref ∧ so_EnvelopeSHA256 signed = ref_SHA256 ref
  | None => sp_ArtifactRefs spec !! artifactType = Some ref
  end.

Lemma validateArtifactInApprovedBuild_lists build requested :
  validateArtifactInApprovedBuild build requested = Ok tt →
  build_lists (pbm_Spec build) (trim_space (aa_ArtifactType requested)) (requested_ref requested).
Proof.
  unfold validateArtifactInApprovedBuild, build_lists. cbv zeta. intros H. passes H. revert H.
  destruct (_ ==s "adapter_manifest").
  - destruct (range_any _ _) eqn:E; [|done]. intros _. by apply range_any_iff in E.
  - destruct (sp_SignedOutputs _ !! _) as [signed|].
    + destruct (_ && _) eqn:E; [|done]. intros _.
      rewrite !andb_true_iff, !String.eqb_eq in E. destruct E as [[[? ?] ?] _].
      split; [|done]. destruct (so_ArtifactRef signed), (requested_ref requested). simpl in *. by subst.
    + destruct (sp_ArtifactRefs _ !! _) as [unsigned|]; [|done].
      destruct (_ && _) eqn:E; [|done]. intros _. apply andb_true_iff in E as [?%String.eqb_eq ?%String.eqb_eq].
      destruct unsigned, (requested_ref requested). simpl in *. by subst.
Qed.

(** Who approved a build, where for. *)
Definition approved_for (build : PolicyBuildManifest) (registration : KLIQRegistration) : Prop :=
  let a := pbm_Approval build in
  apv_Status a = "approved" ∧ IsZero (apv_ApprovedAt a) = false ∧
  blank (apv_ApprovedBy a) = false ∧ blank (mm_CreatedBy (pbm_Metadata build)) = false ∧
  samePrincipal (mm_CreatedBy (pbm_Metadata build)) (apv_ApprovedBy a) = false ∧
  trim_space (apv_Environment a) = trim_space (reg_Environment registration) ∧
  trim_space (apv_Stage a) = trim_space (reg_Stage registration) ∧
  trim_space (apv_Scope a) = trim_space (reg_Scope registration).

Lemma validateApprovedBuildAuthority_Ok build registration :
  apv_Status (pbm_Approval build) = "approved" →
  validateApprovedBuildAuthority build registration = Ok tt → approved_for build registration.
Proof.
  unfold validateApprovedBuildAuthority, approved_for. cbv zeta. intros Hs H. passes H.
  str_eqs. rewrite !same_text_eq in *. tauto.
Qed.

(** The digest of every source the build was made of. *)
Definition sources_pinned (build : PolicyBuildManifest) : Prop :=
  let spec := pbm_Spec build in
  let pinned key digest := blank digest = false ∧
    trim_space (default "" (sp_FederatedSourceDigests spec !! key)) = trim_space digest in
  map_Forall pinned (federated_required spec) ∧
  map_Forall (λ id adapter, pinned ("adapter:" +:+ id) (adr_ManifestDigest adapter))
    (sp_Adapters spec).
End builds.

Lemma validateFederatedSourceDigests_pinned `{GoRuntime} build :
  validateFederatedSourceDigests build = Ok tt → sources_pinned build.
Proof.
  unfold validateFederatedSourceDigests, sources_pinned. cbv zeta. intros Hok. passes Hok.
  apply bind_Ok in Hok as ([] & H1 & H2).
  split; [clear H2|clear H1]; intros k a Hk.
  - pose proof (proj1 (range_Ok _ _) H1 k a Hk) as E. simpl in E. passes E.
    str_eqs. split; [|done]. first [done|by apply String.eqb_neq].
  - pose proof (proj1 (range_Ok _ _) H2 k a Hk) as E. simpl in E. passes E.
    str_eqs. split; [|done]. first [done|by apply String.eqb_neq].
Qed.

(** ** What signing and storing an assignment does *)

Section forge.
Context {GR : GoRuntime} {UF : UnicodeFold} {ED : Ed25519} {JD : JSONDecoders} {KD : KeyDecoders}.
Context {TC : TokenCodecs} {MD : ManagementDecoders} {IM : IdentityMaterial} {JS : JSONSyntax}.
Context {JC : JobCodecs}.
Context {W : Type} {FW : ForgeWorld W}.
  Abbreviation F := (MemoryStore * W)%type.
Context (rand_Read : io F string) (s : Server F) (WC : well_configured rand_Read s).

(** The verifier of the signer accepted an envelope. *)
Definition accepts (signer : Signer F) (envelope : SignedEnvelope) : Prop :=
  ∃ verify st r st', sg_Verify signer = Some verify ∧ verify envelope st = (Ok r, st') ∧
    vr_Valid r = true.

(** The artifact store returned these bytes for a reference. *)
Definition fetched (artifacts : ArtifactStore F) (ref : ArtifactRef) (bytes : string) : Prop :=
  ∃ st st', store_Get ref st = (Ok bytes, st').

Lemma verified_accepts signer u f i envelope x y x' :
  verified signer u f i envelope x = (Ok y, x') → accepts signer envelope.
Proof.
  unfold verified, accepts. destruct (sg_Verify signer) as [verify|]; [|by intros ?%fail_Ok].
  intros H. apply io_bind_Ok in H as (r & x1 & Hv%attempt_run & H).
  apply io_bind_Ok in H as (res & x2 & [Hr ->]%lift_Ok & H).
  apply replace_err_Ok in Hr as ->. destruct (vr_Valid res) eqn:E; [|by run H].
  by eauto 7.
Qed.

(** A signed build manifest that was fetched and verified. *)
Definition signed_build (artifacts : ArtifactStore F) (signer : Signer F) (ref : ArtifactRef)
    (build : PolicyBuildManifest) : Prop :=
  ∃ bytes envelope, fetched artifacts ref bytes ∧ decode_SignedEnvelope bytes = Ok envelope ∧
    accepts signer envelope ∧ decode_PolicyBuildManifest (env_Payload envelope) = Ok build ∧
    pbm_Kind build = "PolicyBuildManifest".

Lemma verifyApprovedBuild_payload signer bytes x payload x' :
  verifyApprovedBuildManifestEnvelope signer bytes x = (Ok payload, x') →
  ∃ envelope, decode_SignedEnvelope bytes = Ok envelope ∧ accepts signer envelope ∧
    payload = env_Payload envelope.
Proof.
  unfold verifyApprovedBuildManifestEnvelope. intros H.
  apply io_bind_Ok in H as (e & x1 & [He ->]%lift_Ok & H). apply replace_err_Ok in He.
  destruct (_ || _); [by apply fail_Ok in H|].
  apply io_bind_Ok in H as (u & x2 & Hv%verified_accepts & H). run H. by eauto.
Qed.

Lemma validateApprovedBuild_sound artifacts signer registration req x build x' :
  validateApprovedBuild artifacts signer registration req x = (Ok build, x') →
  signed_build artifacts signer (apr_ApprovedBuildRef req) build ∧
  approved_for build registration ∧ sources_pinned build ∧
  trim_space (pr_Commit (sp_PolicyRepo (pbm_Spec build))) = trim_space (apr_SourceCommit req) ∧
  Forall (λ requested, build_lists (pbm_Spec build) (trim_space (aa_ArtifactType requested))
                         (requested_ref requested)) (apr_Artifacts req).
Proof.
  unfold validateApprovedBuild. cbv zeta. intros H.
  destruct (_ || _); [by apply fail_Ok in H|].
  apply io_bind_Ok in H as (r & x1 & Hget%attempt_run & H).
  apply io_bind_Ok in H as (bytes & x2 & [Hr ->]%lift_Ok & H). apply replace_err_Ok in Hr as ->.
  apply io_bind_Ok in H as (payload & x2 & Hp & H).
  apply verifyApprovedBuild_payload in Hp as (envelope & He & Ha & ->).
  apply io_bind_Ok in H as (b & x3 & [Hb ->]%lift_Ok & H). apply replace_err_Ok in Hb.
  run H. run_all. simplify_eq. str_eqs.
  repeat match goal with H : ?r = Ok ?u |- _ =>
    is_var u; match type of u with unit => destruct u end end.
  split_and!.
  - exists bytes, envelope. split_and!; try done. by do 2 eexists.
  - by apply validateApprovedBuildAuthority_Ok.
  - by apply validateFederatedSourceDigests_pinned.
  - by apply same_text_eq.
  - eapply Forall_impl; [by apply for_each_Ok|]. intros a Hart.
    by apply validateArtifactInApprovedBuild_lists.
Qed.

(** A requested artifact as it is assigned: the bytes under its reference are an
    envelope the verifier accepts, for a payload of the artifact's type, built
    from the commit of the assignment. *)
Definition resolved_as (artifacts : ArtifactStore F) (signer : Signer F) (sourceCommit : string)
    (requested a : KLIQAssignedArtifact) : Prop :=
  aa_ArtifactType a = trim_space (aa_ArtifactType requested) ∧
  aa_ArtifactID a = trim_space (aa_ArtifactID requested) ∧
  aa_ArtifactRef a = ref_URI (requested_ref requested) ∧
  fetched artifacts (requested_ref requested) (aa_Envelope a) ∧
  aa_SHA256 a = SHA256JSON (aa_Envelope a) ∧
  SupportedAssignmentArtifactType (aa_ArtifactType a) = true ∧
  ∃ envelope, decode_SignedEnvelope (aa_Envelope a) = Ok envelope ∧
    env_Kind envelope = "SignedEnvelope" ∧ accepts signer envelope ∧
    validateAssignmentArtifactPayloadType (aa_ArtifactType requested) (env_Payload envelope)
      = Ok tt ∧
    trim_space (env_SourceCommit envelope) = trim_space sourceCommit.

Lemma resolveArtifact_sound artifacts signer req requested x a x' :
  resolveArtifact artifacts signer req requested x = (Ok a, x') →
  resolved_as artifacts signer (apr_SourceCommit req) requested a.
Proof.
  unfold resolveArtifact. cbv zeta. intros H.
  destruct (_ || _); [by apply fail_Ok in H|].
  destruct (negb _) eqn:Hty in H; [by apply fail_Ok in H|]. apply negb_false_iff in Hty.
  destruct (_ || _); [by apply fail_Ok in H|].
  apply io_bind_Ok in H as (r & x1 & Hget%attempt_run & H).
  apply io_bind_Ok in H as (bytes & x2 & [Hr ->]%lift_Ok & H). apply replace_err_Ok in Hr as ->.
  apply io_bind_Ok in H as (envelope & x2 & [He ->]%lift_Ok & H). apply replace_err_Ok in He.
  destruct (_ || _) eqn:Hk in H; [by apply fail_Ok in H|]. str_eqs.
  apply io_bind_Ok in H as ([] & x2 & Hv & H). unfold verifyAssignmentArtifactEnvelope in Hv.
  apply io_bind_Ok in Hv as (u & x3 & Ha%verified_accepts & [Hp ->]%lift_Ok).
  run H. split_and!; try done; [by do 2 eexists|].
  exists envelope. split_and!; try done. apply same_text_eq. by apply negb_false_iff.
Qed.

Lemma io_fold_app_Forall2 {A B} (R : A → B → Prop) (f : A → io F B) l acc x out x' :
  (∀ a st b st', f a st = (Ok b, st') → R a b) →
  io_fold (λ acc a, b ← f a; mret (acc ++ [b])) acc l x = (Ok out, x') →
  ∃ bs, out = acc ++ bs ∧ Forall2 R l bs.
Proof.
  intros Hf. revert acc x. induction l as [|a l IH]; intros acc x H; simpl in H.
  - run H. exists []. by rewrite app_nil_r.
  - apply io_bind_Ok in H as (acc' & x1 & Ha & H).
    apply io_bind_Ok in Ha as (b & x2 & Hb & [-> ->]%mret_Ok).
    apply IH in H as (bs & -> & Hbs). exists (b :: bs). rewrite <- app_assoc.
    split; [done|]. constructor; [by eapply Hf|done].
Qed.

(** *** Storing *)

Lemma to_int64_succ z : to_int64 (z + 1) ≠ z.
Proof.
  unfold to_int64. intros H.
  pose proof (Z.div_mod (z + 1 + 2 ^ 63) (2 ^ 64) ltac:(lia)) as Hd. lia.
Qed.

(** The assignments as they were. *)
Definition same_assignments (m m' : MemoryStore) : Prop := m_assignments m' = m_assignments m.
#[local] Instance same_assignments_preorder : PreOrder same_assignments.
Proof. split; [done|]. intros a b c H1 H2. unfold same_assignments in *. congruence. Qed.

(** What is stored under the next version is newer than what was there. *)
Lemma SaveAssignment_next ctx id envelope version (x : F) x' :
  version = match m_assignments x.1 !! id with
            | Some record => to_int64 (ar_Version record + 1)
            | None => 1
            end →
  SaveAssignment ctx id version envelope x = (Ok tt, x') →
  m_assignments x'.1 !! id = Some {| ar_Version := version; ar_Envelope := envelope;
                                     ar_RevokedAt := 0; ar_RevokedReason := "" |} ∧
  (∀ old, m_assignments x.1 !! id = Some old → ar_Version old < version).
Proof.
  intros Hv. unfold SaveAssignment. destruct (_ || _); [by intros ?%fail_Ok|]. intros H.
  apply io_bind_Ok in H as (existing & x1 & [-> ->]%gets_Ok & H). cbv zeta in H.
  destruct (_ && _) eqn:Hold; [by apply fail_Ok in H|]. set (publish := _ ≫= _) in H.
  assert (Hp : publish x = (Ok tt, x')).
  { destruct (m_assignments x.1 !! id) as [old|]; [|done].
    destruct (Z.eqb_spec version (ar_Version old)) as [He|]; [|done].
    exfalso. rewrite Hv in He. by apply to_int64_succ in He. }
  split.
  - unfold publish in Hp. apply io_bind_Ok in Hp as (u & x2 & ->%modify_Ok & Hp).
    apply io_bind_Ok in Hp as (now & x3 & Hn & Hp).
    apply (preserves_run _ _ _ _ _ (Now_same same_assignments)) in Hn.
    apply (preserves_run _ _ _ _ _ (appendAudit_any same_assignments _ (λ _ _, eq_refl))) in Hp.
    unfold on_memory, same_assignments in Hn, Hp. rewrite Hp, Hn. apply lookup_insert_eq.
  - intros old Ho. rewrite Ho in Hold, Hv. simpl in Hold. apply Z.ltb_ge in Hold.
    pose proof (to_int64_succ (ar_Version old)). lia.
Qed.

(** *** Signing and storing *)

(** The assignment as it is signed: with the digests of its artifacts and of its
    manifest. *)
Definition signed_form (assignment signed : KLIQAssignment) : Prop :=
  ∃ manifest, let a := with_artifacts (with_digest <$> asg_Artifacts assignment) assignment in
    ValidateAssignedArtifactDigests a = Ok tt ∧
    encode_AssignmentManifest (AssignmentManifestFor a) = Ok manifest ∧
    signed = with_manifest (SHA256JSON manifest) a.

(** The signer signed this payload, with this metadata. *)
Definition signs (signer : Signer F) (payload : string) (md : Metadata) (e : SignedEnvelope)
    : Prop := ∃ st st', sg_Sign signer payload md st = (Ok e, st').

Lemma with_artifacts_fields l a :
  asg_KLIQID (with_artifacts l a) = asg_KLIQID a ∧
  asg_AssignmentVersion (with_artifacts l a) = asg_AssignmentVersion a ∧
  asg_SourceCommit (with_artifacts l a) = asg_SourceCommit a ∧
  asg_ExpiresAt (with_artifacts l a) = asg_ExpiresAt a.
Proof. done. Qed.

Lemma signAndStore_sound signer ctx assignment (x : F) e x' :
  sv_ManagementSign s = Some signer →
  asg_AssignmentVersion assignment =
    match m_assignments x.1 !! asg_KLIQID assignment with
    | Some record => to_int64 (ar_Version record + 1)
    | None => 1
    end →
  signAndStoreAssignment memory_store signer ctx assignment x = (Ok e, x') →
  validateAssignmentRequest assignment = Ok tt ∧
  (∃ signed payload, signed_form assignment signed ∧ encode_KLIQAssignment signed = Ok payload ∧
     signs signer payload {| md_KeyID := ""; md_SourceCommit := asg_SourceCommit assignment;
       md_PolicyID := ""; md_ExpiresAt := Some (asg_ExpiresAt assignment) |} e) ∧
  m_assignments x'.1 !! asg_KLIQID assignment =
    Some {| ar_Version := asg_AssignmentVersion assignment; ar_Envelope := e;
            ar_RevokedAt := 0; ar_RevokedReason := "" |} ∧
  (∀ old, m_assignments x.1 !! asg_KLIQID assignment = Some old →
     ar_Version old < asg_AssignmentVersion assignment).
Proof.
  intros Hs Hv. unfold signAndStoreAssignment. intros H.
  apply io_bind_Ok in H as ([] & x1 & [Hreq%replace_err_Ok ->]%lift_Ok & H).
  apply io_bind_Ok in H as ([] & x1 & [Hdig%replace_err_Ok ->]%lift_Ok & H).
  apply io_bind_Ok in H as (manifest & x1 & [Hm%replace_err_Ok ->]%lift_Ok & H).
  apply io_bind_Ok in H as (payload & x1 & [Hp%replace_err_Ok ->]%lift_Ok & H).
  apply io_bind_Ok in H as (r & x1 & Hsign%attempt_run & H).
  apply io_bind_Ok in H as (e' & x2 & [Hr%replace_err_Ok ->]%lift_Ok & H). subst r.
  apply io_bind_Ok in H as (r & x2 & Hsave%attempt_run & H).
  apply io_bind_Ok in H as ([] & x3 & [Hr%replace_err_Ok ->]%lift_Ok & H). subst r.
  apply mret_Ok in H as [-> ->].
  pose proof (preserves_run _ _ _ _ _ (wc_sign _ _ WC _ _ _ Hs) Hsign) as Hx1.
  unfold on_memory in Hx1.
  apply SaveAssignment_next in Hsave as [Hst Hnew]; [|by rewrite <- Hx1].
  split_and!; [done| |done|by rewrite Hx1].
  eexists _, payload. split_and!; [by exists manifest|done|by do 2 eexists].
Qed.

(** ** Planning *)

(** C11. An assignment that is planned (answer 201) is for a KLIQ that is
    registered and active, by a caller who manages its scope; it is the next
    version, newer than any assignment of that KLIQ, and it is what the store now
    holds for it; it is made of the requested artifacts, each listed under its
    reference in a signed build that was approved for the KLIQ's scope by somebody
    else than its author, from the commit of the request and with the digest of
    every source pinned; the bytes of each artifact are an envelope the signer's
    verifier accepts, for a payload of its type and the same commit; and what is
    answered is the signer's envelope of the assignment with its digests. *)
Theorem planKLIQAssignment_sound ctx body (p : Principal) (x : F) resp x' :
  planKLIQAssignment (Now (W:=W)) s ctx body p x = (Ok resp, x') → resp_Code resp = 201 →
  ∃ signer artifacts req registration build resolved version now envelope,
    let assignment := planned_assignment registration req version now resolved
          (assignmentProvenanceFromBuild build (apr_ApprovedBuildRef req)) in
    sv_ManagementSign s = Some signer ∧ sv_Artifacts s = Some artifacts ∧
    decode_assignmentPlanRequest body = Ok req ∧
    (m_registrations x.1 !! trim_space (apr_KLIQID req) = Some registration ∧
     ensureKLIQRegistrationActive registration = Ok tt ∧
     may p KLIQManageRoles (kliqRegistrationScope registration)) ∧
    (signed_build artifacts signer (apr_ApprovedBuildRef req) build ∧
     approved_for build registration ∧ sources_pinned build ∧
     trim_space (pr_Commit (sp_PolicyRepo (pbm_Spec build))) = trim_space (apr_SourceCommit req)) ∧
    (apr_Artifacts req ≠ [] ∧
     Forall (λ requested, build_lists (pbm_Spec build) (trim_space (aa_ArtifactType requested))
                            (requested_ref requested)) (apr_Artifacts req) ∧
     Forall2 (resolved_as artifacts signer (apr_SourceCommit req)) (apr_Artifacts req) resolved) ∧
    ((∀ old, m_assignments x.1 !! reg_KLIQID registration = Some old → ar_Version old < version) ∧
     m_assignments x'.1 !! reg_KLIQID registration =
       Some {| ar_Version := version; ar_Envelope := envelope;
               ar_RevokedAt := 0; ar_RevokedReason := "" |}) ∧
    (∃ signed payload, signed_form assignment signed ∧ encode_KLIQAssignment signed = Ok payload ∧
       signs signer payload {| md_KeyID := ""; md_SourceCommit := apr_SourceCommit req;
         md_PolicyID := ""; md_ExpiresAt := Some (apr_ExpiresAt req) |} envelope) ∧
    resp = writeJSON 201 (BEnvelope envelope).
Proof.
  intros H Hr. unfold planKLIQAssignment in H. answered H Hr 201.
  pose proof (wc_store _ _ WC _ Ho) as ->. cbn [mg_Registration mg_NextAssignmentVersion
    mg_SaveAuditEvent memory_store] in *.
  rename a0 into signer, a1 into artifacts, a2 into req, a3 into registration, a7 into build,
    a8 into resolved, a9 into version, a10 into now, a11 into envelope.
  run_all. apply find_in_Ok in Hr1 as [Hreg ->].
(* until it is saved, the store is as it was *)
  pose proof (preserves_run _ _ _ _ _ (validateApprovedBuild_keeps _ _ WC eq _ _ _ _ Ho1 Ho0) Hr5) as H5.
  pose proof (preserves_run _ _ _ _ _ (resolveAssignmentArtifacts_keeps _ _ WC eq _ _ _ Ho1 Ho0) Hr6) as H6.
  pose proof (preserves_run _ _ _ _ _ (Now_same eq) Hr8) as H8.
  apply gets_Ok in Hr7 as [Hv ->]. unfold on_memory in H5, H6, H8.
  assert (Hx : s8.1 = x.1) by congruence.
  assert (Hx' : m_assignments s10.1 = m_assignments s9.1).
  { refine (preserves_run (on_memory same_assignments) _ _ _ _ _ Hr10).
    apply preserves_ignore. by apply appendAudit_any; [apply _|]. }
  apply signAndStore_sound in Hr9 as (Hreq & Hsigned & Hst & Hnew); [|done|].
  2: by rewrite Hv, <- H8.
  apply validateApprovedBuild_sound in Hr5 as (Hb & Hap & Hpin & Hcommit & Hlist).
  unfold resolveAssignmentArtifacts in Hr6. eapply io_fold_app_Forall2 in Hr6 as (l & -> & Hres);
    [|apply resolveArtifact_sound].
  destruct a4, a5. apply Authorize_iff in Hr3. simpl in Hst, Hnew. rewrite Hx in Hnew.
  rewrite <- Hx' in Hst. str_eqs.
  exists signer, artifacts, req, registration, build, l, version, now, envelope.
  split_and!; try done. by destruct (apr_Artifacts req).
Qed.

(** ** Approving *)

(** What a build needs to be approved. *)
Definition reviewable (build : PolicyBuildManifest) : Prop :=
  trim_space (apv_Status (pbm_Approval build)) = "pending_review" ∧
  blank (mm_ID (pbm_Metadata build)) = false ∧
  blank (mm_CreatedBy (pbm_Metadata build)) = false ∧
  blank (pr_Commit (sp_PolicyRepo (pbm_Spec build))) = false ∧
  sources_pinned build ∧
  sp_SignedOutputs (pbm_Spec build) ≠ ∅ ∧
  map_Forall (λ artifactType signed, blank artifactType = false ∧ completeSignedOutput signed = true)
    (sp_SignedOutputs (pbm_Spec build)).

Lemma validateBuildManifestApprovalReadiness_Ok build :
  trim_space (apv_Status (pbm_Approval build)) = "pending_review" →
  validateBuildManifestApprovalReadiness build = Ok tt → reviewable build.
Proof.
  unfold validateBuildManifestApprovalReadiness, reviewable. cbv zeta. intros Hst H. passes H.
  apply bind_Ok in H as ([] & Hpin & H). apply bind_Ok in H as ([] & _ & H). passes H.
  split_and!; try done.
  - by apply validateFederatedSourceDigests_pinned.
  - intros He. by rewrite He in *.
  - intros ty signed Hty. pose proof (proj1 (range_Ok _ _) H ty signed Hty) as E. simpl in E.
    passes E. str_eqs. by split.
Qed.

(** C12. A build manifest that is approved (answer 201) was fetched as a signed,
    pending manifest that is complete; its author is not the caller, who may
    approve for the environment and stage of the request; what is answered is the
    same manifest with the caller's approval for the scope of the request, and the
    signer's envelope of it is what was put in the artifact store. *)
Theorem approvePolicyBuildManifest_sound ctx body (p : Principal) (x : F) resp x' :
  approvePolicyBuildManifest (Now (W:=W)) s ctx body p x = (Ok resp, x') → resp_Code resp = 201 →
  ∃ signer artifacts req build now ref payload envelope bytes md,
    let environment := trim_space (bar_Environment req) in
    let stage := trim_space (bar_Stage req) in
    sv_ManagementSign s = Some signer ∧ sv_Artifacts s = Some artifacts ∧
    decode_buildApprovalRequest body = Ok req ∧
    may p PolicyBuildApproveRoles (env_stage environment stage) ∧
    (signed_build artifacts signer (bar_BuildRef req) build ∧ reviewable build ∧
     samePrincipal (mm_CreatedBy (pbm_Metadata build)) (p_Subject p) = false) ∧
    (∃ approval, resp = writeJSON 201 (BApproval ref (with_approval approval build)) ∧
       encode_PolicyBuildManifest (with_approval approval build) = Ok payload ∧
       apv_Status approval = "approved" ∧ apv_ApprovedBy approval = p_Subject p ∧
       apv_ApprovedAt approval = now ∧ now ≠ 0 ∧ apv_Environment approval = environment ∧
       apv_Stage approval = stage ∧ apv_Scope approval = trim_space (bar_Scope req)) ∧
    (signs signer payload md envelope ∧ encode_SignedEnvelope envelope = Ok bytes ∧
     ∃ metadata st st', store_Put {| a_Metadata := metadata; a_Payload := bytes |} st = (Ok ref, st')).
Proof.
  intros H Hr. unfold approvePolicyBuildManifest in H. answered H Hr 201.
  rename a0 into signer, a into artifacts, a1 into req, a5 into build, a7 into now,
    a8 into payload, a9 into envelope, a10 into bytes, a11 into ref.
  run_all. simplify_eq. str_eqs. destruct a2, a6.
  apply verifyApprovedBuild_payload in Hr3 as (signed & Hdec & Hacc & ->).
  match goal with Hs : sg_Sign _ _ ?md _ = _ |- _ =>
    exists signer, artifacts, req, build, now, ref, payload, envelope, bytes, md end.
  split_and!; try done.
  - by apply Authorize_iff in Hr1.
  - eexists _, signed. split_and!; try done. by do 2 eexists.
  - by apply validateBuildManifestApprovalReadiness_Ok.
  - eexists. split_and!; try done. by eapply Now_nonzero.
  - by do 2 eexists.
  - by do 3 eexists.
Qed.
End forge.
