(* ===== verification/ForgeKLIQ.v ===== *)
(** * What Forge assigns, its KLIQ verifies

    The two halves together: an assignment that Forge plans and signs, sent as
    JSON and verified by the KLIQ it is for.  The envelope of an artifact is
    embedded in the assignment as a [json.RawMessage], which [json.Marshal]
    compacts: the KLIQ accepts exactly the artifacts whose bytes are compact. *)

From stdpp Require Import options.
From stdpp Require Import gmap.
From S2P Require Import Jobs Prelude IO GoStrings GoTime GoDuration GoJson GoEncoding Signing.
From S2P Require Import Domain Artifacts BundleSource Authn Authz Management BuildManifest.
From S2P Require Import ArtifactStore ForgeTypes ForgeAPI ManagementMemory ManagementMemoryProofs.
From S2P Require Import ForgeProofs ForgePlan.
#[local] Open Scope Z_scope.

Set Default Proof Using "Type*".

(** An artifact and an assignment after a JSON round trip: what was embedded
    comes back compacted. *)
Definition received_artifact (a : KLIQAssignedArtifact) : KLIQAssignedArtifact := {|
  aa_ArtifactType := aa_ArtifactType a; aa_ArtifactID := aa_ArtifactID a;
  aa_ArtifactRef := aa_ArtifactRef a; aa_SHA256 := aa_SHA256 a;
  aa_Envelope := compact (aa_Envelope a) |}.
Definition received (a : KLIQAssignment) : KLIQAssignment :=
  with_artifacts (received_artifact <$> asg_Artifacts a) a.

(** ** The two checks of a payload type *)

Lemma payload_type_checks_agree `{GoRuntime} `{JSONDecoders} artifactType payload :
  trim_space artifactType = artifactType →
  validateAssignmentArtifactPayloadType artifactType payload = Ok tt →
  validateAssignedArtifactPayloadType artifactType payload = Ok tt.
Proof.
  intros Ht. unfold validateAssignmentArtifactPayloadType, validateAssignedArtifactPayloadType.
  intros Hv. apply bind_Ok in Hv as (header & Hh & Hv). apply replace_err_Ok in Hh.
  rewrite Hh. simpl. unfold expectedAssignmentArtifactKind in Hv. rewrite Ht in Hv.
  destruct (_ && _); [done|]. by destruct (_ && _).
Qed.

(** ** Artifacts of the assignment *)

Section kliq.
Context {GR : GoRuntime} {UF : UnicodeFold} {ED : Ed25519} {JD : JSONDecoders} {KD : KeyDecoders}.
Context {W V : Type}.
  Abbreviation F := (MemoryStore * W)%type.
Context (artifacts : ArtifactStore F) (signer : Signer F) (verifier : Verifier V).

(** The envelope of an artifact, if Forge's verifier accepts it, the KLIQ's finds
    valid; and its commit has no blanks around it. *)
Definition agrees_on (a : KLIQAssignedArtifact) : Prop := ∀ envelope,
  decode_SignedEnvelope (aa_Envelope a) = Ok envelope → accepts signer envelope →
  (∀ v, ∃ r v', verifier envelope v = (Ok r, v') ∧ vr_Valid r = true) ∧
  trim_space (env_SourceCommit envelope) = env_SourceCommit envelope.

Lemma artifact_verifies assignment requested a v :
  resolved_as artifacts signer (asg_SourceCommit assignment) requested a →
  trim_space (asg_SourceCommit assignment) = asg_SourceCommit assignment →
  trim_space (aa_ArtifactType requested) = aa_ArtifactType requested →
  compact (aa_Envelope a) = aa_Envelope a → agrees_on a →
  ∃ r v', verifyAssignedArtifactEnvelope assignment (received_artifact a) verifier v = (Ok r, v').
Proof.
  intros (Ht & _ & _ & _ & _ & Hs & envelope & Hd & Hk & Ha & Hp & Hc) Hcommit Htype Hcompact Hag.
  destruct (Hag envelope Hd Ha) as [Hv Htrim]. destruct (Hv v) as (r & v' & Hr & Hvalid).
  unfold verifyAssignedArtifactEnvelope. simpl. rewrite Hs, Hcompact, Hd. simpl.
  rewrite io_bind_run. simpl. rewrite Hk. simpl. rewrite io_bind_run, Hr, Hvalid. simpl.
  rewrite Htrim, Hcommit in Hc. rewrite Hc, String.eqb_refl, andb_false_r.
  rewrite Ht, Htype, (payload_type_checks_agree _ _ Htype Hp). by do 2 eexists.
Qed.

Lemma artifacts_verify assignment requested resolved v :
  Forall2 (resolved_as artifacts signer (asg_SourceCommit assignment)) requested resolved →
  trim_space (asg_SourceCommit assignment) = asg_SourceCommit assignment →
  Forall (λ r, trim_space (aa_ArtifactType r) = aa_ArtifactType r ∧
               aa_ArtifactType r ≠ "trust_bundle") requested →
  Forall (λ a, compact (aa_Envelope a) = aa_Envelope a) resolved → Forall agrees_on resolved →
  asg_Artifacts assignment = received_artifact <$> resolved →
  ∃ v', verifyAssignedArtifacts verifier assignment v = (Ok tt, v').
Proof.
  intros Hres Hcommit Htypes Hcompact Hag Hart. unfold verifyAssignedArtifacts. rewrite Hart.
  assert (Hty : Forall (λ a, aa_ArtifactType a ≠ "trust_bundle") resolved).
  { clear Hart Hcompact Hag. induction Hres as [|r a rs l (Ht & _) _ IH]; [done|].
    inv Htypes. destruct_and?. constructor; [congruence|by apply IH]. }
  assert (Hnone : io_fold (trustBundleStep assignment verifier) (verifier, "")
      (received_artifact <$> resolved) v = (Ok (verifier, ""), v)).
  { clear - Hty. induction Hty as [|a l Ha _ IH]; [done|]. simpl.
    rewrite io_bind_run. unfold trustBundleStep. simpl.
    by rewrite (proj2 (String.eqb_neq _ _) Ha). }
  rewrite io_bind_run, Hnone. clear Hart Hnone. revert v.
  induction Hres as [|r a rs l Ha Hres IH]; intros v; [by eexists|].
  inv Hcompact. inv Htypes. inv Hty. inv Hag. destruct_and?.
  simpl. rewrite io_bind_run. unfold artifactStep at 1. simpl.
  rewrite (proj2 (String.eqb_neq _ _)) by done. rewrite io_bind_run.
  destruct (artifact_verifies assignment r a v) as (x & v' & Hx); try done.
  unfold attempt. rewrite Hx. simpl. by apply IH.
Qed.
End kliq.

(** ** From Forge's signer to the KLIQ's source *)

Section exchange.
Context {GR : GoRuntime} {UF : UnicodeFold} {ED : Ed25519} {JD : JSONDecoders} {KD : KeyDecoders}.
Context {TC : TokenCodecs} {MD : ManagementDecoders} {IM : IdentityMaterial} {JS : JSONSyntax}.
Context {JC : JobCodecs}.
Context {W V : Type} {FW : ForgeWorld W}.
  Abbreviation F := (MemoryStore * W)%type.
Context (rand_Read : io F string) (s : Server F) (WC : well_configured rand_Read s).

(** Forge signs with a key pair, and the KLIQ's source is configured for the
    registration and that key. *)
Record peers (signer : Signer F) (key : DevLocalSigner) (registration : KLIQRegistration)
    (src : ManagedAssignmentSource V) : Prop := {
  pe_signs payload md st e st' : sg_Sign signer payload md st = (Ok e, st') →
    ∃ t, Sign key t payload md = Ok e;
  pe_public : dls_PublicKey key = ed25519_public (dls_PrivateKey key);
  pe_length : String.length (dls_PublicKey key) = 32%nat;
  pe_key : dls_KeyID key = id_TrustKeyID (reg_Identity registration);
  pe_kliq : mas_KLIQID src = reg_KLIQID registration;
  pe_environment : mas_Environment src = reg_Environment registration;
  pe_stage : mas_Stage src = reg_Stage registration;
  pe_scope : mas_Scope src = reg_Scope registration;
  pe_trust_key : mas_TrustKeyID src = id_TrustKeyID (reg_Identity registration);
  pe_bundle : tb_KeyID (mas_TrustBundle src) = "";
}.

(** The public half of a key, and a verifier that reads the clock before a
    deadline. *)
Definition public_half (key : DevLocalSigner) : DevLocalSigner :=
  {| dls_KeyID := dls_KeyID key; dls_PrivateKey := ""; dls_PublicKey := dls_PublicKey key |}.
Definition verifies_before (deadline : time) (key : DevLocalSigner) (verifier : Verifier V)
    (e : SignedEnvelope) : Prop :=
  ∀ v, ∃ t1 t2 v', verifier e v = (Ok (Verify (public_half key) t1 t2 e), v') ∧
    t1 ≠ 0 ∧ t1 < deadline ∧ t2 < deadline.

Lemma Sign_Verify_public key t payload md e t1 t2 deadline :
  dls_PublicKey key = ed25519_public (dls_PrivateKey key) →
  String.length (dls_PublicKey key) = 32%nat →
  Sign key t payload md = Ok e → md_ExpiresAt md = Some deadline → t2 < deadline →
  let r := Verify (public_half key) t1 t2 e in
  env_Payload e = payload ∧ vr_Valid r = true ∧ vr_KeyID r = dls_KeyID key ∧ vr_VerifiedAt r = t1.
Proof.
  intros Hpub Hlen HS Hexp Ht. cbv zeta.
  destruct (Sign_Verify key t payload md e t1 t2 Hpub Hlen HS) as (Hp & _ & Hv).
  { intros t' Ht'. rewrite Hexp in Ht'. by simplify_eq. }
  apply Verify_valid in Hv. assert (Hv' : envelope_authentic (public_half key) t2 e) by exact Hv.
  apply (Verify_valid (public_half key) t1 t2 e) in Hv'.
  destruct (Verify_fields (public_half key) t1 t2 e) as (-> & _ & ->).
  destruct Hv as (_ & _ & -> & _). done.
Qed.

Lemma with_digest_resolved {artifacts : ArtifactStore F} signer commit requested resolved :
  Forall2 (resolved_as artifacts signer commit) requested resolved →
  with_digest <$> resolved = resolved.
Proof.
  induction 1 as [|r a rs l Ha _ IH]; [done|]. rewrite fmap_cons, IH. f_equal.
  destruct Ha as (_ & _ & _ & _ & Hd & _). unfold with_digest. by rewrite Hd.
Qed.

Lemma blank_ne a : blank a = false → a ≠ "".
Proof. intros H ->. vm_compute in H. done. Qed.

(** What [validateAssignmentRequest] checked. *)
Lemma validateAssignmentRequest_Ok a :
  validateAssignmentRequest a = Ok tt →
  asg_AssignmentID a ≠ "" ∧ 0 < asg_AssignmentVersion a ∧ asg_SourceCommit a ≠ "" ∧
  asg_TrustKeyID a ≠ "" ∧ asg_TrustBundleRef a ≠ "" ∧ asg_ExpiresAt a ≠ 0.
Proof.
  unfold validateAssignmentRequest. intros H. passes H.
  repeat match goal with H : blank _ = false |- _ => apply blank_ne in H end.
  unfold IsZero in *. rewrite Z.leb_gt, Z.eqb_neq in *. done.
Qed.

(** The digests of the artifacts, after the round trip. *)
Lemma received_digests a :
  ValidateAssignedArtifactDigests a = Ok tt →
  Forall (λ x, compact (aa_Envelope x) = aa_Envelope x) (asg_Artifacts a) →
  ValidateAssignedArtifactDigests (with_SignatureValid (received a)) = Ok tt.
Proof.
  unfold ValidateAssignedArtifactDigests. rewrite !for_each_Ok. simpl. intros Hv Hc.
  rewrite Forall_fmap, !Forall_forall in *. intros x Hx. specialize (Hv x Hx). simpl in *.
  rewrite (Hc x Hx). exact Hv.
Qed.

Lemma received_digests_inv a :
  ValidateAssignedArtifactDigests a = Ok tt →
  ValidateAssignedArtifactDigests (with_SignatureValid (received a)) = Ok tt →
  Forall (λ x, compact (aa_Envelope x) = aa_Envelope x ∨
               collide (compact (aa_Envelope x)) (aa_Envelope x)) (asg_Artifacts a).
Proof.
  intros Ha Hb. apply Forall_forall. intros x Hx.
  pose proof (ValidateDigests_elem _ _ Ha Hx) as H1.
  assert (H2 : received_artifact x ∈ asg_Artifacts (with_SignatureValid (received a))) by
    by apply list_elem_of_fmap_2.
  pose proof (ValidateDigests_elem _ _ Hb H2) as H3. simpl in H3. rewrite H1 in H3.
  symmetry in H3. by apply app_str_inj_l, sha256_hex_inj in H3.
Qed.

(** The verification of an assignment, from its digests on. *)
Lemma verifyAssignment_decoded clock (src : ManagedAssignmentSource V) (verifier : Verifier V) e v r v1 a :
  verifier e v = (Ok r, v1) → vr_Valid r = true →
  decode_stream_KLIQAssignment (env_Payload e) = Ok a → asg_TrustKeyID a = vr_KeyID r →
  tb_KeyID (mas_TrustBundle src) = "" → vr_VerifiedAt r ≠ 0 →
  verifyAssignment clock src verifier e v =
  (_ ← lift (ValidateAssignedArtifactDigests (with_SignatureValid a));
   _ ← verifyAssignedArtifacts verifier (with_SignatureValid a);
   _ ← lift (ValidateKLIQAssignmentActivation 0 (with_SignatureValid a) {|
         ctx_KLIQID := mas_KLIQID src; ctx_Environment := mas_Environment src;
         ctx_Stage := mas_Stage src; ctx_Scope := mas_Scope src;
         ctx_TrustKeyID := mas_TrustKeyID src; ctx_AssignmentDigest := vr_PayloadSHA256 r;
         ctx_Now := vr_VerifiedAt r;
         ctx_ActiveAssignmentVersion := mas_ActiveAssignmentVersion src;
         ctx_ActiveAssignmentDigest := mas_ActiveAssignmentDigest src |});
   mret (with_SignatureValid a)) v1.
Proof.
  intros Hv Hvalid Hd Hkey Hb Hat. unfold verifyAssignment.
  rewrite io_bind_run, Hv, Hvalid. cbn [negb]. rewrite io_bind_run, Hd. unfold lift at 1.
  rewrite Hkey, String.eqb_refl, andb_false_r. rewrite io_bind_run.
  unfold validateTrustBundle at 1. rewrite Hb. unfold lift at 1. cbn [String.eqb].
  rewrite (proj2 (Z.eqb_neq _ _) Hat : IsZero _ = false). reflexivity.
Qed.

Section planned.
Context (ctx : AuditContext) (registration : KLIQRegistration) (req : assignmentPlanRequest).
Context (version : Z) (now : time) (resolved : list KLIQAssignedArtifact).
Context (provenance : option AssignmentProvenance).
  Abbreviation assignment := (planned_assignment registration req version now resolved provenance).
Context (signer : Signer F) (artifacts : ArtifactStore F) (key : DevLocalSigner).
Context (src : ManagedAssignmentSource V) (verifier : Verifier V) (clock : io V time).

(** What was planned activates at a KLIQ configured for its registration. *)
Lemma planned_activates digest l t1 activeDigest activeVersion a :
    peers signer key registration src →
    validateAssignmentRequest assignment = Ok tt →
    a = with_manifest digest (with_artifacts l assignment) →
    activeVersion < version → t1 ≠ 0 → t1 < apr_ExpiresAt req →
    ValidateKLIQAssignmentActivation 0 (with_SignatureValid (received a)) {|
    ctx_KLIQID := mas_KLIQID src; ctx_Environment := mas_Environment src;
  ctx_Stage := mas_Stage src; ctx_Scope := mas_Scope src;
  ctx_TrustKeyID := mas_TrustKeyID src; ctx_AssignmentDigest := activeDigest;
  ctx_Now := t1; ctx_ActiveAssignmentVersion := activeVersion;
  ctx_ActiveAssignmentDigest := mas_ActiveAssignmentDigest src |} = Ok tt.
Proof.
  intros HP (Hid & Hpos & Hc & Hk & Hb & Hexp)%validateAssignmentRequest_Ok -> Hact Ht1 Hlt.
  apply ValidateActivation_iff. split; [|by left].
  unfold assignment_admissible. simpl in *. unfold IsZero.
  rewrite (pe_kliq _ _ _ _ HP), (pe_environment _ _ _ _ HP), (pe_stage _ _ _ _ HP),
    (pe_scope _ _ _ _ HP), (pe_trust_key _ _ _ _ HP), (proj2 (Z.eqb_neq _ _) Ht1).
  split_and!; try done. by left.
Qed.

(** C10. From Forge to the KLIQ.  An assignment is planned for a registration, signed
    with Forge's key and stored; its KLIQ, configured for that registration and
    key, verifies the envelope before it expires, with no version active newer
    than what Forge had published.  If the bytes of every artifact are compact
    JSON, the KLIQ accepts the assignment that was signed.  If it accepts any, the
    bytes of every artifact were compact (or SHA-256 collides): an artifact stored
    with indentation or a final line end, as the compiler writes its envelopes, is
    assigned by Forge and refused by the KLIQ.  (The hypothesis on the decoder is
    what [encoding/json] documents of a round trip.) *)
Theorem planned_assignment_verifies (x y : F) e x' y' v :
    sv_ManagementSign s = Some signer →
    resolveAssignmentArtifacts artifacts signer req y = (Ok resolved, y') →
NextAssignmentVersion (reg_KLIQID registration) x = (Ok version, x) →
    signAndStoreAssignment memory_store signer ctx assignment x = (Ok e, x') →
    peers signer key registration src →
    Forall (agrees_on signer verifier) resolved →
    verifies_before (apr_ExpiresAt req) key verifier e →
    mas_ActiveAssignmentVersion src ≤
    default 0 (ar_Version <$> m_assignments x.1 !! reg_KLIQID registration) →
    trim_space (apr_SourceCommit req) = apr_SourceCommit req →
    Forall (λ r, trim_space (aa_ArtifactType r) = aa_ArtifactType r ∧
               aa_ArtifactType r ≠ "trust_bundle") (apr_Artifacts req) →
    (∀ signed, signed_form assignment signed → encode_KLIQAssignment signed = Ok (env_Payload e) →
     decode_stream_KLIQAssignment (env_Payload e) = Ok (received signed)) →
    (Forall (λ a, compact (aa_Envelope a) = aa_Envelope a) resolved →
    ∃ signed v', signed_form assignment signed ∧
     verifyAssignment clock src verifier e v = (Ok (with_SignatureValid (received signed)), v')) ∧
    (∀ a v', verifyAssignment clock src verifier e v = (Ok a, v') →
    Forall (λ a, compact (aa_Envelope a) = aa_Envelope a ∨
                collide (compact (aa_Envelope a)) (aa_Envelope a)) resolved).
Proof.
  intros Hs Hres Hnext Hsign HP Hag Hbefore Hactive Hcommit Hreq Hdecode.
  unfold resolveAssignmentArtifacts in Hres.
  eapply (io_fold_app_Forall2 rand_Read s WC) in Hres as (l & Hl & Hres); [|intros ? ? ? ?; apply (resolveArtifact_sound rand_Read s WC)].
  simpl in Hl. subst l. apply gets_Ok in Hnext as [Hversion _].
  apply (signAndStore_sound rand_Read s WC) in Hsign as (Hvalid & (signed & payload & Hform & Henc & st & st' & HS) & _ & Hnew);
  [|done..].
  destruct (pe_signs _ _ _ _ HP _ _ _ _ _ HS) as [t HS'].
  destruct (Hbefore v) as (t1 & t2 & v1 & Hv1 & Ht1 & Hlt1 & Hlt2).
  destruct (Sign_Verify_public key _ _ _ _ t1 t2 (apr_ExpiresAt req) (pe_public _ _ _ _ HP)
    (pe_length _ _ _ _ HP) HS' eq_refl Hlt2) as (Hpay & Hvr & Hkid & Hat).
  subst payload. pose proof (Hdecode _ Hform Henc) as Hd. destruct Hform as (manifest & Hdig & Hm & ->).
  set (a := with_manifest _ _) in *.
  assert (Hart : asg_Artifacts a = resolved).
  { exact (with_digest_resolved _ _ _ _ Hres). }
    rewrite (verifyAssignment_decoded _ _ _ _ _ _ _ _ Hv1 Hvr Hd);
  [|by rewrite Hkid, (pe_key _ _ _ _ HP)|apply HP|by rewrite Hat]. rewrite Hat.
  assert (Hdig' : ValidateAssignedArtifactDigests a = Ok tt) by exact Hdig.
  split.
  - intros Hcompact. exists a.
  assert (Hrec : ValidateAssignedArtifactDigests (with_SignatureValid (received a)) = Ok tt).
  { apply received_digests; [done|by rewrite Hart]. }
    destruct (artifacts_verify artifacts signer verifier (with_SignatureValid (received a))
                (apr_Artifacts req) resolved v1) as [v' Hva]; try done; [by rewrite <- Hart|].
  exists v'. split; [by exists manifest|].
  rewrite io_bind_run, Hrec. unfold lift at 1. rewrite io_bind_run, Hva, io_bind_run.
  unfold lift. erewrite planned_activates; [done|done|exact Hvalid|done| |done..].
  rewrite Hversion. simpl in Hnew. destruct (m_assignments x.1 !! _) as [old|] eqn:Ho; simpl in *.
  + specialize (Hnew _ eq_refl). lia.
  + lia.
  - intros b v' H. apply io_bind_Ok in H as ([] & v2 & [Hrec _]%lift_Ok & _).
  rewrite <- Hart. by apply received_digests_inv.
Qed.
End planned.
End exchange.
