(* ===== verification/StateTypes.v ===== *)
(** * State a KLIQ keeps ([internal/kliq/actionstate/types.go])

    The records of the state store.  The Go structs and the rows SQLite keeps
    differ in two columns types only: a time is stored as RFC 3339 text, a
    bool as an integer.  Each record is therefore declared once over the type
    of its times (and booleans): [BundleRecord] is the Go struct,
    [BundleRecordRow] the row, and [bun_retime] changes the times. *)

From stdpp Require Import options.
From S2P Require Import Prelude GoStrings GoTime Domain.
#[local] Open Scope Z_scope.

Definition ErrNotFound : error := Sentinel "kliq state record not found".

Record BundleRecordOf {T : Type} := {
  bun_BundleID : string;
  bun_PolicyID : string;
  bun_SourceCommit : string;
  bun_CorrelationID : string;
  bun_KeyID : string;
  bun_PayloadSHA256 : string;
  bun_BundleSource : string;
  bun_EnvelopeJSON : string;
  bun_ExpiresAt : T;
  bun_VerifiedAt : T;
}.
Arguments BundleRecordOf T : clear implicits.
Abbreviation BundleRecord := (BundleRecordOf time).
Abbreviation BundleRecordRow := (BundleRecordOf string).
Definition bun_retime {T U : Type} (r : BundleRecordOf T) (expiresAt : U) (verifiedAt : U)
    : BundleRecordOf U := {|
  bun_BundleID := bun_BundleID r;
  bun_PolicyID := bun_PolicyID r;
  bun_SourceCommit := bun_SourceCommit r;
  bun_CorrelationID := bun_CorrelationID r;
  bun_KeyID := bun_KeyID r;
  bun_PayloadSHA256 := bun_PayloadSHA256 r;
  bun_BundleSource := bun_BundleSource r;
  bun_EnvelopeJSON := bun_EnvelopeJSON r;
  bun_ExpiresAt := expiresAt;
  bun_VerifiedAt := verifiedAt;
|}.

Record AssignmentArtifactRecordOf {T : Type} := {
  aar_KLIQID : string;
  aar_AssignmentID : string;
  aar_AssignmentVersion : Z;
  aar_ArtifactType : string;
  aar_ArtifactID : string;
  aar_ArtifactRef : string;
  aar_SHA256 : string;
  aar_EnvelopeJSON : string;
  aar_ActivationStatus : string;
  aar_ActivationMessage : string;
  aar_ActivatedAt : T;
}.
Arguments AssignmentArtifactRecordOf T : clear implicits.
Abbreviation AssignmentArtifactRecord := (AssignmentArtifactRecordOf time).
Abbreviation AssignmentArtifactRecordRow := (AssignmentArtifactRecordOf string).
Definition aar_retime {T U : Type} (r : AssignmentArtifactRecordOf T) (activatedAt : U)
    : AssignmentArtifactRecordOf U := {|
  aar_KLIQID := aar_KLIQID r;
  aar_AssignmentID := aar_AssignmentID r;
  aar_AssignmentVersion := aar_AssignmentVersion r;
  aar_ArtifactType := aar_ArtifactType r;
  aar_ArtifactID := aar_ArtifactID r;
  aar_ArtifactRef := aar_ArtifactRef r;
  aar_SHA256 := aar_SHA256 r;
  aar_EnvelopeJSON := aar_EnvelopeJSON r;
  aar_ActivationStatus := aar_ActivationStatus r;
  aar_ActivationMessage := aar_ActivationMessage r;
  aar_ActivatedAt := activatedAt;
|}.

Record ActiveArtifactRecordOf {T : Type} := {
  act_KLIQID : string;
  act_ArtifactType : string;
  act_ArtifactID : string;
  act_SHA256 : string;
  act_PayloadJSON : string;
  act_ActivatedAt : T;
}.
Arguments ActiveArtifactRecordOf T : clear implicits.
Abbreviation ActiveArtifactRecord := (ActiveArtifactRecordOf time).
Abbreviation ActiveArtifactRecordRow := (ActiveArtifactRecordOf string).
Definition act_retime {T U : Type} (r : ActiveArtifactRecordOf T) (activatedAt : U)
    : ActiveArtifactRecordOf U := {|
  act_KLIQID := act_KLIQID r;
  act_ArtifactType := act_ArtifactType r;
  act_ArtifactID := act_ArtifactID r;
  act_SHA256 := act_SHA256 r;
  act_PayloadJSON := act_PayloadJSON r;
  act_ActivatedAt := activatedAt;
|}.

Record KLIQManagementStateOf {T : Type} := {
  ms_KLIQID : string;
  ms_ActiveAssignmentID : string;
  ms_ActiveAssignmentVersion : Z;
  ms_ActiveAssignmentSourceCommit : string;
  ms_ActiveAssignmentDigest : string;
  ms_ActiveAssignmentExpiresAt : T;
  ms_ActiveAssignmentActivatedAt : T;
}.
Arguments KLIQManagementStateOf T : clear implicits.
Abbreviation KLIQManagementState := (KLIQManagementStateOf time).
Abbreviation KLIQManagementStateRow := (KLIQManagementStateOf string).
Definition ms_retime {T U : Type} (r : KLIQManagementStateOf T) (activeAssignmentExpiresAt : U) (activeAssignmentActivatedAt : U)
    : KLIQManagementStateOf U := {|
  ms_KLIQID := ms_KLIQID r;
  ms_ActiveAssignmentID := ms_ActiveAssignmentID r;
  ms_ActiveAssignmentVersion := ms_ActiveAssignmentVersion r;
  ms_ActiveAssignmentSourceCommit := ms_ActiveAssignmentSourceCommit r;
  ms_ActiveAssignmentDigest := ms_ActiveAssignmentDigest r;
  ms_ActiveAssignmentExpiresAt := activeAssignmentExpiresAt;
  ms_ActiveAssignmentActivatedAt := activeAssignmentActivatedAt;
|}.

Record KLIQCredentialOf {T : Type} := {
  cred_KLIQID : string;
  cred_NodeID : string;
  cred_Environment : string;
  cred_Stage : string;
  cred_Scope : string;
  cred_TrustKeyID : string;
  cred_AssignmentURL : string;
  cred_PublicKeyPEM : string;
  cred_PrivateKeyPEM : string;
  cred_ServiceIdentityProvider : string;
  cred_SPIFFEID : string;
  cred_CredentialStatus : string;
  cred_ServiceToken : string;
  cred_ServiceTokenExpiresAt : T;
  cred_CreatedAt : T;
  cred_UpdatedAt : T;
}.
Arguments KLIQCredentialOf T : clear implicits.
Abbreviation KLIQCredential := (KLIQCredentialOf time).
Abbreviation KLIQCredentialRow := (KLIQCredentialOf string).
Definition cred_retime {T U : Type} (r : KLIQCredentialOf T) (serviceTokenExpiresAt : U) (createdAt : U) (updatedAt : U)
    : KLIQCredentialOf U := {|
  cred_KLIQID := cred_KLIQID r;
  cred_NodeID := cred_NodeID r;
  cred_Environment := cred_Environment r;
  cred_Stage := cred_Stage r;
  cred_Scope := cred_Scope r;
  cred_TrustKeyID := cred_TrustKeyID r;
  cred_AssignmentURL := cred_AssignmentURL r;
  cred_PublicKeyPEM := cred_PublicKeyPEM r;
  cred_PrivateKeyPEM := cred_PrivateKeyPEM r;
  cred_ServiceIdentityProvider := cred_ServiceIdentityProvider r;
  cred_SPIFFEID := cred_SPIFFEID r;
  cred_CredentialStatus := cred_CredentialStatus r;
  cred_ServiceToken := cred_ServiceToken r;
  cred_ServiceTokenExpiresAt := serviceTokenExpiresAt;
  cred_CreatedAt := createdAt;
  cred_UpdatedAt := updatedAt;
|}.

Record RuntimeActionLeaseOf {T B : Type} := {
  l_RuntimeActionID : string;
  l_PlanID : string;
  l_DecisionID : string;
  l_PolicyID : string;
  l_BundleID : string;
  l_SourceCommit : string;
  l_CorrelationID : string;
  l_ActionType : string;
  l_TargetScope : string;
  l_TargetKey : string;
  l_TTL : string;
  l_ExpiresAt : T;
  l_Reason : string;
  l_AuditID : string;
  l_CapabilityGrantID : string;
  l_BindingID : string;
  l_BindingDigest : string;
  l_AdapterManifestDigest : string;
  l_ActionDigest : string;
  l_AdapterID : string;
  l_CapabilityID : string;
  l_Mode : string;
  l_Required : B;
  l_IdempotencyKey : string;
  l_CreatedAt : T;
  l_LastReconciledAt : T;
  l_Status : RuntimeActionStatus;
}.
Arguments RuntimeActionLeaseOf T B : clear implicits.
Abbreviation RuntimeActionLease := (RuntimeActionLeaseOf time bool).
Abbreviation RuntimeActionLeaseRow := (RuntimeActionLeaseOf string Z).
Definition l_retime {T U B C : Type} (r : RuntimeActionLeaseOf T B) (expiresAt : U) (required : C) (createdAt : U) (lastReconciledAt : U)
    : RuntimeActionLeaseOf U C := {|
  l_RuntimeActionID := l_RuntimeActionID r;
  l_PlanID := l_PlanID r;
  l_DecisionID := l_DecisionID r;
  l_PolicyID := l_PolicyID r;
  l_BundleID := l_BundleID r;
  l_SourceCommit := l_SourceCommit r;
  l_CorrelationID := l_CorrelationID r;
  l_ActionType := l_ActionType r;
  l_TargetScope := l_TargetScope r;
  l_TargetKey := l_TargetKey r;
  l_TTL := l_TTL r;
  l_ExpiresAt := expiresAt;
  l_Reason := l_Reason r;
  l_AuditID := l_AuditID r;
  l_CapabilityGrantID := l_CapabilityGrantID r;
  l_BindingID := l_BindingID r;
  l_BindingDigest := l_BindingDigest r;
  l_AdapterManifestDigest := l_AdapterManifestDigest r;
  l_ActionDigest := l_ActionDigest r;
  l_AdapterID := l_AdapterID r;
  l_CapabilityID := l_CapabilityID r;
  l_Mode := l_Mode r;
  l_Required := required;
  l_IdempotencyKey := l_IdempotencyKey r;
  l_CreatedAt := createdAt;
  l_LastReconciledAt := lastReconciledAt;
  l_Status := l_Status r;
|}.

Record JournalEntryOf {T : Type} := {
  j_ID : string;
  j_RuntimeActionID : string;
  j_Event : string;
  j_Status : RuntimeActionStatus;
  j_Message : string;
  j_CreatedAt : T;
}.
Arguments JournalEntryOf T : clear implicits.
Abbreviation JournalEntry := (JournalEntryOf time).
Abbreviation JournalEntryRow := (JournalEntryOf string).
Definition j_retime {T U : Type} (r : JournalEntryOf T) (createdAt : U)
    : JournalEntryOf U := {|
  j_ID := j_ID r;
  j_RuntimeActionID := j_RuntimeActionID r;
  j_Event := j_Event r;
  j_Status := j_Status r;
  j_Message := j_Message r;
  j_CreatedAt := createdAt;
|}.

Record AuditRecordOf {T : Type} := {
  au_ID : string;
  au_RuntimeActionID : string;
  au_BindingID : string;
  au_BindingDigest : string;
  au_AdapterManifestDigest : string;
  au_ActionDigest : string;
  au_Status : string;
  au_Payload : string;
  au_PayloadSHA256 : string;
  au_PreviousHash : string;
  au_RecordHash : string;
  au_CreatedAt : T;
  au_RetryCount : Z;
  au_LastAttemptAt : T;
  au_UploadedAt : T;
  au_LastError : string;
}.
Arguments AuditRecordOf T : clear implicits.
Abbreviation AuditRecord := (AuditRecordOf time).
Abbreviation AuditRecordRow := (AuditRecordOf string).
Definition au_retime {T U : Type} (r : AuditRecordOf T) (createdAt : U) (lastAttemptAt : U) (uploadedAt : U)
    : AuditRecordOf U := {|
  au_ID := au_ID r;
  au_RuntimeActionID := au_RuntimeActionID r;
  au_BindingID := au_BindingID r;
  au_BindingDigest := au_BindingDigest r;
  au_AdapterManifestDigest := au_AdapterManifestDigest r;
  au_ActionDigest := au_ActionDigest r;
  au_Status := au_Status r;
  au_Payload := au_Payload r;
  au_PayloadSHA256 := au_PayloadSHA256 r;
  au_PreviousHash := au_PreviousHash r;
  au_RecordHash := au_RecordHash r;
  au_CreatedAt := createdAt;
  au_RetryCount := au_RetryCount r;
  au_LastAttemptAt := lastAttemptAt;
  au_UploadedAt := uploadedAt;
  au_LastError := au_LastError r;
|}.

Record RuntimeDecisionRecordOf {T : Type} := {
  dr_DecisionID : string;
  dr_PlanID : string;
  dr_PolicyID : string;
  dr_BundleID : string;
  dr_SourceCommit : string;
  dr_CorrelationID : string;
  dr_EventType : string;
  dr_EventID : string;
  dr_Status : string;
  dr_PayloadSHA256 : string;
  dr_CreatedAt : T;
  dr_ActivatedAction : string;
}.
Arguments RuntimeDecisionRecordOf T : clear implicits.
Abbreviation RuntimeDecisionRecord := (RuntimeDecisionRecordOf time).
Abbreviation RuntimeDecisionRecordRow := (RuntimeDecisionRecordOf string).
Definition dr_retime {T U : Type} (r : RuntimeDecisionRecordOf T) (createdAt : U)
    : RuntimeDecisionRecordOf U := {|
  dr_DecisionID := dr_DecisionID r;
  dr_PlanID := dr_PlanID r;
  dr_PolicyID := dr_PolicyID r;
  dr_BundleID := dr_BundleID r;
  dr_SourceCommit := dr_SourceCommit r;
  dr_CorrelationID := dr_CorrelationID r;
  dr_EventType := dr_EventType r;
  dr_EventID := dr_EventID r;
  dr_Status := dr_Status r;
  dr_PayloadSHA256 := dr_PayloadSHA256 r;
  dr_CreatedAt := createdAt;
  dr_ActivatedAction := dr_ActivatedAction r;
|}.

(** ** Times and booleans as text and integers ([sqlite.go]) *)

Definition formatTime (value : time) : string := rfc3339nano value.

Definition formatOptionalTime (value : time) : string :=
  if IsZero value then "" else formatTime value.

Definition parseTime (value : string) : result time :=
  match parse_rfc3339 value with
  | Some t => Ok t
  | None => Err (Errorf "parsing time %q" [AStr value])
  end.

Definition parseOptionalTime (value : string) : result time :=
  if empty_str value then Ok 0 else parseTime value.

Definition boolInt (value : bool) : Z := if value then 1 else 0.

Lemma parse_format t : time_ok t → parseTime (formatTime t) = Ok t.
Proof. intros H. unfold parseTime, formatTime. by rewrite rfc3339_round_trip. Qed.

Lemma parse_format_optional t :
  time_ok t → parseOptionalTime (formatOptionalTime t) = Ok t.
Proof.
  intros H. unfold parseOptionalTime, formatOptionalTime, IsZero.
  destruct (Z.eqb_spec t 0) as [->|]; [done|].
  destruct (String.eqb_spec (formatTime t) ""); [|by apply parse_format].
  pose proof (parse_format t H) as Hp. rewrite e in Hp. vm_compute in Hp. discriminate Hp.
Qed.

(** ** Required fields

    The validators range over a map from field names to values. *)
Section required.
Context {GR : GoRuntime}.

Definition require (missing : string → error) (fields : list (string * string)) : result unit :=
  for_each (λ fv, reject empty_str fv.2 with missing fv.1;; Ok tt) (map_order fields).

Lemma require_Ok missing fields :
  require missing fields = Ok tt ↔ Forall (λ fv, fv.2 ≠ "") fields.
Proof.
  unfold require. rewrite for_each_Ok, map_order_Forall.
  apply Forall_proper; [|done]. intros [f v]. simpl.
  destruct (String.eqb_spec v ""); naive_solver.
Qed.

Lemma require_Err missing fields e :
  require missing fields = Err e → ∃ f, (f, "") ∈ fields ∧ e = missing f.
Proof.
  unfold require. intros (l1 & [f v] & l2 & Hl & _ & Hx)%for_each_Err.
  exists f. simpl in Hx. destruct (String.eqb_spec v "") as [->|]; [|done].
  injection Hx as <-. split; [|done]. apply map_order_elem. rewrite Hl. set_solver.
Qed.
End required.

(** ** Leases ([types.go]) *)

Record RuntimeActionSelector := {
  sel_RuntimeActionID : string;
  sel_IdempotencyKey : string;
  sel_AdapterID : string;
  sel_CapabilityID : string;
  sel_ActionType : string;
  sel_TargetScope : string;
  sel_TargetKey : string;
}.

Definition Selector (lease : RuntimeActionLease) : RuntimeActionSelector := {|
  sel_RuntimeActionID := l_RuntimeActionID lease;
  sel_IdempotencyKey := l_IdempotencyKey lease;
  sel_AdapterID := l_AdapterID lease;
  sel_CapabilityID := l_CapabilityID lease;
  sel_ActionType := l_ActionType lease;
  sel_TargetScope := l_TargetScope lease;
  sel_TargetKey := l_TargetKey lease;
|}.

Definition Selector_Valid (selector : RuntimeActionSelector) : bool :=
  (sel_RuntimeActionID selector !=s "") &&
  (sel_IdempotencyKey selector !=s "") &&
  (sel_AdapterID selector !=s "") &&
  (sel_CapabilityID selector !=s "") &&
  (sel_ActionType selector !=s "") &&
  (sel_TargetScope selector !=s "") &&
  (sel_TargetKey selector !=s "").

Section leases.
Context {GR : GoRuntime}.

Definition lease_required (lease : RuntimeActionLease) : list (string * string) :=
  [("runtime_action_id", l_RuntimeActionID lease);
   ("plan_id", l_PlanID lease);
   ("decision_id", l_DecisionID lease);
   ("policy_id", l_PolicyID lease);
   ("bundle_id", l_BundleID lease);
   ("source_commit", l_SourceCommit lease);
   ("adapter_id", l_AdapterID lease);
   ("capability_id", l_CapabilityID lease);
   ("mode", l_Mode lease);
   ("action_type", l_ActionType lease);
   ("target_scope", l_TargetScope lease);
   ("target_key", l_TargetKey lease);
   ("ttl", l_TTL lease);
   ("reason", l_Reason lease);
   ("audit_id", l_AuditID lease);
   ("capability_grant_id", l_CapabilityGrantID lease);
   ("idempotency_key", l_IdempotencyKey lease);
   ("status", l_Status lease)].

(** [RuntimeActionLease.Validate] *)
Definition Lease_Validate (lease : RuntimeActionLease) : result unit :=
  _ ← require (λ field, Errorf "runtime action lease missing required field %s" [AStr field])
        (lease_required lease);
  reject IsZero (l_ExpiresAt lease)
    with Errorf "runtime action lease missing required field expires_at" [];;
  reject IsZero (l_CreatedAt lease)
    with Errorf "runtime action lease missing required field created_at" [];;
  reject IsZero (l_LastReconciledAt lease)
    with Errorf "runtime action lease missing required field last_reconciled_at" [];;
  Ok tt.

Lemma Lease_Validate_Ok lease :
  Lease_Validate lease = Ok tt ↔
  Forall (λ fv, fv.2 ≠ "") (lease_required lease) ∧ l_ExpiresAt lease ≠ 0 ∧
  l_CreatedAt lease ≠ 0 ∧ l_LastReconciledAt lease ≠ 0.
Proof.
  unfold Lease_Validate, IsZero. rewrite bind_Ok. split.
  - intros ([] & Hr%require_Ok & H). passes H. rewrite Z.eqb_neq in *. done.
  - intros (Hr & H1 & H2 & H3). exists tt. split; [by apply require_Ok|].
    by rewrite !(proj2 (Z.eqb_neq _ _)).
Qed.
End leases.

(** [lease.Status = status; lease.LastReconciledAt = now] *)
Definition lease_set {T B} (status : RuntimeActionStatus) (now : T) (r : RuntimeActionLeaseOf T B)
    : RuntimeActionLeaseOf T B := {|
  l_RuntimeActionID := l_RuntimeActionID r;
  l_PlanID := l_PlanID r;
  l_DecisionID := l_DecisionID r;
  l_PolicyID := l_PolicyID r;
  l_BundleID := l_BundleID r;
  l_SourceCommit := l_SourceCommit r;
  l_CorrelationID := l_CorrelationID r;
  l_ActionType := l_ActionType r;
  l_TargetScope := l_TargetScope r;
  l_TargetKey := l_TargetKey r;
  l_TTL := l_TTL r;
  l_ExpiresAt := l_ExpiresAt r;
  l_Reason := l_Reason r;
  l_AuditID := l_AuditID r;
  l_CapabilityGrantID := l_CapabilityGrantID r;
  l_BindingID := l_BindingID r;
  l_BindingDigest := l_BindingDigest r;
  l_AdapterManifestDigest := l_AdapterManifestDigest r;
  l_ActionDigest := l_ActionDigest r;
  l_AdapterID := l_AdapterID r;
  l_CapabilityID := l_CapabilityID r;
  l_Mode := l_Mode r;
  l_Required := l_Required r;
  l_IdempotencyKey := l_IdempotencyKey r;
  l_CreatedAt := l_CreatedAt r;
  l_LastReconciledAt := now;
  l_Status := status;
|}.
