(* ===== verification/SqliteLeases.v ===== *)
(** * Leases, journal and decisions ([internal/kliq/actionstate/sqlite.go])

    The tables [runtime_action_leases], [runtime_action_journal] and
    [runtime_decision_journal] and the statements on them.  A lease has a
    primary key, a unique idempotency key, and a partial unique index: among
    the leases whose status is open, at most one per adapter, capability,
    action type, target scope and target key. *)

From stdpp Require Import options.
From S2P Require Import Prelude IO Table GoStrings GoTime Domain StateTypes.
#[local] Open Scope Z_scope.

Record ActionTables := {
  t_leases : list RuntimeActionLeaseRow;
  t_journal : list JournalEntryRow;
  t_decisions : list RuntimeDecisionRecordRow;
}.

Definition with_leases (f : list RuntimeActionLeaseRow) (db : ActionTables) : ActionTables :=
  {| t_leases := f; t_journal := t_journal db; t_decisions := t_decisions db |}.
Definition with_journal (f : list JournalEntryRow) (db : ActionTables) : ActionTables :=
  {| t_leases := t_leases db; t_journal := f; t_decisions := t_decisions db |}.
Definition with_decisions (f : list RuntimeDecisionRecordRow) (db : ActionTables) : ActionTables :=
  {| t_leases := t_leases db; t_journal := t_journal db; t_decisions := f |}.

(** ** The partial unique index [runtime_action_leases_dedup] *)

(** [status IN ('planned', 'authorized', 'executing', ...)] *)
Definition open_status (status : RuntimeActionStatus) : bool :=
  (status ==s RuntimeActionPlanned) || (status ==s RuntimeActionAuthorized) ||
  (status ==s RuntimeActionExecuting) || (status ==s RuntimeActionActive) ||
  (status ==s RuntimeActionExpiring) || (status ==s RuntimeActionUnknown) ||
  (status ==s RuntimeActionCompensating).

Abbreviation dedup_key := (string * string * string * string * string)%type.

Definition lease_dedup {T B} (r : RuntimeActionLeaseOf T B) : dedup_key :=
  (l_AdapterID r, l_CapabilityID r, l_ActionType r, l_TargetScope r, l_TargetKey r).

Definition dedup_index {T B} (r : RuntimeActionLeaseOf T B) : option dedup_key :=
  if open_status (l_Status r) then Some (lease_dedup r) else None.

(** ** Rows of leases *)

Definition lease_row (lease : RuntimeActionLease) : RuntimeActionLeaseRow :=
  l_retime lease (formatTime (l_ExpiresAt lease)) (boolInt (l_Required lease))
    (formatTime (l_CreatedAt lease)) (formatTime (l_LastReconciledAt lease)).

Definition scanLease (r : RuntimeActionLeaseRow) : result RuntimeActionLease :=
  expiresAt ← parseTime (l_ExpiresAt r);
  createdAt ← parseTime (l_CreatedAt r);
  lastReconciledAt ← parseTime (l_LastReconciledAt r);
  Ok (l_retime r expiresAt (negb (l_Required r =? 0)) createdAt lastReconciledAt).

Fixpoint scan_rows {A B} (scan : A → result B) (rows : list A) : result (list B) :=
  match rows with
  | [] => Ok []
  | r :: rows => x ← scan r; xs ← scan_rows scan rows; Ok (x :: xs)
  end.

Definition scanLeases : list RuntimeActionLeaseRow → result (list RuntimeActionLease) :=
  scan_rows scanLease.

(** ** Statements on leases *)

(** [INSERT ... ON CONFLICT(runtime_action_id) DO UPDATE SET
    last_reconciled_at = ..., status = ...]: the conflict target is checked
    first; the other two unique constraints refuse the row or the update. *)
Definition upsert_lease (r : RuntimeActionLeaseRow) (t : list RuntimeActionLeaseRow)
    : result (list RuntimeActionLeaseRow) :=
  match select_key l_RuntimeActionID (l_RuntimeActionID r) t with
  | Some o =>
      let o' := lease_set (l_Status r) (l_LastReconciledAt r) o in
      reject index_conflict dedup_index o'
               (delete_rows (has_key l_RuntimeActionID (l_RuntimeActionID r)) t)
        with unique_violation "index 'runtime_action_leases_dedup'";;
      Ok (upsert_row l_RuntimeActionID
            (λ o r, lease_set (l_Status r) (l_LastReconciledAt r) o) r t)
  | None =>
      reject mem_key l_IdempotencyKey (l_IdempotencyKey r) t
        with unique_violation "runtime_action_leases.idempotency_key";;
      reject index_conflict dedup_index r t
        with unique_violation "index 'runtime_action_leases_dedup'";;
      Ok (t ++ [r])
  end.

Section statements.
Context {GR : GoRuntime}.

Definition UpsertLease (lease : RuntimeActionLease) : io ActionTables unit :=
  transaction (λ db,
    _ ← Lease_Validate lease;
    t ← upsert_lease (lease_row lease) (t_leases db);
    Ok (tt, with_leases t db)).

Definition LeaseByDedupKey (adapterID capabilityID actionType targetScope targetKey : string)
    (db : ActionTables) : result RuntimeActionLease :=
  match List.find (λ r, bool_decide (dedup_index r =
      Some (adapterID, capabilityID, actionType, targetScope, targetKey))) (t_leases db) with
  | Some r => scanLease r
  | None => Err ErrNotFound
  end.

Definition LeaseByID (runtimeActionID : string) (db : ActionTables) : result RuntimeActionLease :=
  match select_key l_RuntimeActionID runtimeActionID (t_leases db) with
  | Some r => scanLease r
  | None => Err ErrNotFound
  end.

(** [ORDER BY created_at] *)
Definition by_created (a b : RuntimeActionLeaseRow) : bool :=
  str_leb (l_CreatedAt a) (l_CreatedAt b).

Definition ActiveLeases (db : ActionTables) : result (list RuntimeActionLease) :=
  scanLeases (sort_by by_created (List.filter (λ r, open_status (l_Status r)) (t_leases db))).

Definition AllLeases (db : ActionTables) : result (list RuntimeActionLease) :=
  scanLeases (sort_by by_created (t_leases db)).

Definition expire_lease (runtimeActionID reconciledAt : string)
    (t : list RuntimeActionLeaseRow) : list RuntimeActionLeaseRow :=
  update_rows (has_key l_RuntimeActionID runtimeActionID)
    (lease_set RuntimeActionExpired reconciledAt) t.

Definition ExpireLease (runtimeActionID : string) (reconciledAt : time) : io ActionTables unit :=
  modify (λ db,
    with_leases (expire_lease runtimeActionID (formatTime reconciledAt) (t_leases db)) db).

(** ** Journal and decisions *)

Definition AppendJournal (entry : JournalEntry) : io ActionTables unit :=
  transaction (λ db,
    t ← insert_row j_ID "runtime_action_journal.id"
          (j_retime entry (formatTime (j_CreatedAt entry))) (t_journal db);
    Ok (tt, with_journal t db)).

Definition JournalEntries (runtimeActionID : string) (db : ActionTables)
    : result (list JournalEntry) :=
  scan_rows (λ r, createdAt ← parseTime (j_CreatedAt r); Ok (j_retime r createdAt))
    (sort_by (λ a b, str_leb (j_CreatedAt a) (j_CreatedAt b))
       (List.filter (λ r, j_RuntimeActionID r ==s runtimeActionID) (t_journal db))).

Definition decision_required (record : RuntimeDecisionRecord) : list (string * string) :=
  [("decision_id", dr_DecisionID record);
   ("plan_id", dr_PlanID record);
   ("policy_id", dr_PolicyID record);
   ("bundle_id", dr_BundleID record);
   ("source_commit", dr_SourceCommit record);
   ("status", dr_Status record);
   ("payload_sha256", dr_PayloadSHA256 record)].

(** [wall] is [time.Now().UTC()]. *)
Definition AppendRuntimeDecision (wall : time) (record : RuntimeDecisionRecord)
    : io ActionTables unit :=
  transaction (λ db,
    _ ← require (λ field, Errorf "runtime decision record requires %s" [AStr field])
          (decision_required record);
    let createdAt := if IsZero (dr_CreatedAt record) then wall else dr_CreatedAt record in
    Ok (tt, with_decisions
      (upsert_row dr_DecisionID (λ _ r, r) (dr_retime record (formatTime createdAt))
         (t_decisions db)) db)).

Definition RuntimeDecisions (limit : Z) (db : ActionTables)
    : result (list RuntimeDecisionRecord) :=
  let limit := if limit <=? 0 then 100 else limit in
  scan_rows (λ r, createdAt ← parseTime (dr_CreatedAt r); Ok (dr_retime r createdAt))
    (take (Z.to_nat limit)
       (sort_by (λ a b, str_leb (dr_CreatedAt b) (dr_CreatedAt a)) (t_decisions db))).
End statements.

(** ** Invariant: what the schema guarantees *)

Record leases_ok (t : list RuntimeActionLeaseRow) : Prop := {
  leases_ids : unique_keys l_RuntimeActionID t;
  leases_idempotency : unique_keys l_IdempotencyKey t;
  leases_dedup : unique_index dedup_index t;
}.

(** What never changes in a stored lease: everything but its status and the
    time it was last reconciled. *)
Definition same_lease (r r' : RuntimeActionLeaseRow) : Prop :=
  lease_set (l_Status r') (l_LastReconciledAt r') r = r'.

(** A table of leases only grows, and its rows keep what they granted. *)
Definition leases_evolve (t t' : list RuntimeActionLeaseRow) : Prop :=
  ∀ r, r ∈ t → ∃ r', r' ∈ t' ∧ same_lease r r'.

#[export] Instance same_lease_preorder : PreOrder same_lease.
Proof.
  split; [by intros []|]. intros r1 r2 r3. unfold same_lease. intros <- <-. done.
Qed.

#[export] Instance leases_evolve_preorder : PreOrder leases_evolve.
Proof.
  split; [intros t r Hr; by exists r|]. intros t1 t2 t3 H12 H23 r Hr.
  destruct (H12 r Hr) as (r2 & Hr2 & E12), (H23 r2 Hr2) as (r3 & Hr3 & E23).
  exists r3. split; [done|by etrans].
Qed.

Lemma lease_set_dedup {T B} status now (r : RuntimeActionLeaseOf T B) :
  lease_dedup (lease_set status now r) = lease_dedup r.
Proof. done. Qed.

Lemma same_lease_set status now r : same_lease r (lease_set status now r).
Proof. done. Qed.

Lemma leases_evolve_app t t' : leases_evolve t (t ++ t').
Proof. intros r Hr. exists r. split; [set_solver|reflexivity]. Qed.

Lemma leases_evolve_fmap (f : RuntimeActionLeaseRow → RuntimeActionLeaseRow)
    (t : list RuntimeActionLeaseRow) :
  (∀ r, same_lease r (f r)) → leases_evolve t (f <$> t).
Proof. intros Hf r Hr. exists (f r). split; [by apply list_elem_of_fmap_2|apply Hf]. Qed.

Lemma upsert_lease_Ok r t t' :
  upsert_lease r t = Ok t' →
  (∃ o, select_key l_RuntimeActionID (l_RuntimeActionID r) t = Some o ∧
    index_conflict dedup_index (lease_set (l_Status r) (l_LastReconciledAt r) o)
      (delete_rows (has_key l_RuntimeActionID (l_RuntimeActionID r)) t) = false ∧
    t' = update_rows (has_key l_RuntimeActionID (l_RuntimeActionID r))
           (lease_set (l_Status r) (l_LastReconciledAt r)) t) ∨
  (l_RuntimeActionID r ∉ l_RuntimeActionID <$> t ∧
   l_IdempotencyKey r ∉ l_IdempotencyKey <$> t ∧
   index_conflict dedup_index r t = false ∧ t' = t ++ [r]).
Proof.
  unfold upsert_lease. destruct (select_key _ _ t) as [o|] eqn:E.
  - destruct (index_conflict _ _ _) eqn:Ei; [done|]. intros [= <-]. left.
    exists o. split_and!; [done..|]. unfold upsert_row.
    apply select_key_Some in E as [Ho Hk].
    rewrite (proj2 (mem_key_true _ _ _)); [done|].
    rewrite <- Hk. by apply list_elem_of_fmap_2.
  - destruct (mem_key _ _ t) eqn:Em; [done|]. destruct (index_conflict _ r t) eqn:Ei; [done|].
    intros [= <-]. right. apply select_key_None in E. apply mem_key_false in Em. done.
Qed.

Lemma upsert_lease_evolve r t t' : upsert_lease r t = Ok t' → leases_evolve t t'.
Proof.
  intros [(o & _ & _ & ->)|(_ & _ & _ & ->)]%upsert_lease_Ok; [|apply leases_evolve_app].
  apply leases_evolve_fmap. intros x. destruct (has_key _ _ x); [done|reflexivity].
Qed.

Lemma unique_app_1 {K} (k : RuntimeActionLeaseRow → K) `{!EqDecision K} r t :
  k r ∉ k <$> t → unique_keys k t → unique_keys k (t ++ [r]).
Proof. intros Hr. apply (insert_row_unique k "" r). by apply insert_row_Ok. Qed.

Lemma upsert_lease_ok r t t' : upsert_lease r t = Ok t' → leases_ok t → leases_ok t'.
Proof.
  intros Hups [Hid Hidem Hd].
  apply upsert_lease_Ok in Hups as [(o & Hs & Hc & ->)|(H1 & H2 & H3 & ->)].
  - split.
    + unfold unique_keys. by rewrite update_rows_keys.
    + unfold unique_keys. by rewrite update_rows_keys.
    + apply unique_index_update_key; [done..|]. intros x Hx Hk.
      apply select_key_Some in Hs as [Ho Hko].
      by assert (x = o) as -> by (eapply unique_keys_elem; [exact Hid|done..|congruence]).
  - split; [by apply (unique_app_1 l_RuntimeActionID)|by apply (unique_app_1 l_IdempotencyKey)|
            by apply unique_index_app_1].
Qed.

Lemma expire_lease_evolve id now t : leases_evolve t (expire_lease id now t).
Proof.
  apply leases_evolve_fmap. intros x. destruct (has_key _ _ x); [done|reflexivity].
Qed.

Lemma expire_lease_ok id now t : leases_ok t → leases_ok (expire_lease id now t).
Proof.
  intros [Hid Hidem Hd]. unfold expire_lease. split.
  - unfold unique_keys. by rewrite update_rows_keys.
  - unfold unique_keys. by rewrite update_rows_keys.
  - apply unique_index_update; [|done]. intros x _. destruct (has_key _ _ x); [by right|by left].
Qed.

(** ** What the statements promise *)
Section properties.
Context {GR : GoRuntime}.

(** The statements that change these tables, and any sequence of them; an error
    of one does not stop the ones after it. *)
Inductive action_statement : Type :=
  | DoUpsertLease (lease : RuntimeActionLease)
  | DoExpireLease (runtimeActionID : string) (reconciledAt : time)
  | DoAppendJournal (entry : JournalEntry)
  | DoAppendRuntimeDecision (wall : time) (record : RuntimeDecisionRecord).

Definition run_statement (st : action_statement) : io ActionTables unit :=
  match st with
  | DoUpsertLease lease => UpsertLease lease
  | DoExpireLease id now => ExpireLease id now
  | DoAppendJournal entry => AppendJournal entry
  | DoAppendRuntimeDecision wall record => AppendRuntimeDecision wall record
  end.

Fixpoint run_statements (l : list action_statement) (db : ActionTables) : ActionTables :=
  match l with
  | [] => db
  | st :: l => run_statements l (run_statement st db).2
  end.

(** The tables after [db]: sound if [db] was, and every lease of [db] is kept. *)
Definition actions_evolve (db db' : ActionTables) : Prop :=
  (leases_ok (t_leases db) → leases_ok (t_leases db')) ∧
  leases_evolve (t_leases db) (t_leases db').

#[export] Instance actions_evolve_preorder : PreOrder actions_evolve.
Proof.
  split; [intros db; split; [done|reflexivity]|].
  intros db1 db2 db3 [H1 E1] [H2 E2]. split; [auto|by etrans].
Qed.

Lemma UpsertLease_evolve lease : preserves actions_evolve (UpsertLease lease).
Proof.
  apply preserves_transaction; [apply _|]. intros db [] db' H.
  apply bind_Ok in H as ([] & _ & H). apply bind_Ok in H as (t & Ht & [= <-]).
  split; simpl; [by eapply upsert_lease_ok|by eapply upsert_lease_evolve].
Qed.

Lemma ExpireLease_evolve id now : preserves actions_evolve (ExpireLease id now).
Proof.
  apply preserves_modify. intros db. split; simpl; [apply expire_lease_ok|apply expire_lease_evolve].
Qed.

Lemma AppendJournal_evolve entry : preserves actions_evolve (AppendJournal entry).
Proof.
  apply preserves_transaction; [apply _|]. intros db [] db' H.
  apply bind_Ok in H as (t & _ & [= <-]). split; simpl; [done|reflexivity].
Qed.

Lemma AppendRuntimeDecision_evolve wall record :
  preserves actions_evolve (AppendRuntimeDecision wall record).
Proof.
  apply preserves_transaction; [apply _|]. intros db [] db' H.
  apply bind_Ok in H as ([] & _ & [= <-]). split; simpl; [done|reflexivity].
Qed.

Lemma run_statement_evolve st : preserves actions_evolve (run_statement st).
Proof.
  destruct st; [apply UpsertLease_evolve|apply ExpireLease_evolve|apply AppendJournal_evolve|
    apply AppendRuntimeDecision_evolve].
Qed.

Definition no_actions : ActionTables := {| t_leases := []; t_journal := []; t_decisions := [] |}.

(** C25. Whatever statements the runtime runs from an empty database, two stored
    leases with an open status never share adapter, capability, action type and
    target, and no lease is ever lost or extended: every lease that was stored
    after the first statements is still there after the others, with the
    expiry, grant and provenance it was given. *)
Theorem lease_table_invariant l1 l2 :
  let before := t_leases (run_statements l1 no_actions) in
  let after := t_leases (run_statements (l1 ++ l2) no_actions) in
  (∀ r1 r2, r1 ∈ after → r2 ∈ after → open_status (l_Status r1) = true →
     open_status (l_Status r2) = true → lease_dedup r1 = lease_dedup r2 → r1 = r2) ∧
  (∀ r, r ∈ before → ∃ r', r' ∈ after ∧ same_lease r r').
Proof.
  assert (Hrun : ∀ l db, actions_evolve db (run_statements l db)).
  { induction l as [|st l IH]; intros db; simpl; [reflexivity|].
    etrans; [apply run_statement_evolve|apply IH]. }
  assert (Happ : ∀ db, run_statements (l1 ++ l2) db = run_statements l2 (run_statements l1 db)).
  { induction l1 as [|st l IH]; intros db; simpl; [done|apply IH]. }
  intros before after. split.
  - intros r1 r2 H1 H2 O1 O2 Hd.
    assert (leases_ok after) as Hok.
    { apply (Hrun (l1 ++ l2) no_actions). by split; constructor. }
    eapply (unique_index_elem _ after r1 r2); [apply Hok|done..| |].
    + unfold dedup_index. by rewrite O1.
    + unfold dedup_index. by rewrite O2, Hd.
  - unfold before, after. rewrite Happ. apply Hrun.
Qed.

(** The row of a lease reads back as the lease. *)
Lemma scanLease_row lease :
  time_ok (l_ExpiresAt lease) → time_ok (l_CreatedAt lease) → time_ok (l_LastReconciledAt lease) →
  scanLease (lease_row lease) = Ok lease.
Proof.
  intros H1 H2 H3. unfold scanLease, lease_row. cbn -[parseTime formatTime].
  rewrite !parse_format by done. simpl. f_equal. destruct lease; simpl.
  unfold l_retime; simpl. match goal with b : bool |- _ => by destruct b end.
Qed.

Lemma scanLease_set status now r lease :
  time_ok now → scanLease r = Ok lease →
  scanLease (lease_set status (formatTime now) r) = Ok (lease_set status now lease).
Proof.
  intros Hn. unfold scanLease. cbn -[parseTime formatTime].
  destruct (parseTime (l_ExpiresAt r)); [|done]. destruct (parseTime (l_CreatedAt r)); [|done].
  destruct (parseTime (l_LastReconciledAt r)); [|done]. rewrite parse_format by done.
  simpl. by intros [= <-].
Qed.

(** Saving a lease: a new one is read back as it was saved; one whose id is
    already stored only takes the new status and reconciliation time, and keeps
    the expiry, target and provenance it was stored with. *)
Theorem UpsertLease_LeaseByID lease db db' :
  leases_ok (t_leases db) →
  time_ok (l_ExpiresAt lease) → time_ok (l_CreatedAt lease) → time_ok (l_LastReconciledAt lease) →
  UpsertLease lease db = (Ok tt, db') →
  match LeaseByID (l_RuntimeActionID lease) db with
  | Ok stored => LeaseByID (l_RuntimeActionID lease) db' =
                 Ok (lease_set (l_Status lease) (l_LastReconciledAt lease) stored)
  | Err e => e = ErrNotFound → LeaseByID (l_RuntimeActionID lease) db' = Ok lease
  end.
Proof.
  intros Hok T1 T2 T3 H. unfold UpsertLease in H.
  apply transaction_Ok, bind_Ok in H as ([] & _ & (t & Hups & [= <-])%bind_Ok).
  pose proof (upsert_lease_ok _ _ _ Hups Hok) as Hok'.
  unfold LeaseByID. simpl.
  apply upsert_lease_Ok in Hups as [(o & Hs & _ & ->)|(Hf & _ & _ & ->)].
  - change (l_RuntimeActionID (lease_row lease)) with (l_RuntimeActionID lease) in *.
    rewrite Hs. destruct (scanLease o) as [stored|e] eqn:Ho.
    + apply select_key_Some in Hs as [Hin Hk].
      rewrite (proj2 (select_key_elem l_RuntimeActionID _ _
        (lease_set (l_Status lease) (formatTime (l_LastReconciledAt lease)) o) (leases_ids _ Hok'))).
      * by apply scanLease_set.
      * split; [|done]. apply list_elem_of_fmap. exists o. split; [|done].
        unfold has_key. by rewrite bool_decide_eq_true_2.
    + intros ->. unfold scanLease, parseTime in Ho. repeat case_match; discriminate Ho.
  - rewrite (proj2 (select_key_None _ _ _) Hf). intros _.
    rewrite (proj2 (select_key_elem l_RuntimeActionID _ _ (lease_row lease) (leases_ids _ Hok'))).
    + by apply scanLease_row.
    + split; [set_solver|done].
Qed.

(** The lease found under a deduplication key is the only open one under it:
    no row is found exactly when no open lease has the key. *)
Theorem LeaseByDedupKey_unique adapterID capabilityID actionType targetScope targetKey db :
  leases_ok (t_leases db) →
  let key := (adapterID, capabilityID, actionType, targetScope, targetKey) in
  match List.find (λ r, bool_decide (dedup_index r = Some key)) (t_leases db) with
  | Some r =>
      LeaseByDedupKey adapterID capabilityID actionType targetScope targetKey db = scanLease r ∧
      (∀ r', r' ∈ t_leases db → (open_status (l_Status r') = true ∧ lease_dedup r' = key) ↔ r' = r)
  | None =>
      LeaseByDedupKey adapterID capabilityID actionType targetScope targetKey db = Err ErrNotFound ∧
      (∀ r', r' ∈ t_leases db → open_status (l_Status r') = true → lease_dedup r' ≠ key)
  end.
Proof.
  intros Hok key. unfold LeaseByDedupKey. fold key. destruct (List.find _ _) as [r|] eqn:E.
  - apply find_some in E as [Hr Hi]. apply list_elem_of_In in Hr.
    apply bool_decide_eq_true in Hi. split; [done|]. intros r' Hr'.
    assert (Hiff : dedup_index r' = Some key ↔ open_status (l_Status r') = true ∧ lease_dedup r' = key).
    { unfold dedup_index. destruct (open_status _); split;
        [intros [= ?]; by simplify_eq|by intros [_ ->]|done|by intros []]. }
    rewrite <- Hiff. split; [|by intros ->].
    intros Hi'. by eapply (unique_index_elem _ _ _ _ _ (leases_dedup _ Hok)).
  - split; [done|]. intros r' Hr' Ho Hk.
    apply list_elem_of_In in Hr'. pose proof (find_none _ _ E _ Hr') as Hn.
    apply bool_decide_eq_false in Hn. apply Hn. unfold dedup_index. by rewrite Ho, Hk.
Qed.
End properties.
