(* ===== verification/SqliteAudit.v ===== *)
(** * The audit spool ([internal/kliq/actionstate/sqlite.go])

    Audit records wait in a spool until Forge has taken them.  A record is
    written once under its id, is chained by hash to the record before it, and
    later only changes status, upload times and last error. *)

From stdpp Require Import options.
From S2P Require Import Prelude IO Table GoStrings GoTime Signing Domain StateTypes SqliteLeases.
#[local] Open Scope Z_scope.

Definition AuditPendingUpload := "pending_upload".

(** The columns [auditRecordHash] covers, the time as text. *)
Definition audit_hash_fields {T} (createdAt : string) (r : AuditRecordOf T) : list string :=
  [au_PreviousHash r;
   au_ID r;
   au_RuntimeActionID r;
   au_BindingID r;
   au_BindingDigest r;
   au_AdapterManifestDigest r;
   au_ActionDigest r;
   au_Status r;
   au_PayloadSHA256 r;
   createdAt].

Definition auditRecordHash (record : AuditRecord) : string :=
  "sha256:" +:+ sha256_hex (join NUL (audit_hash_fields (formatTime (au_CreatedAt record)) record)).

(** A record with its payload digest, chain hashes and creation time. *)
Definition au_complete (r : AuditRecord) (payloadSHA256 previousHash recordHash : string)
    (createdAt : time) : AuditRecord := {|
  au_ID := au_ID r;
  au_RuntimeActionID := au_RuntimeActionID r;
  au_BindingID := au_BindingID r;
  au_BindingDigest := au_BindingDigest r;
  au_AdapterManifestDigest := au_AdapterManifestDigest r;
  au_ActionDigest := au_ActionDigest r;
  au_Status := au_Status r;
  au_Payload := au_Payload r;
  au_PayloadSHA256 := payloadSHA256;
  au_PreviousHash := previousHash;
  au_RecordHash := recordHash;
  au_CreatedAt := createdAt;
  au_RetryCount := au_RetryCount r;
  au_LastAttemptAt := au_LastAttemptAt r;
  au_UploadedAt := au_UploadedAt r;
  au_LastError := au_LastError r;
|}.

Definition audit_row (r : AuditRecord) : AuditRecordRow :=
  au_retime r (formatTime (au_CreatedAt r)) (formatOptionalTime (au_LastAttemptAt r))
    (formatOptionalTime (au_UploadedAt r)).

(** [ORDER BY created_at DESC, id DESC] *)
Definition latest_first (a b : AuditRecordRow) : bool :=
  if au_CreatedAt a ==s au_CreatedAt b then str_leb (au_ID b) (au_ID a)
  else str_leb (au_CreatedAt b) (au_CreatedAt a).

Definition latestAuditRecordHash (t : list AuditRecordRow) : string :=
  match sort_by latest_first (List.filter (λ r, au_RecordHash r !=s "") t) with
  | [] => ""
  | r :: _ => au_RecordHash r
  end.

(** [wall] is [time.Now().UTC()]. *)
Definition complete_audit (wall : time) (t : list AuditRecordRow) (record : AuditRecord)
    : AuditRecord :=
  let payloadSHA256 :=
    if blank (au_PayloadSHA256 record) then SHA256JSON (au_Payload record)
    else au_PayloadSHA256 record in
  let createdAt := if IsZero (au_CreatedAt record) then wall else au_CreatedAt record in
  let previousHash :=
    if empty_str (au_PreviousHash record) then latestAuditRecordHash t
    else au_PreviousHash record in
  let r := au_complete record payloadSHA256 previousHash (au_RecordHash record) createdAt in
  if empty_str (au_RecordHash record)
  then au_complete record payloadSHA256 previousHash (auditRecordHash r) createdAt
  else r.

Definition AppendAudit (wall : time) (record : AuditRecord) : io (list AuditRecordRow) unit :=
  transaction (λ t,
    let completed := complete_audit wall t record in
    match select_key au_ID (au_ID record) t with
    | Some existing =>
        reject au_PayloadSHA256 existing !=s au_PayloadSHA256 completed
          with Errorf "audit spool record %q already exists with different payload hash"
                 [AStr (au_ID record)];;
        Ok (tt, t)
    | None =>
        t' ← insert_row au_ID "audit_spool.id" (audit_row completed) t;
        Ok (tt, t')
    end).

(** A record hash missing in an old row is recomputed before [created_at] is
    read, hence with the zero time. *)
Definition scanAudit (r : AuditRecordRow) : result AuditRecord :=
  let payloadSHA256 :=
    if empty_str (au_PayloadSHA256 r) then SHA256JSON (au_Payload r) else au_PayloadSHA256 r in
  let record createdAt lastAttemptAt uploadedAt recordHash :=
    au_complete (au_retime r createdAt lastAttemptAt uploadedAt) payloadSHA256
      (au_PreviousHash r) recordHash createdAt in
  let recordHash :=
    if empty_str (au_RecordHash r) then auditRecordHash (record 0 0 0 "") else au_RecordHash r in
  createdAt ← parseTime (au_CreatedAt r);
  lastAttemptAt ← parseOptionalTime (au_LastAttemptAt r);
  uploadedAt ← parseOptionalTime (au_UploadedAt r);
  Ok (record createdAt lastAttemptAt uploadedAt recordHash).

Definition PendingAudits (t : list AuditRecordRow) : result (list AuditRecord) :=
  scan_rows scanAudit
    (sort_by (λ a b, str_leb (au_CreatedAt a) (au_CreatedAt b))
       (List.filter (λ r, au_Status r ==s AuditPendingUpload) t)).

(** The columns an upload attempt changes. *)
Definition au_attempt (r : AuditRecordRow) (status : string) (retryCount : Z)
    (lastAttemptAt uploadedAt lastError : string) : AuditRecordRow := {|
  au_ID := au_ID r;
  au_RuntimeActionID := au_RuntimeActionID r;
  au_BindingID := au_BindingID r;
  au_BindingDigest := au_BindingDigest r;
  au_AdapterManifestDigest := au_AdapterManifestDigest r;
  au_ActionDigest := au_ActionDigest r;
  au_Status := status;
  au_Payload := au_Payload r;
  au_PayloadSHA256 := au_PayloadSHA256 r;
  au_PreviousHash := au_PreviousHash r;
  au_RecordHash := au_RecordHash r;
  au_CreatedAt := au_CreatedAt r;
  au_RetryCount := retryCount;
  au_LastAttemptAt := lastAttemptAt;
  au_UploadedAt := uploadedAt;
  au_LastError := lastError;
|}.

Definition MarkAuditUploaded (id : string) (uploadedAt : time) : io (list AuditRecordRow) unit :=
  modify (update_rows (has_key au_ID id) (λ r,
    au_attempt r "uploaded" (au_RetryCount r) (formatTime uploadedAt) (formatTime uploadedAt) "")).

Definition MarkAuditFailed (id : string) (attemptedAt : time) (message : string)
    : io (list AuditRecordRow) unit :=
  modify (update_rows (has_key au_ID id) (λ r,
    au_attempt r AuditPendingUpload (au_RetryCount r + 1) (formatTime attemptedAt)
      (au_UploadedAt r) message)).

(** ** Append only *)

(** Two rows with the same audited content; what may differ is the state of the
    upload. *)
Definition same_audit (r r' : AuditRecordRow) : Prop :=
  r' = au_attempt r (au_Status r') (au_RetryCount r') (au_LastAttemptAt r')
         (au_UploadedAt r') (au_LastError r').

#[export] Instance same_audit_preorder : PreOrder same_audit.
Proof.
  split; [by intros []|]. intros r1 r2 r3. unfold same_audit.
  intros H1 H2. rewrite H2 at 1. rewrite H1 at 1. done.
Qed.

(** The spool keeps its records, in order, and only grows at the end. *)
Definition audit_evolve (t t' : list AuditRecordRow) : Prop :=
  (unique_keys au_ID t → unique_keys au_ID t') ∧
  ∃ t1 t2, t' = t1 ++ t2 ∧ Forall2 same_audit t t1.

#[export] Instance audit_evolve_preorder : PreOrder audit_evolve.
Proof.
  split.
  - intros t. split; [done|]. exists t, []. rewrite app_nil_r. split; [done|].
    induction t; by constructor.
  - intros a b c [U1 (b1 & b2 & -> & H1)] [U2 (c1 & c2 & -> & H2)]. split; [auto|].
    apply Forall2_app_inv_l in H2 as (d1 & d2 & H2 & _ & ->).
    exists d1, (d2 ++ c2). split; [by rewrite app_assoc|].
    clear -H1 H2. revert d1 H2. induction H1 as [|x y l l' Hxy _ IH]; intros d1 H2; inversion H2; subst.
    + constructor.
    + constructor; [by etrans|by apply IH].
Qed.

Lemma AppendAudit_evolve wall record : preserves audit_evolve (AppendAudit wall record).
Proof.
  apply preserves_transaction; [apply _|]. intros t [] t' H. cbv zeta in H.
  destruct (select_key _ _ t) as [o|].
  - passes H. injection H as <-. reflexivity.
  - apply bind_Ok in H as (t1 & Hi & [= <-]). split; [by eapply insert_row_unique|].
    apply insert_row_Ok in Hi as [_ ->]. exists t. eexists. split; [done|].
    clear. induction t; by constructor.
Qed.

Lemma update_audit_evolve id f :
  (∀ r, same_audit r (f r)) → preserves audit_evolve (modify (update_rows (has_key au_ID id) f)).
Proof.
  intros Hf. apply preserves_modify. intros t. split.
  - unfold unique_keys. rewrite update_rows_keys; [done|]. intros r. by rewrite (Hf r).
  - exists (update_rows (has_key au_ID id) f t), []. rewrite app_nil_r. split; [done|].
    induction t as [|r t IH]; simpl; [constructor|]. constructor; [|done].
    destruct (has_key _ _ r); [apply Hf|reflexivity].
Qed.

Lemma MarkAuditUploaded_evolve id now : preserves audit_evolve (MarkAuditUploaded id now).
Proof. apply update_audit_evolve. intros r. reflexivity. Qed.

Lemma MarkAuditFailed_evolve id now m : preserves audit_evolve (MarkAuditFailed id now m).
Proof. apply update_audit_evolve. intros r. reflexivity. Qed.

(** ** Writing a record twice *)

Lemma select_key_app_fresh (r : AuditRecordRow) t :
  au_ID r ∉ au_ID <$> t → select_key au_ID (au_ID r) (t ++ [r]) = Some r.
Proof.
  intros Hf. unfold select_key. induction t as [|o t IH]; simpl.
  - unfold has_key. by rewrite bool_decide_eq_true_2.
  - unfold has_key at 1. case_bool_decide as Hk; [|apply IH; set_solver].
    destruct Hf. rewrite <- Hk. simpl. by left.
Qed.

Lemma complete_audit_sha wall t r :
  au_PayloadSHA256 (complete_audit wall t r) =
  if blank (au_PayloadSHA256 r) then SHA256JSON (au_Payload r) else au_PayloadSHA256 r.
Proof. unfold complete_audit. cbv zeta. by destruct (empty_str (au_RecordHash r)). Qed.

Lemma complete_audit_id wall t r : au_ID (complete_audit wall t r) = au_ID r.
Proof. unfold complete_audit. cbv zeta. by destruct (empty_str (au_RecordHash r)). Qed.

(** What a successful write leaves in the spool. *)
Lemma AppendAudit_present wall record t t1 :
  AppendAudit wall record t = (Ok tt, t1) →
  ∃ o, o ∈ t1 ∧ au_ID o = au_ID record ∧
    au_PayloadSHA256 o = (if blank (au_PayloadSHA256 record) then SHA256JSON (au_Payload record)
                          else au_PayloadSHA256 record).
Proof.
  intros H. unfold AppendAudit in H. apply transaction_Ok in H. cbv zeta in H.
  destruct (select_key _ _ t) as [o|] eqn:Es.
  - passes H. injection H as <-. str_eqs. rewrite complete_audit_sha in Hg.
    apply select_key_Some in Es as [? ?]. eauto.
  - apply bind_Ok in H as (t' & Hi & [= <-]). apply insert_row_Ok in Hi as [_ ->].
    exists (audit_row (complete_audit wall t record)).
    split_and!; [set_solver|apply complete_audit_id|apply complete_audit_sha].
Qed.

(** Once a record is in the spool, writing the same record again succeeds and
    changes nothing, at any later time and whatever else was written, and
    writing another payload under its id is refused without changing anything. *)
Theorem AppendAudit_write_once wall wall' record record' t t1 t2 :
  AppendAudit wall record t = (Ok tt, t1) →
  unique_keys au_ID t → audit_evolve t1 t2 → au_ID record' = au_ID record →
  let sha r := if blank (au_PayloadSHA256 r) then SHA256JSON (au_Payload r)
               else au_PayloadSHA256 r in
  (sha record' = sha record → AppendAudit wall' record' t2 = (Ok tt, t2)) ∧
  (sha record' ≠ sha record → ∃ e, AppendAudit wall' record' t2 = (Err e, t2)).
Proof.
  intros H Hu [Hu12 (l1 & l2 & -> & Hl)] Hid sha.
  destruct (AppendAudit_present _ _ _ _ H) as (o & Ho & Hoid & Hosha). fold (sha record) in Hosha.
  assert (unique_keys au_ID t1) as Hu1.
  { pose proof (AppendAudit_evolve wall record t) as [Hx _]. rewrite H in Hx. by apply Hx. }
  apply list_elem_of_lookup in Ho as [i Hi].
  destruct (Forall2_lookup_l _ _ _ _ _ Hl Hi) as (o' & Hi' & Hsame).
  assert (select_key au_ID (au_ID record') (l1 ++ l2) = Some o') as Hs.
  { apply select_key_elem; [by apply Hu12|]. split.
    - apply elem_of_app. left. by eapply list_elem_of_lookup_2.
    - rewrite Hid, <- Hoid. by rewrite Hsame. }
  assert (au_PayloadSHA256 o' = sha record) as Hsha by by rewrite Hsame.
  unfold AppendAudit, transaction. cbv zeta. rewrite Hs, complete_audit_sha, Hsha. fold (sha record').
  split; intros Hr.
  - by rewrite Hr, String.eqb_refl.
  - rewrite (proj2 (String.eqb_neq _ _)) by congruence. simpl. eauto.
Qed.

Lemma AppendAudit_write_once_witness :
  let r sha := {|
    au_ID := "audit_spool.1"; au_RuntimeActionID := "runtime_action.1"; au_BindingID := "";
    au_BindingDigest := ""; au_AdapterManifestDigest := ""; au_ActionDigest := "";
    au_Status := AuditPendingUpload; au_Payload := "{}"; au_PayloadSHA256 := sha;
    au_PreviousHash := ""; au_RecordHash := "sha256:r"; au_CreatedAt := 0; au_RetryCount := 0;
    au_LastAttemptAt := 0; au_UploadedAt := 0; au_LastError := "" |} in
  let t1 := (AppendAudit 0 (r "sha256:p") []).2 in
  AppendAudit 5 (r "sha256:p") t1 = (Ok tt, t1) ∧
  ∃ e, AppendAudit 5 (r "sha256:q") t1 = (Err e, t1).
Proof.
  intros r t1. split.
  - refine (proj1 (AppendAudit_write_once 0 5 (r "sha256:p") (r "sha256:p") [] t1 t1 _ _ _ _) _);
      [vm_compute; reflexivity|constructor|reflexivity|reflexivity|reflexivity].
  - refine (proj2 (AppendAudit_write_once 0 5 (r "sha256:p") (r "sha256:q") [] t1 t1 _ _ _ _) _);
      [vm_compute; reflexivity|constructor|reflexivity|reflexivity|vm_compute; discriminate].
Defined.

(** ** The hash chain *)

(** What the hash of a record covers, and the text that is hashed. *)
Definition covered (r : AuditRecord) : list string :=
  [au_PreviousHash r; au_ID r; au_RuntimeActionID r; au_BindingID r; au_BindingDigest r;
   au_AdapterManifestDigest r; au_ActionDigest r; au_Status r; au_PayloadSHA256 r;
   formatTime (au_CreatedAt r)].
Definition covered_text (r : AuditRecord) : string := join NUL (covered r).

(** The records verify as a chain: each carries the hash of the one before it, and its own. *)
Fixpoint verifies (previous : string) (rs : list AuditRecord) : Prop :=
  match rs with
  | [] => True
  | r :: rs => au_PreviousHash r = previous ∧ au_RecordHash r = auditRecordHash r ∧
               verifies (au_RecordHash r) rs
  end.

Definition last_hash (p : string) (rs : list AuditRecord) : string :=
  match last rs with Some r => au_RecordHash r | None => p end.

(** [r] sorts strictly after [x]. *)
Definition audit_before (x r : AuditRecordRow) : Prop := latest_first x r = false.

(** The rows of the records, which were pending when they were written, whatever their
    uploads did to them. *)
Definition rows_of (rs : list AuditRecord) (t : list AuditRecordRow) : Prop :=
  Forall2 (λ r row, au_Status r = AuditPendingUpload ∧ same_audit (audit_row r) row) rs t.

Lemma last_hash_cons p x rs : last_hash p (x :: rs) = last_hash (au_RecordHash x) rs.
Proof. unfold last_hash. rewrite last_cons. by destruct (last rs). Qed.

Lemma verifies_snoc p rs r :
  verifies p (rs ++ [r]) ↔
  verifies p rs ∧ au_PreviousHash r = last_hash p rs ∧ au_RecordHash r = auditRecordHash r.
Proof.
  revert p. induction rs as [|x rs IH]; intros p; simpl; [tauto|].
  rewrite IH, last_hash_cons. tauto.
Qed.

Lemma auditRecordHash_nonempty r : (auditRecordHash r !=s "") = true.
Proof. done. Qed.

Lemma sort_by_last {A} (leb : A → A → bool) t r :
  Forall (λ x, leb x r = false) t → ∃ l, sort_by leb (t ++ [r]) = r :: l.
Proof.
  induction 1 as [|x t Hx _ [l IH]]; simpl; [by eexists|].
  rewrite IH. simpl. rewrite Hx. by eexists.
Qed.

Lemma latest_hash_snoc t r :
  StronglySorted audit_before (t ++ [r]) → (au_RecordHash r !=s "") = true →
  latestAuditRecordHash (t ++ [r]) = au_RecordHash r.
Proof.
  intros Hs Hr. unfold latestAuditRecordHash. rewrite List.filter_app. simpl. rewrite Hr.
  destruct (sort_by_last latest_first (List.filter (λ r, au_RecordHash r !=s "") t) r)
    as [l ->]; [|done].
  apply Forall_forall. intros x [Hx _]%list_elem_of_In%filter_In. apply list_elem_of_In in Hx.
  change (audit_before x r). eapply StronglySorted_app_1_elem_of; [exact Hs|done|set_solver].
Qed.

Lemma latest_hash_last rs t :
  rows_of rs t → verifies "" rs → StronglySorted audit_before t →
  latestAuditRecordHash t = last_hash "" rs.
Proof.
  intros Hr Hv Hs. destruct rs as [|r rs _] using rev_ind; [by inversion Hr|].
  apply Forall2_app_inv_l in Hr as (t1 & t2 & _ & (row & ? & [_ Hrow] & Hn & ->)%Forall2_cons_inv_l & ->).
  inversion Hn; subst. apply verifies_snoc in Hv as (_ & _ & Hh).
  assert (Hrh : au_RecordHash row = au_RecordHash r) by by rewrite Hrow.
  unfold last_hash. rewrite last_snoc, <- Hrh. apply latest_hash_snoc; [done|]. by rewrite Hrh, Hh.
Qed.

(** A spool that evolved into one in the order of time was in that order. *)
Lemma sorted_evolve t t' :
  audit_evolve t t' → StronglySorted audit_before t' → StronglySorted audit_before t.
Proof.
  intros (_ & t1 & t2 & -> & Hf) Hs%StronglySorted_app_1_l. revert Hs.
  induction Hf as [|x y t t1 Hxy Ht IH]; [constructor|]. intros [Hy Hs]%StronglySorted_cons.
  constructor; [by apply IH|]. clear IH Hs. rewrite Forall_forall in *. intros x' Hx'.
  apply list_elem_of_lookup in Hx' as [i Hx'].
  destruct (Forall2_lookup_l _ _ _ _ _ Ht Hx') as (y' & Hy' & Hs').
  apply list_elem_of_lookup_2, Hy in Hy'. unfold audit_before, latest_first in *.
  by rewrite Hxy, Hs' in Hy'.
Qed.

(** What is done to the spool: the runtime writes, an upload succeeds or fails. *)
Inductive spool_op :=
| Append (wall : time) (record : AuditRecord)
| Uploaded (id : string) (uploadedAt : time)
| Failed (id : string) (attemptedAt : time) (message : string).

Definition run_spool_op (op : spool_op) : io (list AuditRecordRow) unit :=
  match op with
  | Append wall record => AppendAudit wall record
  | Uploaded id at_ => MarkAuditUploaded id at_
  | Failed id at_ message => MarkAuditFailed id at_ message
  end.

Definition spool (ops : list spool_op) : list AuditRecordRow :=
  fold_left (λ t op, (run_spool_op op t).2) ops [].

(** The runtime writes pending records and leaves the chain hashes to the store. *)
Definition runtime_op (op : spool_op) : Prop :=
  match op with
  | Append _ record => au_Status record = AuditPendingUpload ∧ au_PreviousHash record = "" ∧
                       au_RecordHash record = ""
  | _ => True
  end.

Lemma run_spool_op_evolve op : preserves audit_evolve (run_spool_op op).
Proof.
  destruct op; [apply AppendAudit_evolve|apply MarkAuditUploaded_evolve|apply MarkAuditFailed_evolve].
Qed.

(** A write that adds a row extends the chain by it. *)
Lemma Append_extends wall record rs t :
  runtime_op (Append wall record) →
  rows_of rs t → verifies "" rs → StronglySorted audit_before t →
  ∃ rs', rows_of rs' (AppendAudit wall record t).2 ∧ verifies "" rs'.
Proof.
  intros (Hst & Hp & Hh) Hr Hv Hs. destruct (AppendAudit wall record t) as [[[]|e] t'] eqn:H; simpl;
    unfold AppendAudit in H; [apply transaction_Ok in H|apply transaction_Err in H as [_ ->]; by exists rs].
  cbv zeta in H. destruct (select_key _ _ t) as [o|]; [passes H; injection H as <-; by exists rs|].
  apply bind_Ok in H as (t1 & Hi & [= <-]). apply insert_row_Ok in Hi as [_ ->].
  exists (rs ++ [complete_audit wall t record]). split.
  - apply Forall2_app; [done|]. constructor; [split; [|done]|constructor].
    unfold complete_audit. cbv zeta. by destruct (empty_str _).
  - apply verifies_snoc. split; [done|]. rewrite <- (latest_hash_last rs t) by done.
    unfold complete_audit. cbv zeta. by rewrite Hp, Hh.
Qed.

Lemma Mark_extends rs t t' : Forall2 same_audit t t' → rows_of rs t → rows_of rs t'.
Proof.
  intros Ht Hr. revert t' Ht. induction Hr as [|r row rs t [Hst Hrow] _ IH]; intros t' Ht.
  - inversion Ht. constructor.
  - apply Forall2_cons_inv_l in Ht as (row' & t1 & Hs & Ht & ->).
    constructor; [split; [done|by etrans]|by apply IH].
Qed.

Lemma marked id f t : (∀ r, same_audit r (f r)) → Forall2 same_audit t (update_rows (has_key au_ID id) f t).
Proof.
  intros Hf. induction t as [|r t IH]; simpl; constructor; [|done].
  destruct (has_key _ _ r); [apply Hf|reflexivity].
Qed.

(** The spool is the rows of records that verify. *)
Lemma spool_verifies ops :
  Forall runtime_op ops → StronglySorted audit_before (spool ops) →
  ∃ rs, rows_of rs (spool ops) ∧ verifies "" rs.
Proof.
  induction ops as [|op ops IH] using rev_ind; intros Hu Hs; [exists []; by split; [constructor|]|].
  apply Forall_app in Hu as [Hu [Hop _]%Forall_cons]. revert Hs. unfold spool. rewrite fold_left_app. simpl.
  fold (spool ops). intros Hs. assert (StronglySorted audit_before (spool ops)) as Hs0.
  { eapply sorted_evolve; [apply run_spool_op_evolve|exact Hs]. }
  destruct (IH Hu Hs0) as (rs & Hr & Hv). destruct op; simpl in Hop |- *.
  - by apply (Append_extends wall record rs).
  - exists rs. split; [|done]. apply (Mark_extends _ (spool ops)); [by apply marked|done].
  - exists rs. split; [|done]. apply (Mark_extends _ (spool ops)); [by apply marked|done].
Qed.

(** No field of a record, or of its row, contains the separator of the hashed text. *)
Definition separable (r : AuditRecord) : Prop := Forall (λ s, no_nul s = true) (covered r).
Definition separable_row (r : AuditRecordRow) : Prop :=
  Forall (λ s, no_nul s = true)
    [au_PreviousHash r; au_ID r; au_RuntimeActionID r; au_BindingID r; au_BindingDigest r;
     au_AdapterManifestDigest r; au_ActionDigest r; au_PayloadSHA256 r; au_CreatedAt r].

Lemma rows_separable rs t : rows_of rs t → Forall separable_row t → Forall separable rs.
Proof.
  intros Hr. induction Hr as [|r row rs t [Hst Hrow] _ IH]; [done|].
  intros [Hs Ht]%Forall_cons. constructor; [|by apply IH]. clear IH Ht.
  unfold separable_row, separable, covered in *. rewrite Hrow in Hs. simpl in Hs.
  rewrite !Forall_cons in *. rewrite Hst. tauto.
Qed.

Lemma auditRecordHash_inj r r' :
  separable r → separable r' → auditRecordHash r = auditRecordHash r' →
  covered r = covered r' ∨ collide (covered_text r) (covered_text r').
Proof.
  intros Hr Hr' H. apply app_str_inj_l, sha256_hex_inj in H as [H|]; [|by right].
  left. by apply join_nul_inj in H.
Qed.

Lemma chains_agree rs rs' :
  verifies "" rs → verifies "" rs' → Forall separable rs → Forall separable rs' →
  last_hash "" rs = last_hash "" rs' →
  covered <$> rs = covered <$> rs' ∨
  ∃ r r', r ∈ rs ∧ r' ∈ rs' ∧ collide (covered_text r) (covered_text r').
Proof.
  revert rs'. induction rs as [|r rs IH] using rev_ind; intros rs' Hv Hv' Hsep Hsep' Hlast;
    destruct rs' as [|r' rs' _] using rev_ind; [by left| | |].
  1-2: exfalso; unfold last_hash in Hlast; rewrite last_snoc in Hlast; simpl in Hlast.
  1: apply verifies_snoc in Hv' as (_ & _ & Hh); by rewrite Hh in Hlast.
  1: apply verifies_snoc in Hv as (_ & _ & Hh); by rewrite Hh in Hlast.
  apply verifies_snoc in Hv as (Hv & Hp & Hr), Hv' as (Hv' & Hp' & Hr').
  apply Forall_app in Hsep as [Hsep [Hs _]%Forall_cons], Hsep' as [Hsep' [Hs' _]%Forall_cons].
  unfold last_hash in Hlast. rewrite !last_snoc, Hr, Hr' in Hlast.
  destruct (auditRecordHash_inj r r' Hs Hs' Hlast) as [Hc|Hcol]; [|right; exists r, r'; set_solver].
  assert (Hpp : last_hash "" rs = last_hash "" rs') by (injection Hc; congruence).
  destruct (IH rs' Hv Hv' Hsep Hsep' Hpp) as [E|(q & q' & Hq & Hq' & Hcol)];
    [left; by rewrite !fmap_app, E; simpl; rewrite Hc|right; exists q, q'; set_solver].
Qed.

(** C26. The audit spool is tamper evident. Whatever the runtime writes to it and however
    the uploads go, as long as the records' creation times are in the order of their
    texts and no field contains the NUL byte that separates the hashed ones: its rows are
    those of records that verify as a chain from the empty hash, and any
    records that verify and end in the spool's last hash, however many, agree with them on
    everything the hashes cover (identifiers, digests, status as written, time), unless two of the records have
    hashed texts that are different and have the same SHA-256 digest. *)
Theorem audit_chain_tamper_evident ops :
  Forall runtime_op ops → StronglySorted audit_before (spool ops) → Forall separable_row (spool ops) →
  ∃ rs, rows_of rs (spool ops) ∧ verifies "" rs ∧
    ∀ rs', verifies "" rs' → last_hash "" rs' = latestAuditRecordHash (spool ops) →
      Forall separable rs' →
      covered <$> rs' = covered <$> rs ∨
      ∃ r r', r ∈ rs ∧ r' ∈ rs' ∧ collide (covered_text r) (covered_text r').
Proof.
  intros Hu Hs Hsep. destruct (spool_verifies ops Hu Hs) as (rs & Hr & Hv).
  exists rs. split_and!; [done..|]. intros rs' Hv' Hlast Hsep'. apply (rows_separable rs) in Hsep; [|done].
  rewrite (latest_hash_last rs) in Hlast by done.
  destruct (chains_agree rs rs') as [E|]; [done..|by left|by right].
Qed.

(** ** Examples *)

(** An audit record as the runtime writes it. *)
Definition example_audit (id : string) (createdAt : time) : AuditRecord := {|
  au_ID := id; au_RuntimeActionID := "runtime_action.1"; au_BindingID := "binding-1";
  au_BindingDigest := ""; au_AdapterManifestDigest := ""; au_ActionDigest := "";
  au_Status := AuditPendingUpload; au_Payload := "{}"; au_PayloadSHA256 := "sha256:p";
  au_PreviousHash := ""; au_RecordHash := ""; au_CreatedAt := createdAt; au_RetryCount := 0;
  au_LastAttemptAt := 0; au_UploadedAt := 0; au_LastError := "" |}.

(** 2026-07-04T12:00:00Z *)
Definition example_time : time := 63918763200 * second.

Definition example_ops : list spool_op := [
  Append 0 (example_audit "audit_spool.1" example_time);
  Uploaded "audit_spool.1" (example_time + 5);
  Append 0 (example_audit "audit_spool.2" (example_time + second));
  Failed "audit_spool.2" (example_time + second + 5) "connection refused" ].

Definition example_spool : list AuditRecordRow := spool example_ops.

(** Records hashed one after the other. *)
Fixpoint rehashed (previous : string) (rs : list AuditRecord) : list AuditRecord :=
  match rs with
  | [] => []
  | r :: rs =>
      let r := au_complete r (au_PayloadSHA256 r) previous "" (au_CreatedAt r) in
      let hash := auditRecordHash r in
      au_complete r (au_PayloadSHA256 r) previous hash (au_CreatedAt r) :: rehashed hash rs
  end.

Lemma rehashed_verifies p rs : verifies p (rehashed p rs).
Proof. revert p. induction rs as [|r rs IH]; intros p; simpl; [done|]. by split_and!. Qed.

(** The two records with their retries forgotten, and with the second one on another action. *)
Definition retold : list AuditRecord := rehashed ""
  [example_audit "audit_spool.1" example_time; example_audit "audit_spool.2" (example_time + second)].
Definition tampered : list AuditRecord := rehashed ""
  [example_audit "audit_spool.1" example_time; example_audit "audit_spool.3" (example_time + second)].

Lemma audit_chain_tamper_evident_witness :
  (∃ rs, rows_of rs example_spool ∧ verifies "" rs ∧
     (covered <$> retold = covered <$> rs ∨
      ∃ r r', r ∈ rs ∧ r' ∈ retold ∧ collide (covered_text r) (covered_text r'))) ∧
  verifies "" tampered ∧ last_hash "" tampered ≠ latestAuditRecordHash example_spool.
Proof.
  split; [|split; [apply rehashed_verifies|vm_compute; discriminate]].
  destruct (audit_chain_tamper_evident example_ops) as (rs & Hr & Hv & H).
  - repeat constructor.
  - vm_compute. repeat constructor.
  - vm_compute. repeat constructor.
  - exists rs. split; [exact Hr|]. split; [exact Hv|].
    refine (H retold _ _ _); [apply rehashed_verifies|vm_compute; reflexivity|].
    unfold retold, rehashed.
    apply Forall_cons_2; [|apply Forall_cons_2; [|constructor]]; vm_compute; repeat constructor.
Defined.

(** The third record is chained to the first, like the second. *)
Definition forked (spool : list AuditRecordRow) : bool :=
  match spool with
  | [r1; r2; r3] =>
      (au_RecordHash r1 !=s "") && (au_PreviousHash r2 ==s au_RecordHash r1) &&
      (au_PreviousHash r3 ==s au_RecordHash r1)
  | _ => false
  end.

Lemma forked_true spool :
  forked spool = true →
  ∃ r1 r2 r3, spool = [r1; r2; r3] ∧ au_RecordHash r1 ≠ "" ∧
    au_PreviousHash r2 = au_RecordHash r1 ∧ au_PreviousHash r3 = au_RecordHash r1.
Proof.
  unfold forked. intros H. repeat case_match; try discriminate H. str_eqs. eauto 10.
Qed.

(** Times are compared as text, where "12:00:00.5Z" sorts before "12:00:00Z":
    of three records written in order at 12:00:00, half a second later and two
    hundred milliseconds after that, the third is chained to the first, like
    the second, and the chain forks. *)
Theorem audit_chain_forks :
  let t1 := example_time in
  let t2 := t1 + 500000000 in
  let t3 := t2 + 200000000 in
  let w id now t := (AppendAudit now (example_audit id now) t).2 in
  let spool := w "audit_spool.3" t3 (w "audit_spool.2" t2 (w "audit_spool.1" t1 [])) in
  t1 < t2 < t3 ∧
  ∃ r1 r2 r3, spool = [r1; r2; r3] ∧ au_RecordHash r1 ≠ "" ∧
    au_PreviousHash r2 = au_RecordHash r1 ∧ au_PreviousHash r3 = au_RecordHash r1.
Proof.
  cbv zeta. split; [unfold example_time, second; lia|].
  apply forked_true. vm_compute. reflexivity.
Qed.

(** ** Uploads *)

(** A record that was uploaded is never offered for upload again, an attempt
    that failed leaves it pending with one more retry and the error, and neither
    touches any other record. *)
Theorem upload_attempts id now message t :
  unique_keys au_ID t → id ∈ au_ID <$> t →
  let uploaded := (MarkAuditUploaded id now t).2 in
  let failed := (MarkAuditFailed id now message t).2 in
  (∀ r, r ∈ uploaded → au_ID r = id → au_Status r ≠ AuditPendingUpload) ∧
  (∀ r, r ∈ failed → au_ID r = id → au_Status r = AuditPendingUpload ∧
     au_LastError r = message ∧
     ∃ o, select_key au_ID id t = Some o ∧ au_RetryCount r = au_RetryCount o + 1) ∧
  (∀ r, au_ID r ≠ id → (r ∈ uploaded ↔ r ∈ t) ∧ (r ∈ failed ↔ r ∈ t)) ∧
  length uploaded = length t ∧ length failed = length t.
Proof.
  intros Hu Hid. cbv zeta. unfold MarkAuditUploaded, MarkAuditFailed, modify. cbn [snd].
  split_and!.
  - intros r (o & Ho & ->)%elem_of_update_rows. unfold has_key. by case_bool_decide.
  - intros r (o & Ho & ->)%elem_of_update_rows. unfold has_key. case_bool_decide as E; [|done].
    intros _. split_and!; [done..|]. exists o. split; [|done]. by apply select_key_elem.
  - intros r Hr. split; rewrite elem_of_update_rows; unfold has_key.
    + split; [|intros Hx; exists r; by rewrite bool_decide_eq_false_2].
      intros (o & Ho & ->). by case_bool_decide.
    + split; [|intros Hx; exists r; by rewrite bool_decide_eq_false_2].
      intros (o & Ho & ->). by case_bool_decide.
  - unfold update_rows. by rewrite length_fmap.
  - unfold update_rows. by rewrite length_fmap.
Qed.

Lemma upload_attempts_witness :
  let uploaded := (MarkAuditUploaded "audit_spool.1" 7 example_spool).2 in
  length uploaded = length example_spool ∧
  (au_Status <$> hd_error uploaded) ≠ Some AuditPendingUpload.
Proof.
  assert (Hu : unique_keys au_ID example_spool) by (vm_compute; repeat constructor; set_solver).
  assert (Hin : "audit_spool.1" ∈ au_ID <$> example_spool) by (vm_compute; by left).
  destruct (upload_attempts "audit_spool.1" 7 "" example_spool Hu Hin)
    as (H & _ & _ & Hlen & _).
  intros uploaded. split; [exact Hlen|]. fold uploaded in H.
  assert (Hid : au_ID <$> hd_error uploaded = Some "audit_spool.1") by (vm_compute; reflexivity).
  destruct uploaded as [|r l]; [discriminate Hid|]. injection Hid as Hid. intros [= Hst].
  apply (H r); [left|exact Hid|exact Hst].
Defined.
