(* ===== verification/SqliteAssignments.v ===== *)
(** * Bundle, assignment and credential tables ([internal/kliq/actionstate/sqlite.go])

    The cached runtime bundle, the assignment a KLIQ has activated with its
    artifacts, its credential and the trust bundles it keeps.
    [SaveManagedBundleActivation] replaces bundle, assignment and artifacts in
    one transaction. *)

From stdpp Require Import options.
From S2P Require Import Prelude IO Table GoStrings GoTime GoJson Signing Domain Artifacts.
From S2P Require Import StateTypes SqliteLeases.
#[local] Open Scope Z_scope.

Record LocalTrustBundleRow := {
  ltb_KeyID : string;
  ltb_BundleJSON : string;
  ltb_PersistedAt : string;
}.

(** [bundle_cache] and [kliq_credentials] hold at most the row with id 1. *)
Record AssignmentTables := {
  t_bundle : option BundleRecordRow;
  t_management : list KLIQManagementStateRow;
  t_artifacts : list AssignmentArtifactRecordRow;
  t_active : list ActiveArtifactRecordRow;
  t_credential : option KLIQCredentialRow;
  t_trust : list LocalTrustBundleRow;
}.

Definition with_bundle (b : option BundleRecordRow) (db : AssignmentTables) : AssignmentTables :=
  {| t_bundle := b; t_management := t_management db; t_artifacts := t_artifacts db;
     t_active := t_active db; t_credential := t_credential db; t_trust := t_trust db |}.
Definition with_management (m : list KLIQManagementStateRow) (db : AssignmentTables)
    : AssignmentTables :=
  {| t_bundle := t_bundle db; t_management := m; t_artifacts := t_artifacts db;
     t_active := t_active db; t_credential := t_credential db; t_trust := t_trust db |}.
Definition with_artifacts (a : list AssignmentArtifactRecordRow) (db : AssignmentTables)
    : AssignmentTables :=
  {| t_bundle := t_bundle db; t_management := t_management db; t_artifacts := a;
     t_active := t_active db; t_credential := t_credential db; t_trust := t_trust db |}.
Definition with_active (a : list ActiveArtifactRecordRow) (db : AssignmentTables)
    : AssignmentTables :=
  {| t_bundle := t_bundle db; t_management := t_management db; t_artifacts := t_artifacts db;
     t_active := a; t_credential := t_credential db; t_trust := t_trust db |}.
Definition with_credential (c : option KLIQCredentialRow) (db : AssignmentTables)
    : AssignmentTables :=
  {| t_bundle := t_bundle db; t_management := t_management db; t_artifacts := t_artifacts db;
     t_active := t_active db; t_credential := c; t_trust := t_trust db |}.
Definition with_trust (t : list LocalTrustBundleRow) (db : AssignmentTables) : AssignmentTables :=
  {| t_bundle := t_bundle db; t_management := t_management db; t_artifacts := t_artifacts db;
     t_active := t_active db; t_credential := t_credential db; t_trust := t |}.

(** ** Keys *)

Definition artifact_key {T} (r : AssignmentArtifactRecordOf T) : string * string * string * string :=
  (aar_KLIQID r, aar_AssignmentID r, aar_ArtifactType r, aar_ArtifactID r).

Definition active_key {T} (r : ActiveArtifactRecordOf T) : string * string :=
  (act_KLIQID r, act_ArtifactType r).

(** ** Rows *)

Definition bundle_row (r : BundleRecord) : BundleRecordRow :=
  bun_retime r (formatTime (bun_ExpiresAt r)) (formatTime (bun_VerifiedAt r)).

Definition management_row (s : KLIQManagementState) : KLIQManagementStateRow :=
  ms_retime s (formatTime (ms_ActiveAssignmentExpiresAt s))
    (formatTime (ms_ActiveAssignmentActivatedAt s)).

Definition artifact_row (r : AssignmentArtifactRecord) : AssignmentArtifactRecordRow :=
  aar_retime r (formatTime (aar_ActivatedAt r)).

Definition active_row (r : AssignmentArtifactRecord) (payload : string)
    : ActiveArtifactRecordRow := {|
  act_KLIQID := aar_KLIQID r;
  act_ArtifactType := aar_ArtifactType r;
  act_ArtifactID := aar_ArtifactID r;
  act_SHA256 := aar_SHA256 r;
  act_PayloadJSON := payload;
  act_ActivatedAt := formatTime (aar_ActivatedAt r);
|}.

(** [json.Marshal(bundle)] *)
Definition encode_TrustBundle (b : TrustBundle) : result string :=
  expiresAt ← json_time (tb_ExpiresAt b);
  Ok (json_encode (JObj
    [("key_id", JStr (tb_KeyID b));
     ("public_key", JStr (tb_PublicKey b));
     ("purpose", JStr (tb_Purpose b));
     ("status", JStr (tb_Status b));
     ("expires_at", expiresAt);
     ("issuer", JStr (tb_Issuer b))])).

(** ** Local trust bundles *)

Definition upsert_trust (bundle : TrustBundle) (persistedAt : time)
    (t : list LocalTrustBundleRow) : result (list LocalTrustBundleRow) :=
  data ← encode_TrustBundle bundle;
  Ok (upsert_row ltb_KeyID (λ _ r, r)
        {| ltb_KeyID := tb_KeyID bundle; ltb_BundleJSON := data;
           ltb_PersistedAt := formatTime persistedAt |} t).

(** [wall] is [time.Now().UTC()], here and below. *)
Definition SaveLocalTrustBundle (wall : time) (bundle : TrustBundle) (persistedAt : time)
    : io AssignmentTables unit :=
  transaction (λ db,
    reject empty_str (tb_KeyID bundle) || empty_str (tb_PublicKey bundle)
      with Errorf "local trust bundle requires key_id and public_key" [];;
    t ← upsert_trust bundle (if IsZero persistedAt then wall else persistedAt) (t_trust db);
    Ok (tt, with_trust t db)).

(** ** Bundle, management state, credential *)

Definition SaveBundle (record : BundleRecord) : io AssignmentTables unit :=
  modify (with_bundle (Some (bundle_row record))).

Definition LastBundle (db : AssignmentTables) : result BundleRecord :=
  match t_bundle db with
  | None => Err ErrNotFound
  | Some r =>
      expiresAt ← parseTime (bun_ExpiresAt r);
      verifiedAt ← parseTime (bun_VerifiedAt r);
      Ok (bun_retime r expiresAt verifiedAt)
  end.

Definition validateKLIQManagementState (state : KLIQManagementState) : result unit :=
  reject empty_str (ms_KLIQID state)
    with Errorf "kliq management state requires kliq_id" [];;
  reject empty_str (ms_ActiveAssignmentID state)
    with Errorf "kliq management state requires active_assignment_id" [];;
  reject ms_ActiveAssignmentVersion state <=? 0
    with Errorf "kliq management state requires positive active_assignment_version" [];;
  reject empty_str (ms_ActiveAssignmentSourceCommit state)
    with Errorf "kliq management state requires active_assignment_source_commit" [];;
  reject empty_str (ms_ActiveAssignmentDigest state)
    with Errorf "kliq management state requires active_assignment_digest" [];;
  reject IsZero (ms_ActiveAssignmentExpiresAt state)
    with Errorf "kliq management state requires active_assignment_expires_at" [];;
  reject IsZero (ms_ActiveAssignmentActivatedAt state)
    with Errorf "kliq management state requires active_assignment_activated_at" [];;
  Ok tt.

Definition SaveKLIQManagementState (state : KLIQManagementState) : io AssignmentTables unit :=
  transaction (λ db,
    _ ← validateKLIQManagementState state;
    Ok (tt, with_management
      (upsert_row ms_KLIQID (λ _ r, r) (management_row state) (t_management db)) db)).

Definition scan_management (r : KLIQManagementStateRow) : result KLIQManagementState :=
  expiresAt ← parseTime (ms_ActiveAssignmentExpiresAt r);
  activatedAt ← parseTime (ms_ActiveAssignmentActivatedAt r);
  Ok (ms_retime r expiresAt activatedAt).

Definition get_KLIQManagementState (kliqID : string) (db : AssignmentTables)
    : result KLIQManagementState :=
  match select_key ms_KLIQID kliqID (t_management db) with
  | None => Err ErrNotFound
  | Some r => scan_management r
  end.

Section assignments.
Context {GR : GoRuntime} {JD : JSONDecoders}.

(** [json.Unmarshal] into a struct with the field [payload] only. *)
Context (decode_EnvelopePayload : string → result string).

Definition LastLocalTrustBundle (db : AssignmentTables) : result TrustBundle :=
  match sort_by (λ a b, str_leb (ltb_PersistedAt b) (ltb_PersistedAt a)) (t_trust db) with
  | [] => Err ErrNotFound
  | r :: _ => decode_TrustBundle (ltb_BundleJSON r)
  end.

Definition credential_required (c : KLIQCredential) : list (string * string) :=
  [("kliq_id", cred_KLIQID c);
   ("node_id", cred_NodeID c);
   ("environment", cred_Environment c);
   ("stage", cred_Stage c);
   ("scope", cred_Scope c);
   ("trust_key_id", cred_TrustKeyID c);
   ("assignment_url", cred_AssignmentURL c);
   ("public_key_pem", cred_PublicKeyPEM c);
   ("private_key_pem", cred_PrivateKeyPEM c);
   ("service_token", cred_ServiceToken c)].

(** The row of a credential with the defaults filled in; an existing row keeps
    its creation time. *)
Definition credential_row (wall : time) (c : KLIQCredential) (old : option KLIQCredentialRow)
    : KLIQCredentialRow :=
  let createdAt := if IsZero (cred_CreatedAt c) then wall else cred_CreatedAt c in
  let updatedAt := if IsZero (cred_UpdatedAt c) then createdAt else cred_UpdatedAt c in
  {| cred_KLIQID := cred_KLIQID c;
     cred_NodeID := cred_NodeID c;
     cred_Environment := cred_Environment c;
     cred_Stage := cred_Stage c;
     cred_Scope := cred_Scope c;
     cred_TrustKeyID := cred_TrustKeyID c;
     cred_AssignmentURL := cred_AssignmentURL c;
     cred_PublicKeyPEM := cred_PublicKeyPEM c;
     cred_PrivateKeyPEM := cred_PrivateKeyPEM c;
     cred_ServiceIdentityProvider :=
       if blank (cred_ServiceIdentityProvider c) then "dev-local-signed-token"
       else cred_ServiceIdentityProvider c;
     cred_SPIFFEID := cred_SPIFFEID c;
     cred_CredentialStatus :=
       if blank (cred_CredentialStatus c) then "active" else cred_CredentialStatus c;
     cred_ServiceToken := cred_ServiceToken c;
     cred_ServiceTokenExpiresAt := formatTime (cred_ServiceTokenExpiresAt c);
     cred_CreatedAt :=
       match old with Some o => cred_CreatedAt o | None => formatTime createdAt end;
     cred_UpdatedAt := formatTime updatedAt |}.

Definition SaveKLIQCredential (wall : time) (credential : KLIQCredential)
    : io AssignmentTables unit :=
  transaction (λ db,
    _ ← require (λ field, Errorf "kliq credential requires %s" [AStr field])
          (credential_required credential);
    reject IsZero (cred_ServiceTokenExpiresAt credential)
      with Errorf "kliq credential requires service_token_expires_at" [];;
    Ok (tt, with_credential (Some (credential_row wall credential (t_credential db))) db)).

Definition get_KLIQCredential (db : AssignmentTables) : result KLIQCredential :=
  match t_credential db with
  | None => Err ErrNotFound
  | Some r =>
      tokenExpiresAt ← parseTime (cred_ServiceTokenExpiresAt r);
      createdAt ← parseTime (cred_CreatedAt r);
      updatedAt ← parseTime (cred_UpdatedAt r);
      Ok (cred_retime r tokenExpiresAt createdAt updatedAt)
  end.

(** ** Activation of an assignment *)

Definition artifact_required (record : AssignmentArtifactRecord) : list (string * string) :=
  [("kliq_id", aar_KLIQID record);
   ("assignment_id", aar_AssignmentID record);
   ("artifact_type", aar_ArtifactType record);
   ("artifact_id", aar_ArtifactID record);
   ("sha256", aar_SHA256 record);
   ("status", aar_ActivationStatus record)].

Definition validateAssignmentArtifactRecord (record : AssignmentArtifactRecord) : result unit :=
  _ ← require (λ field, Errorf "assignment artifact record requires %s" [AStr field])
        (artifact_required record);
  reject aar_AssignmentVersion record <=? 0
    with Errorf "assignment artifact record requires positive assignment_version" [];;
  reject empty_str (aar_EnvelopeJSON record)
    with Errorf "assignment artifact record requires envelope_json" [];;
  reject IsZero (aar_ActivatedAt record)
    with Errorf "assignment artifact record requires activated_at" [];;
  Ok tt.

Definition signedEnvelopePayload (envelopeJSON : string) : result string :=
  payload ← decode_EnvelopePayload envelopeJSON;
  reject empty_str payload with Errorf "signed envelope has empty payload" [];;
  Ok payload.

Definition saveAssignmentTrustBundle (wall : time) (payload : string)
    (activatedAt verifiedAt : time) (t : list LocalTrustBundleRow)
    : result (list LocalTrustBundleRow) :=
  bundle ← decode_TrustBundle payload;
  if (tb_Purpose bundle !=s "assignment_verification") || (tb_Status bundle !=s "active")
  then Ok t else
  reject empty_str (tb_KeyID bundle) || empty_str (tb_PublicKey bundle)
    with Errorf "local assignment trust bundle requires key_id and public_key" [];;
  let persistedAt := if IsZero activatedAt then verifiedAt else activatedAt in
  upsert_trust bundle (if IsZero persistedAt then wall else persistedAt) t.

(** The body of the loop over the artifacts. *)
Definition activate_artifact (wall verifiedAt : time) (db : AssignmentTables)
    (artifact : AssignmentArtifactRecord) : result AssignmentTables :=
  artifacts ← insert_row artifact_key "kliq_assignment_artifacts" (artifact_row artifact)
                (t_artifacts db);
  payload ← signedEnvelopePayload (aar_EnvelopeJSON artifact);
  active ← insert_row active_key "kliq_active_artifacts.kliq_id, kliq_active_artifacts.artifact_type"
             (active_row artifact payload) (t_active db);
  trust ← if aar_ArtifactType artifact ==s "trust_bundle"
          then saveAssignmentTrustBundle wall payload (aar_ActivatedAt artifact) verifiedAt
                 (t_trust db)
          else Ok (t_trust db);
  Ok (with_trust trust (with_active active (with_artifacts artifacts db))).

Definition SaveManagedBundleActivation (wall : time) (record : BundleRecord)
    (state : KLIQManagementState) (artifacts : list AssignmentArtifactRecord)
    : io AssignmentTables unit :=
  transaction (λ db,
    _ ← validateKLIQManagementState state;
    _ ← for_each validateAssignmentArtifactRecord artifacts;
    let db := with_bundle (Some (bundle_row record)) db in
    let db := with_management
      (upsert_row ms_KLIQID (λ _ r, r) (management_row state) (t_management db)) db in
    let db := with_artifacts
      (delete_rows (λ r, aar_KLIQID r ==s ms_KLIQID state) (t_artifacts db)) db in
    let db := with_active
      (delete_rows (λ r, act_KLIQID r ==s ms_KLIQID state) (t_active db)) db in
    db ← for_fold (activate_artifact wall (bun_VerifiedAt record)) db artifacts;
    Ok (tt, db)).

Definition AssignmentArtifacts (kliqID : string) (db : AssignmentTables)
    : result (list AssignmentArtifactRecord) :=
  scan_rows (λ r, activatedAt ← parseTime (aar_ActivatedAt r); Ok (aar_retime r activatedAt))
    (sort_by (λ a b, if aar_ArtifactType a ==s aar_ArtifactType b
                     then str_leb (aar_ArtifactID a) (aar_ArtifactID b)
                     else str_leb (aar_ArtifactType a) (aar_ArtifactType b))
       (List.filter (λ r, aar_KLIQID r ==s kliqID) (t_artifacts db))).

Definition ActiveArtifact (kliqID artifactType : string) (db : AssignmentTables)
    : result ActiveArtifactRecord :=
  match select_key active_key (kliqID, artifactType) (t_active db) with
  | None => Err ErrNotFound
  | Some r => activatedAt ← parseTime (act_ActivatedAt r); Ok (act_retime r activatedAt)
  end.
End assignments.

(** ** What an activation leaves behind *)
Section activation.
Context {GR : GoRuntime} {JD : JSONDecoders}.
Context (decode_EnvelopePayload : string → result string).
#[local] Abbreviation activate := (activate_artifact decode_EnvelopePayload).
#[local] Abbreviation save := (SaveManagedBundleActivation decode_EnvelopePayload).

Lemma activate_artifact_Ok wall v db artifact db' :
  activate wall v db artifact = Ok db' →
  ∃ payload,
    signedEnvelopePayload decode_EnvelopePayload (aar_EnvelopeJSON artifact) = Ok payload ∧
    active_key (active_row artifact payload) ∉ active_key <$> t_active db ∧
    t_artifacts db' = t_artifacts db ++ [artifact_row artifact] ∧
    t_active db' = t_active db ++ [active_row artifact payload] ∧
    t_bundle db' = t_bundle db ∧ t_management db' = t_management db ∧
    t_credential db' = t_credential db.
Proof.
  unfold activate_artifact. intros H.
  apply bind_Ok in H as (as' & Ha & H). apply insert_row_Ok in Ha as [_ ->].
  apply bind_Ok in H as (payload & Hp & H).
  apply bind_Ok in H as (ac & Hac & H). apply insert_row_Ok in Hac as [Hac ->].
  apply bind_Ok in H as (tr & _ & [= <-]). exists payload. done.
Qed.

Lemma activate_all_Ok wall v db artifacts db' :
  for_fold (activate wall v) db artifacts = Ok db' →
  ∃ payloads,
    Forall2 (λ a p, signedEnvelopePayload decode_EnvelopePayload (aar_EnvelopeJSON a) = Ok p)
      artifacts payloads ∧
    t_artifacts db' = t_artifacts db ++ (artifact_row <$> artifacts) ∧
    t_active db' = t_active db ++ zip_with active_row artifacts payloads ∧
    (unique_keys active_key (t_active db) → unique_keys active_key (t_active db')) ∧
    t_bundle db' = t_bundle db ∧ t_management db' = t_management db ∧
    t_credential db' = t_credential db.
Proof.
  revert db. induction artifacts as [|a artifacts IH]; intros db; simpl.
  - intros [= <-]. exists []. rewrite !app_nil_r. done.
  - destruct (activate wall v db a) as [db1|] eqn:Ha; [|done]. intros H.
    apply activate_artifact_Ok in Ha as (p & Hp & Hfresh & E1 & E2 & E3 & E4 & E5).
    apply IH in H as (ps & Hps & F1 & F2 & F3 & F4 & F5 & F6).
    exists (p :: ps). split_and!; [by constructor| | | |congruence..].
    + rewrite F1, E1, <- app_assoc. done.
    + rewrite F2, E2, <- app_assoc. done.
    + intros Hu. apply F3. rewrite E2.
      apply (insert_row_unique active_key "" (active_row a p) (t_active db)); [|done].
      by apply insert_row_Ok.
Qed.

Lemma zip_active_keys artifacts payloads :
  length artifacts = length payloads →
  active_key <$> zip_with active_row artifacts payloads =
  (λ a, (aar_KLIQID a, aar_ArtifactType a)) <$> artifacts.
Proof.
  revert payloads. induction artifacts as [|a artifacts IH]; intros [|p ps]; simpl; try done.
  intros [= H]. f_equal. by apply IH.
Qed.

Lemma save_Ok wall record state artifacts db db' :
  save wall record state artifacts db = (Ok tt, db') →
  validateKLIQManagementState state = Ok tt ∧
  Forall (λ a, validateAssignmentArtifactRecord a = Ok tt) artifacts ∧
  ∃ payloads,
    Forall2 (λ a p, signedEnvelopePayload decode_EnvelopePayload (aar_EnvelopeJSON a) = Ok p)
      artifacts payloads ∧
    t_artifacts db' =
      delete_rows (λ r, aar_KLIQID r ==s ms_KLIQID state) (t_artifacts db) ++
      (artifact_row <$> artifacts) ∧
    t_active db' =
      delete_rows (λ r, act_KLIQID r ==s ms_KLIQID state) (t_active db) ++
      zip_with active_row artifacts payloads ∧
    (unique_keys active_key (t_active db) → unique_keys active_key (t_active db')) ∧
    t_bundle db' = Some (bundle_row record) ∧
    t_management db' =
      upsert_row ms_KLIQID (λ _ r, r) (management_row state) (t_management db) ∧
    t_credential db' = t_credential db.
Proof.
  unfold SaveManagedBundleActivation. intros H. apply transaction_Ok in H. cbv zeta in H.
  apply bind_Ok in H as ([] & Hv & H). apply bind_Ok in H as ([] & Ha & H).
  apply bind_Ok in H as (db1 & Hf & [= <-]).
  split; [done|]. split; [by apply for_each_Ok|].
  apply activate_all_Ok in Hf as (ps & Hps & F1 & F2 & F3 & F4 & F5 & F6).
  exists ps. split_and!; try done. intros Hu. apply F3. simpl. by apply delete_rows_unique.
Qed.

(** Activating an assignment is all or nothing.  If it succeeds, the cached
    bundle and the management state are the new ones, and the artifacts the store
    holds, staged and active, are exactly the assignment's and those of other
    KLIQs, the payloads being what the envelopes carry; if it fails, nothing
    changed. *)
Theorem activation_all_or_nothing wall record state artifacts db :
  unique_keys ms_KLIQID (t_management db) →
  match save wall record state artifacts db with
  | (Ok _, db') =>
      t_bundle db' = Some (bundle_row record) ∧
      select_key ms_KLIQID (ms_KLIQID state) (t_management db') = Some (management_row state) ∧
      (∀ r, r ∈ t_artifacts db' ↔
         (r ∈ t_artifacts db ∧ aar_KLIQID r ≠ ms_KLIQID state) ∨
         (∃ a, a ∈ artifacts ∧ r = artifact_row a)) ∧
      (∀ r, r ∈ t_active db' ↔
         (r ∈ t_active db ∧ act_KLIQID r ≠ ms_KLIQID state) ∨
         (∃ a p, a ∈ artifacts ∧ r = active_row a p ∧
            signedEnvelopePayload decode_EnvelopePayload (aar_EnvelopeJSON a) = Ok p)) ∧
      t_credential db' = t_credential db
  | (Err _, db') => db' = db
  end.
Proof.
  intros Hu. destruct (save wall record state artifacts db) as [[[]|e] db'] eqn:H.
  - apply save_Ok in H as (_ & _ & ps & Hps & E1 & E2 & _ & E3 & E4 & E5).
    split_and!; [done| | | |done].
    + rewrite E4. etrans; [by apply (select_upsert_row (@ms_KLIQID string) _ (management_row state))|].
      by destruct (select_key _ _ _).
    + intros r. rewrite E1, elem_of_app, elem_of_delete_rows, String.eqb_neq, list_elem_of_fmap.
      naive_solver.
    + intros r. rewrite E2, elem_of_app, elem_of_delete_rows, String.eqb_neq.
      f_equiv. split.
      * intros Hr. apply elem_of_lookup_zip_with in Hr as (i & a & p & -> & Ha & Hp).
        exists a, p. split_and!; [by eapply list_elem_of_lookup_2|done|].
        exact (Forall2_lookup_lr _ _ _ _ _ _ Hps Ha Hp).
      * intros (a & p & Ha & -> & Hp). apply list_elem_of_lookup in Ha as [i Ha].
        destruct (Forall2_lookup_l _ _ _ _ _ Hps Ha) as (p' & Hp' & E).
        rewrite Hp in E. injection E as ->.
        apply elem_of_lookup_zip_with. by exists i, a, p'.
  - unfold SaveManagedBundleActivation in H. by apply transaction_Err in H as [_ ->].
Qed.

(** An assignment that carries two artifacts of one type for the KLIQ is never
    activated: the store refuses it, whatever the assignment and the state are. *)
Theorem activation_one_artifact_per_type wall record state artifacts db a1 a2 i j :
  unique_keys active_key (t_active db) →
  artifacts !! i = Some a1 → artifacts !! j = Some a2 → i ≠ j →
  aar_KLIQID a1 = aar_KLIQID a2 → aar_ArtifactType a1 = aar_ArtifactType a2 →
  ∃ e, save wall record state artifacts db = (Err e, db).
Proof.
  intros Hu H1 H2 Hij Hk Ht.
  destruct (save wall record state artifacts db) as [[[]|e] db'] eqn:H.
  - exfalso. apply save_Ok in H as (_ & _ & ps & Hps & _ & E2 & Hu' & _).
    specialize (Hu' Hu). unfold unique_keys in Hu'. rewrite E2, fmap_app in Hu'.
    apply NoDup_app in Hu' as (_ & _ & Hn).
    rewrite zip_active_keys in Hn by (by eapply Forall2_length).
    apply Hij, (NoDup_lookup _ _ _ (aar_KLIQID a1, aar_ArtifactType a1) Hn);
      rewrite list_lookup_fmap; [by rewrite H1|]. rewrite H2. simpl. by rewrite Hk, Ht.
  - exists e. f_equal. unfold SaveManagedBundleActivation in H.
    by apply transaction_Err in H as [_ ->].
Qed.
End activation.
