(* ===== verification/Baseline.v ===== *)
(** * Baselines ([internal/kliq/baseline])

    The records of the baseline store and the validation of a promotion
    decision. *)

From stdpp Require Import options.
From S2P Require Import Prelude GoStrings GoTime GoDuration GoJson.
#[local] Open Scope Z_scope.

Record Key := {
  key_View : string;
  key_Entity : string;
}.

Record Sample := {
  smp_Key : Key;
  smp_Metric : string;
  smp_Value : float64;
  smp_ObservedAt : time;
}.

Record VersionRef := {
  ver_VersionID : string;
  ver_View : string;
  ver_Entity : string;
  ver_CreatedAt : time;
  ver_PromotedAt : time;
}.

Definition PromotionActionPromote := "promote".
Definition PromotionActionReject := "reject".
Definition PromotionActionRollback := "rollback".

Record PromotionDecision := {
  pd_DecisionID : string;
  pd_VersionID : string;
  pd_PreviousVersionID : string;
  pd_Action : string;
  pd_ApprovedBy : string;
  pd_ApprovedAt : time;
  pd_Reason : string;
}.

Record Stats := {
  sta_VersionID : string;
  sta_Key : Key;
  sta_Metric : string;
  sta_Center : float64;
  sta_Spread : float64;
  sta_SampleCount : Z;
  sta_FrozenAt : time;
}.

Record Window := {
  win_WindowID : string;
  win_Key : Key;
  win_Metric : string;
  win_StartedAt : time;
  win_EndedAt : time;
  win_SampleCount : Z;
  win_Confidence : float64;
  win_Clean : bool;
  win_AnomalyFraction : float64;
}.

Record DeviationEvent := {
  dev_EventID : string;
  dev_VersionID : string;
  dev_Key : Key;
  dev_Metric : string;
  dev_Value : float64;
  dev_Center : float64;
  dev_Spread : float64;
  dev_Score : float64;
  dev_ObservedAt : time;
  dev_EmittedAt : time;
  dev_Reason : string;
  dev_Confidence : float64;
  dev_RiskRecipe : string;
  dev_PolicyScope : string;
}.

(** [PromotionDecision.Validate] *)
Definition Decision_Validate (d : PromotionDecision) : result unit :=
  reject blank (pd_DecisionID d)
    with Errorf "baseline promotion decision requires decision_id" [];;
  reject blank (pd_VersionID d)
    with Errorf "baseline promotion decision requires version_id" [];;
  let action := trim_space (pd_Action d) in
  reject (action !=s PromotionActionPromote) && (action !=s PromotionActionReject) &&
         (action !=s PromotionActionRollback)
    with Errorf "baseline promotion decision action %q is unsupported" [AStr (pd_Action d)];;
  reject blank (pd_ApprovedBy d)
    with Errorf "baseline promotion decision requires approved_by" [];;
  reject IsZero (pd_ApprovedAt d)
    with Errorf "baseline promotion decision requires approved_at" [];;
  reject blank (pd_Reason d)
    with Errorf "baseline promotion decision requires reason" [];;
  Ok tt.

(** [json.Marshal]; [omitempty] has no effect on a [time.Time]. *)
Definition encode_VersionRef (v : VersionRef) : result string :=
  createdAt ← json_time (ver_CreatedAt v);
  promotedAt ← json_time (ver_PromotedAt v);
  Ok (json_encode (JObj
    [("version_id", JStr (ver_VersionID v));
     ("view", JStr (ver_View v));
     ("entity", JStr (ver_Entity v));
     ("created_at", createdAt);
     ("promoted_at", promotedAt)])).

Definition encode_PromotionDecision (d : PromotionDecision) : result string :=
  approvedAt ← json_time (pd_ApprovedAt d);
  Ok (json_encode (JObj
    ([("decision_id", JStr (pd_DecisionID d)); ("version_id", JStr (pd_VersionID d))] ++
     (if empty_str (pd_PreviousVersionID d) then []
      else [("previous_version_id", JStr (pd_PreviousVersionID d))]) ++
     [("action", JStr (pd_Action d));
      ("approved_by", JStr (pd_ApprovedBy d));
      ("approved_at", approvedAt);
      ("reason", JStr (pd_Reason d))]))).
