(* ===== verification/SqliteBaseline.v ===== *)
(** * Baseline tables and risk cache ([internal/kliq/actionstate/sqlite.go])

    Baseline versions are saved unpromoted; an approved decision promotes one
    version of a view and entity and demotes the others.  The risk cache
    answers with a fresh context or an unknown one. *)

From stdpp Require Import options.
From S2P Require Import Prelude IO Table GoStrings GoTime GoDuration Risk StateTypes SqliteLeases.
From S2P Require Import Baseline.
#[local] Open Scope Z_scope.

(** JSON columns: decoders, and the encoders of values with floats. *)
Class StateCodecs := {
  decode_VersionRef : string → result VersionRef;
  decode_PromotionDecision : string → result PromotionDecision;
  decode_Stats : string → result Stats;
  decode_RiskContext : string → result RiskContext;
  encode_Window : Window → result string;
  encode_Stats : Stats → result string;
  encode_DeviationEvent : DeviationEvent → result string;
  encode_RiskContext : RiskContext → result string;
}.

Record BaselineWindowRow := {
  bw_WindowID : string;
  bw_View : string;
  bw_Entity : string;
  bw_Metric : string;
  bw_StartedAt : string;
  bw_EndedAt : string;
  bw_SampleCount : Z;
  bw_Confidence : float64;
  bw_Clean : Z;
  bw_AnomalyFraction : float64;
  bw_WindowJSON : string;
}.

Record BaselineVersionRow := {
  bv_VersionID : string;
  bv_View : string;
  bv_Entity : string;
  bv_CreatedAt : string;
  bv_PromotedAt : string;
  bv_VersionJSON : string;
}.

Record BaselineStatsRow := {
  bs_VersionID : string;
  bs_View : string;
  bs_Entity : string;
  bs_Metric : string;
  bs_Center : float64;
  bs_Spread : float64;
  bs_SampleCount : Z;
  bs_FrozenAt : string;
  bs_StatsJSON : string;
}.

Record BaselineDeviationRow := {
  bd_EventID : string;
  bd_VersionID : string;
  bd_View : string;
  bd_Entity : string;
  bd_Metric : string;
  bd_Value : float64;
  bd_Center : float64;
  bd_Spread : float64;
  bd_Score : float64;
  bd_ObservedAt : string;
  bd_EmittedAt : string;
  bd_EventJSON : string;
}.

Record BaselineDecisionRow := {
  bp_DecisionID : string;
  bp_VersionID : string;
  bp_PreviousVersionID : string;
  bp_Action : string;
  bp_ApprovedBy : string;
  bp_ApprovedAt : string;
  bp_Reason : string;
  bp_DecisionJSON : string;
}.

Record BaselineTables := {
  t_windows : list BaselineWindowRow;
  t_versions : list BaselineVersionRow;
  t_stats : list BaselineStatsRow;
  t_deviations : list BaselineDeviationRow;
  t_promotions : list BaselineDecisionRow;
}.

Definition with_windows w db := {| t_windows := w; t_versions := t_versions db;
  t_stats := t_stats db; t_deviations := t_deviations db; t_promotions := t_promotions db |}.
Definition with_versions v db := {| t_windows := t_windows db; t_versions := v;
  t_stats := t_stats db; t_deviations := t_deviations db; t_promotions := t_promotions db |}.
Definition with_stats s db := {| t_windows := t_windows db; t_versions := t_versions db;
  t_stats := s; t_deviations := t_deviations db; t_promotions := t_promotions db |}.
Definition with_deviations d db := {| t_windows := t_windows db; t_versions := t_versions db;
  t_stats := t_stats db; t_deviations := d; t_promotions := t_promotions db |}.
Definition with_promotions p db := {| t_windows := t_windows db; t_versions := t_versions db;
  t_stats := t_stats db; t_deviations := t_deviations db; t_promotions := p |}.

(** The unique index [baseline_versions_active]. *)
Definition active_index (r : BaselineVersionRow) : option (string * string) :=
  if empty_str (bv_PromotedAt r) then None else Some (bv_View r, bv_Entity r).

Definition stats_key (r : BaselineStatsRow) : string * string := (bs_VersionID r, bs_Metric r).

Section baselines.
Context {SC : StateCodecs}.

Definition SaveBaselineWindow (window : Window) : io BaselineTables unit :=
  transaction (λ db,
    reject empty_str (win_WindowID window) || empty_str (key_View (win_Key window)) ||
           empty_str (key_Entity (win_Key window)) || empty_str (win_Metric window)
      with Errorf "baseline window requires id, key and metric" [];;
    data ← encode_Window window;
    Ok (tt, with_windows (upsert_row bw_WindowID
      (λ o r, {| bw_WindowID := bw_WindowID o; bw_View := bw_View o; bw_Entity := bw_Entity o;
                 bw_Metric := bw_Metric o; bw_StartedAt := bw_StartedAt o;
                 bw_EndedAt := bw_EndedAt o; bw_SampleCount := bw_SampleCount o;
                 bw_Confidence := bw_Confidence o; bw_Clean := bw_Clean o;
                 bw_AnomalyFraction := bw_AnomalyFraction o;
                 bw_WindowJSON := bw_WindowJSON r |})
      {| bw_WindowID := win_WindowID window;
         bw_View := key_View (win_Key window);
         bw_Entity := key_Entity (win_Key window);
         bw_Metric := win_Metric window;
         bw_StartedAt := formatTime (win_StartedAt window);
         bw_EndedAt := formatTime (win_EndedAt window);
         bw_SampleCount := win_SampleCount window;
         bw_Confidence := win_Confidence window;
         bw_Clean := boolInt (win_Clean window);
         bw_AnomalyFraction := win_AnomalyFraction window;
         bw_WindowJSON := data |} (t_windows db)) db)).

(** [stat] with what it leaves empty taken from the version. *)
Definition complete_stats (version : VersionRef) (createdAt : time) (stat : Stats) : Stats := {|
  sta_VersionID := if empty_str (sta_VersionID stat) then ver_VersionID version
                   else sta_VersionID stat;
  sta_Key := {|
    key_View := if empty_str (key_View (sta_Key stat)) then ver_View version
                else key_View (sta_Key stat);
    key_Entity := if empty_str (key_Entity (sta_Key stat)) then ver_Entity version
                  else key_Entity (sta_Key stat) |};
  sta_Metric := sta_Metric stat;
  sta_Center := sta_Center stat;
  sta_Spread := sta_Spread stat;
  sta_SampleCount := sta_SampleCount stat;
  sta_FrozenAt := if IsZero (sta_FrozenAt stat) then createdAt else sta_FrozenAt stat;
|}.

Definition save_stats (version : VersionRef) (createdAt : time) (t : list BaselineStatsRow)
    (stat : Stats) : result (list BaselineStatsRow) :=
  let stat := complete_stats version createdAt stat in
  reject empty_str (sta_Metric stat) with Errorf "baseline stats require metric" [];;
  statData ← encode_Stats stat;
  Ok (upsert_row stats_key
    (λ o r, {| bs_VersionID := bs_VersionID o; bs_View := bs_View o; bs_Entity := bs_Entity o;
               bs_Metric := bs_Metric o; bs_Center := bs_Center r; bs_Spread := bs_Spread r;
               bs_SampleCount := bs_SampleCount r; bs_FrozenAt := bs_FrozenAt r;
               bs_StatsJSON := bs_StatsJSON r |})
    {| bs_VersionID := sta_VersionID stat;
       bs_View := key_View (sta_Key stat);
       bs_Entity := key_Entity (sta_Key stat);
       bs_Metric := sta_Metric stat;
       bs_Center := sta_Center stat;
       bs_Spread := sta_Spread stat;
       bs_SampleCount := sta_SampleCount stat;
       bs_FrozenAt := formatTime (sta_FrozenAt stat);
       bs_StatsJSON := statData |} t).

Definition set_promoted (promotedAt json : string) (o : BaselineVersionRow)
    : BaselineVersionRow := {|
  bv_VersionID := bv_VersionID o;
  bv_View := bv_View o;
  bv_Entity := bv_Entity o;
  bv_CreatedAt := bv_CreatedAt o;
  bv_PromotedAt := promotedAt;
  bv_VersionJSON := json;
|}.

(** [wall] is [time.Now().UTC()]. *)
Definition SaveBaselineVersion (wall : time) (version : VersionRef) (stats : list Stats)
    : io BaselineTables unit :=
  transaction (λ db,
    reject empty_str (ver_VersionID version) || empty_str (ver_View version) ||
           empty_str (ver_Entity version)
      with Errorf "baseline version requires id, view and entity" [];;
    reject negb (IsZero (ver_PromotedAt version))
      with Errorf "baseline version cannot be saved as promoted; use explicit promotion decision" [];;
    let createdAt := if IsZero (ver_CreatedAt version) then wall else ver_CreatedAt version in
    let version := {| ver_VersionID := ver_VersionID version; ver_View := ver_View version;
                      ver_Entity := ver_Entity version; ver_CreatedAt := createdAt;
                      ver_PromotedAt := ver_PromotedAt version |} in
    data ← encode_VersionRef version;
    let versions := upsert_row bv_VersionID (λ o r, set_promoted "" (bv_VersionJSON r) o)
      {| bv_VersionID := ver_VersionID version; bv_View := ver_View version;
         bv_Entity := ver_Entity version; bv_CreatedAt := formatTime createdAt;
         bv_PromotedAt := ""; bv_VersionJSON := data |} (t_versions db) in
    t ← for_fold (save_stats version createdAt) (t_stats db) stats;
    Ok (tt, with_stats t (with_versions versions db))).

(** [ORDER BY promoted_at DESC LIMIT 1]; the index leaves at most one row. *)
Definition activeBaselineVersion (view entity : string) (t : list BaselineVersionRow)
    : result (option VersionRef) :=
  match sort_by (λ a b, str_leb (bv_PromotedAt b) (bv_PromotedAt a))
          (List.filter (λ r, (bv_View r ==s view) && (bv_Entity r ==s entity) &&
                             (bv_PromotedAt r !=s "")) t) with
  | [] => Ok None
  | r :: _ => version ← decode_VersionRef (bv_VersionJSON r); Ok (Some version)
  end.

Definition ActiveBaselineVersion (view entity : string) (db : BaselineTables)
    : result (option VersionRef) := activeBaselineVersion view entity (t_versions db).

Definition baselineVersionByID (versionID : string) (t : list BaselineVersionRow)
    : result VersionRef :=
  match select_key bv_VersionID versionID t with
  | None => Err ErrNotFound
  | Some r => decode_VersionRef (bv_VersionJSON r)
  end.

Definition insertBaselinePromotionDecision (d : PromotionDecision)
    (t : list BaselineDecisionRow) : result (list BaselineDecisionRow) :=
  data ← encode_PromotionDecision d;
  insert_row bp_DecisionID "baseline_promotion_decisions.decision_id"
    {| bp_DecisionID := pd_DecisionID d; bp_VersionID := pd_VersionID d;
       bp_PreviousVersionID := pd_PreviousVersionID d; bp_Action := pd_Action d;
       bp_ApprovedBy := pd_ApprovedBy d; bp_ApprovedAt := formatTime (pd_ApprovedAt d);
       bp_Reason := pd_Reason d; bp_DecisionJSON := data |} t.

Definition with_action (action : string) (d : PromotionDecision) : PromotionDecision := {|
  pd_DecisionID := pd_DecisionID d; pd_VersionID := pd_VersionID d;
  pd_PreviousVersionID := pd_PreviousVersionID d; pd_Action := action;
  pd_ApprovedBy := pd_ApprovedBy d; pd_ApprovedAt := pd_ApprovedAt d; pd_Reason := pd_Reason d |}.

Definition with_previous (previous : string) (d : PromotionDecision) : PromotionDecision := {|
  pd_DecisionID := pd_DecisionID d; pd_VersionID := pd_VersionID d;
  pd_PreviousVersionID := previous; pd_Action := pd_Action d;
  pd_ApprovedBy := pd_ApprovedBy d; pd_ApprovedAt := pd_ApprovedAt d; pd_Reason := pd_Reason d |}.

(** The two [UPDATE]s: demote the view and entity, promote the version; the
    unique index is checked on the row that becomes promoted. *)
Definition promote_rows (version : VersionRef) (promotedAt data : string)
    (t : list BaselineVersionRow) : result (list BaselineVersionRow) :=
  let t := update_rows
    (λ r, (bv_View r ==s ver_View version) && (bv_Entity r ==s ver_Entity version))
    (λ r, set_promoted "" (bv_VersionJSON r) r) t in
  let p := has_key bv_VersionID (ver_VersionID version) in
  let t' := update_rows p (set_promoted promotedAt data) t in
  reject existsb (λ r, p r && index_conflict active_index r (delete_rows p t')) t'
    with unique_violation "baseline_versions.view, baseline_versions.entity";;
  Ok t'.

Definition PromoteBaselineVersion (decision : PromotionDecision)
    : io BaselineTables VersionRef :=
  transaction (λ db,
    let decision :=
      if empty_str (pd_Action decision) then with_action PromotionActionPromote decision
      else decision in
    reject (pd_Action decision !=s PromotionActionPromote) &&
           (pd_Action decision !=s PromotionActionRollback)
      with Errorf "baseline promotion requires promote or rollback action" [];;
    _ ← Decision_Validate decision;
    version ← baselineVersionByID (pd_VersionID decision) (t_versions db);
    previous ← if empty_str (pd_PreviousVersionID decision)
               then active ← activeBaselineVersion (ver_View version) (ver_Entity version)
                               (t_versions db);
                    Ok (match active with Some v => ver_VersionID v | None => "" end)
               else Ok (pd_PreviousVersionID decision);
    let decision := with_previous previous decision in
    let version := {| ver_VersionID := ver_VersionID version; ver_View := ver_View version;
                      ver_Entity := ver_Entity version; ver_CreatedAt := ver_CreatedAt version;
                      ver_PromotedAt := pd_ApprovedAt decision |} in
    data ← encode_VersionRef version;
    versions ← promote_rows version (formatTime (ver_PromotedAt version)) data (t_versions db);
    promotions ← insertBaselinePromotionDecision decision (t_promotions db);
    Ok (version, with_promotions promotions (with_versions versions db))).

Definition RejectBaselineVersion (decision : PromotionDecision) : io BaselineTables unit :=
  transaction (λ db,
    let decision := with_action PromotionActionReject decision in
    _ ← Decision_Validate decision;
    _ ← baselineVersionByID (pd_VersionID decision) (t_versions db);
    promotions ← insertBaselinePromotionDecision decision (t_promotions db);
    Ok (tt, with_promotions promotions db)).

Definition BaselinePromotionDecisions (db : BaselineTables) : result (list PromotionDecision) :=
  scan_rows (λ r, decode_PromotionDecision (bp_DecisionJSON r))
    (sort_by (λ a b, if bp_ApprovedAt a ==s bp_ApprovedAt b
                     then str_leb (bp_DecisionID a) (bp_DecisionID b)
                     else str_leb (bp_ApprovedAt a) (bp_ApprovedAt b)) (t_promotions db)).

Definition BaselineStats (versionID metric : string) (db : BaselineTables) : result Stats :=
  match select_key stats_key (versionID, metric) (t_stats db) with
  | None => Err ErrNotFound
  | Some r => decode_Stats (bs_StatsJSON r)
  end.

Definition with_emitted (emittedAt : time) (e : DeviationEvent) : DeviationEvent := {|
  dev_EventID := dev_EventID e; dev_VersionID := dev_VersionID e; dev_Key := dev_Key e;
  dev_Metric := dev_Metric e; dev_Value := dev_Value e; dev_Center := dev_Center e;
  dev_Spread := dev_Spread e; dev_Score := dev_Score e; dev_ObservedAt := dev_ObservedAt e;
  dev_EmittedAt := emittedAt; dev_Reason := dev_Reason e; dev_Confidence := dev_Confidence e;
  dev_RiskRecipe := dev_RiskRecipe e; dev_PolicyScope := dev_PolicyScope e |}.

Definition SaveBaselineDeviation (wall : time) (event : DeviationEvent)
    : io BaselineTables unit :=
  transaction (λ db,
    reject empty_str (dev_EventID event) || empty_str (dev_VersionID event) ||
           empty_str (key_View (dev_Key event)) || empty_str (key_Entity (dev_Key event)) ||
           empty_str (dev_Metric event)
      with Errorf "baseline deviation requires id, version, key and metric" [];;
    let event := if IsZero (dev_EmittedAt event) then with_emitted wall event else event in
    data ← encode_DeviationEvent event;
    Ok (tt, with_deviations (upsert_row bd_EventID
      (λ o r, {| bd_EventID := bd_EventID o; bd_VersionID := bd_VersionID o;
                 bd_View := bd_View o; bd_Entity := bd_Entity o; bd_Metric := bd_Metric o;
                 bd_Value := bd_Value o; bd_Center := bd_Center o; bd_Spread := bd_Spread o;
                 bd_Score := bd_Score o; bd_ObservedAt := bd_ObservedAt o;
                 bd_EmittedAt := bd_EmittedAt o; bd_EventJSON := bd_EventJSON r |})
      {| bd_EventID := dev_EventID event; bd_VersionID := dev_VersionID event;
         bd_View := key_View (dev_Key event); bd_Entity := key_Entity (dev_Key event);
         bd_Metric := dev_Metric event; bd_Value := dev_Value event;
         bd_Center := dev_Center event; bd_Spread := dev_Spread event;
         bd_Score := dev_Score event; bd_ObservedAt := formatTime (dev_ObservedAt event);
         bd_EmittedAt := formatTime (dev_EmittedAt event); bd_EventJSON := data |}
      (t_deviations db)) db)).
End baselines.

(** ** Risk cache *)

Record RiskCacheKey := {
  rk_RiskType : string;
  rk_Scope : string;
}.

Record RiskCacheRow := {
  rr_RiskType : string;
  rr_Scope : string;
  rr_Tier : string;
  rr_EvaluatedAt : string;
  rr_ValidUntil : string;
  rr_Source : string;
  rr_ContextJSON : string;
}.

Definition risk_key (r : RiskCacheRow) : string * string := (rr_RiskType r, rr_Scope r).

Section risk_cache.
Context {GR : GoRuntime} {SC : StateCodecs}.

(** [ValidateContext] is called with the zero time: it reads the wall clock. *)
Definition SaveRiskContext (wall : time) (key : RiskCacheKey) (riskContext : RiskContext)
    : io (list RiskCacheRow) unit :=
  transaction (λ t,
    let riskType := NormalizeType (rk_RiskType key) in
    let riskType := if empty_str riskType then NormalizeType (rc_RiskType riskContext)
                    else riskType in
    let scope := if empty_str (rk_Scope key) then rc_Scope riskContext else rk_Scope key in
    _ ← match ValidateContext wall riskContext 0 with
        | Err e => if rc_Tier riskContext !=s TierUnknown then Err e else Ok tt
        | Ok _ => Ok tt
        end;
    data ← encode_RiskContext riskContext;
    Ok (tt, upsert_row risk_key (λ _ r, r)
      {| rr_RiskType := riskType; rr_Scope := scope; rr_Tier := rc_Tier riskContext;
         rr_EvaluatedAt := formatTime (rc_EvaluatedAt riskContext);
         rr_ValidUntil := formatTime (rc_ValidUntil riskContext);
         rr_Source := rc_Source riskContext; rr_ContextJSON := data |} t)).

(** [wall] is read only when [now] is the zero time. *)
Definition get_RiskContext (wall : time) (key : RiskCacheKey) (now : time)
    (t : list RiskCacheRow) : result RiskContext :=
  let riskType := NormalizeType (rk_RiskType key) in
  let scope := if empty_str (rk_Scope key) then ScopeLocal else rk_Scope key in
  match select_key risk_key (riskType, scope) t with
  | None => Ok (UnknownContext wall riskType scope "risk_cache" now ["risk context missing"])
  | Some r =>
      riskContext ← decode_RiskContext (rr_ContextJSON r);
      match ValidateContext wall riskContext now with
      | Err e => Ok (UnknownContext wall riskType scope "risk_cache" now [error_text e])
      | Ok _ => Ok riskContext
      end
  end.
End risk_cache.

(** ** At most one promoted version *)

Record versions_ok (t : list BaselineVersionRow) : Prop := {
  versions_ids : unique_keys bv_VersionID t;
  versions_active : unique_index active_index t;
}.

Section promotion.
Context {SC : StateCodecs}.

Lemma set_promoted_none json r : active_index (set_promoted "" json r) = None.
Proof. done. Qed.

Lemma save_version_ok r t :
  bv_PromotedAt r = "" → versions_ok t →
  versions_ok (upsert_row bv_VersionID (λ o r, set_promoted "" (bv_VersionJSON r) o) r t).
Proof.
  intros Hr [Hid Ha]. split; [by apply upsert_row_unique|].
  unfold upsert_row. destruct (mem_key _ _ t).
  - apply unique_index_update; [|done]. intros o _. destruct (has_key _ _ o); [by right|by left].
  - apply unique_index_app_1; [|done]. unfold index_conflict, active_index. by rewrite Hr.
Qed.

Definition demote (view entity : string) : list BaselineVersionRow → list BaselineVersionRow :=
  update_rows (λ r, (bv_View r ==s view) && (bv_Entity r ==s entity))
    (λ r, set_promoted "" (bv_VersionJSON r) r).

Lemma promote_rows_Ok version at_ data t t' :
  promote_rows version at_ data t = Ok t' →
  t' = update_rows (has_key bv_VersionID (ver_VersionID version)) (set_promoted at_ data)
         (demote (ver_View version) (ver_Entity version) t) ∧
  (versions_ok t → versions_ok t').
Proof.
  unfold promote_rows. cbv zeta. fold (demote (ver_View version) (ver_Entity version) t).
  set (d := demote _ _ t). set (p := has_key _ _). destruct (existsb _ _) eqn:Hc; [done|].
  intros [= <-]. split; [done|]. intros [Hid Ha].
  assert (Hd : versions_ok d).
  { split.
    - unfold unique_keys, d, demote. by rewrite update_rows_keys.
    - apply unique_index_update; [|done]. intros r _. destruct (_ && _); [by right|by left]. }
  split.
  - unfold unique_keys. rewrite update_rows_keys; [apply Hd|done].
  - apply unique_index_update_key; [apply Hd..|]. intros o Ho Hk. fold p.
    assert (delete_rows p (update_rows p (set_promoted at_ data) d) = delete_rows p d) as Hdel.
    { clear -p. induction d as [|r d IH]; [done|]. simpl. unfold delete_rows in *. simpl.
      destruct (p r) eqn:E; simpl; rewrite ?E; simpl; [|by rewrite IH].
      by change (p (set_promoted at_ data r)) with (p r); rewrite E. }
    rewrite <- Hdel. apply not_true_iff_false. intros Hcon.
    apply (not_true_iff_false _) in Hc. apply Hc, existsb_exists.
    exists (set_promoted at_ data o). split.
    + apply list_elem_of_In, elem_of_update_rows. exists o. split; [done|].
      assert (p o = true) as ->; [|done]. by apply bool_decide_eq_true.
    + apply andb_true_iff. split; [by apply bool_decide_eq_true|done].
Qed.

(** Only an approved decision promotes a baseline version.  When a promotion
    succeeds, the decision it records names an approver, a time and a reason,
    the promoted version's rows are the only ones of its view and entity that
    are promoted, and no two promoted rows share view and entity; when it
    fails nothing changed. *)
Theorem PromoteBaselineVersion_spec decision db :
  versions_ok (t_versions db) →
  match PromoteBaselineVersion decision db with
  | (Ok version, db') =>
      versions_ok (t_versions db') ∧
      ver_PromotedAt version = pd_ApprovedAt decision ∧
      (∀ r, r ∈ t_versions db' → bv_View r = ver_View version →
         bv_Entity r = ver_Entity version → bv_PromotedAt r ≠ "" →
         bv_VersionID r = ver_VersionID version) ∧
      (∃ row, t_promotions db' = t_promotions db ++ [row] ∧
         blank (bp_ApprovedBy row) = false ∧ blank (bp_Reason row) = false ∧
         bp_ApprovedBy row = pd_ApprovedBy decision ∧
         bp_ApprovedAt row = formatTime (pd_ApprovedAt decision) ∧
         pd_ApprovedAt decision ≠ 0 ∧
         bp_VersionID row = pd_VersionID decision)
  | (Err _, db') => db' = db
  end.
Proof.
  intros Hok. destruct (PromoteBaselineVersion decision db) as [[version|e] db'] eqn:H.
  - unfold PromoteBaselineVersion in H. apply transaction_Ok in H. cbv zeta in H.
    set (d := if empty_str (pd_Action decision) then _ else _) in H.
    assert (Hd : pd_ApprovedBy d = pd_ApprovedBy decision ∧ pd_ApprovedAt d = pd_ApprovedAt decision ∧
      pd_VersionID d = pd_VersionID decision).
    { unfold d. by destruct (empty_str _). }
    destruct Hd as (D1 & D2 & D3).
    destruct (_ && _); [done|].
    apply bind_Ok in H as ([] & Hval & H). apply bind_Ok in H as (v & _ & H).
    apply bind_Ok in H as (prev & _ & H). apply bind_Ok in H as (data & _ & H).
    apply bind_Ok in H as (vs & Hpr & H). apply bind_Ok in H as (ps & Hins & [= <- <-]).
    apply promote_rows_Ok in Hpr as [-> Hpok]. simpl in *.
    unfold Decision_Validate in Hval. cbv zeta in Hval. passes Hval.
    unfold insertBaselinePromotionDecision in Hins. apply bind_Ok in Hins as (pdata & _ & Hins).
    apply insert_row_Ok in Hins as [_ ->].
    split_and!; [by apply Hpok|done| |].
    + intros r (o & Ho & ->)%elem_of_update_rows. unfold has_key. case_bool_decide as E; [done|].
      apply elem_of_update_rows in Ho as (o' & Ho' & ->).
      destruct ((bv_View o' ==s _) && _) eqn:E'; [done|]. intros H1 H2.
      by rewrite H1, H2, !String.eqb_refl in E'.
    + eexists. split; [done|]. simpl. rewrite <- D1, <- D2. split_and!; try done.
      intros E. unfold IsZero in *. by rewrite E in *.
  - unfold PromoteBaselineVersion in H. by apply transaction_Err in H as [_ ->].
Qed.

(** Saving a version, new or again, leaves it unpromoted. *)
Lemma SaveBaselineVersion_Ok wall version stats db db' :
  SaveBaselineVersion wall version stats db = (Ok tt, db') →
  (versions_ok (t_versions db) → versions_ok (t_versions db')) ∧
  (∀ r, r ∈ t_versions db' → bv_VersionID r = ver_VersionID version → bv_PromotedAt r = "").
Proof.
  unfold SaveBaselineVersion. intros H. apply transaction_Ok in H. cbv zeta in H.
  passes H. apply bind_Ok in H as (data & _ & H). apply bind_Ok in H as (t & _ & [= <-]). simpl.
  split; [by apply save_version_ok|].
  intros r Hr Hid. apply elem_of_upsert_row in Hr as [[_ Hn]|[(o & _ & _ & ->)|[-> _]]]; [|done..].
  by destruct Hn.
Qed.
End promotion.

(** ** The risk cache never answers with a stale context *)
Section risk_answers.
Context {GR : GoRuntime} {SC : StateCodecs}.

(** A risk context the cache answers with at time [now] is either unknown, and
    says why, or was valid when it was asked for: canonical tier, evaluated, and
    [now] before the end of its validity. *)
Theorem RiskContext_fresh_or_unknown wall key now t ctx :
  now ≠ 0 → get_RiskContext wall key now t = Ok ctx →
  (rc_Tier ctx = TierUnknown ∧ rc_ValidUntil ctx ≤ now) ∨
  (ValidateContext wall ctx now = Ok tt ∧
   (rc_Tier ctx = TierUnknown ∨
    canonical_tier (rc_Tier ctx) = true ∧ now < rc_ValidUntil ctx)).
Proof.
  intros Hn. unfold get_RiskContext. cbv zeta.
  assert (Hz : IsZero now = false) by by apply Z.eqb_neq.
  assert (Hunk : ∀ rt sc why, rc_Tier (UnknownContext wall rt sc "risk_cache" now why) = TierUnknown ∧
    rc_ValidUntil (UnknownContext wall rt sc "risk_cache" now why) ≤ now).
  { intros. unfold UnknownContext. rewrite Hz. done. }
  destruct (select_key _ _ t) as [r|]; [|intros [= <-]; left; apply Hunk].
  intros (rc & Hd & H)%bind_Ok. destruct (ValidateContext wall rc now) as [[]|e] eqn:Hv.
  - injection H as <-. right. split; [done|].
    destruct (String.eqb_spec (rc_Tier rc) TierUnknown) as [|Hne]; [by left|]. right.
    pose proof (ValidateContext_fresh _ _ _ Hv Hne Hz). split; [|done].
    unfold ValidateContext in Hv. passes Hv. str_eqs.
    destruct (NormalizeTier_range (rc_Tier rc)) as [Hr|Hr]; congruence.
  - injection H as <-. left. apply Hunk.
Qed.
End risk_answers.
