(* ===== verification/BaselineEngine.v ===== *)
(** * The baseline engine ([internal/kliq/baseline])

    Learning a window of samples: the window is always recorded, and from a clean,
    large and confident one a version with the median and the median absolute
    deviation is saved, never promoted.  Evaluating a sample against a frozen
    version. *)

From stdpp Require Import options.
From stdpp Require Import gmap.
From Stdlib Require Import SpecFloat.
From S2P Require Import Prelude IO GoStrings GoTime GoDuration GoFloat Baseline SqliteBaseline.
#[local] Open Scope Z_scope.

Definition ViewEntity := "entity".

Record AdapterSignal := {
  as_SignalID : string;
  as_AdapterID : string;
  as_SignalType : string;
  as_Labels : gmap string string;
  as_Metrics : gmap string float64;
  as_ObservedAt : time;
}.

Definition key_eqb (a b : Key) : bool :=
  (key_View a ==s key_View b) && (key_Entity a ==s key_Entity b).

(** ** Interfaces: [Estimator] and [Store] *)

Definition Estimator : Type := list float64 → option (float64 * float64).

Record BaselineStore (S : Type) := {
  bst_SaveBaselineWindow : Window → io S unit;
  bst_SaveBaselineVersion : VersionRef → list Stats → io S unit;
  bst_SaveBaselineDeviation : DeviationEvent → io S unit;
}.
Arguments bst_SaveBaselineWindow {S}.
Arguments bst_SaveBaselineVersion {S}.
Arguments bst_SaveBaselineDeviation {S}.

(** ** [MedianMADEstimator] *)

Definition median (values : list float64) : float64 :=
  match values with
  | [] => S754_zero false
  | _ =>
      let mid := Nat.div (length values) 2 in
      let at_ i := nth i values (S754_zero false) in
      if Nat.odd (length values) then at_ mid
      else fdiv (fadd (at_ (mid - 1)%nat) (at_ mid)) (float_of_Z 2)
  end.

(** [MedianMADEstimator.Estimate].  The deviations are in the order of the
    sorted values and are not sorted themselves. *)
Definition MedianMAD_Estimate (MinSamples : Z) : Estimator := λ samples,
  let minSamples := if MinSamples =? 0 then 5 else MinSamples in
  if Z.of_nat (length samples) <? minSamples then None else
  let values := sort_Float64s samples in
  let center := median values in
  let deviations := (λ value, fabs (fsub value center)) <$> values in
  let spread := median deviations in
  let spread := if spread =f S754_zero false then float_of_Z 1 else spread in
  Some (center, spread).

(** ** Learning *)

Definition windowIdentity (samples : list Sample) (now : time) : string :=
  join "" ((λ s, key_View (smp_Key s) +:+ NUL +:+ key_Entity (smp_Key s) +:+ NUL +:+
                 smp_Metric s +:+ NUL +:+ format_f (smp_Value s) +:+ NUL +:+
                 rfc3339nano (smp_ObservedAt s) +:+ chr 10) <$> samples) +:+ rfc3339nano now.

Record Engine (S : Type) := {
  eng_Store : option (BaselineStore S);
  eng_Estimator : option Estimator;
  eng_Now : option (io S time);
  eng_MinSamples : Z;
  eng_MinConfidence : float64;
  eng_MaxCleanAnomalyFraction : float64;
}.
Arguments eng_Store {S}.
Arguments eng_Estimator {S}.
Arguments eng_Now {S}.
Arguments eng_MinSamples {S}.
Arguments eng_MinConfidence {S}.
Arguments eng_MaxCleanAnomalyFraction {S}.

(** A field of the engine that is zero takes its default. *)
Definition float_or (default_ x : float64) : float64 :=
  if x =f S754_zero false then default_ else x.

Section engine.
Context {S : Type}.
(** [time.Now().UTC()] *)
Context (wall : io S time) (e : Engine S).

Definition engine_now : io S time := default wall (eng_Now e).

Definition learned_window (samples : list Sample) (first last_ : Sample)
    (confidence anomalyFraction : float64) (clean : bool) (now : time) : Window := {|
  win_WindowID := "baseline_window." +:+ shortHash (windowIdentity samples now);
  win_Key := smp_Key first;
  win_Metric := smp_Metric first;
  win_StartedAt := smp_ObservedAt first;
  win_EndedAt := smp_ObservedAt last_;
  win_SampleCount := Z.of_nat (length samples);
  win_Confidence := confidence;
  win_Clean := clean;
  win_AnomalyFraction := anomalyFraction;
|}.

Definition learned_version (key : Key) (metric : string) (now : time) : VersionRef := {|
  ver_VersionID := "baseline_version." +:+
    shortHash (key_View key +:+ NUL +:+ key_Entity key +:+ NUL +:+ metric +:+ NUL +:+ rfc3339nano now);
  ver_View := key_View key;
  ver_Entity := key_Entity key;
  ver_CreatedAt := now;
  ver_PromotedAt := 0;
|}.

Definition learned_stats (version : VersionRef) (key : Key) (metric : string)
    (center spread : float64) (count : nat) (now : time) : Stats := {|
  sta_VersionID := ver_VersionID version;
  sta_Key := key;
  sta_Metric := metric;
  sta_Center := center;
  sta_Spread := spread;
  sta_SampleCount := Z.of_nat count;
  sta_FrozenAt := now;
|}.

(** The loop that collects the values of one key and metric. *)
Definition one_series (key : Key) (metric : string) (samples : list Sample)
    : result (list float64) :=
  for_fold (λ values s,
    reject negb (key_eqb (smp_Key s) key) || (smp_Metric s !=s metric)
      with Errorf "baseline window must contain one key and metric" [];;
    Ok (values ++ [smp_Value s])) [] samples.

(** [Engine.LearnWindow]; [None] is the zero version with [false]. *)
Definition LearnWindow (samples : list Sample) (confidence anomalyFraction : float64)
    (clean promote : bool) : io S (option (VersionRef * list Stats)) :=
  deny promote
    with Errorf "inline baseline promotion requires an explicit approved promotion decision" [];;
  match samples with
  | [] => mret None
  | first :: _ =>
      match eng_Store e with
      | None => fail (Errorf "baseline engine requires store" [])
      | Some store =>
          let estimator := default (MedianMAD_Estimate 0) (eng_Estimator e) in
          let minSamples := if eng_MinSamples e =? 0 then 5 else eng_MinSamples e in
          let minConfidence := float_or (float_const 7 (-1)) (eng_MinConfidence e) in
          let maxAnomalyFraction :=
            float_or (float_const 1 (-1)) (eng_MaxCleanAnomalyFraction e) in
          now ← engine_now;
          let key := smp_Key first in
          let metric := smp_Metric first in
          _ ← bst_SaveBaselineWindow store
                (learned_window samples first (List.last samples first) confidence
                   anomalyFraction clean now);
          if negb clean || (Z.of_nat (length samples) <? minSamples) ||
             (confidence <f minConfidence) || (maxAnomalyFraction <f anomalyFraction)
          then mret None else
          values ← lift (one_series key metric samples);
          match estimator values with
          | None => mret None
          | Some (center, spread) =>
              let version := learned_version key metric now in
              let stats := [learned_stats version key metric center spread (length values) now] in
              _ ← bst_SaveBaselineVersion store version stats;
              mret (Some (version, stats))
          end
      end
  end.
End engine.

(** The engine's store is the SQLite store. *)
Definition sqlite_baseline_store `{StateCodecs} (wall : time) : BaselineStore BaselineTables := {|
  bst_SaveBaselineWindow := SaveBaselineWindow;
  bst_SaveBaselineVersion := SaveBaselineVersion wall;
  bst_SaveBaselineDeviation := SaveBaselineDeviation wall;
|}.

(** ** [EvaluateSample] *)

Definition deviation_spread (stats : Stats) : float64 :=
  if sta_Spread stats <=f S754_zero false then float_of_Z 1 else sta_Spread stats.

Definition deviation_score (sample : Sample) (stats : Stats) : float64 :=
  fdiv (fabs (fsub (smp_Value sample) (sta_Center stats))) (deviation_spread stats).

Definition EvaluateSample (wall : time) (sample : Sample) (stats : Stats) (now : time)
    : option DeviationEvent :=
  let now := if IsZero now then wall else now in
  let score := deviation_score sample stats in
  if score <f float_of_Z 3 then None else
  Some {|
    dev_EventID := "baseline_deviation." +:+
      shortHash (sta_VersionID stats +:+ NUL +:+ smp_Metric sample +:+ NUL +:+
                 rfc3339nano (smp_ObservedAt sample));
    dev_VersionID := sta_VersionID stats;
    dev_Key := smp_Key sample;
    dev_Metric := smp_Metric sample;
    dev_Value := smp_Value sample;
    dev_Center := sta_Center stats;
    dev_Spread := sta_Spread stats;
    dev_Score := score;
    dev_ObservedAt := smp_ObservedAt sample;
    dev_EmittedAt := now;
    dev_Reason := "sample exceeds frozen baseline by Median+MAD threshold";
    dev_Confidence := float_const 8 (-1);
    dev_RiskRecipe := "";
    dev_PolicyScope := "";
  |}.

Example estimate_ex :
  MedianMAD_Estimate 0 (float_of_Z <$> [9; 2; 7; 1; 30]) = Some (float_of_Z 7, float_of_Z 1).
Proof. vm_compute. reflexivity. Qed.
