(* ===== verification/LocalRisk.v ===== *)
(** * Local risk ([internal/kliq/localrisk]) and signal projection
    ([internal/kliq/signals/projector])

    A deviation from a baseline becomes a score between 0 and 100, a tier by the
    thresholds of a risk recipe, and a risk context in the cache; a signal of the
    klshield adapter becomes samples. *)

From stdpp Require Import options.
From stdpp Require Import gmap.
From Stdlib Require Import SpecFloat.
From S2P Require Import Prelude IO GoStrings GoTime GoDuration GoEncoding GoPath GoQuote GoFloat.
From S2P Require Import Risk Schema Registry StateTypes Baseline SqliteBaseline BaselineEngine.
#[local] Open Scope Z_scope.

(** ** Scores *)

Definition deviationScore (event : DeviationEvent) : float64 :=
  let score := fmul (dev_Score event) (float_of_Z 25) in
  if float_of_Z 100 <f score then float_of_Z 100
  else if score <f S754_zero false then S754_zero false
  else score.

(** ** Lower bounds of thresholds

    The regular expression [score\s*>=\s*([0-9]+(?:\.[0-9]+)?)], at the leftmost
    place where it matches. *)

(** The longest run of decimal digits, and the rest. *)
Fixpoint take_digits (s : string) : string * string :=
  match s with
  | String c s' =>
      match digit_of c with
      | Some _ => let '(d, r) := take_digits s' in (String c d, r)
      | None => ("", s)
      end
  | EmptyString => ("", "")
  end.

Definition number_prefix (s : string) : option string :=
  let '(whole, rest) := take_digits s in
  if empty_str whole then None else
  match rest with
  | String c rest' =>
      let '(fraction, _) := take_digits rest' in
      if (byte_of c =? 46) && negb (empty_str fraction)
      then Some (whole +:+ String c fraction) else Some whole
  | EmptyString => Some whole
  end.

Definition lower_bound_here (s : string) : option string :=
  s ← skip "score" s;
  s ← skip ">=" (skip_spaces s);
  number_prefix (skip_spaces s).

Fixpoint lowerBoundRE (s : string) : option string :=
  match lower_bound_here s with
  | Some number => Some number
  | None => match s with String _ s' => lowerBoundRE s' | EmptyString => None end
  end.

Definition lowerBound (expression : string) : option float64 :=
  match lowerBoundRE expression with
  | Some number => ParseFloat number
  | None => if contains "score <" expression then Some (S754_zero false) else None
  end.

(** ** Tiers *)

Record threshold := { th_tier : string; th_min : float64 }.

(** [sort.Slice] by descending bound; where two bounds are equal Go may swap them,
    as it may visit the recipe's map in any order. *)
Definition threshold_leb (a b : threshold) : bool := negb (th_min a <f th_min b).

Section evaluator.
Context {GR : GoRuntime}.

Definition recipe_thresholds (recipe : RiskRecipe) : list threshold :=
  omap (λ kv, min ← lowerBound kv.2; Some {| th_tier := NormalizeTier kv.1; th_min := min |})
    (map_order (map_to_list (rcp_Thresholds recipe))).

Definition tierForScore (recipe : RiskRecipe) (score : float64) : string :=
  match List.find (λ t, th_min t <=f score) (sort_by threshold_leb (recipe_thresholds recipe)) with
  | Some t => th_tier t
  | None => TierUnknown
  end.

Definition maxAge (recipe : RiskRecipe) : duration :=
  let value := trim_space (default "" (rcp_Freshness recipe !! "max_age")) in
  if empty_str value then 120 * second else
  match ParseDuration value with Some d => d | None => 120 * second end.

Definition minimumConfidence (recipe : RiskRecipe) : float64 :=
  let value := trim_space (default "" (rcp_Confidence recipe !! "minimum_for_enforcement")) in
  if empty_str value then float_const 7 (-1) else
  match ParseFloat value with Some f => f | None => float_const 7 (-1) end.

(** ** The evaluator *)

Record RiskStore (S : Type) := {
  rst_SaveRiskContext : RiskCacheKey → RiskContext → io S unit;
  rst_RiskContext : RiskCacheKey → time → io S RiskContext;
}.
Arguments rst_SaveRiskContext {S}.
Arguments rst_RiskContext {S}.

Record Evaluator (S : Type) := {
  ev_Store : option (RiskStore S);
  ev_Now : option (io S time);
}.
Arguments ev_Store {S}.
Arguments ev_Now {S}.

Definition recipe_type (recipe : RiskRecipe) : string :=
  let riskType := NormalizeType (default "" (rcp_Output recipe !! "risk_type")) in
  if empty_str riskType then "runtime_anomaly" else riskType.

(** The context of a deviation that is confident enough. *)
Definition deviation_context (recipe : RiskRecipe) (event : DeviationEvent) (now : time)
    : RiskContext :=
  let riskType := recipe_type recipe in
  let score := deviationScore event in
  let tier := tierForScore recipe score in
  let validUntil := now + maxAge recipe in
  {| rc_RiskType := riskType; rc_Tier := tier; rc_Score := Some score;
     rc_Confidence := dev_Confidence event; rc_Reasons := [dev_Reason event];
     rc_Signals := [{|
       sig_Type := riskType; sig_Tier := tier; sig_Score := Some score;
       sig_Reasons := [dev_Reason event]; sig_Confidence := dev_Confidence event;
       sig_ObservedAt := dev_ObservedAt event; sig_EvaluatedAt := now;
       sig_ValidUntil := validUntil; sig_Source := "baseline.local"; sig_Scope := ScopeLocal |}];
     rc_Source := "baseline.local"; rc_Scope := ScopeLocal; rc_EvaluatedAt := now;
     rc_ValidUntil := validUntil |}.

(** [wall] is [time.Now().UTC()]. *)
Definition EvaluateDeviation {S} (wall : io S time) (e : Evaluator S) (recipe : RiskRecipe)
    (event : DeviationEvent) : io S RiskContext :=
  match ev_Store e with
  | None => fail (Errorf "local risk evaluator requires store" [])
  | Some store =>
      now ← default wall (ev_Now e);
      let riskType := recipe_type recipe in
      unknownNow ← (if IsZero now then wall else mret now);
      let ctxRisk :=
        if dev_Confidence event <f minimumConfidence recipe
        then UnknownContext unknownNow riskType ScopeLocal "baseline.local" now
               ["risk confidence below recipe minimum"]
        else deviation_context recipe event now in
      _ ← rst_SaveRiskContext store {| rk_RiskType := riskType; rk_Scope := ScopeLocal |} ctxRisk;
      mret ctxRisk
  end.
End evaluator.
Arguments rst_SaveRiskContext {S}.
Arguments rst_RiskContext {S}.
Arguments ev_Store {S}.
Arguments ev_Now {S}.

(** ** [KLShieldProjector.Project] *)

Definition KLShieldAdapterID := "kernloom.adapter.klshield".

Definition Project `{GoRuntime} (wall : time) (raw : AdapterSignal) : result (list Sample) :=
  reject trim_space (as_AdapterID raw) !=s KLShieldAdapterID
    with Errorf "klshield projector received adapter_id %q" [AStr (as_AdapterID raw)];;
  let label name := trim_space (default "" (as_Labels raw !! name)) in
  let entity := if empty_str (label "entity") then label "source" else label "entity" in
  reject empty_str entity with Errorf "klshield signal requires entity label" [];;
  let observedAt := if IsZero (as_ObservedAt raw) then wall else as_ObservedAt raw in
  let samples :=
    omap (λ kv,
      let metric := trim_space kv.1 in
      if empty_str metric then None else
      Some {| smp_Key := {| key_View := ViewEntity; key_Entity := "klshield:" +:+ entity |};
              smp_Metric := metric; smp_Value := kv.2; smp_ObservedAt := observedAt |})
      (map_order (map_to_list (as_Metrics raw))) in
  reject Nat.eqb (length samples) 0
    with Errorf "klshield signal requires at least one metric" [];;
  Ok samples.
