(* ===== verification/BaselineProofs.v ===== *)
(** * What the baseline engine estimates, and what risk comes of it *)

From stdpp Require Import options.
From stdpp Require Import gmap.
From Stdlib Require Import SpecFloat.
From S2P Require Import Prelude IO Table GoStrings GoTime GoDuration GoEncoding GoPath GoFloat Risk.
From S2P Require Import Schema Registry StateTypes SqliteLeases Baseline SqliteBaseline.
From S2P Require Import BaselineEngine LocalRisk.
#[local] Open Scope Z_scope.

(** ** Order statistics *)

Definition is_finite (x : float64) : bool :=
  match x with S754_zero _ | S754_finite _ _ _ => true | _ => false end.

Lemma finite_not_nan x : is_finite x = true → is_nan x = false.
Proof. by destruct x. Qed.

Lemma fsub_self x : is_finite x = true → fsub x x = S754_zero false.
Proof.
  destruct x as [[]| | |s m e]; try done. intros _. unfold fsub. simpl.
  rewrite Z.min_id. by rewrite Z.sub_diag.
Qed.

(** How many samples satisfy a test. *)
Definition count (f : float64 → bool) (l : list float64) : nat := length (List.filter f l).

Lemma count_perm f l l' : l ≡ₚ l' → count f l = count f l'.
Proof.
  unfold count. induction 1 as [|x l l' _ IH|x y l|l1 l2 l3 _ IH1 _ IH2]; simpl; [done| | |congruence].
  - destruct (f x); simpl; by rewrite ?IH.
  - by destruct (f x), (f y).
Qed.

Lemma count_all f l : Forall (λ x, f x = true) l → count f l = length l.
Proof. unfold count. induction 1 as [|x l Hx _ IH]; simpl; [done|]. by rewrite Hx; simpl; rewrite IH. Qed.

Lemma count_app f l l' : count f (l ++ l') = (count f l + count f l')%nat.
Proof. unfold count. by rewrite List.filter_app, length_app. Qed.

(** In a sorted list the element at a position has what is before it below it, and
    what is after it above it. *)
Lemma sorted_split (l1 : list float64) c l2 :
  StronglySorted (λ a b, float_leb a b = true) (l1 ++ c :: l2) →
  Forall (λ x, float_leb x c = true) l1 ∧ Forall (λ x, float_leb c x = true) l2.
Proof.
  induction l1 as [|x l1 IH]; simpl; intros H; inversion_clear H as [|? ? Hs Hx].
  - split; [constructor|done].
  - destruct (IH Hs) as [H1 H2]. split; [|done]. constructor; [|done].
    apply Forall_app in Hx as [_ Hx]. by apply Forall_cons in Hx as [? _].
Qed.

Lemma median_odd s :
  Nat.odd (length s) = true → ∃ l1 c l2,
  s = l1 ++ c :: l2 ∧ median s = c ∧ length l1 = Nat.div (length s) 2 ∧ length l2 = length l1.
Proof.
  intros Hodd. apply Nat.odd_spec in Hodd as [k Hk].
  assert (Hdiv : Nat.div (length s) 2 = k) by (rewrite Hk; symmetry; apply Nat.div_unique with 1%nat; lia).
  destruct (lookup_lt_is_Some_2 s k) as [c Hc]; [lia|].
  exists (take k s), c, (drop (S k) s). rewrite length_take, length_drop, Hdiv. split_and!.
  - symmetry. by apply take_drop_middle.
  - unfold median. destruct s as [|x s]; [simpl in Hk; lia|].
    rewrite Hdiv. assert (Nat.odd (length (x :: s)) = true) as -> by (apply Nat.odd_spec; by exists k).
    by apply nth_lookup_Some.
  - lia.
  - lia.
Qed.

(** C35. The estimate of an odd number of finite samples: the center is the median, a
    sample that more than half of them do not exceed and more than half are not below.
    The spread is always 1: the deviations are taken in the order of the sorted samples
    and their median is read off without sorting them, so that the one in the middle is
    that of the center itself.  The estimator is not the median absolute deviation it
    is named after. *)
Theorem estimate_of_odd_samples samples :
  (5 <= length samples)%nat → Nat.odd (length samples) = true →
  Forall (λ x, is_finite x = true) samples →
  ∃ center, center ∈ samples ∧
    MedianMAD_Estimate 0 samples = Some (center, float_of_Z 1) ∧
    (length samples < 2 * count (λ x, x <=f center) samples)%nat ∧
    (length samples < 2 * count (λ x, center <=f x) samples)%nat.
Proof.
  intros Hlen Hodd Hfin. pose proof (sort_Float64s_perm samples) as Hp.
  pose proof (sort_Float64s_sorted samples) as Hs. set (s := sort_Float64s samples) in *.
  assert (Hls : length s = length samples) by by rewrite Hp.
  assert (Hfs : Forall (λ x, is_finite x = true) s) by by rewrite Hp.
  rewrite <- Hls in Hodd. destruct (median_odd s Hodd) as (l1 & c & l2 & Es & Em & H1 & H2).
  assert (Hn : length s = (2 * length l1 + 1)%nat).
  { rewrite Es, length_app. simpl. lia. }
  rewrite Es in Hfs. apply Forall_app in Hfs as [F1 [Fc F2]%Forall_cons].
  assert (Hle : ∀ x, is_finite x = true → float_leb x c = (x <=f c)).
  { intros x Hx. by apply float_leb_SFleb; apply finite_not_nan. }
  assert (Hge : ∀ x, is_finite x = true → float_leb c x = (c <=f x)).
  { intros x Hx. by apply float_leb_SFleb; apply finite_not_nan. }
  assert (Hcc : float_leb c c = true) by by destruct (float_leb_total c c).
  rewrite Es in Hs. apply sorted_split in Hs as [S1 S2].
  exists c. split_and!.
  - rewrite <- Hp, Es. set_solver.
  - unfold MedianMAD_Estimate. cbn [Z.eqb]. fold s.
    destruct (Z.ltb_spec (Z.of_nat (length samples)) 5); [lia|]. cbv zeta. rewrite Em.
    assert (Hd : median ((λ value, fabs (fsub value c)) <$> s) = S754_zero false); [|by rewrite Hd].
    assert (Hodd' : Nat.odd (length ((λ value, fabs (fsub value c)) <$> s)) = true)
      by by rewrite length_fmap.
    destruct (median_odd _ Hodd') as (d1 & d & d2 & Ed & -> & D1 & _).
    rewrite length_fmap in D1. rewrite Es, fmap_app, fmap_cons in Ed.
    apply app_inj_1 in Ed as [_ Ed]; [|rewrite length_fmap; congruence].
    injection Ed as <- _. rewrite fsub_self by done. done.
  - rewrite (count_perm _ _ _ (symmetry Hp)), Es, count_app, (count_all _ l1).
    + unfold count at 1. simpl. rewrite <- Hle, Hcc by done. simpl. lia.
    + rewrite Forall_forall in S1, F1 |- *. intros x Hx. rewrite <- Hle by auto. auto.
  - rewrite (count_perm _ _ _ (symmetry Hp)), Es, count_app.
    change (c :: l2) with ([c] ++ l2). rewrite count_app, (count_all _ l2).
    + unfold count at 2. simpl. rewrite <- Hge, Hcc by done. simpl. lia.
    + rewrite Forall_forall in S2, F2 |- *. intros x Hx. rewrite <- Hge by auto. auto.
Qed.

(** ** Scores and tiers *)

Lemma deviationScore_bounds event :
  is_nan (deviationScore event) = false →
  (S754_zero false <=f deviationScore event) = true ∧
  (deviationScore event <=f float_of_Z 100) = true.
Proof.
  unfold deviationScore. set (x := fmul _ _). cbv zeta.
  destruct (float_of_Z 100 <f x) eqn:E1; [by vm_compute|].
  destruct (x <f S754_zero false) eqn:E2; [by vm_compute|]. intros Hn.
  rewrite !SFleb_SFltb by done. by rewrite E1, E2.
Qed.

Section tiers.
Context {GR : GoRuntime}.

Lemma sort_threshold_leb_sorted l :
  Forall (λ t, is_nan (th_min t) = false) l →
  StronglySorted (λ a b, threshold_leb a b = true) (sort_by threshold_leb l).
Proof.
  (* among bounds that are numbers the comparison is the order of the keys *)
  assert (Hleb : ∀ a b, is_nan (th_min a) = false → is_nan (th_min b) = false →
    threshold_leb a b = float_leb (th_min b) (th_min a)).
  { intros a b Ha Hb. unfold threshold_leb, float_leb, float_less. by rewrite Ha, orb_false_r. }
  assert (Hins : ∀ x l, is_nan (th_min x) = false → Forall (λ t, is_nan (th_min t) = false) l →
    StronglySorted (λ a b, threshold_leb a b = true) l →
    StronglySorted (λ a b, threshold_leb a b = true) (insert_sorted threshold_leb x l)).
  { intros x l0 Hx Hl. induction 1 as [|y l0 Hs IH Hy]; simpl; [by repeat constructor|].
    apply Forall_cons in Hl as [Hyn Hl]. destruct (threshold_leb x y) eqn:Hxy.
    - constructor; [by constructor|]. constructor; [done|].
      rewrite Forall_forall in Hy, Hl |- *. intros z Hz.
      rewrite Hleb in * by auto. specialize (Hy z Hz). rewrite Hleb in Hy by auto.
      by eapply float_leb_trans.
    - constructor; [auto|]. rewrite insert_sorted_perm. constructor; [|done].
      rewrite Hleb in Hxy |- * by auto. destruct (float_leb_total (th_min y) (th_min x)); congruence. }
  intros Hl. assert (Hsl : Forall (λ t, is_nan (th_min t) = false) (sort_by threshold_leb l))
    by by rewrite sort_by_perm.
  induction l as [|x l IH]; simpl; [constructor|]. apply Forall_cons in Hl as [Hx Hl].
  assert (Forall (λ t, is_nan (th_min t) = false) (sort_by threshold_leb l)) by by rewrite sort_by_perm.
  by apply Hins; [| |apply IH].
Qed.

(** The first of a sorted list that a score reaches is the highest it reaches. *)
Lemma find_highest l score t :
  StronglySorted (λ a b, threshold_leb a b = true) l →
  List.find (λ t, th_min t <=f score) l = Some t →
  t ∈ l ∧ (th_min t <=f score) = true ∧
  ∀ u, u ∈ l → (th_min u <=f score) = true → u = t ∨ threshold_leb t u = true.
Proof.
  induction 1 as [|x l Hs IH Hx]; simpl; [done|].
  destruct (th_min x <=f score) eqn:E.
  - intros [= ->]. split_and!; [by left|done|].
    intros u [->|Hu]%elem_of_cons _; [by left|]. right. rewrite Forall_forall in Hx. auto.
  - intros Hf. destruct (IH Hf) as (Hin & Hle & Hmax). split_and!; [by right|done|].
    intros u [->|Hu]%elem_of_cons Hu2; [congruence|auto].
Qed.

(** The tier of a score is that of the highest threshold it reaches, whatever order
    the recipe's map is visited in, provided the recipe does not give one bound to two
    tiers; a score that reaches no threshold is of unknown tier. *)
Theorem tierForScore_highest recipe score :
  Forall (λ t, is_nan (th_min t) = false) (recipe_thresholds recipe) →
  (∀ t u, t ∈ recipe_thresholds recipe → u ∈ recipe_thresholds recipe →
     (th_min t <f th_min u) = false → (th_min u <f th_min t) = false → th_tier t = th_tier u) →
  (∀ t, t ∈ recipe_thresholds recipe → (th_min t <=f score) = true →
     (∀ u, u ∈ recipe_thresholds recipe → (th_min u <=f score) = true →
        (th_min t <f th_min u) = false) →
     tierForScore recipe score = th_tier t) ∧
  (Forall (λ t, (th_min t <=f score) = false) (recipe_thresholds recipe) →
     tierForScore recipe score = TierUnknown).
Proof.
  intros Hnan Hdistinct. pose proof (sort_threshold_leb_sorted _ Hnan) as Hs. unfold tierForScore.
  pose proof (sort_by_elem threshold_leb) as Hel. split.
  - intros t Ht Hle Hmax. destruct (List.find _ _) as [u|] eqn:Hf.
    + destruct (find_highest _ _ _ Hs Hf) as (Hu & Hule & Hhi). rewrite Hel in Hu.
      symmetry. apply Hdistinct; [done..|by apply Hmax|].
      destruct (Hhi t) as [->|Hlb]; [by rewrite Hel|done| |by apply negb_true_iff].
      by apply Hmax.
    + exfalso. eapply find_none in Hf; [|apply list_elem_of_In; by rewrite Hel].
      simpl in Hf. congruence.
  - intros Hall. destruct (List.find _ _) as [u|] eqn:Hf; [|done].
    destruct (find_highest _ _ _ Hs Hf) as (Hu & Hule & _). rewrite Hel in Hu.
    rewrite Forall_forall in Hall. by rewrite Hall in Hule.
Qed.

Lemma tierForScore_canonical recipe score :
  tierForScore recipe score = TierUnknown ∨ canonical_tier (tierForScore recipe score) = true.
Proof.
  unfold tierForScore. destruct (List.find _ _) as [t|] eqn:Hf; [|by left].
  apply find_some in Hf as [Hin _]. apply list_elem_of_In in Hin. rewrite sort_by_elem in Hin.
  unfold recipe_thresholds in Hin. apply list_elem_of_omap in Hin as ([k v] & _ & Hb).
  simpl in Hb. destruct (lowerBound v) as [f|]; [|done]. injection Hb as <-. cbn [th_tier].
  unfold NormalizeTier. destruct (canonical_tier _) eqn:E; [by right|by left].
Qed.
End tiers.

(** ** From a deviation to the answer of the cache *)
Section cached.
Context {GR : GoRuntime} {SC : StateCodecs}.

(** The evaluator's store is the risk cache of the SQLite store. *)
Definition sqlite_risk_store (wall : time) : RiskStore (list RiskCacheRow) := {|
  rst_SaveRiskContext := SaveRiskContext wall;
  rst_RiskContext key now := read (get_RiskContext wall key now);
|}.

(** An evaluator whose clock reads [now]. *)
Definition cache_evaluator (wall now : time) : Evaluator (list RiskCacheRow) := {|
  ev_Store := Some (sqlite_risk_store wall); ev_Now := Some (lift (Ok now)) |}.

Lemma ValidateContext_extend wall ctx now later :
  ValidateContext wall ctx now = Ok tt → later ≠ 0 → later < rc_ValidUntil ctx →
  ValidateContext wall ctx later = Ok tt.
Proof.
  unfold ValidateContext. intros H Hl Hv. passes H. unfold IsZero at 1.
  rewrite (proj2 (Z.eqb_neq _ _) Hl). unfold After. by rewrite (proj2 (Z.ltb_lt _ _) Hv).
Qed.

Lemma get_RiskContext_tier wall key now t ctx :
  now ≠ 0 → get_RiskContext wall key now t = Ok ctx →
  rc_Tier ctx = TierUnknown ∨ now < rc_ValidUntil ctx.
Proof.
  intros Hn. unfold get_RiskContext. cbv zeta.
  destruct (select_key _ _ t) as [r|]; [|intros [= <-]; by left].
  intros (rc & _ & H)%bind_Ok. destruct (ValidateContext wall rc now) as [[]|e] eqn:Hv;
    injection H as <-; [|by left].
  destruct (String.eqb_spec (rc_Tier rc) TierUnknown); [by left|right].
  eapply ValidateContext_fresh; [done..|by apply Z.eqb_neq].
Qed.

(** The context computed for a deviation. *)
Lemma EvaluateDeviation_run wall now recipe event t ctx t' :
  now ≠ 0 →
  EvaluateDeviation (lift (Ok wall)) (cache_evaluator wall now) recipe event t = (Ok ctx, t') →
  ctx = (if dev_Confidence event <f minimumConfidence recipe
         then UnknownContext wall (recipe_type recipe) ScopeLocal "baseline.local" now
                ["risk confidence below recipe minimum"]
         else deviation_context recipe event now) ∧
  SaveRiskContext wall {| rk_RiskType := recipe_type recipe; rk_Scope := ScopeLocal |} ctx t =
    (Ok tt, t').
Proof.
  intros Hn H. unfold EvaluateDeviation, cache_evaluator in H. cbn [ev_Store ev_Now default] in H.
  rewrite io_bind_run in H. unfold lift at 1 in H. cbv [id] in H.
  cbv beta iota zeta in H. unfold IsZero in H. rewrite (proj2 (Z.eqb_neq _ _) Hn) in H.
  rewrite io_bind_run in H. unfold mret at 1, io_ret in H.
  apply io_bind_Ok in H as ([] & t1 & Hsave & H). apply mret_Ok in H as [-> ->].
  split; [|exact Hsave]. unfold UnknownContext, IsZero. by rewrite (proj2 (Z.eqb_neq _ _) Hn).
Qed.

(** C34. From a deviation to the answer of the risk cache: the context that was computed
    has a score between 0 and 100 (or none, or NaN) and a canonical or unknown tier,
    unknown when the deviation is less confident than the recipe asks; and a question
    about its type is answered, at any later time, with that context while it is valid
    if its tier is known, and with an unknown tier after. *)
Theorem deviation_risk_cached wall now recipe event t ctx t' :
  now ≠ 0 → unique_keys risk_key t →
  EvaluateDeviation (lift (Ok wall)) (cache_evaluator wall now) recipe event t = (Ok ctx, t') →
  (∀ data, encode_RiskContext ctx = Ok data → decode_RiskContext data = Ok ctx) →
  (∀ score, rc_Score ctx = Some score → is_nan score = true ∨
     (S754_zero false <=f score) = true ∧ (score <=f float_of_Z 100) = true) ∧
  (rc_Tier ctx = TierUnknown ∨ canonical_tier (rc_Tier ctx) = true) ∧
  ((dev_Confidence event <f minimumConfidence recipe) = true → rc_Tier ctx = TierUnknown) ∧
  ∀ key later, NormalizeType (rk_RiskType key) = NormalizeType (recipe_type recipe) →
    (rk_Scope key = "" ∨ rk_Scope key = ScopeLocal) → later ≠ 0 →
    (rc_Tier ctx ≠ TierUnknown → later < rc_ValidUntil ctx →
       get_RiskContext wall key later t' = Ok ctx) ∧
    (rc_ValidUntil ctx ≤ later →
       ∃ answer, get_RiskContext wall key later t' = Ok answer ∧ rc_Tier answer = TierUnknown).
Proof.
  intros Hn Hu Hrun Hcodec. apply EvaluateDeviation_run in Hrun as [Hctx Hsave]; [|done].
  split_and!.
  - intros score. rewrite Hctx. destruct (_ <f _); [done|]. intros [= <-].
    destruct (is_nan (deviationScore event)) eqn:E; [by left|right; by apply deviationScore_bounds].
  - rewrite Hctx. destruct (_ <f _); [by left|]. apply tierForScore_canonical.
  - intros Hc. rewrite Hctx, Hc. done.
  - intros key later Hkey Hscope Hl.
    unfold SaveRiskContext in Hsave. apply transaction_Ok in Hsave. cbv zeta in Hsave.
    apply bind_Ok in Hsave as ([] & Hval & Hsave). apply bind_Ok in Hsave as (data & Hdata & Hsave).
    injection Hsave as Ht'. cbn [rk_RiskType rk_Scope] in Ht'.
    assert (Htype : (if empty_str (NormalizeType (recipe_type recipe)) then NormalizeType (rc_RiskType ctx)
      else NormalizeType (recipe_type recipe)) = NormalizeType (recipe_type recipe)).
    { destruct (String.eqb_spec (NormalizeType (recipe_type recipe)) "") as [E|]; [|done].
      rewrite Hctx. destruct (_ <f _); simpl; by rewrite ?E. }
    rewrite Htype in Ht'.
    assert (Hget : get_RiskContext wall key later t' =
      match ValidateContext wall ctx later with
      | Err e => Ok (UnknownContext wall (NormalizeType (rk_RiskType key)) ScopeLocal "risk_cache" later
                       [error_text e])
      | Ok _ => Ok ctx end).
    { unfold get_RiskContext. cbv zeta. rewrite Hkey.
      assert ((if empty_str (rk_Scope key) then ScopeLocal else rk_Scope key) = ScopeLocal) as ->
        by by destruct Hscope as [-> | ->].
      rewrite <- Ht'. match goal with |- context [upsert_row ?m ?f ?r t] =>
        pose proof (select_upsert_row m f r t) as Hsel; specialize (Hsel (λ _ _, eq_refl) Hu) end.
      change (risk_key _) with (NormalizeType (recipe_type recipe), ScopeLocal) in Hsel at 1.
      cbv beta in Hsel. rewrite Hsel. clear Hsel.
      assert (Hrow : ∀ (o : option RiskCacheRow) (r : RiskCacheRow),
        match o with Some _ => r | None => r end = r) by by intros [].
      rewrite Hrow. cbn [rr_ContextJSON]. by rewrite (Hcodec _ Hdata). }
    rewrite Hget. split.
    + intros Htier Hlt. destruct (ValidateContext wall ctx 0) as [[]|e] eqn:Hv.
      * by rewrite (ValidateContext_extend _ _ _ _ Hv Hl Hlt).
      * apply String.eqb_neq in Htier. by rewrite Htier in Hval.
    + intros Hlt. destruct (ValidateContext wall ctx later) as [[]|e] eqn:Hv; eexists; split; try done.
      destruct (String.eqb_spec (rc_Tier ctx) TierUnknown) as [|Hne]; [done|].
      pose proof (ValidateContext_fresh _ _ _ Hv Hne (proj2 (Z.eqb_neq _ _) Hl)). lia.
Qed.
End cached.
