(* ===== verification/Store.v ===== *)
(** * The KLIQ's state and its store ([actionstate.Store])

    [SQLiteStore] is the whole database.  A running KLIQ is the database, the
    world outside (adapters, clock, disk) and, as a ghost, the calls made to
    adapters with the database as it was at the time of each call.

    A call of the store may fail in [database/sql] before it has any effect:
    the world decides ([store_fault]).  Such a failure is never "not found",
    which the code gives a meaning to. *)

From stdpp Require Import options.
From S2P Require Import Prelude IO Table GoStrings GoTime Risk Signing Domain Artifacts StateTypes.
From S2P Require Import SqliteLeases SqliteAudit SqliteAssignments Baseline SqliteBaseline.
#[local] Open Scope Z_scope.

Record SQLiteStore := {
  db_assign : AssignmentTables;
  db_actions : ActionTables;
  db_audit : list AuditRecordRow;
  db_baseline : BaselineTables;
  db_risk : list RiskCacheRow;
}.

Definition set_actions (t : ActionTables) (db : SQLiteStore) : SQLiteStore :=
  {| db_assign := db_assign db; db_actions := t; db_audit := db_audit db;
     db_baseline := db_baseline db; db_risk := db_risk db |}.
Definition set_audit (t : list AuditRecordRow) (db : SQLiteStore) : SQLiteStore :=
  {| db_assign := db_assign db; db_actions := db_actions db; db_audit := t;
     db_baseline := db_baseline db; db_risk := db_risk db |}.
Definition set_assign (t : AssignmentTables) (db : SQLiteStore) : SQLiteStore :=
  {| db_assign := t; db_actions := db_actions db; db_audit := db_audit db;
     db_baseline := db_baseline db; db_risk := db_risk db |}.

(** The database of a KLIQ that has just been installed. *)
Definition empty_store : SQLiteStore := {|
  db_assign := {| t_bundle := None; t_management := []; t_artifacts := []; t_active := [];
                  t_credential := None; t_trust := [] |};
  db_actions := no_actions;
  db_audit := [];
  db_baseline := {| t_windows := []; t_versions := []; t_stats := []; t_deviations := [];
                    t_promotions := [] |};
  db_risk := [] |}.

Class KLIQWorld (W : Type) := {
  now_of : W → time * W;                    (* [Manager.Now] *)
  wall_of : W → time;                       (* [time.Now] *)
  store_fault : W → option error * W;
  store_fault_not_found w e :
    (store_fault w).1 = Some e → error_is e ErrNotFound = false;
}.

Inductive call_kind : Type := CallExecute | CallCleanup | CallState.

Record adapter_call := {
  ac_kind : call_kind;
  ac_lease : RuntimeActionLease;
  ac_db : SQLiteStore;
}.

Record KLIQ {W : Type} := {
  k_db : SQLiteStore;
  k_world : W;
  k_calls : list adapter_call;
}.
Arguments KLIQ W : clear implicits.

Section calls.
Context {W : Type} {KW : KLIQWorld W}.

Definition set_world (w : W) (s : KLIQ W) : KLIQ W :=
  {| k_db := k_db s; k_world := w; k_calls := k_calls s |}.
Definition set_db (db : SQLiteStore) (s : KLIQ W) : KLIQ W :=
  {| k_db := db; k_world := k_world s; k_calls := k_calls s |}.

Definition in_world {A} (m : io W A) : io (KLIQ W) A := zoom k_world set_world m.

(** [m.now()] *)
Definition now : io (KLIQ W) time := λ s,
  let '(t, w) := now_of (k_world s) in (Ok t, set_world w s).

Definition wall : io (KLIQ W) time := gets (λ s, wall_of (k_world s)).

(** A call of the store that writes, and one that reads. *)
Definition store_write {A} (m : io SQLiteStore A) : io (KLIQ W) A := λ s,
  match store_fault (k_world s) with
  | (Some e, w) => (Err e, set_world w s)
  | (None, w) => ((m (k_db s)).1, set_db (m (k_db s)).2 (set_world w s))
  end.

Definition store_read {A} (f : SQLiteStore → result A) : io (KLIQ W) A := store_write (read f).

Definition on_actions {A} (m : io ActionTables A) : io SQLiteStore A :=
  zoom db_actions set_actions m.
Definition on_audit {A} (m : io (list AuditRecordRow) A) : io SQLiteStore A :=
  zoom db_audit set_audit m.
Definition on_assign {A} (m : io AssignmentTables A) : io SQLiteStore A :=
  zoom db_assign set_assign m.

(** A call of an adapter is recorded, then made. *)
Definition adapter {A} (kind : call_kind) (lease : RuntimeActionLease) (m : io W A)
    : io (KLIQ W) A :=
  _ ← modify (λ s, {| k_db := k_db s; k_world := k_world s;
                      k_calls := k_calls s ++
                        [{| ac_kind := kind; ac_lease := lease; ac_db := k_db s |}] |});
  in_world m.
End calls.

(** ** What the store keeps, whatever is called *)

(** Leases stay sound and are never lost or extended; audit records are never
    lost or altered. *)
Definition store_evolve (db db' : SQLiteStore) : Prop :=
  actions_evolve (db_actions db) (db_actions db') ∧
  audit_evolve (db_audit db) (db_audit db').

#[export] Instance store_evolve_preorder : PreOrder store_evolve.
Proof.
  split; [split; reflexivity|]. intros d1 d2 d3 [A1 B1] [A2 B2]. split; by etrans.
Qed.

(** Every call made in between satisfies [Q]. *)
Definition calls_are {W} (Q : adapter_call → Prop) (s s' : KLIQ W) : Prop :=
  ∃ new, k_calls s' = k_calls s ++ new ∧ Forall Q new.

(** The same for a running KLIQ, whose calls were made on databases in between. *)
Definition kliq_evolve {W} (s s' : KLIQ W) : Prop :=
  store_evolve (k_db s) (k_db s') ∧
  calls_are (λ c, store_evolve (k_db s) (ac_db c) ∧ store_evolve (ac_db c) (k_db s')) s s'.

#[export] Instance kliq_evolve_preorder W : PreOrder (@kliq_evolve W).
Proof.
  split.
  - intros s. split; [reflexivity|]. exists []. by rewrite app_nil_r.
  - intros s1 s2 s3 [D1 (n1 & E1 & F1)] [D2 (n2 & E2 & F2)]. split; [by etrans|].
    exists (n1 ++ n2). rewrite E2, E1, app_assoc. split; [done|]. apply Forall_app. split.
    + eapply Forall_impl; [exact F1|]. intros c [? ?]. split; [done|by etrans].
    + eapply Forall_impl; [exact F2|]. intros c [? ?]. split; [by etrans|done].
Qed.

Lemma kliq_evolve_no_calls {W} (s s' : KLIQ W) :
  store_evolve (k_db s) (k_db s') → k_calls s' = k_calls s → kliq_evolve s s'.
Proof. intros H E. split; [done|]. exists []. by rewrite E, app_nil_r. Qed.

(** Relations that do not look at the world: reading the store, the clocks and
    acting on the world respect them. *)
Class WorldFree {W} (R : relation (KLIQ W)) : Prop :=
  world_free s w : R s (set_world w s).

#[export] Instance kliq_evolve_world_free W : WorldFree (@kliq_evolve W).
Proof. intros s w. by apply kliq_evolve_no_calls. Qed.

(** The lease table and the calls made are as before. *)
Definition quiet {W} (s s' : KLIQ W) : Prop :=
  t_leases (db_actions (k_db s')) = t_leases (db_actions (k_db s)) ∧ k_calls s' = k_calls s.

#[export] Instance quiet_preorder W : PreOrder (@quiet W).
Proof. split; [done|]. intros s1 s2 s3 [? ?] [? ?]. split; congruence. Qed.
#[export] Instance quiet_world_free W : WorldFree (@quiet W).
Proof. done. Qed.

(** The database and the calls made are as before. *)
Definition unchanged {W} (s s' : KLIQ W) : Prop := k_db s' = k_db s ∧ k_calls s' = k_calls s.

#[export] Instance unchanged_preorder W : PreOrder (@unchanged W).
Proof. split; [done|]. intros s1 s2 s3 [? ?] [? ?]. split; congruence. Qed.
#[export] Instance unchanged_world_free W : WorldFree (@unchanged W).
Proof. done. Qed.

#[export] Instance calls_are_preorder W Q : PreOrder (@calls_are W Q).
Proof.
  split; [intros s; exists []; by rewrite app_nil_r|].
  intros s1 s2 s3 (n1 & E1 & F1) (n2 & E2 & F2). exists (n1 ++ n2).
  rewrite E2, E1, app_assoc. split; [done|by apply Forall_app].
Qed.
#[export] Instance calls_are_world_free W Q : WorldFree (@calls_are W Q).
Proof. intros s w. exists []. by rewrite app_nil_r. Qed.

Lemma calls_are_same {W} Q (s s' : KLIQ W) : k_calls s' = k_calls s → calls_are Q s s'.
Proof. intros E. exists []. by rewrite E, app_nil_r. Qed.

Lemma calls_are_weaken {W} (Q Q' : adapter_call → Prop) (s s' : KLIQ W) :
  (∀ c, Q c → Q' c) → calls_are Q s s' → calls_are Q' s s'.
Proof. intros H (n & E & F). exists n. split; [done|]. by eapply Forall_impl. Qed.

Section reads.
Context {W : Type} {KW : KLIQWorld W} (R : relation (KLIQ W)) `{!PreOrder R, !WorldFree R}.

Lemma set_db_same (s : KLIQ W) : set_db (k_db s) s = s.
Proof using Type. by destruct s. Qed.

Lemma store_read_free {A} (f : SQLiteStore → result A) : preserves R (store_read f).
Proof using Type*.
  intros s. unfold store_read, store_write, read.
  destruct (store_fault (k_world s)) as [[e|] w]; exact (world_free s w).
Qed.

Lemma in_world_free {A} (m : io W A) : preserves R (in_world m).
Proof using Type*. intros s. apply world_free. Qed.

Lemma now_free : preserves R now.
Proof using Type*. intros s. unfold now. destruct (now_of _). apply world_free. Qed.

Lemma wall_free : preserves R wall.
Proof using Type*. intros s. simpl. reflexivity. Qed.
End reads.

#[export] Hint Resolve store_read_free in_world_free now_free wall_free : io.

Section evolution.
Context {W : Type} {KW : KLIQWorld W}.

Lemma on_actions_evolve {A} (m : io ActionTables A) :
  preserves actions_evolve m → preserves store_evolve (on_actions m).
Proof. intros Hm db. split; simpl; [apply Hm|reflexivity]. Qed.

Lemma on_audit_evolve {A} (m : io (list AuditRecordRow) A) :
  preserves audit_evolve m → preserves store_evolve (on_audit m).
Proof. intros Hm db. split; simpl; [reflexivity|apply Hm]. Qed.

Lemma on_assign_evolve {A} (m : io AssignmentTables A) : preserves store_evolve (on_assign m).
Proof. intros db. split; simpl; reflexivity. Qed.

Lemma store_write_evolve {A} (m : io SQLiteStore A) :
  preserves store_evolve m → preserves (@kliq_evolve W) (store_write m).
Proof.
  intros Hm s. unfold store_write.
  destruct (store_fault (k_world s)) as [[e|] w]; apply kliq_evolve_no_calls; simpl; done || apply Hm.
Qed.

(** A write of the store makes no call. *)
Lemma store_write_calls {A} (m : io SQLiteStore A) Q : preserves (@calls_are W Q) (store_write m).
Proof.
  intros s. apply calls_are_same. unfold store_write.
  by destruct (store_fault (k_world s)) as [[e|] w].
Qed.

Lemma store_audit_quiet {A} (m : io (list AuditRecordRow) A) :
  preserves (@quiet W) (store_write (on_audit m)).
Proof. intros s. unfold store_write. by destruct (store_fault (k_world s)) as [[e|] w]. Qed.

(** A write that succeeded was made on the database, without a fault. *)
Lemma store_write_Ok {A} (m : io SQLiteStore A) (s : KLIQ W) a s' :
  store_write m s = (Ok a, s') →
  m (k_db s) = (Ok a, k_db s') ∧ k_calls s' = k_calls s.
Proof.
  unfold store_write. destruct (store_fault (k_world s)) as [[e|] w]; [done|].
  destruct (m (k_db s)) as [r db]. simpl. by intros [= -> <-].
Qed.

Lemma on_actions_Ok {A} (m : io ActionTables A) (s : KLIQ W) a s' :
  store_write (on_actions m) s = (Ok a, s') →
  ∃ t, m (db_actions (k_db s)) = (Ok a, t) ∧ k_db s' = set_actions t (k_db s) ∧
       k_calls s' = k_calls s.
Proof. by intros [(t & ? & ?)%zoom_Ok ?]%store_write_Ok; exists t. Qed.

(** A read that ran, or a fault of the store, which is never "not found". *)
Lemma store_read_run {A} (f : SQLiteStore → result A) (s : KLIQ W) r s' :
  store_read f s = (r, s') →
  k_db s' = k_db s ∧ k_calls s' = k_calls s ∧
  (f (k_db s) = r ∨ ∃ e, r = Err e ∧ error_is e ErrNotFound = false).
Proof.
  unfold store_read, store_write, read. pose proof (store_fault_not_found (k_world s)) as Hf.
  destruct (store_fault (k_world s)) as [[e|] w]; intros [= <- <-]; simpl; [|by auto].
  split_and!; [done..|]. right. exists e. split; [done|]. by apply Hf.
Qed.

Lemma adapter_calls {A} kind lease (m : io W A) (Q : adapter_call → Prop) s :
  Q {| ac_kind := kind; ac_lease := lease; ac_db := k_db s |} →
  calls_are Q s (adapter kind lease m s).2.
Proof. intros HQ. eexists. split; [done|]. by repeat constructor. Qed.

Lemma adapter_evolve {A} kind lease (m : io W A) :
  preserves (@kliq_evolve W) (adapter kind lease m).
Proof.
  intros s. split; simpl; [reflexivity|].
  exists [{| ac_kind := kind; ac_lease := lease; ac_db := k_db s |}]. split; [done|].
  constructor; [done|constructor].
Qed.
End evolution.

#[export] Hint Resolve on_actions_evolve on_audit_evolve on_assign_evolve store_write_evolve
  adapter_evolve store_write_calls store_audit_quiet UpsertLease_evolve
  ExpireLease_evolve AppendJournal_evolve AppendRuntimeDecision_evolve AppendAudit_evolve : io.
