(* ===== verification/Plan.v ===== *)
(** * Plans, adapter registry and adapter executor
    ([internal/kliq/runtime/plan.go], [adapter_executor.go])

    An adapter is reached through an executor; one that can also read an
    action's state back is a [RuntimeStateReader]. *)

From stdpp Require Import options.
From S2P Require Import Prelude IO GoStrings GoTime Domain StateTypes.
#[local] Open Scope Z_scope.

Definition ActionModeRequired := "required".
Definition ActionModeOptional := "optional".
Definition ActionModeFallback := "fallback".
Definition ActionModeAnyOf := "any_of".

Record PlannedRuntimeAction := {
  pa_ActionID : string;
  pa_AdapterID : string;
  pa_CapabilityID : string;
  pa_CapabilityGrantID : string;
  pa_BindingID : string;
  pa_BindingDigest : string;
  pa_AdapterManifestDigest : string;
  pa_ActionDigest : string;
  pa_CorrelationID : string;
  pa_Mode : string;
  pa_Required : bool;
  pa_ActionType : string;
  pa_TargetScope : string;
  pa_TargetKey : string;
  pa_TTL : string;
  pa_Reason : string;
  pa_AuditID : string;
  pa_Context : list (string * string);
  pa_DowngradeReason : string;
}.

Record RuntimeActionPlan := {
  plan_PlanID : string;
  plan_DecisionID : string;
  plan_EventType : string;
  plan_EventID : string;
  plan_BundleID : string;
  plan_PolicyID : string;
  plan_SourceCommit : string;
  plan_CorrelationID : string;
  plan_Actions : list PlannedRuntimeAction;
}.

Definition validateActionMode (mode : string) : result unit :=
  reject (mode !=s ActionModeRequired) && (mode !=s ActionModeOptional) &&
         (mode !=s ActionModeFallback) && (mode !=s ActionModeAnyOf)
    with Errorf "unsupported runtime action mode %q" [AStr mode];;
  Ok tt.

(** [RuntimeExecutor], and [RuntimeStateReader] where the executor is one. *)
Record RuntimeExecutor {W : Type} := {
  Execute : RuntimeActionLease → string → io W unit;
  Cleanup : RuntimeActionLease → io W unit;
  State : option (RuntimeActionLease → io W RuntimeActionStatus);
}.
Arguments RuntimeExecutor W : clear implicits.

(** [AdapterRuntimeRegistry.Get] *)
Definition AdapterRuntimeRegistry (W : Type) : Type := string → option (RuntimeExecutor W).

Record AdapterRuntimeDescriptor := {
  ard_AdapterID : string;
  ard_Healthy : bool;
}.

(** ** The static registry *)
Section registry.
Context {W : Type}.

Definition StaticAdapterRuntimeRegistry : Type := gmap string (RuntimeExecutor W).

Record StaticAdapterRuntimeEntry := {
  are_AdapterID : string;
  are_Executor : option (RuntimeExecutor W);
}.

Definition add_entry (registry : StaticAdapterRuntimeRegistry)
    (entry : StaticAdapterRuntimeEntry) : StaticAdapterRuntimeRegistry :=
  if empty_str (are_AdapterID entry) then registry else
  match are_Executor entry with
  | None => registry
  | Some executor => <[are_AdapterID entry := executor]> registry
  end.

Definition NewStaticAdapterRuntimeRegistry (entries : list StaticAdapterRuntimeEntry)
    : StaticAdapterRuntimeRegistry :=
  foldl add_entry ∅ entries.

Definition Registry_Get (r : StaticAdapterRuntimeRegistry) : AdapterRuntimeRegistry W :=
  λ adapterID, r !! adapterID.

(** The keys are collected in map order, then sorted: the result does not
    depend on the order. *)
Definition Registry_List (r : StaticAdapterRuntimeRegistry) : list AdapterRuntimeDescriptor :=
  (λ adapterID, {| ard_AdapterID := adapterID; ard_Healthy := true |}) <$>
  sort_by str_leb (map_to_list r).*1.

Definition Registry_Healthy (r : StaticAdapterRuntimeRegistry) (adapterID : string) : bool :=
  bool_decide (is_Some (r !! adapterID)).
End registry.

(** [LocalTestExecutor] *)
Definition LocalTestExecutor {W} : RuntimeExecutor W := {|
  Execute _ _ := mret tt;
  Cleanup _ := mret tt;
  State := Some (λ _, mret RuntimeActionActive);
|}.

(** ** The gRPC executor

    The requests are those of the adapter protocol; the client is a parameter
    that returns the status of the response. *)

Record ExecuteRuntimeActionRequest := {
  xr_RuntimeActionId : string;
  xr_IdempotencyKey : string;
  xr_AdapterId : string;
  xr_CapabilityId : string;
  xr_ActionType : string;
  xr_TargetScope : string;
  xr_TargetKey : string;
  xr_Ttl : string;
  xr_Reason : string;
  xr_AuditId : string;
  xr_SourceCommit : string;
  xr_CapabilityGrantId : string;
  xr_CorrelationId : string;
  xr_BindingId : string;
  xr_BindingDigest : string;
  xr_AdapterManifestDigest : string;
  xr_ActionDigest : string;
  xr_SignedBundle : string;
}.

Record RevokeRuntimeActionRequest := {
  rr_IdempotencyKey : string;
  rr_Reason : string;
  rr_AuditId : string;
  rr_RuntimeActionId : string;
  rr_AdapterId : string;
  rr_ActionType : string;
  rr_TargetScope : string;
  rr_TargetKey : string;
  rr_SourceCommit : string;
  rr_CapabilityGrantId : string;
  rr_CapabilityId : string;
  rr_CorrelationId : string;
  rr_BindingId : string;
  rr_BindingDigest : string;
  rr_AdapterManifestDigest : string;
  rr_ActionDigest : string;
}.

Record GetRuntimeActionStateRequest := {
  gr_IdempotencyKey : string;
  gr_RuntimeActionId : string;
  gr_AdapterId : string;
  gr_ActionType : string;
  gr_TargetScope : string;
  gr_TargetKey : string;
  gr_CapabilityId : string;
  gr_CorrelationId : string;
  gr_BindingId : string;
  gr_BindingDigest : string;
  gr_AdapterManifestDigest : string;
  gr_ActionDigest : string;
}.

Record RuntimeActionClient {W : Type} := {
  client_Execute : ExecuteRuntimeActionRequest → io W string;
  client_Revoke : RevokeRuntimeActionRequest → io W string;
  client_GetState : GetRuntimeActionStateRequest → io W string;
}.
Arguments RuntimeActionClient W : clear implicits.

Section executor.
Context {W : Type}.

Definition Executor_Execute (client : option (RuntimeActionClient W))
    (lease : RuntimeActionLease) (signedBundle : string) : io W unit :=
  match client with
  | None => fail (Errorf "adapter runtime executor requires client" [])
  | Some client =>
    status ← client_Execute client {|
      xr_RuntimeActionId := l_RuntimeActionID lease;
      xr_IdempotencyKey := l_IdempotencyKey lease;
      xr_AdapterId := l_AdapterID lease;
      xr_CapabilityId := l_CapabilityID lease;
      xr_ActionType := l_ActionType lease;
      xr_TargetScope := l_TargetScope lease;
      xr_TargetKey := l_TargetKey lease;
      xr_Ttl := l_TTL lease;
      xr_Reason := l_Reason lease;
      xr_AuditId := l_AuditID lease;
      xr_SourceCommit := l_SourceCommit lease;
      xr_CapabilityGrantId := l_CapabilityGrantID lease;
      xr_CorrelationId := l_CorrelationID lease;
      xr_BindingId := l_BindingID lease;
      xr_BindingDigest := l_BindingDigest lease;
      xr_AdapterManifestDigest := l_AdapterManifestDigest lease;
      xr_ActionDigest := l_ActionDigest lease;
      xr_SignedBundle := signedBundle |};
    deny status !=s RuntimeActionActive
      with Errorf "adapter execute returned status %q" [AStr status];;
    mret tt
  end.

Definition incomplete_selector (lease : RuntimeActionLease) : error :=
  Errorf "runtime action lease %q does not contain a complete runtime action selector"
    [AStr (l_RuntimeActionID lease)].

Definition Executor_Cleanup (client : option (RuntimeActionClient W))
    (lease : RuntimeActionLease) : io W unit :=
  match client with
  | None => fail (Errorf "adapter runtime executor requires client" [])
  | Some client =>
    let selector := Selector lease in
    deny negb (Selector_Valid selector) with incomplete_selector lease;;
    status ← client_Revoke client {|
      rr_IdempotencyKey := sel_IdempotencyKey selector;
      rr_Reason := "ttl expired";
      rr_AuditId := l_AuditID lease;
      rr_RuntimeActionId := sel_RuntimeActionID selector;
      rr_AdapterId := sel_AdapterID selector;
      rr_ActionType := sel_ActionType selector;
      rr_TargetScope := sel_TargetScope selector;
      rr_TargetKey := sel_TargetKey selector;
      rr_SourceCommit := l_SourceCommit lease;
      rr_CapabilityGrantId := l_CapabilityGrantID lease;
      rr_CapabilityId := sel_CapabilityID selector;
      rr_CorrelationId := l_CorrelationID lease;
      rr_BindingId := l_BindingID lease;
      rr_BindingDigest := l_BindingDigest lease;
      rr_AdapterManifestDigest := l_AdapterManifestDigest lease;
      rr_ActionDigest := l_ActionDigest lease |};
    deny (status !=s RuntimeActionExpired) && (status !=s RuntimeActionNotFound)
      with Errorf "adapter cleanup returned status %q" [AStr status];;
    mret tt
  end.

Definition Executor_State (client : option (RuntimeActionClient W))
    (lease : RuntimeActionLease) : io W RuntimeActionStatus :=
  match client with
  | None => fail (Errorf "adapter runtime executor requires client" [])
  | Some client =>
    let selector := Selector lease in
    deny negb (Selector_Valid selector) with incomplete_selector lease;;
    client_GetState client {|
      gr_IdempotencyKey := sel_IdempotencyKey selector;
      gr_RuntimeActionId := sel_RuntimeActionID selector;
      gr_AdapterId := sel_AdapterID selector;
      gr_ActionType := sel_ActionType selector;
      gr_TargetScope := sel_TargetScope selector;
      gr_TargetKey := sel_TargetKey selector;
      gr_CapabilityId := sel_CapabilityID selector;
      gr_CorrelationId := l_CorrelationID lease;
      gr_BindingId := l_BindingID lease;
      gr_BindingDigest := l_BindingDigest lease;
      gr_AdapterManifestDigest := l_AdapterManifestDigest lease;
      gr_ActionDigest := l_ActionDigest lease |}
  end.

Definition AdapterRuntimeExecutor (client : option (RuntimeActionClient W)) : RuntimeExecutor W := {|
  Execute := Executor_Execute client;
  Cleanup := Executor_Cleanup client;
  State := Some (Executor_State client);
|}.
End executor.
