(* ===== verification/ManagerArtifacts.v ===== *)
(** * Artifacts of an assignment ([internal/kliq/runtime/manager.go])

    What the runtime manager requires of each artifact before an assignment is
    stored, and the records it stages. *)

From stdpp Require Import options.
From S2P Require Import Prelude IO GoStrings GoTime GoDuration Signing Domain Artifacts.
From S2P Require Import BundleSource StateTypes.
#[local] Open Scope Z_scope.

Definition parsePositiveDuration (value field : string) : result duration :=
  reject empty_str value with Errorf "%s is required" [AStr field];;
  match ParseDuration value with
  | None => Err (Wrapf "invalid %s %q: %w" [AStr field; AStr value]
                   (Errorf "time: invalid duration %q" [AStr value]))
  | Some parsed =>
      reject parsed <=? 0 with Errorf "%s must be positive" [AStr field];;
      Ok parsed
  end.

Lemma parsePositiveDuration_Ok value field d :
  parsePositiveDuration value field = Ok d →
  ParseDuration value = Some d ∧ 0 < d ≤ max_int64.
Proof.
  unfold parsePositiveDuration. intros H. passes H.
  destruct (ParseDuration value) as [p|] eqn:Hp; [|done]. passes H. injection H as <-.
  split; [done|]. apply ParseDuration_int64 in Hp as [? ?]. lia.
Qed.

Section artifacts.
Context {GR : GoRuntime} {JD : JSONDecoders}.

Definition assignmentArtifactPayload (artifact : KLIQAssignedArtifact) : result string :=
  envelope ← decode_SignedEnvelope (aa_Envelope artifact);
  reject empty_str (env_Payload envelope) with Errorf "signed envelope payload is empty" [];;
  Ok (env_Payload envelope).

Definition validateRuntimeBundleArtifact (payload : string) : result unit :=
  bundle ← decode_RuntimeBundle payload;
  reject rb_Kind bundle !=s "RuntimeBundle" with Errorf "kind must be RuntimeBundle" [];;
  reject blank (art_ID (rb_Metadata bundle)) with Errorf "metadata.id is required" [];;
  reject blank (art_PolicyID (rb_Metadata bundle))
    with Errorf "metadata.policy_id is required" [];;
  reject blank (rbs_PolicyID (rb_Spec bundle)) with Errorf "spec.policy_id is required" [];;
  Ok tt.

Definition validateAdapterAssignmentArtifact (payload : string) : result unit :=
  assignment ← decode_AdapterAssignment payload;
  reject adp_Kind assignment !=s "AdapterAssignment"
    with Errorf "kind must be AdapterAssignment" [];;
  reject blank (adp_AdapterID assignment) with Errorf "adapter_id is required" [];;
  reject blank (adp_Endpoint assignment) with Errorf "endpoint is required" [];;
  Ok tt.

Fixpoint validateManifestCapabilities (i : Z) (capabilities : list ManifestCapability)
    : result unit :=
  match capabilities with
  | [] => Ok tt
  | capability :: capabilities =>
      reject blank (mc_CapabilityID capability)
        with Errorf "spec.capabilities[%d].capability_id is required" [AInt i];;
      reject blank (mc_ImplementationStatus capability)
        with Errorf "spec.capabilities[%d].implementation_status is required" [AInt i];;
      validateManifestCapabilities (i + 1) capabilities
  end.

Definition validateAdapterManifestArtifact (payload : string) : result unit :=
  manifest ← decode_AdapterManifestHeader payload;
  reject mh_Kind manifest !=s "AdapterManifest" with Errorf "kind must be AdapterManifest" [];;
  reject blank (mh_ID manifest) with Errorf "metadata.id is required" [];;
  reject trim_space (mh_ArtifactType manifest) !=s "adapter_manifest"
    with Errorf "metadata.artifact_type must be adapter_manifest" [];;
  reject blank (mh_AdapterID manifest) with Errorf "spec.adapter_id is required" [];;
  reject blank (mh_AdapterVersion manifest) with Errorf "spec.adapter_version is required" [];;
  reject blank (mh_ProtocolVersion manifest) with Errorf "spec.protocol_version is required" [];;
  reject blank (mh_Status manifest) with Errorf "spec.status is required" [];;
  reject blank (mh_Digest manifest) with Errorf "spec.digest is required" [];;
  reject bool_decide (mh_Capabilities manifest = [])
    with Errorf "spec.capabilities is required" [];;
  validateManifestCapabilities 0 (mh_Capabilities manifest).

Definition validateContextRoutePackArtifact (payload : string) : result unit :=
  pack ← decode_ContextRoutePack payload;
  let spec := crp_Spec pack in
  reject crp_Kind pack !=s "ContextRoutePack" with Errorf "kind must be ContextRoutePack" [];;
  reject blank (crs_PolicyID spec) with Errorf "spec.policy_id is required" [];;
  reject blank (crs_Target spec) with Errorf "spec.target is required" [];;
  reject blank (crs_Stage spec) with Errorf "spec.stage is required" [];;
  reject bool_decide (crs_Routes spec = []) with Errorf "spec.routes is required" [];;
  for_each (λ route,
    reject blank (cr_Name route) with Errorf "route.name is required" [];; Ok tt)
    (crs_Routes spec).

Definition validateConformanceExpectationArtifact (payload : string) : result unit :=
  expectation ← decode_ConformanceExpectation payload;
  let spec := ce_Spec expectation in
  reject ce_Kind expectation !=s "ConformanceExpectation"
    with Errorf "kind must be ConformanceExpectation" [];;
  reject blank (ces_PolicyID spec) with Errorf "spec.policy_id is required" [];;
  reject blank (ces_Target spec) with Errorf "spec.target is required" [];;
  reject blank (ces_Stage spec) with Errorf "spec.stage is required" [];;
  reject bool_decide (ces_Expectations spec = []) && bool_decide (ces_Prohibit spec = [])
    with Errorf "spec.expectations or spec.prohibit is required" [];;
  Ok tt.

Definition validTrustBundlePurpose (purpose : string) : bool :=
  (trim_space purpose ==s "assignment_verification") ||
  (trim_space purpose ==s "artifact_verification").

Definition validateTrustBundleArtifact (payload : string) (now : time) : result unit :=
  bundle ← decode_TrustBundle payload;
  reject blank (tb_KeyID bundle) with Errorf "key_id is required" [];;
  reject blank (tb_PublicKey bundle) with Errorf "public_key is required" [];;
  reject negb (validTrustBundlePurpose (tb_Purpose bundle))
    with Errorf "unsupported trust bundle purpose %q" [AStr (tb_Purpose bundle)];;
  reject (tb_Status bundle !=s "active") && (tb_Status bundle !=s "previous")
    with Errorf "trust bundle status %q cannot verify managed assignments"
           [AStr (tb_Status bundle)];;
  reject negb (IsZero (tb_ExpiresAt bundle)) && negb (Before now (tb_ExpiresAt bundle))
    with Errorf "trust bundle is expired" [];;
  Ok tt.

Definition validateManagementProfileArtifact (payload : string) : result unit :=
  profile ← decode_ManagementProfile payload;
  reject (mp_Kind profile !=s "") && (mp_Kind profile !=s "KLIQManagementProfile") &&
         (mp_Kind profile !=s "ManagementProfile")
    with Errorf "unsupported management profile kind %q" [AStr (mp_Kind profile)];;
  reject blank (mp_ProfileID profile) with Errorf "profile_id is required" [];;
  reject blank (mp_Mode profile) with Errorf "mode is required" [];;
  for_each (λ nv,
    if blank nv.2 then Ok tt else
    match parsePositiveDuration nv.2 nv.1 with Ok _ => Ok tt | Err e => Err e end)
    (map_order
       [("poll_interval", mp_PollInterval profile);
        ("heartbeat_interval", mp_HeartbeatInterval profile);
        ("status_interval", mp_StatusInterval profile);
        ("decision_interval", mp_DecisionInterval profile);
        ("reconcile_interval", mp_ReconcileInterval profile);
        ("audit_flush_interval", mp_AuditFlushInterval profile)]).

Definition validateFallbackProfileArtifact (payload : string) : result unit :=
  profile ← decode_FallbackProfile payload;
  reject (fp_Kind profile !=s "") && (fp_Kind profile !=s "KLIQFallbackProfile") &&
         (fp_Kind profile !=s "FallbackProfile")
    with Errorf "unsupported fallback profile kind %q" [AStr (fp_Kind profile)];;
  reject blank (fp_ProfileID profile) with Errorf "profile_id is required" [];;
  reject blank (fp_Mode profile) with Errorf "mode is required" [];;
  reject negb (fp_AuditRequired profile) with Errorf "audit_required must be true" [];;
  Ok tt.

(** The switch on the artifact type. *)
Definition validateArtifactPayload (artifactType payload : string) (id : fmt_arg) (now : time)
    : result unit :=
  if artifactType ==s "runtime_bundle" then
    wrap_err "runtime bundle artifact %q invalid: %w" [id] (validateRuntimeBundleArtifact payload)
  else if artifactType ==s "adapter_manifest" then
    wrap_err "adapter manifest artifact %q invalid: %w" [id]
      (validateAdapterManifestArtifact payload)
  else if artifactType ==s "adapter_assignment" then
    wrap_err "adapter assignment artifact %q invalid: %w" [id]
      (validateAdapterAssignmentArtifact payload)
  else if artifactType ==s "context_route_pack" then
    wrap_err "context route pack artifact %q invalid: %w" [id]
      (validateContextRoutePackArtifact payload)
  else if artifactType ==s "conformance_expectation" then
    wrap_err "conformance expectation artifact %q invalid: %w" [id]
      (validateConformanceExpectationArtifact payload)
  else if artifactType ==s "trust_bundle" then
    wrap_err "trust bundle artifact %q invalid: %w" [id] (validateTrustBundleArtifact payload now)
  else if artifactType ==s "management_profile" then
    wrap_err "management profile artifact %q invalid: %w" [id]
      (validateManagementProfileArtifact payload)
  else if artifactType ==s "fallback_profile" then
    wrap_err "fallback profile artifact %q invalid: %w" [id]
      (validateFallbackProfileArtifact payload)
  else Err (Errorf "unsupported assignment artifact type %q" [AStr artifactType]).

(** The accumulator is [seenRuntimeBundle]. *)
Definition validateManagedAssignmentArtifacts (artifacts : list KLIQAssignedArtifact) (now : time)
    : result unit :=
  seenRuntimeBundle ← for_fold (λ seen artifact,
    let id := AStr (aa_ArtifactID artifact) in
    payload ← wrap_err "assignment artifact %q payload unavailable: %w" [id]
                (assignmentArtifactPayload artifact);
    _ ← validateArtifactPayload (aa_ArtifactType artifact) payload id now;
    Ok (seen || (aa_ArtifactType artifact ==s "runtime_bundle"))) false artifacts;
  reject negb seenRuntimeBundle
    with Errorf "managed assignment requires runtime_bundle artifact" [];;
  Ok tt.

Definition assignmentArtifactActivationStatus (artifactType : string) : string :=
  if bool_decide (artifactType ∈ ["runtime_bundle"; "adapter_manifest"; "adapter_assignment";
       "context_route_pack"; "conformance_expectation"; "trust_bundle"; "management_profile";
       "fallback_profile"])
  then "activated" else "unknown".

Definition assignmentArtifactActivationMessage (artifactType : string) : string :=
  if artifactType ==s "runtime_bundle" then "runtime bundle verified and active"
  else if artifactType ==s "adapter_manifest" then
    "adapter manifest verified and active for approved runtime adapter provenance"
  else if artifactType ==s "adapter_assignment" then
    "adapter assignment validated and available for daemon registry activation"
  else if artifactType ==s "context_route_pack" then
    "context route pack validated and active for local context routing"
  else if artifactType ==s "conformance_expectation" then
    "conformance expectation validated and active for local evidence expectations"
  else if artifactType ==s "trust_bundle" then
    "trust bundle validated and active in assignment artifact state"
  else if artifactType ==s "management_profile" then
    "management profile validated and available for daemon interval control"
  else if artifactType ==s "fallback_profile" then
    "fallback profile validated and active for local fallback behavior"
  else "artifact type not recognized by activation status mapper".

Definition assignmentArtifactRecords (activation : ManagedAssignmentActivation)
    (artifacts : list KLIQAssignedArtifact) (activatedAt : time)
    : list AssignmentArtifactRecord :=
  (λ artifact, {|
    aar_KLIQID := maa_KLIQID activation;
    aar_AssignmentID := maa_AssignmentID activation;
    aar_AssignmentVersion := maa_AssignmentVersion activation;
    aar_ArtifactType := aa_ArtifactType artifact;
    aar_ArtifactID := aa_ArtifactID artifact;
    aar_ArtifactRef := aa_ArtifactRef artifact;
    aar_SHA256 := aa_SHA256 artifact;
    aar_EnvelopeJSON := aa_Envelope artifact;
    aar_ActivationStatus := assignmentArtifactActivationStatus (aa_ArtifactType artifact);
    aar_ActivationMessage := assignmentArtifactActivationMessage (aa_ArtifactType artifact);
    aar_ActivatedAt := activatedAt |}) <$> artifacts.
End artifacts.
