(* ===== verification/ManagerPlan.v ===== *)
(** * From a request to a plan ([internal/kliq/runtime/manager.go])

    Loading of bundles and of managed assignments, and [planFromRequest]: what
    a runtime action request must satisfy before it becomes a plan.  The state
    is [KLIQ W]; [m_Store] tells whether the manager was given its store. *)

From stdpp Require Import options.
From S2P Require Import Prelude IO GoStrings GoTime GoDuration GoJson Risk Signing Domain Artifacts.
From S2P Require Import BundleSource StateTypes SqliteLeases SqliteAssignments SqliteBaseline Store.
From S2P Require Import Plan ManagerArtifacts.
#[local] Open Scope Z_scope.

Record Manager {W : Type} := {
  m_Store : bool;
  m_Verifier : option (Verifier W);
  m_Registry : option (AdapterRuntimeRegistry W);
}.
Arguments Manager W : clear implicits.

Record ExecuteRequest := {
  req_DecisionID : string;
  req_EventType : string;
  req_EventID : string;
  req_RiskType : string;
  req_AdapterID : string;
  req_CapabilityID : string;
  req_CapabilityGrantID : string;
  req_BindingID : string;
  req_BindingDigest : string;
  req_AdapterManifestDigest : string;
  req_ActionDigest : string;
  req_Mode : string;
  req_ActionType : string;
  req_TargetScope : string;
  req_TargetKey : string;
  req_TTL : string;
  req_Reason : string;
  req_AuditID : string;
  req_CorrelationID : string;
  req_DeriveAuditIDFromDecisionID : bool;
}.

Definition no_store : error := Errorf "kliq runtime manager requires state store" [].
Definition no_verifier : error := Errorf "kliq runtime manager requires bundle verifier" [].

(** ** Helpers *)

Definition actionAllowed (runtimeBundle : RuntimeBundle) (actionType : string) : bool :=
  existsb (λ action, (ra_CanonicalID action ==s actionType) || (ra_Label action ==s actionType))
    (rbs_RuntimeActions (rb_Spec runtimeBundle)).

Definition grantAllowsScope (grant : CapabilityGrant) (targetScope : string) : bool :=
  existsb (λ scope, trim_space scope ==s targetScope) (cg_AllowedTargetScopes grant).

Definition routeAllowsConsumer (consumers : list string) (adapterID capabilityID : string) : bool :=
  existsb (λ consumer,
    let c := trim_space consumer in
    (c ==s "*") || (c ==s adapterID) || (c ==s capabilityID)) consumers.

Definition riskCorrelationID (requested bundleCorrelationID bundleID decisionID : string) : string :=
  let correlationID := trim_space requested in
  let correlationID :=
    if empty_str correlationID then trim_space bundleCorrelationID else correlationID in
  if empty_str correlationID
  then "correlation.local." +:+ shortHash (bundleID +:+ NUL +:+ decisionID) else correlationID.

Definition idempotencyKey (bundleID decisionID adapterID capabilityID actionType targetScope
    targetKey : string) : string :=
  "sha256:" +:+ sha256_hex (bundleID +:+ NUL +:+ decisionID +:+ NUL +:+ adapterID +:+ NUL +:+
    capabilityID +:+ NUL +:+ actionType +:+ NUL +:+ targetScope +:+ NUL +:+ targetKey).

Section plan.
Context {GR : GoRuntime} {ED : Ed25519} {JD : JSONDecoders} {KD : KeyDecoders} {SC : StateCodecs}.
Context {W : Type} {KW : KLIQWorld W}.
Context (http_get : string → string → io W HTTPResponse).
Context (decode_EnvelopePayload : string → result string).
Implicit Types (m : Manager W).

Definition validateCapabilityGrant (runtimeBundle : RuntimeBundle)
    (adapterID capabilityID actionType targetScope grantID : string) (ttl : duration) (now : time)
    : result CapabilityGrant :=
  let id := AStr grantID in
  match List.find (λ candidate, cg_ID candidate ==s grantID)
          (rbs_CapabilityGrants (rb_Spec runtimeBundle)) with
  | None => Err (Errorf "capability grant %q is not present in runtime bundle %q"
                   [id; AStr (art_ID (rb_Metadata runtimeBundle))])
  | Some grant =>
    reject trim_space (cg_AdapterID grant) !=s adapterID
      with Errorf "capability grant %q adapter_id %q does not match requested adapter %q"
             [id; AStr (cg_AdapterID grant); AStr adapterID];;
    reject trim_space (cg_CapabilityID grant) !=s capabilityID
      with Errorf "capability grant %q capability_id %q does not match requested capability %q"
             [id; AStr (cg_CapabilityID grant); AStr capabilityID];;
    reject trim_space (cg_ActionType grant) !=s actionType
      with Errorf "capability grant %q action_type %q does not match requested action %q"
             [id; AStr (cg_ActionType grant); AStr actionType];;
    reject negb (grantAllowsScope grant targetScope)
      with Errorf "target scope %q is not allowed by capability grant %q" [AStr targetScope; id];;
    _ ← (if blank (cg_MaxTTL grant) then Ok tt else
         maxTTL ← parsePositiveDuration (cg_MaxTTL grant) "capability grant max_ttl";
         reject maxTTL <? ttl
           with Errorf "ttl %s exceeds capability grant max_ttl %s" [ADur ttl; ADur maxTTL];;
         Ok tt);
    _ ← (if blank (cg_ExpiresAt grant) then Ok tt else
         expiresAt ← wrap_err "capability grant %q expires_at is invalid: %w" [id]
                       (parseTime (trim_space (cg_ExpiresAt grant)));
         reject negb (Before now expiresAt)
           with Errorf "capability grant %q is expired" [id];;
         Ok tt);
    _ ← for_each (λ fv,
          reject blank fv.2
            with Errorf "capability grant %q missing required provenance field %s"
                   [id; AStr fv.1];;
          Ok tt)
        (map_order
           [("binding_id", cg_BindingID grant);
            ("binding_digest", cg_BindingDigest grant);
            ("adapter_manifest_digest", cg_AdapterManifestDigest grant);
            ("action_digest", cg_ActionDigest grant)]);
    Ok grant
  end.

Definition validateRequestedProvenance (req : ExecuteRequest) (grant : CapabilityGrant)
    : result unit :=
  for_each (λ '(field, requested, expected),
    let requested := trim_space requested in
    if empty_str requested then Ok tt else
    let expected := trim_space expected in
    reject requested !=s expected
      with Errorf "requested %s %q does not match runtime bundle grant %q"
             [AStr field; AStr requested; AStr expected];;
    Ok tt)
  [("binding_id", req_BindingID req, cg_BindingID grant);
   ("binding_digest", req_BindingDigest req, cg_BindingDigest grant);
   ("adapter_manifest_digest", req_AdapterManifestDigest req, cg_AdapterManifestDigest grant);
   ("action_digest", req_ActionDigest req, cg_ActionDigest grant)].

(** ** Loading *)

(** A [kliqbundle.Source] other than the managed one. *)
Definition Source : Type := io W (string * string).

Definition bundle_record (data sourceRef : string) (verified : RuntimeBundleVerification)
    (expiresAt now : time) : BundleRecord := {|
  bun_BundleID := art_ID (rb_Metadata (rbv_Bundle verified));
  bun_PolicyID := art_PolicyID (rb_Metadata (rbv_Bundle verified));
  bun_SourceCommit := art_SourceCommit (rb_Metadata (rbv_Bundle verified));
  bun_CorrelationID := art_CorrelationID (rb_Metadata (rbv_Bundle verified));
  bun_KeyID := env_KeyID (rbv_Envelope verified);
  bun_PayloadSHA256 := env_PayloadSHA256 (rbv_Envelope verified);
  bun_BundleSource := sourceRef;
  bun_EnvelopeJSON := data;
  bun_ExpiresAt := expiresAt;
  bun_VerifiedAt := now;
|}.

(** After [source.Load]; verification has checked that [ExpiresAt] is set. *)
Definition buildBundleRecord m (data sourceRef : string) : io (KLIQ W) BundleRecord :=
  verified ← in_world (VerifySignedRuntimeBundle data (m_Verifier m));
  now ← now;
  match env_ExpiresAt (rbv_Envelope verified) with
  | Some expiresAt => mret (bundle_record data sourceRef verified expiresAt now)
  | None => fail (Sentinel "nil pointer dereference")
  end.

Definition LoadBundle m (source : Source) : io (KLIQ W) BundleRecord :=
  deny negb (m_Store m) with no_store;;
  deny bool_decide (m_Verifier m = None) with no_verifier;;
  '(data, sourceRef) ← in_world source;
  record ← buildBundleRecord m data sourceRef;
  _ ← store_write (on_assign (SaveBundle record));
  mret record.

(** The managed source is a pointer: its state is part of the computation's. *)
Definition on_kliq {A} (c : io (KLIQ W) A) : io (ManagedAssignmentSource W * KLIQ W) A :=
  zoom snd (λ k s, (s.1, k)) c.
Definition source_Load : io (ManagedAssignmentSource W * KLIQ W) (string * string) := λ s,
  let '(r, (source, w)) := Load (λ w, (Ok (wall_of w), w)) http_get (s.1, k_world s.2) in
  (r, (source, set_world w s.2)).

Definition with_verifier (v : option (Verifier W)) (s : ManagedAssignmentSource W)
    : ManagedAssignmentSource W := {|
  mas_BaseURL := mas_BaseURL s;
  mas_BearerToken := mas_BearerToken s;
  mas_KLIQID := mas_KLIQID s;
  mas_Environment := mas_Environment s;
  mas_Stage := mas_Stage s;
  mas_Scope := mas_Scope s;
  mas_TrustKeyID := mas_TrustKeyID s;
  mas_TrustBundle := mas_TrustBundle s;
  mas_ActiveAssignmentVersion := mas_ActiveAssignmentVersion s;
  mas_ActiveAssignmentDigest := mas_ActiveAssignmentDigest s;
  mas_Verifier := match mas_Verifier s with Some v => Some v | None => v end;
  mas_assignment := mas_assignment s;
  mas_assignmentDigest := mas_assignmentDigest s;
|}.

(** The store is the SQLite one, which activates atomically. *)
Definition LoadManagedBundle m : io (ManagedAssignmentSource W * KLIQ W) BundleRecord :=
  deny negb (m_Store m) with no_store;;
  deny bool_decide (m_Verifier m = None) with no_verifier;;
  _ ← modify (prod_map (with_verifier (m_Verifier m)) id);
  kliqID ← gets (λ s, mas_KLIQID s.1);
  _ ← (if empty_str kliqID then mret tt else
       r ← on_kliq (attempt (store_read (λ db, get_KLIQManagementState kliqID (db_assign db))));
       match r with
       | Ok state => modify (prod_map (λ s, SetActiveAssignment s
                       (ms_ActiveAssignmentVersion state) (ms_ActiveAssignmentDigest state)) id)
       | Err e => if error_is e ErrNotFound then mret tt else fail e
       end);
  '(data, sourceRef) ← source_Load;
  record ← on_kliq (buildBundleRecord m data sourceRef);
  source ← gets fst;
  match AssignmentActivation source with
  | None => fail (Errorf "managed assignment source did not expose activated assignment state" [])
  | Some activation =>
    let artifacts := AssignmentArtifacts_of source in
    now1 ← on_kliq now;
    _ ← lift (validateManagedAssignmentArtifacts artifacts now1);
    now2 ← on_kliq now;
    let stagedArtifacts := assignmentArtifactRecords activation artifacts now2 in
    now3 ← on_kliq now;
    wall ← on_kliq wall;
    _ ← on_kliq (store_write (on_assign (SaveManagedBundleActivation decode_EnvelopePayload wall
          record {|
            ms_KLIQID := maa_KLIQID activation;
            ms_ActiveAssignmentID := maa_AssignmentID activation;
            ms_ActiveAssignmentVersion := maa_AssignmentVersion activation;
            ms_ActiveAssignmentSourceCommit := maa_SourceCommit activation;
            ms_ActiveAssignmentDigest := maa_AssignmentDigest activation;
            ms_ActiveAssignmentExpiresAt := maa_ExpiresAt activation;
            ms_ActiveAssignmentActivatedAt := now3 |} stagedArtifacts)));
    mret record
  end.

Definition CachedBundle m : io (KLIQ W) (RuntimeBundleVerification * BundleRecord) :=
  deny negb (m_Store m) with no_store;;
  deny bool_decide (m_Verifier m = None) with no_verifier;;
  record ← store_read (λ db, LastBundle (db_assign db));
  verified ← in_world (VerifySignedRuntimeBundle (bun_EnvelopeJSON record) (m_Verifier m));
  mret (verified, record).

(** ** Guards on the activated assignment *)

(** [credential, err := m.Store.KLIQCredential(ctx)]: without a credential the
    KLIQ is not managed and there is nothing to check. *)
Definition with_credential_or {A} (none : A) (k : KLIQCredential → io (KLIQ W) A)
    : io (KLIQ W) A :=
  r ← attempt (store_read (λ db, get_KLIQCredential (db_assign db)));
  match r with
  | Err e => if error_is e ErrNotFound then mret none else fail e
  | Ok credential => k credential
  end.

(** The active artifact of a type, if there is one. *)
Definition with_artifact_or {A} (none : A) (artifactType : string)
    (k : ActiveArtifactRecord → io (KLIQ W) A) : io (KLIQ W) A :=
  with_credential_or none (λ credential,
    r ← attempt (store_read (λ db,
          ActiveArtifact (cred_KLIQID credential) artifactType (db_assign db)));
    match r with
    | Err e => if error_is e ErrNotFound then mret none else fail e
    | Ok record => k record
    end).

Definition ensureActiveAssignmentAllowsNewActions : io (KLIQ W) unit :=
  with_credential_or tt (λ credential,
    r ← attempt (store_read (λ db,
          get_KLIQManagementState (cred_KLIQID credential) (db_assign db)));
    match r with
    | Err e => if error_is e ErrNotFound then mret tt else fail e
    | Ok state =>
      now ← now;
      deny negb (Before now (ms_ActiveAssignmentExpiresAt state))
        with Errorf "active assignment %q is expired; denying new runtime actions"
               [AStr (ms_ActiveAssignmentID state)];;
      mret tt
    end).

Definition ensureActiveContextRouteAllowsAction (adapterID capabilityID : string)
    : io (KLIQ W) unit :=
  with_artifact_or tt "context_route_pack" (λ record,
    pack ← lift (decode_ContextRoutePack (act_PayloadJSON record));
    deny negb (existsb (λ route, routeAllowsConsumer (cr_Consumers route) adapterID capabilityID)
                 (crs_Routes (crp_Spec pack)))
      with Errorf "active context route pack %q does not allow adapter %q capability %q"
             [AStr (act_ArtifactID record); AStr adapterID; AStr capabilityID];;
    mret tt).

(** ** Actions chosen by risk *)

Definition actionFromRiskCache (runtimeBundle : RuntimeBundle) (requestedRiskType : string)
    : io (KLIQ W) (string * RiskContext * bool) :=
  let riskType := NormalizeType requestedRiskType in
  deny empty_str riskType
    with Errorf "risk_type is required when action_type is omitted" [];;
  now ← now;
  wall ← wall;
  riskContext ← store_read (λ db, get_RiskContext wall
    {| rk_RiskType := riskType; rk_Scope := ScopeLocal |} now (db_risk db));
  match MatchBehavior (rbs_RiskBehavior (rb_Spec runtimeBundle)) riskContext with
  | None => mret ("", riskContext, false)
  | Some behavior =>
    let '(actionType, actionable) := RuntimeActionForEffect (prb_Effect behavior) in
    mret (actionType, riskContext, actionable)
  end.

(** ** The plan *)

Definition plan_id (runtimeBundle : RuntimeBundle) (decisionID : string) : string :=
  "runtime_action_plan." +:+ shortHash (art_ID (rb_Metadata runtimeBundle) +:+ NUL +:+ decisionID).

Definition plan_for (req : ExecuteRequest) (runtimeBundle : RuntimeBundle)
    (decisionID correlationID : string) (actions : list PlannedRuntimeAction)
    : RuntimeActionPlan := {|
  plan_PlanID := plan_id runtimeBundle decisionID;
  plan_DecisionID := decisionID;
  plan_EventType := trim_space (req_EventType req);
  plan_EventID := trim_space (req_EventID req);
  plan_BundleID := art_ID (rb_Metadata runtimeBundle);
  plan_PolicyID := art_PolicyID (rb_Metadata runtimeBundle);
  plan_SourceCommit := art_SourceCommit (rb_Metadata runtimeBundle);
  plan_CorrelationID := correlationID;
  plan_Actions := actions;
|}.

Definition planned_action (grant : CapabilityGrant) (riskContext : RiskContext)
    (planID adapterID capabilityID capabilityGrantID correlationID mode actionType targetScope
     targetKey ttlText reason auditID : string) : PlannedRuntimeAction := {|
  pa_ActionID := "planned_runtime_action." +:+ shortHash (planID +:+ NUL +:+ adapterID +:+ NUL +:+
    capabilityID +:+ NUL +:+ actionType +:+ NUL +:+ targetScope +:+ NUL +:+ targetKey);
  pa_AdapterID := adapterID;
  pa_CapabilityID := capabilityID;
  pa_CapabilityGrantID := capabilityGrantID;
  pa_BindingID := trim_space (cg_BindingID grant);
  pa_BindingDigest := trim_space (cg_BindingDigest grant);
  pa_AdapterManifestDigest := trim_space (cg_AdapterManifestDigest grant);
  pa_ActionDigest := trim_space (cg_ActionDigest grant);
  pa_CorrelationID := correlationID;
  pa_Mode := mode;
  pa_Required := mode ==s ActionModeRequired;
  pa_ActionType := actionType;
  pa_TargetScope := targetScope;
  pa_TargetKey := targetKey;
  pa_TTL := ttlText;
  pa_Reason := reason;
  pa_AuditID := auditID;
  pa_Context := [("target_scope", targetScope); ("target_key", targetKey); ("reason", reason);
                 ("ttl", ttlText); ("correlation_id", correlationID);
                 ("risk_type", rc_RiskType riskContext); ("risk_tier", rc_Tier riskContext)];
  pa_DowngradeReason := "";
|}.

(** The part of [planFromRequest] that needs the request alone: the trimmed
    identifiers, mode, reason and audit id. *)
Definition checked_request (req : ExecuteRequest)
    : result (string * string * string * string * string * string * string) :=
  let decisionID := trim_space (req_DecisionID req) in
  reject empty_str decisionID with Errorf "decision id is required" [];;
  let adapterID := trim_space (req_AdapterID req) in
  reject empty_str adapterID with Errorf "adapter id is required" [];;
  let capabilityID := trim_space (req_CapabilityID req) in
  reject empty_str capabilityID with Errorf "capability id is required" [];;
  let capabilityGrantID := trim_space (req_CapabilityGrantID req) in
  reject empty_str capabilityGrantID with Errorf "capability grant id is required" [];;
  let mode := trim_space (req_Mode req) in
  reject empty_str mode with Errorf "runtime action mode is required" [];;
  _ ← validateActionMode mode;
  let reason := trim_space (req_Reason req) in
  reject empty_str reason with Errorf "runtime action reason is required" [];;
  let auditID := trim_space (req_AuditID req) in
  reject empty_str auditID && negb (req_DeriveAuditIDFromDecisionID req)
    with Errorf "audit id is required unless explicit derivation from decision_id is requested" [];;
  let auditID := if empty_str auditID then "audit." +:+ shortHash decisionID else auditID in
  Ok (decisionID, adapterID, capabilityID, capabilityGrantID, mode, reason, auditID).

(** TTL and target, within the limits of the bundle. *)
Definition checked_limits (req : ExecuteRequest) (runtimeBundle : RuntimeBundle)
    : result (string * duration * string * string) :=
  let spec := rb_Spec runtimeBundle in
  reject negb (rbs_RuntimeAllowed spec)
    with Errorf "runtime bundle %q does not allow runtime actions"
           [AStr (art_ID (rb_Metadata runtimeBundle))];;
  let ttlText := trim_space (req_TTL req) in
  let ttlText := if empty_str ttlText then rbs_MaxTTL spec else ttlText in
  ttl ← parsePositiveDuration ttlText "ttl";
  maxTTL ← parsePositiveDuration (rbs_MaxTTL spec) "bundle max_ttl";
  reject maxTTL <? ttl
    with Errorf "ttl %s exceeds bundle max_ttl %s" [ADur ttl; ADur maxTTL];;
  let targetScope := trim_space (req_TargetScope req) in
  let targetScope := if empty_str targetScope then rbs_MaxScope spec else targetScope in
  reject empty_str targetScope with Errorf "target scope is required" [];;
  reject (rbs_MaxScope spec !=s "") && (targetScope !=s rbs_MaxScope spec)
    with Errorf "target scope %q does not match bundle max_scope %q"
           [AStr targetScope; AStr (rbs_MaxScope spec)];;
  let targetKey := trim_space (req_TargetKey req) in
  reject empty_str targetKey with Errorf "target key is required" [];;
  Ok (ttlText, ttl, targetScope, targetKey).

Definition planFromRequest m (req : ExecuteRequest) : io (KLIQ W) (RuntimeActionPlan * string) :=
  '(decisionID, adapterID, capabilityID, capabilityGrantID, mode, reason, auditID) ←
    lift (checked_request req);
  '(verified, bundleRecord) ← CachedBundle m;
  _ ← ensureActiveAssignmentAllowsNewActions;
  _ ← ensureActiveContextRouteAllowsAction adapterID capabilityID;
  let runtimeBundle := rbv_Bundle verified in
  '(ttlText, ttl, targetScope, targetKey) ← lift (checked_limits req runtimeBundle);
  let actionType := trim_space (req_ActionType req) in
  '(actionType, riskContext, actionable) ←
    (if empty_str actionType
     then actionFromRiskCache runtimeBundle (trim_space (req_RiskType req))
     else mret (actionType, zero_RiskContext, true));
  let correlationID := riskCorrelationID (req_CorrelationID req)
    (art_CorrelationID (rb_Metadata runtimeBundle)) (art_ID (rb_Metadata runtimeBundle))
    decisionID in
  if negb actionable
  then mret (plan_for req runtimeBundle decisionID correlationID [], bun_EnvelopeJSON bundleRecord)
  else
  deny empty_str actionType with Errorf "runtime action type is required" [];;
  deny negb (actionAllowed runtimeBundle actionType)
    with Errorf "runtime action %q is not allowed by bundle %q"
           [AStr actionType; AStr (art_ID (rb_Metadata runtimeBundle))];;
  now ← now;
  grant ← lift (validateCapabilityGrant runtimeBundle adapterID capabilityID actionType targetScope
                  capabilityGrantID ttl now);
  _ ← lift (validateRequestedProvenance req grant);
  mret (plan_for req runtimeBundle decisionID correlationID
          [planned_action grant riskContext (plan_id runtimeBundle decisionID) adapterID capabilityID
             capabilityGrantID correlationID mode actionType targetScope targetKey ttlText reason
             auditID],
        bun_EnvelopeJSON bundleRecord).
End plan.

(** ** What a plan may contain *)

(** The grant allows the action: its id, adapter, capability, action and scope
    match, the TTL is within its own maximum, it has not expired at [now], and
    it names its provenance. *)
Definition grant_allows (grant : CapabilityGrant) (adapterID capabilityID actionType targetScope
    grantID : string) (ttl : duration) (now : time) : Prop :=
  cg_ID grant = grantID ∧ trim_space (cg_AdapterID grant) = adapterID ∧
  trim_space (cg_CapabilityID grant) = capabilityID ∧
  trim_space (cg_ActionType grant) = actionType ∧
  grantAllowsScope grant targetScope = true ∧
  (blank (cg_MaxTTL grant) = true ∨
   ∃ maxTTL, ParseDuration (cg_MaxTTL grant) = Some maxTTL ∧ ttl ≤ maxTTL) ∧
  (blank (cg_ExpiresAt grant) = true ∨
   ∃ expiresAt, parseTime (trim_space (cg_ExpiresAt grant)) = Ok expiresAt ∧ now < expiresAt) ∧
  blank (cg_BindingID grant) = false ∧ blank (cg_BindingDigest grant) = false ∧
  blank (cg_AdapterManifestDigest grant) = false ∧ blank (cg_ActionDigest grant) = false.

Lemma validateCapabilityGrant_Ok {GR : GoRuntime} b adapterID capabilityID actionType targetScope
    grantID ttl now grant :
  validateCapabilityGrant b adapterID capabilityID actionType targetScope grantID ttl now = Ok grant →
  grant ∈ rbs_CapabilityGrants (rb_Spec b) ∧
  grant_allows grant adapterID capabilityID actionType targetScope grantID ttl now.
Proof.
  unfold validateCapabilityGrant. intros H. destruct (List.find _ _) as [g|] eqn:Hf; [|done].
  apply find_some in Hf as [Hin Hid]. apply list_elem_of_In in Hin.
  passes H. apply bind_Ok in H as ([] & Hmax & H). apply bind_Ok in H as ([] & Hexp & H).
  apply bind_Ok in H as ([] & Hprov & [= <-]). split; [done|]. str_eqs.
  apply for_each_Ok in Hprov. rewrite map_order_Forall, !Forall_cons in Hprov. simpl in Hprov.
  unfold grant_allows. split_and!; try done.
  - destruct (blank (cg_MaxTTL g)); [by left|right].
    apply bind_Ok in Hmax as (mx & Hmx & Hmax). passes Hmax.
    apply parsePositiveDuration_Ok in Hmx as [? _]. exists mx. split; [done|].
    by apply Z.ltb_ge.
  - destruct (blank (cg_ExpiresAt g)); [by left|right].
    apply bind_Ok in Hexp as (e & He & Hexp). passes Hexp. apply wrap_err_Ok in He.
    exists e. split; [done|]. str_eqs. unfold Before in *. by apply Z.ltb_lt.
  - destruct Hprov as (Hp & _). by destruct (blank (cg_BindingID g)).
  - destruct Hprov as (_ & Hp & _). by destruct (blank (cg_BindingDigest g)).
  - destruct Hprov as (_ & _ & Hp & _). by destruct (blank (cg_AdapterManifestDigest g)).
  - destruct Hprov as (_ & _ & _ & Hp & _). by destruct (blank (cg_ActionDigest g)).
Qed.

Lemma validateRequestedProvenance_Ok req grant :
  validateRequestedProvenance req grant = Ok tt →
  (trim_space (req_BindingID req) = "" ∨
   trim_space (req_BindingID req) = trim_space (cg_BindingID grant)) ∧
  (trim_space (req_BindingDigest req) = "" ∨
   trim_space (req_BindingDigest req) = trim_space (cg_BindingDigest grant)) ∧
  (trim_space (req_AdapterManifestDigest req) = "" ∨
   trim_space (req_AdapterManifestDigest req) = trim_space (cg_AdapterManifestDigest grant)) ∧
  (trim_space (req_ActionDigest req) = "" ∨
   trim_space (req_ActionDigest req) = trim_space (cg_ActionDigest grant)).
Proof.
  unfold validateRequestedProvenance. rewrite for_each_Ok, !Forall_cons.
  assert (Hc : ∀ (f a b : string), (if empty_str a then Ok tt else
      reject a !=s b with Errorf "requested %s %q does not match runtime bundle grant %q"
        [AStr f; AStr a; AStr b];; Ok tt) = Ok tt → a = "" ∨ a = b).
  { intros f a b. destruct (String.eqb_spec a ""); [by left|].
    destruct (String.eqb_spec a b); [by right|done]. }
  intros (H1 & H2 & H3 & H4 & _). split_and!; eapply Hc; eassumption.
Qed.

Lemma checked_limits_Ok req b ttlText ttl scope key :
  checked_limits req b = Ok (ttlText, ttl, scope, key) →
  rbs_RuntimeAllowed (rb_Spec b) = true ∧ ParseDuration ttlText = Some ttl ∧
  (∃ maxTTL, ParseDuration (rbs_MaxTTL (rb_Spec b)) = Some maxTTL ∧
             0 < ttl ≤ maxTTL ∧ maxTTL ≤ max_int64) ∧
  (rbs_MaxScope (rb_Spec b) = "" ∨ scope = rbs_MaxScope (rb_Spec b)) ∧
  scope ≠ "" ∧ key ≠ "".
Proof.
  unfold checked_limits. cbv zeta. intros H. passes H.
  apply bind_Ok in H as (t & Ht & H). apply bind_Ok in H as (mx & Hmx & H).
  passes H. injection H as <- <- <- <-. str_eqs.
  apply parsePositiveDuration_Ok in Ht as [Hp Hpos], Hmx as [Hpm Hposm].
  split_and!; try done.
  - exists mx. split; [done|]. match goal with H : (_ <? _) = false |- _ => apply Z.ltb_ge in H end.
    lia.
  - match goal with H : _ && _ = false |- _ => apply andb_false_iff in H as [?|?] end;
      str_eqs; auto.
Qed.

Section plans.
Context {GR : GoRuntime} {ED : Ed25519} {JD : JSONDecoders} {KD : KeyDecoders} {SC : StateCodecs}.
Context {W : Type} {KW : KLIQWorld W}.

Lemma CachedBundle_Ok (m : Manager W) s verified record s' :
  CachedBundle m s = (Ok (verified, record), s') →
  ∃ w w', VerifySignedRuntimeBundle (bun_EnvelopeJSON record) (m_Verifier m) w =
          (Ok verified, w').
Proof.
  unfold CachedBundle. intros H. run_all.
  match goal with H : in_world _ _ = _ |- _ => apply zoom_Ok in H as (? & ? & _) end. eauto.
Qed.

(** The limits a bundle puts on a planned action. *)
Definition action_within (req : ExecuteRequest) (b : RuntimeBundle) (now : time)
    (a : PlannedRuntimeAction) : Prop :=
  ∃ grant ttl maxTTL,
    rbs_RuntimeAllowed (rb_Spec b) = true ∧ actionAllowed b (pa_ActionType a) = true ∧
    ParseDuration (pa_TTL a) = Some ttl ∧
    ParseDuration (rbs_MaxTTL (rb_Spec b)) = Some maxTTL ∧ 0 < ttl ≤ maxTTL ∧
    maxTTL ≤ max_int64 ∧
    (rbs_MaxScope (rb_Spec b) = "" ∨ pa_TargetScope a = rbs_MaxScope (rb_Spec b)) ∧
    grant ∈ rbs_CapabilityGrants (rb_Spec b) ∧
    grant_allows grant (pa_AdapterID a) (pa_CapabilityID a) (pa_ActionType a) (pa_TargetScope a)
      (pa_CapabilityGrantID a) ttl now ∧
    pa_BindingID a = trim_space (cg_BindingID grant) ∧
    pa_BindingDigest a = trim_space (cg_BindingDigest grant) ∧
    pa_AdapterManifestDigest a = trim_space (cg_AdapterManifestDigest grant) ∧
    pa_ActionDigest a = trim_space (cg_ActionDigest grant) ∧
    (trim_space (req_ActionDigest req) = "" ∨
     trim_space (req_ActionDigest req) = trim_space (cg_ActionDigest grant)) ∧
    pa_TargetScope a ≠ "" ∧ pa_TargetKey a ≠ "" ∧ pa_ActionType a ≠ "".

(** A plan made from a request carries the identity of a bundle that verified,
    and at most one action, which the bundle allows: runtime actions are on, the
    action is listed, the TTL is positive and at most the bundle's and the
    grant's maximum, the scope is the bundle's and one of the grant's, the grant
    is for this adapter, capability and action and has not expired, and the
    provenance in the plan is the grant's. *)
Lemma planFromRequest_within_bundle (m : Manager W) req s plan signed s' :
  planFromRequest m req s = (Ok (plan, signed), s') →
  ∃ verified (record : BundleRecord) w w' now,
    VerifySignedRuntimeBundle (bun_EnvelopeJSON record) (m_Verifier m) w = (Ok verified, w') ∧
    signed = bun_EnvelopeJSON record ∧
    plan_BundleID plan = art_ID (rb_Metadata (rbv_Bundle verified)) ∧
    plan_PolicyID plan = art_PolicyID (rb_Metadata (rbv_Bundle verified)) ∧
    plan_SourceCommit plan = art_SourceCommit (rb_Metadata (rbv_Bundle verified)) ∧
    plan_DecisionID plan = trim_space (req_DecisionID req) ∧ plan_DecisionID plan ≠ "" ∧
    (plan_Actions plan = [] ∨
     ∃ a, plan_Actions plan = [a] ∧ action_within req (rbv_Bundle verified) now a).
Proof.
  unfold planFromRequest. intros H.
  apply io_bind_Ok in H as (((((((did, ad), cap), gid), mode), reason), aid) & s0 & Hreq & H).
  apply lift_Ok in Hreq as [Hreq ->].
  assert (Hdid : did = trim_space (req_DecisionID req) ∧ did ≠ "").
  { unfold checked_request in Hreq. cbv zeta in Hreq. passes Hreq.
    apply bind_Ok in Hreq as (? & _ & Hreq). passes Hreq. injection Hreq as <- _ _ _ _ _ _.
    by str_eqs. }
  destruct Hdid as [-> Hdid].
  apply io_bind_Ok in H as ([verified record] & s1 & Hc & H).
  apply CachedBundle_Ok in Hc as (w & w' & Hv).
  apply io_bind_Ok in H as (_ & s2 & _ & H). apply io_bind_Ok in H as (_ & s3 & _ & H).
  apply io_bind_Ok in H as ((((ttlText, ttl), scope), key) & s4 & Hl & H).
  apply lift_Ok in Hl as [Hl ->]. apply checked_limits_Ok in Hl.
  destruct Hl as (L1 & L2 & (mx & L3 & L4 & L5) & L6 & L7 & L8).
  apply io_bind_Ok in H as (((at_, rc), actionable) & s5 & _ & H).
  destruct (negb actionable).
  { apply mret_Ok in H as [[= -> ->] ->]. exists verified, record, w, w', 0.
    split_and!; try done. by left. }
  cbv zeta in H. run_step H. run_step H.
  apply io_bind_Ok in H as (now & s6 & _ & H).
  apply io_bind_Ok in H as (grant & s7 & Hgr & H). apply lift_Ok in Hgr as [Hgr ->].
  apply io_bind_Ok in H as ([] & s8 & Hp & H). apply lift_Ok in Hp as [Hp ->].
  apply mret_Ok in H as [[= -> ->] ->].
  apply validateCapabilityGrant_Ok in Hgr as [Hin Hallow].
  apply validateRequestedProvenance_Ok in Hp as (_ & _ & _ & Hp). str_eqs.
  exists verified, record, w, w', now. split_and!; try done.
  right. eexists. split; [done|]. exists grant, ttl, mx. simpl. split_and!; done || lia.
Qed.
End plans.

(** The idempotency key of an action identifies it: where no part contains the
    separator, two actions with the same key have the same bundle, decision,
    adapter, capability, action type and target, unless the two texts that are
    hashed collide. *)
Theorem idempotencyKey_identifies (l1 l2 : list string) b1 d1 a1 c1 t1 s1 k1 b2 d2 a2 c2 t2 s2 k2 :
  l1 = [b1; d1; a1; c1; t1; s1; k1] → l2 = [b2; d2; a2; c2; t2; s2; k2] →
  Forall (λ s, no_nul s = true) l1 → Forall (λ s, no_nul s = true) l2 →
  idempotencyKey b1 d1 a1 c1 t1 s1 k1 = idempotencyKey b2 d2 a2 c2 t2 s2 k2 →
  l1 = l2 ∨ collide (join NUL l1) (join NUL l2).
Proof.
  intros -> -> H1 H2 H. apply app_str_inj_l, sha256_hex_inj in H as [H|H]; [left|by right].
  by apply join_nul_inj.
Qed.

Lemma idempotencyKey_identifies_witness :
  let l := ["bundle-1"; "decision-1"; "klshield"; "network.rate_limit"; "rate_limit"; "source_ip";
            "10.0.0.1"] in
  l = l ∨ collide (join NUL l) (join NUL l).
Proof.
  intros l. eapply (idempotencyKey_identifies l l); [reflexivity|reflexivity| | |reflexivity];
    repeat constructor.
Defined.
