(* ===== verification/CompilerProofs.v ===== *)
(** * What a compiled grant is worth

    The grants of a compiled runtime bundle come from the catalog and from the adapter
    manifests, and the KLIQ accepts them: the compiler ([internal/forge/compiler])
    and the runtime manager ([internal/kliq/runtime]) are put together here. *)

From stdpp Require Import options.
From stdpp Require Import gmap.
From S2P Require Import Prelude IO GoStrings GoTime GoDuration GoJson GoFloat GoEncoding GoPath.
From S2P Require Import GoQuote Risk Schema Signing Domain Registry RegistryProofs Intent Artifacts.
From S2P Require Import BuildManifest ArtifactStore AdapterManifests Compiler Plan ManagerArtifacts.
From S2P Require Import ManagerPlan.
#[local] Open Scope Z_scope.

Set Default Proof Using "Type*".

(** A loop that collects answers with the elements they are for. *)
Lemma resolve_each_Ok {A B} (f : A → result B) l l' :
  resolve_each f l = Ok l' ↔ Forall2 (λ a b, f a = Ok b) l l'.
Proof.
  unfold resolve_each.
  cut (∀ acc, for_fold (λ acc x, y ← f x; Ok (acc ++ [y])) acc l = Ok l' ↔
              ∃ l2, l' = acc ++ l2 ∧ Forall2 (λ a b, f a = Ok b) l l2).
  { intros H. rewrite H. simpl. naive_solver. }
  revert l'. induction l as [|a l IH]; intros l' acc; simpl.
  - split; [intros [= ->]; exists []; by rewrite app_nil_r|].
    intros (l2 & -> & H). inversion H. by rewrite app_nil_r.
  - destruct (f a) as [b|e] eqn:E; simpl.
    + rewrite IH. split.
      * intros (l2 & -> & H). exists (b :: l2). rewrite <- app_assoc. split; [done|]. by constructor.
      * intros (l2 & -> & (b' & l3 & Hb & Hl & ->)%Forall2_cons_inv_l). exists l3.
        rewrite <- app_assoc. split; [|done]. simpl in Hb. by assert (b' = b) as -> by congruence.
    + split; [done|]. intros (l2 & -> & (b' & l3 & Hb & Hl & ->)%Forall2_cons_inv_l). congruence.
Qed.

(** ** Manifests that load *)

Definition manifest_ok (id : string) (m : AdapterManifest) : Prop :=
  am_AdapterID m = id ∧ blank id = false ∧ blank (am_ProtocolVersion m) = false ∧
  ∃ data, am_Digest m = sha256Bytes data.
Definition manifests_ok (manifests : Manifests) : Prop :=
  ∀ id m, manifests !! id = Some m → manifest_ok id m.

Section loading.
Context {FS : Files} {MD : ManifestDecoder}.

Lemma LoadAdapterManifestFile_ok path m :
  LoadAdapterManifestFile path = Ok m → manifest_ok (am_AdapterID m) m.
Proof.
  unfold LoadAdapterManifestFile. intros (data & _ & H)%bind_Ok.
  apply bind_Ok in H as (m0 & _ & H). apply bind_Ok in H as ([] & Hs & [= <-]).
  unfold validateAdapterManifestShape in Hs. passes Hs. unfold manifest_ok. simpl.
  split_and!; [done..|]. by exists data.
Qed.

Lemma load_entry_ok root acc entry acc' :
  load_entry root acc entry = Ok acc' → manifests_ok acc.1 → manifests_ok acc'.1.
Proof.
  destruct acc as [manifests seen], entry as [name isDir]. unfold load_entry. intros H Hok.
  case_match; [by injection H as <-|]. cbv zeta in H. case_match; [by injection H as <-|].
  destruct (LoadAdapterManifestFile _) as [m|e] eqn:E.
  - passes H. injection H as <-. intros id m'. simpl. rewrite lookup_insert.
    case_decide as Hid; [|apply Hok]. intros [= <-]. rewrite <- Hid.
    by eapply LoadAdapterManifestFile_ok.
  - case_match; [by injection H as <-|done].
Qed.

Lemma loadAdapterManifestsFromRoots_ok roots manifests :
  loadAdapterManifestsFromRoots roots = Ok manifests → manifests_ok manifests.
Proof.
  unfold loadAdapterManifestsFromRoots. destruct (for_fold _ _ _) as [[m s]|] eqn:E; [|done].
  intros [= <-]. change (manifests_ok (m, s).1).
  refine (for_fold_Ok _ (λ acc, manifests_ok acc.1) _ _ _ E _ _).
  - intros id m'. simpl. by rewrite lookup_empty.
  - intros acc root acc' _ IH Hstep. destruct (os_ReadDir root) as [entries|]; [|by injection Hstep as <-].
    refine (for_fold_Ok _ (λ acc, manifests_ok acc.1) _ _ _ Hstep IH _).
    intros acc1 entry acc2 _ IH1 H1. by eapply load_entry_ok.
Qed.

Lemma LoadAdapterManifests_ok policyRepo core enterprise manifests :
  LoadAdapterManifests policyRepo core enterprise = Ok manifests → manifests_ok manifests.
Proof.
  unfold LoadAdapterManifests. generalize (adapterManifestRootGroups policyRepo core enterprise).
  intros groups. induction groups as [|roots groups IH]; simpl.
  - intros [= <-] id m. by rewrite lookup_empty.
  - intros (m & Hm & H)%bind_Ok. case_match; [by apply IH|]. injection H as <-.
    by eapply loadAdapterManifestsFromRoots_ok.
Qed.
End loading.

(** ** Grants *)

Section grants.
Context {GR : GoRuntime} {UL : UnicodeLower} {FT : FloatText} {DD : DocumentDecoders}.
Context {RD : RegistryDecoders} {FS : Files}.

(** What stands behind a grant for a runtime action. *)
Definition grant_backed (c : Catalog) (manifests : Manifests) (card : Card) (scope maxTTL action : string)
    (g : CapabilityGrant) : Prop :=
  ∃ rule cap binding manifest,
    RuntimeActionRule c action = Some rule ∧ rule_CapabilityIDs rule = [cg_CapabilityID g] ∧
    get_Capability c (cg_CapabilityID g) = Some cap ∧ trim_space (cap_Status cap) ≠ "planned" ∧
    get_AdapterBinding c (cg_CapabilityID g) (card_Stage card) = Some binding ∧
    cg_AdapterID g = trim_space (ab_AdapterID binding) ∧
    manifests !! cg_AdapterID g = Some manifest ∧
    adapterManifestImplements manifest (cg_CapabilityID g) action = true ∧
    cg_BindingID g = ab_BindingID binding ∧ cg_BindingDigest g = ab_Digest binding ∧
    cg_AdapterManifestDigest g = am_Digest manifest ∧ cg_ActionType g = action ∧
    cg_AllowedTargetScopes g = [scope] ∧ cg_MaxTTL g = maxTTL ∧ cg_ExpiresAt g = "" ∧
    cg_Stage g = card_Stage card ∧
    cg_ID g = capabilityGrantID (card_ID card) (cg_AdapterID g) (cg_CapabilityID g) action scope ∧
    cg_ActionDigest g = runtimeActionDigest (card_ID card) (cg_AdapterID g) (cg_CapabilityID g) action
                          scope (cg_BindingDigest g) (cg_AdapterManifestDigest g).

Lemma runtimeCapabilityGrant_Ok card resolved action c manifests g :
  runtimeCapabilityGrant card resolved action c manifests = Ok g →
  grant_backed c manifests card (rv_Label (rrt_MaxScope (rp_Runtime resolved)))
    (rrt_MaxTTL (rp_Runtime resolved)) action g.
Proof.
  unfold runtimeCapabilityGrant. intros H.
  destruct (RuntimeActionRule c action) as [rule|] eqn:Hrule; [|done].
  destruct (rule_CapabilityIDs rule) as [|cid [|]] eqn:Hids; [done| |done].
  destruct (get_Capability c cid) as [cap|] eqn:Hcap; [|done]. passes H.
  destruct (get_AdapterBinding c cid _) as [binding|] eqn:Hb; [|done]. cbv zeta in H.
  destruct (manifests !! _) as [manifest|] eqn:Hm; [|done]. passes H. injection H as <-. str_eqs.
  exists rule, cap, binding, manifest. by split_and!.
Qed.

Lemma runtimeBundleArtifact_Ok card resolved metadata c manifests bundle :
  runtimeBundleArtifact card resolved metadata c manifests = Ok bundle →
  rbs_PolicyID (rb_Spec bundle) = card_ID card ∧
  Forall2 (λ action g, grant_backed c manifests card (rv_Label (rrt_MaxScope (rp_Runtime resolved)))
             (rrt_MaxTTL (rp_Runtime resolved)) (rv_CanonicalID action) g)
    (rrt_Actions (rp_Runtime resolved)) (rbs_CapabilityGrants (rb_Spec bundle)).
Proof.
  unfold runtimeBundleArtifact. cbv zeta. intros (grants & Hg & [= <-])%bind_Ok. split; [done|].
  apply resolve_each_Ok in Hg. eapply Forall2_impl; [exact Hg|]. intros action g.
  apply runtimeCapabilityGrant_Ok.
Qed.

(** The four digests and identifiers the KLIQ wants are there. *)
Lemma backed_provenance c manifests card scope maxTTL action g :
  catalog_ok c → manifests_ok manifests → grant_backed c manifests card scope maxTTL action g →
  blank (cg_ID g) = false ∧ blank (cg_BindingID g) = false ∧ blank (cg_BindingDigest g) = false ∧
  blank (cg_AdapterID g) = false ∧ blank (cg_AdapterManifestDigest g) = false ∧
  blank (cg_CapabilityID g) = false ∧ blank (cg_ActionDigest g) = false.
Proof.
  intros Hc Hm (rule & cap & binding & manifest & _ & _ & Hcap & _ & Hb & Ha & Hl & _ & Hbid & Hbd & Hmd &
                _ & _ & _ & _ & _ & Hid & Had).
  destruct (get_AdapterBinding_Some _ _ _ _ Hb) as [Hin _].
  pose proof (co_bindings c Hc) as Hbs. rewrite Forall_forall in Hbs.
  destruct (Hbs _ Hin) as (B1 & _ & B3 & B4 & _). destruct (Hm _ _ Hl) as (_ & _ & _ & data & Hd).
  destruct (co_capabilities c Hc _ _ Hcap) as (_ & C & _).
  rewrite Hid, Had, Hbid, Hbd, Hmd, B4, Hd. split_and!; try done; try not_blank.
  by rewrite Ha, blank_trim.
Qed.

(** The TTL a grant lets through. *)
Definition ttl_allowed (maxTTL : string) (ttl : duration) : Prop :=
  blank maxTTL = true ∨
  ∃ d, parsePositiveDuration maxTTL "capability grant max_ttl" = Ok d ∧ ttl <= d.

(** The grant a KLIQ finds under an identifier, checked for the request it is meant for. *)
Lemma backed_accepted c manifests card scope maxTTL action g bundle ttl now :
  catalog_ok c → manifests_ok manifests → grant_backed c manifests card scope maxTTL action g →
  List.find (λ candidate, cg_ID candidate ==s cg_ID g) (rbs_CapabilityGrants (rb_Spec bundle)) = Some g →
  validateCapabilityGrant bundle (trim_space (cg_AdapterID g)) (trim_space (cg_CapabilityID g))
    (trim_space action) (trim_space scope) (cg_ID g) ttl now = Ok g ↔ ttl_allowed maxTTL ttl.
Proof.
  intros Hc Hm Hg Hfind. destruct (backed_provenance _ _ _ _ _ _ _ Hc Hm Hg) as (_ & P1 & P2 & _ & P3 & _ & P4).
  destruct Hg as (rule & cap & binding & manifest & _ & _ & _ & _ & _ & _ & _ & _ & _ & _ & _ & Hact & Hsc & Httl & Hexp & _).
  unfold validateCapabilityGrant. cbv zeta. rewrite Hfind, Hact, !String.eqb_refl. simpl.
  unfold grantAllowsScope. rewrite Hsc, Hexp. simpl. rewrite String.eqb_refl. simpl.
  rewrite Httl. change (blank "") with true. cbv iota. cbn [mbind result_bind].
  assert (Hprov : for_each (λ fv : string * string,
      if blank fv.2 then Err (Errorf "capability grant %q missing required provenance field %s"
        [AStr (cg_ID g); AStr fv.1]) else Ok tt)
    (map_order [("binding_id", cg_BindingID g); ("binding_digest", cg_BindingDigest g);
      ("adapter_manifest_digest", cg_AdapterManifestDigest g); ("action_digest", cg_ActionDigest g)]) = Ok tt).
  { rewrite for_each_Ok, map_order_Forall. repeat constructor; simpl; by rewrite ?P1, ?P2, ?P3, ?P4. }
  unfold ttl_allowed. destruct (blank maxTTL) eqn:Hb; simpl.
  { split; [by left|]. intros _. by rewrite Hprov. }
  destruct (parsePositiveDuration maxTTL _) as [d|e] eqn:Hp; simpl.
  - destruct (Z.ltb_spec d ttl); simpl.
    + split; [done|]. intros [?|(d' & [= ->] & ?)]; [done|lia].
    + rewrite Hprov. simpl. split; [intros _; right; exists d; split; [done|lia]|done].
  - split; [done|]. intros [?|(d' & ? & ?)]; done.
Qed.

(** C18. The runtime bundle that is compiled has one grant per runtime action, in their
    order, each backed by the rule of the action, a capability that is not planned, an
    adapter binding of the stage and a manifest that implements the action; and the
    KLIQ that is asked for that action, adapter, capability and scope under the
    grant's identifier accepts the grant exactly for the times to live that the
    bundle's limit allows: for none at all when the limit is not a duration, which
    the compiler does not look at. *)
Theorem compiled_grants_accepted card resolved metadata c manifests bundle :
  catalog_ok c → manifests_ok manifests →
  runtimeBundleArtifact card resolved metadata c manifests = Ok bundle →
  let grants := rbs_CapabilityGrants (rb_Spec bundle) in
  let scope := rv_Label (rrt_MaxScope (rp_Runtime resolved)) in
  let maxTTL := rrt_MaxTTL (rp_Runtime resolved) in
  (∀ g1 g2, g1 ∈ grants → g2 ∈ grants → cg_ID g1 = cg_ID g2 → cg_ActionType g1 = cg_ActionType g2) →
  Forall2 (λ action g,
    grant_backed c manifests card scope maxTTL (rv_CanonicalID action) g ∧
    ∀ ttl now,
      validateCapabilityGrant bundle (trim_space (cg_AdapterID g)) (trim_space (cg_CapabilityID g))
        (trim_space (rv_CanonicalID action)) (trim_space scope) (cg_ID g) ttl now = Ok g ↔
      ttl_allowed maxTTL ttl)
    (rrt_Actions (rp_Runtime resolved)) grants.
Proof.
  intros Hc Hm Hb grants scope maxTTL Hids. unfold runtimeBundleArtifact in Hb. cbv zeta in Hb.
  apply bind_Ok in Hb as (gs & Hgs & [= <-]). subst grants. simpl in *. apply resolve_each_Ok in Hgs.
  assert (Hfun : ∀ g, g ∈ gs → runtimeCapabilityGrant card resolved (cg_ActionType g) c manifests = Ok g).
  { intros g Hg. apply list_elem_of_lookup in Hg as [i Hi].
    destruct (Forall2_lookup_r _ _ _ _ _ Hgs Hi) as (a & _ & Ha).
    by destruct (runtimeCapabilityGrant_Ok _ _ _ _ _ _ Ha)
      as (? & ? & ? & ? & _ & _ & _ & _ & _ & _ & _ & _ & _ & _ & _ & -> & _). }
  apply Forall2_same_length_lookup. split; [by apply Forall2_length in Hgs|].
  intros i a g Ha Hg. pose proof (Forall2_lookup_lr _ _ _ _ _ _ Hgs Ha Hg) as Hag. simpl in Hag.
  pose proof (runtimeCapabilityGrant_Ok _ _ _ _ _ _ Hag) as Hback. split; [done|]. intros ttl now.
  apply (backed_accepted c manifests card); try done. simpl.
  apply list_elem_of_lookup_2 in Hg as Hin.
  destruct (List.find _ gs) as [g'|] eqn:Hf.
  - apply find_some in Hf as [Hin' Heq%String.eqb_eq]. apply list_elem_of_In in Hin'.
    pose proof (Hids _ _ Hin' Hin Heq) as Hact. pose proof (Hfun _ Hin') as H1.
    rewrite Hact, (Hfun _ Hin) in H1. by injection H1 as ->.
  - apply list_elem_of_In, (find_none _ _ Hf) in Hin. by rewrite String.eqb_refl in Hin.
Qed.
End grants.
