(* ===== verification/CompilerBuild.v ===== *)
(** * A build that compiles can be approved and assigned

    The build manifest of [compileOne] ([internal/forge/compiler]) meets what the
    management API ([internal/forge/api]) demands of a build before it is approved and
    before its artifacts are assigned. *)

From stdpp Require Import options.
From stdpp Require Import gmap.
From S2P Require Import Prelude IO GoStrings GoTime GoDuration GoJson GoFloat GoEncoding GoPath.
From S2P Require Import GoQuote Risk Schema Signing Domain Registry RegistryProofs Intent Artifacts.
From S2P Require Import BuildManifest ArtifactStore AdapterManifests Compiler CompilerEmit.
From S2P Require Import ForgePlan ManagerPlan CompilerProofs.
#[local] Open Scope Z_scope.

Set Default Proof Using "Type*".

(** ** Maps that a loop fills *)
Section entries.
Context {X A : Type} (key : X → string) (val : X → option A).

Definition fill (m : gmap string A) (l : list X) : gmap string A :=
  foldl (λ m x, match val x with Some v => <[key x := v]> m | None => m end) m l.

Lemma fill_Some m l k v :
  fill m l !! k = Some v → m !! k = Some v ∨ ∃ x, x ∈ l ∧ key x = k ∧ val x = Some v.
Proof.
  revert m. induction l as [|x l IH]; intros m H; [by left|]. apply IH in H as [H|(y & ? & ? & ?)].
  - destruct (val x) as [w|] eqn:E; [|by left]. apply lookup_insert_Some in H as [[<- <-]|[_ ?]]; [|by left].
    right. exists x. by split; [left|].
  - right. exists y. split; [by right|done].
Qed.

Lemma fill_other m l k :
  (∀ x, x ∈ l → is_Some (val x) → key x ≠ k) → fill m l !! k = m !! k.
Proof.
  revert m. induction l as [|x l IH]; intros m H; [done|]. simpl. unfold fill in IH. rewrite IH.
  - destruct (val x) as [v|] eqn:E; [|done]. apply lookup_insert_ne. apply H; [left|by eexists].
  - intros y Hy. apply H. by right.
Qed.

Lemma fill_stays m l k v :
  m !! k = Some v → (∀ y w, y ∈ l → key y = k → val y = Some w → w = v) → fill m l !! k = Some v.
Proof.
  revert m. induction l as [|y l IH]; intros m Hm Hsame; [done|]. apply IH.
  - destruct (val y) as [w|] eqn:E; [|done]. destruct (decide (key y = k)) as [Hk|Hk].
    + rewrite (Hsame y w), Hk by (done || left). apply lookup_insert_eq.
    + by rewrite lookup_insert_ne.
  - intros z w Hz. apply Hsame. by right.
Qed.

Lemma fill_in m l x v :
  x ∈ l → val x = Some v → (∀ y w, y ∈ l → key y = key x → val y = Some w → w = v) →
  fill m l !! key x = Some v.
Proof.
  revert m. induction l as [|y l IH]; intros m Hin Hv Hsame; [by apply elem_of_nil in Hin|].
  apply elem_of_cons in Hin as [<-|Hin].
  - simpl. rewrite Hv. apply fill_stays; [apply lookup_insert_eq|].
    intros z w Hz. apply Hsame. by right.
  - apply IH; [done..|]. intros z w Hz. apply Hsame. by right.
Qed.

Lemma fill_has m l x :
  x ∈ l → is_Some (val x) → is_Some (fill m l !! key x).
Proof.
  revert m. assert (Hkeep : ∀ l m k, is_Some (m !! k) → is_Some (fill m l !! k)).
  { clear l. induction l as [|y l IH]; intros m k Hm; [done|]. apply IH.
    destruct (val y); [|done]. apply lookup_insert_is_Some. destruct (decide (key y = k)); auto. }
  induction l as [|y l IH]; intros m Hin Hv; [by apply elem_of_nil in Hin|].
  apply elem_of_cons in Hin as [<-|Hin]; [|by apply IH].
  destruct Hv as [v Hv]. simpl. rewrite Hv. apply Hkeep. rewrite lookup_insert_eq. by eexists.
Qed.
End entries.

Lemma foldl_same {A B} (f g : A → B → A) a l : (∀ a b, f a b = g a b) → foldl f a l = foldl g a l.
Proof. intros H. revert a. induction l as [|b l IH]; intros a; simpl; [done|]. by rewrite H, IH. Qed.

Section maps.
Context {GR : GoRuntime}.

Lemma sorted_ids_elem {A} (m : gmap string A) id : id ∈ sorted_ids m ↔ is_Some (m !! id).
Proof.
  unfold sorted_ids. rewrite sort_by_elem, list_elem_of_fmap. split.
  - intros ([k a] & -> & H). rewrite map_order_elem in H. apply elem_of_map_to_list in H. by exists a.
  - intros [a Ha]. exists (id, a). split; [done|]. rewrite map_order_elem. by apply elem_of_map_to_list.
Qed.

Lemma adapterManifestsForRuntimeBundle_fill b manifests :
  adapterManifestsForRuntimeBundle b manifests =
  fill (λ g, trim_space (cg_AdapterID g))
    (λ g, if empty_str (trim_space (cg_AdapterID g)) then None else manifests !! trim_space (cg_AdapterID g))
    ∅ (rbs_CapabilityGrants (rb_Spec b)).
Proof. apply foldl_same. intros m g. cbv zeta. by destruct (empty_str _). Qed.

Lemma bindingRefs_fill b :
  bindingRefsFromRuntimeBundle b =
  fill cg_BindingID (λ g, if blank (cg_BindingID g) then None else Some
      {| br_BindingID := cg_BindingID g; br_Digest := cg_BindingDigest g;
         br_AdapterID := cg_AdapterID g; br_CapabilityID := cg_CapabilityID g |})
    ∅ (rbs_CapabilityGrants (rb_Spec b)).
Proof. apply foldl_same. intros m g. by destruct (blank _). Qed.

Lemma adapterManifestRefs_fill manifests outputs :
  adapterManifestRefs manifests outputs =
  fill (λ id, id) (λ id, (λ m, {|
      adr_AdapterID := am_AdapterID m; adr_AdapterVersion := am_AdapterVersion m;
      adr_ManifestDigest := am_Digest m; adr_ProtocolVersion := am_ProtocolVersion m;
      adr_SignedManifest :=
        signedOutputRef (default (unsigned_output "" "" no_ref) (outputs !! id)) |}) <$> manifests !! id)
    ∅ (sorted_ids manifests).
Proof. apply foldl_same. intros m id. by destruct (manifests !! id). Qed.

(** The manifests a bundle uses are among those that were loaded. *)
Lemma used_manifests b manifests id m :
  adapterManifestsForRuntimeBundle b manifests !! id = Some m → manifests !! id = Some m.
Proof.
  rewrite adapterManifestsForRuntimeBundle_fill. intros H.
  apply fill_Some in H as [H|(g & _ & <- & H)]; [by rewrite lookup_empty in H|]. by destruct (empty_str _).
Qed.

Lemma used_by_grant b manifests g m :
  g ∈ rbs_CapabilityGrants (rb_Spec b) → blank (cg_AdapterID g) = false →
  manifests !! trim_space (cg_AdapterID g) = Some m →
  adapterManifestsForRuntimeBundle b manifests !! trim_space (cg_AdapterID g) = Some m.
Proof.
  rewrite adapterManifestsForRuntimeBundle_fill. intros Hg Hb Hm. unfold blank in Hb.
  apply (fill_in (λ g, trim_space (cg_AdapterID g))); [done|by rewrite Hb|].
  intros y w _ Hk. rewrite Hk, Hb, Hm. congruence.
Qed.

Lemma adapterManifestRefs_Some manifests outputs id a :
  adapterManifestRefs manifests outputs !! id = Some a →
  ∃ m, manifests !! id = Some m ∧ adr_ManifestDigest a = am_Digest m ∧
    adr_ProtocolVersion a = am_ProtocolVersion m ∧
    adr_SignedManifest a = signedOutputRef (default (unsigned_output "" "" no_ref) (outputs !! id)).
Proof.
  rewrite adapterManifestRefs_fill. intros H.
  apply fill_Some in H as [H|(k & _ & -> & H)]; [by rewrite lookup_empty in H|].
  apply fmap_Some in H as (m & Hm & ->). by exists m.
Qed.

Lemma adapterManifestRefs_has manifests outputs id :
  is_Some (manifests !! id) → is_Some (adapterManifestRefs manifests outputs !! id).
Proof.
  intros H. rewrite adapterManifestRefs_fill. apply (fill_has (λ id, id)).
  - by apply sorted_ids_elem.
  - by apply fmap_is_Some.
Qed.

(** Sources: the six of the registries, and one per adapter. *)
Lemma federatedSourceDigests_fill core enterprise policyRepo catalog profile recipe manifests :
  federatedSourceDigests core enterprise policyRepo catalog profile recipe manifests =
  fill (λ id, "adapter:" +:+ id)
    (λ id, let d := trim_space (from_option am_Digest "" (manifests !! id)) in
           if empty_str d then None else Some d)
    (list_to_map [("core_registry", core); ("enterprise_registry", enterprise);
                  ("policy_repo", policyRepo); ("catalog", catalog); ("profile", profile);
                  ("risk_recipe", recipe)]) (sorted_ids manifests).
Proof. apply foldl_same. intros m id. cbv zeta. by destruct (empty_str _). Qed.
End maps.

(** ** Outputs that are signed and stored *)

(** A reference the store gave for some bytes. *)
Definition stored_ref (payload : string) (ref : ArtifactRef) : Prop :=
  blank (ref_URI ref) = false ∧ trim_space (ref_URI ref) = ref_URI ref ∧
  ref_SHA256 ref = SHA256JSON payload.

Definition signed_ok (e : emittedArtifact) : Prop :=
  em_SignedPath e ≠ "" ∧
  (∃ payload, stored_ref payload (em_SignedRef e) ∧ em_SignedSHA256 e = SHA256JSON payload) ∧
  blank (em_PayloadSHA256 e) = false ∧ blank (em_KeyID e) = false.

Record outputs_ok (o : outputs) (used : Manifests) : Prop := {
  oo_named ty e : named_outputs o !! ty = Some e → signed_ok e;
  oo_adapters id e : out_adapters o !! id = Some e → signed_ok e;
  oo_used id : is_Some (used !! id) → is_Some (out_adapters o !! id);
}.

Lemma signed_ok_complete e : signed_ok e → completeSignedOutput (signedOutputRef e) = true.
Proof.
  intros (Hp & (payload & (U & _ & S) & E) & P & K). unfold signedOutputRef, completeSignedOutput.
  apply String.eqb_neq in Hp. rewrite Hp. simpl. rewrite U, S, E, P, K.
  unfold SHA256JSON. by rewrite !(not_blank_digest (sha256_hex payload)).
Qed.

(** The request for a signed output, and that the output answers it. *)
Definition request_for (artifactType : string) (signed : SignedOutputRef) : KLIQAssignedArtifact :=
  {| aa_ArtifactType := artifactType; aa_ArtifactID := ""; aa_Envelope := "";
     aa_ArtifactRef := ref_URI (so_ArtifactRef signed);
     aa_SHA256 := ref_SHA256 (so_ArtifactRef signed) |}.

Lemma signed_ok_request e artifactType :
  signed_ok e → let s := signedOutputRef e in
  requested_ref (request_for artifactType s) = so_ArtifactRef s ∧
  empty_str (ref_URI (so_ArtifactRef s)) = false ∧ empty_str (ref_SHA256 (so_ArtifactRef s)) = false ∧
  so_EnvelopeSHA256 s = ref_SHA256 (so_ArtifactRef s) ∧ blank (so_KeyID s) = false.
Proof.
  intros (Hp & (payload & (U & T & S) & E) & P & K). unfold signedOutputRef.
  apply String.eqb_neq in Hp. rewrite Hp. unfold requested_ref, request_for. simpl.
  rewrite T, S, E. unfold SHA256JSON in *. rewrite trim_digest. split_and!; try done.
  - rewrite <- S. by destruct (em_SignedRef e).
  - unfold blank in U. by rewrite T in U.
Qed.

Lemma signed_ok_matches e artifactType :
  signed_ok e →
  signedOutputMatchesRef (signedOutputRef e) (requested_ref (request_for artifactType (signedOutputRef e))) = true.
Proof.
  intros He. destruct (signed_ok_request e artifactType He) as (-> & _ & _ & E & K).
  unfold signedOutputMatchesRef, same_text. by rewrite E, K, !String.eqb_refl.
Qed.

(** ** The signed outputs of the manifest *)

Lemma adapterManifestSignedOutputMap_fill m :
  adapterManifestSignedOutputMap m =
  fill (λ kv : string * emittedArtifact, "adapter_manifest:" +:+ kv.1) (λ kv, Some kv.2) ∅ (map_to_list m).
Proof. done. Qed.

Lemma adapter_output m id e :
  m !! id = Some e → adapterManifestSignedOutputMap m !! ("adapter_manifest:" +:+ id) = Some e.
Proof.
  intros H. rewrite adapterManifestSignedOutputMap_fill.
  apply (fill_in (λ kv : string * emittedArtifact, "adapter_manifest:" +:+ kv.1) _ _ _ (id, e)).
  - by apply elem_of_map_to_list.
  - done.
  - intros [k w] w' Hk Heq [= <-]. apply app_str_inj_l in Heq. simpl in Heq. subst k.
    apply elem_of_map_to_list in Hk. simpl. congruence.
Qed.

Definition all_outputs (o : outputs) : gmap string emittedArtifact :=
  mergeEmittedArtifacts (named_outputs o) (adapterManifestSignedOutputMap (out_adapters o)).

Lemma all_outputs_ok o used ty e :
  outputs_ok o used → all_outputs o !! ty = Some e → blank ty = false ∧ signed_ok e.
Proof.
  intros Ho. unfold all_outputs, mergeEmittedArtifacts. intros [H|[_ H]]%lookup_union_Some_raw.
  - rewrite adapterManifestSignedOutputMap_fill in H.
    apply fill_Some in H as [H|([k w] & Hk & <- & [= <-])]; [by rewrite lookup_empty in H|].
    apply elem_of_map_to_list in Hk. split; [not_blank|by apply (oo_adapters _ _ Ho k)].
  - split; [|by apply (oo_named _ _ Ho ty)]. unfold named_outputs in H. simpl in H.
    repeat (apply lookup_insert_Some in H as [[<- _]|[_ H]]; [not_blank|]). by rewrite lookup_empty in H.
Qed.

Lemma signedOutputs_lookup m ty e :
  m !! ty = Some e → signed_ok e → signedOutputs m !! ty = Some (signedOutputRef e).
Proof.
  intros H (Hp & _). unfold signedOutputs. rewrite lookup_omap, H. simpl.
  apply String.eqb_neq in Hp. by rewrite Hp.
Qed.

Lemma signedOutputs_Some m ty s :
  signedOutputs m !! ty = Some s → ∃ e, m !! ty = Some e ∧ s = signedOutputRef e.
Proof.
  unfold signedOutputs. rewrite lookup_omap. intros (e & He & H)%bind_Some. exists e.
  by destruct (empty_str _); simplify_eq.
Qed.

(** The four artifacts of every build are not hidden by those of the adapters. *)
Lemma all_outputs_named o ty e :
  named_outputs o !! ty = Some e → all_outputs o !! ty = Some e.
Proof.
  intros H. unfold all_outputs, mergeEmittedArtifacts. rewrite lookup_union_r; [done|].
  rewrite adapterManifestSignedOutputMap_fill, fill_other; [by rewrite lookup_empty|].
  intros x _ _ Heq. unfold named_outputs in H. simpl in H. rewrite <- Heq in H.
  repeat (rewrite lookup_insert_ne in H by done). by rewrite lookup_empty in H.
Qed.

(** ** Emission *)
Section emission.
Context {GR : GoRuntime} {F : Type} {ST : ArtifactStore F} {CW : CompilerWorld F}.
Context {EC : CompilerEncoders} {UL : UnicodeLower}.
Context (sign : Signer F) (services : compileRuntime F) (opts : Options F).

(** What the store and the signer promise. *)
Definition store_names : Prop := ∀ art f ref f',
  store_Put art f = (Ok ref, f') → stored_ref (a_Payload art) ref.
Definition signs_with_key : Prop := ∀ payload md f env f',
  sign payload md f = (Ok env, f') → blank (env_PayloadSHA256 env) = false ∧ blank (env_KeyID env) = false.

Context (Hstore : store_names) (Hsign : signs_with_key) (Hservices : crt_Signer services = Some sign).

Lemma emitJSONArtifact_ok path encoded md f e f' :
  emitJSONArtifact path encoded md services opts f = (Ok e, f') →
  signed_ok e ∧ ∃ data, encoded = Ok data ∧ em_SHA256 e = sha256Bytes (data +:+ chr 10) ∧
    stored_ref (data +:+ chr 10) (em_Ref e).
Proof.
  unfold emitJSONArtifact, writeJSONPayload. rewrite Hservices. cbv zeta. intros H.
  run H. run_all. split.
  - split_and!; cbn [em_SignedPath em_SignedRef em_SignedSHA256 em_PayloadSHA256 em_KeyID].
    + apply (Join_not_empty "signed"); [set_solver|done].
    + eexists. split; [by eapply Hstore|done].
    + by eapply Hsign.
    + by eapply Hsign.
  - eexists. split; [done|]. split; [done|]. simpl. by eapply (Hstore _ _ _ _ Hr).
Qed.

Lemma emitAdapterManifestArtifacts_ok policyID base manifests f outputs base' f' :
  emitAdapterManifestArtifacts policyID base manifests services opts f = (Ok (outputs, base'), f') →
  (∀ id e, outputs !! id = Some e → signed_ok e) ∧
  (∀ id, is_Some (manifests !! id) → is_Some (outputs !! id)).
Proof.
  unfold emitAdapterManifestArtifacts. intros H.
  cut ((∀ id e, (outputs, base').1 !! id = Some e → signed_ok e) ∧
       (∀ id, id ∈ sorted_ids manifests → is_Some (manifests !! id) → is_Some ((outputs, base').1 !! id))).
  { intros [H1 H2]. split; [done|]. intros id Hid. apply H2; [by apply sorted_ids_elem|done]. }
  refine (io_fold_Ok _ (λ acc done, (∀ id e, acc.1 !! id = Some e → signed_ok e) ∧
    (∀ id, id ∈ done → is_Some (manifests !! id) → is_Some (acc.1 !! id))) _ _ _ _ _ H _ _).
  - split; [intros id e; simpl; by rewrite lookup_empty|by intros id ?%elem_of_nil].
  - clear H. intros [out bs] id done s [out1 bs1] s1 [IH1 IH2] _ H. simpl in *.
    destruct (manifests !! id) as [m|] eqn:Em.
    + apply io_bind_Ok in H as (e & s2 & He & H). run H.
      destruct (emitJSONArtifact_ok _ _ _ _ _ _ He) as [Hok _]. split.
      * intros id' e'. rewrite lookup_insert. case_decide; [by intros [= <-]|apply IH1].
      * intros id' Hin Hid. apply lookup_insert_is_Some. destruct (decide (id = id')); [by left|right].
        split; [done|]. apply IH2; [|done]. set_solver.
    + run H. split; [done|]. intros id' [Hin| ->%list_elem_of_singleton]%elem_of_app; [by apply IH2|].
      rewrite Em. by intros [??].
Qed.
End emission.

(** ** The manifest *)

Lemma trim_sha256Bytes data : trim_space (sha256Bytes data) = sha256Bytes data.
Proof. apply trim_digest. Qed.
Lemma blank_sha256Bytes data : blank (sha256Bytes data) = false.
Proof. apply not_blank_digest. Qed.

(** What a bundle of grants brings to the manifest. *)
Definition grants_ok (manifests : Manifests) (b : RuntimeBundle) : Prop :=
  ∀ g, g ∈ rbs_CapabilityGrants (rb_Spec b) →
    (blank (cg_ID g) = false ∧ blank (cg_BindingID g) = false ∧ blank (cg_BindingDigest g) = false ∧
     blank (cg_AdapterID g) = false ∧ blank (cg_AdapterManifestDigest g) = false ∧
     blank (cg_CapabilityID g) = false ∧ blank (cg_ActionDigest g) = false) ∧
    blank (cg_ActionType g) = false ∧ is_Some (manifests !! trim_space (cg_AdapterID g)).

Ltac in_list_to_map H :=
  cbn [list_to_map foldr fst snd] in H;
  repeat (apply lookup_insert_Some in H as [[<- <-]|[_ H]]);
  try by (rewrite lookup_empty in H).
Ltac at_list_to_map :=
  cbn [list_to_map foldr fst snd];
  repeat first [rewrite lookup_insert_eq|rewrite lookup_insert_ne by done].

Section manifest.
Context {GR : GoRuntime} {F : Type} {EC : CompilerEncoders} {UL : UnicodeLower} {FS : Files} {EN : Environment}.
Context (opts : Options F) (card : Card) (c : Catalog) (profile : Profile) (recipe : RiskRecipe).
Context (bundle : RuntimeBundle) (manifests : Manifests) (o : outputs).
Context (Hm : manifests_ok manifests) (Hg : grants_ok manifests bundle).
Notation used := (adapterManifestsForRuntimeBundle bundle manifests).
Notation manifest := (build_manifest opts card c profile recipe bundle used o).
Context (Ho : outputs_ok o used).

Lemma fileSHA256_blank path : blank (fileSHA256 path) = false.
Proof. unfold fileSHA256. destruct (os_ReadFile path); unfold sha256Bytes; not_blank. Qed.

Lemma pathSHA256_blank path : blank (pathSHA256 path) = false.
Proof.
  unfold pathSHA256. destruct (os_Stat path) as [[]|]; [|apply fileSHA256_blank|not_blank].
  destruct (walk _ _ _ _); unfold sha256Bytes; not_blank.
Qed.

Lemma digestJSON_blank data : blank (digestJSON data) = false.
Proof. destruct data; unfold digestJSON, sha256Bytes; not_blank. Qed.

Lemma buildCreatedBy_blank : blank (buildCreatedBy opts) = false.
Proof.
  unfold buildCreatedBy. set (l := [_; _; _; _]). clearbody l.
  induction l as [|v l IH]; simpl; [not_blank|]. destruct (blank v) eqn:E; [done|]. by rewrite blank_trim.
Qed.

Lemma runtime_provenance_ok : validateApprovedBuildRuntimeProvenance manifest = Ok tt.
Proof using Hg.
  unfold validateApprovedBuildRuntimeProvenance. cbv zeta. cbn [pbm_Spec build_manifest sp_Bindings sp_RuntimeActions].
  apply bind_Ok. exists tt. split; apply range_Ok; intros id r H.
  - rewrite bindingRefs_fill in H. apply fill_Some in H as [H|(g & Hin & <- & H)]; [by rewrite lookup_empty in H|].
    destruct (Hg g Hin) as ((_ & B1 & B2 & B3 & _ & B4 & _) & _). rewrite B1 in H. injection H as <-. simpl.
    by rewrite B1, B2, B3, B4, String.eqb_refl.
  - change (runtimeActionRefsFromRuntimeBundle bundle) with
      (fill cg_ID (λ grant, Some {| rar_CapabilityGrantID := cg_ID grant; rar_BindingID := cg_BindingID grant;
                        rar_AdapterID := cg_AdapterID grant;
                        rar_AdapterManifestDigest := cg_AdapterManifestDigest grant;
                        rar_CapabilityID := cg_CapabilityID grant;
                        rar_ActionType := cg_ActionType grant;
                        rar_ActionDigest := cg_ActionDigest grant |}) ∅
         (rbs_CapabilityGrants (rb_Spec bundle))) in H.
    apply fill_Some in H as [H|(g & Hin & <- & [= <-])]; [by rewrite lookup_empty in H|].
    destruct (Hg g Hin) as ((B0 & B1 & B2 & B3 & _ & B4 & B5) & B6 & _). simpl.
    rewrite B0, B1, B3, B4, B5, B6, String.eqb_refl. simpl.
    destruct (fill_has cg_BindingID (λ g, if blank (cg_BindingID g) then None else Some
      {| br_BindingID := cg_BindingID g; br_Digest := cg_BindingDigest g;
         br_AdapterID := cg_AdapterID g; br_CapabilityID := cg_CapabilityID g |}) ∅ _ g Hin) as [b Hb].
    { rewrite B1. by eexists. }
    rewrite bindingRefs_fill, Hb. done.
Qed.

Lemma federated_ok : validateFederatedSourceDigests manifest = Ok tt.
Proof using Hm.
  unfold validateFederatedSourceDigests. cbv zeta. cbn [pbm_Spec build_manifest sp_FederatedSourceDigests].
  set (sources := federatedSourceDigests _ _ _ _ _ _ _).
  assert (Hfed : ∀ key d, federated_required (pbm_Spec manifest) !! key = Some d →
                          sources !! key = Some d ∧ blank d = false).
  { intros key d H. unfold sources. rewrite federatedSourceDigests_fill. unfold federated_required in H.
    cbn [pbm_Spec build_manifest sp_PolicyRepo pr_ContentDigest sp_CoreRegistry rg_ContentDigest
         sp_EnterpriseRegistry sp_CatalogDigest sp_Profile dr_Digest sp_RiskRecipe] in H.
    in_list_to_map H; (split; [rewrite fill_other by done; by at_list_to_map|]);
      first [apply pathSHA256_blank|apply digestJSON_blank]. }
  assert (Hsize : Nat.eqb (size sources) 0 = false).
  { apply Nat.eqb_neq. intros E%map_size_empty_iff.
    destruct (Hfed "catalog" (catalog_digest c)) as [H _]; [unfold federated_required; by at_list_to_map|].
    rewrite E, lookup_empty in H. done. }
  rewrite Hsize. apply bind_Ok. exists tt. split; apply range_Ok.
  - intros key d H. destruct (Hfed _ _ H) as [-> Hb]. simpl. rewrite Hb. unfold blank in Hb. rewrite Hb.
    by rewrite String.eqb_refl.
  - intros id a H. apply adapterManifestRefs_Some in H as (m & Hu & -> & _ & _).
    destruct (Hm id m) as (_ & _ & _ & data & Hd); [by eapply used_manifests|].
    assert (Hs : sources !! ("adapter:" +:+ id) = Some (trim_space (am_Digest m))).
    { unfold sources. rewrite federatedSourceDigests_fill.
      apply (fill_in (λ id, "adapter:" +:+ id)).
      - apply sorted_ids_elem. by eexists.
      - rewrite Hu. simpl. by rewrite Hd, trim_sha256Bytes.
      - intros y w _ Hk. apply app_str_inj_l in Hk as ->. rewrite Hu. simpl.
        by destruct (empty_str _); intros [= <-]. }
    rewrite Hs. simpl. by rewrite trim_space_idem, Hd, trim_sha256Bytes, String.eqb_refl.
Qed.

(** An adapter of the manifest, and its signed manifest. *)
Lemma adapter_signed id a :
  sp_Adapters (pbm_Spec manifest) !! id = Some a →
  ∃ m e, used !! id = Some m ∧ out_adapters o !! id = Some e ∧ signed_ok e ∧
    adr_ManifestDigest a = am_Digest m ∧ adr_ProtocolVersion a = am_ProtocolVersion m ∧
    adr_SignedManifest a = signedOutputRef e.
Proof using Ho.
  intros H. apply adapterManifestRefs_Some in H as (m & Hu & Hd & Hp & Hs).
  destruct (oo_used _ _ Ho id) as [e He]; [by eexists|]. exists m, e. rewrite He in Hs.
  split_and!; try done. by eapply oo_adapters.
Qed.

Lemma signed_adapters_ok : validateApprovedBuildSignedAdapterManifests manifest = Ok tt.
Proof using Hm Ho.
  apply range_Ok. intros id a H. destruct (adapter_signed _ _ H) as (m & e & Hu & He & Hok & -> & -> & ->).
  destruct (Hm id m) as (_ & _ & Hp & data & ->); [by eapply used_manifests|].
  rewrite blank_sha256Bytes, Hp, (signed_ok_complete e Hok). simpl.
  destruct (signedOutputs _ !! _) as [s|] eqn:Es; [|done].
  apply signedOutputs_Some in Es as (e' & He' & ->).
  unfold mergeEmittedArtifacts in He'. rewrite (lookup_union_Some_l _ _ _ _ (adapter_output _ _ _ He)) in He'.
  injection He' as <-. unfold sameSignedOutputRef, same_text. by rewrite !String.eqb_refl.
Qed.

Lemma approval_ready :
  blank (gitCommit (op_PolicyRepo opts)) = false →
  validateBuildManifestApprovalReadiness manifest = Ok tt.
Proof using Hm Ho.
  intros Hgit. unfold validateBuildManifestApprovalReadiness. cbv zeta.
  assert (Hid : blank ("build." +:+ card_ID card) = false) by not_blank.
  rewrite federated_ok, signed_adapters_ok. cbn [mbind result_bind].
  cbn [pbm_Spec pbm_Metadata build_manifest mm_ID mm_CreatedBy sp_PolicyRepo pr_Commit].
  rewrite Hid, buildCreatedBy_blank, Hgit.
  assert (Hmissing : missing_provenance (pbm_Spec manifest) = false).
  { assert (Hb : ∀ s, blank s = false → empty_str s = false) by (intros [|]; done).
    unfold missing_provenance. cbn [pbm_Spec build_manifest sp_CoreRegistry rg_ContentDigest
      sp_EnterpriseRegistry sp_CatalogDigest sp_Profile dr_Digest sp_RiskRecipe].
    unfold catalog_digest, profile_digest, recipe_digest.
    by rewrite !Hb by first [apply pathSHA256_blank|apply digestJSON_blank]. }
  cbn [pbm_Spec build_manifest] in Hmissing. rewrite Hmissing. cbn [sp_SignedOutputs].
  destruct (Nat.eqb (size _) 0) eqn:E.
  - apply Nat.eqb_eq, map_size_empty_iff in E. exfalso.
    assert (Hn : named_outputs o !! "runtime_bundle" = Some (out_bundle o)) by (unfold named_outputs; by at_list_to_map).
    pose proof (signedOutputs_lookup _ _ _ (all_outputs_named _ _ _ Hn) (oo_named _ _ Ho _ _ Hn)) as H.
    change (signedOutputs (all_outputs o) = ∅) in E. by rewrite E, lookup_empty in H.
  - apply range_Ok. intros ty s Hs. apply signedOutputs_Some in Hs as (e & He & ->).
    destruct (all_outputs_ok _ _ _ _ Ho He) as [Hty Hok]. by rewrite Hty, signed_ok_complete.
Qed.

(** What is asked for as the manifest names it is in the build. *)
Lemma named_in_build ty e :
  named_outputs o !! ty = Some e →
  validateArtifactInApprovedBuild manifest (request_for ty (signedOutputRef e)) = Ok tt.
Proof using Ho.
  intros He. pose proof (oo_named _ _ Ho _ _ He) as Hok.
  assert (Hty : trim_space ty = ty ∧ (ty ==s "adapter_manifest") = false).
  { unfold named_outputs in He. in_list_to_map He; (split; [vm_compute; reflexivity|reflexivity]). }
  destruct Hty as [Ht Hne]. destruct (signed_ok_request e ty Hok) as (Hr & Hu & Hs & He2 & Hk).
  unfold validateArtifactInApprovedBuild. cbv zeta. rewrite Hr, Hu, Hs.
  change (aa_ArtifactType (request_for ty (signedOutputRef e))) with ty. rewrite Ht, Hne. simpl.
  change (signedOutputs (mergeEmittedArtifacts (named_outputs o)
    (adapterManifestSignedOutputMap (out_adapters o)))) with (signedOutputs (all_outputs o)).
  rewrite (signedOutputs_lookup _ _ _ (all_outputs_named _ _ _ He) Hok).
  by rewrite He2, Hk, !String.eqb_refl.
Qed.

Lemma adapter_in_build id a :
  sp_Adapters (pbm_Spec manifest) !! id = Some a →
  validateArtifactInApprovedBuild manifest (request_for "adapter_manifest" (adr_SignedManifest a)) = Ok tt.
Proof using Ho.
  intros H. destruct (adapter_signed _ _ H) as (m & e & _ & _ & Hok & _ & _ & E).
  rewrite E. destruct (signed_ok_request e "adapter_manifest" Hok) as (Hr & Hu & Hs & _).
  unfold validateArtifactInApprovedBuild. cbv zeta. rewrite Hr, Hu, Hs. cbn [orb].
  change (trim_space _ ==s "adapter_manifest") with true. cbv iota.
  rewrite (proj2 (range_any_iff _ _)); [done|]. exists id, a. split; [done|].
  by rewrite E, <- Hr, signed_ok_matches.
Qed.

(** A KLIQ that gets the bundle must get the manifests of its adapters: they are there. *)
Lemma pair_ok requested :
  (∀ id a, sp_Adapters (pbm_Spec manifest) !! id = Some a →
           request_for "adapter_manifest" (adr_SignedManifest a) ∈ requested) →
  validateRuntimeBundleAdapterManifestPair manifest requested = Ok tt.
Proof using Hg Ho.
  intros Hreq. unfold validateRuntimeBundleAdapterManifestPair. cbv zeta.
  destruct (negb _ || _); [done|].
  assert (Hfold : ∀ l acc, (∀ kv, kv ∈ l → sp_RuntimeActions (pbm_Spec manifest) !! kv.1 = Some kv.2) →
    (∀ id a, acc !! id = Some a → sp_Adapters (pbm_Spec manifest) !! id = Some a) →
    ∃ acc', for_fold (require_adapter (pbm_Spec manifest)) acc l = Ok acc' ∧
      ∀ id a, acc' !! id = Some a → sp_Adapters (pbm_Spec manifest) !! id = Some a).
  { induction l as [|[k r] l IH]; intros acc Hl Hacc; [by exists acc|]. simpl.
    assert (Hin : ∀ kv, kv ∈ l → sp_RuntimeActions (pbm_Spec manifest) !! kv.1 = Some kv.2)
      by (intros kv ?; apply Hl; by right).
    unfold require_adapter at 1. cbn [snd]. cbv zeta.
    destruct (empty_str (trim_space (rar_AdapterID r))); [by apply IH|].
    assert (Hk := Hl (k, r) ltac:(left)). simpl in Hk.
    apply (fill_Some cg_ID (λ grant, Some _)) in Hk as [Hk|(g & Hgin & _ & [= <-])];
      [by rewrite lookup_empty in Hk|]. simpl.
    destruct (Hg g Hgin) as ((_ & _ & _ & B & _) & _ & m & Hmg).
    destruct (adapterManifestRefs_has used (out_adapters o) (trim_space (cg_AdapterID g))) as [a Ha].
    { exists m. by apply used_by_grant. }
    rewrite Ha. apply IH; [done|]. intros id a'. rewrite lookup_insert. case_decide as Hid; [|apply Hacc].
    intros [= <-]. by rewrite <- Hid. }
  destruct (Hfold (map_order (map_to_list (sp_RuntimeActions (pbm_Spec manifest)))) ∅) as (acc & -> & Hacc).
  - intros [k r] Hk. rewrite map_order_elem in Hk. by apply elem_of_map_to_list in Hk.
  - intros id a. by rewrite lookup_empty.
  - cbn [mbind result_bind]. apply range_Ok. intros id a Ha%Hacc. pose proof (Hreq _ _ Ha) as Hin.
    destruct (adapter_signed _ _ Ha) as (m & e & _ & _ & Hok & _ & _ & E).
    rewrite (proj2 (existsb_exists _ _)); [done|]. eexists. split; [by apply list_elem_of_In|].
    rewrite E. by rewrite signed_ok_matches.
Qed.
End manifest.

(** ** [compileOne] *)
Section compile.
Context {GR : GoRuntime} {F : Type} {ST : ArtifactStore F} {CW : CompilerWorld F}.
Context {EC : CompilerEncoders} {UL : UnicodeLower} {CE : CEL} {FS : Files} {EN : Environment}.
Context {MD : ManifestDecoder} {FT : FloatText} {DD : DocumentDecoders} {RD : RegistryDecoders}.

(** The values of a catalog have identifiers: [Load] does not look. *)
Definition values_identified (c : Catalog) : Prop :=
  Forall (λ v, blank (va_CanonicalID v) = false) (cat_Values c).

Lemma resolved_actions c profile runtime rt :
  catalog_ok c → values_identified c → resolveRuntime c profile runtime = Ok rt →
  Forall (λ a, blank (rv_CanonicalID a) = false) (rrt_Actions rt).
Proof.
  intros Hc Hv. unfold resolveRuntime. intros H.
  destruct (if empty_str (rt_MaxTTL runtime) then _ else _) as [ttl ttlSource].
  destruct (if empty_str (rt_MaxScope runtime) then _ else _) as [scope scopeSource]. passes H.
  apply bind_Ok in H as (v0 & _ & H). apply bind_Ok in H as (actions & Ha & [= <-]). simpl.
  apply resolve_each_Ok in Ha. apply Forall_lookup. intros i a Hi.
  destruct (Forall2_lookup_r _ _ _ _ _ Ha Hi) as (label & _ & Hl). simpl in Hl.
  destruct (Resolve c label _) as [v|] eqn:Hr; [|done]. injection Hl as <-.
  apply (Resolve_In _ _ _ _ Hc) in Hr as [Hin _].
  unfold values_identified in Hv. rewrite Forall_forall in Hv. by apply Hv.
Qed.

Lemma compiled_grants_ok c profile card path commit resolved md manifests bundle :
  catalog_ok c → values_identified c → manifests_ok manifests →
  resolve_policy c profile card path commit = Ok resolved →
  runtimeBundleArtifact card resolved md c manifests = Ok bundle → grants_ok manifests bundle.
Proof.
  intros Hc Hv Hm Hr Hb. apply runtimeBundleArtifact_Ok in Hb as [_ Hb].
  unfold resolve_policy in Hr. apply bind_Ok in Hr as (rules & _ & Hr).
  apply bind_Ok in Hr as (risk & _ & Hr). apply bind_Ok in Hr as (prohibit & _ & Hr).
  apply bind_Ok in Hr as (rt & Hrt & Hr). apply bind_Ok in Hr as (sims & _ & [= <-]). simpl in Hb.
  pose proof (resolved_actions _ _ _ _ Hc Hv Hrt) as Hact. intros g Hg.
  apply list_elem_of_lookup in Hg as [i Hi]. destruct (Forall2_lookup_r _ _ _ _ _ Hb Hi) as (a & Ha & Hback).
  split; [by eapply backed_provenance|].
  destruct Hback as (rule & cap & binding & m & _ & _ & _ & _ & _ & HA & HM & _ & _ & _ & _ & -> & _).
  split; [by apply (Forall_lookup_1 _ _ _ _ Hact Ha)|]. rewrite HA, trim_space_idem, <- HA. by exists m.
Qed.

Lemma emit_outputs_ok sign opts services card c resolved md manifests f bundle used o md' f' :
  store_names → signs_with_key sign → crt_Signer services = Some sign →
  emit_outputs opts services card c resolved md manifests f = (Ok (bundle, used, o, md'), f') →
  runtimeBundleArtifact card resolved md c manifests = Ok bundle ∧
  used = adapterManifestsForRuntimeBundle bundle manifests ∧ outputs_ok o used.
Proof.
  intros Hstore Hsign Hs. unfold emit_outputs. cbv zeta. intros H.
  repeat (let E := fresh "E" in apply io_bind_Ok in H as (? & ? & E & H);
    first [apply lift_Ok in E as [E ->]
          |apply (emitJSONArtifact_ok sign) in E as [E _]; [|done..]
          |idtac]; repeat match type of H with (let '(_, _) := ?x in _) _ = _ => destruct x end).
  run H.
  match goal with E : emitAdapterManifestArtifacts _ _ _ _ _ _ = _ |- _ =>
    apply (emitAdapterManifestArtifacts_ok sign) in E as [Hsigned Hused]; [|done..] end.
  split; [done|]. split; [done|]. constructor; simpl; [|done..].
  intros ty e Hty. unfold named_outputs in Hty. simpl in Hty. in_list_to_map Hty; done.
Qed.

(** C17. A card that compiles under a signer gives a build that can be approved and
    assigned: the manifest that was written meets every demand of the approval
    and the provenance rules of the management API, each of the four artifacts and each
    signed adapter manifest is part of the build under the reference the manifest gives,
    and an assignment of the runtime bundle with those adapter manifests is complete. *)
Theorem compiled_build_ready sign opts services card c manifests f r f' :
  catalog_ok c → values_identified c → manifests_ok manifests →
  store_names → signs_with_key sign → crt_Signer services = Some sign →
  blank (gitCommit (op_PolicyRepo opts)) = false →
  compileOne opts services card c manifests f = (Ok r, f') →
  ∃ manifest data,
    indent_Manifest manifest = Ok data ∧ stored_ref (data +:+ chr 10) (em_Ref (res_Manifest r)) ∧
    validateBuildManifestApprovalReadiness manifest = Ok tt ∧
    validateApprovedBuildRuntimeProvenance manifest = Ok tt ∧
    (∀ ty e, (ty, e) ∈ [("resolved_policy", res_Resolved r); ("runtime_bundle", res_RuntimeBundle r);
                        ("context_route_pack", res_ContextRoutePack r);
                        ("conformance_expectation", res_ConformanceExpectation r)] →
       validateArtifactInApprovedBuild manifest (request_for ty (signedOutputRef e)) = Ok tt) ∧
    let adapters := sp_Adapters (pbm_Spec manifest) in
    (∀ id a, adapters !! id = Some a →
       validateArtifactInApprovedBuild manifest (request_for "adapter_manifest" (adr_SignedManifest a)) = Ok tt) ∧
    (∀ requested,
       (∀ id a, adapters !! id = Some a → request_for "adapter_manifest" (adr_SignedManifest a) ∈ requested) →
       validateRuntimeBundleAdapterManifestPair manifest requested = Ok tt).
Proof.
  intros Hc Hv Hm Hstore Hsign Hs Hgit. unfold compileOne. cbv zeta. intros H.
  apply io_bind_Ok in H as ([] & s0 & _ & H). apply io_bind_Ok in H as (resolved & s1 & Hr & H).
  apply lift_Ok in Hr as [Hr ->]. apply io_bind_Ok in H as (now & s2 & _ & H).
  apply io_bind_Ok in H as ([[[bundle used] o] md] & s3 & He & H).
  apply (emit_outputs_ok sign) in He as (Hb & -> & Ho); [|done..].
  pose proof (compiled_grants_ok _ _ _ _ _ _ _ _ _ Hc Hv Hm Hr Hb) as Hg.
  apply io_bind_Ok in H as (mo & s4 & Hmo & H). apply io_bind_Ok in H as (review & s5 & _ & H). run H.
  apply (emitJSONArtifact_ok sign) in Hmo as (_ & data & Hd & _ & Hst); [|done..]. simpl.
  eexists _, data. split; [exact Hd|]. split; [done|]. split; [by apply approval_ready|].
  split; [by apply runtime_provenance_ok|]. split; [|split].
  - intros ty e Hin. apply named_in_build; [done|].
    unfold named_outputs.
    repeat (apply elem_of_cons in Hin as [[= -> ->]|Hin]; [by at_list_to_map|]). by apply elem_of_nil in Hin.
  - intros id a. by eapply adapter_in_build.
  - intros requested. by eapply pair_ok.
Qed.
End compile.
