(* ===== verification/ManagerLoad.v ===== *)
(** * Loading a managed assignment: what is guaranteed

    [LoadManagedBundle] fetches, verifies and activates in one go; either the
    whole assignment becomes the active one or the database is untouched, and
    the active version only moves back by an approved rollback. *)

From stdpp Require Import options.
From S2P Require Import Prelude IO Table GoStrings GoTime GoDuration GoJson Risk Signing Domain.
From S2P Require Import Artifacts BundleSource StateTypes SqliteLeases SqliteAssignments.
From S2P Require Import SqliteBaseline Store Plan ManagerArtifacts ManagerPlan.
#[local] Open Scope Z_scope.

Section load.
Context {GR : GoRuntime} {ED : Ed25519} {JD : JSONDecoders} {KD : KeyDecoders} {SC : StateCodecs}.
Context {W : Type} {KW : KLIQWorld W}.
Context (http_get : string → string → io W HTTPResponse).
Context (decode_EnvelopePayload : string → result string).
Implicit Types (m : Manager W) (src : ManagedAssignmentSource W).
#[local] Abbreviation state := (ManagedAssignmentSource W * KLIQ W)%type.
#[local] Abbreviation load := (LoadManagedBundle http_get decode_EnvelopePayload).

(** The database is as it was. *)
Definition same_db (s s' : state) : Prop := k_db s'.2 = k_db s.2.

#[local] Instance same_db_preorder : PreOrder same_db.
Proof. split; [done|]. intros s1 s2 s3. unfold same_db. congruence. Qed.

Lemma on_kliq_same_db {A} (c : io (KLIQ W) A) :
  preserves unchanged c → preserves same_db (on_kliq c).
Proof. intros H s. apply H. Qed.

Lemma modify_same_db f : preserves same_db (modify (prod_map f id)).
Proof. by intros s. Qed.

Lemma source_Load_same_db : preserves same_db (source_Load http_get).
Proof.
  intros s. unfold source_Load. by destruct (Load _ _ _) as [r [source w]].
Qed.

Lemma buildBundleRecord_unchanged m data ref : preserves (@unchanged W) (buildBundleRecord m data ref).
Proof. unfold buildBundleRecord. preserve. Qed.
Definition err_keeps {A} (c : io state A) : Prop :=
  ∀ s e s', c s = (Err e, s') → same_db s s'.

Lemma err_keeps_bind {A B} (c : io state A) (f : A → io state B) :
  preserves same_db c → (∀ a, err_keeps (f a)) → err_keeps (c ≫= f).
Proof.
  intros Hc Hf s e s' [H|(a & s1 & H1 & H)]%io_bind_Err; [by eapply preserves_run|].
  etrans; [by eapply preserves_run|by eapply Hf].
Qed.

Lemma err_keeps_preserves {A} (c : io state A) : preserves same_db c → err_keeps c.
Proof. intros Hc s e s' H. by eapply preserves_run. Qed.

Lemma save_err_keeps {A} (f : AssignmentTables → result (A * AssignmentTables)) (record : BundleRecord) :
  err_keeps (_ ← on_kliq (store_write (on_assign (transaction f))); mret record : io state _).
Proof.
  intros s e s' [H|(a & s1 & _ & H)]%io_bind_Err; [|done].
  unfold on_kliq, zoom, same_db in *. apply (f_equal snd) in H as Hs. simpl in Hs. rewrite <- Hs.
  simpl. apply (f_equal fst) in H. simpl in H. unfold store_write in *.
  destruct (store_fault _) as [[e'|] w]; [done|]. simpl in *.
  unfold on_assign, zoom, transaction in *. simpl in *.
  destruct (f _) as [[? ?]|]; [done|]. simpl. by destruct (k_db s.2).
Qed.

Lemma LoadManagedBundle_err_keeps m : err_keeps (load m).
Proof.
  pose proof (λ A f, on_kliq_same_db (store_read (A:=A) f) (store_read_free unchanged f)) as Hread.
  pose proof (on_kliq_same_db now (now_free unchanged)) as Hnow.
  pose proof (on_kliq_same_db wall (wall_free unchanged)) as Hwall.
  unfold LoadManagedBundle. destruct (negb _); [by apply err_keeps_preserves, preserves_fail, _|].
  destruct (bool_decide _); [by apply err_keeps_preserves, preserves_fail, _|].
  apply err_keeps_bind; [by apply modify_same_db|]. intros _.
  apply err_keeps_bind; [by apply preserves_gets, _|]. intros kliqID.
  apply err_keeps_bind.
  { destruct (empty_str _); [by apply preserves_ret, _|]. apply preserves_bind; [apply _| |].
    - apply on_kliq_same_db, preserves_attempt, store_read_free; apply _.
    - intros [st|e]; [apply modify_same_db|].
      destruct (error_is _ _); [by apply preserves_ret, _|by apply preserves_fail, _]. }
  intros _. apply err_keeps_bind; [apply source_Load_same_db|]. intros [data ref].
  apply err_keeps_bind; [apply on_kliq_same_db, buildBundleRecord_unchanged|]. intros record.
  apply err_keeps_bind; [by apply preserves_gets, _|]. intros source.
  destruct (AssignmentActivation source); [|by apply err_keeps_preserves, preserves_fail, _].
  cbv zeta.
  apply err_keeps_bind; [done|]. intros now1. apply err_keeps_bind; [by apply preserves_lift, _|].
  intros _. apply err_keeps_bind; [done|]. intros now2. apply err_keeps_bind; [done|]. intros now3.
  apply err_keeps_bind; [done|]. intros w. apply save_err_keeps.
Qed.

(** ** The source that is loaded *)

(** The source as it is loaded from: with the manager's verifier when it has none of its
    own, resuming from the assignment the store says is active. *)
Definition resumed m src (db : AssignmentTables) : ManagedAssignmentSource W :=
  let src := with_verifier (m_Verifier m) src in
  match get_KLIQManagementState (mas_KLIQID src) db with
  | Ok old => SetActiveAssignment src (ms_ActiveAssignmentVersion old) (ms_ActiveAssignmentDigest old)
  | Err _ => src
  end.

Lemma active_state_step src s u src1 s1 :
  (if empty_str (mas_KLIQID src) then mret tt else
   r ← on_kliq (attempt (store_read (λ db,
         get_KLIQManagementState (mas_KLIQID src) (db_assign db))));
   match r with
   | Ok st => modify (prod_map (λ src, SetActiveAssignment src
                (ms_ActiveAssignmentVersion st) (ms_ActiveAssignmentDigest st)) id)
   | Err e => if error_is e ErrNotFound then mret tt else fail e
   end : io state unit) (src, s) = (Ok u, (src1, s1)) →
  k_db s1 = k_db s ∧ mas_KLIQID src1 = mas_KLIQID src ∧
  (mas_KLIQID src ≠ "" →
   src1 = match get_KLIQManagementState (mas_KLIQID src) (db_assign (k_db s)) with
          | Ok old => SetActiveAssignment src (ms_ActiveAssignmentVersion old) (ms_ActiveAssignmentDigest old)
          | Err _ => src
          end).
Proof.
  intros H. destruct (String.eqb_spec (mas_KLIQID src) "") as [E|E].
  { apply mret_Ok in H as [_ [= -> ->]]. by split_and!. }
  apply io_bind_Ok in H as (r & st & (s2 & H1%attempt_run & ->)%zoom_Ok & H).
  apply store_read_run in H1 as (E1 & _ & Hr). simpl in Hr, E1, H.
  destruct r as [old|e].
  - apply modify_Ok in H as [= -> ->]. destruct Hr as [Hr|(? & ? & _)]; [|done].
    split_and!; [done..|]. by rewrite Hr.
  - destruct (error_is e ErrNotFound) eqn:He; [|by apply fail_Ok in H].
    apply mret_Ok in H as [_ [= -> ->]]. split_and!; [done..|].
    destruct Hr as [Hr|(e' & [= ->] & He')]; [by rewrite Hr|congruence].
Qed.

(** The assignment [a] is what the verifier of the source found signed, and it may be
    activated: it is addressed to this KLIQ, current, and made of checked artifacts. *)
Definition accepted src (verifier : Verifier W) (envelope : SignedEnvelope)
    (vresult : VerificationResult) (a : KLIQAssignment) : Prop :=
  mas_Verifier src = Some verifier ∧
  (∃ w w', verifier envelope w = (Ok vresult, w')) ∧ vr_Valid vresult = true ∧
  (∃ payload, decode_stream_KLIQAssignment (env_Payload envelope) = Ok payload ∧
              a = with_SignatureValid payload) ∧
  asg_TrustKeyID a = vr_KeyID vresult ∧ trust_bundle_matches (mas_TrustBundle src) a vresult ∧
  (∃ wall, assignment_admissible wall a (activation_context src vresult)) ∧
  assignment_current a (activation_context src vresult) ∧
  (∀ artifact, artifact ∈ asg_Artifacts a →
     aa_SHA256 artifact = SHA256JSON (aa_Envelope artifact)) ∧
  artifacts_checked verifier a.

Lemma source_Load_Ok src s data ref src' s' :
  source_Load http_get (src, s) = (Ok (data, ref), (src', s')) →
  k_db s' = k_db s ∧ ∃ verifier envelope vresult a artifact,
    accepted src verifier envelope vresult a ∧ RuntimeBundleArtifact a = Some artifact ∧
    data = aa_Envelope artifact ∧
    src' = set_assignment a (env_PayloadSHA256 envelope) src ∧ mas_KLIQID src ≠ "".
Proof.
  unfold source_Load. simpl. destruct (Load _ _ _) as [r [src1 w]] eqn:H.
  intros [= -> -> <-]. split; [done|].
  apply Load_Ok in H as (v & env & a & artifact & Hv & Ha & -> & Hrb & -> & Hb).
  destruct Ha as (vresult & payload & wall & Hver & Hvalid & Hpay & Hap & Ht & Htb & Hd & Hch & Hadm & Hcur).
  exists v, env, vresult, a, artifact. split_and!; try done; [|by intros E; rewrite E in Hb].
  split_and!; first [done|by exists payload|by exists wall].
Qed.

(** ** The bundle of the assignment *)

(** The record is of a runtime bundle that the manager's own verifier found signed. *)
Definition verified_record m (data : string) (record : BundleRecord) : Prop :=
  ∃ (own : Verifier W) envelope bundle,
    m_Verifier m = Some own ∧ decode_SignedEnvelope data = Ok envelope ∧
    (∃ w r w', own envelope w = (Ok r, w') ∧ vr_Valid r = true) ∧
    decode_RuntimeBundle (env_Payload envelope) = Ok bundle ∧
    rb_Kind bundle = "RuntimeBundle" ∧ art_ArtifactType (rb_Metadata bundle) = "runtime_bundle" ∧
    bun_EnvelopeJSON record = data ∧
    bun_BundleID record = art_ID (rb_Metadata bundle) ∧
    bun_PolicyID record = art_PolicyID (rb_Metadata bundle) ∧
    bun_SourceCommit record = art_SourceCommit (rb_Metadata bundle) ∧
    bun_KeyID record = env_KeyID envelope ∧ bun_PayloadSHA256 record = env_PayloadSHA256 envelope ∧
    env_ExpiresAt envelope = Some (bun_ExpiresAt record).

Lemma buildBundleRecord_Ok m data ref s record s' :
  buildBundleRecord m data ref s = (Ok record, s') → verified_record m data record.
Proof.
  unfold buildBundleRecord. intros H.
  apply io_bind_Ok in H as (verified & s1 & (w' & H1 & _)%zoom_Ok & H).
  apply io_bind_Ok in H as (now & s2 & _ & H).
  unfold VerifySignedRuntimeBundle in H1. destruct (m_Verifier m) as [own|] eqn:Hown; [|by apply fail_Ok in H1].
  apply io_bind_Ok in H1 as (envelope & w1 & [Hd ->]%lift_Ok & H1).
  destruct (env_Kind _ !=s _); [by apply fail_Ok in H1|].
  apply io_bind_Ok in H1 as (vresult & w2 & Hv & H1).
  destruct (negb (vr_Valid vresult)) eqn:Hvalid; [by apply fail_Ok in H1|]. apply negb_false_iff in Hvalid.
  destruct (bool_decide _); [by apply fail_Ok in H1|].
  apply io_bind_Ok in H1 as (bundle & w3 & [Hb ->]%lift_Ok & H1). cbv zeta in H1.
  destruct (rb_Kind bundle !=s _) eqn:Hk; [by apply fail_Ok in H1|].
  destruct (art_ArtifactType _ !=s _) eqn:Ht; [by apply fail_Ok in H1|]. str_eqs.
  destruct (_ && _); [by apply fail_Ok in H1|]. destruct (_ && _); [by apply fail_Ok in H1|].
  apply mret_Ok in H1 as [-> _]. cbn [rbv_Envelope rbv_Bundle] in H.
  destruct (env_ExpiresAt envelope) as [expires|] eqn:He; [|by apply fail_Ok in H].
  apply mret_Ok in H as [-> _]. exists own, envelope, bundle. split_and!; try done. eauto.
Qed.

(** ** What the database then holds *)

(** The row of an artifact of the assignment, and the row of it as an active artifact. *)
Definition staged (a : KLIQAssignment) (artifact : KLIQAssignedArtifact) (r : AssignmentArtifactRecordRow) : Prop :=
  aar_AssignmentID r = asg_AssignmentID a ∧ aar_AssignmentVersion r = asg_AssignmentVersion a ∧
  aar_ArtifactType r = aa_ArtifactType artifact ∧ aar_ArtifactID r = aa_ArtifactID artifact ∧
  aar_ArtifactRef r = aa_ArtifactRef artifact ∧ aar_SHA256 r = aa_SHA256 artifact ∧
  aar_EnvelopeJSON r = aa_Envelope artifact.
Definition active (artifact : KLIQAssignedArtifact) (r : ActiveArtifactRecordRow) : Prop :=
  act_ArtifactType r = aa_ArtifactType artifact ∧ act_ArtifactID r = aa_ArtifactID artifact ∧
  act_SHA256 r = aa_SHA256 artifact ∧ decode_EnvelopePayload (aa_Envelope artifact) = Ok (act_PayloadJSON r) ∧
  act_PayloadJSON r ≠ "".

(** The management state of an active assignment. *)
Definition state_of (a : KLIQAssignment) (digest : string) (new : KLIQManagementState) : Prop :=
  ms_KLIQID new = asg_KLIQID a ∧ ms_ActiveAssignmentID new = asg_AssignmentID a ∧
  ms_ActiveAssignmentVersion new = asg_AssignmentVersion a ∧
  ms_ActiveAssignmentSourceCommit new = asg_SourceCommit a ∧ ms_ActiveAssignmentDigest new = digest ∧
  ms_ActiveAssignmentExpiresAt new = asg_ExpiresAt a.

(** The assignment is activated as a whole: the bundle, the state and the artifacts of the
    KLIQ are the assignment's, in its order; what is stored for other KLIQs stays. *)
Definition activated (kliq : string) (a : KLIQAssignment) (new : KLIQManagementState)
    (record : BundleRecord) (db db' : AssignmentTables) : Prop :=
  t_bundle db' = Some (bundle_row record) ∧
  select_key ms_KLIQID kliq (t_management db') = Some (management_row new) ∧
  Forall2 (staged a) (asg_Artifacts a) (filter (λ r, aar_KLIQID r = kliq) (t_artifacts db')) ∧
  Forall2 active (asg_Artifacts a) (filter (λ r, act_KLIQID r = kliq) (t_active db')) ∧
  filter (λ r, aar_KLIQID r ≠ kliq) (t_artifacts db') = filter (λ r, aar_KLIQID r ≠ kliq) (t_artifacts db) ∧
  filter (λ r, act_KLIQID r ≠ kliq) (t_active db') = filter (λ r, act_KLIQID r ≠ kliq) (t_active db) ∧
  t_credential db' = t_credential db.

(** The rows of a key are replaced. *)
Lemma rows_replaced {R} (key : R → string) k (old added : list R) :
  Forall (λ r, key r = k) added →
  filter (λ r, key r = k) (delete_rows (λ r, key r ==s k) old ++ added) = added ∧
  filter (λ r, key r ≠ k) (delete_rows (λ r, key r ==s k) old ++ added) = filter (λ r, key r ≠ k) old.
Proof.
  intros Ha. rewrite !filter_app.
  assert (filter (λ r, key r = k) added = added ∧ filter (λ r, key r ≠ k) added = []) as [-> ->].
  { induction Ha as [|r added Hr _ [IH1 IH2]]; [done|].
    by rewrite filter_cons_True, IH1, filter_cons_False, IH2 by auto. }
  rewrite app_nil_r. unfold delete_rows. induction old as [|r old [IH1 IH2]]; [done|]. simpl.
  destruct (String.eqb_spec (key r) k) as [E|E]; simpl.
  - rewrite (filter_cons_False (λ r, key r ≠ k)) by auto. done.
  - rewrite filter_cons_False, !(filter_cons_True (λ r, key r ≠ k)), IH2 by done. done.
Qed.

Lemma staged_rows (act : ManagedAssignmentActivation) (a : KLIQAssignment) l at_ :
  maa_AssignmentID act = asg_AssignmentID a → maa_AssignmentVersion act = asg_AssignmentVersion a →
  Forall (λ r, aar_KLIQID r = maa_KLIQID act) (artifact_row <$> assignmentArtifactRecords act l at_) ∧
  Forall2 (staged a) l (artifact_row <$> assignmentArtifactRecords act l at_).
Proof. intros E1 E2. induction l as [|x l [IH1 IH2]]; [done|]. by split; constructor. Qed.

Lemma active_rows act l at_ ps :
  Forall2 (λ a p, signedEnvelopePayload decode_EnvelopePayload (aar_EnvelopeJSON a) = Ok p)
    (assignmentArtifactRecords act l at_) ps →
  let rows := zip_with active_row (assignmentArtifactRecords act l at_) ps in
  Forall (λ r, act_KLIQID r = maa_KLIQID act) rows ∧ Forall2 active l rows.
Proof.
  revert ps. induction l as [|x l IH]; intros ps Hps; [done|].
  apply Forall2_cons_inv_l in Hps as (p & ps' & Hp & Hps & ->). apply IH in Hps as [IH1 IH2].
  split; constructor; [done..| |done].
  unfold signedEnvelopePayload in Hp. apply bind_Ok in Hp as (q & Hq & Hp).
  destruct (empty_str q) eqn:Hne; [done|]. injection Hp as ->. str_eqs. done.
Qed.

Lemma save_activated wall record a (new : KLIQManagementState) act at_ db db' :
  unique_keys ms_KLIQID (t_management db) →
  maa_AssignmentID act = asg_AssignmentID a → maa_AssignmentVersion act = asg_AssignmentVersion a →
  maa_KLIQID act = ms_KLIQID new →
  SaveManagedBundleActivation decode_EnvelopePayload wall record new
    (assignmentArtifactRecords act (asg_Artifacts a) at_) db = (Ok tt, db') →
  activated (ms_KLIQID new) a new record db db'.
Proof.
  intros Hu I1 I2 I3 H. apply save_Ok in H as (_ & _ & ps & Hps & Ea & Ec & _ & Eb & Em & Ecr).
  destruct (staged_rows act a (asg_Artifacts a) at_) as [S1 S2]; [done..|].
  apply active_rows in Hps as [A1 A2]. rewrite I3 in S1, A1.
  apply (rows_replaced aar_KLIQID (ms_KLIQID new) (t_artifacts db)) in S1 as [Q1 Q2].
  apply (rows_replaced act_KLIQID (ms_KLIQID new) (t_active db)) in A1 as [Q3 Q4].
  unfold activated. rewrite Ea, Ec, Em, Q1, Q2, Q3, Q4. split_and!; try done.
  etrans; [by apply (select_upsert_row (@ms_KLIQID string) _ (management_row new))|].
  by destruct (select_key _ _ _).
Qed.

(** C13. Loading a managed assignment either fails and leaves the database as it
    was, or activates an assignment as a whole: the verifier of the source (the manager's when
    it has none) found it signed, it is addressed to this KLIQ, not expired or revoked, and
    its artifacts have the digests it names and valid signatures; the bundle it brings
    was verified with the manager's own key; the database then holds exactly that bundle, that
    assignment's version and digest, and that assignment's artifacts, and, measured
    against the assignment that was active, the version is higher, or it is the
    same signed payload again, or the assignment is an approved rollback.
    Leases and audit records, and what is stored for other KLIQs, are not touched. *)
Theorem LoadManagedBundle_activates m src s r src' s' :
  unique_keys ms_KLIQID (t_management (db_assign (k_db s))) →
  load m (src, s) = (r, (src', s')) →
  match r with
  | Err _ => k_db s' = k_db s
  | Ok record => ∃ verifier envelope vresult a artifact (new : KLIQManagementState),
      accepted (resumed m src (db_assign (k_db s))) verifier envelope vresult a ∧
      RuntimeBundleArtifact a = Some artifact ∧ verified_record m (aa_Envelope artifact) record ∧
      state_of a (env_PayloadSHA256 envelope) new ∧ ms_KLIQID new = mas_KLIQID src ∧
      activated (mas_KLIQID src) a new record (db_assign (k_db s)) (db_assign (k_db s')) ∧
      (∀ old : KLIQManagementState,
         get_KLIQManagementState (mas_KLIQID src) (db_assign (k_db s)) = Ok old →
         ms_ActiveAssignmentVersion old < asg_AssignmentVersion a ∨
         ms_ActiveAssignmentVersion old = asg_AssignmentVersion a ∧
           vr_PayloadSHA256 vresult = ms_ActiveAssignmentDigest old ∨
         asg_ApprovedRollback a = true) ∧
      db_actions (k_db s') = db_actions (k_db s) ∧ db_audit (k_db s') = db_audit (k_db s)
  end.
Proof.
  intros Hu H. destruct r as [record|e]; [|by apply LoadManagedBundle_err_keeps in H].
  unfold LoadManagedBundle in H. run_step H. run_step H.
  apply io_bind_Ok in H as (u1 & st1 & H1%modify_Ok & H). simpl in H1. subst st1.
  apply io_bind_Ok in H as (kliqID & st2 & [-> ->]%gets_Ok & H). cbn [fst mas_KLIQID] in H.
  apply io_bind_Ok in H as (u2 & [src1 s1] & H1 & H).
  apply (active_state_step (with_verifier (m_Verifier m) src)) in H1 as (E1 & K1 & Hres).
  apply io_bind_Ok in H as ([data ref] & [src2 s2] & H2 & H).
  apply source_Load_Ok in H2 as (E2 & verifier & envelope & vresult & a & artifact & Ha & Hrb & -> & -> & Hz).
  rewrite K1 in Hz. specialize (Hres Hz).
  assert (Hsrc : src1 = resumed m src (db_assign (k_db s))) by exact Hres. clear Hres.
  apply io_bind_Ok in H as (rec & st3 & (s3 & H3 & ->)%zoom_Ok & H).
  apply buildBundleRecord_Ok in H3 as Hrec.
  apply (preserves_run unchanged) in H3 as [E3 _]; [|apply buildBundleRecord_unchanged].
  apply io_bind_Ok in H as (source & st4 & [-> ->]%gets_Ok & H). cbn [fst] in H.
  destruct (AssignmentActivation _) as [act|] eqn:Hact; [|by apply fail_Ok in H].
  cbv zeta in H.
  pose proof (on_kliq_same_db now (now_free unchanged)) as Hnow.
  apply io_bind_Ok in H as (n1 & st4 & Q1%(preserves_run _ _ _ _ _ Hnow) & H).
  apply io_bind_Ok in H as (u3 & st5 & [_ ->]%lift_Ok & H).
  apply io_bind_Ok in H as (n2 & st6 & Q2%(preserves_run _ _ _ _ _ Hnow) & H).
  apply io_bind_Ok in H as (n3 & st7 & Q3%(preserves_run _ _ _ _ _ Hnow) & H).
  apply io_bind_Ok in H as (w & st8 &
    Q4%(preserves_run _ _ _ _ _ (on_kliq_same_db wall (wall_free unchanged))) & H).
  apply io_bind_Ok in H as (u4 & st9 & (s9 & H9 & ->)%zoom_Ok & [-> [= -> ->]]%mret_Ok).
  apply store_write_Ok in H9 as [(t & Hsave & E9)%zoom_Ok _]. destruct u4.
  assert (E : k_db st8.2 = k_db s).
  { unfold same_db in *. rewrite Q4, Q3, Q2, Q1. simpl in *. congruence. }
  rewrite E in Hsave, E9. rewrite E9. simpl.
  unfold AssignmentActivation in Hact. simpl in Hact.
  destruct (_ || _); [done|]. injection Hact as <-. cbn [maa_KLIQID maa_AssignmentID maa_AssignmentVersion maa_SourceCommit
    maa_AssignmentDigest maa_ExpiresAt set_assignment mas_assignment mas_assignmentDigest] in Hsave.
  apply (save_activated _ _ a) in Hsave; [|done..].
  assert (Hk : asg_KLIQID a = mas_KLIQID src).
  { change (mas_KLIQID src) with (mas_KLIQID (with_verifier (m_Verifier m) src)). rewrite <- K1.
    by destruct Ha as (_ & _ & _ & _ & _ & _ & (wall & Hadm) & _); apply Hadm. }
  cbn [ms_KLIQID] in Hsave. rewrite Hk in Hsave at 1.
  exists verifier, envelope, vresult, a, artifact.
  lazymatch type of Hsave with activated _ _ ?new _ _ _ => exists new end.
  rewrite <- Hsrc. split_and!; try done.
  intros old Hold. destruct Ha as (_ & _ & _ & _ & _ & _ & _ & Hcur & _).
  unfold assignment_current in Hcur. rewrite Hsrc in Hcur. unfold resumed in Hcur. cbv zeta in Hcur.
  cbn [mas_KLIQID with_verifier] in Hcur. rewrite Hold in Hcur. simpl in Hcur. naive_solver.
Qed.
End load.
