(* ===== verification/ManagerExec.v ===== *)
(** * Executing a plan ([internal/kliq/runtime/manager.go])

    One planned action: an open lease for the same target is returned as it is,
    an expired one is cleaned up first; then the audit record is written, the
    adapter is called, and the lease is stored.  When the adapter's answer is
    lost, its state is read back and decides what is recorded. *)

From stdpp Require Import options.
From S2P Require Import Prelude IO GoStrings GoTime GoDuration GoJson Risk Signing Domain Artifacts.
From S2P Require Import BundleSource StateTypes SqliteLeases SqliteAudit SqliteAssignments.
From S2P Require Import SqliteBaseline Store Plan ManagerArtifacts ManagerPlan.
#[local] Open Scope Z_scope.

Record RuntimeActionExecutionResult := {
  xres_Lease : RuntimeActionLease;
  xres_Applied : bool;
  xres_Message : string;
}.

Record ExecuteResult := {
  er_Plan : RuntimeActionPlan;
  er_Results : list RuntimeActionExecutionResult;
}.

(** ** Records written along the way *)

Definition journal (runtimeActionID event : string) (status : RuntimeActionStatus)
    (message : string) (now : time) : JournalEntry := {|
  j_ID := "journal." +:+ shortHash (runtimeActionID +:+ event +:+ formatTime now);
  j_RuntimeActionID := runtimeActionID;
  j_Event := event;
  j_Status := status;
  j_Message := message;
  j_CreatedAt := now;
|}.

Definition audit_payload (lease : RuntimeActionLease) (message : string) : string :=
  json_encode (jmap
    [("runtime_action_id", JStr (l_RuntimeActionID lease));
     ("plan_id", JStr (l_PlanID lease));
     ("decision_id", JStr (l_DecisionID lease));
     ("policy_id", JStr (l_PolicyID lease));
     ("bundle_id", JStr (l_BundleID lease));
     ("source_commit", JStr (l_SourceCommit lease));
     ("correlation_id", JStr (l_CorrelationID lease));
     ("adapter_id", JStr (l_AdapterID lease));
     ("capability_id", JStr (l_CapabilityID lease));
     ("capability_grant_id", JStr (l_CapabilityGrantID lease));
     ("binding_id", JStr (l_BindingID lease));
     ("binding_digest", JStr (l_BindingDigest lease));
     ("adapter_manifest_digest", JStr (l_AdapterManifestDigest lease));
     ("action_digest", JStr (l_ActionDigest lease));
     ("mode", JStr (l_Mode lease));
     ("action_type", JStr (l_ActionType lease));
     ("target_scope", JStr (l_TargetScope lease));
     ("audit_id", JStr (l_AuditID lease));
     ("status", JStr (l_Status lease));
     ("message", JStr message);
     ("expires_at", JStr (formatTime (l_ExpiresAt lease)))]).

Definition audit (lease : RuntimeActionLease) (message : string) (now : time) : AuditRecord := {|
  au_ID := "audit_spool." +:+ shortHash (l_RuntimeActionID lease +:+ l_Status lease +:+ message +:+
             formatTime now);
  au_RuntimeActionID := l_RuntimeActionID lease;
  au_BindingID := l_BindingID lease;
  au_BindingDigest := l_BindingDigest lease;
  au_AdapterManifestDigest := l_AdapterManifestDigest lease;
  au_ActionDigest := l_ActionDigest lease;
  au_Status := AuditPendingUpload;
  au_Payload := audit_payload lease message;
  au_PayloadSHA256 := SHA256JSON (audit_payload lease message);
  au_PreviousHash := "";
  au_RecordHash := "";
  au_CreatedAt := now;
  au_RetryCount := 0;
  au_LastAttemptAt := 0;
  au_UploadedAt := 0;
  au_LastError := "";
|}.

(** The status and the activated action of a decision. *)
Definition decision_status (result : RuntimeActionExecutionResult) : string * string :=
  if xres_Applied result then ("executed", l_RuntimeActionID (xres_Lease result))
  else if xres_Message result !=s ""
  then ("deduplicated", l_RuntimeActionID (xres_Lease result))
  else ("planned", "").

Definition decision_fields (plan : RuntimeActionPlan) : list (string * json) :=
  [("decision_id", JStr (plan_DecisionID plan));
   ("event_type", JStr (plan_EventType plan));
   ("event_id", JStr (plan_EventID plan));
   ("plan_id", JStr (plan_PlanID plan));
   ("bundle_id", JStr (plan_BundleID plan));
   ("policy_id", JStr (plan_PolicyID plan));
   ("source_commit", JStr (plan_SourceCommit plan));
   ("correlation_id", JStr (plan_CorrelationID plan))].

Definition decision_record (plan : RuntimeActionPlan) (status data activatedAction : string)
    (now : time) : RuntimeDecisionRecord := {|
  dr_DecisionID := plan_DecisionID plan;
  dr_PlanID := plan_PlanID plan;
  dr_PolicyID := plan_PolicyID plan;
  dr_BundleID := plan_BundleID plan;
  dr_SourceCommit := plan_SourceCommit plan;
  dr_CorrelationID := plan_CorrelationID plan;
  dr_EventType := plan_EventType plan;
  dr_EventID := plan_EventID plan;
  dr_Status := status;
  dr_PayloadSHA256 := SHA256JSON data;
  dr_CreatedAt := now;
  dr_ActivatedAction := activatedAction;
|}.

Definition runtimeDecisionRecord (plan : RuntimeActionPlan)
    (result : RuntimeActionExecutionResult) (now : time) : RuntimeDecisionRecord :=
  let '(status, activatedAction) := decision_status result in
  decision_record plan status
    (json_encode (jmap (decision_fields plan ++
       [("activated_action", JStr activatedAction); ("status", JStr status)])))
    activatedAction now.

Definition noActionRuntimeDecisionRecord (plan : RuntimeActionPlan) (now : time)
    : RuntimeDecisionRecord :=
  decision_record plan "no_action"
    (json_encode (jmap (decision_fields plan ++ [("status", JStr "no_action")]))) "" now.

Definition leaseFromPlannedAction (plan : RuntimeActionPlan) (action : PlannedRuntimeAction)
    (now : time) : RuntimeActionLease :=
  let ttl := match ParseDuration (pa_TTL action) with Some d => d | None => 0 end in
  let key := idempotencyKey (plan_BundleID plan) (plan_DecisionID plan) (pa_AdapterID action)
    (pa_CapabilityID action) (pa_ActionType action) (pa_TargetScope action)
    (pa_TargetKey action) in
  {| l_RuntimeActionID := "runtime_action." +:+ shortHash key;
     l_PlanID := plan_PlanID plan;
     l_DecisionID := plan_DecisionID plan;
     l_PolicyID := plan_PolicyID plan;
     l_BundleID := plan_BundleID plan;
     l_SourceCommit := plan_SourceCommit plan;
     l_CorrelationID := plan_CorrelationID plan;
     l_ActionType := pa_ActionType action;
     l_TargetScope := pa_TargetScope action;
     l_TargetKey := pa_TargetKey action;
     l_TTL := pa_TTL action;
     l_ExpiresAt := now + ttl;
     l_Reason := pa_Reason action;
     l_AuditID := pa_AuditID action;
     l_CapabilityGrantID := pa_CapabilityGrantID action;
     l_BindingID := pa_BindingID action;
     l_BindingDigest := pa_BindingDigest action;
     l_AdapterManifestDigest := pa_AdapterManifestDigest action;
     l_ActionDigest := pa_ActionDigest action;
     l_AdapterID := pa_AdapterID action;
     l_CapabilityID := pa_CapabilityID action;
     l_Mode := pa_Mode action;
     l_Required := pa_Required action;
     l_IdempotencyKey := key;
     l_CreatedAt := now;
     l_LastReconciledAt := now;
     l_Status := RuntimeActionActive |}.

Section execution.
Context {GR : GoRuntime} {ED : Ed25519} {JD : JSONDecoders} {KD : KeyDecoders} {SC : StateCodecs}.
Context {W : Type} {KW : KLIQWorld W}.
Implicit Types (m : Manager W) (executor : RuntimeExecutor W) (lease : RuntimeActionLease).

(** The store's methods the manager calls on leases, journal and audits. *)
Definition store_UpsertLease lease : io (KLIQ W) unit :=
  store_write (on_actions (UpsertLease lease)).
Definition store_ExpireLease (id : string) (now : time) : io (KLIQ W) unit :=
  store_write (on_actions (ExpireLease id now)).
Definition store_AppendJournal (entry : JournalEntry) : io (KLIQ W) unit :=
  store_write (on_actions (AppendJournal entry)).
Definition store_AppendRuntimeDecision (record : RuntimeDecisionRecord) : io (KLIQ W) unit :=
  wall ← wall; store_write (on_actions (AppendRuntimeDecision wall record)).
Definition store_AppendAudit (record : AuditRecord) : io (KLIQ W) unit :=
  wall ← wall; store_write (on_audit (AppendAudit wall record)).

(** ** Guards of execution *)

Definition ensureActiveFallbackAllowsExecution : io (KLIQ W) unit :=
  with_artifact_or tt "fallback_profile" (λ record,
    profile ← lift (decode_FallbackProfile (act_PayloadJSON record));
    let id := AStr (fp_ProfileID profile) in
    deny negb (fp_AuditRequired profile)
      with Errorf "active fallback profile %q disables required audit; denying runtime action" [id];;
    if negb (fp_DenyNewActionsWhenDegraded profile) then mret tt else
    pending ← wrapping "audit spool unavailable under fallback profile %q: %w" [id]
                (store_read (λ db, PendingAudits (db_audit db)));
    deny existsb (λ record, (0 <? au_RetryCount record) || (au_LastError record !=s "")) pending
      with Errorf "active fallback profile %q denies new runtime actions while audit spool is degraded"
             [id];;
    mret tt).

Definition appendActiveConformanceExpectationAudit lease (now : time) : io (KLIQ W) unit :=
  with_artifact_or tt "conformance_expectation" (λ record,
    expectation ← lift (decode_ConformanceExpectation (act_PayloadJSON record));
    if bool_decide (ces_Expectations (ce_Spec expectation) = []) &&
       bool_decide (ces_Prohibit (ce_Spec expectation) = [])
    then mret tt
    else store_AppendAudit (audit lease "conformance expectations active for runtime action" now)).

(** ** Ending a lease *)

Definition expireLease executor lease (now : time) (message : string) : io (KLIQ W) unit :=
  _ ← adapter CallCleanup lease (Cleanup executor lease);
  _ ← store_ExpireLease (l_RuntimeActionID lease) now;
  _ ← store_AppendJournal (journal (l_RuntimeActionID lease) "expired" RuntimeActionExpired
        message now);
  store_AppendAudit (audit (lease_set RuntimeActionExpired now lease) message now).

Definition markLeaseUnknown lease (now : time) (message : string) : io (KLIQ W) unit :=
  let lease := lease_set RuntimeActionUnknown now lease in
  _ ← store_UpsertLease lease;
  _ ← store_AppendJournal (journal (l_RuntimeActionID lease) "unknown" (l_Status lease)
        message now);
  store_AppendAudit (audit lease message now).

(** ** When the adapter's answer is lost *)

(** Three writes whose errors are ignored; the execution error is returned. *)
Definition recordFailedExecute {A} lease (now : time) (event message : string) (err : error)
    : io (KLIQ W) A :=
  let lease := lease_set RuntimeActionFailed now lease in
  _ ← ignore (store_UpsertLease lease);
  _ ← ignore (store_AppendJournal (journal (l_RuntimeActionID lease) event (l_Status lease)
        message now));
  _ ← ignore (store_AppendAudit (audit lease message now));
  fail err.

(** The lease, journal entry and audit record of a state that was read back. *)
Definition recordRecovered lease (now : time) (event message : string) (applied : bool)
    : io (KLIQ W) RuntimeActionExecutionResult :=
  _ ← store_UpsertLease lease;
  _ ← store_AppendJournal (journal (l_RuntimeActionID lease) event (l_Status lease) message now);
  _ ← store_AppendAudit (audit lease message now);
  mret {| xres_Lease := lease; xres_Applied := applied; xres_Message := message |}.

Definition recoverAfterExecuteError executor lease (now : time) (executeErr : error)
    : io (KLIQ W) RuntimeActionExecutionResult :=
  match State executor with
  | None => recordFailedExecute lease now "execute_failed" (error_text executeErr) executeErr
  | Some state =>
    r ← attempt (adapter CallState lease (state lease));
    match r with
    | Err err =>
      recordFailedExecute lease now "execute_readback_failed"
        ("execute failed and adapter readback failed: " +:+ error_text err) executeErr
    | Ok status =>
      if status ==s RuntimeActionActive then
        recordRecovered (lease_set RuntimeActionActive (l_LastReconciledAt lease) lease) now
          "execute_recovered_by_readback"
          "adapter execute response was lost; active state recovered by readback" true
      else if status ==s RuntimeActionExpired then
        recordRecovered (lease_set RuntimeActionExpired now lease) now
          "execute_recovered_expired_by_readback"
          "adapter execute response was lost; expired state recovered by readback" false
      else if (status ==s RuntimeActionUnknown) || (status ==s RuntimeActionNotFound) ||
              empty_str status then
        recordFailedExecute lease now "execute_readback_unknown"
          "execute failed and adapter readback returned unknown state" executeErr
      else
        recordFailedExecute lease now "execute_readback_unsupported"
          ("execute failed and adapter readback returned unsupported state " +:+ status) executeErr
    end
  end.

(** ** One planned action *)

(** From the audit record on: no open lease stands in the way. *)
Definition activateLease executor lease (signedBundle : string) (now : time)
    : io (KLIQ W) RuntimeActionExecutionResult :=
  _ ← wrapping "local conformance audit write failed; denying runtime action: %w" []
        (appendActiveConformanceExpectationAudit lease now);
  _ ← wrapping "local audit write failed; denying runtime action: %w" []
        (store_AppendAudit (audit lease "runtime action activation authorized" now));
  r ← attempt (adapter CallExecute lease (Execute executor lease signedBundle));
  match r with
  | Err err => recoverAfterExecuteError executor lease now err
  | Ok _ =>
    _ ← store_UpsertLease lease;
    _ ← store_AppendJournal (journal (l_RuntimeActionID lease) "activated" (l_Status lease)
          "runtime action activated" now);
    mret {| xres_Lease := lease; xres_Applied := true;
            xres_Message := "runtime action activated" |}
  end.

Definition executePlannedAction (plan : RuntimeActionPlan) (action : PlannedRuntimeAction)
    executor (signedBundle : string) : io (KLIQ W) RuntimeActionExecutionResult :=
  now ← now;
  _ ← ensureActiveFallbackAllowsExecution;
  r ← attempt (store_read (λ db, LeaseByDedupKey (pa_AdapterID action) (pa_CapabilityID action)
        (pa_ActionType action) (pa_TargetScope action) (pa_TargetKey action) (db_actions db)));
  match r with
  | Ok existing =>
    if Before now (l_ExpiresAt existing) then
      _ ← ignore (store_AppendJournal (journal (l_RuntimeActionID existing) "deduplicated"
            (l_Status existing)
            "active lease already exists for adapter/capability; ttl was not extended" now));
      mret {| xres_Lease := existing; xres_Applied := false;
              xres_Message := "active lease already exists; ttl not extended" |}
    else
      _ ← expireLease executor existing now "expired before new runtime action";
      activateLease executor (leaseFromPlannedAction plan action now) signedBundle now
  | Err e =>
    if error_is e ErrNotFound
    then activateLease executor (leaseFromPlannedAction plan action now) signedBundle now
    else fail e
  end.

Definition executorFor m (adapterID : string) : option (RuntimeExecutor W) :=
  match m_Registry m with
  | None => None
  | Some registry => registry adapterID
  end.

Definition ExecutePlan m (plan : RuntimeActionPlan) (signedBundle : string)
    : io (KLIQ W) ExecuteResult :=
  deny negb (m_Store m) with no_store;;
  match plan_Actions plan with
  | [] => fail (Errorf "runtime action plan requires at least one planned action" [])
  | _ :: _ :: _ =>
    fail (Errorf "multi-action runtime plans are modeled but not executable in this slice" [])
  | [action] =>
    _ ← lift (validateActionMode (pa_Mode action));
    deny (pa_Mode action !=s ActionModeRequired) || negb (pa_Required action)
      with Errorf "slice 5.5 execution supports exactly one required action" [];;
    match executorFor m (pa_AdapterID action) with
    | None => fail (Errorf "runtime adapter %q is not registered" [AStr (pa_AdapterID action)])
    | Some executor =>
      result ← executePlannedAction plan action executor signedBundle;
      now ← now;
      _ ← store_AppendRuntimeDecision (runtimeDecisionRecord plan result now);
      mret {| er_Plan := plan; er_Results := [result] |}
    end
  end.

Definition ExecuteAction m (req : ExecuteRequest) : io (KLIQ W) ExecuteResult :=
  '(plan, signedBundle) ← planFromRequest m req;
  match plan_Actions plan with
  | [] =>
    now ← now;
    _ ← store_AppendRuntimeDecision (noActionRuntimeDecisionRecord plan now);
    mret {| er_Plan := plan; er_Results := [] |}
  | _ => ExecutePlan m plan signedBundle
  end.
End execution.
