(* ===== verification/ManagerExecProofs.v ===== *)
(** * Executing a plan: what is guaranteed

    The runtime is fail closed: an adapter is told to act only after the audit
    record of the action is in the spool, and only when no open lease holds the
    target; what is stored afterwards is never lost or extended. *)

From stdpp Require Import options.
From S2P Require Import Prelude IO Table GoStrings GoTime GoDuration GoJson Risk Signing Domain.
From S2P Require Import Artifacts BundleSource StateTypes SqliteLeases SqliteAudit.
From S2P Require Import SqliteAssignments SqliteBaseline Store Plan ManagerArtifacts ManagerPlan.
From S2P Require Import ManagerExec.
#[local] Open Scope Z_scope.

Section proofs.
Context {GR : GoRuntime} {ED : Ed25519} {JD : JSONDecoders} {KD : KeyDecoders} {SC : StateCodecs}.
Context {W : Type} {KW : KLIQWorld W}.
Implicit Types (m : Manager W) (executor : RuntimeExecutor W) (lease : RuntimeActionLease).

(** ** Frames *)

Section frames.
Context (R : relation (KLIQ W)) `{!PreOrder R, !WorldFree R}.

Lemma with_credential_or_free {A} (none : A) k :
  (∀ c, preserves R (k c)) → preserves R (with_credential_or none k).
Proof using Type*. intros Hk. unfold with_credential_or. preserve. Qed.

Lemma with_artifact_or_free {A} (none : A) t k :
  (∀ r, preserves R (k r)) → preserves R (with_artifact_or none t k).
Proof using Type*.
  intros Hk. apply with_credential_or_free. intros c. preserve.
Qed.

Lemma ensureActiveFallbackAllowsExecution_free :
  preserves R ensureActiveFallbackAllowsExecution.
Proof using Type*. apply with_artifact_or_free. intros r. preserve. Qed.

Lemma ensureActiveAssignment_free : preserves R ensureActiveAssignmentAllowsNewActions.
Proof using Type*. apply with_credential_or_free. intros r. preserve. Qed.

Lemma ensureActiveContextRoute_free adapterID capabilityID :
  preserves R (ensureActiveContextRouteAllowsAction adapterID capabilityID).
Proof using Type*. apply with_artifact_or_free. intros r. preserve. Qed.

Lemma CachedBundle_free m : preserves R (CachedBundle m).
Proof using Type*. unfold CachedBundle. preserve. Qed.

Lemma actionFromRiskCache_free b t : preserves R (actionFromRiskCache b t).
Proof using Type*. unfold actionFromRiskCache. cbv zeta. preserve. Qed.
End frames.

#[local] Hint Resolve ensureActiveFallbackAllowsExecution_free ensureActiveAssignment_free
  ensureActiveContextRoute_free CachedBundle_free actionFromRiskCache_free : io.

Lemma planFromRequest_free (R : relation (KLIQ W)) `{!PreOrder R, !WorldFree R} m req :
  preserves R (planFromRequest m req).
Proof. unfold planFromRequest. cbv zeta. preserve. Qed.

(** ** Nothing stored is lost or extended *)

Lemma store_UpsertLease_evolve lease : preserves (@kliq_evolve W) (store_UpsertLease lease).
Proof. unfold store_UpsertLease. auto with io. Qed.
Lemma store_ExpireLease_evolve id now : preserves (@kliq_evolve W) (store_ExpireLease id now).
Proof. unfold store_ExpireLease. auto with io. Qed.
Lemma store_AppendJournal_evolve e : preserves (@kliq_evolve W) (store_AppendJournal e).
Proof. unfold store_AppendJournal. auto with io. Qed.
Lemma store_AppendRuntimeDecision_evolve r :
  preserves (@kliq_evolve W) (store_AppendRuntimeDecision r).
Proof. unfold store_AppendRuntimeDecision. preserve. Qed.
Lemma store_AppendAudit_evolve r : preserves (@kliq_evolve W) (store_AppendAudit r).
Proof. unfold store_AppendAudit. preserve. Qed.

#[local] Hint Resolve store_UpsertLease_evolve store_ExpireLease_evolve
  store_AppendJournal_evolve store_AppendRuntimeDecision_evolve store_AppendAudit_evolve : io.

Lemma appendConformance_evolve lease now :
  preserves (@kliq_evolve W) (appendActiveConformanceExpectationAudit lease now).
Proof. apply with_artifact_or_free; try apply _. intros r. preserve. Qed.

Lemma expireLease_evolve executor lease now msg :
  preserves (@kliq_evolve W) (expireLease executor lease now msg).
Proof. unfold expireLease. preserve. Qed.

Lemma markLeaseUnknown_evolve lease now msg :
  preserves (@kliq_evolve W) (markLeaseUnknown lease now msg).
Proof. unfold markLeaseUnknown. cbv zeta. preserve. Qed.

Lemma recordFailedExecute_evolve {A} lease now ev msg err :
  preserves (@kliq_evolve W) (recordFailedExecute (A:=A) lease now ev msg err).
Proof. unfold recordFailedExecute. cbv zeta. preserve. Qed.

Lemma recordRecovered_evolve lease now ev msg b :
  preserves (@kliq_evolve W) (recordRecovered lease now ev msg b).
Proof. unfold recordRecovered. preserve. Qed.

#[local] Hint Resolve appendConformance_evolve expireLease_evolve markLeaseUnknown_evolve
  recordFailedExecute_evolve recordRecovered_evolve : io.

Lemma recoverAfterExecuteError_evolve executor lease now err :
  preserves (@kliq_evolve W) (recoverAfterExecuteError executor lease now err).
Proof. unfold recoverAfterExecuteError. preserve. Qed.

#[local] Hint Resolve recoverAfterExecuteError_evolve : io.

Lemma activateLease_evolve executor lease b now :
  preserves (@kliq_evolve W) (activateLease executor lease b now).
Proof. unfold activateLease. preserve. Qed.

#[local] Hint Resolve activateLease_evolve : io.

Lemma executePlannedAction_evolve plan action executor b :
  preserves (@kliq_evolve W) (executePlannedAction plan action executor b).
Proof. unfold executePlannedAction. preserve. Qed.

#[local] Hint Resolve executePlannedAction_evolve : io.

Lemma ExecutePlan_evolve m plan b : preserves (@kliq_evolve W) (ExecutePlan m plan b).
Proof. unfold ExecutePlan. preserve. Qed.

Lemma ExecuteAction_evolve m req : preserves (@kliq_evolve W) (ExecuteAction m req).
Proof.
  unfold ExecuteAction. apply preserves_bind; [apply _|by apply planFromRequest_free; apply _|].
  intros [plan b]. pose proof (ExecutePlan_evolve m plan b). preserve.
Qed.
End proofs.

#[export] Hint Resolve ensureActiveFallbackAllowsExecution_free ensureActiveAssignment_free
  ensureActiveContextRoute_free CachedBundle_free actionFromRiskCache_free planFromRequest_free
  store_UpsertLease_evolve store_ExpireLease_evolve store_AppendJournal_evolve
  store_AppendRuntimeDecision_evolve store_AppendAudit_evolve appendConformance_evolve
  expireLease_evolve markLeaseUnknown_evolve : io.

(** ** The calls made to adapters *)
Section calls.
Context {GR : GoRuntime} {ED : Ed25519} {JD : JSONDecoders} {KD : KeyDecoders} {SC : StateCodecs}.
Context {W : Type} {KW : KLIQWorld W}.
Implicit Types (m : Manager W) (executor : RuntimeExecutor W) (lease : RuntimeActionLease).

Definition not_execute (c : adapter_call) : Prop := ac_kind c ≠ CallExecute.

Lemma adapter_not_execute {A} kind lease (c : io W A) :
  kind ≠ CallExecute → preserves (@calls_are W not_execute) (adapter kind lease c).
Proof. intros Hk s. apply adapter_calls. exact Hk. Qed.

Lemma cleanup_not_execute {A} lease (c : io W A) :
  preserves (@calls_are W not_execute) (adapter CallCleanup lease c).
Proof. by apply adapter_not_execute. Qed.

Lemma state_not_execute {A} lease (c : io W A) :
  preserves (@calls_are W not_execute) (adapter CallState lease c).
Proof. by apply adapter_not_execute. Qed.

#[local] Hint Resolve cleanup_not_execute state_not_execute : io.
#[local] Hint Unfold store_UpsertLease store_ExpireLease store_AppendJournal : io.

Lemma recordFailedExecute_calls {A} lease now ev msg err :
  preserves (@calls_are W not_execute) (recordFailedExecute (A:=A) lease now ev msg err).
Proof.
  unfold recordFailedExecute, store_UpsertLease, store_AppendJournal, store_AppendAudit. preserve.
Qed.

Lemma recordRecovered_calls lease now ev msg b :
  preserves (@calls_are W not_execute) (recordRecovered lease now ev msg b).
Proof.
  unfold recordRecovered, store_UpsertLease, store_AppendJournal, store_AppendAudit. preserve.
Qed.

#[local] Hint Resolve recordFailedExecute_calls recordRecovered_calls : io.

Lemma recoverAfterExecuteError_calls executor lease now err :
  preserves (@calls_are W not_execute) (recoverAfterExecuteError executor lease now err).
Proof. unfold recoverAfterExecuteError. preserve. Qed.

Lemma expireLease_calls executor lease now msg :
  preserves (@calls_are W not_execute) (expireLease executor lease now msg).
Proof.
  unfold expireLease, store_ExpireLease, store_AppendJournal, store_AppendAudit. preserve.
Qed.

(** The authorization of [lease] is in the audit spool. *)
Definition audited lease (now : time) (db : SQLiteStore) : Prop :=
  let record := audit lease "runtime action activation authorized" now in
  ∃ r, r ∈ db_audit db ∧ au_ID r = au_ID record ∧
       au_PayloadSHA256 r = SHA256JSON (au_Payload record).

Definition no_open_lease (key : dedup_key) (db : SQLiteStore) : Prop :=
  ∀ r, r ∈ t_leases (db_actions db) → open_status (l_Status r) = true → lease_dedup r ≠ key.

(** An adapter is told to execute [lease]: it has been audited, and no open
    lease holds its target. *)
Record execute_guarded lease (now : time) (c : adapter_call) : Prop := {
  guarded_kind : ac_kind c = CallExecute;
  guarded_lease : ac_lease c = lease;
  guarded_audited : audited lease now (ac_db c);
  guarded_exclusive : no_open_lease (lease_dedup lease) (ac_db c);
}.

(** At most one call executes something, and it satisfies [Q]. *)
Definition executes_once (Q : adapter_call → Prop) (s s' : KLIQ W) : Prop :=
  ∃ before mid after, k_calls s' = k_calls s ++ before ++ mid ++ after ∧
    Forall not_execute before ∧ Forall not_execute after ∧ (mid = [] ∨ ∃ c, mid = [c] ∧ Q c).

Lemma executes_none Q s s' : calls_are not_execute s s' → executes_once Q s s'.
Proof. intros (n & E & F). exists n, [], []. rewrite app_nil_r. auto. Qed.

Lemma executes_before Q s1 s2 s3 :
  calls_are not_execute s1 s2 → executes_once Q s2 s3 → executes_once Q s1 s3.
Proof.
  intros (n & E & F) (b & mid & a & E' & Fb & Fa & Hm). exists (n ++ b), mid, a.
  rewrite E', E, <- !app_assoc. split_and!; [done|by apply Forall_app|done..].
Qed.

Lemma executes_after Q s1 s2 s3 :
  executes_once Q s1 s2 → calls_are not_execute s2 s3 → executes_once Q s1 s3.
Proof.
  intros (b & mid & a & E' & Fb & Fa & Hm) (n & E & F). exists b, mid, (a ++ n).
  rewrite E, E', <- !app_assoc. split_and!; [done..|by apply Forall_app|done].
Qed.

Lemma executes_weaken (Q Q' : adapter_call → Prop) s s' :
  (∀ c, Q c → Q' c) → executes_once Q s s' → executes_once Q' s s'.
Proof.
  intros H (b & mid & a & E & Fb & Fa & [->|(c & -> & Hc)]); exists b; eauto 10.
Qed.

Lemma executes_then_bind {A B} Q (c : io (KLIQ W) A) (f : A → io (KLIQ W) B) s :
  preserves (@calls_are W not_execute) c →
  (∀ a s1, c s = (Ok a, s1) → executes_once Q s1 (f a s1).2) →
  executes_once Q s ((c ≫= f) s).2.
Proof.
  intros Hc Hf. specialize (Hc s). rewrite io_bind_run.
  destruct (c s) as [[a|e] s1]; simpl in *; [|by apply executes_none].
  by eapply executes_before; [|apply Hf].
Qed.

Lemma executes_bind_then {A B} Q (c : io (KLIQ W) A) (f : A → io (KLIQ W) B) s :
  executes_once Q s (c s).2 → (∀ a, preserves (@calls_are W not_execute) (f a)) →
  executes_once Q s ((c ≫= f) s).2.
Proof.
  intros Hc Hf. rewrite io_bind_run. destruct (c s) as [[a|e] s1]; simpl in *; [|done].
  eapply executes_after; [done|apply Hf].
Qed.

Lemma store_AppendJournal_quiet e : preserves (@quiet W) (store_AppendJournal e).
Proof.
  intros s. unfold store_AppendJournal, store_write.
  destruct (store_fault (k_world s)) as [[e'|] w]; [done|]. split; [|done]. simpl.
  unfold AppendJournal, transaction. by destruct (insert_row _ _ _ _).
Qed.

Lemma store_AppendAudit_quiet r : preserves (@quiet W) (store_AppendAudit r).
Proof. unfold store_AppendAudit. preserve. Qed.

Lemma appendConformance_quiet lease now :
  preserves (@quiet W) (appendActiveConformanceExpectationAudit lease now).
Proof.
  pose proof store_AppendAudit_quiet. apply with_artifact_or_free; try apply _.
  intros r. preserve.
Qed.

Lemma store_AppendAudit_Ok record s u s' :
  store_AppendAudit record s = (Ok u, s') →
  ∃ r, r ∈ db_audit (k_db s') ∧ au_ID r = au_ID record ∧
    au_PayloadSHA256 r = (if blank (au_PayloadSHA256 record) then SHA256JSON (au_Payload record)
                          else au_PayloadSHA256 record).
Proof.
  unfold store_AppendAudit, wall, store_write. rewrite io_bind_run. cbn [gets].
  destruct (store_fault (k_world s)) as [[e|] w]; [done|]. intros H.
  unfold on_audit, zoom in H. simpl in H.
  destruct (AppendAudit _ record (db_audit (k_db s))) as [[[]|e] t'] eqn:Ha; [|done].
  simpl in H. injection H as _ <-. simpl. by eapply AppendAudit_present.
Qed.

Lemma quiet_no_open_lease key (s s' : KLIQ W) :
  quiet s s' → no_open_lease key (k_db s) → no_open_lease key (k_db s').
Proof. intros [E _]. unfold no_open_lease. by rewrite E. Qed.

Lemma quiet_calls_are Q (s s' : KLIQ W) : quiet s s' → calls_are Q s s'.
Proof. intros [_ E]. by apply calls_are_same. Qed.

Lemma quiet_not_execute {A} (c : io (KLIQ W) A) :
  preserves quiet c → preserves (@calls_are W not_execute) c.
Proof. intros H s. by apply quiet_calls_are. Qed.

Lemma wrapping_Ok {S A} f args (c : io S A) s a s' :
  wrapping f args c s = (Ok a, s') → c s = (Ok a, s').
Proof.
  unfold wrapping. destruct (c s) as [r s1]. simpl. intros [= H <-].
  by apply wrap_err_Ok in H as ->.
Qed.

Lemma activateLease_calls executor lease b now s :
  no_open_lease (lease_dedup lease) (k_db s) →
  executes_once (execute_guarded lease now) s (activateLease executor lease b now s).2.
Proof.
  intros Hno. unfold activateLease.
  assert (Hc1 := preserves_wrapping quiet "local conformance audit write failed; denying runtime action: %w" []
    _ (appendConformance_quiet lease now)).
  apply executes_then_bind; [by apply quiet_not_execute|]. intros u1 s1 E1.
  apply (preserves_run _ _ _ _ _ Hc1) in E1 as Hq1.
  assert (Hc2 := preserves_wrapping quiet "local audit write failed; denying runtime action: %w" [] _
    (store_AppendAudit_quiet (audit lease "runtime action activation authorized" now))).
  apply executes_then_bind; [by apply quiet_not_execute|]. intros u2 s2 E2.
  apply (preserves_run _ _ _ _ _ Hc2) in E2 as Hq2.
  apply wrapping_Ok, store_AppendAudit_Ok in E2 as (r & Hr & Hid & Hsha).
  apply executes_bind_then.
  - exists [], [{| ac_kind := CallExecute; ac_lease := lease; ac_db := k_db s2 |}], [].
    split_and!; [done..|]. right. eexists. split; [done|]. split; simpl; [done..| |].
    + exists r. split_and!; [done..|]. rewrite Hsha. simpl. by destruct (blank _).
    + by eapply quiet_no_open_lease, quiet_no_open_lease.
  - intros [a|e]; [|apply recoverAfterExecuteError_calls].
    unfold store_UpsertLease, store_AppendJournal. preserve.
Qed.
(** ** No open lease stands in the way of an execution *)

Lemma scanLease_id r lease : scanLease r = Ok lease → l_RuntimeActionID lease = l_RuntimeActionID r.
Proof.
  unfold scanLease. intros H. apply bind_Ok in H as (? & _ & H). apply bind_Ok in H as (? & _ & H).
  by apply bind_Ok in H as (? & _ & [= <-]).
Qed.

Lemma scanLease_Err r e : scanLease r = Err e → error_is e ErrNotFound = false.
Proof.
  unfold scanLease, parseTime. intros H.
  repeat case_match; simplify_eq/=; try done; by injection H as <-.
Qed.

Lemma LeaseByDedupKey_not_found db adapterID capabilityID actionType targetScope targetKey e :
  LeaseByDedupKey adapterID capabilityID actionType targetScope targetKey (db_actions db) = Err e →
  error_is e ErrNotFound = true →
  no_open_lease (adapterID, capabilityID, actionType, targetScope, targetKey) db.
Proof.
  unfold LeaseByDedupKey. destruct (List.find _ _) eqn:E; intros H He.
  - apply scanLease_Err in H. congruence.
  - intros r Hr Ho Hk. apply list_elem_of_In in Hr.
    apply (find_none _ _ E), bool_decide_eq_false in Hr. apply Hr.
    unfold dedup_index. by rewrite Ho, Hk.
Qed.

Lemma LeaseByDedupKey_found db adapterID capabilityID actionType targetScope targetKey lease :
  leases_ok (t_leases db) →
  LeaseByDedupKey adapterID capabilityID actionType targetScope targetKey db = Ok lease →
  ∃ row, row ∈ t_leases db ∧ open_status (l_Status row) = true ∧ scanLease row = Ok lease ∧
    l_RuntimeActionID lease = l_RuntimeActionID row ∧
    ∀ r, r ∈ t_leases db → open_status (l_Status r) = true →
      lease_dedup r = (adapterID, capabilityID, actionType, targetScope, targetKey) → r = row.
Proof.
  unfold LeaseByDedupKey. intros Hok H. destruct (List.find _ _) as [row|] eqn:E; [|done].
  apply find_some in E as [Hin Hi]. apply list_elem_of_In in Hin. apply bool_decide_eq_true in Hi.
  exists row. split_and!; [done| |done|by apply scanLease_id|].
  - unfold dedup_index in Hi. by destruct (open_status _).
  - intros r Hr Ho Hk. eapply (unique_index_elem _ _ _ _ _ (leases_dedup _ Hok)); [done|done| |done].
    unfold dedup_index. by rewrite Ho, Hk.
Qed.

(** A lease that has been expired is no longer open. *)
Lemma expire_lease_closed id now t r :
  r ∈ expire_lease id now t → open_status (l_Status r) = true →
  r ∈ t ∧ l_RuntimeActionID r ≠ id.
Proof.
  unfold expire_lease, update_rows. intros (r0 & -> & Hr0)%list_elem_of_fmap.
  unfold has_key. case_bool_decide; simpl; [by vm_compute|by intros _].
Qed.

Lemma expireLease_Ok executor existing now msg s u s' :
  expireLease executor existing now msg s = (Ok u, s') →
  t_leases (db_actions (k_db s')) =
    expire_lease (l_RuntimeActionID existing) (formatTime now) (t_leases (db_actions (k_db s))).
Proof.
  intros H. unfold expireLease in H. apply io_bind_Ok in H as (u1 & s1 & H1 & H).
  assert (E1 : k_db s1 = k_db s) by (apply (f_equal snd) in H1; simpl in H1; by rewrite <- H1).
  apply io_bind_Ok in H as (u2 & s2 & H2 & H).
  apply on_actions_Ok in H2 as (t & [= Ht]%modify_Ok & E2 & _).
  assert (Hq : quiet s2 s').
  { eapply preserves_run, H. apply preserves_bind; [apply _|apply store_AppendJournal_quiet|].
    intros _. apply store_AppendAudit_quiet. }
  by rewrite (proj1 Hq), E2, Ht, E1.
Qed.

Lemma expireLease_no_open executor existing now msg key s u s' :
  (∀ r, r ∈ t_leases (db_actions (k_db s)) → open_status (l_Status r) = true →
     lease_dedup r = key → l_RuntimeActionID r = l_RuntimeActionID existing) →
  expireLease executor existing now msg s = (Ok u, s') → no_open_lease key (k_db s').
Proof.
  intros Hid H%expireLease_Ok r Hr Ho Hk. rewrite H in Hr.
  apply expire_lease_closed in Hr as [Hr Hne]; [|done]. by apply Hne, Hid.
Qed.

Lemma executePlannedAction_calls plan action executor b s :
  leases_ok (t_leases (db_actions (k_db s))) →
  executes_once (λ c, ∃ now, execute_guarded (leaseFromPlannedAction plan action now) now c) s
    (executePlannedAction plan action executor b s).2.
Proof.
  intros Hok. unfold executePlannedAction.
  apply executes_then_bind; [by apply now_free; apply _|]. intros now s1 H1.
  apply (preserves_run unchanged) in H1 as [E1 _]; [|apply now_free; apply _].
  apply executes_then_bind; [by apply ensureActiveFallbackAllowsExecution_free; apply _|].
  intros u s2 H2.
  apply (preserves_run unchanged) in H2 as [E2 _]; [|by apply ensureActiveFallbackAllowsExecution_free; apply _].
  apply executes_then_bind; [by apply preserves_attempt, store_read_free; apply _|].
  intros r s3 H3%attempt_run. apply store_read_run in H3 as (E3 & _ & Hr).
  assert (E : k_db s3 = k_db s) by congruence. assert (E' : k_db s2 = k_db s) by congruence.
  rewrite E' in Hr. destruct r as [existing|e].
  - destruct Hr as [Hr|(? & ? & _)]; [|done].
    apply LeaseByDedupKey_found in Hr as (row & Hin & Ho & _ & Hid & Hu); [|done].
    destruct (Before now (l_ExpiresAt existing)).
    + apply executes_none, preserves_bind; [apply _| |intros _; apply preserves_ret, _].
      apply preserves_ignore, quiet_not_execute, store_AppendJournal_quiet.
    + apply executes_then_bind; [apply expireLease_calls|]. intros u' s4 H4.
      eapply executes_weaken; [|eapply activateLease_calls, expireLease_no_open, H4].
      { intros c Hc. by exists now. }
      rewrite E. intros r Hr' Hop Hk. rewrite Hid. f_equal. by apply Hu.
  - destruct (error_is e ErrNotFound) eqn:He; [|by apply executes_none, preserves_fail; apply _].
    eapply executes_weaken; [|eapply activateLease_calls].
    { intros c Hc. by exists now. }
    rewrite E. eapply LeaseByDedupKey_not_found; [|exact He].
    destruct Hr as [Hr|(e' & [= ->] & He')]; [exact Hr|congruence].
Qed.
(** A call to execute an action that the verified bundle [b] allows: the lease
    is the one made from the planned action, it ends within the bundle's maximum
    TTL, its authorization is in the audit spool, and it is the only one on its
    target. *)
Definition authorized_call m (req : ExecuteRequest) (b : RuntimeBundle) (c : adapter_call) : Prop :=
  ∃ plan a planned now maxTTL,
    plan_BundleID plan = art_ID (rb_Metadata b) ∧
    plan_DecisionID plan = trim_space (req_DecisionID req) ∧
    plan_Actions plan = [a] ∧ action_within req b planned a ∧ pa_Mode a = ActionModeRequired ∧
    is_Some (executorFor m (pa_AdapterID a)) ∧
    execute_guarded (leaseFromPlannedAction plan a now) now c ∧
    ParseDuration (rbs_MaxTTL (rb_Spec b)) = Some maxTTL ∧
    now < l_ExpiresAt (ac_lease c) ≤ now + maxTTL.

Lemma ExecutePlan_calls m plan b s :
  leases_ok (t_leases (db_actions (k_db s))) →
  executes_once (λ c, ∃ a now, plan_Actions plan = [a] ∧ pa_Mode a = ActionModeRequired ∧
      is_Some (executorFor m (pa_AdapterID a)) ∧
      execute_guarded (leaseFromPlannedAction plan a now) now c) s
    (ExecutePlan m plan b s).2.
Proof.
  intros Hok. unfold ExecutePlan.
  assert (Hf : ∀ Q e, executes_once Q s (fail (A:=ExecuteResult) e s).2)
    by (intros; apply executes_none, preserves_fail, _).
  destruct (negb _); [apply Hf|]. destruct (plan_Actions plan) as [|a [|? ?]]; [apply Hf| |apply Hf].
  apply executes_then_bind; [by apply preserves_lift, _|]. intros u s1 [_ ->]%lift_Ok.
  destruct (_ || _) eqn:Hm; [apply Hf|]. apply orb_false_iff in Hm as [Hm _]. str_eqs.
  destruct (executorFor m (pa_AdapterID a)) as [executor|] eqn:Hx; [|apply Hf].
  apply executes_bind_then.
  - eapply executes_weaken; [|by apply executePlannedAction_calls].
    intros c (now & Hc). exists a, now. by eauto.
  - intros res. unfold store_AppendRuntimeDecision. preserve.
Qed.

(** Running an action makes at most one call to execute something, and only an
    authorized one. *)
Lemma ExecuteAction_calls m req s :
  leases_ok (t_leases (db_actions (k_db s))) →
  executes_once (λ c, ∃ (record : BundleRecord) w verified w',
      VerifySignedRuntimeBundle (bun_EnvelopeJSON record) (m_Verifier m) w = (Ok verified, w') ∧
      authorized_call m req (rbv_Bundle verified) c) s
    (ExecuteAction m req s).2.
Proof.
  intros Hok. unfold ExecuteAction.
  apply executes_then_bind; [by apply planFromRequest_free; apply _|].
  intros [plan signed] s1 H1.
  assert (E1 : k_db s1 = k_db s).
  { eapply (preserves_run unchanged) in H1; [apply H1|by apply planFromRequest_free; apply _]. }
  apply planFromRequest_within_bundle in H1
    as (verified & record & w & w' & planned & Hv & _ & Hb & _ & _ & Hd & _ & Ha).
  assert (Hn : ∀ Q, executes_once Q s1 ((
    now ← now; _ ← store_AppendRuntimeDecision (noActionRuntimeDecisionRecord plan now);
    mret {| er_Plan := plan; er_Results := [] |}) s1).2).
  { intros Q. apply executes_none. unfold store_AppendRuntimeDecision.
    match goal with |- calls_are _ _ (?c _).2 => enough (preserves (calls_are not_execute) c) end;
      [done|]. preserve. }
  destruct Ha as [->|(a & Ha & Hw)]; [apply Hn|].
  rewrite Ha. eapply executes_weaken; [|apply ExecutePlan_calls; by rewrite E1].
  intros c (a' & now & Ha' & Hmode & Hx & Hc). assert (a' = a) as -> by congruence.
  exists record, w, verified, w'. split; [done|].
  pose proof Hw as (grant & ttl & mx & _ & _ & Ht & Hm & Hpos & _).
  exists plan, a, planned, now, mx. split_and!; try done;
    rewrite (guarded_lease _ _ _ Hc); simpl; rewrite Ht; lia.
Qed.
Definition is_execute (c : adapter_call) : bool :=
  match ac_kind c with CallExecute => true | _ => false end.

Lemma not_execute_filter l : Forall not_execute l → List.filter is_execute l = [].
Proof.
  induction 1 as [|c l Hc _ IH]; simpl; [done|]. rewrite IH. unfold is_execute, not_execute in *.
  by destruct (ac_kind c).
Qed.

Lemma executes_once_count Q s s' :
  executes_once Q s s' →
  ∃ new, k_calls s' = k_calls s ++ new ∧ (length (List.filter is_execute new) ≤ 1)%nat ∧
    ∀ c, c ∈ new → is_execute c = true → Q c.
Proof.
  intros (b & mid & a & E & Fb & Fa & Hm). exists (b ++ mid ++ a). split; [done|]. split.
  - rewrite !List.filter_app, (not_execute_filter _ Fb), (not_execute_filter _ Fa), app_nil_r.
    destruct Hm as [->|(c & -> & _)]; simpl; [lia|]. destruct (is_execute c); simpl; lia.
  - intros c Hc He. rewrite !elem_of_app in Hc. rewrite Forall_forall in Fb, Fa.
    assert (¬ not_execute c) as Hn.
    { unfold is_execute, not_execute in *. destruct (ac_kind c); [by intros H; apply H|done..]. }
    destruct Hc as [Hc|[Hc|Hc]]; [by destruct (Hn (Fb c Hc))| |by destruct (Hn (Fa c Hc))].
    destruct Hm as [->|(c' & -> & Hq)]; [set_solver|]. by apply list_elem_of_singleton in Hc as ->.
Qed.

(** C7. The runtime is fail closed: whatever is asked and whatever the adapters,
    clocks and disk do, running an action makes at most one call to execute
    something, and only when a bundle verified with the manager's key allows
    this action, target and TTL, its authorization is already in the audit
    spool, and no open lease holds the target. *)
Theorem ExecuteAction_fail_closed m req s :
  leases_ok (t_leases (db_actions (k_db s))) →
  ∃ new, k_calls (ExecuteAction m req s).2 = k_calls s ++ new ∧
    (length (List.filter is_execute new) ≤ 1)%nat ∧
    ∀ c, c ∈ new → is_execute c = true →
      ∃ (record : BundleRecord) w verified w' plan a planned now maxTTL,
        VerifySignedRuntimeBundle (bun_EnvelopeJSON record) (m_Verifier m) w = (Ok verified, w') ∧
        action_within req (rbv_Bundle verified) planned a ∧ pa_Mode a = ActionModeRequired ∧
        is_Some (executorFor m (pa_AdapterID a)) ∧
        ac_lease c = leaseFromPlannedAction plan a now ∧
        ParseDuration (rbs_MaxTTL (rb_Spec (rbv_Bundle verified))) = Some maxTTL ∧
        now < l_ExpiresAt (ac_lease c) ≤ now + maxTTL ∧
        audited (ac_lease c) now (ac_db c) ∧
        no_open_lease (lease_dedup (ac_lease c)) (ac_db c).
Proof.
  intros Hok. destruct (executes_once_count _ _ _ (ExecuteAction_calls m req s Hok))
    as (new & E & Hn & Hq). exists new. split_and!; [done..|]. intros c Hc He.
  destruct (Hq c Hc He) as (record & w & verified & w' & Hv & plan & a & planned & now & mx & H).
  destruct H as (_ & _ & _ & Hw & Hmode & Hx & [_ Hl Ha Hno] & Hm & Ht).
  exists record, w, verified, w', plan, a, planned, now, mx. rewrite Hl in Ht |- *. done.
Qed.

(** An open lease that has not expired stands for its target: a planned action
    on it reaches no adapter and changes no lease, and where it is not refused
    its answer is the lease that is there, not applied again and not extended. *)
Theorem open_lease_deduplicates plan action executor b s row existing :
  leases_ok (t_leases (db_actions (k_db s))) →
  row ∈ t_leases (db_actions (k_db s)) → open_status (l_Status row) = true →
  lease_dedup row = (pa_AdapterID action, pa_CapabilityID action, pa_ActionType action,
                     pa_TargetScope action, pa_TargetKey action) →
  scanLease row = Ok existing → (now_of (k_world s)).1 < l_ExpiresAt existing →
  quiet s (executePlannedAction plan action executor b s).2 ∧
  ∀ res s', executePlannedAction plan action executor b s = (Ok res, s') →
    xres_Lease res = existing ∧ xres_Applied res = false.
Proof.
  intros Hok Hrow Ho Hk Hscan Hnow. unfold executePlannedAction, now.
  rewrite io_bind_run. destruct (now_of (k_world s)) as [now w]. simpl in Hnow.
  rewrite io_bind_run.
  destruct (ensureActiveFallbackAllowsExecution _) as [[u|e] s2] eqn:H2;
    (eapply (preserves_run unchanged) in H2 as [E2 C2];
      [|by apply ensureActiveFallbackAllowsExecution_free; apply _]).
  2:{ split; [|done]. split; simpl; [by rewrite E2|done]. }
  rewrite io_bind_run. unfold attempt.
  destruct (store_read _ s2) as [r s3] eqn:H3. apply store_read_run in H3 as (E3 & C3 & Hr).
  assert (Hq : quiet s s3) by (split; simpl; [by rewrite E3, E2|by rewrite C3, C2]).
  simpl. destruct r as [lease|e].
  - destruct Hr as [Hr|(? & ? & _)]; [|done]. rewrite E2 in Hr.
    apply LeaseByDedupKey_found in Hr as (row' & _ & _ & Hscan' & _ & Hu); [|done].
    assert (row' = row) as -> by (symmetry; by apply Hu).
    assert (lease = existing) as -> by congruence.
    unfold Before. rewrite (proj2 (Z.ltb_lt _ _) Hnow), io_bind_run. simpl.
    split; [|by intros res s' [-> _]%mret_Ok].
    etrans; [exact Hq|]. apply store_AppendJournal_quiet.
  - assert (error_is e ErrNotFound = false) as ->; [|done].
    destruct Hr as [Hr|(e' & [= ->] & He')]; [|done]. rewrite E2 in Hr.
    destruct (error_is e ErrNotFound) eqn:He; [|done].
    by destruct (LeaseByDedupKey_not_found _ _ _ _ _ _ _ Hr He row Hrow Ho).
Qed.

(** What a lease becomes when its recording succeeds: a new row, or, when the
    decision was executed before, the row it had, with the new status and
    reconciliation time only. *)
Definition recorded_row lease (t : list RuntimeActionLeaseRow) : RuntimeActionLeaseRow :=
  match select_key l_RuntimeActionID (l_RuntimeActionID lease) t with
  | Some o => lease_set (l_Status lease) (formatTime (l_LastReconciledAt lease)) o
  | None => lease_row lease
  end.

Lemma store_UpsertLease_Ok lease s u s' :
  store_UpsertLease lease s = (Ok u, s') →
  recorded_row lease (t_leases (db_actions (k_db s))) ∈ t_leases (db_actions (k_db s')).
Proof.
  intros (t & Ht & -> & _)%on_actions_Ok. unfold UpsertLease in Ht.
  apply transaction_Ok, bind_Ok in Ht as ([] & _ & (rows & Hups & [= _ <-])%bind_Ok). simpl.
  unfold recorded_row.
  apply upsert_lease_Ok in Hups as [(o & Hs & _ & ->)|(Hf & _ & _ & ->)].
  - change (l_RuntimeActionID (lease_row lease)) with (l_RuntimeActionID lease) in *. rewrite Hs.
    apply select_key_Some in Hs as [Hin Hk]. apply list_elem_of_fmap. exists o. split; [|done].
    unfold has_key. by rewrite bool_decide_eq_true_2.
  - rewrite (proj2 (select_key_None _ _ _) Hf). set_solver.
Qed.
Lemma recorded_row_expired lease id now t :
  recorded_row lease (expire_lease id now t) = recorded_row lease t.
Proof.
  unfold recorded_row, expire_lease. rewrite select_update_rows by done.
  destruct (select_key _ _ t) as [o|]; [|done]. simpl. by destruct (has_key _ id o).
Qed.

(** The adapter's answer: it said the action is active, or expired. *)
Definition adapter_confirms executor lease (b : string) (status : RuntimeActionStatus) : Prop :=
  (status = RuntimeActionActive ∧ ∃ w u w', Execute executor lease b w = (Ok u, w')) ∨
  (∃ state w w', State executor = Some state ∧ state lease w = (Ok status, w')).

Lemma recordRecovered_Ok lease now ev msg applied s res s' :
  recordRecovered lease now ev msg applied s = (Ok res, s') →
  xres_Lease res = lease ∧ xres_Applied res = applied ∧
  recorded_row lease (t_leases (db_actions (k_db s))) ∈ t_leases (db_actions (k_db s')).
Proof.
  unfold recordRecovered. intros H.
  apply io_bind_Ok in H as (? & s1 & H1%store_UpsertLease_Ok & H).
  apply io_bind_Ok in H as (? & s2 & H2%(preserves_run quiet) & H); [|apply store_AppendJournal_quiet].
  apply io_bind_Ok in H as (? & s3 & H3%(preserves_run quiet) & H); [|apply store_AppendAudit_quiet].
  apply mret_Ok in H as [-> ->]. split_and!; [done..|]. by rewrite (proj1 H3), (proj1 H2).
Qed.

Lemma adapter_run {A} kind lease (c : io W A) s :
  ∃ w, (adapter kind lease c s).1 = (c (k_world s)).1 ∧
       t_leases (db_actions (k_db (adapter kind lease c s).2)) = t_leases (db_actions (k_db s)) ∧
       c (k_world s) = ((c (k_world s)).1, w).
Proof. exists (c (k_world s)).2. split_and!; [done..|apply surjective_pairing]. Qed.

(** When the adapter's answer to an execution is lost, the action is reported as
    applied only if the adapter, asked for its state, says it is active. *)
Lemma recoverAfterExecuteError_Ok executor lease b now err s res s' :
  recoverAfterExecuteError executor lease now err s = (Ok res, s') →
  ∃ status reconciled, adapter_confirms executor lease b status ∧
    xres_Lease res = lease_set status reconciled lease ∧
    (status = RuntimeActionActive ∧ xres_Applied res = true ∧ reconciled = l_LastReconciledAt lease ∨
     status = RuntimeActionExpired ∧ xres_Applied res = false) ∧
    recorded_row (xres_Lease res) (t_leases (db_actions (k_db s))) ∈
      t_leases (db_actions (k_db s')).
Proof.
  assert (Hf : ∀ ev msg s0, recordFailedExecute lease now ev msg err s0 = (Ok res, s') → False).
  { intros ev msg s0 H. unfold recordFailedExecute in H. by run H. }
  unfold recoverAfterExecuteError. intros H.
  destruct (State executor) as [state|] eqn:Hst; [|by apply Hf in H].
  apply io_bind_Ok in H as (r & s1 & H1%attempt_run & H).
  destruct (adapter_run CallState lease (state lease) s) as (w & E1 & E2 & E3).
  rewrite H1 in E1, E2. simpl in E1, E2. rewrite <- E1 in E3.
  destruct r as [status|e]; [|by apply Hf in H].
  destruct (String.eqb_spec status RuntimeActionActive) as [->|_].
  { apply recordRecovered_Ok in H as (Hl & Ha & Hr). rewrite E2 in Hr.
    exists RuntimeActionActive, (l_LastReconciledAt lease). rewrite Hl.
    split_and!; [right; eauto|done|by left|done]. }
  destruct (String.eqb_spec status RuntimeActionExpired) as [->|_].
  { apply recordRecovered_Ok in H as (Hl & Ha & Hr). rewrite E2 in Hr.
    exists RuntimeActionExpired, now. rewrite Hl.
    split_and!; [right; eauto|done|by right|done]. }
  by destruct (_ || _); apply Hf in H.
Qed.

Lemma activateLease_Ok executor lease b now s res s' :
  activateLease executor lease b now s = (Ok res, s') → l_Status lease = RuntimeActionActive →
  ∃ status reconciled, adapter_confirms executor lease b status ∧
    xres_Lease res = lease_set status reconciled lease ∧
    (status = RuntimeActionActive ∧ xres_Applied res = true ∧ reconciled = l_LastReconciledAt lease ∨
     status = RuntimeActionExpired ∧ xres_Applied res = false) ∧
    recorded_row (xres_Lease res) (t_leases (db_actions (k_db s))) ∈
      t_leases (db_actions (k_db s')).
Proof.
  unfold activateLease. intros H Hst.
  apply io_bind_Ok in H as (? & s1 & H1%(preserves_run quiet) & H);
    [|apply preserves_wrapping, appendConformance_quiet].
  apply io_bind_Ok in H as (? & s2 & H2%(preserves_run quiet) & H);
    [|apply preserves_wrapping, store_AppendAudit_quiet].
  apply io_bind_Ok in H as (r & s3 & H3%attempt_run & H).
  destruct (adapter_run CallExecute lease (Execute executor lease b) s2) as (w & E1 & E2 & E3).
  rewrite H3 in E1, E2. simpl in E1, E2. rewrite <- E1 in E3.
  assert (E : t_leases (db_actions (k_db s3)) = t_leases (db_actions (k_db s)))
    by (rewrite E2, (proj1 H2); apply H1).
  destruct r as [u|e].
  - apply io_bind_Ok in H as (? & s4 & H4%store_UpsertLease_Ok & H).
    apply io_bind_Ok in H as (? & s5 & H5%(preserves_run quiet) & H);
      [|apply store_AppendJournal_quiet].
    apply mret_Ok in H as [-> ->]. exists RuntimeActionActive, (l_LastReconciledAt lease).
    split_and!; [left; eauto| |by left|by rewrite (proj1 H5), <- E].
    simpl. rewrite <- Hst. by destruct lease.
  - rewrite <- E. by eapply recoverAfterExecuteError_Ok.
Qed.
(** The target of a planned action, as the unique index of open leases has it. *)
Definition targets (action : PlannedRuntimeAction) (row : RuntimeActionLeaseRow) : Prop :=
  l_AdapterID row = pa_AdapterID action ∧ l_CapabilityID row = pa_CapabilityID action ∧
  l_ActionType row = pa_ActionType action ∧ l_TargetScope row = pa_TargetScope action ∧
  l_TargetKey row = pa_TargetKey action.

(** An open lease on the target that has not expired at [t]. *)
Definition stands (action : PlannedRuntimeAction) (t : time) (row : RuntimeActionLeaseRow) (lease : RuntimeActionLease) : Prop :=
  open_status (l_Status row) = true ∧ targets action row ∧ scanLease row = Ok lease ∧ t < l_ExpiresAt lease.

Lemma targets_dedup action (row : RuntimeActionLeaseRow) :
  targets action row ↔ lease_dedup row =
    (pa_AdapterID action, pa_CapabilityID action, pa_ActionType action, pa_TargetScope action, pa_TargetKey action).
Proof. unfold targets, lease_dedup. split; [by intros (-> & -> & -> & -> & ->)|by intros [= -> -> -> -> ->]]. Qed.

Lemma now_run (s : KLIQ W) t s' : now s = (Ok t, s') → t = (now_of (k_world s)).1.
Proof. unfold now. destruct (now_of (k_world s)) as [u w]. by intros [= <- _]. Qed.

(** The lease that the look-up answers is on the target, and the only open one there. *)
Lemma LeaseByDedupKey_target db action lease :
  leases_ok (t_leases db) →
  LeaseByDedupKey (pa_AdapterID action) (pa_CapabilityID action) (pa_ActionType action) (pa_TargetScope action)
    (pa_TargetKey action) db = Ok lease →
  ∃ row, row ∈ t_leases db ∧ open_status (l_Status row) = true ∧ targets action row ∧ scanLease row = Ok lease ∧
    ∀ r, r ∈ t_leases db → open_status (l_Status r) = true → targets action r → r = row.
Proof.
  intros Hok H. pose proof (LeaseByDedupKey_unique (pa_AdapterID action) (pa_CapabilityID action) (pa_ActionType action)
    (pa_TargetScope action) (pa_TargetKey action) db Hok) as Hu. cbv zeta in Hu.
  destruct (List.find _ _) as [row|] eqn:E; destruct Hu as [Hq Hu]; [|congruence].
  apply find_some in E as [Hin _]. apply list_elem_of_In in Hin. destruct (proj2 (Hu row Hin) eq_refl) as [Ho Hk].
  exists row. split_and!; [done..|by apply targets_dedup|congruence|].
  intros r Hr Hor Ht%targets_dedup. by apply Hu.
Qed.

Lemma LeaseByDedupKey_none db action e :
  leases_ok (t_leases db) →
  LeaseByDedupKey (pa_AdapterID action) (pa_CapabilityID action) (pa_ActionType action) (pa_TargetScope action)
    (pa_TargetKey action) db = Err e → error_is e ErrNotFound = true →
  ∀ t row lease, row ∈ t_leases db → ¬ stands action t row lease.
Proof.
  intros Hok H He t row lease Hin (Ho & Ht%targets_dedup & Hs & _).
  pose proof (LeaseByDedupKey_unique (pa_AdapterID action) (pa_CapabilityID action) (pa_ActionType action)
    (pa_TargetScope action) (pa_TargetKey action) db Hok) as Hu. cbv zeta in Hu.
  destruct (List.find _ _) as [r|]; destruct Hu as [Hq Hu]; [|by eapply Hu].
  assert (row = r) as -> by (apply Hu; done). congruence.
Qed.

(** C24. A planned action that succeeds was either already standing: at the time that is
    read, an open lease on the same adapter, capability, action type and target had not
    expired, and it is returned as it is, with nothing applied or changed; or nothing stood
    there, and the adapter confirmed the action: its answer, or its state read back when the
    answer was lost, is active (the action is applied) or expired (it is not), and the
    lease with that status is in the store. *)
Theorem executePlannedAction_outcome plan action executor b s res s' :
  leases_ok (t_leases (db_actions (k_db s))) →
  executePlannedAction plan action executor b s = (Ok res, s') →
  let now := (now_of (k_world s)).1 in
  (∃ row, row ∈ t_leases (db_actions (k_db s)) ∧ stands action now row (xres_Lease res) ∧
     xres_Applied res = false ∧ quiet s s') ∨
  (∀ row lease, row ∈ t_leases (db_actions (k_db s)) → ¬ stands action now row lease) ∧
  (∃ status reconciled,
     let lease := leaseFromPlannedAction plan action now in
     adapter_confirms executor lease b status ∧
     xres_Lease res = lease_set status reconciled lease ∧
     (status = RuntimeActionActive ∧ xres_Applied res = true ∧ reconciled = now ∨
      status = RuntimeActionExpired ∧ xres_Applied res = false) ∧
     recorded_row (xres_Lease res) (t_leases (db_actions (k_db s))) ∈
       t_leases (db_actions (k_db s'))).
Proof.
  intros Hok H. unfold executePlannedAction in H.
  apply io_bind_Ok in H as (now & s1 & H1 & H). apply now_run in H1 as Ht. cbv zeta. rewrite <- Ht.
  apply (preserves_run unchanged) in H1 as [E1 C1]; [|apply now_free; apply _].
  apply io_bind_Ok in H as (u & s2 & H2 & H).
  apply (preserves_run unchanged) in H2 as [E2 C2];
    [|by apply ensureActiveFallbackAllowsExecution_free; apply _].
  apply io_bind_Ok in H as (r & s3 & H3%attempt_run & H).
  apply store_read_run in H3 as (E3 & C3 & Hr).
  assert (E' : k_db s2 = k_db s) by congruence. rewrite E' in Hr.
  assert (E : k_db s3 = k_db s) by congruence. assert (C : k_calls s3 = k_calls s) by congruence.
  destruct r as [existing|e].
  - destruct Hr as [Hr|(? & ? & _)]; [|done].
    apply LeaseByDedupKey_target in Hr as (row & Hin & Ho & Htar & Hscan & Honly); [|done].
    destruct (Before now (l_ExpiresAt existing)) eqn:Hb.
    + left. apply io_bind_Ok in H as (? & s4 & H4 & H). apply mret_Ok in H as [-> ->].
      exists row. split_and!; [done| |done|].
      { split_and!; [done..|]. by apply Z.ltb_lt in Hb. }
      trans s3; [by split; rewrite ?E, ?C|].
      eapply preserves_run; [|exact H4]. apply preserves_ignore, store_AppendJournal_quiet.
    + right. split.
      { intros row' lease Hin' (Ho' & Htar' & Hscan' & Hlt). assert (row' = row) as -> by by apply Honly.
        apply Z.ltb_ge in Hb. assert (lease = existing) as -> by congruence. lia. }
      apply io_bind_Ok in H as (? & s4 & H4%expireLease_Ok & H).
      apply activateLease_Ok in H as (st & rc & Hc & Hl & Hs & Hrow); [|done].
      rewrite H4, E, recorded_row_expired in Hrow. exists st, rc. by split_and!.
  - destruct (error_is e ErrNotFound) eqn:He; [|by apply fail_Ok in H].
    destruct Hr as [Hr|(? & [= <-] & Hf)]; [|congruence].
    right. split; [intros row lease; by eapply LeaseByDedupKey_none|].
    apply activateLease_Ok in H as (st & rc & Hc & Hl & Hs & Hrow); [|done].
    rewrite E in Hrow. exists st, rc. by split_and!.
Qed.
End calls.
