(* ===== verification/ManagerReconcile.v ===== *)
(** * Reconciliation ([internal/kliq/runtime/manager.go])

    After a restart the open leases are walked, adapter by adapter: an expired
    one is cleaned up, the state of the others is read back; what cannot be
    read is marked unknown.  Errors become findings: the walk goes on. *)

From stdpp Require Import options.
From stdpp Require Import gmap strings.
From S2P Require Import Prelude IO Table GoStrings GoTime GoDuration GoJson Risk Signing Domain.
From S2P Require Import Artifacts BundleSource StateTypes SqliteLeases SqliteAudit.
From S2P Require Import SqliteAssignments SqliteBaseline Store Plan ManagerArtifacts ManagerPlan.
From S2P Require Import ManagerExec.
#[local] Open Scope Z_scope.

Record AdapterReconcileResult := {
  arr_AdapterID : string;
  arr_Expired : Z;
  arr_Active : Z;
  arr_Unknown : Z;
  arr_Findings : list string;
}.

Record ReconcileResult := {
  rec_Expired : Z;
  rec_Active : Z;
  rec_Unknown : Z;
  rec_Findings : list string;
  rec_AdapterResults : gmap string AdapterReconcileResult;
}.

Definition zero_AdapterReconcileResult (adapterID : string) : AdapterReconcileResult :=
  {| arr_AdapterID := adapterID; arr_Expired := 0; arr_Active := 0; arr_Unknown := 0;
     arr_Findings := [] |}.
Definition zero_ReconcileResult : ReconcileResult :=
  {| rec_Expired := 0; rec_Active := 0; rec_Unknown := 0; rec_Findings := [];
     rec_AdapterResults := ∅ |}.

Definition add_finding (message : string) (r : ReconcileResult) : ReconcileResult :=
  {| rec_Expired := rec_Expired r; rec_Active := rec_Active r; rec_Unknown := rec_Unknown r;
     rec_Findings := rec_Findings r ++ [message]; rec_AdapterResults := rec_AdapterResults r |}.

(** The counters and findings of the whole run and of the adapter move together. *)
Definition tally : Type := ReconcileResult * AdapterReconcileResult.

Definition count (expired active unknown : Z) (findings : list string) (acc : tally) : tally :=
  let '(r, a) := acc in
  ({| rec_Expired := rec_Expired r + expired; rec_Active := rec_Active r + active;
      rec_Unknown := rec_Unknown r + unknown; rec_Findings := rec_Findings r ++ findings;
      rec_AdapterResults := rec_AdapterResults r |},
   {| arr_AdapterID := arr_AdapterID a; arr_Expired := arr_Expired a + expired;
      arr_Active := arr_Active a + active; arr_Unknown := arr_Unknown a + unknown;
      arr_Findings := arr_Findings a ++ findings |}).

(** [result.AdapterResults[adapterID] = adapterResult] *)
Definition set_adapter_result (adapterID : string) (acc : tally) : ReconcileResult :=
  let '(r, a) := acc in
  {| rec_Expired := rec_Expired r; rec_Active := rec_Active r; rec_Unknown := rec_Unknown r;
     rec_Findings := rec_Findings r;
     rec_AdapterResults := <[adapterID := a]> (rec_AdapterResults r) |}.

Definition add_to_group (grouped : gmap string (list RuntimeActionLease))
    (lease : RuntimeActionLease) : gmap string (list RuntimeActionLease) :=
  <[l_AdapterID lease := default [] (grouped !! l_AdapterID lease) ++ [lease]]> grouped.

Definition groupLeasesByAdapter (leases : list RuntimeActionLease)
    : gmap string (list RuntimeActionLease) :=
  foldl add_to_group ∅ leases.

(** The keys of the map, collected and sorted: the order of collection is lost. *)
Definition sorted_adapters (grouped : gmap string (list RuntimeActionLease)) : list string :=
  sort_by str_leb (map_to_list grouped).*1.

Definition group_of (adapterID : string) (grouped : gmap string (list RuntimeActionLease))
    : list RuntimeActionLease :=
  default [] (grouped !! adapterID).

Section reconcile.
Context {GR : GoRuntime} {ED : Ed25519} {JD : JSONDecoders} {KD : KeyDecoders} {SC : StateCodecs}.
Context {W : Type} {KW : KLIQWorld W}.
Implicit Types (m : Manager W) (executor : RuntimeExecutor W) (lease : RuntimeActionLease).

(** A lease whose state is not known, and why. *)
Definition unknown_lease lease (now : time) (message : string) (acc : tally)
    : io (KLIQ W) tally :=
  _ ← ignore (markLeaseUnknown lease now message);
  mret (count 0 0 1 [message] acc).

Definition reconcileActiveLease executor lease (now : time) (acc : tally) : io (KLIQ W) tally :=
  match State executor with
  | None =>
    _ ← ignore (store_UpsertLease (lease_set (l_Status lease) now lease));
    mret (count 0 1 0 [] acc)
  | Some state =>
    r ← attempt (adapter CallState lease (state lease));
    match r with
    | Err err =>
      unknown_lease lease now ("failed to read runtime action state " +:+
        l_RuntimeActionID lease +:+ ": " +:+ error_text err) acc
    | Ok status =>
      if status ==s RuntimeActionActive then
        _ ← ignore (store_UpsertLease (lease_set RuntimeActionActive now lease));
        mret (count 0 1 0 [] acc)
      else if status ==s RuntimeActionExpired then
        _ ← ignore (store_ExpireLease (l_RuntimeActionID lease) now);
        _ ← ignore (store_AppendJournal (journal (l_RuntimeActionID lease)
              "adapter_readback_expired" RuntimeActionExpired
              "adapter readback reported expired action" now));
        _ ← ignore (store_AppendAudit (audit (lease_set RuntimeActionExpired now lease)
              "adapter readback reported expired action" now));
        mret (count 1 0 0 [] acc)
      else
        unknown_lease lease now ("adapter readback returned unknown runtime action state for " +:+
          l_RuntimeActionID lease) acc
    end
  end.

(** The body of the loop over the leases of one adapter. *)
Definition reconcile_lease executor (now : time) (acc : tally) lease : io (KLIQ W) tally :=
  if Before now (l_ExpiresAt lease) then reconcileActiveLease executor lease now acc else
  r ← attempt (expireLease executor lease now "ttl expired during restart reconciliation");
  match r with
  | Err err =>
    mret (count 0 0 0 ["failed to cleanup expired runtime action " +:+
      l_RuntimeActionID lease +:+ ": " +:+ error_text err] acc)
  | Ok _ => mret (count 1 0 0 [] acc)
  end.

Definition unregistered (adapterID : string) lease : string :=
  error_text (Errorf "runtime adapter %q is not registered for lease %s"
    [AStr adapterID; AStr (l_RuntimeActionID lease)]).

(** The body of the loop over the adapters. *)
Definition reconcile_adapter m (now : time) (grouped : gmap string (list RuntimeActionLease))
    (result : ReconcileResult) (adapterID : string) : io (KLIQ W) ReconcileResult :=
  let acc := (result, zero_AdapterReconcileResult adapterID) in
  acc ← match executorFor m adapterID with
        | None =>
          io_fold (λ acc lease, unknown_lease lease now (unregistered adapterID lease) acc) acc
            (group_of adapterID grouped)
        | Some executor =>
          io_fold (reconcile_lease executor now) acc (group_of adapterID grouped)
        end;
  mret (set_adapter_result adapterID acc).

Definition Reconcile m : io (KLIQ W) ReconcileResult :=
  deny negb (m_Store m) with no_store;;
  cached ← attempt (CachedBundle m);
  let '(degraded, result) :=
    match cached with
    | Ok _ => (false, zero_ReconcileResult)
    | Err err => (true, add_finding ("cached runtime bundle unavailable or invalid: " +:+
                          error_text err) zero_ReconcileResult)
    end in
  now ← now;
  leases ← store_read (λ db, ActiveLeases (db_actions db));
  let grouped := groupLeasesByAdapter leases in
  result ← io_fold (reconcile_adapter m now grouped) result (sorted_adapters grouped);
  if 0 <? rec_Expired result then
    let result := add_finding "expired runtime action leases were cleaned up" result in
    mret (if (degraded : bool)
          then add_finding "cleanup executed with degraded bundle authority" result else result)
  else mret result.

(** ** The dry run *)

Definition dry_run_lease (now : time) (acc : tally) lease : tally :=
  if negb (Selector_Valid (Selector lease)) then
    count 0 0 1 ["runtime action lease " +:+ l_RuntimeActionID lease +:+
                 " has incomplete selector"] acc
  else if Before now (l_ExpiresAt lease) then count 0 1 0 [] acc
  else count 1 0 0 [] acc.

Definition dry_run_adapter (now : time) (grouped : gmap string (list RuntimeActionLease))
    (result : ReconcileResult) (adapterID : string) : ReconcileResult :=
  set_adapter_result adapterID
    (foldl (dry_run_lease now) (result, zero_AdapterReconcileResult adapterID)
       (group_of adapterID grouped)).

Definition ReconcileDryRun m : io (KLIQ W) ReconcileResult :=
  deny negb (m_Store m) with no_store;;
  cached ← attempt (store_read (λ db, LastBundle (db_assign db)));
  let result :=
    match cached with
    | Ok _ => zero_ReconcileResult
    | Err err => add_finding ("cached runtime bundle unavailable: " +:+ error_text err)
                   zero_ReconcileResult
    end in
  now ← now;
  leases ← store_read (λ db, ActiveLeases (db_actions db));
  let grouped := groupLeasesByAdapter leases in
  let result := foldl (dry_run_adapter now grouped) result (sorted_adapters grouped) in
  mret (if 0 <? rec_Expired result
        then add_finding "expired runtime action leases would be cleaned up" result
        else result).
End reconcile.
