(* ===== verification/ManagerReconcileProofs.v ===== *)
(** * Reconciliation: what is guaranteed

    Every open lease is accounted for once, nothing is executed, and no lease
    is closed unless its adapter said it is gone. *)

From stdpp Require Import options.
From stdpp Require Import gmap strings.
From S2P Require Import Prelude IO Table GoStrings GoTime GoDuration GoJson Risk Signing Domain.
From S2P Require Import Artifacts BundleSource StateTypes SqliteLeases SqliteAudit.
From S2P Require Import SqliteAssignments SqliteBaseline Store Plan ManagerArtifacts ManagerPlan.
From S2P Require Import ManagerExec ManagerExecProofs ManagerReconcile.
#[local] Open Scope Z_scope.

(** ** Groups *)

(** The leases of one adapter, in order. *)
Definition of_adapter (adapterID : string) (leases : list RuntimeActionLease)
    : list RuntimeActionLease :=
  List.filter (λ l, l_AdapterID l ==s adapterID) leases.

Lemma group_of_add grouped lease a :
  group_of a (add_to_group grouped lease) =
    group_of a grouped ++ (if l_AdapterID lease ==s a then [lease] else []).
Proof.
  unfold group_of, add_to_group. destruct (String.eqb_spec (l_AdapterID lease) a) as [<-|Hne].
  - by rewrite lookup_insert_eq.
  - by rewrite lookup_insert_ne, app_nil_r.
Qed.

Lemma group_of_spec a leases : group_of a (groupLeasesByAdapter leases) = of_adapter a leases.
Proof.
  unfold groupLeasesByAdapter. cut (∀ g, group_of a (foldl add_to_group g leases) =
    group_of a g ++ of_adapter a leases); [intros H; by rewrite H|].
  induction leases as [|l leases IH]; intros g; simpl; [by rewrite app_nil_r|].
  rewrite IH, group_of_add, <- app_assoc. by destruct (_ ==s _).
Qed.

Lemma grouped_elem a leases :
  is_Some (groupLeasesByAdapter leases !! a) ↔ a ∈ l_AdapterID <$> leases.
Proof.
  unfold groupLeasesByAdapter. cut (∀ g, is_Some (foldl add_to_group g leases !! a) ↔
    is_Some (g !! a) ∨ a ∈ l_AdapterID <$> leases).
  { intros H. rewrite H, lookup_empty. split; [intros [[? [=]]|?]; done|auto]. }
  induction leases as [|l leases IH]; intros g; simpl; [set_solver|].
  rewrite IH. unfold add_to_group. rewrite lookup_insert_is_Some, elem_of_cons.
  destruct (decide (a = l_AdapterID l)); naive_solver.
Qed.

Lemma sorted_adapters_elem a leases :
  a ∈ sorted_adapters (groupLeasesByAdapter leases) ↔ a ∈ l_AdapterID <$> leases.
Proof.
  unfold sorted_adapters. rewrite sort_by_perm, list_elem_of_fmap, <- grouped_elem. split.
  - intros ([? ls] & -> & H%elem_of_map_to_list). by exists ls.
  - intros [ls Hl]. exists (a, ls). split; [done|]. by apply elem_of_map_to_list.
Qed.

Lemma sorted_adapters_NoDup grouped : NoDup (sorted_adapters grouped).
Proof. unfold sorted_adapters. rewrite sort_by_perm. apply NoDup_fst_map_to_list. Qed.

(** What the groups hold adds up to what all the leases hold. *)
Definition sum_over {A} (f : A → Z) (l : list A) : Z := foldr (λ x n, f x + n) 0 l.

Lemma sum_over_app {A} (f : A → Z) l1 l2 : sum_over f (l1 ++ l2) = sum_over f l1 + sum_over f l2.
Proof. induction l1; simpl in *; lia. Qed.

Lemma sum_over_ext {A} (f g : A → Z) l : (∀ x, x ∈ l → f x = g x) → sum_over f l = sum_over g l.
Proof.
  induction l as [|x l IH]; intros H; simpl; [done|]. rewrite IH by set_solver.
  by rewrite (H x) by set_solver.
Qed.

Lemma sum_over_plus {A} (f g : A → Z) l :
  sum_over (λ x, f x + g x) l = sum_over f l + sum_over g l.
Proof. induction l; simpl in *; lia. Qed.

Lemma sum_over_point (a : string) (n : Z) l :
  NoDup l → a ∈ l → sum_over (λ b, if a ==s b then n else 0) l = n.
Proof.
  induction 1 as [|b l Hb _ IH]; intros Ha; [set_solver|]. simpl.
  destruct (String.eqb_spec a b) as [->|Hne].
  - rewrite (sum_over_ext _ (λ _, 0)).
    + clear. induction l; simpl in *; lia.
    + intros c Hc. destruct (String.eqb_spec b c) as [->|]; [done|done].
  - rewrite IH by set_solver. lia.
Qed.

Lemma sum_over_groups f keys leases :
  NoDup keys → (∀ l, l ∈ leases → l_AdapterID l ∈ keys) →
  sum_over (λ a, sum_over f (of_adapter a leases)) keys = sum_over f leases.
Proof.
  intros Hk. induction leases as [|l leases IH]; intros Hin; simpl.
  { clear. induction keys; simpl in *; lia. }
  rewrite <- IH by set_solver. rewrite <- (sum_over_point (l_AdapterID l) (f l) keys Hk)
    by (apply Hin; set_solver).
  rewrite <- sum_over_plus. apply sum_over_ext. intros a _.
  destruct (l_AdapterID l ==s a); simpl; lia.
Qed.

Lemma sum_over_length {A} (l : list A) : sum_over (λ _, 1) l = Z.of_nat (length l).
Proof. induction l; simpl in *; lia. Qed.

Lemma sum_over_bind {A B} (f : B → Z) (g : A → list B) l :
  sum_over f (l ≫= g) = sum_over (λ x, sum_over f (g x)) l.
Proof.
  induction l as [|x l IH]; [done|]. cbn [mbind list_bind]. rewrite sum_over_app. simpl.
  by rewrite <- IH.
Qed.

Definition number {A} (p : A → bool) (l : list A) : Z := Z.of_nat (length (List.filter p l)).

Lemma sum_over_number {A} (p : A → bool) l : sum_over (λ x, if p x then 1 else 0) l = number p l.
Proof.
  unfold number. induction l as [|x l IH]; simpl; [done|]. rewrite IH. destruct (p x); simpl; lia.
Qed.

(** ** The dry run *)

Definition incomplete (l : RuntimeActionLease) : bool := negb (Selector_Valid (Selector l)).
Definition still_active (now : time) (l : RuntimeActionLease) : bool :=
  Selector_Valid (Selector l) && Before now (l_ExpiresAt l).
Definition has_expired (now : time) (l : RuntimeActionLease) : bool :=
  Selector_Valid (Selector l) && negb (Before now (l_ExpiresAt l)).

(** The counters of a run over some leases of one adapter. *)
Record tallied (e a u : Z) (acc acc' : tally) : Prop := {
  tallied_Expired : rec_Expired acc'.1 = rec_Expired acc.1 + e;
  tallied_Active : rec_Active acc'.1 = rec_Active acc.1 + a;
  tallied_Unknown : rec_Unknown acc'.1 = rec_Unknown acc.1 + u;
  tallied_adapter_Expired : arr_Expired acc'.2 = arr_Expired acc.2 + e;
  tallied_adapter_Active : arr_Active acc'.2 = arr_Active acc.2 + a;
  tallied_adapter_Unknown : arr_Unknown acc'.2 = arr_Unknown acc.2 + u;
  tallied_AdapterResults : rec_AdapterResults acc'.1 = rec_AdapterResults acc.1;
}.

Lemma count_tallied e a u f acc : tallied e a u acc (count e a u f acc).
Proof. by destruct acc as [[] []]; split. Qed.

Lemma tallied_trans e1 a1 u1 e2 a2 u2 x y z :
  tallied e1 a1 u1 x y → tallied e2 a2 u2 y z → tallied (e1 + e2) (a1 + a2) (u1 + u2) x z.
Proof. intros [] []. split; try lia. congruence. Qed.

Lemma tallied_refl x : tallied 0 0 0 x x.
Proof. by split; rewrite ?Z.add_0_r. Qed.

Lemma tallied_eq e a u e' a' u' x y :
  tallied e a u x y → e = e' → a = a' → u = u' → tallied e' a' u' x y.
Proof. by intros H -> -> ->. Qed.

Lemma dry_run_lease_tallied now acc l :
  tallied (if has_expired now l then 1 else 0) (if still_active now l then 1 else 0)
    (if incomplete l then 1 else 0) acc (dry_run_lease now acc l).
Proof.
  unfold dry_run_lease, has_expired, still_active, incomplete.
  destruct (Selector_Valid _); simpl; [|apply count_tallied].
  destruct (Before _ _); apply count_tallied.
Qed.

Lemma dry_run_leases_tallied now ls acc :
  tallied (number (has_expired now) ls) (number (still_active now) ls) (number incomplete ls)
    acc (foldl (dry_run_lease now) acc ls).
Proof.
  rewrite <- !sum_over_number. revert acc. induction ls as [|l ls IH]; intros acc; simpl.
  - apply tallied_refl.
  - eapply tallied_trans; [apply dry_run_lease_tallied|apply IH].
Qed.

(** A run over the adapters [keys]: the totals move by what is counted in each
    group, and each adapter has its own counts. *)
Record accounted (e a u : string → Z) (keys : list string) (r r' : ReconcileResult) : Prop := {
  accounted_Expired : rec_Expired r' = rec_Expired r + sum_over e keys;
  accounted_Active : rec_Active r' = rec_Active r + sum_over a keys;
  accounted_Unknown : rec_Unknown r' = rec_Unknown r + sum_over u keys;
  accounted_adapters : ∀ k, k ∈ keys → ∃ ar, rec_AdapterResults r' !! k = Some ar ∧
    arr_Expired ar = e k ∧ arr_Active ar = a k ∧ arr_Unknown ar = u k;
}.

Lemma accounted_nil e a u r : accounted e a u [] r r.
Proof. split; simpl; [lia..|set_solver]. Qed.

Lemma accounted_snoc e a u keys k r r' acc :
  accounted e a u keys r r' → k ∉ keys →
  tallied (e k) (a k) (u k) (r', zero_AdapterReconcileResult k) acc →
  accounted e a u (keys ++ [k]) r (set_adapter_result k acc).
Proof.
  intros [H1 H2 H3 H4] Hk [T1 T2 T3 T4 T5 T6 T7]. destruct acc as [res ar]; simpl in *.
  split; simpl; rewrite ?sum_over_app; simpl; [lia..|].
  intros k' [Hk'|Hk'%list_elem_of_singleton]%elem_of_app.
  - rewrite lookup_insert_ne by set_solver. rewrite T7. by apply H4.
  - subst k'. exists ar. rewrite lookup_insert_eq. split_and!; done || lia.
Qed.

Lemma accounted_fold e a u (f : ReconcileResult → string → ReconcileResult) keys r :
  NoDup keys →
  (∀ r k, ∃ acc, f r k = set_adapter_result k acc ∧
     tallied (e k) (a k) (u k) (r, zero_AdapterReconcileResult k) acc) →
  accounted e a u keys r (foldl f r keys).
Proof.
  intros Hd Hf. cut (∀ l1 l2 r1, keys = l1 ++ l2 → accounted e a u l1 r r1 →
    accounted e a u keys r (foldl f r1 l2)).
  { intros H. apply (H [] keys); [done|apply accounted_nil]. }
  intros l1 l2. revert l1. induction l2 as [|k l2 IH]; intros l1 r1 E H1; simpl.
  { by rewrite E, app_nil_r. }
  destruct (Hf r1 k) as (acc & -> & Hacc).
  apply (IH (l1 ++ [k])); [by rewrite <- app_assoc|].
  apply accounted_snoc with r1; [done| |done].
  rewrite E in Hd. apply NoDup_app in Hd as (_ & Hd & _). set_solver.
Qed.

Lemma dry_run_accounted now leases r :
  let keys := sorted_adapters (groupLeasesByAdapter leases) in
  accounted (λ k, number (has_expired now) (of_adapter k leases))
    (λ k, number (still_active now) (of_adapter k leases))
    (λ k, number incomplete (of_adapter k leases)) keys r
    (foldl (dry_run_adapter now (groupLeasesByAdapter leases)) r keys).
Proof.
  apply accounted_fold; [apply sorted_adapters_NoDup|]. intros r1 k. eexists. split; [done|].
  rewrite group_of_spec. apply dry_run_leases_tallied.
Qed.

Lemma number_groups p leases :
  sum_over (λ k, number p (of_adapter k leases)) (sorted_adapters (groupLeasesByAdapter leases)) =
  number p leases.
Proof.
  rewrite <- sum_over_number, <- (sum_over_groups _ (sorted_adapters (groupLeasesByAdapter leases))).
  - apply sum_over_ext. intros k _. by rewrite sum_over_number.
  - apply sorted_adapters_NoDup.
  - intros l Hl. apply sorted_adapters_elem. by apply list_elem_of_fmap_2.
Qed.

Section reconcile.
Context {GR : GoRuntime} {ED : Ed25519} {JD : JSONDecoders} {KD : KeyDecoders} {SC : StateCodecs}.
Context {W : Type} {KW : KLIQWorld W}.
Implicit Types (m : Manager W) (executor : RuntimeExecutor W) (lease : RuntimeActionLease).

(** A dry run changes nothing and calls no adapter, and it accounts for every
    open lease exactly once, in total and under its adapter: as unknown when its
    selector is incomplete, otherwise as active or expired at the manager's
    clock. *)
Theorem ReconcileDryRun_accounts m s r s' :
  ReconcileDryRun m s = (r, s') →
  unchanged s s' ∧
  ∀ res, r = Ok res → ∃ now leases,
    ActiveLeases (db_actions (k_db s)) = Ok leases ∧
    rec_Expired res = number (has_expired now) leases ∧
    rec_Active res = number (still_active now) leases ∧
    rec_Unknown res = number incomplete leases ∧
    rec_Expired res + rec_Active res + rec_Unknown res = Z.of_nat (length leases) ∧
    ∀ a, a ∈ l_AdapterID <$> leases → ∃ ar, rec_AdapterResults res !! a = Some ar ∧
      arr_Expired ar = number (has_expired now) (of_adapter a leases) ∧
      arr_Active ar = number (still_active now) (of_adapter a leases) ∧
      arr_Unknown ar = number incomplete (of_adapter a leases).
Proof.
  intros H. split.
  { eapply preserves_run; [|exact H]. unfold ReconcileDryRun. cbv zeta. preserve. }
  intros res ->. unfold ReconcileDryRun in H. cbv zeta in H.
  run_step H. run_step H. run_step H. run_step H.
  apply attempt_run in Hr. apply (preserves_run unchanged) in Hr as [E _];
    [|apply store_read_free; apply _].
  apply (preserves_run unchanged) in Hr0 as [E' _]; [|apply now_free; apply _].
  apply store_read_run in Hr1 as (_ & _ & [Hr1|(? & ? & _)]); [|done].
  rewrite E', E in Hr1. rename a0 into now, a1 into leases.
  set (start := match a with Ok _ => _ | Err _ => _ end) in *.
  assert (rec_Expired start = 0 ∧ rec_Active start = 0 ∧ rec_Unknown start = 0) as (Z1 & Z2 & Z3)
    by (unfold start; by destruct a).
  destruct (dry_run_accounted now leases start) as [H1 H2 H3 H4].
  set (final := foldl _ _ _) in *. rewrite number_groups in H1, H2, H3.
  apply mret_Ok in H as [-> _]. exists now, leases. split; [done|].
  assert (Hlen : number (has_expired now) leases + number (still_active now) leases +
                 number incomplete leases = Z.of_nat (length leases)).
  { rewrite <- !sum_over_number, <- !sum_over_plus. clear. induction leases as [|l ls IH]; [done|].
    simpl. rewrite IH. unfold has_expired, still_active, incomplete.
    destruct (Selector_Valid _), (Before _ _); simpl; lia. }
  assert (Hkeys : ∀ a, a ∈ l_AdapterID <$> leases → ∃ ar, rec_AdapterResults final !! a = Some ar ∧
      arr_Expired ar = number (has_expired now) (of_adapter a leases) ∧
      arr_Active ar = number (still_active now) (of_adapter a leases) ∧
      arr_Unknown ar = number incomplete (of_adapter a leases)).
  { intros k Hk. apply H4. by apply sorted_adapters_elem. }
  destruct (0 <? rec_Expired final); simpl; split_and!; done || lia.
Qed.

(** ** Reconciliation *)

(** The adapter said that the action is gone: its cleanup succeeded, or its
    state, read back, is expired. *)
Definition gone m (runtimeActionID : string) : Prop :=
  ∃ executor lease w w', executorFor m (l_AdapterID lease) = Some executor ∧
    l_RuntimeActionID lease = runtimeActionID ∧
    (Cleanup executor lease w = (Ok tt, w') ∨
     ∃ state, State executor = Some state ∧ state lease w = (Ok RuntimeActionExpired, w')).

(** The leases that are closed in between are those of [C]. *)
Definition closes_only (C : string → Prop) (s s' : KLIQ W) : Prop :=
  ∀ row, row ∈ t_leases (db_actions (k_db s)) →
    ∃ row', row' ∈ t_leases (db_actions (k_db s')) ∧ same_lease row row' ∧
      (open_status (l_Status row) = true →
       open_status (l_Status row') = true ∨ C (l_RuntimeActionID row)).

#[export] Instance closes_only_preorder C : PreOrder (closes_only C).
Proof.
  split; [intros s row Hr; exists row; split_and!; [done|reflexivity|auto]|].
  intros s1 s2 s3 H12 H23 r1 Hr1. destruct (H12 r1 Hr1) as (r2 & Hr2 & E12 & C12).
  destruct (H23 r2 Hr2) as (r3 & Hr3 & E23 & C23). exists r3. split_and!; [done|by etrans|].
  intros Ho. destruct (C12 Ho) as [Ho2|?]; [|by right].
  unfold same_lease in E12. rewrite <- E12 in C23. by apply C23; rewrite E12.
Qed.

Lemma quiet_closes_only C s s' : quiet s s' → closes_only C s s'.
Proof.
  intros [E _] row Hr. exists row. rewrite E. split_and!; [done|reflexivity|auto].
Qed.

#[export] Instance closes_only_world_free C : WorldFree (closes_only C).
Proof. intros s w. by apply quiet_closes_only. Qed.

Lemma quiet_preserves_closes {A} C (c : io (KLIQ W) A) :
  preserves quiet c → preserves (closes_only C) c.
Proof. intros H s. by apply quiet_closes_only. Qed.

Lemma closes_only_fmap C (f : RuntimeActionLeaseRow → RuntimeActionLeaseRow) s s' :
  t_leases (db_actions (k_db s')) = f <$> t_leases (db_actions (k_db s)) →
  (∀ r, same_lease r (f r)) →
  (∀ r, open_status (l_Status r) = true → open_status (l_Status (f r)) = true ∨
        C (l_RuntimeActionID r)) →
  closes_only C s s'.
Proof.
  intros E Hs Hc row Hr. exists (f row). rewrite E. split_and!; [|done|apply Hc].
  by apply list_elem_of_fmap_2.
Qed.

Lemma store_UpsertLease_closes C lease :
  open_status (l_Status lease) = true → preserves (closes_only C) (store_UpsertLease lease).
Proof.
  intros Ho s. unfold store_UpsertLease, store_write.
  destruct (store_fault (k_world s)) as [[e|] w]; [by apply quiet_closes_only|].
  simpl. unfold on_actions, zoom, UpsertLease, transaction. simpl.
  destruct (Lease_Validate lease) as [[]|]; [|by apply quiet_closes_only]. simpl.
  destruct (upsert_lease _ _) as [t|e] eqn:Hu; [|by apply quiet_closes_only]. simpl.
  apply upsert_lease_Ok in Hu as [(o & _ & _ & ->)|(_ & _ & _ & ->)].
  - eapply closes_only_fmap; [done|intros r; simpl; by case_match|].
    intros r Hr. left. simpl. by case_match.
  - intros row Hr. exists row. simpl. split_and!; [set_solver|reflexivity|auto].
Qed.

Lemma store_ExpireLease_closes (C : string → Prop) id now :
  C id → preserves (closes_only C) (store_ExpireLease id now).
Proof.
  intros HC s. unfold store_ExpireLease, store_write.
  destruct (store_fault (k_world s)) as [[e|] w]; [by apply quiet_closes_only|].
  eapply closes_only_fmap; [done|intros r; simpl; by case_match|].
  intros r Hr. unfold has_key. case_bool_decide; [right; by subst|by left].
Qed.

Lemma adapter_closes {A} C kind lease (c : io W A) : preserves (closes_only C) (adapter kind lease c).
Proof. intros s row Hr. exists row. split_and!; [done|reflexivity|auto]. Qed.
Lemma markLeaseUnknown_closes C lease now msg :
  preserves (closes_only C) (markLeaseUnknown lease now msg).
Proof.
  unfold markLeaseUnknown. cbv zeta.
  apply preserves_bind; [apply _|by apply store_UpsertLease_closes|]. intros _.
  apply preserves_bind; [apply _|apply quiet_preserves_closes, store_AppendJournal_quiet|].
  intros _. apply quiet_preserves_closes, store_AppendAudit_quiet.
Qed.

Lemma unknown_lease_closes C lease now msg acc :
  preserves (closes_only C) (unknown_lease lease now msg acc).
Proof.
  unfold unknown_lease. apply preserves_bind; [apply _| |intros _; apply preserves_ret, _].
  apply preserves_ignore, markLeaseUnknown_closes.
Qed.

Lemma gone_intro m executor lease kind {A} (c : io W A) a (s s1 : KLIQ W) :
  executorFor m (l_AdapterID lease) = Some executor →
  adapter kind lease c s = (Ok a, s1) →
  (∀ w w', c w = (Ok a, w') → Cleanup executor lease w = (Ok tt, w') ∨
     ∃ state, State executor = Some state ∧ state lease w = (Ok RuntimeActionExpired, w')) →
  gone m (l_RuntimeActionID lease).
Proof.
  intros Hx H Hc. unfold adapter in H. rewrite io_bind_run in H. simpl in H.
  apply zoom_Ok in H as (w' & H & _). apply Hc in H. exists executor, lease. eauto 10.
Qed.

Lemma expireLease_closes m executor lease now msg :
  executorFor m (l_AdapterID lease) = Some executor →
  preserves (closes_only (gone m)) (expireLease executor lease now msg).
Proof.
  intros Hx s. unfold expireLease. apply related_bind; [apply _|apply adapter_closes|].
  intros [] s1 H1. eapply gone_intro in H1; [|done|by eauto].
  match goal with |- closes_only _ _ (?c _).2 => enough (preserves (closes_only (gone m)) c) end;
    [done|].
  apply preserves_bind; [apply _|by apply store_ExpireLease_closes|]. intros _.
  apply preserves_bind; [apply _|apply quiet_preserves_closes, store_AppendJournal_quiet|].
  intros _. apply quiet_preserves_closes, store_AppendAudit_quiet.
Qed.

Lemma reconcileActiveLease_closes m executor lease now acc :
  open_status (l_Status lease) = true → executorFor m (l_AdapterID lease) = Some executor →
  preserves (closes_only (gone m)) (reconcileActiveLease executor lease now acc).
Proof.
  intros Ho Hx s. unfold reconcileActiveLease. destruct (State executor) as [state|] eqn:Hst.
  2:{ apply preserves_bind; [apply _| |intros _; apply preserves_ret, _].
      by apply preserves_ignore, store_UpsertLease_closes. }
  apply related_bind; [apply _|apply preserves_attempt, adapter_closes|].
  intros r s1 H1%attempt_run. destruct r as [status|err]; [|apply unknown_lease_closes].
  destruct (String.eqb_spec status RuntimeActionActive) as [->|_].
  { apply preserves_bind; [apply _| |intros _; apply preserves_ret, _].
    by apply preserves_ignore, store_UpsertLease_closes. }
  destruct (String.eqb_spec status RuntimeActionExpired) as [->|_]; [|apply unknown_lease_closes].
  eapply gone_intro in H1; [|done|intros w w' Hw; right; by exists state].
  revert s1. match goal with |- ∀ s1, closes_only _ s1 (?c s1).2 =>
    change (preserves (closes_only (gone m)) c) end.
  apply preserves_bind; [apply _|by apply preserves_ignore, store_ExpireLease_closes|]. intros _.
  apply preserves_bind; [apply _|apply preserves_ignore, quiet_preserves_closes,
    store_AppendJournal_quiet|]. intros _.
  apply preserves_bind; [apply _|apply preserves_ignore, quiet_preserves_closes,
    store_AppendAudit_quiet|]. intros _. apply preserves_ret, _.
Qed.

Lemma scan_rows_elem {A B} (scan : A → result B) rows l x :
  scan_rows scan rows = Ok l → x ∈ l → ∃ r, r ∈ rows ∧ scan r = Ok x.
Proof.
  revert l. induction rows as [|r rows IH]; simpl; intros l H Hx; [injection H as <-; set_solver|].
  apply bind_Ok in H as (y & Hy & H). apply bind_Ok in H as (ys & Hys & [= <-]).
  apply elem_of_cons in Hx as [->|Hx]; [exists r; set_solver|].
  destruct (IH _ Hys Hx) as (r' & ? & ?). exists r'. set_solver.
Qed.

Lemma scanLease_status r lease : scanLease r = Ok lease → l_Status lease = l_Status r.
Proof.
  unfold scanLease. intros H. apply bind_Ok in H as (? & _ & H). apply bind_Ok in H as (? & _ & H).
  by apply bind_Ok in H as (? & _ & [= <-]).
Qed.

Lemma ActiveLeases_open db leases lease :
  ActiveLeases db = Ok leases → lease ∈ leases → open_status (l_Status lease) = true.
Proof.
  unfold ActiveLeases, scanLeases. intros H Hl.
  destruct (scan_rows_elem _ _ _ _ H Hl) as (r & Hr & Hs). apply scanLease_status in Hs as ->.
  apply sort_by_elem, list_elem_of_In, filter_In in Hr as [_ Hr]. exact Hr.
Qed.

Lemma of_adapter_elem a leases l : l ∈ of_adapter a leases ↔ l ∈ leases ∧ l_AdapterID l = a.
Proof.
  unfold of_adapter. rewrite !list_elem_of_In, filter_In, String.eqb_eq. done.
Qed.

Lemma reconcile_adapter_closes m now leases result adapterID :
  (∀ l, l ∈ leases → open_status (l_Status l) = true) →
  preserves (closes_only (gone m))
    (reconcile_adapter m now (groupLeasesByAdapter leases) result adapterID).
Proof.
  intros Ho. unfold reconcile_adapter. cbv zeta. rewrite group_of_spec.
  apply preserves_bind; [apply _| |intros acc; apply preserves_ret, _].
  destruct (executorFor m adapterID) as [executor|] eqn:Hx.
  - apply preserves_fold_in; [apply _|]. intros acc l [Hl <-]%of_adapter_elem.
    unfold reconcile_lease. destruct (Before _ _).
    + by apply reconcileActiveLease_closes; [apply Ho|].
    + apply preserves_bind; [apply _|by apply preserves_attempt, expireLease_closes|].
      intros [u|e]; apply preserves_ret, _.
  - apply preserves_fold; [apply _|]. intros acc l. apply unknown_lease_closes.
Qed.
#[local] Hint Resolve expireLease_calls recordFailedExecute_calls : io.

Lemma markLeaseUnknown_calls lease now msg :
  preserves (@calls_are W not_execute) (markLeaseUnknown lease now msg).
Proof.
  unfold markLeaseUnknown, store_UpsertLease, store_AppendJournal, store_AppendAudit.
  cbv zeta. preserve.
Qed.

#[local] Hint Resolve markLeaseUnknown_calls state_not_execute : io.

Lemma reconcile_lease_calls executor now acc lease :
  preserves (@calls_are W not_execute) (reconcile_lease executor now acc lease).
Proof.
  unfold reconcile_lease, reconcileActiveLease, unknown_lease, store_UpsertLease,
    store_ExpireLease, store_AppendJournal, store_AppendAudit. preserve.
Qed.

Lemma reconcile_lease_evolve executor now acc lease :
  preserves (@kliq_evolve W) (reconcile_lease executor now acc lease).
Proof. unfold reconcile_lease, reconcileActiveLease, unknown_lease. preserve. Qed.

#[local] Hint Resolve reconcile_lease_calls reconcile_lease_evolve : io.

Lemma reconcile_adapter_calls m now g result adapterID :
  preserves (@calls_are W not_execute) (reconcile_adapter m now g result adapterID).
Proof. unfold reconcile_adapter, unknown_lease. cbv zeta. preserve. Qed.

Lemma reconcile_adapter_evolve m now g result adapterID :
  preserves (@kliq_evolve W) (reconcile_adapter m now g result adapterID).
Proof. unfold reconcile_adapter, unknown_lease. cbv zeta. preserve. Qed.

#[local] Hint Resolve reconcile_adapter_calls reconcile_adapter_evolve : io.

Lemma Reconcile_evolve m : preserves (@kliq_evolve W) (Reconcile m).
Proof. unfold Reconcile. preserve. Qed.

Lemma Reconcile_calls m : preserves (@calls_are W not_execute) (Reconcile m).
Proof. unfold Reconcile. preserve. Qed.

Lemma Reconcile_closes m : preserves (closes_only (gone m)) (Reconcile m).
Proof.
  intros s. unfold Reconcile. destruct (negb (m_Store m)); [by apply preserves_fail, _|].
  apply related_bind; [apply _|by apply preserves_attempt, CachedBundle_free; apply _|].
  intros cached s1 _. destruct (match cached with Ok _ => _ | Err _ => _ end) as [degraded start].
  apply related_bind; [apply _|by apply now_free; apply _|]. intros now s2 _.
  apply related_bind; [apply _|by apply store_read_free; apply _|]. intros leases s3 Hl.
  apply store_read_run in Hl as (_ & _ & [Hl|(? & ? & _)]); [|done].
  match goal with |- closes_only _ _ (?c _).2 => enough (preserves (closes_only (gone m)) c) end;
    [done|].
  apply preserves_bind; [apply _| |].
  - apply preserves_fold; [apply _|]. intros r a. apply reconcile_adapter_closes.
    intros l Hin. by eapply ActiveLeases_open.
  - intros r. cbv zeta. preserve.
Qed.

(** C16. Reconciliation never executes an action, never loses, extends or tears the
    stored leases and audit records, and closes a lease only when its adapter
    said the action is gone (a cleanup that succeeded, or a state read back as
    expired): an error, a crash of an adapter or a fault of the store leaves it
    open. *)
Theorem Reconcile_safe m s :
  calls_are not_execute s (Reconcile m s).2 ∧ kliq_evolve s (Reconcile m s).2 ∧
  closes_only (gone m) s (Reconcile m s).2.
Proof. split_and!; [apply Reconcile_calls|apply Reconcile_evolve|apply Reconcile_closes]. Qed.

(** ** Accounting *)

Definition total (r : ReconcileResult) : Z := rec_Expired r + rec_Active r + rec_Unknown r.

Definition cleanup_failed lease (err : error) : string :=
  "failed to cleanup expired runtime action " +:+ l_RuntimeActionID lease +:+ ": " +:+
  error_text err.

(** The leases [ls] have been walked: each was counted, or it had expired and the
    failure of its cleanup is a finding. *)
Definition walked (now : time) (ls : list RuntimeActionLease) (r r' : ReconcileResult) : Prop :=
  ∃ failed, total r' + Z.of_nat (length failed) = total r + Z.of_nat (length ls) ∧
    (∀ l, l ∈ failed → l ∈ ls ∧ l_ExpiresAt l ≤ now ∧
       ∃ err, cleanup_failed l err ∈ rec_Findings r') ∧
    rec_Findings r ⊆ rec_Findings r'.

Lemma walked_nil now r : walked now [] r r.
Proof. exists []. simpl. split_and!; [lia|set_solver|done]. Qed.

Lemma walked_app now ls1 ls2 r1 r2 r3 :
  walked now ls1 r1 r2 → walked now ls2 r2 r3 → walked now (ls1 ++ ls2) r1 r3.
Proof.
  intros (f1 & E1 & F1 & S1) (f2 & E2 & F2 & S2). exists (f1 ++ f2).
  rewrite !length_app. split_and!; [lia| |by etrans].
  intros l [Hl|Hl]%elem_of_app.
  - destruct (F1 l Hl) as (? & ? & err & He). split_and!; [set_solver|done|exists err; by apply S2].
  - destruct (F2 l Hl) as (? & ? & err & He). split_and!; [set_solver|done|by exists err].
Qed.

Lemma walked_count now lease e a u f acc :
  e + a + u = 1 → walked now [lease] acc.1 (count e a u f acc).1.
Proof.
  intros H. destruct acc as [r ar]. exists []. unfold total. simpl.
  split_and!; [lia|set_solver|set_solver].
Qed.

Lemma unknown_lease_walked now lease msg acc s acc' s' :
  unknown_lease lease now msg acc s = (Ok acc', s') → walked now [lease] acc.1 acc'.1.
Proof. unfold unknown_lease. intros H. run H. by apply walked_count. Qed.

Lemma reconcile_lease_walked executor now acc lease s acc' s' :
  reconcile_lease executor now acc lease s = (Ok acc', s') → walked now [lease] acc.1 acc'.1.
Proof.
  unfold reconcile_lease, reconcileActiveLease. destruct (Before now (l_ExpiresAt lease)) eqn:Hb.
  - intros H. destruct (State executor) as [state|]; [|by run H; apply walked_count].
    apply io_bind_Ok in H as (r & s1 & _ & H).
    destruct r as [status|err]; [|by eapply unknown_lease_walked].
    destruct (_ ==s _); [by run H; apply walked_count|].
    destruct (_ ==s _); [by run H; apply walked_count|by eapply unknown_lease_walked].
  - intros H. apply io_bind_Ok in H as (r & s1 & _ & H).
    destruct r as [u|err]; run H; [by apply walked_count|].
    exists [lease]. destruct acc as [r ar]. unfold total. simpl. split_and!; [lia| |set_solver].
    intros l ->%list_elem_of_singleton. unfold Before in Hb. apply Z.ltb_ge in Hb.
    split_and!; [set_solver|done|]. exists err. unfold cleanup_failed. set_solver.
Qed.

Lemma reconcile_adapter_walked m now leases r adapterID s r' s' :
  reconcile_adapter m now (groupLeasesByAdapter leases) r adapterID s = (Ok r', s') →
  walked now (of_adapter adapterID leases) r r'.
Proof.
  unfold reconcile_adapter. cbv zeta. rewrite group_of_spec. intros H.
  apply io_bind_Ok in H as (acc & s1 & H & [-> _]%mret_Ok).
  assert (Hf : ∀ (f : tally → RuntimeActionLease → io (KLIQ W) tally),
    (∀ b x s2 b' s3, f b x s2 = (Ok b', s3) → walked now [x] b.1 b'.1) →
    io_fold f (r, zero_AdapterReconcileResult adapterID) (of_adapter adapterID leases) s =
      (Ok acc, s1) → walked now (of_adapter adapterID leases) r acc.1).
  { intros f Hf Hr.
    apply (io_fold_Ok f (λ acc ls, walked now ls r acc.1) _ _ _ _ _ Hr); [apply walked_nil|].
    intros b x dn s2 b' s3 Hi _ Hx. by eapply walked_app, Hf. }
  assert (Hw : walked now (of_adapter adapterID leases) r acc.1).
  { destruct (executorFor m adapterID); eapply Hf, H; intros b x s2 b' s3 Hx;
      [eapply reconcile_lease_walked, Hx|eapply unknown_lease_walked, Hx]. }
  by destruct acc.
Qed.

(** C23. A reconciliation that returns accounts for every open lease: each is
    counted once, as expired, active or unknown, except those that had expired
    and whose cleanup failed, each of which is a finding. *)
Theorem Reconcile_accounts m s res s' :
  Reconcile m s = (Ok res, s') →
  ∃ now leases, ActiveLeases (db_actions (k_db s)) = Ok leases ∧
    walked now leases zero_ReconcileResult res.
Proof.
  intros H. unfold Reconcile in H. run_step H.
  apply io_bind_Ok in H as (cached & s1 & H1 & H).
  apply (preserves_run unchanged) in H1 as [E1 _];
    [|apply preserves_attempt, CachedBundle_free; apply _].
  destruct (match cached with Ok _ => _ | Err _ => _ end) as [degraded start] eqn:Hs.
  assert (Hw0 : total start = 0) by (destruct cached; by simplify_eq/=).
  apply io_bind_Ok in H as (now & s2 & H2 & H).
  apply (preserves_run unchanged) in H2 as [E2 _]; [|apply now_free; apply _].
  apply io_bind_Ok in H as (leases & s3 & H3 & H).
  apply store_read_run in H3 as (_ & _ & [H3|(? & ? & _)]); [|done]. rewrite E2, E1 in H3.
  apply io_bind_Ok in H as (r & s4 & H4 & H). exists now, leases. split; [done|].
  assert (Hw : walked now leases start r).
  { set (keys := sorted_adapters (groupLeasesByAdapter leases)) in *.
    assert (Hc : walked now (keys ≫= λ k, of_adapter k leases) start r).
    { apply (io_fold_Ok _ (λ r ks, walked now (ks ≫= λ k, of_adapter k leases) start r)
        _ _ _ _ _ H4); [apply walked_nil|].
      intros b x dn s5 b' s6 Hi _ Hx. rewrite bind_app. eapply walked_app; [exact Hi|].
      simpl. rewrite app_nil_r. by eapply reconcile_adapter_walked. }
    destruct Hc as (failed & Ht & Hf & Hsub). exists failed. split_and!; [|intros l Hl|done].
    - rewrite Ht. f_equal. rewrite <- (sum_over_length leases),
        <- (sum_over_groups _ keys leases), <- sum_over_bind, sum_over_length; [done|..].
      + apply sorted_adapters_NoDup.
      + intros l Hl. apply sorted_adapters_elem. by apply list_elem_of_fmap_2.
    - destruct (Hf l Hl) as (Hin & Hr). split; [|done].
      apply list_elem_of_bind in Hin as (k & Hin & _). by apply of_adapter_elem in Hin as [Hin _]. }
  destruct Hw as (failed & Ht & Hf & Hsub). exists failed.
  assert (Hfin : total res = total r ∧ rec_Findings r ⊆ rec_Findings res).
  { cbv zeta in H. destruct (0 <? _); run H; [|done].
    destruct degraded; unfold total; simpl; set_solver. }
  destruct Hfin as [Et Esub]. split_and!; [|intros l Hl|set_solver].
  - rewrite Et, Ht, Hw0. done.
  - destruct (Hf l Hl) as (? & ? & err & He). split_and!; [done..|]. exists err. by apply Esub.
Qed.
End reconcile.
