(* ===== verification/ManagerHistory.v ===== *)
(** * The whole history of a KLIQ

    Any sequence of the manager's operations and of the audit uploader's, with
    the world and the other tables changing in between: what holds of the database and of the calls
    made, however each operation ends. *)

From stdpp Require Import options.
From S2P Require Import Prelude IO Table GoStrings GoTime GoDuration GoJson Risk Signing Domain.
From S2P Require Import Artifacts BundleSource StateTypes SqliteLeases SqliteAudit.
From S2P Require Import SqliteAssignments SqliteBaseline Store Plan ManagerArtifacts ManagerPlan.
From S2P Require Import ManagerExec ManagerExecProofs ManagerReconcile ManagerReconcileProofs.
#[local] Open Scope Z_scope.

Section history.
Context {GR : GoRuntime} {ED : Ed25519} {JD : JSONDecoders} {KD : KeyDecoders} {SC : StateCodecs}.
Context {W : Type} {KW : KLIQWorld W}.
Context (http_get : string → string → io W HTTPResponse).
Context (decode_EnvelopePayload : string → result string).
Implicit Types (m : Manager W).

(** The tables that hold neither leases nor audit records are whatever they are. *)
Definition elsewhere (assign : AssignmentTables) (baseline : BaselineTables) (risk : list RiskCacheRow)
    (db : SQLiteStore) : SQLiteStore :=
  {| db_assign := assign; db_actions := db_actions db; db_audit := db_audit db;
     db_baseline := baseline; db_risk := risk |}.

Inductive operation : Type :=
  | DoExecuteAction m (req : ExecuteRequest)
  | DoReconcile m
  | DoReconcileDryRun m
  | DoLoadBundle m (source : Source (W := W))
  | DoLoadManagedBundle m (source : ManagedAssignmentSource W)
  | DoMarkAuditUploaded (id : string) (now : time)
  | DoMarkAuditFailed (id : string) (now : time) (message : string)
  | DoElsewhere (assign : AssignmentTables) (baseline : BaselineTables) (risk : list RiskCacheRow) (w : W).

(** What is left of the KLIQ after an operation, whatever it returned. *)
Definition after (op : operation) (s : KLIQ W) : KLIQ W :=
  match op with
  | DoExecuteAction m req => (ExecuteAction m req s).2
  | DoReconcile m => (Reconcile m s).2
  | DoReconcileDryRun m => (ReconcileDryRun m s).2
  | DoLoadBundle m source => (LoadBundle m source s).2
  | DoLoadManagedBundle m source =>
      (LoadManagedBundle http_get decode_EnvelopePayload m (source, s)).2.2
  | DoMarkAuditUploaded id now => (store_write (on_audit (MarkAuditUploaded id now)) s).2
  | DoMarkAuditFailed id now msg => (store_write (on_audit (MarkAuditFailed id now msg)) s).2
  | DoElsewhere assign baseline risk w => set_world w (set_db (elsewhere assign baseline risk (k_db s)) s)
  end.

Definition run_history (ops : list operation) (s : KLIQ W) : KLIQ W := foldl (λ s op, after op s) s ops.

Definition installed (w : W) : KLIQ W := {| k_db := empty_store; k_world := w; k_calls := [] |}.

(** ** Every operation evolves the KLIQ *)

Definition snd_related (R : relation (KLIQ W)) : relation (ManagedAssignmentSource W * KLIQ W) :=
  λ x y, R x.2 y.2.

#[local] Instance snd_related_preorder R : PreOrder R → PreOrder (snd_related R).
Proof. intros [HR HT]. split; [intros x; apply HR|]. intros x y z. apply HT. Qed.

Lemma on_kliq_related {A} R (c : io (KLIQ W) A) :
  preserves R c → preserves (snd_related R) (on_kliq c).
Proof. intros H s. apply H. Qed.

Lemma modify_fst_related R `{!PreOrder R} f : preserves (snd_related R) (modify (prod_map f id)).
Proof. intros s. unfold snd_related. simpl. reflexivity. Qed.

Lemma source_Load_related R `{!PreOrder R, !WorldFree R} :
  preserves (snd_related R) (source_Load http_get).
Proof.
  intros s. unfold source_Load, snd_related. destruct (Load _ _ _) as [r [source w]]. simpl.
  apply world_free.
Qed.

#[local] Hint Resolve on_kliq_related modify_fst_related source_Load_related : io.

Lemma buildBundleRecord_related m data ref R `{!PreOrder R, !WorldFree R} :
  preserves R (buildBundleRecord m data ref).
Proof. unfold buildBundleRecord. preserve. Qed.

Lemma LoadBundle_evolve m source : preserves (@kliq_evolve W) (LoadBundle m source).
Proof. pose proof buildBundleRecord_related. unfold LoadBundle. preserve. Qed.

Lemma LoadManagedBundle_evolve m :
  preserves (snd_related kliq_evolve) (LoadManagedBundle http_get decode_EnvelopePayload m).
Proof.
  pose proof (λ data ref, buildBundleRecord_related m data ref (@kliq_evolve W)).
  unfold LoadManagedBundle. cbv zeta. preserve; apply on_kliq_related; preserve.
Qed.
Lemma LoadManagedBundle_calls m :
  preserves (snd_related (calls_are not_execute))
    (LoadManagedBundle http_get decode_EnvelopePayload m).
Proof.
  pose proof (λ data ref, buildBundleRecord_related m data ref (@calls_are W not_execute)).
  unfold LoadManagedBundle. cbv zeta. preserve; apply on_kliq_related; preserve.
Qed.

Lemma after_evolve op s : kliq_evolve s (after op s).
Proof.
  destruct op; simpl.
  - apply ExecuteAction_evolve.
  - apply Reconcile_evolve.
  - unfold ReconcileDryRun. cbv zeta.
    match goal with |- kliq_evolve s (?c s).2 => enough (preserves kliq_evolve c) end; [done|].
    preserve.
  - apply LoadBundle_evolve.
  - apply (LoadManagedBundle_evolve m (source, s)).
  - apply store_write_evolve, on_audit_evolve, MarkAuditUploaded_evolve.
  - apply store_write_evolve, on_audit_evolve, MarkAuditFailed_evolve.
  - by apply kliq_evolve_no_calls.
Qed.

Lemma run_history_evolve ops s : kliq_evolve s (run_history ops s).
Proof.
  revert s. unfold run_history. induction ops as [|op ops IH]; intros s; simpl; [reflexivity|].
  etrans; [apply after_evolve|apply IH].
Qed.

(** ** Only executed actions are executed *)

(** The calls to execute an action that an operation may make. *)
Definition allowed_call (op : operation) (c : adapter_call) : Prop :=
  match op with
  | DoExecuteAction m req => ∃ (record : BundleRecord) w verified w',
      VerifySignedRuntimeBundle (bun_EnvelopeJSON record) (m_Verifier m) w = (Ok verified, w') ∧
      authorized_call m req (rbv_Bundle verified) c
  | _ => False
  end.

Lemma after_calls op s :
  leases_ok (t_leases (db_actions (k_db s))) → executes_once (allowed_call op) s (after op s).
Proof.
  intros Hok. destruct op; simpl; [by apply ExecuteAction_calls|apply executes_none..].
  - apply Reconcile_calls.
  - unfold ReconcileDryRun. cbv zeta.
    match goal with |- calls_are _ s (?c s).2 => enough (preserves (calls_are not_execute) c) end;
      [done|]. preserve.
  - pose proof buildBundleRecord_related. unfold LoadBundle.
    match goal with |- calls_are _ s (?c s).2 => enough (preserves (calls_are not_execute) c) end;
      [done|]. preserve.
  - apply (LoadManagedBundle_calls m (source, s)).
  - apply store_write_calls.
  - apply store_write_calls.
  - by apply calls_are_same.
Qed.
Lemma audited_evolve lease now (db db' : SQLiteStore) :
  audited lease now db → audit_evolve (db_audit db) (db_audit db') → audited lease now db'.
Proof.
  intros (r & Hr & Hid & Hsha) [_ (t1 & t2 & E & Hsame)].
  apply list_elem_of_lookup in Hr as [i Hi].
  destruct (Forall2_lookup_l _ _ _ _ _ Hsame Hi) as (r' & Hi' & Hs).
  exists r'. rewrite Hs, E. simpl. split_and!; [|done..].
  rewrite <- Hs. apply elem_of_app. left. by eapply list_elem_of_lookup_2.
Qed.

Lemma evolve_leases_ok (s s' : KLIQ W) :
  kliq_evolve s s' → leases_ok (t_leases (db_actions (k_db s))) →
  leases_ok (t_leases (db_actions (k_db s'))).
Proof. intros [[[H _] _] _]. exact H. Qed.

Lemma allowed_audited op c :
  allowed_call op c → ∃ now, audited (ac_lease c) now (ac_db c).
Proof.
  destruct op; simpl; [|done..].
  intros (? & ? & ? & ? & _ & plan & a & planned & now & mx & _ & _ & _ & _ & _ & _ & Hg & _).
  exists now. rewrite (guarded_lease _ _ _ Hg). apply (guarded_audited _ _ _ Hg).
Qed.

(** Every execution of a history was allowed by one of its operations, and its audit
    record is in the spool. *)
Lemma run_history_accounted ops s :
  leases_ok (t_leases (db_actions (k_db s))) →
  ∃ new, k_calls (run_history ops s) = k_calls s ++ new ∧
    ∀ c, c ∈ new → is_execute c = true →
      (∃ op, op ∈ ops ∧ allowed_call op c) ∧ ∃ t, audited (ac_lease c) t (k_db (run_history ops s)).
Proof.
  intros Hok. induction ops as [|op ops IH] using rev_ind.
  { exists []. rewrite app_nil_r. split; [done|]. set_solver. }
  destruct IH as (new & E & Hnew). unfold run_history. rewrite foldl_app. simpl.
  fold (run_history ops s). set (s1 := run_history ops s) in *.
  destruct (after_evolve op s1) as [[_ Haud] (new1 & E1 & Fnew)].
  assert (Hok1 : leases_ok (t_leases (db_actions (k_db s1)))).
  { eapply evolve_leases_ok; [apply run_history_evolve|exact Hok]. }
  destruct (executes_once_count _ _ _ (after_calls op s1 Hok1)) as (new' & E' & _ & Hq).
  assert (new' = new1) as -> by (rewrite E1 in E'; by apply app_inv_head in E').
  exists (new ++ new1). rewrite E1, E, app_assoc. split; [done|].
  intros c [Hc|Hc]%elem_of_app He.
  - destruct (Hnew c Hc He) as ((op' & Hin & Hall) & t & Ha). split; [exists op'; set_solver|].
    exists t. by eapply audited_evolve.
  - specialize (Hq c Hc He). split; [exists op; set_solver|].
    destruct (allowed_audited op c Hq) as [t Ha]. exists t.
    rewrite Forall_forall in Fnew. destruct (Fnew c Hc) as [_ [_ ?]]. by eapply audited_evolve.
Qed.

Lemma installed_leases_ok w : leases_ok (t_leases (db_actions (k_db (installed w)))).
Proof. by split; constructor. Qed.

(** No two open leases for one target, and nothing that was stored is lost. *)
Lemma run_history_keeps ops s :
  leases_ok (t_leases (db_actions (k_db s))) →
  let s' := run_history ops s in
  (∀ r1 r2, r1 ∈ t_leases (db_actions (k_db s')) → r2 ∈ t_leases (db_actions (k_db s')) →
     open_status (l_Status r1) = true → open_status (l_Status r2) = true →
     lease_dedup r1 = lease_dedup r2 → r1 = r2) ∧
  (∀ r, r ∈ t_leases (db_actions (k_db s)) →
     ∃ r', r' ∈ t_leases (db_actions (k_db s')) ∧ same_lease r r') ∧
  (∀ r, r ∈ db_audit (k_db s) → ∃ r', r' ∈ db_audit (k_db s') ∧ same_audit r r').
Proof.
  intros Hok s'. pose proof (run_history_evolve ops s) as Hev. fold s' in Hev.
  pose proof (evolve_leases_ok _ _ Hev Hok) as Hok'.
  destruct Hev as [[[_ Hl] [_ (t1 & t2 & E & Hs)]] _]. split_and!; [|exact Hl|].
  - intros r1 r2 H1 H2 O1 O2 Hd.
    eapply (unique_index_elem _ _ r1 r2 _ (leases_dedup _ Hok')); [done..| |]; unfold dedup_index;
      rewrite ?O1, ?O2, ?Hd; done.
  - intros r Hr. apply list_elem_of_lookup in Hr as [i Hi].
    destruct (Forall2_lookup_l _ _ _ _ _ Hs Hi) as (r' & Hi' & Hrr). exists r'. split; [|done].
    rewrite E. apply elem_of_app. left. by eapply list_elem_of_lookup_2.
Qed.

(** C1. The history of a KLIQ, from its installation on, whatever operations run,
    fail, and whatever adapters, clocks, disk and Forge do in between.  At any
    point, two open leases never share adapter, capability, action and target;
    every call that executed an action was made by a request to do so, allowed by
    a bundle verified for it and with no open lease on its target, and the record
    of its authorization is in the audit spool, where it stays; and nothing that
    was stored before is lost: leases keep all but status and reconciliation
    time, audit records all but their upload status. *)
Theorem kliq_history ops1 ops2 w :
  let before := run_history ops1 (installed w) in
  let now := run_history (ops1 ++ ops2) (installed w) in
  (∀ r1 r2, r1 ∈ t_leases (db_actions (k_db now)) → r2 ∈ t_leases (db_actions (k_db now)) →
     open_status (l_Status r1) = true → open_status (l_Status r2) = true →
     lease_dedup r1 = lease_dedup r2 → r1 = r2) ∧
  (∀ c, c ∈ k_calls now → is_execute c = true →
     (∃ m req (record : BundleRecord) w0 verified w1, DoExecuteAction m req ∈ ops1 ++ ops2 ∧
        VerifySignedRuntimeBundle (bun_EnvelopeJSON record) (m_Verifier m) w0 = (Ok verified, w1) ∧
        authorized_call m req (rbv_Bundle verified) c) ∧
     ∃ t, audited (ac_lease c) t (k_db now)) ∧
  (∀ r, r ∈ t_leases (db_actions (k_db before)) →
     ∃ r', r' ∈ t_leases (db_actions (k_db now)) ∧ same_lease r r') ∧
  (∀ r, r ∈ db_audit (k_db before) → ∃ r', r' ∈ db_audit (k_db now) ∧ same_audit r r').
Proof.
  intros before now.
  assert (Hnow : now = run_history ops2 before) by apply foldl_app.
  assert (Hok : leases_ok (t_leases (db_actions (k_db before)))).
  { eapply evolve_leases_ok; [apply run_history_evolve|apply installed_leases_ok]. }
  destruct (run_history_keeps ops2 before Hok) as (Hu & Hl & Ha). rewrite Hnow in *.
  split_and!; [exact Hu| |exact Hl|exact Ha].
  destruct (run_history_accounted (ops1 ++ ops2) (installed w) (installed_leases_ok w))
    as (new & E1 & Hnew).
  intros c Hc He. rewrite <- Hnow in Hc |- *. unfold now in Hc. rewrite E1 in Hc.
  destruct (Hnew c Hc He) as ((op & Hin & Ha') & Ht).
  split; [|exact Ht]. destruct op; try done. destruct Ha' as (rec & w0 & x & w1 & Hv & Hx).
  eauto 10.
Qed.
End history.
