(* ===== verification/KLIQStatus.v ===== *)
(** * What a KLIQ tells of itself (cmd/kliq: status_views.go, status_api.go)

    The views of the local state, in which what identifies a target is a digest, the
    snapshot they make up, and the read-only status API.  Redaction is that of
    main.go. *)

From stdpp Require Import options.
From stdpp Require Import gmap.
From S2P Require Import Prelude IO GoStrings GoTime GoJson Risk Signing Domain StateTypes.
From S2P Require Import SqliteLeases SqliteAudit SqliteAssignments Store Plan.
#[local] Open Scope Z_scope.

(** ** Redaction *)

Definition redactID (value : string) : string :=
  let value := trim_space value in
  if empty_str value then "" else
  if (String.length value <=? 12)%nat then value
  else take_string 8 value +:+ "..." +:+ drop_string (String.length value - 4) value.

Definition redactedHash (value : string) : string :=
  let value := trim_space value in
  if empty_str value then "" else "sha256:" +:+ take_string 16 (sha256_hex value).

Definition formatStatusTime (value : time) : string :=
  if IsZero value then "" else rfc3339nano value.

(** ** Views *)

Record assignmentArtifactView := {
  av_ArtifactType : string;
  av_ArtifactID : string;
  av_ArtifactRefSHA256 : string;
  av_SHA256 : string;
  av_ActivationStatus : string;
  av_ActivationMessage : string;
  av_ActivatedAt : string;
}.

Record assignmentView := {
  asv_KLIQID : string;
  asv_AssignmentID : string;
  asv_Version : Z;
  asv_SourceCommit : string;
  asv_Digest : string;
  asv_ExpiresAt : string;
  asv_ActivatedAt : string;
  asv_CredentialState : string;
  asv_Artifacts : list assignmentArtifactView;
}.

Record bundleStatusView := {
  bv_BundleID : string;
  bv_PolicyID : string;
  bv_SourceCommit : string;
  bv_CorrelationID : string;
  bv_KeyID : string;
  bv_PayloadSHA256 : string;
  bv_BundleSourceSHA256 : string;
  bv_ExpiresAt : string;
  bv_VerifiedAt : string;
}.

Record runtimeActionView := {
  rav_RuntimeActionID : string;
  rav_PlanID : string;
  rav_DecisionID : string;
  rav_PolicyID : string;
  rav_BundleID : string;
  rav_SourceCommit : string;
  rav_CorrelationID : string;
  rav_AdapterID : string;
  rav_CapabilityID : string;
  rav_CapabilityGrantID : string;
  rav_BindingID : string;
  rav_BindingDigest : string;
  rav_AdapterManifestDigest : string;
  rav_ActionDigest : string;
  rav_Mode : string;
  rav_Required : bool;
  rav_ActionType : string;
  rav_TargetScope : string;
  rav_TargetKeySHA256 : string;
  rav_IdempotencyKeySHA256 : string;
  rav_Status : string;
  rav_ExpiresAt : string;
  rav_CreatedAt : string;
  rav_LastReconciledAt : string;
}.

Record adapterStatusView := {
  adv_AdapterID : string;
  adv_Registered : bool;
  adv_Health : string;
  adv_Leases : Z;
  adv_Active : Z;
  adv_Expired : Z;
  adv_Unknown : Z;
}.

Record auditRecordView := {
  auv_ID : string;
  auv_RuntimeActionID : string;
  auv_BindingID : string;
  auv_BindingDigest : string;
  auv_AdapterManifestDigest : string;
  auv_ActionDigest : string;
  auv_Status : string;
  auv_PayloadSHA256 : string;
  auv_PreviousHash : string;
  auv_RecordHash : string;
  auv_CreatedAt : string;
}.

Record journalEntryView := {
  jev_ID : string;
  jev_RuntimeActionID : string;
  jev_Event : string;
  jev_Status : string;
  jev_MessageSHA256 : string;
  jev_CreatedAt : string;
}.

Record runtimeDecisionView := {
  rdv_DecisionID : string;
  rdv_PlanID : string;
  rdv_PolicyID : string;
  rdv_BundleID : string;
  rdv_SourceCommit : string;
  rdv_CorrelationID : string;
  rdv_EventType : string;
  rdv_EventIDSHA256 : string;
  rdv_Status : string;
  rdv_PayloadSHA256 : string;
  rdv_ActivatedAction : string;
  rdv_CreatedAt : string;
}.

Record statusSnapshot := {
  ss_GeneratedAt : string;
  ss_StatePath : string;
  ss_Assignment : option assignmentView;
  ss_Bundle : option bundleStatusView;
  ss_RuntimeActions : list runtimeActionView;
  ss_RuntimeCounts : gmap string Z;
  ss_RuntimeDecisions : list runtimeDecisionView;
  ss_PendingAuditCount : Z;
  ss_Adapters : list adapterStatusView;
  ss_Findings : list string;
}.

(** The zero value, which an error leaves. *)
Definition zero_statusSnapshot : statusSnapshot := {|
  ss_GeneratedAt := ""; ss_StatePath := ""; ss_Assignment := None; ss_Bundle := None;
  ss_RuntimeActions := []; ss_RuntimeCounts := ∅; ss_RuntimeDecisions := [];
  ss_PendingAuditCount := 0; ss_Adapters := []; ss_Findings := [] |}.

Definition runtimeDecisionViews (records : list RuntimeDecisionRecord) : list runtimeDecisionView :=
  (λ r, {|
    rdv_DecisionID := dr_DecisionID r;
    rdv_PlanID := dr_PlanID r;
    rdv_PolicyID := dr_PolicyID r;
    rdv_BundleID := dr_BundleID r;
    rdv_SourceCommit := redactID (dr_SourceCommit r);
    rdv_CorrelationID := redactID (dr_CorrelationID r);
    rdv_EventType := dr_EventType r;
    rdv_EventIDSHA256 := redactedHash (dr_EventID r);
    rdv_Status := dr_Status r;
    rdv_PayloadSHA256 := dr_PayloadSHA256 r;
    rdv_ActivatedAction := dr_ActivatedAction r;
    rdv_CreatedAt := formatStatusTime (dr_CreatedAt r) |}) <$> records.

(** Equal pairs of type and identifier may be in any order. *)
Definition artifact_view_leb (a b : assignmentArtifactView) : bool :=
  if av_ArtifactType a ==s av_ArtifactType b then str_leb (av_ArtifactID a) (av_ArtifactID b)
  else str_leb (av_ArtifactType a) (av_ArtifactType b).

Definition assignmentArtifactViews (records : list AssignmentArtifactRecord)
    : list assignmentArtifactView :=
  sort_by artifact_view_leb ((λ r, {|
    av_ArtifactType := aar_ArtifactType r;
    av_ArtifactID := aar_ArtifactID r;
    av_ArtifactRefSHA256 := redactedHash (aar_ArtifactRef r);
    av_SHA256 := aar_SHA256 r;
    av_ActivationStatus := aar_ActivationStatus r;
    av_ActivationMessage := aar_ActivationMessage r;
    av_ActivatedAt := formatStatusTime (aar_ActivatedAt r) |}) <$> records).

Definition credentialStatus (wall : time) (credential : KLIQCredential) : string :=
  if IsZero (cred_ServiceTokenExpiresAt credential) then "unknown" else
  if Before wall (cred_ServiceTokenExpiresAt credential) then "valid" else "expired".

Definition bundleStatus (r : BundleRecord) : bundleStatusView := {|
  bv_BundleID := bun_BundleID r;
  bv_PolicyID := bun_PolicyID r;
  bv_SourceCommit := redactID (bun_SourceCommit r);
  bv_CorrelationID := redactID (bun_CorrelationID r);
  bv_KeyID := redactID (bun_KeyID r);
  bv_PayloadSHA256 := bun_PayloadSHA256 r;
  bv_BundleSourceSHA256 := redactedHash (bun_BundleSource r);
  bv_ExpiresAt := formatStatusTime (bun_ExpiresAt r);
  bv_VerifiedAt := formatStatusTime (bun_VerifiedAt r) |}.

Definition runtimeActionViews (leases : list RuntimeActionLease) : list runtimeActionView :=
  (λ l, {|
    rav_RuntimeActionID := l_RuntimeActionID l;
    rav_PlanID := l_PlanID l;
    rav_DecisionID := l_DecisionID l;
    rav_PolicyID := l_PolicyID l;
    rav_BundleID := l_BundleID l;
    rav_SourceCommit := redactID (l_SourceCommit l);
    rav_CorrelationID := redactID (l_CorrelationID l);
    rav_AdapterID := l_AdapterID l;
    rav_CapabilityID := l_CapabilityID l;
    rav_CapabilityGrantID := l_CapabilityGrantID l;
    rav_BindingID := l_BindingID l;
    rav_BindingDigest := l_BindingDigest l;
    rav_AdapterManifestDigest := l_AdapterManifestDigest l;
    rav_ActionDigest := l_ActionDigest l;
    rav_Mode := l_Mode l;
    rav_Required := l_Required l;
    rav_ActionType := l_ActionType l;
    rav_TargetScope := l_TargetScope l;
    rav_TargetKeySHA256 := redactedHash (l_TargetKey l);
    rav_IdempotencyKeySHA256 := redactedHash (l_IdempotencyKey l);
    rav_Status := l_Status l;
    rav_ExpiresAt := formatStatusTime (l_ExpiresAt l);
    rav_CreatedAt := formatStatusTime (l_CreatedAt l);
    rav_LastReconciledAt := formatStatusTime (l_LastReconciledAt l) |}) <$> leases.

Definition runtimeCounts (leases : list RuntimeActionLease) : gmap string Z :=
  foldl (λ counts l, <[l_Status l := default 0 (counts !! l_Status l) + 1]> counts) ∅ leases.

Definition new_view (adapterID health : string) : adapterStatusView := {|
  adv_AdapterID := adapterID; adv_Registered := false; adv_Health := health; adv_Leases := 0;
  adv_Active := 0; adv_Expired := 0; adv_Unknown := 0 |}.

(** One lease counted into the view of its adapter. *)
Definition count_lease (byAdapter : gmap string adapterStatusView) (l : RuntimeActionLease)
    : gmap string adapterStatusView :=
  let v := default (new_view (l_AdapterID l) "unknown") (byAdapter !! l_AdapterID l) in
  let active := if l_Status l ==s RuntimeActionActive then 1 else 0 in
  let expired := if l_Status l ==s RuntimeActionExpired then 1 else 0 in
  <[l_AdapterID l := {|
      adv_AdapterID := adv_AdapterID v; adv_Registered := adv_Registered v;
      adv_Health := adv_Health v; adv_Leases := adv_Leases v + 1;
      adv_Active := adv_Active v + active; adv_Expired := adv_Expired v + expired;
      adv_Unknown := adv_Unknown v + (1 - active - expired) |}]> byAdapter.

Definition register_view (byAdapter : gmap string adapterStatusView) (d : AdapterRuntimeDescriptor)
    : gmap string adapterStatusView :=
  let v := default (new_view (ard_AdapterID d) "") (byAdapter !! ard_AdapterID d) in
  <[ard_AdapterID d := {|
      adv_AdapterID := adv_AdapterID v; adv_Registered := true;
      adv_Health := if ard_Healthy d then "healthy" else "unhealthy"; adv_Leases := adv_Leases v;
      adv_Active := adv_Active v; adv_Expired := adv_Expired v; adv_Unknown := adv_Unknown v |}]>
    byAdapter.

(** The registry is what its [List] answers; [None] is a nil one. *)
Definition adapterStatusViews (leases : list RuntimeActionLease)
    (registry : option (list AdapterRuntimeDescriptor)) : list adapterStatusView :=
  let byAdapter := foldl register_view (foldl count_lease ∅ leases) (default [] registry) in
  omap (λ adapterID, byAdapter !! adapterID) (sort_by str_leb (map_to_list byAdapter).*1).

Definition journalEntryViews (entries : list JournalEntry) : list journalEntryView :=
  (λ e, {|
    jev_ID := j_ID e;
    jev_RuntimeActionID := j_RuntimeActionID e;
    jev_Event := j_Event e;
    jev_Status := j_Status e;
    jev_MessageSHA256 := redactedHash (j_Message e);
    jev_CreatedAt := formatStatusTime (j_CreatedAt e) |}) <$> entries.

Definition auditRecordViews (records : list AuditRecord) : list auditRecordView :=
  (λ r, {|
    auv_ID := au_ID r;
    auv_RuntimeActionID := au_RuntimeActionID r;
    auv_BindingID := au_BindingID r;
    auv_BindingDigest := au_BindingDigest r;
    auv_AdapterManifestDigest := au_AdapterManifestDigest r;
    auv_ActionDigest := au_ActionDigest r;
    auv_Status := au_Status r;
    auv_PayloadSHA256 := au_PayloadSHA256 r;
    auv_PreviousHash := au_PreviousHash r;
    auv_RecordHash := au_RecordHash r;
    auv_CreatedAt := formatStatusTime (au_CreatedAt r) |}) <$> records.

Definition findRuntimeAction (leases : list RuntimeActionLease) (runtimeActionID : string)
    : option runtimeActionView :=
  List.find (λ v, rav_RuntimeActionID v ==s runtimeActionID) (runtimeActionViews leases).

(** ** The snapshot *)
Section status.
Context {GR : GoRuntime} {W : Type} {KW : KLIQWorld W}.
Implicit Types (registry : option (list AdapterRuntimeDescriptor)).

Definition store_LastBundle : io (KLIQ W) BundleRecord := store_read (λ db, LastBundle (db_assign db)).
Definition store_AllLeases : io (KLIQ W) (list RuntimeActionLease) :=
  store_read (λ db, AllLeases (db_actions db)).
Definition store_PendingAudits : io (KLIQ W) (list AuditRecord) :=
  store_read (λ db, PendingAudits (db_audit db)).

Definition assignment_view (wall : time) (credential : KLIQCredential) (state : KLIQManagementState)
    (artifacts : list assignmentArtifactView) : assignmentView := {|
  asv_KLIQID := ms_KLIQID state;
  asv_AssignmentID := ms_ActiveAssignmentID state;
  asv_Version := ms_ActiveAssignmentVersion state;
  asv_SourceCommit := redactID (ms_ActiveAssignmentSourceCommit state);
  asv_Digest := ms_ActiveAssignmentDigest state;
  asv_ExpiresAt := formatStatusTime (ms_ActiveAssignmentExpiresAt state);
  asv_ActivatedAt := formatStatusTime (ms_ActiveAssignmentActivatedAt state);
  asv_CredentialState := credentialStatus wall credential;
  asv_Artifacts := artifacts |}.

(** The part about the assignment: whatever cannot be read is left out. *)
Definition snapshot_assignment : io (KLIQ W) (option assignmentView) :=
  r ← attempt (store_read (λ db, get_KLIQCredential (db_assign db)));
  match r with
  | Err _ => mret None
  | Ok credential =>
      r ← attempt (store_read (λ db, get_KLIQManagementState (cred_KLIQID credential) (db_assign db)));
      match r with
      | Err _ => mret None
      | Ok state =>
          wall ← wall;
          r ← attempt (store_read (λ db, AssignmentArtifacts (cred_KLIQID credential) (db_assign db)));
          mret (Some (assignment_view wall credential state
            (match r with Ok artifacts => assignmentArtifactViews artifacts | Err _ => [] end)))
      end
  end.

Definition buildStatusSnapshot (statePath : string) registry : io (KLIQ W) statusSnapshot :=
  bundle ← attempt store_LastBundle;
  _ ← match bundle with
      | Err e => if error_is e ErrNotFound then mret tt else fail e
      | Ok _ => mret tt
      end;
  leases ← store_AllLeases;
  audits ← store_PendingAudits;
  now ← wall;
  decisions ← attempt (store_read (λ db, RuntimeDecisions 25 (db_actions db)));
  assignment ← snapshot_assignment;
  mret {| ss_GeneratedAt := formatStatusTime now; ss_StatePath := statePath;
          ss_Assignment := assignment;
          ss_Bundle := match bundle with Ok bundle => Some (bundleStatus bundle) | Err _ => None end;
          ss_RuntimeActions := runtimeActionViews leases;
          ss_RuntimeCounts := runtimeCounts leases;
          ss_RuntimeDecisions :=
            match decisions with Ok records => runtimeDecisionViews records | Err _ => [] end;
          ss_PendingAuditCount := Z.of_nat (length audits);
          ss_Adapters := adapterStatusViews leases registry;
          ss_Findings := match bundle with Ok _ => [] | Err _ => ["bundle unavailable"] end |}.

(** ** The status API *)

Inductive status_body : Type :=
  | BStatus (status : string)
  | BError (code : string)
  | BSnapshot (snapshot : statusSnapshot)
  | BBundle (bundle : bundleStatusView)
  | BAdapters (adapters : list adapterStatusView)
  | BActions (actions : list runtimeActionView)
  | BAction (action : runtimeActionView)
  | BAudits (records : list auditRecordView)
  | BText (text : string).

Record status_response := { str_Status : Z; str_Body : status_body }.
Definition writeAPIJSON (status : Z) (body : status_body) : status_response :=
  {| str_Status := status; str_Body := body |}.
Definition writeAPIError (status : Z) (e : error) : status_response :=
  writeAPIJSON status (BError (error_text e)).
Definition statusForStoreError (e : error) : Z := if error_is e ErrNotFound then 404 else 500.

Inductive StatusRoute : Type :=
  | SHealthz
  | SReadyz
  | SStatus
  | SBundle
  | SAdapters
  | SActions
  | SAction (path : string)   (* below /runtime/actions/ *)
  | SAudits
  | SMetrics.

(** A handler that reads the store and answers an error with a status. *)
Definition answer {A} (m : io (KLIQ W) A) (status : error → Z) (body : A → status_body)
    : io (KLIQ W) status_response :=
  r ← attempt m;
  mret (match r with
        | Ok a => writeAPIJSON 200 (body a)
        | Err e => writeAPIError (status e) e
        end).

Definition internal_error (e : error) : Z := 500.

(** [fmt.Fprintf]: the text of a format and its arguments is that of an error. *)
Definition metric_line (status : string) (count : Z) : string :=
  error_text (Errorf "kernloom_kliq_runtime_actions_by_status{status=%q} %d" [AStr status; AInt count]) +:+
  chr 10.

Definition metrics (snapshot : statusSnapshot) : string :=
  "kernloom_kliq_runtime_actions " +:+ pretty (Z.of_nat (length (ss_RuntimeActions snapshot))) +:+ chr 10 +:+
  "kernloom_kliq_pending_audit_records " +:+ pretty (ss_PendingAuditCount snapshot) +:+ chr 10 +:+
  join "" ((λ kv, metric_line kv.1 kv.2) <$> map_order (map_to_list (ss_RuntimeCounts snapshot))).

Definition statusAPIHandler (statePath : string) registry (route : StatusRoute)
    : io (KLIQ W) status_response :=
  match route with
  | SHealthz => mret (writeAPIJSON 200 (BStatus "ok"))
  | SReadyz =>
      r ← attempt store_LastBundle;
      mret (match r with
            | Ok _ => writeAPIJSON 200 (BStatus "ready")
            | Err _ => writeAPIJSON 503 (BStatus "not_ready")
            end)
  | SStatus => answer (buildStatusSnapshot statePath registry) internal_error BSnapshot
  | SBundle => answer store_LastBundle statusForStoreError (λ b, BBundle (bundleStatus b))
  | SAdapters => answer store_AllLeases internal_error (λ l, BAdapters (adapterStatusViews l registry))
  | SActions => answer store_AllLeases internal_error (λ l, BActions (runtimeActionViews l))
  | SAction path =>
      let actionID := trim_prefix "/runtime/actions/" path in
      if empty_str actionID then mret (writeAPIJSON 400 (BError "missing_runtime_action_id")) else
      r ← attempt store_AllLeases;
      mret (match r with
            | Err e => writeAPIError 500 e
            | Ok leases =>
                match findRuntimeAction leases actionID with
                | None => writeAPIJSON 404 (BError "runtime_action_not_found")
                | Some action => writeAPIJSON 200 (BAction action)
                end
            end)
  | SAudits => answer store_PendingAudits internal_error (λ l, BAudits (auditRecordViews l))
  | SMetrics => answer (buildStatusSnapshot statePath registry) internal_error (λ s, BText (metrics s))
  end.
End status.
