(* ===== verification/KLIQInput.v ===== *)
(** * What a KLIQ takes in (cmd/kliq: enroll.go, trust.go, transport.go, run.go)

    Service tokens and trust bundles as they are found locally, the URL of Forge, runtime
    decisions from a file, signals of adapters, and the durations of a management
    profile: the parsing and the checks of the daemon before it acts. *)

From stdpp Require Import options.
From stdpp Require Import gmap.
From Stdlib Require Import SpecFloat.
From S2P Require Import Prelude IO GoStrings GoTime GoDuration GoJson GoEncoding GoPath GoFloat.
From S2P Require Import Risk Signing Domain Artifacts Authn BundleSource StateTypes.
From S2P Require Import SqliteAssignments Baseline Registry BaselineEngine Store Plan ManagerPlan.
From S2P Require Import KLIQStatus.
#[local] Open Scope Z_scope.

(** ** Tokens and the URL of Forge *)

Definition splitCSV (value : string) : list string :=
  if blank value then [] else
  omap (λ part, let trimmed := trim_space part in if empty_str trimmed then None else Some trimmed)
    (split_char comma value).

Section tokens.
Context {TC : TokenCodecs}.

(** [time.Unix(exp, 0)] *)
Definition serviceTokenExpiresAt (token : string) : result time :=
  reject negb (has_prefix "kliqsvc." token) && negb (has_prefix "kliqsig." token)
    with Errorf "unsupported kliq service token format" [];;
  match split_char dot token with
  | [_; encodedPayload; _] =>
      payload ← base64_payload encodedPayload;
      claims ← decode_KLIQServiceClaims payload;
      reject cl_ExpiresAt claims <=? 0 with Errorf "kliq service token missing exp" [];;
      Ok ((cl_ExpiresAt claims + 62135596800) * second)
  | _ => Err (Errorf "invalid kliq service token" [])
  end.
End tokens.

Definition isKLIQIdentitySignedToken (token : string) : bool := has_prefix "kliqsig." token.

(** [url.Parse]: the scheme of a URL. *)
Class URLParser := { url_scheme : string → result string }.

Definition validateSecureForgeURL `{URLParser} (rawURL : string) (allowDevInsecure : bool) : result unit :=
  let rawURL := trim_space rawURL in
  reject empty_str rawURL with Errorf "forge url is required" [];;
  scheme ← url_scheme rawURL;
  if scheme ==s "https" then Ok tt else
  if scheme ==s "http" then
    reject negb allowDevInsecure
      with Errorf "forge url %q uses plaintext http; pass --dev-insecure-forge-transport only for local smoke tests" [AStr rawURL];;
    Ok tt
  else Err (Errorf "forge url %q must use https" [AStr rawURL]).

Definition normalizeCertificateSHA256Pin `{UnicodeLower} (pin : string) : string :=
  let pin := ToLower (trim_space pin) in
  if has_prefix "sha256:" pin then pin else "sha256:" +:+ pin.

(** The check of the server's certificate against a pin, in the TLS configuration of
    [adapterDialOptions]. *)
Definition VerifyPeerCertificate `{UnicodeLower} (pin : string) (rawCerts : list string) : result unit :=
  match rawCerts with
  | [] => Err (Errorf "adapter tls pin requires peer certificate" [])
  | cert :: _ =>
      reject ("sha256:" +:+ sha256_hex cert) !=s normalizeCertificateSHA256Pin pin
        with Errorf "adapter tls server certificate pin mismatch" [];;
      Ok tt
  end.

Record adapterTransportOptions := {
  ato_DevInsecureAdapterTransport : bool;
  ato_CAPath : string;
  ato_ClientCertPath : string;
  ato_ClientKeyPath : string;
  ato_ServerName : string;
  ato_ServerCertificateSHA256 : string;
}.

Definition adapterTransportForAssignment (transport : adapterTransportOptions)
    (assignment : AdapterAssignment) : adapterTransportOptions :=
  let serverName := trim_space (adp_TLSServerName assignment) in
  let certPin := trim_space (adp_ServerCertificateSHA256 assignment) in
  {| ato_DevInsecureAdapterTransport := ato_DevInsecureAdapterTransport transport;
     ato_CAPath := ato_CAPath transport;
     ato_ClientCertPath := ato_ClientCertPath transport;
     ato_ClientKeyPath := ato_ClientKeyPath transport;
     ato_ServerName := if empty_str serverName then ato_ServerName transport else serverName;
     ato_ServerCertificateSHA256 :=
       if empty_str certPin then ato_ServerCertificateSHA256 transport else certPin |}.

(** ** Trust bundles on disk (trust.go) *)

Record trustMaterial := {
  tm_KeyID : string;
  tm_Algorithm : string;
  tm_PrivateKey : string;
  tm_PublicKey : string;
}.

(** [decode_private_key] decodes an object and answers the bytes of its member
    private_key, if it has one. *)
Class TrustDecoders := {
  decode_private_key : string → result (option string);
  decode_trustMaterial : string → result trustMaterial;
}.

Definition validateTrustBundleForKLIQ (wall : time) (bundle : TrustBundle) : result unit :=
  reject trim_space (tb_Purpose bundle) !=s "assignment_verification"
    with Errorf "trust bundle %q has purpose %q, expected assignment_verification"
           [AStr (tb_KeyID bundle); AStr (tb_Purpose bundle)];;
  reject (tb_Status bundle !=s "active") && (tb_Status bundle !=s "previous")
    with Errorf "trust bundle %q is %q and cannot verify new managed assignments"
           [AStr (tb_KeyID bundle); AStr (tb_Status bundle)];;
  reject negb (IsZero (tb_ExpiresAt bundle)) && negb (Before wall (tb_ExpiresAt bundle))
    with Errorf "trust bundle %q is expired" [AStr (tb_KeyID bundle)];;
  Ok tt.

Section trust.
Context {GR : GoRuntime} {JD : JSONDecoders} {KD : KeyDecoders} {TD : TrustDecoders} {FS : Files}.

(** A bundle with the defaults of the two fields that may be missing. *)
Definition complete_bundle (b : TrustBundle) : TrustBundle :=
  let status := if empty_str (tb_Status b) then "active" else tb_Status b in
  let purpose := if empty_str (tb_Purpose b) then "assignment_verification" else tb_Purpose b in
  {| tb_KeyID := tb_KeyID b; tb_PublicKey := tb_PublicKey b; tb_Purpose := purpose;
     tb_Status := status; tb_ExpiresAt := tb_ExpiresAt b; tb_Issuer := tb_Issuer b |}.

(** [None] is "not a trust bundle". *)
Definition parseDomainTrustBundle (wall : time) (data : string) : result (option TrustBundle) :=
  match decode_TrustBundle data with
  | Err _ => Ok None
  | Ok b =>
      if empty_str (tb_KeyID b) && empty_str (tb_PublicKey b) && empty_str (tb_Status b) &&
         empty_str (tb_Purpose b)
      then Ok None else
      reject empty_str (tb_KeyID b) || blank (tb_PublicKey b)
        with Errorf "trust bundle requires key_id and public_key" [];;
      let b := complete_bundle b in
      _ ← validateTrustBundleForKLIQ wall b;
      Ok (Some b)
  end.

Definition verifierFromTrustBundle (b : TrustBundle) : result DevLocalSigner :=
  publicKey ← decodeTrustBundlePublicKey (tb_PublicKey b);
  NewEd25519Verifier (tb_KeyID b) publicKey.

Definition verifierFromTrustMaterial (path : string) (key : trustMaterial)
    : result (DevLocalSigner * TrustBundle) :=
  reject (tm_Algorithm key !=s "") && (tm_Algorithm key !=s "Ed25519")
    with Errorf "%s: unsupported trust key algorithm %q" [AStr path; AStr (tm_Algorithm key)];;
  verifier ← wrap_err "%s: %w" [AStr path] (NewEd25519Verifier (tm_KeyID key) (tm_PublicKey key));
  Ok (verifier, {|
    tb_KeyID := tm_KeyID key; tb_PublicKey := Base64.std_encode (tm_PublicKey key);
    tb_Purpose := "assignment_verification"; tb_Status := "active"; tb_ExpiresAt := 0;
    tb_Issuer := "local-dev-public-key" |}).

Definition material_verifier (path data : string) : result (DevLocalSigner * TrustBundle) :=
  key ← decode_trustMaterial data;
  verifierFromTrustMaterial path key.

(** Private material that is not an empty string or null. *)
Definition holds_private (member : option string) : bool :=
  match member with
  | Some raw => (raw !=s (dquote +:+ dquote)) && (raw !=s "null")
  | None => false
  end.

Definition loadTrustVerifier (wall : time) (path : string) (allowPrivateDevMaterial : bool)
    : result (DevLocalSigner * TrustBundle) :=
  data ← os_ReadFile path;
  member ← decode_private_key data;
  if holds_private member then
    reject negb allowPrivateDevMaterial
      with Errorf "%s contains private signing material; use a public trust bundle for KLIQ verification" [AStr path];;
    material_verifier path data
  else
  parsed ← parseDomainTrustBundle wall data;
  match parsed with
  | Some b => verifier ← verifierFromTrustBundle b; Ok (verifier, b)
  | None => material_verifier path data
  end.

(** What is loaded is kept in the store, and the store's is used when there is no file. *)
Definition loadTrustVerifierForStore {W} `{KLIQWorld W} (path : string) (allowPrivateDevMaterial : bool)
    : io (KLIQ W) (DevLocalSigner * TrustBundle) :=
  now ← wall;
  match loadTrustVerifier now path allowPrivateDevMaterial with
  | Ok (verifier, b) =>
      _ ← (if empty_str (tb_KeyID b) then mret tt else
           ignore (store_write (on_assign (SaveLocalTrustBundle now b now))));
      mret (verifier, b)
  | Err e =>
      deny negb (IsNotExist e) with e;;
      stored ← attempt (store_read (λ db, LastLocalTrustBundle (db_assign db)));
      match stored with
      | Err _ => fail e
      | Ok b =>
          _ ← lift (validateTrustBundleForKLIQ now b);
          verifier ← lift (verifierFromTrustBundle b);
          mret (verifier, b)
      end
  end.
End trust.

(** ** Runtime decisions from a file *)

Definition firstNonEmpty (values : list string) : string :=
  match List.find (λ v, negb (blank v)) values with Some v => trim_space v | None => "" end.

Record localRuntimeEvent := {
  lre_Kind : string;
  lre_EventID : string;
  lre_EventType : string;
  lre_SignalID : string;
  lre_RiskType : string;
  lre_AdapterID : string;
  lre_CapabilityID : string;
  lre_CapabilityGrantID : string;
  lre_BindingID : string;
  lre_BindingDigest : string;
  lre_AdapterManifestDigest : string;
  lre_ActionDigest : string;
  lre_Mode : string;
  lre_ActionType : string;
  lre_TargetScope : string;
  lre_TargetKey : string;
  lre_TTL : string;
  lre_Reason : string;
  lre_AuditID : string;
  lre_CorrelationID : string;
}.

Definition executeRequestFromLocalRuntimeEvent (event : localRuntimeEvent) (raw : string) : ExecuteRequest :=
  let digest s := trim_prefix "sha256:" (redactedHash s) in
  let eventID := firstNonEmpty [lre_EventID event; lre_SignalID event; redactedHash raw] in
  let decisionID := "runtime_decision." +:+ digest eventID in
  let mode := if blank (lre_Mode event) then ActionModeRequired else lre_Mode event in
  let reason := trim_space (lre_Reason event) in
  let reason := if empty_str reason then "local runtime event " +:+ eventID else reason in
  let auditID := trim_space (lre_AuditID event) in
  let auditID := if empty_str auditID then "audit." +:+ digest decisionID else auditID in
  {| req_DecisionID := decisionID;
     req_EventType := lre_EventType event;
     req_EventID := eventID;
     req_RiskType := lre_RiskType event;
     req_AdapterID := lre_AdapterID event;
     req_CapabilityID := lre_CapabilityID event;
     req_CapabilityGrantID := lre_CapabilityGrantID event;
     req_BindingID := lre_BindingID event;
     req_BindingDigest := lre_BindingDigest event;
     req_AdapterManifestDigest := lre_AdapterManifestDigest event;
     req_ActionDigest := lre_ActionDigest event;
     req_Mode := mode;
     req_ActionType := lre_ActionType event;
     req_TargetScope := lre_TargetScope event;
     req_TargetKey := lre_TargetKey event;
     req_TTL := lre_TTL event;
     req_Reason := reason;
     req_AuditID := auditID;
     req_CorrelationID := lre_CorrelationID event;
     req_DeriveAuditIDFromDecisionID := false |}.

(** The members that tell an event from a request. *)
Record decisionProbe := {
  prb_Kind : string;
  prb_EventID : string;
  prb_EventType : string;
  prb_SignalID : string;
}.

(** [json.Unmarshal] into these types, and into a list of raw messages. *)
Class DecisionDecoders := {
  decode_raws : string → result (list string);
  decode_probe : string → result decisionProbe;
  decode_localRuntimeEvent : string → result localRuntimeEvent;
  decode_ExecuteRequest : string → result ExecuteRequest;
}.

Section decisions.
Context {DC : DecisionDecoders} {FS : Files}.

Definition runtimeDecisionRequestFromJSON (raw : string) : result ExecuteRequest :=
  probe ← decode_probe raw;
  if (prb_Kind probe ==s "LocalRuntimeEvent") || (prb_Kind probe ==s "RuntimeEvent") ||
     (prb_EventID probe !=s "") || (prb_EventType probe !=s "") || (prb_SignalID probe !=s "")
  then event ← decode_localRuntimeEvent raw; Ok (executeRequestFromLocalRuntimeEvent event raw)
  else decode_ExecuteRequest raw.

(** [fileRuntimeDecisionSource] *)
Record DecisionSource := {
  fds_requests : list ExecuteRequest;
  fds_index : nat;
}.

Definition runtimeDecisionSourceFromFile (path : string) : result DecisionSource :=
  let path := trim_space (trim_prefix "file://" path) in
  reject empty_str path with Errorf "decision source path is required" [];;
  data ← os_ReadFile path;
  let trimmed := trim_space data in
  if empty_str trimmed then Ok {| fds_requests := []; fds_index := 0 |} else
  raws ← if has_prefix "[" trimmed then decode_raws trimmed else Ok [trimmed];
  requests ← for_fold (λ requests raw,
    request ← runtimeDecisionRequestFromJSON raw; Ok (requests ++ [request])) [] raws;
  Ok {| fds_requests := requests; fds_index := 0 |}.
End decisions.

Definition NextDecision (s : DecisionSource) : option (ExecuteRequest * DecisionSource) :=
  match fds_requests s !! fds_index s with
  | Some request => Some (request, {| fds_requests := fds_requests s; fds_index := S (fds_index s) |})
  | None => None
  end.

(** ** Signals of adapters *)

(** [adapterv1.Signal], a message of the protocol. *)
Record Signal := {
  sgn_Id : string;
  sgn_Type : string;
  sgn_Scope : string;
  sgn_Source : string;
  sgn_Payload : string;
}.

(** A member of a payload decoded with [UseNumber]: a [json.Number] is its text. *)
Inductive payload_value : Type :=
  | PNumber (text : string)
  | PText (s : string)
  | POther.

Class SignalDecoder := { decode_payload : string → result (gmap string payload_value) }.

Definition numericMetric (v : payload_value) : option float64 :=
  match v with PNumber text => ParseFloat text | _ => None end.

Section signals.
Context {SD : SignalDecoder}.

(** Distinct keys: the order of the range does not matter. *)
Definition payload_metrics (payload : gmap string payload_value) : gmap string float64 :=
  omap numericMetric payload.
Definition payload_labels (payload : gmap string payload_value) : gmap string string :=
  omap (λ v, match v with
             | PText s => if blank s then None else Some (trim_space s)
             | _ => None
             end) payload.

Definition baselineSignalFromProto (signal : option Signal) (observedAt : time) : result AdapterSignal :=
  match signal with
  | None => Err (Errorf "adapter signal is nil" [])
  | Some signal =>
      payload ← if empty_str (sgn_Payload signal) then Ok ∅ else decode_payload (sgn_Payload signal);
      Ok {| as_SignalID := sgn_Id signal; as_AdapterID := sgn_Source signal;
            as_SignalType := sgn_Type signal;
            as_Labels := payload_labels payload ∪
              {[ "entity" := sgn_Scope signal; "scope" := sgn_Scope signal ]};
            as_Metrics := payload_metrics payload;
            as_ObservedAt := observedAt |}
  end.
End signals.

(** ** Management profiles *)

Definition profileDuration (value field : string) : result (option duration) :=
  let value := trim_space value in
  if empty_str value then Ok None else
  match ParseDuration value with
  | None => Err (Errorf "invalid management profile %s %q: %w" [AStr field; AStr value])
  | Some parsed =>
      reject parsed <=? 0 with Errorf "management profile %s must be positive" [AStr field];;
      Ok (Some parsed)
  end.

Definition localBaselineRiskRecipe (recipeID : string) : result RiskRecipe :=
  let recipeID := trim_space recipeID in
  let recipeID := if empty_str recipeID then "runtime_anomaly.standard" else recipeID in
  reject recipeID !=s "runtime_anomaly.standard"
    with Errorf "unsupported local baseline risk recipe %q" [AStr recipeID];;
  Ok {| rcp_ID := "runtime_anomaly.standard";
        rcp_Output := {[ "risk_type" := "runtime_anomaly" ]};
        rcp_Scoring := {[ "method" := "weighted_sum"; "score_range" := "0-100" ]};
        rcp_Thresholds := {[ "low" := "score < 30"; "medium" := "score >= 30 && score < 70";
                             "high" := "score >= 70 && score < 90"; "critical" := "score >= 90" ]};
        rcp_Confidence := {[ "minimum_for_enforcement" := "0.70" ]};
        rcp_Freshness := {[ "max_age" := "2m"; "stale_behavior" := "unknown" ]} |}.

(** ** The audit spool and the status report *)

(** [time.Second * time.Duration(1<<min(RetryCount-1, 8))], at most five minutes. *)
Definition audit_backoff (retryCount : Z) : duration :=
  let backoff := second * Z.shiftl 1 (Z.min (retryCount - 1) 8) in
  if 5 * 60 * second <? backoff then 5 * 60 * second else backoff.

Definition auditRetryDue (record : AuditRecord) (now : time) : bool :=
  if (au_RetryCount record <=? 0) || IsZero (au_LastAttemptAt record) then true else
  negb (Before now (au_LastAttemptAt record + audit_backoff (au_RetryCount record))).

Definition adapterHealthSummary (adapters : list adapterStatusView) : list string :=
  sort_by str_leb ((λ a,
    let status := if empty_str (adv_Health a) then "unknown" else adv_Health a in
    if adv_Registered a then adv_AdapterID a +:+ ":" +:+ status
    else adv_AdapterID a +:+ ":unregistered:" +:+ status) <$> adapters).

Definition runtimeSummary (counts : gmap string Z) : string :=
  if bool_decide (counts = ∅) then "none" else
  join "," (omap (λ key, count ← counts !! key; Some (key +:+ "=" +:+ pretty (count : Z)))
                 (sort_by str_leb (map_to_list counts).*1)).

Definition auditSpoolState (pending : Z) : string :=
  if pending =? 0 then "empty" else "pending_upload:" +:+ pretty pending.

Definition adapterAssignmentLogValues (assignments : list AdapterAssignment) : list string :=
  (λ a, trim_space (adp_AdapterID a) +:+ "=" +:+ trim_space (adp_Endpoint a)) <$> assignments.

(** ** The bundle of a standalone KLIQ *)

(** [filepath.Glob] of the signed runtime bundles of a directory. *)
Definition resolveStandaloneBundlePath `{Files} (glob : string → result (list string)) (path : string)
    : result string :=
  isDir ← os_Stat path;
  if negb (isDir : bool) then Ok path else
  candidates ← glob (Join [path; "*.runtime_bundle.signed.json"]);
  match sort_by str_leb candidates with
  | candidate :: _ => Ok candidate
  | [] =>
      let defaultPath := Join [path; "runtime_bundle.signed.json"] in
      match os_Stat defaultPath with
      | Ok _ => Ok defaultPath
      | Err _ => Err (Errorf "standalone bundle directory %q does not contain a signed runtime bundle"
                        [AStr path])
      end
  end.

Example backoff_ex : audit_backoff <$> [1; 2; 9; 100] = [second; 2 * second; 256 * second; 256 * second].
Proof. reflexivity. Qed.
