(* ===== verification/LocalFiles.v ===== *)
(** * Artifacts and keys on disk, and the signing service
    ([internal/storage/artifactstore/fs.go], [internal/core/signing], local_file.go and remote.go)

    The store of artifacts in a directory, the file of a development key, and signing by
    another process over HTTP, with the handler of that process.  The file system is the
    documented behaviour of [os]: [O_EXCL] never opens a file that exists, and a write may
    stop half way.  JSON, TLS and HTTP are parameters. *)

From stdpp Require Import options.
From stdpp Require Import gmap.
From S2P Require Import Prelude IO GoStrings GoTime GoDuration GoJson GoEncoding GoPath GoQuote.
From S2P Require Import Signing Artifacts BuildManifest ArtifactStore Authn KLIQInput.
#[local] Open Scope Z_scope.

(** ** Files *)

Definition ErrExist : error := Sentinel "file already exists".

(** [fs_Create] is [OpenFile] with [O_CREATE|O_EXCL], and [fs_Write] the write on the file it
    opened; [fs_WriteFile] is [os.WriteFile]. *)
Class FileSystem (F : Type) := {
  fs_Getwd : io F string;
  fs_Stat : string → io F unit;
  fs_MkdirAll : string → io F unit;
  fs_Create : string → io F unit;
  fs_Write : string → string → io F unit;
  fs_ReadFile : string → io F string;
  fs_WriteFile : string → string → io F unit;
}.

(** What [os] documents, for the regular files a state holds. *)
Record lawful {F} `{FileSystem F} (files : F → gmap string string) : Prop := {
  law_Getwd : preserves (λ s s', files s' = files s) fs_Getwd;
  law_Stat path : preserves (λ s s', files s' = files s) (fs_Stat path);
  law_MkdirAll path : preserves (λ s s', files s' = files s) (fs_MkdirAll path);
  law_ReadFile path : preserves (λ s s', files s' = files s) (fs_ReadFile path);
  law_Read path s data s' : fs_ReadFile path s = (Ok data, s') → files s !! path = Some data;
  law_Absent path s e s' : fs_Stat path s = (Err e, s') → IsNotExist e = true → files s !! path = None;
  law_Create path s r s' : fs_Create path s = (r, s') →
    match r with
    | Ok _ => files s !! path = None ∧ files s' = <[path := ""]> (files s)
    | Err _ => files s' = files s
    end;
  law_Write path data old s r s' : fs_Write path data s = (r, s') → files s !! path = Some old →
    match r with
    | Ok _ => files s' = <[path := old +:+ data]> (files s)
    | Err _ => ∃ written, files s' = <[path := old +:+ written]> (files s)
    end;
  law_WriteFile path data s s' : fs_WriteFile path data s = (Ok tt, s') → files s' = <[path := data]> (files s);
}.

(** [filepath.Abs] *)
Definition fs_Abs {F} `{FileSystem F} (path : string) : io F string :=
  if is_rooted path then mret (Clean path) else
  wd ← fs_Getwd;
  mret (Join [wd; path]).

(** ** Artifacts in a directory ([fs.go]) *)

Definition valueOrDefault (value fallback : string) : string := if empty_str value then fallback else value.

Definition backslash : Ascii.ascii := ascii_of_byte 92.
Definition underscore : Ascii.ascii := ascii_of_byte 95.

(** [strings.ReplaceAll(s, "..", "_")] *)
Fixpoint replace_dots (s : string) : string :=
  match s with
  | String a (String b rest as s') =>
      if Ascii.eqb a dot && Ascii.eqb b dot then String underscore (replace_dots rest)
      else String a (replace_dots s')
  | _ => s
  end.

Definition sanitize (value : string) : string :=
  let value := trim_space value in
  let value := replace_char backslash underscore value in
  let value := replace_char slash underscore value in
  let value := replace_dots value in
  if empty_str value then "unknown" else value.

Record FSStore := {
  fss_Root : string;
  fss_Org : string;
  fss_Environment : string;
}.

Definition NewFSStore (root org environment : string) : FSStore :=
  {| fss_Root := root; fss_Org := org; fss_Environment := environment |}.

(** The path of an artifact below the root: [hash[7:]] is the digest in hexadecimal. *)
Definition artifact_parts (s : FSStore) (art : Artifact) : list string :=
  [sanitize (valueOrDefault (fss_Org s) "default-org"); sanitize (valueOrDefault (fss_Environment s) "dev");
   sanitize (art_ArtifactType (a_Metadata art)); sanitize (valueOrDefault (art_SourceCommit (a_Metadata art)) "uncommitted");
   sanitize (art_ID (a_Metadata art)) +:+ "-" +:+ sha256_hex (a_Payload art) +:+ ".json"].

Section fs_store.
Context {F : Type} {FY : FileSystem F} (s : FSStore).

Definition FSStore_Put (art : Artifact) : io F ArtifactRef :=
  root ← fs_Abs (valueOrDefault (fss_Root s) "/var/lib/kernloom/artifacts");
  let path := Join [root; Join (artifact_parts s art)] in
  let ref := {| ref_URI := "fs://" +:+ path; ref_SHA256 := SHA256JSON (a_Payload art) |} in
  _ ← fs_MkdirAll (Dir path);
  created ← attempt (fs_Create path);
  match created with
  | Ok _ => _ ← fs_Write path (a_Payload art); mret ref
  | Err e =>
      deny negb (error_is e ErrExist) with e;;
      existing ← fs_ReadFile path;
      deny SHA256JSON existing !=s ref_SHA256 ref
        with Errorf "artifact path exists with different content: %s" [AStr path];;
      mret ref
  end.

Definition FSStore_Get (ref : ArtifactRef) : io F string :=
  deny negb (has_prefix "fs://" (ref_URI ref)) with Errorf "unsupported artifact ref %q" [AStr (ref_URI ref)];;
  data ← fs_ReadFile (drop_string 5 (ref_URI ref));
  deny SHA256JSON data !=s ref_SHA256 ref with Errorf "artifact hash mismatch for %s" [AStr (ref_URI ref)];;
  mret data.

Definition FSStore_Verify (ref : ArtifactRef) : io F unit :=
  _ ← FSStore_Get ref; mret tt.

Definition fs_objects : ArtifactStore F := {| store_Put := FSStore_Put; store_Get := FSStore_Get |}.
End fs_store.

(** ** The file of a development key ([local_file.go]) *)

Record DevLocalKeyFile := {
  dkf_KeyID : string;
  dkf_Algorithm : string;
  dkf_PrivateKey : string;
  dkf_PublicKey : string;
}.

(** What is sent to a signer, and what it answers. *)
Record SignRequest := {
  sgr_Payload : string;
  sgr_Meta : Signing.Metadata;
}.

(** [json.Marshal], [json.MarshalIndent] and [json.Unmarshal] of these types; [GenerateKey] of
    Ed25519: the public and the private key. *)
Class SignerCodecs := {
  encode_KeyFile : DevLocalKeyFile → result string;
  decode_KeyFile : string → result DevLocalKeyFile;
  encode_SignRequest : SignRequest → result string;
  decode_SignRequest : string → result SignRequest;
  encode_SignResponse : SignedEnvelope → string;
  decode_SignResponse : string → result SignedEnvelope;
}.

Section key_file.
Context {F : Type} {FY : FileSystem F} {SC : SignerCodecs} (GenerateKey : io F (string * string)).

Definition loadDevLocalSigner (path : string) (requirePrivate : bool) : io F DevLocalSigner :=
  data ← fs_ReadFile path;
  key ← lift (decode_KeyFile data);
  deny dkf_Algorithm key !=s "Ed25519"
    with Errorf "%s: unsupported key algorithm %q" [AStr path; AStr (dkf_Algorithm key)];;
  deny empty_str (dkf_KeyID key) with Errorf "%s: missing key_id" [AStr path];;
  deny negb (Nat.eqb (String.length (dkf_PublicKey key)) 32) with Errorf "%s: invalid Ed25519 public key" [AStr path];;
  deny requirePrivate && negb (Nat.eqb (String.length (dkf_PrivateKey key)) 64)
    with Errorf "%s: invalid Ed25519 private key" [AStr path];;
  mret {| dls_KeyID := dkf_KeyID key; dls_PrivateKey := dkf_PrivateKey key; dls_PublicKey := dkf_PublicKey key |}.

Definition key_file (signer : DevLocalSigner) : DevLocalKeyFile := {|
  dkf_KeyID := dls_KeyID signer; dkf_Algorithm := "Ed25519";
  dkf_PrivateKey := dls_PrivateKey signer; dkf_PublicKey := dls_PublicKey signer |}.

Definition saveDevLocalKey (path : string) (signer : DevLocalSigner) : io F unit :=
  _ ← fs_MkdirAll (Dir path);
  data ← lift (encode_KeyFile (key_file signer));
  fs_WriteFile path (data +:+ chr 10).

Definition NewDevLocalSigner (keyID : string) : io F DevLocalSigner :=
  deny empty_str keyID with Errorf "dev-local signer requires key id" [];;
  keys ← GenerateKey;
  mret {| dls_KeyID := keyID; dls_PrivateKey := keys.2; dls_PublicKey := keys.1 |}.

Definition LoadOrCreateDevLocalSigner (path keyID : string) : io F DevLocalSigner :=
  deny empty_str path with Errorf "dev-local signing key path is required" [];;
  there ← attempt (fs_Stat path);
  match there with
  | Ok _ => loadDevLocalSigner path true
  | Err e =>
      deny negb (IsNotExist e) with e;;
      signer ← NewDevLocalSigner (valueOrDefault keyID "dev-local");
      _ ← saveDevLocalKey path signer;
      mret signer
  end.

Definition LoadDevLocalVerifier (path : string) : io F DevLocalSigner := loadDevLocalSigner path false.
End key_file.

(** ** Signing by another process ([remote.go]) *)

Record RemoteSigner := {
  rsg_URL : string;
  rsg_HTTPClient : bool;              (* a client was given *)
  rsg_AllowDevInsecureHTTP : bool;
  rsg_CAPath : string;
  rsg_ClientCertPath : string;
  rsg_ClientKeyPath : string;
  rsg_ServerName : string;
  rsg_ServerCertificatePin : string;
}.

(** [tls.Config]: the roots and the client's certificate by the files they come from. *)
Record TLSConfig := {
  tls_ServerName : string;
  tls_RootCAs : option string;
  tls_Certificate : option (string * string);
  tls_VerifyPeer : option (list string → result unit);
}.

(** The client that was given, or one of its own with a transport. *)
Inductive HTTPClient : Type :=
  | GivenClient
  | OwnClient (timeout : Z) (tls : option TLSConfig).

Record HTTPResponse := {
  hrs_StatusCode : Z;
  hrs_Status : string;
  hrs_Body : string;
}.

(** [AppendCertsFromPEM], [tls.LoadX509KeyPair], and a POST of JSON. *)
Class SignerNet (W : Type) := {
  net_AppendCerts : string → bool;
  net_LoadKeyPair : string → string → result unit;
  net_Post : HTTPClient → string → string → io W HTTPResponse;
}.

Definition StatusCreated : Z := 201.

Section remote.
Context {W : Type} {FY : FileSystem W} {SC : SignerCodecs} {NW : SignerNet W} {UP : URLParser} {UL : UnicodeLower}.

Definition normalizeSHA256Pin (pin : string) : string :=
  let pin := ToLower (trim_space pin) in
  if empty_str pin then "" else
  if has_prefix "sha256:" pin then pin else "sha256:" +:+ pin.

Definition check_peer (pin : string) (rawCerts : list string) : result unit :=
  match rawCerts with
  | [] => Err (Errorf "remote signer certificate pin requires peer certificate" [])
  | cert :: _ =>
      reject SHA256JSON cert !=s pin with Errorf "remote signer certificate pin mismatch" [];;
      Ok tt
  end.

Section signer.
Context (s : RemoteSigner).

Definition endpoint : result string :=
  let rawURL := trim_space (rsg_URL s) in
  reject empty_str rawURL with Errorf "remote signer url is required" [];;
  scheme ← url_scheme rawURL;
  let signing := Ok (trim_right_char slash rawURL +:+ "/v1/sign") in
  if scheme ==s "https" then signing else
  if scheme ==s "http" then
    reject negb (rsg_AllowDevInsecureHTTP s)
      with Errorf "remote signer url %q uses plaintext http; pass explicit dev-insecure signer transport only for local smoke tests" [AStr rawURL];;
    signing
  else Err (Errorf "remote signer url %q must use https" [AStr rawURL]).

Definition root_certificates : io W (option string) :=
  let caPath := trim_space (rsg_CAPath s) in
  if empty_str caPath then mret None else
  caPEM ← fs_ReadFile caPath;
  deny negb (net_AppendCerts caPEM) with Errorf "remote signer ca %q does not contain a PEM certificate" [AStr caPath];;
  mret (Some caPEM).

Definition client_certificate : result (option (string * string)) :=
  let cert := trim_space (rsg_ClientCertPath s) in
  let key := trim_space (rsg_ClientKeyPath s) in
  if empty_str cert && empty_str key then Ok None else
  reject empty_str cert || empty_str key
    with Errorf "remote signer client cert and key must be provided together" [];;
  _ ← net_LoadKeyPair cert key;
  Ok (Some (cert, key)).

Definition tlsConfig : io W TLSConfig :=
  roots ← root_certificates;
  certificate ← lift client_certificate;
  let pin := normalizeSHA256Pin (rsg_ServerCertificatePin s) in
  mret {| tls_ServerName := trim_space (rsg_ServerName s); tls_RootCAs := roots; tls_Certificate := certificate;
          tls_VerifyPeer := if empty_str pin then None else Some (check_peer pin) |}.

Definition client : io W HTTPClient :=
  if rsg_HTTPClient s then mret GivenClient else
  if has_prefix "https://" (trim_space (rsg_URL s)) then
    config ← tlsConfig;
    mret (OwnClient (10 * second) (Some config))
  else mret (OwnClient (10 * second) None).

Definition RemoteSigner_Sign (payload : string) (meta : Signing.Metadata) : io W SignedEnvelope :=
  url ← lift endpoint;
  body ← lift (encode_SignRequest {| sgr_Payload := payload; sgr_Meta := meta |});
  c ← client;
  resp ← net_Post c url body;
  deny negb (hrs_StatusCode resp =? StatusCreated) with Errorf "remote signer returned %s" [AStr (hrs_Status resp)];;
  envelope ← lift (decode_SignResponse (hrs_Body resp));
  deny env_Kind envelope !=s "SignedEnvelope" with Errorf "remote signer returned invalid envelope" [];;
  mret envelope.
End signer.

(** [Handler]: what POST /v1/sign answers; the body is what the encoder writes. *)
Definition error_body (code : string) : string := json_encode (JObj [("error", JStr code)]) +:+ chr 10.

Definition sign_route {GR : GoRuntime} (signer : option (string → Signing.Metadata → io W SignedEnvelope)) (body : string)
    : io W (Z * string) :=
  match signer with
  | None => mret (500, error_body "signer_not_configured")
  | Some sign =>
      match decode_SignRequest body with
      | Err _ => mret (400, error_body "invalid_json")
      | Ok req =>
          signed ← attempt (sign (sgr_Payload req) (sgr_Meta req));
          match signed with
          | Err e => mret (400, error_body (error_text e))
          | Ok envelope => mret (StatusCreated, encode_SignResponse envelope)
          end
      end
  end.
End remote.

(** ** An artifact stays below the root *)

(** A name in a directory. *)
Definition element (e : string) : Prop := e ≠ "" ∧ e ≠ "." ∧ e ≠ ".." ∧ has_char slash e = false.

Lemma has_char_app c a b : has_char c (a +:+ b) = has_char c a || has_char c b.
Proof. induction a as [|d a IH]; [done|]. rewrite app_str_cons. simpl. by rewrite IH, orb_assoc. Qed.

Lemma replace_char_gone c d s : c ≠ d → has_char c (replace_char c d s) = false.
Proof.
  intros Hcd. induction s as [|a s IH]; [done|]. simpl. rewrite IH, orb_false_r.
  destruct (Ascii.eqb_spec a c) as [->|H]; by apply Ascii.eqb_neq.
Qed.

(** Induction two bytes at a time. *)
Lemma pairs_ind (P : string → Prop) :
  P "" → (∀ a, P (String a "")) → (∀ a b s, P s → P (String b s) → P (String a (String b s))) → ∀ s, P s.
Proof.
  intros H0 H1 H2 s. assert (P s ∧ ∀ a, P (String a s)) as [? _]; [|done].
  induction s as [|a s [IH IHs]]; [done|]. split; [done|]. intros b. by apply H2.
Qed.

Lemma replace_dots_char c s : c ≠ underscore → has_char c s = false → has_char c (replace_dots s) = false.
Proof.
  intros Hc. induction s as [|a|a b s IH IHb] using pairs_ind; [done..|]. intros H.
  cbn [has_char] in H. apply orb_false_iff in H as [Ha H]. pose proof H as Hb. apply orb_false_iff in Hb as [_ Hs].
  cbn [replace_dots]. destruct (_ && _).
  - cbn [has_char]. rewrite (IH Hs), orb_false_r. by apply Ascii.eqb_neq.
  - cbn [has_char]. rewrite Ha. by apply IHb.
Qed.

Lemma replace_dots_single s : replace_dots s = "." → s = ".".
Proof.
  destruct s as [|a [|b s]]; [done..|]. cbn [replace_dots]. destruct (_ && _); [done|].
  intros [= -> H]. destruct s as [|c s]; [done|]. cbn [replace_dots] in H. destruct (_ && _); done.
Qed.

Lemma replace_dots_not_dots s : replace_dots s ≠ "..".
Proof.
  destruct s as [|a [|b s]]; [done..|]. cbn [replace_dots]. destruct (Ascii.eqb a dot && Ascii.eqb b dot) eqn:E; [done|].
  intros [= -> H]. apply (replace_dots_single (String b s)) in H as [= -> ->]. done.
Qed.

Lemma sanitize_part value : sanitize value ≠ "" ∧ sanitize value ≠ ".." ∧ has_char slash (sanitize value) = false.
Proof.
  unfold sanitize. set (v := replace_char slash _ _). cbv zeta.
  assert (has_char slash v = false) as Hv by by apply replace_char_gone.
  destruct (empty_str (replace_dots v)) eqn:E; [done|]. split_and!.
  - by apply String.eqb_neq.
  - apply replace_dots_not_dots.
  - by apply replace_dots_char.
Qed.

Lemma hex_no_slash l : Forall (λ z, 0 ≤ z < 256) l → has_char slash (Sha256.hex l) = false.
Proof.
  assert (forallb (λ z, negb (has_char slash (Sha256.hex_byte z))) (seqZ 0 256) = true) as Hall by by vm_compute.
  rewrite forallb_forall in Hall.
  assert (∀ z, 0 ≤ z < 256 → has_char slash (Sha256.hex_byte z) = false) as Hb.
  { intros z Hz. apply negb_true_iff, Hall, list_elem_of_In, elem_of_seqZ. lia. }
  unfold Sha256.hex. induction 1 as [|z l Hz Hl IH]; [done|]. rewrite fmap_cons.
  destruct l as [|z' l]; [by apply Hb|]. rewrite fmap_cons in IH |- *. cbn [join] in IH |- *.
  by rewrite !has_char_app, IH, Hb.
Qed.

Lemma digest_no_slash d : has_char slash (sha256_hex d) = false.
Proof. with_strategy transparent [sha256_hex] unfold sha256_hex. apply hex_no_slash, digest_bytes. Qed.

(** A part of a path: an element, or ".". *)
Definition part (e : string) : Prop := e ≠ "" ∧ e ≠ ".." ∧ has_char slash e = false.

Lemma element_part e : element e → part e.
Proof. intros (? & ? & ? & ?). done. Qed.
Lemma part_element e : part e → e ≠ "." → element e.
Proof. intros (? & ? & ?) ?. done. Qed.

Definition dirs (l : list string) : list string := filter (λ e, e ≠ ".") l.

Lemma clean_parts rooted l kept : Forall part l → foldl (clean_step rooted) kept l = rev (dirs l) ++ kept.
Proof.
  intros H. revert kept. induction H as [|e l (He & Hd & _) Hl IH]; intros kept; [done|]. cbn [foldl]. rewrite IH.
  unfold clean_step, dirs. rewrite filter_cons.
  rewrite (proj2 (String.eqb_neq e "") He : empty_str e = false), (proj2 (String.eqb_neq _ _) Hd).
  destruct (String.eqb_spec e ".") as [->|Hn]; cbn [orb].
  - by destruct (decide _).
  - destruct (decide (e ≠ ".")) as [_|[]]; [|done]. cbn [rev]. by rewrite <- app_assoc.
Qed.

Lemma split_no_char c s : Forall (λ e, has_char c e = false) (split_char c s).
Proof.
  induction s as [|a s IH]; cbn [split_char]; [by constructor|]. destruct (Ascii.eqb a c) eqn:E; [by constructor|].
  destruct (split_char c s); [|inversion IH; subst]; constructor; cbn [has_char]; rewrite ?E; done.
Qed.

Lemma split_join l : Forall (λ e, has_char slash e = false) l → l ≠ [] → split_char slash (join "/" l) = l.
Proof.
  induction 1 as [|e l He Hl IH]; [done|]. intros _. destruct l as [|f l]; [by apply split_char_one|].
  change (join "/" (e :: f :: l)) with (e +:+ String slash (join "/" (f :: l))).
  by rewrite split_char_app, IH.
Qed.

Lemma join_app a b : a ≠ [] → b ≠ [] → join "/" (a ++ b) = join "/" a +:+ "/" +:+ join "/" b.
Proof.
  intros Ha Hb. induction a as [|e a IH]; [done|]. destruct a as [|f a]; [by destruct b|].
  change (join "/" ((e :: f :: a) ++ b)) with (e +:+ "/" +:+ join "/" ((f :: a) ++ b)). rewrite IH by done.
  change (join "/" (e :: f :: a)) with (e +:+ "/" +:+ join "/" (f :: a)). by rewrite !app_str_assoc.
Qed.

(** A path from the root, by its elements. *)
Definition absolute (es : list string) : string := "/" +:+ join "/" es.

Lemma Clean_absolute path : is_rooted path = true → ∃ es, Clean path = absolute es ∧ Forall element es.
Proof.
  intros Hr. unfold Clean. rewrite Hr. destruct (empty_str path) eqn:E; [by destruct path|]. eexists. split; [reflexivity|].
  apply Forall_rev. assert (Forall element []) as H by constructor. revert H. generalize (@nil string).
  pose proof (split_no_char slash path) as Hs. induction Hs as [|e l He Hl IH]; intros kept Hk; [done|]. cbn [foldl].
  apply IH. unfold clean_step. destruct (empty_str e) eqn:Ee; [done|]. apply String.eqb_neq in Ee. cbn [orb].
  destruct (String.eqb_spec e "."); [done|]. destruct (String.eqb_spec e "..") as [->|]; [|by repeat constructor].
  destruct Hk as [|t kept (? & ? & Ht & ?) Hk]; [done|]. by rewrite (proj2 (String.eqb_neq _ _) Ht).
Qed.

Lemma rooted_char e x : is_rooted (String e x) = Ascii.eqb slash e.
Proof. unfold is_rooted. cbn. by rewrite andb_true_r. Qed.

Lemma Join_parts l : Forall part l → dirs l ≠ [] → Join l = join "/" (dirs l).
Proof.
  intros Hl Hd. destruct Hl as [|e l He Hl]; [done|]. cbn [Join]. pose proof He as (Hne & _ & Hs).
  rewrite (proj2 (String.eqb_neq e "") Hne : empty_str e = false). unfold Clean.
  rewrite (proj2 (String.eqb_neq _ "") (join_not_empty "/" e l Hne) : empty_str _ = false).
  assert (Hall : Forall part (e :: l)) by by constructor.
  assert (is_rooted (join "/" (e :: l)) = false) as ->.
  { destruct e as [|c e]; [done|]. cbn [has_char] in Hs. apply orb_false_iff in Hs as [Hc _].
    assert (∃ x, join "/" (String c e :: l) = String c x) as [x ->] by (destruct l; cbn [join]; rewrite ?app_str_cons; eauto).
    rewrite rooted_char. by rewrite Ascii.eqb_sym. }
  rewrite split_join; [|eapply Forall_impl; [exact Hall|by intros ? (_ & _ & ?)]|done].
  rewrite clean_parts, app_nil_r, rev_involutive by done. by destruct (dirs _).
Qed.

Lemma dirs_parts l : Forall part l → Forall element (dirs l).
Proof. intros H. apply Forall_forall. intros e [? He]%list_elem_of_filter. rewrite Forall_forall in H. auto using part_element. Qed.

Lemma dirs_elements l : Forall element l → dirs l = l.
Proof.
  induction 1 as [|e l (_ & He & _) Hl IH]; [done|]. unfold dirs in *. rewrite filter_cons, IH.
  by destruct (decide _).
Qed.

Lemma Join_below es l : Forall element es → Forall part l → dirs l ≠ [] →
  Join [absolute es; Join l] = absolute (es ++ dirs l).
Proof.
  intros He Hl Hd. rewrite (Join_parts l Hl Hd). pose proof (dirs_parts l Hl) as Hds.
  set (ds := dirs l) in *. clearbody ds. cbn [Join].
  change (empty_str (absolute es)) with false. cbn [join]. unfold absolute at 1. rewrite app_str_assoc.
  set (tail := join "/" es +:+ "/" +:+ join "/" ds). unfold Clean. change (empty_str ("/" +:+ tail)) with false.
  change (is_rooted ("/" +:+ tail)) with true. cbv iota zeta. unfold absolute. do 2 f_equal.
  change (split_char slash ("/" +:+ tail)) with ("" :: split_char slash tail). cbn [foldl].
  change (clean_step true [] "") with (@nil string).
  assert (Hslash : ∀ k, Forall element k → Forall (λ e, has_char slash e = false) k)
    by (intros k Hk; eapply Forall_impl; [exact Hk|by intros ? (_ & _ & _ & ?)]).
  assert (Hall : Forall element (es ++ ds)) by by apply Forall_app.
  assert (Hclean : ∀ k, Forall element k → rev (foldl (clean_step true) [] k) = k).
  { intros k Hk. rewrite clean_parts by (eapply Forall_impl; [exact Hk|apply element_part]).
    by rewrite app_nil_r, rev_involutive, dirs_elements. }
  destruct es as [|e es].
  - change (split_char slash tail) with ("" :: split_char slash (join "/" ds)). cbn [foldl].
    change (clean_step true [] "") with (@nil string). rewrite split_join by auto. by apply Hclean.
  - subst tail. rewrite <- join_app by done. rewrite split_join by (auto; done). by apply Hclean.
Qed.

Lemma artifact_parts_part s art : Forall part (artifact_parts s art) ∧ dirs (artifact_parts s art) ≠ [].
Proof.
  assert (∀ v, part (sanitize v)) as Hs by (intros v; apply sanitize_part).
  set (name := sanitize (art_ID (a_Metadata art)) +:+ "-" +:+ sha256_hex (a_Payload art) +:+ ".json").
  assert (Hlong : (6 ≤ String.length name)%nat) by (unfold name; rewrite !length_app_str; simpl; lia).
  assert (Hn : element name).
  { split_and!; [by intros E; rewrite E in Hlong; simpl in Hlong; lia..|].
    unfold name. rewrite !has_char_app, digest_no_slash. destruct (Hs (art_ID (a_Metadata art))) as (_ & _ & ->). done. }
  unfold artifact_parts. fold name. split.
  - repeat (apply Forall_cons; split; [by auto using element_part|]). constructor.
  - intros E. assert (name ∈ dirs (artifact_parts s art)) as Hin; [|unfold artifact_parts in Hin; fold name in Hin; rewrite E in Hin; by apply elem_of_nil in Hin].
    apply list_elem_of_filter. split; [apply Hn|]. unfold artifact_parts. fold name. set_solver.
Qed.

(** ** The store in a directory *)

Set Default Proof Using "Type*".
Section on_disk.
Context {F : Type} {FY : FileSystem F} (files : F → gmap string string) (Hfs : lawful files).

(** What was there stays as it was. *)
Definition keeps_files (s s' : F) : Prop := files s ⊆ files s'.

Lemma same_keeps {A} (m : io F A) : preserves (λ s s', files s' = files s) m → preserves keeps_files m.
Proof. intros H s. unfold keeps_files. by rewrite (H s). Qed.

Lemma fs_Abs_same path : preserves (λ s s', files s' = files s) (fs_Abs path).
Proof.
  unfold fs_Abs. destruct (is_rooted path); [by intros s|]. intros s. rewrite io_bind_run.
  pose proof (law_Getwd files Hfs s) as H. by destruct (fs_Getwd s) as [[wd|e] s'].
Qed.

(** The root is a path from "/", when the working directory is. *)
Lemma fs_Abs_absolute path s root s' :
  (is_rooted path = false → ∀ wd s1, fs_Getwd s = (Ok wd, s1) → is_rooted wd = true) →
  fs_Abs path s = (Ok root, s') → ∃ es, root = absolute es ∧ Forall element es.
Proof.
  intros Hwd. unfold fs_Abs. destruct (is_rooted path) eqn:Er.
  - intros [= <- <-]. by apply Clean_absolute.
  - rewrite io_bind_run. destruct (fs_Getwd s) as [[wd|e] s1] eqn:E; [|done]. intros [= <- <-].
    specialize (Hwd eq_refl wd s1 eq_refl). destruct wd as [|c wd]; [done|].
    change (empty_str (String c wd)) with false. cbv iota. rewrite app_str_cons. apply Clean_absolute.
    rewrite rooted_char in Hwd |- *. done.
Qed.

(** A file that is created and written, or left half written. *)
Lemma create_write path payload w v w1 r w2 :
  fs_Create path w = (Ok v, w1) → fs_Write path payload w1 = (r, w2) →
  files w ⊆ files w2 ∧ ∀ x, r = Ok x → files w2 !! path = Some payload.
Proof.
  intros Ec Ew. destruct (law_Create files Hfs _ _ _ _ Ec) as [Hnone Hc].
  assert (files w1 !! path = Some "") as H1 by (rewrite Hc; apply lookup_insert_eq).
  pose proof (law_Write files Hfs _ _ _ _ _ _ Ew H1) as Hw. rewrite Hc in Hw. destruct r as [x|e].
  - rewrite Hw, insert_insert_eq. split; [by apply insert_subseteq|]. intros _ _. apply lookup_insert_eq.
  - destruct Hw as [written ->]. rewrite insert_insert_eq. split; [by apply insert_subseteq|done].
Qed.

Lemma FSStore_Get_run ref w path data :
  ref_URI ref = "fs://" +:+ path → files w !! path = Some data →
  match FSStore_Get ref w with
  | (Ok got, w') => got = data ∧ files w' = files w
  | (Err _, w') => files w' = files w
  end.
Proof.
  intros Hu Hd. unfold FSStore_Get. rewrite Hu. change (has_prefix "fs://" ("fs://" +:+ path)) with true.
  cbn [negb]. cbv iota. change (drop_string 5 ("fs://" +:+ path)) with path. rewrite io_bind_run.
  pose proof (law_ReadFile files Hfs path w) as Hr. destruct (fs_ReadFile path w) as [[got|e] w1] eqn:Er; [|done].
  simpl in Hr. apply (law_Read files Hfs) in Er. destruct (_ !=s _); [done|]. split; [congruence|done].
Qed.

(** C39. However the disk fails, storing an artifact changes no file that was there.  When it
    succeeds the object lies below the root, whatever the names in the artifact are (slashes,
    dots and backslashes included), its bytes have the digest of the reference, and a later
    [Get] of the reference answers those bytes or an error, also after anything else has been
    stored. *)
Theorem FSStore_Put_sound s art w r w' :
  (∀ wd w1, fs_Getwd w = (Ok wd, w1) → is_rooted wd = true) →
  FSStore_Put s art w = (r, w') →
  files w ⊆ files w' ∧
  ∀ ref, r = Ok ref →
    ref_SHA256 ref = SHA256JSON (a_Payload art) ∧
    ∃ es parts path data, ref_URI ref = "fs://" +:+ path ∧ path = absolute (es ++ parts) ∧
      (∀ root w1, fs_Abs (valueOrDefault (fss_Root s) "/var/lib/kernloom/artifacts") w = (Ok root, w1) → root = absolute es) ∧
      parts ≠ [] ∧ Forall element parts ∧
      files w' !! path = Some data ∧ SHA256JSON data = ref_SHA256 ref ∧
      (files w !! path = None → data = a_Payload art) ∧
      ∀ w2, files w' ⊆ files w2 →
        match FSStore_Get ref w2 with
        | (Ok got, w3) => got = data ∧ files w3 = files w2
        | (Err _, w3) => files w3 = files w2
        end.
Proof.
  intros Hwd. unfold FSStore_Put. rewrite io_bind_run. set (root_of := valueOrDefault _ _).
  pose proof (fs_Abs_same root_of w) as Hs. destruct (fs_Abs root_of w) as [[root|e] w1] eqn:Ea; cbn in Hs;
    [|by intros [= <- <-]; rewrite Hs].
  destruct (fs_Abs_absolute root_of w root w1) as (es' & -> & Hes); [by intros _; apply Hwd|done|].
  destruct (artifact_parts_part s art) as [Hparts Hne]. rewrite (Join_below es' _ Hes Hparts Hne).
  set (path := absolute _). set (ref := {| ref_URI := _ |}). cbv zeta. rewrite io_bind_run.
  pose proof (law_MkdirAll files Hfs (Dir path) w1) as Hm. destruct (fs_MkdirAll (Dir path) w1) as [[u|e] w2]; cbn in Hm;
    [|by intros [= <- <-]; rewrite Hm, Hs].
  rewrite <- Hs, <- Hm.
  assert (Hfound : ∀ data, files w' !! path = Some data → SHA256JSON data = ref_SHA256 ref → (files w2 !! path = None → data = a_Payload art) →
    ref_SHA256 ref = SHA256JSON (a_Payload art) ∧
    ∃ es parts path data, ref_URI ref = "fs://" +:+ path ∧ path = absolute (es ++ parts) ∧
      (∀ root' w1', (Ok (absolute es'), w1) = (Ok root', w1') → root' = absolute es) ∧
      parts ≠ [] ∧ Forall element parts ∧ files w' !! path = Some data ∧ SHA256JSON data = ref_SHA256 ref ∧
      (files w2 !! path = None → data = a_Payload art) ∧
      ∀ w3, files w' ⊆ files w3 →
        match FSStore_Get ref w3 with (Ok got, w4) => got = data ∧ files w4 = files w3 | (Err _, w4) => files w4 = files w3 end).
  { intros data Hd Hsha Hnew. split; [done|]. exists es', (dirs (artifact_parts s art)), path, data. split_and!; try done.
    - intros root' w1' E. by injection E as <- _.
    - by apply dirs_parts.
    - intros w3 Hsub. apply FSStore_Get_run with (path := path); [done|]. by eapply lookup_weaken. }
  rewrite io_bind_run. unfold attempt. destruct (fs_Create path w2) as [[v|e] w3] eqn:Ec; cbn [fst snd].
  - rewrite io_bind_run. destruct (fs_Write path (a_Payload art) w3) as [[x|e] w4] eqn:Ew; intros [= <- <-];
      destruct (create_write _ _ _ _ _ _ _ Ec Ew) as [Hsub Hd]; (split; [done|]); intros ref' [=]; subst ref'.
    by eapply Hfound; [eapply Hd|..].
  - pose proof (law_Create files Hfs _ _ _ _ Ec) as Hc. cbv beta iota in Hc.
    destruct (negb (error_is e ErrExist)); [intros [= <- <-]; by rewrite Hc|]. rewrite io_bind_run.
    pose proof (law_ReadFile files Hfs path w3) as Hr.
    destruct (fs_ReadFile path w3) as [[existing|e'] w4] eqn:Er; cbn in Hr; [|intros [= <- <-]; by rewrite Hr, Hc].
    apply (law_Read files Hfs) in Er. rewrite Hc in Er.
    destruct (String.eqb_spec (SHA256JSON existing) (ref_SHA256 ref)) as [Hsha|]; intros [= <- <-]; rewrite Hr, Hc;
      (split; [done|]); intros ref' [=]; subst ref'.
    rewrite Hr, Hc in Hfound. eapply Hfound; [exact Er|exact Hsha|]. by rewrite Er.
Qed.
End on_disk.

(** ** The key in a file *)

Section key_on_disk.
Context {F : Type} {FY : FileSystem F} (files : F → gmap string string) (Hfs : lawful files).
Context {SC : SignerCodecs} (GenerateKey : io F (string * string)).

Lemma loadDevLocalSigner_Ok path private w signer w' :
  loadDevLocalSigner path private w = (Ok signer, w') →
  files w' = files w ∧ ∃ data k, files w !! path = Some data ∧ decode_KeyFile data = Ok k ∧
    key_file signer = k ∧ dls_KeyID signer ≠ "" ∧ String.length (dls_PublicKey signer) = 32%nat ∧
    (private = true → String.length (dls_PrivateKey signer) = 64%nat).
Proof.
  unfold loadDevLocalSigner. rewrite io_bind_run. pose proof (law_ReadFile files Hfs path w) as Hr.
  destruct (fs_ReadFile path w) as [[data|e] w1] eqn:Er; [|done]. cbn in Hr. apply (law_Read files Hfs) in Er.
  rewrite io_bind_run. unfold lift. destruct (decode_KeyFile data) as [k|e] eqn:Ek; [|done].
  destruct (String.eqb_spec (dkf_Algorithm k) "Ed25519") as [Ha|]; [|done].
  destruct (empty_str (dkf_KeyID k)) eqn:Ei; [done|]. apply String.eqb_neq in Ei.
  destruct (Nat.eqb_spec (String.length (dkf_PublicKey k)) 32) as [Hpub|]; [|done].
  destruct (private && _) eqn:Ep; [done|]. intros [= <- <-]. split; [done|]. exists data, k. split_and!; try done.
  - destruct k; cbn in *. by subst.
  - intros ->. cbn in Ep. by apply negb_false_iff, Nat.eqb_eq in Ep.
Qed.

(** The key that a file holds is the key that was made: whoever opens the file afterwards,
    to sign or to verify, and whatever identifier is asked for, gets it; the identifier that
    is asked names a new key only. *)
Theorem LoadOrCreateDevLocalSigner_stable path keyID w signer w1 :
  (∀ k data, encode_KeyFile k = Ok data → decode_KeyFile (data +:+ chr 10) = Ok k) →
  LoadOrCreateDevLocalSigner GenerateKey path keyID w = (Ok signer, w1) →
  dls_KeyID signer ≠ "" ∧
  ∀ w2, files w2 !! path = files w1 !! path →
    (∀ keyID' signer' w3, LoadOrCreateDevLocalSigner GenerateKey path keyID' w2 = (Ok signer', w3) → signer' = signer) ∧
    (∀ verifier w3, LoadDevLocalVerifier path w2 = (Ok verifier, w3) → verifier = signer).
Proof.
  intros Hcodec H.
  assert (dls_KeyID signer ≠ "" ∧ ∃ data, files w1 !! path = Some data ∧ decode_KeyFile data = Ok (key_file signer))
    as (Hid & data & Hd & Hk).
  { unfold LoadOrCreateDevLocalSigner in H. destruct (empty_str path); [done|]. rewrite io_bind_run in H. unfold attempt in H.
    destruct (fs_Stat path w) as [[u|e] w0] eqn:Es; cbn [fst snd] in H.
    - apply loadDevLocalSigner_Ok in H as (Hsame & data & k & Hd & Hk & <- & Hid & _).
      split; [done|]. exists data. by rewrite Hsame.
    - destruct (negb (IsNotExist e)); [done|]. rewrite io_bind_run in H. unfold NewDevLocalSigner in H.
      destruct (empty_str (valueOrDefault keyID "dev-local")) eqn:Ei; [done|]. apply String.eqb_neq in Ei. rewrite io_bind_run in H.
      destruct (GenerateKey w0) as [[keys|e'] w2]; [|done]. cbn [mret io_ret] in H. rewrite io_bind_run in H.
      unfold saveDevLocalKey in H. rewrite io_bind_run in H. destruct (fs_MkdirAll (Dir path) w2) as [[v|e'] w3]; [|done].
      rewrite io_bind_run in H. unfold lift in H. destruct (encode_KeyFile _) as [text|e'] eqn:Ee; [|done].
      destruct (fs_WriteFile path (text +:+ chr 10) w3) as [[[]|e'] w4] eqn:Ew; [|done]. injection H as <- <-.
      split; [done|]. exists (text +:+ chr 10). rewrite (law_WriteFile files Hfs _ _ _ _ Ew), lookup_insert_eq.
      split; [done|]. by apply Hcodec. }
  split; [done|]. intros w2 Hsame.
  assert (Hload : ∀ private w' signer' w3, files w' = files w2 → loadDevLocalSigner path private w' = (Ok signer', w3) → signer' = signer).
  { intros private w' signer' w3 Hw' (_ & data' & k & Hd' & Hk' & He & _)%loadDevLocalSigner_Ok.
    rewrite Hw', Hsame, Hd in Hd'. injection Hd' as <-. rewrite Hk in Hk'. injection Hk' as <-.
    destruct signer, signer'. cbn in He. by injection He as -> -> ->. }
  split; [|by intros verifier w3; apply Hload].
  intros keyID' signer' w3 H'. unfold LoadOrCreateDevLocalSigner in H'. destruct (empty_str path); [done|].
  rewrite io_bind_run in H'. unfold attempt in H'. pose proof (law_Stat files Hfs path w2) as Hst.
  destruct (fs_Stat path w2) as [[u|e] w0] eqn:Es; cbn [fst snd] in H', Hst; [by eapply Hload|].
  destruct (IsNotExist e) eqn:Ene; cbn [negb] in H'; [|done].
  rewrite (law_Absent files Hfs _ _ _ _ Es Ene) in Hsame. by rewrite Hd in Hsame.
Qed.
End key_on_disk.

(** ** A signer behind HTTP is the signer *)

Section over_http.
Context {W : Type} {FY : FileSystem W} {SC : SignerCodecs} {NW : SignerNet W} {UP : URLParser} {UL : UnicodeLower}.
Context {GR : GoRuntime} (sign : string → Signing.Metadata → io W SignedEnvelope) (s : RemoteSigner).

(** The request reaches the handler of the signer, and its answer comes back. *)
Definition reaches (c : HTTPClient) (url : string) : Prop := ∀ body w, ∃ status,
  net_Post c url body w =
  match sign_route (Some sign) body w with
  | (Ok (code, text), w') => (Ok {| hrs_StatusCode := code; hrs_Status := status; hrs_Body := text |}, w')
  | (Err e, w') => (Err e, w')
  end.

(** What the signer signs, the remote signer answers, unchanged and with the same effects;
    when it refuses, the remote signer fails and tells no more than the status. *)
Theorem RemoteSigner_Sign_refines payload meta url c body w w0 :
  endpoint s = Ok url → client s w = (Ok c, w0) → reaches c url →
  encode_SignRequest {| sgr_Payload := payload; sgr_Meta := meta |} = Ok body →
  decode_SignRequest body = Ok {| sgr_Payload := payload; sgr_Meta := meta |} →
  match sign payload meta w0 with
  | (Ok envelope, w1) =>
      env_Kind envelope = "SignedEnvelope" → decode_SignResponse (encode_SignResponse envelope) = Ok envelope →
      RemoteSigner_Sign s payload meta w = (Ok envelope, w1)
  | (Err e, w1) => ∃ status, RemoteSigner_Sign s payload meta w = (Err (Errorf "remote signer returned %s" [AStr status]), w1)
  end.
Proof.
  intros Hurl Hc Hreach Henc Hdec. destruct (Hreach body w0) as [status Hpost].
  assert (∀ r w1, sign payload meta w0 = (r, w1) → RemoteSigner_Sign s payload meta w =
    match r with
    | Ok envelope =>
        (envelope ← decode_SignResponse (encode_SignResponse envelope);
         reject env_Kind envelope !=s "SignedEnvelope" with Errorf "remote signer returned invalid envelope" [];;
         Ok envelope, w1)
    | Err _ => (Err (Errorf "remote signer returned %s" [AStr status]), w1)
    end) as E.
  { intros r w1 Hs. unfold RemoteSigner_Sign. rewrite io_bind_run. unfold lift at 1. rewrite Hurl.
    rewrite io_bind_run. unfold lift at 1. rewrite Henc. rewrite io_bind_run, Hc, io_bind_run, Hpost.
    unfold sign_route. rewrite Hdec, io_bind_run. unfold attempt. cbn [sgr_Payload sgr_Meta]. rewrite Hs. cbn [fst snd].
    destruct r as [envelope|e]; [|done]. cbn [mret io_ret hrs_StatusCode hrs_Body].
    change (negb (StatusCreated =? StatusCreated)) with false. cbv iota. rewrite io_bind_run. unfold lift.
    destruct (decode_SignResponse _) as [e|]; [|done]. cbn. by destruct (_ !=s _). }
  destruct (sign payload meta w0) as [[envelope|e] w1]; specialize (E _ _ eq_refl); [|by exists status].
  intros Hkind Hback. rewrite E, Hback. cbn. by rewrite Hkind.
Qed.

(** The endpoint goes by the parsed scheme, the transport by the text: of a URL that writes
    its scheme in capitals neither the pin, nor the certificate authority, nor the client's
    certificate is used. *)
Lemma capital_scheme_unpinned w :
  rsg_HTTPClient s = false → has_prefix "https://" (trim_space (rsg_URL s)) = false →
  client s w = (Ok (OwnClient (10 * second) None), w).
Proof. unfold client. by intros -> ->. Qed.
End over_http.

(** ** A disk that fills up *)

(** The files and the bytes that are left for writes. *)
Record Disk := {
  dk_Files : gmap string string;
  dk_Space : nat;
}.

#[local] Instance test_disk : FileSystem Disk := {|
  fs_Getwd := mret "/srv";
  fs_Stat path := λ d, (match dk_Files d !! path with Some _ => Ok tt | None => Err ErrNotExist end, d);
  fs_MkdirAll _ := mret tt;
  fs_Create path := λ d,
    match dk_Files d !! path with
    | Some _ => (Err ErrExist, d)
    | None => (Ok tt, {| dk_Files := <[path := ""]> (dk_Files d); dk_Space := dk_Space d |})
    end;
  fs_Write path data := λ d,
    let old := default "" (dk_Files d !! path) in
    let fits := (String.length data <=? dk_Space d)%nat in
    (if fits then Ok tt else Err (Sentinel "no space left on device"),
     {| dk_Files := <[path := old +:+ (if fits then data else take_string (dk_Space d) data)]> (dk_Files d);
        dk_Space := dk_Space d - String.length data |});
  fs_ReadFile path := λ d, (match dk_Files d !! path with Some data => Ok data | None => Err ErrNotExist end, d);
  fs_WriteFile path data := λ d,
    (Ok tt, {| dk_Files := <[path := data]> (dk_Files d); dk_Space := dk_Space d |});
|}.

Lemma test_disk_lawful : lawful dk_Files.
Proof.
  split; cbn.
  - by intros d.
  - by intros path d.
  - by intros path d.
  - by intros path d.
  - intros path d data d'. by destruct (dk_Files d !! path) eqn:E; intros [= <- <-].
  - intros path d e d'. by destruct (dk_Files d !! path) eqn:E; intros [= <- <-].
  - intros path d r d'. by destruct (dk_Files d !! path) eqn:E; intros [= <- <-].
  - intros path data old d r d' [= <- <-] Hold. rewrite Hold. cbn. destruct (_ <=? _)%nat; cbn; eauto.
  - by intros path data d d' [= <-].
Qed.

Definition test_store : FSStore := NewFSStore "artifacts/../store" "acme" "../..".
Definition test_artifact : Artifact := {|
  a_Metadata := {| art_ID := "a/b"; art_PolicyID := "p"; art_ArtifactType := "runtime_bundle"; art_KNI := ""; art_SourcePath := "";
    art_SourceCommit := ""; art_CorrelationID := ""; art_CreatedAt := 0; art_Digests := [] |};
  a_Payload := "{}" |}.

Definition empty_disk (space : nat) : Disk := {| dk_Files := ∅; dk_Space := space |}.

(** What a full disk cuts short stays under the name of the artifact: there is no room for the
    first attempt, and when there is room again the store refuses the same artifact for good. *)
Example half_written_refused :
  let d := (FSStore_Put test_store test_artifact (empty_disk 1)).2 in
  (FSStore_Put test_store test_artifact {| dk_Files := dk_Files d; dk_Space := 100 |}).1 =
  Err (Errorf "artifact path exists with different content: %s"
    [AStr ("/srv/store/acme/___/runtime_bundle/uncommitted/a_b-" +:+ sha256_hex "{}" +:+ ".json")]).
Proof. vm_compute. reflexivity. Qed.

Lemma FSStore_Put_sound_witness : ∃ ref d path,
  FSStore_Put test_store test_artifact (empty_disk 100) = (Ok ref, d) ∧
  ref_URI ref = "fs://" +:+ path ∧ has_prefix "/srv/store/acme/___/" path = true ∧
  dk_Files d !! path = Some "{}" ∧ (FSStore_Get ref d).1 = Ok "{}".
Proof.
  assert (Hrun : (λ ref, has_prefix "fs:///srv/store/acme/___/" (ref_URI ref)) <$> (FSStore_Put test_store test_artifact (empty_disk 100)).1 = Ok true)
    by (vm_compute; reflexivity).
  assert (Hget : (ref ← (FSStore_Put test_store test_artifact (empty_disk 100)).1;
      (FSStore_Get ref (FSStore_Put test_store test_artifact (empty_disk 100)).2).1) = Ok "{}") by (vm_compute; reflexivity).
  destruct (FSStore_Put test_store test_artifact (empty_disk 100)) as [[ref|] d] eqn:E; [|discriminate Hrun].
  destruct (FSStore_Put_sound dk_Files test_disk_lawful test_store test_artifact (empty_disk 100) (Ok ref) d) as [_ H];
    [intros wd w1 Hwd; injection Hwd as <- _; reflexivity|exact E|].
  destruct (H ref eq_refl) as (_ & es & parts & path & data & Hu & _ & _ & _ & _ & Hd & _ & Hnew & _).
  exists ref, d, path. cbn [fst snd] in Hrun, Hget. injection Hrun as Hrun. rewrite Hu in Hrun.
  split; [reflexivity|]. split; [exact Hu|]. split; [exact Hrun|]. split; [|exact Hget].
  rewrite Hd, (Hnew (lookup_empty _)). reflexivity.
Defined.
