(* ===== verification/Daemon.v ===== *)
(** * The daemon of a KLIQ (cmd/kliq/run.go)

    One cycle: poll the assignment or load the bundle, read the signals of the adapters,
    execute the pending decisions, report, reconcile and upload the audit spool.  The
    daemon is a state of its own beside the running KLIQ; log lines are left out. *)

From stdpp Require Import options.
From stdpp Require Import gmap.
From S2P Require Import Prelude IO GoStrings GoTime GoDuration GoJson GoEncoding GoPath GoFloat.
From S2P Require Import Risk Signing Domain Artifacts Authn BundleSource StateTypes SqliteLeases.
From S2P Require Import SqliteAudit SqliteAssignments Baseline SqliteBaseline Registry.
From S2P Require Import BaselineEngine LocalRisk Store Plan Management ManagerPlan ManagerExec.
From S2P Require Import ManagerReconcile KLIQStatus KLIQInput.
#[local] Open Scope Z_scope.

Definition kliqRunModeManaged := "managed".
Definition kliqRunModeStandalone := "standalone".

Record runOptions := {
  ro_Mode : string;
  ro_StatePath : string;
  ro_TrustBundlePath : string;
  ro_DevAllowPrivateKey : bool;
  ro_ForgeURL : string;
  ro_BundleSource : string;
  ro_PollInterval : duration;
  ro_HeartbeatInterval : duration;
  ro_StatusInterval : duration;
  ro_DecisionInterval : duration;
  ro_SignalInterval : duration;
  ro_ReconcileInterval : duration;
  ro_AuditFlushInterval : duration;
  ro_DecisionSource : string;
  ro_BaselineRiskRecipe : string;
  ro_BaselineMinSamples : Z;
  ro_Once : bool;
  ro_Production : bool;
  ro_Adapters : list string;
  ro_DevInsecureForgeTransport : bool;
  ro_AdapterTransport : adapterTransportOptions;
}.

(** The intervals a management profile may set. *)
Record intervals := {
  iv_Poll : duration;
  iv_Heartbeat : duration;
  iv_Status : duration;
  iv_Decision : duration;
  iv_Reconcile : duration;
  iv_AuditFlush : duration;
}.

Definition intervals_of (o : runOptions) : intervals := {|
  iv_Poll := ro_PollInterval o; iv_Heartbeat := ro_HeartbeatInterval o;
  iv_Status := ro_StatusInterval o; iv_Decision := ro_DecisionInterval o;
  iv_Reconcile := ro_ReconcileInterval o; iv_AuditFlush := ro_AuditFlushInterval o |}.

Definition with_intervals (i : intervals) (o : runOptions) : runOptions := {|
  ro_Mode := ro_Mode o; ro_StatePath := ro_StatePath o; ro_TrustBundlePath := ro_TrustBundlePath o;
  ro_DevAllowPrivateKey := ro_DevAllowPrivateKey o; ro_ForgeURL := ro_ForgeURL o;
  ro_BundleSource := ro_BundleSource o; ro_PollInterval := iv_Poll i;
  ro_HeartbeatInterval := iv_Heartbeat i; ro_StatusInterval := iv_Status i;
  ro_DecisionInterval := iv_Decision i; ro_SignalInterval := ro_SignalInterval o;
  ro_ReconcileInterval := iv_Reconcile i; ro_AuditFlushInterval := iv_AuditFlush i;
  ro_DecisionSource := ro_DecisionSource o; ro_BaselineRiskRecipe := ro_BaselineRiskRecipe o;
  ro_BaselineMinSamples := ro_BaselineMinSamples o; ro_Once := ro_Once o;
  ro_Production := ro_Production o; ro_Adapters := ro_Adapters o;
  ro_DevInsecureForgeTransport := ro_DevInsecureForgeTransport o;
  ro_AdapterTransport := ro_AdapterTransport o |}.

(** The gRPC client of an adapter: its runtime actions and its signals. *)
Record AdapterServiceClient {W : Type} := {
  asc_Runtime : RuntimeActionClient W;
  asc_ReadSignals : string → io W (list (option Signal));
}.
Arguments AdapterServiceClient W : clear implicits.

(** [grpcAdapterSignalReader] *)
Record SignalReader {W : Type} := {
  rdr_adapterID : string;
  rdr_client : option (AdapterServiceClient W);
}.
Arguments SignalReader W : clear implicits.

Record runDaemon {W : Type} := {
  d_opts : runOptions;
  d_Verifier : option (Verifier W);
  d_TrustBundle : TrustBundle;
  d_Registry : option (StaticAdapterRuntimeRegistry (W := W));
  d_credential : KLIQCredential;
  d_decisions : option DecisionSource;
  d_signalReaders : gmap string (SignalReader W);
  d_baselineSamples : gmap string (list Sample);
  d_findings : list string;
}.
Arguments runDaemon W : clear implicits.

(** The code a message is encoded and an answer decoded with. *)
Class ForgeCodecs := {
  encode_Heartbeat : KLIQHeartbeat → result string;
  encode_StatusReport : KLIQStatusReport → result string;
  encode_AuditUpload : KLIQAuditUpload → result string;
  decode_AuditUploadAck : string → result KLIQAuditUploadAck;
  decode_tokenRefresh : string → result (string * time);
}.

(** Third-party transport: reading the TLS material of the adapters, and
    [grpc.NewClient]. *)
Class AdapterDial (W : Type) := {
  load_adapter_tls : adapterTransportOptions → result unit;
  grpc_NewClient : string → adapterTransportOptions → result (AdapterServiceClient W);
}.

(** ** Checks of the options *)

Definition validateKLIQProductionOptions `{URLParser} (o : runOptions) : result unit :=
  reject ro_Mode o !=s kliqRunModeManaged with Errorf "production KLIQ requires --mode managed" [];;
  reject ro_Once o with Errorf "production KLIQ forbids --once" [];;
  reject ro_DevAllowPrivateKey o
    with Errorf "production KLIQ forbids --dev-allow-private-trust-key" [];;
  reject ro_DevInsecureForgeTransport o
    with Errorf "production KLIQ forbids --dev-insecure-forge-transport" [];;
  reject ato_DevInsecureAdapterTransport (ro_AdapterTransport o)
    with Errorf "production KLIQ forbids --dev-insecure-adapter-transport" [];;
  reject negb (blank (ro_DecisionSource o))
    with Errorf "production KLIQ forbids local --decision-source" [];;
  reject negb (Nat.eqb (length (ro_Adapters o)) 0)
    with Errorf "production KLIQ forbids bootstrap --adapter endpoints; use signed adapter_assignment artifacts" [];;
  validateSecureForgeURL (ro_ForgeURL o) false.

Section adapters.
Context {W : Type} {AD : AdapterDial W}.

Definition adapterDialOptions (o : adapterTransportOptions) : result unit :=
  if ato_DevInsecureAdapterTransport o then Ok tt else
  reject blank (ato_CAPath o) || blank (ato_ClientCertPath o) || blank (ato_ClientKeyPath o)
    with Errorf "adapter transport requires --adapter-ca, --adapter-client-cert and --adapter-client-key unless --dev-insecure-adapter-transport is set" [];;
  load_adapter_tls o.

(** The entries of the registry and the readers, as they are collected. *)
Definition connections : Type :=
  list (StaticAdapterRuntimeEntry (W := W)) * gmap string (SignalReader W).

Definition connect (acc : connections) (adapterID endpoint : string) (transport : adapterTransportOptions)
    : result connections :=
  _ ← adapterDialOptions transport;
  client ← grpc_NewClient endpoint transport;
  Ok (acc.1 ++ [{| are_AdapterID := adapterID;
                   are_Executor := Some (AdapterRuntimeExecutor (Some (asc_Runtime client))) |}],
      <[adapterID := {| rdr_adapterID := adapterID; rdr_client := Some client |}]> acc.2).

Definition cut_equals (value : string) : option (string * string) :=
  match split_char (ascii_of_byte 61) value with
  | before :: after => if Nat.eqb (length after) 0 then None else Some (before, join "=" after)
  | [] => None
  end.

Example cut_ex : cut_equals <$> ["a=b=c"; "a="; "a"] = [Some ("a", "b=c"); Some ("a", ""); None].
Proof. reflexivity. Qed.

(** [None] is a nil registry. *)
Definition adapterRegistryAndSignalsFromFlags (values : list string) (transport : adapterTransportOptions)
    : result (option (StaticAdapterRuntimeRegistry (W := W)) * gmap string (SignalReader W)) :=
  match values with
  | [] => Ok (None, ∅)
  | _ =>
      '(entries, readers) ← for_fold (λ acc value,
        match cut_equals value with
        | Some (adapterID, addr) =>
            reject blank adapterID || blank addr with Errorf "adapter must be adapter_id=host:port" [];;
            connect acc (trim_space adapterID) (trim_space addr) transport
        | None => Err (Errorf "adapter must be adapter_id=host:port" [])
        end) ([], ∅) values;
      Ok (Some (NewStaticAdapterRuntimeRegistry entries), readers)
  end.

Definition adapterRegistryAndSignalsFromAssignments (assignments : list AdapterAssignment)
    (transport : adapterTransportOptions)
    : result (StaticAdapterRuntimeRegistry (W := W) * gmap string (SignalReader W)) :=
  '(entries, readers) ← for_fold (λ acc assignment,
    let adapterID := trim_space (adp_AdapterID assignment) in
    let endpoint := trim_space (adp_Endpoint assignment) in
    reject empty_str adapterID || empty_str endpoint
      with Errorf "adapter assignment requires adapter_id and endpoint" [];;
    connect acc adapterID endpoint (adapterTransportForAssignment transport assignment))
    ([], ∅) assignments;
  Ok (NewStaticAdapterRuntimeRegistry entries, readers).
End adapters.

(** ** The state *)

Abbreviation Daemon W := (runDaemon W * KLIQ W)%type.

Section daemon.
Context {GR : GoRuntime} {ED : Ed25519} {JD : JSONDecoders} {KD : KeyDecoders} {SC : StateCodecs}.
Context {TC : TokenCodecs} {FC : ForgeCodecs} {UP : URLParser} {UF : UnicodeFold} {SD : SignalDecoder}.
Context {FS : Files} {W : Type} {KW : KLIQWorld W} {AD : AdapterDial W}.
(** [http.Client.Do] of a GET and of a POST (URL, bearer token, body), the payload member
    of an envelope, and [filepath.Glob]. *)
Context (http_get : string → string → io W HTTPResponse).
Context (http_post : string → string → string → io W HTTPResponse).
Context (decode_EnvelopePayload : string → result string).
Context (glob : string → result (list string)).

Definition on_k {A} (m : io (KLIQ W) A) : io (Daemon W) A := zoom snd (λ k d, (d.1, k)) m.
Definition on_daemon (f : runDaemon W → runDaemon W) : io (Daemon W) unit := modify (prod_map f id).
Definition daemon {A} (f : runDaemon W → A) : io (Daemon W) A := gets (λ d, f d.1).
Definition d_now : io (Daemon W) time := on_k now.

Definition manager (d : runDaemon W) : Manager W := {|
  m_Store := true; m_Verifier := d_Verifier d; m_Registry := Registry_Get <$> d_Registry d |}.

Definition set_opts (o : runOptions) (d : runDaemon W) : runDaemon W := {|
  d_opts := o; d_Verifier := d_Verifier d; d_TrustBundle := d_TrustBundle d;
  d_Registry := d_Registry d; d_credential := d_credential d; d_decisions := d_decisions d;
  d_signalReaders := d_signalReaders d; d_baselineSamples := d_baselineSamples d;
  d_findings := d_findings d |}.
Definition set_adapters registry readers (d : runDaemon W) : runDaemon W := {|
  d_opts := d_opts d; d_Verifier := d_Verifier d; d_TrustBundle := d_TrustBundle d;
  d_Registry := Some registry; d_credential := d_credential d; d_decisions := d_decisions d;
  d_signalReaders := readers; d_baselineSamples := d_baselineSamples d;
  d_findings := d_findings d |}.
Definition set_credential (c : KLIQCredential) (d : runDaemon W) : runDaemon W := {|
  d_opts := d_opts d; d_Verifier := d_Verifier d; d_TrustBundle := d_TrustBundle d;
  d_Registry := d_Registry d; d_credential := c; d_decisions := d_decisions d;
  d_signalReaders := d_signalReaders d; d_baselineSamples := d_baselineSamples d;
  d_findings := d_findings d |}.
Definition set_decisions (s : DecisionSource) (d : runDaemon W) : runDaemon W := {|
  d_opts := d_opts d; d_Verifier := d_Verifier d; d_TrustBundle := d_TrustBundle d;
  d_Registry := d_Registry d; d_credential := d_credential d; d_decisions := Some s;
  d_signalReaders := d_signalReaders d; d_baselineSamples := d_baselineSamples d;
  d_findings := d_findings d |}.
Definition set_samples (samples : gmap string (list Sample)) (d : runDaemon W) : runDaemon W := {|
  d_opts := d_opts d; d_Verifier := d_Verifier d; d_TrustBundle := d_TrustBundle d;
  d_Registry := d_Registry d; d_credential := d_credential d; d_decisions := d_decisions d;
  d_signalReaders := d_signalReaders d; d_baselineSamples := samples;
  d_findings := d_findings d |}.
Definition set_findings (findings : list string) (d : runDaemon W) : runDaemon W := {|
  d_opts := d_opts d; d_Verifier := d_Verifier d; d_TrustBundle := d_TrustBundle d;
  d_Registry := d_Registry d; d_credential := d_credential d; d_decisions := d_decisions d;
  d_signalReaders := d_signalReaders d; d_baselineSamples := d_baselineSamples d;
  d_findings := findings |}.

(** ** Findings *)

Definition recordFinding (finding : string) : io (Daemon W) unit :=
  on_daemon (λ d,
    let finding := trim_space finding in
    if empty_str finding then d else set_findings (d_findings d ++ [finding]) d).

Definition statusFindings (snapshotFindings : list string) (d : runDaemon W) : list string :=
  sort_by str_leb (snapshotFindings ++ d_findings d).

Definition clearFindings : io (Daemon W) unit := on_daemon (set_findings []).

(** ** The service token *)

Definition with_token (token : string) (expiresAt updatedAt : time) (status : string)
    (c : KLIQCredential) : KLIQCredential := {|
  cred_KLIQID := cred_KLIQID c; cred_NodeID := cred_NodeID c; cred_Environment := cred_Environment c;
  cred_Stage := cred_Stage c; cred_Scope := cred_Scope c; cred_TrustKeyID := cred_TrustKeyID c;
  cred_AssignmentURL := cred_AssignmentURL c; cred_PublicKeyPEM := cred_PublicKeyPEM c;
  cred_PrivateKeyPEM := cred_PrivateKeyPEM c;
  cred_ServiceIdentityProvider := cred_ServiceIdentityProvider c; cred_SPIFFEID := cred_SPIFFEID c;
  cred_CredentialStatus := status; cred_ServiceToken := token;
  cred_ServiceTokenExpiresAt := expiresAt; cred_CreatedAt := cred_CreatedAt c;
  cred_UpdatedAt := updatedAt |}.

(** The credential in memory is changed first, then saved. *)
Definition save_credential (c : KLIQCredential) : io (Daemon W) unit :=
  _ ← on_daemon (set_credential c);
  wall ← on_k wall;
  on_k (store_write (on_assign (SaveKLIQCredential wall c))).

Definition local_identity (c : KLIQCredential) : KLIQIdentity := {|
  id_IdentityID := ""; id_KLIQID := cred_KLIQID c; id_NodeID := cred_NodeID c;
  id_Environment := cred_Environment c; id_Stage := cred_Stage c; id_Scope := cred_Scope c;
  id_TrustKeyID := cred_TrustKeyID c; id_PublicKeyPEM := cred_PublicKeyPEM c; id_CSRPEM := "";
  id_ServiceIdentityProvider := cred_ServiceIdentityProvider c; id_SPIFFEID := cred_SPIFFEID c;
  id_CredentialStatus := cred_CredentialStatus c; id_CredentialExpiresAt := 0; id_Status := "";
  id_IssuedAt := 0; id_RevokedAt := 0; id_RevokedReason := "" |}.

Definition refreshLocalIdentityServiceToken : io (Daemon W) unit :=
  c ← daemon d_credential;
  token ← on_k (IssueKLIQIdentitySignedToken now (local_identity c) (cred_PrivateKeyPEM c)
                  (24 * 3600 * second));
  expiresAt ← lift (serviceTokenExpiresAt token);
  updatedAt ← d_now;
  save_credential (with_token token expiresAt updatedAt (cred_CredentialStatus c) c).

Definition forge_url (c : KLIQCredential) (path : string) : string :=
  trim_right_char slash (cred_AssignmentURL c) +:+ path.

Definition refreshServiceToken : io (Daemon W) unit :=
  c ← daemon d_credential;
  o ← daemon d_opts;
  _ ← lift (validateSecureForgeURL (cred_AssignmentURL c) (ro_DevInsecureForgeTransport o));
  resp ← on_k (in_world (http_post (forge_url c "/v1/kliq/service-token/refresh") (cred_ServiceToken c) ""));
  deny (resp_StatusCode resp <? 200) || (300 <=? resp_StatusCode resp)
    with Errorf "service token refresh returned %s: %s"
           [AStr (resp_Status resp); AStr (trim_space (take_string 1024 (resp_Body resp)))];;
  '(token, parsedExpiry) ← lift (decode_tokenRefresh (resp_Body resp));
  deny empty_str token with Errorf "service token refresh response missing token" [];;
  expiresAt ← lift (serviceTokenExpiresAt token);
  let expiresAt := if IsZero parsedExpiry then expiresAt else parsedExpiry in
  updatedAt ← d_now;
  let status := if blank (cred_CredentialStatus c) then "active" else cred_CredentialStatus c in
  save_credential (with_token token expiresAt updatedAt status c).

Definition ensureServiceTokenFresh : io (Daemon W) unit :=
  c ← daemon d_credential;
  deny EqualFold (trim_space (cred_CredentialStatus c)) "revoked"
    with Errorf "local KLIQ service credential is revoked" [];;
  deny empty_str (cred_ServiceToken c)
    with Errorf "managed mode requires local KLIQ service token" [];;
  if IsZero (cred_ServiceTokenExpiresAt c) then mret tt else
  now ← d_now;
  if negb (Before now (cred_ServiceTokenExpiresAt c)) then
    if isKLIQIdentitySignedToken (cred_ServiceToken c) then refreshLocalIdentityServiceToken
    else fail (Errorf "local KLIQ service token is expired" [])
  else if cred_ServiceTokenExpiresAt c - now <=? 5 * 60 * second then
    if isKLIQIdentitySignedToken (cred_ServiceToken c) then refreshLocalIdentityServiceToken
    else refreshServiceToken
  else mret tt.

(** ** Messages to Forge *)

Definition postManagedJSONResponse {A} (path : string) (value : result string) (response : string → result A)
    : io (Daemon W) A :=
  _ ← ensureServiceTokenFresh;
  c ← daemon d_credential;
  o ← daemon d_opts;
  _ ← lift (validateSecureForgeURL (cred_AssignmentURL c) (ro_DevInsecureForgeTransport o));
  data ← lift value;
  resp ← on_k (in_world (http_post (forge_url c path) (cred_ServiceToken c) data));
  deny (resp_StatusCode resp <? 200) || (300 <=? resp_StatusCode resp)
    with Errorf "%s returned %s: %s"
           [AStr path; AStr (resp_Status resp); AStr (trim_space (take_string 1024 (resp_Body resp)))];;
  lift (response (resp_Body resp)).

Definition postManagedJSON (path : string) (value : result string) : io (Daemon W) unit :=
  postManagedJSONResponse path value (λ _, Ok tt).

Definition zero_KLIQManagementState : KLIQManagementState := {|
  ms_KLIQID := ""; ms_ActiveAssignmentID := ""; ms_ActiveAssignmentVersion := 0;
  ms_ActiveAssignmentSourceCommit := ""; ms_ActiveAssignmentDigest := "";
  ms_ActiveAssignmentExpiresAt := 0; ms_ActiveAssignmentActivatedAt := 0 |}.

Definition zero_BundleRecord : BundleRecord := {|
  bun_BundleID := ""; bun_PolicyID := ""; bun_SourceCommit := ""; bun_CorrelationID := "";
  bun_KeyID := ""; bun_PayloadSHA256 := ""; bun_BundleSource := ""; bun_EnvelopeJSON := "";
  bun_ExpiresAt := 0; bun_VerifiedAt := 0 |}.

(** What a read answers, or a default when it fails. *)
Definition or_zero {S A} (zero : A) (m : io S A) : io S A :=
  r ← attempt m; mret (match r with Ok a => a | Err _ => zero end).

Definition activeAssignment : io (Daemon W) KLIQManagementState :=
  c ← daemon d_credential;
  if empty_str (cred_KLIQID c) then mret zero_KLIQManagementState else
  or_zero zero_KLIQManagementState
    (on_k (store_read (λ db, get_KLIQManagementState (cred_KLIQID c) (db_assign db)))).

Definition activeBundle : io (Daemon W) BundleRecord := or_zero zero_BundleRecord (on_k store_LastBundle).

Definition sendHeartbeat : io (Daemon W) unit :=
  assignment ← activeAssignment;
  bundle ← activeBundle;
  c ← daemon d_credential;
  reportedAt ← d_now;
  postManagedJSON "/v1/kliq/heartbeat" (encode_Heartbeat {|
    hb_KLIQID := cred_KLIQID c; hb_Environment := cred_Environment c; hb_Stage := cred_Stage c;
    hb_Scope := cred_Scope c; hb_Version := "";
    hb_AssignmentID := ms_ActiveAssignmentID assignment;
    hb_AssignmentVersion := ms_ActiveAssignmentVersion assignment;
    hb_BundleID := bun_BundleID bundle; hb_SourceCommit := bun_SourceCommit bundle;
    hb_Status := "ok"; hb_Findings := []; hb_ReportedAt := reportedAt |}).

Definition sendStatusReport : io (Daemon W) unit :=
  assignment ← activeAssignment;
  bundle ← activeBundle;
  actions ← or_zero [] (on_k store_AllLeases);
  audits ← or_zero [] (on_k store_PendingAudits);
  d ← daemon id;
  snapshot ← or_zero zero_statusSnapshot
    (on_k (buildStatusSnapshot (ro_StatePath (d_opts d)) (Registry_List <$> d_Registry d)));
  reportedAt ← d_now;
  let c := d_credential d in
  _ ← postManagedJSON "/v1/kliq/status-reports" (encode_StatusReport {|
    sr_KLIQID := cred_KLIQID c; sr_Environment := cred_Environment c; sr_Stage := cred_Stage c;
    sr_Scope := cred_Scope c; sr_AssignmentID := ms_ActiveAssignmentID assignment;
    sr_AssignmentVersion := ms_ActiveAssignmentVersion assignment;
    sr_BundleID := bun_BundleID bundle; sr_SourceCommit := bun_SourceCommit bundle;
    sr_Status := "ok"; sr_Findings := statusFindings (ss_Findings snapshot) d;
    sr_RuntimeActions := Z.of_nat (length actions);
    sr_PendingAudits := Z.of_nat (length audits);
    sr_AdapterHealth := adapterHealthSummary (ss_Adapters snapshot);
    sr_RuntimeSummary := runtimeSummary (ss_RuntimeCounts snapshot);
    sr_AuditSpoolState := auditSpoolState (Z.of_nat (length audits));
    sr_ReportedAt := reportedAt |});
  clearFindings.
End daemon.
