(* ===== verification/DaemonCycle.v ===== *)
(** * The cycle of a KLIQ daemon (cmd/kliq/run.go, continued)

    Activation of what an assignment carries, adapter signals and baselines, decisions,
    reconciliation, the audit spool, and the cycle that runs them in order. *)

From stdpp Require Import options.
From stdpp Require Import gmap.
From S2P Require Import Prelude IO GoStrings GoTime GoDuration GoJson GoEncoding GoPath GoFloat.
From S2P Require Import Risk Signing Domain Artifacts Authn BundleSource StateTypes SqliteLeases.
From S2P Require Import SqliteAudit SqliteAssignments Baseline SqliteBaseline Registry.
From S2P Require Import BaselineEngine LocalRisk Store Plan Management ManagerPlan ManagerExec.
From S2P Require Import ManagerReconcile KLIQStatus KLIQInput Daemon.
#[local] Open Scope Z_scope.

(** ** The groups of tables the manager does not use *)

Definition set_baseline (t : BaselineTables) (db : SQLiteStore) : SQLiteStore :=
  {| db_assign := db_assign db; db_actions := db_actions db; db_audit := db_audit db;
     db_baseline := t; db_risk := db_risk db |}.
Definition set_risk (t : list RiskCacheRow) (db : SQLiteStore) : SQLiteStore :=
  {| db_assign := db_assign db; db_actions := db_actions db; db_audit := db_audit db;
     db_baseline := db_baseline db; db_risk := t |}.
Definition on_baseline {A} (m : io BaselineTables A) : io SQLiteStore A := zoom db_baseline set_baseline m.
Definition on_risk {A} (m : io (list RiskCacheRow) A) : io SQLiteStore A := zoom db_risk set_risk m.

Section cycle.
Context {GR : GoRuntime} {ED : Ed25519} {JD : JSONDecoders} {KD : KeyDecoders} {SC : StateCodecs}.
Context {TC : TokenCodecs} {FC : ForgeCodecs} {UP : URLParser} {UF : UnicodeFold} {SD : SignalDecoder}.
Context {FS : Files} {W : Type} {KW : KLIQWorld W} {AD : AdapterDial W}.
Context (http_get : string → string → io W HTTPResponse).
Context (http_post : string → string → string → io W HTTPResponse).
Context (decode_EnvelopePayload : string → result string).
Context (glob : string → result (list string)).

Notation post path value response := (postManagedJSONResponse http_post path value response).

(** ** Activation of an assignment's artifacts *)

(** One field of the profile, in the order of the code: a wrong one leaves the options
    as the ones before it have set them. *)
Definition apply_interval (value field : string) (set : duration → intervals → intervals)
    : io (Daemon W) unit :=
  interval ← lift (profileDuration value field);
  match interval with
  | None => mret tt
  | Some interval =>
      on_daemon (λ d, set_opts (with_intervals (set interval (intervals_of (d_opts d))) (d_opts d)) d)
  end.

Definition set_iv_Poll x i := {| iv_Poll := x; iv_Heartbeat := iv_Heartbeat i; iv_Status := iv_Status i;
  iv_Decision := iv_Decision i; iv_Reconcile := iv_Reconcile i; iv_AuditFlush := iv_AuditFlush i |}.
Definition set_iv_Heartbeat x i := {| iv_Poll := iv_Poll i; iv_Heartbeat := x; iv_Status := iv_Status i;
  iv_Decision := iv_Decision i; iv_Reconcile := iv_Reconcile i; iv_AuditFlush := iv_AuditFlush i |}.
Definition set_iv_Status x i := {| iv_Poll := iv_Poll i; iv_Heartbeat := iv_Heartbeat i; iv_Status := x;
  iv_Decision := iv_Decision i; iv_Reconcile := iv_Reconcile i; iv_AuditFlush := iv_AuditFlush i |}.
Definition set_iv_Decision x i := {| iv_Poll := iv_Poll i; iv_Heartbeat := iv_Heartbeat i;
  iv_Status := iv_Status i; iv_Decision := x; iv_Reconcile := iv_Reconcile i; iv_AuditFlush := iv_AuditFlush i |}.
Definition set_iv_Reconcile x i := {| iv_Poll := iv_Poll i; iv_Heartbeat := iv_Heartbeat i;
  iv_Status := iv_Status i; iv_Decision := iv_Decision i; iv_Reconcile := x; iv_AuditFlush := iv_AuditFlush i |}.
Definition set_iv_AuditFlush x i := {| iv_Poll := iv_Poll i; iv_Heartbeat := iv_Heartbeat i;
  iv_Status := iv_Status i; iv_Decision := iv_Decision i; iv_Reconcile := iv_Reconcile i; iv_AuditFlush := x |}.

Definition applyManagedManagementProfile : io (Daemon W) unit :=
  c ← daemon d_credential;
  record ← attempt (on_k (store_read (λ db,
             ActiveArtifact (cred_KLIQID c) "management_profile" (db_assign db))));
  match record with
  | Err e => if error_is e ErrNotFound then mret tt else fail e
  | Ok record =>
      profile ← lift (decode_ManagementProfile (act_PayloadJSON record));
      _ ← apply_interval (mp_PollInterval profile) "poll_interval" set_iv_Poll;
      _ ← apply_interval (mp_HeartbeatInterval profile) "heartbeat_interval" set_iv_Heartbeat;
      _ ← apply_interval (mp_StatusInterval profile) "status_interval" set_iv_Status;
      _ ← apply_interval (mp_DecisionInterval profile) "decision_interval" set_iv_Decision;
      _ ← apply_interval (mp_ReconcileInterval profile) "reconcile_interval" set_iv_Reconcile;
      apply_interval (mp_AuditFlushInterval profile) "audit_flush_interval" set_iv_AuditFlush
  end.

(** The adapter assignments among the artifacts. *)
Definition adapter_assignments (artifacts : list AssignmentArtifactRecord) : result (list AdapterAssignment) :=
  for_fold (λ acc artifact,
    if aar_ArtifactType artifact !=s "adapter_assignment" then Ok acc else
    payload ← decode_EnvelopePayload (aar_EnvelopeJSON artifact);
    assignment ← decode_AdapterAssignment payload;
    reject blank (adp_AdapterID assignment) || blank (adp_Endpoint assignment)
      with Errorf "adapter assignment %q requires adapter_id and endpoint" [AStr (aar_ArtifactID artifact)];;
    Ok (acc ++ [assignment])) [] artifacts.

Definition activateManagedArtifacts : io (Daemon W) unit :=
  _ ← applyManagedManagementProfile;
  c ← daemon d_credential;
  artifacts ← on_k (store_read (λ db, AssignmentArtifacts (cred_KLIQID c) (db_assign db)));
  assignments ← lift (adapter_assignments artifacts);
  if Nat.eqb (length assignments) 0 then mret tt else
  o ← daemon d_opts;
  '(registry, readers) ← lift (adapterRegistryAndSignalsFromAssignments assignments (ro_AdapterTransport o));
  on_daemon (set_adapters registry readers).

(** ** Assignments and bundles *)

Definition managed_source (d : runDaemon W) : ManagedAssignmentSource W := {|
  mas_BaseURL := cred_AssignmentURL (d_credential d);
  mas_BearerToken := cred_ServiceToken (d_credential d);
  mas_KLIQID := cred_KLIQID (d_credential d);
  mas_Environment := cred_Environment (d_credential d);
  mas_Stage := cred_Stage (d_credential d);
  mas_Scope := cred_Scope (d_credential d);
  mas_TrustKeyID := cred_TrustKeyID (d_credential d);
  mas_TrustBundle := d_TrustBundle d;
  mas_ActiveAssignmentVersion := 0; mas_ActiveAssignmentDigest := "";
  mas_Verifier := d_Verifier d;
  mas_assignment := zero_KLIQAssignment; mas_assignmentDigest := "" |}.

(** The source is made for the call and dropped after it. *)
Definition load_managed (m : Manager W) (source : ManagedAssignmentSource W) : io (KLIQ W) BundleRecord :=
  λ k, let r := LoadManagedBundle http_get decode_EnvelopePayload m (source, k) in (r.1, r.2.2).

Definition managedPollFallback (pollErr : error) : io (Daemon W) unit :=
  record ← attempt (on_k store_LastBundle);
  match record with
  | Err _ => fail pollErr
  | Ok record =>
      now ← d_now;
      deny negb (Before now (bun_ExpiresAt record))
        with Wrapf "managed assignment poll failed and cached bundle is expired: %w" [] pollErr;;
      mret tt
  end.

Definition pollManagedAssignment : io (Daemon W) unit :=
  _ ← ensureServiceTokenFresh http_post;
  d ← daemon id;
  record ← attempt (on_k (load_managed (manager d) (managed_source d)));
  match record with
  | Err e =>
      _ ← recordFinding ("assignment poll failed; using cached assignment if still valid: " +:+ error_text e);
      managedPollFallback e
  | Ok _ =>
      _ ← ignore (on_k (store_read (λ db,
            get_KLIQManagementState (cred_KLIQID (d_credential d)) (db_assign db))));
      activated ← attempt activateManagedArtifacts;
      match activated with
      | Err e => recordFinding ("managed assignment artifact activation failed: " +:+ error_text e)
      | Ok _ => mret tt
      end
  end.

(** [LocalFileSource] *)
Definition local_file (path : string) : Source (W := W) := lift (data ← os_ReadFile path; Ok (data, path)).

Definition loadStandaloneBundle : io (Daemon W) unit :=
  d ← daemon id;
  let path := trim_prefix "file://" (trim_space (ro_BundleSource (d_opts d))) in
  deny empty_str path with Errorf "standalone mode requires --bundle-source file://path" [];;
  resolvedPath ← lift (resolveStandaloneBundlePath glob path);
  _ ← on_k (LoadBundle (manager d) (local_file resolvedPath));
  mret tt.

Definition loadOrPoll : io (Daemon W) unit :=
  o ← daemon d_opts;
  if ro_Mode o ==s kliqRunModeManaged then pollManagedAssignment else
  if ro_Mode o ==s kliqRunModeStandalone then loadStandaloneBundle else
  fail (Errorf "unsupported kliq run mode %q" [AStr (ro_Mode o)]).

(** ** Reconciliation and decisions *)

Definition reconcile : io (Daemon W) unit :=
  _ ← activeAssignment;
  d ← daemon id;
  result ← attempt (on_k (Reconcile (manager d)));
  match result with
  | Err e => if error_is e ErrNotFound then mret tt else fail e
  | Ok _ => mret tt
  end.

(** The loop ends where the source does; the fuel is more than what is left in it. *)
Fixpoint decision_loop (fuel : nat) : io (Daemon W) unit :=
  match fuel with
  | O => fail (Sentinel "decision loop out of fuel")
  | S fuel =>
      d ← daemon id;
      match d_decisions d with
      | None => mret tt
      | Some source =>
          match NextDecision source with
          | None => mret tt
          | Some (req, source) =>
              _ ← on_daemon (set_decisions source);
              _ ← on_k (ExecuteAction (manager d) req);
              decision_loop fuel
          end
      end
  end.

Definition remaining (s : DecisionSource) : nat := length (fds_requests s) - fds_index s.

Definition processRuntimeDecisions : io (Daemon W) unit :=
  source ← daemon d_decisions;
  match source with
  | None => mret tt
  | Some source => decision_loop (S (remaining source))
  end.

(** ** Signals and baselines *)

(** The stores the engine and the evaluator are given. *)
Definition daemon_baselines : BaselineStore (KLIQ W) := {|
  bst_SaveBaselineWindow window := store_write (on_baseline (SaveBaselineWindow window));
  bst_SaveBaselineVersion version stats :=
    now ← wall; store_write (on_baseline (SaveBaselineVersion now version stats));
  bst_SaveBaselineDeviation event :=
    now ← wall; store_write (on_baseline (SaveBaselineDeviation now event)) |}.

Definition daemon_risks : RiskStore (KLIQ W) := {|
  rst_SaveRiskContext key context := now ← wall; store_write (on_risk (SaveRiskContext now key context));
  rst_RiskContext key at_ := now ← wall; store_read (λ db, get_RiskContext now key at_ (db_risk db)) |}.

Definition baselineMinSamples (o : runOptions) : Z :=
  if 0 <? ro_BaselineMinSamples o then ro_BaselineMinSamples o else 5.

Definition baselineSampleBufferKey (s : Sample) : string :=
  key_View (smp_Key s) +:+ NUL +:+ key_Entity (smp_Key s) +:+ NUL +:+ smp_Metric s.

Definition with_policy_scope (recipe scope : string) (e : DeviationEvent) : DeviationEvent := {|
  dev_EventID := dev_EventID e; dev_VersionID := dev_VersionID e; dev_Key := dev_Key e;
  dev_Metric := dev_Metric e; dev_Value := dev_Value e; dev_Center := dev_Center e;
  dev_Spread := dev_Spread e; dev_Score := dev_Score e; dev_ObservedAt := dev_ObservedAt e;
  dev_EmittedAt := dev_EmittedAt e; dev_Reason := dev_Reason e; dev_Confidence := dev_Confidence e;
  dev_RiskRecipe := recipe; dev_PolicyScope := scope |}.

Definition evaluateBaselineSample (recipe : RiskRecipe) (scope : string) (sample : Sample)
    : io (KLIQ W) unit :=
  version ← store_read (λ db,
    ActiveBaselineVersion (key_View (smp_Key sample)) (key_Entity (smp_Key sample)) (db_baseline db));
  match version with
  | None => mret tt
  | Some version =>
      stats ← store_read (λ db, BaselineStats (ver_VersionID version) (smp_Metric sample) (db_baseline db));
      at_ ← now;
      w ← wall;
      match EvaluateSample w sample stats at_ with
      | None => mret tt
      | Some event =>
          let event := with_policy_scope (rcp_ID recipe) scope event in
          _ ← bst_SaveBaselineDeviation daemon_baselines event;
          _ ← EvaluateDeviation wall {| ev_Store := Some daemon_risks; ev_Now := Some now |} recipe event;
          mret tt
      end
  end.

Definition learnBaselineSample (sample : Sample) : io (Daemon W) unit :=
  d ← daemon id;
  let key := baselineSampleBufferKey sample in
  let buffer := default [] (d_baselineSamples d !! key) ++ [sample] in
  let minSamples := baselineMinSamples (d_opts d) in
  if Z.of_nat (length buffer) <? minSamples
  then on_daemon (set_samples (<[key := buffer]> (d_baselineSamples d))) else
  _ ← on_k (LearnWindow wall
        {| eng_Store := Some daemon_baselines; eng_Estimator := Some (MedianMAD_Estimate minSamples);
           eng_Now := Some now; eng_MinSamples := minSamples; eng_MinConfidence := float_of_Z 0;
           eng_MaxCleanAnomalyFraction := float_of_Z 0 |}
        buffer (float_const 9 (-1)) (float_of_Z 0) true false);
  on_daemon (set_samples (delete key (d_baselineSamples d))).

Definition processAdapterSignal (recipe : RiskRecipe) (signal : AdapterSignal) : io (Daemon W) unit :=
  if trim_space (as_AdapterID signal) !=s KLShieldAdapterID then mret tt else
  w ← on_k wall;
  samples ← lift (Project w signal);
  scope ← daemon (λ d, cred_Scope (d_credential d));
  io_fold (λ _ sample,
    _ ← on_k (evaluateBaselineSample recipe scope sample);
    learnBaselineSample sample) tt samples.

(** [grpcAdapterSignalReader.ReadSignals] *)
Definition ReadSignals (r : SignalReader W) (scope : string) : io (KLIQ W) (list AdapterSignal) :=
  match rdr_client r with
  | None => fail (Errorf "adapter signal reader %q has no client" [AStr (rdr_adapterID r)])
  | Some client =>
      signals ← in_world (asc_ReadSignals client scope);
      io_fold (λ signals signal,
        observedAt ← wall;
        converted ← lift (baselineSignalFromProto signal observedAt);
        let converted := if empty_str (as_AdapterID converted)
          then {| as_SignalID := as_SignalID converted; as_AdapterID := rdr_adapterID r;
                  as_SignalType := as_SignalType converted; as_Labels := as_Labels converted;
                  as_Metrics := as_Metrics converted; as_ObservedAt := as_ObservedAt converted |}
          else converted in
        mret (signals ++ [converted])) [] signals
  end.

Definition observed_at (now : time) (s : AdapterSignal) : AdapterSignal := {|
  as_SignalID := as_SignalID s; as_AdapterID := as_AdapterID s; as_SignalType := as_SignalType s;
  as_Labels := as_Labels s; as_Metrics := as_Metrics s; as_ObservedAt := now |}.

(** One signal; an error is a finding. *)
Definition take_signal (recipe : RiskRecipe) (adapterID : string) (signal : AdapterSignal)
    : io (Daemon W) unit :=
  signal ← (if IsZero (as_ObservedAt signal) then now ← d_now; mret (observed_at now signal)
            else mret signal);
  r ← attempt (processAdapterSignal recipe signal);
  match r with
  | Ok _ => mret tt
  | Err e => recordFinding ("adapter signal processing failed for " +:+ adapterID +:+ ": " +:+ error_text e)
  end.

Definition processAdapterSignals : io (Daemon W) unit :=
  d ← daemon id;
  if bool_decide (d_signalReaders d = ∅) then mret tt else
  recipe ← lift (localBaselineRiskRecipe (ro_BaselineRiskRecipe (d_opts d)));
  let scope := trim_space (cred_Scope (d_credential d)) in
  let scope := if empty_str scope then "local_node" else scope in
  io_fold (λ _ kv,
    signals ← attempt (on_k (ReadSignals kv.2 scope));
    match signals with
    | Err e => recordFinding ("adapter signal read failed for " +:+ kv.1 +:+ ": " +:+ error_text e)
    | Ok signals => io_fold (λ _ signal, take_signal recipe kv.1 signal) tt signals
    end) tt (map_order (map_to_list (d_signalReaders d))).

(** ** The audit spool *)

Definition audit_upload (c : KLIQCredential) (record : AuditRecord) (uploadedAt : time) : KLIQAuditUpload := {|
  up_KLIQID := cred_KLIQID c; up_Environment := cred_Environment c; up_Stage := cred_Stage c;
  up_Scope := cred_Scope c; up_AuditRecordID := au_ID record;
  up_RuntimeActionID := au_RuntimeActionID record; up_Payload := au_Payload record;
  up_PayloadSHA256 := if empty_str (au_PayloadSHA256 record) then SHA256JSON (au_Payload record)
                      else au_PayloadSHA256 record;
  up_CreatedAt := au_CreatedAt record; up_UploadedAt := uploadedAt |}.

Definition acknowledges (ack : KLIQAuditUploadAck) (record : AuditRecord) : bool :=
  (ack_Status ack ==s "accepted") && (ack_AuditRecordID ack ==s au_ID record) && (ack_AckID ack !=s "").

Definition mark_failed (record : AuditRecord) (at_ : time) (message : string) : io (Daemon W) unit :=
  ignore (on_k (store_write (on_audit (MarkAuditFailed (au_ID record) at_ message)))).

(** One record of the spool; the error is that of marking an accepted record. *)
Definition upload_record (record : AuditRecord) : io (Daemon W) unit :=
  now ← d_now;
  if negb (auditRetryDue record now) then mret tt else
  uploadedAt ← d_now;
  c ← daemon d_credential;
  ack ← attempt (post "/v1/kliq/audit-events" (encode_AuditUpload (audit_upload c record uploadedAt))
                   decode_AuditUploadAck);
  match ack with
  | Err e => mark_failed record uploadedAt (error_text e)
  | Ok ack =>
      if negb (acknowledges ack record)
      then mark_failed record uploadedAt "forge audit upload acknowledgement invalid"
      else on_k (store_write (on_audit (MarkAuditUploaded (au_ID record) uploadedAt)))
  end.

Definition flushAuditSpool : io (Daemon W) unit :=
  records ← on_k store_PendingAudits;
  o ← daemon d_opts;
  if ro_Mode o !=s kliqRunModeManaged then
    if Nat.eqb (length records) 0 then mret tt
    else recordFinding "standalone audit spool is local/offline only; use `kliq audit export` for controlled evidence export"
  else io_fold (λ _ record, upload_record record) tt records.

(** ** The cycle *)

(** An error of the ingestion of signals is a finding. *)
Definition ingest_signals : io (Daemon W) unit :=
  r ← attempt processAdapterSignals;
  match r with
  | Ok _ => mret tt
  | Err e => recordFinding ("adapter signal ingestion failed: " +:+ error_text e)
  end.

Definition runOnce : io (Daemon W) unit :=
  _ ← loadOrPoll;
  _ ← ingest_signals;
  _ ← processRuntimeDecisions;
  o ← daemon d_opts;
  _ ← (if ro_Mode o ==s kliqRunModeManaged then
         _ ← ignore (sendHeartbeat http_post); ignore (sendStatusReport http_post)
       else mret tt);
  _ ← ignore reconcile;
  flushAuditSpool.

(** What the loop does on the tick of a ticker; the answer is whether polling succeeded. *)
Inductive ticker : Type := TPoll | THeartbeat | TStatus | TDecision | TSignal | TReconcile | TAudit.

Definition on_tick (t : ticker) : io (Daemon W) bool :=
  o ← daemon d_opts;
  let managed := ro_Mode o ==s kliqRunModeManaged in
  match t with
  | TPoll => r ← attempt loadOrPoll; mret (is_Ok r)
  | THeartbeat => _ ← (if managed then ignore (sendHeartbeat http_post) else mret tt); mret false
  | TStatus => _ ← (if managed then ignore (sendStatusReport http_post) else mret tt); mret false
  | TDecision => _ ← ignore processRuntimeDecisions; mret false
  | TSignal => _ ← ingest_signals; mret false
  | TReconcile => _ ← ignore reconcile; mret false
  | TAudit => _ ← ignore flushAuditSpool; mret false
  end.
End cycle.
