(* ===== verification/DaemonLoop.v ===== *)
(** * Starting a KLIQ daemon, and its loop (cmd/kliq/run.go, [runKLIQ] and [loop])

    What is checked and loaded before the first cycle, the tickers of the loop, and
    which of the seven get their turn: a poll that succeeds resets all of them. *)

From stdpp Require Import options.
From stdpp Require Import gmap.
From S2P Require Import Prelude IO GoStrings GoTime GoDuration GoJson GoEncoding GoPath GoFloat.
From S2P Require Import Risk Signing Domain Artifacts Authn BundleSource StateTypes SqliteLeases.
From S2P Require Import SqliteAudit SqliteAssignments Baseline SqliteBaseline Registry.
From S2P Require Import BaselineEngine LocalRisk Store Plan Management ManagerPlan ManagerExec.
From S2P Require Import ManagerReconcile KLIQStatus KLIQInput Daemon DaemonCycle.
#[local] Open Scope Z_scope.

(** ** Start *)

Definition zero_KLIQCredential : KLIQCredential := {|
  cred_KLIQID := ""; cred_NodeID := ""; cred_Environment := ""; cred_Stage := ""; cred_Scope := "";
  cred_TrustKeyID := ""; cred_AssignmentURL := ""; cred_PublicKeyPEM := ""; cred_PrivateKeyPEM := "";
  cred_ServiceIdentityProvider := ""; cred_SPIFFEID := ""; cred_CredentialStatus := "";
  cred_ServiceToken := ""; cred_ServiceTokenExpiresAt := 0; cred_CreatedAt := 0; cred_UpdatedAt := 0 |}.

Definition with_url (url : string) (c : KLIQCredential) : KLIQCredential := {|
  cred_KLIQID := cred_KLIQID c; cred_NodeID := cred_NodeID c; cred_Environment := cred_Environment c;
  cred_Stage := cred_Stage c; cred_Scope := cred_Scope c; cred_TrustKeyID := cred_TrustKeyID c;
  cred_AssignmentURL := url; cred_PublicKeyPEM := cred_PublicKeyPEM c;
  cred_PrivateKeyPEM := cred_PrivateKeyPEM c;
  cred_ServiceIdentityProvider := cred_ServiceIdentityProvider c; cred_SPIFFEID := cred_SPIFFEID c;
  cred_CredentialStatus := cred_CredentialStatus c; cred_ServiceToken := cred_ServiceToken c;
  cred_ServiceTokenExpiresAt := cred_ServiceTokenExpiresAt c; cred_CreatedAt := cred_CreatedAt c;
  cred_UpdatedAt := cred_UpdatedAt c |}.

Section start.
Context {GR : GoRuntime} {ED : Ed25519} {JD : JSONDecoders} {KD : KeyDecoders} {TD : TrustDecoders}.
Context {DC : DecisionDecoders} {UP : URLParser} {FS : Files} {W : Type} {KW : KLIQWorld W} {AD : AdapterDial W}.

Definition managed_credential (o : runOptions) : io (KLIQ W) KLIQCredential :=
  credential ← wrapping "managed mode requires local KLIQ enrollment credentials: %w" []
                 (store_read (λ db, get_KLIQCredential (db_assign db)));
  let credential :=
    if empty_str (ro_ForgeURL o) then credential
    else with_url (trim_right_char slash (ro_ForgeURL o)) credential in
  deny empty_str (cred_AssignmentURL credential)
    with Errorf "managed mode requires --forge-url or an enrolled assignment_url" [];;
  _ ← lift (validateSecureForgeURL (cred_AssignmentURL credential) (ro_DevInsecureForgeTransport o));
  mret credential.

(** [runKLIQ] up to the first cycle; the HTTP client, the status server and the opening
    of the database are outside. *)
Definition start (o : runOptions) : io (KLIQ W) (runDaemon W) :=
  deny empty_str (ro_TrustBundlePath o) with Errorf "kliq run requires --trust-bundle" [];;
  _ ← lift (if ro_Production o then validateKLIQProductionOptions o else Ok tt);
  '(verifier, trustBundle) ← loadTrustVerifierForStore (ro_TrustBundlePath o) (ro_DevAllowPrivateKey o);
  '(registry, readers) ← lift (adapterRegistryAndSignalsFromFlags (ro_Adapters o) (ro_AdapterTransport o));
  decisions ← lift (if empty_str (ro_DecisionSource o) then Ok None
                    else source ← runtimeDecisionSourceFromFile (ro_DecisionSource o); Ok (Some source));
  credential ← (if ro_Mode o ==s kliqRunModeManaged then managed_credential o else mret zero_KLIQCredential);
  mret {| d_opts := o; d_Verifier := Some (dev_verifier (λ w, (Ok (wall_of w), w)) verifier);
          d_TrustBundle := trustBundle; d_Registry := registry; d_credential := credential;
          d_decisions := decisions; d_signalReaders := readers; d_baselineSamples := ∅;
          d_findings := [] |}.
End start.

(** ** Tickers *)

#[export] Instance ticker_eq_dec : EqDecision ticker.
Proof. solve_decision. Defined.

Definition raw_interval (o : runOptions) (t : ticker) : duration :=
  match t with
  | TPoll => ro_PollInterval o
  | THeartbeat => ro_HeartbeatInterval o
  | TStatus => ro_StatusInterval o
  | TDecision => ro_DecisionInterval o
  | TSignal => ro_SignalInterval o
  | TReconcile => ro_ReconcileInterval o
  | TAudit => ro_AuditFlushInterval o
  end.

(** An interval that is not positive is a minute. *)
Definition interval (o : runOptions) (t : ticker) : duration :=
  if raw_interval o t <=? 0 then 60 * second else raw_interval o t.

(** When a ticker fires next, and its period. *)
Record clock_state := { tk_next : time; tk_period : duration }.
Definition tickers : Type := ticker → clock_state.

(** [newTicker] and [resetTicker] of all of them. *)
Definition set_tickers (o : runOptions) (now : time) : tickers :=
  λ t, {| tk_next := now + interval o t; tk_period := interval o t |}.

(** A tick that is received at [now]; the ones that were missed are dropped. *)
Definition fired (now : time) (c : clock_state) : clock_state :=
  {| tk_next := tk_next c + tk_period c * ((now - tk_next c) / tk_period c + 1);
     tk_period := tk_period c |}.

Definition fire (now : time) (t : ticker) (ts : tickers) : tickers :=
  λ t', if decide (t' = t) then fired now (ts t') else ts t'.

Section loop.
Context {GR : GoRuntime} {ED : Ed25519} {JD : JSONDecoders} {KD : KeyDecoders} {SC : StateCodecs}.
Context {TC : TokenCodecs} {FC : ForgeCodecs} {UP : URLParser} {UF : UnicodeFold} {SD : SignalDecoder}.
Context {FS : Files} {W : Type} {KW : KLIQWorld W} {AD : AdapterDial W}.
Context (http_get : string → string → io W HTTPResponse).
Context (http_post : string → string → string → io W HTTPResponse).
Context (decode_EnvelopePayload : string → result string).
Context (glob : string → result (list string)).

Notation handle := (on_tick http_get http_post decode_EnvelopePayload glob).

(** The tick of [t] is received at [now], and handled; [done] is when the handler
    returns. *)
Definition loop_step (now done : time) (t : ticker) (x : tickers * Daemon W) : tickers * Daemon W :=
  let '(ts, d) := x in
  let r := handle t d in
  (match r.1 with
   | Ok true => set_tickers (d_opts r.2.1) done
   | _ => fire now t ts
   end, r.2).

(** The select loop: any ticker that is due may be chosen; [events] are the choices. *)
Definition run_loop (events : list (time * time * ticker)) (x : tickers * Daemon W) : tickers * Daemon W :=
  foldl (λ x e, loop_step e.1.1 e.1.2 e.2 x) x events.

(** The first cycle, whose error is logged, then the loop. *)
Definition loop (started : time) (events : list (time * time * ticker)) (d : Daemon W)
    : tickers * Daemon W :=
  let d := (runOnce http_get http_post decode_EnvelopePayload glob d).2 in
  run_loop events (set_tickers (d_opts d.1) started, d).
End loop.

(** ** The schedule *)

Lemma interval_pos o t : 0 < interval o t.
Proof. unfold interval. case_match eqn:E; [done|]. apply Z.leb_gt in E. lia. Qed.

(** The next tick is after the one received, at most a period later. *)
Lemma fired_next now c : 0 < tk_period c → tk_next c ≤ now →
  now < tk_next (fired now c) ≤ now + tk_period c.
Proof.
  intros Hp Hn. unfold fired. simpl. pose proof (Z.div_mod (now - tk_next c) (tk_period c)).
  pose proof (Z.mod_pos_bound (now - tk_next c) (tk_period c)). nia.
Qed.

Section schedule.
Context {GR : GoRuntime} {ED : Ed25519} {JD : JSONDecoders} {KD : KeyDecoders} {SC : StateCodecs}.
Context {TC : TokenCodecs} {FC : ForgeCodecs} {UP : URLParser} {UF : UnicodeFold} {SD : SignalDecoder}.
Context {FS : Files} {W : Type} {KW : KLIQWorld W} {AD : AdapterDial W}.
Context (http_get : string → string → io W HTTPResponse).
Context (http_post : string → string → string → io W HTTPResponse).
Context (decode_EnvelopePayload : string → result string).
Context (glob : string → result (list string)).

Notation step := (loop_step http_get http_post decode_EnvelopePayload glob).
Notation handle := (on_tick http_get http_post decode_EnvelopePayload glob).
Notation first_cycle := (runOnce http_get http_post decode_EnvelopePayload glob).

Lemma ingest_signals_Ok (x : Daemon W) : (ingest_signals x).1 = Ok tt.
Proof.
  unfold ingest_signals. rewrite io_bind_run. unfold attempt. simpl.
  by destruct (processAdapterSignals x).1.
Qed.

(** Only a poll resets the tickers. *)
Lemma on_tick_no_poll t (x : Daemon W) : t ≠ TPoll → (handle t x).1 = Ok false.
Proof.
  intros Ht. unfold on_tick. rewrite io_bind_run. cbn [daemon gets].
  destruct t; [done|..]; try (by destruct (_ ==s _)); try done.
  rewrite io_bind_run. pose proof (ingest_signals_Ok x) as H. by destruct (ingest_signals x) as [[[]|] ?].
Qed.

(** A run of the loop whose ticks are received when they are due, no more than [slack]
    after the next poll is, and whose polls succeed and leave [t] an interval that is longer
    than the poll's. *)
Fixpoint steady (slack : duration) (t : ticker) (events : list (time * time * ticker))
    (x : tickers * Daemon W) : Prop :=
  match events with
  | [] => True
  | (now, done, t') :: events =>
      let x' := step now done t' x in
      tk_next (x.1 t') ≤ now ≤ tk_next (x.1 TPoll) + slack ∧ now ≤ done ∧
      (t' = TPoll → (handle TPoll x.2).1 = Ok true ∧
         interval (d_opts x'.2.1) TPoll + slack < interval (d_opts x'.2.1) t) ∧
      steady slack t events x'
  end.

Lemma steady_starves slack t events x : 0 ≤ slack →
  tk_next (x.1 TPoll) + slack < tk_next (x.1 t) → steady slack t events x → t ∉ events.*2.
Proof.
  intros Hs. induction events as [|[[now done] t'] events IH] in x |- *; destruct x as [ts d]; intros Hx; [set_solver|].
  cbn [steady fst snd] in *.
  intros ([Hdue Hlate] & Hdone & Hpoll & Hrest).
  assert (t ≠ t') as Hne.
  { intros <-. lia. } apply not_elem_of_cons. split; [exact Hne|].
  refine (IH _ _ Hrest). clear IH Hrest. unfold loop_step in *.
  destruct (decide (t' = TPoll)) as [->|Hp].
  - destruct (Hpoll eq_refl) as [Hok Hi]. cbn [snd] in Hok. rewrite Hok in *. cbn [fst snd] in *. unfold set_tickers. cbn [tk_next]. lia.
  - assert (Hfire : tk_next (fire now t' ts TPoll) + slack < tk_next (fire now t' ts t)).
    { unfold fire. rewrite !decide_False by congruence. exact Hx. }
    by rewrite on_tick_no_poll.
Qed.

(** C6. Starvation.  A successful poll resets every ticker, also those that were about to fire.
    So long as polls succeed, are made on time, and a ticker's interval is longer than
    that of polling, the ticker never fires: with the default flags (30 seconds, and one
    minute for status reports and the audit spool), a daemon whose Forge answers sends its
    status and uploads its audit records in its first cycle and never again. *)
Theorem polls_starve slack t started events (d : Daemon W) :
  let d1 := (first_cycle d).2 in
  let x := (set_tickers (d_opts d1.1) started, d1) in
  0 ≤ slack → interval (d_opts d1.1) TPoll + slack < interval (d_opts d1.1) t →
  steady slack t events x →
  t ∉ events.*2.
Proof. intros d1 x Hs Hi Hst. apply (steady_starves slack t events x); [done| |done]. simpl. lia. Qed.
End schedule.
