(* ===== verification/DaemonProofs.v ===== *)
(** * What a KLIQ daemon may do

    Whatever the adapters, Forge, the clock, the disk and the select loop do, a daemon
    makes only operations of the manager and of the audit uploader, and it executes only
    requests of its decision source, with its own verifier. *)

From stdpp Require Import options.
From stdpp Require Import gmap.
From S2P Require Import Prelude IO Table GoStrings GoTime GoDuration GoJson GoEncoding GoPath.
From S2P Require Import GoQuote GoFloat Risk Signing Domain Artifacts Authn BundleSource StateTypes.
From S2P Require Import SqliteLeases SqliteAudit SqliteAssignments Baseline SqliteBaseline Registry.
From S2P Require Import BaselineEngine LocalRisk Store Plan Management ManagerArtifacts ManagerPlan.
From S2P Require Import ManagerExec ManagerExecProofs ManagerReconcile ManagerHistory KLIQStatus.
From S2P Require Import KLIQInput Daemon DaemonCycle DaemonLoop.
#[local] Open Scope Z_scope.

(** ** Runs of a lens, and of the engines over any store *)

Lemma LearnWindow_preserves {S} (R : relation S) `{!PreOrder R} wall (e : Engine S) samples c a clean promote :
  preserves R wall → (∀ n, eng_Now e = Some n → preserves R n) →
  (∀ st, eng_Store e = Some st →
     (∀ w, preserves R (bst_SaveBaselineWindow st w)) ∧
     (∀ v s, preserves R (bst_SaveBaselineVersion st v s))) →
  preserves R (LearnWindow wall e samples c a clean promote).
Proof.
  intros Hw Hn Hs. unfold LearnWindow, engine_now.
  destruct (eng_Store e) as [st|] eqn:E; [destruct (Hs st eq_refl) as [H1 H2]|].
  - destruct (eng_Now e) as [n|]; [pose proof (Hn n eq_refl)|]; simpl; preserve.
  - preserve.
Qed.

Lemma EvaluateDeviation_preserves {S} (R : relation S) `{!PreOrder R} `{GoRuntime} wall (e : Evaluator S) recipe event :
  preserves R wall → (∀ n, ev_Now e = Some n → preserves R n) →
  (∀ st, ev_Store e = Some st → ∀ k c, preserves R (rst_SaveRiskContext st k c)) →
  preserves R (EvaluateDeviation wall e recipe event).
Proof.
  intros Hw Hn Hs. unfold EvaluateDeviation.
  destruct (ev_Store e) as [st|] eqn:E; [pose proof (Hs st eq_refl)|preserve].
  destruct (ev_Now e) as [n|]; [pose proof (Hn n eq_refl)|]; simpl; preserve.
Qed.

Section daemon_proofs.
Context {GR : GoRuntime} {ED : Ed25519} {JD : JSONDecoders} {KD : KeyDecoders} {SC : StateCodecs}.
Context {TC : TokenCodecs} {FC : ForgeCodecs} {UP : URLParser} {UF : UnicodeFold} {SD : SignalDecoder}.
Context {TD : TrustDecoders} {DC : DecisionDecoders}.
Context {FS : Files} {W : Type} {KW : KLIQWorld W} {AD : AdapterDial W}.
Context (http_get : string → string → io W HTTPResponse).
Context (http_post : string → string → string → io W HTTPResponse).
Context (decode_EnvelopePayload : string → result string).
Context (glob : string → result (list string)).

Abbreviation operation := (operation (W := W)).
Abbreviation run_history := (run_history http_get decode_EnvelopePayload).

(** ** The operations of the manager that a run amounts to *)

(** What a daemon with this verifier and these requests may ask for. *)
Definition daemon_op (v : option (Verifier W)) (requests : list ExecuteRequest) (op : operation) : Prop :=
  match op with
  | DoExecuteAction m req => m_Verifier m = v ∧ req ∈ requests
  | _ => True
  end.

Definition requests_of (d : runDaemon W) : list ExecuteRequest :=
  default [] (fds_requests <$> d_decisions d).

Definition steps v requests : relation (KLIQ W) := λ k k',
  ∃ ops, k' = run_history ops k ∧ Forall (daemon_op v requests) ops.

#[local] Instance steps_preorder v requests : PreOrder (steps v requests).
Proof.
  split; [intros k; by exists []|]. intros k1 k2 k3 (o1 & -> & F1) (o2 & -> & F2).
  exists (o1 ++ o2). unfold ManagerHistory.run_history. rewrite foldl_app. split; [done|by apply Forall_app].
Qed.

Lemma steps_op v requests op k : daemon_op v requests op →
  steps v requests k (after http_get decode_EnvelopePayload op k).
Proof. intros H. exists [op]. split; [done|by constructor]. Qed.

Section any.
Context (v : option (Verifier W)) (requests : list ExecuteRequest).
Abbreviation R := (steps v requests).

Lemma steps_elsewhere assign baseline risk w k :
  R k (set_world w (set_db (elsewhere assign baseline risk (k_db k)) k)).
Proof. exact (steps_op v requests (DoElsewhere assign baseline risk w) k I). Qed.

Lemma steps_world w k : R k (set_world w k).
Proof.
  pose proof (steps_elsewhere (db_assign (k_db k)) (db_baseline (k_db k)) (db_risk (k_db k)) w k) as H.
  destruct k as [[] ? ?]. exact H.
Qed.

Lemma now_steps : preserves R now.
Proof. intros k. unfold now. destruct (now_of (k_world k)). apply steps_world. Qed.
Lemma wall_steps : preserves R wall.
Proof. intros k. reflexivity. Qed.
Lemma in_world_steps {A} (m : io W A) : preserves R (in_world m).
Proof. intros k. apply steps_world. Qed.

(** A write of the tables the manager's history leaves to others. *)
Lemma store_write_elsewhere {A} (m : io SQLiteStore A) :
  (∀ db, ∃ assign baseline risk, (m db).2 = elsewhere assign baseline risk db) →
  preserves R (store_write m).
Proof.
  intros H k. unfold store_write. destruct (store_fault (k_world k)) as [[e|] w]; [apply steps_world|].
  simpl. destruct (H (k_db k)) as (assign & baseline & risk & ->).
  exact (steps_elsewhere assign baseline risk w k).
Qed.

Lemma elsewhere_same db : db = elsewhere (db_assign db) (db_baseline db) (db_risk db) db.
Proof. by destruct db. Qed.

Lemma store_read_steps {A} (f : SQLiteStore → result A) : preserves R (store_read f).
Proof. apply store_write_elsewhere. intros db. do 3 eexists. apply elsewhere_same. Qed.
Lemma on_assign_steps {A} (m : io AssignmentTables A) : preserves R (store_write (on_assign m)).
Proof. apply store_write_elsewhere. intros db. by do 3 eexists. Qed.
Lemma on_baseline_steps {A} (m : io BaselineTables A) : preserves R (store_write (on_baseline m)).
Proof. apply store_write_elsewhere. intros db. by do 3 eexists. Qed.
Lemma on_risk_steps {A} (m : io (list RiskCacheRow) A) : preserves R (store_write (on_risk m)).
Proof. apply store_write_elsewhere. intros db. by do 3 eexists. Qed.
Lemma MarkAuditUploaded_steps id t : preserves R (store_write (on_audit (MarkAuditUploaded id t))).
Proof. intros k. exact (steps_op v requests (DoMarkAuditUploaded id t) k I). Qed.
Lemma MarkAuditFailed_steps id t e : preserves R (store_write (on_audit (MarkAuditFailed id t e))).
Proof. intros k. exact (steps_op v requests (DoMarkAuditFailed id t e) k I). Qed.
Lemma Reconcile_steps m : preserves R (Reconcile m).
Proof. intros k. exact (steps_op v requests (DoReconcile m) k I). Qed.
Lemma LoadBundle_steps m source : preserves R (LoadBundle m source).
Proof. intros k. exact (steps_op v requests (DoLoadBundle m source) k I). Qed.
Lemma load_managed_steps m source :
  preserves R (load_managed http_get decode_EnvelopePayload m source).
Proof. intros k. exact (steps_op v requests (DoLoadManagedBundle m source) k I). Qed.
Lemma ExecuteAction_steps m req :
  m_Verifier m = v → req ∈ requests → preserves R (ExecuteAction m req).
Proof. intros Hm Hr k. exact (steps_op v requests (DoExecuteAction m req) k (conj Hm Hr)). Qed.
End any.

#[local] Hint Resolve now_steps wall_steps in_world_steps store_read_steps on_assign_steps on_baseline_steps
  on_risk_steps MarkAuditUploaded_steps MarkAuditFailed_steps Reconcile_steps LoadBundle_steps
  load_managed_steps : io.

Lemma status_reads_steps v requests :
  preserves (steps v requests) store_LastBundle ∧ preserves (steps v requests) store_AllLeases ∧
  preserves (steps v requests) store_PendingAudits.
Proof. split_and!; apply store_read_steps. Qed.

Lemma buildStatusSnapshot_steps v requests path registry :
  preserves (steps v requests) (buildStatusSnapshot path registry).
Proof.
  pose proof (status_reads_steps v requests) as (? & ? & ?).
  unfold buildStatusSnapshot, snapshot_assignment. preserve.
Qed.
(** ** The operations of the daemon *)

Definition loyal v requests (d : runDaemon W) : Prop := d_Verifier d = v ∧ requests_of d = requests.

(** From a daemon with this verifier and these requests, to one with the same. *)
Definition runs v requests : relation (Daemon W) := λ x y,
  loyal v requests x.1 → loyal v requests y.1 ∧ steps v requests x.2 y.2.

#[local] Instance runs_preorder v requests : PreOrder (runs v requests).
Proof.
  split; [intros x H; by split; [|reflexivity]|].
  intros x y z Hxy Hyz H. destruct (Hxy H) as [H1 S1]. destruct (Hyz H1) as [H2 S2].
  split; [done|]. by etrans.
Qed.

Section any_daemon.
Context (v : option (Verifier W)) (requests : list ExecuteRequest).
Abbreviation R := (runs v requests).

Lemma on_k_runs {A} (c : io (KLIQ W) A) : preserves (steps v requests) c → preserves R (on_k c).
Proof. intros H [d k] Hd. split; [exact Hd|]. apply (H k). Qed.

Lemma on_daemon_runs (f : runDaemon W → runDaemon W) :
  (∀ d, d_Verifier (f d) = d_Verifier d ∧ requests_of (f d) = requests_of d) → preserves R (on_daemon f).
Proof.
  intros H [d k] [Hv Hr]. destruct (H d) as [E1 E2]. split; [|reflexivity].
  split; simpl; [by rewrite E1|by rewrite E2].
Qed.

Lemma daemon_runs {A} (f : runDaemon W → A) : preserves R (daemon f).
Proof. intros x. simpl. reflexivity. Qed.

(** What follows a look at the daemon may rely on its verifier and requests. *)
Lemma daemon_bind_runs {A} (f : runDaemon W → io (Daemon W) A) :
  (∀ d, loyal v requests d → preserves R (f d)) → preserves R (d ← daemon id; f d).
Proof. intros H [d k] Hd. rewrite io_bind_run. simpl. exact (H d Hd (d, k) Hd). Qed.

Lemma d_now_runs : preserves R d_now.
Proof. apply on_k_runs, now_steps. Qed.
End any_daemon.

#[local] Hint Resolve daemon_runs d_now_runs : io.

(** Walk through an operation of the daemon. *)
#[local] Ltac runs := repeat (preserve;
  match goal with
  | |- preserves (runs _ _) (on_k _) => apply on_k_runs
  | |- preserves (runs _ _) (on_daemon _) =>
      apply on_daemon_runs; intros ?; repeat case_match; split; reflexivity
  | |- preserves (runs _ _) (let '_ := ?c in _) => destruct c
  end).

Section operations.
Context (v : option (Verifier W)) (requests : list ExecuteRequest).
Abbreviation R := (runs v requests).

Lemma recordFinding_runs finding : preserves R (recordFinding finding).
Proof. unfold recordFinding. runs. Qed.

Lemma clearFindings_runs : preserves R clearFindings.
Proof. unfold clearFindings. runs. Qed.

Lemma save_credential_runs c : preserves R (save_credential c).
Proof. unfold save_credential. runs. Qed.
#[local] Hint Resolve recordFinding_runs clearFindings_runs save_credential_runs : io.

Lemma ensureServiceTokenFresh_runs : preserves R (ensureServiceTokenFresh http_post).
Proof.
  unfold ensureServiceTokenFresh, refreshLocalIdentityServiceToken, refreshServiceToken,
    IssueKLIQIdentitySignedToken. runs.
Qed.
#[local] Hint Resolve ensureServiceTokenFresh_runs : io.

Lemma post_runs {A} path value (response : string → result A) :
  preserves R (postManagedJSONResponse http_post path value response).
Proof. unfold postManagedJSONResponse. runs. Qed.
#[local] Hint Resolve post_runs : io.

Lemma activeAssignment_runs : preserves R activeAssignment.
Proof. unfold activeAssignment, or_zero. runs. Qed.
#[local] Hint Resolve activeAssignment_runs : io.

Lemma reports_run : preserves R (sendHeartbeat http_post) ∧ preserves R (sendStatusReport http_post).
Proof.
  unfold sendHeartbeat, sendStatusReport, activeBundle, or_zero, postManagedJSON. pose proof (status_reads_steps v requests) as (? & ? & ?).
  pose proof (buildStatusSnapshot_steps v requests). split; runs.
Qed.

Lemma activateManagedArtifacts_runs : preserves R (activateManagedArtifacts decode_EnvelopePayload).
Proof. unfold activateManagedArtifacts, applyManagedManagementProfile, apply_interval. runs. Qed.
#[local] Hint Resolve activateManagedArtifacts_runs : io.

Lemma loadOrPoll_runs : preserves R (loadOrPoll http_get http_post decode_EnvelopePayload glob).
Proof.
  pose proof (status_reads_steps v requests) as (? & ? & ?).
  unfold loadOrPoll, pollManagedAssignment, loadStandaloneBundle, managedPollFallback. runs.
Qed.

Lemma reconcile_runs : preserves R reconcile.
Proof. unfold reconcile. runs. Qed.

(** ** Decisions *)

Lemma NextDecision_Some source req source' : NextDecision source = Some (req, source') →
  fds_requests source !! fds_index source = Some req ∧ fds_requests source' = fds_requests source ∧
  fds_index source' = S (fds_index source).
Proof. unfold NextDecision. destruct (_ !! _) eqn:E; naive_solver. Qed.

Lemma decision_loop_runs fuel : preserves R (decision_loop fuel).
Proof.
  induction fuel as [|fuel IH]; simpl; [runs|]. apply daemon_bind_runs. intros d [Hv Hr].
  destruct (d_decisions d) as [source|] eqn:Hd; [|runs].
  destruct (NextDecision source) as [[req source']|] eqn:Hn; [|runs].
  apply NextDecision_Some in Hn as (Hi & Hsame & _).
  assert (Hq : fds_requests source = requests) by (unfold requests_of in Hr; by rewrite Hd in Hr).
  apply preserves_bind; [apply _| |intros _; apply preserves_bind; [apply _| |intros _; exact IH]].
  - intros [d1 k] [Hv1 Hr1]. split; [|reflexivity]. split; [exact Hv1|].
    unfold requests_of. simpl. by rewrite Hsame.
  - apply on_k_runs, ExecuteAction_steps; [exact Hv|]. rewrite <- Hq. by eapply list_elem_of_lookup_2.
Qed.

Lemma processRuntimeDecisions_runs : preserves R processRuntimeDecisions.
Proof. pose proof decision_loop_runs. unfold processRuntimeDecisions. runs. Qed.

(** ** Signals, baselines and the audit spool *)

Lemma daemon_baselines_steps :
  (∀ w, preserves (steps v requests) (bst_SaveBaselineWindow daemon_baselines w)) ∧
  (∀ x y, preserves (steps v requests) (bst_SaveBaselineVersion daemon_baselines x y)) ∧
  (∀ e, preserves (steps v requests) (bst_SaveBaselineDeviation daemon_baselines e)).
Proof. split_and!; intros; simpl; preserve. Qed.

Lemma daemon_risks_steps key c :
  preserves (steps v requests) (rst_SaveRiskContext daemon_risks key c).
Proof. simpl. preserve. Qed.

Lemma evaluateBaselineSample_steps recipe scope sample :
  preserves (steps v requests) (evaluateBaselineSample recipe scope sample).
Proof.
  destruct daemon_baselines_steps as (? & ? & ?). unfold evaluateBaselineSample. preserve.
  apply EvaluateDeviation_preserves; [apply _|apply wall_steps|intros ? [= <-]; apply now_steps|].
  intros ? [= <-]. apply daemon_risks_steps.
Qed.

Lemma learnBaselineSample_runs sample : preserves R (learnBaselineSample sample).
Proof.
  destruct daemon_baselines_steps as (? & ? & ?). unfold learnBaselineSample. runs.
  apply LearnWindow_preserves; [apply _|apply wall_steps|intros ? [= <-]; apply now_steps|].
  by intros ? [= <-].
Qed.

Lemma ReadSignals_steps r scope : preserves (steps v requests) (ReadSignals r scope).
Proof. unfold ReadSignals. preserve. Qed.
#[local] Hint Resolve evaluateBaselineSample_steps learnBaselineSample_runs ReadSignals_steps
  recordFinding_runs : io.

Lemma ingest_signals_runs : preserves R ingest_signals.
Proof. unfold ingest_signals, processAdapterSignals, take_signal, processAdapterSignal. runs. Qed.

Lemma flushAuditSpool_runs : preserves R (flushAuditSpool http_post).
Proof.
  pose proof (status_reads_steps v requests) as (? & ? & ?).
  pose proof (@post_runs).
  unfold flushAuditSpool, upload_record, mark_failed. runs.
Qed.

Lemma runOnce_runs : preserves R (runOnce http_get http_post decode_EnvelopePayload glob).
Proof.
  pose proof loadOrPoll_runs. pose proof reconcile_runs. pose proof flushAuditSpool_runs.
  pose proof processRuntimeDecisions_runs. pose proof ingest_signals_runs.
  destruct reports_run. unfold runOnce. runs.
Qed.

Lemma on_tick_runs t : preserves R (on_tick http_get http_post decode_EnvelopePayload glob t).
Proof.
  pose proof loadOrPoll_runs. pose proof reconcile_runs. pose proof flushAuditSpool_runs.
  pose proof processRuntimeDecisions_runs. pose proof ingest_signals_runs.
  destruct reports_run. destruct t; unfold on_tick; runs.
Qed.
End operations.
Section whole_loop.
Context (v : option (Verifier W)) (requests : list ExecuteRequest).

Lemma run_loop_runs events x :
  runs v requests x.2 (run_loop http_get http_post decode_EnvelopePayload glob events x).2.
Proof.
  unfold run_loop. induction events as [|[[t1 t2] t] events IH] in x |- *; simpl; [reflexivity|].
  etrans; [|apply IH]. destruct x as [ts d]. apply on_tick_runs.
Qed.

Lemma loop_runs started events d :
  runs v requests d (loop http_get http_post decode_EnvelopePayload glob started events d).2.
Proof. unfold loop. cbv zeta. etrans; [apply runOnce_runs|apply (run_loop_runs events (_, _))]. Qed.

Lemma start_steps o : preserves (steps v requests) (start o).
Proof.
  unfold start, loadTrustVerifierForStore, managed_credential. preserve.
Qed.
End whole_loop.

Lemma start_loyal o k d k' : start o k = (Ok d, k') →
  d_opts d = o ∧
  (ro_Production o = true → validateKLIQProductionOptions o = Ok tt) ∧
  (if empty_str (ro_DecisionSource o) then d_decisions d = None
   else ∃ source, runtimeDecisionSourceFromFile (ro_DecisionSource o) = Ok source ∧
        d_decisions d = Some source).
Proof.
  unfold start. intros H. run H. rename Hr into Hv, Hr0 into Ht.
  destruct a0 as [verifier trust]. run H. destruct a0 as [registry readers]. run H. simpl. split_and!.
  - done.
  - intros Hp. apply lift_Ok in Hv as [Hv _]. rewrite Hp in Hv. by destruct a.
  - match goal with E : lift (if empty_str _ then _ else _) _ = _ |- _ => apply lift_Ok in E as [E _] end.
    destruct (empty_str (ro_DecisionSource o)); [naive_solver|].
    destruct (runtimeDecisionSourceFromFile (ro_DecisionSource o)); naive_solver.
Qed.

(** A daemon from its start to any moment of its loop. *)
Definition life (o : runOptions) (k : KLIQ W) (started : time) (events : list (time * time * ticker))
    (d : runDaemon W) (now : KLIQ W) : Prop :=
  ∃ k', start o k = (Ok d, k') ∧
    now = (loop http_get http_post decode_EnvelopePayload glob started events (d, k')).2.2.

Lemma life_steps o k started events d now :
  life o k started events d now → steps (d_Verifier d) (requests_of d) k now.
Proof.
  intros (k' & Hs & ->). etrans.
  - apply (preserves_run _ _ _ _ _ (start_steps (d_Verifier d) (requests_of d) o) Hs).
  - by apply (loop_runs (d_Verifier d) (requests_of d) started events (d, k')).
Qed.

(** C2. The life of a daemon: from its start on, whatever ticks the loop takes, and
    whatever the adapters, the sockets, Forge, the clock and the disk do.  Every call
    that executed an action was made for a request of the daemon's decision source,
    allowed by a bundle that the daemon's own verifier had verified and with no open lease
    on its target, and its audit record is in the spool; two open leases never share
    adapter, capability, action and target; and no lease or audit record is lost. *)
Theorem daemon_history o k started events d now :
  leases_ok (t_leases (db_actions (k_db k))) →
  life o k started events d now →
  (∃ new, k_calls now = k_calls k ++ new ∧
     ∀ c, c ∈ new → is_execute c = true →
       (∃ m req (record : BundleRecord) w0 verified w1,
          m_Verifier m = d_Verifier d ∧ req ∈ requests_of d ∧
          VerifySignedRuntimeBundle (bun_EnvelopeJSON record) (m_Verifier m) w0 = (Ok verified, w1) ∧
          authorized_call m req (rbv_Bundle verified) c) ∧
       ∃ t, audited (ac_lease c) t (k_db now)) ∧
  (∀ r1 r2, r1 ∈ t_leases (db_actions (k_db now)) → r2 ∈ t_leases (db_actions (k_db now)) →
     open_status (l_Status r1) = true → open_status (l_Status r2) = true →
     lease_dedup r1 = lease_dedup r2 → r1 = r2) ∧
  (∀ r, r ∈ t_leases (db_actions (k_db k)) →
     ∃ r', r' ∈ t_leases (db_actions (k_db now)) ∧ same_lease r r') ∧
  (∀ r, r ∈ db_audit (k_db k) → ∃ r', r' ∈ db_audit (k_db now) ∧ same_audit r r').
Proof.
  intros Hok Hlife. destruct (life_steps _ _ _ _ _ _ Hlife) as (ops & -> & Hops).
  destruct (run_history_keeps http_get decode_EnvelopePayload ops k Hok) as (Hu & Hl & Ha).
  split_and!; [|done..].
  destruct (run_history_accounted http_get decode_EnvelopePayload ops k Hok) as (new & E & Hnew).
  exists new. split; [exact E|]. intros c Hc He. destruct (Hnew c Hc He) as ((op & Hin & Hall) & Ht).
  split; [|exact Ht]. rewrite Forall_forall in Hops. specialize (Hops op Hin).
  destruct op; try done. destruct Hops as [Hm Hr]. destruct Hall as (rec & w0 & x & w1 & Hv & Hx).
  exists m, req, rec, w0, x, w1. auto.
Qed.

(** What the production checks leave of the decision source. *)
Lemma production_options o : validateKLIQProductionOptions o = Ok tt →
  blank (ro_DecisionSource o) = true ∧ ro_Mode o = kliqRunModeManaged ∧ ro_Adapters o = [].
Proof.
  unfold validateKLIQProductionOptions. intros H. repeat (case_match; [done|]).
  split_and!.
  - by destruct (blank (ro_DecisionSource o)).
  - match goal with E : (_ !=s _) = false |- _ => by apply negb_false_iff, String.eqb_eq in E end.
  - by destruct (ro_Adapters o).
Qed.

Lemma runtimeDecisionSourceFromFile_blank path : blank path = true →
  runtimeDecisionSourceFromFile path = Err (Errorf "decision source path is required" []).
Proof.
  intros Hb. unfold runtimeDecisionSourceFromFile.
  assert (trim_prefix "file://" path = path) as ->.
  { unfold trim_prefix. destruct path as [|c path]; [done|].
    destruct (has_prefix "file://" (String c path)) eqn:Hp; [|done]. exfalso.
    assert (c = Ascii.ascii_of_nat 102) as ->.
    { cbn [has_prefix] in Hp. apply andb_true_iff in Hp as [Hp%Ascii.eqb_eq _]. by rewrite <- Hp. }
    rewrite blank_graphic in Hb; done. }
  unfold blank in Hb. apply String.eqb_eq in Hb. rewrite Hb. done.
Qed.

(** C3. A daemon started with --production never asks an adapter to execute anything: the only
    decision source there is is forbidden to it.  It polls, reports, reconciles and
    uploads, but no policy it is given is ever enforced by it. *)
Theorem production_never_executes o k started events d now :
  ro_Production o = true →
  leases_ok (t_leases (db_actions (k_db k))) →
  life o k started events d now →
  ∃ new, k_calls now = k_calls k ++ new ∧ ∀ c, c ∈ new → is_execute c = false.
Proof.
  intros Hp Hok Hlife. assert (Hnone : requests_of d = []).
  { destruct Hlife as (k' & Hs & _). destruct (start_loyal _ _ _ _ Hs) as (_ & Hval & Hd).
    destruct (production_options o (Hval Hp)) as (Hb & _). unfold requests_of.
    rewrite runtimeDecisionSourceFromFile_blank in Hd by done.
    destruct (empty_str _); [by rewrite Hd|]. by destruct Hd as (? & ? & _). }
  destruct (life_steps _ _ _ _ _ _ Hlife) as (ops & -> & Hops).
  destruct (run_history_accounted http_get decode_EnvelopePayload ops k Hok) as (new & E & Hnew).
  exists new. split; [exact E|]. intros c Hc. destruct (is_execute c) eqn:He; [|done].
  destruct (Hnew c Hc He) as ((op & Hin & Hall) & _). rewrite Forall_forall in Hops.
  specialize (Hops op Hin). destruct op; try done. destruct Hops as [_ Hr]. rewrite Hnone in Hr.
  by apply elem_of_nil in Hr.
Qed.
End daemon_proofs.
