(* ===== verification/DaemonUploads.v ===== *)
(** * Decisions and uploads of a KLIQ daemon

    A tick of the decision ticker ends, with every request taken at most once; and a record
    leaves the audit spool only for an acknowledgement of its own. *)

From stdpp Require Import options.
From stdpp Require Import gmap.
From S2P Require Import Prelude IO Table GoStrings GoTime GoDuration GoJson GoEncoding GoPath.
From S2P Require Import GoFloat Risk Signing Domain Artifacts Authn BundleSource StateTypes.
From S2P Require Import SqliteLeases SqliteAudit SqliteAssignments Baseline SqliteBaseline Registry.
From S2P Require Import BaselineEngine LocalRisk Store Plan Management ManagerPlan ManagerExec.
From S2P Require Import ManagerReconcile ManagerHistory KLIQStatus KLIQInput Daemon DaemonCycle.
From S2P Require Import DaemonLoop DaemonProofs.
#[local] Open Scope Z_scope.

Section uploads.
Context {GR : GoRuntime} {ED : Ed25519} {JD : JSONDecoders} {KD : KeyDecoders} {SC : StateCodecs}.
Context {TC : TokenCodecs} {FC : ForgeCodecs} {UP : URLParser} {UF : UnicodeFold}.
Context {W : Type} {KW : KLIQWorld W}.
Context (http_post : string → string → string → io W HTTPResponse).

(** ** Decisions *)

Lemma remaining_0 source : NextDecision source = None ↔ remaining source = 0%nat.
Proof.
  unfold NextDecision, remaining. destruct (_ !! _) eqn:E; split; try done.
  - apply lookup_lt_Some in E. lia.
  - intros _. apply lookup_ge_None in E. lia.
Qed.

Lemma remaining_S source req source' : NextDecision source = Some (req, source') →
  remaining source = S (remaining source').
Proof.
  intros (Hi & Hr & Hx)%NextDecision_Some. unfold remaining. rewrite Hr, Hx.
  apply lookup_lt_Some in Hi. lia.
Qed.

Abbreviation turns := (decision_loop (W := W)).

(** One turn of the loop. *)
Lemma decision_loop_S fuel (d : runDaemon W) k source : d_decisions d = Some source →
  turns (S fuel) (d, k) =
  match NextDecision source with
  | None => (Ok tt, (d, k))
  | Some (req, source') =>
      let d' := set_decisions source' d in
      match ExecuteAction (manager d) req k with
      | (Ok _, k') => turns fuel (d', k')
      | (Err e, k') => (Err e, (d', k'))
      end
  end.
Proof.
  intros Hd. simpl. rewrite io_bind_run. simpl. rewrite Hd.
  destruct (NextDecision source) as [[req source']|]; [|done].
  rewrite !io_bind_run. simpl. rewrite io_bind_run.
  replace (manager (set_decisions source' d)) with (manager d) by done.
  unfold on_k, zoom. simpl. by destruct (ExecuteAction _ _ _) as [[?|?] ?].
Qed.

Lemma decision_loop_enough n fuel fuel' (d : runDaemon W) k source :
  d_decisions d = Some source → remaining source = n → (n < fuel)%nat → (n < fuel')%nat →
  turns fuel (d, k) = turns fuel' (d, k).
Proof.
  revert fuel fuel' d k source. induction n as [|n IH]; intros [|fuel] [|fuel'] d k source Hd Hn H1 H2; try lia;
    rewrite !(decision_loop_S _ d k source) by done.
  - apply remaining_0 in Hn. by rewrite Hn.
  - destruct (NextDecision source) as [[req source']|] eqn:Hs; [|done].
    pose proof (remaining_S _ _ _ Hs). cbv zeta.
    destruct (ExecuteAction _ _ _) as [[?|?] k']; [|done]. apply (IH _ _ _ _ source'); [done|lia..].
Qed.

(** What a run of the loop leaves of the source. *)
Definition taken (source source' : DecisionSource) (failed : bool) : Prop :=
  fds_requests source' = fds_requests source ∧ (fds_index source ≤ fds_index source')%nat ∧
  if failed then (remaining source' < remaining source)%nat else remaining source' = 0%nat.

Lemma decision_loop_takes fuel (d : runDaemon W) k source :
  d_decisions d = Some source → (remaining source < fuel)%nat →
  ∃ source', d_decisions (turns fuel (d, k)).2.1 = Some source' ∧
    taken source source' (negb (is_Ok (turns fuel (d, k)).1)).
Proof.
  revert d k source. induction fuel as [|fuel IH]; intros d k source Hd Hf; [lia|].
  rewrite (decision_loop_S _ d k source) by done.
  destruct (NextDecision source) as [[req source']|] eqn:Hs.
  - pose proof (remaining_S _ _ _ Hs) as Hr. apply NextDecision_Some in Hs as (_ & Hreq & Hi). cbv zeta.
    destruct (ExecuteAction _ _ _) as [[?|?] k'].
    + destruct (IH (set_decisions source' d) k' source') as (source2 & E & H2 & H3 & H4); [done|lia|].
      exists source2. split; [exact E|]. split_and!; [congruence|lia|].
      destruct (negb _); [lia|exact H4].
    + exists source'. split; [done|]. split_and!; [done|lia|simpl; lia].
  - apply remaining_0 in Hs. exists source. done.
Qed.

(** C5. A tick of the decision ticker ends: more fuel than the source has requests left
    gives one and the same result.  Afterwards the source is exhausted, or an execution failed
    and at least the request it was made for is gone; the index never goes back, so
    that no request is taken twice, the failed one included. *)
Theorem processRuntimeDecisions_terminates (x : Daemon W) source :
  d_decisions x.1 = Some source →
  (∀ fuel, (remaining source < fuel)%nat → turns fuel x = processRuntimeDecisions x) ∧
  ∃ source', d_decisions (processRuntimeDecisions x).2.1 = Some source' ∧
    fds_requests source' = fds_requests source ∧ (fds_index source ≤ fds_index source')%nat ∧
    match (processRuntimeDecisions x).1 with
    | Ok _ => NextDecision source' = None
    | Err _ => (remaining source' < remaining source)%nat
    end.
Proof.
  destruct x as [d k]. simpl. intros Hd.
  assert (Hrun : processRuntimeDecisions (d, k) = decision_loop (S (remaining source)) (d, k)).
  { unfold processRuntimeDecisions. rewrite io_bind_run. simpl. by rewrite Hd. }
  rewrite Hrun. split.
  - intros fuel Hf. apply (decision_loop_enough (remaining source) _ _ _ _ source); [done..|lia].
  - destruct (decision_loop_takes (S (remaining source)) d k source) as (source' & E & H1 & H2 & H3);
      [done|lia|]. exists source'. split_and!; [done..|].
    destruct (decision_loop _ _).1; simpl in H3; [by apply remaining_0|done].
Qed.
(** ** The audit spool *)

(** Two states of the spool: nothing lost or altered, and a record that is no longer
    pending was acknowledged. *)
Definition upload_row (acknowledged : string → Prop) : relation AuditRecordRow := λ r r',
  same_audit r r' ∧
  (au_Status r = AuditPendingUpload → au_Status r' ≠ AuditPendingUpload → acknowledged (au_ID r)).
Definition uploads (acknowledged : string → Prop) : relation (list AuditRecordRow) :=
  Forall2 (upload_row acknowledged).

#[local] Instance upload_row_preorder A : PreOrder (upload_row A).
Proof.
  split; [intros r; split; [reflexivity|done]|].
  intros r1 r2 r3 [S12 A12] [S23 A23]. split; [by etrans|]. intros P1 N3.
  destruct (decide (au_Status r2 = AuditPendingUpload)) as [E|E]; [|by apply A12].
  specialize (A23 E N3). by rewrite S12 in A23.
Qed.
#[local] Instance uploads_preorder A : PreOrder (uploads A).
Proof. unfold uploads. apply _. Qed.

Lemma uploads_update (A : string → Prop) id f t :
  (∀ r, same_audit r (f r)) → (∀ r, au_Status (f r) = AuditPendingUpload) ∨ A id →
  uploads A t (update_rows (has_key au_ID id) f t).
Proof.
  intros Hs HA. unfold uploads, update_rows. apply Forall2_fmap_r, Forall_Forall2_diag, Forall_forall.
  intros r _. simpl. unfold upload_row, has_key. case_bool_decide as E; [|split; [reflexivity|done]].
  split; [apply Hs|]. intros _ Hn. destruct HA as [Hp|HA]; [by rewrite Hp in Hn|by rewrite E].
Qed.

Abbreviation post record at_ c :=
  (postManagedJSONResponse http_post "/v1/kliq/audit-events" (encode_AuditUpload (audit_upload c record at_))
     decode_AuditUploadAck).

(** Forge was sent the record, and acknowledged it by its id. *)
Definition forge_acknowledged (id : string) : Prop :=
  ∃ record at_ c s s' ack, au_ID record = id ∧ post record at_ c s = (Ok ack, s') ∧
    ack_Status ack = "accepted" ∧ ack_AuditRecordID ack = id ∧ ack_AckID ack ≠ "".

Definition spool : relation (Daemon W) := λ x y,
  uploads forge_acknowledged (db_audit (k_db x.2)) (db_audit (k_db y.2)).

#[local] Instance spool_preorder : PreOrder spool.
Proof. split; [intros x; red; reflexivity|]. intros x y z. unfold spool. by etrans. Qed.

(** What leaves the spool alone. *)
Definition same_spool (k k' : KLIQ W) : Prop := db_audit (k_db k') = db_audit (k_db k).

#[local] Instance same_spool_preorder : PreOrder same_spool.
Proof. split; [done|]. unfold same_spool. intros x y z. congruence. Qed.

Lemma on_k_spool {A} (c : io (KLIQ W) A) : preserves same_spool c → preserves spool (on_k c).
Proof. intros H [d k]. unfold spool. simpl. rewrite (H k). reflexivity. Qed.

Lemma store_write_spool {A} (m : io SQLiteStore A) :
  (∀ db, db_audit (m db).2 = db_audit db) → preserves same_spool (store_write m).
Proof. intros H k. unfold store_write. destruct (store_fault _) as [[e|] w]; [done|apply H]. Qed.

Lemma on_daemon_spool f : preserves spool (on_daemon (W := W) f).
Proof. intros x. unfold spool. simpl. reflexivity. Qed.
Lemma daemon_spool {A} (f : runDaemon W → A) : preserves spool (daemon f).
Proof. intros x. unfold spool. simpl. reflexivity. Qed.
Lemma now_spool : preserves same_spool now.
Proof. intros k. unfold now. by destruct (now_of _). Qed.
Lemma in_world_spool {A} (m : io W A) : preserves spool (on_k (in_world m)).
Proof. by apply on_k_spool. Qed.
Lemma d_now_spool : preserves spool d_now.
Proof. apply on_k_spool, now_spool. Qed.
Lemma save_credential_spool c : preserves spool (save_credential c).
Proof.
  unfold save_credential. repeat (apply preserves_bind; [apply _| |intros ?]).
  - apply on_daemon_spool.
  - by apply on_k_spool.
  - by apply on_k_spool, store_write_spool.
Qed.
#[local] Hint Resolve on_daemon_spool daemon_spool in_world_spool d_now_spool save_credential_spool now_spool : io.

Lemma post_spool record at_ c : preserves spool (post record at_ c).
Proof.
  unfold postManagedJSONResponse, ensureServiceTokenFresh, refreshLocalIdentityServiceToken,
    refreshServiceToken, IssueKLIQIdentitySignedToken.
  preserve; apply on_k_spool; preserve.
Qed.

Lemma audit_write_spool id f :
  (∀ r, same_audit r (f r)) → (∀ r, au_Status (f r) = AuditPendingUpload) ∨ forge_acknowledged id →
  preserves spool (on_k (store_write (on_audit (modify (update_rows (has_key au_ID id) f))))).
Proof.
  intros Hs HA [d k]. unfold spool. simpl. unfold store_write.
  destruct (store_fault _) as [[e|] w]; simpl; [reflexivity|]. by apply uploads_update.
Qed.

Lemma upload_record_spool record : preserves spool (upload_record http_post record).
Proof.
  unfold upload_record, mark_failed, MarkAuditFailed, MarkAuditUploaded.
  assert (Hfail : ∀ id f, (∀ r, same_audit r (f r)) → (∀ r, au_Status (f r) = AuditPendingUpload) →
    preserves spool (on_k (store_write (on_audit (modify (update_rows (has_key au_ID id) f))))))
    by (intros; apply audit_write_spool; auto).
  apply preserves_bind; [apply _|apply d_now_spool|intros now]. destruct (negb _); [preserve|].
  apply preserves_bind; [apply _|apply d_now_spool|intros uploadedAt].
  apply preserves_bind; [apply _|apply daemon_spool|intros c].
  intros s. apply related_bind; [apply _|apply (preserves_attempt _ _ (post_spool _ _ _))|].
  intros ack s1 Hack%attempt_run. destruct ack as [ack|e].
  - destruct (acknowledges ack record) eqn:Hok; simpl.
    + refine (audit_write_spool (au_ID record) _ _ _ s1); [intros r; reflexivity|]. right.
      apply andb_true_iff in Hok as [[Hst Hid]%andb_true_iff Hne].
      exists record, uploadedAt, c, s, s1, ack. split_and!; [done|done|by apply String.eqb_eq..|].
      by apply String.eqb_neq, negb_true_iff.
    + by refine (preserves_ignore spool _ (Hfail (au_ID record) _ _ _) s1).
  - by refine (preserves_ignore spool _ (Hfail (au_ID record) _ _ _) s1).
Qed.

(** C4. An audit record is no longer pending only when Forge has acknowledged it: it was
    posted, the answer was a success, its status "accepted", its record id this one's and its
    acknowledgement id not empty.  Whatever else a flush does, fails at or is
    answered, nothing in the spool is lost or altered, and in standalone mode nothing changes. *)
Theorem flushAuditSpool_acknowledged (x : Daemon W) :
  let before := db_audit (k_db x.2) in
  let now := db_audit (k_db (flushAuditSpool http_post x).2.2) in
  Forall2 same_audit before now ∧
  (∀ i r r', before !! i = Some r → now !! i = Some r' →
     au_Status r = AuditPendingUpload → au_Status r' ≠ AuditPendingUpload →
     forge_acknowledged (au_ID r)) ∧
  (ro_Mode (d_opts x.1) ≠ kliqRunModeManaged → now = before).
Proof.
  intros before now.
  assert (H : spool x (flushAuditSpool http_post x).2).
  { unfold flushAuditSpool, store_PendingAudits, store_read.
    match goal with |- spool x (?c x).2 => enough (preserves spool c) as Hp by apply Hp end.
    pose proof upload_record_spool. unfold recordFinding. preserve.
    apply on_k_spool, store_write_spool. done. }
  split_and!.
  - eapply Forall2_impl; [exact H|]. by intros r r' [? _].
  - intros i r r' Hi Hi'. by destruct (Forall2_lookup_lr _ _ _ _ _ _ H Hi Hi') as [_ ?].
  - intros Hm. unfold now, before, flushAuditSpool. destruct x as [d k]. simpl in Hm.
    apply String.eqb_neq in Hm. rewrite io_bind_run.
    unfold on_k, zoom, store_PendingAudits, store_read, store_write. simpl.
    destruct (store_fault _) as [[e|] w]; simpl; [done|]. unfold read.
    destruct (PendingAudits _) as [records|]; simpl; [|done]. rewrite io_bind_run. simpl. rewrite Hm.
    by destruct (length records).
Qed.
End uploads.
