(* ===== verification/ScenarioPolicy.v ===== *)
(** * A registry, its schemas, and a deviation

    The test registry of the compiler ([internal/forge/testdata]), read by decoders
    that know its files by their paths, and a deviation of the klshield adapter: the
    theorems about the policy side are applied to them. *)

From stdpp Require Import options.
From stdpp Require Import gmap.
From Stdlib Require Import SpecFloat.
From S2P Require Import Prelude IO Table GoStrings GoTime GoDuration GoJson GoEncoding GoPath.
From S2P Require Import GoQuote GoFloat Risk Schema SchemaProofs Registry RegistryProofs StateTypes.
From S2P Require Import SqliteLeases Baseline SqliteBaseline BaselineEngine LocalRisk.
From S2P Require Import BaselineProofs Intent IntentProofs.
#[local] Open Scope Z_scope.

#[export] Instance policy_runtime : GoRuntime := plain_runtime.
#[export] Instance policy_lower : UnicodeLower := {| lower_runes s := s |}.
#[export] Instance policy_floats : FloatText :=
  {| float_v _ := "1.5"; float_json _ := Ok "1.5" |}.

(** *** A schema and a document *)

Definition name_schema : object :=
  [("$schema", VString "https://json-schema.org/draft/2020-12/schema"); ("type", VString "object");
   ("required", VArray [VString "name"]);
   ("properties", VObject [("name", VObject [("type", VString "string"); ("minLength", VInt 2)]);
                           ("tags", VObject [("type", VString "array"); ("maxItems", VInt 2);
                                             ("items", VObject [("type", VString "string")])])]);
   ("additionalProperties", VBool false)].

(** Every document is the one below, every schema the one above. *)
#[export] Instance policy_documents : DocumentDecoders := {|
  decode_JSONSchema _ := Ok name_schema;
  decode_YAMLValue _ := Ok (VObject [("name", VString "kernloom"); ("tags", VArray [VString "a"])]);
  regexp_MatchString _ _ := Ok true;
|}.

Lemma name_schema_maps : go_maps (VObject name_schema).
Proof. repeat split; try (eapply bool_decide_unpack; vm_compute; exact I). Qed.

Lemma validateSchemaValue_conforms_witness :
  conforms name_schema (VObject [("name", VString "kernloom"); ("tags", VArray [VString "a"])]) ∧
  ¬ conforms name_schema (VObject [("name", VString "kernloom"); ("tags", VArray [VInt 7])]).
Proof.
  split.
  - apply (validateSchemaValue_conforms _ _ "$"); [exact name_schema_maps|]. vm_compute. reflexivity.
  - intros H. apply (validateSchemaValue_conforms _ _ "$" name_schema_maps) in H.
    revert H. vm_compute. discriminate.
Defined.

(** *** An intent card *)

(** The test policy [policies/runtime/rate-limit.intent.kni], with a simulation. *)
Definition rate_limit_card : Card := {|
  card_ID := "runtime.rate-limit"; card_SourcePath := ""; card_Version := "kni/v0.5";
  card_Owner := "security-platform"; card_Type := "runtime_mitigation"; card_Target := "klshield";
  card_Stage := "prod"; card_Profile := "production.runtime_mitigation";
  card_RiskRecipe := "runtime_anomaly.standard";
  card_Rules := [{| ru_Name := "rate limit abnormal source"; ru_Effect := "rate_limit";
    ru_Subject := "network source"; ru_Action := "connect"; ru_Resource := "production application";
    ru_OnlyWhen := ["device is healthy"] |}];
  card_Risk := [{| rb_RiskType := "runtime_anomaly"; rb_Tier := "high"; rb_Effect := "rate_limit" |}];
  card_Prohibit := ["a [quoted] \ value"];
  card_Runtime := {| rt_Allowed := true; rt_Actions := ["rate_limit"]; rt_MaxTTL := "10m";
                     rt_MaxScope := "application" |};
  card_Simulations := [{| si_Name := "healthy source"; si_Given := ["device is healthy"];
                          si_ExpectEffect := "rate_limit" |}] |}.

(** *** The test registry *)

(** A file holds its own path, but for the card. *)
#[export] Instance policy_files : Files := {|
  os_ReadFile path :=
    if path ==s "rate-limit.intent.kni" then Ok (print_card rate_limit_card) else Ok path;
  os_Stat _ := Ok false;
  os_ReadDir path := if path ==s "/work" then Ok [("kernloom-adapter-klshield", true)] else Ok [];
  os_WalkDir _ := [];
  os_Getwd := Some "/work";
|}.

Definition test_value (label id kind : string) : Value :=
  {| va_Label := label; va_CanonicalID := id; va_Kind := kind; va_CEL := "" |}.

Definition rate_limit_capability : CapabilitySpec := {|
  cap_ID := "enforce.runtime.rate_limit_entity"; cap_Kind := "enforce_runtime"; cap_Status := "stable";
  cap_Semantic := ""; cap_SupportedActions := ["runtime_action.rate_limit_entity"];
  cap_CompatibilityAliases := ["runtime_action.rate_limit_source"];
  cap_SupportedGranularities := ["granularity.entity"]; cap_TargetScopes := [];
  cap_ContextRequirements := []; cap_PrivilegeRequirements := []; cap_EvidenceRequirements := [];
  cap_UnknownIsSuccess := None |}.

Definition rate_limit_rule : CompilerRuleSpec := {|
  rule_ID := "compiler_rule.runtime_action.rate_limit_source.compat.v1";
  rule_RuntimeAction := "runtime_action.rate_limit_source";
  rule_RequirementID := "requirement.runtime_mitigation";
  rule_CapabilityIDs := ["enforce.runtime.rate_limit_entity"] |}.

Definition rate_limit_binding : AdapterBinding := {|
  ab_BindingID := ""; ab_Digest := ""; ab_CapabilityID := "enforce.runtime.rate_limit_entity";
  ab_AdapterID := "kernloom.adapter.klshield"; ab_Environments := []; ab_Stages := ["prod"];
  ab_ImplementationStatus := "implemented"; ab_RequiredGrantProfile := "" |}.

Definition runtime_profile : Profile := {|
  pf_ID := "production.runtime_mitigation"; pf_Mode := ""; pf_Owner := ""; pf_Stage := "prod";
  pf_Guardrails := Some ["guardrail.unknown_is_not_success"];
  pf_RuntimeDefaults := Some {["max_ttl" := "10m"; "max_scope" := "application"]} |}.

Definition anomaly_recipe : RiskRecipe := {|
  rcp_ID := "runtime_anomaly.standard"; rcp_Output := {["risk_type" := "risk_type.runtime_anomaly"]};
  rcp_Scoring := ∅; rcp_Thresholds := {["high" := "score >= 70"; "low" := "score < 70"]};
  rcp_Confidence := ∅; rcp_Freshness := ∅ |}.

Definition test_entry (id : string) : CatalogEntry := {|
  cte_ID := id; cte_Status := ""; cte_Kind := ""; cte_Description := ""; cte_Schema := [];
  cte_RequiredMetrics := []; cte_RequiredSignals := []; cte_RequiredCapabilities := [];
  cte_RequiredEvidence := []; cte_AllowedGranularities := []; cte_UnknownBehavior := "" |}.

(** The entries of a supplemental catalog: those the other documents refer to. *)
Definition test_entries (d : supplementalCatalogDefinition) : list CatalogEntry :=
  if scd_Name d ==s "requirement" then [test_entry "requirement.runtime_mitigation"]
  else if scd_Name d ==s "granularity" then [test_entry "granularity.entity"]
  else [test_entry (scd_IDPrefix d +:+ "example")].

#[export] Instance policy_decoders : RegistryDecoders := {|
  decode_CoreCatalog _ := Ok ("vtest",
    [test_value "runtime_mitigation" "policy_type.runtime_mitigation" "policy_type";
     test_value "klshield" "target_system.klshield" "target_system";
     test_value "prod" "stage.prod" "stage";
     test_value "rate_limit" "runtime_action.rate_limit_source" "runtime_action";
     test_value "rate_limit" "effect.rate_limit" "effect";
     test_value "network source" "subject.network_source" "subject";
     test_value "connect" "action.connect" "action";
     test_value "production application" "resource.production_application" "resource";
     test_value "device is healthy" "fact.device_healthy" "fact";
     test_value "runtime_anomaly" "risk_type.runtime_anomaly" "risk_type";
     test_value "high" "risk_tier.high" "risk_tier";
     test_value "a [quoted] \ value" "outcome.quoted" "prohibited_outcome";
     test_value "application" "scope.application" "scope"]);
  decode_Capabilities _ := Ok [rate_limit_capability];
  decode_CompilerRules _ := Ok [rate_limit_rule];
  decode_SupplementalCatalog path :=
    match List.find (λ d, Join ["core"; scd_Path d] ==s path) supplementalCatalogDefinitions with
    | Some d => Ok (scd_Kind d, test_entries d)
    | None => Err ErrNotExist
    end;
  decode_AdapterBindings _ := Ok [rate_limit_binding];
  decode_Profiles path :=
    if path ==s "core/defaults/profiles.yaml" then Ok [runtime_profile] else Ok [];
  decode_RiskRecipes _ := Ok [anomaly_recipe];
  decode_Guardrails _ :=
    Ok [{| gr_ID := "guardrail.unknown_is_not_success"; gr_Mode := "block"; gr_Description := "" |}];
  decode_Vocabulary _ := Ok [{| term_ID := "resource.lab"; term_Label := "lab"; term_Aliases := ["lab net"] |}];
|}.

Lemma test_registry_loads : is_Ok (Load "core" "enterprise") = true.
Proof. vm_compute. reflexivity. Qed.

Lemma rate_limit_card_writable : writable rate_limit_card.
Proof. repeat split; repeat constructor; try done; vm_compute; congruence. Qed.

Lemma ParseFile_print_card_witness :
  ∃ c, ParseFile "rate-limit.intent.kni" = Ok c ∧ card_Prohibit c = ["a [quoted] \ value"].
Proof.
  exists (set_SourcePath "rate-limit.intent.kni" rate_limit_card). split; [|reflexivity].
  apply ParseFile_print_card; [exact rate_limit_card_writable|reflexivity].
Defined.

(** The catalog that was loaded is well formed, so that what it resolves is one value. *)
Lemma Load_well_formed_witness :
  ∃ c v, Load "core" "enterprise" = Ok c ∧ catalog_ok c ∧
    Resolve c "rate_limit" ["runtime_action"] = Ok v ∧ va_CanonicalID v = "runtime_action.rate_limit_source".
Proof.
  destruct (Load "core" "enterprise") as [c|e] eqn:E;
    [|pose proof test_registry_loads as H; rewrite E in H; discriminate H].
  assert (Hr : (c ← Load "core" "enterprise"; Resolve c "rate_limit" ["runtime_action"]) =
    Ok (test_value "rate_limit" "runtime_action.rate_limit_source" "runtime_action"))
    by (vm_compute; reflexivity).
  rewrite E in Hr. exists c. eexists. split; [reflexivity|]. split; [|split; [exact Hr|reflexivity]].
  exact (Load_well_formed _ _ _ E).
Defined.

(** *** Estimates, tiers and the risk cache *)

Lemma estimate_of_odd_samples_witness :
  ∃ center, MedianMAD_Estimate 0 (float_of_Z <$> [9; 2; 7; 1; 30]) = Some (center, float_of_Z 1).
Proof.
  destruct (estimate_of_odd_samples (float_of_Z <$> [9; 2; 7; 1; 30])) as (center & _ & H & _).
  - vm_compute. repeat constructor.
  - reflexivity.
  - repeat constructor.
  - exists center. exact H.
Defined.

Lemma anomaly_thresholds : recipe_thresholds anomaly_recipe =
  [{| th_tier := "low"; th_min := S754_zero false |}; {| th_tier := "high"; th_min := float_of_Z 70 |}].
Proof. vm_compute. reflexivity. Qed.

Lemma tierForScore_highest_witness : tierForScore anomaly_recipe (float_of_Z 80) = "high".
Proof.
  refine (proj1 (tierForScore_highest anomaly_recipe (float_of_Z 80) _ _)
            {| th_tier := "high"; th_min := float_of_Z 70 |} _ _ _); rewrite ?anomaly_thresholds.
  - repeat constructor.
  - intros t u Ht Hu. repeat (apply elem_of_cons in Ht as [->|Ht]); try (apply elem_of_nil in Ht as []);
      repeat (apply elem_of_cons in Hu as [->|Hu]); try (apply elem_of_nil in Hu as []);
      vm_compute; congruence.
  - right; left.
  - vm_compute. reflexivity.
  - intros u Hu. repeat (apply elem_of_cons in Hu as [->|Hu]); try (apply elem_of_nil in Hu as []);
      intros _; vm_compute; reflexivity.
Defined.

Definition policy_noon : time := 63918763200 * second.

Definition burst : DeviationEvent := {|
  dev_EventID := "e1"; dev_VersionID := "v1";
  dev_Key := {| key_View := ViewEntity; key_Entity := "klshield:10.0.0.7" |};
  dev_Metric := "packets"; dev_Value := float_of_Z 40; dev_Center := float_of_Z 7;
  dev_Spread := float_of_Z 10; dev_Score := float_const 33 (-1); dev_ObservedAt := policy_noon;
  dev_EmittedAt := policy_noon; dev_Reason := "burst"; dev_Confidence := float_const 8 (-1);
  dev_RiskRecipe := ""; dev_PolicyScope := "" |}.

#[export] Instance policy_codecs : StateCodecs := {|
  decode_VersionRef _ := Err ErrNotExist; decode_PromotionDecision _ := Err ErrNotExist;
  decode_Stats _ := Err ErrNotExist;
  decode_RiskContext _ := Ok (deviation_context anomaly_recipe burst policy_noon);
  encode_Window _ := Ok "{window}"; encode_Stats _ := Ok "{stats}";
  encode_DeviationEvent _ := Ok "{deviation}"; encode_RiskContext _ := Ok "{risk}";
|}.

Definition burst_run := EvaluateDeviation (lift (Ok policy_noon)) (cache_evaluator policy_noon policy_noon)
  anomaly_recipe burst [].
Definition burst_question : RiskCacheKey :=
  {| rk_RiskType := "risk_type.runtime_anomaly"; rk_Scope := "" |}.

Lemma burst_computed :
  burst_run.1 = Ok (deviation_context anomaly_recipe burst policy_noon).
Proof. vm_compute. reflexivity. Qed.
Lemma burst_tier : rc_Tier (deviation_context anomaly_recipe burst policy_noon) = "high".
Proof. vm_compute. reflexivity. Qed.

(** A minute later the cache answers with the context, five minutes later it does not know. *)
Lemma deviation_risk_cached_witness :
  ∃ ctx t, burst_run = (Ok ctx, t) ∧ rc_Tier ctx = "high" ∧
    get_RiskContext policy_noon burst_question (policy_noon + 60 * second) t = Ok ctx ∧
    ∃ answer, get_RiskContext policy_noon burst_question (policy_noon + 300 * second) t = Ok answer ∧
      rc_Tier answer = TierUnknown.
Proof.
  pose proof burst_computed as Hc. destruct burst_run as [r t] eqn:E. cbn [fst] in Hc. subst r.
  exists (deviation_context anomaly_recipe burst policy_noon), t.
  destruct (deviation_risk_cached policy_noon policy_noon anomaly_recipe burst []
              (deviation_context anomaly_recipe burst policy_noon) t) as (_ & _ & _ & H).
  - vm_compute. discriminate.
  - constructor.
  - exact E.
  - reflexivity.
  - split; [reflexivity|]. split; [exact burst_tier|]. split.
    + apply (H burst_question).
      * vm_compute. reflexivity.
      * left. reflexivity.
      * vm_compute. discriminate.
      * rewrite burst_tier. discriminate.
      * vm_compute. reflexivity.
    + apply (H burst_question).
      * vm_compute. reflexivity.
      * left. reflexivity.
      * vm_compute. discriminate.
      * vm_compute. discriminate.
Defined.
