(* ===== verification/ScenarioCompiler.v ===== *)
(** * The test policy, compiled

    The card and the registry of [ScenarioPolicy] are compiled under the local signer
    into the store in memory: the theorems about the compiler are applied to the
    bundle and to the build. *)

From stdpp Require Import options.
From stdpp Require Import gmap countable.
From S2P Require Import Prelude IO GoStrings GoTime GoDuration GoJson GoFloat GoEncoding GoPath.
From S2P Require Import GoQuote Risk Schema Signing Domain Registry RegistryProofs Intent Artifacts.
From S2P Require Import BuildManifest ArtifactStore AdapterManifests Compiler CompilerEmit.
From S2P Require Import ManagerPlan CompilerProofs CompilerBuild ScenarioPolicy Jobs JobsProofs.
#[local] Open Scope Z_scope.

#[export] Instance compiler_keys : Ed25519 := toy_ed25519.
#[export] Instance compiler_cel : CEL := {| cel_compile _ := Ok tt |}.
#[export] Instance compiler_environment : Environment :=
  {| os_Getenv _ := ""; git_rev_parse _ := Some ("4f2a91c" +:+ chr 10); os_Executable := None |}.

Definition klshield_manifest : AdapterManifest := {|
  am_Path := ""; am_Digest := ""; am_AdapterID := "kernloom.adapter.klshield"; am_AdapterVersion := "1.2.0";
  am_ProtocolVersion := "adapter/v1"; am_Status := "stable"; am_ComponentRole := "";
  am_Capabilities := [{| amc_CapabilityID := "enforce.runtime.rate_limit_entity";
    amc_ImplementationStatus := "implemented";
    amc_SupportedActions := ["runtime_action.rate_limit_entity"; "runtime_action.rate_limit_source"];
    amc_ImplementedGranularities := ["granularity.entity"]; amc_RequiredPrivileges := [] |}];
  am_Signals := []; am_RawSignals := []; am_Privileges := []; am_ContextRequirements := [] |}.

#[export] Instance compiler_manifests : ManifestDecoder :=
  {| decode_AdapterManifest _ := Ok klshield_manifest |}.

(** The bytes of an artifact tell its kind. *)
#[export] Instance compiler_encoders : CompilerEncoders := {|
  indent_ResolvedPolicy _ := Ok "{resolved}"; indent_RuntimeBundle _ := Ok "{bundle}";
  indent_AdapterManifestArtifact _ _ := Ok "{adapter}"; indent_ContextRoutePack _ := Ok "{routes}";
  indent_ConformanceExpectation _ := Ok "{conformance}"; indent_Coverage _ := Ok "{coverage}";
  indent_Simulation _ := Ok "{simulation}"; indent_Validation _ := Ok "{validation}";
  indent_Manifest _ := Ok "{manifest}"; indent_Envelope env := Ok (env_Signature env);
  marshal_Catalog _ := Ok "{catalog}"; marshal_Profile _ := Ok "{profile}";
  marshal_RiskRecipe _ := Ok "{recipe}";
|}.

(** The files written, and the objects stored. *)
Definition Disk : Type := gmap string string * Objects.

Definition local_signer : DevLocalSigner := {|
  dls_KeyID := "dev-local";
  dls_PrivateKey := "0123456789abcdef0123456789abcdef0123456789abcdef0123456789abcdef";
  dls_PublicKey := "" |}.
Definition sign_locally : Signer Disk := λ payload md, lift (Sign local_signer policy_noon payload md).

#[export] Instance compiler_store : ArtifactStore Disk := {|
  store_Put art := zoom snd (λ o d, (d.1, o)) (Objects_Put art);
  store_Get ref := zoom snd (λ o d, (d.1, o)) (Objects_Get ref);
|}.
#[export] Instance compiler_world : CompilerWorld Disk := {|
  write_file path data := modify (λ d : Disk, (<[path := data]> d.1, d.2));
  wall_clock := lift (Ok policy_noon);
  LoadOrCreateDevLocalSigner _ _ := mret sign_locally;
|}.

Definition compiler_options : Options Disk := {|
  op_PolicyRepo := "policies"; op_PolicyFile := "rate-limit.intent.kni"; op_CoreRegistry := "core";
  op_EnterpriseRegistry := "enterprise"; op_OutputDir := "out"; op_SigningMode := "";
  op_SigningKeyPath := ""; op_SigningKeyID := ""; op_CorrelationID := ""; op_BuildCreatedBy := "ci@example";
  op_SignatureTTL := 0; op_Signer := None; op_Now := None |}.

Lemma test_policy_compiles : succeeds (Compile (Ok tt) compiler_options (∅, ∅)) = true.
Proof. vm_compute. reflexivity. Qed.

(** ** What the store and the signer promise *)

Lemma object_uri_solid art : solid (object_uri art).
Proof.
  unfold object_uri. split; [|by eexists _, _]. repeat apply ends_app. by exists ".jso", (ascii_of_byte 110).
Qed.

Lemma memory_store_names : store_names (F:=Disk).
Proof.
  intros art d ref d' H. apply zoom_Ok in H as (o & H & _). unfold Objects_Put in H. run H. run_all.
  assert (Href : ref = {| ref_URI := object_uri art; ref_SHA256 := SHA256JSON (a_Payload art) |}).
  { case_match; cbv iota in H; [case_match|]; run H; done. }
  rewrite Href. unfold stored_ref. cbn [ref_URI ref_SHA256]. split_and!; [|apply trim_space_solid, object_uri_solid|done].
  unfold object_uri. not_blank.
Qed.

Lemma local_signs : signs_with_key sign_locally.
Proof.
  intros payload md d env d' H. apply lift_Ok in H as [H _]. unfold Sign in H. cbv zeta in H. passes H.
  apply bind_Ok in H as (input & _ & [= <-]). str_eqs. cbn [env_PayloadSHA256 env_KeyID]. split; [not_blank|].
  change "dev-local" with (dls_KeyID local_signer). rewrite Hg1. vm_compute. reflexivity.
Qed.

(** ** The witnesses *)

Definition compiler_services : compileRuntime Disk :=
  {| crt_Signer := Some sign_locally; crt_ExpiresAt := Some (policy_noon + 3600 * second) |}.

(** A computation with the catalog and the manifests of the test. *)
Definition with_loaded {A} (f : Catalog → Manifests → result A) : result A :=
  c ← Load "core" "enterprise";
  manifests ← LoadAdapterManifests "policies" "core" "enterprise";
  f c manifests.

Lemma with_loaded_Ok {A} (f : Catalog → Manifests → result A) a :
  with_loaded f = Ok a → ∃ c manifests, catalog_ok c ∧ manifests_ok manifests ∧
    Load "core" "enterprise" = Ok c ∧ f c manifests = Ok a.
Proof.
  unfold with_loaded. intros (c & Hc & H)%bind_Ok. apply bind_Ok in H as (m & Hm & H).
  exists c, m. split; [exact (Load_catalog_ok _ _ _ Hc)|]. split; [exact (LoadAdapterManifests_ok _ _ _ _ Hm)|].
  split; [exact Hc|exact H].
Qed.

Definition compiled_bundle : result (ResolvedPolicy * RuntimeBundle) := with_loaded (λ c manifests,
  resolved ← resolve_policy c runtime_profile rate_limit_card "rate-limit.intent.kni" "4f2a91c";
  bundle ← runtimeBundleArtifact rate_limit_card resolved
    (artifact_metadata compiler_options rate_limit_card c runtime_profile anomaly_recipe policy_noon) c manifests;
  Ok (resolved, bundle)).

(** The bundle's only grant is accepted for five minutes of the ten it allows. *)
Lemma compiled_grants_accepted_witness :
  ∃ bundle g, snd <$> compiled_bundle = Ok bundle ∧ rbs_CapabilityGrants (rb_Spec bundle) = [g] ∧
    validateCapabilityGrant bundle "kernloom.adapter.klshield" "enforce.runtime.rate_limit_entity"
      "runtime_action.rate_limit_source" "application" (cg_ID g) (300 * second) policy_noon = Ok g.
Proof.
  assert (Hrun : ((λ rb, (rv_CanonicalID <$> rrt_Actions (rp_Runtime rb.1), rv_Label (rrt_MaxScope (rp_Runtime rb.1)),
      rrt_MaxTTL (rp_Runtime rb.1), (λ g, (cg_AdapterID g, cg_CapabilityID g)) <$> rbs_CapabilityGrants (rb_Spec rb.2)))
      <$> compiled_bundle) = Ok (["runtime_action.rate_limit_source"], "application", "10m",
        [("kernloom.adapter.klshield", "enforce.runtime.rate_limit_entity")])) by (vm_compute; reflexivity).
  destruct compiled_bundle as [[resolved bundle]|] eqn:E; [|discriminate Hrun].
  pose proof (f_equal (λ r, match r with Ok x => x | Err _ => ([], "", "", []) end) Hrun) as Hp. clear Hrun.
  cbn [fst snd] in Hp. injection Hp as Hact Hscope Httl Hgrants.
  apply with_loaded_Ok in E as (c & m & Hc & Hm & _ & E). apply bind_Ok in E as (res & _ & E).
  apply bind_Ok in E as (b & Hb & [= -> ->]).
  destruct (rbs_CapabilityGrants (rb_Spec bundle)) as [|g [|]] eqn:Eg; try discriminate Hgrants.
  injection Hgrants as Ha Hcap. exists bundle, g. split; [reflexivity|]. split; [exact Eg|].
  pose proof (compiled_grants_accepted _ _ _ _ _ _ Hc Hm Hb) as H. cbv zeta in H. rewrite Eg in H.
  destruct (rrt_Actions (rp_Runtime resolved)) as [|action [|]]; try discriminate Hact. injection Hact as Hid.
  specialize (H ltac:(intros g1 g2 ->%list_elem_of_singleton ->%list_elem_of_singleton _; reflexivity)).
  apply Forall2_cons in H as [[_ Hacc] _]. rewrite Ha, Hcap, Hid, Hscope in Hacc. rewrite Httl in Hacc.
  apply (Hacc (300 * second) policy_noon). right. exists (600 * second). split; [vm_compute; reflexivity|].
  vm_compute. discriminate.
Defined.

Definition compiled_build : result Result := with_loaded (λ c manifests,
  (compileOne compiler_options compiler_services rate_limit_card c manifests (∅, ∅)).1).

Lemma test_build_compiles : is_Ok compiled_build = true.
Proof. vm_compute. reflexivity. Qed.

Lemma test_values_identified : with_loaded (λ c _,
  Ok (forallb (λ v, negb (blank (va_CanonicalID v))) (cat_Values c))) = Ok true.
Proof. vm_compute. reflexivity. Qed.

Lemma compiled_build_ready_witness :
  ∃ r manifest, compiled_build = Ok r ∧ indent_Manifest manifest = Ok "{manifest}" ∧
    validateBuildManifestApprovalReadiness manifest = Ok tt ∧
    validateArtifactInApprovedBuild manifest
      (request_for "runtime_bundle" (signedOutputRef (res_RuntimeBundle r))) = Ok tt.
Proof.
  pose proof test_build_compiles as Hok. destruct compiled_build as [r|] eqn:E; [|discriminate Hok].
  unfold compiled_build in E.
  pose proof test_values_identified as Hv. apply with_loaded_Ok in E as (c & m & Hc & Hm & Hl & E).
  apply with_loaded_Ok in Hv as (c' & m' & _ & _ & Hl' & Hv). rewrite Hl in Hl'. injection Hl' as <-.
  destruct (compileOne compiler_options compiler_services rate_limit_card c m (∅, ∅)) as [res d] eqn:Erun.
  cbn [fst] in E. subst res.
  destruct (compiled_build_ready sign_locally compiler_options compiler_services rate_limit_card c m (∅, ∅) r d)
    as (manifest & data & Hd & _ & Hready & _ & Hin & _).
  - exact Hc.
  - apply List.Forall_forall. intros v Hin. injection Hv as Hv. apply forallb_forall with (x := v) in Hv; [|exact Hin].
    by apply negb_true_iff in Hv.
  - exact Hm.
  - exact memory_store_names.
  - exact local_signs.
  - reflexivity.
  - vm_compute. reflexivity.
  - exact Erun.
  - exists r, manifest. split; [reflexivity|]. split; [reflexivity|]. split; [exact Hready|].
    apply Hin. right; left.
Defined.

(** ** A job, submitted and run

    The test policy as a simulation job: the history of a job that waits in the queue,
    and the turn of the worker that finishes it. *)

(** *** A codec for jobs: their code as a number, in binary *)

Fixpoint bits (p : positive) : string :=
  match p with
  | xH => ""
  | xO p => String (ascii_of_byte 48) (bits p)
  | xI p => String (ascii_of_byte 49) (bits p)
  end.

Fixpoint from_bits (s : string) : positive :=
  match s with
  | EmptyString => xH
  | String c s => if Ascii.eqb c (ascii_of_byte 49) then xI (from_bits s) else xO (from_bits s)
  end.

Lemma from_bits_bits p : from_bits (bits p) = p.
Proof. induction p as [p IH|p IH|]; simpl; [by rewrite IH..|done]. Qed.

Definition job_fields (j : Job) : list string * (Z * Z) :=
  ([jb_ID j; jb_Type j; jb_Status j; jb_CreatedBy j; jb_Payload j; jb_Result j; jb_Error j],
   (jb_CreatedAt j, jb_UpdatedAt j)).

Definition of_fields (fields : list string * (Z * Z)) : Job :=
  let at_ n := default "" (fields.1 !! n) in
  {| jb_ID := at_ 0%nat; jb_Type := at_ 1%nat; jb_Status := at_ 2%nat; jb_CreatedBy := at_ 3%nat;
     jb_Payload := at_ 4%nat; jb_Result := at_ 5%nat; jb_Error := at_ 6%nat;
     jb_CreatedAt := fields.2.1; jb_UpdatedAt := fields.2.2 |}.

Lemma of_fields_fields j : of_fields (job_fields j) = j.
Proof. by destruct j. Qed.

#[export] Instance job_syntax : JSONSyntax := {| json_valid _ := true |}.
#[export] Instance job_codecs : JobCodecs := {|
  encode_Job j := Ok (bits (encode (job_fields j)));
  decode_Job s := match decode (from_bits s) with
                  | Some fields => Ok (of_fields fields)
                  | None => Err (Errorf "invalid job" [])
                  end;
  encode_SimulationPayload _ := Ok "{}";
  decode_SimulationPayload _ := Ok {| spl_PolicyRepo := ""; spl_PolicyFile := ""; spl_CoreRegistry := "";
                                      spl_EnterpriseRegistry := ""; spl_OutputDir := "" |};
  encode_SimulationResult _ := Ok "{}";
|}.

Lemma job_codecs_faithful : faithful_codecs.
Proof.
  intros j _. exists (bits (encode (job_fields j))), j. split; [done|]. split; [|done].
  cbn [decode_Job job_codecs]. rewrite from_bits_bits, decode_encode, of_fields_fields. done.
Qed.

(** ** The job store beside the disk of the compiler *)

Definition Site : Type := JobMemory * Disk.
Definition put_jobs (jobs : JobMemory) (site : Site) : Site := (jobs, site.2).
Definition on_disk {A} (m : io Disk A) : io Site A := zoom snd (λ d site, (site.1, d)) m.

Definition sign_on_disk (sign : Signer Disk) : Signer Site := λ payload md, on_disk (sign payload md).

#[export] Instance site_store : ArtifactStore Site := {|
  store_Put art := on_disk (store_Put art);
  store_Get ref := on_disk (store_Get ref);
|}.
#[export] Instance site_world : CompilerWorld Site := {|
  write_file path data := on_disk (write_file path data);
  wall_clock := on_disk wall_clock;
  LoadOrCreateDevLocalSigner path keyID :=
    sign ← on_disk (LoadOrCreateDevLocalSigner path keyID); mret (sign_on_disk sign);
|}.

Definition site_options_for (file : string) : Options Site := {|
  op_PolicyRepo := "policies"; op_PolicyFile := file; op_CoreRegistry := "core";
  op_EnterpriseRegistry := "enterprise"; op_OutputDir := "out"; op_SigningMode := "";
  op_SigningKeyPath := ""; op_SigningKeyID := ""; op_CorrelationID := ""; op_BuildCreatedBy := "ci@example";
  op_SignatureTTL := 0; op_Signer := None; op_Now := None |}.

Definition site_options : Options Site := site_options_for "rate-limit.intent.kni".

Lemma site_workplace file : workplace (site_options_for file) fst put_jobs.
Proof.
  split; [done|..].
  - intros f. exists policy_noon, (f.1, f.2). split_and!; [done| |done]. split; done.
  - split; try done. intros path keyID f sign f' H. cbn [LoadOrCreateDevLocalSigner site_world] in H.
    run H. done.
  - split; intros ? [=].
  - intros r data [= <-]. by split.
Qed.

(** ** The job *)

Definition test_job : Job := {|
  jb_ID := "job-20260707T120000-0001"; jb_Type := TypeSimulation; jb_Status := StatusPending;
  jb_CreatedAt := policy_noon; jb_UpdatedAt := policy_noon; jb_CreatedBy := "ci@example";
  jb_Payload := "{}"; jb_Result := ""; jb_Error := "" |}.

Definition waiting : JobMemory := (Memory_Enqueue (jb_ID test_job) (put_job test_job no_jobs)).2.
Definition waiting_system : system := Sys waiting [] [] [].

Lemma test_job_waits : rtc step nothing waiting_system.
Proof.
  eapply rtc_l; [apply (step_create no_jobs [] [] [] test_job (put_job test_job no_jobs))|].
  - done.
  - by repeat split; try left.
  - done.
  - done.
  - eapply rtc_l; [|apply rtc_refl]. apply (step_enqueue _ [] []). reflexivity.
Qed.

Lemma jobs_history_witness :
  faithful_codecs ∧ rtc step nothing waiting_system ∧ NoDup (sys_ran waiting_system) ∧
  ∀ y id j, rtc step waiting_system y → jm_Jobs waiting !! id = Some j → terminal (jb_Status j) →
    jm_Jobs (sys_store y) !! id = Some j.
Proof.
  split; [exact job_codecs_faithful|]. split; [exact test_job_waits|].
  destruct (jobs_history job_codecs_faithful waiting_system test_job_waits) as (H1 & _ & _ & H4).
  split; [exact H1|exact H4].
Defined.

Definition site : Site := (waiting, (∅, ∅)).
Notation site_turns := (turns (Ok tt) site_options fst put_jobs).

(** A file reads as its name does: the first line of this one is an inline [expect]. *)
Definition panic_options : Options Site := site_options_for ("expect { effect = " +:+ quote "allow" +:+ " }").
Notation panic_turns := (turns (Ok tt) panic_options fst put_jobs).

Definition status_of (id : string) (s : JobMemory) : option string := jb_Status <$> jm_Jobs s !! id.

(** The job of the first worker succeeds; the second worker dies on it. *)
Lemma queue_drains_witness :
  workplace site_options fst put_jobs ∧ faithful_codecs ∧ rtc step nothing waiting_system ∧
  (status_of (jb_ID test_job) (site_turns 1 site).1 = Some StatusSucceeded ∧
   finished (jb_ID test_job) (site_turns 1 site).1) ∧
  status_of (jb_ID test_job) (panic_turns 1 site).1 = Some StatusRunning ∧
  panicked (Ok tt) panic_options (jb_ID test_job) (panic_turns 1 site).1.
Proof.
  split; [exact (site_workplace _)|]. split; [exact job_codecs_faithful|]. split; [exact test_job_waits|].
  assert (S1 : status_of (jb_ID test_job) (site_turns 1 site).1 = Some StatusSucceeded)
    by (vm_compute; reflexivity).
  assert (S2 : status_of (jb_ID test_job) (panic_turns 1 site).1 = Some StatusRunning)
    by (vm_compute; reflexivity).
  destruct (queue_drains (Ok tt) site_options fst put_jobs (site_workplace _) job_codecs_faithful
    waiting_system site test_job_waits eq_refl) as (_ & _ & ran & lost & Hp & Hr & Hl & _).
  destruct (queue_drains (Ok tt) panic_options fst put_jobs (site_workplace _) job_codecs_faithful
    waiting_system site test_job_waits eq_refl) as (_ & _ & ran' & lost' & Hp' & Hr' & Hl' & _).
  change (jm_Queue site.1) with [jb_ID test_job] in *. simpl length in *.
  assert (Hin : jb_ID test_job ∈ ran ++ lost) by (rewrite Hp; left).
  assert (Hin' : jb_ID test_job ∈ ran' ++ lost') by (rewrite Hp'; left).
  split; [split; [exact S1|]|split; [exact S2|]].
  - apply elem_of_app in Hin as [Hin|Hin]; [exact (Hr _ Hin)|]. exfalso.
    destruct (Hl _ Hin) as [(j & Hj & Hst) _]. unfold status_of in S1. rewrite Hj in S1. simpl in S1.
    rewrite Hst in S1. discriminate S1.
  - apply elem_of_app in Hin' as [Hin'|Hin']; [exfalso|exact (Hl' _ Hin')].
    destruct (Hr' _ Hin') as (j & Hj & Hst). unfold status_of in S2. rewrite Hj in S2. simpl in S2.
    destruct Hst as [Hst|Hst]; rewrite Hst in S2; discriminate S2.
Defined.
