(* ===== verification/ScenarioCI.v ===== *)
(** * A change of the edge configuration, validated in CI

    The test policy and registry of [ScenarioPolicy], with a target served by klshield, an
    application with one sensitive action, and a snapshot of the configuration: the
    request is resolved, and it passes. *)

From stdpp Require Import options.
From stdpp Require Import gmap.
From S2P Require Import Prelude IO GoStrings GoTime GoJson GoEncoding GoPath GoFloat Schema Signing.
From S2P Require Import Registry Intent IntentProofs ArtifactStore AdapterManifests Compiler.
From S2P Require Import CompilerEmit Bindings CIValidation Authn Authz ForgeTypes ForgeAPI.
From S2P Require Import ScenarioPolicy ScenarioCompiler.
#[local] Open Scope Z_scope.

(** *** The repositories *)

Definition tenants_dir := "policies/tenants".
Definition target_path := "policies/tenants/acme/targets/edge.yaml".
Definition snapshot_path := "snapshot/edge/actions.yaml".

Definition a_file (path : string) : WalkEntry := {| we_Path := path; we_IsDir := false; we_Err := None |}.
Definition a_dir (path : string) : WalkEntry := {| we_Path := path; we_IsDir := true; we_Err := None |}.

(** The card lies in the policy repository; any other file holds its own path. *)
#[export] Instance ci_files : Files := {|
  os_ReadFile path :=
    if path ==s "/work/policies/runtime/rate-limit.intent.kni" then Ok (print_card rate_limit_card) else Ok path;
  os_Stat _ := Ok false;
  os_ReadDir path := if path ==s "/work" then Ok [("kernloom-adapter-klshield", true)] else Ok [];
  os_WalkDir path :=
    if path ==s tenants_dir then
      [a_dir tenants_dir; a_dir "policies/tenants/acme"; a_file "policies/tenants/acme/action-bindings.yaml";
       a_file "policies/tenants/acme/proof-requirements.yaml"; a_file "policies/tenants/acme/resource.yaml";
       a_dir "policies/tenants/acme/targets"; a_file target_path; a_file "policies/tenants/acme/targets/README.md"]
    else if path ==s "snapshot/edge" then [a_dir path; a_file snapshot_path] else [];
  os_Getwd := Some "/work";
|}.

Definition edge_source (repo base : string) : TargetSource := {|
  tsr_Mode := ""; tsr_RepoRef := repo; tsr_Branch := ""; tsr_BasePath := base; tsr_ProposalMode := "";
  tsr_ProtectedPaths := []; tsr_CredentialRef := "" |}.

Definition edge_target : Target := {|
  tgt_ID := "edge"; tgt_Tenant := "acme"; tgt_Environment := "prod"; tgt_Type := ""; tgt_Adapter := "kernloom.adapter.klshield";
  tgt_AdapterVersion := "1.2.0"; tgt_Capabilities := ["enforce.runtime.rate_limit_entity"];
  tgt_ValidationProfiles := ["validation.example"]; tgt_ConfigBackend := edge_source "" "";
  tgt_ValidationSource := edge_source "edge-config" "edge"; tgt_Runtime := {| trt_KLIQRef := "" |}; tgt_Ownership := ∅ |}.

Definition rate_limit_selector : object := [("type", VString "selector.example"); ("port", VInt 443)].

Definition edge_binding : ActionBinding := {|
  abd_ID := "limit-edge"; abd_TargetRef := "targets/edge.yaml"; abd_Capability := "enforce.runtime.rate_limit_entity";
  abd_Selector := rate_limit_selector; abd_Controls := ["mfa"]; abd_Issuance := [];
  abd_ExpectedEvents := ["event.example"];
  abd_Approval := {| apl_Status := ""; apl_ApprovedBy := ""; apl_ApprovedAt := "" |} |}.

Definition limit_action : BusinessAction := {|
  bac_ID := "limit"; bac_CanonicalAction := "kernloom_action.rate_limit"; bac_Type := "action_type.example";
  bac_Sensitivity := "High"; bac_Description := ""; bac_Bindings := [edge_binding];
  bac_Approval := {| apl_Status := "approved"; apl_ApprovedBy := "ciso"; apl_ApprovedAt := "" |} |}.

Definition shop : Application := {| app_ID := "shop"; app_Tenant := "acme"; app_Environment := "prod" |}.

Definition edge_repository : RepositoryBinding := {|
  rpb_ID := "edge-config"; rpb_Type := ""; rpb_Provider := "github"; rpb_Org := "acme"; rpb_Repo := "edge";
  rpb_DefaultBranch := "main"; rpb_OwnerTeam := "platform"; rpb_Visibility := "" |}.
Definition policy_repository : RepositoryBinding := {|
  rpb_ID := "policies"; rpb_Type := ""; rpb_Provider := "github"; rpb_Org := "acme"; rpb_Repo := "policies";
  rpb_DefaultBranch := "main"; rpb_OwnerTeam := "platform"; rpb_Visibility := "" |}.

Definition a_source (id type repo : string) (paths : list string) (meanings : list PolicyMeaning) : PolicySource := {|
  pls_ID := id; pls_Type := type; pls_RepoRef := repo; pls_TenantScope := "*"; pls_EnvironmentScope := "prod";
  pls_ResourceScope := ["shop"]; pls_TargetScope := []; pls_Visibility := "app_team"; pls_Owner := "";
  pls_PolicyPaths := paths; pls_PolicyMeanings := meanings |}.

#[export] Instance ci_decoders : BindingDecoders := {|
  decode_RepositoryBindings _ := Ok ([policy_repository; edge_repository], []);
  decode_PolicySources _ := Ok ([],
    [a_source "runtime" "policy_repo" "policies" ["runtime/rate-limit.intent.kni"]
       [{| plm_PolicyPath := "runtime/rate-limit.intent.kni/"; plm_CanonicalActions := ["kernloom_action.rate_limit"];
           plm_ActionTypes := [] |}];
     a_source "config" "config_repo" "edge-config" [] []]);
  decode_CanonicalActions _ := Ok ([{| cac_ID := " kernloom_action.rate_limit"; cac_Type := "action_type.example";
    cac_Sensitivity := "high"; cac_Owner := ""; cac_Description := ""; cac_RequiredControls := ["mfa"];
    cac_RequiredEvents := ["event.example"] |}], []);
  decode_Target _ := Ok edge_target;
  decode_Resource _ := Ok {| rsc_ID := "shop"; rsc_Tenant := "acme"; rsc_Environment := "prod"; rsc_Type := ""; rsc_Owner := "" |};
  decode_ProofRequirements _ := Ok {| prs_Tenant := "acme"; prs_Environment := "prod"; prs_Resource := "shop";
    prs_Requirements := [] |};
  decode_ActionBindings _ := Ok (shop, [limit_action]);
|}.

#[export] Instance ci_snapshot : SnapshotDecoder := {|
  decode_RuntimeActions _ := Ok ([], [{| kra_Capability := "enforce.runtime.rate_limit_entity";
    kra_Selector := ("comment", VNil) :: rate_limit_selector; kra_Controls := ["logging"; "mfa"];
    kra_ExpectedEvents := ["event.example"] |}]);
|}.

(** The adapter runs what its manifest says. *)
#[export] Instance ci_adapter : AdapterRuntime := {|
  AppendCertsFromPEM _ := true; LoadX509KeyPair _ _ := Ok tt; NewClient _ _ := Ok tt;
  Describe _ _ _ := Ok (Some {| ad_AdapterId := "kernloom.adapter.klshield"; ad_ProtocolVersion := "adapter/v1";
    ad_ManifestDigest := sha256Bytes "/work/kernloom-adapter-klshield/adapter.manifest.yaml";
    ad_Capabilities := [{| cd_Id := "enforce.runtime.rate_limit_entity";
      cd_Actions := ["runtime_action.rate_limit_entity"]; cd_RuntimeActions := ["runtime_action.rate_limit_source"] |}];
    ad_Privileges := [] |});
  ValidateDescriptor _ := Ok tt;
|}.
#[export] Instance ci_temp : TempDir Disk := {| MkdirTemp pattern := mret ("/tmp/" +:+ pattern) |}.

Definition edge_change : CIOptions := {|
  cio_PolicyRepo := "policies"; cio_CoreRegistry := "core"; cio_EnterpriseRegistry := "enterprise";
  cio_Request := {| crp_Tenant := "acme"; crp_Environment := "prod"; crp_Provider := "github";
    crp_Repository := "acme/edge"; crp_Commit := "4f2a91c"; crp_PullRequest := ""; crp_BasePath := "edge/";
    crp_TargetID := ""; crp_ChangedPaths := ["edge/actions.yaml"]; crp_ConfigSnapshot := "snapshot" |};
  cio_OutputDir := ""; cio_AdapterVerify := {| avo_Endpoint := "edge.acme:8443"; avo_Manifest := "";
    avo_DevInsecureTransport := false; avo_CAPath := "ca.pem"; avo_ClientCertPath := "ci.pem";
    avo_ClientKeyPath := "ci.key"; avo_TLSServerName := ""; avo_ServerCertificateSHA256 := ""; avo_Timeout := 0 |} |}.

Definition ci_run := ValidateCI (F:=Disk) (Ok tt) edge_change (∅, ∅).

Lemma ci_run_passes : (λ r, (civ_Status r, fnd_Code <$> civ_Findings r, fnd_Message <$> civ_Findings r)) <$> ci_run.1 = Ok ("passed", [], []).
Proof. vm_compute. reflexivity. Qed.

(** The binding of the request is the one of the shop, its policy the card. *)
Lemma ResolveCIRequest_sound_witness : ∃ s r,
  Bindings.Load "policies" "enterprise" = Ok s ∧ ResolveCIRequest s (ci_request (cio_Request edge_change)) = Ok r ∧
  (∀ t, t ∈ tnf_Targets (sto_Files s) ∧ is_target "acme" "prod" "edge-config" "edge/" "" t = true ↔ t = rtg_Target r) ∧
  ((abd_ID ∘ rbd_Binding) <$> rtg_Bindings r) = ["limit-edge"] ∧
  ∃ p, p ∈ rtg_PolicySources r ∧ pls_Type (rps_Source p) = "policy_repo" ∧
    ∀ f, f ∈ rps_PolicyFiles p → policy_file s (rps_Source p) f.
Proof.
  assert (Hrun : (s ← Bindings.Load "policies" "enterprise"; r ← ResolveCIRequest s (ci_request (cio_Request edge_change));
    Ok ((abd_ID ∘ rbd_Binding) <$> rtg_Bindings r, rpb_ID (rtg_Repository r))) = Ok (["limit-edge"], "edge-config"))
    by (vm_compute; reflexivity).
  destruct (Bindings.Load "policies" "enterprise") as [s|] eqn:Hl; [|discriminate Hrun]. cbn [mbind result_bind] in Hrun.
  destruct (ResolveCIRequest s _) as [r|] eqn:Hr; [|discriminate Hrun].
  exists s, r. split; [reflexivity|]. split; [exact Hr|].
  destruct (ResolveCIRequest_sound s _ r Hr) as (_ & _ & Ht & _ & _ & _ & _ & Hf & _ & _ & p & Hp & Hty).
  assert (Hb : ((abd_ID ∘ rbd_Binding) <$> rtg_Bindings r, rpb_ID (rtg_Repository r)) = (["limit-edge"], "edge-config"))
    by (injection Hrun as H1 H2; rewrite H1, H2; reflexivity).
  injection Hb as Hb Hrepo. rewrite Hrepo in Ht. split; [exact Ht|]. split; [exact Hb|].
  exists p. split; [exact Hp|]. split; [exact Hty|]. intros f Hin. exact (Hf p f Hp Hin).
Defined.

(** The action of the shop is sensitive: that the request passed means it is approved, and
    that the adapter and the snapshot were asked. *)
Lemma ValidateCI_passed_witness : ∃ r d i,
  ci_run = (Ok r, d) ∧ civ_Status r = "passed" ∧ read_inputs (applyDefaults edge_change) = inr i ∧
  inputs_ready (applyDefaults edge_change) i ∧ policies_compile (F:=Disk) (Ok tt) (applyDefaults edge_change) (inp_resolved i).
Proof.
  pose proof ci_run_passes as Hp. destruct ci_run as [[r|] d] eqn:E; [|discriminate Hp].
  assert (Hs : civ_Status r = "passed") by (cbn [fst fmap result_fmap] in Hp; injection Hp as Hs _ _; exact Hs).
  destruct (ValidateCI_passed (Ok tt) edge_change (∅, ∅) r d E Hs) as (i & Hi & _ & Hready & Hcompile).
  exists r, d, i. split; [reflexivity|]. split; [exact Hs|]. split; [exact Hi|]. split; [exact Hready|exact Hcompile].
Defined.

(** *** The same change, through the API *)

#[export] Instance ci_request_decoder : CIDecoder := {|
  decode_ciValidationRequest body :=
    if body ==s "edge" then Ok {|
      cvr_PolicyRepo := ""; cvr_CoreRegistry := " "; cvr_EnterpriseRegistry := ""; cvr_Request := cio_Request edge_change;
      cvr_OutputDir := ""; cvr_AdapterVerify := cio_AdapterVerify edge_change; cvr_Scope := no_scope |}
    else Err (Errorf "invalid character %q" [AStr body]) |}.

Definition ci_author (org : string) : Principal := {|
  p_Subject := "ci"; p_Roles := [RolePolicyAuthor];
  p_Scope := {| sc_Org := org; sc_Environment := "prod"; sc_Stage := ""; sc_PolicyType := ""; sc_Resource := "";
    sc_Adapter := ""; sc_Repo := "" |};
  p_Claims := ∅ |}.

Definition ci_answer (org : string) := validateCI (F:=Disk) (Ok tt) edge_change "edge" (ci_author org) (∅, ∅).

(** An author of the tenant is answered 200, one of another tenant 403. *)
Lemma validateCI_authorized_witness : ∃ resp d req result,
  ci_answer "acme" = (Ok resp, d) ∧ resp_Code resp = 200 ∧
  ValidateCI (F:=Disk) (Ok tt) (ci_options edge_change req) (∅, ∅) = (Ok result, d) ∧ civ_Status result = "passed" ∧
  may (ci_author "acme") ValidationSubmitRoles (ci_scope req) ∧
  (resp_Code <$> (ci_answer "globex").1) = Ok 403.
Proof.
  assert (Hc : (resp_Code <$> (ci_answer "acme").1) = Ok 200) by (vm_compute; reflexivity).
  destruct (ci_answer "acme") as [[resp|] d] eqn:E; [|discriminate Hc]. injection Hc as Hc.
  destruct (validateCI_authorized (Ok tt) edge_change "edge" (ci_author "acme") (∅, ∅) d resp E)
    as [[(st & code & Hr & Hst & _)|(req & result & _ & Hm & Hv & _ & Hiff)] _].
  - exfalso. rewrite Hr in Hc. cbn in Hc. destruct Hst; congruence.
  - exists resp, d, req, result. split; [reflexivity|]. split; [exact Hc|]. split; [exact Hv|].
    split; [apply Hiff; exact Hc|]. split; [exact Hm|vm_compute; reflexivity].
Defined.
