(* ===== verification/ScenarioForge.v ===== *)
(** * A running Forge

    One server with its store in memory, a signing key, an artifact store with an
    approved build and its bundle, development tokens for callers, and a
    registered KLIQ: the theorems about the management plane are applied to
    requests it answers.  The texts of the scenario are names in braces. *)

From stdpp Require Import options.
From stdpp Require Import gmap.
From S2P Require Import Jobs Prelude IO GoStrings GoTime GoDuration GoJson GoEncoding Schema.
From S2P Require Import Signing Domain Artifacts BundleSource Authn Authz Management BuildManifest.
From S2P Require Import ArtifactStore ForgeTypes ForgeAPI ManagementMemory ManagementMemoryProofs.
From S2P Require Import ForgeProofs ForgeHistory ForgeAccess ForgePlan ForgeKLIQ.
#[local] Open Scope Z_scope.

(** 2026-07-04T12:00:00Z and an hour later. *)
Definition forge_noon : time := 63918763200 * second.
Definition forge_one_pm : time := forge_noon + 3600 * second.

(** *** Parameters *)

#[export] Instance forge_runtime : GoRuntime := plain_runtime.
#[export] Instance forge_fold : UnicodeFold :=
  {| equal_fold_runes := String.eqb; equal_fold_runes_refl := String.eqb_refl |}.

(** A toy scheme: the public key is the first half of the private one, and a
    signature is the public key and the message. *)
Definition half (key : string) : string := take_string 32 key.
#[export] Instance forge_ed25519 : Ed25519 := {|
  ed25519_public := half;
  ed25519_sign priv msg := half priv +:+ msg;
  ed25519_verify pub msg s := String.eqb s (pub +:+ msg);
  ed25519_correct priv msg := String.eqb_refl _;
|}.

Definition forge_key : DevLocalSigner := {|
  dls_KeyID := "forge-1";
  dls_PrivateKey := "0123456789abcdef0123456789abcdef0123456789abcdef0123456789abcdef";
  dls_PublicKey := "0123456789abcdef0123456789abcdef" |}.

(** An envelope signed with the key for an hour. *)
Definition forge_seal (payload : string) : SignedEnvelope :=
  match Sign forge_key forge_noon payload {| md_KeyID := ""; md_SourceCommit := "c0ffee";
          md_PolicyID := "policy-1"; md_ExpiresAt := Some forge_one_pm |} with
  | Ok e => e
  | Err _ => {| env_Kind := ""; env_KeyID := ""; env_Algorithm := ""; env_PayloadType := "";
                env_Payload := ""; env_PayloadSHA256 := ""; env_Signature := ""; env_SignedAt := 0;
                env_ExpiresAt := None; env_SourceCommit := ""; env_PolicyID := "" |}
  end.
Definition sealed_build : SignedEnvelope := Eval vm_compute in forge_seal "{build}".
Definition sealed_pending : SignedEnvelope := Eval vm_compute in forge_seal "{pending}".
Definition sealed_bundle : SignedEnvelope := Eval vm_compute in forge_seal "{bundle}".

(** The bundle's envelope as one line, and as the compiler writes it. *)
Definition compact_text : string := "{bundle-envelope}".
Definition indented_text : string := "{" +:+ chr 10 +:+ "  bundle-envelope" +:+ chr 10 +:+ "}" +:+ chr 10.

Definition text_ref (uri text : string) : ArtifactRef :=
  {| ref_URI := uri; ref_SHA256 := SHA256JSON text |}.
Definition build_ref : ArtifactRef := Eval vm_compute in text_ref "build" "{build-envelope}".
Definition pending_ref : ArtifactRef := Eval vm_compute in text_ref "pending" "{pending-envelope}".
Definition compact_ref : ArtifactRef := Eval vm_compute in text_ref "compact" compact_text.
Definition indented_ref : ArtifactRef := Eval vm_compute in text_ref "indented" indented_text.

(** *** Builds *)

Definition output_of (ref : ArtifactRef) : SignedOutputRef := {|
  so_Path := "signed/bundle.json"; so_ArtifactRef := ref; so_EnvelopeSHA256 := ref_SHA256 ref;
  so_PayloadSHA256 := "sha256:p"; so_KeyID := "forge-1" |}.

Definition forge_build (approval : ManifestApproval) : PolicyBuildManifest := {|
  pbm_Kind := "PolicyBuildManifest";
  pbm_Metadata := {| mm_ID := "build.policy-1"; mm_CorrelationID := ""; mm_CreatedBy := "alice" |};
  pbm_Spec := {|
    sp_KNIVersion := "kni/v1"; sp_ProtocolVersion := "1";
    sp_PolicyRepo := {| pr_Repo := "policies"; pr_Commit := "c0ffee"; pr_PolicyFile := "p.kni";
                        pr_PolicyFileHash := "sha256:f"; pr_ContentDigest := "sha256:r" |};
    sp_EnterpriseRegistry := {| rg_Repo := "e"; rg_Commit := "e1"; rg_Version := "1";
                                rg_ContentDigest := "sha256:e" |};
    sp_CoreRegistry := {| rg_Repo := "c"; rg_Commit := "c1"; rg_Version := "1";
                          rg_ContentDigest := "sha256:c" |};
    sp_Compiler := {| cp_Name := "forge"; cp_Version := "1"; cp_SourceCommit := "f00";
                      cp_BinaryDigest := ""; cp_Digest := "" |};
    sp_Profile := {| dr_ID := "profile"; dr_Digest := "sha256:o" |};
    sp_RiskRecipe := {| dr_ID := "recipe"; dr_Digest := "sha256:k" |};
    sp_CatalogDigest := "sha256:g";
    sp_Adapters := ∅; sp_Bindings := ∅; sp_RuntimeActions := ∅;
    sp_FederatedSourceDigests := list_to_map
      [("policy_repo", "sha256:r"); ("core_registry", "sha256:c");
       ("enterprise_registry", "sha256:e"); ("catalog", "sha256:g");
       ("profile", "sha256:o"); ("risk_recipe", "sha256:k")];
    sp_Outputs := ∅;
    sp_ArtifactRefs := {[ "management_profile" := indented_ref ]};
    sp_SignedOutputs := {[ "runtime_bundle" := output_of compact_ref ]} |};
  pbm_Approval := approval |}.

Definition approval_by (status who : string) : ManifestApproval := {|
  apv_Status := status; apv_ApprovedBy := who; apv_ApprovedAt := forge_noon;
  apv_AuthorityID := who; apv_AuthorityKind := "forge-api-approval"; apv_Environment := "prod";
  apv_Stage := "enforce"; apv_Scope := "edge" |}.
Definition approved_build : PolicyBuildManifest := forge_build (approval_by "approved" "bob").
Definition pending_build : PolicyBuildManifest := forge_build (approval_by "pending_review" "").

(** *** The KLIQ *)

Definition enroll_request : enrollmentRequest := {|
  er_EnrollmentToken := "kliq_enroll_c2VjcmV0"; er_NodeID := "node-1"; er_Environment := "prod";
  er_Stage := "enforce"; er_Scope := "edge"; er_Version := "1.0"; er_Adapters := [];
  er_Capabilities := []; er_Attestation := ""; er_TrustKeyID := "forge-1";
  er_PublicKeyPEM := "PEM"; er_CSRPEM := ""; er_SPIFFEID := "" |}.
Definition forge_registration : KLIQRegistration :=
  Eval vm_compute in enrolled_registration enroll_request forge_noon.
Definition forge_kliq_id : string := Eval vm_compute in reg_KLIQID forge_registration.

(** *** What is asked for *)

Definition requested (type : string) (ref : ArtifactRef) : KLIQAssignedArtifact := {|
  aa_ArtifactType := type; aa_ArtifactID := type; aa_ArtifactRef := ref_URI ref;
  aa_SHA256 := ref_SHA256 ref; aa_Envelope := "" |}.
Definition plan_request (artifact : KLIQAssignedArtifact) : assignmentPlanRequest := {|
  apr_KLIQID := forge_kliq_id; apr_SourceCommit := "c0ffee"; apr_TrustBundleRef := "";
  apr_ApprovedBuildRef := build_ref; apr_ExpiresAt := forge_one_pm;
  apr_ApprovedRollback := false; apr_Artifacts := [artifact] |}.
Definition plan_compact : assignmentPlanRequest := plan_request (requested "runtime_bundle" compact_ref).
Definition plan_indented : assignmentPlanRequest :=
  plan_request (requested "management_profile" indented_ref).

Definition resolved_artifact (type text : string) (ref : ArtifactRef) : KLIQAssignedArtifact := {|
  aa_ArtifactType := type; aa_ArtifactID := type; aa_ArtifactRef := ref_URI ref;
  aa_SHA256 := ref_SHA256 ref; aa_Envelope := text |}.
Definition resolved_compact := [resolved_artifact "runtime_bundle" compact_text compact_ref].
Definition resolved_indented := [resolved_artifact "management_profile" indented_text indented_ref].

#[export] Instance forge_syntax : JSONSyntax := {| json_valid _ := true |}.

(** The assignment that is planned for such artifacts, as it is signed. *)
Definition planned (req : assignmentPlanRequest) (resolved : list KLIQAssignedArtifact)
    : KLIQAssignment :=
  planned_assignment forge_registration req 1 forge_noon resolved
    (assignmentProvenanceFromBuild approved_build build_ref).
Definition signed_of (a : KLIQAssignment) : KLIQAssignment :=
  let a := with_artifacts (with_digest <$> asg_Artifacts a) a in
  match encode_AssignmentManifest (AssignmentManifestFor a) with
  | Ok manifest => with_manifest (SHA256JSON manifest) a
  | Err _ => a
  end.
Definition payload_of (a : KLIQAssignment) : string :=
  match encode_KLIQAssignment a with Ok text => text | Err _ => "" end.
Definition signed_compact : KLIQAssignment :=
  Eval vm_compute in signed_of (planned plan_compact resolved_compact).
Definition signed_indented : KLIQAssignment :=
  Eval vm_compute in signed_of (planned plan_indented resolved_indented).
Definition payload_compact : string := Eval vm_compute in payload_of signed_compact.
Definition payload_indented : string := Eval vm_compute in payload_of signed_indented.

(** *** Decoders *)

Definition no_json {A} : result A := Err (Sentinel "unexpected end of JSON input").
Definition table {A} (l : list (string * A)) (t : string) : result A :=
  match find (λ kv, String.eqb kv.1 t) l with Some kv => Ok kv.2 | None => no_json end.

#[export] Instance forge_decoders : JSONDecoders := {|
  decode_stream_SignedEnvelope _ := no_json;
  decode_stream_KLIQAssignment := table
    [(payload_compact, received signed_compact); (payload_indented, received signed_indented)];
  decode_SignedEnvelope := table
    [("{build-envelope}", sealed_build); ("{pending-envelope}", sealed_pending);
     (compact_text, sealed_bundle); (indented_text, sealed_bundle)];
  decode_TrustBundle _ := no_json;
  decode_RuntimeBundle _ := no_json;
  decode_ContextRoutePack _ := no_json;
  decode_ConformanceExpectation _ := no_json;
  decode_AdapterAssignment _ := no_json;
  decode_AdapterManifestHeader _ := no_json;
  decode_ManagementProfile _ := no_json;
  decode_FallbackProfile _ := no_json;
  decode_PayloadHeader := table [("{bundle}", {| ph_Kind := "RuntimeBundle"; ph_ArtifactType := "" |})] |}.

#[export] Instance forge_keys : KeyDecoders := {|
  pem_public_key t := if t ==s "PEM" then Some (Ok (Some (dls_PublicKey forge_key))) else None; base64_std _ := None; base64_raw_std _ := None |}.

(** The claims of the KLIQ's identity at noon, for an hour. *)
Definition kliq_claims : KLIQServiceClaims :=
  let i := reg_Identity forge_registration in
  service_claims (id_KLIQID i) (id_Environment i) (id_Stage i) (id_Scope i) (identity_provider i)
    (id_SPIFFEID i) (IdentityMaterialSHA256 i) (3600 * second) forge_noon.
Definition claims_text : string := Eval vm_compute in encode_KLIQServiceClaims kliq_claims.
#[export] Instance forge_tokens : TokenCodecs := {|
  decode_KLIQServiceClaims := table [(claims_text, kliq_claims)]; pem_private_key _ := None |}.
#[export] Instance forge_identity : IdentityMaterial := {|
  pem_block := Some; is_pkix_key _ := true; is_pkcs1_key _ := false; check_csr _ := Ok tt |}.

Definition approve_request : buildApprovalRequest := {|
  bar_BuildRef := pending_ref; bar_Environment := "prod"; bar_Stage := "enforce";
  bar_Scope := "edge"; bar_AuthorityID := ""; bar_AuthorityKind := ""; bar_ExpiresAt := None |}.
Definition token_request : enrollmentTokenRequest := {|
  etr_Environment := "prod"; etr_Stage := "enforce"; etr_Scope := "edge"; etr_ExpiresAt := None |}.

#[export] Instance forge_requests : ManagementDecoders := {|
  decode_enrollmentTokenRequest := table [("{token}", token_request)];
  decode_enrollmentRequest := table [("{enroll}", enroll_request)];
  decode_buildApprovalRequest := table [("{approve}", approve_request)];
  decode_assignmentPlanRequest := table [("{plan}", plan_compact); ("{plan-indented}", plan_indented)];
  decode_trustBundleRotationRequest _ := no_json;
  decode_SimulationJobRequest _ := no_json;
  decode_reason _ := "";
  decode_KLIQHeartbeat _ := no_json;
  decode_KLIQStatusReport _ := no_json;
  decode_KLIQAuditUpload _ := no_json;
  decode_PolicyBuildManifest := table [("{build}", approved_build); ("{pending}", pending_build)];
  decode_Kind := table [("{build}", "PolicyBuildManifest"); ("{pending}", "PolicyBuildManifest")] |}.

(** No jobs are submitted here. *)
#[export] Instance forge_job_codecs : JobCodecs := {|
  encode_Job _ := no_json; decode_Job _ := no_json; encode_SimulationPayload _ := no_json;
  decode_SimulationPayload _ := no_json; encode_SimulationResult _ := no_json |}.

(** *** The server *)

(** The world is the artifact store; the clock stands at noon. *)
#[export] Instance forge_world : ForgeWorld Objects :=
  {| forge_now w := (forge_noon, w); forge_now_nonzero w := ltac:(discriminate) |}.
Abbreviation Forge := (MemoryStore * Objects)%type.

Definition in_objects {A} (m : io Objects A) : io Forge A :=
  zoom snd (λ o x, (x.1, o)) m.
Definition forge_artifacts : ArtifactStore Forge := {|
  store_Put art := in_objects (Objects_Put art); store_Get ref := in_objects (Objects_Get ref) |}.
Definition forge_signer : Signer Forge := {|
  sg_Sign payload md := lift (Sign forge_key forge_noon payload md);
  sg_Verify := Some (λ e, mret (Verify forge_key forge_noon forge_noon e)) |}.
Definition forge_auth : Authenticator Forge := {|
  au_Verify token := lift (DevToken_Verify token); au_VerifyRequest := None |}.
Definition forge_server : Server Forge := {|
  sv_Authenticator := Some forge_auth; sv_Store := None; sv_Management := Some memory_store;
  sv_ManagementSign := Some forge_signer; sv_Artifacts := Some forge_artifacts;
  sv_KLIQService := None; sv_DevManagement := false |}.
Definition forge_rand : io Forge string := mret "secret".

Definition forge_objects : Objects := list_to_map
  [("build", "{build-envelope}"); ("pending", "{pending-envelope}");
   ("compact", compact_text); ("indented", indented_text)].
Definition forge_start : Forge :=
  (set_registration forge_kliq_id forge_registration (reg_Identity forge_registration)
     NewMemoryStore, forge_objects).

Definition as_caller (token body : string) : Request :=
  {| hr_Authorization := "Bearer " +:+ token; hr_Peer := None; hr_Body := body |}.
Definition bob : Principal := {|
  p_Subject := "bob"; p_Roles := [RoleSecurityOwner]; p_Scope := env_stage "prod" "enforce";
  p_Claims := {[ "provider" := VString "dev-token" ]} |}.

(** *** The server is well configured *)

Lemma in_objects_same {A} (m : io Objects A) : preserves (on_memory eq) (in_objects m).
Proof. intros [s o]. reflexivity. Qed.

Lemma forge_well_configured : well_configured forge_rand forge_server.
Proof.
  split; unfold world_only; intros; simplify_eq/=;
    first [done|apply preserves_ret, _|apply preserves_lift, _|apply in_objects_same].
Qed.

Abbreviation forge_now := (Now (W:=Objects)).
Abbreviation serve := (Handler forge_now forge_rand forge_server).

Definition code_of (r : result Response) : Z := match r with Ok r => resp_Code r | Err _ => 0 end.

(** A run that answers a code answers. *)
Lemma answers_Ok (m : io Forge Response) x code :
  code_of (m x).1 = code → code ≠ 0 → ∃ resp x', m x = (Ok resp, x') ∧ resp_Code resp = code.
Proof. destruct (m x) as [[resp|e] x']; simpl; intros <-; [by eauto|done]. Qed.

(** *** Histories *)

Definition forge_day : list (operation (W:=Objects)) := [
  Serve CreateEnrollmentTokenRoute (as_caller "dev:bob:security-owner:org:prod:enforce" "{token}");
  Serve Enroll (as_caller "" "{enroll}");
  Serve Enroll (as_caller "" "{enroll}") ].
Definition secret_hash : string := Eval vm_compute in TokenSHA256 "kliq_enroll_c2VjcmV0".

(** The secret of the day is issued once and enrolls once. *)
Example day_accounts :
  enrollments forge_rand forge_server secret_hash forge_day (NewMemoryStore, forge_objects) = 1%nat ∧
  issuances forge_rand forge_server secret_hash forge_day (NewMemoryStore, forge_objects) = 1%nat.
Proof. vm_compute. split; reflexivity. Qed.

Lemma forge_history_witness :
  tokens_ok (history forge_rand forge_server (forge_day ++ forge_day) (NewMemoryStore, forge_objects)).1.
Proof.
  pose proof (forge_history forge_rand forge_server forge_well_configured forge_day forge_day
                forge_objects secret_hash) as H.
  cbv zeta in H. exact (proj2 (proj2 (proj1 H))).
Defined.

(** *** Permission *)

(** A viewer asks for an enrollment token. *)
Definition viewer_request : Request := as_caller "dev:eve:read-only-viewer:org:prod:enforce" "{token}".

(** The token of the secret, which expires at [expiry], and the store with it. *)
Definition day_token (expiry : time) : KLIQEnrollmentToken := {|
  et_TokenID := "day"; et_TokenSHA256 := secret_hash; et_Environment := "prod"; et_Stage := "enforce";
  et_Scope := ""; et_ExpiresAt := expiry; et_CreatedAt := 1; et_UsedAt := 0; et_RevokedAt := 0;
  et_RevokedReason := "" |}.
Definition token_store (expiry : time) : Forge := (set_token (day_token expiry) NewMemoryStore, forge_objects).

(** Expiring at one, it enrolls at noon; expiring at noon, it does not. *)
Example token_enrolls :
  token_live secret_hash (serve Enroll (as_caller "" "{enroll}") (token_store forge_one_pm)).2.1 = false.
Proof. vm_compute. reflexivity. Qed.

Lemma Handler_unpermitted_unchanged_witness :
  (serve CreateEnrollmentTokenRoute viewer_request forge_start).2.1 = forge_start.1 ∧
  (serve Enroll (as_caller "" "{enroll}") (token_store forge_noon)).2.1 = (token_store forge_noon).1.
Proof.
  split.
  - apply (Handler_unpermitted_unchanged forge_rand forge_server forge_well_configured).
    + intros H. discriminate H.
    + intros _ p Hp Hm. destruct Hm as (req & _ & (_ & Hroles & _)).
      vm_compute in Hp. injection Hp as <-. destruct Hroles as [Hn|(role & Hr & Hv)]; [discriminate Hn|].
      revert Hr. apply list_elem_of_singleton in Hv. subst role. set_unfold. naive_solver.
  - apply (Handler_unpermitted_unchanged forge_rand forge_server forge_well_configured).
    + intros _ (req & token & Hreq & Ht & _ & _ & [He|He] & _); vm_compute in Hreq; injection Hreq as <-;
        vm_compute in Ht; injection Ht as <-; vm_compute in He; discriminate He.
    + intros H. destruct (H eq_refl).
Defined.

(** *** Approval and planning *)

Lemma approve_answers :
  ∃ resp x', approvePolicyBuildManifest forge_now forge_server no_context "{approve}" bob forge_start
             = (Ok resp, x') ∧ resp_Code resp = 201.
Proof. apply answers_Ok; [|discriminate]. vm_compute. reflexivity. Qed.

Lemma approvePolicyBuildManifest_sound_witness :
  ∃ build, reviewable build ∧
    samePrincipal (mm_CreatedBy (pbm_Metadata build)) (p_Subject bob) = false.
Proof.
  destruct approve_answers as (resp & x' & Hrun & Hcode).
  destruct (approvePolicyBuildManifest_sound forge_rand forge_server forge_well_configured
              _ _ _ _ _ _ Hrun Hcode)
    as (? & ? & ? & build & ? & ? & ? & ? & ? & ? & _ & _ & _ & _ & (_ & Hrev & Hself) & _).
  exists build. exact (conj Hrev Hself).
Defined.

Lemma plan_answers :
  ∃ resp x', planKLIQAssignment forge_now forge_server no_context "{plan}" bob forge_start
             = (Ok resp, x') ∧ resp_Code resp = 201.
Proof. apply answers_Ok; [|discriminate]. vm_compute. reflexivity. Qed.

Lemma planKLIQAssignment_sound_witness :
  ∃ registration build, may bob KLIQManageRoles (kliqRegistrationScope registration) ∧
    approved_for build registration ∧ sources_pinned build.
Proof.
  destruct plan_answers as (resp & x' & Hrun & Hcode).
  destruct (planKLIQAssignment_sound forge_rand forge_server forge_well_configured
              _ _ _ _ _ _ Hrun Hcode)
    as (? & ? & ? & registration & build & ? & ? & ? & ? & _ & _ & _ & (_ & _ & Hmay) &
        (_ & Happ & Hpin & _) & _).
  exists registration, build. exact (conj Hmay (conj Happ Hpin)).
Defined.

(** *** The KLIQ of the registration *)

Definition kliq_source : ManagedAssignmentSource unit := {|
  mas_BaseURL := "https://forge.example/"; mas_BearerToken := "token"; mas_KLIQID := forge_kliq_id;
  mas_Environment := "prod"; mas_Stage := "enforce"; mas_Scope := "edge";
  mas_TrustKeyID := "forge-1";
  mas_TrustBundle := {| tb_KeyID := ""; tb_PublicKey := ""; tb_Purpose := ""; tb_Status := "";
                        tb_ExpiresAt := 0; tb_Issuer := "" |};
  mas_ActiveAssignmentVersion := 0; mas_ActiveAssignmentDigest := "";
  mas_Verifier := None; mas_assignment := zero_KLIQAssignment; mas_assignmentDigest := "" |}.
Definition kliq_verifier : Verifier unit :=
  λ e, mret (Verify (public_half forge_key) forge_noon forge_noon e).
Definition kliq_clock : io unit time := mret forge_noon.

Lemma forge_peers : peers forge_signer forge_key forge_registration kliq_source.
Proof.
  split; try reflexivity. intros payload md st e st' H. apply lift_Ok in H as [H _]. by eexists.
Qed.

Lemma kliq_reads_in_time e : verifies_before forge_one_pm forge_key kliq_verifier e.
Proof. intros v. exists forge_noon, forge_noon, v. split_and!; [done|discriminate|reflexivity..]. Qed.

(** Both verifiers are the same function of an envelope. *)
Lemma bundle_agrees a :
  decode_SignedEnvelope (aa_Envelope a) = Ok sealed_bundle → agrees_on forge_signer kliq_verifier a.
Proof.
  intros Hd envelope He (verify & st & r & st' & [= <-] & Hr & Hvalid).
  rewrite Hd in He. injection He as <-. split; [|vm_compute; reflexivity].
  intros v. eexists _, v. split; [reflexivity|].
  apply mret_Ok in Hr as [-> _]. apply Verify_valid. by apply Verify_valid in Hvalid.
Qed.

Lemma signed_form_of a signed : signed_form a signed → signed = signed_of a.
Proof. intros (manifest & _ & Hm & ->). unfold signed_of. by rewrite Hm. Qed.

Lemma compact_decodes signed text :
  signed_form (planned plan_compact resolved_compact) signed →
  encode_KLIQAssignment signed = Ok text → decode_stream_KLIQAssignment text = Ok (received signed).
Proof.
  intros ->%signed_form_of.
  assert (signed_of (planned plan_compact resolved_compact) = signed_compact) as ->
    by (vm_compute; reflexivity).
  assert (encode_KLIQAssignment signed_compact = Ok payload_compact) as -> by (vm_compute; reflexivity).
  intros [= <-]. vm_compute. reflexivity.
Qed.

Lemma indented_decodes signed text :
  signed_form (planned plan_indented resolved_indented) signed →
  encode_KLIQAssignment signed = Ok text → decode_stream_KLIQAssignment text = Ok (received signed).
Proof.
  intros ->%signed_form_of.
  assert (signed_of (planned plan_indented resolved_indented) = signed_indented) as ->
    by (vm_compute; reflexivity).
  assert (encode_KLIQAssignment signed_indented = Ok payload_indented) as -> by (vm_compute; reflexivity).
  intros [= <-]. vm_compute. reflexivity.
Qed.

Definition forge_signs (a : KLIQAssignment) : io Forge SignedEnvelope :=
  signAndStoreAssignment memory_store forge_signer no_context a.


(** Forge resolves and signs such a plan. *)
Definition signs_plan (req : assignmentPlanRequest) (resolved : list KLIQAssignedArtifact)
    (e : SignedEnvelope) : Prop :=
  ∃ x' y', forge_signs (planned req resolved) forge_start = (Ok e, x') ∧
    resolveAssignmentArtifacts forge_artifacts forge_signer req forge_start = (Ok resolved, y').

Lemma Ok_run {A} (m : io Forge A) x :
  match (m x).1 with Ok _ => true | Err _ => false end = true → ∃ a x', m x = (Ok a, x').
Proof. destruct (m x) as [[a|e] x']; [by eauto|done]. Qed.
Lemma Ok_result {A} (m : io Forge A) x a : (m x).1 = Ok a → ∃ x', m x = (Ok a, x').
Proof. destruct (m x) as [r x']. simpl. intros ->. by eexists. Qed.

Lemma signs_compact : ∃ e, signs_plan plan_compact resolved_compact e.
Proof.
  destruct (Ok_run (forge_signs (planned plan_compact resolved_compact)) forge_start)
    as (e & x' & He); [vm_compute; reflexivity|].
  destruct (Ok_result (resolveAssignmentArtifacts forge_artifacts forge_signer plan_compact) forge_start
    resolved_compact) as [y' Hl]; [vm_compute; reflexivity|]. exists e, x', y'. exact (conj He Hl).
Qed.
Lemma signs_indented : ∃ e, signs_plan plan_indented resolved_indented e.
Proof.
  destruct (Ok_run (forge_signs (planned plan_indented resolved_indented)) forge_start)
    as (e & x' & He); [vm_compute; reflexivity|].
  destruct (Ok_result (resolveAssignmentArtifacts forge_artifacts forge_signer plan_indented) forge_start
    resolved_indented) as [y' Hl]; [vm_compute; reflexivity|]. exists e, x', y'. exact (conj He Hl).
Qed.

Lemma forge_version : NextAssignmentVersion (reg_KLIQID forge_registration) forge_start = (Ok 1, forge_start).
Proof. reflexivity. Qed.
Lemma kliq_version :
  mas_ActiveAssignmentVersion kliq_source ≤
  default 0 (ar_Version <$> m_assignments forge_start.1 !! reg_KLIQID forge_registration).
Proof. apply Z.le_refl. Qed.

Lemma indented_differs :
  compact indented_text ≠ indented_text ∧
  ¬ collide (compact indented_text) indented_text.
Proof. split; [vm_compute; discriminate|]. intros [_ H]. vm_compute in H. discriminate H. Qed.

(** A KLIQ accepts the assignment of the compact bundle; it accepts no assignment
    of the indented one, although Forge signs and stores both. *)
Lemma planned_assignment_verifies_witness :
  (∃ e a v', signs_plan plan_compact resolved_compact e ∧
     verifyAssignment kliq_clock kliq_source kliq_verifier e tt = (Ok a, v')) ∧
  (∃ e, signs_plan plan_indented resolved_indented e ∧
     ∀ a v', verifyAssignment kliq_clock kliq_source kliq_verifier e tt ≠ (Ok a, v')).
Proof.
  split.
  - destruct signs_compact as (e & x' & y' & He & Hl).
    destruct (planned_assignment_verifies forge_rand forge_server forge_well_configured
      no_context forge_registration plan_compact 1 forge_noon resolved_compact
      (assignmentProvenanceFromBuild approved_build build_ref) forge_signer forge_artifacts forge_key
      kliq_source kliq_verifier kliq_clock forge_start forge_start e x' y' tt)
      as [Hacc _].
    + reflexivity.
    + exact Hl.
    + exact forge_version.
    + exact He.
    + exact forge_peers.
    + constructor; [|constructor]. apply bundle_agrees. reflexivity.
    + apply kliq_reads_in_time.
    + exact kliq_version.
    + vm_compute. reflexivity.
    + constructor; [|constructor]. split; [vm_compute; reflexivity|discriminate].
    + intros signed Hs Henc. exact (compact_decodes _ _ Hs Henc).
    + destruct Hacc as (signed & v' & _ & Hv).
      { constructor; [|constructor]. vm_compute. reflexivity. }
      exists e, (with_SignatureValid (received signed)), v'. split; [exists x', y'; exact (conj He Hl)|exact Hv].
  - destruct signs_indented as (e & x' & y' & He & Hl). exists e. split; [exists x', y'; exact (conj He Hl)|].
    intros a v' Hv.
    destruct (planned_assignment_verifies forge_rand forge_server forge_well_configured
      no_context forge_registration plan_indented 1 forge_noon resolved_indented
      (assignmentProvenanceFromBuild approved_build build_ref) forge_signer forge_artifacts forge_key
      kliq_source kliq_verifier kliq_clock forge_start forge_start e x' y' tt)
      as [_ Hrefused].
    + reflexivity.
    + exact Hl.
    + exact forge_version.
    + exact He.
    + exact forge_peers.
    + constructor; [|constructor]. apply bundle_agrees. reflexivity.
    + apply kliq_reads_in_time.
    + exact kliq_version.
    + vm_compute. reflexivity.
    + constructor; [|constructor]. split; [vm_compute; reflexivity|discriminate].
    + intros signed Hs Henc. exact (indented_decodes _ _ Hs Henc).
    + specialize (Hrefused a v' Hv). inversion Hrefused as [|? ? Hor _]. destruct indented_differs as [Hne Hnc].
      destruct Hor as [Hc|Hc]; [exact (Hne Hc)|exact (Hnc Hc)].
Defined.

(** *** Tokens and artifacts *)

Definition kliq_token : string :=
  let payload := Base64.encode claims_text in
  token_of "kliqsig." payload (Base64.encode (ed25519_sign (dls_PrivateKey forge_key) payload)).
Definition registered_identity (id : string) : io unit KLIQIdentity :=
  lift (if id ==s forge_kliq_id then Ok (reg_Identity forge_registration) else Err Management.ErrNotFound).

Lemma table_one {A} key (value a : A) t : table [(key, value)] t = Ok a → a = value.
Proof. unfold table, no_json. cbn [find fst]. destruct (_ ==s _); cbn [snd]; congruence. Qed.

Lemma kliq_token_ok : succeeds (IdentityToken_Verify kliq_clock (Some registered_identity) kliq_token tt) = true.
Proof. vm_compute. reflexivity. Qed.

Lemma IdentityToken_Verify_sound_witness :
  ∃ p, IdentityToken_Verify kliq_clock (Some registered_identity) kliq_token tt = (Ok p, tt) ∧
    PrincipalKLIQID p = forge_kliq_id.
Proof.
  destruct (succeeds_Ok _ kliq_token_ok) as (p & [] & E).
  exists p. split; [exact E|].
  destruct (IdentityToken_Verify_sound _ _ _ _ _ _ E)
    as (? & ? & ? & claims & identity & ? & ? & ? & ? & ? & _ & (text & _ & Hd) & _ & _ & _ & _ & _ & _ & _ & _ & _ & _ & _ & _ & Hp).
  rewrite Hp, (table_one _ _ _ _ Hd). reflexivity.
Defined.

Definition forge_issuer : KLIQServiceTokenIssuer := {| iss_Secret := "s3cret" |}.

Lemma issuer_ok :
  succeeds (IssueForIdentity kliq_clock forge_issuer (reg_Identity forge_registration) hours24 tt) = true.
Proof. vm_compute. reflexivity. Qed.

Lemma issued_token_verifies_witness :
  ∃ token claims,
    (IssueForIdentity kliq_clock forge_issuer (reg_Identity forge_registration) hours24 tt).1 = Ok token ∧
    cl_ExpiresAt claims = Unix (forge_noon + hours24).
Proof.
  destruct (succeeds_Ok _ issuer_ok) as (token & [] & E).
  destruct (issued_token_verifies _ _ _ _ _ _ _ E) as (issuedAt & claims & Hc & Hexp & _).
  exists token, claims. split; [exact (f_equal fst E)|].
  injection Hc as <-. rewrite Hexp. reflexivity.
Defined.

Definition some_artifact (text : string) : Artifact := {|
  a_Metadata := {| art_ID := "a"; art_PolicyID := ""; art_ArtifactType := "note"; art_KNI := "";
                   art_SourcePath := ""; art_SourceCommit := ""; art_CorrelationID := "";
                   art_CreatedAt := 0; art_Digests := [] |};
  a_Payload := text |}.

Lemma put_ok : succeeds (Objects_Put (some_artifact "first") ∅) = true.
Proof. vm_compute. reflexivity. Qed.

Lemma Objects_Put_Get_witness :
  ∃ ref o, (Objects_Put (some_artifact "first") ∅).1 = Ok ref ∧ (Objects_Get ref o).1 = Ok "first".
Proof.
  destruct (succeeds_Ok _ put_ok) as (ref & o1 & E).
  exists ref. eexists. split; [exact (f_equal fst E)|].
  rewrite (Objects_Put_Get _ _ _ _ [some_artifact "second"] E). reflexivity.
Defined.
