(* ===== verification/ScenarioKLIQ.v ===== *)
(** * A running KLIQ

    One KLIQ, one signing key, one assignment with one runtime bundle, with the signature
    scheme, the decoders and the HTTP exchange at concrete values; then a clock for a world
    and the local test executor as the only adapter: a bundle is loaded at noon and actions
    are executed.  The theorems about loading and about the runtime are applied here. *)

From stdpp Require Import options.
From S2P Require Import Prelude IO Table GoStrings GoTime GoDuration GoJson Risk Signing Domain.
From S2P Require Import Artifacts BundleSource StateTypes SqliteLeases SqliteAudit.
From S2P Require Import SqliteAssignments Baseline SqliteBaseline Store Plan ManagerArtifacts.
From S2P Require Import ManagerPlan ManagerLoad ManagerExec ManagerExecProofs ManagerReconcile.
From S2P Require Import ManagerReconcileProofs ManagerHistory.
#[local] Open Scope Z_scope.

(** ** A concrete deployment: the parameters of the model at concrete values *)

(** 2026-07-04T12:00:00Z and an hour later. *)
Definition noon : time := 63918763200 * second.
Definition one_pm : time := noon + 3600 * second.

#[export] Instance scenario_runtime : GoRuntime := plain_runtime.
#[export] Instance scenario_ed25519 : Ed25519 := toy_ed25519.

Definition scenario_key : DevLocalSigner := {|
  dls_KeyID := "forge-1";
  dls_PrivateKey := "";
  dls_PublicKey := "0123456789abcdef0123456789abcdef" |}.

(** An envelope signed with the scenario's key. *)
Definition seal (payload : string) : SignedEnvelope :=
  let e sig := {|
    env_Kind := "SignedEnvelope"; env_KeyID := "forge-1"; env_Algorithm := "Ed25519";
    env_PayloadType := "application/vnd.kernloom.artifact+json"; env_Payload := payload;
    env_PayloadSHA256 := SHA256JSON payload; env_Signature := sig; env_SignedAt := noon;
    env_ExpiresAt := Some one_pm; env_SourceCommit := "c0ffee"; env_PolicyID := "policy-1" |} in
  match signingInput (e "") with
  | Ok input => e (dls_PublicKey scenario_key +:+ input)
  | Err _ => e ""
  end.

Definition scenario_metadata : ArtifactMetadata := {|
  art_ID := "bundle-1"; art_PolicyID := "policy-1"; art_ArtifactType := "runtime_bundle";
  art_KNI := "kni/v1"; art_SourcePath := "policies/p.kni"; art_SourceCommit := "c0ffee";
  art_CorrelationID := ""; art_CreatedAt := noon; art_Digests := [] |}.

Definition scenario_grant : CapabilityGrant := {|
  cg_ID := "grant-1"; cg_BindingID := "binding-1"; cg_BindingDigest := "sha256:b";
  cg_AdapterID := "klshield"; cg_AdapterManifestDigest := "sha256:m";
  cg_CapabilityID := "network.rate_limit"; cg_ActionType := "rate_limit";
  cg_ActionDigest := "sha256:a"; cg_AllowedTargetScopes := ["source_ip"]; cg_MaxTTL := "5m";
  cg_Stage := ""; cg_Environment := ""; cg_Owner := ""; cg_ApprovalRef := "";
  cg_ExpiresAt := ""; cg_RateLimit := None |}.

Definition scenario_bundle : RuntimeBundle := {|
  rb_Kind := "RuntimeBundle";
  rb_Metadata := scenario_metadata;
  rb_Spec := {|
    rbs_PolicyID := "policy-1"; rbs_RuntimeAllowed := true;
    rbs_RuntimeActions := [{| ra_Label := "rate limit"; ra_CanonicalID := "rate_limit" |}];
    rbs_CapabilityGrants := [scenario_grant];
    rbs_RiskRecipe := ""; rbs_RiskBehavior := [];
    rbs_MaxTTL := "10m"; rbs_MaxTTLSource := ""; rbs_MaxScope := "source_ip";
    rbs_MaxScopeSource := "" |};
  rb_Status := {| st_Status := ""; st_Phase := ""; st_Message := "" |} |}.

Definition scenario_artifact : KLIQAssignedArtifact := {|
  aa_ArtifactType := "runtime_bundle"; aa_ArtifactID := "bundle-1"; aa_ArtifactRef := "";
  aa_SHA256 := SHA256JSON "<bundle envelope>"; aa_Envelope := "<bundle envelope>" |}.

Definition scenario_assignment : KLIQAssignment := {|
  asg_AssignmentID := "assignment-1"; asg_AssignmentVersion := 3; asg_KLIQID := "kliq-1";
  asg_Environment := "prod"; asg_Stage := "enforce"; asg_Scope := "edge";
  asg_SourceCommit := "c0ffee"; asg_TrustKeyID := "forge-1"; asg_TrustBundleRef := "forge-1";
  asg_CreatedAt := noon; asg_ExpiresAt := one_pm; asg_ApprovedRollback := false;
  asg_Artifacts := [scenario_artifact]; asg_Status := "active"; asg_RevokedAt := 0;
  asg_RevokedReason := ""; asg_SignatureValid := false; asg_ManifestSigned := false;
  asg_ManifestDigest := ""; asg_ManifestSignatureValid := false; asg_Provenance := None |}.

Definition unreadable {A} : result A := Err (Sentinel "unexpected end of JSON input").

Definition assignment_envelope : SignedEnvelope := Eval vm_compute in seal "<assignment>".
Definition bundle_envelope : SignedEnvelope := Eval vm_compute in seal "<bundle>".

(** The texts of the scenario are names in angle brackets. *)
#[export] Instance scenario_decoders : JSONDecoders := {|
  decode_stream_SignedEnvelope t :=
    if t ==s "<assignment envelope>" then Ok assignment_envelope else unreadable;
  decode_stream_KLIQAssignment t :=
    if t ==s "<assignment>" then Ok scenario_assignment else unreadable;
  decode_SignedEnvelope t :=
    if t ==s "<bundle envelope>" then Ok bundle_envelope else unreadable;
  decode_TrustBundle _ := unreadable;
  decode_RuntimeBundle t := if t ==s "<bundle>" then Ok scenario_bundle else unreadable;
  decode_ContextRoutePack _ := unreadable;
  decode_ConformanceExpectation _ := unreadable;
  decode_AdapterAssignment _ := unreadable;
  decode_AdapterManifestHeader _ := unreadable;
  decode_ManagementProfile _ := unreadable;
  decode_FallbackProfile _ := unreadable;
  decode_PayloadHeader t :=
    if t ==s "<bundle>"
    then Ok {| ph_Kind := "RuntimeBundle"; ph_ArtifactType := "runtime_bundle" |}
    else unreadable |}.

#[export] Instance scenario_keys : KeyDecoders := {|
  pem_public_key _ := None; base64_std _ := None; base64_raw_std _ := None |}.

(** The world does not matter here: the clock stands at noon, Forge answers. *)
Definition at_noon : io unit time := mret noon.
Definition scenario_http (url token : string) : io unit HTTPResponse :=
  mret {| resp_StatusCode := 200; resp_Status := "200 OK";
          resp_Body := "<assignment envelope>" |}.

Definition scenario_source : ManagedAssignmentSource unit := {|
  mas_BaseURL := "https://forge.example/"; mas_BearerToken := "token"; mas_KLIQID := "kliq-1";
  mas_Environment := "prod"; mas_Stage := "enforce"; mas_Scope := "edge";
  mas_TrustKeyID := "forge-1";
  mas_TrustBundle := {| tb_KeyID := ""; tb_PublicKey := ""; tb_Purpose := ""; tb_Status := "";
                        tb_ExpiresAt := 0; tb_Issuer := "" |};
  mas_ActiveAssignmentVersion := 2; mas_ActiveAssignmentDigest := "sha256:old";
  mas_Verifier := Some (dev_verifier at_noon scenario_key);
  mas_assignment := zero_KLIQAssignment; mas_assignmentDigest := "" |}.

Example scenario_loads :
  (Load at_noon scenario_http (scenario_source, tt)).1 =
  Ok ("<bundle envelope>",
      "https://forge.example/v1/kliq/assignments/kliq-1/latest#assignment-1").
Proof. vm_compute. reflexivity. Qed.

Lemma Load_accepts_verified_witness :
  ∃ s' data ref verifier envelope vresult a,
    Load at_noon scenario_http (scenario_source, tt) = (Ok (data, ref), (s', tt)) ∧
    mas_Verifier scenario_source = Some verifier ∧
    (∃ w0 w1, verifier envelope w0 = (Ok vresult, w1)) ∧ vr_Valid vresult = true ∧
    asg_KLIQID a = "kliq-1" ∧ mas_assignment s' = a.
Proof.
  destruct (Load at_noon scenario_http (scenario_source, tt)) as [[[data ref]|e] [s' []]] eqn:E.
  - destruct (Load_accepts_verified _ _ _ _ _ _ _ _ E)
      as (v & env & vr & a & b & wall & Hv & Hr & Hvalid & _ & _ & _ & Hadm & _ & _ & _ & Ha & _).
    exists s', data, ref, v, env, vr, a.
    split; [reflexivity|]. split; [exact Hv|]. split; [exact Hr|]. split; [exact Hvalid|].
    split; [|exact Ha]. apply Hadm.
  - exfalso. pose proof scenario_loads as Hl. rewrite E in Hl. discriminate Hl.
Defined.

Lemma VerifySignedRuntimeBundle_sound_witness :
  ∃ r now, VerifySignedRuntimeBundle "<bundle envelope>"
             (Some (dev_verifier at_noon scenario_key)) tt = (Ok r, tt) ∧
           envelope_authentic scenario_key now (rbv_Envelope r).
Proof.
  destruct (VerifySignedRuntimeBundle "<bundle envelope>"
              (Some (dev_verifier at_noon scenario_key)) tt) as [[r|e] []] eqn:E.
  - destruct (VerifySignedRuntimeBundle_sound _ _ _ _ _ _ E) as (now & _ & _ & H & _).
    exists r, now. split; [reflexivity|exact H].
  - exfalso. vm_compute in E. discriminate E.
Defined.

(** ** The KLIQ that runs it *)


(** The world is the time; the store never fails. *)
#[export] Instance clock_world : KLIQWorld Z := {|
  now_of w := (w, w); wall_of w := w; store_fault w := (None, w);
  store_fault_not_found w e H := False_ind _ ltac:(discriminate H);
|}.

Definition clock : io Z time := λ w, (Ok w, w).

Definition scenario_version : VersionRef := {|
  ver_VersionID := "v1"; ver_View := "flows"; ver_Entity := "edge"; ver_CreatedAt := noon;
  ver_PromotedAt := 0 |}.
Definition scenario_risk : RiskContext := {|
  rc_RiskType := "ddos"; rc_Tier := TierHigh; rc_Score := None;
  rc_Confidence := rc_Confidence zero_RiskContext; rc_Reasons := []; rc_Signals := [];
  rc_Source := "localrisk"; rc_Scope := ScopeLocal; rc_EvaluatedAt := noon;
  rc_ValidUntil := one_pm |}.

#[export] Instance scenario_codecs : StateCodecs := {|
  decode_VersionRef _ := Ok scenario_version;
  decode_PromotionDecision _ := unreadable;
  decode_Stats _ := unreadable;
  decode_RiskContext _ := Ok scenario_risk;
  encode_Window _ := Ok "<window>";
  encode_Stats _ := Ok "<stats>";
  encode_DeviationEvent _ := Ok "<deviation>";
  encode_RiskContext _ := Ok "<risk>";
|}.

Definition scenario_registry : AdapterRuntimeRegistry Z := λ id,
  if id ==s "klshield" then Some LocalTestExecutor else None.

Definition scenario_manager : Manager Z := {|
  m_Store := true;
  m_Verifier := Some (dev_verifier clock scenario_key);
  m_Registry := Some scenario_registry;
|}.

Definition scenario_request : ExecuteRequest := {|
  req_DecisionID := "decision-1"; req_EventType := ""; req_EventID := ""; req_RiskType := "";
  req_AdapterID := "klshield"; req_CapabilityID := "network.rate_limit";
  req_CapabilityGrantID := "grant-1"; req_BindingID := "binding-1"; req_BindingDigest := "";
  req_AdapterManifestDigest := ""; req_ActionDigest := "sha256:a"; req_Mode := "required";
  req_ActionType := "rate_limit"; req_TargetScope := ""; req_TargetKey := "10.0.0.1";
  req_TTL := "5m"; req_Reason := "too many requests"; req_AuditID := "audit-1";
  req_CorrelationID := ""; req_DeriveAuditIDFromDecisionID := false;
|}.

(** The states after each run are computed once. *)
Definition loaded : KLIQ Z := Eval vm_compute in
  (LoadBundle scenario_manager (mret ("<bundle envelope>", "file")) (installed noon)).2.
Definition executed : KLIQ Z := Eval vm_compute in
  (ExecuteAction scenario_manager scenario_request loaded).2.

Lemma loaded_eq :
  loaded = (LoadBundle scenario_manager (mret ("<bundle envelope>", "file")) (installed noon)).2.
Proof. vm_compute. reflexivity. Qed.

Lemma executed_eq : executed = (ExecuteAction scenario_manager scenario_request loaded).2.
Proof. vm_compute. reflexivity. Qed.

Lemma installed_ok w : leases_ok (t_leases (db_actions (k_db (installed (W := Z) w)))).
Proof. by split; constructor. Qed.

Lemma loaded_ok : leases_ok (t_leases (db_actions (k_db loaded))).
Proof.
  rewrite loaded_eq. refine (evolve_leases_ok (installed noon) _ _ (installed_ok noon)).
  exact (LoadBundle_evolve scenario_manager _ (installed noon)).
Qed.

Lemma executed_ok : leases_ok (t_leases (db_actions (k_db executed))).
Proof.
  rewrite executed_eq. refine (evolve_leases_ok loaded _ _ loaded_ok).
  exact (ExecuteAction_evolve scenario_manager scenario_request loaded).
Qed.

(** ** Execution *)

Lemma ExecuteAction_fail_closed_witness :
  ∃ new, k_calls executed = k_calls loaded ++ new ∧
    length new = 1%nat ∧ (length (List.filter is_execute new) ≤ 1)%nat.
Proof.
  destruct (ExecuteAction_fail_closed scenario_manager scenario_request loaded loaded_ok)
    as (new & E & Hn & _).
  rewrite <- executed_eq in E. exists new. split; [exact E|]. split; [|exact Hn].
  change (k_calls loaded ++ new) with new in E. rewrite <- E. reflexivity.
Defined.

Definition scenario_action : PlannedRuntimeAction := {|
  pa_ActionID := "planned_runtime_action.1"; pa_AdapterID := "klshield";
  pa_CapabilityID := "network.rate_limit"; pa_CapabilityGrantID := "grant-1";
  pa_BindingID := "binding-1"; pa_BindingDigest := "sha256:b";
  pa_AdapterManifestDigest := "sha256:m"; pa_ActionDigest := "sha256:a";
  pa_CorrelationID := "correlation-1"; pa_Mode := "required"; pa_Required := true;
  pa_ActionType := "rate_limit"; pa_TargetScope := "source_ip"; pa_TargetKey := "10.0.0.1";
  pa_TTL := "5m"; pa_Reason := "too many requests"; pa_AuditID := "audit-1"; pa_Context := [];
  pa_DowngradeReason := "" |}.

Definition scenario_plan : RuntimeActionPlan := {|
  plan_PlanID := "plan-1"; plan_DecisionID := "decision-1"; plan_EventType := "";
  plan_EventID := ""; plan_BundleID := "bundle-1"; plan_PolicyID := "policy-1";
  plan_SourceCommit := "c0ffee"; plan_CorrelationID := "correlation-1";
  plan_Actions := [scenario_action] |}.

(** A minute later, in the middle of the lease. *)
Definition one_minute_later (s : KLIQ Z) : KLIQ Z := set_world (noon + 60 * second) s.

Definition standing (rows : list RuntimeActionLeaseRow) : bool :=
  match rows with
  | [row] =>
      open_status (l_Status row) &&
      bool_decide (lease_dedup row =
        ("klshield", "network.rate_limit", "rate_limit", "source_ip", "10.0.0.1")) &&
      match scanLease row with
      | Ok lease => noon + 60 * second <? l_ExpiresAt lease
      | Err _ => false
      end
  | _ => false
  end.

Lemma open_lease_deduplicates_witness :
  quiet (one_minute_later executed)
    (executePlannedAction scenario_plan scenario_action LocalTestExecutor "<bundle envelope>"
       (one_minute_later executed)).2.
Proof.
  assert (H : ∀ s, leases_ok (t_leases (db_actions (k_db s))) →
    standing (t_leases (db_actions (k_db s))) = true →
    quiet (one_minute_later s) (executePlannedAction scenario_plan scenario_action
      LocalTestExecutor "<bundle envelope>" (one_minute_later s)).2).
  - intros s Hok Hs.
    destruct (t_leases (db_actions (k_db s))) as [|row [|]] eqn:E;
      [discriminate Hs| |discriminate Hs].
    simpl in Hs. apply andb_true_iff in Hs as [[Ho Hk]%andb_true_iff Hx].
    apply bool_decide_eq_true in Hk.
    destruct (scanLease row) as [existing|] eqn:Hscan; [|discriminate Hx]. apply Z.ltb_lt in Hx.
    refine (proj1 (open_lease_deduplicates scenario_plan scenario_action LocalTestExecutor
      "<bundle envelope>" (one_minute_later s) row existing _ _ Ho Hk Hscan Hx));
      simpl; rewrite E; [exact Hok|constructor].
  - refine (H executed executed_ok _). vm_compute. reflexivity.
Defined.

Lemma executePlannedAction_outcome_witness :
  ∃ res s' again s2, executePlannedAction scenario_plan scenario_action LocalTestExecutor
              "<bundle envelope>" loaded = (Ok res, s') ∧ xres_Applied res = true ∧
    (∃ status reconciled,
      xres_Lease res = lease_set status reconciled
        (leaseFromPlannedAction scenario_plan scenario_action noon)) ∧
    executePlannedAction scenario_plan scenario_action LocalTestExecutor
              "<bundle envelope>" executed = (Ok again, s2) ∧
    ∃ row, row ∈ t_leases (db_actions (k_db executed)) ∧ stands scenario_action noon row (xres_Lease again).
Proof.
  assert (H0 : match executePlannedAction scenario_plan scenario_action LocalTestExecutor
    "<bundle envelope>" loaded with (Ok res, _) => xres_Applied res | _ => false end = true)
    by (vm_compute; reflexivity).
  assert (H1 : match executePlannedAction scenario_plan scenario_action LocalTestExecutor
    "<bundle envelope>" executed with
    | (Ok res, _) => (xres_Applied res, l_Status (xres_Lease res)) | _ => (true, "") end
    = (false, "active"%string))
    by (vm_compute; reflexivity).
  destruct (executePlannedAction scenario_plan scenario_action LocalTestExecutor
    "<bundle envelope>" loaded) as [[res|e] s'] eqn:H; [|discriminate H0].
  destruct (executePlannedAction scenario_plan scenario_action LocalTestExecutor
    "<bundle envelope>" executed) as [[again|e] s2] eqn:H2; [|discriminate H1].
  exists res, s', again, s2. split; [reflexivity|]. split; [exact H0|]. split; [|split; [reflexivity|]].
  - destruct (executePlannedAction_outcome _ _ _ _ _ _ _ loaded_ok H)
      as [(row & _ & _ & Ha & _)|(_ & st & rc & _ & Hl & _)].
    + rewrite H0 in Ha. discriminate Ha.
    + exists st, rc. exact Hl.
  - destruct (executePlannedAction_outcome _ _ _ _ _ _ _ executed_ok H2)
      as [(row & Hin & Hs & _)|(_ & st & rc & _ & Hl & [(_ & Ha & _)|(Hst & _)] & _)].
    + exists row. split; [exact Hin|exact Hs].
    + rewrite Ha in H1. discriminate H1.
    + rewrite Hl, Hst in H1. discriminate H1.
Defined.

(** ** Reconciliation *)

Definition reconciled_counts (r : result ReconcileResult) : option (Z * Z * Z) :=
  match r with
  | Ok res => Some (rec_Expired res, rec_Active res, rec_Unknown res)
  | Err _ => None
  end.

(** Ten minutes later the lease has expired. *)
Definition ten_minutes_later (s : KLIQ Z) : KLIQ Z := set_world (noon + 600 * second) s.

Lemma ReconcileDryRun_accounts_witness :
  ∃ r s', ReconcileDryRun scenario_manager (ten_minutes_later executed) = (r, s') ∧
    reconciled_counts r = Some (1, 0, 0) ∧ unchanged (ten_minutes_later executed) s'.
Proof.
  assert (H0 : reconciled_counts (ReconcileDryRun scenario_manager (ten_minutes_later executed)).1 =
    Some (1, 0, 0)) by (vm_compute; reflexivity).
  destruct (ReconcileDryRun scenario_manager (ten_minutes_later executed)) as [r s'] eqn:H.
  exists r, s'. split; [reflexivity|]. split; [exact H0|].
  exact (proj1 (ReconcileDryRun_accounts _ _ _ _ H)).
Defined.

Lemma Reconcile_accounts_witness :
  ∃ res s', Reconcile scenario_manager (ten_minutes_later executed) = (Ok res, s') ∧ rec_Expired res = 1 ∧
    ∃ now leases, ActiveLeases (db_actions (k_db (ten_minutes_later executed))) = Ok leases ∧
      walked now leases zero_ReconcileResult res.
Proof.
  assert (H0 : reconciled_counts (Reconcile scenario_manager (ten_minutes_later executed)).1 =
    Some (1, 0, 0)) by (vm_compute; reflexivity).
  destruct (Reconcile scenario_manager (ten_minutes_later executed)) as [[res|e] s'] eqn:H; [|discriminate H0].
  exists res, s'. split; [reflexivity|]. split; [injection H0 as H0 _ _; exact H0|].
  exact (Reconcile_accounts _ _ _ _ H).
Defined.

(** ** Loading a managed assignment *)

Definition forge_answers (url token : string) : io Z HTTPResponse :=
  mret {| resp_StatusCode := 200; resp_Status := "200 OK";
          resp_Body := "<assignment envelope>" |}.

Definition managed_source : ManagedAssignmentSource Z := {|
  mas_BaseURL := mas_BaseURL scenario_source; mas_BearerToken := "token"; mas_KLIQID := "kliq-1";
  mas_Environment := "prod"; mas_Stage := "enforce"; mas_Scope := "edge";
  mas_TrustKeyID := "forge-1"; mas_TrustBundle := mas_TrustBundle scenario_source;
  mas_ActiveAssignmentVersion := 0; mas_ActiveAssignmentDigest := "";
  mas_Verifier := None; mas_assignment := zero_KLIQAssignment; mas_assignmentDigest := "" |}.

Definition payload_of (envelope : string) : result string := Ok "<bundle>".

Lemma LoadManagedBundle_activates_witness :
  ∃ record src' s' a new,
    LoadManagedBundle forge_answers payload_of scenario_manager
      (managed_source, installed noon) = (Ok record, (src', s')) ∧
    asg_AssignmentVersion a = 3 ∧
    activated payload_of "kliq-1" a new record (db_assign (k_db (installed noon))) (db_assign (k_db s')).
Proof.
  assert (H0 : match LoadManagedBundle forge_answers payload_of scenario_manager
    (managed_source, installed noon) with
    | (Ok _, (src, s)) => ms_ActiveAssignmentVersion <$> t_management (db_assign (k_db s)) | _ => [] end = [3])
    by (vm_compute; reflexivity).
  destruct (LoadManagedBundle forge_answers payload_of scenario_manager
    (managed_source, installed noon)) as [[record|e] [src' s']] eqn:H; [|discriminate H0].
  pose proof (LoadManagedBundle_activates forge_answers payload_of scenario_manager managed_source
    (installed noon) _ _ _ (NoDup_nil_2) H) as Hact.
  destruct Hact as (? & ? & ? & a & ? & new & _ & _ & _ & (_ & _ & Hv & _) & _ & Hb & _).
  exists record, src', s', a, new. split; [reflexivity|]. split; [|exact Hb].
  destruct Hb as (_ & Hsel & _). destruct (t_management _) as [|row [|]]; [discriminate H0| |discriminate H0].
  unfold select_key in Hsel. simpl in Hsel. destruct (has_key _ _ _); [|discriminate Hsel].
  injection Hsel as ->. simpl in H0. injection H0 as H0. rewrite <- Hv. exact H0.
Defined.

(** ** The store *)

Definition scenario_lease : RuntimeActionLease :=
  leaseFromPlannedAction scenario_plan scenario_action noon.

Definition lease_tables : ActionTables := (UpsertLease scenario_lease no_actions).2.

Lemma lease_tables_ok : leases_ok (t_leases lease_tables).
Proof. apply UpsertLease_evolve. by split; constructor. Qed.

Lemma UpsertLease_LeaseByID_witness :
  LeaseByID (l_RuntimeActionID scenario_lease) lease_tables = Ok scenario_lease.
Proof.
  assert (H0 : match UpsertLease scenario_lease no_actions with (Ok _, _) => true | _ => false end
    = true) by (vm_compute; reflexivity).
  unfold lease_tables. destruct (UpsertLease scenario_lease no_actions) as [[[]|e] db'] eqn:H;
    [|discriminate H0].
  refine (UpsertLease_LeaseByID scenario_lease no_actions db' _ _ _ _ H eq_refl).
  - split; constructor.
  - split; vm_compute; [discriminate|reflexivity].
  - split; vm_compute; [discriminate|reflexivity].
  - split; vm_compute; [discriminate|reflexivity].
Defined.

Lemma LeaseByDedupKey_unique_witness :
  LeaseByDedupKey "klshield" "network.rate_limit" "rate_limit" "source_ip" "10.0.0.2"
    lease_tables = Err ErrNotFound.
Proof.
  pose proof (LeaseByDedupKey_unique "klshield" "network.rate_limit" "rate_limit" "source_ip"
    "10.0.0.2" lease_tables lease_tables_ok) as H.
  assert (H0 : List.find (λ r, bool_decide (dedup_index r = Some ("klshield", "network.rate_limit",
    "rate_limit", "source_ip", "10.0.0.2"))) (t_leases lease_tables) = None)
    by (vm_compute; reflexivity).
  cbv zeta in H. rewrite H0 in H. exact (proj1 H).
Defined.

Definition no_assignments : AssignmentTables := db_assign empty_store.

Definition scenario_state : KLIQManagementState := {|
  ms_KLIQID := "kliq-1"; ms_ActiveAssignmentID := "assignment-1"; ms_ActiveAssignmentVersion := 3;
  ms_ActiveAssignmentSourceCommit := "c0ffee"; ms_ActiveAssignmentDigest := "sha256:d";
  ms_ActiveAssignmentExpiresAt := one_pm; ms_ActiveAssignmentActivatedAt := noon |}.

Definition scenario_record : BundleRecord := {|
  bun_BundleID := "bundle-1"; bun_PolicyID := "policy-1"; bun_SourceCommit := "c0ffee";
  bun_CorrelationID := ""; bun_KeyID := "forge-1"; bun_PayloadSHA256 := "sha256:p";
  bun_BundleSource := "file"; bun_EnvelopeJSON := "<bundle envelope>"; bun_ExpiresAt := one_pm;
  bun_VerifiedAt := noon |}.

Definition scenario_artifact_record (artifactID : string) : AssignmentArtifactRecord := {|
  aar_KLIQID := "kliq-1"; aar_AssignmentID := "assignment-1"; aar_AssignmentVersion := 3;
  aar_ArtifactType := "adapter_manifest"; aar_ArtifactID := artifactID; aar_ArtifactRef := "";
  aar_SHA256 := "sha256:a"; aar_EnvelopeJSON := "<manifest envelope>";
  aar_ActivationStatus := "active"; aar_ActivationMessage := "active"; aar_ActivatedAt := noon |}.

Lemma activation_all_or_nothing_witness :
  ∃ db', SaveManagedBundleActivation payload_of noon scenario_record scenario_state
           [scenario_artifact_record "m1"] no_assignments = (Ok tt, db') ∧
    t_bundle db' = Some (bundle_row scenario_record).
Proof.
  assert (H0 : match SaveManagedBundleActivation payload_of noon scenario_record scenario_state
           [scenario_artifact_record "m1"] no_assignments with (Ok _, _) => true | _ => false end
    = true) by (vm_compute; reflexivity).
  pose proof (activation_all_or_nothing payload_of noon scenario_record scenario_state
    [scenario_artifact_record "m1"] no_assignments (NoDup_nil_2)) as H.
  destruct (SaveManagedBundleActivation _ _ _ _ _ _) as [[[]|e] db']; [|discriminate H0].
  exists db'. split; [reflexivity|]. exact (proj1 H).
Defined.

Lemma activation_one_artifact_per_type_witness :
  ∃ e, SaveManagedBundleActivation payload_of noon scenario_record scenario_state
         [scenario_artifact_record "m1"; scenario_artifact_record "m2"] no_assignments =
       (Err e, no_assignments).
Proof.
  refine (activation_one_artifact_per_type payload_of noon scenario_record scenario_state
    [scenario_artifact_record "m1"; scenario_artifact_record "m2"] no_assignments
    (scenario_artifact_record "m1") (scenario_artifact_record "m2") 0 1 _ _ _ _ _ _);
    try reflexivity; [constructor|discriminate].
Defined.

(** ** Baselines and risk *)

Definition scenario_decision : PromotionDecision := {|
  pd_DecisionID := "d1"; pd_VersionID := "v1"; pd_PreviousVersionID := ""; pd_Action := "";
  pd_ApprovedBy := "alice"; pd_ApprovedAt := noon; pd_Reason := "reviewed" |}.

Definition one_version : BaselineTables := {|
  t_windows := [];
  t_versions := [{| bv_VersionID := "v1"; bv_View := "flows"; bv_Entity := "edge";
                    bv_CreatedAt := formatTime noon; bv_PromotedAt := "";
                    bv_VersionJSON := "<version>" |}];
  t_stats := []; t_deviations := []; t_promotions := [] |}.

Lemma PromoteBaselineVersion_spec_witness :
  ∃ version db', PromoteBaselineVersion scenario_decision one_version = (Ok version, db') ∧
    ver_PromotedAt version = noon ∧ versions_ok (t_versions db').
Proof.
  assert (H0 : match PromoteBaselineVersion scenario_decision one_version with
    (Ok _, _) => true | _ => false end = true) by (vm_compute; reflexivity).
  assert (Hok : versions_ok (t_versions one_version)).
  { split; [apply NoDup_singleton|]. vm_compute. constructor. }
  pose proof (PromoteBaselineVersion_spec scenario_decision one_version Hok) as H.
  destruct (PromoteBaselineVersion scenario_decision one_version) as [[version|e] db'];
    [|discriminate H0].
  exists version, db'. split; [reflexivity|]. destruct H as (H1 & H2 & _). exact (conj H2 H1).
Defined.

Definition one_risk : list RiskCacheRow := [{|
  rr_RiskType := "ddos"; rr_Scope := ScopeLocal; rr_Tier := TierHigh;
  rr_EvaluatedAt := formatTime noon; rr_ValidUntil := formatTime one_pm; rr_Source := "localrisk";
  rr_ContextJSON := "<risk>" |}].

Lemma RiskContext_fresh_or_unknown_witness :
  ∃ ctx, get_RiskContext noon {| rk_RiskType := "ddos"; rk_Scope := ScopeLocal |} noon one_risk =
           Ok ctx ∧ rc_Tier ctx = TierHigh ∧ noon < rc_ValidUntil ctx.
Proof.
  assert (H0 : match get_RiskContext noon {| rk_RiskType := "ddos"; rk_Scope := ScopeLocal |} noon
    one_risk with Ok ctx => rc_Tier ctx ==s TierHigh | Err _ => false end = true)
    by (vm_compute; reflexivity).
  destruct (get_RiskContext noon {| rk_RiskType := "ddos"; rk_Scope := ScopeLocal |} noon one_risk)
    as [ctx|e] eqn:H; [|discriminate H0].
  apply String.eqb_eq in H0. exists ctx. split; [reflexivity|]. split; [exact H0|].
  destruct (RiskContext_fresh_or_unknown noon _ noon one_risk ctx ltac:(discriminate) H)
    as [[Ht _]|[_ [Ht|[_ Hv]]]]; [rewrite H0 in Ht; discriminate Ht..|exact Hv].
Defined.

(** ** Executing a decision again *)

(** The lease that is returned, and the only one stored. *)
Definition claimed_and_stored (r : result ExecuteResult * KLIQ Z)
    : option (RuntimeActionLease * RuntimeActionLease) :=
  match r with
  | (Ok {| er_Results := [x] |}, s) =>
      match AllLeases (db_actions (k_db s)) with
      | Ok [stored] => Some (xres_Lease x, stored)
      | _ => None
      end
  | _ => None
  end.

(** A decision whose lease has expired can be executed again.  The adapter is
    told of a lease of five minutes from now and so is the caller, but the row
    that is stored is the old one: active again, and expired since five minutes,
    so that the next reconciliation ends the action at once. *)
Theorem reexecution_keeps_old_expiry :
  match claimed_and_stored (ExecuteAction scenario_manager scenario_request
          (ten_minutes_later executed)) with
  | Some (claimed, stored) =>
      l_RuntimeActionID stored = l_RuntimeActionID claimed ∧
      l_Status stored = RuntimeActionActive ∧ l_Status claimed = RuntimeActionActive ∧
      l_ExpiresAt claimed = noon + 900 * second ∧ l_ExpiresAt stored = noon + 300 * second
  | None => False
  end.
Proof. vm_compute. repeat split. Qed.
