(* ===== verification/ScenarioDaemon.v ===== *)
(** * A running KLIQ daemon

    The KLIQ of [ScenarioKLIQ] run by its daemon: once standalone, with an adapter and a
    decision to execute, and once in production, managed by a Forge that answers. *)

From stdpp Require Import options.
From stdpp Require Import gmap.
From S2P Require Import Prelude IO Table GoStrings GoTime GoDuration GoJson GoEncoding GoPath.
From S2P Require Import GoFloat Risk Signing Domain Artifacts Authn BundleSource StateTypes.
From S2P Require Import SqliteLeases SqliteAudit SqliteAssignments Baseline SqliteBaseline Registry.
From S2P Require Import BaselineEngine LocalRisk Store Plan Management ManagerArtifacts ManagerPlan.
From S2P Require Import ManagerExec ManagerExecProofs ManagerReconcile ManagerHistory KLIQStatus.
From S2P Require Import KLIQInput Daemon DaemonCycle DaemonLoop DaemonProofs DaemonUploads.
From S2P Require Import ScenarioKLIQ.
#[local] Open Scope Z_scope.

#[export] Instance daemon_tokens : TokenCodecs :=
  {| decode_KLIQServiceClaims _ := unreadable; pem_private_key _ := None |}.
#[export] Instance daemon_codecs : ForgeCodecs := {|
  encode_Heartbeat _ := Ok "<heartbeat>"; encode_StatusReport _ := Ok "<status>";
  encode_AuditUpload u := Ok (up_AuditRecordID u);
  decode_AuditUploadAck t := Ok {| ack_Status := "accepted"; ack_AuditRecordID := t; ack_AckID := "ack-1"; ack_AckedAt := noon |};
  decode_tokenRefresh _ := unreadable |}.
#[export] Instance daemon_urls : URLParser := {| url_scheme _ := Ok "https" |}.
#[export] Instance daemon_fold : UnicodeFold :=
  {| equal_fold_runes := String.eqb; equal_fold_runes_refl := String.eqb_refl |}.
#[export] Instance daemon_signals : SignalDecoder := {| decode_payload _ := unreadable |}.
#[export] Instance daemon_trust : TrustDecoders := {|
  decode_private_key _ := Ok None;
  decode_trustMaterial _ := Ok {| tm_KeyID := "forge-1"; tm_Algorithm := "Ed25519"; tm_PrivateKey := "";
                                  tm_PublicKey := dls_PublicKey scenario_key |} |}.
#[export] Instance daemon_decisions : DecisionDecoders := {|
  decode_raws _ := unreadable;
  decode_probe _ := Ok {| prb_Kind := ""; prb_EventID := ""; prb_EventType := ""; prb_SignalID := "" |};
  decode_localRuntimeEvent _ := unreadable;
  decode_ExecuteRequest _ := Ok scenario_request |}.
#[export] Instance daemon_files : Files := {|
  os_ReadFile path := if path ==s "bundle.json" then Ok "<bundle envelope>" else Ok "<text>";
  os_Stat _ := Ok false; os_ReadDir _ := Ok []; os_WalkDir _ := []; os_Getwd := None |}.

(** An adapter that applies what it is asked to. *)
Definition daemon_client : AdapterServiceClient Z := {|
  asc_Runtime := {| client_Execute _ := mret RuntimeActionActive; client_Revoke _ := mret "cleaned_up";
                    client_GetState _ := mret RuntimeActionActive |};
  asc_ReadSignals _ := mret [] |}.
#[export] Instance daemon_dial : AdapterDial Z :=
  {| load_adapter_tls _ := Ok tt; grpc_NewClient _ _ := Ok daemon_client |}.

Definition accept_post (url token body : string) : io Z HTTPResponse :=
  mret {| resp_StatusCode := 202; resp_Status := "202 Accepted"; resp_Body := body |}.
Definition no_glob (pattern : string) : result (list string) := Ok [].

(** The defaults of the flags. *)
Definition options (mode forgeURL bundleSource decisionSource : string) (production : bool)
    (adapters : list string) : runOptions := {|
  ro_Mode := mode; ro_StatePath := "kliq.db"; ro_TrustBundlePath := "trust.json";
  ro_DevAllowPrivateKey := false; ro_ForgeURL := forgeURL; ro_BundleSource := bundleSource;
  ro_PollInterval := 30 * second; ro_HeartbeatInterval := 30 * second; ro_StatusInterval := 60 * second;
  ro_DecisionInterval := 5 * second; ro_SignalInterval := 30 * second;
  ro_ReconcileInterval := 30 * second; ro_AuditFlushInterval := 60 * second;
  ro_DecisionSource := decisionSource; ro_BaselineRiskRecipe := ""; ro_BaselineMinSamples := 0;
  ro_Once := false; ro_Production := production; ro_Adapters := adapters;
  ro_DevInsecureForgeTransport := false;
  ro_AdapterTransport := {| ato_DevInsecureAdapterTransport := false; ato_CAPath := "ca";
    ato_ClientCertPath := "cert"; ato_ClientKeyPath := "key"; ato_ServerName := "";
    ato_ServerCertificateSHA256 := "" |} |}.

Definition standalone_options : runOptions :=
  options "standalone" "" "file://bundle.json" "decisions.json" false ["klshield=localhost:9000"].
Definition production_options_ex : runOptions := options "managed" "https://forge.example" "" "" true [].

(** The database of a KLIQ that has been enrolled. *)
Definition scenario_credential : KLIQCredential := {|
  cred_KLIQID := "kliq-1"; cred_NodeID := "node-1"; cred_Environment := "prod"; cred_Stage := "enforce";
  cred_Scope := "edge"; cred_TrustKeyID := "forge-1"; cred_AssignmentURL := "https://forge.example";
  cred_PublicKeyPEM := "<public>"; cred_PrivateKeyPEM := "<private>"; cred_ServiceIdentityProvider := "kliq_identity";
  cred_SPIFFEID := ""; cred_CredentialStatus := "active"; cred_ServiceToken := "token";
  cred_ServiceTokenExpiresAt := noon + 24 * 3600 * second; cred_CreatedAt := noon; cred_UpdatedAt := noon |}.
Definition enrolled : KLIQ Z :=
  (store_write (on_assign (SaveKLIQCredential noon scenario_credential)) (installed noon)).2.

Lemma enrolled_ok : leases_ok (t_leases (db_actions (k_db enrolled))).
Proof. split; constructor. Qed.

Abbreviation run_daemon := (loop forge_answers accept_post payload_of no_glob).

(** The events of a minute and a half: what is due, in time. *)
Definition ninety_seconds (start : time) : list (time * time * ticker) :=
  (λ e, (start + e.1 * second, start + e.1 * second, e.2)) <$>
  [(5, TDecision); (30, TPoll); (35, TDecision); (60, TPoll); (65, TDecision); (90, TPoll)].

Definition started_with (o : runOptions) (k : KLIQ Z) : bool := succeeds (start o k).

Definition after_life (o : runOptions) (k : KLIQ Z) (events : list (time * time * ticker)) : list adapter_call :=
  match start o k with
  | (Ok d, k) => k_calls (run_daemon noon events (d, k)).2.2
  | _ => []
  end.

(** ** The life of a standalone daemon *)

Lemma daemon_history_witness :
  ∃ d now, life forge_answers accept_post payload_of no_glob standalone_options (installed noon) noon [] d now ∧
    ∃ c, c ∈ k_calls now ∧ is_execute c = true ∧ ∃ t, audited (ac_lease c) t (k_db now).
Proof.
  assert (H0 : List.existsb is_execute (after_life standalone_options (installed noon) []) = true)
    by (vm_compute; reflexivity).
  unfold after_life in H0. destruct (start standalone_options (installed noon)) as [[d|e] k] eqn:Hs;
    [|discriminate H0].
  set (now := (run_daemon noon [] (d, k)).2.2) in H0. exists d, now.
  assert (Hl : life forge_answers accept_post payload_of no_glob standalone_options (installed noon) noon [] d now).
  { exists k. split; [exact Hs|reflexivity]. }
  split; [exact Hl|].
  destruct (daemon_history forge_answers accept_post payload_of no_glob _ _ _ _ _ _ (installed_ok noon) Hl)
    as ((new & E & Hnew) & _).
  apply List.existsb_exists in H0 as (c & Hc & He). exists c. apply list_elem_of_In in Hc.
  split; [exact Hc|]. split; [exact He|]. rewrite E in Hc. exact (proj2 (Hnew c Hc He)).
Defined.

(** ** A daemon in production *)

Lemma production_never_executes_witness :
  ∃ d now, life forge_answers accept_post payload_of no_glob production_options_ex enrolled noon
             (ninety_seconds noon) d now ∧ ∀ c, c ∈ k_calls now → is_execute c = false.
Proof.
  assert (H0 : succeeds (start production_options_ex enrolled) = true) by (vm_compute; reflexivity).
  apply succeeds_Ok in H0 as (d & k & Hs). set (events := ninety_seconds noon).
  set (now := (run_daemon noon events (d, k)).2.2). exists d, now.
  assert (Hl : life forge_answers accept_post payload_of no_glob production_options_ex enrolled noon events d now).
  { exists k. split; [exact Hs|reflexivity]. }
  split; [exact Hl|].
  destruct (production_never_executes forge_answers accept_post payload_of no_glob _ _ _ _ _ _
    (eq_refl : ro_Production production_options_ex = true) enrolled_ok Hl) as (new & E & Hnew).
  rewrite E. exact Hnew.
Defined.

(** The daemon as it is started, and half a minute of it. *)
Definition idle : runDaemon Z := {|
  d_opts := production_options_ex; d_Verifier := None;
  d_TrustBundle := {| tb_KeyID := ""; tb_PublicKey := ""; tb_Purpose := ""; tb_Status := "";
                      tb_ExpiresAt := 0; tb_Issuer := "" |};
  d_Registry := None; d_credential := scenario_credential; d_decisions := None;
  d_signalReaders := ∅; d_baselineSamples := ∅; d_findings := [] |}.
Definition production_daemon : Daemon Z :=
  match start production_options_ex enrolled with (Ok d, k) => (d, k) | (Err _, k) => (idle, k) end.

Definition half_a_minute : list (time * time * ticker) :=
  [(noon + 30 * second, noon + 30 * second, TPoll)].

Lemma polls_starve_witness :
  started_with production_options_ex enrolled = true ∧ TStatus ∉ half_a_minute.*2.
Proof.
  split; [vm_compute; reflexivity|].
  refine (polls_starve forge_answers accept_post payload_of no_glob 0 TStatus noon half_a_minute production_daemon
    _ _ _).
  - discriminate.
  - vm_compute. reflexivity.
  - vm_compute. repeat split; discriminate.
Defined.

(** ** Decisions and uploads *)

Definition deciding (requests : list ExecuteRequest) : runDaemon Z :=
  set_decisions {| fds_requests := requests; fds_index := 0 |} idle.

(** Without a bundle the request fails, and is gone. *)
Lemma processRuntimeDecisions_terminates_witness :
  ∃ source', d_decisions (processRuntimeDecisions (deciding [scenario_request], installed noon)).2.1 = Some source' ∧
    NextDecision source' = None.
Proof.
  destruct (processRuntimeDecisions_terminates (deciding [scenario_request], installed noon)
    {| fds_requests := [scenario_request]; fds_index := 0 |} eq_refl) as (_ & source' & E & Hr & Hi & Hout).
  exists source'. split; [exact E|]. destruct (processRuntimeDecisions _).1; [exact Hout|].
  apply remaining_0. unfold remaining in *. simpl in Hout. lia.
Defined.

(** The audit record of the action executed at noon, uploaded. *)
Definition uploading : Daemon Z := (idle, executed).

Lemma flushAuditSpool_acknowledged_witness :
  ∃ r, db_audit (k_db executed) !! 0%nat = Some r ∧ forge_acknowledged accept_post (au_ID r).
Proof.
  assert (H0 : match db_audit (k_db executed) !! 0%nat,
                     db_audit (k_db (flushAuditSpool accept_post uploading).2.2) !! 0%nat with
               | Some r, Some r' => (au_Status r ==s AuditPendingUpload) && (au_Status r' !=s AuditPendingUpload)
               | _, _ => false
               end = true) by (vm_compute; reflexivity).
  destruct (flushAuditSpool_acknowledged accept_post uploading) as (_ & H & _).
  change (db_audit (k_db uploading.2)) with (db_audit (k_db executed)) in H.
  destruct (db_audit (k_db executed) !! 0%nat) as [r|] eqn:E; [|discriminate H0].
  destruct (db_audit (k_db (flushAuditSpool accept_post uploading).2.2) !! 0%nat) as [r'|] eqn:E'; [|discriminate H0].
  apply andb_true_iff in H0 as [Hp Hu]. apply String.eqb_eq in Hp. apply negb_true_iff, String.eqb_neq in Hu.
  exists r. split; [reflexivity|]. exact (H 0%nat r r' E E' Hp Hu).
Defined.
